(* ===== verification/_CoqProject ===== *)
-Q . S2P
Prelude.v
Paging.v
PageAllocator.v
PageAllocatorFacts.v
Mem.v
LinkedLists.v
NetworkStackHandler.v
NetworkStackPool.v
NetworkStackFacts.v
NetworkStackData.v
Reassembly.v
SocketManager.v
SocketManagerFacts.v
CpuCore.v
CpuCoreFacts.v
CoapServer.v
CoapMatching.v
CoapServerFacts.v
TaskManager.v
ApiHandlers.v
ApiHandlersFacts.v
ManagementFacts.v
Syscalls.v
SyscallsFacts.v
MemoryManager.v
MemoryManagerFacts.v
LoopbackNetworkInterface.v
LoopbackFacts.v
Devices.v
Screen.v
ScreenFacts.v
Clocks.v
PhysicalNetworkInterface.v
PhysicalFacts.v
Startup.v
StartupFacts.v
NetworkManagementTask.v
NetworkManagementTaskFacts.v
TransmissionFacts.v
