(* ===== verification/Prelude.v ===== *)
(** Verification of the CPU scheduler service: a 32-bit operating system for
    x86 with a round-robin scheduler, a network stack and a CoAP interface
    through which tasks are uploaded, started and removed.

    * How the program fits together

    [operating_system/main/main.cpp] ([Startup]) builds the kernel's heap
    ([MemoryManager]), page tables ([Paging]), the page allocator on top of
    them ([PageAllocator]) and one processor core ([CpuCore]) with its
    interrupt table ([Syscalls]).  Two kernel tasks run under the scheduler:
    the network management task ([NetworkManagementTask]), which moves data
    between the UDP sockets ([SocketManager]) and a network stack per interface
    ([NetworkStackHandler]; the interfaces are [LoopbackNetworkInterface] and
    the network card, [PhysicalNetworkInterface]), and the management task, a
    CoAP server ([CoapServer]) whose handlers ([ApiHandlers]) create, load,
    start and remove user tasks ([TaskManager]).  User tasks reach the sockets
    through system calls ([Syscalls]).

    * Files (paths are relative to [src/])

    - [Prelude]: machine integers ([u8], [u16], [u32]), arrays as lists indexed
      by [Z], counted loops, the error type [result] with its monad, tactics
      and hints.
    - [Paging]: [operating_system/paging/paging.*] and [paging_structures.*];
      page directories and tables as arrays of 32-bit entries.
    - [PageAllocator], [PageAllocatorFacts]: [paging/page_allocator.*].
    - [Mem]: [cpp_lib/mem.cpp], [cpp_lib/string.cpp] on byte memories.
    - [LinkedLists]: [cpp_lib/list.h]; the lists threaded through arrays of
      elements that the stack, the sockets, the scheduler, the task manager and
      the CoAP server share, with the lemmas on [threaded] sequences.
    - [NetworkStackHandler], [NetworkStackPool], [NetworkStackFacts],
      [NetworkStackData], [Reassembly]:
      [network_management_task/network_stack_handler.h]: its operations, the
      form of its lists, the invariant of the data in them, and the round trip
      of fragmented datagrams.
    - [SocketManager], [SocketManagerFacts]:
      [network_management_task/socket_manager.*].
    - [LoopbackNetworkInterface], [LoopbackFacts]:
      [network_management_task/loopback_network_interface.*] and the packet
      handler that [network_management_task.cpp] registers there.
    - [CpuCore], [CpuCoreFacts]: tasks, the scheduler and address spaces of
      [cpu_core/cpu_core.*], with [current_paging_structure.cpp].
    - [Syscalls], [SyscallsFacts]: the system call handlers of [cpu_core.cpp],
      the interrupt table of [interrupt_handler_manager.*] and
      [cpp_lib/syscalls.cpp].
    - [CoapServer], [CoapMatching], [CoapServerFacts]: [cpp_lib/coap_server.*].
    - [TaskManager]: [os_management_task/task_manager.*], definitions and
      theorems.
    - [ApiHandlers], [ApiHandlersFacts]: [os_management_task/api_handlers.*]
      and [os_management_task.cpp].
    - [ManagementFacts]: the management API with the core, the allocator and
      the sockets behind it.
    - [MemoryManager], [MemoryManagerFacts]: [cpp_lib/memory_manager.*].
    - [Devices]: [global_resources/io/ports.cpp], [io/pci.cpp] and
      memory-mapped registers; the monad [IO] of operations with devices and
      its program logic [wp].
    - [PhysicalNetworkInterface], [PhysicalFacts]:
      [global_resources/physical_network_interface.*].
    - [NetworkManagementTask], [NetworkManagementTaskFacts]:
      [network_management_task/network_management_task.cpp].
    - [TransmissionFacts]: two machines and the network between them.
    - [Screen], [ScreenFacts]: [global_resources/screen.*], [serial_log.*].
    - [Clocks]: [cpu_core/timer.*] and [global_resources/rtc_timer.*],
      definitions and theorems.
    - [Startup], [StartupFacts]: [main/main.cpp],
      [global_resources/bios_map.*], [cpu_core/gdt.*], [cpu_core/tss.*] and the
      [bind] functions of the core and its parts.

    * How state and operations correspond to the code

    A class is a Record of its members, a method a Definition that takes the
    record and returns the new one.  What the C++ leaves undefined, or would
    run into, is a [fault]: a null pointer, an index out of range, an
    uninitialised value.  A method that can run into one returns a [result];
    "never faults" in a theorem is that the result is an [Ok].  A pointer to a
    list element is the element's index; user and kernel memory are functions
    from addresses to bytes.  Unsigned arithmetic is written with its
    wrap-around ([u32] and the like) wherever the operands are not bounded by
    the code.  A task switch or an interrupt falls between two operations, not
    inside one; where the code itself re-enters a handler (the software
    interrupt of the loopback interface) the model does the same.

    What a program does to its devices is a trace of accesses, and what a
    device answers a function of that trace ([Device]); an operation with
    devices is a function from traces to traces and results ([IO]).  An endless
    loop after an error message is the fault [Halted].  The network card also
    reads and writes the rings and buffers in memory; its steps are events
    between the operations of the driver.

    The CoAP server calls its handlers through the interface [CoAPHandlers],
    whose promise is [CoAPHandlersOk]; the server's theorems are proved
    against it.  [ApiHandlers] gives the instance; [ManagementFacts] proves the
    promise for every request but an upload whose addresses wrap around, and
    the server's theorem for the requests a handler keeps it for.

    The memory the operations of tasks write to is that of the tasks' regions;
    the task manager, the core and the page allocator are records beside it.  So
    that a store that leaves the region of its task cannot pass unnoticed by
    these records, the one place of the management API that can make one,
    [setData], is a fault then.

    * What the theorems show

    - Memory: the page allocator is a first-fit search that restores the
      state on release ([PageAllocatorFacts]); the heap's free list stays
      sorted and merged, and release is the inverse of allocation, where the
      padding of no free block wraps around, and the result when one does
      ([MemoryManagerFacts]); the software page walk agrees with the
      hardware's, but for the last entry of a table, which it cannot read
      ([Paging]).
    - Isolation: the address space of a user task shows it its own pages only
      ([CpuCoreFacts]); system calls and uploads stay inside the calling
      task's region as long as no block wraps around the address space
      ([SyscallsFacts], [ApiHandlersFacts]), and what happens when one does.
    - Scheduling: every active task gets its turn, in order, and continues
      where it was interrupted ([CpuCoreFacts]).
    - Network: no received frame makes the stack fault or lose the form of its
      lists ([NetworkStackFacts]); a datagram sent in fragments that arrive in
      any order is put together again ([Reassembly]); datagrams are delivered to the owner of
      their port and nowhere else, ports and sockets stay matched
      ([SocketManagerFacts]); the loopback interface is a queue, its checksums
      verify, its re-entered interrupt handler terminates, and what is sent is
      handled with all its answers ([LoopbackFacts]).
    - CoAP: no datagram makes the server read outside it or write outside its
      buffers but for the path array, where a path of more than 100 characters
      that can still match is written past the end; requests are decoded as an independent
      decoder reads them and answered by the first path that matches; path
      matching character by character is pattern matching ([CoapMatching],
      [CoapServerFacts]).
    - Management: tasks are a finite map from numbers to buffers
      ([TaskManager]); creating, asking for and removing a task through the
      API agree with each other, and every upload gets the answer its path,
      format, task and addresses call for ([ApiHandlersFacts]); whatever requests
      arrive in whatever order - with paths that fit and uploads that do not
      wrap around - tasks, descriptors, sockets and page regions stay
      consistent, and there is memory for every task the manager has room for
      ([ManagementFacts]).
    - The network card: its constructor leaves a well-formed object or stops;
      the transmit ring is a queue the card takes from in order, until it is
      full; an answer sent between two steps of a task's transmission destroys
      the task's frame ([PhysicalFacts]).
    - The network management task: no interleaving of card interrupts, clock
      ticks, system calls and steps of the task makes it fault but a datagram
      for a port past the table of ports; every transmission request ends;
      received frames reach the stack whole and in order, with the answers in
      the transmit ring ([NetworkManagementTaskFacts]); a datagram in the send buffer of one
      machine's task arrives in the receive buffer of another machine's task
      ([TransmissionFacts]).
    - Devices: the screen is a terminal of 25 lines ([ScreenFacts]); the clocks
      run at the frequencies asked for, as close as the chips allow
      ([Clocks]).
    - Start-up: [main] reaches its endless loop in exactly the state the
      theorems on management start from ([StartupFacts]).

    * Bounds and fuel

    Loops over a list of elements run on fuel one larger than the list can be
    long ([numPacketBuffers] + 2 in the stack, 101 for the task lists, 11 for
    the registered paths); the invariants bound the lists, so fuel never runs
    out, as the theorems show.  [READ_FUEL] is one more than the receive
    descriptors of the card, [FRAGMENTS_FUEL] the fragments a datagram can
    have, [HEAP_FUEL] more than the one block the heap of [main] consists of;
    the waits for the EEPROM and the serial line are bounded by parameters.
    [RECEIVE_FUEL] is the number of packet headers
    that fit in the receive buffer of the CoAP server.  [LOOPBACK_FUEL] bounds
    the nested calls and turns of the loopback interrupt handler, at most 72
    for five buffers ([drainMeasure_bounds]).  [STRING_FUEL] exceeds the length
    of any string the program prints.  The memory manager's [fuel] is a
    parameter: the theorems ask for more than the number of free blocks and,
    for release, for more than the padding of the alignment.

    * Not modelled

    - The boot sector and the assembly stubs: they load the kernel, switch to
      protected mode, and save and restore registers around the C++ handlers;
      there is no C++ to translate.  Single privileged instructions (loading
      descriptor table registers, enabling interrupts and paging, invalidating
      the TLB) are named where they occur.
    - The run-time support of C++ (static initialisation, callbacks, placement
      new) is part of the language; atomic exchanges succeed, since operations
      do not overlap.
    - The [initialize] functions of the global resources appear in [main] as
      their allocation and constructor.  Messages on the screen, the log of the
      E2E build and the printing of the memory map, which nothing calls, have
      no effect on the other components.
    - Tests, the tasks of the end-to-end tests and the example tasks: they are
      not part of the system. *)
From Stdlib Require Export ZArith Lia.
From stdpp Require Export base option numbers gmap list_numbers list.
Open Scope Z_scope.

Declare Scope cpu_scope.
Delimit Scope cpu_scope with cpu.
Open Scope cpu_scope.

(** ** Machine integers *)

Definition u8 (z : Z) : Z := z mod 2 ^ 8.
Definition u16 (z : Z) : Z := z mod 2 ^ 16.
Definition u32 (z : Z) : Z := z mod 2 ^ 32.

Definition is_u8 (z : Z) : Prop := 0 <= z < 2 ^ 8.
Definition is_u16 (z : Z) : Prop := 0 <= z < 2 ^ 16.
Definition is_u32 (z : Z) : Prop := 0 <= z < 2 ^ 32.

(** ** Faults: what a statement of the C++ code may run into *)

Inductive fault :=
| NullPointer
| OutOfRange
| Uninitialised
| OutOfFuel
| Halted. (* [while(1);] after a message *)

Inductive result (A : Type) :=
| Ok (a : A)
| Fault (f : fault).
Arguments Ok {A} a.
Arguments Fault {A} f.

#[export] Instance fault_eq_dec : EqDecision fault.
Proof. solve_decision. Defined.

#[export] Instance result_eq_dec `{EqDecision A} : EqDecision (result A).
Proof. solve_decision. Defined.

#[export] Instance result_ret : MRet result := @Ok.
#[export] Instance result_bind : MBind result :=
  fun _ _ f r => match r with Ok a => f a | Fault e => Fault e end.
#[export] Instance result_fmap : FMap result :=
  fun _ _ f r => match r with Ok a => Ok (f a) | Fault e => Fault e end.

(** [o ?? f] turns the absence of a value into the fault [f]. *)
Definition orFault {A} (o : option A) (f : fault) : result A :=
  match o with Some a => Ok a | None => Fault f end.
Notation "o ?? f" := (orFault o f) (at level 60) : cpu_scope.

(** ** Arrays: lists indexed by machine integers *)

Definition znth {A} (l : list A) (i : Z) : option A :=
  if 0 <=? i then l !! Z.to_nat i else None.
Definition zset {A} (l : list A) (i : Z) (x : A) : list A :=
  if 0 <=? i then <[Z.to_nat i := x]> l else l.
Definition zlength {A} (l : list A) : Z := Z.of_nat (length l).
Arguments znth : simpl never.
Arguments zset : simpl never.
Arguments zlength : simpl never.
Arguments u8 : simpl never.
Arguments u16 : simpl never.
Arguments u32 : simpl never.

Notation "l .[ i ]" := (znth l i) (at level 1, left associativity, format "l .[ i ]") : cpu_scope.
Notation "l .[ i := x ]" := (zset l i x) (at level 1, left associativity, format "l .[ i  :=  x ]") : cpu_scope.

(** ** Counted loops

    [for_range n i body s] runs [body i], [body (i+1)], ..., [n] times: the
    loop [for(k=i; k<i+n; k++) s = body(k, s)]. *)
Fixpoint for_range {S : Type} (n : nat) (i : Z) (body : Z -> S -> S) (s : S) : S :=
  match n with
  | O => s
  | Datatypes.S n' => for_range n' (i + 1) body (body i s)
  end.

(** The same loop with a body that may fault. *)
Fixpoint for_rangeM {S : Type} (n : nat) (i : Z) (body : Z -> S -> result S) (s : S) : result S :=
  match n with
  | O => Ok s
  | Datatypes.S n' => body i s ≫= for_rangeM n' (i + 1) body
  end.

Create HintDb cpu.
Create Rewrite HintDb cpu.

(** ** Tactics *)

(** Inverts an equation [m ≫= f = Ok x] into its two steps, throughout. *)
Ltac result_inv :=
  repeat match goal with
  | H : mbind ?f ?m = Ok _ |- _ =>
      let E := fresh "E" in
      destruct m eqn:E; [cbn [mbind result_bind] in H | discriminate H]
  | H : orFault ?o _ = Ok _ |- _ =>
      let E := fresh "E" in
      destruct o eqn:E; [cbn [orFault] in H | discriminate H]
  | H : mret _ = Ok _ |- _ => cbn [mret result_ret] in H
  | H : Ok _ = Ok _ |- _ => injection H as H; subst
  | H : Fault _ = Ok _ |- _ => discriminate H
  end.

(** Case analysis on the outermost boolean test of the goal, with the
    corresponding arithmetic fact. *)
Ltac bool_case :=
  match goal with
  | |- context [if (?a =? ?b) then _ else _] => destruct (Z.eqb_spec a b)
  | |- context [if (?a <? ?b) then _ else _] => destruct (Z.ltb_spec a b)
  | |- context [if (?a <=? ?b) then _ else _] => destruct (Z.leb_spec a b)
  end.

(** Linear arithmetic with divisions and remainders. *)
Ltac dlia := Z.to_euclidean_division_equations; lia.

(** Splits boolean connectives in hypotheses into propositions. *)
Ltac bool_hyps :=
  repeat match goal with
  | H : _ && _ = true |- _ => apply andb_true_iff in H as [? ?]
  | H : _ && _ = false |- _ => apply andb_false_iff in H
  | H : _ || _ = false |- _ => apply orb_false_iff in H as [? ?]
  | H : _ || _ = true |- _ => apply orb_true_iff in H
  | H : negb _ = true |- _ => apply negb_true_iff in H
  | H : negb _ = false |- _ => apply negb_false_iff in H
  | H : (_ =? _) = true |- _ => apply Z.eqb_eq in H
  | H : (_ =? _) = false |- _ => apply Z.eqb_neq in H
  | H : (_ <? _) = true |- _ => apply Z.ltb_lt in H
  | H : (_ <? _) = false |- _ => apply Z.ltb_ge in H
  | H : (_ <=? _) = true |- _ => apply Z.leb_le in H
  | H : (_ <=? _) = false |- _ => apply Z.leb_gt in H
  end.

(** ** Lemmas on arrays *)

Section arrays.
Context {A : Type}.
Implicit Types (l : list A) (i j : Z) (x : A).

Lemma zlength_nonneg l : 0 <= zlength l.
Proof. unfold zlength. lia. Qed.

Lemma znth_Some_lt l i x : l.[i] = Some x -> 0 <= i < zlength l.
Proof.
  unfold znth, zlength. destruct (Z.leb_spec 0 i); [|done].
  intros ?%lookup_lt_Some. lia.
Qed.

Lemma znth_lt_Some l i : 0 <= i < zlength l -> exists x, l.[i] = Some x.
Proof.
  unfold znth, zlength. intros Hi. destruct (Z.leb_spec 0 i); [|lia].
  destruct (lookup_lt_is_Some_2 l (Z.to_nat i)) as [x Hx]; [lia|eauto].
Qed.

Lemma znth_None l i : l.[i] = None <-> ~ (0 <= i < zlength l).
Proof.
  split.
  - intros HN Hi. destruct (znth_lt_Some l i Hi) as [x Hx]. congruence.
  - intros HN. destruct (l.[i]) eqn:E; [|done]. by apply znth_Some_lt in E.
Qed.

Lemma zlength_zset l i x : zlength l.[i := x] = zlength l.
Proof. unfold zlength, zset. case_match; [by rewrite length_insert|done]. Qed.

Lemma znth_zset_eq l i x : 0 <= i < zlength l -> l.[i := x].[i] = Some x.
Proof.
  unfold znth, zset, zlength. intros Hi. destruct (Z.leb_spec 0 i); [|lia].
  apply list_lookup_insert_eq. lia.
Qed.

Lemma znth_zset_ne l i j x : i <> j -> l.[i := x].[j] = l.[j].
Proof.
  unfold znth, zset. intros Hij.
  destruct (Z.leb_spec 0 i), (Z.leb_spec 0 j); try done.
  apply list_lookup_insert_ne. lia.
Qed.

Lemma znth_zset l i j x :
  l.[i := x].[j] = if bool_decide (i = j /\ 0 <= i < zlength l) then Some x else l.[j].
Proof.
  case_bool_decide as H.
  - destruct H as [<- H]. by apply znth_zset_eq.
  - destruct (decide (i = j)) as [<-|]; [|by apply znth_zset_ne].
    assert (HN : ~ (0 <= i < zlength l)) by tauto.
    rewrite (proj2 (znth_None l i) HN). apply znth_None. by rewrite zlength_zset.
Qed.

Lemma zset_id l i x : l.[i] = Some x -> l.[i := x] = l.
Proof. unfold znth, zset. case_match; [apply list_insert_id|done]. Qed.

Lemma zset_zset l i x y : l.[i := x].[i := y] = l.[i := y].
Proof. unfold zset. case_match; [apply list_insert_insert_eq|done]. Qed.

Lemma znth_ext (l1 l2 : list A) :
  zlength l1 = zlength l2 ->
  (forall i, 0 <= i < zlength l1 -> l1.[i] = l2.[i]) -> l1 = l2.
Proof.
  unfold zlength. intros Hlen Hnth. apply list_eq. intros k.
  destruct (decide (k < length l1)%nat) as [Hk|Hk].
  - specialize (Hnth (Z.of_nat k) ltac:(lia)). unfold znth in Hnth.
    destruct (Z.leb_spec 0 (Z.of_nat k)); [|lia]. by rewrite Nat2Z.id in Hnth.
  - rewrite !lookup_ge_None_2 by lia. done.
Qed.

Lemma zlength_replicate n x : zlength (replicate n x) = Z.of_nat n.
Proof. unfold zlength. by rewrite length_replicate. Qed.

Lemma znth_replicate n x i : 0 <= i < Z.of_nat n -> (replicate n x).[i] = Some x.
Proof.
  unfold znth. intros Hi. destruct (Z.leb_spec 0 i); [|lia].
  apply lookup_replicate_2. lia.
Qed.

Lemma znth_Forall (P : A -> Prop) l i x : Forall P l -> l.[i] = Some x -> P x.
Proof.
  unfold znth. intros HF. case_match; [|done]. by apply (Forall_lookup_1 P).
Qed.

Lemma Forall_znth (P : A -> Prop) l :
  (forall i x, l.[i] = Some x -> P x) -> Forall P l.
Proof.
  intros HP. apply Forall_lookup. intros k x Hk. apply (HP (Z.of_nat k)).
  unfold znth. destruct (Z.leb_spec 0 (Z.of_nat k)); [|lia]. by rewrite Nat2Z.id.
Qed.

Lemma zlength_app l1 l2 : zlength (l1 ++ l2) = zlength l1 + zlength l2.
Proof. unfold zlength. rewrite length_app. lia. Qed.

Lemma zlength_take l n : 0 <= n <= zlength l -> zlength (take (Z.to_nat n) l) = n.
Proof. unfold zlength. intros. rewrite length_take. lia. Qed.

Lemma zlength_drop l n : 0 <= n <= zlength l -> zlength (drop (Z.to_nat n) l) = zlength l - n.
Proof. unfold zlength. intros. rewrite length_drop. lia. Qed.

Lemma znth_app_l l1 l2 i : i < zlength l1 -> (l1 ++ l2).[i] = l1.[i].
Proof.
  unfold znth, zlength. intros. case_match; [|done]. apply lookup_app_l. lia.
Qed.

Lemma znth_app_r l1 l2 i : zlength l1 <= i -> (l1 ++ l2).[i] = l2.[i - zlength l1].
Proof.
  unfold znth, zlength. intros.
  destruct (Z.leb_spec 0 i), (Z.leb_spec 0 (i - Z.of_nat (length l1))); try lia.
  rewrite lookup_app_r by lia. f_equal. lia.
Qed.

Lemma znth_take l n i : i < n -> (take (Z.to_nat n) l).[i] = l.[i].
Proof. unfold znth. intros. case_match; [|done]. apply lookup_take_lt. lia. Qed.

Lemma znth_drop l n i : 0 <= n -> 0 <= i -> (drop (Z.to_nat n) l).[i] = l.[n + i].
Proof.
  unfold znth. intros. destruct (Z.leb_spec 0 i), (Z.leb_spec 0 (n + i)); try lia.
  rewrite lookup_drop. f_equal. lia.
Qed.

Lemma znth_In l x : In x l <-> exists i, l.[i] = Some x.
Proof.
  rewrite <- list_elem_of_In, list_elem_of_lookup. unfold znth. split.
  - intros [k Hk]. exists (Z.of_nat k).
    destruct (Z.leb_spec 0 (Z.of_nat k)); [by rewrite Nat2Z.id|lia].
  - intros [i Hi]. case_match; [eauto|done].
Qed.

Lemma zset_Forall (P : A -> Prop) l i x : Forall P l -> P x -> Forall P l.[i := x].
Proof. unfold zset. intros. case_match; [by apply Forall_insert|done]. Qed.

Lemma znth_cons_0 x l : (x :: l).[0] = Some x.
Proof. done. Qed.

Lemma znth_cons_pos x l i : 0 < i -> (x :: l).[i] = l.[i - 1].
Proof.
  intros Hi. unfold znth.
  destruct (Z.leb_spec 0 i), (Z.leb_spec 0 (i - 1)); try lia.
  replace (Z.to_nat i) with (S (Z.to_nat (i - 1))) by lia. done.
Qed.

Lemma zlength_cons x l : zlength (x :: l) = zlength l + 1.
Proof. unfold zlength. cbn. lia. Qed.

Lemma zlength_nil : zlength (@nil A) = 0.
Proof. done. Qed.

Lemma znth_nil i : (@nil A).[i] = None.
Proof. unfold znth. by case_match. Qed.
End arrays.

Lemma zlength_snoc {A} (l : list A) x : zlength (l ++ [x]) = zlength l + 1.
Proof. rewrite zlength_app. done. Qed.

Lemma six_elements (l : list Z) : zlength l = 6 -> exists a b c d e f, l = [a; b; c; d; e; f].
Proof.
  unfold zlength. intros H. destruct l as [|a [|b [|c [|d [|e [|f [|g l]]]]]]]; cbn in H; try lia. by exists a, b, c, d, e, f.
Qed.

Lemma znth_reverse {A} (l : list A) k :
  0 <= k < zlength l -> (reverse l).[k] = l.[zlength l - 1 - k].
Proof.
  unfold znth, zlength. intros Hk. destruct (Z.leb_spec 0 k), (Z.leb_spec 0 (Z.of_nat (length l) - 1 - k)); try lia.
  rewrite reverse_lookup by lia. f_equal. lia.
Qed.

Lemma zlength_reverse {A} (l : list A) : zlength (reverse l) = zlength l.
Proof. unfold zlength. by rewrite length_reverse. Qed.

Lemma zlength_map {A B} (f : A -> B) l : zlength (map f l) = zlength l.
Proof. unfold zlength. by rewrite length_map. Qed.

Lemma znth_map {A B} (f : A -> B) l i : (map f l).[i] = f <$> l.[i].
Proof. unfold znth. case_match; [|done]. apply list_lookup_fmap. Qed.

(** A loop that stores [f j] at every index [j] of an interval. *)
Lemma zlength_for_range_fill {A} (f : Z -> A) n i (l : list A) :
  zlength (for_range n i (fun j l => l.[j := f j]) l) = zlength l.
Proof.
  revert i l. induction n as [|n IH]; intros i l; [done|]. cbn [for_range].
  by rewrite IH, zlength_zset.
Qed.

Lemma znth_for_range_fill {A} (f : Z -> A) n i (l : list A) k :
  0 <= i -> i + Z.of_nat n <= zlength l ->
  (for_range n i (fun j l => l.[j := f j]) l).[k] =
    if bool_decide (i <= k < i + Z.of_nat n) then Some (f k) else l.[k].
Proof.
  revert i l. induction n as [|n IH]; intros i l Hi Hn.
  - rewrite bool_decide_false by lia. done.
  - cbn [for_range]. rewrite IH by (rewrite ?zlength_zset; lia).
    destruct (decide (i = k)) as [->|].
    + rewrite bool_decide_false, bool_decide_true by lia. apply znth_zset_eq. lia.
    + rewrite znth_zset_ne by done. by repeat case_bool_decide; try lia.
Qed.

(** Two loops whose bodies agree on the indices run and on an invariant. *)
Lemma for_range_ext {S} (I : S -> Prop) (f g : Z -> S -> S) n i s :
  I s ->
  (forall j s, i <= j < i + Z.of_nat n -> I s -> f j s = g j s /\ I (g j s)) ->
  for_range n i f s = for_range n i g s.
Proof.
  revert i s. induction n as [|n IH]; intros i s Hs Hfg; [done|]. cbn [for_range].
  destruct (Hfg i s ltac:(lia) Hs) as [-> HI]. apply IH; [done|].
  intros j s' Hj. apply Hfg. lia.
Qed.

(** The invariant rule of a counted loop. *)
Lemma for_range_inv {S} (I : Z -> S -> Prop) (f : Z -> S -> S) n i s :
  I i s ->
  (forall j s, i <= j < i + Z.of_nat n -> I j s -> I (j + 1) (f j s)) ->
  I (i + Z.of_nat n) (for_range n i f s).
Proof.
  revert i s. induction n as [|n IH]; intros i s Hs Hf.
  - by rewrite Z.add_0_r.
  - cbn [for_range]. replace (i + Z.of_nat (Datatypes.S n)) with (i + 1 + Z.of_nat n) by lia.
    apply IH; [apply Hf; [lia|done]|]. intros j s' Hj. apply Hf. lia.
Qed.

#[export] Hint Rewrite @zlength_zset @zlength_replicate @zlength_cons @zlength_nil : cpu.
#[export] Hint Resolve zlength_nonneg : cpu.

(** ** Bits of 32-bit words *)

Lemma is_u32_testbit a n : is_u32 a -> 32 <= n -> Z.testbit a n = false.
Proof.
  intros Ha Hn. assert (0 <= a) by (unfold is_u32 in Ha; lia).
  apply (proj1 (Z.bounded_iff_bits_nonneg 32 a ltac:(lia) ltac:(lia))); [|lia].
  unfold is_u32 in Ha. lia.
Qed.

Lemma is_u32_bits a : 0 <= a -> (forall n, 32 <= n -> Z.testbit a n = false) -> is_u32 a.
Proof.
  intros Ha Hn. split; [done|].
  by apply (proj2 (Z.bounded_iff_bits_nonneg 32 a ltac:(lia) ltac:(lia))).
Qed.

Lemma is_u32_land a b : is_u32 a -> is_u32 (Z.land a b).
Proof.
  intros Ha. apply is_u32_bits.
  - apply Z.land_nonneg. left. unfold is_u32 in Ha. lia.
  - intros n Hn. by rewrite Z.land_spec, (is_u32_testbit a).
Qed.

Lemma is_u32_lor a b : is_u32 a -> is_u32 b -> is_u32 (Z.lor a b).
Proof.
  intros Ha Hb. apply is_u32_bits.
  - apply Z.lor_nonneg. unfold is_u32 in *. lia.
  - intros n Hn. by rewrite Z.lor_spec, (is_u32_testbit a), (is_u32_testbit b).
Qed.

Lemma is_u32_shiftr a k : is_u32 a -> 0 <= k -> is_u32 (Z.shiftr a k).
Proof.
  intros Ha Hk. apply is_u32_bits.
  - apply Z.shiftr_nonneg. unfold is_u32 in Ha. lia.
  - intros n Hn. rewrite Z.shiftr_spec by lia. apply is_u32_testbit; [done|lia].
Qed.

Lemma u32_bits_eq a b :
  is_u32 a -> is_u32 b ->
  (forall n, 0 <= n < 32 -> Z.testbit a n = Z.testbit b n) -> a = b.
Proof.
  intros Ha Hb H. apply Z.bits_inj'. intros n Hn.
  destruct (Z.ltb_spec n 32); [by apply H; lia|].
  by rewrite !is_u32_testbit by (done || lia).
Qed.

Lemma is_u32_u32 z : is_u32 (u32 z).
Proof. apply Z.mod_pos_bound. lia. Qed.

Lemma u32_small z : is_u32 z -> u32 z = z.
Proof. apply Z.mod_small. Qed.

Lemma is_u8_u8 z : is_u8 (u8 z).
Proof. apply Z.mod_pos_bound. lia. Qed.

Lemma u8_small z : is_u8 z -> u8 z = z.
Proof. apply Z.mod_small. Qed.

Lemma is_u16_u16 z : is_u16 (u16 z).
Proof. apply Z.mod_pos_bound. lia. Qed.

Lemma u16_small z : is_u16 z -> u16 z = z.
Proof. apply Z.mod_small. Qed.

(** The mask that clears the low bits of a word. *)
Lemma land_mask x k : is_u32 x -> 0 <= k <= 32 -> Z.land x (u32 (Z.lnot (2 ^ k - 1))) = x - x mod 2 ^ k.
Proof.
  intros Hx Hk. unfold u32. replace (2 ^ k - 1) with (Z.ones k) by (rewrite Z.ones_equiv; lia).
  rewrite <- (Z.land_ones _ 32), (Z.land_comm (Z.lnot _)), Z.land_assoc, Z.land_ones by lia.
  change (x mod 2 ^ 32) with (u32 x). rewrite u32_small by done. rewrite <- Z.ldiff_land, Z.ldiff_ones_r by lia.
  rewrite Z.shiftl_mul_pow2, Z.shiftr_div_pow2 by lia. pose proof (Z.div_mod x (2 ^ k)). lia.
Qed.

#[export] Hint Resolve is_u32_land is_u32_lor is_u32_shiftr is_u32_u32 is_u8_u8 is_u16_u16 : cpu.
#[export] Hint Extern 8 (is_u32 _) => (unfold is_u32 in *; lia) : cpu.
#[export] Hint Extern 8 (0 <= _) => lia : cpu.

(** The cases of a bounded number, one equation each. *)
Fixpoint oneBelow (k : nat) (n : Z) : Prop :=
  match k with
  | O => False
  | S k' => n = Z.of_nat k' \/ oneBelow k' n
  end.

Lemma below_cases (k : nat) (n : Z) : 0 <= n < Z.of_nat k -> oneBelow k n.
Proof.
  induction k as [|k IH]; intros Hn; cbn [oneBelow]; [lia|].
  destruct (decide (n = Z.of_nat k)); [by left|]. right. apply IH. lia.
Qed.

(** Splits on the value of a number known to lie below the constant [k]. *)
Ltac split_cases H :=
  lazymatch type of H with
  | False => destruct H
  | _ => destruct H as [->|H]; [|split_cases H]
  end.
Ltac split_below k H := apply (below_cases k) in H; vm_compute in H; split_cases H.

(** Evaluates the bits of constants and the arithmetic of bit positions. *)
Ltac testbit_norm :=
  repeat match goal with
  | |- context [Z.testbit ?c ?k] =>
      let b := eval vm_compute in (Z.testbit c k) in
      lazymatch b with true => idtac | false => idtac end;
      change (Z.testbit c k) with b
  | |- context [Z.testbit ?x (?k + ?m)] =>
      let r := eval vm_compute in (k + m) in change (k + m) with r
  | |- context [Z.testbit ?x (?k - ?m)] =>
      let r := eval vm_compute in (k - m) in change (k - m) with r
  | |- context [Z.testbit ?x (Z.neg ?k)] => rewrite (Z.testbit_neg_r x (Z.neg k)) by lia
  end.

(** Proves an equation between 32-bit words built from [Z.land], [Z.lor],
    shifts and constants, position by position.  The side conditions
    [is_u32] are left to [cpu]. *)
Ltac u32_bitwise :=
  apply u32_bits_eq; [auto 8 with cpu .. |];
  let n := fresh "n" in let H := fresh "Hn" in
  intros n H; split_below 32%nat H;
  repeat first [ rewrite Z.land_spec | rewrite Z.lor_spec
               | rewrite Z.shiftr_spec by lia | rewrite Z.shiftl_spec by lia ];
  testbit_norm;
  rewrite ?andb_true_r, ?andb_false_r, ?orb_false_r, ?orb_true_r, ?orb_false_l; try reflexivity;
  try solve [ apply is_u32_testbit; [auto with cpu | lia]
            | symmetry; apply is_u32_testbit; [auto with cpu | lia] ].
