(* ===== verification/Paging.v ===== *)
(** Page directories and page tables: [operating_system/paging/paging.h],
    [paging.cpp], [paging_structures.h] and [paging_structures.cpp].

    A page directory is its 1024 entries followed by the 1024 entries of the
    helper table that maps the page tables themselves; a page table is its
    1024 entries.  Entries are 32-bit words: bits 12-31 the physical address,
    bit 2 the user flag, bit 1 the write flag, bit 0 the valid flag. *)
From S2P Require Import Prelude.

Record PDE := mkPDE {
  pageTablePhysicalAddr : Z;
  pde_kernelPrivilegeOnly : bool;
  pdeIsValid : bool;
}.

Record PTE := mkPTE {
  pagePhysicalAddr : Z;
  pte_kernelPrivilegeOnly : bool;
  pteIsValid : bool;
}.

Record PageDirectory := mkPageDirectory {
  pageDirectoryEntries : list Z;
  helperTableEntries : list Z;
}.

Abbreviation PageTable := (list Z) (only parsing).

#[export] Instance PDE_eq_dec : EqDecision PDE.
Proof. solve_decision. Defined.
#[export] Instance PTE_eq_dec : EqDecision PTE.
Proof. solve_decision. Defined.
#[export] Instance PageDirectory_eq_dec : EqDecision PageDirectory.
Proof. solve_decision. Defined.

Definition flagBits (kernelPrivilegeOnly isValid : bool) : Z :=
  Z.shiftl (Z.b2z (negb kernelPrivilegeOnly)) 2 + Z.shiftl 1 1 + Z.b2z isValid.

(** The software page walk.  [virtualPage a] is the page the running paging
    structures show at virtual address [a]; [cr0] is the control register. *)
Section translate.
Context (cr0 : Z) (virtualPage : Z -> option PageTable).

(** [PageTable::getPTE]: indices from 1023 on leave the returned structure
    uninitialised, here [None]. *)
Definition getPTE (pt : PageTable) (pteIndex : Z) : option PTE :=
  if 1023 <=? pteIndex then None
  else
    bits ← pt.[pteIndex];
    Some (mkPTE (Z.land bits 0xFFFFF000)
                (negb (negb (Z.land bits 4 =? 0)))
                (negb (Z.land bits 1 =? 0))).

Definition translateVirtualToPhysicalAddress (virtualAddress : Z) : result Z :=
  if Z.land cr0 0x80000000 =? 0 then Ok virtualAddress
  else
    let pageDirectoryIndex := Z.shiftr (Z.land virtualAddress 0xFFC00000) 22 in
    let pageTableIndex := Z.shiftr (Z.land virtualAddress 0x003FF000) 12 in
    let pageOffset := Z.land virtualAddress 0x00000FFF in
    pUsedPageTable ← virtualPage (0xFFC00000 + pageDirectoryIndex * 0x1000) ?? NullPointer;
    pte ← getPTE pUsedPageTable pageTableIndex ?? Uninitialised;
    Ok (u32 (pagePhysicalAddr pte + pageOffset)).
End translate.

(** [PageDirectory::PageDirectory], given the physical address of the
    directory that [translateVirtualToPhysicalAddress] computes for it. *)
Definition newPageDirectory (physicalPageDirectoryAddr : Z) : PageDirectory :=
  let last := Z.lor (u32 (physicalPageDirectoryAddr + 0x1000)) 3 in
  mkPageDirectory (replicate 1023 2 ++ [last]) (replicate 1023 2 ++ [last]).

Definition changePDE (pd : PageDirectory) (pdeIndex : Z) (newPDE : PDE) : PageDirectory :=
  if 1023 <=? pdeIndex then pd
  else if negb (Z.land (pageTablePhysicalAddr newPDE) 0xFFF =? 0) then pd
  else
    let newPdeBits := Z.lor (pageTablePhysicalAddr newPDE)
                            (flagBits (pde_kernelPrivilegeOnly newPDE) (pdeIsValid newPDE)) in
    mkPageDirectory (pageDirectoryEntries pd).[pdeIndex := newPdeBits]
                    (helperTableEntries pd).[pdeIndex := newPdeBits].

Definition getPDE (pd : PageDirectory) (pdeIndex : Z) : option PDE :=
  if 1023 <=? pdeIndex then None
  else
    bits ← (pageDirectoryEntries pd).[pdeIndex];
    Some (mkPDE (Z.land bits 0xFFFFF000)
                (negb (negb (Z.land bits 4 =? 0)))
                (negb (Z.land bits 1 =? 0))).

Definition newPageTable : PageTable := replicate 1024 2.

Definition changePTE (pt : PageTable) (pteIndex : Z) (newPTE : PTE) : PageTable :=
  if 1024 <=? pteIndex then pt
  else if negb (Z.land (pagePhysicalAddr newPTE) 0xFFF =? 0) then pt
  else
    let newPteBits := Z.lor (pagePhysicalAddr newPTE)
                            (flagBits (pte_kernelPrivilegeOnly newPTE) (pteIsValid newPTE)) in
    pt.[pteIndex := newPteBits].

(** [PagingStructures]: the kernel's directory and its 1023 page tables. *)
Record PagingStructures := mkPagingStructures {
  pageDirectory : PageDirectory;
  pageTables : list PageTable;
}.

#[export] Instance PagingStructures_eq_dec : EqDecision PagingStructures.
Proof. solve_decision. Defined.

(** [nullptr] past the last table is [None]. *)
Definition getPageTable (ps : PagingStructures) (i : Z) : option PageTable :=
  if i <? 1023 then (pageTables ps).[i] else None.

(** Page table [i] of the constructor: the pages [i*1024 .. i*1024+1023],
    kernel only, each mapped to itself. *)
Definition identityPageTable (i : Z) : PageTable :=
  for_range 1024 0
    (fun j pt => changePTE pt j (mkPTE (u32 (i * (0x1000 * 1024) + j * 0x1000)) true true))
    newPageTable.

(** [PagingStructures::PagingStructures], run before paging is enabled, with
    the addresses at which the directory and the array of tables are placed. *)
Definition initPagingStep (pageTablesAddr i : Z) (ps : PagingStructures) : PagingStructures :=
  mkPagingStructures
    (changePDE (pageDirectory ps) i (mkPDE (pageTablesAddr + i * 4096) true true))
    (pageTables ps).[i := identityPageTable i].

Definition newPagingStructures (pageDirectoryAddr pageTablesAddr : Z) : PagingStructures :=
  for_range 1023 0 (initPagingStep pageTablesAddr)
    (mkPagingStructures (newPageDirectory pageDirectoryAddr) (replicate 1023 newPageTable)).

(** ** Lemmas *)

Definition pageAligned (a : Z) : Prop := a mod 4096 = 0.

Lemma land_0xFFF a : Z.land a 0xFFF = a mod 4096.
Proof. change 0xFFF with (Z.ones 12). by rewrite Z.land_ones by lia. Qed.

Lemma aligned_land a : is_u32 a -> pageAligned a -> Z.land a 0xFFFFF000 = a.
Proof.
  unfold pageAligned. rewrite <- land_0xFFF. intros Ha H0.
  assert (Hlow : forall n, 0 <= n < 12 -> Z.testbit a n = false).
  { intros n Hn. assert (Z.testbit (Z.land a 0xFFF) n = false) as HF by (rewrite H0; apply Z.bits_0).
    rewrite Z.land_spec in HF. change 0xFFF with (Z.ones 12) in HF.
    rewrite Z.ones_spec_low in HF by lia. by rewrite andb_true_r in HF. }
  u32_bitwise; symmetry; apply Hlow; lia.
Qed.

Lemma entry_bits_fields a kpo v :
  is_u32 a -> pageAligned a ->
  let bits := Z.lor a (flagBits kpo v) in
  is_u32 bits /\ Z.land bits 0xFFFFF000 = a /\
  negb (negb (Z.land bits 4 =? 0)) = kpo /\ negb (Z.land bits 1 =? 0) = v.
Proof.
  intros Ha Hal bits. subst bits. rewrite <- (aligned_land a) by done.
  assert (is_u32 (flagBits kpo v)) by (destruct kpo, v; vm_compute; intuition congruence).
  split; [auto with cpu|].
  assert (H1 : Z.land (Z.lor (Z.land a 0xFFFFF000) (flagBits kpo v)) 0xFFFFF000 = Z.land a 0xFFFFF000)
    by (destruct kpo, v; u32_bitwise).
  assert (H4 : Z.land (Z.lor (Z.land a 0xFFFFF000) (flagBits kpo v)) 4 = if kpo then 0 else 4)
    by (destruct kpo, v; u32_bitwise).
  assert (H0 : Z.land (Z.lor (Z.land a 0xFFFFF000) (flagBits kpo v)) 1 = if v then 1 else 0)
    by (destruct kpo, v; u32_bitwise).
  rewrite H1, H4, H0. by destruct kpo, v.
Qed.

(** ** Round trips of the entry accessors *)

(** An entry of a page directory reads back exactly as it was last
    written, in both copies of the entry, and no other entry changes. *)
Theorem getPDE_changePDE pd i p :
  0 <= i < 1023 -> zlength (pageDirectoryEntries pd) = 1024 ->
  zlength (helperTableEntries pd) = 1024 ->
  is_u32 (pageTablePhysicalAddr p) -> pageAligned (pageTablePhysicalAddr p) ->
  getPDE (changePDE pd i p) i = Some p /\
  (helperTableEntries (changePDE pd i p)).[i] = (pageDirectoryEntries (changePDE pd i p)).[i] /\
  forall j, j <> i -> getPDE (changePDE pd i p) j = getPDE pd j.
Proof.
  intros Hi Hd Hh Ha Hal. destruct p as [a kpo v]; cbn in *.
  destruct (entry_bits_fields a kpo v Ha Hal) as (_ & E1 & E2 & E3).
  assert (Hc : changePDE pd i (mkPDE a kpo v) =
    mkPageDirectory (pageDirectoryEntries pd).[i := Z.lor a (flagBits kpo v)]
                    (helperTableEntries pd).[i := Z.lor a (flagBits kpo v)]).
  { unfold changePDE. bool_case; [lia|]. cbn. by rewrite land_0xFFF, Hal. }
  rewrite Hc. unfold getPDE; cbn. split_and!.
  - bool_case; [lia|]. rewrite znth_zset_eq by lia. cbn. by rewrite E1, E2, E3.
  - by rewrite !znth_zset_eq by lia.
  - intros j Hj. by rewrite znth_zset_ne by done.
Qed.

(** An entry of a page table reads back exactly as it was last written
    for the indices 0 to 1022, but entry 1023, which [changePTE] accepts and
    stores, can never be read: [getPTE] returns an uninitialised structure. *)
Theorem getPTE_changePTE pt i p :
  0 <= i < 1024 -> zlength pt = 1024 ->
  is_u32 (pagePhysicalAddr p) -> pageAligned (pagePhysicalAddr p) ->
  getPTE (changePTE pt i p) i = (if i =? 1023 then None else Some p) /\
  (changePTE pt i p).[i] = Some (Z.lor (pagePhysicalAddr p)
                                   (flagBits (pte_kernelPrivilegeOnly p) (pteIsValid p))) /\
  forall j, j <> i -> (changePTE pt i p).[j] = pt.[j].
Proof.
  intros Hi Hd Ha Hal. destruct p as [a kpo v]; cbn in *.
  destruct (entry_bits_fields a kpo v Ha Hal) as (_ & E1 & E2 & E3).
  assert (Hc : changePTE pt i (mkPTE a kpo v) = pt.[i := Z.lor a (flagBits kpo v)]).
  { unfold changePTE. bool_case; [lia|]. cbn. by rewrite land_0xFFF, Hal. }
  rewrite Hc. unfold getPTE. rewrite znth_zset_eq by lia. split_and!; [|done|].
  - destruct (Z.eqb_spec i 1023); bool_case; try lia; [done|].
    cbn. by rewrite E1, E2, E3.
  - intros j Hj. by rewrite znth_zset_ne by done.
Qed.

(** ** The kernel's paging structures map every page to itself *)

Lemma lor_flag3 a : is_u32 a -> pageAligned a -> Z.lor a 3 = Z.lor a (flagBits true true).
Proof. done. Qed.

Lemma changePTE_aligned pt i a :
  i < 1024 -> pageAligned a -> changePTE pt i (mkPTE a true true) = pt.[i := Z.lor a 3].
Proof.
  intros Hi Ha. unfold changePTE. bool_case; [lia|]. cbn.
  by rewrite land_0xFFF, Ha.
Qed.

Lemma changePDE_aligned pd i a :
  i < 1023 -> pageAligned a ->
  changePDE pd i (mkPDE a true true) =
    mkPageDirectory (pageDirectoryEntries pd).[i := Z.lor a 3] (helperTableEntries pd).[i := Z.lor a 3].
Proof.
  intros Hi Ha. unfold changePDE. bool_case; [lia|]. cbn.
  by rewrite land_0xFFF, Ha.
Qed.

Definition pageAddr (p : Z) : Z := p * 4096.

Lemma pageAddr_ok p : 0 <= p < 1024 * 1024 -> is_u32 (pageAddr p) /\ pageAligned (pageAddr p).
Proof. unfold pageAddr, is_u32, pageAligned. intros. split; [lia|]. apply Z_mod_mult. Qed.

Lemma identityPageTable_nth i j :
  0 <= i < 1023 -> 0 <= j < 1024 ->
  (identityPageTable i).[j] = Some (Z.lor (pageAddr (i * 1024 + j)) 3).
Proof.
  intros Hi Hj. unfold identityPageTable.
  rewrite (for_range_ext (fun _ => True) _
    (fun k pt => pt.[k := Z.lor (pageAddr (i * 1024 + k)) 3])); [|done|].
  - rewrite znth_for_range_fill; [|lia|vm_compute; congruence].
    rewrite bool_decide_true by lia. done.
  - intros k pt Hk _. split; [|done].
    assert (E : u32 (i * (4096 * 1024) + k * 4096) = pageAddr (i * 1024 + k)).
    { rewrite u32_small by (unfold is_u32; lia). unfold pageAddr. lia. }
    rewrite E. apply changePTE_aligned; [lia|]. apply pageAddr_ok. lia.
Qed.

Lemma zlength_identityPageTable i : zlength (identityPageTable i) = 1024.
Proof.
  unfold identityPageTable.
  apply (for_range_inv (fun _ pt => zlength pt = 1024)); [done|].
  intros j pt _ Hpt. unfold changePTE. repeat bool_case; try done. case_match; [done|].
  by rewrite zlength_zset.
Qed.

(** A directory whose last entry, and whose helper table, map the page tables
    themselves at the top 4MB of the address space; [pdAddr] is the physical
    address of the directory. *)
Definition selfMapped (pdAddr : Z) (pd : PageDirectory) : Prop :=
  zlength (pageDirectoryEntries pd) = 1024 /\ zlength (helperTableEntries pd) = 1024 /\
  helperTableEntries pd = pageDirectoryEntries pd /\
  (pageDirectoryEntries pd).[1023] = Some (Z.lor (pdAddr + 0x1000) 3).

Definition validPageDirectoryAddr (pdAddr : Z) : Prop :=
  0 <= pdAddr /\ pdAddr + 0x2000 < 2 ^ 32 /\ pageAligned pdAddr.

Lemma newPageDirectory_selfMapped pdAddr :
  validPageDirectoryAddr pdAddr -> selfMapped pdAddr (newPageDirectory pdAddr).
Proof.
  intros (H1 & H2 & H3). unfold newPageDirectory, selfMapped.
  by rewrite u32_small by (unfold is_u32; lia).
Qed.

Lemma changePDE_selfMapped pdAddr pd i p :
  selfMapped pdAddr pd -> selfMapped pdAddr (changePDE pd i p).
Proof.
  unfold selfMapped, changePDE. intros (H1 & H2 & H3 & H4).
  repeat bool_case; try done. case_match; [done|].
  cbn. rewrite !zlength_zset, H3, znth_zset_ne by lia. done.
Qed.

Definition initialised (pdAddr ptsAddr k : Z) (ps : PagingStructures) : Prop :=
  selfMapped pdAddr (pageDirectory ps) /\ zlength (pageTables ps) = 1023 /\
  forall i, 0 <= i < k ->
    (pageTables ps).[i] = Some (identityPageTable i) /\
    (pageDirectoryEntries (pageDirectory ps)).[i] = Some (Z.lor (ptsAddr + i * 4096) 3).

Lemma initPagingStep_initialised pdAddr ptsAddr k ps :
  pageAligned ptsAddr -> 0 <= k < 1023 ->
  initialised pdAddr ptsAddr k ps ->
  initialised pdAddr ptsAddr (k + 1) (initPagingStep ptsAddr k ps).
Proof.
  intros Hal Hk (Hself & Hlen & Hent). unfold initialised, initPagingStep; cbn [pageDirectory pageTables].
  split; [by apply changePDE_selfMapped|]. split; [by rewrite zlength_zset|].
  rewrite changePDE_aligned; [|lia|unfold pageAligned in *; by rewrite Z_mod_plus_full].
  destruct Hself as (Hl & _). cbn [pageDirectoryEntries]. intros i Hi.
  destruct (decide (i = k)) as [->|].
  - rewrite !znth_zset_eq by lia. done.
  - rewrite !znth_zset_ne by done. apply Hent. lia.
Qed.

Lemma initPaging_loop pdAddr ptsAddr n ps :
  pageAligned ptsAddr -> Z.of_nat n <= 1023 -> initialised pdAddr ptsAddr 0 ps ->
  initialised pdAddr ptsAddr (Z.of_nat n) (for_range n 0 (initPagingStep ptsAddr) ps).
Proof.
  intros Hal Hn H0. apply (for_range_inv (initialised pdAddr ptsAddr)); [done|].
  intros k ps' Hk. apply initPagingStep_initialised; [done|lia].
Qed.

Lemma newPagingStructures_inv pdAddr ptsAddr :
  validPageDirectoryAddr pdAddr -> pageAligned ptsAddr ->
  initialised pdAddr ptsAddr 1023 (newPagingStructures pdAddr ptsAddr).
Proof.
  intros Hpd Hal. change 1023 with (Z.of_nat 1023). unfold newPagingStructures.
  apply initPaging_loop; [done|lia|].
  split; [by apply newPageDirectory_selfMapped|]. cbn [pageTables].
  split; [by rewrite zlength_replicate|lia].
Qed.

(** The paging structures the kernel starts with map every page of the
    1023 page tables to the physical page with the same index, valid and for
    the kernel only, and map the page tables themselves through the last
    directory entry. *)
Theorem newPagingStructures_identity pdAddr ptsAddr p :
  validPageDirectoryAddr pdAddr -> pageAligned ptsAddr ->
  0 <= p < 1023 * 1024 -> p mod 1024 <> 1023 ->
  let ps := newPagingStructures pdAddr ptsAddr in
  selfMapped pdAddr (pageDirectory ps) /\
  exists pt, getPageTable ps (p / 1024) = Some pt /\
    getPTE pt (p mod 1024) = Some (mkPTE (pageAddr p) true true).
Proof.
  intros Hpd H2 Hp Hm ps.
  destruct (newPagingStructures_inv pdAddr ptsAddr Hpd H2) as (Hs & _ & Hent).
  split; [done|]. exists (identityPageTable (p / 1024)).
  assert (Hi : 0 <= p / 1024 < 1023) by dlia. split.
  - unfold getPageTable. bool_case; [|lia]. by apply Hent.
  - unfold getPTE. bool_case; [dlia|]. rewrite identityPageTable_nth by dlia.
    replace (p / 1024 * 1024 + p mod 1024) with p by dlia.
    destruct (pageAddr_ok p ltac:(lia)) as [Ha Hal].
    destruct (entry_bits_fields (pageAddr p) true true Ha Hal) as (_ & E1 & E2 & E3).
    change (flagBits true true) with 3 in *. cbn -[pageAddr Z.land Z.lor Z.eqb].
    by rewrite E1, E2, E3.
Qed.

(** ** The software page walk against the hardware's

    [hardwareWalk] is the two-level walk of a 32-bit x86 processor with 4KB
    pages: [physicalPage a] is the content of the physical page at [a], and
    [cr3] the physical address of the directory in use. *)
Section hardware.
Context (physicalPage : Z -> option PageTable) (cr3 : Z).

Definition hardwareWalk (va : Z) : option Z :=
  pd ← physicalPage cr3;
  pde ← pd.[Z.shiftr va 22];
  if Z.land pde 1 =? 0 then None
  else
    pt ← physicalPage (Z.land pde 0xFFFFF000);
    pte ← pt.[Z.land (Z.shiftr va 12) 0x3FF];
    if Z.land pte 1 =? 0 then None
    else Some (Z.land pte 0xFFFFF000 + Z.land va 0xFFF).

(** What the program reads at the page-aligned virtual address [va]. *)
Definition readVirtualPage (va : Z) : option PageTable :=
  pa ← hardwareWalk va; physicalPage pa.

Context (pd : PageDirectory).
Hypothesis Hcr3 : validPageDirectoryAddr cr3.
Hypothesis Hself : selfMapped cr3 pd.
Hypothesis Hpd : physicalPage cr3 = Some (pageDirectoryEntries pd).
Hypothesis Hhelper : physicalPage (cr3 + 0x1000) = Some (helperTableEntries pd).

(** Reading the page [i] of the top 4MB reads page table [i]. *)
Lemma readVirtualPage_self i pde :
  0 <= i < 1024 -> (pageDirectoryEntries pd).[i] = Some pde -> Z.land pde 1 <> 0 ->
  readVirtualPage (0xFFC00000 + i * 0x1000) = physicalPage (Z.land pde 0xFFFFF000).
Proof.
  intros Hi Hpde Hv. destruct Hcr3 as (Hc1 & Hc2 & Hc3). destruct Hself as (_ & _ & Hh & Hlast).
  assert (Hb : is_u32 (cr3 + 4096) /\ pageAligned (cr3 + 4096)).
  { split; [unfold is_u32; lia|]. unfold pageAligned in *. dlia. }
  destruct (entry_bits_fields (cr3 + 4096) true true (proj1 Hb) (proj2 Hb)) as (_ & Ea & _ & Ev).
  change (flagBits true true) with 3 in *.
  unfold readVirtualPage, hardwareWalk. rewrite Hpd; cbn [mbind option_bind].
  rewrite !Z.shiftr_div_pow2 by lia.
  replace ((4290772992 + i * 4096) / 2 ^ 22) with 1023 by dlia.
  rewrite Hlast; cbn [mbind option_bind].
  destruct (Z.land (Z.lor (cr3 + 4096) 3) 1 =? 0); [done|]. rewrite Ea.
  rewrite Hhelper; cbn [mbind option_bind]. change 1023 with (Z.ones 10).
  rewrite Z.land_ones by lia.
  replace ((4290772992 + i * 4096) / 2 ^ 12 mod 2 ^ 10) with i by dlia.
  rewrite Hh, Hpde; cbn [mbind option_bind]. destruct (Z.eqb_spec (Z.land pde 1) 0); [done|].
  rewrite land_0xFFF. replace ((4290772992 + i * 4096) mod 4096) with 0 by dlia.
  cbn [mbind option_bind]. by rewrite Z.add_0_r.
Qed.
End hardware.

(** C39: with paging on and a directory that maps its own page tables, the
    software walk [translateVirtualToPhysicalAddress] computes the physical
    address the hardware uses for every mapped address, except in the last
    page of a page table: there [getPTE] gives it an uninitialised entry,
    though the hardware translates the address. *)
Theorem translate_agrees_with_hardware physicalPage cr3 pd cr0 va pa :
  validPageDirectoryAddr cr3 -> selfMapped cr3 pd ->
  physicalPage cr3 = Some (pageDirectoryEntries pd) ->
  physicalPage (cr3 + 0x1000) = Some (helperTableEntries pd) ->
  Z.land cr0 0x80000000 <> 0 -> is_u32 va -> is_u32 pa ->
  hardwareWalk physicalPage cr3 va = Some pa ->
  translateVirtualToPhysicalAddress cr0 (readVirtualPage physicalPage cr3) va =
    if (va / 4096) mod 1024 =? 1023 then Fault Uninitialised else Ok pa.
Proof.
  intros Hcr3 Hself Hpd Hhelper Hcr0 Hva Hpa Hw.
  unfold translateVirtualToPhysicalAddress. destruct (Z.eqb_spec (Z.land cr0 0x80000000) 0); [done|].
  assert (Ei : Z.shiftr (Z.land va 0xFFC00000) 22 = Z.shiftr va 22) by u32_bitwise.
  assert (Ej : Z.shiftr (Z.land va 0x003FF000) 12 = Z.land (Z.shiftr va 12) 0x3FF) by u32_bitwise.
  rewrite Ei, Ej. unfold hardwareWalk in Hw. rewrite Hpd in Hw; cbn [mbind option_bind] in Hw.
  destruct ((pageDirectoryEntries pd).[Z.shiftr va 22]) as [pde|] eqn:Epde; [|done].
  cbn [mbind option_bind] in Hw. destruct (Z.eqb_spec (Z.land pde 1) 0); [done|].
  destruct (physicalPage (Z.land pde 4294963200)) as [pt|] eqn:Ept; [|done].
  cbn [mbind option_bind] in Hw.
  assert (Hi : 0 <= Z.shiftr va 22 < 1024).
  { rewrite Z.shiftr_div_pow2 by lia. unfold is_u32 in Hva. dlia. }
  rewrite (readVirtualPage_self _ _ pd Hcr3 Hself Hpd Hhelper _ _ Hi Epde) by done.
  rewrite Ept; cbn [mbind result_bind orFault].
  destruct (pt.[Z.land (Z.shiftr va 12) 1023]) as [pte|] eqn:Epte; [|done].
  cbn [mbind option_bind] in Hw. destruct (Z.eqb_spec (Z.land pte 1) 0); [done|]. injection Hw as <-.
  assert (Hj : Z.land (Z.shiftr va 12) 1023 = (va / 4096) mod 1024).
  { change 1023 with (Z.ones 10). by rewrite Z.land_ones, Z.shiftr_div_pow2 by lia. }
  pose proof (Z.mod_pos_bound (va / 4096) 1024 ltac:(lia)) as Hb.
  unfold getPTE. rewrite Hj in *. destruct (Z.eqb_spec ((va / 4096) mod 1024) 1023) as [->|Hne]; [done|].
  rewrite (proj2 (Z.leb_gt 1023 _)) by lia.
  rewrite Epte; cbn [mbind option_bind result_bind orFault pagePhysicalAddr]. by rewrite u32_small.
Qed.

(** ** Witnesses *)

Definition exampleDirectory : PageDirectory :=
  changePDE (newPageDirectory 0x100000) 0 (mkPDE 0x200000 true true).
Definition examplePageTable : PageTable := changePTE newPageTable 5 (mkPTE 0x7000 true true).
Definition exampleMemory (a : Z) : option PageTable :=
  if a =? 0x100000 then Some (pageDirectoryEntries exampleDirectory)
  else if a =? 0x101000 then Some (helperTableEntries exampleDirectory)
  else if a =? 0x200000 then Some examplePageTable else None.

Lemma example_addr_ok : validPageDirectoryAddr 0x100000.
Proof. unfold validPageDirectoryAddr, pageAligned. repeat split; lia || reflexivity. Qed.

Lemma getPDE_changePDE_witness :
  let p := mkPDE 0x200000 true true in let pd := newPageDirectory 0x100000 in
  getPDE (changePDE pd 7 p) 7 = Some p /\
  (helperTableEntries (changePDE pd 7 p)).[7] = (pageDirectoryEntries (changePDE pd 7 p)).[7] /\
  forall j, j <> 7 -> getPDE (changePDE pd 7 p) j = getPDE pd j.
Proof. apply (getPDE_changePDE (newPageDirectory 0x100000) 7); (reflexivity || (unfold is_u32; cbn; lia)). Defined.

Lemma getPTE_changePTE_witness :
  let p := mkPTE 0x200000 true true in
  getPTE (changePTE newPageTable 1023 p) 1023 = None /\
  (changePTE newPageTable 1023 p).[1023] = Some 0x200003 /\
  forall j, j <> 1023 -> (changePTE newPageTable 1023 p).[j] = newPageTable.[j].
Proof. apply (getPTE_changePTE newPageTable 1023); (reflexivity || (unfold is_u32; cbn; lia)). Defined.

Lemma newPagingStructures_identity_witness :
  let ps := newPagingStructures 0x100000 0x200000 in
  selfMapped 0x100000 (pageDirectory ps) /\
  exists pt, getPageTable ps (5000 / 1024) = Some pt /\
    getPTE pt (5000 mod 1024) = Some (mkPTE (pageAddr 5000) true true).
Proof.
  apply (newPagingStructures_identity 0x100000 0x200000 5000 example_addr_ok); [reflexivity|lia|].
  vm_compute. congruence.
Defined.

Lemma translate_agrees_with_hardware_witness :
  hardwareWalk exampleMemory 0x100000 0x5123 = Some 0x7123 /\
  translateVirtualToPhysicalAddress 0x80000011 (readVirtualPage exampleMemory 0x100000) 0x5123 = Ok 0x7123.
Proof.
  assert (Hw : hardwareWalk exampleMemory 0x100000 0x5123 = Some 0x7123) by (vm_compute; reflexivity).
  split; [exact Hw|].
  apply (translate_agrees_with_hardware exampleMemory 0x100000 exampleDirectory 0x80000011 0x5123 0x7123); try exact Hw; try reflexivity.
  - exact example_addr_ok.
  - apply changePDE_selfMapped, newPageDirectory_selfMapped, example_addr_ok.
  - vm_compute; congruence.
  - unfold is_u32. lia.
  - unfold is_u32. lia.
Defined.
