(* ===== verification/PageAllocator.v ===== *)
(** The page allocator: [operating_system/paging/page_allocator.h] and
    [page_allocator.cpp].

    Bits 9 and 10 of an entry are its allocation code.  In a page table the
    code of a page is 0 when the page is free, and otherwise tells the region
    the page belongs to from its neighbours; in the directory it sums up a
    page table: 0 when all its pages are free, 2 when all are allocated, 1
    otherwise.  The state is the directory and the page tables the accessor
    gives, with every bit of every entry. *)
From S2P Require Import Prelude Paging.

Definition PAGE_TABLE_FULLY_NOT_ALLOCATED_CODE : Z := 0.
Definition PAGE_TABLE_PARTLY_ALLOCATED_CODE : Z := 1.
Definition PAGE_TABLE_FULLY_ALLOCATED_CODE : Z := 2.
Definition LAST_POSSIBLE_PDE_INDEX : Z := 1023.

(** What [allocateContiguousPages] returns when it fails. *)
Definition NO_PAGES : Z := u32 (u32 (LAST_POSSIBLE_PDE_INDEX * 1024) * 0x1000).

(** [(e >> 9) & 0x3], [e & (0x3 << 9)], [e & ~(0x3 << 9)], [e | (code << 9)] *)
Definition entryCode (e : Z) : Z := Z.land (Z.shiftr e 9) 0x3.
Definition entryIsFree (e : Z) : bool := Z.land e 0x600 =? 0.
Definition clearCode (e : Z) : Z := Z.land e 0xFFFFF9FF.
Definition orCode (e code : Z) : Z := Z.lor e (Z.shiftl code 9).

Definition setPageTable (ps : PagingStructures) (i : Z) (pt : PageTable) : PagingStructures :=
  mkPagingStructures (pageDirectory ps) (pageTables ps).[i := pt].

(** [pageDirectoryEntries[i]] as the code reads it.  The helper table follows
    the entries in the packed class, so indices from 1024 read it. *)
Definition directoryEntry (ps : PagingStructures) (i : Z) : result Z :=
  (if i <? 1024 then (pageDirectoryEntries (pageDirectory ps)).[i]
   else (helperTableEntries (pageDirectory ps)).[i - 1024]) ?? OutOfRange.

(** [pageDirectoryEntries[i] &= ~(0x3 << 9); pageDirectoryEntries[i] |= (code << 9)] *)
Definition setDirectoryCode (ps : PagingStructures) (i code : Z) : result PagingStructures :=
  e ← (pageDirectoryEntries (pageDirectory ps)).[i] ?? OutOfRange;
  Ok (mkPagingStructures
        (mkPageDirectory (pageDirectoryEntries (pageDirectory ps)).[i := orCode (clearCode e) code]
                         (helperTableEntries (pageDirectory ps)))
        (pageTables ps)).

(** [PageAllocator::PageAllocator] *)
Definition newPageAllocator (ps : PagingStructures) : PagingStructures :=
  mkPagingStructures
    (mkPageDirectory
       (map clearCode (take 1023 (pageDirectoryEntries (pageDirectory ps)))
        ++ drop 1023 (pageDirectoryEntries (pageDirectory ps)))
       (helperTableEntries (pageDirectory ps)))
    (map (map clearCode) (pageTables ps)).

Definition checkPageTableFullyAllocated (pt : PageTable) : bool :=
  forallb (fun e => negb (entryIsFree e)) pt.

Definition checkPageTableFullyNotAllocated (pt : PageTable) : bool :=
  forallb entryIsFree pt.

(** The loops of [numFreeAtBegin] and [numFreeAtEnd]: count free entries up
    to the first allocated one. *)
Fixpoint countFreePrefix (l : list Z) : Z :=
  match l with
  | [] => 0
  | e :: l' => if entryIsFree e then 1 + countFreePrefix l' else 0
  end.

Definition numFreeAtBegin (pPageTable : option PageTable) : Z :=
  match pPageTable with None => 0 | Some pt => countFreePrefix pt end.

Definition numFreeAtEnd (pPageTable : option PageTable) : Z :=
  match pPageTable with None => 0 | Some pt => countFreePrefix (reverse pt) end.

(** The first loop of [findMaxFreeSpaceStartingFromTable]: the longest closed
    run of free pages so far and the length of the run being counted. *)
Fixpoint scanRuns (l : list Z) (retVal currentCounter : Z) : Z * Z :=
  match l with
  | [] => (retVal, currentCounter)
  | e :: l' =>
      if entryIsFree e then scanRuns l' retVal (currentCounter + 1)
      else scanRuns l' (if retVal <? currentCounter then currentCounter else retVal) 0
  end.

Definition findMaxFreeSpaceStartingFromTable (ps : PagingStructures) (startingPageTableIndex : Z)
  : result Z :=
  if 1023 <=? startingPageTableIndex then Ok 0
  else
    pStartingPageTable ← getPageTable ps startingPageTableIndex ?? NullPointer;
    let '(retVal, currentCounter) := scanRuns pStartingPageTable 0 0 in
    if currentCounter =? 0 then Ok retVal
    else
      let numFreeAtEnd := numFreeAtBegin (getPageTable ps (startingPageTableIndex + 1)) in
      let currentCounter := currentCounter + numFreeAtEnd in
      let currentCounter :=
        if numFreeAtEnd =? 1024
        then currentCounter + numFreeAtBegin (getPageTable ps (startingPageTableIndex + 2))
        else currentCounter in
      Ok (if retVal <? currentCounter then currentCounter else retVal).

(** [for(j=pteBegin; j<=pteEnd; j++) pageTableEntries[j] |= (code << 9);] on
    the entries from index [j] on. *)
Fixpoint markEntriesFrom (j pteBegin pteEnd code : Z) (pt : PageTable) : PageTable :=
  match pt with
  | [] => []
  | e :: pt' =>
      (if (pteBegin <=? j) && (j <=? pteEnd) then orCode e code else e)
        :: markEntriesFrom (j + 1) pteBegin pteEnd code pt'
  end.

Definition markEntries : Z -> Z -> Z -> PageTable -> PageTable := markEntriesFrom 0.

(** The loop of [allocatePageRange]. [n] bounds the page tables left. *)
Fixpoint allocatePageRangeLoop (n : nat) (i firstPDE firstPTE lastPDE lastPTE : Z)
    (ps : PagingStructures) : result PagingStructures :=
  match n with
  | O => if (i <=? lastPDE) && (i <=? LAST_POSSIBLE_PDE_INDEX) then Fault OutOfFuel else Ok ps
  | S n' =>
      if (i <=? lastPDE) && (i <=? LAST_POSSIBLE_PDE_INDEX) then
        let pteBegin := if i =? firstPDE then firstPTE else 0 in
        let pteEnd := if i =? lastPDE then lastPTE else 1023 in
        pt ← getPageTable ps i ?? NullPointer;
        let pt := markEntries pteBegin pteEnd 1 pt in
        ps ← setDirectoryCode (setPageTable ps i pt) i
               (if checkPageTableFullyAllocated pt then PAGE_TABLE_FULLY_ALLOCATED_CODE
                else PAGE_TABLE_PARTLY_ALLOCATED_CODE);
        allocatePageRangeLoop n' (i + 1) firstPDE firstPTE lastPDE lastPTE ps
      else Ok ps
  end.

Definition allocatePageRange (ps : PagingStructures) (firstPageIndex lastPageIndex : Z)
  : result PagingStructures :=
  allocatePageRangeLoop 1024 (firstPageIndex / 1024) (firstPageIndex / 1024) (firstPageIndex mod 1024)
    (lastPageIndex / 1024) (lastPageIndex mod 1024) ps.

(** [MINNUMALLOCATEDPAGETABLES] *)
Definition minNumPageTables (numPages : Z) : Z :=
  if numPages <? 2 * 1023 then 0 else (numPages - 1023) / 1024.

(** The inner loop of the search: how many of the [rem] page tables from
    index [k] on are free, up to the first that is not. *)
Fixpoint countFreeTables (rem : nat) (k : Z) (ps : PagingStructures) : result Z :=
  match rem with
  | O => Ok 0
  | S rem' =>
      e ← directoryEntry ps k;
      if negb (Z.land e 0x600 =? 0) then Ok 0
      else j ← countFreeTables rem' (k + 1) ps; Ok (1 + j)
  end.

(** One turn of the search loop at page table [i]: the table found ([inl]) or
    the next table to look at ([inr]). *)
Definition searchStep (ps : PagingStructures) (numPages i : Z) : result (Z + Z) :=
  let minTables := minNumPageTables numPages in
  let minOther := numPages - minTables * 1024 in
  e ← directoryEntry ps i;
  let currentPageTableCode := entryCode e in
  if negb (currentPageTableCode =? PAGE_TABLE_FULLY_ALLOCATED_CODE) then
    let remaining := if (currentPageTableCode =? 0) && negb (minTables =? 0)
                     then minTables - 1 else minTables in
    j ← countFreeTables (Z.to_nat remaining) (i + 1) ps;
    if negb (j =? remaining) then Ok (inr (i + j + 1))
    else if minTables =? 0 then
      found ← findMaxFreeSpaceStartingFromTable ps i;
      Ok (if minOther <=? found then inl i else inr (i + 1))
    else
      let found := if negb (currentPageTableCode =? 0)
                   then numFreeAtEnd (getPageTable ps i) else 0 in
      let numFreeAtEnd := numFreeAtBegin (getPageTable ps (i + j + 1)) in
      let found := found + numFreeAtEnd in
      let found := if numFreeAtEnd =? 1024
                   then found + numFreeAtBegin (getPageTable ps (i + j + 2)) else found in
      Ok (if minOther <=? found then inl i else inr (i + j + 1))
  else Ok (inr (i + 1)).

(** The search loop [while(i<1023)]; [n] bounds the turns left. *)
Fixpoint searchTable (n : nat) (ps : PagingStructures) (numPages i : Z) : result (option Z) :=
  if i <? 1023 then
    match n with
    | O => Fault OutOfFuel
    | S n' =>
        r ← searchStep ps numPages i;
        match r with
        | inl i => Ok (Some i)
        | inr i => searchTable n' ps numPages i
        end
    end
  else Ok None.

(** The start of the first run of [minOther] free entries, or of the run the
    table ends with: the loop over [j] with [lastjValue]. *)
Fixpoint findRunStart (l : list Z) (j lastj currentCounter minOther : Z) : Z :=
  match l with
  | [] => lastj
  | e :: l' =>
      if entryIsFree e then
        if minOther <=? currentCounter + 1 then lastj
        else findRunStart l' (j + 1) lastj (currentCounter + 1) minOther
      else findRunStart l' (j + 1) (j + 1) 0 minOther
  end.

Definition foundPageIndex (pt : PageTable) (numPages i : Z) : Z :=
  let minTables := minNumPageTables numPages in
  if minTables =? 0
  then i * 1024 + findRunStart pt 0 0 0 (numPages - minTables * 1024)
  else i * 1024 + (1024 - countFreePrefix (reverse pt)).

(** The code of a new region, from the codes of the pages around it. *)
Definition newPageCode (pre post : Z) : Z :=
  if pre =? post then (if pre =? 1 then 2 else 1)
  else if pre =? 0 then (if post =? 1 then 2 else 1)
  else if post =? 0 then (if pre =? 1 then 2 else 1)
  else 1 + 2 + 3 - (pre + post).

(** [(getPageTable(page/1024)->pageTableEntries[page%1024] >> 9) & 0x3] *)
Definition pageCode (ps : PagingStructures) (page : Z) : result Z :=
  pt ← getPageTable ps (page / 1024) ?? NullPointer;
  e ← pt.[page mod 1024] ?? OutOfRange;
  Ok (entryCode e).

(** The loop of [allocatePagesStartingAtIndex]. *)
Fixpoint allocatePagesLoop (n : nat) (i code firstPDE firstPTE lastPDE lastPTE : Z)
    (ps : PagingStructures) : result PagingStructures :=
  match n with
  | O => if i <=? lastPDE then Fault OutOfFuel else Ok ps
  | S n' =>
      if i <=? lastPDE then
        let pteBegin := if i =? firstPDE then firstPTE else 0 in
        let pteEnd := if i =? lastPDE then lastPTE else 1023 in
        pt ← getPageTable ps i ?? NullPointer;
        let pt := markEntries pteBegin pteEnd code pt in
        ps ← setDirectoryCode (setPageTable ps i pt) i
               (if (pteBegin =? 0) && (pteEnd =? 1023) then PAGE_TABLE_FULLY_ALLOCATED_CODE
                else if checkPageTableFullyAllocated pt then PAGE_TABLE_FULLY_ALLOCATED_CODE
                else PAGE_TABLE_PARTLY_ALLOCATED_CODE);
        allocatePagesLoop n' (i + 1) code firstPDE firstPTE lastPDE lastPTE ps
      else Ok ps
  end.

Definition allocatePagesStartingAtIndex (ps : PagingStructures) (startingPageIndex numPages : Z)
  : result PagingStructures :=
  if numPages =? 0 then Ok ps
  else
    let endingPageIndex := u32 (startingPageIndex + numPages - 1) in
    pre ← (if 0 <? startingPageIndex then pageCode ps (startingPageIndex - 1) else Ok 1);
    post ← (if endingPageIndex <? 1023 * 1024 - 1 then pageCode ps (endingPageIndex + 1) else Ok 1);
    let firstPDE := startingPageIndex / 1024 in
    let lastPDE := endingPageIndex / 1024 in
    allocatePagesLoop 1024 firstPDE (newPageCode pre post)
      firstPDE (startingPageIndex mod 1024) lastPDE (endingPageIndex mod 1024) ps.

(** [allocateContiguousPages]: the state after the call and the address
    returned. *)
Definition allocateContiguousPages (ps : PagingStructures) (numPages : Z)
  : result (PagingStructures * Z) :=
  if numPages =? 0 then Ok (ps, NO_PAGES)
  else
    found ← searchTable 1023 ps numPages 0;
    match found with
    | None => Ok (ps, NO_PAGES)
    | Some i =>
        pt ← getPageTable ps i ?? NullPointer;
        let foundPageTableIndex := foundPageIndex pt numPages i in
        ps ← allocatePagesStartingAtIndex ps foundPageTableIndex numPages;
        Ok (ps, u32 (foundPageTableIndex * 0x1000))
    end.

(** The inner loop of [freeContiguousPages]: clear entries up to the first
    with another code; the entries afterwards and how many were cleared. *)
Fixpoint clearRun (code : Z) (l : list Z) : list Z * Z :=
  match l with
  | [] => ([], 0)
  | e :: l' =>
      if entryCode e =? code then
        let '(l'', n) := clearRun code l' in (clearCode e :: l'', 1 + n)
      else (e :: l', 0)
  end.

(** The outer loop of [freeContiguousPages]; [n] page tables are left. *)
Fixpoint freePagesLoop (n : nat) (i firstPDE firstPTE code : Z) (ps : PagingStructures)
  : result PagingStructures :=
  match n with
  | O => Ok ps
  | S n' =>
      pt ← getPageTable ps i ?? NullPointer;
      let pteBegin := if i =? firstPDE then firstPTE else 0 in
      let '(cleared, count) := clearRun code (drop (Z.to_nat pteBegin) pt) in
      let j := pteBegin + count in
      let pt := take (Z.to_nat pteBegin) pt ++ cleared in
      let ps := setPageTable ps i pt in
      ps ← (if (pteBegin =? 0) && (j =? 1024)
            then setDirectoryCode ps i PAGE_TABLE_FULLY_NOT_ALLOCATED_CODE
            else if pteBegin =? j then Ok ps
            else if checkPageTableFullyNotAllocated pt
            then setDirectoryCode ps i PAGE_TABLE_FULLY_NOT_ALLOCATED_CODE
            else setDirectoryCode ps i PAGE_TABLE_PARTLY_ALLOCATED_CODE);
      if negb (j =? 1024) then Ok ps
      else freePagesLoop n' (i + 1) firstPDE firstPTE code ps
  end.

Definition freeContiguousPages (ps : PagingStructures) (virtualMemoryPointer : Z)
  : result PagingStructures :=
  let virtualPageIndex := virtualMemoryPointer / 4096 in
  let firstPDE := virtualPageIndex / 1024 in
  let firstPTE := virtualPageIndex mod 1024 in
  if 1023 <=? firstPDE then Ok ps
  else
    code ← pageCode ps virtualPageIndex;
    freePagesLoop (Z.to_nat (1023 - firstPDE)) firstPDE firstPDE firstPTE code ps.
