(* ===== verification/PageAllocatorFacts.v ===== *)
(** The contract of the page allocator and its proof.

    [codeAt ps p] is the allocation code of page [p]; [wf] says that the
    directory sums the page tables up correctly.  Every operation is related
    to the array of codes: [allocateContiguousPages] is a first-fit search,
    [freeContiguousPages] frees the region a page belongs to. *)
From S2P Require Import Prelude Paging PageAllocator.

(** ** Specification *)

Definition NPAGES : Z := 1023 * 1024.

Definition entryAt (ps : PagingStructures) (p : Z) : option Z :=
  pt ← (pageTables ps).[p / 1024]; pt.[p mod 1024].

(** Pages that do not exist count as allocated. *)
Definition codeAt (ps : PagingStructures) (p : Z) : Z :=
  match entryAt ps p with Some e => entryCode e | None => 3 end.

Definition freePage (ps : PagingStructures) (p : Z) : Prop := codeAt ps p = 0.

Definition freeRun (ps : PagingStructures) (a n : Z) : Prop :=
  forall p, a <= p < a + n -> freePage ps p.

Definition tableSummary (pt : PageTable) : Z :=
  if checkPageTableFullyNotAllocated pt then PAGE_TABLE_FULLY_NOT_ALLOCATED_CODE
  else if checkPageTableFullyAllocated pt then PAGE_TABLE_FULLY_ALLOCATED_CODE
  else PAGE_TABLE_PARTLY_ALLOCATED_CODE.

Definition tableOk (pt : PageTable) : Prop := zlength pt = 1024 /\ Forall is_u32 pt.

Record wf (ps : PagingStructures) : Prop := {
  wf_directory : zlength (pageDirectoryEntries (pageDirectory ps)) = 1024;
  wf_directory_u32 : Forall is_u32 (pageDirectoryEntries (pageDirectory ps));
  wf_helper : zlength (helperTableEntries (pageDirectory ps)) = 1024;
  wf_helper_code : forall i e, (helperTableEntries (pageDirectory ps)).[i] = Some e -> entryIsFree e = true;
  wf_last_code : forall e, (pageDirectoryEntries (pageDirectory ps)).[1023] = Some e -> entryIsFree e = true;
  wf_tables : zlength (pageTables ps) = 1023;
  wf_table : forall i pt, (pageTables ps).[i] = Some pt -> tableOk pt;
  wf_summary : forall i pt e, (pageTables ps).[i] = Some pt ->
    (pageDirectoryEntries (pageDirectory ps)).[i] = Some e -> entryCode e = tableSummary pt;
}.

(** What an operation leaves alone: everything in the directory but codes. *)
Definition sameFrame (ps ps' : PagingStructures) : Prop :=
  helperTableEntries (pageDirectory ps') = helperTableEntries (pageDirectory ps) /\
  map clearCode (pageDirectoryEntries (pageDirectory ps')) =
  map clearCode (pageDirectoryEntries (pageDirectory ps)).

(** [ps'] is [ps] with every page entry [e] of page [p] turned into [f p e]. *)
Record pagesUpdated (f : Z -> Z -> Z) (ps ps' : PagingStructures) : Prop := {
  upd_wf : wf ps';
  upd_frame : sameFrame ps ps';
  upd_entry : forall p, entryAt ps' p = f p <$> entryAt ps p;
}.

(** The region a page belongs to: the pages from [p] on up to [q]. *)
Definition regionEnd (ps : PagingStructures) (p q : Z) : Prop :=
  p <= q /\ (forall x, p <= x < q -> codeAt ps x = codeAt ps p) /\ codeAt ps q <> codeAt ps p.

(** ** The code field of an entry *)

Lemma entryCode_bound e : 0 <= entryCode e <= 3.
Proof.
  unfold entryCode. change 3 with (Z.ones 2). rewrite Z.land_ones by lia.
  change (Z.ones 2) with 3. pose proof (Z.mod_pos_bound (Z.shiftr e 9) (2 ^ 2)). lia.
Qed.

Lemma entryCode_shifted e : is_u32 e -> Z.shiftr (Z.land e 0x600) 9 = entryCode e.
Proof. intros He. unfold entryCode. u32_bitwise. Qed.

Lemma entryIsFree_code e : is_u32 e -> entryIsFree e = (entryCode e =? 0).
Proof.
  intros He. unfold entryIsFree.
  assert (E : Z.land e 0x600 = Z.shiftl (entryCode e) 9).
  { unfold entryCode. 
    apply u32_bits_eq; [auto with cpu| |].
    - pose proof (entryCode_bound e) as Hb. unfold entryCode in Hb. rewrite Z.shiftl_mul_pow2 by lia.
      unfold is_u32. lia.
    - intros n Hn. rewrite Z.shiftl_spec by lia. rewrite !Z.land_spec.
      destruct (Z.ltb_spec n 9) as [Hlt|Hge].
      + rewrite (Z.testbit_neg_r 3) by lia. rewrite andb_false_r.
        assert (Hc : 0 <= n < Z.of_nat 9) by lia.
        split_below 9%nat Hc; apply andb_false_r.
      + rewrite Z.shiftr_spec by lia. replace (n - 9 + 9) with n by lia. f_equal.
        split_below 32%nat Hn; try lia; reflexivity. }
  rewrite E, Z.shiftl_mul_pow2 by lia. pose proof (entryCode_bound e).
  destruct (Z.eqb_spec (entryCode e) 0) as [->|]; [done|]. apply Z.eqb_neq. lia.
Qed.

Lemma is_u32_clearCode e : is_u32 e -> is_u32 (clearCode e).
Proof. unfold clearCode. auto with cpu. Qed.

Lemma shiftl_code_u32 c : 0 <= c <= 3 -> is_u32 (Z.shiftl c 9).
Proof. intros Hc. rewrite Z.shiftl_mul_pow2 by lia. unfold is_u32. lia. Qed.

Lemma is_u32_orCode e c : is_u32 e -> 0 <= c <= 3 -> is_u32 (orCode e c).
Proof. intros. unfold orCode. apply is_u32_lor; [done|by apply shiftl_code_u32]. Qed.

#[export] Hint Resolve is_u32_clearCode shiftl_code_u32 is_u32_orCode : cpu.
#[export] Hint Extern 7 (_ <= _ <= _) => lia : cpu.

Lemma code_cases c : 0 <= c <= 3 -> c = 0 \/ c = 1 \/ c = 2 \/ c = 3.
Proof. lia. Qed.

Ltac code_case H := apply code_cases in H; destruct H as [-> | [-> | [-> | ->]]].

Lemma entryCode_clearCode e : is_u32 e -> entryCode (clearCode e) = 0.
Proof. intros He. unfold entryCode, clearCode. u32_bitwise. Qed.

Lemma entryCode_orCode e c :
  is_u32 e -> 0 <= c <= 3 -> entryCode (orCode e c) = Z.lor (entryCode e) c.
Proof. intros He Hc. unfold entryCode, orCode. code_case Hc; u32_bitwise. Qed.

Lemma clearCode_orCode e c : is_u32 e -> 0 <= c <= 3 -> clearCode (orCode e c) = clearCode e.
Proof. intros He Hc. unfold clearCode, orCode. code_case Hc; u32_bitwise. Qed.

Lemma clearCode_idem e : is_u32 e -> clearCode (clearCode e) = clearCode e.
Proof. intros He. unfold clearCode. u32_bitwise. Qed.

Lemma orCode_entryCode e : is_u32 e -> orCode (clearCode e) (entryCode e) = e.
Proof.
  intros He. unfold orCode, clearCode. 
  assert (E : Z.shiftl (entryCode e) 9 = Z.land e 0x600).
  { rewrite <- entryCode_shifted by done. apply u32_bits_eq.
    - rewrite entryCode_shifted by done. apply shiftl_code_u32, entryCode_bound.
    - auto with cpu.
    - intros n Hn. rewrite Z.shiftl_spec, Z.land_spec by lia.
      destruct (Z.ltb_spec n 9) as [Hlt|Hge].
      + rewrite Z.testbit_neg_r by lia.
        assert (Hc : 0 <= n < Z.of_nat 9) by lia.
        split_below 9%nat Hc; symmetry; apply andb_false_r.
      + rewrite Z.shiftr_spec by lia. replace (n - 9 + 9) with n by lia. by rewrite Z.land_spec. }
  rewrite E. u32_bitwise.
Qed.

Lemma clearCode_free e : is_u32 e -> entryCode e = 0 -> clearCode e = e.
Proof.
  intros He H0. rewrite <- (orCode_entryCode e) at 2 by done. rewrite H0.
  unfold orCode. rewrite Z.shiftl_0_l. by rewrite Z.lor_0_r.
Qed.

(** Entries are determined by their code and the rest. *)
Lemma entry_ext e e' :
  is_u32 e -> is_u32 e' -> clearCode e = clearCode e' -> entryCode e = entryCode e' -> e = e'.
Proof.
  intros He He' H1 H2. rewrite <- (orCode_entryCode e), <- (orCode_entryCode e') by done.
  congruence.
Qed.

(** ** The scans of one page table

    The entries of [l] are the pages from [b] on; [F] tells which pages are
    free. *)

Definition segment (F : Z -> Prop) (b : Z) (l : list Z) : Prop :=
  forall k e, l.[k] = Some e -> entryIsFree e = true <-> F (b + k).

Lemma segment_head F b e l : segment F b (e :: l) -> entryIsFree e = true <-> F b.
Proof. intros HS. specialize (HS 0 e eq_refl). by rewrite Z.add_0_r in HS. Qed.

Lemma segment_tail F b e l : segment F b (e :: l) -> segment F (b + 1) l.
Proof.
  intros HS k x Hk. pose proof (znth_Some_lt _ _ _ Hk).
  replace (b + 1 + k) with (b + (k + 1)) by lia. apply HS.
  rewrite znth_cons_pos by lia. by replace (k + 1 - 1) with k by lia.
Qed.

Lemma segment_reverse F b l :
  segment F b l -> segment (fun x => F (b + zlength l - 1 - x)) 0 (reverse l).
Proof.
  intros HS k e Hk. pose proof (znth_Some_lt _ _ _ Hk) as Hlt. rewrite zlength_reverse in Hlt.
  rewrite znth_reverse in Hk by done.
  replace (b + zlength l - 1 - (0 + k)) with (b + (zlength l - 1 - k)) by lia. by apply HS.
Qed.

Lemma countFreePrefix_spec F b l :
  segment F b l ->
  let c := countFreePrefix l in
  0 <= c <= zlength l /\ (forall p, b <= p < b + c -> F p) /\ (c < zlength l -> ~ F (b + c)).
Proof.
  revert b. induction l as [|e l IH]; intros b HS; cbn.
  - change (zlength (@nil Z)) with 0. split_and!; [lia|lia|intros ?; lia|lia].
  - rewrite zlength_cons. pose proof (zlength_nonneg l). pose proof (segment_head _ _ _ _ HS) as He.
    destruct (IH _ (segment_tail _ _ _ _ HS)) as (H1 & H2 & H3).
    destruct (entryIsFree e).
    + split_and!; [lia|lia| |].
      * intros p Hp. destruct (decide (p = b)) as [->|]; [by apply He|]. apply H2. lia.
      * intros Hlt. replace (b + (1 + countFreePrefix l)) with (b + 1 + countFreePrefix l) by lia.
        apply H3. lia.
    + split_and!; [lia|lia|intros ?; lia|]. intros _. rewrite Z.add_0_r. rewrite <- He. done.
Qed.

Lemma countFreeSuffix_spec F b l :
  segment F b l ->
  let c := countFreePrefix (reverse l) in
  let e := b + zlength l in
  0 <= c <= zlength l /\ (forall p, e - c <= p < e -> F p) /\ (c < zlength l -> ~ F (e - c - 1)).
Proof.
  intros HS%segment_reverse. destruct (countFreePrefix_spec _ _ _ HS) as (H1 & H2 & H3).
  cbn zeta. rewrite zlength_reverse in *. split_and!; [lia|lia| |].
  - intros p Hp. replace p with (b + zlength l - 1 - (b + zlength l - 1 - p)) by lia. apply H2. lia.
  - intros Hc%H3. by replace (b + zlength l - countFreePrefix (reverse l) - 1)
      with (b + zlength l - 1 - (0 + countFreePrefix (reverse l))) by lia.
Qed.

(** [blocked F n s]: a region of [n] pages cannot start at page [s]. *)
Definition blocked (F : Z -> Prop) (n s : Z) : Prop := exists q, s <= q < s + n /\ ~ F q.

(** The longest closed run and the trailing run of a scan. *)
Lemma scanRuns_spec F b l r c n :
  segment F b l -> 0 <= c -> 0 < n -> (forall p, b - c <= p < b -> F p) ->
  let e := b + zlength l in
  let '(r', c') := scanRuns l r c in
  r <= r' /\ 0 <= c' <= c + zlength l /\ (forall p, e - c' <= p < e -> F p) /\
  (r < n <= r' -> exists f, b - c <= f /\ f + n <= e /\ forall p, f <= p < f + n -> F p) /\
  (r' < n -> forall s, b - c <= s < e - c' -> blocked F n s).
Proof.
  revert b r c. induction l as [|x l IH]; intros b r c HS Hc Hn HF; cbn [scanRuns].
  - cbn zeta. change (zlength (@nil Z)) with 0. rewrite !Z.add_0_r. split_and!; first [done | intros; lia].
  - rewrite zlength_cons. pose proof (zlength_nonneg l). pose proof (segment_head _ _ _ _ HS) as Hx.
    apply segment_tail in HS. destruct (entryIsFree x).
    + specialize (IH (b + 1) r (c + 1) HS ltac:(lia) Hn).
      destruct (scanRuns l r (c + 1)) as [r' c'].
      destruct IH as (H1 & H2 & H3 & H4 & H5).
      { intros p Hp. destruct (decide (p = b)) as [->|]; [by apply Hx|]. apply HF. lia. }
      replace (b + (zlength l + 1)) with (b + 1 + zlength l) by lia.
      replace (b + 1 - (c + 1)) with (b - c) in * by lia. split_and!; try done; lia.
    + set (r0 := if r <? c then c else r).
      specialize (IH (b + 1) r0 0 HS ltac:(lia) Hn).
      destruct (scanRuns l r0 0) as [r' c'].
      destruct IH as (H1 & H2 & H3 & H4 & H5); [intros; lia|].
      assert (Hr0 : r <= r0 /\ c <= r0 /\ (r0 = r \/ r0 = c)) by (unfold r0; destruct (Z.ltb_spec r c); lia).
      replace (b + (zlength l + 1)) with (b + 1 + zlength l) by lia. split_and!; [lia|lia|lia|done| |].
      * intros Hn'. destruct (Z.ltb_spec r0 n).
        -- destruct H4 as (f & ? & ? & ?); [lia|]. exists f. split_and!; [lia|lia|done].
        -- exists (b - c). split_and!; [lia|lia|]. intros p Hp. apply HF. lia.
      * intros Hlt s Hs. destruct (Z.ltb_spec b s); [apply H5; lia|].
        exists b. split; [lia|]. rewrite <- Hx. done.
Qed.

(** The first run of [n] free pages, or the run the table ends with. *)
Lemma findRunStart_spec F a l j lastj c n :
  segment F (a + j) l -> 0 <= c -> c < n -> c = j - lastj -> 
  (forall p, a + lastj <= p < a + j -> F p) ->
  let e := a + j + zlength l in
  let f := a + findRunStart l j lastj c n in
  a + lastj <= f <= e /\ (forall p, f <= p < Z.min (f + n) e -> F p) /\
  (forall s, a + lastj <= s < f -> blocked F n s).
Proof.
  revert j lastj c. induction l as [|x l IH]; intros j lastj c HS Hc Hn Ej HF; cbn [findRunStart].
  - cbn zeta. change (zlength (@nil Z)) with 0. rewrite !Z.add_0_r. split_and!; [lia|lia| |intros; lia].
    intros p Hp. apply HF. lia.
  - rewrite zlength_cons. pose proof (zlength_nonneg l). pose proof (segment_head _ _ _ _ HS) as Hx.
    apply segment_tail in HS. replace (a + j + 1) with (a + (j + 1)) in HS by lia.
    replace (a + j + (zlength l + 1)) with (a + (j + 1) + zlength l) by lia.
    destruct (entryIsFree x).
    + assert (HF' : forall p, a + lastj <= p < a + (j + 1) -> F p).
      { intros p Hp. destruct (decide (p = a + j)) as [->|]; [by apply Hx|]. apply HF. lia. }
      destruct (Z.leb_spec n (c + 1)).
      * split_and!; [lia|lia| |lia]. intros p Hp. apply HF'. lia.
      * apply IH; try done; lia.
    + destruct (IH (j + 1) (j + 1) 0) as (H1 & H2 & H3); try done; try lia.
      split_and!; [lia|lia|done|].
      intros s Hs. destruct (Z.ltb_spec (a + j) s); [apply H3; lia|].
      exists (a + j). split; [lia|]. rewrite <- Hx. done.
Qed.

(** ** Reading a well-formed state *)

Lemma page_split i k : 0 <= k < 1024 -> (1024 * i + k) / 1024 = i /\ (1024 * i + k) mod 1024 = k.
Proof. intros. split; dlia. Qed.

Lemma entryAt_table ps i pt k :
  (pageTables ps).[i] = Some pt -> 0 <= k < 1024 -> entryAt ps (1024 * i + k) = pt.[k].
Proof.
  intros Hpt Hk. unfold entryAt. destruct (page_split i k Hk) as [-> ->]. by rewrite Hpt.
Qed.

Lemma freePage_entry ps p : freePage ps p <-> exists e, entryAt ps p = Some e /\ entryCode e = 0.
Proof.
  unfold freePage, codeAt. destruct (entryAt ps p) as [e|]; split.
  - eauto.
  - intros (e' & [= <-] & ?). done.
  - done.
  - intros (e' & ? & ?). done.
Qed.

Section wf_reading.
Context (ps : PagingStructures) (Hwf : wf ps).

Lemma wf_getPageTable i :
  0 <= i < 1023 ->
  exists pt, getPageTable ps i = Some pt /\ (pageTables ps).[i] = Some pt /\ tableOk pt /\
    segment (freePage ps) (1024 * i) pt.
Proof using Hwf.
  intros Hi. destruct (znth_lt_Some (pageTables ps) i) as [pt Hpt]; [by rewrite (wf_tables _ Hwf)|].
  pose proof (wf_table _ Hwf _ _ Hpt) as [Hlen Hu].
  exists pt. split_and!; [|done|done|].
  - unfold getPageTable. bool_case; [done|lia].
  - intros k e Hk. pose proof (znth_Some_lt _ _ _ Hk).
    rewrite entryIsFree_code by (by eapply znth_Forall).
    rewrite freePage_entry, (entryAt_table ps i pt k), Hk by (done || lia).
    rewrite Z.eqb_eq. split; [eauto|]. by intros (e' & [= <-] & ?).
Qed.

Lemma entryAt_Some p : is_Some (entryAt ps p) <-> 0 <= p < NPAGES.
Proof using Hwf.
  unfold NPAGES. split.
  - unfold entryAt. intros [e He]. destruct ((pageTables ps).[p / 1024]) eqn:E; [|done].
    apply znth_Some_lt in E. rewrite (wf_tables _ Hwf) in E. dlia.
  - intros Hp. destruct (wf_getPageTable (p / 1024)) as (pt & _ & Hpt & [Hl _] & _); [dlia|].
    unfold entryAt. rewrite Hpt. destruct (znth_lt_Some pt (p mod 1024)) as [e He]; [dlia|]. by exists e.
Qed.

Lemma freePage_bound p : freePage ps p -> 0 <= p < NPAGES.
Proof using Hwf. intros (e & He & _)%freePage_entry. apply entryAt_Some. by exists e. Qed.

Lemma entryAt_u32 p e : entryAt ps p = Some e -> is_u32 e.
Proof using Hwf.
  unfold entryAt. destruct ((pageTables ps).[p / 1024]) as [pt|] eqn:E; [|done].
  apply znth_Forall. apply (wf_table _ Hwf _ _ E).
Qed.

Lemma getPageTable_beyond i : 1023 <= i -> getPageTable ps i = None.
Proof. intros Hi. unfold getPageTable. bool_case; [lia|done]. Qed.

Lemma checkFree_spec F b pt :
  segment F b pt -> checkPageTableFullyNotAllocated pt = true <-> forall p, b <= p < b + zlength pt -> F p.
Proof.
  unfold checkPageTableFullyNotAllocated. intros HS. split.
  - intros HA p Hp. destruct (znth_lt_Some pt (p - b)) as [e He]; [lia|].
    replace p with (b + (p - b)) by lia. apply (HS _ _ He).
    rewrite forallb_forall in HA. apply HA, znth_In. eauto.
  - intros HA. apply forallb_forall. intros e [k He]%znth_In.
    pose proof (znth_Some_lt _ _ _ He). apply (HS _ _ He). apply HA. lia.
Qed.

Lemma checkAllocated_spec F b pt :
  segment F b pt -> checkPageTableFullyAllocated pt = true <-> forall p, b <= p < b + zlength pt -> ~ F p.
Proof.
  unfold checkPageTableFullyAllocated. intros HS. split.
  - intros HA p Hp Hf. destruct (znth_lt_Some pt (p - b)) as [e He]; [lia|].
    rewrite forallb_forall in HA. specialize (HA e (proj2 (znth_In pt e) (ex_intro _ _ He))).
    rewrite negb_true_iff in HA. assert (entryIsFree e = true); [|congruence]. apply (HS _ _ He).
    by replace (b + (p - b)) with p by lia.
  - intros HA. apply forallb_forall. intros e [k He]%znth_In. pose proof (znth_Some_lt _ _ _ He).
    apply negb_true_iff, not_true_iff_false. intros Hf%(HS _ _ He). by apply (HA (b + k)); [lia|].
Qed.

(** What the directory entry of page table [i] says of its pages. *)
Lemma directoryEntry_table i :
  0 <= i < 1023 ->
  exists e, directoryEntry ps i = Ok e /\ is_u32 e /\
    (entryCode e = 0 <-> freeRun ps (1024 * i) 1024) /\
    (entryCode e = 2 <-> forall p, 1024 * i <= p < 1024 * i + 1024 -> ~ freePage ps p).
Proof using Hwf.
  intros Hi. unfold directoryEntry. bool_case; [|lia].
  destruct (znth_lt_Some (pageDirectoryEntries (pageDirectory ps)) i) as [e He];
    [rewrite (wf_directory _ Hwf); lia|].
  rewrite He. exists e. destruct (wf_getPageTable i Hi) as (pt & _ & Hpt & [Hl Hu] & HS).
  rewrite (wf_summary _ Hwf _ _ _ Hpt He). unfold tableSummary, freeRun.
  pose proof (checkFree_spec _ _ _ HS) as HF. rewrite Hl in HF.
  split_and!; [done|eapply znth_Forall; [apply (wf_directory_u32 _ Hwf)|done]|..].
  - rewrite <- HF. destruct (checkPageTableFullyNotAllocated pt); [done|]. by case_match.
  - pose proof (checkAllocated_spec _ _ _ HS) as HA. rewrite Hl in HA. rewrite <- HA.
    destruct (checkPageTableFullyNotAllocated pt) eqn:EN.
    + split; [done|]. intros HA1. exfalso. rewrite HA in HA1. apply (HA1 (1024 * i)); [lia|].
      apply HF; [done|lia].
    + by destruct (checkPageTableFullyAllocated pt).
Qed.

Lemma directoryEntry_beyond i :
  1023 <= i < 2048 -> exists e, directoryEntry ps i = Ok e /\ entryIsFree e = true.
Proof using Hwf.
  intros Hi. unfold directoryEntry. bool_case.
  - replace i with 1023 by lia.
    destruct (znth_lt_Some (pageDirectoryEntries (pageDirectory ps)) 1023) as [e He];
      [rewrite (wf_directory _ Hwf); lia|].
    rewrite He. exists e. split; [done|]. by apply (wf_last_code _ Hwf).
  - destruct (znth_lt_Some (helperTableEntries (pageDirectory ps)) (i - 1024)) as [e He];
      [rewrite (wf_helper _ Hwf); lia|].
    rewrite He. exists e. split; [done|]. by apply (wf_helper_code _ Hwf _ _ He).
Qed.

(** The number of free tables in a row. *)
Lemma countFreeTables_spec rem k :
  0 <= k -> k + Z.of_nat rem <= 2048 ->
  exists j, countFreeTables rem k ps = Ok j /\ 0 <= j <= Z.of_nat rem /\
    (forall i, k <= i < k + j -> i < 1023 -> freeRun ps (1024 * i) 1024) /\
    (j < Z.of_nat rem -> k + j < 1023 /\ ~ freeRun ps (1024 * (k + j)) 1024).
Proof using Hwf.
  revert k. induction rem as [|rem IH]; intros k Hk Hrem; cbn [countFreeTables].
  - exists 0. split_and!; first [done | intros; lia].
  - assert (He : exists e, directoryEntry ps k = Ok e /\
      (entryIsFree e = true -> k < 1023 -> freeRun ps (1024 * k) 1024) /\
      (entryIsFree e = false -> k < 1023 /\ ~ freeRun ps (1024 * k) 1024)).
    { destruct (Z.ltb_spec k 1023).
      - destruct (directoryEntry_table k) as (e & He & Hu & Hc & _); [lia|]. exists e.
        rewrite (entryIsFree_code e Hu), <- Hc. split_and!; [done|by intros ?%Z.eqb_eq|].
        intros ?%Z.eqb_neq. done.
      - destruct (directoryEntry_beyond k) as (e & He & Hf); [lia|]. exists e.
        split_and!; [done|lia|congruence]. }
    destruct He as (e & -> & Ht & Hf). cbn [mbind result_bind]. unfold entryIsFree in *.
    destruct (Z.land e 0x600 =? 0); cbn [negb].
    + destruct (IH (k + 1)) as (j & -> & Hj & H1 & H2); [lia|lia|]. cbn [mbind result_bind].
      exists (1 + j). split_and!; [done|lia|lia| |].
      * intros i Hi Hlt. destruct (decide (i = k)) as [->|]; [by apply Ht|]. apply H1; lia.
      * replace (k + (1 + j)) with (k + 1 + j) by lia. intros. apply H2. lia.
    + exists 0. rewrite Z.add_0_r. split_and!; first [done | intros; lia | intros; by apply Hf].
Qed.

(** Free pages at the start of the tables from [k] on, two tables at most. *)
Lemma freeAhead_spec k x :
  0 <= k ->
  exists y, 0 <= y <= 2048 /\ freeRun ps (1024 * k) y /\
    (y < 2048 -> ~ freePage ps (1024 * k + y)) /\ (1023 <= k -> y = 0) /\
    (let b := numFreeAtBegin (getPageTable ps k) in
     (if b =? 1024 then x + b + numFreeAtBegin (getPageTable ps (k + 1)) else x + b) = x + y).
Proof using Hwf.
  intros Hk.
  assert (HB : forall i, 0 <= i -> let b := numFreeAtBegin (getPageTable ps i) in
    0 <= b <= 1024 /\ freeRun ps (1024 * i) b /\ (b < 1024 -> ~ freePage ps (1024 * i + b)) /\
    (1023 <= i -> b = 0)).
  { intros i Hi. destruct (Z.ltb_spec i 1023).
    - destruct (wf_getPageTable i) as (pt & -> & _ & [Hl _] & HS); [lia|]. cbn [numFreeAtBegin].
      destruct (countFreePrefix_spec _ _ _ HS) as (H1 & H2 & H3). rewrite Hl in *.
      split_and!; try done; lia.
    - rewrite getPageTable_beyond by done. cbn. split_and!; [done|done|intros ?; lia| |done].
      intros _ Hf%freePage_bound. unfold NPAGES in Hf. lia. }
  destruct (HB k Hk) as (H1 & H2 & H3 & H4). destruct (HB (k + 1) ltac:(lia)) as (H5 & H6 & H7 & H8).
  cbn zeta. destruct (Z.eqb_spec (numFreeAtBegin (getPageTable ps k)) 1024) as [E|E].
  - exists (numFreeAtBegin (getPageTable ps k) + numFreeAtBegin (getPageTable ps (k + 1))).
    split_and!; [lia|lia| | | |lia].
    + intros p Hp. destruct (Z.ltb_spec p (1024 * (k + 1))); [apply H2; lia|apply H6; lia].
    + rewrite E. replace (1024 * k + (1024 + numFreeAtBegin (getPageTable ps (k + 1))))
        with (1024 * (k + 1) + numFreeAtBegin (getPageTable ps (k + 1))) by lia. intros. apply H7. lia.
    + intros. rewrite H4 in E by done. done.
  - exists (numFreeAtBegin (getPageTable ps k)).
    split_and!; [lia|lia|done| |done|done]. intros. apply H3. lia.
Qed.
End wf_reading.

(** ** The search *)

Definition noStart (ps : PagingStructures) (n lo hi : Z) : Prop :=
  forall s, lo <= s < hi -> blocked (freePage ps) n s.

(** The sizes the search handles: see [allocateContiguousPages_null_table]
    for the others. *)
Definition searchable (n : Z) : Prop :=
  0 < n <= NPAGES /\ (n < 2047 \/ n mod 1024 <> 1023).

Lemma minNumPageTables_small n : 0 < n < 2047 -> minNumPageTables n = 0.
Proof. intros. unfold minNumPageTables. bool_case; [done|dlia]. Qed.

Lemma minNumPageTables_large n :
  2047 <= n -> n mod 1024 <> 1023 ->
  let m := minNumPageTables n in 1 <= m /\ 1024 * m + 1024 <= n <= 1024 * m + 2046.
Proof. intros H1 H2. cbn zeta. unfold minNumPageTables. bool_case; dlia. Qed.

Lemma noStart_app ps n a b c : noStart ps n a b -> noStart ps n b c -> noStart ps n a c.
Proof. intros H1 H2 s Hs. destruct (Z.ltb_spec s b); [apply H1; lia|apply H2; lia]. Qed.

(** All starts up to [q - n] and beyond are blocked by a page [q] in use. *)
Lemma noStart_before ps n q lo hi :
  ~ freePage ps q -> q < lo + n -> hi <= q + 1 -> noStart ps n lo hi.
Proof. intros Hq Hlo Hhi s Hs. exists q. split; [lia|done]. Qed.

Lemma not_freeRun ps a n : ~ freeRun ps a n -> exists q, a <= q < a + n /\ ~ freePage ps q.
Proof.
  intros Hnot.
  destruct (decide (Forall (fun k => codeAt ps (a + Z.of_nat k) = 0) (seq 0 (Z.to_nat n)))) as [HA|HE].
  - exfalso. apply Hnot. intros p Hp. rewrite Forall_seq in HA.
    specialize (HA (Z.to_nat (p - a)) ltac:(lia)).
    by replace (a + Z.of_nat (Z.to_nat (p - a))) with p in HA by lia.
  - apply not_Forall_Exists, Exists_exists in HE; [|exact _].
    destruct HE as (k & Hk%elem_of_seq & Hc). exists (a + Z.of_nat k). split; [lia|done].
Qed.

Lemma freeRun_app ps a m b n : b = a + m -> 0 <= m -> freeRun ps a m -> freeRun ps b n -> freeRun ps a (m + n).
Proof.
  intros -> Hm H1 H2 p Hp. destruct (Z.ltb_spec p (a + m)); [apply H1; lia|apply H2; lia].
Qed.

Lemma freeRun_sub ps a m b n : freeRun ps a m -> a <= b -> b + n <= a + m -> freeRun ps b n.
Proof. intros H1 ? ? p Hp. apply H1. lia. Qed.

Section search.
Context (ps : PagingStructures) (Hwf : wf ps) (n : Z).

Definition foundAt (i : Z) : Prop :=
  exists pt, getPageTable ps i = Some pt /\
    let f := foundPageIndex pt n i in
    1024 * i <= f /\ freeRun ps f n /\ noStart ps n (1024 * i) f.

Lemma findMaxFreeSpace_spec i :
  0 < n < 2047 -> 0 <= i < 1023 ->
  exists r, findMaxFreeSpaceStartingFromTable ps i = Ok r /\
    (n <= r -> foundAt i) /\ (r < n -> noStart ps n (1024 * i) (1024 * (i + 1))).
Proof using Hwf.
  intros Hn Hi. unfold findMaxFreeSpaceStartingFromTable, foundAt, foundPageIndex.
  rewrite minNumPageTables_small by done. replace (n - 0 * 1024) with n by lia.
  destruct (wf_getPageTable ps Hwf i Hi) as (pt & Hpt & _ & [Hl _] & HS). rewrite Hpt.
  destruct (Z.leb_spec 1023 i); [lia|]. cbn [mbind result_bind orFault].
  pose proof (scanRuns_spec _ _ pt 0 0 n HS ltac:(lia) ltac:(lia) ltac:(intros; lia)) as Hscan.
  cbn zeta in Hscan. rewrite Hl in Hscan.
  destruct (scanRuns pt 0 0) as [r c]. destruct Hscan as (_ & H2 & H3 & H4 & H5).
  rewrite !Z.sub_0_r in *.
  destruct (findRunStart_spec (freePage ps) (1024 * i) pt 0 0 0 n) as (F1 & F2 & F3);
    [by rewrite Z.add_0_r|lia|lia|lia|intros; lia|]. cbn zeta in F2, F3. rewrite Hl in *.
  set (f0 := findRunStart pt 0 0 0 n) in *.
  replace (1024 * i + 0) with (1024 * i) in * by lia.
  assert (Hacc : forall g, 1024 * i <= g <= 1024 * i + 1024 -> freeRun ps g n ->
    freeRun ps (1024 * i + f0) n).
  { intros g Hg Hrun. destruct (Z.ltb_spec g (1024 * i + f0)).
    - destruct (F3 g) as (q & Hq & Hnf); [lia|]. by destruct Hnf; apply Hrun.
    - intros p Hp. destruct (Z.ltb_spec p (1024 * i + 1024)); [apply F2; lia|apply Hrun; lia]. }
  assert (Hgoal : freeRun ps (1024 * i + f0) n -> exists pt', Some pt = Some pt' /\
    (let f := (if 0 =? 0 then i * 1024 + findRunStart pt' 0 0 0 n
       else i * 1024 + (1024 - countFreePrefix (reverse pt'))) in
     1024 * i <= f /\ freeRun ps f n /\ noStart ps n (1024 * i) f)).
  { intros Hr. exists pt. split; [done|]. cbn -[Z.mul]. fold f0.
    replace (i * 1024 + f0) with (1024 * i + f0) by lia. split_and!; [lia|done|done]. }
  destruct (Z.eqb_spec c 0) as [->|Hc].
  - exists r. split_and!; [done| |].
    + intros Hr. apply Hgoal. destruct H4 as (g & ? & ? & ?); [lia|]. by apply (Hacc g); [lia|].
    + intros Hr s Hs. apply H5; lia.
  - destruct (freeAhead_spec ps Hwf (i + 1) c) as (y & Hy & Hrun & Hstop & _ & Heq); [lia|].
    cbn zeta in Heq. replace (i + 1 + 1) with (i + 2) in Heq by lia. rewrite Heq.
    eexists; split_and!; [done| |].
    + intros Hr. apply Hgoal. destruct (Z.ltb_spec r (c + y)).
      * apply (Hacc (1024 * (i + 1) - c)); [lia|]. apply (freeRun_sub ps (1024 * (i + 1) - c) (c + y)); [|lia..].
        apply (freeRun_app _ _ _ (1024 * (i + 1))); [lia|lia| |done]. intros p Hp. apply H3. lia.
      * destruct H4 as (g & ? & ? & ?); [lia|]. by apply (Hacc g); [lia|].
    + intros Hr. assert (c + y < n /\ r < n) as [? ?] by (destruct (Z.ltb_spec r (c + y)); lia).
      apply (noStart_app _ _ _ (1024 * (i + 1) - c)).
      * intros s Hs. apply H5; lia.
      * apply (noStart_before _ _ (1024 * (i + 1) + y)); [|lia..]. apply Hstop. lia.
Qed.

Definition stepOk (i : Z) (r : Z + Z) : Prop :=
  match r with
  | inl i' => i' = i /\ foundAt i
  | inr i' => i < i' /\ noStart ps n (1024 * i) (1024 * i')
  end.

(** The part of table [i] a large region may begin with. *)
Lemma lastPart_spec i e :
  0 <= i < 1023 -> directoryEntry ps i = Ok e -> is_u32 e ->
  (entryCode e = 0 <-> freeRun ps (1024 * i) 1024) ->
  exists pt, getPageTable ps i = Some pt /\
    let x := countFreePrefix (reverse pt) in
    0 <= x <= 1024 /\ freeRun ps (1024 * (i + 1) - x) x /\
    (x < 1024 -> ~ freePage ps (1024 * (i + 1) - x - 1)) /\
    (entryCode e = 0 <-> x = 1024).
Proof using Hwf.
  intros Hi He Hu Hcode.
  destruct (wf_getPageTable ps Hwf i Hi) as (pt & Hpt & _ & [Hl _] & HS).
  exists pt. split; [done|]. destruct (countFreeSuffix_spec _ _ _ HS) as (H1 & H2 & H3).
  cbn zeta in *. rewrite Hl in *. replace (1024 * (i + 1)) with (1024 * i + 1024) by lia.
  split_and!; [lia|lia| |done|].
  - intros p Hp. apply H2. lia.
  - rewrite Hcode. split.
    + intros Hr. destruct (decide (countFreePrefix (reverse pt) = 1024)); [done|].
      destruct H3; [lia|]. apply Hr. lia.
    + intros Hx p Hp. apply H2. lia.
Qed.

Lemma searchStep_large i :
  2047 <= n -> n <= NPAGES -> n mod 1024 <> 1023 -> 0 <= i < 1023 ->
  exists r, searchStep ps n i = Ok r /\ stepOk i r.
Proof using Hwf.
  intros Hn HN Hmod Hi. destruct (minNumPageTables_large n Hn Hmod) as [Hm Hother].
  cbn zeta in Hm, Hother. unfold stepOk, foundAt, foundPageIndex, searchStep.
  set (m := minNumPageTables n) in *. assert (HmN : m <= 1022) by (unfold NPAGES in HN; lia).
  destruct (directoryEntry_table ps Hwf i Hi) as (e & He & Hu & Hfree & Hfull).
  destruct (lastPart_spec i e Hi He Hu Hfree) as (pt & Hpt & Hx & Hxfree & Hxstop & Hx0).
  cbn zeta in Hx, Hxfree, Hxstop, Hx0. rewrite He, Hpt. cbn [mbind result_bind].
  destruct (Z.eqb_spec (entryCode e) PAGE_TABLE_FULLY_ALLOCATED_CODE) as [E2|E2]; cbn [negb].
  { eexists; split; [done|]. cbn. split; [lia|].
    intros s Hs. exists s. split; [lia|]. apply Hfull; [done|lia]. }
  destruct (Z.eqb_spec m 0); [lia|]. cbn [negb]. rewrite andb_true_r.
  set (rem := if entryCode e =? 0 then m - 1 else m).
  assert (Hrem : rem = m - 1 /\ countFreePrefix (reverse pt) = 1024 \/
                 rem = m /\ countFreePrefix (reverse pt) < 1024).
  { unfold rem. destruct (Z.eqb_spec (entryCode e) 0); [left|right]; lia. }
  destruct (countFreeTables_spec ps Hwf (Z.to_nat rem) (i + 1)) as (j & -> & Hj & Hjfree & Hjstop); [lia|lia|].
  cbn [mbind result_bind numFreeAtEnd].
  (* every start before the free end of table [i] is blocked *)
  assert (Hhead : noStart ps n (1024 * i) (1024 * (i + 1) - countFreePrefix (reverse pt))).
  { destruct (decide (countFreePrefix (reverse pt) = 1024)) as [->|]; [intros s ?; lia|].
    apply (noStart_before _ _ (1024 * (i + 1) - countFreePrefix (reverse pt) - 1)); [|lia..].
    apply Hxstop. lia. }
  destruct (Z.eqb_spec j rem) as [->|Hjr]; cbn [negb].
  2:{ eexists; split; [done|]. cbn. split; [lia|]. destruct Hjstop as [_ HF]; [lia|].
      apply not_freeRun in HF as (q & Hq & Hnf). 
      eapply noStart_app; [apply Hhead|]. apply (noStart_before _ _ q); [done|lia..]. }
  replace (if negb (entryCode e =? 0) then countFreePrefix (reverse pt) else 0)
    with (if rem =? m then countFreePrefix (reverse pt) else 0)
    by (unfold rem; destruct (entryCode e =? 0); cbn; repeat bool_case; lia).
  destruct (freeAhead_spec ps Hwf (i + rem + 1) (if rem =? m then countFreePrefix (reverse pt) else 0))
    as (y & Hy & Hyfree & Hystop & Hy0 & Heq); [lia|].
  cbn zeta in Heq. replace (i + rem + 1 + 1) with (i + rem + 2) in Heq by lia. rewrite Heq.
  destruct (Z.leb_spec (n - m * 1024) ((if rem =? m then countFreePrefix (reverse pt) else 0) + y)) as [Hacc|Hrej].
  - eexists; split; [done|]. cbn beta iota. split; [done|]. exists pt. split; [done|].
    assert (Hlt : i + rem + 1 < 1023) by (destruct (Z.eqb_spec rem m); lia).
    replace (i * 1024 + (1024 - countFreePrefix (reverse pt)))
      with (1024 * (i + 1) - countFreePrefix (reverse pt)) by lia.
    split_and!; [lia| |done].
    assert (Hmid : freeRun ps (1024 * (i + 1)) (1024 * rem)).
    { intros p Hp. apply (Hjfree (p / 1024)); dlia. }
    apply (freeRun_sub ps (1024 * (i + 1) - countFreePrefix (reverse pt))
             (countFreePrefix (reverse pt) + (1024 * rem + y))); [|lia|destruct (Z.eqb_spec rem m); lia].
    apply (freeRun_app _ _ _ (1024 * (i + 1))); [lia|lia|done|].
    apply (freeRun_app _ _ _ (1024 * (i + rem + 1))); [lia|lia|done|done].
  - eexists; split; [done|]. cbn beta iota. split; [lia|].
    eapply noStart_app; [apply Hhead|].
    destruct (Z.ltb_spec (i + rem + 1) 1023).
    + apply (noStart_before _ _ (1024 * (i + rem + 1) + y));
        [|destruct (Z.eqb_spec rem m); lia..].
      apply Hystop. destruct (Z.eqb_spec rem m); lia.
    + intros s Hs. destruct (Z.ltb_spec s NPAGES).
      * exists NPAGES. split; [unfold NPAGES in *; lia|].
        intros Hf%(freePage_bound ps Hwf). lia.
      * exists s. split; [lia|]. intros Hf%(freePage_bound ps Hwf). lia.
Qed.

Lemma searchStep_small i :
  0 < n < 2047 -> 0 <= i < 1023 -> exists r, searchStep ps n i = Ok r /\ stepOk i r.
Proof using Hwf.
  intros Hn Hi. unfold searchStep. rewrite minNumPageTables_small by done.
  destruct (directoryEntry_table ps Hwf i Hi) as (e & He & Hu & _ & Hfull).
  rewrite He. cbn [mbind result_bind].
  destruct (Z.eqb_spec (entryCode e) PAGE_TABLE_FULLY_ALLOCATED_CODE) as [E2|E2]; cbn [negb].
  { eexists; split; [done|]. cbn. split; [lia|].
    intros s Hs. exists s. split; [lia|]. apply Hfull; [done|lia]. }
  change (0 =? 0) with true. cbn [negb]. rewrite andb_false_r.
  change (Z.to_nat 0) with O. cbn [countFreeTables mbind result_bind negb].
  destruct (findMaxFreeSpace_spec i Hn Hi) as (r & Hr & Hacc & Hrej). rewrite Hr.
  cbn -[Z.mul Z.add Z.sub]. replace (n - 0 * 1024) with n by lia.
  destruct (Z.leb_spec n r); (eexists; split; [done|]); cbn -[Z.mul Z.add]; split; auto; lia.
Qed.

Lemma searchStep_spec i :
  searchable n -> 0 <= i < 1023 -> exists r, searchStep ps n i = Ok r /\ stepOk i r.
Proof using Hwf.
  intros [Hn Hm] Hi. destruct (Z.ltb_spec n 2047);
    [apply searchStep_small|apply searchStep_large]; lia.
Qed.

(** The search ends, and finds the lowest start of a region if there is one. *)
Lemma searchTable_spec fuel i :
  searchable n -> 0 <= i -> 1023 - i <= Z.of_nat fuel ->
  exists r, searchTable fuel ps n i = Ok r /\
    match r with
    | Some i' => i <= i' < 1023 /\ foundAt i' /\ noStart ps n (1024 * i) (1024 * i')
    | None => noStart ps n (1024 * i) NPAGES
    end.
Proof using Hwf.
  intros Hn. revert i. induction fuel as [|fuel IH]; intros i Hi Hfuel; cbn [searchTable].
  - destruct (Z.ltb_spec i 1023); [lia|]. eexists; split; [done|]. intros s Hs. unfold NPAGES in Hs. lia.
  - destruct (Z.ltb_spec i 1023).
    2:{ eexists; split; [done|]. intros s Hs. unfold NPAGES in Hs. lia. }
    destruct (searchStep_spec i Hn ltac:(lia)) as (r & -> & Hr). cbn [mbind result_bind].
    destruct r as [i'|i']; cbn [stepOk] in Hr; destruct Hr as [Hi' Hf].
    + subst i'. eexists; split; [done|]. cbn beta iota. split_and!; [lia|lia|done|intros s ?; lia].
    + destruct (IH i' ltac:(lia) ltac:(lia)) as (r & -> & Hr). eexists; split; [done|].
      destruct r as [i''|]; [|by eapply noStart_app].
      destruct Hr as (? & ? & ?). split_and!; [lia|lia|done|by eapply noStart_app].
Qed.
End search.

(** ** Updating a page table together with its directory entry *)

Lemma is_u32_code_summary pt : 0 <= tableSummary pt <= 3.
Proof. unfold tableSummary. repeat case_match; vm_compute; intuition congruence. Qed.

Lemma map_clearCode_zset l i e :
  map clearCode l.[i := e] = (map clearCode l).[i := clearCode e].
Proof. unfold zset. case_match; [|done]. apply list_fmap_insert. Qed.

Lemma update_table ps i pt' :
  wf ps -> 0 <= i < 1023 -> tableOk pt' ->
  exists ps', setDirectoryCode (setPageTable ps i pt') i (tableSummary pt') = Ok ps' /\
    wf ps' /\ sameFrame ps ps' /\
    forall p, entryAt ps' p = if p / 1024 =? i then pt'.[p mod 1024] else entryAt ps p.
Proof.
  intros Hwf Hi Hok. unfold setDirectoryCode, setPageTable; cbn [pageDirectory pageTables].
  destruct (znth_lt_Some (pageDirectoryEntries (pageDirectory ps)) i) as [e He];
    [rewrite (wf_directory _ Hwf); lia|].
  rewrite He. cbn [mbind result_bind orFault]. eexists; split; [done|].
  assert (Hu : is_u32 e) by (eapply znth_Forall; [apply (wf_directory_u32 _ Hwf)|done]).
  pose proof (is_u32_code_summary pt') as Hsum.
  destruct Hwf as [W1 W2 W3 W4 W5 W6 W7 W8]. split; [constructor; cbn|split].
  - by rewrite zlength_zset.
  - apply zset_Forall; [done|]. auto with cpu.
  - done.
  - done.
  - rewrite znth_zset_ne by lia. done.
  - by rewrite zlength_zset.
  - intros k pt. rewrite znth_zset. case_bool_decide as Hk; [|by apply W7]. congruence.
  - intros k pt x. destruct (decide (i = k)) as [<-|Hne].
    + rewrite !znth_zset_eq by lia. intros [= <-] [= <-].
      rewrite entryCode_orCode, entryCode_clearCode by auto with cpu. done.
    + rewrite !znth_zset_ne by done. apply W8.
  - split; cbn; [done|]. rewrite map_clearCode_zset. apply zset_id.
    rewrite clearCode_orCode, clearCode_idem, znth_map, He by auto with cpu. done.
  - intros p. unfold entryAt; cbn. destruct (Z.eqb_spec (p / 1024) i) as [->|Hne].
    + by rewrite znth_zset_eq by lia.
    + by rewrite znth_zset_ne by done.
Qed.

Lemma sameFrame_refl ps : sameFrame ps ps.
Proof. done. Qed.

Lemma sameFrame_trans ps1 ps2 ps3 : sameFrame ps1 ps2 -> sameFrame ps2 ps3 -> sameFrame ps1 ps3.
Proof. unfold sameFrame. intros [? ?] [? ?]. split; congruence. Qed.

Lemma pagesUpdated_refl f ps :
  wf ps -> (forall p e, entryAt ps p = Some e -> f p e = e) -> pagesUpdated f ps ps.
Proof.
  intros Hwf Hf. split; [done|apply sameFrame_refl|]. intros p.
  destruct (entryAt ps p) eqn:E; [|done]. cbn. by rewrite Hf.
Qed.

Lemma pagesUpdated_trans f g h ps1 ps2 ps3 :
  pagesUpdated f ps1 ps2 -> pagesUpdated g ps2 ps3 ->
  (forall p e, entryAt ps1 p = Some e -> h p e = g p (f p e)) -> pagesUpdated h ps1 ps3.
Proof.
  intros [_ H1 H2] [W H3 H4] Hh. split; [done|by eapply sameFrame_trans|]. intros p.
  rewrite H4, H2. destruct (entryAt ps1 p) eqn:E; [|done]. cbn. by rewrite Hh.
Qed.

Lemma update_table_pages f ps i pt pt' :
  wf ps -> 0 <= i < 1023 -> (pageTables ps).[i] = Some pt -> tableOk pt' ->
  (forall k, 0 <= k < 1024 -> pt'.[k] = f (1024 * i + k) <$> pt.[k]) ->
  (forall p e, p / 1024 <> i -> f p e = e) ->
  exists ps', setDirectoryCode (setPageTable ps i pt') i (tableSummary pt') = Ok ps' /\
    pagesUpdated f ps ps'.
Proof.
  intros Hwf Hi Hpt Hok Hk Hf. destruct (update_table ps i pt' Hwf Hi Hok) as (ps' & Eq & Hwf' & Hfr & He).
  exists ps'. split; [done|]. split; [done..|]. intros p. rewrite He.
  destruct (Z.eqb_spec (p / 1024) i) as [E|E].
  - rewrite Hk by dlia. replace (1024 * i + p mod 1024) with p by dlia. f_equal.
    unfold entryAt. by rewrite E, Hpt.
  - destruct (entryAt ps p); [|done]. cbn. by rewrite Hf.
Qed.

Lemma zlength_markEntriesFrom j b e c pt : zlength (markEntriesFrom j b e c pt) = zlength pt.
Proof.
  revert j. induction pt as [|x pt IH]; intros j; [done|]. cbn [markEntriesFrom].
  by rewrite !zlength_cons, IH.
Qed.

Lemma znth_markEntriesFrom j b e c pt k :
  (markEntriesFrom j b e c pt).[k] =
  (fun x => if (b <=? j + k) && (j + k <=? e) then orCode x c else x) <$> pt.[k].
Proof.
  revert j k. induction pt as [|x pt IH]; intros j k.
  - cbn. by rewrite znth_nil.
  - cbn [markEntriesFrom]. destruct (Z.ltb_spec k 0).
    { rewrite !(proj2 (znth_None _ k)); [done|lia|lia]. }
    destruct (decide (k = 0)) as [->|].
    + rewrite !znth_cons_0. cbn. by rewrite Z.add_0_r.
    + rewrite !znth_cons_pos, IH by lia. by replace (j + 1 + (k - 1)) with (j + k) by lia.
Qed.

Lemma markEntries_ok b e c pt : 0 <= c <= 3 -> tableOk pt -> tableOk (markEntries b e c pt).
Proof.
  intros Hc [Hl Hu]. unfold markEntries. split; [by rewrite zlength_markEntriesFrom|].
  apply Forall_znth. intros k x. rewrite znth_markEntriesFrom.
  destruct (pt.[k]) eqn:E; [|done]. pose proof (znth_Forall _ _ _ _ Hu E).
  intros [= <-]. case_match; auto with cpu.
Qed.

Lemma znth_markEntries b e c pt k :
  (markEntries b e c pt).[k] = (fun x => if (b <=? k) && (k <=? e) then orCode x c else x) <$> pt.[k].
Proof. unfold markEntries. by rewrite znth_markEntriesFrom. Qed.

Lemma orCode_not_free x c : is_u32 x -> 1 <= c <= 3 -> entryIsFree (orCode x c) = false.
Proof.
  intros Hx Hc. rewrite entryIsFree_code, entryCode_orCode by auto with cpu.
  apply Z.eqb_neq. intros E%Z.lor_eq_0_iff. lia.
Qed.

(** The directory code the allocation loop stores is the right one. *)
Lemma markEntries_summary b e c pt :
  tableOk pt -> 1 <= c <= 3 -> 0 <= b -> b <= e -> e <= 1023 ->
  let pt' := markEntries b e c pt in
  tableSummary pt' =
    (if (b =? 0) && (e =? 1023) then PAGE_TABLE_FULLY_ALLOCATED_CODE
     else if checkPageTableFullyAllocated pt' then PAGE_TABLE_FULLY_ALLOCATED_CODE
     else PAGE_TABLE_PARTLY_ALLOCATED_CODE).
Proof.
  intros [Hl Hu] Hc Hb Hbe He pt'. unfold tableSummary.
  assert (Hmarked : forall k, b <= k <= e -> exists x, pt'.[k] = Some (orCode x c) /\ is_u32 x).
  { intros k Hk. destruct (znth_lt_Some pt k) as [x Hx]; [lia|]. exists x. unfold pt'.
    rewrite znth_markEntries, Hx. cbn. split; [|by eapply znth_Forall].
    destruct (Z.leb_spec b k), (Z.leb_spec k e); by try lia. }
  assert (HN : checkPageTableFullyNotAllocated pt' = false).
  { apply not_true_iff_false. unfold checkPageTableFullyNotAllocated. rewrite forallb_forall. intros HA.
    destruct (Hmarked b ltac:(lia)) as (x & Hx & Hux).
    specialize (HA (orCode x c) (proj2 (znth_In _ _) (ex_intro _ _ Hx))).
    by rewrite orCode_not_free in HA. }
  rewrite HN. destruct (Z.eqb_spec b 0) as [->|]; [|done]. destruct (Z.eqb_spec e 1023) as [->|]; [|done].
  cbn [andb]. assert (HA : checkPageTableFullyAllocated pt' = true); [|by rewrite HA].
  unfold checkPageTableFullyAllocated. rewrite forallb_forall. intros x [k Hk]%znth_In.
  pose proof (znth_Some_lt _ _ _ Hk) as Hlt. unfold pt', markEntries in Hlt.
  rewrite zlength_markEntriesFrom, Hl in Hlt. destruct (Hmarked k ltac:(lia)) as (y & Hy & Huy).
  rewrite Hy in Hk. injection Hk as <-. by rewrite orCode_not_free.
Qed.

Definition markRange (lo hi c p e : Z) : Z := if (lo <=? p) && (p <=? hi) then orCode e c else e.

Lemma markRange_in lo hi c p e : lo <= p <= hi -> markRange lo hi c p e = orCode e c.
Proof. intros. unfold markRange. destruct (Z.leb_spec lo p), (Z.leb_spec p hi); by try lia. Qed.

Lemma markRange_out lo hi c p e : ~ (lo <= p <= hi) -> markRange lo hi c p e = e.
Proof. intros. unfold markRange. destruct (Z.leb_spec lo p), (Z.leb_spec p hi); by try lia. Qed.

(** The allocation loop marks the pages from [lo] to [hi]. *)
Lemma allocatePagesLoop_spec fuel i c firstPDE firstPTE lastPDE lastPTE ps :
  wf ps -> 1 <= c <= 3 -> 0 <= firstPDE <= i -> 0 <= firstPTE < 1024 ->
  lastPDE < 1023 -> 0 <= lastPTE < 1024 -> lastPDE - i < Z.of_nat fuel ->
  firstPDE * 1024 + firstPTE <= lastPDE * 1024 + lastPTE ->
  exists ps', allocatePagesLoop fuel i c firstPDE firstPTE lastPDE lastPTE ps = Ok ps' /\
    pagesUpdated (markRange (Z.max (firstPDE * 1024 + firstPTE) (1024 * i)) (lastPDE * 1024 + lastPTE) c) ps ps'.
Proof.
  intros Hwf Hc Hfirst HfPTE HlPDE HlPTE. revert i ps Hwf Hfirst.
  induction fuel as [|fuel IH]; intros i ps Hwf Hfirst Hfuel Hle; cbn [allocatePagesLoop].
  all: destruct (Z.leb_spec i lastPDE) as [Hil|Hil]; try lia.
  1,3: exists ps; split; [done|]; apply pagesUpdated_refl; [done|]; intros p e _; apply markRange_out; lia.
  set (b := if i =? firstPDE then firstPTE else 0). set (e := if i =? lastPDE then lastPTE else 1023).
  assert (Hbe : 0 <= b /\ b <= e /\ e <= 1023 /\ 1024 * i + b = Z.max (firstPDE * 1024 + firstPTE) (1024 * i)
    /\ 1024 * i + e = Z.min (lastPDE * 1024 + lastPTE) (1024 * i + 1023)).
  { unfold b, e. destruct (Z.eqb_spec i firstPDE), (Z.eqb_spec i lastPDE); lia. }
  destruct (wf_getPageTable ps Hwf i ltac:(lia)) as (pt & -> & Hpt & Hok & _).
  cbn [mbind result_bind orFault]. rewrite <- (markEntries_summary b e c pt) by (done || lia).
  destruct (update_table_pages (markRange (1024 * i + b) (1024 * i + e) c) ps i pt (markEntries b e c pt))
    as (ps1 & -> & Hps1); [done|lia|done|apply markEntries_ok; [lia|done]|..].
  { intros k Hk. rewrite znth_markEntries. destruct (pt.[k]); [|done]. cbn [fmap option_fmap option_map]. f_equal.
    destruct (Z.leb_spec b k), (Z.leb_spec k e); cbn [andb];
      first [rewrite markRange_in by lia; done | rewrite markRange_out by lia; done]. }
  { intros p x Hp. apply markRange_out. intros Hin. apply Hp. dlia. }
  cbn [mbind result_bind].
  destruct (IH (i + 1) ps1 (upd_wf _ _ _ Hps1) ltac:(lia) ltac:(lia) Hle) as (ps2 & -> & Hps2).
  exists ps2. split; [done|]. eapply pagesUpdated_trans; [exact Hps1|exact Hps2|].
  intros p x _. destruct (decide (1024 * i + b <= p <= 1024 * i + e)).
  - rewrite (markRange_in (1024 * i + b)) by lia. rewrite markRange_in by lia.
    rewrite markRange_out by lia. done.
  - rewrite (markRange_out (1024 * i + b)) by lia.
    destruct (decide (Z.max (firstPDE * 1024 + firstPTE) (1024 * (i + 1)) <= p <= lastPDE * 1024 + lastPTE)).
    + by rewrite !markRange_in by lia.
    + by rewrite !markRange_out by lia.
Qed.

Lemma newPageCode_spec pre post :
  0 <= pre <= 3 -> 0 <= post <= 3 ->
  let c := newPageCode pre post in 1 <= c <= 3 /\ c <> pre /\ c <> post.
Proof.
  intros Hpre Hpost. code_case Hpre; code_case Hpost; vm_compute; intuition congruence.
Qed.

(** ** Allocation *)

Lemma codeAt_bound ps p : 0 <= codeAt ps p <= 3.
Proof. unfold codeAt. destruct (entryAt ps p); [apply entryCode_bound|lia]. Qed.

Lemma pageCode_spec ps p : wf ps -> 0 <= p < NPAGES -> pageCode ps p = Ok (codeAt ps p).
Proof.
  intros Hwf Hp. destruct (entryAt_Some ps Hwf p) as [_ H]. destruct (H Hp) as [e He].
  unfold pageCode, codeAt. rewrite He. unfold entryAt in He. unfold NPAGES in Hp.
  destruct (wf_getPageTable ps Hwf (p / 1024)) as (pt & -> & Hpt & _); [dlia|].
  rewrite Hpt in He. cbn [mbind option_bind] in He. cbn [mbind result_bind orFault]. by rewrite He.
Qed.

(** The region [a .. a+n-1] has become one with a code of its own. *)
Definition allocated (ps ps' : PagingStructures) (a n : Z) : Prop :=
  exists c, 1 <= c <= 3 /\ (0 < a -> codeAt ps (a - 1) <> c) /\
    (a + n < NPAGES -> codeAt ps (a + n) <> c) /\
    pagesUpdated (markRange a (a + n - 1) c) ps ps'.

Lemma allocatePagesStartingAtIndex_spec ps a n :
  wf ps -> 0 <= a -> 0 < n -> a + n <= NPAGES ->
  exists ps', allocatePagesStartingAtIndex ps a n = Ok ps' /\ allocated ps ps' a n.
Proof.
  intros Hwf Ha Hn Hb. unfold allocatePagesStartingAtIndex, allocated.
  destruct (Z.eqb_spec n 0); [lia|]. rewrite u32_small by (unfold is_u32, NPAGES in *; lia).
  set (pre := if 0 <? a then codeAt ps (a - 1) else 1).
  set (post := if a + n - 1 <? 1023 * 1024 - 1 then codeAt ps (a + n) else 1).
  assert (Hpre : (if 0 <? a then pageCode ps (a - 1) else Ok 1) = Ok pre).
  { unfold pre. destruct (Z.ltb_spec 0 a); [|done]. apply pageCode_spec; [done|lia]. }
  assert (Hpost : (if a + n - 1 <? 1023 * 1024 - 1 then pageCode ps (a + n - 1 + 1) else Ok 1) = Ok post).
  { unfold post, NPAGES in *. replace (a + n - 1 + 1) with (a + n) by lia.
    destruct (Z.ltb_spec (a + n - 1) (1023 * 1024 - 1)); [|done].
    apply pageCode_spec; [done|unfold NPAGES; lia]. }
  rewrite Hpre; cbn [mbind result_bind]. rewrite Hpost; cbn [mbind result_bind].
  destruct (newPageCode_spec pre post) as (Hc & Hcpre & Hcpost).
  { unfold pre. destruct (0 <? a); [apply codeAt_bound|lia]. }
  { unfold post. destruct (a + n - 1 <? 1023 * 1024 - 1); [apply codeAt_bound|lia]. }
  set (c := newPageCode pre post) in *. unfold NPAGES in *.
  destruct (allocatePagesLoop_spec 1024 (a / 1024) c (a / 1024) (a mod 1024)
    ((a + n - 1) / 1024) ((a + n - 1) mod 1024) ps) as (ps' & -> & Hps'); try done; try dlia.
  exists ps'. split; [done|]. exists c. split_and!; [lia|lia| | |].
  - intros Hlt. unfold pre in Hcpre. destruct (Z.ltb_spec 0 a); [congruence|lia].
  - intros Hlt. unfold post in Hcpost.
    destruct (Z.ltb_spec (a + n - 1) (1023 * 1024 - 1)); [congruence|lia].
  - replace (Z.max (a / 1024 * 1024 + a mod 1024) (1024 * (a / 1024))) with a in Hps' by dlia.
    by replace ((a + n - 1) / 1024 * 1024 + (a + n - 1) mod 1024) with (a + n - 1) in Hps' by dlia.
Qed.

(** The specification of an allocation: the lowest place where the region
    fits, or no change and [NO_PAGES] when it fits nowhere. *)
Definition firstFit (ps : PagingStructures) (n : Z) (ps' : PagingStructures) (addr : Z) : Prop :=
  (exists a, 0 <= a /\ a + n <= NPAGES /\ addr = a * 4096 /\
     freeRun ps a n /\ (forall s, 0 <= s < a -> ~ freeRun ps s n) /\ allocated ps ps' a n) \/
  (ps' = ps /\ addr = NO_PAGES /\ forall s, ~ freeRun ps s n).

Lemma noStart_not_freeRun ps n lo hi s : noStart ps n lo hi -> lo <= s < hi -> ~ freeRun ps s n.
Proof. intros H Hs Hr. destruct (H s Hs) as (q & Hq & Hnf). by apply Hnf, Hr. Qed.

Lemma allocateContiguousPages_first_fit_aux ps n :
  wf ps -> searchable n ->
  exists ps' addr, allocateContiguousPages ps n = Ok (ps', addr) /\ firstFit ps n ps' addr /\ wf ps'.
Proof.
  intros Hwf Hn. pose proof Hn as [[Hn0 HnN] _]. unfold allocateContiguousPages.
  destruct (Z.eqb_spec n 0); [lia|].
  destruct (searchTable_spec ps Hwf n 1023 0 Hn) as (r & -> & Hr); [lia|lia|]. cbn [mbind result_bind].
  destruct r as [i|].
  2:{ exists ps, NO_PAGES. split_and!; [done| |done]. right. split_and!; [done..|].
      intros s Hr'. pose proof (freePage_bound ps Hwf s (Hr' s ltac:(lia))).
      by apply (noStart_not_freeRun _ _ _ _ s Hr). }
  destruct Hr as (Hi & (pt & Hpt & Hf) & Hbefore). cbn zeta in Hf. destruct Hf as (Hf & Hrun & Hns).
  rewrite Hpt; cbn [mbind result_bind orFault]. set (a := foundPageIndex pt n i) in *.
  assert (Hb : a + n <= NPAGES).
  { pose proof (freePage_bound ps Hwf (a + n - 1) (Hrun (a + n - 1) ltac:(lia))). lia. }
  destruct (allocatePagesStartingAtIndex_spec ps a n) as (ps' & -> & Halloc); [done|lia..|].
  cbn [mbind result_bind]. exists ps', (u32 (a * 0x1000)). split_and!; [done| |].
  - left. exists a. rewrite u32_small by (unfold is_u32, NPAGES in *; lia).
    split_and!; [lia..|done|done| |done].
    intros s Hs. apply (noStart_not_freeRun _ _ 0 a); [|done]. by eapply noStart_app.
  - destruct Halloc as (c & _ & _ & _ & Hupd). apply (upd_wf _ _ _ Hupd).
Qed.

(** ** Release *)

Lemma clearRun_spec c l :
  let '(l', n) := clearRun c l in
  0 <= n <= zlength l /\ zlength l' = zlength l /\
  (forall k, l'.[k] = (fun e => if k <? n then clearCode e else e) <$> l.[k]) /\
  (forall k e, k < n -> l.[k] = Some e -> entryCode e = c) /\
  (forall e, l.[n] = Some e -> entryCode e <> c).
Proof.
  induction l as [|x l IH]; cbn [clearRun].
  - split_and!; [lia|done|done| | |]; intros; rewrite ?znth_nil in *; done.
  - rewrite !zlength_cons. pose proof (zlength_nonneg l).
    destruct (Z.eqb_spec (entryCode x) c) as [E|E].
    + destruct (clearRun c l) as [l' n]. destruct IH as (H1 & H2 & H3 & H4 & H5).
      assert (Hsplit : forall k, k < 0 \/ k = 0 \/ 0 < k) by lia. split_and!; [lia|lia| | | |].
      * rewrite zlength_cons. lia.
      * intros k. destruct (Hsplit k) as [Hk|[->|Hk]].
        -- rewrite !(proj2 (znth_None _ k)); [done|lia|lia].
        -- rewrite !znth_cons_0. cbn. destruct (Z.ltb_spec 0 (1 + n)); [done|lia].
        -- rewrite !znth_cons_pos, H3 by lia.
           by replace (k - 1 <? n) with (k <? 1 + n) by (destruct (Z.ltb_spec k (1 + n)), (Z.ltb_spec (k - 1) n); lia).
      * intros k e Hlt. destruct (Hsplit k) as [Hk|[->|Hk]].
        -- rewrite (proj2 (znth_None _ k)); [done|lia].
        -- rewrite znth_cons_0. by intros [= <-].
        -- rewrite znth_cons_pos by lia. apply H4. lia.
      * intros e. rewrite znth_cons_pos by lia. replace (1 + n - 1) with n by lia. apply H5.
    + split_and!; [lia|lia| | | |].
      * by rewrite zlength_cons.
      * intros k. destruct (Z.ltb_spec k 0).
        -- rewrite !(proj2 (znth_None _ k)); [done|rewrite zlength_cons; lia].
        -- by destruct ((x :: l).[k]).
      * intros k e Hk. rewrite (proj2 (znth_None _ k)); [done|lia].
      * intros e. rewrite znth_cons_0. by intros [= <-].
Qed.

Definition clearRange (lo hi p e : Z) : Z := if (lo <=? p) && (p <? hi) then clearCode e else e.

Lemma clearRange_in lo hi p e : lo <= p < hi -> clearRange lo hi p e = clearCode e.
Proof. intros. unfold clearRange. destruct (Z.leb_spec lo p), (Z.ltb_spec p hi); by try lia. Qed.

Lemma clearRange_out lo hi p e : ~ (lo <= p < hi) -> clearRange lo hi p e = e.
Proof. intros. unfold clearRange. destruct (Z.leb_spec lo p), (Z.ltb_spec p hi); by try lia. Qed.

(** The table after the inner loop, and its new summary. *)
Definition clearedTable (b c : Z) (pt : PageTable) : PageTable :=
  take (Z.to_nat b) pt ++ fst (clearRun c (drop (Z.to_nat b) pt)).

Lemma znth_clearedTable b c pt n k :
  0 <= b <= zlength pt -> snd (clearRun c (drop (Z.to_nat b) pt)) = n ->
  (clearedTable b c pt).[k] = (fun e => if (b <=? k) && (k <? b + n) then clearCode e else e) <$> pt.[k].
Proof.
  intros Hb Hn. unfold clearedTable. pose proof (clearRun_spec c (drop (Z.to_nat b) pt)) as HS.
  destruct (clearRun c (drop (Z.to_nat b) pt)) as [l' n']. cbn [fst snd] in *. subst n'.
  destruct HS as (H1 & H2 & H3 & _). destruct (Z.leb_spec b k).
  - rewrite znth_app_r; rewrite zlength_take by done; [|done]. rewrite H3, znth_drop by lia.
    replace (b + (k - b)) with k by lia. cbn [andb].
    by replace (k - b <? n) with (k <? b + n) by (destruct (Z.ltb_spec k (b + n)), (Z.ltb_spec (k - b) n); lia).
  - rewrite znth_app_l by (rewrite zlength_take; lia). rewrite znth_take by lia. cbn [andb].
    by destruct (pt.[k]).
Qed.

Lemma clearedTable_ok b c pt : 0 <= b <= 1024 -> tableOk pt -> tableOk (clearedTable b c pt).
Proof.
  intros Hb [Hl Hu]. split.
  - unfold clearedTable. pose proof (clearRun_spec c (drop (Z.to_nat b) pt)) as HS.
    destruct (clearRun c (drop (Z.to_nat b) pt)) as [l' n']. destruct HS as (_ & HS & _).
    cbn [fst]. rewrite zlength_app, HS, zlength_take, zlength_drop by lia. lia.
  - apply Forall_znth. intros k x. erewrite znth_clearedTable by (lia || done).
    destruct (pt.[k]) eqn:E; [|done]. pose proof (znth_Forall _ _ _ _ Hu E).
    intros [= <-]. case_match; auto with cpu.
Qed.

Lemma clearedTable_summary b c pt n :
  tableOk pt -> 0 <= b < 1024 -> snd (clearRun c (drop (Z.to_nat b) pt)) = n -> 0 < n -> b + n <= 1024 ->
  let pt' := clearedTable b c pt in
  tableSummary pt' =
    (if (b =? 0) && (b + n =? 1024) then PAGE_TABLE_FULLY_NOT_ALLOCATED_CODE
     else if checkPageTableFullyNotAllocated pt' then PAGE_TABLE_FULLY_NOT_ALLOCATED_CODE
     else PAGE_TABLE_PARTLY_ALLOCATED_CODE).
Proof.
  intros Hok Hb Hn Hpos Hle pt'. pose proof Hok as [Hl Hu]. unfold tableSummary.
  assert (Hclr : forall k x, b <= k < b + n -> pt'.[k] = Some x -> entryIsFree x = true).
  { intros k x Hk. unfold pt'. rewrite (znth_clearedTable b c pt n) by (lia || done).
    destruct (pt.[k]) as [y|] eqn:E; [|done]. pose proof (znth_Forall _ _ _ _ Hu E).
    destruct (Z.leb_spec b k), (Z.ltb_spec k (b + n)); try lia. cbn. intros [= <-].
    rewrite entryIsFree_code, entryCode_clearCode by auto with cpu. done. }
  assert (HA : checkPageTableFullyAllocated pt' = false).
  { apply not_true_iff_false. unfold checkPageTableFullyAllocated. rewrite forallb_forall. intros HA.
    destruct (clearedTable_ok b c pt) as [Hl' _]; [lia|done|].
    destruct (znth_lt_Some pt' b) as [x Hx]; [unfold pt'; lia|].
    specialize (HA x (proj2 (znth_In _ _) (ex_intro _ _ Hx))).
    by rewrite (Hclr b x) in HA by (lia || done). }
  rewrite HA. destruct (Z.eqb_spec b 0) as [->|]; [|done]. destruct (Z.eqb_spec (0 + n) 1024) as [E|]; [|done].
  cbn [andb]. assert (HF : checkPageTableFullyNotAllocated pt' = true); [|by rewrite HF].
  unfold checkPageTableFullyNotAllocated. rewrite forallb_forall. intros x [k Hk]%znth_In.
  pose proof (znth_Some_lt _ _ _ Hk). destruct (clearedTable_ok 0 c pt) as [Hl' _]; [lia|done|].
  apply (Hclr k); [unfold pt' in *; lia|done].
Qed.

(** One turn of the release loop at table [i], from its page [b] on. *)
Lemma freePages_step ps i b c :
  wf ps -> 0 <= i < 1023 -> 0 <= b < 1024 ->
  exists pt ps' n, getPageTable ps i = Some pt /\
    snd (clearRun c (drop (Z.to_nat b) pt)) = n /\ 0 <= n /\ b + n <= 1024 /\
    (forall p, 1024 * i + b <= p < 1024 * i + b + n -> codeAt ps p = c) /\
    (b + n < 1024 -> codeAt ps (1024 * i + b + n) <> c) /\
    (let ps0 := setPageTable ps i (clearedTable b c pt) in
     (if (b =? 0) && (b + n =? 1024)
      then setDirectoryCode ps0 i PAGE_TABLE_FULLY_NOT_ALLOCATED_CODE
      else if b =? b + n then Ok ps0
      else if checkPageTableFullyNotAllocated (clearedTable b c pt)
      then setDirectoryCode ps0 i PAGE_TABLE_FULLY_NOT_ALLOCATED_CODE
      else setDirectoryCode ps0 i PAGE_TABLE_PARTLY_ALLOCATED_CODE) = Ok ps') /\
    pagesUpdated (clearRange (1024 * i + b) (1024 * i + b + n)) ps ps'.
Proof.
  intros Hwf Hi Hb. destruct (wf_getPageTable ps Hwf i Hi) as (pt & Hgpt & Hpt & Hok & _).
  pose proof Hok as [Hl Hu]. pose proof (clearRun_spec c (drop (Z.to_nat b) pt)) as HS.
  destruct (clearRun c (drop (Z.to_nat b) pt)) as [l' n] eqn:Erun.
  destruct HS as (H1 & _ & _ & H4 & H5). rewrite zlength_drop in H1 by lia.
  assert (Hsnd : snd (clearRun c (drop (Z.to_nat b) pt)) = n) by by rewrite Erun.
  assert (Hcode : forall k e, 0 <= k -> b + k < 1024 -> (drop (Z.to_nat b) pt).[k] = Some e ->
            codeAt ps (1024 * i + b + k) = entryCode e).
  { intros k e Hk Hbk. rewrite znth_drop by lia. intros He. unfold codeAt.
    replace (1024 * i + b + k) with (1024 * i + (b + k)) by lia.
    by rewrite (entryAt_table ps i pt), He by (done || lia). }
  assert (Hnth : forall k, 0 <= k -> b + k < 1024 -> exists e, (drop (Z.to_nat b) pt).[k] = Some e).
  { intros k Hk Hbk. apply znth_lt_Some. rewrite zlength_drop; lia. }
  assert (Hupd : exists ps', pagesUpdated (clearRange (1024 * i + b) (1024 * i + b + n)) ps ps' /\
    (0 < n -> setDirectoryCode (setPageTable ps i (clearedTable b c pt)) i (tableSummary (clearedTable b c pt)) = Ok ps') /\
    (n = 0 -> ps' = setPageTable ps i (clearedTable b c pt))).
  { destruct (decide (n = 0)) as [->|Hn].
    - exists ps. split_and!; [|lia|].
      + apply pagesUpdated_refl; [done|]. intros. apply clearRange_out. lia.
      + intros _. unfold setPageTable. rewrite zset_id; [by destruct ps|]. rewrite Hpt. f_equal.
        destruct (clearedTable_ok b c pt) as [Hl' _]; [lia|done|].
        apply znth_ext; [lia|]. intros k Hk. rewrite (znth_clearedTable b c pt 0) by (lia || done).
        destruct (pt.[k]); [|done]. cbn. destruct (Z.leb_spec b k), (Z.ltb_spec k (b + 0)); by try lia.
    - destruct (update_table_pages (clearRange (1024 * i + b) (1024 * i + b + n)) ps i pt (clearedTable b c pt))
        as (ps' & Hps' & Hp); [done|done|done|apply clearedTable_ok; [lia|done]|..].
      + intros k Hk. rewrite (znth_clearedTable b c pt n) by (lia || done).
        destruct (pt.[k]); [|done]. cbn [fmap option_fmap option_map]. f_equal.
        destruct (Z.leb_spec b k), (Z.ltb_spec k (b + n)); cbn [andb];
          first [rewrite clearRange_in by lia; done | rewrite clearRange_out by lia; done].
      + intros p x Hp. apply clearRange_out. intros Hin. apply Hp. dlia.
      + exists ps'. split_and!; [done|done|lia]. }
  destruct Hupd as (ps' & Hp & Hpos & Hzero).
  exists pt, ps', n. split_and!; [done|done|lia|lia| | | |done].
  - intros p Hr. destruct (Hnth (p - (1024 * i + b))) as [e He]; [lia|lia|].
    replace p with (1024 * i + b + (p - (1024 * i + b))) by lia.
    rewrite (Hcode _ e) by (done || lia). eapply (H4 (p - (1024 * i + b))); [lia|done].
  - intros Hlt. destruct (Hnth n) as [e He]; [lia|lia|].
    rewrite (Hcode n e) by (done || lia). by apply H5.
  - cbn zeta. destruct (decide (n = 0)) as [->|Hn].
    + rewrite (Hzero eq_refl). rewrite Z.add_0_r, Z.eqb_refl.
      destruct (Z.eqb_spec b 0), (Z.eqb_spec b 1024); try lia; done.
    + rewrite <- (Hpos ltac:(lia)), (clearedTable_summary b c pt n) by (done || lia).
      destruct (Z.eqb_spec b (b + n)); [lia|]. by repeat case_match.
Qed.

Lemma freePagesLoop_spec fuel i firstPDE firstPTE c ps :
  wf ps -> 0 <= firstPDE <= i -> 0 <= firstPTE < 1024 -> i + Z.of_nat fuel = 1023 ->
  exists ps' q, freePagesLoop fuel i firstPDE firstPTE c ps = Ok ps' /\
    let lo := 1024 * i + (if i =? firstPDE then firstPTE else 0) in
    ((0 < fuel)%nat -> lo <= q <= NPAGES) /\ (fuel = O -> q = lo) /\ (forall p, lo <= p < q -> codeAt ps p = c) /\
    (q < NPAGES -> (0 < fuel)%nat -> codeAt ps q <> c) /\
    pagesUpdated (clearRange lo q) ps ps'.
Proof.
  revert i ps. induction fuel as [|fuel IH]; intros i ps Hwf Hi HfPTE Hfuel; cbn [freePagesLoop]; cbn zeta.
  - exists ps. eexists. split; [done|]. split_and!; [lia|done|lia|lia|].
    apply pagesUpdated_refl; [done|]. intros. apply clearRange_out. lia.
  - set (b := if i =? firstPDE then firstPTE else 0).
    assert (Hb : 0 <= b < 1024) by (unfold b; case_match; lia).
    destruct (freePages_step ps i b c Hwf) as (pt & ps1 & n & -> & Hn & Hn0 & Hn1 & Hrun & Hstop & Hcase & Hupd);
      [lia|lia|].
    cbn [mbind result_bind orFault]. unfold clearedTable in Hcase. cbn zeta in Hcase.
    destruct (clearRun c (drop (Z.to_nat b) pt)) as [l' n'] eqn:Erun. cbn [fst snd] in *. subst n'.
    rewrite Hcase. cbn [mbind result_bind].
    destruct (Z.eqb_spec (b + n) 1024) as [E|E]; cbn [negb].
    2:{ exists ps1, (1024 * i + b + n). split_and!; try done; unfold NPAGES; try lia. }
    destruct (IH (i + 1) ps1 (upd_wf _ _ _ Hupd)) as (ps2 & q & -> & Hq & Hq0 & Hrun2 & Hstop2 & Hupd2);
      [lia|lia|lia|]. cbn zeta in *. destruct (Z.eqb_spec (i + 1) firstPDE); [lia|].
    assert (Hsame : forall p, 1024 * (i + 1) <= p -> codeAt ps1 p = codeAt ps p).
    { intros p Hp. unfold codeAt. rewrite (upd_entry _ _ _ Hupd). destruct (entryAt ps p); [|done]. cbn.
      by rewrite clearRange_out by lia. }
    exists ps2, q. rewrite Z.add_0_r in *.
    assert (Hql : 1024 * (i + 1) <= q <= NPAGES) by (unfold NPAGES in *; destruct fuel; [rewrite Hq0; lia|lia]).
    split_and!; [done|lia|lia| | |].
    + intros p Hp. destruct (Z.ltb_spec p (1024 * (i + 1))); [apply Hrun; lia|].
      rewrite <- Hsame by lia. apply Hrun2. lia.
    + intros Hlt _. rewrite <- Hsame by lia. apply Hstop2; [done|].
      destruct fuel; [|lia]. specialize (Hq0 eq_refl). unfold NPAGES in *. lia.
    + eapply pagesUpdated_trans; [exact Hupd|exact Hupd2|]. intros p e _.
      destruct (decide (1024 * i + b <= p < 1024 * i + b + n)).
      * rewrite !(clearRange_in (1024 * i + b)) by lia.
        by rewrite clearRange_out by lia.
      * rewrite (clearRange_out (1024 * i + b) (1024 * i + b + n)) by lia.
        destruct (decide (1024 * (i + 1) <= p < q)).
        -- by rewrite !clearRange_in by lia.
        -- by rewrite !clearRange_out by lia.
Qed.

Lemma freeContiguousPages_region ps addr :
  wf ps -> 0 <= addr < NPAGES * 4096 ->
  let p := addr / 4096 in
  exists ps' q, freeContiguousPages ps addr = Ok ps' /\
    p <= q <= NPAGES /\ (forall x, p <= x < q -> codeAt ps x = codeAt ps p) /\
    (q < NPAGES -> codeAt ps q <> codeAt ps p) /\
    pagesUpdated (clearRange p q) ps ps' /\ freeRun ps' p (q - p).
Proof.
  intros Hwf Haddr p. unfold freeContiguousPages. fold p.
  assert (Hp : 0 <= p < NPAGES) by (unfold p, NPAGES in *; dlia).
  destruct (Z.leb_spec 1023 (p / 1024)); [unfold NPAGES in *; dlia|].
  rewrite pageCode_spec by done. cbn [mbind result_bind].
  destruct (freePagesLoop_spec (Z.to_nat (1023 - p / 1024)) (p / 1024) (p / 1024) (p mod 1024) (codeAt ps p) ps)
    as (ps' & q & -> & Hq); [done|dlia|dlia|lia|].
  rewrite Z.eqb_refl in Hq. replace (1024 * (p / 1024) + p mod 1024) with p in Hq by dlia. cbn zeta in Hq.
  destruct Hq as (Hq & _ & Hrun & Hstop & Hupd).
  assert ((0 < Z.to_nat (1023 - p / 1024))%nat) by lia.
  exists ps', q. split_and!; auto; try lia.
  intros x Hx. unfold freePage, codeAt. rewrite (upd_entry _ _ _ Hupd).
  destruct (proj2 (entryAt_Some ps Hwf x)) as [e He]; [lia|]. rewrite He. cbn.
  rewrite clearRange_in by lia. apply entryCode_clearCode. by apply (entryAt_u32 ps Hwf x).
Qed.

(** ** The contract *)

(** C2: for the sizes the search handles, the allocator finds the lowest run of
    free pages that is long enough, gives its pages a code that differs from
    the codes of the two pages around it, changes nothing else and keeps the
    state well formed; it fails exactly when no such run exists. *)
Theorem allocateContiguousPages_first_fit ps n :
  wf ps -> searchable n ->
  exists ps' addr, allocateContiguousPages ps n = Ok (ps', addr) /\ firstFit ps n ps' addr /\ wf ps'.
Proof. apply allocateContiguousPages_first_fit_aux. Qed.

(** C22: releasing the address of any page frees exactly the pages from it to
    the end of its region (the first page with another code, or the last
    page), and leaves every other entry and the directory's addresses alone;
    the directory still sums up the page tables. *)
Theorem freeContiguousPages_frees_region ps addr :
  wf ps -> 0 <= addr < NPAGES * 4096 ->
  let p := addr / 4096 in
  exists ps' q, freeContiguousPages ps addr = Ok ps' /\
    p <= q <= NPAGES /\ (forall x, p <= x < q -> codeAt ps x = codeAt ps p) /\
    (q < NPAGES -> codeAt ps q <> codeAt ps p) /\
    pagesUpdated (clearRange p q) ps ps' /\ freeRun ps' p (q - p).
Proof. apply freeContiguousPages_region. Qed.

(** ** Round trip *)

Lemma entryAt_ext_tables ps1 ps2 :
  wf ps1 -> wf ps2 -> (forall p, entryAt ps1 p = entryAt ps2 p) -> pageTables ps1 = pageTables ps2.
Proof.
  intros W1 W2 He. apply znth_ext; [by rewrite (wf_tables _ W1), (wf_tables _ W2)|].
  intros i Hi. rewrite (wf_tables _ W1) in Hi.
  destruct (wf_getPageTable ps1 W1 i Hi) as (pt1 & _ & E1 & [L1 _] & _).
  destruct (wf_getPageTable ps2 W2 i Hi) as (pt2 & _ & E2 & [L2 _] & _).
  rewrite E1, E2. f_equal. apply znth_ext; [lia|]. intros k Hk. rewrite L1 in Hk.
  specialize (He (1024 * i + k)).
  by rewrite (entryAt_table ps1 i pt1), (entryAt_table ps2 i pt2) in He.
Qed.

(** Well-formed states are determined by their pages and their frame. *)
Lemma wf_ext ps1 ps2 :
  wf ps1 -> wf ps2 -> sameFrame ps1 ps2 -> (forall p, entryAt ps1 p = entryAt ps2 p) -> ps1 = ps2.
Proof.
  intros W1 W2 [Fh Fd] He. pose proof (entryAt_ext_tables ps1 ps2 W1 W2 He) as Ht.
  assert (Hd : pageDirectoryEntries (pageDirectory ps1) = pageDirectoryEntries (pageDirectory ps2)).
  { apply znth_ext; [by rewrite (wf_directory _ W1), (wf_directory _ W2)|].
    intros i Hi. destruct (znth_lt_Some _ _ Hi) as [e1 E1]. rewrite (wf_directory _ W1) in Hi.
    destruct (znth_lt_Some (pageDirectoryEntries (pageDirectory ps2)) i) as [e2 E2];
      [by rewrite (wf_directory _ W2)|].
    rewrite E1, E2. f_equal.
    assert (U1 : is_u32 e1) by (eapply znth_Forall; [apply (wf_directory_u32 _ W1)|done]).
    assert (U2 : is_u32 e2) by (eapply znth_Forall; [apply (wf_directory_u32 _ W2)|done]).
    apply entry_ext; [done|done| |].
    - assert (Hc : (map clearCode (pageDirectoryEntries (pageDirectory ps1))).[i] =
                   (map clearCode (pageDirectoryEntries (pageDirectory ps2))).[i]) by by rewrite Fd.
      rewrite !znth_map, E1, E2 in Hc. by injection Hc.
    - destruct (decide (i = 1023)) as [->|].
      + pose proof (wf_last_code _ W1 _ E1) as C1. pose proof (wf_last_code _ W2 _ E2) as C2.
        rewrite entryIsFree_code in C1, C2 by done. bool_hyps. congruence.
      + destruct (wf_getPageTable ps1 W1 i ltac:(lia)) as (pt & _ & Hpt & _).
        rewrite (wf_summary _ W1 _ _ _ Hpt E1). rewrite Ht in Hpt.
        by rewrite (wf_summary _ W2 _ _ _ Hpt E2). }
  destruct ps1 as [[d1 h1] t1], ps2 as [[d2 h2] t2]; cbn in *. congruence.
Qed.

Lemma codeAt_allocated ps ps' a n c p :
  wf ps -> freeRun ps a n -> 1 <= c <= 3 -> pagesUpdated (markRange a (a + n - 1) c) ps ps' ->
  codeAt ps' p = if bool_decide (a <= p < a + n) then c else codeAt ps p.
Proof.
  intros Hwf Hrun Hc Hupd. unfold codeAt. rewrite (upd_entry _ _ _ Hupd). case_bool_decide as Hp.
  - specialize (Hrun p Hp). apply freePage_entry in Hrun as (e & He & H0).
    rewrite He; cbn. rewrite markRange_in by lia.
    rewrite entryCode_orCode, H0 by (lia || by eapply entryAt_u32). done.
  - destruct (entryAt ps p); cbn; [|done]. by rewrite markRange_out by lia.
Qed.

(** C6: releasing what an allocation returned gives back the state before
    it, bit for bit. *)
Theorem free_after_allocate ps n ps' addr :
  wf ps -> searchable n ->
  allocateContiguousPages ps n = Ok (ps', addr) -> addr <> NO_PAGES ->
  freeContiguousPages ps' addr = Ok ps.
Proof.
  intros Hwf Hn Hcall Haddr.
  destruct (allocateContiguousPages_first_fit_aux ps n Hwf Hn) as (ps1 & addr1 & Hcall1 & Hfit & Hwf').
  rewrite Hcall in Hcall1. injection Hcall1 as <- <-.
  destruct Hfit as [(a & Ha & Hb & -> & Hrun & _ & (c & Hc & Hpre & Hpost & Hupd))|(_ & -> & _)]; [|done].
  destruct Hn as [[Hn0 HnN] _].
  assert (Hcode : forall p, codeAt ps' p = if bool_decide (a <= p < a + n) then c else codeAt ps p)
    by (intros p; by apply codeAt_allocated).
  destruct (freeContiguousPages_region ps' (a * 4096) Hwf') as (ps2 & q & Hfree & Hq & Hsame & Hstop & Hupd2 & _);
    [unfold NPAGES in *; lia|].
  rewrite Z.div_mul in * by lia. rewrite Hfree. f_equal.
  assert (Hca : codeAt ps' a = c) by (rewrite Hcode, bool_decide_true by lia; done).
  assert (q = a + n) as ->.
  { rewrite Hca in Hsame, Hstop. destruct (Z.ltb_spec q (a + n)) as [Hlt|Hge].
    - exfalso. apply Hstop; [lia|]. by rewrite Hcode, bool_decide_true by lia.
    - destruct (Z.ltb_spec (a + n) q); [|lia]. exfalso.
      specialize (Hsame (a + n) ltac:(lia)). rewrite Hcode, bool_decide_false in Hsame by lia.
      by apply Hpost; [lia|]. }
  apply wf_ext; [apply (upd_wf _ _ _ Hupd2)|done| |].
  - pose proof (upd_frame _ _ _ Hupd). pose proof (upd_frame _ _ _ Hupd2). unfold sameFrame in *.
    destruct_and!. split; congruence.
  - intros p. rewrite (upd_entry _ _ _ Hupd2), (upd_entry _ _ _ Hupd).
    destruct (entryAt ps p) as [e|] eqn:E; [|done]. cbn. f_equal.
    destruct (decide (a <= p < a + n)) as [Hin|Hout].
    + rewrite clearRange_in, markRange_in by lia.
      assert (is_u32 e) by exact (entryAt_u32 ps Hwf p e E).
      rewrite clearCode_orCode by (done || lia). apply clearCode_free; [done|].
      specialize (Hrun p Hin). unfold freePage, codeAt in Hrun. by rewrite E in Hrun.
    + by rewrite clearRange_out, markRange_out by lia.
Qed.

(** ** Reserving a range of pages *)

Lemma allocatePageRangeLoop_eq fuel i firstPDE firstPTE lastPDE lastPTE ps :
  wf ps -> 0 <= firstPDE <= i -> 0 <= firstPTE < 1024 -> lastPDE < 1023 -> 0 <= lastPTE < 1024 ->
  firstPDE * 1024 + firstPTE <= lastPDE * 1024 + lastPTE ->
  allocatePageRangeLoop fuel i firstPDE firstPTE lastPDE lastPTE ps =
  allocatePagesLoop fuel i 1 firstPDE firstPTE lastPDE lastPTE ps.
Proof.
  intros Hwf Hi HfPTE HlPDE HlPTE Hle. revert i ps Hwf Hi.
  induction fuel as [|fuel IH]; intros i ps Hwf Hi; cbn [allocatePageRangeLoop allocatePagesLoop];
    unfold LAST_POSSIBLE_PDE_INDEX; destruct (Z.leb_spec i lastPDE), (Z.leb_spec i 1023); try lia; try done.
  cbn [andb].
  set (b := if i =? firstPDE then firstPTE else 0). set (e := if i =? lastPDE then lastPTE else 1023).
  assert (Hbe : 0 <= b /\ b <= e /\ e <= 1023)
    by (unfold b, e; destruct (Z.eqb_spec i firstPDE), (Z.eqb_spec i lastPDE); lia).
  destruct (wf_getPageTable ps Hwf i ltac:(lia)) as (pt & -> & Hpt & Hok & _). cbn [mbind result_bind orFault].
  rewrite <- (markEntries_summary b e 1 pt) by (done || lia).
  replace (if checkPageTableFullyAllocated (markEntries b e 1 pt) then PAGE_TABLE_FULLY_ALLOCATED_CODE
           else PAGE_TABLE_PARTLY_ALLOCATED_CODE) with (tableSummary (markEntries b e 1 pt)).
  2:{ pose proof (markEntries_summary b e 1 pt Hok ltac:(lia) ltac:(lia) ltac:(lia) ltac:(lia)) as Hsum.
      cbn zeta in Hsum. unfold tableSummary in *.
      destruct (checkPageTableFullyNotAllocated _), (checkPageTableFullyAllocated _); try done.
      all: by destruct ((b =? 0) && (e =? 1023)). }
  destruct (update_table ps i (markEntries b e 1 pt) Hwf) as (ps1 & -> & Hwf1 & _ & _);
    [lia|apply markEntries_ok; [lia|done]|].
  cbn [mbind result_bind]. apply IH; [done|lia].
Qed.

Lemma allocatePageRange_spec ps a b :
  wf ps -> 0 <= a -> a <= b -> b < NPAGES ->
  exists ps', allocatePageRange ps a b = Ok ps' /\ pagesUpdated (markRange a b 1) ps ps'.
Proof.
  intros Hwf Ha Hab Hb. unfold NPAGES in Hb. unfold allocatePageRange.
  rewrite allocatePageRangeLoop_eq by (done || dlia).
  destruct (allocatePagesLoop_spec 1024 (a / 1024) 1 (a / 1024) (a mod 1024) (b / 1024) (b mod 1024) ps)
    as (ps' & -> & Hupd); try done; try dlia.
  exists ps'. split; [done|].
  replace (Z.max (a / 1024 * 1024 + a mod 1024) (1024 * (a / 1024))) with a in Hupd by dlia.
  by replace (b / 1024 * 1024 + b mod 1024) with b in Hupd by dlia.
Qed.

Lemma allocatePageRange_reserves_aux ps a b :
  wf ps -> 0 <= a -> a <= b -> b < NPAGES ->
  exists ps', allocatePageRange ps a b = Ok ps' /\ wf ps' /\ sameFrame ps ps' /\
    (forall p, a <= p <= b -> ~ freePage ps' p) /\
    (forall p, ~ (a <= p <= b) -> entryAt ps' p = entryAt ps p).
Proof.
  intros Hwf Ha Hab Hb. destruct (allocatePageRange_spec ps a b Hwf Ha Hab Hb) as (ps' & -> & Hupd).
  exists ps'. split_and!; [done|apply Hupd|apply (upd_frame _ _ _ Hupd)|..].
  - intros p Hp (e' & He' & H0)%freePage_entry. rewrite (upd_entry _ _ _ Hupd) in He'.
    destruct (entryAt ps p) as [e|] eqn:E; [|done]. cbn in He'. injection He' as <-.
    rewrite markRange_in in H0 by lia. pose proof (entryAt_u32 ps Hwf p e E).
    rewrite entryCode_orCode in H0 by (done || lia). apply Z.lor_eq_0_iff in H0. lia.
  - intros p Hp. rewrite (upd_entry _ _ _ Hupd). destruct (entryAt ps p); [|done]. cbn.
    by rewrite markRange_out by lia.
Qed.

(** Reserving a range of pages below the top 4MB allocates all its pages,
    changes no other page, and keeps the directory's summary right. *)
Theorem allocatePageRange_reserves ps a b :
  wf ps -> 0 <= a -> a <= b -> b < NPAGES ->
  exists ps', allocatePageRange ps a b = Ok ps' /\ wf ps' /\ sameFrame ps ps' /\
    (forall p, a <= p <= b -> ~ freePage ps' p) /\
    (forall p, ~ (a <= p <= b) -> entryAt ps' p = entryAt ps p).
Proof. apply allocatePageRange_reserves_aux. Qed.

(** ** The state the allocator starts with *)

Definition validPageTablesAddr (ptsAddr : Z) : Prop :=
  0 <= ptsAddr /\ ptsAddr + 1023 * 4096 < 2 ^ 32 /\ pageAligned ptsAddr.

Lemma entryIsFree_aligned a : is_u32 a -> pageAligned a -> entryIsFree (Z.lor a 3) = true.
Proof.
  intros Ha Hal. rewrite <- (aligned_land a) by done. unfold entryIsFree. apply Z.eqb_eq. u32_bitwise.
Qed.

Lemma Forall_znth_bounded {A} (P : A -> Prop) l :
  (forall i, 0 <= i < zlength l -> exists x, l.[i] = Some x /\ P x) -> Forall P l.
Proof.
  intros H. apply Forall_znth. intros i x Hx. pose proof (znth_Some_lt _ _ _ Hx) as Hi.
  destruct (H i Hi) as (y & Hy & HP). congruence.
Qed.

Lemma initial_entries pdAddr ptsAddr i e :
  validPageDirectoryAddr pdAddr -> validPageTablesAddr ptsAddr ->
  (pageDirectoryEntries (pageDirectory (newPagingStructures pdAddr ptsAddr))).[i] = Some e ->
  is_u32 e /\ entryIsFree e = true.
Proof.
  intros Hpd (Hp1 & Hp2 & Hp3) He.
  destruct (newPagingStructures_inv pdAddr ptsAddr Hpd Hp3) as ((Hl & _ & _ & Hlast) & _ & Hent).
  pose proof (znth_Some_lt _ _ _ He) as Hi. rewrite Hl in Hi. destruct Hpd as (Hd1 & Hd2 & Hd3).
  destruct (decide (i = 1023)) as [->|].
  - rewrite Hlast in He. injection He as <-.
    assert (is_u32 (pdAddr + 0x1000)) by (unfold is_u32; lia).
    split; [auto with cpu|]. apply entryIsFree_aligned; [done|]. unfold pageAligned in *. dlia.
  - destruct (Hent i ltac:(lia)) as [_ Hi']. rewrite Hi' in He. injection He as <-.
    assert (is_u32 (ptsAddr + i * 4096)) by (unfold is_u32; lia).
    split; [auto with cpu|]. apply entryIsFree_aligned; [done|]. unfold pageAligned in *. dlia.
Qed.

Lemma cleared_table pt : tableOk pt -> tableOk (map clearCode pt) /\ checkPageTableFullyNotAllocated (map clearCode pt) = true.
Proof.
  intros [Hl Hu]. split; [split; [by rewrite zlength_map|]|].
  - apply Forall_znth. intros i x. rewrite znth_map. destruct (pt.[i]) eqn:E; [|done].
    intros [= <-]. apply is_u32_clearCode. by eapply znth_Forall.
  - unfold checkPageTableFullyNotAllocated. rewrite forallb_forall. intros x (y & <- & Hy)%in_map_iff.
    apply list_elem_of_In in Hy. rewrite Forall_forall in Hu. specialize (Hu y Hy).
    rewrite entryIsFree_code by auto with cpu. by rewrite entryCode_clearCode.
Qed.

Lemma identityPageTable_ok i : 0 <= i < 1023 -> tableOk (identityPageTable i).
Proof.
  intros Hi. split; [apply zlength_identityPageTable|]. apply Forall_znth_bounded.
  intros j Hj. rewrite zlength_identityPageTable in Hj.
  exists (Z.lor (pageAddr (i * 1024 + j)) 3). split; [by apply identityPageTable_nth|].
  destruct (pageAddr_ok (i * 1024 + j)) as [Hu _]; [lia|]. auto with cpu.
Qed.

(** The directory entries after the constructor: codes of the first 1023
    cleared, the last one kept. *)
Lemma znth_newPageAllocator_directory ps i :
  zlength (pageDirectoryEntries (pageDirectory ps)) = 1024 -> 0 <= i ->
  (pageDirectoryEntries (pageDirectory (newPageAllocator ps))).[i] =
  (fun e => if i <? 1023 then clearCode e else e) <$> (pageDirectoryEntries (pageDirectory ps)).[i].
Proof.
  intros Hl Hi. cbn [newPageAllocator pageDirectory pageDirectoryEntries].
  set (d := pageDirectoryEntries (pageDirectory ps)) in *.
  assert (Ht : zlength (map clearCode (take 1023 d)) = 1023)
    by (rewrite zlength_map; apply (zlength_take d 1023); lia).
  destruct (Z.ltb_spec i 1023).
  - rewrite znth_app_l by lia. rewrite znth_map. by rewrite (znth_take d 1023) by lia.
  - rewrite znth_app_r, Ht by lia. rewrite (znth_drop d 1023) by lia.
    replace (1023 + (i - 1023)) with i by lia. by destruct (d.[i]).
Qed.

Lemma newPageAllocator_wf_gen ps :
  zlength (pageDirectoryEntries (pageDirectory ps)) = 1024 ->
  zlength (helperTableEntries (pageDirectory ps)) = 1024 ->
  helperTableEntries (pageDirectory ps) = pageDirectoryEntries (pageDirectory ps) ->
  zlength (pageTables ps) = 1023 ->
  (forall i e, (pageDirectoryEntries (pageDirectory ps)).[i] = Some e -> is_u32 e /\ entryIsFree e = true) ->
  (forall i pt, (pageTables ps).[i] = Some pt -> tableOk pt) ->
  wf (newPageAllocator ps).
Proof.
  intros Hl Hh Hhd Ht Hinit Hent.
  assert (Hdir : forall i e, (pageDirectoryEntries (pageDirectory (newPageAllocator ps))).[i] = Some e ->
            0 <= i -> is_u32 e /\ entryIsFree e = true /\ entryCode e = 0).
  { intros i e He Hi. rewrite znth_newPageAllocator_directory in He by done.
    destruct ((pageDirectoryEntries (pageDirectory ps)).[i]) as [x|] eqn:E; [|done]. cbn in He. injection He as <-.
    destruct (Hinit i x E) as [Hu Hf].
    assert (entryCode x = 0) by (rewrite entryIsFree_code in Hf by done; by apply Z.eqb_eq).
    destruct (i <? 1023); [|done].
    by rewrite clearCode_free by done. }
  assert (Htab : forall i pt, (pageTables (newPageAllocator ps)).[i] = Some pt ->
            tableOk pt /\ checkPageTableFullyNotAllocated pt = true).
  { intros i pt Hpt'. cbn in Hpt'. rewrite znth_map in Hpt'.
    destruct ((pageTables ps).[i]) eqn:E; [|done]. cbn in Hpt'. injection Hpt' as <-.
    apply cleared_table. by apply (Hent i). }
  constructor.
  - cbn. rewrite zlength_app, zlength_map. rewrite (zlength_take _ 1023), (zlength_drop _ 1023) by lia. lia.
  - apply Forall_znth. intros i e He. pose proof (znth_Some_lt _ _ _ He). by apply (Hdir i); [|lia].
  - done.
  - intros i e He. cbn in He. rewrite Hhd in He. by apply (Hinit i).
  - intros e He. by apply (Hdir 1023); [|lia].
  - cbn. by rewrite zlength_map.
  - intros i pt Hi. by apply (Htab i).
  - intros i pt e Hi He. pose proof (znth_Some_lt _ _ _ He).
    destruct (Hdir i e He ltac:(lia)) as (_ & _ & ->). unfold tableSummary.
    by rewrite (proj2 (Htab i pt Hi)).
Qed.

Lemma newPagingStructures_tables pdAddr ptsAddr i pt :
  validPageDirectoryAddr pdAddr -> pageAligned ptsAddr ->
  (pageTables (newPagingStructures pdAddr ptsAddr)).[i] = Some pt -> tableOk pt.
Proof.
  intros Hpd Hal Hpt. destruct (newPagingStructures_inv pdAddr ptsAddr Hpd Hal) as (_ & Ht & Hent).
  pose proof (znth_Some_lt _ _ _ Hpt) as Hi. rewrite Ht in Hi. destruct (Hent i Hi) as [Hi' _].
  rewrite Hi' in Hpt. injection Hpt as <-. by apply identityPageTable_ok.
Qed.

Lemma newPageAllocator_wf_aux pdAddr ptsAddr :
  validPageDirectoryAddr pdAddr -> validPageTablesAddr ptsAddr ->
  wf (newPageAllocator (newPagingStructures pdAddr ptsAddr)).
Proof.
  intros Hpd Hpt. pose proof Hpt as (_ & _ & Hal).
  destruct (newPagingStructures_inv pdAddr ptsAddr Hpd Hal) as ((Hl & Hh & Hhd & _) & Ht & _).
  apply newPageAllocator_wf_gen; [exact Hl|exact Hh|exact Hhd|exact Ht|..].
  - intros i e He. exact (initial_entries pdAddr ptsAddr i e Hpd Hpt He).
  - intros i pt He. exact (newPagingStructures_tables pdAddr ptsAddr i pt Hpd Hal He).
Qed.

Lemma newPageAllocator_entry ps p e :
  (forall i pt, (pageTables ps).[i] = Some pt -> tableOk pt) ->
  entryAt (newPageAllocator ps) p = Some e -> entryCode e = 0.
Proof.
  intros Hent He. unfold entryAt in He. cbn [newPageAllocator pageTables] in He. rewrite znth_map in He.
  destruct ((pageTables ps).[p / 1024]) as [pt|] eqn:E; [|done]. cbn in He. rewrite znth_map in He.
  destruct (pt.[p mod 1024]) as [x|] eqn:Ex; [|done]. cbn in He. injection He as <-.
  apply entryCode_clearCode. eapply znth_Forall; [apply (Hent _ _ E)|exact Ex].
Qed.

(** The page allocator starts, on the kernel's paging structures, in a
    well-formed state in which every page is free. *)
Theorem newPageAllocator_wf pdAddr ptsAddr :
  validPageDirectoryAddr pdAddr -> validPageTablesAddr ptsAddr ->
  let ps := newPageAllocator (newPagingStructures pdAddr ptsAddr) in
  wf ps /\ freeRun ps 0 NPAGES.
Proof.
  intros Hpd Hpt ps. pose proof (newPageAllocator_wf_aux pdAddr ptsAddr Hpd Hpt) as Hwf. fold ps in Hwf.
  split; [exact Hwf|]. intros p Hp. apply freePage_entry.
  destruct (proj2 (entryAt_Some ps Hwf p) Hp) as [e He]. exists e. split; [exact He|].
  apply (newPageAllocator_entry (newPagingStructures pdAddr ptsAddr) p e); [|exact He]. intros i pt Hi. destruct Hpt as (_ & _ & Hal).
  exact (newPagingStructures_tables pdAddr ptsAddr i pt Hpd Hal Hi).
Qed.

(** ** Sizes the search mishandles *)

Lemma searchTable_skip ps n k fuel i :
  wf ps -> 0 <= i -> i + Z.of_nat k <= 1023 ->
  (forall p, 1024 * i <= p < 1024 * (i + Z.of_nat k) -> ~ freePage ps p) ->
  searchTable (k + fuel) ps n i = searchTable fuel ps n (i + Z.of_nat k).
Proof.
  intros Hwf. revert i. induction k as [|k IH]; intros i Hi Hk Hfull.
  - by rewrite Z.add_0_r.
  - cbn [searchTable Nat.add]. destruct (Z.ltb_spec i 1023); [|lia]. unfold searchStep.
    destruct (directoryEntry_table ps Hwf i) as (e & -> & _ & _ & H2); [lia|].
    cbn [mbind result_bind]. rewrite (proj2 H2) by (intros; apply Hfull; lia).
    cbn -[searchTable Z.add Z.mul]. rewrite IH; [f_equal; lia|lia|lia|]. intros p Hp. apply Hfull. lia.
Qed.

Lemma allocatePagesLoop_null fuel i c firstPDE firstPTE lastPTE ps :
  wf ps -> 1 <= c <= 3 -> 0 <= firstPDE <= i -> 0 <= firstPTE < 1024 -> i <= 1023 ->
  1023 - i < Z.of_nat fuel ->
  allocatePagesLoop fuel i c firstPDE firstPTE 1023 lastPTE ps = Fault NullPointer.
Proof.
  intros Hwf Hc. revert i ps Hwf. induction fuel as [|fuel IH]; intros i ps Hwf Hi HfPTE Hi2 Hfuel; [lia|].
  cbn [allocatePagesLoop]. destruct (Z.leb_spec i 1023); [|lia].
  destruct (Z.eqb_spec i 1023) as [->|]; [by rewrite getPageTable_beyond by lia|].
  set (b := if i =? firstPDE then firstPTE else 0).
  assert (Hb : 0 <= b < 1024) by (unfold b; case_match; lia).
  destruct (wf_getPageTable ps Hwf i ltac:(lia)) as (pt & -> & Hpt & Hok & _). cbn [mbind result_bind orFault].
  rewrite <- (markEntries_summary b 1023 c pt) by (done || lia).
  destruct (update_table ps i (markEntries b 1023 c pt) Hwf) as (ps1 & -> & Hwf1 & _ & _);
    [lia|apply markEntries_ok; [lia|done]|].
  cbn [mbind result_bind]. apply IH; [done|lia..].
Qed.

Lemma searchStep_past_end ps m :
  wf ps -> 1 <= m <= 1022 -> let i := 1023 - m in
  ~ freePage ps (1024 * i) -> freeRun ps (1024 * i + 1) (1024 * m - 1) ->
  searchStep ps (1024 * m + 1023) i = Ok (inl i) /\
  exists pt, getPageTable ps i = Some pt /\ foundPageIndex pt (1024 * m + 1023) i = 1024 * i + 1.
Proof.
  intros Hwf Hm i Hused Hfree. unfold searchStep, foundPageIndex.
  assert (HM : minNumPageTables (1024 * m + 1023) = m) by (unfold minNumPageTables; bool_case; dlia).
  rewrite HM. replace (1024 * m + 1023 - m * 1024) with 1023 by lia.
  destruct (directoryEntry_table ps Hwf i ltac:(lia)) as (e & -> & _ & H0 & H2). cbn [mbind result_bind].
  destruct (Z.eqb_spec (entryCode e) PAGE_TABLE_FULLY_ALLOCATED_CODE) as [E2|_]; cbn [negb].
  { exfalso. apply (proj1 H2 E2 (1024 * i + 1)); [lia|]. apply Hfree. lia. }
  destruct (Z.eqb_spec (entryCode e) 0) as [E0|_]; cbn [negb andb].
  { exfalso. apply Hused, (proj1 H0 E0). lia. }
  destruct (countFreeTables_spec ps Hwf (Z.to_nat m) (i + 1)) as (j & -> & Hj & _ & Hstop); [lia|lia|].
  cbn [mbind result_bind].
  assert (j = m) as ->.
  { destruct (Z.eqb_spec j m); [done|]. destruct Hstop as [Hlt Hno]; [lia|]. exfalso. apply Hno.
    apply (freeRun_sub ps (1024 * i + 1) (1024 * m - 1)); [done|lia..]. }
  rewrite Z.eqb_refl. destruct (Z.eqb_spec m 0); [lia|]. cbn [negb].
  destruct (wf_getPageTable ps Hwf i ltac:(lia)) as (pt & -> & _ & [Hl _] & HS).
  destruct (countFreeSuffix_spec _ _ _ HS) as (C1 & C2 & C3). rewrite Hl in *.
  assert (Hc : countFreePrefix (reverse pt) = 1023).
  { destruct (Z.ltb_spec (countFreePrefix (reverse pt)) 1023).
    - exfalso. apply C3; [lia|]. apply Hfree. lia.
    - destruct (Z.eqb_spec (countFreePrefix (reverse pt)) 1024); [|lia].
      exfalso. apply Hused, C2. lia. }
  cbn [numFreeAtEnd]. rewrite Hc. replace (i + m + 1) with 1024 by lia. split.
  - done.
  - exists pt. split; [done|]. lia.
Qed.

(** C31: when page tables are full up to table [1023 - m], only the first
    page of that table is in use and all later pages are free, a request for
    [1024 * m + 1023] pages, which cannot be satisfied, is not refused: the
    search accepts a region that ends past the last page table and the
    allocation dereferences the null pointer [getPageTable] returns there. *)
Theorem allocateContiguousPages_null_table ps m :
  wf ps -> 1 <= m <= 1022 -> let i := 1023 - m in
  (forall p, 0 <= p <= 1024 * i -> ~ freePage ps p) ->
  freeRun ps (1024 * i + 1) (1024 * m - 1) ->
  (forall s, ~ freeRun ps s (1024 * m + 1023)) /\
  allocateContiguousPages ps (1024 * m + 1023) = Fault NullPointer.
Proof.
  intros Hwf Hm i Hused Hfree. assert (Hi : i = 1023 - m) by done. split.
  - intros s Hs. pose proof (freePage_bound ps Hwf s (Hs s ltac:(lia))).
    pose proof (freePage_bound ps Hwf _ (Hs (s + 1024 * m + 1022) ltac:(lia))).
    apply (Hused s); [unfold NPAGES in *; lia|]. apply Hs. lia.
  - unfold allocateContiguousPages. destruct (Z.eqb_spec (1024 * m + 1023) 0); [lia|].
    assert (E : 1023%nat = (Z.to_nat i + S (Z.to_nat (m - 1)))%nat) by lia. rewrite E.
    rewrite searchTable_skip by first [done | lia | intros p Hp; apply Hused; lia].
    replace (0 + Z.of_nat (Z.to_nat i)) with i by lia. cbn [searchTable].
    destruct (Z.ltb_spec i 1023); [|lia].
    destruct (searchStep_past_end ps m Hwf Hm) as (Hstep & pt & Hpt & Hfound);
      [apply Hused; lia|done|]. fold i in Hstep, Hpt, Hfound. rewrite Hstep. cbn [mbind result_bind].
    rewrite Hpt. cbn [mbind result_bind orFault]. rewrite Hfound.
    unfold allocatePagesStartingAtIndex. destruct (Z.eqb_spec (1024 * m + 1023) 0); [lia|].
    rewrite (u32_small (1024 * i + 1 + (1024 * m + 1023) - 1)) by (unfold is_u32; lia). destruct (Z.ltb_spec 0 (1024 * i + 1)); [|lia].
    rewrite (pageCode_spec ps (1024 * i + 1 - 1)) by (try done; unfold NPAGES; lia). cbn [mbind result_bind].
    destruct (Z.ltb_spec (1024 * i + 1 + (1024 * m + 1023) - 1) (1023 * 1024 - 1)); [lia|].
    cbn [mbind result_bind]. 
    replace ((1024 * i + 1 + (1024 * m + 1023) - 1) / 1024) with 1023 by dlia.
    cbn zeta. rewrite allocatePagesLoop_null; [done|done| | |dlia|dlia|dlia].
    + apply newPageCode_spec; [apply codeAt_bound|lia].
    + dlia.
Qed.

(** ** Witnesses: the kernel's structures at 1MB, with nothing allocated *)

Definition bootState : PagingStructures := newPageAllocator (newPagingStructures 0x100000 0x200000).

Lemma boot_addrs : validPageDirectoryAddr 0x100000 /\ validPageTablesAddr 0x200000.
Proof. unfold validPageDirectoryAddr, validPageTablesAddr, pageAligned. repeat split; reflexivity || lia. Qed.

Lemma bootState_wf : wf bootState.
Proof. apply newPageAllocator_wf_aux; apply boot_addrs. Qed.

Lemma searchable_3 : searchable 3.
Proof. unfold searchable, NPAGES. lia. Qed.

Lemma allocateContiguousPages_first_fit_witness :
  exists ps' addr, allocateContiguousPages bootState 3 = Ok (ps', addr) /\ firstFit bootState 3 ps' addr /\ wf ps'.
Proof. exact (allocateContiguousPages_first_fit bootState 3 bootState_wf searchable_3). Defined.

Lemma freeContiguousPages_frees_region_witness :
  let p := 0x5000 / 4096 in
  exists ps' q, freeContiguousPages bootState 0x5000 = Ok ps' /\
    p <= q <= NPAGES /\ (forall x, p <= x < q -> codeAt bootState x = codeAt bootState p) /\
    (q < NPAGES -> codeAt bootState q <> codeAt bootState p) /\
    pagesUpdated (clearRange p q) bootState ps' /\ freeRun ps' p (q - p).
Proof. apply (freeContiguousPages_frees_region bootState 0x5000 bootState_wf). unfold NPAGES. lia. Defined.

Lemma boot_page_free p : 0 <= p < NPAGES -> freePage bootState p.
Proof.
  intros Hp. apply freePage_entry. destruct (proj2 (entryAt_Some bootState bootState_wf p) Hp) as [e He].
  exists e. split; [exact He|]. refine (newPageAllocator_entry _ p e _ He).
  intros i pt Hi. exact (newPagingStructures_tables _ _ i pt (proj1 boot_addrs) (proj2 (proj2 (proj2 boot_addrs))) Hi).
Qed.

Lemma boot_allocates_3 :
  exists ps' addr, allocateContiguousPages bootState 3 = Ok (ps', addr) /\ addr <> NO_PAGES.
Proof.
  destruct (allocateContiguousPages_first_fit_aux bootState 3 bootState_wf searchable_3)
    as (ps' & addr & Hcall & Hfit & _).
  exists ps', addr. split; [exact Hcall|]. destruct Hfit as [(a & Ha & Hb & -> & _)|(_ & _ & Hno)].
  - replace NO_PAGES with (NPAGES * 4096) by reflexivity. unfold NPAGES in *. lia.
  - exfalso. apply (Hno 0). intros p Hp. apply boot_page_free. unfold NPAGES. lia.
Qed.

Lemma free_after_allocate_witness :
  exists ps' addr, allocateContiguousPages bootState 3 = Ok (ps', addr) /\
    freeContiguousPages ps' addr = Ok bootState.
Proof.
  destruct boot_allocates_3 as (ps' & addr & Hcall & Haddr). exists ps', addr. split; [exact Hcall|].
  exact (free_after_allocate bootState 3 ps' addr bootState_wf searchable_3 Hcall Haddr).
Defined.

Lemma allocatePageRange_reserves_witness :
  exists ps', allocatePageRange bootState 5 5000 = Ok ps' /\ wf ps' /\ sameFrame bootState ps' /\
    (forall p, 5 <= p <= 5000 -> ~ freePage ps' p) /\
    (forall p, ~ (5 <= p <= 5000) -> entryAt ps' p = entryAt bootState p).
Proof. apply (allocatePageRange_reserves bootState 5 5000 bootState_wf); unfold NPAGES; lia. Defined.

Lemma newPageAllocator_wf_witness : wf bootState /\ freeRun bootState 0 NPAGES.
Proof. exact (newPageAllocator_wf 0x100000 0x200000 (proj1 boot_addrs) (proj2 boot_addrs)). Defined.

(** Everything but the last 2047 pages in use. *)
Lemma nearly_full :
  exists ps, wf ps /\ (forall p, 0 <= p <= 1024 * 1021 -> ~ freePage ps p) /\
    freeRun ps (1024 * 1021 + 1) (1024 * 2 - 1).
Proof.
  destruct (allocatePageRange_spec bootState 0 (1024 * 1021) bootState_wf) as (ps & _ & Hupd);
    [lia|lia|unfold NPAGES; lia|].
  exists ps. split_and!; [apply Hupd|..]; intros p Hp.
  - destruct (proj2 (entryAt_Some bootState bootState_wf p)) as [e He]; [unfold NPAGES; lia|].
    unfold freePage, codeAt. rewrite (upd_entry _ _ _ Hupd), He. cbn [fmap option_fmap option_map].
    rewrite markRange_in by lia. rewrite entryCode_orCode; [|by eapply entryAt_u32, He; apply bootState_wf|lia].
    intros E%Z.lor_eq_0_iff. lia.
  - pose proof (boot_page_free p ltac:(unfold NPAGES; lia)) as Hf. unfold freePage, codeAt in *.
    rewrite (upd_entry _ _ _ Hupd). destruct (entryAt bootState p); [|done]. cbn [fmap option_fmap option_map].
    by rewrite markRange_out by lia.
Qed.

Lemma allocateContiguousPages_null_table_witness :
  exists ps, (forall s, ~ freeRun ps s 3071) /\ allocateContiguousPages ps 3071 = Fault NullPointer.
Proof.
  destruct nearly_full as (ps & Hwf & Hused & Hfree). exists ps.
  exact (allocateContiguousPages_null_table ps 2 Hwf ltac:(lia) Hused Hfree).
Defined.
