(* ===== verification/Mem.v ===== *)
(** Byte memory and C strings: [cpp_lib/mem.cpp] with the loops of
    [cpp_lib/mem_assembly.asm] it calls, and [cpp_lib/string.cpp].

    Memory is a function from addresses to bytes; the operations are the
    loops of the source.  [loadBytes] and [storeBytes], blocks as lists, are
    what the other components use for block transfers: [memCopy_correct] says
    that [memCopy] is the one followed by the other. *)
From S2P Require Import Prelude.

Definition Mem : Type := Z -> Z.

Definition store (m : Mem) (a v : Z) : Mem := fun x => if x =? a then v else m x.

(** ** Blocks of bytes as lists *)

Fixpoint loadBytes (m : Mem) (a : Z) (n : nat) : list Z :=
  match n with
  | O => []
  | S n' => m a :: loadBytes m (a + 1) n'
  end.

Fixpoint storeBytes (m : Mem) (a : Z) (l : list Z) : Mem :=
  match l with
  | [] => m
  | b :: l' => storeBytes (store m a b) (a + 1) l'
  end.

(** The bytes of a word, least significant first. *)
Definition le32 (w : Z) : list Z :=
  [Z.land w 0xFF; Z.land (Z.shiftr w 8) 0xFF; Z.land (Z.shiftr w 16) 0xFF; Z.land (Z.shiftr w 24) 0xFF].
Definition le16 (w : Z) : list Z := [Z.land w 0xFF; Z.land (Z.shiftr w 8) 0xFF].

Definition storeWord (m : Mem) (a w : Z) : Mem := storeBytes m a (le32 w).

(** ** [memCopy] *)

(** One [movsd]: the four bytes are read before they are written. *)
Definition copyDword (from to : Z) (m : Mem) : Mem :=
  storeBytes m to (loadBytes m from 4).

Definition memoryCopyDwords (from to : Z) (numberOfDwords : nat) (m : Mem) : Mem :=
  for_range numberOfDwords 0 (fun i m => copyDword (from + 4 * i) (to + 4 * i) m) m.

(** The loop that copies bytes until the source is aligned: what is left. *)
Fixpoint copyUntilAligned (numBytes : nat) (from to : Z) (m : Mem) : Mem * (Z * Z) * nat :=
  match numBytes with
  | O => (m, (from, to), O)
  | S n =>
      if negb (from mod 4 =? 0) then copyUntilAligned n (from + 1) (to + 1) (store m to (m from))
      else (m, (from, to), numBytes)
  end.

Definition memCopy (from to : Z) (numBytes : nat) (m : Mem) : Mem :=
  match numBytes with
  | O => m
  | _ =>
      let '(m, (from, to), numBytes) := copyUntilAligned numBytes from to m in
      let numDwords := (numBytes / 4)%nat in
      let m := memoryCopyDwords from to numDwords m in
      for_range (numBytes - numDwords * 4) (Z.of_nat (numDwords * 4))
        (fun i m => store m (to + i) (m (from + i))) m
  end.

(** ** [memClear] *)

Definition clearDword (a : Z) (m : Mem) : Mem := storeBytes m a [0; 0; 0; 0].

Definition clearDwords (addr : Z) (numberOfDwords : nat) (m : Mem) : Mem :=
  for_range numberOfDwords 0 (fun i m => clearDword (addr + 4 * i) m) m.

Fixpoint clearUntilAligned (numBytes : nat) (addr : Z) (m : Mem) : Mem * Z * nat :=
  match numBytes with
  | O => (m, addr, O)
  | S n =>
      if negb (addr mod 4 =? 0) then clearUntilAligned n (addr + 1) (store m addr 0)
      else (m, addr, numBytes)
  end.

Definition memClear (addr : Z) (numBytes : nat) (m : Mem) : Mem :=
  match numBytes with
  | O => m
  | _ =>
      let '(m, addr, numBytes) := clearUntilAligned numBytes addr m in
      let numDwords := (numBytes / 4)%nat in
      let m := clearDwords addr numDwords m in
      for_range (numBytes - numDwords * 4) (Z.of_nat (numDwords * 4))
        (fun i m => store m (addr + i) 0) m
  end.

(** ** [memCompare] *)

Definition readDword (m : Mem) (a : Z) : Z :=
  m a + 256 * m (a + 1) + 65536 * m (a + 2) + 16777216 * m (a + 3).

(** The value a 32-bit word has as an [int]. *)
Definition toInt (w : Z) : Z := if u32 w <? 2 ^ 31 then u32 w else u32 w - 2 ^ 32.

(** [inl d]: the loop returned [d]; [inr]: what is left when it ends. *)
Fixpoint compareUntilAligned (m : Mem) (numBytes : nat) (addr1 addr2 : Z) : Z + (Z * Z * nat) :=
  match numBytes with
  | O => inr (addr1, addr2, O)
  | S n =>
      if negb (addr1 mod 4 =? 0) then
        if negb (m addr1 =? m addr2) then inl (m addr1 - m addr2)
        else compareUntilAligned m n (addr1 + 1) (addr2 + 1)
      else inr (addr1, addr2, numBytes)
  end.

Fixpoint compareDwords (m : Mem) (n : nat) (addr1 addr2 : Z) : option Z :=
  match n with
  | O => None
  | S n' =>
      if negb (readDword m addr1 =? readDword m addr2)
      then Some (toInt (readDword m addr1 - readDword m addr2))
      else compareDwords m n' (addr1 + 4) (addr2 + 4)
  end.

Fixpoint compareBytes (m : Mem) (n : nat) (addr1 addr2 : Z) : Z :=
  match n with
  | O => 0
  | S n' =>
      if negb (m addr1 =? m addr2) then m addr1 - m addr2
      else compareBytes m n' (addr1 + 1) (addr2 + 1)
  end.

Definition memCompare (m : Mem) (addr1 addr2 : Z) (numBytes : nat) : Z :=
  match numBytes with
  | O => 0
  | _ =>
      match compareUntilAligned m numBytes addr1 addr2 with
      | inl d => d
      | inr (addr1, addr2, numBytes) =>
          let numDwords := (numBytes / 4)%nat in
          match compareDwords m numDwords addr1 addr2 with
          | Some d => d
          | None =>
              compareBytes m (numBytes - numDwords * 4)
                (addr1 + Z.of_nat (numDwords * 4)) (addr2 + Z.of_nat (numDwords * 4))
          end
      end
  end.

(** ** Strings: [str] is the address of the buffer *)

(** The loops of the printing functions: write the digits of [n] from index
    [i] on, least significant first; the index after them. *)
Fixpoint printDigits (fuel : nat) (base : Z) (digit : Z -> Z) (n str i : Z) (m : Mem) : result (Mem * Z) :=
  match fuel with
  | O => Fault OutOfFuel
  | S fuel' =>
      let m := store m (str + i) (digit (Z.rem n base)) in
      let n := Z.quot n base in
      if 0 <? n then printDigits fuel' base digit n str (i + 1) m else Ok (m, i + 1)
  end.

Fixpoint strlenFrom (fuel : nat) (m : Mem) (s i : Z) : result Z :=
  match fuel with
  | O => Fault OutOfFuel
  | S fuel' => if negb (m (s + i) =? 0) then strlenFrom fuel' m s (i + 1) else Ok i
  end.

(** Strings are looked at up to this length. *)
Definition STRING_FUEL : nat := 1000.

Definition strlen (m : Mem) (s : Z) : result Z := strlenFrom STRING_FUEL m s 0.

Fixpoint reverseLoop (fuel : nat) (s i j : Z) (m : Mem) : Mem :=
  match fuel with
  | O => m
  | S fuel' =>
      if i <? j then
        let c := m (s + i) in
        let m := store m (s + i) (m (s + j)) in
        let m := store m (s + j) c in
        reverseLoop fuel' s (i + 1) (j - 1) m
      else m
  end.

Definition reverseString (m : Mem) (s : Z) : result Mem :=
  n ← strlen m s;
  Ok (reverseLoop (Z.to_nat n) s 0 (n - 1) m).

Definition decimalDigit (d : Z) : Z := d + 48.
Definition hexadecimalDigit (d : Z) : Z := if 10 <=? d then d - 10 + 65 else d + 48.

Definition unsignedIntToDecimalString (n str : Z) (m : Mem) : result Mem :=
  r ← printDigits 11 10 decimalDigit n str 0 m;
  let '(m, i) := r in
  reverseString (store m (str + i) 0) str.

Definition intToHexadecimalString (n str : Z) (m : Mem) : result Mem :=
  r ← printDigits 11 16 hexadecimalDigit n str 0 m;
  let '(m, i) := r in
  reverseString (store m (str + i) 0) str.

(** [n] is the value of the [int]; [-n] wraps around. *)
Definition intToDecimalString (n str : Z) (m : Mem) : result Mem :=
  let sign := n in
  let n := if sign <? 0 then toInt (- n) else n in
  r ← printDigits 11 10 decimalDigit n str 0 m;
  let '(m, i) := r in
  let '(m, i) := if sign <? 0 then (store m (str + i) 45, i + 1) else (m, i) in
  reverseString (store m (str + i) 0) str.

(** ** Blocks *)

Lemma store_eq m a v : store m a v a = v.
Proof. unfold store. by rewrite Z.eqb_refl. Qed.

Lemma store_ne m a v x : x <> a -> store m a v x = m x.
Proof. unfold store. intros. by destruct (Z.eqb_spec x a). Qed.

Lemma length_loadBytes m a n : length (loadBytes m a n) = n.
Proof. revert a. induction n; intros; cbn; auto. Qed.

Lemma zlength_loadBytes m a n : zlength (loadBytes m a n) = Z.of_nat n.
Proof. unfold zlength. by rewrite length_loadBytes. Qed.

Lemma znth_loadBytes m a n k : 0 <= k < Z.of_nat n -> (loadBytes m a n).[k] = Some (m (a + k)).
Proof.
  revert a k. induction n as [|n IH]; intros a k Hk; [lia|]. cbn [loadBytes].
  destruct (decide (k = 0)) as [->|]; [by rewrite znth_cons_0, Z.add_0_r|].
  rewrite znth_cons_pos, IH by lia. do 2 f_equal. lia.
Qed.

Lemma loadBytes_ext m1 m2 a n :
  (forall x, a <= x < a + Z.of_nat n -> m1 x = m2 x) -> loadBytes m1 a n = loadBytes m2 a n.
Proof.
  revert a. induction n as [|n IH]; intros a H; [done|]. cbn [loadBytes].
  rewrite H, IH by first [lia | intros; apply H; lia]. done.
Qed.

Lemma loadBytes_app b a n1 n2 : loadBytes b a (n1 + n2) = loadBytes b a n1 ++ loadBytes b (a + Z.of_nat n1) n2.
Proof.
  revert a. induction n1 as [|n1 IH]; intros a; cbn [Nat.add loadBytes app]; [by rewrite Z.add_0_r|].
  rewrite IH. do 3 f_equal. lia.
Qed.

Lemma storeBytes_spec m a l x :
  storeBytes m a l x = match l.[x - a] with Some v => v | None => m x end.
Proof.
  revert m a. induction l as [|b l IH]; intros m a; cbn [storeBytes]; [by rewrite znth_nil|].
  rewrite IH. destruct (decide (x = a)) as [->|Hne].
  - replace (a - (a + 1)) with (-1) by lia. rewrite Z.sub_diag, znth_cons_0.
    rewrite (proj2 (znth_None l (-1))) by lia. apply store_eq.
  - destruct (Z.ltb_spec x a).
    + rewrite !(proj2 (znth_None _ _)) by lia. by apply store_ne.
    + rewrite znth_cons_pos by lia. replace (x - a - 1) with (x - (a + 1)) by lia.
      destruct (l.[x - (a + 1)]); [done|]. by apply store_ne.
Qed.

Lemma storeBytes_out m a l x : ~ (a <= x < a + zlength l) -> storeBytes m a l x = m x.
Proof. intros. rewrite storeBytes_spec. by rewrite (proj2 (znth_None _ _)) by lia. Qed.

Lemma storeBytes_in m a l x v : l.[x - a] = Some v -> storeBytes m a l x = v.
Proof. intros H. by rewrite storeBytes_spec, H. Qed.

Lemma loadBytes_storeBytes m a l : loadBytes (storeBytes m a l) a (length l) = l.
Proof.
  apply znth_ext; [by rewrite zlength_loadBytes|]. intros i Hi. rewrite zlength_loadBytes in Hi.
  rewrite znth_loadBytes by done. rewrite storeBytes_spec. replace (a + i - a) with i by lia.
  destruct (znth_lt_Some l i) as [v Hv]; [done|]. by rewrite Hv.
Qed.

Lemma storeBytes_app m a l1 l2 :
  storeBytes m a (l1 ++ l2) = storeBytes (storeBytes m a l1) (a + zlength l1) l2.
Proof.
  revert m a. induction l1 as [|b l1 IH]; intros m a; cbn [app storeBytes].
  - by rewrite Z.add_0_r.
  - rewrite IH, zlength_cons. f_equal. lia.
Qed.

(** ** [memCopy] copies *)

(** [m'] is [m] after copying [n] bytes from [from] to [to]. *)
Definition copied (m : Mem) (from to n : Z) (m' : Mem) : Prop :=
  forall x, m' x = if bool_decide (to <= x < to + n) then m (from + (x - to)) else m x.

(** The blocks do not overlap, or the bytes move downwards. *)
Definition copyable (from to n : Z) : Prop := from + n <= to \/ to <= from.

Lemma copied_0 m from to : copied m from to 0 m.
Proof. intros x. by rewrite bool_decide_false by lia. Qed.

Lemma copied_step m from to n k m1 m2 :
  0 <= n -> 0 <= k -> copyable from to (n + k) ->
  copied m from to n m1 -> copied m1 (from + n) (to + n) k m2 -> copied m from to (n + k) m2.
Proof.
  unfold copied, copyable. intros Hn Hk Hd H1 H2 x. rewrite H2.
  repeat case_bool_decide; try lia; rewrite H1; repeat case_bool_decide; try lia; try f_equal; lia.
Qed.

Lemma copied_storeBytes m from to n : copied m from to (Z.of_nat n) (storeBytes m to (loadBytes m from n)).
Proof.
  intros x. rewrite storeBytes_spec. case_bool_decide.
  - by rewrite znth_loadBytes by lia.
  - rewrite (proj2 (znth_None _ _)); [done|]. rewrite zlength_loadBytes. lia.
Qed.

Lemma copied_ext m from to n m1 m2 : copied m from to n m1 -> copied m from to n m2 -> forall x, m1 x = m2 x.
Proof. unfold copied. intros H1 H2 x. by rewrite H1, H2. Qed.

Lemma copied_byte m from to : copied m from to 1 (store m to (m from)).
Proof.
  intros x. case_bool_decide.
  - replace x with to by lia. rewrite store_eq. f_equal. lia.
  - apply store_ne. lia.
Qed.

Lemma memoryCopyDwords_copied n from to m m0 k :
  0 <= k -> copyable from to (k + 4 * Z.of_nat n) -> copied m0 from to k m ->
  copied m0 from to (k + 4 * Z.of_nat n) (memoryCopyDwords (from + k) (to + k) n m).
Proof.
  intros Hk Hd Hm. unfold memoryCopyDwords.
  pose proof (for_range_inv (fun i m' => copied m0 from to (k + 4 * i) m')
    (fun i m => copyDword (from + k + 4 * i) (to + k + 4 * i) m) n 0 m) as Hinv.
  cbv beta in Hinv. rewrite Z.add_0_l in Hinv. apply Hinv; [by rewrite Z.mul_0_r, Z.add_0_r|].
  intros j m' Hj Hm'. replace (k + 4 * (j + 1)) with (k + 4 * j + 4) by lia.
  eapply copied_step; [lia|lia| |exact Hm'|].
  - unfold copyable in *. lia.
  - replace (from + k + 4 * j) with (from + (k + 4 * j)) by lia.
    replace (to + k + 4 * j) with (to + (k + 4 * j)) by lia. apply (copied_storeBytes m' _ _ 4).
Qed.

Lemma copyBytes_copied n from to m m0 k i0 :
  0 <= k -> 0 <= i0 -> copyable from to (k + i0 + Z.of_nat n) -> copied m0 from to (k + i0) m ->
  copied m0 from to (k + i0 + Z.of_nat n)
    (for_range n i0 (fun i m => store m (to + k + i) (m (from + k + i))) m).
Proof.
  intros Hk Hi0 Hd Hm.
  pose proof (for_range_inv (fun i m' => copied m0 from to (k + i) m')
    (fun i m => store m (to + k + i) (m (from + k + i))) n i0 m) as Hinv.
  cbv beta in Hinv. replace (k + i0 + Z.of_nat n) with (k + (i0 + Z.of_nat n)) by lia.
  apply Hinv; [done|]. intros j m' Hj Hm'. replace (k + (j + 1)) with (k + j + 1) by lia.
  eapply copied_step; [lia|lia| |exact Hm'|].
  - unfold copyable in *. lia.
  - replace (from + k + j) with (from + (k + j)) by lia.
    replace (to + k + j) with (to + (k + j)) by lia. apply copied_byte.
Qed.

Lemma copyUntilAligned_copied n from to m m0 k :
  0 <= k -> copyable from to (k + Z.of_nat n) -> copied m0 from to k m ->
  exists j, let '(m', (from', to'), n') := copyUntilAligned n (from + k) (to + k) m in
    0 <= j /\ from' = from + k + j /\ to' = to + k + j /\ j + Z.of_nat n' = Z.of_nat n /\
    copied m0 from to (k + j) m'.
Proof.
  revert k m. induction n as [|n IH]; intros k m Hk Hd Hm; cbn [copyUntilAligned].
  - exists 0. rewrite !Z.add_0_r. split_and!; [lia|done..].
  - destruct (negb ((from + k) mod 4 =? 0)).
    + destruct (IH (k + 1) (store m (to + k) (m (from + k)))) as [j Hj]; [lia| | |].
      * unfold copyable in *. lia.
      * eapply copied_step; [lia|lia| |exact Hm|apply copied_byte]. unfold copyable in *. lia.
      * rewrite !Z.add_assoc in Hj.
        destruct (copyUntilAligned n (from + k + 1) (to + k + 1) _) as [[m' [from' to']] n'].
        destruct Hj as (? & ? & ? & ? & ?). exists (j + 1). split_and!; try lia.
        by replace (k + (j + 1)) with (k + 1 + j) by lia.
    + exists 0. rewrite !Z.add_0_r. split_and!; [lia|done..].
Qed.

Lemma memCopy_copied from to n m :
  copyable from to (Z.of_nat n) -> copied m from to (Z.of_nat n) (memCopy from to n m).
Proof.
  intros Hd. unfold memCopy. destruct n as [|n0]; [apply copied_0|]. set (n := S n0) in *.
  destruct (copyUntilAligned_copied n from to m m 0) as [j Hj]; [lia|done|apply copied_0|].
  rewrite !Z.add_0_r in Hj. destruct (copyUntilAligned n from to m) as [[m1 [from' to']] n'].
  destruct Hj as (Hj & -> & -> & Hn' & Hm1). rewrite Z.add_0_l in Hm1. set (d := (n' / 4)%nat).
  assert (Hd4 : Z.of_nat d * 4 <= Z.of_nat n') by (unfold d; rewrite Nat2Z.inj_div; dlia).
  assert (Hm2 : copied m from to (j + 4 * Z.of_nat d) (memoryCopyDwords (from + j) (to + j) d m1)).
  { apply memoryCopyDwords_copied; [done| |done]. unfold copyable in *. lia. }
  replace (Z.of_nat n) with (j + Z.of_nat (d * 4) + Z.of_nat (n' - d * 4)) by lia.
  apply copyBytes_copied; [done|lia| |].
  - unfold copyable in *. lia.
  - by replace (j + Z.of_nat (d * 4)) with (j + 4 * Z.of_nat d) by lia.
Qed.

(** Copying between blocks that do not overlap, or to a lower address,
    whatever their alignment, copies every byte and changes nothing else. *)
Theorem memCopy_correct from to n m :
  copyable from to (Z.of_nat n) ->
  forall x, memCopy from to n m x = storeBytes m to (loadBytes m from n) x.
Proof.
  intros Hd. eapply copied_ext; [by apply memCopy_copied|apply copied_storeBytes].
Qed.

(** ** [memClear] clears *)

Definition cleared (m : Mem) (a n : Z) (m' : Mem) : Prop :=
  forall x, m' x = if bool_decide (a <= x < a + n) then 0 else m x.

Lemma cleared_step m a n k m1 m2 :
  0 <= n -> 0 <= k -> cleared m a n m1 -> cleared m1 (a + n) k m2 -> cleared m a (n + k) m2.
Proof.
  unfold cleared. intros Hn Hk H1 H2 x. rewrite H2, H1. repeat case_bool_decide; try lia; done.
Qed.

Lemma cleared_store m a : cleared m a 1 (store m a 0).
Proof.
  intros x. case_bool_decide; [replace x with a by lia; apply store_eq|apply store_ne; lia].
Qed.

Lemma cleared_dword m a : cleared m a 4 (clearDword a m).
Proof.
  intros x. unfold clearDword. rewrite storeBytes_spec. case_bool_decide.
  - assert (Hk : 0 <= x - a < Z.of_nat 4) by lia. remember (x - a) as k eqn:Ek. clear Ek.
    split_below 4%nat Hk; done.
  - rewrite (proj2 (znth_None _ _)); [done|]. unfold zlength. cbn. lia.
Qed.

Lemma clearUntilAligned_cleared n a m m0 k :
  0 <= k -> cleared m0 a k m ->
  exists j, let '(m', a', n') := clearUntilAligned n (a + k) m in
    0 <= j /\ a' = a + k + j /\ j + Z.of_nat n' = Z.of_nat n /\ cleared m0 a (k + j) m'.
Proof.
  revert k m. induction n as [|n IH]; intros k m Hk Hm; cbn [clearUntilAligned].
  - exists 0. rewrite !Z.add_0_r. split_and!; [lia|done..].
  - destruct (negb ((a + k) mod 4 =? 0)).
    + destruct (IH (k + 1) (store m (a + k) 0)) as [j Hj]; [lia| |].
      * eapply cleared_step; [lia|lia|exact Hm|apply cleared_store].
      * rewrite !Z.add_assoc in Hj. destruct (clearUntilAligned n (a + k + 1) _) as [[m' a'] n'].
        destruct Hj as (? & ? & ? & ?). exists (j + 1). split_and!; try lia.
        by replace (k + (j + 1)) with (k + 1 + j) by lia.
    + exists 0. rewrite !Z.add_0_r. split_and!; [lia|done..].
Qed.

Lemma clear_loop (w : Z) (body : Z -> Mem -> Mem) n i0 a m m0 k :
  0 < w -> 0 <= k -> 0 <= i0 ->
  (forall i m', cleared m' (a + k + w * i) w (body i m')) ->
  cleared m0 a (k + w * i0) m ->
  cleared m0 a (k + w * (i0 + Z.of_nat n)) (for_range n i0 body m).
Proof.
  intros Hw Hk Hi0 Hbody Hm.
  apply (for_range_inv (fun i m' => cleared m0 a (k + w * i) m')); [done|].
  intros j m' Hj Hm'. replace (k + w * (j + 1)) with (k + w * j + w) by lia.
  eapply cleared_step; [nia|lia|exact Hm'|]. rewrite Z.add_assoc. apply Hbody.
Qed.

(** Clearing a block stores zero in every byte of it and changes nothing
    else. *)
Theorem memClear_correct addr n m :
  forall x, memClear addr n m x = if bool_decide (addr <= x < addr + Z.of_nat n) then 0 else m x.
Proof.
  change (cleared m addr (Z.of_nat n) (memClear addr n m)).
  assert (H0 : cleared m addr 0 m) by (intros x; by rewrite bool_decide_false by lia).
  unfold memClear. destruct n as [|n0]; [done|]. set (n := S n0) in *.
  destruct (clearUntilAligned_cleared n addr m m 0) as [j Hj]; [lia|done|].
  rewrite !Z.add_0_r in Hj. destruct (clearUntilAligned n addr m) as [[m1 a'] n'].
  destruct Hj as (Hj & -> & Hn' & Hm1). rewrite Z.add_0_l in Hm1. set (d := (n' / 4)%nat).
  assert (Hd4 : Z.of_nat d * 4 <= Z.of_nat n') by (unfold d; rewrite Nat2Z.inj_div; dlia).
  replace (Z.of_nat n) with (j + 1 * (Z.of_nat (d * 4) + Z.of_nat (n' - d * 4))) by lia.
  apply clear_loop; [lia|lia|lia| |].
  - intros i m'. rewrite Z.mul_1_l. apply cleared_store.
  - replace (j + 1 * Z.of_nat (d * 4)) with (j + 4 * (0 + Z.of_nat d)) by lia. unfold clearDwords.
    apply clear_loop; [lia|lia|lia| |by rewrite Z.mul_0_r, Z.add_0_r].
    intros i m'. apply cleared_dword.
Qed.

(** ** [memCompare] compares *)

Definition byteMem (m : Mem) : Prop := forall x, is_u8 (m x).

Definition sameBytes (m : Mem) (a b n : Z) : Prop := forall k, 0 <= k < n -> m (a + k) = m (b + k).

Lemma sameBytes_loadBytes m a b n :
  loadBytes m a n = loadBytes m b n <-> sameBytes m a b (Z.of_nat n).
Proof.
  split.
  - intros E k Hk. assert (Hn : (loadBytes m a n).[k] = (loadBytes m b n).[k]) by by rewrite E.
    rewrite !znth_loadBytes in Hn by done. congruence.
  - intros HS. apply znth_ext; [by rewrite !zlength_loadBytes|]. intros i Hi.
    rewrite zlength_loadBytes in Hi. rewrite !znth_loadBytes by done. f_equal. by apply HS.
Qed.

Lemma sameBytes_split m a b k n :
  0 <= k <= n -> sameBytes m a b n <-> sameBytes m a b k /\ sameBytes m (a + k) (b + k) (n - k).
Proof.
  unfold sameBytes. intros Hk. split.
  - intros H. split; intros j Hj; [apply H; lia|].
    replace (a + k + j) with (a + (k + j)) by lia. replace (b + k + j) with (b + (k + j)) by lia. apply H. lia.
  - intros [H1 H2] j Hj. destruct (Z.ltb_spec j k); [apply H1; lia|].
    replace (a + j) with (a + k + (j - k)) by lia. replace (b + j) with (b + k + (j - k)) by lia. apply H2. lia.
Qed.

Lemma sameBytes_0 m a b n : n <= 0 -> sameBytes m a b n.
Proof. intros Hn k Hk. lia. Qed.

Lemma sameBytes_1 m a b : sameBytes m a b 1 <-> m a = m b.
Proof.
  split.
  - intros H. specialize (H 0 ltac:(lia)). by rewrite !Z.add_0_r in H.
  - intros H k Hk. replace k with 0 by lia. by rewrite !Z.add_0_r.
Qed.

Lemma readDword_eq m a b : byteMem m -> readDword m a = readDword m b <-> sameBytes m a b 4.
Proof.
  intros Hm. unfold readDword.
  pose proof (Hm a); pose proof (Hm (a + 1)); pose proof (Hm (a + 2)); pose proof (Hm (a + 3)).
  pose proof (Hm b); pose proof (Hm (b + 1)); pose proof (Hm (b + 2)); pose proof (Hm (b + 3)).
  unfold is_u8 in *. split.
  - intros E k Hk. change 4 with (Z.of_nat 4) in Hk. split_below 4%nat Hk; rewrite ?Z.add_0_r; lia.
  - intros HS. pose proof (HS 0 ltac:(lia)) as E0. rewrite !Z.add_0_r in E0.
    rewrite E0, (HS 1), (HS 2), (HS 3) by lia. done.
Qed.

Lemma readDword_u32 m a : byteMem m -> is_u32 (readDword m a).
Proof.
  intros Hm. unfold readDword, is_u32.
  pose proof (Hm a); pose proof (Hm (a + 1)); pose proof (Hm (a + 2)); pose proof (Hm (a + 3)).
  unfold is_u8 in *. lia.
Qed.

Lemma toInt_diff_nonzero x y : is_u32 x -> is_u32 y -> x <> y -> toInt (x - y) <> 0.
Proof. unfold toInt, u32, is_u32. intros. bool_case; dlia. Qed.

(** [Some d] is a difference, [None] none: whether it tells the blocks apart. *)
Definition decides (P : Prop) (d : option Z) : Prop :=
  match d with Some d => d <> 0 /\ ~ P | None => P end.

Lemma compareDwords_spec m n a b :
  byteMem m -> decides (sameBytes m a b (4 * Z.of_nat n)) (compareDwords m n a b).
Proof.
  intros Hm. revert a b. induction n as [|n IH]; intros a b; cbn [compareDwords].
  - apply sameBytes_0. lia.
  - assert (Hsplit : sameBytes m a b (4 * Z.of_nat (S n)) <->
      sameBytes m a b 4 /\ sameBytes m (a + 4) (b + 4) (4 * Z.of_nat n)).
    { rewrite (sameBytes_split m a b 4) by lia. by replace (4 * Z.of_nat (S n) - 4) with (4 * Z.of_nat n) by lia. }
    destruct (Z.eqb_spec (readDword m a) (readDword m b)) as [E|E]; cbn [negb].
    + specialize (IH (a + 4) (b + 4)). apply readDword_eq in E; [|done].
      destruct (compareDwords m n (a + 4) (b + 4)) as [d|]; cbn in *; tauto.
    + split; [apply toInt_diff_nonzero; try apply readDword_u32; done|].
      rewrite Hsplit, <- readDword_eq by done. tauto.
Qed.

Lemma compareBytes_spec m n a b : compareBytes m n a b = 0 <-> sameBytes m a b (Z.of_nat n).
Proof.
  revert a b. induction n as [|n IH]; intros a b; cbn [compareBytes].
  - split; [|done]. intros _. by apply sameBytes_0.
  - rewrite (sameBytes_split m a b 1), sameBytes_1 by lia.
    replace (Z.of_nat (S n) - 1) with (Z.of_nat n) by lia. rewrite <- IH.
    destruct (Z.eqb_spec (m a) (m b)); cbn [negb]; [tauto|]. split; [lia|tauto].
Qed.

Lemma compareUntilAligned_spec m n a b :
  match compareUntilAligned m n a b with
  | inl d => d <> 0 /\ ~ sameBytes m a b (Z.of_nat n)
  | inr (a', b', n') => exists j, 0 <= j /\ a' = a + j /\ b' = b + j /\ j + Z.of_nat n' = Z.of_nat n /\
      sameBytes m a b j
  end.
Proof.
  revert a b. induction n as [|n IH]; intros a b; cbn [compareUntilAligned].
  - exists 0. rewrite !Z.add_0_r. split_and!; try done. by apply sameBytes_0.
  - destruct (negb (a mod 4 =? 0)).
    + destruct (Z.eqb_spec (m a) (m b)) as [E|E]; cbn [negb].
      * specialize (IH (a + 1) (b + 1)). destruct (compareUntilAligned m n (a + 1) (b + 1)) as [d|[[a' b'] n']].
        -- split; [tauto|]. rewrite (sameBytes_split m a b 1) by lia.
           replace (Z.of_nat (S n) - 1) with (Z.of_nat n) by lia. tauto.
        -- destruct IH as (j & ? & ? & ? & ? & ?). exists (j + 1). split_and!; try lia.
           apply (sameBytes_split m a b 1); [lia|]. rewrite sameBytes_1.
           by replace (j + 1 - 1) with j by lia.
      * split; [lia|]. rewrite (sameBytes_split m a b 1), sameBytes_1 by lia. tauto.
    + exists 0. rewrite !Z.add_0_r. split_and!; try done. by apply sameBytes_0.
Qed.

(** Comparing two blocks returns 0 exactly when they hold the same bytes. *)
Theorem memCompare_zero m a b n :
  byteMem m -> memCompare m a b n = 0 <-> loadBytes m a n = loadBytes m b n.
Proof.
  intros Hm. rewrite sameBytes_loadBytes. unfold memCompare. destruct n as [|n0].
  { split; [|done]. intros _. by apply sameBytes_0. }
  set (n := S n0). pose proof (compareUntilAligned_spec m n a b) as HU.
  destruct (compareUntilAligned m n a b) as [d|[[a' b'] n']]; [tauto|].
  destruct HU as (j & Hj & -> & -> & Hn' & Hsame). set (d := (n' / 4)%nat).
  assert (Hd4 : Z.of_nat d * 4 <= Z.of_nat n') by (unfold d; rewrite Nat2Z.inj_div; dlia).
  rewrite (sameBytes_split m a b j) by lia. replace (Z.of_nat n - j) with (Z.of_nat n') by lia.
  rewrite (sameBytes_split m (a + j) (b + j) (4 * Z.of_nat d)) by lia.
  pose proof (compareDwords_spec m d (a + j) (b + j) Hm) as HD.
  destruct (compareDwords m d (a + j) (b + j)) as [x|]; cbn in HD; [tauto|].
  rewrite compareBytes_spec. replace (Z.of_nat (d * 4)) with (4 * Z.of_nat d) by lia.
  replace (Z.of_nat (n' - d * 4)) with (Z.of_nat n' - 4 * Z.of_nat d) by lia. tauto.
Qed.

(** ** Printing numbers *)

Fixpoint digits (fuel : nat) (base n : Z) : list Z :=
  match fuel with
  | O => []
  | S fuel' => n mod base :: (if 0 <? n / base then digits fuel' base (n / base) else [])
  end.

(** The value of digits, most significant first. *)
Definition numeralValue (base : Z) (ds : list Z) : Z := fold_left (fun acc d => acc * base + d) ds 0.

(** [ds] is the numeral of [n]: its digits without leading zeros. *)
Definition numeral (base : Z) (ds : list Z) (n : Z) : Prop :=
  numeralValue base ds = n /\ Forall (fun d => 0 <= d < base) ds /\ ds <> [] /\
  (head ds = Some 0 -> ds = [0]).

Lemma numeralValue_app base ds d : numeralValue base (ds ++ [d]) = numeralValue base ds * base + d.
Proof. unfold numeralValue. by rewrite fold_left_app. Qed.

Lemma head_app_ne {A} (l1 l2 : list A) : l1 <> [] -> head (l1 ++ l2) = head l1.
Proof. by destruct l1. Qed.

Lemma digits_ne fuel base n : digits (S fuel) base n <> [].
Proof. cbn. by destruct (0 <? n / base). Qed.

Lemma digits_numeral fuel base n :
  2 <= base -> 0 <= n < base ^ Z.of_nat (S fuel) -> numeral base (reverse (digits (S fuel) base n)) n.
Proof.
  intros Hb. revert n. induction fuel as [|fuel IH]; intros n Hn.
  - change (base ^ Z.of_nat 1) with (base ^ 1) in Hn. rewrite Z.pow_1_r in Hn.
    cbn. rewrite Z.div_small, Z.mod_small by lia. cbn. unfold numeral, numeralValue. cbn.
    split_and!; [lia|apply Forall_singleton; lia|done|by intros [= ->]].
  - assert (Hq : 0 <= n / base < base ^ Z.of_nat (S fuel)).
    { split; [apply Z.div_pos; lia|]. apply Z.div_lt_upper_bound; [lia|].
      rewrite <- Z.pow_succ_r by lia. replace (Z.succ (Z.of_nat (S fuel))) with (Z.of_nat (S (S fuel))) by lia. apply Hn. }
    pose proof (Z.mod_pos_bound n base ltac:(lia)) as Hm.
    change (digits (S (S fuel)) base n)
      with (n mod base :: if 0 <? n / base then digits (S fuel) base (n / base) else []).
    destruct (Z.ltb_spec 0 (n / base)) as [Hpos|Hz].
    + destruct (IH (n / base) Hq) as (Hv & HF & Hne & Hhd). rewrite reverse_cons.
      unfold numeral. rewrite numeralValue_app, Hv. split_and!.
      * pose proof (Z.div_mod n base ltac:(lia)). lia.
      * apply Forall_app_2; [done|apply Forall_singleton; lia].
      * by destruct (reverse (digits (S fuel) base (n / base))).
      * rewrite head_app_ne by done. intros Hh. specialize (Hhd Hh). rewrite Hhd in Hv.
        unfold numeralValue in Hv. cbn in Hv. lia.
    + cbn. unfold numeral, numeralValue. cbn. assert (n / base = 0) by lia.
      assert (n < base) by (destruct (Z.ltb_spec n base); [done|]; pose proof (Z.div_le_lower_bound n base 1); lia).
      rewrite Z.mod_small by lia. split_and!; [lia|apply Forall_singleton; lia|done|by intros [= ->]].
Qed.

Lemma printDigits_spec fuel base dg n str i m :
  2 <= base -> 0 <= n < base ^ Z.of_nat fuel -> fuel <> O ->
  printDigits fuel base dg n str i m =
    Ok (storeBytes m (str + i) (map dg (digits fuel base n)), i + zlength (digits fuel base n)).
Proof.
  intros Hb. revert n i m. induction fuel as [|fuel IH]; intros n i m Hn Hne; [done|].
  cbn [printDigits digits]. rewrite Z.rem_mod_nonneg, Z.quot_div_nonneg by lia.
  assert (Hq : 0 <= n / base < base ^ Z.of_nat fuel).
  { split; [apply Z.div_pos; lia|]. apply Z.div_lt_upper_bound; [lia|].
    rewrite <- Z.pow_succ_r by lia. replace (Z.succ (Z.of_nat fuel)) with (Z.of_nat (S fuel)) by lia. apply Hn. }
  destruct (Z.ltb_spec 0 (n / base)).
  - rewrite IH; [|done|intros E; subst fuel; change (Z.of_nat 0) with 0 in Hq; rewrite Z.pow_0_r in Hq; lia].
    cbn [map storeBytes]. rewrite zlength_cons. f_equal. f_equal; [f_equal; lia|lia].
  - done.
Qed.

Lemma strlenFrom_spec fuel m s (l : list Z) i :
  (forall k, 0 <= k < zlength l -> m (s + i + k) <> 0) -> m (s + i + zlength l) = 0 ->
  (length l < fuel)%nat -> strlenFrom fuel m s i = Ok (i + zlength l).
Proof.
  revert l i. induction fuel as [|fuel IH]; intros l i Hl H0 Hf; [lia|]. cbn [strlenFrom].
  destruct l as [|x l].
  - change (zlength (@nil Z)) with 0 in *. rewrite Z.add_0_r in *. by rewrite H0.
  - pose proof (Hl 0) as Hx. rewrite Z.add_0_r, zlength_cons in Hx. pose proof (zlength_nonneg l).
    destruct (Z.eqb_spec (m (s + i)) 0); [by apply Hx in e; [|lia]|]. cbn [negb].
    rewrite (IH l (i + 1)).
    + rewrite zlength_cons. f_equal. lia.
    + intros k Hk. replace (s + (i + 1) + k) with (s + i + (k + 1)) by lia. apply Hl. rewrite zlength_cons. lia.
    + rewrite zlength_cons in H0. by replace (s + (i + 1) + zlength l) with (s + i + (zlength l + 1)) by lia.
    + cbn in Hf. lia.
Qed.

Lemma reverseLoop_spec fuel s i j m :
  j - i < 2 * Z.of_nat fuel ->
  forall x, reverseLoop fuel s i j m x = if bool_decide (i <= x - s <= j) then m (s + (i + j - (x - s))) else m x.
Proof.
  revert i j m. induction fuel as [|fuel IH]; intros i j m Hf x; cbn [reverseLoop].
  - by rewrite bool_decide_false by lia.
  - destruct (Z.ltb_spec i j) as [Hij|Hij].
    + rewrite IH by lia.
      assert (Hst : forall y, store (store m (s + i) (m (s + j))) (s + j) (m (s + i)) y =
        if bool_decide (y = s + j) then m (s + i) else if bool_decide (y = s + i) then m (s + j) else m y).
      { intros y. unfold store. repeat case_bool_decide; subst;
          repeat (rewrite Z.eqb_refl || (rewrite (proj2 (Z.eqb_neq _ _)) by lia)); done. }
      rewrite !Hst. repeat case_bool_decide; try lia; try (f_equal; lia); done.
    + case_bool_decide; [f_equal; lia|done].
Qed.

Lemma storeBytes_load m a l k : 0 <= k < zlength l -> Some (storeBytes m a l (a + k)) = l.[k].
Proof.
  intros Hk. rewrite storeBytes_spec. replace (a + k - a) with k by lia.
  destruct (znth_lt_Some l k Hk) as [v ->]. done.
Qed.

(** Reversing a C string in place. *)
Lemma reverseString_spec m s l :
  loadBytes m s (length l + 1) = l ++ [0] -> Forall (fun b => b <> 0) l -> (length l < STRING_FUEL)%nat ->
  exists m', reverseString m s = Ok m' /\ loadBytes m' s (length l + 1) = reverse l ++ [0] /\
    forall x, ~ (s <= x < s + zlength l) -> m' x = m x.
Proof.
  intros Hl Hnz Hlen.
  assert (Hm : forall k, 0 <= k < zlength l + 1 -> (l ++ [0]).[k] = Some (m (s + k))).
  { intros k Hk. rewrite <- Hl. apply znth_loadBytes. unfold zlength in Hk. lia. }
  assert (Hnz' : forall k, 0 <= k < zlength l -> l.[k] = Some (m (s + k)) /\ m (s + k) <> 0).
  { intros k Hk. specialize (Hm k ltac:(lia)). rewrite znth_app_l in Hm by lia. split; [done|].
    by apply (znth_Forall _ _ _ _ Hnz Hm). }
  assert (H0 : m (s + zlength l) = 0).
  { pose proof (zlength_nonneg l). specialize (Hm (zlength l) ltac:(lia)).
    rewrite znth_app_r in Hm by lia. rewrite Z.sub_diag in Hm. by injection Hm. }
  unfold reverseString, strlen. rewrite (strlenFrom_spec STRING_FUEL m s l 0).
  2:{ intros k Hk. rewrite Z.add_0_r. by apply Hnz'. }
  2:{ by rewrite Z.add_0_r. }
  2:{ done. }
  rewrite Z.add_0_l. cbn [mbind result_bind]. eexists. split; [done|]. split.
  - apply znth_ext.
    { rewrite zlength_loadBytes, zlength_app, zlength_reverse. unfold zlength. cbn. lia. }
    intros i Hi. rewrite zlength_loadBytes in Hi.
    rewrite znth_loadBytes by done. rewrite reverseLoop_spec by (pose proof (zlength_nonneg l); lia).
    replace (s + i - s) with i by lia. assert (i <= zlength l) by (unfold zlength; lia).
    case_bool_decide.
    + rewrite znth_app_l by (rewrite zlength_reverse; lia). rewrite znth_reverse by lia.
      destruct (Hnz' (zlength l - 1 - i)) as [-> _]; [lia|]. done.
    + replace i with (zlength l) by lia. rewrite znth_app_r, zlength_reverse by (rewrite zlength_reverse; lia).
      rewrite Z.sub_diag. by rewrite H0.
  - intros x Hx. rewrite reverseLoop_spec by (pose proof (zlength_nonneg l); lia).
    by rewrite bool_decide_false by lia.
Qed.

Lemma map_reverse {A B} (f : A -> B) l : map f (reverse l) = reverse (map f l).
Proof. induction l as [|x l IH]; [done|]. cbn [map]. by rewrite !reverse_cons, map_app, IH. Qed.

Lemma length_digits fuel base n : (length (digits fuel base n) <= fuel)%nat.
Proof.
  revert n. induction fuel as [|fuel IH]; intros n; cbn; [lia|].
  destruct (0 <? n / base); [specialize (IH (n / base)); lia|cbn; lia].
Qed.

(** What the printing functions leave at [str]: an optional sign, the digits,
    the terminator, and nothing outside the [n] bytes from [str] on. *)
Definition printed (m m' : Mem) (str : Z) (text : list Z) (n : Z) : Prop :=
  loadBytes m' str (length text + 1) = text ++ [0] /\
  zlength text < n /\
  forall x, ~ (str <= x < str + n) -> m' x = m x.

Lemma length_digits_lt base k n :
  2 <= base -> 0 <= n < base ^ Z.of_nat k -> (1 <= k)%nat -> (length (digits (S k) base n) <= k)%nat.
Proof.
  intros Hb. revert n. induction k as [|k IH]; intros n Hn Hk; [lia|].
  change (digits (S (S k)) base n) with (n mod base :: if 0 <? n / base then digits (S k) base (n / base) else []).
  destruct (Z.ltb_spec 0 (n / base)) as [Hq|]; cbn [length]; [|lia].
  assert (n / base < base ^ Z.of_nat k).
  { apply Z.div_lt_upper_bound; [lia|]. rewrite <- Z.pow_succ_r by lia.
    replace (Z.succ (Z.of_nat k)) with (Z.of_nat (S k)) by lia. apply Hn. }
  apply le_n_S, IH; [lia|]. destruct k; [|lia]. change (Z.of_nat 0) with 0 in *. rewrite Z.pow_0_r in *. lia.
Qed.

Lemma printNumber_spec base dg n str m (suffix : list Z) :
  2 <= base -> 0 <= n < base ^ Z.of_nat 10 -> (forall d, 0 <= d < base -> dg d <> 0) ->
  (length suffix <= 1)%nat -> Forall (fun b => b <> 0) suffix ->
  exists m' ds, numeral base ds n /\
    (r ← printDigits 11 base dg n str 0 m;
     let '(m, i) := r in
     reverseString (store (storeBytes m (str + i) suffix) (str + (i + zlength suffix)) 0) str) = Ok m' /\
    printed m m' str (suffix ++ map dg ds) 12.
Proof.
  intros Hb Hn Hdg Hs Hs0.
  pose proof (length_digits_lt base 10 n Hb Hn ltac:(lia)) as Hlen.
  assert (Hn11 : 0 <= n < base ^ Z.of_nat 11).
  { assert (base ^ Z.of_nat 10 <= base ^ Z.of_nat 11) by (apply Z.pow_le_mono_r; lia). lia. }
  pose proof (digits_numeral 10 base n Hb Hn11) as Hnum.
  rewrite printDigits_spec by (done || lia). cbn [mbind result_bind].
  set (ds := digits 11 base n) in *. rewrite Z.add_0_l, !Z.add_0_r.
  set (t := map dg ds ++ suffix).
  assert (Et : forall x, store (storeBytes (storeBytes m str (map dg ds)) (str + zlength ds) suffix)
      (str + (zlength ds + zlength suffix)) 0 x = storeBytes m str (t ++ [0]) x).
  { intros x. unfold t. rewrite !storeBytes_app, zlength_app, zlength_map. cbn [storeBytes].
    by rewrite Z.add_assoc. }
  assert (Htl : length t = (length ds + length suffix)%nat) by (unfold t; by rewrite length_app, length_map).
  destruct (reverseString_spec (store (storeBytes (storeBytes m str (map dg ds)) (str + zlength ds) suffix)
      (str + (zlength ds + zlength suffix)) 0) str t) as (m' & -> & Hload & Hout).
  { rewrite (loadBytes_ext _ (storeBytes m str (t ++ [0]))) by (intros; apply Et).
    replace (length t + 1)%nat with (length (t ++ [0])) by (rewrite length_app; cbn; lia).
    apply loadBytes_storeBytes. }
  { unfold t. apply Forall_app_2; [|done]. apply Forall_znth. intros k b. rewrite znth_map.
    destruct (ds.[k]) as [d|] eqn:E; [|done]. intros [= <-]. apply Hdg.
    destruct Hnum as (_ & HF & _). rewrite Forall_reverse in HF. exact (znth_Forall _ _ _ _ HF E). }
  { unfold STRING_FUEL. lia. }
  exists m', (reverse ds). split; [done|]. split; [done|]. unfold printed.
  rewrite map_reverse.
  replace (suffix ++ reverse (map dg ds)) with (reverse t).
  2:{ unfold t. rewrite reverse_app. f_equal. destruct suffix as [|b [|]]; [done|done|cbn in Hs; lia]. }
  rewrite length_reverse. split; [done|]. unfold zlength in *. rewrite length_reverse. split; [lia|].
  intros x Hx. rewrite Hout by lia. rewrite Et. apply storeBytes_out. rewrite zlength_app.
  change (zlength [0]) with 1. unfold zlength. lia.
Qed.

Lemma decimalDigit_nonzero d : 0 <= d < 10 -> decimalDigit d <> 0.
Proof. unfold decimalDigit. lia. Qed.

Lemma hexadecimalDigit_nonzero d : 0 <= d < 16 -> hexadecimalDigit d <> 0.
Proof. unfold hexadecimalDigit. bool_case; lia. Qed.

(** Printing an unsigned number writes its decimal numeral, without
    leading zeros and terminated, within 12 bytes. *)
Theorem unsignedIntToDecimalString_correct n str m :
  is_u32 n ->
  exists m' ds, unsignedIntToDecimalString n str m = Ok m' /\ numeral 10 ds n /\
    printed m m' str (map decimalDigit ds) 12.
Proof.
  intros Hn. unfold is_u32 in Hn.
  destruct (printNumber_spec 10 decimalDigit n str m []) as (m' & ds & Hnum & Hrun & Hp);
    [lia|lia|apply decimalDigit_nonzero|cbn; lia|constructor|].
  exists m', ds. split_and!; [|done|done]. unfold unsignedIntToDecimalString.
  destruct (printDigits 11 10 decimalDigit n str 0 m) as [[m1 i]|]; [|done].
  cbn [mbind result_bind storeBytes] in *. change (zlength (@nil Z)) with 0 in Hrun. by rewrite Z.add_0_r in Hrun.
Qed.

(** Printing in hexadecimal writes the hexadecimal numeral with upper case
    digits. *)
Theorem intToHexadecimalString_correct n str m :
  is_u32 n ->
  exists m' ds, intToHexadecimalString n str m = Ok m' /\ numeral 16 ds n /\
    printed m m' str (map hexadecimalDigit ds) 12.
Proof.
  intros Hn. unfold is_u32 in Hn.
  destruct (printNumber_spec 16 hexadecimalDigit n str m []) as (m' & ds & Hnum & Hrun & Hp);
    [lia|lia|apply hexadecimalDigit_nonzero|cbn; lia|constructor|].
  exists m', ds. split_and!; [|done|done]. unfold intToHexadecimalString.
  destruct (printDigits 11 16 hexadecimalDigit n str 0 m) as [[m1 i]|]; [|done].
  cbn [mbind result_bind storeBytes] in *. change (zlength (@nil Z)) with 0 in Hrun. by rewrite Z.add_0_r in Hrun.
Qed.

(** Printing a signed number writes a minus sign for the negative ones and
    the decimal numeral of its absolute value, for every [int] but the
    smallest, whose negation overflows: for that one the text is the two
    characters minus and open parenthesis. *)
Theorem intToDecimalString_correct n str m :
  - 2 ^ 31 <= n < 2 ^ 31 ->
  exists m', intToDecimalString n str m = Ok m' /\
    if n =? - 2 ^ 31 then loadBytes m' str 3 = [45; 40; 0]
    else exists ds, numeral 10 ds (Z.abs n) /\
      printed m m' str ((if n <? 0 then [45] else []) ++ map decimalDigit ds) 12.
Proof.
  intros Hn. unfold intToDecimalString. destruct (Z.eqb_spec n (- 2 ^ 31)) as [->|Hne].
  - assert (E : printDigits 11 10 decimalDigit (toInt (- - 2 ^ 31)) str 0 m = Ok (store m (str + 0) 40, 0 + 1))
      by reflexivity.
    change (- 2 ^ 31 <? 0) with true. cbv iota zeta. rewrite E. cbn [mbind result_bind].
    set (m1 := store (store (store m (str + 0) 40) (str + (0 + 1)) 45) (str + (0 + 1 + 1)) 0).
    destruct (reverseString_spec m1 str [40; 45]) as (m' & -> & Hload & _); [| |cbn; unfold STRING_FUEL; lia|].
    + cbn [loadBytes length Nat.add app]. unfold m1, store.
      repeat match goal with |- context [?a =? ?b] => destruct (Z.eqb_spec a b); try lia end. done.
    + repeat constructor; lia.
    + exists m'. split; [done|]. exact Hload.
  - set (n' := if n <? 0 then toInt (- n) else n).
    assert (En : n' = Z.abs n).
    { unfold n', toInt, u32. destruct (Z.ltb_spec n 0); [|lia].
      rewrite Z.mod_small by lia. destruct (Z.ltb_spec (- n) (2 ^ 31)); lia. }
    destruct (printNumber_spec 10 decimalDigit n' str m (if n <? 0 then [45] else []))
      as (m' & ds & Hnum & Hrun & Hp); [lia|lia|apply decimalDigit_nonzero| | |].
    { destruct (n <? 0); cbn; lia. }
    { destruct (n <? 0); repeat constructor; lia. }
    rewrite En in Hnum. exists m'. split; [|by exists ds].
    destruct (printDigits 11 10 decimalDigit n' str 0 m) as [[m1 i]|]; [|done].
    cbn [mbind result_bind] in *. rewrite <- Hrun. destruct (n <? 0); cbn [storeBytes]; [done|].
    change (zlength (@nil Z)) with 0. by rewrite Z.add_0_r.
Qed.

(** ** Witnesses *)

Definition exampleMem : Mem := fun x => x mod 256.

Lemma byteMem_exampleMem : byteMem exampleMem.
Proof. intros x. apply Z.mod_pos_bound. lia. Qed.

Lemma memCopy_correct_witness :
  copyable 101 203 17 /\
  forall x, memCopy 101 203 17 exampleMem x = storeBytes exampleMem 203 (loadBytes exampleMem 101 17) x.
Proof.
  assert (H : copyable 101 203 17) by (unfold copyable; lia).
  split; [exact H|exact (memCopy_correct 101 203 17 exampleMem H)].
Defined.

Lemma memCompare_zero_witness : memCompare exampleMem 5 261 11 = 0 <-> loadBytes exampleMem 5 11 = loadBytes exampleMem 261 11.
Proof. exact (memCompare_zero exampleMem 5 261 11 byteMem_exampleMem). Defined.

Lemma unsignedIntToDecimalString_correct_witness :
  exists m' ds, unsignedIntToDecimalString 4294967295 100 exampleMem = Ok m' /\ numeral 10 ds 4294967295 /\
    printed exampleMem m' 100 (map decimalDigit ds) 12.
Proof. apply (unsignedIntToDecimalString_correct 4294967295 100 exampleMem). unfold is_u32. lia. Defined.

Lemma intToHexadecimalString_correct_witness :
  exists m' ds, intToHexadecimalString 0xDEADBEEF 100 exampleMem = Ok m' /\ numeral 16 ds 0xDEADBEEF /\
    printed exampleMem m' 100 (map hexadecimalDigit ds) 12.
Proof. apply (intToHexadecimalString_correct 0xDEADBEEF 100 exampleMem). unfold is_u32. lia. Defined.

Lemma intToDecimalString_correct_witness :
  exists m', intToDecimalString (- 2 ^ 31) 100 exampleMem = Ok m' /\ loadBytes m' 100 3 = [45; 40; 0].
Proof. apply (intToDecimalString_correct (- 2 ^ 31) 100 exampleMem). lia. Defined.
