(* ===== verification/LinkedLists.v ===== *)
(** Linked list elements: [cpp_lib/list.h].

    The lists of the system are threaded through arrays of elements; a pointer
    is the index of an element, [None] is [nullptr].  [threaded] says that a
    sequence of indices is threaded through one pointer field, forward, and
    [backThreaded] backward.  The lemmas say how a thread depends on the
    fields, so that each list operation is proved by looking at the pointers
    it changes. *)
From S2P Require Import Prelude.

(** [DoublyLinkedListElement] *)
Record Element (V : Type) := mkElement {
  value : V;
  next : option Z;
  prev : option Z;
}.
Arguments mkElement {V} value next prev.
Arguments value {V} e.
Arguments next {V} e.
Arguments prev {V} e.

#[export] Instance Element_eq_dec `{EqDecision V} : EqDecision (Element V).
Proof. solve_decision. Defined.

Section elements.
Context {V : Type}.
Implicit Types (es : list (Element V)) (i j : Z) (p : option Z).

(** [elements[i].value = v], [elements[i].next = p], [elements[i].prev = p] *)
Definition updateElement es i (f : Element V -> Element V) : result (list (Element V)) :=
  e ← es.[i] ?? OutOfRange; Ok es.[i := f e].
Definition setValue es i (v : V) := updateElement es i (fun e => mkElement v (next e) (prev e)).
Definition setNext es i p := updateElement es i (fun e => mkElement (value e) p (prev e)).
Definition setPrev es i p := updateElement es i (fun e => mkElement (value e) (next e) p).

Definition getNext es i : result (option Z) := e ← es.[i] ?? OutOfRange; Ok (next e).
Definition getPrev es i : result (option Z) := e ← es.[i] ?? OutOfRange; Ok (prev e).
Definition getValue es i : result V := e ← es.[i] ?? OutOfRange; Ok (value e).

(** The fields as functions of the index. *)
Definition valueOf es i : option V := value <$> es.[i].
Definition nextOf es i : option (option Z) := next <$> es.[i].
Definition prevOf es i : option (option Z) := prev <$> es.[i].

(** [f'] is [f] with index [i] sent to [x]. *)
Definition updated {A} (f f' : Z -> option A) i (x : A) : Prop :=
  f' i = Some x /\ forall j, j <> i -> f' j = f j.

Definition unchanged {A} (f f' : Z -> option A) : Prop := forall j, f' j = f j.

Lemma updateElement_ok es i e f :
  es.[i] = Some e ->
  exists es', updateElement es i f = Ok es' /\ zlength es' = zlength es /\
    es'.[i] = Some (f e) /\ forall j, j <> i -> es'.[j] = es.[j].
Proof.
  intros He. unfold updateElement. rewrite He. cbn. eexists. split; [done|].
  pose proof (znth_Some_lt _ _ _ He). split_and!.
  - apply zlength_zset.
  - by apply znth_zset_eq.
  - intros j Hj. by apply znth_zset_ne.
Qed.

Ltac solve_update es i f :=
  let Hi := fresh in let e := fresh "e" in let He := fresh in
  intros Hi; destruct (znth_lt_Some es i Hi) as [e He];
  let H := fresh in pose proof (updateElement_ok es i e f He) as H;
  let es' := fresh "es'" in let Hu := fresh in let Hl := fresh in let Hsame := fresh in let Hoth := fresh in
  destruct H as (es' & Hu & Hl & Hsame & Hoth);
  exists es'; split; [exact Hu|]; split; [exact Hl|];
  unfold valueOf, nextOf, prevOf, updated, unchanged; split_and!;
  first [ by rewrite Hsame
        | let j := fresh "j" in let Hj := fresh in intros j Hj; by rewrite Hoth
        | let j := fresh "j" in intros j; destruct (decide (j = i)) as [->|];
          [by rewrite Hsame, He | by rewrite Hoth] ].

Lemma setValue_ok es i v :
  0 <= i < zlength es ->
  exists es', setValue es i v = Ok es' /\ zlength es' = zlength es /\
    updated (valueOf es) (valueOf es') i v /\ unchanged (nextOf es) (nextOf es') /\
    unchanged (prevOf es) (prevOf es').
Proof. solve_update es i (fun e : Element V => mkElement v (next e) (prev e)). Qed.

Lemma setNext_ok es i p :
  0 <= i < zlength es ->
  exists es', setNext es i p = Ok es' /\ zlength es' = zlength es /\
    updated (nextOf es) (nextOf es') i p /\ unchanged (valueOf es) (valueOf es') /\
    unchanged (prevOf es) (prevOf es').
Proof. solve_update es i (fun e : Element V => mkElement (value e) p (prev e)). Qed.

Lemma setPrev_ok es i p :
  0 <= i < zlength es ->
  exists es', setPrev es i p = Ok es' /\ zlength es' = zlength es /\
    updated (prevOf es) (prevOf es') i p /\ unchanged (valueOf es) (valueOf es') /\
    unchanged (nextOf es) (nextOf es').
Proof. solve_update es i (fun e : Element V => mkElement (value e) (next e) p). Qed.

Lemma getNext_ok es i p : nextOf es i = Some p -> getNext es i = Ok p.
Proof. unfold nextOf, getNext. destruct (es.[i]); [by intros [= <-]|done]. Qed.

Lemma getPrev_ok es i p : prevOf es i = Some p -> getPrev es i = Ok p.
Proof. unfold prevOf, getPrev. destruct (es.[i]); [by intros [= <-]|done]. Qed.

Lemma getValue_ok es i v : valueOf es i = Some v -> getValue es i = Ok v.
Proof. unfold valueOf, getValue. destruct (es.[i]); [by intros [= <-]|done]. Qed.

Lemma nextOf_Some es i : 0 <= i < zlength es <-> is_Some (nextOf es i).
Proof.
  unfold nextOf. rewrite fmap_is_Some. split.
  - intros Hi. destruct (znth_lt_Some es i Hi) as [e He]. by exists e.
  - intros [e He]. by apply znth_Some_lt in He.
Qed.

Lemma valueOf_Some es i : 0 <= i < zlength es <-> is_Some (valueOf es i).
Proof.
  unfold valueOf. rewrite fmap_is_Some. split.
  - intros Hi. destruct (znth_lt_Some es i Hi) as [e He]. by exists e.
  - intros [e He]. by apply znth_Some_lt in He.
Qed.

Lemma prevOf_Some es i : 0 <= i < zlength es <-> is_Some (prevOf es i).
Proof.
  unfold prevOf. rewrite fmap_is_Some. split.
  - intros Hi. destruct (znth_lt_Some es i Hi) as [e He]. by exists e.
  - intros [e He]. by apply znth_Some_lt in He.
Qed.
End elements.

(** ** Threads *)

(** The pointer to the first element of [l], or [n] if there is none; to the
    last element, or [p]. *)
Definition firstOf (l : list Z) (n : option Z) : option Z := match l with [] => n | i :: _ => Some i end.
Definition lastOf (l : list Z) (p : option Z) : option Z := match reverse l with [] => p | i :: _ => Some i end.

Fixpoint threaded (f : Z -> option (option Z)) (l : list Z) (n : option Z) : Prop :=
  match l with
  | [] => True
  | i :: l' => f i = Some (firstOf l' n) /\ threaded f l' n
  end.

Fixpoint backThreaded (f : Z -> option (option Z)) (p : option Z) (l : list Z) : Prop :=
  match l with
  | [] => True
  | i :: l' => f i = Some p /\ backThreaded f (Some i) l'
  end.

Section threads.
Implicit Types (f g : Z -> option (option Z)) (l : list Z) (i j : Z) (n p : option Z).

Lemma lastOf_snoc l i p : lastOf (l ++ [i]) p = Some i.
Proof. unfold lastOf. by rewrite reverse_app. Qed.

Lemma lastOf_cons l i p : lastOf (i :: l) p = lastOf l (Some i).
Proof. unfold lastOf. rewrite reverse_cons. by destruct (reverse l). Qed.

Lemma firstOf_app l1 l2 n : firstOf (l1 ++ l2) n = firstOf l1 (firstOf l2 n).
Proof. by destruct l1. Qed.

Lemma lastOf_app l1 l2 p : lastOf (l1 ++ l2) p = lastOf l2 (lastOf l1 p).
Proof. unfold lastOf. rewrite reverse_app. by destruct (reverse l2). Qed.

Lemma firstOf_None l : firstOf l None = None -> l = [].
Proof. by destruct l. Qed.

Lemma lastOf_None l : lastOf l None = None -> l = [].
Proof.
  unfold lastOf. destruct (reverse l) eqn:E; [|done]. intros _. rewrite <- (reverse_involutive l), E. done.
Qed.

Lemma lastOf_Some l i : lastOf l None = Some i -> exists l', l = l' ++ [i].
Proof.
  unfold lastOf. destruct (reverse l) as [|x r] eqn:E; [done|]. intros [= ->].
  exists (reverse r). by rewrite <- (reverse_involutive l), E, reverse_cons.
Qed.

Lemma threaded_app f l1 l2 n : threaded f (l1 ++ l2) n <-> threaded f l1 (firstOf l2 n) /\ threaded f l2 n.
Proof. induction l1 as [|i l1 IH]; cbn; [tauto|]. rewrite IH, firstOf_app. tauto. Qed.

Lemma backThreaded_app f p l1 l2 :
  backThreaded f p (l1 ++ l2) <-> backThreaded f p l1 /\ backThreaded f (lastOf l1 p) l2.
Proof. revert p. induction l1 as [|i l1 IH]; intros p; cbn; [tauto|]. rewrite IH, lastOf_cons. tauto. Qed.

Lemma threaded_frame f g l n : (forall i, i ∈ l -> g i = f i) -> threaded f l n -> threaded g l n.
Proof.
  induction l as [|i l IH]; intros Hg; cbn; [done|]. intros [Hi Hl]. split.
  - rewrite Hg by by left. done.
  - apply IH; [|done]. intros j Hj. apply Hg. by right.
Qed.

Lemma backThreaded_frame f g p l : (forall i, i ∈ l -> g i = f i) -> backThreaded f p l -> backThreaded g p l.
Proof.
  revert p. induction l as [|i l IH]; intros p Hg; cbn; [done|]. intros [Hi Hl]. split.
  - rewrite Hg by by left. done.
  - apply IH; [|done]. intros j Hj. apply Hg. by right.
Qed.

Lemma threaded_unchanged f g l n : unchanged f g -> threaded f l n -> threaded g l n.
Proof. intros H. apply threaded_frame. auto. Qed.

Lemma backThreaded_unchanged f g p l : unchanged f g -> backThreaded f p l -> backThreaded g p l.
Proof. intros H. apply backThreaded_frame. auto. Qed.

Lemma threaded_updated f g i x l n : updated f g i x -> i ∉ l -> threaded f l n -> threaded g l n.
Proof. intros [_ H] Hi. apply threaded_frame. intros j Hj. apply H. by intros ->. Qed.

Lemma backThreaded_updated f g i x p l : updated f g i x -> i ∉ l -> backThreaded f p l -> backThreaded g p l.
Proof. intros [_ H] Hi. apply backThreaded_frame. intros j Hj. apply H. by intros ->. Qed.

(** Redirecting the pointer out of the last element. *)
Lemma threaded_updated_last f g i l n n' :
  updated f g i n' -> i ∉ l -> threaded f (l ++ [i]) n -> threaded g (l ++ [i]) n'.
Proof.
  intros Hu Hi [H1 _]%threaded_app. apply threaded_app. split.
  - by eapply threaded_updated.
  - cbn. split; [apply Hu|done].
Qed.

Lemma threaded_lookup f l n i : threaded f l n -> i ∈ l -> is_Some (f i).
Proof.
  induction l as [|j l IH]; [by intros _ ?%not_elem_of_nil|]. cbn.
  intros [Hj Hl] [->|Hi]%elem_of_cons; [by exists (firstOf l n)|by apply IH].
Qed.
End threads.

(** Initial threading: [es[i].next = &es[i+1]] for all but the last. *)
Lemma threaded_range (f : Z -> option (option Z)) (a n : nat) :
  (forall i, (a <= i < a + n)%nat ->
     f (Z.of_nat i) = Some (if (S i =? a + n)%nat then None else Some (Z.of_nat (S i)))) ->
  threaded f (map Z.of_nat (seq a n)) None.
Proof.
  revert a. induction n as [|n IH]; intros a H; [done|]. cbn [seq map threaded]. split.
  - rewrite H by lia. f_equal.
    destruct (Nat.eqb_spec (S a) (a + S n)); destruct n as [|n']; cbn; try lia; done.
  - apply IH. intros i Hi. rewrite H by lia. by replace (S a + n)%nat with (a + S n)%nat by lia.
Qed.

(** Sequences without repetition in an interval are not longer than it. *)
Lemma NoDup_bounded_length (l : list Z) (n : nat) :
  NoDup l -> (forall i, i ∈ l -> 0 <= i < Z.of_nat n) -> (length l <= n)%nat.
Proof.
  intros Hnd Hb.
  assert (Hsub : l ⊆ map Z.of_nat (seq 0 n)).
  { intros i Hi. apply list_elem_of_In, in_map_iff. specialize (Hb i Hi).
    exists (Z.to_nat i). split; [lia|]. apply in_seq. lia. }
  assert (Hl : (length l <= length (map Z.of_nat (seq 0 n)))%nat).
  { apply submseteq_length, NoDup_submseteq; [done|]. intros i Hi. by apply Hsub. }
  by rewrite length_map, length_seq in Hl.
Qed.

(** ** Unlinking from a doubly linked list *)

(** [if(p != nullptr) p->next = v; else head = v;] *)
Definition setNextOrHead {V} (es : list (Element V)) (p : option Z) (head v : option Z)
  : result (list (Element V) * option Z) :=
  match p with
  | Some i => es ← setNext es i v; Ok (es, head)
  | None => Ok (es, v)
  end.

(** [if(n != nullptr) n->prev = v; else tail = v;] *)
Definition setPrevOrTail {V} (es : list (Element V)) (n : option Z) (tail v : option Z)
  : result (list (Element V) * option Z) :=
  match n with
  | Some i => es ← setPrev es i v; Ok (es, tail)
  | None => Ok (es, v)
  end.

Lemma setNextOrHead_ok {V} (es : list (Element V)) p head v :
  (forall i, p = Some i -> 0 <= i < zlength es) ->
  exists es', setNextOrHead es p head v = Ok (es', if p is None then v else head) /\
    zlength es' = zlength es /\ unchanged (valueOf es) (valueOf es') /\ unchanged (prevOf es) (prevOf es') /\
    forall j, nextOf es' j = if decide (p = Some j) then Some v else nextOf es j.
Proof.
  intros Hp. unfold setNextOrHead. destruct p as [i|]; [|by exists es].
  destruct (setNext_ok es i v (Hp i eq_refl)) as (es' & -> & Hl & [Hu1 Hu2] & Hv & Hq).
  exists es'. split_and!; try done. intros j. case_decide as E; [by injection E as ->|].
  apply Hu2. congruence.
Qed.

Lemma setPrevOrTail_ok {V} (es : list (Element V)) n tail v :
  (forall i, n = Some i -> 0 <= i < zlength es) ->
  exists es', setPrevOrTail es n tail v = Ok (es', if n is None then v else tail) /\
    zlength es' = zlength es /\ unchanged (valueOf es) (valueOf es') /\ unchanged (nextOf es) (nextOf es') /\
    forall j, prevOf es' j = if decide (n = Some j) then Some v else prevOf es j.
Proof.
  intros Hn. unfold setPrevOrTail. destruct n as [i|]; [|by exists es].
  destruct (setPrev_ok es i v (Hn i eq_refl)) as (es' & -> & Hl & [Hu1 Hu2] & Hv & Hq).
  exists es'. split_and!; try done. intros j. case_decide as E; [by injection E as ->|].
  apply Hu2. congruence.
Qed.

(** Skipping the element between [l1] and [l2]. *)
Lemma threaded_unlink f g l1 i l2 :
  threaded f (l1 ++ i :: l2) None -> NoDup (l1 ++ i :: l2) ->
  (forall j, j ∈ l1 ++ l2 -> g j = if decide (lastOf l1 None = Some j) then Some (firstOf l2 None) else f j) ->
  threaded g (l1 ++ l2) None.
Proof.
  intros [H1 [_ H2]]%threaded_app Hnd Hg. apply NoDup_app in Hnd as (Hnd1 & Hd & _).
  apply threaded_app. split.
  - induction l1 as [|p l1 _] using rev_ind; [done|]. rewrite lastOf_snoc in Hg.
    apply NoDup_app in Hnd1 as (_ & Hp & _). apply threaded_app in H1 as [H1 _]. apply threaded_app. split.
    + eapply threaded_frame; [|exact H1]. intros j Hj.
      rewrite Hg by (rewrite !elem_of_app; tauto). rewrite decide_False; [done|].
      intros [= ->]. apply (Hp j Hj). by left.
    + cbn. split; [|done]. rewrite Hg by (rewrite !elem_of_app; left; right; by left). by rewrite decide_True.
  - eapply threaded_frame; [|exact H2]. intros j Hj. rewrite Hg by (rewrite elem_of_app; tauto).
    rewrite decide_False; [done|]. intros E. apply lastOf_Some in E as (l' & ->).
    apply (Hd j); [rewrite elem_of_app; right; by left|by right].
Qed.

Lemma backThreaded_unlink f g l1 i l2 :
  backThreaded f None (l1 ++ i :: l2) -> NoDup (l1 ++ i :: l2) ->
  (forall j, j ∈ l1 ++ l2 -> g j = if decide (firstOf l2 None = Some j) then Some (lastOf l1 None) else f j) ->
  backThreaded g None (l1 ++ l2).
Proof.
  intros [H1 [_ H2]]%backThreaded_app Hnd Hg. apply NoDup_app in Hnd as (_ & Hd & Hnd2).
  apply NoDup_cons in Hnd2 as [_ Hnd2]. apply backThreaded_app. split.
  - eapply backThreaded_frame; [|exact H1]. intros j Hj. rewrite Hg by (rewrite elem_of_app; tauto).
    rewrite decide_False; [done|]. intros E. apply (Hd j Hj). right. destruct l2; [done|]. injection E as ->. by left.
  - destruct l2 as [|n l2]; [done|]. apply NoDup_cons in Hnd2 as [Hn _]. cbn [firstOf] in Hg. destruct H2 as [H2 H3]. split.
    + rewrite Hg by (rewrite elem_of_app; right; by left). by rewrite decide_True.
    + eapply backThreaded_frame; [|exact H3]. intros j Hj. rewrite Hg by (rewrite elem_of_app; right; by right).
      rewrite decide_False; [done|]. by intros [= ->].
Qed.
