(* ===== verification/NetworkStackHandler.v ===== *)
(** The network stack: [operating_system/network_management_task/network_stack_handler.h].

    The handler owns a pool of packet buffers.  Its state is the array of list
    elements, whose indices stand for the pointers to them, the array of data
    buffers ([pData] of element [i] is buffer [i] from the constructor on), the
    ARP table and the three list heads.  The template parameters are the
    section's variables.  Functions that fill a [writeBuffer] return the bytes
    they write; the calls are taken one at a time, so that a [conditionalExchange]
    succeeds. *)
From S2P Require Import Prelude Mem LinkedLists.

Definition INT_MAX : Z := 2147483647.
Definition FRAGMENT_TIMEOUT : Z := 10.
Definition RX_BUFFER_SIZE : Z := 2048.
Definition ETHERNET_MTU : Z := 1500.
Definition ETHERNET_SIMPLE_HEADER_SIZE : Z := 14.
Definition IPV4_MINIMAL_HEADER_SIZE : Z := 20.
Definition UNUSED_ARP_ENTRY_TIMEOUT : Z := 15.
Definition ARP_REQUEST_TIMEOUT : Z := 10.
Definition ARP_ENTRY_TIMEOUT : Z := 120.
Definition ARP_BROADCAST_ON_FAILURE_TIMEOUT : Z := 15.

Inductive PacketType :=
| NotForThisMachine
| ARPReply
| ARPRequest
| IPv4PacketType
| UnknownType.

Record IPv4Packet := mkIPv4Packet {
  sourceIP : Z;
  destIP : Z;
  dataSize : Z;
  protocol : Z;
  moreFragments : bool;
  fragmentOffset : Z;
  identification : Z;
  nextFragment : option Z;
  createdTime : Z;
}.

Record ARPEntry := mkARPEntry {
  entryIP : Z;
  lastUsed : Z;
  lastRequested : Z;
  lastAnswered : Z;
  entryMAC : list Z;
}.

Inductive IPv4PacketProgress :=
| WaitingOnARPReply
| ARPTableFull
| SendingFragment
| Done.

Record NetworkStackHandler := mkNetworkStackHandler {
  packetDataBuffers : list (list Z);
  packetListElements : list (Element IPv4Packet);
  arpEntries : list ARPEntry;
  unusedPacketsHead : option Z;
  incompleteFragmentedDatagramsHead : option Z;
  readyToReadPacketsHead : option Z;
  readyToReadPacketsTail : option Z;
  myMac : list Z;
  myIP : Z;
  gatewayIP : Z;
  networkMask : Z;
  timerCounter : Z;
  identificationCounter : Z;
}.

#[export] Instance PacketType_eq_dec : EqDecision PacketType.
Proof. solve_decision. Defined.
#[export] Instance IPv4PacketProgress_eq_dec : EqDecision IPv4PacketProgress.
Proof. solve_decision. Defined.

(** ** Field updates *)

Definition withBuffers (s : NetworkStackHandler) b :=
  mkNetworkStackHandler b (packetListElements s) (arpEntries s) (unusedPacketsHead s)
    (incompleteFragmentedDatagramsHead s) (readyToReadPacketsHead s) (readyToReadPacketsTail s)
    (myMac s) (myIP s) (gatewayIP s) (networkMask s) (timerCounter s) (identificationCounter s).
Definition withElements (s : NetworkStackHandler) es :=
  mkNetworkStackHandler (packetDataBuffers s) es (arpEntries s) (unusedPacketsHead s)
    (incompleteFragmentedDatagramsHead s) (readyToReadPacketsHead s) (readyToReadPacketsTail s)
    (myMac s) (myIP s) (gatewayIP s) (networkMask s) (timerCounter s) (identificationCounter s).
Definition withArpEntries (s : NetworkStackHandler) a :=
  mkNetworkStackHandler (packetDataBuffers s) (packetListElements s) a (unusedPacketsHead s)
    (incompleteFragmentedDatagramsHead s) (readyToReadPacketsHead s) (readyToReadPacketsTail s)
    (myMac s) (myIP s) (gatewayIP s) (networkMask s) (timerCounter s) (identificationCounter s).
Definition withUnused (s : NetworkStackHandler) h :=
  mkNetworkStackHandler (packetDataBuffers s) (packetListElements s) (arpEntries s) h
    (incompleteFragmentedDatagramsHead s) (readyToReadPacketsHead s) (readyToReadPacketsTail s)
    (myMac s) (myIP s) (gatewayIP s) (networkMask s) (timerCounter s) (identificationCounter s).
Definition withIncomplete (s : NetworkStackHandler) h :=
  mkNetworkStackHandler (packetDataBuffers s) (packetListElements s) (arpEntries s) (unusedPacketsHead s)
    h (readyToReadPacketsHead s) (readyToReadPacketsTail s)
    (myMac s) (myIP s) (gatewayIP s) (networkMask s) (timerCounter s) (identificationCounter s).
Definition withReady (s : NetworkStackHandler) h t :=
  mkNetworkStackHandler (packetDataBuffers s) (packetListElements s) (arpEntries s) (unusedPacketsHead s)
    (incompleteFragmentedDatagramsHead s) h t
    (myMac s) (myIP s) (gatewayIP s) (networkMask s) (timerCounter s) (identificationCounter s).
Definition withTimer (s : NetworkStackHandler) t :=
  mkNetworkStackHandler (packetDataBuffers s) (packetListElements s) (arpEntries s) (unusedPacketsHead s)
    (incompleteFragmentedDatagramsHead s) (readyToReadPacketsHead s) (readyToReadPacketsTail s)
    (myMac s) (myIP s) (gatewayIP s) (networkMask s) t (identificationCounter s).
Definition withIdentificationCounter (s : NetworkStackHandler) c :=
  mkNetworkStackHandler (packetDataBuffers s) (packetListElements s) (arpEntries s) (unusedPacketsHead s)
    (incompleteFragmentedDatagramsHead s) (readyToReadPacketsHead s) (readyToReadPacketsTail s)
    (myMac s) (myIP s) (gatewayIP s) (networkMask s) (timerCounter s) c.

Definition setNextFragment (p : IPv4Packet) (n : option Z) : IPv4Packet :=
  mkIPv4Packet (sourceIP p) (destIP p) (dataSize p) (protocol p) (moreFragments p)
    (fragmentOffset p) (identification p) n (createdTime p).
Definition setCreatedTime (p : IPv4Packet) (t : Z) : IPv4Packet :=
  mkIPv4Packet (sourceIP p) (destIP p) (dataSize p) (protocol p) (moreFragments p)
    (fragmentOffset p) (identification p) (nextFragment p) t.

(** ** Bytes *)

Definition byteAt (data : list Z) (i : Z) : result Z := data.[i] ?? OutOfRange.

(** [((unsigned short)data[i] << 8) + (unsigned short)data[i+1]] *)
Definition be16At (data : list Z) (i : Z) : result Z :=
  a ← byteAt data i; b ← byteAt data (i + 1); Ok (u16 (Z.shiftl a 8 + b)).

(** [(data[i] << 24) + (data[i+1] << 16) + (data[i+2] << 8) + data[i+3]] *)
Definition be32At (data : list Z) (i : Z) : result Z :=
  a ← byteAt data i; b ← byteAt data (i + 1); c ← byteAt data (i + 2); d ← byteAt data (i + 3);
  Ok (u32 (Z.shiftl a 24 + Z.shiftl b 16 + Z.shiftl c 8 + d)).

(** The four bytes of an address, most significant first. *)
Definition addressBytes (ip : Z) : list Z :=
  [u8 (Z.shiftr ip 24); u8 (Z.land (Z.shiftr ip 16) 0xFF); u8 (Z.land (Z.shiftr ip 8) 0xFF); u8 (Z.land ip 0xFF)].

(** ** Time *)

Definition passedTimeSince (s : NetworkStackHandler) (oldTimerCounter : Z) : Z :=
  if oldTimerCounter <=? timerCounter s then u32 (timerCounter s - oldTimerCounter)
  else u32 (u32 (INT_MAX - oldTimerCounter + 1) + timerCounter s).

Definition incrementTimerCounter (s : NetworkStackHandler) : NetworkStackHandler :=
  let t := toInt (timerCounter s + 1) in
  withTimer s (if t <? 0 then 0 else t).

Section handler.
Context (numPacketBuffers arpHashTableSize arpHashEntryListSize : nat).

Definition newPacketListElement (i : nat) : Element IPv4Packet :=
  mkElement (mkIPv4Packet 0 0 0 0 false 0 0 None 0)
    (if Nat.eqb i (numPacketBuffers - 1) then None else Some (Z.of_nat (i + 1))) None.

(** The constructor; fields it leaves uninitialised are 0 here. *)
Definition newNetworkStackHandler (mac : list Z) (ip gateway mask : Z) : NetworkStackHandler :=
  mkNetworkStackHandler
    (replicate numPacketBuffers (replicate 2048 0))
    (map newPacketListElement (seq 0 numPacketBuffers))
    (replicate (arpHashTableSize * arpHashEntryListSize) (mkARPEntry 0 (-1) (-1) (-1) (replicate 6 0)))
    (Some 0) None None None mac ip gateway
    (if (0 <=? mask) && (mask <=? 32) then mask else 24) 0 0.

(** ** Lists of packets *)

(** The loop of [insertFragmentedPacketsInUnusedPacketsList]: thread the
    fragments through [next]; the last of them. *)
Fixpoint threadFragments (fuel : nat) (es : list (Element IPv4Packet)) (firstFragment : Z)
  : result (list (Element IPv4Packet) * Z) :=
  match fuel with
  | O => Fault OutOfFuel
  | S fuel' =>
      p ← getValue es firstFragment;
      es ← setNext es firstFragment (nextFragment p);
      match nextFragment p with
      | None => Ok (es, firstFragment)
      | Some n => threadFragments fuel' es n
      end
  end.

Definition insertFragmentedPacketsInUnusedPacketsList (s : NetworkStackHandler) (firstFragment : option Z)
  : result NetworkStackHandler :=
  match firstFragment with
  | None => Ok s
  | Some f =>
      r ← threadFragments (S numPacketBuffers) (packetListElements s) f;
      let '(es, listLast) := r in
      es ← setNext es listLast (unusedPacketsHead s);
      Ok (withUnused (withElements s es) (Some f))
  end.

(** 0 if an unused packet is available afterwards, 1 if not. *)
Definition makeSureUnusedPacketsHeadIsntNullptr (s : NetworkStackHandler) : result (NetworkStackHandler * Z) :=
  match unusedPacketsHead s with
  | Some _ => Ok (s, 0)
  | None =>
      match incompleteFragmentedDatagramsHead s with
      | None => Ok (s, 1)
      | Some incompleteDatagramFragment =>
          n ← getNext (packetListElements s) incompleteDatagramFragment;
          s ← insertFragmentedPacketsInUnusedPacketsList (withIncomplete s n) (Some incompleteDatagramFragment);
          Ok (s, 0)
      end
  end.

Definition insertInReadyToReadPacketsList (s : NetworkStackHandler) (pNewPacket : Z) : result NetworkStackHandler :=
  es ← setNext (packetListElements s) pNewPacket None;
  es ← setPrev es pNewPacket (readyToReadPacketsTail s);
  match readyToReadPacketsTail s with
  | None => Ok (withReady (withElements s es) (Some pNewPacket) (Some pNewPacket))
  | Some t =>
      es ← setNext es t (Some pNewPacket);
      Ok (withReady (withElements s es) (readyToReadPacketsHead s) (Some pNewPacket))
  end.

(** [*nextListElementPtr]: the head of the list ([None]) or the [next] of an
    element. *)
Definition readListPtr (s : NetworkStackHandler) (ptr : option Z) : result (option Z) :=
  match ptr with
  | None => Ok (incompleteFragmentedDatagramsHead s)
  | Some i => getNext (packetListElements s) i
  end.

Definition writeListPtr (s : NetworkStackHandler) (ptr : option Z) (v : option Z) : result NetworkStackHandler :=
  match ptr with
  | None => Ok (withIncomplete s v)
  | Some i => es ← setNext (packetListElements s) i v; Ok (withElements s es)
  end.

(** The first loop of [insertInIncompleteFragmentedDatagramsList]: drop timed
    out datagrams up to the one the new fragment belongs to. *)
Fixpoint findDatagram (fuel : nat) (s : NetworkStackHandler) (pNew : IPv4Packet) (ptr : option Z)
  : result (NetworkStackHandler * option Z) :=
  match fuel with
  | O => Fault OutOfFuel
  | S fuel' =>
      p ← readListPtr s ptr;
      match p with
      | None => Ok (s, ptr)
      | Some nextListElement =>
          v ← getValue (packetListElements s) nextListElement;
          if FRAGMENT_TIMEOUT <? passedTimeSince s (createdTime v) then
            n ← getNext (packetListElements s) nextListElement;
            s ← writeListPtr s ptr n;
            s ← insertFragmentedPacketsInUnusedPacketsList s (Some nextListElement);
            findDatagram fuel' s pNew ptr
          else if (sourceIP pNew =? sourceIP v) && (destIP pNew =? destIP v)
                  && (identification pNew =? identification v) then Ok (s, ptr)
          else findDatagram fuel' s pNew (Some nextListElement)
      end
  end.

(** Where a fragment goes: the fragments before it and after it, whether
    those before it are contiguous, and where they end. *)
Record FragmentPlace := mkFragmentPlace {
  placePrevious : option Z;
  placeCurrent : option Z;
  placeFull : bool;
  placeOffset : Z;
  placeSize : Z;
}.

(** The loop over the fragments with smaller offsets; [None] when the new
    fragment is dropped. *)
Fixpoint findFragmentPlace (fuel : nat) (es : list (Element IPv4Packet)) (newOffset : Z) (pl : FragmentPlace)
  : result (option FragmentPlace) :=
  match fuel with
  | O => Fault OutOfFuel
  | S fuel' =>
      match placeCurrent pl with
      | None => Ok (Some pl)
      | Some c =>
          current ← getValue es c;
          if fragmentOffset current <? newOffset then
            let full := if negb (fragmentOffset current =? placeOffset pl + placeSize pl) then false
                        else placeFull pl in
            if negb (moreFragments current) then Ok None
            else findFragmentPlace fuel' es newOffset
                   (mkFragmentPlace (Some c) (nextFragment current) full
                      (fragmentOffset current) (dataSize current))
          else Ok (Some pl)
      end
  end.

(** The loop that checks the rest of the fragments: whether all are
    contiguous, and the last one looked at. *)
Fixpoint checkContiguous (fuel : nat) (es : list (Element IPv4Packet)) (full : bool)
    (current previous : option Z) (previousOffset previousSize : Z) : result (bool * option Z * option Z) :=
  match fuel with
  | O => Fault OutOfFuel
  | S fuel' =>
      match current with
      | Some c =>
          if full then
            v ← getValue es c;
            checkContiguous fuel' es (fragmentOffset v =? previousOffset + previousSize)
              (nextFragment v) (Some c) (fragmentOffset v) (dataSize v)
          else Ok (full, current, previous)
      | None => Ok (full, current, previous)
      end
  end.

Definition updatePacket (s : NetworkStackHandler) (i : Z) (f : IPv4Packet -> IPv4Packet) : result NetworkStackHandler :=
  v ← getValue (packetListElements s) i;
  es ← setValue (packetListElements s) i (f v);
  Ok (withElements s es).

(** Linking the new fragment in: [None] when it is dropped. *)
Definition linkFragment (s : NetworkStackHandler) (ptr : option Z) (pNewFragment : Z) (pl : FragmentPlace)
  : result (option NetworkStackHandler) :=
  newest ← getValue (packetListElements s) pNewFragment;
  match placePrevious pl, placeCurrent pl with
  | None, None => Fault NullPointer
  | None, Some c =>
      if negb (moreFragments newest) then Ok None
      else
        current ← getValue (packetListElements s) c;
        s ← updatePacket s pNewFragment (fun v => setCreatedTime v (createdTime current));
        s ← updatePacket s pNewFragment (fun v => setNextFragment v (Some c));
        h ← readListPtr s ptr;
        hi ← h ?? NullPointer;
        n ← getNext (packetListElements s) hi;
        es ← setNext (packetListElements s) pNewFragment n;
        s ← writeListPtr (withElements s es) ptr (Some pNewFragment);
        Ok (Some s)
  | Some p, None =>
      s ← updatePacket s p (fun v => setNextFragment v (Some pNewFragment));
      Ok (Some s)
  | Some p, Some c =>
      if negb (moreFragments newest) then Ok None
      else
        s ← updatePacket s pNewFragment (fun v => setNextFragment v (Some c));
        s ← updatePacket s p (fun v => setNextFragment v (Some pNewFragment));
        Ok (Some s)
  end.

Definition insertInIncompleteFragmentedDatagramsList (s : NetworkStackHandler) (pNewFragment : Z)
  : result NetworkStackHandler :=
  newest ← getValue (packetListElements s) pNewFragment;
  r ← findDatagram (S (S numPacketBuffers)) s newest None;
  let '(s, ptr) := r in
  p ← readListPtr s ptr;
  match p with
  | None => writeListPtr s ptr (Some pNewFragment)
  | Some _ =>
      pl ← findFragmentPlace (S (S numPacketBuffers)) (packetListElements s) (fragmentOffset newest)
             (mkFragmentPlace None p true 0 0);
      match pl with
      | None => Ok s
      | Some pl =>
          linked ← linkFragment s ptr pNewFragment pl;
          match linked with
          | None => Ok s
          | Some s =>
              r ← checkContiguous (S (S numPacketBuffers)) (packetListElements s) (placeFull pl)
                    (Some pNewFragment) (placePrevious pl) (placeOffset pl) (placeSize pl);
              let '(full, current, previous) := r in
              if full && bool_decide (current = None) then
                l ← previous ?? NullPointer;
                last ← getValue (packetListElements s) l;
                if negb (moreFragments last) then
                  h ← readListPtr s ptr;
                  pNewPacket ← h ?? NullPointer;
                  n ← getNext (packetListElements s) pNewPacket;
                  s ← writeListPtr s ptr n;
                  insertInReadyToReadPacketsList s pNewPacket
                else Ok s
              else Ok s
          end
      end
  end.

(** ** Incoming frames *)

(** The loop over the slots of a hash bucket: the first entry of [ip]. *)
Fixpoint findArpEntry (n : nat) (entries : list ARPEntry) (i : Z) (ip : Z) : result (option Z) :=
  match n with
  | O => Ok None
  | S n' =>
      e ← entries.[i] ?? OutOfRange;
      if entryIP e =? ip then Ok (Some i) else findArpEntry n' entries (i + 1) ip
  end.

Definition incomingARPPacketHelper (s : NetworkStackHandler) (data : list Z) (dataLen : Z)
  : result (NetworkStackHandler * PacketType) :=
  if dataLen <? 42 then Ok (s, UnknownType)
  else
    operation ← be16At data 20;
    arpProtocolType ← be16At data 16;
    if arpProtocolType =? 0x0800 then
      if operation =? 2 then
        senderIP ← be32At data 28;
        let hashedSenderIP := senderIP mod Z.of_nat arpHashTableSize in
        slot ← findArpEntry arpHashEntryListSize (arpEntries s)
                 (hashedSenderIP * Z.of_nat arpHashEntryListSize) senderIP;
        match slot with
        | None => Ok (s, ARPReply)
        | Some k =>
            e ← (arpEntries s).[k] ?? OutOfRange;
            let mac := take 6 (drop 22 data) in
            Ok (withArpEntries s (arpEntries s).[k := mkARPEntry (entryIP e) (lastUsed e) (lastRequested e)
                                                     (timerCounter s) mac], ARPReply)
        end
      else if operation =? 1 then
        requestedIP ← be32At data 38;
        if negb (requestedIP =? myIP s) then Ok (s, NotForThisMachine) else Ok (s, ARPRequest)
      else Ok (s, UnknownType)
    else Ok (s, UnknownType).

(** [memCopy] into a data buffer. *)
Definition overwrite (buffer bytes : list Z) : result (list Z) :=
  if zlength buffer <? zlength bytes then Fault OutOfRange
  else Ok (bytes ++ drop (length bytes) buffer).

Definition incomingIPv4PacketHelper (s : NetworkStackHandler) (data : list Z) (dataLen : Z)
  : result (NetworkStackHandler * PacketType) :=
  if dataLen <? 34 then Ok (s, UnknownType)
  else
    b14 ← byteAt data 14;
    let headerLength := u16 (Z.land b14 0xF) in
    let version := u8 (Z.shiftr (Z.land b14 0xF0) 4) in
    if negb (version =? 4) || (headerLength <? 5) then Ok (s, UnknownType)
    else
      source ← be32At data 26;
      dest ← be32At data 30;
      if negb (dest =? myIP s) && negb (dest =? 0xFFFFFFFF) then Ok (s, NotForThisMachine)
      else
        totalLength ← be16At data 16;
        if (totalLength <? headerLength * 4) || (dataLen <? totalLength + ETHERNET_SIMPLE_HEADER_SIZE)
        then Ok (s, UnknownType)
        else
          r ← makeSureUnusedPacketsHeadIsntNullptr s;
          let '(s, failed) := r in
          if failed =? 1 then Ok (s, IPv4PacketType)
          else
            e ← unusedPacketsHead s ?? NullPointer;
            n ← getNext (packetListElements s) e;
            let s := withUnused s n in
            es ← setNext (packetListElements s) e None;
            b20 ← byteAt data 20;
            b21 ← byteAt data 21;
            ident ← be16At data 18;
            proto ← byteAt data 23;
            let more := 0 <? Z.land b20 0x20 in
            let offset := 8 * (Z.shiftl (Z.land b20 0x1F) 8 + b21) in
            let size := totalLength - headerLength * 4 in
            es ← setValue es e
                   (mkIPv4Packet source dest size proto more offset ident None (timerCounter s));
            let s := withElements s es in
            buffer ← (packetDataBuffers s).[e] ?? OutOfRange;
            buffer ← overwrite buffer (take (Z.to_nat size) (drop (Z.to_nat (14 + headerLength * 4)) data));
            let s := withBuffers s (packetDataBuffers s).[e := buffer] in
            s ← (if more || negb (offset =? 0) then insertInIncompleteFragmentedDatagramsList s e
                 else insertInReadyToReadPacketsList s e);
            Ok (s, IPv4PacketType).

(** The two tests of [handleIncomingEthernetPacket] that miss a [return] have
    no effect. *)
Definition handleIncomingEthernetPacket (s : NetworkStackHandler) (data : list Z) (dataLen : Z)
  : result (NetworkStackHandler * PacketType) :=
  protocolType ← be16At data 12;
  if protocolType =? 0x0806 then incomingARPPacketHelper s data dataLen
  else if protocolType =? 0x0800 then incomingIPv4PacketHelper s data dataLen
  else Ok (s, UnknownType).

(** ** Outgoing frames: the bytes written to the [writeBuffer] *)

Definition sendARPRequest (s : NetworkStackHandler) (destinationIP : Z) : list Z :=
  replicate 6 0xFF ++ myMac s ++ [0x08; 0x06] ++
  [0x00; 0x01; 0x08; 0x00; 0x06; 0x04; 0x00; 0x01] ++
  myMac s ++ addressBytes (myIP s) ++ replicate 6 0 ++ addressBytes destinationIP.

(** [None] for the buffer that is null. *)
Definition handleOutgoingEthernetPacket (s : NetworkStackHandler) (destinationMac data : list Z) (dataLen : Z)
  (writeBufferIsNull : bool) : list Z :=
  if ETHERNET_MTU <? dataLen then []
  else if writeBufferIsNull then []
  else take 6 destinationMac ++ myMac s ++ [u8 (Z.shiftr dataLen 8); u8 (Z.land dataLen 0xFF)]
       ++ take (Z.to_nat dataLen) data.

Definition handleOutgoingArpReply (s : NetworkStackHandler) (incomingARPReq : list Z) (writeBufferIsNull : bool)
  : result (list Z) :=
  if writeBufferIsNull then Ok []
  else
    let destinationMac := take 6 (drop 22 incomingARPReq) in
    destinationIP ← be32At incomingARPReq 28;
    Ok (destinationMac ++ myMac s ++ [0x08; 0x06] ++
        [0x00; 0x01; 0x08; 0x00; 0x06; 0x04; 0x00; 0x02] ++
        myMac s ++ addressBytes (myIP s) ++ destinationMac ++ addressBytes destinationIP).

(** One turn of the loop that picks an ARP entry; [Some (inl k)] stops. *)
Definition arpCandidate (s : NetworkStackHandler) (nextHopIP i : Z) (arpEntry : option Z) : result (Z + option Z) :=
  entry ← (arpEntries s).[i] ?? OutOfRange;
  if entryIP entry =? nextHopIP then Ok (inl i)
  else
    chosen ← (match arpEntry with
              | None => Ok None
              | Some k => e ← (arpEntries s).[k] ?? OutOfRange; Ok (Some e)
              end);
    let considered := match chosen with None => true | Some e => negb (entryIP e =? 0) end in
    if considered then
      if entryIP entry =? 0 then Ok (inr (Some i))
      else if (lastUsed entry =? -1)
              && (UNUSED_ARP_ENTRY_TIMEOUT <? passedTimeSince s (lastRequested entry)) then Ok (inr (Some i))
      else if negb (lastUsed entry =? -1)
              && match chosen with
                 | None => true
                 | Some e => negb (lastUsed e =? -1)
                             && (passedTimeSince s (lastUsed e) <? passedTimeSince s (lastUsed entry))
                 end then Ok (inr (Some i))
      else Ok (inr arpEntry)
    else Ok (inr arpEntry).

Fixpoint selectArpEntry (n : nat) (s : NetworkStackHandler) (nextHopIP i : Z) (arpEntry : option Z)
  : result (option Z) :=
  match n with
  | O => Ok arpEntry
  | S n' =>
      r ← arpCandidate s nextHopIP i arpEntry;
      match r with
      | inl k => Ok (Some k)
      | inr a => selectArpEntry n' s nextHopIP (i + 1) a
      end
  end.

(** The shift count is taken modulo 32, as the processor does (the language
    leaves the shift by 32, for a mask of 0, undefined). *)
Definition nextHop (s : NetworkStackHandler) (destinationIP : Z) : Z :=
  let bitMask := u32 (Z.shiftl 0xFFFFFFFF ((32 - networkMask s) mod 32)) in
  if Z.land destinationIP bitMask =? Z.land (myIP s) bitMask then destinationIP else gatewayIP s.

(** What the ARP table says: the entry to send with ([inl]), or the result to
    return ([inr]). *)
Definition resolveArp (s : NetworkStackHandler) (nextHopIP : Z)
  : result (NetworkStackHandler * (ARPEntry + IPv4PacketProgress * list Z)) :=
  slot ← selectArpEntry arpHashEntryListSize s nextHopIP
           (nextHopIP mod Z.of_nat arpHashTableSize * Z.of_nat arpHashEntryListSize) None;
  match slot with
  | None => Ok (s, inr (ARPTableFull, []))
  | Some k =>
      e ← (arpEntries s).[k] ?? OutOfRange;
      let e := if negb (entryIP e =? nextHopIP) then mkARPEntry nextHopIP (-1) (-1) (-1) (entryMAC e) else e in
      let store e := withArpEntries s (arpEntries s).[k := e] in
      let request := mkARPEntry (entryIP e) (lastUsed e) (timerCounter s) (lastAnswered e) (entryMAC e) in
      let use mac := mkARPEntry (entryIP e) (timerCounter s) (lastRequested e) (lastAnswered e) mac in
      if lastRequested e =? -1 then
        Ok (store request, inr (WaitingOnARPReply, sendARPRequest s nextHopIP))
      else if (lastAnswered e =? -1)
              || (passedTimeSince s (lastRequested e) <? passedTimeSince s (lastAnswered e)) then
        if (ARP_REQUEST_TIMEOUT <? passedTimeSince s (lastRequested e))
           && (passedTimeSince s (lastRequested e) <=? ARP_BROADCAST_ON_FAILURE_TIMEOUT) then
          Ok (store (use (replicate 6 0xFF)), inl (use (replicate 6 0xFF)))
        else if ARP_BROADCAST_ON_FAILURE_TIMEOUT <? passedTimeSince s (lastRequested e) then
          Ok (store request, inr (WaitingOnARPReply, sendARPRequest s nextHopIP))
        else Ok (store e, inr (WaitingOnARPReply, []))
      else if ARP_ENTRY_TIMEOUT <? passedTimeSince s (lastAnswered e) then
        Ok (store request, inr (WaitingOnARPReply, sendARPRequest s nextHopIP))
      else Ok (store (use (entryMAC e)), inl (use (entryMAC e)))
  end.

(** The frame of one fragment. *)
Definition fragmentFrame (s : NetworkStackHandler) (mac : list Z) (destinationIP protocol : Z)
    (identification fragmentOffset : Z) (lastFragment : bool) (payload : list Z) : list Z :=
  let total := IPV4_MINIMAL_HEADER_SIZE + zlength payload in
  let flagsAndFragmentOffset := u16 (Z.lor (if lastFragment then 0 else 0x2000) (Z.shiftr fragmentOffset 3)) in
  mac ++ myMac s ++ [0x08; 0x00] ++
  [0x45; 0x00; u8 (Z.shiftr total 8); u8 (Z.land total 0xFF);
   u8 (Z.shiftr identification 8); u8 (Z.land identification 0xFF);
   u8 (Z.shiftr flagsAndFragmentOffset 8); u8 (Z.land flagsAndFragmentOffset 0xFF);
   255; protocol; 0x00; 0x00] ++
  addressBytes (myIP s) ++ addressBytes destinationIP ++ payload.

Record SendResult := mkSendResult {
  sendProgress : IPv4PacketProgress;
  sendFrame : list Z;
  sendIdentification : Z;
  sendFragmentOffset : Z;
}.

(** [identification] and [fragmentOffset] are the values of the reference
    parameters; the result holds them afterwards. *)
Definition handleOutgoingIPv4Packet (s : NetworkStackHandler) (m : Mem)
    (destinationIP protocol data dataLen identification fragmentOffset : Z) (writeBufferIsNull : bool)
  : result (NetworkStackHandler * SendResult) :=
  if (data =? 0) || writeBufferIsNull then Ok (s, mkSendResult Done [] identification fragmentOffset)
  else if dataLen <=? fragmentOffset then Ok (s, mkSendResult Done [] identification fragmentOffset)
  else
    r ← resolveArp s (nextHop s destinationIP);
    let '(s, r) := r in
    match r with
    | inr (progress, frame) => Ok (s, mkSendResult progress frame identification fragmentOffset)
    | inl entry =>
        let lastFragment := (dataLen - fragmentOffset) <? (ETHERNET_MTU - IPV4_MINIMAL_HEADER_SIZE) in
        let fragmentSize := if lastFragment then dataLen - fragmentOffset
                            else ETHERNET_MTU - IPV4_MINIMAL_HEADER_SIZE in
        let '(s, identification) :=
          if fragmentOffset =? 0
          then (withIdentificationCounter s (u16 (identificationCounter s + 1)), identificationCounter s)
          else (s, identification) in
        let frame := fragmentFrame s (entryMAC entry) destinationIP protocol identification fragmentOffset
                       lastFragment (loadBytes m (data + fragmentOffset) (Z.to_nat fragmentSize)) in
        Ok (s, mkSendResult (if lastFragment then Done else SendingFragment) frame
                 identification (u32 (fragmentOffset + fragmentSize)))
    end.

(** ** Reading packets *)

Definition getLatestIPv4Packet (s : NetworkStackHandler) : option Z := readyToReadPacketsHead s.

(** [conditionalExchange] of a list head. *)
Definition exchangeIf (h expected desired : option Z) : option Z :=
  if bool_decide (h = expected) then desired else h.

Definition popLatestIPv4Packet (s : NetworkStackHandler) : result NetworkStackHandler :=
  match readyToReadPacketsHead s with
  | None => Ok s
  | Some poppedPacket =>
      let tail := exchangeIf (readyToReadPacketsTail s) (Some poppedPacket) None in
      newHead ← getNext (packetListElements s) poppedPacket;
      es ← match newHead with
           | Some h => setPrev (packetListElements s) h None
           | None => Ok (packetListElements s)
           end;
      let head := exchangeIf (readyToReadPacketsHead s) (Some poppedPacket) newHead in
      insertFragmentedPacketsInUnusedPacketsList (withReady (withElements s es) head tail) (Some poppedPacket)
  end.

(** The fragments of a packet, with their data: what a reader that follows
    [nextFragment] sees. *)
Fixpoint fragmentsFrom (fuel : nat) (s : NetworkStackHandler) (p : option Z) : result (list (IPv4Packet * list Z)) :=
  match p with
  | None => Ok []
  | Some i =>
      match fuel with
      | O => Fault OutOfFuel
      | S fuel' =>
          v ← getValue (packetListElements s) i;
          b ← (packetDataBuffers s).[i] ?? OutOfRange;
          rest ← fragmentsFrom fuel' s (nextFragment v);
          Ok ((v, b) :: rest)
      end
  end.
End handler.
