(* ===== verification/NetworkStackPool.v ===== *)
(** The packet pool of the network stack: which list every packet buffer is
    on, and that every operation of the handler keeps the lists well formed
    and never follows a null or dangling pointer. *)
From S2P Require Import Prelude Mem LinkedLists NetworkStackHandler.

(** A datagram: its first fragment and the others. *)
Definition Datagram : Type := Z * list Z.
Definition members (d : Datagram) : list Z := fst d :: snd d.
Definition allMembers (ds : list Datagram) : list Z := concat (map members ds).
Definition heads (ds : list Datagram) : list Z := map fst ds.

Definition fragOf (es : list (Element IPv4Packet)) (i : Z) : option (option Z) :=
  nextFragment <$> valueOf es i.

Section pool.
Context (N : nat).

(** [free] are the unused packets, [inc] the incomplete datagrams, [rdy] the
    complete ones in the order they are read; [loose] are packets taken off
    the lists by the operation at hand. *)
Record pool (s : NetworkStackHandler) (loose free : list Z) (inc rdy : list Datagram) : Prop := {
  pool_elements : zlength (packetListElements s) = Z.of_nat N;
  pool_buffers : zlength (packetDataBuffers s) = Z.of_nat N;
  pool_buffer : forall i b, (packetDataBuffers s).[i] = Some b -> zlength b = RX_BUFFER_SIZE;
  pool_free : threaded (nextOf (packetListElements s)) free None;
  pool_unused : unusedPacketsHead s = firstOf free None;
  pool_inc : threaded (nextOf (packetListElements s)) (heads inc) None;
  pool_incomplete : incompleteFragmentedDatagramsHead s = firstOf (heads inc) None;
  pool_rdy : threaded (nextOf (packetListElements s)) (heads rdy) None;
  pool_back : backThreaded (prevOf (packetListElements s)) None (heads rdy);
  pool_head : readyToReadPacketsHead s = firstOf (heads rdy) None;
  pool_tail : readyToReadPacketsTail s = lastOf (heads rdy) None;
  pool_chains : Forall (fun d => threaded (fragOf (packetListElements s)) (members d) None) (inc ++ rdy);
  pool_nodup : NoDup (loose ++ free ++ allMembers inc ++ allMembers rdy);
  pool_range : Forall (fun i => 0 <= i < Z.of_nat N) (loose ++ free ++ allMembers inc ++ allMembers rdy);
}.

Lemma allMembers_app ds1 ds2 : allMembers (ds1 ++ ds2) = allMembers ds1 ++ allMembers ds2.
Proof. unfold allMembers. by rewrite map_app, concat_app. Qed.

Lemma allMembers_cons d ds : allMembers (d :: ds) = members d ++ allMembers ds.
Proof. done. Qed.

Lemma elem_of_allMembers i ds : i ∈ allMembers ds <-> exists d, d ∈ ds /\ i ∈ members d.
Proof.
  unfold allMembers. rewrite list_elem_of_In, in_concat. split.
  - intros (l & Hl & Hi). apply in_map_iff in Hl as (d & <- & Hd). exists d.
    by rewrite !list_elem_of_In.
  - intros (d & Hd & Hi). exists (members d). rewrite !list_elem_of_In in *. split; [|done].
    by apply in_map.
Qed.

Lemma heads_sub i ds : (i ∈ heads ds) -> i ∈ allMembers ds.
Proof.
  unfold heads. rewrite list_elem_of_In, in_map_iff. intros (d & <- & Hd). apply elem_of_allMembers.
  exists d. rewrite list_elem_of_In. split; [done|]. by left.
Qed.

Lemma heads_cons d ds : heads (d :: ds) = fst d :: heads ds.
Proof. done. Qed.

Lemma heads_app ds1 ds2 : heads (ds1 ++ ds2) = heads ds1 ++ heads ds2.
Proof. apply map_app. Qed.

(** Loose packets may be forgotten, and the lists permuted. *)
Lemma pool_forget s loose free inc rdy : pool s loose free inc rdy -> pool s [] free inc rdy.
Proof.
  intros [H1 H2 H3 H4 H5 H6 H7 H8 H9 H10 H11 H12 H13 H14]. constructor; try done.
  - by apply NoDup_app in H13 as (_ & _ & ?).
  - by apply Forall_app in H14 as [_ ?].
Qed.

(** ** Threading the fragments of a datagram into the unused list *)

Lemma threadFragments_ok fuel es i l :
  threaded (fragOf es) (i :: l) None -> NoDup (i :: l) -> (length (i :: l) <= fuel)%nat ->
  Forall (fun j => 0 <= j < zlength es) (i :: l) ->
  exists es' lst, threadFragments fuel es i = Ok (es', lst) /\ zlength es' = zlength es /\
    lastOf (i :: l) None = Some lst /\
    threaded (nextOf es') (i :: l) None /\ unchanged (valueOf es) (valueOf es') /\
    unchanged (prevOf es) (prevOf es') /\ forall j, j ∉ i :: l -> nextOf es' j = nextOf es j.
Proof.
  revert fuel es i. induction l as [|k l IH]; intros fuel es i Ht Hnd Hf Hr; (destruct fuel as [|fuel]; [cbn in Hf; lia|]).
  all: cbn [threadFragments]; destruct Ht as [Hi Ht]; cbn [firstOf] in Hi.
  all: unfold fragOf in Hi; destruct (valueOf es i) as [v|] eqn:Ev; [|done]; cbn in Hi; injection Hi as Hi.
  all: rewrite (getValue_ok es i v Ev); cbn [mbind result_bind]; rewrite Hi.
  all: apply Forall_cons in Hr as [Hri Hr].
  - destruct (setNext_ok es i None Hri) as (es1 & -> & Hl1 & [Hu1 Ho1] & Hv1 & Hp1).
    cbn [mbind result_bind]. exists es1, i. split_and!; try done.
    intros j Hj. apply Ho1. intros ->. apply Hj. by left.
  - destruct (setNext_ok es i (Some k) Hri) as (es1 & -> & Hl1 & [Hu1 Ho1] & Hv1 & Hp1).
    cbn [mbind result_bind]. apply NoDup_cons in Hnd as [Hni Hnd].
    destruct (IH fuel es1 k) as (es2 & lst & -> & Hl2 & Hlast & Ht2 & Hv2 & Hp2 & Ho2); [|done|cbn in *; lia|by rewrite Hl1|].
    { eapply threaded_unchanged; [|exact Ht]. intros j. unfold fragOf. by rewrite Hv1. }
    exists es2, lst. split; [done|]. split; [lia|]. split; [by rewrite !lastOf_cons in *|].
    split; [split; [by rewrite Ho2|exact Ht2]|]. split; [|split].
    + intros j. by rewrite Hv2, Hv1.
    + intros j. by rewrite Hp2, Hp1.
    + intros j Hj. rewrite Ho2, Ho1; [done| |]; intros Hin; apply Hj; [subst; by left|by right].
Qed.

(** The lists of a state when only the [next] fields of [l] change. *)
Lemma pool_frame_next s s' loose free inc rdy :
  pool s loose free inc rdy ->
  zlength (packetListElements s') = zlength (packetListElements s) ->
  packetDataBuffers s' = packetDataBuffers s ->
  unchanged (valueOf (packetListElements s)) (valueOf (packetListElements s')) ->
  unchanged (prevOf (packetListElements s)) (prevOf (packetListElements s')) ->
  (forall j, j ∈ free ++ heads inc ++ heads rdy ->
     nextOf (packetListElements s') j = nextOf (packetListElements s) j) ->
  unusedPacketsHead s' = unusedPacketsHead s ->
  incompleteFragmentedDatagramsHead s' = incompleteFragmentedDatagramsHead s ->
  readyToReadPacketsHead s' = readyToReadPacketsHead s ->
  readyToReadPacketsTail s' = readyToReadPacketsTail s ->
  pool s' loose free inc rdy.
Proof.
  intros [H1 H2 H3 H4 H5 H6 H7 H8 H9 H10 H11 H12 H13 H14] E1 E2 E3 E4 E5 E6 E7 E8 E9.
  constructor; try congruence.
  - rewrite E2. done.
  - eapply threaded_frame; [|exact H4]. intros i Hi. apply E5. rewrite !elem_of_app. tauto.
  - eapply threaded_frame; [|exact H6]. intros i Hi. apply E5. rewrite !elem_of_app. tauto.
  - eapply threaded_frame; [|exact H8]. intros i Hi. apply E5. rewrite !elem_of_app. tauto.
  - by eapply backThreaded_unchanged.
  - eapply Forall_impl; [exact H12|]. intros d. apply threaded_unchanged.
    intros j. unfold fragOf. by rewrite E3.
Qed.

(** Every packet is in one place at most. *)
Definition placed (l : list Z) : Prop := NoDup l /\ Forall (fun i => 0 <= i < Z.of_nat N) l.

Lemma placed_perm l l' : l ≡ₚ l' -> placed l -> placed l'.
Proof. intros Hp [H1 H2]. split; by rewrite <- Hp. Qed.

Lemma pool_placed s loose free inc rdy :
  pool s loose free inc rdy -> placed (loose ++ free ++ allMembers inc ++ allMembers rdy).
Proof. intros Hp. split; apply Hp. Qed.

Ltac solve_placed H := eapply placed_perm; [|exact H]; solve_Permutation.

(** The part of the state the lists do not concern. *)
Definition stable (s s' : NetworkStackHandler) : Prop :=
  packetDataBuffers s' = packetDataBuffers s /\ arpEntries s' = arpEntries s /\ myMac s' = myMac s /\
  myIP s' = myIP s /\ gatewayIP s' = gatewayIP s /\ networkMask s' = networkMask s /\
  timerCounter s' = timerCounter s /\ identificationCounter s' = identificationCounter s.

Definition sameConfig (s s' : NetworkStackHandler) : Prop :=
  arpEntries s' = arpEntries s /\ myMac s' = myMac s /\
  myIP s' = myIP s /\ gatewayIP s' = gatewayIP s /\ networkMask s' = networkMask s /\
  timerCounter s' = timerCounter s /\ identificationCounter s' = identificationCounter s.

(** The packets, and the part above. *)
Definition sameValues (s s' : NetworkStackHandler) : Prop :=
  stable s s' /\ unchanged (valueOf (packetListElements s)) (valueOf (packetListElements s')).

(** The packets of [l] keep their [next]. *)
Definition keepsNext (l : list Z) (s s' : NetworkStackHandler) : Prop :=
  forall j, j ∈ l -> nextOf (packetListElements s') j = nextOf (packetListElements s) j.

Lemma keepsNext_trans l s1 s2 s3 : keepsNext l s1 s2 -> keepsNext l s2 s3 -> keepsNext l s1 s3.
Proof. intros H1 H2 j Hj. by rewrite H2, H1. Qed.

Lemma stable_refl s : stable s s.
Proof. done. Qed.

Lemma stable_trans s1 s2 s3 : stable s1 s2 -> stable s2 s3 -> stable s1 s3.
Proof. unfold stable. intros; destruct_and!; split_and!; congruence. Qed.

Lemma sameValues_refl s : sameValues s s.
Proof. done. Qed.

Lemma sameValues_trans s1 s2 s3 : sameValues s1 s2 -> sameValues s2 s3 -> sameValues s1 s3.
Proof.
  intros [H1 V1] [H2 V2]. split; [by eapply stable_trans|]. intros j. by rewrite V2, V1.
Qed.

Lemma sameValues_fragOf s s' :
  sameValues s s' -> unchanged (fragOf (packetListElements s)) (fragOf (packetListElements s')).
Proof. intros [_ H] j. unfold fragOf. by rewrite H. Qed.

Lemma members_length s loose free inc rdy d :
  pool s (members d ++ loose) free inc rdy -> (length (members d) <= S N)%nat.
Proof.
  intros Hp. pose proof (pool_nodup _ _ _ _ _ Hp) as Hnd. pose proof (pool_range _ _ _ _ _ Hp) as Hr.
  rewrite <- app_assoc in Hnd, Hr. apply NoDup_app in Hnd as (Hnd & _ & _). apply Forall_app in Hr as [Hr _].
  enough (length (members d) <= N)%nat by lia. apply NoDup_bounded_length; [done|].
  intros i Hi. rewrite Forall_forall in Hr. by apply Hr.
Qed.

(** Releasing a loose datagram puts its packets on the unused list. *)
Lemma release_ok s d loose free inc rdy :
  pool s (members d ++ loose) free inc rdy ->
  threaded (fragOf (packetListElements s)) (members d) None ->
  exists s', insertFragmentedPacketsInUnusedPacketsList N s (Some (fst d)) = Ok s' /\
    pool s' loose (members d ++ free) inc rdy /\ sameValues s s' /\ keepsNext loose s s'.
Proof.
  intros Hp Ht. pose proof (members_length _ _ _ _ _ _ Hp) as Hlen.
  assert (Hpl : placed (members d ++ loose ++ free ++ allMembers inc ++ allMembers rdy))
    by solve_placed (pool_placed _ _ _ _ _ Hp).
  assert (Hpl' : placed (loose ++ (members d ++ free) ++ allMembers inc ++ allMembers rdy)) by solve_placed Hpl.
  destruct Hpl as [Hnd Hr].
  pose proof Hnd as Hnd'. apply NoDup_app in Hnd' as (Hndd & Hdis & _).
  pose proof Hr as Hr'. apply Forall_app in Hr' as [Hrd _].
  unfold insertFragmentedPacketsInUnusedPacketsList. unfold members in Ht.
  destruct (threadFragments_ok (S N) (packetListElements s) (fst d) (snd d) Ht Hndd Hlen)
    as (es1 & lst & -> & Hl1 & Hlast & Ht1 & Hv1 & Hp1 & Ho1); [by rewrite (pool_elements _ _ _ _ _ Hp)|].
  cbn [mbind result_bind].
  destruct (lastOf_Some _ _ Hlast) as [pre Epre]. change (fst d :: snd d) with (members d) in Epre.
  assert (Hlst : lst ∈ members d) by (rewrite Epre; apply elem_of_app; right; by left).
  assert (Hrl : 0 <= lst < zlength es1).
  { rewrite Hl1, (pool_elements _ _ _ _ _ Hp). rewrite Forall_forall in Hrd. by apply Hrd. }
  destruct (setNext_ok es1 lst (unusedPacketsHead s) Hrl) as (es2 & -> & Hl2 & Hu2 & Hv2 & Hp2).
  cbn [mbind result_bind]. eexists. split; [done|].
  assert (Hvals : unchanged (valueOf (packetListElements s)) (valueOf es2)) by (intros j; by rewrite Hv2, Hv1).
  assert (Hother : forall j, j ∉ members d -> nextOf es2 j = nextOf (packetListElements s) j).
  { intros j Hj. destruct Hu2 as [_ Ho2]. rewrite Ho2 by (intros ->; done). by apply Ho1. }
  split; [|split; [done|intros j Hj; apply Hother; intros Hjd; apply (Hdis j Hjd); apply elem_of_app; by left]].
  assert (Hfree : forall j, j ∈ free ++ allMembers inc ++ allMembers rdy -> j ∉ members d).
  { intros j Hj Hjd. apply (Hdis j Hjd). apply elem_of_app. by right. }
  destruct Hp as [P1 P2 P3 P4 P5 P6 P7 P8 P9 P10 P11 P12 P13 P14].
  constructor; cbn [packetListElements packetDataBuffers unusedPacketsHead incompleteFragmentedDatagramsHead
    readyToReadPacketsHead readyToReadPacketsTail withUnused withElements]; try done.
  - by rewrite Hl2, Hl1.
  - apply threaded_app. rewrite Epre. split.
    + rewrite <- P5. eapply threaded_updated_last; [exact Hu2| |].
      * rewrite Epre in Hndd. apply NoDup_app in Hndd as (_ & Hni & _). intros Hin. apply (Hni lst Hin). by left.
      * rewrite <- Epre. exact Ht1.
    + eapply threaded_frame; [|exact P4]. intros j Hj. apply Hother, Hfree. apply elem_of_app. by left.
  - eapply threaded_frame; [|exact P6]. intros j Hj. apply Hother, Hfree. rewrite !elem_of_app.
    right; left. by apply heads_sub.
  - eapply threaded_frame; [|exact P8]. intros j Hj. apply Hother, Hfree. rewrite !elem_of_app.
    right; right. by apply heads_sub.
  - eapply backThreaded_unchanged; [|exact P9]. intros j. by rewrite Hp2, Hp1.
  - eapply Forall_impl; [exact P12|]. intros d'. apply threaded_unchanged. intros j. unfold fragOf. by rewrite Hvals.
  - apply Hpl'.
  - apply Hpl'.
Qed.

(** ** The ready list *)

Lemma lastOf_map_heads ds : lastOf (heads ds) None = fst <$> last ds.
Proof.
  destruct ds as [|d ds _] using rev_ind; [done|]. rewrite heads_app, last_snoc. apply lastOf_snoc.
Qed.

Lemma placed_not_in l1 l2 i : placed (l1 ++ l2) -> i ∈ l1 -> i ∉ l2.
Proof. intros [Hnd _] Hi Hi2. apply NoDup_app in Hnd as (_ & Hd & _). by apply (Hd i). Qed.

Lemma placed_range l i : placed l -> i ∈ l -> 0 <= i < Z.of_nat N.
Proof. intros [_ Hr] Hi. rewrite Forall_forall in Hr. by apply Hr. Qed.

Lemma ready_ok s d loose free inc rdy :
  pool s (members d ++ loose) free inc rdy ->
  threaded (fragOf (packetListElements s)) (members d) None ->
  exists s', insertInReadyToReadPacketsList s (fst d) = Ok s' /\
    pool s' loose free inc (rdy ++ [d]) /\ sameValues s s'.
Proof.
  intros Hp Ht. pose proof (pool_placed _ _ _ _ _ Hp) as Hpl.
  assert (Hpl1 : placed (loose ++ free ++ allMembers inc ++ allMembers (rdy ++ [d]))).
  { rewrite allMembers_app, allMembers_cons. change (allMembers []) with (@nil Z). rewrite app_nil_r.
    solve_placed Hpl. }
  assert (Hpl2 : placed ([fst d] ++ (snd d ++ loose ++ free ++ allMembers inc ++ allMembers rdy)))
    by (unfold members in Hpl; solve_placed Hpl).
  assert (Hd : fst d ∉ (snd d ++ loose ++ free ++ allMembers inc ++ allMembers rdy))
    by (apply (placed_not_in _ _ _ Hpl2); by left).
  destruct Hp as [P1 P2 P3 P4 P5 P6 P7 P8 P9 P10 P11 P12 P13 P14].
  assert (Hr : 0 <= fst d < zlength (packetListElements s)).
  { rewrite P1. apply (placed_range _ _ Hpl2). by left. }
  unfold insertInReadyToReadPacketsList.
  destruct (setNext_ok (packetListElements s) (fst d) None Hr) as (es1 & -> & Hl1 & Hu1 & Hv1 & Hp1).
  cbn [mbind result_bind].
  destruct (setPrev_ok es1 (fst d) (readyToReadPacketsTail s)) as (es2 & -> & Hl2 & Hu2 & Hv2 & Hn2); [lia|].
  cbn [mbind result_bind].
  assert (Hdh : (fst d ∉ free) /\ (fst d ∉ heads inc) /\ (fst d ∉ heads rdy)).
  { rewrite !not_elem_of_app in Hd. destruct_and!. split_and!; [done| |]; intros ?%heads_sub; done. }
  destruct Hdh as (Hd1 & Hd2 & Hd3).
  assert (Hn12 : updated (nextOf (packetListElements s)) (nextOf es2) (fst d) None).
  { destruct Hu1 as [Ha Hb]. split; [by rewrite Hn2|]. intros j Hj. by rewrite Hn2, Hb. }
  assert (Hp12 : updated (prevOf (packetListElements s)) (prevOf es2) (fst d) (readyToReadPacketsTail s)).
  { destruct Hu2 as [Ha Hb]. split; [done|]. intros j Hj. by rewrite Hb, Hp1. }
  assert (Hv12 : unchanged (valueOf (packetListElements s)) (valueOf es2)) by (intros j; by rewrite Hv2, Hv1).
  assert (Hchains : Forall (fun d' => threaded (fragOf es2) (members d') None) (inc ++ rdy ++ [d])).
  { rewrite app_assoc. apply Forall_app_2; [|apply Forall_singleton].
    - eapply Forall_impl; [exact P12|]. intros d'. apply threaded_unchanged. intros j. unfold fragOf. by rewrite Hv12.
    - eapply threaded_unchanged; [|exact Ht]. intros j. unfold fragOf. by rewrite Hv12. }
  destruct (readyToReadPacketsTail s) as [t|] eqn:Et.
  - destruct rdy as [|d' rdy'] using rev_ind; [done|]. clear IHrdy'. 
    rewrite heads_app in *. cbn [heads map] in *. rewrite lastOf_snoc in P11. injection P11 as ->.
    assert (Htr : 0 <= fst d' < zlength es2).
    { rewrite Hl2, Hl1, P1. apply (placed_range _ _ Hpl). rewrite !elem_of_app. do 3 right.
      rewrite allMembers_app. apply elem_of_app. right. apply heads_sub. by left. }
    destruct (setNext_ok es2 (fst d') (Some (fst d)) Htr) as (es3 & -> & Hl3 & Hu3 & Hv3 & Hp3).
    cbn [mbind result_bind]. eexists. split; [done|]. split; [|split; [done|]; intros j; cbn; by rewrite Hv3, Hv12].
    assert (Hdd : fst d' <> fst d) by (intros E; apply Hd3; rewrite <- E; apply elem_of_app; right; by left).
    assert (Hd'h : (fst d' ∉ free) /\ (fst d' ∉ heads inc) /\ (fst d' ∉ heads rdy')).
    { assert (Hq : placed ([fst d'] ++ free ++ allMembers inc ++ allMembers rdy' ++ snd d' ++ (members d ++ loose))).
      { rewrite allMembers_app, allMembers_cons in Hpl. change (allMembers []) with (@nil Z) in Hpl.
        rewrite app_nil_r in Hpl. unfold members in Hpl at 2. solve_placed Hpl. }
      pose proof (placed_not_in _ _ (fst d') Hq ltac:(by left)) as Hni. rewrite !not_elem_of_app in Hni.
      destruct_and!. split_and!; [done| |]; intros ?%heads_sub; done. }
    destruct Hd'h as (He1 & He2 & He3).
    constructor; cbn [packetListElements packetDataBuffers unusedPacketsHead incompleteFragmentedDatagramsHead
      readyToReadPacketsHead readyToReadPacketsTail withReady withElements]; try done.
    + lia.
    + eapply threaded_updated; [exact Hu3|done|]. by eapply threaded_updated.
    + eapply threaded_updated; [exact Hu3|done|]. by eapply threaded_updated.
    + rewrite !heads_app. cbn [heads map]. apply threaded_app. split.
      * apply (threaded_updated_last (nextOf es2) _ _ _ None); [exact Hu3|done|]. by eapply threaded_updated.
      * cbn. split; [|done]. destruct Hu3 as [_ Hb]. rewrite Hb by done. apply Hn12.
    + rewrite !heads_app. cbn [heads map]. apply backThreaded_app. split.
      * eapply backThreaded_unchanged; [exact Hp3|]. by eapply backThreaded_updated.
      * cbn. split; [|done]. rewrite Hp3. rewrite lastOf_snoc. apply Hp12.
    + rewrite P10, !heads_app, !firstOf_app. done.
    + rewrite !heads_app. cbn [heads map]. by rewrite lastOf_snoc.
    + eapply Forall_impl; [exact Hchains|]. intros d0. apply threaded_unchanged. intros j. unfold fragOf. by rewrite Hv3.
    + apply Hpl1.
    + apply Hpl1.
  - symmetry in P11. apply lastOf_None, map_eq_nil in P11. subst rdy. cbn [mbind result_bind app] in *.
    eexists. split; [done|]. split; [|done].
    constructor; cbn [packetListElements packetDataBuffers unusedPacketsHead incompleteFragmentedDatagramsHead
      readyToReadPacketsHead readyToReadPacketsTail withReady withElements heads map firstOf lastOf threaded backThreaded]; try done.
    + lia.
    + by eapply threaded_updated.
    + by eapply threaded_updated.
    + split; [apply Hn12|done].
    + split; [apply Hp12|done].
    + apply Hpl1.
    + apply Hpl1.
Qed.

(** ** Pointers into the list of incomplete datagrams *)

Lemma readListPtr_ok s loose free before after rdy :
  pool s loose free (before ++ after) rdy ->
  readListPtr s (lastOf (heads before) None) = Ok (firstOf (heads after) None).
Proof.
  intros [P1 P2 P3 P4 P5 P6 P7 P8 P9 P10 P11 P12 P13 P14].
  destruct before as [|b before _] using rev_ind; [cbn; by rewrite P7|].
  rewrite heads_app in *. cbn [heads map] in *. rewrite lastOf_snoc. cbn [readListPtr].
  apply getNext_ok. rewrite heads_app, <- app_assoc in P6. apply threaded_app in P6 as [_ [P6 _]]. done.
Qed.

(** Replacing the datagrams after a pointer. *)
Lemma writeListPtr_ok s loose loose' free before after after' rdy :
  pool s loose free (before ++ after) rdy ->
  threaded (nextOf (packetListElements s)) (heads after') None ->
  Forall (fun d => threaded (fragOf (packetListElements s)) (members d) None) after' ->
  placed (loose' ++ free ++ allMembers (before ++ after') ++ allMembers rdy) ->
  exists s', writeListPtr s (lastOf (heads before) None) (firstOf (heads after') None) = Ok s' /\
    pool s' loose' free (before ++ after') rdy /\ sameValues s s' /\
    forall j, j ∉ heads before -> nextOf (packetListElements s') j = nextOf (packetListElements s) j.
Proof.
  intros [P1 P2 P3 P4 P5 P6 P7 P8 P9 P10 P11 P12 P13 P14] Ht Hc Hpl.
  assert (Hchains : Forall (fun d => threaded (fragOf (packetListElements s)) (members d) None)
            ((before ++ after') ++ rdy)).
  { rewrite !Forall_app in *. tauto. }
  destruct before as [|b before _] using rev_ind.
  - cbn [heads map lastOf reverse writeListPtr]. eexists. split; [done|]. split; [|done].
    constructor; try done; apply Hpl.
  - rewrite heads_app. cbn [heads map]. rewrite lastOf_snoc. cbn [writeListPtr].
    assert (Hpl2 : placed ([fst b] ++ (free ++ allMembers before ++ allMembers after' ++ allMembers rdy))).
    { rewrite !allMembers_app, allMembers_cons in Hpl. change (allMembers []) with (@nil Z) in Hpl.
      unfold members in Hpl. destruct Hpl as [Hnd Hr].
      assert (Hperm : (loose' ++ free ++ ((allMembers before ++ (fst b :: snd b) ++ []) ++ allMembers after') ++ allMembers rdy)
        ≡ₚ ((fst b :: free ++ allMembers before ++ allMembers after' ++ allMembers rdy) ++ loose' ++ snd b))
        by solve_Permutation.
      rewrite Hperm in Hnd, Hr. apply NoDup_app in Hnd as (? & _ & _). apply Forall_app in Hr as [? _]. by split. }
    pose proof (placed_not_in _ _ (fst b) Hpl2 ltac:(by left)) as Hni. rewrite !not_elem_of_app in Hni.
    destruct Hni as (Hf & Hb & Ha & Hrd).
    assert (Hbr : 0 <= fst b < zlength (packetListElements s)).
    { rewrite P1. apply (placed_range _ _ Hpl2). by left. }
    destruct (setNext_ok (packetListElements s) (fst b) (firstOf (heads after') None) Hbr)
      as (es & -> & Hl & Hu & Hv & Hp).
    cbn [mbind result_bind]. eexists. split; [done|].
    split; [|split; [done|intros j Hj; apply (proj2 Hu); intros ->; apply Hj, elem_of_app; right; by left]].
    rewrite !heads_app, <- app_assoc in P6. cbn [heads map app] in P6.
    constructor; cbn [packetListElements packetDataBuffers unusedPacketsHead incompleteFragmentedDatagramsHead
      readyToReadPacketsHead readyToReadPacketsTail withElements]; try done.
    + lia.
    + by eapply threaded_updated.
    + rewrite !heads_app. cbn [heads map]. apply threaded_app. split.
      * apply threaded_app in P6 as [P6a P6b].
        eapply threaded_updated_last; [exact Hu|by intros ?%heads_sub|].
        apply threaded_app. split; [exact P6a|]. cbn in *. by destruct P6b.
      * eapply threaded_updated; [exact Hu|by intros ?%heads_sub|done].
    + rewrite P7, !heads_app, !firstOf_app. done.
    + eapply threaded_updated; [exact Hu|by intros ?%heads_sub|done].
    + by eapply backThreaded_unchanged.
    + eapply Forall_impl; [exact Hchains|]. intros d. apply threaded_unchanged. intros j. unfold fragOf. by rewrite Hv.
    + apply Hpl.
    + apply Hpl.
Qed.

(** Unlinking the datagram at a pointer. *)
Lemma unlink_ok s loose free before d after rdy :
  pool s loose free (before ++ d :: after) rdy ->
  exists n s', getNext (packetListElements s) (fst d) = Ok n /\
    writeListPtr s (lastOf (heads before) None) n = Ok s' /\
    pool s' (members d ++ loose) free (before ++ after) rdy /\ sameValues s s' /\
    threaded (fragOf (packetListElements s')) (members d) None /\ keepsNext loose s s'.
Proof.
  intros Hp. pose proof (pool_inc _ _ _ _ _ Hp) as Ht. pose proof (pool_chains _ _ _ _ _ Hp) as Hc.
  rewrite heads_app in Ht. apply threaded_app in Ht as [_ [Hn Ht]].
  rewrite !Forall_app, Forall_cons in Hc. destruct Hc as [(Hcb & Hcd & Hca) Hcr].
  destruct (writeListPtr_ok s loose (members d ++ loose) free before (d :: after) after rdy)
    as (s' & Hw & Hp' & Hsame & Hkeep); [done|done|done| |].
  { pose proof (pool_placed _ _ _ _ _ Hp) as Hpl. rewrite allMembers_app, allMembers_cons in Hpl.
    rewrite allMembers_app. solve_placed Hpl. }
  exists (firstOf (heads after) None), s'. split; [by apply getNext_ok|]. split; [done|]. split; [done|].
  split; [done|]. split; [eapply threaded_unchanged; [by apply sameValues_fragOf|done]|].
  intros j Hj. apply Hkeep. intros Hjb%heads_sub.
  eapply (placed_not_in loose _ j (pool_placed _ _ _ _ _ Hp) Hj). rewrite allMembers_app, !elem_of_app. tauto.
Qed.

Lemma makeSure_ok s loose free inc rdy :
  pool s loose free inc rdy ->
  exists s' r, makeSureUnusedPacketsHeadIsntNullptr N s = Ok (s', r) /\ sameValues s s' /\
    (free <> [] -> s' = s /\ r = 0) /\
    (r = 1 /\ s' = s \/
     r = 0 /\ exists free' inc', free' <> [] /\ pool s' loose free' inc' rdy).
Proof.
  intros Hp. unfold makeSureUnusedPacketsHeadIsntNullptr. rewrite (pool_unused _ _ _ _ _ Hp).
  destruct free as [|f free]; cbn [firstOf].
  2:{ exists s, 0. split_and!; [done|done|done|]. right. split; [done|]. by exists (f :: free), inc. }
  rewrite (pool_incomplete _ _ _ _ _ Hp). destruct inc as [|d inc]; cbn [heads map firstOf].
  { exists s, 1. split_and!; [done|done|done|]. by left. }
  destruct (unlink_ok s loose [] [] d inc rdy Hp) as (n & s1 & -> & Hw & Hp1 & Hs1 & Ht & _). cbn in Hw.
  injection Hw as Hw. cbn [mbind result_bind]. rewrite Hw.
  destruct (release_ok s1 d loose [] inc rdy Hp1 Ht) as (s2 & -> & Hp2 & Hs2 & _). cbn [mbind result_bind].
  exists s2, 0. split_and!; [done|by eapply sameValues_trans|done|]. right. split; [done|].
  exists (members d ++ []), inc. split; [done|done].
Qed.

(** ** Finding the datagram of a fragment *)

Definition sameDatagram (a b : IPv4Packet) : bool :=
  (sourceIP a =? sourceIP b) && (destIP a =? destIP b) && (identification a =? identification b).

Lemma findDatagram_ok fuel s pNew loose free before after rdy :
  pool s loose free (before ++ after) rdy -> (length after < fuel)%nat ->
  exists s' free' before' after', findDatagram N fuel s pNew (lastOf (heads before) None) =
      Ok (s', lastOf (heads before') None) /\
    pool s' loose free' (before' ++ after') rdy /\ sameValues s s' /\ keepsNext loose s s'.
Proof.
  revert s free before after. induction fuel as [|fuel IH]; intros s free before after Hp Hf; [lia|].
  cbn [findDatagram]. rewrite (readListPtr_ok _ _ _ _ _ _ Hp). cbn [mbind result_bind].
  destruct after as [|d after]; cbn [heads map firstOf].
  { exists s, free, before, []. split_and!; done. }
  assert (Hv : exists v, valueOf (packetListElements s) (fst d) = Some v).
  { apply valueOf_Some. rewrite (pool_elements _ _ _ _ _ Hp).
    apply (placed_range _ _ (pool_placed _ _ _ _ _ Hp)). rewrite !elem_of_app, allMembers_app, elem_of_app.
    right; right; left; right. by left. }
  destruct Hv as [v Hv]. rewrite (getValue_ok _ _ _ Hv). cbn [mbind result_bind].
  destruct (FRAGMENT_TIMEOUT <? passedTimeSince s (createdTime v)).
  - destruct (unlink_ok _ _ _ _ _ _ _ Hp) as (n & s1 & -> & Hw & Hp1 & Hs1 & Ht & Hk1). cbn [mbind result_bind].
    rewrite Hw. cbn [mbind result_bind].
    destruct (release_ok s1 d loose free (before ++ after) rdy Hp1 Ht) as (s2 & -> & Hp2 & Hs2 & Hk2).
    cbn [mbind result_bind].
    destruct (IH s2 (members d ++ free) before after Hp2) as (s3 & free' & before' & after' & -> & Hp3 & Hs3 & Hk3);
      [cbn in Hf; lia|].
    exists s3, free', before', after'. split; [done|]. split; [done|].
    split; [exact (sameValues_trans _ _ _ (sameValues_trans _ _ _ Hs1 Hs2) Hs3)|].
    exact (keepsNext_trans _ _ _ _ (keepsNext_trans _ _ _ _ Hk1 Hk2) Hk3).
  - destruct (_ && _ && _).
    + exists s, free, before, (d :: after). split_and!; done.
    + assert (Hp' : pool s loose free ((before ++ [d]) ++ after) rdy) by by rewrite <- app_assoc.
      destruct (IH s free (before ++ [d]) after Hp') as (s3 & free' & before' & after' & Heq & Hp3 & Hs3 & Hk3);
        [cbn in Hf; lia|].
      rewrite heads_app in Heq. cbn [heads map] in Heq. rewrite lastOf_snoc in Heq. rewrite Heq.
      by exists s3, free', before', after'.
Qed.

(** ** Placing a fragment *)

Lemma fragOf_valueOf es i n : fragOf es i = Some n -> exists v, valueOf es i = Some v /\ nextFragment v = n.
Proof. unfold fragOf. destruct (valueOf es i) as [v|]; [|done]. intros [= <-]. by exists v. Qed.

Definition placeIn (l : list Z) (pl : FragmentPlace) : Prop :=
  exists pre post, l = pre ++ post /\ placePrevious pl = lastOf pre None /\ placeCurrent pl = firstOf post None.

Lemma findFragmentPlace_ok fuel es off pre post pl :
  threaded (fragOf es) (pre ++ post) None -> placePrevious pl = lastOf pre None ->
  placeCurrent pl = firstOf post None -> (length post < fuel)%nat ->
  exists r, findFragmentPlace fuel es off pl = Ok r /\
    match r with None => True | Some pl' => placeIn (pre ++ post) pl' end.
Proof.
  revert pre post pl. induction fuel as [|fuel IH]; intros pre post pl Ht Hp Hc Hf; [lia|].
  cbn [findFragmentPlace]. rewrite Hc. destruct post as [|c post]; cbn [firstOf].
  { eexists. split; [done|]. by exists pre, []. }
  pose proof Ht as Ht'. apply threaded_app in Ht' as [_ [Hn _]].
  apply fragOf_valueOf in Hn as (v & Hv & Hn). rewrite (getValue_ok _ _ _ Hv). cbn [mbind result_bind].
  destruct (fragmentOffset v <? off).
  - destruct (negb (moreFragments v)); [by eexists|].
    destruct (IH (pre ++ [c]) post (mkFragmentPlace (Some c) (nextFragment v)
      (if negb (fragmentOffset v =? placeOffset pl + placeSize pl) then false else placeFull pl)
      (fragmentOffset v) (dataSize v))) as (r & -> & Hr).
    + by rewrite <- app_assoc.
    + by rewrite lastOf_snoc.
    + done.
    + cbn in Hf. lia.
    + exists r. split; [done|]. by rewrite <- app_assoc in Hr.
  - eexists. split; [done|]. by exists pre, (c :: post).
Qed.

Lemma checkContiguous_ok fuel es full l prv po ps :
  threaded (fragOf es) l None -> (length l < fuel)%nat ->
  exists r, checkContiguous fuel es full (firstOf l None) prv po ps = Ok r /\
    let '(full', _, previous) := r in
    (exists j, j ∈ l /\ previous = Some j) \/ previous = prv /\ (l = [] \/ full' = false).
Proof.
  revert full l prv po ps. induction fuel as [|fuel IH]; intros full l prv po ps Ht Hf; [lia|].
  cbn [checkContiguous]. destruct l as [|c l]; cbn [firstOf].
  { eexists. split; [done|]. right. split; [done|]. by left. }
  destruct full; [|eexists; split; [done|right; split; [done|by right]]].
  destruct Ht as [Hn Ht]. apply fragOf_valueOf in Hn as (v & Hv & Hn). rewrite (getValue_ok _ _ _ Hv).
  cbn [mbind result_bind]. rewrite Hn.
  destruct (IH (fragmentOffset v =? po + ps) l (Some c) (fragmentOffset v) (dataSize v)) as (r & -> & Hr);
    [done|cbn in Hf; lia|].
  exists r. split; [done|]. destruct r as [[full' cur] previous]. left.
  destruct Hr as [(j & Hj & ->)|[-> _]]; eexists; (split; [|done]); [by right|by left].
Qed.

Lemma updatePacket_ok s i v f :
  valueOf (packetListElements s) i = Some v ->
  exists es, updatePacket s i f = Ok (withElements s es) /\
    zlength es = zlength (packetListElements s) /\
    updated (valueOf (packetListElements s)) (valueOf es) i (f v) /\
    unchanged (nextOf (packetListElements s)) (nextOf es) /\
    unchanged (prevOf (packetListElements s)) (prevOf es).
Proof.
  intros Hv. unfold updatePacket. rewrite (getValue_ok _ _ _ Hv). cbn [mbind result_bind].
  destruct (setValue_ok (packetListElements s) i (f v)) as (es & -> & Hl & Hu & Hn & Hp).
  { apply valueOf_Some. by exists v. }
  by exists es.
Qed.

(** Changing packets, with one datagram becoming another with the same head. *)
Lemma pool_values s es loose loose' free before d d' after rdy :
  pool s loose free (before ++ d :: after) rdy ->
  zlength es = zlength (packetListElements s) ->
  unchanged (nextOf (packetListElements s)) (nextOf es) ->
  unchanged (prevOf (packetListElements s)) (prevOf es) ->
  (forall j, j ∈ allMembers (before ++ after) ++ allMembers rdy -> fragOf es j = fragOf (packetListElements s) j) ->
  fst d' = fst d -> threaded (fragOf es) (members d') None ->
  placed (loose' ++ free ++ allMembers (before ++ d' :: after) ++ allMembers rdy) ->
  pool (withElements s es) loose' free (before ++ d' :: after) rdy.
Proof.
  intros [P1 P2 P3 P4 P5 P6 P7 P8 P9 P10 P11 P12 P13 P14] Hl Hn Hp Hf Hd Ht Hpl.
  assert (Eh : heads (before ++ d' :: after) = heads (before ++ d :: after)).
  { rewrite !heads_app. unfold heads. cbn. by rewrite Hd. }
  constructor; cbn [packetListElements packetDataBuffers unusedPacketsHead incompleteFragmentedDatagramsHead
      readyToReadPacketsHead readyToReadPacketsTail withElements]; rewrite ?Eh; try done.
  - lia.
  - by eapply threaded_unchanged.
  - by eapply threaded_unchanged.
  - by eapply threaded_unchanged.
  - by eapply backThreaded_unchanged.
  - assert (Hframe : forall x, x ∈ before \/ x ∈ after \/ x ∈ rdy ->
      threaded (fragOf (packetListElements s)) (members x) None -> threaded (fragOf es) (members x) None).
    { intros x Hx. apply threaded_frame. intros j Hj. apply Hf. rewrite allMembers_app, !elem_of_app.
      rewrite !elem_of_allMembers. destruct Hx as [Hx|[Hx|Hx]]; [left; left|left; right|right]; by exists x. }
    rewrite !Forall_app, Forall_cons in P12. destruct P12 as [(Hb & _ & Ha) Hr].
    rewrite !Forall_app, Forall_cons. rewrite !Forall_forall in *.
    split_and!; [|done| |]; intros x Hx; apply Hframe; auto.
  - apply Hpl.
  - apply Hpl.
Qed.

(** What a packet holds apart from its place in lists. *)
Definition contentOf (es : list (Element IPv4Packet)) (i : Z) : option IPv4Packet :=
  (fun v => setCreatedTime (setNextFragment v None) 0) <$> valueOf es i.

Lemma contentOf_unchanged es es' : unchanged (valueOf es) (valueOf es') -> unchanged (contentOf es) (contentOf es').
Proof. intros H j. unfold contentOf. by rewrite H. Qed.

Lemma contentOf_updated es es' i v v' :
  valueOf es i = Some v -> updated (valueOf es) (valueOf es') i v' ->
  setCreatedTime (setNextFragment v' None) 0 = setCreatedTime (setNextFragment v None) 0 ->
  unchanged (contentOf es) (contentOf es').
Proof.
  intros Hv [Hi Ho] E j. unfold contentOf. destruct (decide (j = i)) as [->|]; [|by rewrite Ho].
  rewrite Hi, Hv. cbn. by rewrite E.
Qed.

Definition createdOf (es : list (Element IPv4Packet)) (i : Z) : option Z := createdTime <$> valueOf es i.

Lemma createdOf_updated es es' i v v' :
  valueOf es i = Some v -> updated (valueOf es) (valueOf es') i v' -> createdTime v' = createdTime v ->
  unchanged (createdOf es) (createdOf es').
Proof.
  intros Hv [Hi Ho] E j. unfold createdOf. destruct (decide (j = i)) as [->|]; [|by rewrite Ho].
  rewrite Hi, Hv. cbn. by rewrite E.
Qed.

Lemma unchanged_trans {A} (f g h : Z -> option A) : unchanged f g -> unchanged g h -> unchanged f h.
Proof. intros H1 H2 j. by rewrite H2, H1. Qed.

Lemma fragOf_setNextFragment es es' i v n :
  valueOf es i = Some v -> updated (valueOf es) (valueOf es') i (setNextFragment v n) -> updated (fragOf es) (fragOf es') i n.
Proof.
  intros Hv [Hi Ho]. split; unfold fragOf; [by rewrite Hi|]. intros j Hj. by rewrite Ho.
Qed.

(** What linking a fragment into the datagram that begins with [h] does. *)
Definition linkedIn (s s' : NetworkStackHandler) (h e : Z) (pre post : list Z) (free : list Z)
    (before after rdy : list Datagram) : Prop :=
  exists d', members d' = pre ++ e :: post /\ pool s' [] free (before ++ d' :: after) rdy /\
    stable s s' /\ unchanged (contentOf (packetListElements s)) (contentOf (packetListElements s')) /\
    createdOf (packetListElements s') (fst d') = createdOf (packetListElements s) h.

(** A fragment that is not the last of its datagram is never dropped. *)
Definition keptIfMore (s : NetworkStackHandler) (e : Z) (r : option NetworkStackHandler) : Prop :=
  forall v, valueOf (packetListElements s) e = Some v -> moreFragments v = true -> r <> None.

Section link.
Context (s : NetworkStackHandler) (e : Z) (free : list Z) (before : list Datagram) (d : Datagram)
        (after rdy : list Datagram).
Hypothesis Hp : pool s [e] free (before ++ d :: after) rdy.

Lemma link_placed d' :
  members d' ≡ₚ e :: members d -> placed ([] ++ free ++ allMembers (before ++ d' :: after) ++ allMembers rdy).
Proof using Hp.
  intros Hm. pose proof (pool_placed _ _ _ _ _ Hp) as Hpl.
  rewrite allMembers_app, allMembers_cons in *. eapply placed_perm; [|exact Hpl]. rewrite Hm. solve_Permutation.
Qed.

Lemma link_other j :
  j ∈ allMembers (before ++ after) ++ allMembers rdy -> j <> e /\ (j ∉ members d).
Proof using Hp.
  intros Hj. pose proof (pool_placed _ _ _ _ _ Hp) as Hpl. rewrite allMembers_app, allMembers_cons in Hpl.
  assert (Hq : placed (([e] ++ members d) ++ (allMembers (before ++ after) ++ allMembers rdy) ++ free)).
  { rewrite allMembers_app. solve_placed Hpl. }
  split; [intros ->|intros Hjd]; eapply (placed_not_in _ _ _ Hq); [apply elem_of_app; left; by left| | |];
    [apply elem_of_app; by left|apply elem_of_app; by right|apply elem_of_app; by left].
Qed.

Lemma link_chain : threaded (fragOf (packetListElements s)) (members d) None.
Proof using Hp.
  pose proof (pool_chains _ _ _ _ _ Hp) as Hc. rewrite !Forall_app, Forall_cons in Hc. tauto.
Qed.

Lemma link_nodup : NoDup (e :: members d).
Proof using Hp.
  pose proof (pool_placed _ _ _ _ _ Hp) as Hpl. rewrite allMembers_app, allMembers_cons in Hpl.
  assert (Hq : placed ((e :: members d) ++ (allMembers before ++ allMembers after ++ allMembers rdy ++ free)))
    by solve_placed Hpl.
  destruct Hq as [Hnd _]. by apply NoDup_app in Hnd as [? _].
Qed.

Lemma link_value j : j ∈ e :: members d -> exists v, valueOf (packetListElements s) j = Some v.
Proof using Hp.
  intros Hj. apply valueOf_Some. rewrite (pool_elements _ _ _ _ _ Hp).
  apply (placed_range _ _ (pool_placed _ _ _ _ _ Hp)). rewrite allMembers_app, allMembers_cons, !elem_of_app.
  apply elem_of_cons in Hj as [->|Hj]; [left; by left|tauto].
Qed.
End link.

(** The new fragment becomes the first of its datagram. *)
Lemma linkFragment_first s e free before d after rdy ptr pl :
  pool s [e] free (before ++ d :: after) rdy -> ptr = lastOf (heads before) None ->
  placePrevious pl = None -> placeCurrent pl = Some (fst d) ->
  exists r, linkFragment s ptr e pl = Ok r /\ keptIfMore s e r /\
    match r with None => True | Some s' => linkedIn s s' (fst d) e [] (members d) free before after rdy end.
Proof.
  intros Hp -> Hprev Hcur. destruct (link_value _ _ _ _ _ _ _ Hp e ltac:(by left)) as [v Hv].
  destruct (link_value _ _ _ _ _ _ _ Hp (fst d) ltac:(right; by left)) as [vd Hvd].
  unfold linkFragment. rewrite (getValue_ok _ _ _ Hv). cbn [mbind result_bind]. rewrite Hprev, Hcur.
  destruct (negb (moreFragments v)) eqn:Emore.
  { eexists. split_and!; [done| |done]. intros v' Hv' Hm. rewrite Hv in Hv'. injection Hv' as <-. by rewrite Hm in Emore. }
  rewrite (getValue_ok _ _ _ Hvd). cbn [mbind result_bind].
  destruct (updatePacket_ok s e v (fun v => setCreatedTime v (createdTime vd)) Hv) as (es1 & -> & Hl1 & Hu1 & Hn1 & Hp1).
  cbn [mbind result_bind].
  destruct (updatePacket_ok (withElements s es1) e (setCreatedTime v (createdTime vd))
    (fun v => setNextFragment v (Some (fst d))) (proj1 Hu1)) as (es2 & -> & Hl2 & Hu2 & Hn2 & Hp2).
  cbn [mbind result_bind packetListElements withElements] in *.
  change (withElements (withElements s es1) es2) with (withElements s es2).
  assert (Hpool2 : pool (withElements s es2) [e] free (before ++ d :: after) rdy).
  { eapply pool_values; [exact Hp|lia| | | |done| |exact (pool_placed _ _ _ _ _ Hp)].
    - by eapply unchanged_trans.
    - by eapply unchanged_trans.
    - intros j Hj. destruct (link_other _ _ _ _ _ _ _ Hp j Hj) as [Hje _].
      unfold fragOf. destruct Hu1 as [_ Ho1], Hu2 as [_ Ho2]. by rewrite Ho2, Ho1.
    - eapply threaded_frame; [|exact (link_chain _ _ _ _ _ _ _ Hp)]. intros j Hj. unfold fragOf.
      destruct Hu1 as [_ Ho1], Hu2 as [_ Ho2].
      assert (j <> e). { intros ->. pose proof (link_nodup _ _ _ _ _ _ _ Hp) as Hnd. apply NoDup_cons in Hnd as [? _]. done. }
      by rewrite Ho2, Ho1. }
  rewrite (readListPtr_ok _ _ _ _ _ _ Hpool2). cbn [heads map firstOf mbind result_bind orFault].
  pose proof (pool_inc _ _ _ _ _ Hpool2) as Hinc. rewrite heads_app in Hinc.
  apply threaded_app in Hinc as [_ Hinc]. rewrite heads_cons in Hinc. destruct Hinc as [Hnd Hna].
  cbn [packetListElements withElements] in Hnd, Hna.
  rewrite (getNext_ok _ _ _ Hnd). cbn [mbind result_bind].
  destruct (setNext_ok es2 e (firstOf (heads after) None)) as (es3 & -> & Hl3 & Hu3 & Hv3 & Hp3).
  { rewrite Hl2, Hl1. apply valueOf_Some. by exists v. }
  cbn [mbind result_bind]. change (withElements (withElements s es2) es3) with (withElements s es3).
  assert (Heni : e ∉ free ++ heads (before ++ d :: after) ++ heads rdy).
  { pose proof (placed_not_in [e] _ e (pool_placed _ _ _ _ _ Hp) ltac:(by left)) as Hni.
    rewrite !not_elem_of_app in *. destruct_and!. split_and!; [done| |]; intros ?%heads_sub; done. }
  assert (Hpool3 : pool (withElements s es3) [e] free (before ++ d :: after) rdy).
  { eapply pool_frame_next; [exact Hpool2|..]; try done. intros j Hj. destruct Hu3 as [_ Ho3]. apply Ho3.
    intros ->. done. }
  assert (Hfr : fragOf es3 e = Some (Some (fst d))) by (unfold fragOf; rewrite Hv3, (proj1 Hu2); done).
  destruct (writeListPtr_ok (withElements s es3) [e] [] free before (d :: after) ((e, members d) :: after) rdy Hpool3)
    as (s4 & Hw & Hpool4 & [Hst4 Hv4] & _).
  - rewrite heads_cons. cbn [threaded packetListElements withElements fst]. split; [apply Hu3|].
    eapply threaded_updated; [exact Hu3| |exact Hna]. intros Hin. apply Heni. rewrite heads_app, !elem_of_app.
    right; left; right. by right.
  - pose proof (pool_chains _ _ _ _ _ Hpool3) as Hc. rewrite !Forall_app, Forall_cons in Hc.
    apply Forall_cons. split; [|tauto]. unfold members at 1. cbn [fst snd threaded firstOf]. split; [exact Hfr|tauto].
  - apply (link_placed _ _ _ _ _ _ _ Hp). done.
  - rewrite heads_cons in Hw. cbn [firstOf fst] in Hw. rewrite Hw. cbn [mbind result_bind]. eexists. split; [done|].
    split; [done|]. exists (e, members d). split_and!; [done|done|exact Hst4| |].
    2:{ unfold createdOf. cbn [fst]. rewrite (Hv4 e). cbn [packetListElements withElements]. rewrite (Hv3 e), (proj1 Hu2), Hvd. done. }
    eapply unchanged_trans; [|by apply contentOf_unchanged]. cbn [packetListElements withElements].
    eapply unchanged_trans; [|by apply contentOf_unchanged].
    eapply unchanged_trans; [eapply (contentOf_updated _ es1); [exact Hv|exact Hu1|done]|].
    eapply contentOf_updated; [apply Hu1|exact Hu2|done].
Qed.

(** Threading a new element in between. *)
Lemma threaded_insert f g pre p e post n :
  threaded f ((pre ++ [p]) ++ post) n -> NoDup (e :: (pre ++ [p]) ++ post) ->
  g e = Some (firstOf post n) -> g p = Some (Some e) ->
  (forall j, j <> e -> j <> p -> g j = f j) ->
  threaded g ((pre ++ [p]) ++ e :: post) n.
Proof.
  intros Ht Hnd He Hp Ho. apply threaded_app in Ht as [Ht1 Ht2]. apply threaded_app in Ht1 as [Ht1 _].
  rewrite !NoDup_cons, !NoDup_app, !not_elem_of_app in Hnd.
  destruct Hnd as ((He1 & He2) & (_ & Hpre & _) & Hdis & _).
  rewrite <- app_assoc. cbn [app]. apply threaded_app. split.
  - eapply threaded_frame; [|exact Ht1]. intros j Hj. apply Ho.
    + intros ->. tauto.
    + intros ->. apply (Hpre p Hj). by left.
  - cbn [threaded firstOf]. split_and!; [done|done|]. eapply threaded_frame; [|exact Ht2].
    intros j Hj. apply Ho; intros ->; [done|]. apply (Hdis p); [apply elem_of_app; right; by left|done].
Qed.

(** The new fragment goes after another one. *)
Lemma linkFragment_inner s e free before d after rdy ptr pl pre p post :
  pool s [e] free (before ++ d :: after) rdy -> members d = (pre ++ [p]) ++ post ->
  placePrevious pl = Some p -> placeCurrent pl = firstOf post None ->
  fragOf (packetListElements s) e = Some None ->
  exists r, linkFragment s ptr e pl = Ok r /\ (post = [] -> r <> None) /\ keptIfMore s e r /\
    match r with None => True | Some s' => linkedIn s s' (fst d) e (pre ++ [p]) post free before after rdy end.
Proof.
  intros Hp Hm Hprev Hcur Hfe. destruct (link_value _ _ _ _ _ _ _ Hp e ltac:(by left)) as [v Hv].
  assert (Hpd : p ∈ members d) by (rewrite Hm, !elem_of_app; left; right; by left).
  destruct (link_value _ _ _ _ _ _ _ Hp p ltac:(by right)) as [vp Hvp].
  pose proof (link_nodup _ _ _ _ _ _ _ Hp) as Hnd.
  assert (Hpe : p <> e) by (intros ->; apply NoDup_cons in Hnd as [? _]; done).
  assert (Hnvn : nextFragment v = None) by (unfold fragOf in Hfe; rewrite Hv in Hfe; by injection Hfe).
  unfold linkFragment. rewrite (getValue_ok _ _ _ Hv). cbn [mbind result_bind]. rewrite Hprev, Hcur.
  assert (Hfinish : forall es, zlength es = zlength (packetListElements s) ->
    unchanged (nextOf (packetListElements s)) (nextOf es) -> unchanged (prevOf (packetListElements s)) (prevOf es) ->
    unchanged (contentOf (packetListElements s)) (contentOf es) ->
    unchanged (createdOf (packetListElements s)) (createdOf es) ->
    fragOf es e = Some (firstOf post None) -> fragOf es p = Some (Some e) ->
    (forall j, j <> e -> j <> p -> fragOf es j = fragOf (packetListElements s) j) ->
    linkedIn s (withElements s es) (fst d) e (pre ++ [p]) post free before after rdy).
  { intros es Hl Hn Hpv Hc Hcr He Hpp Ho.
    assert (Hd' : exists d', members d' = (pre ++ [p]) ++ e :: post /\ fst d' = fst d).
    { unfold members in Hm. destruct (pre ++ [p]) as [|h t] eqn:E; [by apply app_eq_nil in E as [_ ?]|].
      injection Hm as Eh _. exists (h, t ++ e :: post). split; [done|by rewrite Eh]. }
    destruct Hd' as (d' & Hm' & Hfst). exists d'. split_and!; [done| |done|done|rewrite Hfst; apply Hcr].
    eapply pool_values; [exact Hp|done|done|done| |done| |].
    - intros j Hj. destruct (link_other _ _ _ _ _ _ _ Hp j Hj) as [Hje Hjd]. apply Ho; [done|].
      by intros ->.
    - rewrite Hm'. eapply threaded_insert; [|rewrite <- Hm; exact Hnd|exact He|exact Hpp|exact Ho].
      rewrite <- Hm. apply (link_chain _ _ _ _ _ _ _ Hp).
    - apply (link_placed _ _ _ _ _ _ _ Hp). rewrite Hm, Hm'. solve_Permutation. }
  destruct post as [|c post]; cbn [firstOf].
  - destruct (updatePacket_ok s p vp (fun v => setNextFragment v (Some e)) Hvp) as (es & -> & Hl & Hu & Hn & Hpv).
    cbn [mbind result_bind]. eexists. split; [done|]. split; [done|]. split; [done|].
    destruct (fragOf_setNextFragment _ _ _ _ _ Hvp Hu) as [Hf1 Hf2].
    apply Hfinish; try done.
    + eapply contentOf_updated; [exact Hvp|exact Hu|done].
    + eapply createdOf_updated; [exact Hvp|exact Hu|done].
    + rewrite Hf2 by done. exact Hfe.
    + intros j Hje Hjp. by apply Hf2.
  - destruct (negb (moreFragments v)) eqn:Emore.
    { eexists. split_and!; [done|done| |done]. intros v' Hv' Hmo. rewrite Hv in Hv'. injection Hv' as <-. by rewrite Hmo in Emore. }
    destruct (updatePacket_ok s e v (fun v => setNextFragment v (Some c)) Hv) as (es1 & -> & Hl1 & Hu1 & Hn1 & Hp1).
    cbn [mbind result_bind].
    assert (Hvp1 : valueOf es1 p = Some vp) by (rewrite (proj2 Hu1); done).
    destruct (updatePacket_ok (withElements s es1) p vp (fun v => setNextFragment v (Some e)) Hvp1)
      as (es2 & -> & Hl2 & Hu2 & Hn2 & Hp2).
    cbn [mbind result_bind packetListElements withElements] in *.
    change (withElements (withElements s es1) es2) with (withElements s es2).
    eexists. split; [done|]. split; [done|]. split; [done|].
    destruct (fragOf_setNextFragment _ _ _ _ _ Hv Hu1) as [Hf1 Hg1].
    destruct (fragOf_setNextFragment _ _ _ _ _ Hvp1 Hu2) as [Hf2 Hg2].
    apply Hfinish; try done.
    + lia.
    + by eapply unchanged_trans.
    + by eapply unchanged_trans.
    + eapply unchanged_trans; [eapply contentOf_updated; [exact Hv|exact Hu1|done]|].
      eapply contentOf_updated; [exact Hvp1|exact Hu2|done].
    + eapply unchanged_trans; [eapply createdOf_updated; [exact Hv|exact Hu1|done]|].
      eapply createdOf_updated; [exact Hvp1|exact Hu2|done].
    + rewrite Hg2 by done. exact Hf1.
    + intros j Hje Hjp. by rewrite Hg2, Hg1.
Qed.

(** ** Inserting a fragment *)

Lemma readNext_ok s loose free before d after rdy :
  pool s loose free (before ++ d :: after) rdy ->
  readListPtr s (lastOf (heads before) None) = Ok (Some (fst d)).
Proof. intros Hp. by rewrite (readListPtr_ok _ _ _ _ _ _ Hp). Qed.

Lemma members_bound s loose free inc rdy d :
  pool s loose free inc rdy -> d ∈ inc ++ rdy -> (length (members d) <= N)%nat.
Proof.
  intros Hp Hd. pose proof (pool_placed _ _ _ _ _ Hp) as Hpl.
  rewrite <- allMembers_app in Hpl. apply list_elem_of_split in Hd as (l1 & l2 & E). rewrite E in Hpl.
  rewrite allMembers_app, allMembers_cons in Hpl.
  assert (Hq : placed (members d ++ (loose ++ free ++ allMembers l1 ++ allMembers l2))) by solve_placed Hpl.
  destruct Hq as [Hnd Hr]. apply NoDup_app in Hnd as (Hnd & _ & _). apply Forall_app in Hr as [Hr _].
  apply NoDup_bounded_length; [done|]. rewrite Forall_forall in Hr. exact Hr.
Qed.

Lemma inc_bound s loose free inc rdy : pool s loose free inc rdy -> (length inc <= N)%nat.
Proof.
  intros Hp. pose proof (pool_placed _ _ _ _ _ Hp) as Hpl.
  assert (Hq : placed (allMembers inc ++ (loose ++ free ++ allMembers rdy))) by solve_placed Hpl.
  destruct Hq as [Hnd Hr]. apply NoDup_app in Hnd as (Hnd & _ & _). apply Forall_app in Hr as [Hr _].
  assert (Hlen : (length inc <= length (allMembers inc))%nat).
  { clear. induction inc as [|d inc IH]; [done|]. rewrite allMembers_cons, length_app. cbn. lia. }
  enough (length (allMembers inc) <= N)%nat by lia. apply NoDup_bounded_length; [done|].
  rewrite Forall_forall in Hr. exact Hr.
Qed.

(** [poolInv s]: the lists of the state are well formed. *)
Definition poolInv (s : NetworkStackHandler) : Prop := exists free inc rdy, pool s [] free inc rdy.

Lemma pool_same s s' loose free inc rdy :
  packetListElements s' = packetListElements s -> packetDataBuffers s' = packetDataBuffers s ->
  unusedPacketsHead s' = unusedPacketsHead s ->
  incompleteFragmentedDatagramsHead s' = incompleteFragmentedDatagramsHead s ->
  readyToReadPacketsHead s' = readyToReadPacketsHead s ->
  readyToReadPacketsTail s' = readyToReadPacketsTail s ->
  pool s loose free inc rdy -> pool s' loose free inc rdy.
Proof. intros E1 E2 E3 E4 E5 E6 Hp. eapply pool_frame_next; [exact Hp|..]; try done; by rewrite E1. Qed.

Lemma poolInv_same s s' :
  packetListElements s' = packetListElements s -> packetDataBuffers s' = packetDataBuffers s ->
  unusedPacketsHead s' = unusedPacketsHead s ->
  incompleteFragmentedDatagramsHead s' = incompleteFragmentedDatagramsHead s ->
  readyToReadPacketsHead s' = readyToReadPacketsHead s ->
  readyToReadPacketsTail s' = readyToReadPacketsTail s -> poolInv s -> poolInv s'.
Proof. intros E1 E2 E3 E4 E5 E6 (free & inc & rdy & Hp). exists free, inc, rdy. by eapply pool_same. Qed.

Lemma insertIncomplete_ok s e free inc rdy :
  pool s [e] free inc rdy -> fragOf (packetListElements s) e = Some None ->
  nextOf (packetListElements s) e = Some None ->
  exists s', insertInIncompleteFragmentedDatagramsList N s e = Ok s' /\ poolInv s' /\ stable s s'.
Proof.
  intros Hp Hfe Hne. unfold insertInIncompleteFragmentedDatagramsList.
  pose proof (fragOf_valueOf _ _ _ Hfe) as (v & Hv & _).
  rewrite (getValue_ok _ _ _ Hv). cbn [mbind result_bind].
  destruct (findDatagram_ok (S (S N)) s v [e] free [] inc rdy Hp)
    as (s1 & free1 & before & after & Heq & Hp1 & Hs1 & Hk1); [pose proof (inc_bound _ _ _ _ _ Hp); lia|].
  change (lastOf (heads []) None) with (@None Z) in Heq. rewrite Heq.
  cbn [mbind result_bind]. rewrite (readListPtr_ok _ _ _ _ _ _ Hp1). cbn [mbind result_bind].
  assert (Hfe1 : fragOf (packetListElements s1) e = Some None) by by rewrite (sameValues_fragOf _ _ Hs1).
  assert (Hne1 : nextOf (packetListElements s1) e = Some None) by (rewrite Hk1 by (by left); done).
  destruct after as [|d after]; cbn [heads map firstOf].
  { (* a datagram of its own *)
    destruct (writeListPtr_ok s1 [e] [] free1 before [] [(e, [])] rdy Hp1) as (s2 & Hw & Hp2 & [Hst2 _] & _);
      [done|by apply Forall_singleton| |].
    - pose proof (pool_placed _ _ _ _ _ Hp1) as Hpl. rewrite app_nil_r in Hpl. rewrite allMembers_app.
      change (allMembers [(e, [])]) with [e]. solve_placed Hpl.
    - cbn [heads map firstOf fst] in Hw. rewrite Hw. eexists. split; [done|].
      split; [by exists free1, (before ++ [(e, [])]), rdy|]. by eapply stable_trans; [apply Hs1|]. }
  pose proof (link_chain _ _ _ _ _ _ _ Hp1) as Hchain.
  assert (Hlen : (length (members d) <= N)%nat).
  { apply (members_bound _ _ _ _ _ d Hp1). rewrite !elem_of_app. left; right. by left. }
  destruct (findFragmentPlace_ok (S (S N)) (packetListElements s1) (fragmentOffset v) [] (members d)
    (mkFragmentPlace None (Some (fst d)) true 0 0)) as (r & -> & Hr); [done|done|done|lia|].
  cbn [mbind result_bind]. destruct r as [pl|]; [|eexists; split; [done|]].
  2:{ split; [|apply Hs1]. exists free1, (before ++ d :: after), rdy. by eapply pool_forget. }
  destruct Hr as (pre & post & Hm & Hprev & Hcur). cbn [app] in Hm.
  assert (Hlinked : exists r, linkFragment s1 (lastOf (heads before) None) e pl = Ok r /\
    match r with None => True | Some s' => linkedIn s1 s' (fst d) e pre post free1 before after rdy end).
  { destruct pre as [|p pre _] using rev_ind.
    - cbn [app] in Hm. subst post.
      destruct (linkFragment_first s1 e free1 before d after rdy (lastOf (heads before) None) pl) as (r & Hr & _ & Hl); try done.
      by exists r.
    - rewrite lastOf_snoc in Hprev.
      destruct (linkFragment_inner s1 e free1 before d after rdy (lastOf (heads before) None) pl pre p post)
        as (r & Hr & _ & _ & Hl); try done. by exists r. }
  destruct Hlinked as (r & -> & Hr). cbn [mbind result_bind].
  destruct r as [s2|]; [|eexists; split; [done|]].
  2:{ split; [|apply Hs1]. exists free1, (before ++ d :: after), rdy. by eapply pool_forget. }
  destruct Hr as (d' & Hm' & Hp2 & Hst2 & _).
  assert (Hst : stable s s2) by (eapply stable_trans; [apply Hs1|exact Hst2]).
  pose proof (pool_chains _ _ _ _ _ Hp2) as Hc2. rewrite !Forall_app, Forall_cons in Hc2.
  destruct Hc2 as [(_ & Hcd' & _) _]. rewrite Hm' in Hcd'. apply threaded_app in Hcd' as [_ Hcd'].
  assert (Hlen' : (length (members d') <= N)%nat).
  { apply (members_bound _ _ _ _ _ d' Hp2). rewrite !elem_of_app. left; right. by left. }
  destruct (checkContiguous_ok (S (S N)) (packetListElements s2) (placeFull pl) (e :: post) (placePrevious pl)
    (placeOffset pl) (placeSize pl) Hcd') as ([[full current] previous] & Hcheck & Hprevious).
  { rewrite Hm', length_app in Hlen'. cbn in *. lia. }
  cbn [firstOf] in Hcheck. rewrite Hcheck. cbn [mbind result_bind].
  assert (Hkeep : poolInv s2) by by exists free1, (before ++ d' :: after), rdy.
  destruct (full && bool_decide (current = None)) eqn:Efull; [|by exists s2].
  apply andb_true_iff in Efull as [-> _].
  destruct Hprevious as [(lst & Hlst & ->)|[_ [?|?]]]; [|done..]. cbn [orFault mbind result_bind].
  destruct (valueOf_Some (packetListElements s2) lst) as [Hvl _]. destruct Hvl as [vl Hvl].
  { rewrite (pool_elements _ _ _ _ _ Hp2). apply (placed_range _ _ (pool_placed _ _ _ _ _ Hp2)).
    rewrite allMembers_app, allMembers_cons, Hm', !elem_of_app. right; right; left; right; left; right. exact Hlst. }
  rewrite (getValue_ok _ _ _ Hvl). cbn [mbind result_bind].
  destruct (negb (moreFragments vl)); [|by exists s2].
  rewrite (readNext_ok _ _ _ _ _ _ _ Hp2). cbn [mbind result_bind orFault].
  destruct (unlink_ok _ _ _ _ _ _ _ Hp2) as (n & s3 & -> & Hw & Hp3 & Hs3 & Ht3 & _).
  cbn [mbind result_bind]. rewrite Hw. cbn [mbind result_bind].
  destruct (ready_ok s3 d' [] free1 (before ++ after) rdy Hp3 Ht3) as (s4 & -> & Hp4 & [Hst4 _]).
  exists s4. split; [done|]. split; [by exists free1, (before ++ after), (rdy ++ [d'])|].
  destruct Hs3 as [Hs3 _]. exact (stable_trans _ _ _ (stable_trans _ _ _ Hst Hs3) Hst4).
Qed.

(** ** Receiving and reading packets *)

Lemma byteAt_ok data i : 0 <= i < zlength data -> exists b, byteAt data i = Ok b.
Proof. intros Hi. destruct (znth_lt_Some data i Hi) as [b Hb]. exists b. unfold byteAt. by rewrite Hb. Qed.

Lemma be16At_ok data i : 0 <= i -> i + 1 < zlength data -> exists w, be16At data i = Ok w /\ is_u16 w.
Proof.
  intros Hi Hl. unfold be16At. destruct (byteAt_ok data i ltac:(lia)) as [a ->].
  destruct (byteAt_ok data (i + 1) ltac:(lia)) as [b ->]. cbn [mbind result_bind].
  eexists. split; [done|]. apply is_u16_u16.
Qed.

Lemma be32At_ok data i : 0 <= i -> i + 3 < zlength data -> exists w, be32At data i = Ok w /\ is_u32 w.
Proof.
  intros Hi Hl. unfold be32At. destruct (byteAt_ok data i ltac:(lia)) as [a ->].
  destruct (byteAt_ok data (i + 1) ltac:(lia)) as [b ->]. destruct (byteAt_ok data (i + 2) ltac:(lia)) as [c ->].
  destruct (byteAt_ok data (i + 3) ltac:(lia)) as [d ->]. cbn [mbind result_bind].
  eexists. split; [done|]. apply is_u32_u32.
Qed.

(** Taking the first unused packet and filling it. *)
Lemma takePacket_ok s e free inc rdy v (buf : list Z) :
  pool s [] (e :: free) inc rdy -> nextFragment v = None -> zlength buf = RX_BUFFER_SIZE ->
  exists es1 es2, getNext (packetListElements s) e = Ok (firstOf free None) /\
    setNext (packetListElements s) e None = Ok es1 /\ setValue es1 e v = Ok es2 /\
    is_Some ((packetDataBuffers s).[e]) /\
    let s' := withBuffers (withElements (withUnused s (firstOf free None)) es2) (packetDataBuffers s).[e := buf] in
    pool s' [e] free inc rdy /\ fragOf es2 e = Some None /\ nextOf es2 e = Some None /\
    valueOf es2 e = Some v /\ (forall j, j <> e -> valueOf es2 j = valueOf (packetListElements s) j).
Proof.
  intros Hp Hv Hbuf. pose proof (pool_placed _ _ _ _ _ Hp) as Hpl. cbn [app] in Hpl.
  pose proof (placed_not_in [e] _ e Hpl ltac:(by left)) as Hni. rewrite !not_elem_of_app in Hni.
  destruct Hni as (Hf & Hi & Hr). destruct Hp as [P1 P2 P3 P4 P5 P6 P7 P8 P9 P10 P11 P12 P13 P14].
  destruct P4 as [Hn P4].
  assert (Her : 0 <= e < zlength (packetListElements s)) by (rewrite P1; apply (placed_range _ _ Hpl); by left).
  destruct (setNext_ok (packetListElements s) e None Her) as (es1 & H1 & Hl1 & Hu1 & Hv1 & Hp1).
  destruct (setValue_ok es1 e v) as (es2 & H2 & Hl2 & Hu2 & Hn2 & Hp2); [lia|].
  exists es1, es2. split_and!; [by apply getNext_ok|done|done| |].
  { destruct (znth_lt_Some (packetDataBuffers s) e) as [b Hb]; [lia|]. by exists b. }
  assert (Hnx : forall j, j <> e -> nextOf es2 j = nextOf (packetListElements s) j).
  { intros j Hj. rewrite Hn2. by apply Hu1. }
  assert (Hvx : forall j, j <> e -> valueOf es2 j = valueOf (packetListElements s) j).
  { intros j Hj. rewrite (proj2 Hu2) by done. by rewrite Hv1. }
  split_and!.
  - constructor; cbn [packetListElements packetDataBuffers unusedPacketsHead incompleteFragmentedDatagramsHead
      readyToReadPacketsHead readyToReadPacketsTail withElements withUnused withBuffers]; try done.
    + lia.
    + by rewrite zlength_zset.
    + intros i b. rewrite znth_zset. case_bool_decide; [by intros [= <-]|by apply P3].
    + eapply threaded_frame; [|exact P4]. intros j Hj. apply Hnx. by intros ->.
    + eapply threaded_frame; [|exact P6]. intros j Hj. apply Hnx. intros ->. by apply heads_sub in Hj.
    + eapply threaded_frame; [|exact P8]. intros j Hj. apply Hnx. intros ->. by apply heads_sub in Hj.
    + eapply backThreaded_unchanged; [|exact P9]. intros j. by rewrite Hp2, Hp1.
    + rewrite Forall_forall in *. intros d Hd. eapply threaded_frame; [|exact (P12 d Hd)].
      intros j Hj. unfold fragOf. rewrite Hvx; [done|]. intros ->.
      apply elem_of_app in Hd as [Hd|Hd]; [apply Hi|apply Hr]; apply elem_of_allMembers; by exists d.
  - unfold fragOf. rewrite (proj1 Hu2). cbn. by rewrite Hv.
  - rewrite Hn2. apply Hu1.
  - apply Hu2.
  - exact Hvx.
Qed.

Lemma overwrite_ok (buffer bytes : list Z) :
  zlength bytes <= zlength buffer ->
  exists b, overwrite buffer bytes = Ok b /\ zlength b = zlength buffer /\ take (length bytes) b = bytes.
Proof.
  intros Hl. unfold overwrite. destruct (Z.ltb_spec (zlength buffer) (zlength bytes)); [lia|].
  eexists. split; [done|]. split; [|by rewrite take_app_length].
  rewrite zlength_app. unfold zlength in *. rewrite length_drop. lia.
Qed.

Definition goodFrame (data : list Z) (dataLen : Z) : Prop :=
  14 <= dataLen <= zlength data /\ dataLen <= RX_BUFFER_SIZE /\ Forall is_u8 data.

Lemma incomingIPv4_ok s data dataLen :
  poolInv s -> goodFrame data dataLen ->
  exists s' t, incomingIPv4PacketHelper N s data dataLen = Ok (s', t) /\ poolInv s' /\ sameConfig s s'.
Proof.
  intros Hinv (Hlen & Hmax & Hu). unfold incomingIPv4PacketHelper, RX_BUFFER_SIZE in *.
  destruct (Z.ltb_spec dataLen 34); [by eexists _, _|].
  destruct (byteAt_ok data 14 ltac:(lia)) as [b14 Hb14]. rewrite Hb14. cbn [mbind result_bind].
  set (hl := u16 (Z.land b14 0xF)).
  destruct (_ || _); [by eexists _, _|].
  destruct (be32At_ok data 26) as (src & -> & _); [lia|lia|]. destruct (be32At_ok data 30) as (dst & -> & _); [lia|lia|].
  cbn [mbind result_bind]. destruct (_ && _); [by eexists _, _|].
  destruct (be16At_ok data 16) as (total & -> & Htotal); [lia|lia|]. cbn [mbind result_bind].
  unfold ETHERNET_SIMPLE_HEADER_SIZE.
  destruct (Z.ltb_spec total (hl * 4)); cbn [orb]; [by eexists _, _|].
  destruct (Z.ltb_spec dataLen (total + 14)); [by eexists _, _|].
  destruct Hinv as (free & inc & rdy & Hp).
  destruct (makeSure_ok s [] free inc rdy Hp) as (s1 & r & -> & [Hst1 _] & _ & Hr). cbn [mbind result_bind].
  destruct Hr as [[-> ->]|[-> (free1 & inc1 & Hne & Hp1)]].
  { eexists _, _. split; [done|]. split; [by exists free, inc, rdy|done]. }
  change (0 =? 1) with false. cbv iota. destruct free1 as [|e free1]; [done|].
  rewrite (pool_unused _ _ _ _ _ Hp1). cbn [firstOf orFault mbind result_bind].
  destruct (byteAt_ok data 20 ltac:(lia)) as [b20 Hb20]. destruct (byteAt_ok data 21 ltac:(lia)) as [b21 Hb21].
  destruct (be16At_ok data 18) as (ident & Hident & _); [lia|lia|].
  destruct (byteAt_ok data 23 ltac:(lia)) as [b23 Hb23].
  rewrite Hb20, Hb21, Hident, Hb23.
  set (more := 0 <? Z.land b20 0x20). set (offset := 8 * (Z.shiftl (Z.land b20 0x1F) 8 + b21)).
  set (v := mkIPv4Packet src dst (total - hl * 4) b23 more offset ident None (timerCounter (withUnused s1 (firstOf free1 None)))).
  set (bytes := take (Z.to_nat (total - hl * 4)) (drop (Z.to_nat (14 + hl * 4)) data)).
  destruct (znth_lt_Some (packetDataBuffers s1) e) as [buf0 Hbuf0].
  { rewrite (pool_buffers _ _ _ _ _ Hp1). apply (placed_range _ _ (pool_placed _ _ _ _ _ Hp1)). by left. }
  pose proof (pool_buffer _ _ _ _ _ Hp1 _ _ Hbuf0) as Hbl. unfold RX_BUFFER_SIZE in Hbl.
  assert (Hhl : 0 <= hl) by (apply Z.mod_pos_bound; lia).
  assert (Hbytes : zlength bytes <= zlength buf0).
  { unfold bytes. rewrite zlength_take; [lia|]. rewrite zlength_drop by lia. lia. }
  destruct (overwrite_ok buf0 bytes Hbytes) as (buf & Hover & Hbuf & _).
  destruct (takePacket_ok s1 e free1 inc1 rdy v buf Hp1 eq_refl) as (es1 & es2 & -> & Hes1 & Hes2 & _ & Hp2 & Hfe & Hne2 & _);
    [unfold RX_BUFFER_SIZE; lia|].
  cbn [mbind result_bind]. change (packetListElements (withUnused s1 (firstOf free1 None))) with (packetListElements s1).
  rewrite Hes1. cbn [mbind result_bind]. cbv zeta. fold more offset. fold v. rewrite Hes2. cbn [mbind result_bind].
  change (packetDataBuffers (withElements (withUnused s1 (firstOf free1 None)) es2)) with (packetDataBuffers s1).
  rewrite Hbuf0. cbn [mbind result_bind orFault]. fold bytes. rewrite Hover. cbn [mbind result_bind].
  cbn zeta in Hp2. set (s2 := withBuffers _ _) in *.
  assert (Hdone : exists s3, (if more || negb (offset =? 0) then insertInIncompleteFragmentedDatagramsList N s2 e
      else insertInReadyToReadPacketsList s2 e) = Ok s3 /\ poolInv s3 /\ stable s2 s3).
  { destruct (more || negb (offset =? 0)).
    - by apply (insertIncomplete_ok s2 e free1 inc1 rdy).
    - destruct (ready_ok s2 (e, []) [] free1 inc1 rdy) as (s3 & Hs3 & Hp3 & [Hst3 _]); [exact Hp2|by split|].
      exists s3. split; [exact Hs3|]. split; [by exists free1, inc1, (rdy ++ [(e, [])])|done]. }
  destruct Hdone as (s3 & -> & Hinv & Hst3). cbn [mbind result_bind]. eexists _, _. split; [done|]. split; [done|].
  unfold stable, sameConfig in *. destruct_and!. cbn in *. split_and!; congruence.
Qed.

Lemma popLatest_ok s : poolInv s -> exists s', popLatestIPv4Packet N s = Ok s' /\ poolInv s' /\ stable s s'.
Proof.
  intros (free & inc & rdy & Hp). unfold popLatestIPv4Packet. rewrite (pool_head _ _ _ _ _ Hp).
  destruct rdy as [|d rdy]; cbn [heads map firstOf].
  { exists s. split_and!; try done. by exists free, inc, []. }
  pose proof (pool_placed _ _ _ _ _ Hp) as Hpl. rewrite allMembers_cons in Hpl.
  pose proof (pool_rdy _ _ _ _ _ Hp) as [Hn Hrest]. rewrite (getNext_ok _ _ _ Hn). cbn [mbind result_bind].
  fold (heads rdy) in Hn, Hrest |- *.
  assert (Hd : fst d ∉ heads rdy).
  { assert (Hq : placed ([fst d] ++ (allMembers rdy ++ snd d ++ free ++ allMembers inc))) by (unfold members in Hpl; solve_placed Hpl).
    pose proof (placed_not_in _ _ (fst d) Hq ltac:(by left)) as Hni. intros ?%heads_sub. apply Hni, elem_of_app. by left. }
  assert (Htail : exchangeIf (readyToReadPacketsTail s) (Some (fst d)) None = lastOf (heads rdy) None).
  { rewrite (pool_tail _ _ _ _ _ Hp), heads_cons, lastOf_cons. unfold exchangeIf.
    destruct rdy as [|d' rdy' _] using rev_ind; [by rewrite bool_decide_true|].
    rewrite heads_app. cbn [heads map]. rewrite !lastOf_snoc. rewrite bool_decide_false; [done|].
    intros [= E]. apply Hd. rewrite heads_app, <- E. apply elem_of_app. right. by left. }
  rewrite Htail. unfold exchangeIf. rewrite bool_decide_true by done.
  assert (Hes : exists es, match firstOf (heads rdy) None with
      | Some h => setPrev (packetListElements s) h None | None => Ok (packetListElements s) end = Ok es /\
    zlength es = zlength (packetListElements s) /\ unchanged (valueOf (packetListElements s)) (valueOf es) /\
    unchanged (nextOf (packetListElements s)) (nextOf es) /\ backThreaded (prevOf es) None (heads rdy)).
  { pose proof (pool_back _ _ _ _ _ Hp) as [_ Hb]. fold (heads rdy) in Hb.
    destruct rdy as [|d' rdy']; [by exists (packetListElements s)|]. cbn [heads map firstOf].
    destruct (setPrev_ok (packetListElements s) (fst d') None) as (es & -> & Hl & Hu & Hv & Hnx).
    { rewrite (pool_elements _ _ _ _ _ Hp). apply (placed_range _ _ Hpl). rewrite allMembers_cons, !elem_of_app.
      do 4 right. left. by left. }
    exists es. split_and!; try done. rewrite heads_cons in Hb. destruct Hb as [_ Hb]. cbn [backThreaded].
    split; [apply Hu|]. eapply backThreaded_updated; [exact Hu| |exact Hb].
    assert (Hq : placed ([fst d'] ++ (allMembers rdy' ++ snd d' ++ members d ++ free ++ allMembers inc))).
    { rewrite allMembers_cons in Hpl. unfold members in Hpl at 2. solve_placed Hpl. }
    pose proof (placed_not_in _ _ (fst d') Hq ltac:(by left)) as Hni. intros ?%heads_sub. apply Hni, elem_of_app. by left. }
  destruct Hes as (es & -> & Hl & Hv & Hnx & Hback). cbn [mbind result_bind].
  set (s1 := withReady _ _ _).
  assert (Hp1 : pool s1 (members d ++ []) free inc rdy).
  { destruct Hp as [P1 P2 P3 P4 P5 P6 P7 P8 P9 P10 P11 P12 P13 P14]. unfold s1.
    assert (Hpl' : placed ((members d ++ []) ++ free ++ allMembers inc ++ allMembers rdy)) by solve_placed Hpl.
    constructor; cbn [packetListElements packetDataBuffers unusedPacketsHead incompleteFragmentedDatagramsHead
      readyToReadPacketsHead readyToReadPacketsTail withElements withReady]; try done.
    - lia.
    - by eapply threaded_unchanged.
    - by eapply threaded_unchanged.
    - by eapply threaded_unchanged.
    - rewrite !Forall_app, Forall_cons in P12. destruct P12 as (Hi & _ & Hr). rewrite Forall_app.
      split; (eapply Forall_impl; [eassumption|]; intros x; apply threaded_unchanged; intros j; unfold fragOf; by rewrite Hv).
    - apply Hpl'.
    - apply Hpl'. }
  destruct (release_ok s1 d [] free inc rdy Hp1) as (s2 & -> & Hp2 & [Hst _] & _).
  { pose proof (pool_chains _ _ _ _ _ Hp) as Hc. rewrite !Forall_app, Forall_cons in Hc.
    eapply threaded_unchanged; [|apply Hc]. intros j. unfold fragOf. cbn. by rewrite Hv. }
  exists s2. split_and!; [done|by exists (members d ++ free), inc, rdy|exact Hst].
Qed.
End pool.
