(* ===== verification/NetworkStackFacts.v ===== *)
(** What the network stack promises: it never faults and keeps its packet
    pool well formed, it measures time modulo the wrap-around of its counter,
    and it writes at most one frame to a write buffer. *)
From S2P Require Import Prelude Mem LinkedLists NetworkStackHandler NetworkStackPool.

(** ** Time *)

Definition tick (s : NetworkStackHandler) : NetworkStackHandler := incrementTimerCounter s.

Lemma tick_timer s :
  0 <= timerCounter s < 2 ^ 31 -> timerCounter (tick s) = (timerCounter s + 1) mod 2 ^ 31.
Proof.
  intros Ht. unfold tick, incrementTimerCounter, toInt, u32. cbn [withTimer timerCounter].
  rewrite (Z.mod_small _ (2 ^ 32)) by lia.
  destruct (Z.ltb_spec (timerCounter s + 1) (2 ^ 31)).
  - destruct (Z.ltb_spec (timerCounter s + 1) 0); [lia|]. by rewrite Z.mod_small by lia.
  - destruct (Z.ltb_spec (timerCounter s + 1 - 2 ^ 32) 0); [|lia].
    replace (timerCounter s + 1) with (1 * 2 ^ 31) by lia. by rewrite Z.mod_mul by lia.
Qed.

Lemma ticks_timer n s :
  0 <= timerCounter s < 2 ^ 31 ->
  timerCounter (Nat.iter n tick s) = (timerCounter s + Z.of_nat n) mod 2 ^ 31.
Proof.
  intros Ht. induction n as [|n IH]; cbn [Nat.iter nat_rect].
  - by rewrite Z.add_0_r, Z.mod_small.
  - rewrite tick_timer by (unfold Nat.iter in *; rewrite IH; apply Z.mod_pos_bound; lia).
    unfold Nat.iter in *. rewrite IH. rewrite Z.add_mod_idemp_l by lia. f_equal. lia.
Qed.

Lemma passedTimeSince_mod s t n :
  timerCounter s = (t + n) mod 2 ^ 31 -> 0 <= t < 2 ^ 31 -> 0 <= n < 2 ^ 31 -> passedTimeSince s t = n.
Proof. intros Hs Ht Hn. unfold passedTimeSince, INT_MAX, u32. rewrite Hs. bool_case; dlia. Qed.

(** The time measured since an earlier value of the timer counter is the
    number of ticks since then, also across the wrap-around of the counter, as
    long as there were fewer than [2^31] of them. *)
Theorem passedTimeSince_counts_ticks s n :
  0 <= timerCounter s < 2 ^ 31 -> Z.of_nat n < 2 ^ 31 ->
  passedTimeSince (Nat.iter n tick s) (timerCounter s) = Z.of_nat n.
Proof.
  intros Ht Hn. apply passedTimeSince_mod; [by apply ticks_timer|done|lia].
Qed.

Example passedTimeSince_counts_ticks_witness :
  passedTimeSince (Nat.iter 3 tick (withTimer (newNetworkStackHandler 1 1 1 [] 0 0 0) (2 ^ 31 - 2))) (2 ^ 31 - 2) = 3.
Proof.
  exact (passedTimeSince_counts_ticks (withTimer (newNetworkStackHandler 1 1 1 [] 0 0 0) (2 ^ 31 - 2)) 3
           ltac:(cbn; lia) ltac:(lia)).
Defined.

(** ** The handler never faults *)

Section safety.
Context (N TS LS : nat).

Record stackInv (s : NetworkStackHandler) : Prop := {
  inv_pool : poolInv N s;
  inv_arp : zlength (arpEntries s) = Z.of_nat TS * Z.of_nat LS;
  inv_macs : Forall (fun e => zlength (entryMAC e) = 6) (arpEntries s);
  inv_myMac : zlength (myMac s) = 6;
}.

Lemma sameConfig_inv s s' : stackInv s -> poolInv N s' -> sameConfig s s' -> stackInv s'.
Proof. intros [] Hp (E1 & E2 & _). by constructor; [|rewrite E1..|rewrite E2]. Qed.

Lemma slot_range ip i :
  (0 < TS)%nat -> 0 <= i < Z.of_nat LS ->
  0 <= ip mod Z.of_nat TS * Z.of_nat LS + i < Z.of_nat TS * Z.of_nat LS.
Proof. intros HT Hi. pose proof (Z.mod_pos_bound ip (Z.of_nat TS) ltac:(lia)). nia. Qed.

Lemma findArpEntry_ok n entries i ip :
  0 <= i -> i + Z.of_nat n <= zlength entries ->
  exists r, findArpEntry n entries i ip = Ok r /\
    match r with Some k => exists e, entries.[k] = Some e /\ entryIP e = ip | None => True end.
Proof.
  revert i. induction n as [|n IH]; intros i Hi Hn; cbn [findArpEntry]; [by eexists|].
  destruct (znth_lt_Some entries i ltac:(lia)) as [e He]. rewrite He. cbn [mbind result_bind orFault].
  destruct (Z.eqb_spec (entryIP e) ip); [exists (Some i); split; [done|by exists e]|]. apply IH; lia.
Qed.

Lemma zlength_take_drop (data : list Z) k n :
  0 <= k -> 0 <= n -> k + n <= zlength data -> zlength (take (Z.to_nat n) (drop (Z.to_nat k) data)) = n.
Proof. intros. rewrite zlength_take; [done|]. rewrite zlength_drop by lia. lia. Qed.

Lemma incomingARP_ok s data dataLen :
  (0 < TS)%nat -> stackInv s -> goodFrame data dataLen ->
  exists s' t, incomingARPPacketHelper TS LS s data dataLen = Ok (s', t) /\ stackInv s'.
Proof.
  intros HT Hs (Hlen & _ & Hu). unfold incomingARPPacketHelper.
  destruct (Z.ltb_spec dataLen 42); [by eexists _, _|].
  destruct (be16At_ok data 20) as (op & -> & _); [lia|lia|]. destruct (be16At_ok data 16) as (ty & -> & _); [lia|lia|].
  cbn [mbind result_bind]. destruct (ty =? 0x0800); [|by eexists _, _].
  destruct (op =? 2).
  - destruct (be32At_ok data 28) as (ip & -> & _); [lia|lia|]. cbn [mbind result_bind].
    destruct (findArpEntry_ok LS (arpEntries s) (ip mod Z.of_nat TS * Z.of_nat LS) ip) as (r & -> & Hr).
    { pose proof (Z.mod_pos_bound ip (Z.of_nat TS) ltac:(lia)). nia. }
    { rewrite (inv_arp _ Hs). pose proof (Z.mod_pos_bound ip (Z.of_nat TS) ltac:(lia)). nia. }
    cbn [mbind result_bind]. destruct r as [k|]; [|by eexists _, _].
    destruct Hr as (e & He & _). rewrite He. cbn [mbind result_bind orFault].
    eexists _, _. split; [done|]. destruct Hs as [I1 I2 I3 I4]. constructor; cbn; [by apply (poolInv_same N s)| | |done].
    + by rewrite zlength_zset.
    + apply zset_Forall; [done|]. cbn.
      apply (zlength_take_drop data 22 6); lia.
  - destruct (op =? 1); [|by eexists _, _].
    destruct (be32At_ok data 38) as (ip & -> & _); [lia|lia|]. cbn [mbind result_bind].
    destruct (negb _); by eexists _, _.
Qed.

Lemma handleIncoming_ok s data dataLen :
  (0 < TS)%nat -> stackInv s -> goodFrame data dataLen ->
  exists s' t, handleIncomingEthernetPacket N TS LS s data dataLen = Ok (s', t) /\ stackInv s'.
Proof.
  intros HT Hs Hf. unfold handleIncomingEthernetPacket.
  destruct (be16At_ok data 12) as (ty & -> & _); [lia|destruct Hf as (? & _); lia|]. cbn [mbind result_bind].
  destruct (ty =? 0x0806); [by apply incomingARP_ok|].
  destruct (ty =? 0x0800); [|by eexists _, _].
  destruct (incomingIPv4_ok N s data dataLen (inv_pool _ Hs) Hf) as (s' & t & Hrun & Hp & Hc).
  exists s', t. split; [done|]. by eapply sameConfig_inv.
Qed.

Lemma selectArpEntry_ok n s ip i a :
  0 <= i -> i + Z.of_nat n <= zlength (arpEntries s) ->
  match a with Some k => 0 <= k < zlength (arpEntries s) | None => True end ->
  exists r, selectArpEntry n s ip i a = Ok r /\
    match r with Some k => 0 <= k < zlength (arpEntries s) | None => True end.
Proof.
  revert i a. induction n as [|n IH]; intros i a Hi Hn Ha; cbn [selectArpEntry]; [by exists a|].
  assert (Hc : exists r, arpCandidate s ip i a = Ok r /\
    match r with inl k => 0 <= k < zlength (arpEntries s)
               | inr (Some k) => 0 <= k < zlength (arpEntries s) | inr None => True end).
  { unfold arpCandidate. destruct (znth_lt_Some (arpEntries s) i ltac:(lia)) as [e He]. rewrite He.
    cbn [mbind result_bind orFault]. destruct (entryIP e =? ip); [eexists; split; [reflexivity|cbn beta iota; lia]|].
    assert (Hch : exists chosen, (match a with None => Ok None
        | Some k => e ← (arpEntries s).[k] ?? OutOfRange; Ok (Some e) end) = Ok chosen).
    { destruct a as [k|]; [|by eexists]. destruct (znth_lt_Some (arpEntries s) k Ha) as [x Hx].
      rewrite Hx. by eexists. }
    destruct Hch as [chosen ->]. cbn [mbind result_bind].
    destruct (match chosen with None => true | Some x => negb (entryIP x =? 0) end);
      [|exists (inr a); split; [done|by destruct a]].
    repeat match goal with |- context [if ?b then _ else _] => destruct b end;
      first [exists (inr (Some i)); split; [reflexivity|lia] | exists (inr a); split; [reflexivity|by destruct a]]. }
  destruct Hc as (r & -> & Hr). cbn [mbind result_bind]. destruct r as [k|a']; [by eexists|].
  apply IH; [lia|lia|done].
Qed.

(** [resolveArp] keeps everything but the ARP table. *)
Lemma resolveArp_ok s ip :
  (0 < TS)%nat -> stackInv s ->
  exists s' r, resolveArp TS LS s ip = Ok (s', r) /\ stackInv s' /\
    packetListElements s' = packetListElements s /\ packetDataBuffers s' = packetDataBuffers s /\
    identificationCounter s' = identificationCounter s /\ myIP s' = myIP s /\ myMac s' = myMac s /\
    match r with inl e => zlength (entryMAC e) = 6 | inr (_, frame) => zlength frame <= 1514 end.
Proof.
  intros HT Hs. unfold resolveArp.
  destruct (selectArpEntry_ok LS s ip (ip mod Z.of_nat TS * Z.of_nat LS) None) as (r & -> & Hr); [| |done|].
  { pose proof (Z.mod_pos_bound ip (Z.of_nat TS) ltac:(lia)). nia. }
  { rewrite (inv_arp _ Hs). pose proof (Z.mod_pos_bound ip (Z.of_nat TS) ltac:(lia)). nia. }
  cbn [mbind result_bind]. destruct r as [k|]; [|by eexists _, _].
  destruct (znth_lt_Some (arpEntries s) k Hr) as [e He]. rewrite He. cbn [mbind result_bind orFault].
  pose proof (znth_Forall _ _ _ _ (inv_macs _ Hs) He) as Hmac. cbn beta in Hmac.
  set (e' := if negb (entryIP e =? ip) then mkARPEntry ip (-1) (-1) (-1) (entryMAC e) else e).
  assert (Hmac' : zlength (entryMAC e') = 6) by (unfold e'; by destruct (negb (entryIP e =? ip))).
  assert (Hst : forall x, zlength (entryMAC x) = 6 -> stackInv (withArpEntries s (arpEntries s).[k := x])).
  { intros x Hx. destruct Hs as [I1 I2 I3 I4]. constructor; cbn; [by apply (poolInv_same N s)| | |done].
    - by rewrite zlength_zset.
    - by apply zset_Forall. }
  assert (Hreq : zlength (sendARPRequest s ip) <= 1514).
  { unfold sendARPRequest. rewrite !zlength_app, (inv_myMac _ Hs). unfold zlength. cbn. lia. }
  repeat case_match; eexists _, _; (split; [reflexivity|]); split_and!; try reflexivity; try apply Hst; done || cbn; try lia; try done.
Qed.

Lemma zlength_fragmentFrame s mac dst proto ident off lf payload :
  zlength (myMac s) = 6 -> zlength mac = 6 ->
  zlength (fragmentFrame s mac dst proto ident off lf payload) = 34 + zlength payload.
Proof. intros H1 H2. unfold fragmentFrame. rewrite !zlength_app, H1, H2. unfold zlength. cbn. lia. Qed.

Lemma handleOutgoing_ok s m dst proto data dataLen ident off wnull :
  (0 < TS)%nat -> stackInv s ->
  exists s' r, handleOutgoingIPv4Packet TS LS s m dst proto data dataLen ident off wnull = Ok (s', r) /\
    stackInv s' /\ zlength (sendFrame r) <= 1514.
Proof.
  intros HT Hs. unfold handleOutgoingIPv4Packet.
  destruct (_ || _); [by eexists _, _|]. destruct (Z.leb_spec dataLen off); [by eexists _, _|].
  destruct (resolveArp_ok s (nextHop s dst) HT Hs) as (s1 & r & -> & Hs1 & _ & _ & _ & _ & Hm1 & Hr).
  cbn [mbind result_bind]. destruct r as [e|[pr frame]]; [|by eexists _, _].
  pose proof (inv_myMac _ Hs1) as Hmy1.
  destruct (off =? 0); cbv beta iota zeta; eexists _, _; (split; [reflexivity|]); split.
  - destruct Hs1 as [I1 I2 I3 I4]. constructor; cbn; [by apply (poolInv_same N s1)|done..].
  - cbn [sendFrame]. rewrite zlength_fragmentFrame by done. rewrite zlength_loadBytes.
    unfold ETHERNET_MTU, IPV4_MINIMAL_HEADER_SIZE. bool_case; lia.
  - done.
  - cbn [sendFrame]. rewrite zlength_fragmentFrame by done. rewrite zlength_loadBytes.
    unfold ETHERNET_MTU, IPV4_MINIMAL_HEADER_SIZE. bool_case; lia.
Qed.

(** What happens to a handler: frames arrive, datagrams are sent, packets are
    read, the timer ticks. *)
Inductive StackEvent :=
| Receive (data : list Z) (dataLen : Z)
| Send (m : Mem) (destinationIP protocol data dataLen identification fragmentOffset : Z) (writeBufferIsNull : bool)
| Pop
| Tick.

Definition stackStep (s : NetworkStackHandler) (ev : StackEvent) : result NetworkStackHandler :=
  match ev with
  | Receive data dataLen => fst <$> handleIncomingEthernetPacket N TS LS s data dataLen
  | Send m d p data len i o w => fst <$> handleOutgoingIPv4Packet TS LS s m d p data len i o w
  | Pop => popLatestIPv4Packet N s
  | Tick => Ok (incrementTimerCounter s)
  end.

Fixpoint runEvents (s : NetworkStackHandler) (evs : list StackEvent) : result NetworkStackHandler :=
  match evs with
  | [] => Ok s
  | ev :: evs => s ← stackStep s ev; runEvents s evs
  end.

Definition goodEvent (ev : StackEvent) : Prop :=
  match ev with Receive data dataLen => goodFrame data dataLen | _ => True end.

Lemma stackStep_ok s ev :
  (0 < TS)%nat -> stackInv s -> goodEvent ev -> exists s', stackStep s ev = Ok s' /\ stackInv s'.
Proof.
  intros HT Hs Hev. destruct ev as [data len|m d p data len i o w| |]; cbn [stackStep goodEvent] in *.
  - destruct (handleIncoming_ok s data len HT Hs Hev) as (s' & t & -> & Hs'). by exists s'.
  - destruct (handleOutgoing_ok s m d p data len i o w HT Hs) as (s' & r & -> & Hs' & _). by exists s'.
  - destruct (popLatest_ok N s (inv_pool _ Hs)) as (s' & -> & Hp & Hst). exists s'. split; [done|].
    eapply sameConfig_inv; [exact Hs|exact Hp|]. unfold stable, sameConfig in *. tauto.
  - eexists. split; [done|]. destruct Hs as [I1 I2 I3 I4]. constructor; cbn; [by apply (poolInv_same N s)|done..].
Qed.

(** A new handler's buffers are all unused. *)
Lemma new_pool mac ip gw mask :
  (0 < N)%nat -> pool N (newNetworkStackHandler N TS LS mac ip gw mask) [] (map Z.of_nat (seq 0 N)) [] [].
Proof.
  intros HN. unfold newNetworkStackHandler.
  assert (Hes : forall i, (i < N)%nat ->
    (map (newPacketListElement N) (seq 0 N)).[Z.of_nat i] = Some (newPacketListElement N i)).
  { intros i Hi. rewrite znth_map. unfold znth. destruct (Z.leb_spec 0 (Z.of_nat i)); [|lia].
    rewrite Nat2Z.id, lookup_seq_lt by lia. done. }
  assert (Hpl : placed N ([] ++ map Z.of_nat (seq 0 N) ++ allMembers [] ++ allMembers [])).
  { cbn [app allMembers map concat]. rewrite app_nil_r. split.
    - apply NoDup_fmap_2; [by intros x y ?%Nat2Z.inj|apply NoDup_seq].
    - apply Forall_forall. intros x Hx. apply list_elem_of_In, in_map_iff in Hx as (i & <- & Hi%in_seq). lia. }
  constructor; cbn [packetListElements packetDataBuffers unusedPacketsHead incompleteFragmentedDatagramsHead
    readyToReadPacketsHead readyToReadPacketsTail]; try done.
  - rewrite zlength_map. unfold zlength. by rewrite length_seq.
  - apply zlength_replicate.
  - intros i b Hb. pose proof (znth_Some_lt _ _ _ Hb) as Hi. rewrite zlength_replicate in Hi.
    rewrite znth_replicate in Hb by done. injection Hb as <-. reflexivity.
  - apply (threaded_range _ 0 N). intros i Hi. unfold nextOf. rewrite Hes by lia. unfold newPacketListElement.
    cbn [fmap option_fmap option_map next Nat.add]. f_equal. replace (i + 1)%nat with (S i) by lia.
    destruct (Nat.eqb_spec i (N - 1)), (Nat.eqb_spec (S i) N); lia || done.
  - destruct N; [lia|done].
  - apply Hpl.
  - apply Hpl.
Qed.

Lemma new_inv mac ip gw mask :
  (0 < N)%nat -> zlength mac = 6 -> stackInv (newNetworkStackHandler N TS LS mac ip gw mask).
Proof.
  intros HN Hmac. constructor; cbn; [|by rewrite zlength_replicate, Nat2Z.inj_mul| |done].
  - exists (map Z.of_nat (seq 0 N)), [], []. by apply new_pool.
  - apply Forall_forall. intros e He. apply elem_of_replicate in He as [-> _]. done.
Qed.

Lemma runEvents_ok s evs :
  (0 < TS)%nat -> stackInv s -> Forall goodEvent evs -> exists s', runEvents s evs = Ok s' /\ stackInv s'.
Proof.
  intros HT. revert s. induction evs as [|ev evs IH]; intros s Hs Hev; cbn [runEvents]; [by exists s|].
  apply Forall_cons in Hev as [He Hev]. destruct (stackStep_ok s ev HT Hs He) as (s1 & -> & Hs1).
  by apply IH.
Qed.

(** C11: from its construction on, whatever frames arrive (of any content, as
    long as they fit the receive buffer) and whatever is sent, read or timed
    in between, the handler follows no null or dangling pointer, reads and
    writes no buffer out of range, terminates, and keeps every packet buffer on
    at most one of its lists. *)
Theorem networkStack_never_faults mac ip gateway mask evs :
  (0 < N)%nat -> (0 < TS)%nat -> zlength mac = 6 -> Forall goodEvent evs ->
  exists s, runEvents (newNetworkStackHandler N TS LS mac ip gateway mask) evs = Ok s /\ stackInv s.
Proof. intros HN HT Hm Hev. apply runEvents_ok; [done|by apply new_inv|done]. Qed.

(** C40: sending writes at most one Ethernet frame of the largest size to the
    buffer, whatever the arguments. *)
Theorem handleOutgoing_frame_bound s m dst proto data dataLen ident off wnull :
  (0 < TS)%nat -> stackInv s ->
  exists s' r, handleOutgoingIPv4Packet TS LS s m dst proto data dataLen ident off wnull = Ok (s', r) /\
    zlength (sendFrame r) <= ETHERNET_MTU + ETHERNET_SIMPLE_HEADER_SIZE.
Proof.
  intros HT Hs. destruct (handleOutgoing_ok s m dst proto data dataLen ident off wnull HT Hs) as (s' & r & H & _ & Hb).
  by exists s', r.
Qed.
End safety.

(** The fragments of two datagrams, the second with its last fragment first,
    and a frame that is too short. *)
Definition sampleFragment (ident flags offset : Z) : list Z :=
  replicate 12 0 ++ [8; 0; 0x45; 0; 0; 28; 0; ident; flags; offset; 255; 17; 0; 0; 10; 0; 0; 2; 10; 0; 0; 1]
  ++ replicate 8 7.

Definition sampleEvents : list StackEvent :=
  [Receive (sampleFragment 1 0x20 0) 42; Tick; Receive (sampleFragment 2 0 1) 42;
   Receive (sampleFragment 2 0x20 0) 42; Receive (sampleFragment 1 0 1) 42; Pop;
   Receive (sampleFragment 3 0 0) 20; Send (fun _ => 0) 0x0A000002 17 8 100 0 0 false].

Lemma sampleEvents_good : Forall goodEvent sampleEvents.
Proof.
  unfold sampleEvents. repeat (apply Forall_cons; split); try done.
  all: cbn [goodEvent]; split_and!; try (unfold zlength; cbn; unfold RX_BUFFER_SIZE; lia).
  all: unfold sampleFragment; rewrite !Forall_app; split_and!; try (apply Forall_replicate; unfold is_u8; lia).
  all: repeat (apply Forall_cons; split); try apply Forall_nil; unfold is_u8; lia.
Qed.

Example networkStack_never_faults_witness :
  exists s, runEvents 3 2 2 (newNetworkStackHandler 3 2 2 [1; 2; 3; 4; 5; 6] 0x0A000001 0x0A0000FE 24) sampleEvents = Ok s /\
            stackInv 3 2 2 s.
Proof.
  apply (networkStack_never_faults 3 2 2); [lia|lia|done|apply sampleEvents_good].
Defined.

Example handleOutgoing_frame_bound_witness :
  let s := newNetworkStackHandler 3 2 2 [1; 2; 3; 4; 5; 6] 0x0A000001 0x0A0000FE 24 in
  exists s' r, handleOutgoingIPv4Packet 2 2 s (fun _ => 0) 0x0A000002 17 8 100 0 0 false = Ok (s', r) /\
    zlength (sendFrame r) <= ETHERNET_MTU + ETHERNET_SIMPLE_HEADER_SIZE.
Proof. apply (handleOutgoing_frame_bound 3 2 2); [lia|]. apply new_inv; [lia|done]. Defined.
