(* ===== verification/NetworkStackData.v ===== *)
(** What the network stack stores: the sizes recorded for received fragments
    fit the buffers, the buffers hold bytes, and so do the hardware addresses
    in the ARP table.  Readers of datagrams and senders of frames rely on it. *)
From S2P Require Import Prelude Mem LinkedLists NetworkStackHandler NetworkStackPool NetworkStackFacts.

Create HintDb stackdata.

Definition sizesOk (es : list (Element IPv4Packet)) : Prop :=
  Forall (fun e => 0 <= dataSize (value e) <= RX_BUFFER_SIZE) es.


Lemma updateElement_Forall {V} (P : Element V -> Prop) es i f es' :
  updateElement es i f = Ok es' -> (forall e, P e -> P (f e)) -> Forall P es -> Forall P es'.
Proof.
  unfold updateElement. intros H Hf HP. result_inv. apply zset_Forall; [done|]. apply Hf. by eapply znth_Forall.
Qed.

Lemma setNext_sizes es i p es' : setNext es i p = Ok es' -> sizesOk es -> sizesOk es'.
Proof. intros H. by eapply updateElement_Forall. Qed.

Lemma setPrev_sizes es i p es' : setPrev es i p = Ok es' -> sizesOk es -> sizesOk es'.
Proof. intros H. by eapply updateElement_Forall. Qed.

Lemma setValue_sizes es i v es' : setValue es i v = Ok es' -> 0 <= dataSize v <= RX_BUFFER_SIZE -> sizesOk es -> sizesOk es'.
Proof. intros H Hv. by eapply updateElement_Forall. Qed.

Lemma getValue_size es i v : getValue es i = Ok v -> sizesOk es -> 0 <= dataSize v <= RX_BUFFER_SIZE.
Proof.
  unfold getValue. intros H Hs. destruct (es.[i]) as [e|] eqn:E; [|done]. injection H as <-.
  exact (znth_Forall _ _ _ _ Hs E).
Qed.

#[export] Hint Resolve setNext_sizes setPrev_sizes setValue_sizes getValue_size : stackdata.

(** Buffers and addresses hold bytes. *)
Record dataOk (s : NetworkStackHandler) : Prop := {
  data_sizes : sizesOk (packetListElements s);
  data_buffers : Forall (Forall is_u8) (packetDataBuffers s);
  data_myMac : Forall is_u8 (myMac s);
  data_macs : Forall (fun e => Forall is_u8 (entryMAC e)) (arpEntries s);
}.

(** All but the list elements and heads is as before. *)
Lemma data_lists s s' :
  packetDataBuffers s' = packetDataBuffers s -> myMac s' = myMac s -> arpEntries s' = arpEntries s ->
  sizesOk (packetListElements s') -> dataOk s -> dataOk s'.
Proof. intros E1 E2 E3 Hs []. by constructor; rewrite ?E1, ?E2, ?E3. Qed.

Ltac data_lists s := apply (data_lists s); [done..| |done].

Section handler.
Context (N TS LS : nat).

Lemma threadFragments_data fuel : forall es i es' l,
  threadFragments fuel es i = Ok (es', l) -> sizesOk es -> sizesOk es'.
Proof.
  induction fuel as [|fuel IH]; intros es i es' l H Hs; cbn [threadFragments] in H; [done|]. result_inv.
  destruct (nextFragment a); [|by simplify_eq; eauto with stackdata]. eapply IH; [done|]. eauto with stackdata.
Qed.

Lemma release_data s f s' : insertFragmentedPacketsInUnusedPacketsList N s f = Ok s' -> dataOk s -> dataOk s'.
Proof.
  unfold insertFragmentedPacketsInUnusedPacketsList. destruct f as [f|]; [|by intros [= <-]]. intros H Hs. result_inv.
  destruct a as [es l]. result_inv. data_lists s. eapply setNext_sizes; [done|]. eapply threadFragments_data; [done|]. apply Hs.
Qed.

Lemma makeSure_data s s' r : makeSureUnusedPacketsHeadIsntNullptr N s = Ok (s', r) -> dataOk s -> dataOk s'.
Proof.
  unfold makeSureUnusedPacketsHeadIsntNullptr. destruct (unusedPacketsHead s); [by intros [= <- <-]|].
  destruct (incompleteFragmentedDatagramsHead s); [|by intros [= <- <-]]. intros H Hs. result_inv. simplify_eq.
  eapply release_data; [done|]. by data_lists s; apply Hs.
Qed.

Lemma insertReady_data s p s' : insertInReadyToReadPacketsList s p = Ok s' -> dataOk s -> dataOk s'.
Proof.
  unfold insertInReadyToReadPacketsList. intros H Hs. pose proof (data_sizes _ Hs). result_inv.
  destruct (readyToReadPacketsTail s); result_inv; data_lists s; cbn; eauto with stackdata.
Qed.

Lemma writeListPtr_data s ptr v s' : writeListPtr s ptr v = Ok s' -> dataOk s -> dataOk s'.
Proof.
  unfold writeListPtr. destruct ptr; intros H Hs; pose proof (data_sizes _ Hs); result_inv; data_lists s; cbn; eauto with stackdata.
Qed.

Lemma findDatagram_data fuel : forall s pNew ptr s' ptr',
  findDatagram N fuel s pNew ptr = Ok (s', ptr') -> dataOk s -> dataOk s'.
Proof.
  induction fuel as [|fuel IH]; intros s pNew ptr s' ptr' H Hs; cbn [findDatagram] in H; [done|]. result_inv.
  destruct a as [e|]; [|by simplify_eq]. result_inv. case_match; [|case_match; [by simplify_eq|by eapply IH]].
  result_inv. eapply IH; [done|]. eapply release_data; [done|]. by eapply writeListPtr_data.
Qed.

Lemma updatePacket_data s i f s' :
  updatePacket s i f = Ok s' -> (forall v, dataSize (f v) = dataSize v) -> dataOk s -> dataOk s'.
Proof.
  unfold updatePacket. intros H Hf Hs. result_inv. data_lists s. eapply setValue_sizes; [done| |apply Hs].
  rewrite Hf. eapply getValue_size; [done|apply Hs].
Qed.

Lemma linkFragment_data s ptr e pl s' : linkFragment s ptr e pl = Ok (Some s') -> dataOk s -> dataOk s'.
Proof.
  unfold linkFragment. intros H Hs. result_inv.
  destruct (placePrevious pl) as [p|], (placeCurrent pl) as [c|]; [case_match; [done|]| |case_match; [done|]|done]; result_inv;
    simplify_eq.
  - eapply updatePacket_data; [done|done|]. by eapply updatePacket_data.
  - by eapply updatePacket_data.
  - eapply writeListPtr_data; [done|].
    match goal with E : setNext (packetListElements ?s0) _ _ = Ok _ |- _ => assert (Hs2 : dataOk s0) end.
    { eapply updatePacket_data; [done|done|]. by eapply updatePacket_data. }
    match goal with E : setNext (packetListElements ?s0) _ _ = Ok _ |- _ => data_lists s0; cbn; eapply setNext_sizes; [exact E|apply Hs2] end.
Qed.

Lemma insertIncomplete_data s e s' : insertInIncompleteFragmentedDatagramsList N s e = Ok s' -> dataOk s -> dataOk s'.
Proof.
  unfold insertInIncompleteFragmentedDatagramsList. intros H Hs. result_inv. destruct a0 as [s1 ptr]. result_inv.
  match goal with E : findDatagram _ _ _ _ _ = _ |- _ => apply findDatagram_data in E as H1; [|done] end.
  destruct a0 as [p|]; [|by eapply writeListPtr_data]. result_inv. destruct a0 as [pl|]; [|by simplify_eq]. result_inv.
  destruct a0 as [s2|]; [|by simplify_eq].
  match goal with E : linkFragment _ _ _ _ = _ |- _ => apply linkFragment_data in E as H2; [|done] end.
  result_inv. destruct a0 as [[full current] previous]. case_match; [|by simplify_eq]. result_inv.
  case_match; [|by simplify_eq]. result_inv. eapply insertReady_data; [done|]. by eapply writeListPtr_data.
Qed.

Lemma popLatest_data s s' : popLatestIPv4Packet N s = Ok s' -> dataOk s -> dataOk s'.
Proof.
  unfold popLatestIPv4Packet. destruct (readyToReadPacketsHead s); [|by intros [= <-]]. intros H Hs. result_inv.
  eapply release_data; [done|]. data_lists s. cbn. case_match; result_inv; [|apply Hs]. eapply setPrev_sizes; [done|apply Hs].
Qed.
End handler.

Section incoming.
Context (N TS LS : nat).

Lemma incomingARP_data s data dataLen s' t :
  incomingARPPacketHelper TS LS s data dataLen = Ok (s', t) -> Forall is_u8 data -> dataOk s -> dataOk s'.
Proof.
  unfold incomingARPPacketHelper. intros H Hu Hs. case_match; [by simplify_eq|]. result_inv.
  case_match; [|by simplify_eq]. case_match.
  - result_inv. case_match; [|by simplify_eq]. result_inv. simplify_eq. destruct Hs as [D1 D2 D3 D4].
    constructor; try done. cbn. apply zset_Forall; [done|]. cbn. by apply Forall_take, Forall_drop.
  - case_match; [|by simplify_eq]. result_inv. case_match; by simplify_eq.
Qed.

Lemma overwrite_u8 buffer bytes b : overwrite buffer bytes = Ok b -> Forall is_u8 buffer -> Forall is_u8 bytes -> Forall is_u8 b.
Proof.
  unfold overwrite. case_match; [done|]. intros [= <-] H1 H2. apply Forall_app. split; [done|]. by apply Forall_drop.
Qed.

Lemma incomingIPv4_data s data dataLen s' t :
  incomingIPv4PacketHelper N s data dataLen = Ok (s', t) -> goodFrame data dataLen -> dataOk s -> dataOk s'.
Proof.
  unfold incomingIPv4PacketHelper. intros H (Hlen & Hmax & Hu) Hs. case_match; [by simplify_eq|]. result_inv.
  case_match; [by simplify_eq|]. result_inv. case_match; [by simplify_eq|]. result_inv.
  case_match eqn:Hsize; [by simplify_eq|]. result_inv. destruct a3 as [s1 failed].
  match goal with E : makeSureUnusedPacketsHeadIsntNullptr _ _ = _ |- _ => apply makeSure_data in E as Hs1; [|done] end.
  case_match; [by simplify_eq|]. result_inv. simplify_eq. bool_hyps.
  pose proof (Z.mod_pos_bound (Z.land a 0xF) (2 ^ 16) ltac:(lia)) as Hhl. fold (u16 (Z.land a 0xF)) in Hhl.
  unfold ETHERNET_SIMPLE_HEADER_SIZE, RX_BUFFER_SIZE in *. destruct Hs1 as [D1 D2 D3 D4].
  match goal with E : context [insertInIncompleteFragmentedDatagramsList _ ?s2 _] |- dataOk ?s3 =>
    assert (Hs2 : dataOk s2); [|case_match; [by eapply insertIncomplete_data|by eapply insertReady_data]] end.
  constructor; cbn; try done.
  - eapply setValue_sizes; [done| |]; [cbn; unfold RX_BUFFER_SIZE; lia|]. eapply setNext_sizes; [done|exact D1].
  - apply zset_Forall; [done|]. eapply overwrite_u8; [done| |].
    + match goal with E : (packetDataBuffers _).[_] = Some _ |- _ => exact (znth_Forall _ _ _ _ D2 E) end.
    + by apply Forall_take, Forall_drop.
Qed.

Lemma handleIncoming_data s data dataLen s' t :
  handleIncomingEthernetPacket N TS LS s data dataLen = Ok (s', t) -> goodFrame data dataLen -> dataOk s -> dataOk s'.
Proof.
  unfold handleIncomingEthernetPacket. intros H Hg Hs. result_inv. case_match; [eapply incomingARP_data; [done|apply Hg|done]|].
  case_match; [by eapply incomingIPv4_data|by simplify_eq].
Qed.

(** ** Outgoing frames *)

Lemma addressBytes_u8 ip : Forall is_u8 (addressBytes ip).
Proof. unfold addressBytes. repeat (apply Forall_cons; split); try (by apply Forall_nil); apply is_u8_u8. Qed.

Lemma replicate_u8 n x : is_u8 x -> Forall is_u8 (replicate n x).
Proof. intros. by apply Forall_replicate. Qed.

Ltac bytes := repeat first [ apply Forall_app; split | apply Forall_cons; split | apply Forall_nil; done | apply addressBytes_u8
  | apply is_u8_u8 | apply replicate_u8 | assumption | by vm_compute ].

Lemma sendARPRequest_u8 s ip : dataOk s -> Forall is_u8 (sendARPRequest s ip).
Proof. intros [_ _ Hm _]. unfold sendARPRequest. bytes. Qed.

Lemma arpReply_u8 s req w r : handleOutgoingArpReply s req w = Ok r -> Forall is_u8 req -> dataOk s -> Forall is_u8 r.
Proof.
  unfold handleOutgoingArpReply. destruct w; [by intros [= <-]|]. intros H Hr [_ _ Hm _]. result_inv.
  assert (Forall is_u8 (take 6 (drop 22 req))) by (by apply Forall_take, Forall_drop). bytes.
Qed.

Lemma resolveArp_data s ip s' r :
  resolveArp TS LS s ip = Ok (s', r) -> dataOk s ->
  dataOk s' /\ match r with inl e => Forall is_u8 (entryMAC e) | inr (_, frame) => Forall is_u8 frame end.
Proof.
  unfold resolveArp. intros H Hs. result_inv. destruct a as [k|]; [|by simplify_eq]. result_inv.
  pose proof (sendARPRequest_u8 s ip Hs) as Hreq. destruct Hs as [D1 D2 D3 D4].
  match goal with E : (arpEntries s).[k] = Some _ |- _ => pose proof (znth_Forall _ _ _ _ D4 E) as Hmac end. cbn beta in Hmac.
  set (e := if negb (entryIP a =? ip) then _ else _) in H.
  assert (He : Forall is_u8 (entryMAC e)) by (unfold e; by destruct (negb _)).
  assert (Hff : Forall is_u8 (replicate 6 0xFF)) by (apply replicate_u8; by vm_compute).
  clearbody e. repeat case_match; simplify_eq; (split; [constructor; try done; cbn; apply zset_Forall; done|]);
    first [done | by apply Forall_nil].
Qed.

Lemma byteMem_load m a n : byteMem m -> Forall is_u8 (loadBytes m a n).
Proof. intros Hm. revert a. induction n as [|n IH]; intros a; cbn [loadBytes]; [by apply Forall_nil|]. apply Forall_cons. by split. Qed.

Lemma handleOutgoing_data s m dst proto data dataLen ident off w s' r :
  handleOutgoingIPv4Packet TS LS s m dst proto data dataLen ident off w = Ok (s', r) ->
  dataOk s -> byteMem m -> is_u8 proto -> dataOk s' /\ Forall is_u8 (sendFrame r).
Proof.
  unfold handleOutgoingIPv4Packet. intros H Hs Hm Hp. case_match; [by simplify_eq|]. case_match; [by simplify_eq|].
  result_inv. destruct a as [s1 x]. match goal with E : resolveArp _ _ _ _ = _ |- _ => apply resolveArp_data in E as [Hs1 Hx]; [|done] end.
  destruct x as [e|[pr frame]]; [|by simplify_eq]. pose proof Hs1 as [D1 D2 D3 D4].
  destruct (off =? 0); simplify_eq; (split; [by constructor|]); cbn [sendFrame]; unfold fragmentFrame; bytes; by apply byteMem_load.
Qed.
End incoming.

Section lifetime.
Context (N TS LS : nat).

Lemma tick_data s : dataOk s -> dataOk (incrementTimerCounter s).
Proof. intros []. by constructor. Qed.

Lemma new_data mac ip gateway mask : Forall is_u8 mac -> dataOk (newNetworkStackHandler N TS LS mac ip gateway mask).
Proof.
  intros Hm. unfold newNetworkStackHandler.
  constructor; cbn [packetListElements packetDataBuffers myMac arpEntries]; [| |done|].
  - unfold sizesOk. apply Forall_map, Forall_forall. intros i _. cbn. unfold RX_BUFFER_SIZE. lia.
  - apply Forall_replicate, replicate_u8. by vm_compute.
  - apply Forall_replicate. cbn [entryMAC]. apply replicate_u8. by vm_compute.
Qed.
End lifetime.

(** The state of a stack handler: its lists and tables, and the data in them. *)
Definition stackOk (N TS LS : nat) (s : NetworkStackHandler) : Prop := stackInv N TS LS s /\ dataOk s.
