(* ===== verification/Reassembly.v ===== *)
(** Reassembly: the fragments of a datagram, arriving in any order, are put
    together to the datagram that was sent. *)
From S2P Require Import Prelude Mem LinkedLists NetworkStackHandler NetworkStackPool NetworkStackFacts.

(** ** Fragments *)

Record Fragment := mkFragment {
  fragOffset : Z;
  fragMore : bool;
  fragBytes : list Z;
}.

#[export] Instance Fragment_eq_dec : EqDecision Fragment.
Proof. solve_decision. Defined.

Definition fragSize (f : Fragment) : Z := zlength (fragBytes f).

(** [fs] are the parts of a datagram from offset [o] on, in order. *)
Fixpoint splitFrom (o : Z) (fs : list Fragment) : Prop :=
  match fs with
  | [] => False
  | f :: fs =>
      fragOffset f = o /\ 0 < fragSize f /\
      match fs with
      | [] => fragMore f = false
      | _ => fragMore f = true /\ splitFrom (o + fragSize f) fs
      end
  end.

Definition payloadOf (fs : list Fragment) : list Z := concat (map fragBytes fs).

(** The test the handler makes: contiguous from offset [o] on. *)
Fixpoint scan (st : bool * Z * Z) (fs : list Fragment) : bool * Z * Z :=
  match fs with
  | [] => st
  | f :: fs => let '(full, o, n) := st in scan (full && (fragOffset f =? o + n), fragOffset f, fragSize f) fs
  end.

Definition complete (fs : list Fragment) : bool :=
  let '(full, _, _) := scan (true, 0, 0) fs in
  full && match last fs with Some f => negb (fragMore f) | None => false end.

Lemma scan_app st fs1 fs2 : scan st (fs1 ++ fs2) = scan (scan st fs1) fs2.
Proof. revert st. induction fs1 as [|f fs1 IH]; intros [[full o] n]; [done|]. cbn [app scan]. apply IH. Qed.

Lemma scan_false o n fs : fst (fst (scan (false, o, n) fs)) = false.
Proof. revert o n. induction fs as [|f fs IH]; intros o n; [done|]. apply IH. Qed.

Lemma splitFrom_ne o fs : splitFrom o fs -> fs <> [].
Proof. by destruct fs. Qed.

Lemma splitFrom_offsets o fs f : splitFrom o fs -> In f fs -> o <= fragOffset f.
Proof.
  revert o. induction fs as [|g fs IH]; intros o Hs Hf; [done|]. destruct Hs as (Ho & Hn & Hs).
  destruct Hf as [->|Hf]; [lia|]. destruct fs as [|g' fs]; [done|]. destruct Hs as [_ Hs].
  pose proof (IH _ Hs Hf). lia.
Qed.

(** Fragments around a given one. *)
Lemma splitFrom_around o p f q :
  splitFrom o (p ++ f :: q) ->
  Forall (fun g => fragOffset g < fragOffset f /\ fragMore g = true) p /\
  Forall (fun g => fragOffset f < fragOffset g) q /\ (q <> [] -> fragMore f = true).
Proof.
  revert o. induction p as [|g p IH]; intros o Hs; cbn [app] in Hs.
  - destruct Hs as (Ho & Hn & Hs). split; [by constructor|]. destruct q as [|g q]; [by split; [constructor|]|].
    destruct Hs as [Hm Hs]. split; [|done]. apply List.Forall_forall. intros x Hx.
    pose proof (splitFrom_offsets _ _ x Hs Hx). lia.
  - destruct Hs as (Ho & Hn & Hs). destruct (p ++ f :: q) as [|x l] eqn:E; [by destruct p|]. destruct Hs as [Hm Hs].
    rewrite <- E in Hs, IH. destruct (IH _ Hs) as (H1 & H2 & H3). split_and!; [|done..].
    constructor; [|done]. split; [|done].
    pose proof (splitFrom_offsets _ _ f Hs ltac:(apply in_app_iff; right; by left)). lia.
Qed.

Lemma splitFrom_NoDup o fs : splitFrom o fs -> NoDup fs.
Proof.
  revert o. induction fs as [|f fs IH]; intros o Hs; [constructor|].
  destruct (splitFrom_around o [] f fs Hs) as (_ & Hq & _). constructor.
  - intros Hin. rewrite Forall_forall in Hq. specialize (Hq f Hin). lia.
  - destruct Hs as (_ & _ & Hs). destruct fs as [|g fs]; [constructor|]. by apply (IH _ (proj2 Hs)).
Qed.

(** A part of the fragments that passes the test is all of them. *)
Lemma scan_prefix o fs rs :
  splitFrom o fs -> sublist rs fs -> forall o' n, o' + n = o -> fst (fst (scan (true, o', n) rs)) = true ->
  exists ts, fs = rs ++ ts.
Proof.
  intros Hs Hsub. revert o Hs. induction Hsub as [|f rs fs Hsub IH|f rs fs Hsub IH]; intros o Hs o' n Ho Hscan.
  - done.
  - destruct Hs as (Hof & Hn & Hs). cbn [scan] in Hscan. rewrite Hof, <- Ho, Z.eqb_refl in Hscan. cbn [andb] in Hscan.
    destruct fs as [|g fs].
    + apply sublist_nil_r in Hsub as ->. by exists [].
    + destruct Hs as [_ Hs]. destruct (IH _ Hs _ _ eq_refl) as [ts ->]; [by rewrite <- Ho|]. by exists ts.
  - destruct rs as [|g rs]; [by exists (f :: fs)|]. exfalso.
    destruct (splitFrom_around o [] f fs Hs) as (_ & Hq & _). destruct Hs as (Hof & _ & _).
    rewrite Forall_forall in Hq. specialize (Hq g). cbn [scan] in Hscan.
    destruct (Z.eqb_spec (fragOffset g) (o' + n)); [|by rewrite scan_false in Hscan].
    assert (g ∈ fs) by (eapply (elem_of_sublist); [by left|exact Hsub]). specialize (Hq H). lia.
Qed.

Lemma scan_split o fs : splitFrom o fs -> forall o' n, o' + n = o -> fst (fst (scan (true, o', n) fs)) = true.
Proof.
  revert o. induction fs as [|f fs IH]; intros o Hs o' n Ho; [done|]. destruct Hs as (Hof & Hn & Hs). cbn [scan].
  rewrite Hof, <- Ho, Z.eqb_refl. destruct fs as [|g fs]; [done|]. apply (IH _ (proj2 Hs)). lia.
Qed.

Lemma splitFrom_last o fs f : splitFrom o fs -> f ∈ fs -> fragMore f = false -> last fs = Some f.
Proof.
  intros Hs Hin Hm. apply list_elem_of_split in Hin as (p & q & E). rewrite E in Hs |- *.
  destruct (splitFrom_around _ _ _ _ Hs) as (_ & _ & Hq). destruct q as [|g q]; [by rewrite last_snoc|].
  rewrite Hq in Hm; done.
Qed.

Lemma splitFrom_last_more o fs : splitFrom o fs -> exists f, last fs = Some f /\ fragMore f = false.
Proof.
  revert o. induction fs as [|f fs IH]; intros o Hs; [done|]. destruct Hs as (_ & _ & Hs).
  destruct fs as [|g fs]; [by exists f|]. destruct (IH _ (proj2 Hs)) as (x & Hx & Hm). exists x. by rewrite last_cons, Hx.
Qed.

Lemma complete_iff fs rs : splitFrom 0 fs -> sublist rs fs -> complete rs = true <-> rs = fs.
Proof.
  intros Hs Hsub. unfold complete. destruct (scan (true, 0, 0) rs) as [[full o] n] eqn:E. split.
  - intros [Hfull Hlast]%andb_true_iff. destruct (scan_prefix 0 fs rs Hs Hsub 0 0 eq_refl) as [ts Hts]; [by rewrite E|].
    destruct (last rs) as [f|] eqn:El; [|done]. apply negb_true_iff in Hlast.
    assert (Hf : f ∈ rs) by by apply last_Some_elem_of.
    apply list_elem_of_split in Hf as (p & q & ->). rewrite Hts in Hs. rewrite <- app_assoc in Hs. cbn [app] in Hs.
    destruct (splitFrom_around _ _ _ _ Hs) as (_ & _ & Hq). destruct (q ++ ts) as [|x l] eqn:Eq.
    + apply app_eq_nil in Eq as [-> ->]. by rewrite app_nil_r in Hts.
    + rewrite Hq in Hlast; done.
  - intros ->. pose proof (scan_split 0 fs Hs 0 0 eq_refl) as Hf. rewrite E in Hf. cbn in Hf. rewrite Hf.
    destruct (splitFrom_last_more 0 fs Hs) as (f & -> & Hm). by rewrite Hm.
Qed.

(** ** What the insertion does, exactly *)

Section exact.
Context (N : nat).

Definition Key : Type := Z * Z * Z.
Definition packetKey (v : IPv4Packet) : Key := (sourceIP v, destIP v, identification v).
Definition keyOf (es : list (Element IPv4Packet)) (i : Z) : option Key := packetKey <$> contentOf es i.

Lemma keyOf_value es i v : valueOf es i = Some v -> keyOf es i = Some (packetKey v).
Proof. intros H. unfold keyOf, contentOf. by rewrite H. Qed.

Lemma keyOf_unchanged es es' i : unchanged (contentOf es) (contentOf es') -> keyOf es' i = keyOf es i.
Proof. intros H. unfold keyOf. by rewrite H. Qed.

Lemma sameKey_spec a b :
  (sourceIP a =? sourceIP b) && (destIP a =? destIP b) && (identification a =? identification b) = true <->
  packetKey b = packetKey a.
Proof.
  rewrite !andb_true_iff, !Z.eqb_eq. unfold packetKey. split; [intros [[-> ->] ->]; done|intros [= -> -> ->]; done].
Qed.

Definition noKey (s : NetworkStackHandler) (k : Key) (ds : list Datagram) : Prop :=
  Forall (fun d => keyOf (packetListElements s) (fst d) <> Some k) ds.

Lemma noKey_same s s' k ds : unchanged (contentOf (packetListElements s)) (contentOf (packetListElements s')) ->
  noKey s k ds -> noKey s' k ds.
Proof. intros H Hk. eapply Forall_impl; [exact Hk|]. intros d. by rewrite (keyOf_unchanged _ _ _ H). Qed.

Lemma datagram_value s loose free before d after rdy :
  pool N s loose free (before ++ d :: after) rdy -> exists v, valueOf (packetListElements s) (fst d) = Some v.
Proof.
  intros Hp. apply valueOf_Some. rewrite (pool_elements _ _ _ _ _ _ Hp).
  apply (placed_range _ _ _ (pool_placed _ _ _ _ _ _ Hp)). rewrite !elem_of_app, allMembers_app, elem_of_app.
  right; right; left; right. by left.
Qed.

(** A datagram of another key is dropped or skipped. *)
Lemma findDatagram_step fuel s pNew loose free before d after rdy :
  pool N s loose free (before ++ d :: after) rdy ->
  keyOf (packetListElements s) (fst d) <> Some (packetKey pNew) ->
  exists s1 free1 before1,
    findDatagram N (S fuel) s pNew (lastOf (heads before) None) = findDatagram N fuel s1 pNew (lastOf (heads before1) None) /\
    pool N s1 loose free1 (before1 ++ after) rdy /\ sameValues s s1 /\ keepsNext loose s s1 /\
    (before1 = before \/ before1 = before ++ [d]) /\ (length free <= length free1)%nat.
Proof.
  intros Hp Hk. destruct (datagram_value _ _ _ _ _ _ _ Hp) as [v Hv].
  cbn [findDatagram]. rewrite (readListPtr_ok _ _ _ _ _ _ _ Hp). cbn [mbind result_bind heads map firstOf].
  rewrite (getValue_ok _ _ _ Hv). cbn [mbind result_bind].
  destruct (FRAGMENT_TIMEOUT <? passedTimeSince s (createdTime v)).
  - destruct (unlink_ok _ _ _ _ _ _ _ _ Hp) as (n & s1 & -> & Hw & Hp1 & Hs1 & Ht & Hk1). cbn [mbind result_bind].
    rewrite Hw. cbn [mbind result_bind].
    destruct (release_ok _ s1 d loose free (before ++ after) rdy Hp1 Ht) as (s2 & -> & Hp2 & Hs2 & Hk2).
    cbn [mbind result_bind]. exists s2, (members d ++ free), before. split_and!; try done.
    + by eapply sameValues_trans.
    + by eapply keepsNext_trans.
    + by left.
    + rewrite length_app. lia.
  - rewrite (keyOf_value _ _ _ Hv) in Hk. destruct (_ && _ && _) eqn:E; [apply sameKey_spec in E; congruence|].
    exists s, free, (before ++ [d]). rewrite heads_app. cbn [heads map]. rewrite lastOf_snoc. split_and!; try done.
    + by rewrite <- app_assoc.
    + by right.
Qed.

(** Without a datagram of the key, the search ends at the end. *)
Lemma findDatagram_none fuel s pNew loose free before after rdy :
  pool N s loose free (before ++ after) rdy -> (length after < fuel)%nat -> noKey s (packetKey pNew) after ->
  exists s' free' mid, findDatagram N fuel s pNew (lastOf (heads before) None) = Ok (s', lastOf (heads (before ++ mid)) None) /\
    pool N s' loose free' (before ++ mid) rdy /\ sameValues s s' /\ keepsNext loose s s' /\
    sublist mid after /\ (length free <= length free')%nat.
Proof.
  revert s free before after. induction fuel as [|fuel IH]; intros s free before after Hp Hf Hk; [lia|].
  destruct after as [|d after].
  { exists s, free, []. rewrite app_nil_r in *. split_and!; try done.
    cbn [findDatagram]. rewrite <- (app_nil_r before) in Hp. by rewrite (readListPtr_ok _ _ _ _ _ _ _ Hp). }
  apply Forall_cons in Hk as [Hkd Hk].
  destruct (findDatagram_step fuel s pNew loose free before d after rdy Hp Hkd) as (s1 & free1 & before1 & -> & Hp1 & Hs1 & Hn1 & Hb & Hl1).
  destruct (IH s1 free1 before1 after Hp1) as (s2 & free2 & mid & -> & Hp2 & Hs2 & Hn2 & Hsub & Hl2);
    [cbn in Hf; lia|eapply noKey_same; [apply contentOf_unchanged, Hs1|done]|].
  assert (Hmid : exists mid', before1 ++ mid = before ++ mid' /\ sublist mid' (d :: after)).
  { destruct Hb as [-> | ->]; [exists mid|exists (d :: mid); rewrite <- app_assoc]; (split; [done|by constructor]). }
  destruct Hmid as (mid' & E & Hsub'). rewrite E in *. exists s2, free2, mid'. split_and!; try done.
  - by eapply sameValues_trans.
  - by eapply keepsNext_trans.
  - lia.
Qed.

(** A datagram of the key that has not timed out is found. *)
Lemma findDatagram_found fuel s pNew loose free before b d after rdy t :
  pool N s loose free (before ++ b ++ d :: after) rdy -> (length b < fuel)%nat -> noKey s (packetKey pNew) b ->
  keyOf (packetListElements s) (fst d) = Some (packetKey pNew) -> createdOf (packetListElements s) (fst d) = Some t ->
  passedTimeSince s t <= FRAGMENT_TIMEOUT ->
  exists s' free' mid, findDatagram N fuel s pNew (lastOf (heads before) None) = Ok (s', lastOf (heads (before ++ mid)) None) /\
    pool N s' loose free' ((before ++ mid) ++ d :: after) rdy /\ sameValues s s' /\ keepsNext loose s s' /\
    sublist mid b /\ (length free <= length free')%nat.
Proof.
  revert s free before b. induction fuel as [|fuel IH]; intros s free before b Hp Hf Hk Hkd Ht Hpass; [lia|].
  destruct b as [|d0 b]; cbn [app] in Hp.
  { exists s, free, []. rewrite app_nil_r in *. split_and!; try done.
    destruct (datagram_value _ _ _ _ _ _ _ Hp) as [v Hv]. unfold createdOf in Ht. rewrite Hv in Ht. injection Ht as Ht.
    cbn [findDatagram]. rewrite (readListPtr_ok _ _ _ _ _ _ _ Hp). cbn [mbind result_bind heads map firstOf].
    rewrite (getValue_ok _ _ _ Hv). cbn [mbind result_bind]. rewrite Ht.
    destruct (Z.ltb_spec FRAGMENT_TIMEOUT (passedTimeSince s t)); [lia|].
    rewrite (keyOf_value _ _ _ Hv) in Hkd. injection Hkd as Hkd.
    assert (E : (sourceIP pNew =? sourceIP v) && (destIP pNew =? destIP v) && (identification pNew =? identification v) = true)
      by (apply sameKey_spec; unfold packetKey; congruence).
    by rewrite E. }
  apply Forall_cons in Hk as [Hkd0 Hk].
  destruct (findDatagram_step fuel s pNew loose free before d0 (b ++ d :: after) rdy Hp Hkd0)
    as (s1 & free1 & before1 & -> & Hp1 & Hs1 & Hn1 & Hb & Hl1).
  pose proof (contentOf_unchanged _ _ (proj2 Hs1)) as Hc1.
  destruct (IH s1 free1 before1 b Hp1) as (s2 & free2 & mid & -> & Hp2 & Hs2 & Hn2 & Hsub & Hl2).
  - cbn in Hf. lia.
  - by eapply noKey_same.
  - by rewrite (keyOf_unchanged _ _ _ Hc1).
  - unfold createdOf. rewrite (proj2 Hs1). exact Ht.
  - destruct Hs1 as [(_ & _ & _ & _ & _ & _ & Htime & _) _]. unfold passedTimeSince. by rewrite Htime.
  - assert (Hmid : exists mid', before1 ++ mid = before ++ mid' /\ sublist mid' (d0 :: b)).
    { destruct Hb as [-> | ->]; [exists mid|exists (d0 :: mid); rewrite <- app_assoc]; (split; [done|by constructor]). }
    destruct Hmid as (mid' & E & Hsub'). rewrite E in *. exists s2, free2, mid'. split_and!; try done.
    + by eapply sameValues_trans.
    + by eapply keepsNext_trans.
    + lia.
Qed.

(** ** The packets of a datagram and its fragments *)

(** Packet [i] holds a fragment, as far as its place and its extent go. *)
Definition placedAt (es : list (Element IPv4Packet)) (i : Z) (f : Fragment) : Prop :=
  exists v, valueOf es i = Some v /\ fragmentOffset v = fragOffset f /\ dataSize v = fragSize f /\ moreFragments v = fragMore f.

Lemma findFragmentPlace_exact es off l2 r2 : forall l1 r1 fuel pre pl,
  threaded (fragOf es) (pre ++ l1 ++ l2) None -> placePrevious pl = lastOf pre None -> placeCurrent pl = firstOf (l1 ++ l2) None ->
  Forall2 (placedAt es) l1 r1 -> Forall2 (placedAt es) l2 r2 ->
  Forall (fun g => fragOffset g < off /\ fragMore g = true) r1 -> Forall (fun g => off <= fragOffset g) r2 ->
  (length l1 < fuel)%nat ->
  exists pl', findFragmentPlace fuel es off pl = Ok (Some pl') /\
    placePrevious pl' = lastOf (pre ++ l1) None /\ placeCurrent pl' = firstOf l2 None /\
    (placeFull pl', placeOffset pl', placeSize pl') = scan (placeFull pl, placeOffset pl, placeSize pl) r1.
Proof.
  intros l1. induction l1 as [|i l1 IH]; intros r1 fuel pre pl Ht Hprev Hcur H1 H2 Hlt Hge Hf; (destruct fuel as [|fuel]; [cbn in Hf; lia|]).
  - apply Forall2_nil_inv_l in H1 as ->. cbn [app] in Hcur. cbn [findFragmentPlace]. rewrite Hcur, app_nil_r.
    destruct l2 as [|c l2]; cbn [firstOf]; [by exists pl|].
    apply Forall2_cons_inv_l in H2 as (g & r2' & (v & Hv & Ho & _ & _) & _ & ->). apply Forall_cons in Hge as [Hg _].
    rewrite (getValue_ok _ _ _ Hv). cbn [mbind result_bind]. destruct (Z.ltb_spec (fragmentOffset v) off); [lia|]. by exists pl.
  - apply Forall2_cons_inv_l in H1 as (g & r1' & (v & Hv & Ho & Hn & Hm) & H1 & ->). apply Forall_cons in Hlt as [[Hg Hmore] Hlt].
    pose proof Ht as Ht'. apply threaded_app in Ht' as [_ [Hnext _]]. cbn [app firstOf] in Hcur.
    apply fragOf_valueOf in Hnext as (v' & Hv' & Hnext). rewrite Hv in Hv'. injection Hv' as <-.
    cbn [findFragmentPlace]. rewrite Hcur, (getValue_ok _ _ _ Hv). cbn [mbind result_bind].
    destruct (Z.ltb_spec (fragmentOffset v) off); [|lia]. rewrite Hm, Hmore. cbn [negb].
    set (pl1 := mkFragmentPlace _ _ _ _ _).
    destruct (IH r1' fuel (pre ++ [i]) pl1) as (pl' & -> & Hp' & Hc' & Hscan); try done.
    + by rewrite <- app_assoc.
    + unfold pl1. cbn [placePrevious]. by rewrite lastOf_snoc.
    + cbn in Hf. lia.
    + exists pl'. rewrite <- app_assoc in Hp'. split_and!; [done..|]. rewrite Hscan. cbn [scan]. unfold pl1. cbn [placeFull placeOffset placeSize].
      rewrite Ho, Hn. do 3 f_equal. by destruct (fragOffset g =? _), (placeFull pl).
Qed.

Lemma checkContiguous_exact es : forall l r fuel full prv po ps,
  threaded (fragOf es) l None -> Forall2 (placedAt es) l r -> (length l < fuel)%nat ->
  exists full' cur prv', checkContiguous fuel es full (firstOf l None) prv po ps = Ok (full', cur, prv') /\
    full' && bool_decide (cur = None) = fst (fst (scan (full, po, ps) r)) /\
    (full' && bool_decide (cur = None) = true -> prv' = lastOf l prv).
Proof.
  intros l. induction l as [|i l IH]; intros r fuel full prv po ps Ht Hr Hf; (destruct fuel as [|fuel]; [cbn in Hf; lia|]).
  - apply Forall2_nil_inv_l in Hr as ->. cbn [checkContiguous firstOf scan fst]. exists full, None, prv.
    rewrite bool_decide_true, andb_true_r by done. done.
  - apply Forall2_cons_inv_l in Hr as (g & r' & (v & Hv & Ho & Hn & Hm) & Hr & ->). destruct Ht as [Hnext Ht].
    apply fragOf_valueOf in Hnext as (v' & Hv' & Hnext). rewrite Hv in Hv'. injection Hv' as <-.
    cbn [checkContiguous firstOf scan]. destruct full; cbn [andb].
    + rewrite (getValue_ok _ _ _ Hv). cbn [mbind result_bind]. rewrite Hnext, Ho, Hn.
      destruct (IH r' fuel (fragOffset g =? po + ps) (Some i) (fragOffset g) (fragSize g)) as (full' & cur & prv' & -> & H1 & H2);
        [done|done|cbn in Hf; lia|].
      exists full', cur, prv'. split_and!; [done..|]. intros H. rewrite H2 by done. by rewrite lastOf_cons.
    + exists false, (Some i), prv. rewrite scan_false. done.
Qed.

Lemma placedAt_unchanged es es' i f : unchanged (contentOf es) (contentOf es') -> placedAt es i f -> placedAt es' i f.
Proof.
  intros H (v & Hv & Ho & Hn & Hm). specialize (H i). unfold contentOf in H. rewrite Hv in H.
  destruct (valueOf es' i) as [v'|] eqn:Hv'; [|done]. injection H as H1 H2 H3 H4 H5 H6 H7. exists v'. split_and!; congruence.
Qed.

Lemma placedAt_all es es' l r : unchanged (contentOf es) (contentOf es') -> Forall2 (placedAt es) l r -> Forall2 (placedAt es') l r.
Proof. intros H Hr. eapply Forall2_impl; [exact Hr|]. intros i f. by apply placedAt_unchanged. Qed.

Lemma placedAt_last es l r i : Forall2 (placedAt es) l r -> lastOf l None = Some i -> exists g, last r = Some g /\ placedAt es i g.
Proof.
  intros H Hl. destruct (lastOf_Some _ _ Hl) as [pre ->]. apply Forall2_app_inv_l in H as (r1 & r2 & _ & H & ->).
  apply Forall2_cons_inv_l in H as (g & r3 & Hg & H & ->). apply Forall2_nil_inv_l in H as ->. exists g. by rewrite last_snoc.
Qed.

(** The first fragment of a datagram begins a new one. *)
Lemma insert_new s e v free inc rdy :
  pool N s [e] free inc rdy -> valueOf (packetListElements s) e = Some v -> nextFragment v = None ->
  nextOf (packetListElements s) e = Some None -> noKey s (packetKey v) inc ->
  exists s' free' inc', insertInIncompleteFragmentedDatagramsList N s e = Ok s' /\
    pool N s' [] free' (inc' ++ [(e, [])]) rdy /\ sameValues s s' /\ sublist inc' inc /\ (length free <= length free')%nat.
Proof.
  intros Hp Hv Hnf Hne Hk. unfold insertInIncompleteFragmentedDatagramsList.
  rewrite (getValue_ok _ _ _ Hv). cbn [mbind result_bind].
  destruct (findDatagram_none (S (S N)) s v [e] free [] inc rdy Hp) as (s1 & free1 & mid & Heq & Hp1 & Hs1 & Hk1 & Hsub & Hl);
    [pose proof (inc_bound _ _ _ _ _ _ Hp); lia|done|].
  change (lastOf (heads []) None) with (@None Z) in Heq. rewrite Heq. cbn [mbind result_bind app].
  cbn [app] in Hp1. rewrite <- (app_nil_r mid) in Hp1. rewrite (readListPtr_ok _ _ _ _ _ _ _ Hp1). cbn [mbind result_bind heads map firstOf].
  destruct (writeListPtr_ok N s1 [e] [] free1 mid [] [(e, [])] rdy Hp1) as (s2 & Hw & Hp2 & Hs2 & _).
  - cbn [threaded heads map fst firstOf]. split; [|done]. rewrite Hk1 by (by left). done.
  - apply Forall_singleton. cbn. split; [|done]. unfold fragOf. rewrite (proj2 Hs1), Hv. cbn. by rewrite Hnf.
  - pose proof (pool_placed _ _ _ _ _ _ Hp1) as Hpl. rewrite app_nil_r in Hpl. rewrite allMembers_app.
    change (allMembers [(e, [])]) with [e]. cbn [app] in Hpl. eapply placed_perm; [|exact Hpl]. solve_Permutation.
  - cbn [heads map firstOf fst] in Hw. rewrite Hw. exists s2, free1, mid. split_and!; try done. by eapply sameValues_trans.
Qed.

(** A further fragment is put in its place; when it completes the datagram,
    the datagram becomes ready. *)
Lemma insert_into s e f v free b d a rdy l1 l2 r1 r2 t :
  pool N s [e] free (b ++ d :: a) rdy -> valueOf (packetListElements s) e = Some v -> nextFragment v = None ->
  placedAt (packetListElements s) e f ->
  noKey s (packetKey v) b -> keyOf (packetListElements s) (fst d) = Some (packetKey v) ->
  createdOf (packetListElements s) (fst d) = Some t -> passedTimeSince s t <= FRAGMENT_TIMEOUT ->
  members d = l1 ++ l2 ->
  Forall2 (placedAt (packetListElements s)) l1 r1 -> Forall2 (placedAt (packetListElements s)) l2 r2 ->
  Forall (fun g => fragOffset g < fragOffset f /\ fragMore g = true) r1 -> Forall (fun g => fragOffset f <= fragOffset g) r2 ->
  (r2 <> [] -> fragMore f = true) ->
  exists s' free' b' d', insertInIncompleteFragmentedDatagramsList N s e = Ok s' /\
    members d' = l1 ++ e :: l2 /\ createdOf (packetListElements s') (fst d') = Some t /\
    stable s s' /\ unchanged (contentOf (packetListElements s)) (contentOf (packetListElements s')) /\
    sublist b' b /\ (length free <= length free')%nat /\
    if complete (r1 ++ f :: r2) then pool N s' [] free' (b' ++ a) (rdy ++ [d']) else pool N s' [] free' (b' ++ d' :: a) rdy.
Proof.
  intros Hp Hv Hnf Hef Hb Hd Ht Hpass Hm H1 H2 Hlt Hge Hmore.
  unfold insertInIncompleteFragmentedDatagramsList. rewrite (getValue_ok _ _ _ Hv). cbn [mbind result_bind].
  destruct (findDatagram_found (S (S N)) s v [e] free [] b d a rdy t Hp) as (s1 & free1 & mid & Heq & Hp1 & Hs1 & Hk1 & Hsub & Hl);
    try done.
  { pose proof (inc_bound _ _ _ _ _ _ Hp) as Hib. rewrite length_app in Hib. cbn in Hib. lia. }
  change (lastOf (heads []) None) with (@None Z) in Heq. rewrite Heq. cbn [mbind result_bind app] in *.
  rewrite (readListPtr_ok _ _ _ _ _ _ _ Hp1). cbn [mbind result_bind heads map firstOf].
  pose proof (contentOf_unchanged _ _ (proj2 Hs1)) as Hc1.
  pose proof (link_chain _ _ _ _ _ _ _ _ Hp1) as Hchain. rewrite Hm in Hchain.
  assert (Hlen : (length (l1 ++ l2) <= N)%nat).
  { rewrite <- Hm. apply (members_bound _ _ _ _ _ _ d Hp1). rewrite !elem_of_app. left; right. by left. }
  rewrite length_app in Hlen.
  pose proof Hef as (v' & Hv' & Hoff & _ & Hmo). rewrite Hv in Hv'. injection Hv' as <-. rewrite Hoff.
  assert (Hfst : firstOf (l1 ++ l2) None = Some (fst d)) by (by rewrite <- Hm).
  destruct (findFragmentPlace_exact (packetListElements s1) (fragOffset f) l2 r2 l1 r1 (S (S N)) []
    (mkFragmentPlace None (Some (fst d)) true 0 0)) as (pl & -> & Hprev & Hcur & Hscan);
    [done|done|done|by eapply placedAt_all|by eapply placedAt_all|done|done|lia|].
  cbn [mbind result_bind app placeFull placeOffset placeSize] in *.
  assert (Hlinked : exists s2, linkFragment s1 (lastOf (heads mid) None) e pl = Ok (Some s2) /\
    linkedIn N s1 s2 (fst d) e l1 l2 free1 mid a rdy).
  { assert (Hv1 : valueOf (packetListElements s1) e = Some v) by (by rewrite (proj2 Hs1)).
    assert (Hfe1 : fragOf (packetListElements s1) e = Some None) by (unfold fragOf; rewrite Hv1; cbn; by rewrite Hnf).
    assert (Hkept : forall r, (l2 = [] -> r <> None) -> keptIfMore s1 e r -> r <> None).
    { intros r Hr1 Hr2. destruct l2 as [|x l2]; [by apply Hr1|]. apply (Hr2 v Hv1). rewrite Hmo. apply Hmore. by inversion H2. }
    destruct l1 as [|p l1' _] using rev_ind.
    - cbn [app] in *. subst l2.
      destruct (linkFragment_first N s1 e free1 mid d a rdy (lastOf (heads mid) None) pl) as (r & Hr & Hkm & Hli); try done.
      destruct r as [s2|]; [by exists s2|]. by destruct (Hkept None).
    - rewrite lastOf_snoc in Hprev.
      destruct (linkFragment_inner N s1 e free1 mid d a rdy (lastOf (heads mid) None) pl l1' p l2) as (r & Hr & Hr1 & Hkm & Hli); try done.
      destruct r as [s2|]; [by exists s2|]. by destruct (Hkept None). }
  destruct Hlinked as (s2 & -> & d' & Hm' & Hp2 & Hst2 & Hc2 & Hcr2). cbn [mbind result_bind].
  assert (Hc12 : unchanged (contentOf (packetListElements s)) (contentOf (packetListElements s2))) by (by eapply unchanged_trans).
  assert (Hst : stable s s2) by (eapply stable_trans; [apply Hs1|exact Hst2]).
  assert (Hcr : createdOf (packetListElements s2) (fst d') = Some t).
  { rewrite Hcr2. unfold createdOf. rewrite (proj2 Hs1). exact Ht. }
  pose proof (pool_chains _ _ _ _ _ _ Hp2) as Hchain2. rewrite !Forall_app, Forall_cons in Hchain2.
  destruct Hchain2 as [(_ & Hchain2 & _) _]. rewrite Hm' in Hchain2. apply threaded_app in Hchain2 as [_ Hchain2].
  destruct (checkContiguous_exact (packetListElements s2) (e :: l2) (f :: r2) (S (S N)) (placeFull pl) (placePrevious pl)
    (placeOffset pl) (placeSize pl) Hchain2) as (full & cur & prv & Hcheck & Hfull & Hprv).
  { constructor; [by eapply placedAt_unchanged|by eapply placedAt_all]. }
  { cbn. lia. }
  cbn [firstOf] in Hcheck. rewrite Hcheck. cbn [mbind result_bind]. rewrite Hscan in Hfull.
  rewrite <- scan_app in Hfull. unfold complete. destruct (scan (true, 0, 0) (r1 ++ f :: r2)) as [[full2 o2] n2] eqn:Escan.
  cbn [fst] in Hfull. rewrite Hfull in *. destruct full2; cbn [andb]; [|by exists s2, free1, mid, d'].
  rewrite Hprv by done. rewrite Hprev.
  assert (Hlast : lastOf (e :: l2) (lastOf l1 None) = lastOf (l1 ++ e :: l2) None) by (by rewrite lastOf_app).
  rewrite Hlast. destruct (lastOf (l1 ++ e :: l2) None) as [lst|] eqn:Elst.
  2:{ apply lastOf_None in Elst. by destruct l1. }
  destruct (placedAt_last (packetListElements s2) (l1 ++ e :: l2) (r1 ++ f :: r2) lst) as (g & -> & vl & Hvl & _ & _ & Hml); [|done|].
  { apply Forall2_app; [by eapply placedAt_all|]. constructor; [by eapply placedAt_unchanged|by eapply placedAt_all]. }
  cbn [orFault mbind result_bind]. rewrite (getValue_ok _ _ _ Hvl). cbn [mbind result_bind]. rewrite Hml.
  destruct (fragMore g); cbn [negb]; [by exists s2, free1, mid, d'|].
  rewrite (readNext_ok _ _ _ _ _ _ _ _ Hp2). cbn [mbind result_bind orFault].
  destruct (unlink_ok _ _ _ _ _ _ _ _ Hp2) as (n & s3 & -> & Hw & Hp3 & Hs3 & Ht3 & _).
  cbn [mbind result_bind]. rewrite Hw. cbn [mbind result_bind].
  destruct (ready_ok N s3 d' [] free1 (mid ++ a) rdy Hp3 Ht3) as (s4 & -> & Hp4 & Hs4).
  pose proof (sameValues_trans _ _ _ Hs3 Hs4) as Hs34.
  exists s4, free1, mid, d'. split_and!; try done.
  - unfold createdOf. rewrite (proj2 Hs34). exact Hcr.
  - eapply stable_trans; [exact Hst|apply Hs34].
  - eapply unchanged_trans; [exact Hc12|]. apply contentOf_unchanged, Hs34.
Qed.
End exact.

(** ** Frames on the wire *)

Lemma land_byte x : Z.land x 0xFF = x mod 256.
Proof. change 0xFF with (Z.ones 8). by rewrite Z.land_ones. Qed.

Lemma be16_value n : is_u16 n -> u16 (Z.shiftl (u8 (Z.shiftr n 8)) 8 + u8 (Z.land n 0xFF)) = n.
Proof.
  unfold is_u16. intros Hn. rewrite land_byte, Z.shiftr_div_pow2, Z.shiftl_mul_pow2 by lia.
  unfold u8, u16. change (2 ^ 8) with 256. change (2 ^ 16) with 65536 in *. rewrite Z.mod_mod by lia.
  rewrite (Z.mod_small (n / 256)) by dlia. rewrite Z.mod_small; dlia.
Qed.

Lemma be32_value ip : is_u32 ip ->
  u32 (Z.shiftl (u8 (Z.shiftr ip 24)) 24 + Z.shiftl (u8 (Z.land (Z.shiftr ip 16) 0xFF)) 16 +
       Z.shiftl (u8 (Z.land (Z.shiftr ip 8) 0xFF)) 8 + u8 (Z.land ip 0xFF)) = ip.
Proof.
  unfold is_u32. intros Hip. rewrite !land_byte, !Z.shiftr_div_pow2, !Z.shiftl_mul_pow2 by lia.
  unfold u8, u32. change (2 ^ 8) with 256 in *. change (2 ^ 16) with 65536. change (2 ^ 24) with 16777216. change (2 ^ 32) with 4294967296 in *.
  rewrite !Z.mod_mod by lia.
  assert (E : ip / 16777216 mod 256 = ip / 16777216) by (apply Z.mod_small; dlia). rewrite E.
  rewrite Z.mod_small; dlia.
Qed.

(** Flags and fragment offset, in units of eight bytes. *)
Definition flagsWord (off : Z) (lastFragment : bool) : Z :=
  u16 (Z.lor (if lastFragment then 0 else 0x2000) (Z.shiftr off 3)).

Lemma land_pow2_small k x : 0 <= k -> 0 <= x < 2 ^ k -> Z.land (2 ^ k) x = 0.
Proof.
  intros Hk Hx. apply Z.bits_inj'. intros n Hn. rewrite Z.land_spec, Z.bits_0, Z.pow2_bits_eqb by lia.
  destruct (Z.eqb_spec k n) as [<-|]; [|done]. cbn [andb].
  apply (proj1 (Z.bounded_iff_bits_nonneg k x Hk (proj1 Hx)) (proj2 Hx)). lia.
Qed.

Lemma flagsWord_value off lastFragment :
  0 <= off < 2 ^ 16 -> flagsWord off lastFragment = (if lastFragment then 0 else 8192) + off / 8.
Proof.
  intros Ho. unfold flagsWord. rewrite Z.shiftr_div_pow2 by lia. change (2 ^ 3) with 8.
  assert (Hq : 0 <= off / 8 < 2 ^ 13) by dlia.
  assert (E : Z.lor (if lastFragment then 0 else 0x2000) (off / 8) = (if lastFragment then 0 else 8192) + off / 8).
  { destruct lastFragment; [done|]. pose proof (Z.add_lor_land 8192 (off / 8)) as Hl.
    change 8192 with (2 ^ 13) in Hl at 2. rewrite land_pow2_small in Hl by lia. change 0x2000 with 8192. lia. }
  rewrite E. unfold u16. apply Z.mod_small. change (2 ^ 16) with 65536. change (2 ^ 13) with 8192 in Hq. destruct lastFragment; lia.
Qed.

Lemma moreBit x : 0 <= x < 64 -> (0 <? Z.land x 0x20) = (32 <=? x).
Proof. intros Hx. split_below 64%nat Hx; reflexivity. Qed.

Lemma flagsWord_decode off lastFragment :
  0 <= off < 2 ^ 16 -> off mod 8 = 0 ->
  let b20 := u8 (Z.shiftr (flagsWord off lastFragment) 8) in
  let b21 := u8 (Z.land (flagsWord off lastFragment) 0xFF) in
  (0 <? Z.land b20 0x20) = negb lastFragment /\ 8 * (Z.shiftl (Z.land b20 0x1F) 8 + b21) = off.
Proof.
  intros Ho Hm. rewrite flagsWord_value by done. cbv zeta.
  rewrite land_byte, Z.shiftr_div_pow2, Z.shiftl_mul_pow2 by lia. change (2 ^ 8) with 256.
  change (2 ^ 16) with 65536 in Ho. set (w := _ + off / 8).
  assert (Hw : 0 <= w < 16384 /\ (8192 <=? w) = negb lastFragment /\ w mod 8192 = off / 8).
  { unfold w. destruct lastFragment; cbn [negb]; (split_and!; [dlia|dlia| |dlia]).
    - destruct (Z.leb_spec 8192 (0 + off / 8)); [dlia|done].
    - destruct (Z.leb_spec 8192 (8192 + off / 8)); [done|dlia]. }
  destruct Hw as (Hw & Hb & Hw8). assert (Hu : u8 (w / 256) = w / 256) by (apply u8_small; unfold is_u8; dlia).
  rewrite Hu. split.
  - rewrite moreBit by dlia. rewrite <- Hb. destruct (Z.leb_spec 32 (w / 256)), (Z.leb_spec 8192 w); dlia || done.
  - change 0x1F with (Z.ones 5). rewrite Z.land_ones by lia. change (2 ^ 5) with 32. unfold u8. rewrite Z.mod_mod by lia. dlia.
Qed.

(** ** Receiving a fragment *)

Section wire.
Context (N TS LS : nat) (sender : NetworkStackHandler) (mac : list Z) (dst proto ident : Z).
Context (Hmac : zlength mac = 6) (HmyMac : zlength (myMac sender) = 6) (HmyIP : is_u32 (myIP sender)) (Hdst : is_u32 dst)
        (Hident : is_u16 ident).

Definition frameOf (f : Fragment) : list Z :=
  fragmentFrame sender mac dst proto ident (fragOffset f) (negb (fragMore f)) (fragBytes f).

Definition goodFragment (f : Fragment) : Prop :=
  0 <= fragOffset f < 2 ^ 16 /\ fragOffset f mod 8 = 0 /\ fragSize f <= ETHERNET_MTU - IPV4_MINIMAL_HEADER_SIZE.

(** The packet a fragment is stored as. *)
Definition packetOf (f : Fragment) (t : Z) : IPv4Packet :=
  mkIPv4Packet (myIP sender) dst (fragSize f) proto (fragMore f) (fragOffset f) ident None t.

Definition key : Key := (myIP sender, dst, ident).

Lemma byteAt_app (hdr p : list Z) k x : hdr.[k] = Some x -> byteAt (hdr ++ p) k = Ok x.
Proof. intros H. unfold byteAt. rewrite znth_app_l by (apply znth_Some_lt in H; lia). by rewrite H. Qed.

(** What the handler reads from the frame of a fragment. *)
Lemma frame_fields f :
  goodFragment f ->
  let data := frameOf f in
  zlength data = 34 + fragSize f /\ be16At data 12 = Ok 0x0800 /\ byteAt data 14 = Ok 0x45 /\
  be32At data 26 = Ok (myIP sender) /\ be32At data 30 = Ok dst /\ be16At data 16 = Ok (20 + fragSize f) /\
  be16At data 18 = Ok ident /\ byteAt data 23 = Ok proto /\
  byteAt data 20 = Ok (u8 (Z.shiftr (flagsWord (fragOffset f) (negb (fragMore f))) 8)) /\
  byteAt data 21 = Ok (u8 (Z.land (flagsWord (fragOffset f) (negb (fragMore f))) 0xFF)) /\
  drop 34 data = fragBytes f.
Proof using Hmac HmyMac HmyIP Hdst Hident.
  intros (Ho & Hm & Hn) data. unfold data, frameOf, fragmentFrame.
  destruct (six_elements _ Hmac) as (d1 & d2 & d3 & d4 & d5 & d6 & ->).
  destruct (six_elements _ HmyMac) as (m1 & m2 & m3 & m4 & m5 & m6 & ->).
  fold (flagsWord (fragOffset f) (negb (fragMore f))). change (IPV4_MINIMAL_HEADER_SIZE + zlength (fragBytes f)) with (20 + fragSize f).
  set (w := flagsWord _ _). set (total := 20 + fragSize f).
  assert (Htotal : is_u16 total).
  { unfold total, is_u16, ETHERNET_MTU, IPV4_MINIMAL_HEADER_SIZE in *. pose proof (zlength_nonneg (fragBytes f)). unfold fragSize in *. lia. }
  match goal with |- context [zlength ?l = _] => set (frame := l) end.
  set (hdr := [d1; d2; d3; d4; d5; d6; m1; m2; m3; m4; m5; m6; 0x08; 0x00; 0x45; 0x00; u8 (Z.shiftr total 8); u8 (Z.land total 0xFF);
    u8 (Z.shiftr ident 8); u8 (Z.land ident 0xFF); u8 (Z.shiftr w 8); u8 (Z.land w 0xFF); 255; proto; 0x00; 0x00] ++
    addressBytes (myIP sender) ++ addressBytes dst).
  assert (Eframe : frame = hdr ++ fragBytes f) by reflexivity. clearbody frame. subst frame.
  assert (Hb : forall k x, hdr.[k] = Some x -> byteAt (hdr ++ fragBytes f) k = Ok x) by (intros; by apply byteAt_app).
  unfold be16At, be32At. split_and!.
  - rewrite zlength_app. reflexivity.
  - rewrite (Hb 12 8), (Hb (12 + 1) 0) by reflexivity. reflexivity.
  - apply Hb. reflexivity.
  - erewrite (Hb 26), (Hb (26 + 1)), (Hb (26 + 2)), (Hb (26 + 3)) by reflexivity. cbn [mbind result_bind]. f_equal. by apply be32_value.
  - erewrite (Hb 30), (Hb (30 + 1)), (Hb (30 + 2)), (Hb (30 + 3)) by reflexivity. cbn [mbind result_bind]. f_equal. by apply be32_value.
  - erewrite (Hb 16), (Hb (16 + 1)) by reflexivity. cbn [mbind result_bind]. f_equal. by apply be16_value.
  - erewrite (Hb 18), (Hb (18 + 1)) by reflexivity. cbn [mbind result_bind]. f_equal. by apply be16_value.
  - apply Hb. reflexivity.
  - apply Hb. reflexivity.
  - apply Hb. reflexivity.
  - reflexivity.
Qed.

Lemma receiveFragment s f e free inc rdy :
  pool N s [] (e :: free) inc rdy -> dst = myIP s \/ dst = 0xFFFFFFFF -> goodFragment f ->
  exists s2, handleIncomingEthernetPacket N TS LS s (frameOf f) (zlength (frameOf f)) =
      (s' ← (if fragMore f || negb (fragOffset f =? 0) then insertInIncompleteFragmentedDatagramsList N s2 e
             else insertInReadyToReadPacketsList s2 e); Ok (s', IPv4PacketType)) /\
    pool N s2 [e] free inc rdy /\ valueOf (packetListElements s2) e = Some (packetOf f (timerCounter s)) /\
    nextOf (packetListElements s2) e = Some None /\
    (forall j, j <> e -> valueOf (packetListElements s2) j = valueOf (packetListElements s) j) /\ sameConfig s s2 /\
    exists buf, packetDataBuffers s2 = (packetDataBuffers s).[e := buf] /\ take (length (fragBytes f)) buf = fragBytes f.
Proof using Hmac HmyMac HmyIP Hdst Hident.
  intros Hp Hto Hf. destruct (frame_fields f Hf) as (Hlen & H12 & H14 & H26 & H30 & H16 & H18 & H23 & H20 & H21 & Hdrop).
  pose proof Hf as (Ho & Hm & Hn). pose proof (zlength_nonneg (fragBytes f)) as Hpos. fold (fragSize f) in Hpos.
  unfold ETHERNET_MTU, IPV4_MINIMAL_HEADER_SIZE in Hn.
  unfold handleIncomingEthernetPacket. rewrite H12. cbn [mbind result_bind]. change (0x0800 =? 0x0806) with false. change (0x0800 =? 0x0800) with true.
  cbv iota. unfold incomingIPv4PacketHelper. destruct (Z.ltb_spec (zlength (frameOf f)) 34); [lia|].
  rewrite H14. cbn [mbind result_bind]. change (u16 (Z.land 0x45 0xF)) with 5. change (u8 (Z.shiftr (Z.land 0x45 0xF0) 4)) with 4.
  cbn [Z.eqb Z.ltb Z.compare Pos.eqb Pos.compare Pos.compare_cont negb orb]. rewrite H26, H30. cbn [mbind result_bind].
  assert (E : negb (dst =? myIP s) && negb (dst =? 0xFFFFFFFF) = false).
  { destruct Hto as [-> | ->]; [by rewrite Z.eqb_refl|by rewrite andb_false_r]. }
  rewrite E, H16. cbn [mbind result_bind]. change (5 * 4) with 20. unfold ETHERNET_SIMPLE_HEADER_SIZE.
  destruct (Z.ltb_spec (20 + fragSize f) 20); [lia|]. destruct (Z.ltb_spec (zlength (frameOf f)) (20 + fragSize f + 14)); [lia|].
  cbn [orb]. destruct (makeSure_ok N s [] (e :: free) inc rdy Hp) as (s0 & r & -> & _ & Hsure & _).
  destruct (Hsure ltac:(done)) as [-> ->]. cbn [mbind result_bind]. change (0 =? 1) with false. cbv iota.
  rewrite (pool_unused _ _ _ _ _ _ Hp). cbn [firstOf orFault mbind result_bind].
  change (Z.to_nat (14 + 20)) with 34%nat. rewrite Hdrop. replace (20 + fragSize f - 20) with (fragSize f) by lia.
  assert (Ht : take (Z.to_nat (fragSize f)) (fragBytes f) = fragBytes f) by (unfold fragSize, zlength; rewrite Nat2Z.id; apply firstn_all).
  rewrite Ht. destruct (znth_lt_Some (packetDataBuffers s) e) as [buf0 Hbuf0].
  { rewrite (pool_buffers _ _ _ _ _ _ Hp). apply (placed_range _ _ _ (pool_placed _ _ _ _ _ _ Hp)). by left. }
  pose proof (pool_buffer _ _ _ _ _ _ Hp _ _ Hbuf0) as Hbl. unfold RX_BUFFER_SIZE in Hbl.
  destruct (overwrite_ok buf0 (fragBytes f)) as (buf & Hover & Hbuf & Htake); [unfold fragSize in Hn; lia|].
  destruct (flagsWord_decode (fragOffset f) (negb (fragMore f)) Ho Hm) as [Hmore Hoff]. rewrite negb_involutive in Hmore.
  destruct (takePacket_ok N s e free inc rdy (packetOf f (timerCounter s)) buf Hp eq_refl)
    as (es1 & es2 & -> & Hes1 & Hes2 & _ & Hp2 & _ & Hne2 & Hv2 & Hv2'); [unfold RX_BUFFER_SIZE; lia|].
  cbn [mbind result_bind]. change (packetListElements (withUnused s (firstOf free None))) with (packetListElements s).
  rewrite Hes1, H20, H21, H18, H23. cbn [mbind result_bind]. cbv zeta. rewrite Hmore, Hoff.
  change (timerCounter (withUnused s (firstOf free None))) with (timerCounter s). fold (packetOf f (timerCounter s)).
  rewrite Hes2. cbn [mbind result_bind].
  change (packetDataBuffers (withElements (withUnused s (firstOf free None)) es2)) with (packetDataBuffers s).
  rewrite Hbuf0. cbn [mbind result_bind orFault]. rewrite Hover. cbn [mbind result_bind].
  eexists. split; [reflexivity|]. split_and!; [exact Hp2|exact Hv2|exact Hne2|exact Hv2'|done|]. by exists buf.
Qed.

(** ** All fragments of a datagram *)

(** Packet [i] holds fragment [f], with its bytes. *)
Definition holdsFragment (s : NetworkStackHandler) (i : Z) (f : Fragment) : Prop :=
  contentOf (packetListElements s) i = Some (packetOf f 0) /\
  exists b, (packetDataBuffers s).[i] = Some b /\ take (length (fragBytes f)) b = fragBytes f.

Lemma holdsFragment_placed s i f : holdsFragment s i f -> placedAt (packetListElements s) i f.
Proof.
  intros [Hc _]. unfold contentOf in Hc. destruct (valueOf (packetListElements s) i) as [v|] eqn:Hv; [|done].
  injection Hc as H1 H2 H3 H4 H5 H6 H7. by exists v.
Qed.

Lemma holdsFragment_key s i f : holdsFragment s i f -> keyOf (packetListElements s) i = Some key.
Proof. intros [Hc _]. unfold keyOf. by rewrite Hc. Qed.

(** Nothing but packet [e] differs. *)
Definition changedAt (e : Z) (s s' : NetworkStackHandler) : Prop :=
  forall j, j <> e -> contentOf (packetListElements s') j = contentOf (packetListElements s) j /\
    createdOf (packetListElements s') j = createdOf (packetListElements s) j /\
    (packetDataBuffers s').[j] = (packetDataBuffers s).[j].

Lemma holdsFragment_changed e s s' i f : changedAt e s s' -> i <> e -> holdsFragment s i f -> holdsFragment s' i f.
Proof. intros H Hi [Hc Hb]. destruct (H i Hi) as (E1 & _ & E2). split; [by rewrite E1|by rewrite E2]. Qed.

Lemma holdsFragment_same s s' i f :
  unchanged (contentOf (packetListElements s)) (contentOf (packetListElements s')) ->
  packetDataBuffers s' = packetDataBuffers s -> holdsFragment s i f -> holdsFragment s' i f.
Proof. intros H E [Hc Hb]. split; [by rewrite H|by rewrite E]. Qed.

Context (frs : list Fragment) (Hsplit : splitFrom 0 frs) (Hgood : Forall goodFragment frs).
Context (rdy : list Datagram).

(** The fragments received so far, in order. *)
Definition parts (R : list Fragment) : list Fragment := filter (fun f => f ∈ R) frs.

(** The datagram is complete: it is the last one that can be read. *)
Definition assembled (s : NetworkStackHandler) : Prop :=
  exists free inc d, pool N s [] free inc (rdy ++ [d]) /\ Forall2 (holdsFragment s) (members d) frs.

(** [n] ticks after the first of the fragments [R] arrived. *)
Definition assembling (s : NetworkStackHandler) (R : list Fragment) (n : Z) : Prop :=
  0 <= timerCounter s < 2 ^ 31 /\
  exists free inc, pool N s [] free inc rdy /\ (length frs <= length R + length free)%nat /\
    match R with
    | [] => noKey s key inc
    | _ => exists b d a t, inc = b ++ d :: a /\ noKey s key b /\
             createdOf (packetListElements s) (fst d) = Some t /\ timerCounter s = (t + n) mod 2 ^ 31 /\ 0 <= t < 2 ^ 31 /\
             Forall2 (holdsFragment s) (members d) (parts R)
    end.

Lemma parts_nil : parts [] = [].
Proof. unfold parts. clear. induction frs as [|f l IH]; [done|]. by rewrite filter_cons_False by apply not_elem_of_nil. Qed.

Lemma parts_incl R f : parts R = frs -> f ∈ frs -> f ∈ R.
Proof. intros E Hf. rewrite <- E in Hf. by apply list_elem_of_filter in Hf as [? _]. Qed.

Lemma parts_all R : (forall f, f ∈ frs -> f ∈ R) -> parts R = frs.
Proof.
  intros H. unfold parts. revert H. clear. induction frs as [|f l IH]; intros H; [done|].
  rewrite filter_cons_True by (apply H; by left). f_equal. apply IH. intros g Hg. apply H. by right.
Qed.

Lemma filter_skip f (R l : list Fragment) : (f ∉ l) -> filter (fun g => g ∈ f :: R) l = filter (fun g => g ∈ R) l.
Proof.
  clear. induction l as [|g l IH]; intros Hf; [done|]. apply not_elem_of_cons in Hf as [Hg Hl].
  destruct (decide (g ∈ R)) as [Hin|Hin].
  - rewrite !filter_cons_True by (try done; by right). by rewrite IH.
  - rewrite !filter_cons_False; [by apply IH|done|]. rewrite elem_of_cons. intros [->|?]; done.
Qed.

Lemma Forall_parts (P Q : Fragment -> Prop) (R l : list Fragment) :
  (forall g, P g -> Q g) -> Forall P l -> Forall Q (filter (fun g => g ∈ R) l).
Proof. intros HPQ HP. rewrite Forall_forall in *. intros g [_ Hg]%list_elem_of_filter. auto. Qed.

Lemma parts_split R f :
  f ∈ frs -> (f ∉ R) ->
  exists r1 r2, parts R = r1 ++ r2 /\ parts (f :: R) = r1 ++ f :: r2 /\
    Forall (fun g => fragOffset g < fragOffset f /\ fragMore g = true) r1 /\
    Forall (fun g => fragOffset f <= fragOffset g) r2 /\ (r2 <> [] -> fragMore f = true).
Proof using Hsplit Hgood.
  intros Hf HR. pose proof (splitFrom_NoDup _ _ Hsplit) as Hnd. apply list_elem_of_split in Hf as (p & q & E).
  unfold parts. rewrite E in Hsplit, Hnd |- *. destruct (splitFrom_around _ _ _ _ Hsplit) as (Hp & Hq & Hm).
  apply NoDup_app in Hnd as (_ & Hpf & Hnd). apply NoDup_cons in Hnd as [Hfq _].
  assert (Hfp : f ∉ p) by (intros Hin; apply (Hpf f Hin); by left).
  exists (filter (fun g => g ∈ R) p), (filter (fun g => g ∈ R) q). rewrite !filter_app. split_and!.
  - by rewrite filter_cons_False.
  - rewrite filter_cons_True by (by left). by rewrite !filter_skip.
  - by apply (Forall_parts _ _ R p (fun g H => H)).
  - apply (Forall_parts (fun g => fragOffset f < fragOffset g) _ R q); [|exact Hq]. cbn. lia.
  - intros Hne. apply Hm. intros ->. by apply Hne.
Qed.

(** A packet just taken is on no list. *)
Lemma taken_other s e free inc rdy' i ds d :
  pool N s [e] free (inc ++ ds) rdy' -> d ∈ inc ++ ds -> i ∈ members d -> i <> e.
Proof.
  intros Hp Hd Hi ->. pose proof (pool_placed _ _ _ _ _ _ Hp) as Hpl. eapply (placed_not_in _ [e] _ e Hpl); [by left|].
  rewrite !elem_of_app. right. left. apply elem_of_allMembers. by exists d.
Qed.

Lemma noKey_changed e s s' ds : changedAt e s s' -> (forall d, d ∈ ds -> fst d <> e) -> noKey s key ds -> noKey s' key ds.
Proof.
  intros H Hd Hk. unfold noKey in *. rewrite Forall_forall in *. intros d Hin. unfold keyOf.
  destruct (H (fst d) (Hd d Hin)) as (-> & _). by apply Hk.
Qed.

(** The state after a fragment was taken from the frame. *)
Lemma taken_changed s s2 e f :
  (forall j, j <> e -> valueOf (packetListElements s2) j = valueOf (packetListElements s) j) ->
  (exists buf, packetDataBuffers s2 = (packetDataBuffers s).[e := buf] /\ take (length (fragBytes f)) buf = fragBytes f) ->
  changedAt e s s2.
Proof.
  intros Hv (buf & Hb & _) j Hj. unfold contentOf, createdOf. rewrite Hv, Hb by done. split_and!; [done..|]. by apply znth_zset_ne.
Qed.

Lemma taken_holds s s2 e f free inc :
  pool N s2 [e] free inc rdy -> pool N s [] (e :: free) inc rdy ->
  valueOf (packetListElements s2) e = Some (packetOf f (timerCounter s)) ->
  (exists buf, packetDataBuffers s2 = (packetDataBuffers s).[e := buf] /\ take (length (fragBytes f)) buf = fragBytes f) ->
  holdsFragment s2 e f.
Proof.
  intros Hp2 Hp Hv (buf & Hb & Ht). split; [unfold contentOf; by rewrite Hv|]. exists buf. split; [|done].
  rewrite Hb. apply znth_zset_eq. rewrite (pool_buffers _ _ _ _ _ _ Hp).
  apply (placed_range _ _ _ (pool_placed _ _ _ _ _ _ Hp)). by left.
Qed.

Definition receive (s : NetworkStackHandler) (f : Fragment) : result NetworkStackHandler :=
  stackStep N TS LS s (Receive (frameOf f) (zlength (frameOf f))).

Lemma only_fragment f : f ∈ frs -> fragMore f || negb (fragOffset f =? 0) = false -> frs = [f].
Proof using Hsplit Hgood.
  intros Hf E. apply orb_false_iff in E as [Hm Ho]. apply negb_false_iff, Z.eqb_eq in Ho.
  apply list_elem_of_split in Hf as (p & q & E). rewrite E in Hsplit |- *.
  destruct (splitFrom_around _ _ _ _ Hsplit) as (Hp & _ & Hq).
  destruct q as [|g q]; [|by rewrite Hq in Hm]. destruct p as [|g p]; [done|]. exfalso.
  apply Forall_cons in Hp as [[Hg _] _]. destruct Hsplit as (Hgo & _). lia.
Qed.

(** The first fragment to arrive. *)
Lemma receive_first s n f :
  assembling s [] n -> f ∈ frs -> dst = myIP s \/ dst = 0xFFFFFFFF ->
  exists s', receive s f = Ok s' /\ sameConfig s s' /\
    (parts [f] = frs -> assembled s') /\ (parts [f] <> frs -> assembling s' [f] 0).
Proof using Hmac HmyMac HmyIP Hdst Hident Hsplit Hgood.
  intros (Htime & free & inc & Hp & Hroom & Hk) Hf Hto.
  assert (Hgf : goodFragment f) by (rewrite Forall_forall in Hgood; by apply Hgood).
  destruct free as [|e free]; [destruct frs; [done|]; cbn in Hroom; lia|].
  destruct (receiveFragment s f e free inc rdy Hp Hto Hgf) as (s2 & Hrun & Hp2 & Hv2 & Hn2 & Hvx & Hcfg & Hbuf).
  pose proof (taken_holds _ _ _ _ _ _ Hp2 Hp Hv2 Hbuf) as Hhold. pose proof (taken_changed _ _ _ _ Hvx Hbuf) as Hch.
  unfold receive, stackStep. rewrite Hrun.
  assert (Hone : parts [f] = [f]).
  { destruct (parts_split [] f Hf ltac:(apply not_elem_of_nil)) as (r1 & r2 & E & E1 & _). rewrite parts_nil in E.
    symmetry in E. apply app_eq_nil in E as [-> ->]. exact E1. }
  destruct (fragMore f || negb (fragOffset f =? 0)) eqn:Emode.
  - assert (Hk2 : noKey s2 (packetKey (packetOf f (timerCounter s))) inc).
    { change (packetKey _) with key. eapply noKey_changed; [exact Hch| |exact Hk]. intros d Hd.
      rewrite <- (app_nil_r inc) in Hp2, Hd. eapply taken_other; [exact Hp2|exact Hd|by left]. }
    destruct (insert_new N s2 e _ free inc rdy Hp2 Hv2 eq_refl Hn2 Hk2) as (s3 & free3 & inc3 & -> & Hp3 & Hs3 & Hsub & Hl).
    cbn [mbind result_bind fmap result_fmap fst]. eexists. split; [done|].
    assert (Hcfg3 : sameConfig s s3) by (destruct Hs3 as [Hst _]; unfold stable, sameConfig in *; destruct_and!; split_and!; congruence).
    split; [done|]. split.
    + intros E. exfalso. rewrite Hone in E. rewrite <- E in Hsplit. destruct Hsplit as (Ho & _ & Hm). by rewrite Hm, Ho in Emode.
    + intros _. assert (Ht3 : timerCounter s3 = timerCounter s) by apply Hcfg3. split; [by rewrite Ht3|].
      exists free3, (inc3 ++ [(e, [])]). split; [done|]. split; [cbn in *; lia|].
      pose proof (contentOf_unchanged _ _ (proj2 Hs3)) as Hc3.
      exists inc3, (e, []), [], (timerCounter s). split_and!; try done; try lia.
      * eapply noKey_same; [exact Hc3|]. unfold noKey in *. rewrite Forall_forall in *. intros d Hd. apply Hk2.
        by eapply elem_of_sublist.
      * unfold createdOf. cbn [fst]. by rewrite (proj2 Hs3), Hv2.
      * rewrite Ht3, Z.add_0_r. symmetry. by apply Z.mod_small.
      * rewrite Hone. cbn [members fst snd]. constructor; [|by constructor]. eapply holdsFragment_same; [exact Hc3|apply Hs3|done].
  - pose proof (only_fragment f Hf Emode) as Efrs.
    destruct (ready_ok N s2 (e, []) [] free inc rdy Hp2) as (s3 & Hr & Hp3 & Hs3).
    { cbn. split; [|done]. unfold fragOf. by rewrite Hv2. }
    cbn [fst] in Hr. rewrite Hr. cbn [mbind result_bind fmap result_fmap fst]. eexists. split; [done|].
    split; [destruct Hs3 as [Hst _]; unfold stable, sameConfig in *; destruct_and!; split_and!; congruence|].
    split; [|intros H; by rewrite Hone, Efrs in H]. intros _. exists free, inc, (e, []). split; [done|].
    rewrite Efrs. cbn [members fst snd]. constructor; [|by constructor].
    eapply holdsFragment_same; [apply contentOf_unchanged, Hs3|apply Hs3|done].
Qed.

(** A fragment that arrives later. *)
Lemma receive_next s R n f :
  R <> [] -> (length R < length frs)%nat -> assembling s R n -> f ∈ frs -> (f ∉ R) -> 0 <= n <= FRAGMENT_TIMEOUT -> parts R <> [] ->
  dst = myIP s \/ dst = 0xFFFFFFFF ->
  exists s', receive s f = Ok s' /\ sameConfig s s' /\
    (parts (f :: R) = frs -> assembled s') /\ (parts (f :: R) <> frs -> assembling s' (f :: R) n).
Proof using Hmac HmyMac HmyIP Hdst Hident Hsplit Hgood.
  intros HR HRl (Htime & free & inc & Hp & Hroom & Hmid) Hf HfR Hn Hparts Hto.
  destruct R as [|g0 R0]; [done|]. set (R := g0 :: R0) in *. destruct Hmid as (b & d & a & t & -> & Hkb & Hcr & Htt & Ht & Hh).
  assert (Hgf : goodFragment f) by (rewrite Forall_forall in Hgood; by apply Hgood).
  assert (Hfree : free <> []).
  { intros ->. cbn [length] in Hroom. lia. }
  destruct free as [|e free]; [done|].
  destruct (receiveFragment s f e free (b ++ d :: a) rdy Hp Hto Hgf) as (s2 & Hrun & Hp2 & Hv2 & Hn2 & Hvx & Hcfg & Hbuf).
  pose proof (taken_holds _ _ _ _ _ _ Hp2 Hp Hv2 Hbuf) as Hhold. pose proof (taken_changed _ _ _ _ Hvx Hbuf) as Hch.
  destruct (parts_split R f Hf HfR) as (r1 & r2 & E1 & E2 & Hlt & Hge & Hmore).
  rewrite E1 in Hh, Hparts. apply Forall2_app_inv_r in Hh as (l1 & l2 & Hl1 & Hl2 & Hm).
  assert (Hother : forall i, i ∈ members d -> i <> e).
  { intros i Hi. eapply taken_other; [exact Hp2| |exact Hi]. apply elem_of_app. right. by left. }
  assert (Hheld : forall l r, (forall i, i ∈ l -> i ∈ members d) -> Forall2 (holdsFragment s) l r -> Forall2 (holdsFragment s2) l r).
  { intros l r Hin H. induction H as [|i g l r Hi H IH]; constructor.
    - eapply holdsFragment_changed; [exact Hch| |exact Hi]. apply Hother, Hin. by left.
    - apply IH. intros j Hj. apply Hin. by right. }
  assert (Hl1' : Forall2 (holdsFragment s2) l1 r1) by (apply Hheld; [|done]; intros i Hi; rewrite Hm, elem_of_app; by left).
  assert (Hl2' : Forall2 (holdsFragment s2) l2 r2) by (apply Hheld; [|done]; intros i Hi; rewrite Hm, elem_of_app; by right).
  assert (Hfst : exists g, holdsFragment s2 (fst d) g).
  { unfold members in Hm. destruct l1 as [|i l1].
    - destruct l2 as [|i l2]; [done|]. injection Hm as -> _. apply Forall2_cons_inv_l in Hl2' as (g & ? & Hg & _). by exists g.
    - injection Hm as -> _. apply Forall2_cons_inv_l in Hl1' as (g & ? & Hg & _). by exists g. }
  destruct Hfst as [gd Hgd].
  assert (Hmode : fragMore f || negb (fragOffset f =? 0) = true).
  { destruct (fragMore f || negb (fragOffset f =? 0)) eqn:E; [done|]. pose proof (only_fragment f Hf E) as Efrs. exfalso.
    apply Hparts. rewrite <- E1. unfold parts. rewrite Efrs. by rewrite filter_cons_False. }
  unfold receive, stackStep. rewrite Hrun, Hmode.
  destruct (insert_into N s2 e f (packetOf f (timerCounter s)) free b d a rdy l1 l2 r1 r2 t Hp2 Hv2 eq_refl)
    as (s3 & free3 & b3 & d3 & -> & Hm3 & Hcr3 & Hst3 & Hc3 & Hsub & Hl & Hout); try done.
  { by apply holdsFragment_placed. }
  { change (packetKey _) with key. eapply noKey_changed; [exact Hch| |exact Hkb]. intros d' Hd'.
    eapply taken_other; [exact Hp2| |by left]. apply elem_of_app. by left. }
  { by eapply holdsFragment_key. }
  { destruct (Hch (fst d) (Hother (fst d) ltac:(by left))) as (_ & -> & _). done. }
  { rewrite (passedTimeSince_mod s2 t n); [lia| |done|unfold FRAGMENT_TIMEOUT in Hn; lia].
    assert (E : timerCounter s2 = timerCounter s) by apply Hcfg. by rewrite E. }
  { eapply Forall2_impl; [exact Hl1'|]. apply holdsFragment_placed. }
  { eapply Forall2_impl; [exact Hl2'|]. apply holdsFragment_placed. }
  cbn [mbind result_bind fmap result_fmap fst]. eexists. split; [done|].
  assert (Hcfg3 : sameConfig s s3) by (unfold stable, sameConfig in *; destruct_and!; split_and!; congruence).
  split; [done|]. rewrite <- E2 in Hout.
  assert (Hall : Forall2 (holdsFragment s3) (members d3) (parts (f :: R))).
  { rewrite Hm3, E2. apply (Forall2_impl (holdsFragment s2)); [apply Forall2_app; [done|by constructor]|].
    intros i g. apply holdsFragment_same; [exact Hc3|apply Hst3]. }
  pose proof (complete_iff frs (parts (f :: R)) Hsplit (sublist_filter _ _)) as Hcomplete.
  split.
  - intros E. rewrite (proj2 Hcomplete E) in Hout. exists free3, (b3 ++ a), d3. split; [done|]. by rewrite <- E.
  - intros E. destruct (complete (parts (f :: R))); [by destruct E; apply Hcomplete|].
    assert (Ht3 : timerCounter s3 = timerCounter s) by apply Hcfg3. split; [by rewrite Ht3|].
    exists free3, (b3 ++ d3 :: a). split; [done|]. split; [cbn in *; lia|].
    exists b3, d3, a, t. split_and!; try done; [|by rewrite Ht3|lia..].
    eapply noKey_same; [exact Hc3|].
    unfold noKey in *. rewrite Forall_forall in *. intros d' Hd'.
    assert (Hin : d' ∈ b) by (by eapply elem_of_sublist).
    unfold keyOf. destruct (Hch (fst d')) as (-> & _); [eapply taken_other; [exact Hp2| |by left]; apply elem_of_app; by left|].
    by apply Hkb.
Qed.

(** Arrivals and ticks, in order: [None] is a tick of the timer. *)
Definition arrivalEvent (o : option Fragment) : StackEvent :=
  match o with Some f => Receive (frameOf f) (zlength (frameOf f)) | None => Tick end.

Fixpoint numTicks (os : list (option Fragment)) : Z :=
  match os with
  | [] => 0
  | Some _ :: os => numTicks os
  | None :: os => 1 + numTicks os
  end.

Fixpoint arrivals (os : list (option Fragment)) : list Fragment :=
  match os with
  | [] => []
  | Some f :: os => f :: arrivals os
  | None :: os => arrivals os
  end.

Lemma numTicks_nonneg os : 0 <= numTicks os.
Proof. induction os as [|[f|] os IH]; cbn [numTicks]; lia. Qed.

Definition progress (s : NetworkStackHandler) (R : list Fragment) (n : Z) : Prop :=
  (dst = myIP s \/ dst = 0xFFFFFFFF) /\ (parts R = frs -> assembled s) /\ (parts R <> frs -> assembling s R n).

Lemma assembled_tick s : assembled s -> assembled (tick s).
Proof.
  intros (free & inc & d & Hp & Hh). exists free, inc, d. split; [by apply (pool_same N s)|].
  eapply Forall2_impl; [exact Hh|]. intros i g Hg. exact Hg.
Qed.

Lemma assembling_tick s R n : assembling s R n -> assembling (tick s) R (n + 1).
Proof.
  intros (Ht & free & inc & Hp & Hroom & Hmid). pose proof (tick_timer s Ht) as Htick.
  split; [rewrite Htick; apply Z.mod_pos_bound; lia|].
  exists free, inc. split; [by apply (pool_same N s)|]. split; [done|]. destruct R as [|g R]; [exact Hmid|].
  destruct Hmid as (b & d & a & t & E & Hk & Hcr & Htime & Hb & Hh). exists b, d, a, t. split_and!; try done; try lia.
  rewrite Htick, Htime, Z.add_mod_idemp_l by lia. f_equal. lia.
Qed.

Lemma length_parts R : length (parts R) = length frs -> parts R = frs.
Proof.
  unfold parts. clear. revert R. induction frs as [|f l IH]; intros R; [done|].
  destruct (decide (f ∈ R)) as [Hf|Hf].
  - rewrite filter_cons_True by done. cbn. intros [= E]. f_equal. by apply IH.
  - rewrite filter_cons_False by done. cbn. pose proof (length_filter (fun f => f ∈ R) l). lia.
Qed.

Lemma run_arrivals os : forall s R n,
  progress s R n -> arrivals os ++ R ≡ₚ frs -> 0 <= n -> n + numTicks os <= FRAGMENT_TIMEOUT ->
  exists s', runEvents N TS LS s (map arrivalEvent os) = Ok s' /\ assembled s'.
Proof using Hmac HmyMac HmyIP Hdst Hident Hsplit Hgood.
  induction os as [|[f|] os IH]; intros s R n (Hto & Hdone & Hmid) Hperm Hn Hticks; cbn [map runEvents arrivals numTicks] in *.
  - exists s. split; [done|]. apply Hdone, parts_all. intros f Hf. by rewrite <- Hperm in Hf.
  - pose proof (numTicks_nonneg os) as Hpos. cbn [app] in Hperm.
    assert (Hf : f ∈ frs) by (rewrite <- Hperm; by left).
    pose proof (splitFrom_NoDup _ _ Hsplit) as Hnd. rewrite <- Hperm in Hnd. apply NoDup_cons in Hnd as [HfR Hnd].
    rewrite not_elem_of_app in HfR. destruct HfR as [_ HfR].
    assert (Hne : parts R <> frs) by (intros E; apply HfR; by eapply parts_incl).
    assert (Hstep : exists s1 n1, receive s f = Ok s1 /\ sameConfig s s1 /\ 0 <= n1 <= n /\
      (parts (f :: R) = frs -> assembled s1) /\ (parts (f :: R) <> frs -> assembling s1 (f :: R) n1)).
    { destruct R as [|g R0].
      - destruct (receive_first s n f (Hmid Hne) Hf Hto) as (s1 & H1 & H2 & H3 & H4). exists s1, 0. split_and!; done || lia.
      - destruct (receive_next s (g :: R0) n f) as (s1 & H1 & H2 & H3 & H4); try done.
        + rewrite <- Hperm. cbn. rewrite length_app. cbn. lia.
        + by apply Hmid.
        + lia.
        + assert (Hg : g ∈ frs) by (rewrite <- Hperm; right; apply elem_of_app; right; by left).
          intros E. assert (Hin : g ∈ parts (g :: R0)) by (apply list_elem_of_filter; split; [by left|done]).
          rewrite E in Hin. by apply not_elem_of_nil in Hin.
        + exists s1, n. split_and!; done || lia. }
    destruct Hstep as (s1 & n1 & Hrun & Hcfg & Hn1 & H3 & H4). unfold receive in Hrun. cbn [arrivalEvent].
    rewrite Hrun. cbn [mbind result_bind]. apply (IH s1 (f :: R) n1); [|etrans; [symmetry; apply Permutation_middle|exact Hperm]|lia|lia].
    split; [|by split]. destruct Hcfg as (_ & _ & E & _). by rewrite E.
  - cbn [arrivalEvent stackStep mbind result_bind]. change (incrementTimerCounter s) with (tick s).
    apply (IH (tick s) R (n + 1)); [|done|lia|lia].
    split; [done|]. split; [intros E; by apply assembled_tick, Hdone|intros E; by apply assembling_tick, Hmid].
Qed.

(** What a reader sees of a datagram. *)
Definition datagramBytes (l : list (IPv4Packet * list Z)) : list Z :=
  concat (map (fun x => take (Z.to_nat (dataSize (fst x))) (snd x)) l).

Lemma fragmentsFrom_holds s ms fs : forall fuel,
  threaded (fragOf (packetListElements s)) ms None -> Forall2 (holdsFragment s) ms fs -> (length ms <= fuel)%nat ->
  exists l, fragmentsFrom fuel s (firstOf ms None) = Ok l /\ datagramBytes l = payloadOf fs /\
    Forall (fun x => packetKey (fst x) = key /\ protocol (fst x) = proto) l /\
    map (fun x => dataSize (fst x)) l = map fragSize fs.
Proof.
  intros fuel Ht Hh. revert fuel Ht. induction Hh as [|i f ms fs [Hc (b & Hb & Htake)] Hh IH]; intros fuel Ht Hf.
  - exists []. by destruct fuel.
  - destruct fuel as [|fuel]; [cbn in Hf; lia|]. destruct Ht as [Hi Ht]. cbn [fragmentsFrom firstOf].
    apply fragOf_valueOf in Hi as (v & Hv & Hnext). rewrite (getValue_ok _ _ _ Hv). cbn [mbind result_bind]. rewrite Hb.
    cbn [mbind result_bind orFault]. rewrite Hnext. destruct (IH fuel Ht) as (l & -> & E & Hl & Hsz); [cbn in Hf; lia|].
    cbn [mbind result_bind]. unfold contentOf in Hc. rewrite Hv in Hc. injection Hc as H1 H2 H3 H4 H5 H6 H7.
    eexists. split; [done|]. split.
    + unfold datagramBytes, payloadOf in *. cbn [map concat fst snd]. rewrite E, H3. unfold fragSize, zlength. by rewrite Nat2Z.id, Htake.
    + split; [|by cbn [map fst]; rewrite Hsz, H3].
      constructor; [|done]. cbn [fst]. unfold packetKey, key. by rewrite H1, H2, H4, H7.
Qed.
End wire.

(** ** The theorem for the receiver *)

Lemma reassembled_ok N TS LS sender mac dst proto ident frs s free inc os :
  zlength mac = 6 -> zlength (myMac sender) = 6 -> is_u32 (myIP sender) -> is_u32 dst -> is_u16 ident ->
  splitFrom 0 frs -> Forall goodFragment frs ->
  pool N s [] free inc [] -> (length frs <= length free)%nat -> noKey s (key sender dst ident) inc ->
  0 <= timerCounter s < 2 ^ 31 -> dst = myIP s \/ dst = 0xFFFFFFFF ->
  arrivals os ≡ₚ frs -> numTicks os <= FRAGMENT_TIMEOUT ->
  exists s' p l, runEvents N TS LS s (map (arrivalEvent sender mac dst proto ident) os) = Ok s' /\
    getLatestIPv4Packet s' = Some p /\ fragmentsFrom (S N) s' (Some p) = Ok l /\
    datagramBytes l = payloadOf frs /\
    Forall (fun x => packetKey (fst x) = key sender dst ident /\ protocol (fst x) = proto) l /\
    map (fun x => dataSize (fst x)) l = map fragSize frs.
Proof.
  intros Hmac HmyMac HmyIP Hdst Hident Hsplit Hgood Hp Hroom Hk Ht Hto Hperm Hticks.
  destruct (run_arrivals N TS LS sender mac dst proto ident Hmac HmyMac HmyIP Hdst Hident frs Hsplit Hgood [] os s [] 0)
    as (s' & Hrun & free' & inc' & d & Hp' & Hh); [|by rewrite app_nil_r|lia|lia|].
  - split; [done|]. split.
    + intros E. rewrite parts_nil in E. by rewrite <- E in Hsplit.
    + intros _. split; [done|]. exists free, inc. split_and!; done.
  - cbn [app] in Hp'.
    assert (Hchain : threaded (fragOf (packetListElements s')) (members d) None).
    { pose proof (pool_chains _ _ _ _ _ _ Hp') as Hc. rewrite Forall_app, Forall_singleton in Hc. tauto. }
    destruct (fragmentsFrom_holds sender dst proto ident s' (members d) frs (S N) Hchain Hh) as (l & Hl & Hb & Hkey & Hsz).
    { pose proof (members_bound _ _ _ _ _ _ d Hp' ltac:(apply elem_of_app; right; by left)). lia. }
    exists s', (fst d), l. split_and!; try done.
    unfold getLatestIPv4Packet. by rewrite (pool_head _ _ _ _ _ _ Hp').
Qed.

(** C12: the fragments of a datagram, cut at any multiples of eight bytes and
    arriving in any order, each once, with at most ten ticks of the timer in
    between, while there is a free buffer for each, are put together again: when
    the last one has arrived the datagram is the packet to be read next, and following its fragments gives
    exactly the bytes that were sent, whatever incomplete datagrams of others
    there are. *)
Theorem fragments_reassembled N TS LS sender mac dst proto ident frs s free inc os :
  zlength mac = 6 -> zlength (myMac sender) = 6 -> is_u32 (myIP sender) -> is_u32 dst -> is_u16 ident ->
  splitFrom 0 frs -> Forall goodFragment frs ->
  pool N s [] free inc [] -> (length frs <= length free)%nat -> noKey s (key sender dst ident) inc ->
  0 <= timerCounter s < 2 ^ 31 -> dst = myIP s \/ dst = 0xFFFFFFFF ->
  arrivals os ≡ₚ frs -> numTicks os <= FRAGMENT_TIMEOUT ->
  exists s' p l, runEvents N TS LS s (map (arrivalEvent sender mac dst proto ident) os) = Ok s' /\
    getLatestIPv4Packet s' = Some p /\ fragmentsFrom (S N) s' (Some p) = Ok l /\
    datagramBytes l = payloadOf frs /\
    Forall (fun x => packetKey (fst x) = key sender dst ident /\ protocol (fst x) = proto) l.
Proof.
  intros Hmac HmyMac HmyIP Hdst Hident Hsplit Hgood Hp Hroom Hk Ht Hto Hperm Hticks.
  destruct (reassembled_ok N TS LS sender mac dst proto ident frs s free inc os) as (s' & p & l & H1 & H2 & H3 & H4 & H5 & _); try done.
  by exists s', p, l.
Qed.

(** ** The sender *)

(** The cut the sender makes: full frames, the last one shorter. *)
Fixpoint cutPayload (n : nat) (off : Z) (bytes : list Z) : list Fragment :=
  match n with
  | O => []
  | S n =>
      let size := ETHERNET_MTU - IPV4_MINIMAL_HEADER_SIZE in
      if zlength bytes <? size then [mkFragment off false bytes]
      else mkFragment off true (take (Z.to_nat size) bytes) :: cutPayload n (off + size) (drop (Z.to_nat size) bytes)
  end.

Definition FULL_FRAGMENT : Z := 1480.

Lemma cutPayload_ok n : forall off bytes,
  zlength bytes < FULL_FRAGMENT * Z.of_nat n -> zlength bytes mod FULL_FRAGMENT <> 0 ->
  0 <= off -> off mod 8 = 0 -> off + zlength bytes < 2 ^ 16 ->
  splitFrom off (cutPayload n off bytes) /\ Forall goodFragment (cutPayload n off bytes) /\
  payloadOf (cutPayload n off bytes) = bytes /\ (length (cutPayload n off bytes) <= n)%nat.
Proof.
  unfold FULL_FRAGMENT. induction n as [|n IH]; intros off bytes Hn Hmod Ho Ho8 Hmax; pose proof (zlength_nonneg bytes); [lia|].
  cbn [cutPayload]. change (ETHERNET_MTU - IPV4_MINIMAL_HEADER_SIZE) with 1480.
  destruct (Z.ltb_spec (zlength bytes) 1480).
  - split_and!.
    + cbn. split_and!; [done| |done]. unfold fragSize. cbn. destruct (decide (zlength bytes = 0)) as [E|]; [by rewrite E in Hmod|lia].
    + apply Forall_singleton. unfold goodFragment, fragSize, ETHERNET_MTU, IPV4_MINIMAL_HEADER_SIZE. cbn [fragOffset fragBytes].
      split_and!; [lia|lia|done|lia].
    + unfold payloadOf. cbn. by rewrite app_nil_r.
    + cbn. lia.
  - set (t := take (Z.to_nat 1480) bytes). set (r := drop (Z.to_nat 1480) bytes).
    assert (Ht : zlength t = 1480) by (apply zlength_take; lia). assert (Hr : zlength r = zlength bytes - 1480) by (apply zlength_drop; lia).
    assert (Hm1 : (zlength bytes - 1480) mod 1480 <> 0).
    { replace (zlength bytes - 1480) with (zlength bytes + (-1) * 1480) by lia. by rewrite Z.mod_add by lia. }
    assert (Hm2 : (off + 1480) mod 8 = 0) by dlia.
    destruct (IH (off + 1480) r) as (H1 & H2 & H3 & H4); [rewrite Hr; lia|by rewrite Hr|lia|done|rewrite Hr; lia|].
    split_and!.
    + cbn [splitFrom fragOffset fragMore]. unfold fragSize. cbn [fragBytes]. rewrite Ht. split_and!; [done|lia|].
      destruct (cutPayload n (off + 1480) r) as [|g l] eqn:E; [done|]. by split.
    + constructor; [|done]. unfold goodFragment, fragSize. cbn. rewrite Ht. split_and!; lia || done.
    + unfold payloadOf in *. cbn [map concat fragBytes]. rewrite H3. apply take_drop.
    + cbn. lia.
Qed.

(** Sending until the datagram is done: the frames. *)
Fixpoint sendDatagram (TS LS fuel : nat) (s : NetworkStackHandler) (m : Mem) (dst proto data dataLen ident off : Z)
  : result (NetworkStackHandler * list (list Z)) :=
  match fuel with
  | O => Fault OutOfFuel
  | S fuel =>
      r ← handleOutgoingIPv4Packet TS LS s m dst proto data dataLen ident off false;
      if bool_decide (sendProgress (snd r) = SendingFragment) then
        rest ← sendDatagram TS LS fuel (fst r) m dst proto data dataLen (sendIdentification (snd r)) (sendFragmentOffset (snd r));
        Ok (fst rest, sendFrame (snd r) :: snd rest)
      else Ok (fst r, [sendFrame (snd r)])
  end.

Section sender.
Context (TS LS : nat) (HTS : (0 < TS)%nat).

(** The sender's table has a fresh entry for the address. *)
Definition freshEntry (s : NetworkStackHandler) (ip : Z) (mac : list Z) (e : ARPEntry) : Prop :=
  entryIP e = ip /\ entryMAC e = mac /\ lastRequested e <> -1 /\ lastAnswered e <> -1 /\
  passedTimeSince s (lastAnswered e) <= passedTimeSince s (lastRequested e) /\
  passedTimeSince s (lastAnswered e) <= ARP_ENTRY_TIMEOUT.

Definition arpKnown (s : NetworkStackHandler) (ip : Z) (mac : list Z) : Prop :=
  let start := ip mod Z.of_nat TS * Z.of_nat LS in
  exists k e, start <= k < start + Z.of_nat LS /\ (arpEntries s).[k] = Some e /\ freshEntry s ip mac e /\
    (forall j, start <= j < k -> exists x, (arpEntries s).[j] = Some x /\ entryIP x <> ip).

Lemma selectArpEntry_match s ip k : forall n i a,
  i <= k < i + Z.of_nat n -> 0 <= i ->
  (exists e, (arpEntries s).[k] = Some e /\ entryIP e = ip) ->
  (forall j, i <= j < k -> exists x, (arpEntries s).[j] = Some x /\ entryIP x <> ip) ->
  match a with Some j => 0 <= j < zlength (arpEntries s) | None => True end ->
  selectArpEntry n s ip i a = Ok (Some k).
Proof.
  intros n. induction n as [|n IH]; intros i a Hi Hi0 Hk Hj Ha; [lia|]. cbn [selectArpEntry]. unfold arpCandidate.
  destruct (decide (i = k)) as [->|Hne].
  - destruct Hk as (e & He & Hip). rewrite He. cbn [mbind result_bind orFault]. by rewrite Hip, Z.eqb_refl.
  - destruct (Hj i ltac:(lia)) as (x & Hx & Hxip). rewrite Hx. cbn [mbind result_bind orFault].
    destruct (Z.eqb_spec (entryIP x) ip); [done|].
    assert (Hch : exists chosen, (match a with None => Ok None
        | Some k => e ← (arpEntries s).[k] ?? OutOfRange; Ok (Some e) end) = Ok chosen).
    { destruct a as [j|]; [|by eexists]. destruct (znth_lt_Some (arpEntries s) j Ha) as [y Hy]. rewrite Hy. by eexists. }
    destruct Hch as [chosen ->]. cbn [mbind result_bind].
    pose proof (znth_Some_lt _ _ _ Hx).
    repeat (case_match; try discriminate); simplify_eq; (apply IH; [lia|lia|done|intros j Hjj; apply Hj; lia|done]).
Qed.

Lemma resolveArp_known s ip mac :
  arpKnown s ip mac ->
  exists s' e, resolveArp TS LS s ip = Ok (s', inl e) /\ entryMAC e = mac /\ arpKnown s' ip mac /\
    timerCounter s' = timerCounter s /\ myMac s' = myMac s /\ myIP s' = myIP s /\ gatewayIP s' = gatewayIP s /\
    networkMask s' = networkMask s /\ identificationCounter s' = identificationCounter s.
Proof using HTS.
  intros (k & e & Hk & He & (Hip & Hmac & Hreq & Hans & Hle & Htime) & Hj). unfold resolveArp.
  assert (Hstart : 0 <= ip mod Z.of_nat TS * Z.of_nat LS).
  { pose proof (Z.mod_pos_bound ip (Z.of_nat TS) ltac:(lia)). nia. }
  rewrite (selectArpEntry_match s ip k) by (done || (by exists e) || lia). cbn [mbind result_bind]. rewrite He. cbn [mbind result_bind orFault].
  rewrite Hip, Z.eqb_refl. cbn [negb].
  destruct (Z.eqb_spec (lastRequested e) (-1)); [done|]. destruct (Z.eqb_spec (lastAnswered e) (-1)); [done|]. cbn [orb].
  destruct (Z.ltb_spec (passedTimeSince s (lastRequested e)) (passedTimeSince s (lastAnswered e))); [lia|].
  destruct (Z.ltb_spec ARP_ENTRY_TIMEOUT (passedTimeSince s (lastAnswered e))); [lia|].
  eexists _, _. split; [reflexivity|]. cbn [entryMAC]. split; [done|]. split; [|done].
  exists k. eexists. cbn [withArpEntries arpEntries]. split; [done|]. pose proof (znth_Some_lt _ _ _ He).
  split; [by apply znth_zset_eq|]. split; [by split_and!|].
  intros j Hjk. destruct (Hj j Hjk) as (x & Hx & Hxip). exists x. split; [|done]. rewrite znth_zset_ne; [done|lia].
Qed.

Lemma frameOf_same s s' mac dst proto ident f :
  myMac s' = myMac s -> myIP s' = myIP s -> frameOf s' mac dst proto ident f = frameOf s mac dst proto ident f.
Proof. intros E1 E2. unfold frameOf, fragmentFrame. by rewrite E1, E2. Qed.

Lemma nextHop_same s s' ip :
  myIP s' = myIP s -> gatewayIP s' = gatewayIP s -> networkMask s' = networkMask s -> nextHop s' ip = nextHop s ip.
Proof. intros E1 E2 E3. unfold nextHop. by rewrite E1, E2, E3. Qed.

Lemma cut_loadBytes m a k :
  FULL_FRAGMENT <= k ->
  take 1480 (loadBytes m a (Z.to_nat k)) = loadBytes m a 1480 /\
  drop 1480 (loadBytes m a (Z.to_nat k)) = loadBytes m (a + FULL_FRAGMENT) (Z.to_nat (k - FULL_FRAGMENT)).
Proof.
  unfold FULL_FRAGMENT. intros Hk.
  replace (Z.to_nat k) with (1480 + Z.to_nat (k - 1480))%nat by lia. rewrite loadBytes_app.
  split; [apply take_app_length'|apply drop_app_length']; symmetry; apply length_loadBytes.
Qed.

(** One call: the fragment at [off], to an address that is known. *)
Lemma outgoing_known s m dst proto data dataLen ident off mac :
  arpKnown s (nextHop s dst) mac -> data <> 0 -> 0 <= off < dataLen -> dataLen < 2 ^ 16 ->
  let id := if off =? 0 then identificationCounter s else ident in
  let lastFragment := dataLen - off <? FULL_FRAGMENT in
  let size := if lastFragment then dataLen - off else FULL_FRAGMENT in
  exists s', handleOutgoingIPv4Packet TS LS s m dst proto data dataLen ident off false =
    Ok (s', mkSendResult (if lastFragment then Done else SendingFragment)
              (frameOf s mac dst proto id (mkFragment off (negb lastFragment) (loadBytes m (data + off) (Z.to_nat size))))
              id (off + size)) /\
    arpKnown s' (nextHop s' dst) mac /\ myMac s' = myMac s /\ myIP s' = myIP s.
Proof using HTS.
  intros Harp Hdata Hoff Hlen id. unfold FULL_FRAGMENT, handleOutgoingIPv4Packet.
  destruct (Z.eqb_spec data 0); [done|]. cbn [orb]. destruct (Z.leb_spec dataLen off); [lia|].
  destruct (resolveArp_known s _ mac Harp) as (s1 & e & -> & He & Harp1 & Htime & E1 & E2 & E3 & E4 & E5).
  cbn [mbind result_bind]. change (ETHERNET_MTU - IPV4_MINIMAL_HEADER_SIZE) with 1480.
  destruct (if off =? 0 then (_, _) else (_, _)) as [s2 ident2] eqn:Es2.
  assert (Hs2 : ident2 = id /\ myMac s2 = myMac s /\ myIP s2 = myIP s /\ nextHop s2 dst = nextHop s dst /\
    arpEntries s2 = arpEntries s1 /\ timerCounter s2 = timerCounter s1).
  { unfold id. destruct (off =? 0); injection Es2 as <- <-; split_and!; try done;
      (apply nextHop_same; done). }
  destruct Hs2 as (-> & Em & Ei & Eh & Earp & Et). rewrite He. set (lastFragment := dataLen - off <? 1480).
  exists s2. split; [|split; [|done]].
  - f_equal. f_equal. unfold frameOf. cbn [fragOffset fragMore fragBytes]. rewrite negb_involutive, u32_small.
    + f_equal. unfold fragmentFrame. by rewrite Em, Ei.
    + unfold is_u32, lastFragment. destruct (Z.ltb_spec (dataLen - off) 1480); lia.
  - rewrite Eh. destruct Harp1 as (k & x & Hk & Hx & Hfresh & Hj). exists k, x. rewrite Earp.
    split; [done|]. split; [done|]. split; [|done]. unfold freshEntry, passedTimeSince in *. rewrite Et. exact Hfresh.
Qed.

(** The frames sent are those of the cut payload. *)
Lemma sendDatagram_ok m dst proto data dataLen mac n : forall s ident off,
  arpKnown s (nextHop s dst) mac -> data <> 0 -> 0 <= off < dataLen -> dataLen < 2 ^ 16 ->
  dataLen - off < FULL_FRAGMENT * Z.of_nat n -> (dataLen - off) mod FULL_FRAGMENT <> 0 ->
  let id := if off =? 0 then identificationCounter s else ident in
  exists s', sendDatagram TS LS n s m dst proto data dataLen ident off =
    Ok (s', map (frameOf s mac dst proto id) (cutPayload n off (loadBytes m (data + off) (Z.to_nat (dataLen - off))))).
Proof using HTS.
  induction n as [|n IH]; intros s ident off Harp Hdata Hoff Hlen Hn Hmod id; [unfold FULL_FRAGMENT in *; lia|].
  cbn [sendDatagram cutPayload]. destruct (outgoing_known s m dst proto data dataLen ident off mac) as (s1 & -> & Harp1 & Em & Ei); [done..|].
  fold id. change (ETHERNET_MTU - IPV4_MINIMAL_HEADER_SIZE) with 1480. rewrite zlength_loadBytes, Z2Nat.id by lia.
  unfold FULL_FRAGMENT in *.
  cbn [mbind result_bind sendProgress snd fst]. destruct (Z.ltb_spec (dataLen - off) 1480).
  - rewrite bool_decide_false by done. by eexists.
  - rewrite bool_decide_true by done. cbn [sendIdentification sendFragmentOffset sendFrame].
    destruct (IH s1 id (off + 1480) Harp1) as [s3 Hrun]; [done|dlia|done|lia| |].
    { replace (dataLen - (off + 1480)) with (dataLen - off + (-1) * 1480) by lia. by rewrite Z.mod_add by lia. }
    destruct (Z.eqb_spec (off + 1480) 0); [lia|]. rewrite Hrun. cbn [mbind result_bind fst snd].
    exists s3. cbn [map]. f_equal. f_equal. change (Z.to_nat 1480) with 1480%nat.
    destruct (cut_loadBytes m (data + off) (dataLen - off)) as [-> ->]; [unfold FULL_FRAGMENT; lia|]. unfold FULL_FRAGMENT. f_equal.
    replace (data + (off + 1480)) with (data + off + 1480) by lia.
    replace (dataLen - (off + 1480)) with (dataLen - off - 1480) by lia.
    apply map_ext. intros f. by apply frameOf_same.
Qed.
End sender.

(** ** The round trip *)

(** Frames arriving and ticks. *)
Definition frameEvent (o : option (list Z)) : StackEvent :=
  match o with Some frame => Receive frame (zlength frame) | None => Tick end.

Fixpoint arrivedFrames (os : list (option (list Z))) : list (list Z) :=
  match os with
  | [] => []
  | Some f :: os => f :: arrivedFrames os
  | None :: os => arrivedFrames os
  end.

Fixpoint frameTicks (os : list (option (list Z))) : Z :=
  match os with
  | [] => 0
  | Some _ :: os => frameTicks os
  | None :: os => 1 + frameTicks os
  end.

Lemma arrivals_of_frames s mac dst proto ident os : forall fs,
  arrivedFrames os = map (frameOf s mac dst proto ident) fs ->
  exists os', map frameEvent os = map (arrivalEvent s mac dst proto ident) os' /\ arrivals os' = fs /\ numTicks os' = frameTicks os.
Proof.
  induction os as [|[f|] os IH]; intros fs E; cbn [arrivedFrames frameTicks map] in *.
  - destruct fs; [|done]. by exists [].
  - destruct fs as [|g fs]; [done|]. injection E as -> E. destruct (IH fs E) as (os' & E1 & E2 & E3).
    exists (Some g :: os'). cbn [map arrivalEvent arrivals numTicks frameEvent]. by rewrite E1, E2, E3.
  - destruct (IH fs E) as (os' & E1 & E2 & E3). exists (None :: os'). cbn [map arrivalEvent arrivals numTicks frameEvent].
    by rewrite E1, E2, E3.
Qed.

(** The most fragments a datagram has. *)
Definition MAX_FRAGMENTS : nat := 45.

Lemma cutPayload_first n off bytes :
  match cutPayload (S n) off bytes with f :: _ => fragSize f = Z.min (zlength bytes) FULL_FRAGMENT | [] => False end.
Proof.
  cbn [cutPayload]. change (ETHERNET_MTU - IPV4_MINIMAL_HEADER_SIZE) with 1480. unfold FULL_FRAGMENT.
  destruct (Z.ltb_spec (zlength bytes) 1480); unfold fragSize; cbn [fragBytes]; [lia|]. rewrite zlength_take; lia.
Qed.

Lemma roundtrip_ok TS LS sender mac m dst proto data dataLen :
  (0 < TS)%nat -> arpKnown TS LS sender (nextHop sender dst) mac ->
  zlength mac = 6 -> zlength (myMac sender) = 6 -> is_u32 (myIP sender) -> is_u32 dst ->
  is_u16 (identificationCounter sender) -> data <> 0 -> 0 < dataLen < 2 ^ 16 -> dataLen mod FULL_FRAGMENT <> 0 ->
  exists sender' frames, sendDatagram TS LS MAX_FRAGMENTS sender m dst proto data dataLen 0 0 = Ok (sender', frames) /\
  forall N TS' LS' s free inc os,
    pool N s [] free inc [] -> (length frames <= length free)%nat ->
    noKey s (key sender dst (identificationCounter sender)) inc ->
    0 <= timerCounter s < 2 ^ 31 -> dst = myIP s \/ dst = 0xFFFFFFFF ->
    arrivedFrames os ≡ₚ frames -> frameTicks os <= FRAGMENT_TIMEOUT ->
    exists s' p l, runEvents N TS' LS' s (map frameEvent os) = Ok s' /\ getLatestIPv4Packet s' = Some p /\
      fragmentsFrom (S N) s' (Some p) = Ok l /\ datagramBytes l = loadBytes m data (Z.to_nat dataLen) /\
      Forall (fun x => sourceIP (fst x) = myIP sender /\ protocol (fst x) = proto) l /\
      match l with x :: _ => Z.min dataLen FULL_FRAGMENT <= dataSize (fst x) | [] => False end.
Proof.
  intros HTS Harp Hmac HmyMac HmyIP Hdst Hident Hdata Hlen Hmod.
  destruct (sendDatagram_ok TS LS HTS m dst proto data dataLen mac MAX_FRAGMENTS sender 0 0 Harp) as [s' Hrun];
    [done|lia|lia|unfold FULL_FRAGMENT, MAX_FRAGMENTS; lia|by rewrite Z.sub_0_r|].
  rewrite Z.sub_0_r, Z.add_0_r in Hrun. change (0 =? 0) with true in Hrun. cbv iota in Hrun.
  set (bytes := loadBytes m data (Z.to_nat dataLen)) in *.
  assert (Hbl : zlength bytes = dataLen) by (unfold bytes; rewrite zlength_loadBytes; lia).
  destruct (cutPayload_ok MAX_FRAGMENTS 0 bytes) as (Hsplit & Hgood & Hpay & _);
    [unfold FULL_FRAGMENT, MAX_FRAGMENTS; lia|by rewrite Hbl|lia|done|lia|].
  set (frs := cutPayload MAX_FRAGMENTS 0 bytes) in *. eexists _, _. split; [exact Hrun|].
  intros N TS' LS' s free inc os Hp Hroom Hk Ht Hto Hperm Hticks. rewrite length_map in Hroom.
  apply Permutation_map_inv in Hperm as (fs & Efs & Hperm).
  destruct (arrivals_of_frames _ _ _ _ _ _ _ Efs) as (os' & -> & Earr & Etick).
  destruct (reassembled_ok N TS' LS' sender mac dst proto (identificationCounter sender) frs s free inc os')
    as (s2 & p & l & H1 & H2 & H3 & H4 & H5 & H6); try done; [by rewrite Earr|by rewrite Etick|].
  exists s2, p, l. split_and!; [done..|by rewrite H4| |].
  - eapply Forall_impl; [exact H5|]. intros x [Hx ?]. split; [|done]. unfold packetKey, key in Hx. by injection Hx.
  - pose proof (cutPayload_first 44 0 bytes) as Hfirst. change (cutPayload 45 0 bytes) with frs in Hfirst. rewrite Hbl in Hfirst.
    destruct frs as [|f frs]; [done|]. destruct l as [|x l]; [done|]. injection H6 as -> _. lia.
Qed.

(** C4: a datagram of less than 65536 bytes sent by one handler and received by
    another: the sender, who has the next hop's address in its table, cuts it in
    frames, and whatever the order the frames arrive in, with at most ten ticks
    of the timer in between, the receiver, if it has a free buffer for each of
    them and no fragment with the datagram's key, has as its next packet exactly
    the bytes sent, from the sender's address.  Datagrams whose length is a
    multiple of 1480 are excluded: the sender marks their last fragment as having
    another one after it ([multiple_of_1480_unfinished]). *)
Theorem datagram_roundtrip TS LS sender mac m dst proto data dataLen :
  (0 < TS)%nat -> arpKnown TS LS sender (nextHop sender dst) mac ->
  zlength mac = 6 -> zlength (myMac sender) = 6 -> is_u32 (myIP sender) -> is_u32 dst ->
  is_u16 (identificationCounter sender) -> data <> 0 -> 0 < dataLen < 2 ^ 16 -> dataLen mod FULL_FRAGMENT <> 0 ->
  exists sender' frames, sendDatagram TS LS MAX_FRAGMENTS sender m dst proto data dataLen 0 0 = Ok (sender', frames) /\
  forall N TS' LS' s free inc os,
    pool N s [] free inc [] -> (length frames <= length free)%nat ->
    noKey s (key sender dst (identificationCounter sender)) inc ->
    0 <= timerCounter s < 2 ^ 31 -> dst = myIP s \/ dst = 0xFFFFFFFF ->
    arrivedFrames os ≡ₚ frames -> frameTicks os <= FRAGMENT_TIMEOUT ->
    exists s' p l, runEvents N TS' LS' s (map frameEvent os) = Ok s' /\ getLatestIPv4Packet s' = Some p /\
      fragmentsFrom (S N) s' (Some p) = Ok l /\ datagramBytes l = loadBytes m data (Z.to_nat dataLen) /\
      Forall (fun x => sourceIP (fst x) = myIP sender /\ protocol (fst x) = proto) l.
Proof.
  intros HTS Harp Hmac HmyMac HmyIP Hdst Hident Hdata Hlen Hmod.
  destruct (roundtrip_ok TS LS sender mac m dst proto data dataLen) as (sender' & frames & Hrun & Hall); [done..|].
  exists sender', frames. split; [done|]. intros N TS' LS' s free inc os Hp Hroom Hk Ht Hto Hperm Hticks.
  destruct (Hall N TS' LS' s free inc os) as (s' & p & l & H1 & H2 & H3 & H4 & H5 & _); [done..|]. by exists s', p, l.
Qed.

(** ** A datagram of three fragments *)

Definition sampleReceiver : NetworkStackHandler := newNetworkStackHandler 4 2 2 [1; 2; 3; 4; 5; 6] 0x0A000001 0x0A0000FE 24.

(** The sender, with the receiver in its table. *)
Definition sampleSender : NetworkStackHandler :=
  withArpEntries (newNetworkStackHandler 4 1 1 [7; 8; 9; 10; 11; 12] 0x0A000002 0x0A0000FE 24)
    [mkARPEntry 0x0A000001 0 0 0 [1; 2; 3; 4; 5; 6]].

Definition sampleParts : list Fragment :=
  [mkFragment 0 true (replicate 16 1); mkFragment 16 true (replicate 8 2); mkFragment 24 false (replicate 5 3)].

Definition sampleArrivals : list (option Fragment) :=
  [Some (mkFragment 24 false (replicate 5 3)); None; Some (mkFragment 0 true (replicate 16 1)); None;
   Some (mkFragment 16 true (replicate 8 2))].

Lemma sampleReceiver_pool : pool 4 sampleReceiver [] (map Z.of_nat (seq 0 4)) [] [].
Proof. apply new_pool. lia. Qed.

Example fragments_reassembled_witness :
  exists s' p l, runEvents 4 2 2 sampleReceiver
      (map (arrivalEvent sampleSender [1; 2; 3; 4; 5; 6] 0x0A000001 17 99) sampleArrivals) = Ok s' /\
    getLatestIPv4Packet s' = Some p /\ fragmentsFrom 5 s' (Some p) = Ok l /\
    datagramBytes l = replicate 16 1 ++ replicate 8 2 ++ replicate 5 3 /\
    Forall (fun x => packetKey (fst x) = key sampleSender 0x0A000001 99 /\ protocol (fst x) = 17) l.
Proof.
  apply (fragments_reassembled 4 2 2 sampleSender [1; 2; 3; 4; 5; 6] 0x0A000001 17 99 sampleParts sampleReceiver
           (map Z.of_nat (seq 0 4)) [] sampleArrivals); try done; try (unfold is_u32, is_u16; cbn; lia).
  - repeat (apply Forall_cons; split); try (by apply Forall_nil); repeat split; vm_compute; congruence.
  - apply sampleReceiver_pool.
  - by left.
  - cbn [arrivals sampleArrivals]. apply (Permutation_cons_append [mkFragment 0 true (replicate 16 1); mkFragment 16 true (replicate 8 2)]).
Defined.

Definition sampleBytes : Mem := fun a => a mod 251.

Definition sampleFrames : list (list Z) :=
  match sendDatagram 1 1 MAX_FRAGMENTS sampleSender sampleBytes 0x0A000001 17 1000 3000 0 0 with
  | Ok (_, frames) => frames
  | Fault _ => []
  end.

Lemma arrivedFrames_all l : arrivedFrames (map Some l) = l /\ frameTicks (map Some l) = 0.
Proof. induction l as [|f l [IH1 IH2]]; [done|]. cbn. by rewrite IH1, IH2. Qed.

Lemma sampleFrames_length : length sampleFrames = 3%nat.
Proof. vm_compute. reflexivity. Qed.

(** The frames arrive in the reverse order. *)
Example datagram_roundtrip_witness :
  length sampleFrames = 3%nat /\
  exists s' p l, runEvents 4 2 2 sampleReceiver (map frameEvent (map Some (reverse sampleFrames))) = Ok s' /\
    getLatestIPv4Packet s' = Some p /\ fragmentsFrom 5 s' (Some p) = Ok l /\
    datagramBytes l = loadBytes sampleBytes 1000 3000 /\
    Forall (fun x => sourceIP (fst x) = 0x0A000002 /\ protocol (fst x) = 17) l.
Proof.
  split; [exact sampleFrames_length|].
  destruct (datagram_roundtrip 1 1 sampleSender [1; 2; 3; 4; 5; 6] sampleBytes 0x0A000001 17 1000 3000)
    as (sender' & frames & Hrun & Hall); [lia| |done|done|done|done|done|lia|lia|done|].
  - exists 0, (mkARPEntry 0x0A000001 0 0 0 [1; 2; 3; 4; 5; 6]). split; [vm_compute; split; congruence|]. split; [reflexivity|].
    split; [split_and!; vm_compute; congruence|]. intros j Hj. change (_ mod _ * _) with 0 in Hj. lia.
  - pose proof sampleFrames_length as Hlen. unfold sampleFrames in *. rewrite Hrun in *. destruct (arrivedFrames_all (reverse frames)) as [E1 E2].
    apply (Hall 4%nat 2%nat 2%nat sampleReceiver (map Z.of_nat (seq 0 4)) [] (map Some (reverse frames)));
      [|rewrite Hlen; cbn; lia|by constructor|done|by left|rewrite E1; apply reverse_Permutation|by rewrite E2].
    apply sampleReceiver_pool.
Defined.

(** A datagram of exactly 1480 bytes: the only fragment says that another one
    follows, and none does. *)
Example multiple_of_1480_unfinished :
  match sendDatagram 1 1 MAX_FRAGMENTS sampleSender sampleBytes 0x0A000001 17 1000 1480 0 0 with
  | Ok (_, [frame; rest]) => byteAt frame 20 = Ok 0x20 /\ rest = []
  | _ => False
  end.
Proof. vm_compute. by split. Qed.
