(* ===== verification/SocketManager.v ===== *)
(** UDP sockets: [operating_system/network_management_task/socket_manager.{h,cpp}].

    [socketDescs[taskID][socketID]] is element [taskID * 10 + socketID] of one
    list; the transmission requests are list elements as in [LinkedLists]; user
    buffers are addresses in the memory of the task (0 is [nullptr]).  A
    received packet is the list of its fragments with their data, as
    [NetworkStackHandler.fragmentsFrom] reads them. *)
From S2P Require Import Prelude Mem LinkedLists NetworkStackHandler.

Definition NUM_POSSIBLE_TASKS : Z := 50.
Definition MAX_NUM_SOCKETS_PER_TASK : Z := 10.
Definition NUM_UDP_PORTS : Z := 9000.
Definition MAX_NUM_TRANSMISSION_REQUESTS : Z := 15.
Definition RECEIVE_BUFFER_HEADER_SIZE : Z := 4 + 2 + 2.
Definition SEND_BUFFER_HEADER_SIZE : Z := 4 + 2 + 2.
Definition UDP_HEADER_SIZE : Z := 8.

Record SocketDesc := mkSocketDesc {
  socketIsActive : Z;
  socketPort : Z;
  receiveBuffer : Z;
  receiveBufferSize : Z;
  sendBuffer : Z;
  sendBufferSize : Z;
  sendBufferIdentification : Z;
  sendBufferFragmentOffset : Z;
  sendBufferIndicatorWhenFinished : Z;
}.

Record OutgoingUDPPacket := mkOutgoingUDPPacket {
  outSourcePort : Z;
  outDestinationPort : Z;
  outDestinationIP : Z;
  outData : Z;
  outDataLen : Z;
  outIdentification : Z;
  outFragmentOffset : Z;
}.

Definition noOutgoingUDPPacket : OutgoingUDPPacket := mkOutgoingUDPPacket 0 0 0 0 0 0 0.

Record UDPPortState := mkUDPPortState {
  portIsActive : Z;
  portTaskID : Z;
  portSocketID : Z;
}.

(** [pSocketManager] is the manager or [nullptr]. *)
Record TransmissionRequest := mkTransmissionRequest {
  hasSocketManager : bool;
  udpPort : Z;
}.

Record SocketManager := mkSocketManager {
  socketDescs : list SocketDesc;
  udpPortStates : list UDPPortState;
  transmissionRequestListElements : list (Element TransmissionRequest);
  transmissionRequestsHead : option Z;
  transmissionRequestsTail : option Z;
  unusedTransmissionRequestsHead : option Z;
}.

#[export] Instance OutgoingUDPPacket_eq_dec : EqDecision OutgoingUDPPacket.
Proof. solve_decision. Defined.
#[export] Instance TransmissionRequest_eq_dec : EqDecision TransmissionRequest.
Proof. solve_decision. Defined.
#[export] Instance SocketDesc_eq_dec : EqDecision SocketDesc.
Proof. solve_decision. Defined.

(** ** Field updates *)

Definition withSockets (s : SocketManager) ds :=
  mkSocketManager ds (udpPortStates s) (transmissionRequestListElements s) (transmissionRequestsHead s)
    (transmissionRequestsTail s) (unusedTransmissionRequestsHead s).
Definition withPorts (s : SocketManager) ps :=
  mkSocketManager (socketDescs s) ps (transmissionRequestListElements s) (transmissionRequestsHead s)
    (transmissionRequestsTail s) (unusedTransmissionRequestsHead s).
Definition withRequests (s : SocketManager) es h t u :=
  mkSocketManager (socketDescs s) (udpPortStates s) es h t u.

Definition setIsActive (d : SocketDesc) (a : Z) :=
  mkSocketDesc a (socketPort d) (receiveBuffer d) (receiveBufferSize d) (sendBuffer d) (sendBufferSize d)
    (sendBufferIdentification d) (sendBufferFragmentOffset d) (sendBufferIndicatorWhenFinished d).
Definition setReceive (d : SocketDesc) (b n : Z) :=
  mkSocketDesc (socketIsActive d) (socketPort d) b n (sendBuffer d) (sendBufferSize d)
    (sendBufferIdentification d) (sendBufferFragmentOffset d) (sendBufferIndicatorWhenFinished d).
Definition setSend (d : SocketDesc) (b n ident off indicator : Z) :=
  mkSocketDesc (socketIsActive d) (socketPort d) (receiveBuffer d) (receiveBufferSize d) b n ident off indicator.

(** ** Construction *)

Definition newRequestElement (i : nat) : Element TransmissionRequest :=
  mkElement (mkTransmissionRequest false 0) (if (i =? 14)%nat then None else Some (Z.of_nat (i + 1))) None.

(** The constructor; fields it leaves uninitialised are 0 here. *)
Definition newSocketManager : SocketManager :=
  mkSocketManager
    (replicate (Z.to_nat (NUM_POSSIBLE_TASKS * MAX_NUM_SOCKETS_PER_TASK)) (mkSocketDesc 0 0 0 0 0 0 0 0 0))
    (replicate (Z.to_nat NUM_UDP_PORTS) (mkUDPPortState 0 0 0))
    (map newRequestElement (seq 0 15)) None None (Some 0).

(** ** Opening and closing *)

Definition socketIndex (taskID socketID : Z) : Z := taskID * MAX_NUM_SOCKETS_PER_TASK + socketID.

Definition getSocket (s : SocketManager) (taskID socketID : Z) : result SocketDesc :=
  (socketDescs s).[socketIndex taskID socketID] ?? OutOfRange.

Definition putSocket (s : SocketManager) (taskID socketID : Z) (d : SocketDesc) : SocketManager :=
  withSockets s (socketDescs s).[socketIndex taskID socketID := d].

Definition getPort (s : SocketManager) (port : Z) : result UDPPortState := (udpPortStates s).[port] ?? OutOfRange.

Definition closeSocket (s : SocketManager) (taskID socketID : Z) : result SocketManager :=
  if MAX_NUM_SOCKETS_PER_TASK <=? socketID then Ok s
  else
    d ← getSocket s taskID socketID;
    if socketIsActive d =? 1 then
      p ← getPort s (socketPort d);
      let s := withPorts s (udpPortStates s).[socketPort d := mkUDPPortState 0 (portTaskID p) (portSocketID p)] in
      Ok (putSocket s taskID socketID (setIsActive d 0))
    else Ok s.

Definition closeAllSocketsForTask (s : SocketManager) (taskID : Z) : result SocketManager :=
  for_rangeM (Z.to_nat MAX_NUM_SOCKETS_PER_TASK) 0 (fun i s => closeSocket s taskID i) s.

(** The loop of [openSocket]: the first inactive socket of the task. *)
Fixpoint findFreeSocket (n : nat) (s : SocketManager) (taskID i : Z) : result (option Z) :=
  match n with
  | O => Ok None
  | S n' =>
      d ← getSocket s taskID i;
      if socketIsActive d =? 0 then Ok (Some i) else findFreeSocket n' s taskID (i + 1)
  end.

Definition openSocket (s : SocketManager) (taskID port : Z) : result (SocketManager * Z) :=
  if NUM_UDP_PORTS <=? port then Ok (s, -1)
  else
    p ← getPort s port;
    if portIsActive p =? 1 then Ok (s, -1)
    else
      slot ← findFreeSocket (Z.to_nat MAX_NUM_SOCKETS_PER_TASK) s taskID 0;
      match slot with
      | None => Ok (s, -1)
      | Some i =>
          let s := putSocket s taskID i (mkSocketDesc 1 port 0 0 0 0 0 0 0) in
          Ok (withPorts s (udpPortStates s).[port := mkUDPPortState 1 taskID i], i)
      end.

(** ** Buffers *)

Definition setReceiveBuffer (s : SocketManager) (taskID socketID newBuffer newBufferSize : Z)
  : result (SocketManager * Z) :=
  if MAX_NUM_SOCKETS_PER_TASK <=? socketID then Ok (s, -1)
  else if (newBufferSize <? 2 * RECEIVE_BUFFER_HEADER_SIZE)
          && (negb (newBufferSize =? 0) || negb (newBuffer =? 0)) then Ok (s, -1)
  else
    d ← getSocket s taskID socketID;
    if socketIsActive d =? 0 then Ok (s, -1)
    else Ok (putSocket s taskID socketID (setReceive d newBuffer newBufferSize), 0).

(** Taking an unused request and putting it, for [port], at the beginning of
    the list of requests; [None] if there is none. *)
Definition pushTransmissionRequest (s : SocketManager) (port : Z) : result (option SocketManager) :=
  match unusedTransmissionRequestsHead s with
  | None => Ok None
  | Some r =>
      let es := transmissionRequestListElements s in
      unused ← getNext es r;
      es ← setValue es r (mkTransmissionRequest true port);
      es ← setNext es r (transmissionRequestsHead s);
      es ← setPrev es r None;
      match transmissionRequestsHead s with
      | Some h =>
          es ← setPrev es h (Some r);
          Ok (Some (withRequests s es (Some r) (transmissionRequestsTail s) unused))
      | None => Ok (Some (withRequests s es (Some r) (Some r) unused))
      end
  end.

Definition setSendBuffer (s : SocketManager) (taskID socketID newBuffer newBufferSize indicatorWhenFinished : Z)
  : result (SocketManager * Z) :=
  if MAX_NUM_SOCKETS_PER_TASK <=? socketID then Ok (s, -1)
  else if (newBufferSize <? SEND_BUFFER_HEADER_SIZE + UDP_HEADER_SIZE)
          && (negb (newBufferSize =? 0) || negb (newBuffer =? 0) || negb (indicatorWhenFinished =? 0))
  then Ok (s, -1)
  else
    d ← getSocket s taskID socketID;
    if socketIsActive d =? 0 then Ok (s, -1)
    else if (newBufferSize =? 0) && (newBuffer =? 0) && (indicatorWhenFinished =? 0) then
      Ok (putSocket s taskID socketID (setSend d 0 0 0 0 0), 0)
    else
      pushed ← pushTransmissionRequest s (socketPort d);
      match pushed with
      | None => Ok (s, -1)
      | Some s => Ok (putSocket s taskID socketID (setSend d newBuffer newBufferSize 0 0 indicatorWhenFinished), 0)
      end.

(** ** Received packets *)

(** The bytes copied from the data of a packet. *)
Definition packetBytes (data : list Z) (from n : Z) : result (list Z) :=
  if zlength data <? from + n then Fault OutOfRange
  else Ok (take (Z.to_nat n) (drop (Z.to_nat from) data)).

(** The loop over the fragments; [first] for the packet itself.  The memory,
    and the accumulated size or [None] when it returns. *)
Fixpoint copyFragments (fragments : list (IPv4Packet * list Z)) (first : bool) (buffer udpLength accumulatedUDPSize : Z)
    (m : Mem) : result (Mem * option Z) :=
  match fragments with
  | [] => Ok (m, Some accumulatedUDPSize)
  | (packet, data) :: rest =>
      if udpLength <? accumulatedUDPSize + dataSize packet then Ok (m, None)
      else
        m ← (if first
             then bytes ← packetBytes data UDP_HEADER_SIZE (dataSize packet - UDP_HEADER_SIZE);
                  Ok (storeBytes m (buffer + RECEIVE_BUFFER_HEADER_SIZE) bytes)
             else bytes ← packetBytes data 0 (dataSize packet);
                  Ok (storeBytes m (buffer + RECEIVE_BUFFER_HEADER_SIZE + (accumulatedUDPSize - UDP_HEADER_SIZE)) bytes));
        copyFragments rest false buffer udpLength (u16 (accumulatedUDPSize + dataSize packet)) m
  end.

Definition handleReceivedPacket (s : SocketManager) (m : Mem) (fragments : list (IPv4Packet * list Z))
  : result (SocketManager * Mem) :=
  match fragments with
  | [] => Fault NullPointer
  | (packet, data) :: _ =>
      if negb (protocol packet =? 17) then Ok (s, m)
      else if dataSize packet <? UDP_HEADER_SIZE then Ok (s, m)
      else
        d2 ← byteAt data 2; d3 ← byteAt data 3;
        let destinationPort := u16 (Z.lor (Z.shiftl d2 8) d3) in
        p ← getPort s destinationPort;
        if portIsActive p =? 0 then Ok (s, m)
        else
          d ← getSocket s (portTaskID p) (portSocketID p);
          d4 ← byteAt data 4; d5 ← byteAt data 5;
          let udpLength := u16 (Z.lor (Z.shiftl d4 8) d5) in
          if receiveBufferSize d <? u32 (udpLength - UDP_HEADER_SIZE + 2 * RECEIVE_BUFFER_HEADER_SIZE) then Ok (s, m)
          else
            r ← copyFragments fragments true (receiveBuffer d) udpLength 0 m;
            let '(m, accumulated) := r in
            if negb (bool_decide (accumulated = Some udpLength)) then Ok (s, m)
            else
              d0 ← byteAt data 0; d1 ← byteAt data 1;
              let sourcePort := u16 (Z.lor (Z.shiftl d0 8) d1) in
              let m := storeBytes m (receiveBuffer d)
                         (le32 (sourceIP packet) ++ le16 sourcePort ++ le16 (udpLength - UDP_HEADER_SIZE)) in
              let used := RECEIVE_BUFFER_HEADER_SIZE + (udpLength - UDP_HEADER_SIZE) in
              let m := for_range (Z.to_nat RECEIVE_BUFFER_HEADER_SIZE) 0
                         (fun i m => store m (receiveBuffer d + i + used) 0) m in
              Ok (putSocket s (portTaskID p) (portSocketID p)
                    (setReceive d (u32 (receiveBuffer d + used)) (u32 (receiveBufferSize d - used))), m)
  end.

(** ** Transmission requests *)

(** The socket of a request: [None] when its port is closed. *)
Definition requestSocket (s : SocketManager) (r : TransmissionRequest) : result (option (UDPPortState * SocketDesc)) :=
  if hasSocketManager r then
    p ← getPort s (udpPort r);
    if portIsActive p =? 0 then Ok None
    else d ← getSocket s (portTaskID p) (portSocketID p); Ok (Some (p, d))
  else Fault NullPointer.

Definition updateTop (s : SocketManager) (r : TransmissionRequest) (newFragmentOffset newIdentification : Z)
  : result SocketManager :=
  x ← requestSocket s r;
  match x with
  | None => Ok s
  | Some (p, d) =>
      if sendBufferSize d =? 0 then Ok s
      else Ok (putSocket s (portTaskID p) (portSocketID p)
                 (setSend d (sendBuffer d) (sendBufferSize d) newIdentification newFragmentOffset
                    (sendBufferIndicatorWhenFinished d)))
  end.

(** [(header[7] << 8) + header[6]] *)
Definition sendHeaderLength (m : Mem) (header : Z) : Z := u16 (Z.shiftl (m (header + 7)) 8 + m (header + 6)).

Definition removeTop (s : SocketManager) (m : Mem) (r : TransmissionRequest) : result (SocketManager * bool) :=
  x ← requestSocket s r;
  match x with
  | None => Ok (s, true)
  | Some (p, d) =>
      if sendBufferSize d <? 2 * (SEND_BUFFER_HEADER_SIZE + UDP_HEADER_SIZE) then Ok (s, true)
      else
        let udpLength := sendHeaderLength m (sendBuffer d) in
        if (udpLength <? UDP_HEADER_SIZE)
           || (sendBufferSize d <? 2 * SEND_BUFFER_HEADER_SIZE + UDP_HEADER_SIZE + udpLength) then Ok (s, true)
        else
          Ok (putSocket s (portTaskID p) (portSocketID p)
                (setSend d (u32 (sendBuffer d + (SEND_BUFFER_HEADER_SIZE + udpLength)))
                   (u32 (sendBufferSize d - (SEND_BUFFER_HEADER_SIZE + udpLength))) 0 0
                   (sendBufferIndicatorWhenFinished d)), false)
  end.

Definition indicateAsFinished (s : SocketManager) (m : Mem) (r : TransmissionRequest) : result (SocketManager * Mem) :=
  x ← requestSocket s r;
  match x with
  | None => Ok (s, m)
  | Some (p, d) =>
      let m := if negb (sendBufferIndicatorWhenFinished d =? 0)
               then storeBytes m (sendBufferIndicatorWhenFinished d) [1; 0; 0; 0] else m in
      Ok (putSocket s (portTaskID p) (portSocketID p)
            (setSend d 0 0 (sendBufferIdentification d) (sendBufferFragmentOffset d) 0), m)
  end.

Definition getTop (s : SocketManager) (m : Mem) (r : TransmissionRequest) : result OutgoingUDPPacket :=
  x ← requestSocket s r;
  match x with
  | None => Ok noOutgoingUDPPacket
  | Some (_, d) =>
      if sendBufferSize d <? SEND_BUFFER_HEADER_SIZE + UDP_HEADER_SIZE then Ok noOutgoingUDPPacket
      else
        let h := sendBuffer d in
        let udpLength := sendHeaderLength m h in
        if (udpLength <? UDP_HEADER_SIZE) || (sendBufferSize d <? SEND_BUFFER_HEADER_SIZE + udpLength)
        then Ok noOutgoingUDPPacket
        else
          Ok (mkOutgoingUDPPacket (udpPort r) (u16 (Z.shiftl (m (h + 5)) 8 + m (h + 4)))
                (u32 (Z.shiftl (m (h + 3)) 24 + Z.shiftl (m (h + 2)) 16 + Z.shiftl (m (h + 1)) 8 + m h))
                (u32 (h + SEND_BUFFER_HEADER_SIZE)) udpLength
                (sendBufferIdentification d) (sendBufferFragmentOffset d))
  end.

(** ** The iterator: the current element *)

Definition getTransmissionRequestsIterator (s : SocketManager) : option Z := transmissionRequestsHead s.

Definition isFinished (it : option Z) : bool := bool_decide (it = None).

Definition goToNext (s : SocketManager) (it : option Z) : result (option Z) :=
  match it with
  | None => Ok None
  | Some c => getNext (transmissionRequestListElements s) c
  end.

(** [operator->] *)
Definition currentRequest (s : SocketManager) (it : option Z) : result (option TransmissionRequest) :=
  match it with
  | None => Ok None
  | Some c => v ← getValue (transmissionRequestListElements s) c; Ok (Some v)
  end.

Definition remove (s : SocketManager) (it : option Z) : result (SocketManager * option Z) :=
  match it with
  | None => Ok (s, None)
  | Some c =>
      let es := transmissionRequestListElements s in
      it ← getNext es c;
      p ← getPrev es c;
      n ← getNext es c;
      r ← setNextOrHead es p (transmissionRequestsHead s) n;
      let '(es, head) := r in
      n ← getNext es c;
      p ← getPrev es c;
      r ← setPrevOrTail es n (transmissionRequestsTail s) p;
      let '(es, tail) := r in
      es ← setNext es c (unusedTransmissionRequestsHead s);
      Ok (withRequests s es head tail (Some c), it)
  end.

Definition relocateToEnd (s : SocketManager) (it : option Z) : result (SocketManager * option Z) :=
  match it with
  | None => Ok (s, None)
  | Some c =>
      let es := transmissionRequestListElements s in
      n ← getNext es c;
      match n with
      | None => Ok (s, Some c)
      | Some nx =>
          p ← getPrev es c;
          es ← setPrev es nx p;
          p ← getPrev es c;
          n ← getNext es c;
          r ← setNextOrHead es p (transmissionRequestsHead s) n;
          let '(es, head) := r in
          t ← transmissionRequestsTail s ?? NullPointer;
          es ← setNext es t (Some c);
          es ← setPrev es c (Some t);
          es ← setNext es c None;
          Ok (withRequests s es head (Some c) (unusedTransmissionRequestsHead s), Some nx)
      end
  end.
