(* ===== verification/SocketManagerFacts.v ===== *)
(** What the socket manager promises: ports and sockets stay matched one to
    one, the transmission requests stay in order on a doubly linked list while
    it is iterated, received datagrams are written in the documented format and
    never outside the receive buffer of their socket, and the packets of a send
    buffer are found one after the other. *)
From S2P Require Import Prelude Mem LinkedLists NetworkStackHandler SocketManager.

Lemma zlength_le32 w : zlength (le32 w) = 4.
Proof. done. Qed.

Lemma zlength_le16 w : zlength (le16 w) = 2.
Proof. done. Qed.

(** ** The list of transmission requests *)

(** [active] is the list from head to tail, [unused] the list of free
    elements; together they are all elements. *)
Record requests (s : SocketManager) (active unused : list Z) : Prop := {
  rq_next : threaded (nextOf (transmissionRequestListElements s)) active None;
  rq_prev : backThreaded (prevOf (transmissionRequestListElements s)) None active;
  rq_head : transmissionRequestsHead s = firstOf active None;
  rq_tail : transmissionRequestsTail s = lastOf active None;
  rq_free : threaded (nextOf (transmissionRequestListElements s)) unused None;
  rq_unused : unusedTransmissionRequestsHead s = firstOf unused None;
  rq_all : active ++ unused ≡ₚ map Z.of_nat (seq 0 15);
  rq_size : zlength (transmissionRequestListElements s) = MAX_NUM_TRANSMISSION_REQUESTS;
}.

Lemma requests_nodup s active unused : requests s active unused -> NoDup (active ++ unused).
Proof.
  intros Hr. rewrite (rq_all _ _ _ Hr). apply NoDup_fmap_2; [by intros x y ?%Nat2Z.inj|apply NoDup_seq].
Qed.

Lemma requests_range s active unused i :
  requests s active unused -> i ∈ active ++ unused -> 0 <= i < zlength (transmissionRequestListElements s).
Proof.
  intros Hr. rewrite (rq_all _ _ _ Hr), (rq_size _ _ _ Hr). unfold MAX_NUM_TRANSMISSION_REQUESTS.
  intros (k & <- & Hk%in_seq)%list_elem_of_In%in_map_iff. lia.
Qed.

(** What list operations leave alone. *)
Definition sameSockets (s s' : SocketManager) : Prop :=
  socketDescs s' = socketDescs s /\ udpPortStates s' = udpPortStates s.

Definition requestOf (s : SocketManager) (i : Z) : option TransmissionRequest :=
  valueOf (transmissionRequestListElements s) i.

Lemma push_ok s active unused port :
  requests s active unused ->
  match unused with
  | [] => pushTransmissionRequest s port = Ok None
  | r :: unused' =>
      exists s', pushTransmissionRequest s port = Ok (Some s') /\ requests s' (r :: active) unused' /\
        sameSockets s s' /\ updated (requestOf s) (requestOf s') r (mkTransmissionRequest true port)
  end.
Proof.
  intros Hr. pose proof (requests_nodup _ _ _ Hr) as Hnd.
  pose proof (fun i => requests_range _ _ _ i Hr) as Hrange.
  destruct Hr as [R1 R2 R3 R4 R5 R6 R7 R8]. unfold pushTransmissionRequest.
  destruct unused as [|r unused]; cbn [firstOf] in R6; rewrite R6; [done|].
  destruct R5 as [Hrn R5]. rewrite (getNext_ok _ _ _ Hrn). cbn [mbind result_bind].
  assert (Hri : 0 <= r < zlength (transmissionRequestListElements s))
    by (apply Hrange; rewrite elem_of_app; right; by left).
  destruct (setValue_ok (transmissionRequestListElements s) r (mkTransmissionRequest true port) Hri)
    as (es1 & -> & L1 & V1 & N1 & P1). cbn [mbind result_bind].
  destruct (setNext_ok es1 r (transmissionRequestsHead s)) as (es2 & -> & L2 & N2 & V2 & P2); [lia|]. cbn [mbind result_bind].
  destruct (setPrev_ok es2 r None) as (es3 & -> & L3 & P3 & V3 & N3); [lia|]. cbn [mbind result_bind].
  assert (HN : updated (nextOf (transmissionRequestListElements s)) (nextOf es3) r (firstOf active None)).
  { destruct N2 as [Ha Hb]. split; [by rewrite N3, Ha, R3|]. intros j Hj. by rewrite N3, Hb, N1. }
  assert (HP : updated (prevOf (transmissionRequestListElements s)) (prevOf es3) r None).
  { destruct P3 as [Ha Hb]. split; [done|]. intros j Hj. by rewrite Hb, P2, P1. }
  assert (HV : updated (requestOf s) (valueOf es3) r (mkTransmissionRequest true port)).
  { destruct V1 as [Ha Hb]. split; [by rewrite V3, V2|]. intros j Hj. by rewrite V3, V2, Hb. }
  assert (Hra : r ∉ active) by (apply NoDup_app in Hnd as (_ & Hd & _); intros Ha; apply (Hd r Ha); by left).
  assert (Hru : r ∉ unused) by (apply NoDup_app in Hnd as (_ & _ & Hd); by apply NoDup_cons in Hd as [? _]).
  assert (Hperm : (r :: active) ++ unused ≡ₚ map Z.of_nat (seq 0 15)) by (rewrite <- R7; solve_Permutation).
  destruct active as [|h active]; cbn [firstOf] in R3; rewrite R3.
  - eexists. split; [done|]. split; [|by split].
    constructor; cbn [withRequests transmissionRequestListElements transmissionRequestsHead transmissionRequestsTail
      unusedTransmissionRequestsHead]; try done; [..|lia].
    + cbn. split; [apply HN|done].
    + cbn. split; [apply HP|done].
    + by eapply threaded_updated.
  - destruct (setPrev_ok es3 h (Some r)) as (es4 & -> & L4 & P4 & V4 & N4).
    { rewrite L3, L2, L1. apply Hrange. by left. }
    cbn [mbind result_bind]. eexists. split; [done|].
    assert (Hhr : h <> r) by (intros ->; apply Hra; by left).
    assert (Hha : h ∉ active) by (apply NoDup_app in Hnd as (Hd & _); by apply NoDup_cons in Hd as [? _]).
    split; [|split; [done|]].
    + constructor; cbn [withRequests transmissionRequestListElements transmissionRequestsHead transmissionRequestsTail
      unusedTransmissionRequestsHead]; try done; [..|lia].
      * split; [by rewrite N4, (proj1 HN)|]. eapply threaded_unchanged; [exact N4|]. by eapply threaded_updated.
      * split; [by rewrite (proj2 P4), (proj1 HP)|]. split; [apply P4|].
        eapply backThreaded_updated; [exact P4|done|]. eapply backThreaded_updated; [exact HP| |apply R2].
        intros Ha. apply Hra. by right.
      * rewrite R4. by rewrite !lastOf_cons.
      * eapply threaded_unchanged; [exact N4|]. by eapply threaded_updated.
    + destruct HV as [Ha Hb]. unfold requestOf. cbn. split; [by rewrite V4|]. intros j Hj. by rewrite V4, Hb.
Qed.

Lemma firstOf_Some l n i : firstOf l n = Some i -> i ∈ l \/ n = Some i.
Proof. destruct l as [|x l]; [by right|]. intros [= ->]. left. by left. Qed.

Lemma lastOf_in l i : lastOf l None = Some i -> i ∈ l.
Proof. intros (l' & ->)%lastOf_Some. rewrite elem_of_app. right. by left. Qed.

(** The element an iterator stands at, and its pointers. *)
Lemma requests_at s before c after unused :
  requests s (before ++ c :: after) unused ->
  nextOf (transmissionRequestListElements s) c = Some (firstOf after None) /\
  prevOf (transmissionRequestListElements s) c = Some (lastOf before None) /\
  0 <= c < zlength (transmissionRequestListElements s) /\
  (forall i, lastOf before None = Some i -> 0 <= i < zlength (transmissionRequestListElements s)) /\
  (forall i, firstOf after None = Some i -> 0 <= i < zlength (transmissionRequestListElements s)) /\
  NoDup (c :: (before ++ after) ++ unused).
Proof.
  intros Hr. pose proof (requests_nodup _ _ _ Hr) as Hnd. pose proof (fun i => requests_range _ _ _ i Hr) as Hrange.
  destruct Hr as [[_ [R1 _]]%threaded_app [_ [R2 _]]%backThreaded_app _ _ _ _ _ _].
  split; [done|]. split; [done|]. split; [|split; [|split]].
  - apply Hrange. rewrite !elem_of_app. left; right; by left.
  - intros i Hi%lastOf_in. apply Hrange. rewrite !elem_of_app. tauto.
  - intros i [Hi|]%firstOf_Some; [|done]. apply Hrange. rewrite !elem_of_app. left; right; by right.
  - eapply NoDup_Permutation_proper; [|exact Hnd]. clear. solve_Permutation.
Qed.

Lemma remove_ok s before c after unused :
  requests s (before ++ c :: after) unused ->
  exists s', remove s (Some c) = Ok (s', firstOf after None) /\ requests s' (before ++ after) (c :: unused) /\
    sameSockets s s' /\ unchanged (requestOf s) (requestOf s').
Proof.
  intros Hr. destruct (requests_at _ _ _ _ _ Hr) as (Hn & Hp & Hc & Hb & Ha & Hnd).
  pose proof (requests_nodup _ _ _ Hr) as Hnd0. destruct Hr as [R1 R2 R3 R4 R5 R6 R7 R8].
  unfold remove. rewrite (getNext_ok _ _ _ Hn), (getPrev_ok _ _ _ Hp). cbn [mbind result_bind].
  destruct (setNextOrHead_ok (transmissionRequestListElements s) (lastOf before None) (transmissionRequestsHead s)
    (firstOf after None) Hb) as (es1 & -> & L1 & V1 & P1 & N1). cbn [mbind result_bind].
  apply NoDup_cons in Hnd as [Hcn Hnd].
  assert (Hcb : lastOf before None <> Some c)
    by (intros E%lastOf_in; apply Hcn; rewrite !elem_of_app; tauto).
  assert (Hca : firstOf after None <> Some c).
  { intros [E|]%firstOf_Some; [|done]. apply Hcn. rewrite !elem_of_app. tauto. }
  rewrite (getNext_ok es1 c (firstOf after None)) by (rewrite N1, decide_False by done; done).
  rewrite (getPrev_ok es1 c (lastOf before None)) by (by rewrite P1). cbn [mbind result_bind].
  destruct (setPrevOrTail_ok es1 (firstOf after None) (transmissionRequestsTail s) (lastOf before None))
    as (es2 & -> & L2 & V2 & N2 & P2); [by rewrite L1|]. cbn [mbind result_bind].
  destruct (setNext_ok es2 c (unusedTransmissionRequestsHead s)) as (es3 & -> & L3 & [N3 N3'] & V3 & P3); [lia|].
  cbn [mbind result_bind].
  assert (HN : forall j, j <> c -> nextOf es3 j =
    if decide (lastOf before None = Some j) then Some (firstOf after None) else nextOf (transmissionRequestListElements s) j)
    by (intros j Hj; by rewrite N3', N2, N1).
  assert (Hne : forall j, j ∈ (before ++ after) ++ unused -> j <> c) by (intros j Hj ->; done).
  eexists. split; [done|]. split; [|split; [done|intros j; unfold requestOf; cbn; by rewrite V3, V2, V1]].
  constructor; cbn [withRequests transmissionRequestListElements transmissionRequestsHead transmissionRequestsTail
      unusedTransmissionRequestsHead]; [..|lia].
  - eapply threaded_unlink; [exact R1|by apply NoDup_app in Hnd0 as (? & _)|].
    intros j Hj. apply HN, Hne. rewrite elem_of_app. by left.
  - eapply backThreaded_unlink; [exact R2|by apply NoDup_app in Hnd0 as (? & _)|].
    intros j Hj. rewrite P3, P2, P1. done.
  - destruct before as [|b before]; [done|]. cbn [app firstOf] in R3 |- *. rewrite R3.
    destruct (lastOf (b :: before) None) eqn:E; [done|]. by apply lastOf_None in E.
  - rewrite R4, !lastOf_app, lastOf_cons. destruct after as [|x after]; [done|]. by rewrite !lastOf_cons.
  - cbn. split; [by rewrite N3, R6|]. eapply threaded_frame; [|exact R5]. intros j Hj.
    rewrite HN by (apply Hne; rewrite !elem_of_app; tauto). rewrite decide_False; [done|].
    intros E%lastOf_in. apply NoDup_app in Hnd as (_ & Hd & _). apply (Hd j); [rewrite elem_of_app; tauto|done].
  - done.
  - rewrite <- R7. solve_Permutation.
Qed.

Lemma relocateToEnd_ok s before c after unused :
  requests s (before ++ c :: after) unused -> after <> [] ->
  exists s', relocateToEnd s (Some c) = Ok (s', firstOf after None) /\ requests s' (before ++ after ++ [c]) unused /\
    sameSockets s s' /\ unchanged (requestOf s) (requestOf s').
Proof.
  intros Hr Hafter. destruct (requests_at _ _ _ _ _ Hr) as (Hn & Hp & Hc & Hb & Ha & Hnd).
  pose proof (requests_nodup _ _ _ Hr) as Hnd0. destruct Hr as [R1 R2 R3 R4 R5 R6 R7 R8].
  destruct after as [|nx after]; [done|]. cbn [firstOf] in *.
  unfold relocateToEnd. rewrite (getNext_ok _ _ _ Hn). cbn [mbind result_bind]. rewrite (getPrev_ok _ _ _ Hp).
  cbn [mbind result_bind]. apply NoDup_cons in Hnd as [Hcn Hnd].
  assert (Hne : forall j, j ∈ (before ++ nx :: after) ++ unused -> j <> c) by (intros j Hj ->; done).
  assert (Hnx : nx <> c) by (apply Hne; rewrite !elem_of_app; left; right; by left).
  destruct (setPrev_ok (transmissionRequestListElements s) nx (lastOf before None) (Ha nx eq_refl))
    as (es1 & -> & L1 & [P1 P1'] & V1 & N1). cbn [mbind result_bind].
  rewrite (getPrev_ok es1 c (lastOf before None)) by (by rewrite P1').
  rewrite (getNext_ok es1 c (Some nx)) by (by rewrite N1). cbn [mbind result_bind].
  destruct (setNextOrHead_ok es1 (lastOf before None) (transmissionRequestsHead s) (Some nx))
    as (es2 & -> & L2 & V2 & P2 & N2); [by rewrite L1|]. cbn [mbind result_bind].
  destruct (lastOf (nx :: after) None) as [t|] eqn:Et; [|by apply lastOf_None in Et].
  pose proof (lastOf_in _ _ Et) as Ht. rewrite lastOf_app, !lastOf_cons in R4. rewrite lastOf_cons in Et.
  rewrite R4, Et. cbn [mbind result_bind orFault].
  assert (Htc : t <> c) by (apply Hne; rewrite !elem_of_app; tauto).
  assert (Htr : 0 <= t < zlength es2).
  { rewrite L2, L1, R8. unfold MAX_NUM_TRANSMISSION_REQUESTS.
    assert (Hin : t ∈ map Z.of_nat (seq 0 15)) by (rewrite <- R7, !elem_of_app; left; right; by right).
    apply list_elem_of_In, in_map_iff in Hin as (k & <- & Hk%in_seq). lia. }
  destruct (setNext_ok es2 t (Some c) Htr) as (es3 & -> & L3 & [N3 N3'] & V3 & P3). cbn [mbind result_bind].
  destruct (setPrev_ok es3 c (Some t)) as (es4 & -> & L4 & [P4 P4'] & V4 & N4); [lia|]. cbn [mbind result_bind].
  destruct (setNext_ok es4 c None) as (es5 & -> & L5 & [N5 N5'] & V5 & P5); [lia|]. cbn [mbind result_bind].
  eexists. split; [done|]. split; [|split; [done|intros j; unfold requestOf; cbn; by rewrite V5, V4, V3, V2, V1]].
  assert (Hmid : threaded (nextOf es2) (before ++ nx :: after) None).
  { eapply threaded_unlink; [exact R1|by apply NoDup_app in Hnd0 as (? & _)|]. intros j Hj. rewrite N2, N1. done. }
  assert (Hback : backThreaded (prevOf es2) None (before ++ nx :: after)).
  { eapply backThreaded_unlink; [exact R2|by apply NoDup_app in Hnd0 as (? & _)|]. intros j Hj. rewrite P2.
    cbn [firstOf]. case_decide as E; [by injection E as ->|]. apply P1'. congruence. }
  assert (Hsplit : exists l, before ++ nx :: after = l ++ [t]).
  { apply lastOf_Some. by rewrite lastOf_app, lastOf_cons. }
  destruct Hsplit as (l & Hl). rewrite app_assoc. pose proof Hnd as Hnd1. rewrite Hl in *.
  assert (Htl : t ∉ l).
  { apply NoDup_app in Hnd as (Hnd & _). apply NoDup_app in Hnd as (_ & Hd & _). intros Htl. apply (Hd t Htl). by left. }
  constructor; cbn [withRequests transmissionRequestListElements transmissionRequestsHead transmissionRequestsTail
      unusedTransmissionRequestsHead]; [..|lia].
  - apply threaded_app. split; [|cbn; split; [done|done]].
    eapply threaded_frame; [intros j Hj; apply N5', Hne; rewrite elem_of_app; by left|].
    eapply threaded_unchanged; [exact N4|]. eapply threaded_updated_last; [by split|done|exact Hmid].
  - apply backThreaded_app. rewrite lastOf_snoc. split; [|cbn; split; [by rewrite P5, P4|done]].
    eapply backThreaded_unchanged; [exact P5|].
    eapply backThreaded_frame; [intros j Hj; apply P4', Hne; rewrite elem_of_app; by left|].
    by eapply backThreaded_unchanged.
  - rewrite <- Hl. destruct before as [|b before]; [done|]. cbn [app firstOf] in R3 |- *. rewrite R3.
    destruct (lastOf (b :: before) None) eqn:E; [done|]. by apply lastOf_None in E.
  - by rewrite lastOf_snoc.
  - eapply threaded_frame; [|exact R5]. intros j Hj.
    assert (Hjm : j ∉ l ++ [t]).
    { apply NoDup_app in Hnd as (_ & Hd & _). intros Hjl. by apply (Hd j Hjl). }
    rewrite N5', N4 by (apply Hne; rewrite elem_of_app; by right).
    rewrite N3' by (intros ->; apply Hjm; rewrite elem_of_app; right; by left).
    rewrite N2, N1, decide_False; [done|]. intros E%lastOf_in. apply Hjm. rewrite <- Hl, elem_of_app. by left.
  - done.
  - rewrite <- R7. rewrite <- Hl. solve_Permutation.
Qed.

(** ** Sockets and ports *)

Definition isTask (taskID : Z) : Prop := 0 <= taskID < NUM_POSSIBLE_TASKS.
Definition isSlot (socketID : Z) : Prop := 0 <= socketID < MAX_NUM_SOCKETS_PER_TASK.

(** Active sockets and active ports point at each other. *)
Record matched (s : SocketManager) : Prop := {
  mt_sockets : zlength (socketDescs s) = NUM_POSSIBLE_TASKS * MAX_NUM_SOCKETS_PER_TASK;
  mt_ports : zlength (udpPortStates s) = NUM_UDP_PORTS;
  mt_bits : forall k d, (socketDescs s).[k] = Some d -> socketIsActive d = 0 \/ socketIsActive d = 1;
  mt_port_bits : forall k p, (udpPortStates s).[k] = Some p -> portIsActive p = 0 \/ portIsActive p = 1;
  mt_socket : forall t i d, isTask t -> isSlot i -> (socketDescs s).[socketIndex t i] = Some d -> socketIsActive d = 1 ->
    exists p, (udpPortStates s).[socketPort d] = Some p /\ portIsActive p = 1 /\ portTaskID p = t /\ portSocketID p = i;
  mt_port : forall k p, (udpPortStates s).[k] = Some p -> portIsActive p = 1 ->
    isTask (portTaskID p) /\ isSlot (portSocketID p) /\
    exists d, (socketDescs s).[socketIndex (portTaskID p) (portSocketID p)] = Some d /\
              socketIsActive d = 1 /\ socketPort d = k;
}.

Ltac socket_arith :=
  unfold isTask, isSlot, socketIndex, NUM_POSSIBLE_TASKS, MAX_NUM_SOCKETS_PER_TASK, NUM_UDP_PORTS in *; lia.

Lemma socketIndex_inj t i t' i' : isSlot i -> isSlot i' -> socketIndex t i = socketIndex t' i' -> t = t' /\ i = i'.
Proof. socket_arith. Qed.

Lemma getSocket_ok s t i :
  matched s -> isTask t -> isSlot i ->
  exists d, (socketDescs s).[socketIndex t i] = Some d /\ getSocket s t i = Ok d.
Proof.
  intros Hm Ht Hi. destruct (znth_lt_Some (socketDescs s) (socketIndex t i)) as [d Hd].
  { rewrite (mt_sockets _ Hm). socket_arith. }
  exists d. split; [done|]. unfold getSocket. by rewrite Hd.
Qed.

Lemma getPort_ok s k :
  matched s -> 0 <= k < NUM_UDP_PORTS -> exists p, (udpPortStates s).[k] = Some p /\ getPort s k = Ok p.
Proof.
  intros Hm Hk. destruct (znth_lt_Some (udpPortStates s) k) as [p Hp]; [by rewrite (mt_ports _ Hm)|].
  exists p. split; [done|]. unfold getPort. by rewrite Hp.
Qed.

Lemma matched_same s s' : sameSockets s s' -> matched s -> matched s'.
Proof. intros [E1 E2] []. by constructor; rewrite ?E1, ?E2. Qed.

(** Writing a socket without opening or closing it. *)
Lemma putSocket_matched s t i d d' :
  matched s -> (socketDescs s).[socketIndex t i] = Some d ->
  socketIsActive d' = socketIsActive d -> socketPort d' = socketPort d -> matched (putSocket s t i d').
Proof.
  intros [M1 M2 M3 M4 M5 M6] Hd Ea Ep. pose proof (znth_Some_lt _ _ _ Hd) as Hr.
  constructor; cbn [putSocket withSockets socketDescs udpPortStates]; [by rewrite zlength_zset|done| |done|..].
  - intros k x. rewrite znth_zset. case_bool_decide as E; [|apply M3]. destruct E as [<- _]. intros [= <-].
    rewrite Ea. by apply (M3 _ _ Hd).
  - intros t0 i0 x Ht0 Hi0. rewrite znth_zset. case_bool_decide as E; [|by apply M5]. destruct E as [E _]. intros [= <-] Hact.
    rewrite Ea in Hact. rewrite Ep. apply (M5 t0 i0 d); [done|done|by rewrite <- E|done].
  - intros k p Hp Hact. destruct (M6 k p Hp Hact) as (H1 & H2 & x & Hx & Hxa & Hxp). split; [done|]. split; [done|].
    rewrite znth_zset. case_bool_decide as E; [|by exists x]. destruct E as [E _]. exists d'.
    rewrite <- E in Hx. assert (x = d) by congruence. subst x. by rewrite Ea, Ep.
Qed.

(** Closing a socket and its port. *)
Lemma close_matched s t i d p :
  matched s -> isTask t -> isSlot i -> (socketDescs s).[socketIndex t i] = Some d -> socketIsActive d = 1 ->
  (udpPortStates s).[socketPort d] = Some p ->
  matched (putSocket (withPorts s (udpPortStates s).[socketPort d := mkUDPPortState 0 (portTaskID p) (portSocketID p)])
             t i (setIsActive d 0)).
Proof.
  intros [M1 M2 M3 M4 M5 M6] Ht Hi Hd Ha Hp.
  destruct (M5 t i d Ht Hi Hd Ha) as (p' & Hp' & Hpa & Hpt & Hpi). assert (p' = p) by congruence. subst p'.
  constructor; cbn [putSocket withSockets withPorts socketDescs udpPortStates]; rewrite ?zlength_zset; try done.
  - intros k x. rewrite znth_zset. case_bool_decide; [|apply M3]. intros [= <-]. by left.
  - intros k x. rewrite znth_zset. case_bool_decide; [|apply M4]. intros [= <-]. by left.
  - intros t0 i0 x Ht0 Hi0. rewrite znth_zset. case_bool_decide as E; [intros [= <-]; by cbn|]. intros Hx Hxa.
    destruct (M5 t0 i0 x Ht0 Hi0 Hx Hxa) as (q & Hq & Hqa & Hqt & Hqi). exists q. split_and!; try done.
    rewrite znth_zset, bool_decide_false; [done|]. intros [Eq _]. apply E.
    assert (q = p) by (rewrite Eq in Hp; congruence). subst q.
    rewrite <- Hqt, <- Hqi, Hpt, Hpi. split; [done|]. by apply znth_Some_lt in Hd.
  - intros k q. rewrite znth_zset. case_bool_decide as E; [intros [= <-]; by cbn|]. intros Hq Hqa.
    destruct (M6 k q Hq Hqa) as (H1 & H2 & x & Hx & Hxa & Hxp). split; [done|]. split; [done|]. exists x.
    split_and!; try done. rewrite znth_zset, bool_decide_false; [done|]. intros [Eq _]. apply E.
    rewrite <- Eq in Hx. assert (x = d) by congruence. subst x. split; [done|]. by apply znth_Some_lt in Hp.
Qed.

Lemma closeSocket_ok s t i :
  matched s -> isTask t -> 0 <= i ->
  exists s', closeSocket s t i = Ok s' /\ matched s' /\
    transmissionRequestListElements s' = transmissionRequestListElements s /\
    transmissionRequestsHead s' = transmissionRequestsHead s /\
    transmissionRequestsTail s' = transmissionRequestsTail s /\
    unusedTransmissionRequestsHead s' = unusedTransmissionRequestsHead s /\
    (isSlot i -> forall d, (socketDescs s').[socketIndex t i] = Some d -> socketIsActive d = 0).
Proof.
  intros Hm Ht Hi. unfold closeSocket. destruct (Z.leb_spec MAX_NUM_SOCKETS_PER_TASK i) as [Hge|Hlt].
  { exists s. split_and!; try done. intros Hs. socket_arith. }
  assert (Hs : isSlot i) by socket_arith. destruct (getSocket_ok s t i Hm Ht Hs) as (d & Hd & ->). cbn [mbind result_bind].
  destruct (Z.eqb_spec (socketIsActive d) 1) as [Ha|Ha].
  - destruct (mt_socket _ Hm t i d Ht Hs Hd Ha) as (p & Hp & _). unfold getPort. rewrite Hp. cbn [mbind result_bind orFault].
    eexists. split; [done|]. split; [by apply (close_matched s t i d p)|]. split_and!; try done.
    intros _ x. cbn [putSocket withSockets withPorts socketDescs].
    rewrite znth_zset_eq by by apply znth_Some_lt in Hd. by intros [= <-].
  - exists s. split_and!; try done. intros _ x Hx. assert (x = d) by congruence. subst x.
    by destruct (mt_bits _ Hm _ _ Hd).
Qed.

Lemma findFreeSocket_ok n s t i :
  matched s -> isTask t -> 0 <= i -> i + Z.of_nat n <= MAX_NUM_SOCKETS_PER_TASK ->
  exists r, findFreeSocket n s t i = Ok r /\
    match r with
    | Some j => i <= j < i + Z.of_nat n /\ exists d, (socketDescs s).[socketIndex t j] = Some d /\ socketIsActive d = 0
    | None => forall j d, i <= j < i + Z.of_nat n -> (socketDescs s).[socketIndex t j] = Some d -> socketIsActive d = 1
    end.
Proof.
  intros Hm Ht. revert i. induction n as [|n IH]; intros i Hi Hn; cbn [findFreeSocket].
  { exists None. split; [done|]. lia. }
  destruct (getSocket_ok s t i Hm Ht ltac:(socket_arith)) as (d & Hd & ->). cbn [mbind result_bind].
  destruct (Z.eqb_spec (socketIsActive d) 0) as [Ha|Ha].
  - exists (Some i). split; [done|]. split; [lia|]. by exists d.
  - destruct (IH (i + 1)) as (r & -> & Hr); [lia|lia|]. exists r. split; [done|]. destruct r as [j|].
    + destruct Hr as [Hj Hx]. split; [lia|done].
    + intros j x Hj Hx. destruct (decide (j = i)) as [->|]; [|apply (Hr j); [lia|done]].
      assert (x = d) by congruence. subst x. by destruct (mt_bits _ Hm _ _ Hd).
Qed.

Lemma open_matched s t i port d p :
  matched s -> isTask t -> isSlot i -> 0 <= port < NUM_UDP_PORTS ->
  (socketDescs s).[socketIndex t i] = Some d -> socketIsActive d = 0 ->
  (udpPortStates s).[port] = Some p -> portIsActive p = 0 ->
  matched (withPorts (putSocket s t i (mkSocketDesc 1 port 0 0 0 0 0 0 0)) (udpPortStates s).[port := mkUDPPortState 1 t i]).
Proof.
  intros [M1 M2 M3 M4 M5 M6] Ht Hi Hport Hd Ha Hp Hpa. pose proof (znth_Some_lt _ _ _ Hd) as Hdr.
  constructor; cbn [putSocket withSockets withPorts socketDescs udpPortStates]; rewrite ?zlength_zset; try done.
  - intros k x. rewrite znth_zset. case_bool_decide; [|apply M3]. intros [= <-]. by right.
  - intros k x. rewrite znth_zset. case_bool_decide; [|apply M4]. intros [= <-]. by right.
  - intros t0 i0 x Ht0 Hi0. rewrite znth_zset. case_bool_decide as E.
    + destruct E as [E _]. apply socketIndex_inj in E as [<- <-]; [|done|done]. intros [= <-] _. cbn [socketPort].
      exists (mkUDPPortState 1 t i). split_and!; try done. apply znth_zset_eq. by rewrite M2.
    + intros Hx Hxa. destruct (M5 t0 i0 x Ht0 Hi0 Hx Hxa) as (q & Hq & Hqa & Hqt & Hqi). exists q. split_and!; try done.
      rewrite znth_zset_ne; [done|]. intros Eq. rewrite <- Eq in Hq. congruence.
  - intros k q. rewrite znth_zset. case_bool_decide as E.
    + destruct E as [<- _]. intros [= <-] _. cbn [portTaskID portSocketID]. split; [done|]. split; [done|].
      eexists. by rewrite znth_zset_eq.
    + intros Hq Hqa. destruct (M6 k q Hq Hqa) as (H1 & H2 & x & Hx & Hxa & Hxp). split; [done|]. split; [done|]. exists x.
      split_and!; try done. rewrite znth_zset_ne; [done|]. intros Eq. rewrite <- Eq in Hx. congruence.
Qed.

(** ** Received datagrams *)

Definition Fragment : Type := IPv4Packet * list Z.

(** The bytes of a datagram: those of its fragments. *)
Definition datagram (fragments : list Fragment) : list Z :=
  concat (map (fun '(packet, data) => take (Z.to_nat (dataSize packet)) data) fragments).

Definition goodFragment (f : Fragment) : Prop :=
  0 <= dataSize (fst f) < 2 ^ 16 /\ dataSize (fst f) <= zlength (snd f) /\ 8 <= zlength (snd f).

Lemma packetBytes_ok data k n :
  0 <= k -> 0 <= n -> k + n <= zlength data ->
  packetBytes data k n = Ok (drop (Z.to_nat k) (take (Z.to_nat (k + n)) data)).
Proof.
  intros Hk Hn Hl. unfold packetBytes. destruct (Z.ltb_spec (zlength data) (k + n)); [lia|].
  f_equal. rewrite skipn_firstn_comm. f_equal. lia.
Qed.

Lemma datagram_cons packet data rest :
  datagram ((packet, data) :: rest) = take (Z.to_nat (dataSize packet)) data ++ datagram rest.
Proof. done. Qed.

Lemma copyRest_ok buffer udpLength fragments acc m :
  8 <= acc <= udpLength -> udpLength < 2 ^ 16 -> Forall goodFragment fragments ->
  exists m' r, copyFragments fragments false buffer udpLength acc m = Ok (m', r) /\
    (forall x, ~ (buffer + acc <= x < buffer + udpLength) -> m' x = m x) /\
    match r with
    | Some n => n = acc + zlength (datagram fragments) /\ n <= udpLength /\
                m' = storeBytes m (buffer + acc) (datagram fragments)
    | None => udpLength < acc + zlength (datagram fragments)
    end.
Proof.
  intros Hacc Hl Hf. revert acc m Hacc. induction Hf as [|[packet data] rest [Hg1 [Hg2 Hg3]] Hrest IH]; intros acc m Hacc; cbn [copyFragments].
  { exists m, (Some acc). split_and!; [done|done| |lia|done]. unfold zlength. cbn. lia. }
  cbn [fst snd] in Hg1, Hg2. rewrite datagram_cons, zlength_app, (zlength_take data (dataSize packet)) by lia.
  pose proof (zlength_nonneg (datagram rest)).
  destruct (Z.ltb_spec udpLength (acc + dataSize packet)) as [Hbig|Hfit].
  { exists m, None. split_and!; [done|done|lia]. }
  rewrite packetBytes_ok by lia. cbn [mbind result_bind]. rewrite Z.add_0_l. change (Z.to_nat 0) with 0%nat. rewrite drop_0.
  replace (buffer + RECEIVE_BUFFER_HEADER_SIZE + (acc - UDP_HEADER_SIZE)) with (buffer + acc)
    by (unfold RECEIVE_BUFFER_HEADER_SIZE, UDP_HEADER_SIZE; lia).
  rewrite (u16_small (acc + dataSize packet)) by (unfold is_u16; lia).
  set (bytes := take (Z.to_nat (dataSize packet)) data).
  assert (Hb : zlength bytes = dataSize packet) by (apply zlength_take; lia).
  destruct (IH (acc + dataSize packet) (storeBytes m (buffer + acc) bytes)) as (m' & r & -> & Hout & Hr); [lia|].
  exists m', r. split; [done|]. split.
  - intros x Hx. rewrite Hout by lia. apply storeBytes_out. lia.
  - destruct r as [n|]; [|lia]. destruct Hr as (-> & Hle & ->). split; [lia|]. split; [done|].
    rewrite storeBytes_app, Hb. f_equal. lia.
Qed.

Lemma copyFragments_ok buffer udpLength packet data rest m :
  8 <= dataSize packet -> udpLength < 2 ^ 16 -> Forall goodFragment ((packet, data) :: rest) ->
  exists m' r, copyFragments ((packet, data) :: rest) true buffer udpLength 0 m = Ok (m', r) /\
    (forall x, ~ (buffer + 8 <= x < buffer + udpLength) -> m' x = m x) /\
    let total := zlength (datagram ((packet, data) :: rest)) in
    match r with
    | Some n => n = total /\ n <= udpLength /\
                m' = storeBytes m (buffer + 8) (drop 8 (datagram ((packet, data) :: rest)))
    | None => udpLength < total
    end.
Proof.
  intros H8 Hl [[Hg1 [Hg2 Hg3]] Hrest]%Forall_cons. cbn [fst snd] in *. cbn [copyFragments]. rewrite Z.add_0_l.
  rewrite datagram_cons, zlength_app, (zlength_take data (dataSize packet)) by lia. pose proof (zlength_nonneg (datagram rest)).
  destruct (Z.ltb_spec udpLength (dataSize packet)) as [Hbig|Hfit].
  { exists m, None. split_and!; [done|done|]. cbn beta iota zeta. lia. }
  rewrite packetBytes_ok by (unfold UDP_HEADER_SIZE; lia). cbn [mbind result_bind].
  replace (UDP_HEADER_SIZE + (dataSize packet - UDP_HEADER_SIZE)) with (dataSize packet) by (unfold UDP_HEADER_SIZE; lia).
  change (Z.to_nat UDP_HEADER_SIZE) with 8%nat. change (buffer + RECEIVE_BUFFER_HEADER_SIZE) with (buffer + 8).
  rewrite (u16_small (dataSize packet)) by (unfold is_u16; lia).
  set (bytes := take (Z.to_nat (dataSize packet)) data).
  assert (Hb : zlength bytes = dataSize packet) by (apply zlength_take; lia).
  assert (Hb8 : zlength (drop 8 bytes) = dataSize packet - 8).
  { change 8%nat with (Z.to_nat 8). rewrite zlength_drop; lia. }
  destruct (copyRest_ok buffer udpLength rest (dataSize packet) (storeBytes m (buffer + 8) (drop 8 bytes)))
    as (m' & r & -> & Hout & Hr); [lia|done|done|].
  exists m', r. split; [done|]. split.
  - intros x Hx. rewrite Hout by lia. apply storeBytes_out. lia.
  - cbv zeta. destruct r as [n|]; [|lia]. destruct Hr as (-> & Hle & ->). split; [done|]. split; [done|].
    rewrite drop_app_le by (unfold zlength in *; lia). rewrite storeBytes_app, Hb8. f_equal. lia.
Qed.

(** What is written for a datagram from [source]:[sourcePort]. *)
Definition deliveredBytes (source sourcePort : Z) (bytes : list Z) : list Z :=
  le32 source ++ le16 sourcePort ++ le16 (zlength bytes - 8) ++ drop 8 bytes ++ replicate 8 0.

Definition headerPort (data : list Z) (i : Z) : result Z :=
  a ← byteAt data i; b ← byteAt data (i + 1); Ok (u16 (Z.lor (Z.shiftl a 8) b)).

Lemma storeZeros m a n :
  for_range n 0 (fun i m => store m (a + i) 0) m = storeBytes m a (replicate n 0).
Proof.
  assert (H : forall n k m, for_range n k (fun i m => store m (a + i) 0) m = storeBytes m (a + k) (replicate n 0)).
  { clear n m. induction n as [|n IH]; intros k m; [done|]. cbn [for_range replicate storeBytes]. rewrite IH.
    f_equal. lia. }
  by rewrite H, Z.add_0_r.
Qed.

Lemma storeBytes_ext m1 m2 a l :
  (forall x, ~ (a <= x < a + zlength l) -> m1 x = m2 x) -> forall x, storeBytes m1 a l x = storeBytes m2 a l x.
Proof.
  intros H x. rewrite !storeBytes_spec. destruct (l.[x - a]) eqn:E; [done|]. apply H.
  apply znth_None in E. lia.
Qed.

(** Three adjacent blocks, written in any order, are one. *)
Lemma three_blocks m a h b z :
  forall x, storeBytes (storeBytes (storeBytes m (a + zlength h) b) a h) (a + zlength h + zlength b) z x =
            storeBytes m a (h ++ b ++ z) x.
Proof.
  intros x. rewrite !storeBytes_app, !storeBytes_spec.
  destruct (z.[x - (a + zlength h + zlength b)]) eqn:Ez; [done|].
  destruct (h.[x - a]) eqn:Eh.
  - pose proof (znth_Some_lt _ _ _ Eh). by rewrite (proj2 (znth_None b _)) by lia.
  - done.
Qed.

Lemma headerPort_eq data i f {A} (k : Z -> Z -> result A) (g : Z -> result A) :
  headerPort data i = Ok f -> (forall a b, f = u16 (Z.lor (Z.shiftl a 8) b) -> k a b = g f) ->
  (a ← byteAt data i; b ← byteAt data (i + 1); k a b) = g f.
Proof.
  unfold headerPort. destruct (byteAt data i) as [a|]; [|done]. cbn [mbind result_bind].
  destruct (byteAt data (i + 1)) as [b|]; [|done]. cbn [mbind result_bind]. intros [= <-] H. by apply H.
Qed.

Lemma headerPort_ok data i : 0 <= i -> i + 1 < zlength data -> exists w, headerPort data i = Ok w /\ is_u16 w.
Proof.
  intros H1 H2. unfold headerPort, byteAt. destruct (znth_lt_Some data i) as [a ->]; [lia|].
  destruct (znth_lt_Some data (i + 1)) as [b ->]; [lia|]. cbn. eexists. split; [done|]. apply is_u16_u16.
Qed.

(** The state after the delivery of [bytes] to the socket [d] of port [p]. *)
Definition advanceReceive (s : SocketManager) (p : UDPPortState) (d : SocketDesc) (n : Z) : SocketManager :=
  putSocket s (portTaskID p) (portSocketID p)
    (setReceive d (u32 (receiveBuffer d + n)) (u32 (receiveBufferSize d - n))).

(** Why a datagram for [port] is not even copied. *)
Definition refused (s : SocketManager) (packet : IPv4Packet) (data : list Z) (port : Z) : Prop :=
  protocol packet <> 17 \/ dataSize packet < 8 \/
  exists p, (udpPortStates s).[port] = Some p /\
    (portIsActive p = 0 \/
     exists d udpLength, (socketDescs s).[socketIndex (portTaskID p) (portSocketID p)] = Some d /\
       headerPort data 4 = Ok udpLength /\ receiveBufferSize d < udpLength + 8).

Lemma handleReceived_cases s m packet data rest port :
  matched s -> Forall goodFragment ((packet, data) :: rest) -> headerPort data 2 = Ok port -> port < NUM_UDP_PORTS ->
  let fragments := (packet, data) :: rest in
  exists s' m', handleReceivedPacket s m fragments = Ok (s', m') /\
    (refused s packet data port /\ s' = s /\ m' = m \/
     exists p d udpLength sourcePort,
       (udpPortStates s).[port] = Some p /\ portIsActive p = 1 /\
       (socketDescs s).[socketIndex (portTaskID p) (portSocketID p)] = Some d /\
       headerPort data 4 = Ok udpLength /\ headerPort data 0 = Ok sourcePort /\ 0 <= udpLength < 2 ^ 16 /\
       udpLength + 8 <= receiveBufferSize d /\ 8 <= zlength (datagram fragments) /\
       if decide (zlength (datagram fragments) = udpLength)
       then s' = advanceReceive s p d udpLength /\
            forall x, m' x = storeBytes m (receiveBuffer d) (deliveredBytes (sourceIP packet) sourcePort (datagram fragments)) x
       else s' = s /\ forall x, ~ (receiveBuffer d + 8 <= x < receiveBuffer d + udpLength) -> m' x = m x).
Proof.
  intros Hm Hf Hport Hlt fragments. unfold handleReceivedPacket, fragments.
  pose proof (Forall_inv Hf) as [_ [_ H8]]. cbn [snd] in H8.
  destruct (Z.eqb_spec (protocol packet) 17) as [Hp17|Hp17]; cbn [negb].
  2:{ eexists _, _. split; [done|]. left. split; [by left|done]. }
  change UDP_HEADER_SIZE with 8. destruct (Z.ltb_spec (dataSize packet) 8) as [Hds|Hds].
  { eexists _, _. split; [done|]. left. split; [by right; left|done]. }
  destruct (headerPort_ok data 2) as (w & Hw & Hw16); [lia|lia|]. assert (w = port) by congruence. subst w.
  unfold headerPort in Hport. destruct (byteAt data 2) as [d2|] eqn:E2; [|done]. cbn [mbind result_bind] in Hport |- *.
  change (2 + 1) with 3 in Hport. destruct (byteAt data 3) as [d3|] eqn:E3; [|done].
  cbn [mbind result_bind] in Hport |- *. injection Hport as ->.
  destruct (getPort_ok s port Hm) as (p & Hp & ->); [unfold is_u16 in Hw16; lia|]. cbn [mbind result_bind].
  destruct (Z.eqb_spec (portIsActive p) 0) as [Ha|Ha].
  { eexists _, _. split; [done|]. left. split; [|done]. right; right. exists p. split; [done|by left]. }
  destruct (mt_port_bits _ Hm _ _ Hp) as [?|Ha1]; [done|].
  destruct (mt_port _ Hm _ _ Hp Ha1) as (Ht & Hi & d & Hd & Hda & Hdp). unfold getSocket. rewrite Hd. cbn [mbind result_bind orFault].
  destruct (headerPort_ok data 4) as (len & Hlen & Hlen16); [lia|lia|].
  destruct (headerPort_ok data 0) as (sp & Hsp & Hsp16); [lia|lia|].
  pose proof Hlen as Hlen'. unfold headerPort in Hlen'. destruct (byteAt data 4) as [d4|]; [|done]. cbn [mbind result_bind] in Hlen' |- *.
  change (4 + 1) with 5 in Hlen'. destruct (byteAt data 5) as [d5|]; [|done].
  cbn [mbind result_bind] in Hlen' |- *. injection Hlen' as ->. unfold is_u16 in Hlen16.
  rewrite (u32_small (len - 8 + 2 * RECEIVE_BUFFER_HEADER_SIZE)) by (unfold is_u32, RECEIVE_BUFFER_HEADER_SIZE; lia).
  replace (len - 8 + 2 * RECEIVE_BUFFER_HEADER_SIZE) with (len + 8) by (unfold RECEIVE_BUFFER_HEADER_SIZE; lia).
  destruct (Z.ltb_spec (receiveBufferSize d) (len + 8)) as [Hsmall|Hsize].
  { eexists _, _. split; [done|]. left. split; [|done]. right; right. exists p. split; [done|]. right. by exists d, len. }
  destruct (copyFragments_ok (receiveBuffer d) len packet data rest m Hds) as (m1 & r & -> & Hout & Hr); [lia|done|].
  cbn [mbind result_bind]. cbv zeta in Hr. fold fragments in Hr |- *.
  assert (Htot : 8 <= zlength (datagram fragments)).
  { unfold fragments. rewrite datagram_cons, zlength_app. pose proof (zlength_nonneg (datagram rest)).
    pose proof (Forall_inv Hf) as [Hg1 [Hg2 _]]. cbn in Hg1, Hg2. rewrite (zlength_take data (dataSize packet)) by lia. lia. }
  destruct (decide (zlength (datagram fragments) = len)) as [El|El].
  - destruct r as [n|]; [|lia]. destruct Hr as (-> & _ & ->). rewrite El, bool_decide_true by done. cbn [negb].
    pose proof Hsp as Hsp'. unfold headerPort in Hsp'. destruct (byteAt data 0) as [d0|]; [|done]. cbn [mbind result_bind] in Hsp' |- *.
    change (0 + 1) with 1 in Hsp'. destruct (byteAt data 1) as [d1|]; [|done].
    cbn [mbind result_bind] in Hsp' |- *. injection Hsp' as ->.
    replace (RECEIVE_BUFFER_HEADER_SIZE + (len - 8)) with len by (unfold RECEIVE_BUFFER_HEADER_SIZE; lia).
    eexists _, _. split; [done|]. right. exists p, d, len, sp. split_and!; try done; try lia.
    rewrite decide_True by done. split; [done|]. intros x. cbv zeta. unfold deliveredBytes.
    set (h := le32 (sourceIP packet) ++ le16 sp ++ le16 (len - 8)).
    replace (le32 _ ++ _) with (h ++ drop 8 (datagram fragments) ++ replicate 8 0)
      by (unfold h; rewrite El, <- !app_assoc; done).
    rewrite <- three_blocks. change (zlength h) with 8.
    assert (Hb : zlength (drop 8 (datagram fragments)) = len - 8).
    { change 8%nat with (Z.to_nat 8). rewrite zlength_drop; lia. }
    rewrite Hb. replace (receiveBuffer d + 8 + (len - 8)) with (receiveBuffer d + len) by lia.
    change (Z.to_nat RECEIVE_BUFFER_HEADER_SIZE) with 8%nat. rewrite <- storeZeros.
    assert (Hfun : forall n k m, for_range n k (fun i m => store m (receiveBuffer d + i + len) 0) m =
      for_range n k (fun i m => store m (receiveBuffer d + len + i) 0) m).
    { induction n as [|n IH]; intros k m0; [done|]. cbn [for_range]. rewrite IH. do 2 f_equal. lia. }
    by rewrite Hfun.
  - assert (Hno : bool_decide (r = Some len) = false).
    { apply bool_decide_false. intros ->. destruct Hr as [E _]. congruence. }
    rewrite Hno. cbn [negb]. eexists _, _. split; [done|]. right. exists p, d, len, sp. split_and!; try done; try lia.
    rewrite decide_False by done. done.
Qed.

Lemma received_delivered s m packet data rest port p d :
  let bytes := datagram ((packet, data) :: rest) in
  matched s -> Forall goodFragment ((packet, data) :: rest) -> protocol packet = 17 -> 8 <= dataSize packet ->
  headerPort data 2 = Ok port -> (udpPortStates s).[port] = Some p -> portIsActive p = 1 ->
  (socketDescs s).[socketIndex (portTaskID p) (portSocketID p)] = Some d ->
  headerPort data 4 = Ok (zlength bytes) -> zlength bytes + 8 <= receiveBufferSize d ->
  0 <= receiveBuffer d -> receiveBuffer d + receiveBufferSize d < 2 ^ 32 ->
  exists sourcePort m',
    handleReceivedPacket s m ((packet, data) :: rest) =
      Ok (putSocket s (portTaskID p) (portSocketID p)
            (setReceive d (receiveBuffer d + zlength bytes) (receiveBufferSize d - zlength bytes)), m') /\
    headerPort data 0 = Ok sourcePort /\
    loadBytes m' (receiveBuffer d) (Z.to_nat (zlength bytes + 8)) = deliveredBytes (sourceIP packet) sourcePort bytes /\
    forall x, ~ (receiveBuffer d <= x < receiveBuffer d + zlength bytes + 8) -> m' x = m x.
Proof.
  intros bytes Hm Hf H17 H8 Hport Hp Ha Hd Hlen Hsize Hrb Hwrap.
  pose proof (znth_Some_lt _ _ _ Hp) as Hpr. rewrite (mt_ports _ Hm) in Hpr.
  destruct (handleReceived_cases s m packet data rest port Hm Hf Hport ltac:(lia)) as (s' & m' & Hrun & [[Href _]|Hok]).
  - exfalso. destruct Href as [|[|(p' & Hp' & [|(d' & l & Hd' & Hl & Hsm)])]]; [done|lia|congruence|].
    assert (p' = p) by congruence. subst p'. assert (d' = d) by congruence. subst d'.
    assert (l = zlength bytes) by congruence. lia.
  - destruct Hok as (p' & d' & l & sp & Hp' & _ & Hd' & Hl & Hsp & Hl16 & _ & Htot & Hres).
    assert (p' = p) by congruence. subst p'. assert (d' = d) by congruence. subst d'.
    assert (l = zlength bytes) by congruence. subst l. fold bytes in Hres, Htot. rewrite decide_True in Hres by done.
    destruct Hres as [-> Hm']. exists sp, m'. split.
    { rewrite Hrun. unfold advanceReceive. rewrite !u32_small by (unfold is_u32; lia). done. }
    split; [done|].
    assert (Hz : zlength (deliveredBytes (sourceIP packet) sp bytes) = zlength bytes + 8).
    { unfold deliveredBytes. rewrite !zlength_app, zlength_replicate. change 8%nat with (Z.to_nat 8).
      rewrite zlength_drop by lia. change (zlength (le32 _)) with 4. change (zlength (le16 _)) with 2. lia. }
    split.
    + rewrite (loadBytes_ext m' (storeBytes m (receiveBuffer d) (deliveredBytes (sourceIP packet) sp bytes))) by (intros x _; apply Hm').
      replace (Z.to_nat (zlength bytes + 8)) with (length (deliveredBytes (sourceIP packet) sp bytes))
        by (unfold zlength in *; lia). apply loadBytes_storeBytes.
    + intros x Hx. rewrite Hm'. apply storeBytes_out. lia.
Qed.

(** C30: a complete datagram that fits the receive buffer of the socket its
    port belongs to is written there as source address, source port, data
    length, data and an empty header, nothing else is written, and the buffer
    starts at that header afterwards. *)
Theorem handleReceivedPacket_delivers s m packet data rest port p d :
  let bytes := datagram ((packet, data) :: rest) in
  matched s -> Forall goodFragment ((packet, data) :: rest) -> protocol packet = 17 -> 8 <= dataSize packet ->
  headerPort data 2 = Ok port -> (udpPortStates s).[port] = Some p -> portIsActive p = 1 ->
  (socketDescs s).[socketIndex (portTaskID p) (portSocketID p)] = Some d ->
  headerPort data 4 = Ok (zlength bytes) -> zlength bytes + 8 <= receiveBufferSize d ->
  0 <= receiveBuffer d -> receiveBuffer d + receiveBufferSize d < 2 ^ 32 ->
  exists sourcePort m',
    handleReceivedPacket s m ((packet, data) :: rest) =
      Ok (putSocket s (portTaskID p) (portSocketID p)
            (setReceive d (receiveBuffer d + zlength bytes) (receiveBufferSize d - zlength bytes)), m') /\
    headerPort data 0 = Ok sourcePort /\
    loadBytes m' (receiveBuffer d) (Z.to_nat (zlength bytes + 8)) = deliveredBytes (sourceIP packet) sourcePort bytes /\
    forall x, ~ (receiveBuffer d <= x < receiveBuffer d + zlength bytes + 8) -> m' x = m x.
Proof. intros bytes. apply received_delivered. Qed.

(** The addresses the receive buffers of open sockets cover. *)
Definition inReceiveBuffer (s : SocketManager) (x : Z) : Prop :=
  exists t i d, isTask t /\ isSlot i /\ (socketDescs s).[socketIndex t i] = Some d /\ socketIsActive d = 1 /\
    receiveBuffer d <= x < receiveBuffer d + receiveBufferSize d.

(** Whatever arrives for a port of the table, complete or not, well formed
    or not, memory outside the receive buffers of open sockets keeps its
    contents. *)
Theorem handleReceivedPacket_contained s m packet data rest port :
  matched s -> Forall goodFragment ((packet, data) :: rest) -> headerPort data 2 = Ok port -> port < NUM_UDP_PORTS ->
  exists s' m', handleReceivedPacket s m ((packet, data) :: rest) = Ok (s', m') /\ matched s' /\
    forall x, ~ inReceiveBuffer s x -> m' x = m x.
Proof.
  intros Hm Hf Hport Hlt.
  destruct (handleReceived_cases s m packet data rest port Hm Hf Hport Hlt) as (s' & m' & Hrun & [(_ & -> & ->)|Hok]).
  { exists s, m. done. }
  destruct Hok as (p & d & l & sp & Hp & Ha & Hd & _ & _ & Hl16 & Hsize & Htot & Hres).
  destruct (mt_port _ Hm _ _ Hp Ha) as (Ht & Hi & d' & Hd' & Hda & _). assert (d' = d) by congruence. subst d'.
  assert (Hcov : forall x, receiveBuffer d <= x < receiveBuffer d + receiveBufferSize d -> inReceiveBuffer s x)
    by (intros x Hx; by exists (portTaskID p), (portSocketID p), d).
  exists s', m'. split; [done|]. case_decide as El; destruct Hres as [-> Hm'].
  - split; [by apply (putSocket_matched s _ _ d)|]. intros x Hx. rewrite Hm'. apply storeBytes_out. intros Hin.
    apply Hx, Hcov. unfold deliveredBytes in Hin. rewrite !zlength_app, zlength_replicate in Hin.
    change 8%nat with (Z.to_nat 8) in Hin. rewrite zlength_drop in Hin by lia.
    change (zlength (le32 _)) with 4 in Hin. change (zlength (le16 _)) with 2 in Hin. lia.
  - split; [done|]. intros x Hx. apply Hm'. intros Hin. apply Hx, Hcov. lia.
Qed.

(** A datagram for a port past the table: the port is a 16-bit number, the
    table has 9000 entries. *)
Definition portOutOfTable (fragments : list Fragment) : Prop :=
  match fragments with
  | (packet, data) :: _ =>
      protocol packet = 17 /\ 8 <= dataSize packet /\ exists port, headerPort data 2 = Ok port /\ NUM_UDP_PORTS <= port
  | [] => False
  end.

(** It is looked up out of range. *)
Theorem handleReceivedPacket_port_out_of_range s m fragments :
  matched s -> portOutOfTable fragments -> handleReceivedPacket s m fragments = Fault OutOfRange.
Proof.
  destruct fragments as [|[packet data] rest]; [done|]. intros Hm (H17 & H8 & port & Hport & Hge).
  unfold handleReceivedPacket. rewrite H17. cbn [negb Z.eqb Pos.eqb].
  destruct (Z.ltb_spec (dataSize packet) UDP_HEADER_SIZE) as [H|_]; [unfold UDP_HEADER_SIZE in H; lia|].
  unfold headerPort in Hport. destruct (byteAt data 2) as [d2|]; [|done]. cbn [mbind result_bind] in Hport |- *.
  change (2 + 1) with 3 in Hport. destruct (byteAt data 3) as [d3|]; [|done].
  cbn [mbind result_bind] in Hport |- *. injection Hport as ->.
  unfold getPort. rewrite (proj2 (znth_None _ _)); [done|]. rewrite (mt_ports _ Hm). lia.
Qed.

Lemma headerPort_total data k : 0 <= k -> k + 2 <= zlength data -> exists port, headerPort data k = Ok port.
Proof.
  intros Hk Hl. unfold headerPort, byteAt. destruct (znth_lt_Some data k) as [d ->]; [lia|].
  destruct (znth_lt_Some data (k + 1)) as [d' ->]; [lia|]. by eexists.
Qed.

(** A received datagram is taken in, dropped, or for a port past the table. *)
Lemma received_cases s m fragments :
  matched s -> fragments <> [] -> Forall goodFragment fragments ->
  (portOutOfTable fragments /\ handleReceivedPacket s m fragments = Fault OutOfRange) \/
  exists s' m', handleReceivedPacket s m fragments = Ok (s', m') /\
    (s' = s \/ exists p d l, (socketDescs s).[socketIndex (portTaskID p) (portSocketID p)] = Some d /\
       s' = advanceReceive s p d l).
Proof.
  destruct fragments as [|[packet data] rest]; [done|]. intros Hm _ Hf.
  destruct (Forall_inv Hf) as (_ & _ & H8). cbn [snd] in H8. destruct (headerPort_total data 2) as [port Hport]; [lia..|].
  destruct (Z.ltb_spec port NUM_UDP_PORTS) as [Hlt|Hge].
  - right. destruct (handleReceived_cases s m packet data rest port Hm Hf Hport Hlt) as (s' & m' & E & Hres).
    exists s', m'. split; [exact E|]. destruct Hres as [(_ & -> & _)|(p & d & l & sp & _ & _ & Hd & _ & _ & _ & _ & _ & Hres)]; [by left|].
    case_decide; destruct Hres as [-> _]; [right; by exists p, d, l|by left].
  - destruct (decide (protocol packet = 17)) as [H17|H17]; [destruct (decide (8 <= dataSize packet)) as [Hd|Hd]|].
    + left. assert (Ho : portOutOfTable ((packet, data) :: rest)) by (split_and!; [done|done|by exists port]).
      split; [done|by apply handleReceivedPacket_port_out_of_range].
    + right. exists s, m. split; [|by left]. unfold handleReceivedPacket. rewrite H17.
      by rewrite (proj2 (Z.ltb_lt (dataSize packet) UDP_HEADER_SIZE)) by (unfold UDP_HEADER_SIZE; lia).
    + right. exists s, m. split; [|by left]. unfold handleReceivedPacket. by rewrite (proj2 (Z.eqb_neq _ _) H17).
Qed.

(** ** Opening *)

(** Whether a socket can be opened: the port exists and is free, and the task
    has a closed socket. *)
Definition canOpen (s : SocketManager) (taskID port : Z) : Prop :=
  port < NUM_UDP_PORTS /\
  (forall p, (udpPortStates s).[port] = Some p -> portIsActive p = 0) /\
  exists i d, isSlot i /\ (socketDescs s).[socketIndex taskID i] = Some d /\ socketIsActive d = 0.

(** The lists of requests are untouched. *)
Definition sameRequests (s s' : SocketManager) : Prop :=
  transmissionRequestListElements s' = transmissionRequestListElements s /\
  transmissionRequestsHead s' = transmissionRequestsHead s /\
  transmissionRequestsTail s' = transmissionRequestsTail s /\
  unusedTransmissionRequestsHead s' = unusedTransmissionRequestsHead s.

Lemma openSocket_ok s t port :
  matched s -> isTask t -> 0 <= port ->
  exists s' r, openSocket s t port = Ok (s', r) /\ matched s' /\ sameRequests s s' /\
    (r = -1 /\ s' = s /\ ~ canOpen s t port \/
     canOpen s t port /\ isSlot r /\
     (exists d, (socketDescs s).[socketIndex t r] = Some d /\ socketIsActive d = 0) /\
     (socketDescs s').[socketIndex t r] = Some (mkSocketDesc 1 port 0 0 0 0 0 0 0) /\
     (udpPortStates s').[port] = Some (mkUDPPortState 1 t r) /\
     (forall k, k <> socketIndex t r -> (socketDescs s').[k] = (socketDescs s).[k]) /\
     (forall k, k <> port -> (udpPortStates s').[k] = (udpPortStates s).[k])).
Proof.
  intros Hm Ht Hport. unfold openSocket. destruct (Z.leb_spec NUM_UDP_PORTS port) as [Hge|Hlt].
  { exists s, (-1). split_and!; try done. left. split_and!; try done. intros [H _]. lia. }
  destruct (getPort_ok s port Hm ltac:(lia)) as (p & Hp & ->). cbn [mbind result_bind].
  destruct (Z.eqb_spec (portIsActive p) 1) as [Ha|Ha].
  { exists s, (-1). split_and!; try done. left. split_and!; try done. intros (_ & H & _). specialize (H p Hp). lia. }
  assert (Ha0 : portIsActive p = 0) by (by destruct (mt_port_bits _ Hm _ _ Hp)).
  destruct (findFreeSocket_ok (Z.to_nat MAX_NUM_SOCKETS_PER_TASK) s t 0 Hm Ht) as (r & -> & Hr); [lia|done|].
  cbn [mbind result_bind]. destruct r as [i|].
  - destruct Hr as (Hi & d & Hd & Hd0). change (0 + _) with MAX_NUM_SOCKETS_PER_TASK in Hi.
    pose proof (znth_Some_lt _ _ _ Hd) as Hdr. pose proof (znth_Some_lt _ _ _ Hp) as Hpr.
    eexists _, i. split; [done|]. split; [by apply (open_matched s t i port d p)|]. split; [done|]. right.
    split; [split_and!; [done|intros q Hq; congruence|by exists i, d]|]. split; [done|]. split; [by exists d|].
    cbn [putSocket withSockets withPorts socketDescs udpPortStates]. split_and!.
    + by apply znth_zset_eq.
    + by apply znth_zset_eq.
    + intros k Hk. by apply znth_zset_ne.
    + intros k Hk. by apply znth_zset_ne.
  - exists s, (-1). split_and!; try done. left. split_and!; try done. intros (_ & _ & i & d & Hi & Hd & Hd0).
    specialize (Hr i d). rewrite Hr in Hd0; [done| |done]. change (0 + _) with MAX_NUM_SOCKETS_PER_TASK. apply Hi.
Qed.

(** A socket is opened exactly when the port is free and the task has a
    socket left: it becomes the owner of the port, and no other socket and no
    other port changes; otherwise -1 is returned and nothing changes. *)
Theorem openSocket_correct s t port :
  matched s -> isTask t -> 0 <= port ->
  exists s' r, openSocket s t port = Ok (s', r) /\ matched s' /\
    (r = -1 /\ s' = s /\ ~ canOpen s t port \/
     canOpen s t port /\ isSlot r /\
     (socketDescs s').[socketIndex t r] = Some (mkSocketDesc 1 port 0 0 0 0 0 0 0) /\
     (udpPortStates s').[port] = Some (mkUDPPortState 1 t r) /\
     (forall k, k <> socketIndex t r -> (socketDescs s').[k] = (socketDescs s).[k]) /\
     (forall k, k <> port -> (udpPortStates s').[k] = (udpPortStates s).[k])).
Proof.
  intros Hm Ht Hport. destruct (openSocket_ok s t port Hm Ht Hport) as (s' & r & H1 & H2 & _ & H3).
  exists s', r. split_and!; [done|done|]. destruct H3 as [H3|(? & ? & _ & ? & ? & ? & ?)]; [by left|by right].
Qed.

(** ** The packets of a send buffer *)

(** The addresses and lengths of the packets, read as the documentation of the
    buffer format says: a header with the UDP length, the datagram, and so on
    until the rest is too short or a length is wrong. *)
Fixpoint sendPackets (n : nat) (m : Mem) (buffer size : Z) : list (Z * Z) :=
  match n with
  | O => []
  | S n' =>
      let len := sendHeaderLength m buffer in
      if (size <? 16) || (len <? 8) || (size <? 8 + len) then []
      else (buffer, len) :: sendPackets n' m (buffer + 8 + len) (size - 8 - len)
  end.

Lemma sendPackets_fuel n n' m buffer size :
  size < 16 * Z.of_nat n -> size < 16 * Z.of_nat n' -> sendPackets n m buffer size = sendPackets n' m buffer size.
Proof.
  revert n' buffer size. induction n as [|n IH]; intros [|n'] buffer size Hn Hn'; cbn [sendPackets]; [done| | |].
  1,2: by destruct (Z.ltb_spec size 16); [|lia].
  destruct (_ || _) eqn:E; [done|]. bool_hyps. f_equal. apply IH; lia.
Qed.

(** The packet [getTop] makes of a header at [h]. *)
Definition outgoingAt (m : Mem) (port : Z) (d : SocketDesc) (h len : Z) : OutgoingUDPPacket :=
  mkOutgoingUDPPacket port (u16 (Z.shiftl (m (h + 5)) 8 + m (h + 4)))
    (u32 (Z.shiftl (m (h + 3)) 24 + Z.shiftl (m (h + 2)) 16 + Z.shiftl (m (h + 1)) 8 + m h))
    (h + 8) len (sendBufferIdentification d) (sendBufferFragmentOffset d).

(** [getTop] returns the first packet of the send buffer and [removeTop]
    goes on to the next one, starting it from its first fragment; it reports
    the buffer as done only when no packet is left. *)
Theorem sendBuffer_traversal s m port p d n :
  matched s -> (udpPortStates s).[port] = Some p -> portIsActive p = 1 ->
  (socketDescs s).[socketIndex (portTaskID p) (portSocketID p)] = Some d ->
  0 <= sendBuffer d -> 0 <= sendBufferSize d -> sendBuffer d + sendBufferSize d < 2 ^ 32 ->
  sendBufferSize d < 16 * Z.of_nat n ->
  let r := mkTransmissionRequest true port in
  match sendPackets n m (sendBuffer d) (sendBufferSize d) with
  | [] => getTop s m r = Ok noOutgoingUDPPacket
  | (h, len) :: rest =>
      getTop s m r = Ok (outgoingAt m port d h len) /\
      exists s' finished d', removeTop s m r = Ok (s', finished) /\
        (socketDescs s').[socketIndex (portTaskID p) (portSocketID p)] = Some d' /\
        if finished : bool then rest = [] /\ s' = s
        else sendPackets n m (sendBuffer d') (sendBufferSize d') = rest /\
             sendBuffer d' + sendBufferSize d' = sendBuffer d + sendBufferSize d /\
             sendBufferIdentification d' = 0 /\ sendBufferFragmentOffset d' = 0
  end.
Proof.
  intros Hm Hp Ha Hd Hb Hs Hwrap Hn r. destruct n as [|n]; [lia|]. cbn [sendPackets].
  assert (Hreq : requestSocket s r = Ok (Some (p, d))).
  { unfold requestSocket, getPort, getSocket. cbn [r hasSocketManager udpPort]. rewrite Hp. cbn [mbind result_bind orFault].
    rewrite Ha, Hd. done. }
  unfold getTop, removeTop. rewrite Hreq. cbn [mbind result_bind]. set (len := sendHeaderLength m (sendBuffer d)).
  change (SEND_BUFFER_HEADER_SIZE + UDP_HEADER_SIZE) with 16. change SEND_BUFFER_HEADER_SIZE with 8. change UDP_HEADER_SIZE with 8.
  destruct (Z.ltb_spec (sendBufferSize d) 16); [done|]. cbn [orb].
  assert (Hlen : 0 <= len < 2 ^ 16) by apply is_u16_u16.
  destruct (Z.ltb_spec len 8); [done|]. destruct (Z.ltb_spec (sendBufferSize d) (8 + len)); [done|]. cbn [orb].
  split; [unfold outgoingAt; by rewrite (u32_small (sendBuffer d + 8)) by (unfold is_u32; lia)|].
  assert (Hdone : sendBufferSize d < 24 + len -> sendPackets n m (sendBuffer d + 8 + len) (sendBufferSize d - 8 - len) = []).
  { intros Hsmall. destruct n as [|n']; [done|]. cbn [sendPackets].
    destruct (Z.ltb_spec (sendBufferSize d - 8 - len) 16); [done|lia]. }
  destruct (Z.ltb_spec (sendBufferSize d) (2 * 16)).
  { eexists _, _, d. split; [done|]. split; [done|]. cbn. split; [apply Hdone; lia|done]. }
  replace (2 * 8 + 8 + len) with (24 + len) by lia.
  destruct (Z.ltb_spec (sendBufferSize d) (24 + len)).
  { eexists _, _, d. split; [done|]. split; [done|]. cbn. split; [apply Hdone; lia|done]. }
  eexists _, _, _. split; [done|]. split.
  { cbn [putSocket withSockets socketDescs]. apply znth_zset_eq. by apply znth_Some_lt in Hd. }
  cbn [setSend sendBuffer sendBufferSize sendBufferIdentification sendBufferFragmentOffset].
  rewrite !u32_small by (unfold is_u32; lia). split; [|split; [lia|done]].
  replace (sendBuffer d + (8 + len)) with (sendBuffer d + 8 + len) by lia.
  replace (sendBufferSize d - (8 + len)) with (sendBufferSize d - 8 - len) by lia. apply (sendPackets_fuel (S n) n); lia.
Qed.

(** Removing the request an iterator stands at takes exactly it off the
    list, keeps the others in order and moves the iterator to the next one. *)
Theorem remove_unlinks s before c after unused :
  requests s (before ++ c :: after) unused ->
  exists s', remove s (Some c) = Ok (s', firstOf after None) /\ requests s' (before ++ after) (c :: unused) /\
    sameSockets s s' /\ unchanged (requestOf s) (requestOf s').
Proof. apply remove_ok. Qed.

(** Moving the request an iterator stands at to the end keeps all requests,
    in the order of a rotation, and moves the iterator to the next one; the
    last request stays where it is. *)
Theorem relocateToEnd_rotates s before c after unused :
  requests s (before ++ c :: after) unused ->
  exists s' it, relocateToEnd s (Some c) = Ok (s', it) /\ requests s' (before ++ after ++ [c]) unused /\
    it = firstOf (after ++ [c]) None /\ sameSockets s s' /\ unchanged (requestOf s) (requestOf s').
Proof.
  intros Hr. destruct (decide (after = [])) as [->|Hafter].
  - destruct (requests_at _ _ _ _ _ Hr) as (Hn & _). exists s, (Some c). split; [|done].
    unfold relocateToEnd. by rewrite (getNext_ok _ _ _ Hn).
  - destruct (relocateToEnd_ok s before c after unused Hr Hafter) as (s' & Hrun & H1 & H2 & H3).
    exists s', (firstOf after None). split_and!; try done. by destruct after.
Qed.

(** ** Sequences of operations *)

Inductive SocketOp :=
| CloseSocket (taskID socketID : Z)
| CloseAllSockets (taskID : Z)
| OpenSocket (taskID port : Z)
| SetReceiveBuffer (taskID socketID newBuffer newBufferSize : Z)
| SetSendBuffer (taskID socketID newBuffer newBufferSize indicator : Z)
| ReceivedPacket (fragments : list Fragment)
| UpdateTop (it fragmentOffset identification : Z)
| RemoveTop (it : Z)
| IndicateAsFinished (it : Z)
| RemoveRequest (it : Z)
| RelocateRequest (it : Z).

(** [iterator->f()] *)
Definition atIterator {A} (s : SocketManager) (it : Z) (f : TransmissionRequest -> result A) : result A :=
  r ← currentRequest s (Some it);
  match r with None => Fault NullPointer | Some r => f r end.

Definition socketStep (x : SocketManager * Mem) (op : SocketOp) : result (SocketManager * Mem) :=
  let '(s, m) := x in
  match op with
  | CloseSocket t i => s ← closeSocket s t i; Ok (s, m)
  | CloseAllSockets t => s ← closeAllSocketsForTask s t; Ok (s, m)
  | OpenSocket t port => r ← openSocket s t port; Ok (fst r, m)
  | SetReceiveBuffer t i b n => r ← setReceiveBuffer s t i b n; Ok (fst r, m)
  | SetSendBuffer t i b n ind => r ← setSendBuffer s t i b n ind; Ok (fst r, m)
  | ReceivedPacket fragments => handleReceivedPacket s m fragments
  | UpdateTop it off ident => s ← atIterator s it (fun r => updateTop s r off ident); Ok (s, m)
  | RemoveTop it => r ← atIterator s it (removeTop s m); Ok (fst r, m)
  | IndicateAsFinished it => atIterator s it (indicateAsFinished s m)
  | RemoveRequest it => r ← remove s (Some it); Ok (fst r, m)
  | RelocateRequest it => r ← relocateToEnd s (Some it); Ok (fst r, m)
  end.

(** The invariant: sockets and ports are matched, and the requests on the
    list are for ports of the table. *)
Definition socketInv (s : SocketManager) : Prop :=
  matched s /\ exists active unused, requests s active unused /\
    Forall (fun i => exists port, requestOf s i = Some (mkTransmissionRequest true port) /\ 0 <= port < NUM_UDP_PORTS) active.

(** What callers guarantee: task identifiers are in range, socket identifiers
    are not negative, iterators stand on the list, and datagrams consist of
    fragments as the network stack keeps them. *)
Definition goodOp (s : SocketManager) (op : SocketOp) : Prop :=
  match op with
  | CloseSocket t i | SetReceiveBuffer t i _ _ | SetSendBuffer t i _ _ _ => isTask t /\ 0 <= i
  | CloseAllSockets t => isTask t
  | OpenSocket t port => isTask t /\ 0 <= port
  | ReceivedPacket fragments => fragments <> [] /\ Forall goodFragment fragments
  | UpdateTop it _ _ | RemoveTop it | IndicateAsFinished it | RemoveRequest it | RelocateRequest it =>
      exists active unused, requests s active unused /\ it ∈ active
  end.

Fixpoint runOps (x : SocketManager * Mem) (ops : list SocketOp) : result (SocketManager * Mem) :=
  match ops with
  | [] => Ok x
  | op :: ops => x ← socketStep x op; runOps x ops
  end.

Fixpoint goodOps (x : SocketManager * Mem) (ops : list SocketOp) : Prop :=
  match ops with
  | [] => True
  | op :: ops => goodOp (fst x) op /\ forall x', socketStep x op = Ok x' -> goodOps x' ops
  end.

Lemma requests_same s s' active unused : sameRequests s s' -> requests s active unused -> requests s' active unused.
Proof. intros (E1 & E2 & E3 & E4) []. by constructor; rewrite ?E1, ?E2, ?E3, ?E4. Qed.

Lemma socketInv_same s s' : sameRequests s s' -> matched s' -> socketInv s -> socketInv s'.
Proof.
  intros Hsame Hm' (_ & active & unused & Hr & Hv). split; [done|]. exists active, unused.
  split; [by eapply requests_same|]. unfold requestOf. by rewrite (proj1 Hsame).
Qed.

(** Threads from the same head are equal, so the list is determined. *)
Lemma threaded_det f l1 l2 : threaded f l1 None -> threaded f l2 None -> firstOf l1 None = firstOf l2 None -> l1 = l2.
Proof.
  revert l2. induction l1 as [|i l1 IH]; intros [|j l2]; cbn; try done. intros [Hi H1] [Hj H2] [= ->].
  f_equal. apply IH; [done..|]. rewrite Hi in Hj. by injection Hj.
Qed.

Lemma requests_det s a1 u1 a2 u2 : requests s a1 u1 -> requests s a2 u2 -> a1 = a2 /\ u1 = u2.
Proof.
  intros [R1 _ R3 _ R5 R6 _ _] [S1 _ S3 _ S5 S6 _ _].
  split; eapply threaded_det; try eassumption; congruence.
Qed.

(** The request at an iterator, and its socket. *)
Lemma iterator_ok s it active unused :
  socketInv s -> requests s active unused -> it ∈ active ->
  exists port, currentRequest s (Some it) = Ok (Some (mkTransmissionRequest true port)) /\
    exists x, requestSocket s (mkTransmissionRequest true port) = Ok x /\
      match x with
      | None => True
      | Some (p, d) => (socketDescs s).[socketIndex (portTaskID p) (portSocketID p)] = Some d
      end.
Proof.
  intros (Hm & a & u & Hr & Hv) Hr2 Hit. destruct (requests_det _ _ _ _ _ Hr Hr2) as [-> ->].
  rewrite Forall_forall in Hv. destruct (Hv it Hit) as (port & Hval & Hport). exists port. split.
  { unfold currentRequest. unfold requestOf in Hval. by rewrite (getValue_ok _ _ _ Hval). }
  unfold requestSocket. cbn [hasSocketManager udpPort]. destruct (getPort_ok s port Hm Hport) as (p & Hp & ->).
  cbn [mbind result_bind]. destruct (Z.eqb_spec (portIsActive p) 0); [by exists None|].
  destruct (mt_port_bits _ Hm _ _ Hp) as [?|Ha]; [done|].
  destruct (mt_port _ Hm _ _ Hp Ha) as (_ & _ & d & Hd & _). unfold getSocket. rewrite Hd. cbn. by exists (Some (p, d)).
Qed.

Lemma putSocket_inv s t i d d' :
  socketInv s -> (socketDescs s).[socketIndex t i] = Some d ->
  socketIsActive d' = socketIsActive d -> socketPort d' = socketPort d -> socketInv (putSocket s t i d').
Proof.
  intros Hs Hd E1 E2. eapply socketInv_same; [|by eapply putSocket_matched; [apply Hs|..]|exact Hs]. done.
Qed.

Lemma closeSocket_inv s t i :
  socketInv s -> isTask t -> 0 <= i -> exists s', closeSocket s t i = Ok s' /\ socketInv s'.
Proof.
  intros Hs Ht Hi. destruct (closeSocket_ok s t i (proj1 Hs) Ht Hi) as (s' & Hrun & Hm & E1 & E2 & E3 & E4 & _).
  exists s'. split; [done|]. by eapply socketInv_same.
Qed.

Lemma closeSocket_keeps s t i j s' d :
  closeSocket s t i = Ok s' -> isTask t -> isSlot i -> isSlot j -> i <> j ->
  (socketDescs s').[socketIndex t j] = Some d -> (socketDescs s).[socketIndex t j] = Some d.
Proof.
  unfold closeSocket. intros Hrun Ht Hi Hj Hij.
  destruct (MAX_NUM_SOCKETS_PER_TASK <=? i); [by injection Hrun as ->|].
  destruct (getSocket s t i) as [x|]; [|done]. cbn [mbind result_bind] in Hrun.
  destruct (socketIsActive x =? 1); [|by injection Hrun as ->].
  destruct (getPort s (socketPort x)); [|done]. cbn [mbind result_bind] in Hrun. injection Hrun as <-.
  cbn [putSocket withSockets withPorts socketDescs]. rewrite znth_zset_ne; [done|].
  intros E%socketIndex_inj; tauto.
Qed.

(** Closing all sockets of a task closes each of them. *)
Lemma closeAll_closed n k s t :
  socketInv s -> isTask t -> 0 <= k -> k + Z.of_nat n <= MAX_NUM_SOCKETS_PER_TASK ->
  exists s', for_rangeM n k (fun i s => closeSocket s t i) s = Ok s' /\ socketInv s' /\
    (forall j d, k <= j < k + Z.of_nat n -> (socketDescs s').[socketIndex t j] = Some d -> socketIsActive d = 0) /\
    (forall j d, 0 <= j < k -> (socketDescs s').[socketIndex t j] = Some d -> (socketDescs s).[socketIndex t j] = Some d).
Proof.
  intros Hs Ht. revert k s Hs. induction n as [|n IH]; intros k s Hs Hk Hn; cbn [for_rangeM].
  { exists s. split_and!; try done. intros j d Hj. lia. }
  destruct (closeSocket_ok s t k (proj1 Hs) Ht Hk) as (s1 & Hrun & Hm1 & E1 & E2 & E3 & E4 & Hclosed).
  rewrite Hrun. cbn [mbind result_bind].
  destruct (IH (k + 1) s1) as (s' & Hrun' & Hs' & H1 & H2); [by eapply socketInv_same|lia|lia|].
  exists s'. split; [done|]. split; [done|]. split.
  - intros j d Hj Hd. destruct (decide (j = k)) as [->|]; [|apply (H1 j); [lia|done]].
    apply Hclosed; [unfold isSlot; lia|]. apply H2; [lia|done].
  - intros j d Hj Hd. eapply (closeSocket_keeps s t k); [done|done|unfold isSlot; lia..| |apply H2; [lia|done]]. lia.
Qed.

Lemma closeAll_ok s t :
  socketInv s -> isTask t ->
  exists s', closeAllSocketsForTask s t = Ok s' /\ socketInv s' /\
    forall j d, isSlot j -> (socketDescs s').[socketIndex t j] = Some d -> socketIsActive d = 0.
Proof.
  intros Hs Ht. destruct (closeAll_closed (Z.to_nat MAX_NUM_SOCKETS_PER_TASK) 0 s t Hs Ht) as (s' & Hrun & Hs' & H & _);
    [lia|done|]. by exists s'.
Qed.

Lemma setReceiveBuffer_inv s t i b n :
  socketInv s -> isTask t -> 0 <= i -> exists s' r, setReceiveBuffer s t i b n = Ok (s', r) /\ socketInv s'.
Proof.
  intros Hs Ht Hi. unfold setReceiveBuffer. destruct (Z.leb_spec MAX_NUM_SOCKETS_PER_TASK i); [by eexists _, _|].
  destruct (_ && _); [by eexists _, _|].
  destruct (getSocket_ok s t i (proj1 Hs) Ht ltac:(unfold isSlot; lia)) as (d & Hd & ->). cbn [mbind result_bind].
  destruct (_ =? 0); eexists _, _; (split; [done|]); [done|]. by eapply putSocket_inv.
Qed.

Lemma setSendBuffer_inv s t i b n ind :
  socketInv s -> isTask t -> 0 <= i -> exists s' r, setSendBuffer s t i b n ind = Ok (s', r) /\ socketInv s'.
Proof.
  intros Hs Ht Hi. unfold setSendBuffer. destruct (Z.leb_spec MAX_NUM_SOCKETS_PER_TASK i); [by eexists _, _|].
  destruct (_ && _); [by eexists _, _|].
  destruct (getSocket_ok s t i (proj1 Hs) Ht ltac:(unfold isSlot; lia)) as (d & Hd & ->). cbn [mbind result_bind].
  destruct (Z.eqb_spec (socketIsActive d) 0) as [|Ha]; [by eexists _, _|].
  destruct (_ && _); [eexists _, _; split; [done|by eapply putSocket_inv]|].
  destruct (mt_bits _ (proj1 Hs) _ _ Hd) as [?|Ha1]; [done|].
  destruct (mt_socket _ (proj1 Hs) t i d Ht ltac:(unfold isSlot; lia) Hd Ha1) as (p & Hp & _).
  destruct Hs as (Hm & active & unused & Hr & Hv). pose proof (push_ok s active unused (socketPort d) Hr) as Hpush.
  destruct unused as [|r unused].
  { rewrite Hpush. eexists _, _. split; [done|]. split; [done|]. by exists active, []. }
  destruct Hpush as (s1 & -> & Hr1 & Hsame & Hu). cbn [mbind result_bind].
  eexists _, _. split; [done|]. eapply putSocket_inv; [|by rewrite (proj1 Hsame)|done|done].
  split; [by eapply matched_same|]. exists (r :: active), unused. split; [done|]. apply Forall_cons. split.
  - exists (socketPort d). split; [apply Hu|]. pose proof (znth_Some_lt _ _ _ Hp) as Hl. by rewrite (mt_ports _ Hm) in Hl.
  - pose proof (requests_nodup _ _ _ Hr) as Hnd. apply NoDup_app in Hnd as (_ & Hd' & _).
    rewrite Forall_forall in Hv |- *. intros j Hj. rewrite (proj2 Hu); [by apply Hv|]. intros ->. apply (Hd' _ Hj). by left.
Qed.

Lemma requestsInv_frame s s' active unused active' unused' :
  requests s active unused -> socketInv s -> requests s' active' unused' -> sameSockets s s' ->
  unchanged (requestOf s) (requestOf s') -> (forall i, i ∈ active' -> i ∈ active) -> socketInv s'.
Proof.
  intros Hr (Hm & a & u & Hr0 & Hv) Hr' Hsame Hun Hsub. destruct (requests_det _ _ _ _ _ Hr0 Hr) as [-> ->].
  split; [by eapply matched_same|]. exists active', unused'. split; [done|]. rewrite Forall_forall in Hv |- *.
  intros i Hi. rewrite Hun. by apply Hv, Hsub.
Qed.

(** A step that can fail: the lookup of a port past the table. *)
Definition outOfTable (op : SocketOp) : Prop :=
  match op with ReceivedPacket fragments => portOutOfTable fragments | _ => False end.

Lemma received_inv s m fragments :
  socketInv s -> fragments <> [] -> Forall goodFragment fragments ->
  (portOutOfTable fragments /\ handleReceivedPacket s m fragments = Fault OutOfRange) \/
  exists s' m', handleReceivedPacket s m fragments = Ok (s', m') /\ socketInv s'.
Proof.
  intros Hs Hne Hf. destruct (received_cases s m fragments (proj1 Hs) Hne Hf) as [|(s' & m' & E & Hres)]; [by left|right].
  exists s', m'. split; [done|]. destruct Hres as [->|(p & d & l & Hd & ->)]; [done|]. by eapply putSocket_inv.
Qed.

Lemma socketStep_ok s m op :
  socketInv s -> goodOp s op -> ~ outOfTable op -> exists s' m', socketStep (s, m) op = Ok (s', m') /\ socketInv s'.
Proof.
  intros Hs Hop Hno. destruct op as [t i|t|t port|t i b n|t i b n ind|frs|it off ident|it|it|it|it];
    cbn [socketStep goodOp] in *.
  - destruct (closeSocket_inv s t i Hs (proj1 Hop) (proj2 Hop)) as (s' & -> & Hs'). by exists s', m.
  - destruct (closeAll_ok s t Hs Hop) as (s' & -> & Hs' & _). by exists s', m.
  - destruct (openSocket_ok s t port (proj1 Hs) (proj1 Hop) (proj2 Hop)) as (s' & r & -> & Hm' & Hsame & _).
    exists s', m. split; [done|]. by eapply socketInv_same.
  - destruct (setReceiveBuffer_inv s t i b n Hs (proj1 Hop) (proj2 Hop)) as (s' & r & -> & Hs'). by exists s', m.
  - destruct (setSendBuffer_inv s t i b n ind Hs (proj1 Hop) (proj2 Hop)) as (s' & r & -> & Hs'). by exists s', m.
  - by destruct (received_inv s m frs Hs (proj1 Hop) (proj2 Hop)) as [[? _]|].
  - destruct Hop as (a & u & Hr & Hit). destruct (iterator_ok s it a u Hs Hr Hit) as (port & Hc & x & Hx & Hxd).
    unfold atIterator, updateTop. rewrite Hc. cbn [mbind result_bind]. rewrite Hx. cbn [mbind result_bind].
    destruct x as [[p d]|]; [|by eexists _, _]. destruct (_ =? 0); [by eexists _, _|].
    eexists _, _. split; [done|]. by eapply putSocket_inv.
  - destruct Hop as (a & u & Hr & Hit). destruct (iterator_ok s it a u Hs Hr Hit) as (port & Hc & x & Hx & Hxd).
    unfold atIterator, removeTop. rewrite Hc. cbn [mbind result_bind]. rewrite Hx. cbn [mbind result_bind].
    destruct x as [[p d]|]; [|by eexists _, _]. destruct (_ <? _); [by eexists _, _|]. cbv zeta.
    destruct (_ || _); [by eexists _, _|]. eexists _, _. split; [done|]. by eapply putSocket_inv.
  - destruct Hop as (a & u & Hr & Hit). destruct (iterator_ok s it a u Hs Hr Hit) as (port & Hc & x & Hx & Hxd).
    unfold atIterator, indicateAsFinished. rewrite Hc. cbn [mbind result_bind]. rewrite Hx. cbn [mbind result_bind].
    destruct x as [[p d]|]; [|by eexists _, _]. eexists _, _. split; [done|]. by eapply putSocket_inv.
  - destruct Hop as (a & u & Hr & Hit). apply list_elem_of_split in Hit as (l1 & l2 & ->).
    destruct (remove_ok s l1 it l2 u Hr) as (s' & -> & Hr' & Hsame & Hun). exists s', m. split; [done|].
    eapply (requestsInv_frame s); try eassumption. intros i. rewrite !elem_of_app, elem_of_cons. tauto.
  - destruct Hop as (a & u & Hr & Hit). apply list_elem_of_split in Hit as (l1 & l2 & ->).
    destruct (decide (l2 = [])) as [->|Hne].
    + destruct (requests_at _ _ _ _ _ Hr) as (Hn & _). exists s, m. unfold relocateToEnd.
      by rewrite (getNext_ok _ _ _ Hn).
    + destruct (relocateToEnd_ok s l1 it l2 u Hr Hne) as (s' & -> & Hr' & Hsame & Hun). exists s', m. split; [done|].
      eapply (requestsInv_frame s); try eassumption. intros i. rewrite !elem_of_app, !elem_of_cons, elem_of_nil. tauto.
Qed.

Lemma socketStep_cases s m op :
  socketInv s -> goodOp s op ->
  (exists s' m', socketStep (s, m) op = Ok (s', m') /\ socketInv s') \/
  (outOfTable op /\ socketStep (s, m) op = Fault OutOfRange).
Proof.
  intros Hs Hop. destruct op as [t i|t|t port|t i b n|t i b n ind|frs|it off ident|it|it|it|it]; try (left; apply socketStep_ok; [done..|by intros []]).
  destruct (received_inv s m frs Hs (proj1 Hop) (proj2 Hop)) as [|]; [by right|by left].
Qed.

Lemma newRequests_range : requests newSocketManager [] (map Z.of_nat (seq 0 15)).
Proof. by constructor. Qed.

Lemma newSocketManager_inv : socketInv newSocketManager.
Proof.
  split; [|exists [], (map Z.of_nat (seq 0 15)); split; [apply newRequests_range|done]].
  constructor; unfold newSocketManager; cbn [socketDescs udpPortStates].
  1,2: by rewrite zlength_replicate.
  - intros k d Hd. pose proof (znth_Some_lt _ _ _ Hd) as Hk. rewrite zlength_replicate in Hk.
    rewrite znth_replicate in Hd by done. injection Hd as <-. left. done.
  - intros k d Hd. pose proof (znth_Some_lt _ _ _ Hd) as Hk. rewrite zlength_replicate in Hk.
    rewrite znth_replicate in Hd by done. injection Hd as <-. left. done.
  - intros t i d _ _ Hd. pose proof (znth_Some_lt _ _ _ Hd) as Hk. rewrite zlength_replicate in Hk.
    rewrite znth_replicate in Hd by done. injection Hd as <-. done.
  - intros k d Hd. pose proof (znth_Some_lt _ _ _ Hd) as Hk. rewrite zlength_replicate in Hk.
    rewrite znth_replicate in Hd by done. injection Hd as <-. done.
Qed.

Lemma runOps_cases s m ops :
  socketInv s -> goodOps (s, m) ops ->
  (exists s' m', runOps (s, m) ops = Ok (s', m') /\ socketInv s') \/
  (exists ops1 op ops2 s1 m1, ops = ops1 ++ op :: ops2 /\ runOps (s, m) ops1 = Ok (s1, m1) /\ socketInv s1 /\
     outOfTable op /\ runOps (s, m) ops = Fault OutOfRange).
Proof.
  revert s m. induction ops as [|op ops IH]; intros s m Hs Hops; cbn [runOps]; [by left; exists s, m|].
  destruct Hops as [Hop Hops]. destruct (socketStep_cases s m op Hs Hop) as [(s1 & m1 & Hrun & Hs1)|[Ho Hrun]]; rewrite Hrun; cbn [mbind result_bind].
  - destruct (IH s1 m1 Hs1 (Hops _ Hrun)) as [|(ops1 & op' & ops2 & s2 & m2 & -> & E & Hs2 & Ho & ->)]; [by left|right].
    exists (op :: ops1), op', ops2, s2, m2. split; [done|]. cbn [runOps]. rewrite Hrun. by split_and!.
  - right. by exists [], op, ops, s, m.
Qed.

(** C16: from its construction on, every sequence of socket operations, received
    datagrams and steps of the transmission loop either runs without leaving
    an array and keeps ports and sockets matched and the transmission requests
    on one intact list, or does so up to a datagram for a port past the table
    of 9000 ports, whose lookup is out of range: there is no other fault. *)
Theorem socketManager_safe m ops :
  goodOps (newSocketManager, m) ops ->
  (exists s' m', runOps (newSocketManager, m) ops = Ok (s', m') /\ socketInv s') \/
  (exists ops1 op ops2 s1 m1, ops = ops1 ++ op :: ops2 /\ runOps (newSocketManager, m) ops1 = Ok (s1, m1) /\ socketInv s1 /\
     outOfTable op /\ runOps (newSocketManager, m) ops = Fault OutOfRange).
Proof. intros Hops. apply runOps_cases; [apply newSocketManager_inv|done]. Qed.

(** ** Sample runs *)

Definition after (x : SocketManager * Mem) (op : SocketOp) : SocketManager * Mem :=
  match socketStep x op with Ok y => y | Fault _ => x end.

Definition succeeds (x : SocketManager * Mem) (op : SocketOp) : bool :=
  match socketStep x op with Ok _ => true | Fault _ => false end.

Lemma goodOps_cons x op ops :
  goodOp (fst x) op -> succeeds x op = true -> goodOps (after x op) ops -> goodOps x (op :: ops).
Proof.
  unfold succeeds, after. intros Hop Hs Hops. split; [done|]. intros x' Hx'. by rewrite Hx' in Hops.
Qed.

Lemma after_inv x op : socketInv (fst x) -> goodOp (fst x) op -> socketInv (fst (after x op)).
Proof.
  destruct x as [s m]. intros Hs Hop. unfold after.
  destruct (socketStep_cases s m op Hs Hop) as [(s' & m' & -> & Hs')|[_ ->]]; done.
Qed.

Definition zeroMem : Mem := fun _ => 0.
Definition open3 : SocketManager * Mem := after (newSocketManager, zeroMem) (OpenSocket 3 5).
Definition receiving3 : SocketManager * Mem := after open3 (SetReceiveBuffer 3 0 1000 100).

(** Two packets, of 10 and 9 bytes, at address 500. *)
Definition sendMem : Mem := storeBytes zeroMem 500
  ([2; 0; 0; 10; 7; 0; 10; 0] ++ replicate 10 1 ++ [3; 0; 0; 10; 8; 0; 9; 0] ++ replicate 9 2).
Definition sending3 : SocketManager * Mem := after (fst open3, sendMem) (SetSendBuffer 3 0 500 40 600).
Definition sending33 : SocketManager * Mem := after sending3 (SetSendBuffer 3 0 500 40 600).

Lemma open3_inv : socketInv (fst open3).
Proof. apply after_inv; [apply newSocketManager_inv|done]. Qed.
Lemma receiving3_inv : socketInv (fst receiving3).
Proof. apply after_inv; [apply open3_inv|done]. Qed.
Lemma sending3_inv : socketInv (fst sending3).
Proof. apply after_inv; [apply open3_inv|done]. Qed.

Lemma sending33_requests : requests (fst sending33) [1; 0] (map Z.of_nat (seq 2 13)).
Proof.
  constructor; try (vm_compute; repeat split; reflexivity).
  change (map Z.of_nat (seq 0 15)) with ([0; 1] ++ map Z.of_nat (seq 2 13)). apply Permutation_app_tail, perm_swap.
Qed.

(** A datagram of 10 bytes in two fragments for port 5. *)
Definition sampleFragments : list Fragment :=
  [(mkIPv4Packet 0x0A000002 0 8 17 true 0 1 (Some 1) 0, [0; 9; 0; 5; 0; 10; 0; 0; 0; 0]);
   (mkIPv4Packet 0x0A000002 0 2 17 false 8 1 None 0, [21; 22; 0; 0; 0; 0; 0; 0])].

Lemma sampleFragments_good : Forall goodFragment sampleFragments.
Proof. repeat (apply Forall_cons; split); try done; unfold goodFragment, zlength; cbn; lia. Qed.

Example socketManager_safe_witness :
  exists s' m', runOps (newSocketManager, zeroMem)
    [OpenSocket 3 5; SetReceiveBuffer 3 0 1000 100; ReceivedPacket sampleFragments; CloseAllSockets 3] = Ok (s', m') /\
    socketInv s'.
Proof.
  set (ops := [OpenSocket 3 5; SetReceiveBuffer 3 0 1000 100; ReceivedPacket sampleFragments; CloseAllSockets 3]).
  assert (Hops : goodOps (newSocketManager, zeroMem) ops).
  { apply goodOps_cons; [done|by vm_compute|]. apply goodOps_cons; [done|by vm_compute|].
    apply goodOps_cons; [split; [done|apply sampleFragments_good]|by vm_compute|]. by apply goodOps_cons; [|vm_compute|]. }
  destruct (socketManager_safe zeroMem ops Hops) as [Hok|(_ & _ & _ & _ & _ & _ & _ & _ & _ & E)]; [exact Hok|].
  vm_compute in E. discriminate E.
Defined.

Example handleReceivedPacket_delivers_witness :
  let d := mkSocketDesc 1 5 1000 100 0 0 0 0 0 in
  let bytes := datagram sampleFragments in
  exists sourcePort m',
    handleReceivedPacket (fst receiving3) zeroMem sampleFragments =
      Ok (putSocket (fst receiving3) 3 0
            (setReceive d (receiveBuffer d + zlength bytes) (receiveBufferSize d - zlength bytes)), m') /\
    headerPort [0; 9; 0; 5; 0; 10; 0; 0; 0; 0] 0 = Ok sourcePort /\
    loadBytes m' (receiveBuffer d) (Z.to_nat (zlength bytes + 8)) = deliveredBytes 0x0A000002 sourcePort bytes /\
    forall x, ~ (receiveBuffer d <= x < receiveBuffer d + zlength bytes + 8) -> m' x = zeroMem x.
Proof.
  refine (handleReceivedPacket_delivers (fst receiving3) zeroMem _ _ _ 5 (mkUDPPortState 1 3 0)
    (mkSocketDesc 1 5 1000 100 0 0 0 0 0) (proj1 receiving3_inv) sampleFragments_good eq_refl _ eq_refl _ eq_refl _ eq_refl _ _ _);
    vm_compute; first [reflexivity | discriminate | congruence].
Defined.

Example handleReceivedPacket_contained_witness :
  exists s' m', handleReceivedPacket (fst receiving3) zeroMem sampleFragments = Ok (s', m') /\ matched s' /\
    forall x, ~ inReceiveBuffer (fst receiving3) x -> m' x = zeroMem x.
Proof.
  apply (handleReceivedPacket_contained (fst receiving3) zeroMem _ _ _ 5);
    [apply receiving3_inv|apply sampleFragments_good|by vm_compute|done].
Defined.

Example handleReceivedPacket_port_out_of_range_witness :
  handleReceivedPacket newSocketManager zeroMem
    [(mkIPv4Packet 0x0A000002 0 8 17 false 0 1 None 0, [0; 9; 255; 255; 0; 8; 0; 0])] = Fault OutOfRange.
Proof.
  apply handleReceivedPacket_port_out_of_range; [apply newSocketManager_inv|]. split_and!; [done|done|]. by exists 65535.
Defined.

Example openSocket_correct_witness :
  exists s' r, openSocket (fst open3) 3 6 = Ok (s', r) /\ matched s' /\
    (r = -1 /\ s' = fst open3 /\ ~ canOpen (fst open3) 3 6 \/
     canOpen (fst open3) 3 6 /\ isSlot r /\
     (socketDescs s').[socketIndex 3 r] = Some (mkSocketDesc 1 6 0 0 0 0 0 0 0) /\
     (udpPortStates s').[6] = Some (mkUDPPortState 1 3 r) /\
     (forall k, k <> socketIndex 3 r -> (socketDescs s').[k] = (socketDescs (fst open3)).[k]) /\
     (forall k, k <> 6 -> (udpPortStates s').[k] = (udpPortStates (fst open3)).[k])).
Proof. apply (openSocket_correct (fst open3) 3 6); [apply open3_inv|done|done]. Defined.

Example sendBuffer_traversal_witness :
  getTop (fst sending3) sendMem (mkTransmissionRequest true 5) =
    Ok (mkOutgoingUDPPacket 5 7 0x0A000002 508 10 0 0) /\
  sendPackets 3 sendMem 500 40 = [(500, 10); (518, 9)].
Proof.
  split; [|by vm_compute].
  pose proof (sendBuffer_traversal (fst sending3) sendMem 5 (mkUDPPortState 1 3 0) (mkSocketDesc 1 5 0 0 500 40 0 0 600) 3
    ltac:(apply sending3_inv) ltac:(by vm_compute) ltac:(done) ltac:(by vm_compute) ltac:(done) ltac:(done)
    ltac:(cbn; lia) ltac:(cbn; lia)) as H.
  cbv zeta in H. cbn [sendBuffer sendBufferSize] in H.
  assert (E : sendPackets 3 sendMem 500 40 = [(500, 10); (518, 9)]) by (by vm_compute).
  rewrite E in H. destruct H as [H _]. rewrite H. by vm_compute.
Defined.

Example remove_unlinks_witness :
  exists s', remove (fst sending33) (Some 1) = Ok (s', Some 0) /\ requests s' [0] (1 :: map Z.of_nat (seq 2 13)) /\
    sameSockets (fst sending33) s' /\ unchanged (requestOf (fst sending33)) (requestOf s').
Proof. apply (remove_unlinks (fst sending33) [] 1 [0]). apply sending33_requests. Defined.

Example relocateToEnd_rotates_witness :
  exists s' it, relocateToEnd (fst sending33) (Some 1) = Ok (s', it) /\ requests s' [0; 1] (map Z.of_nat (seq 2 13)) /\
    it = Some 0 /\ sameSockets (fst sending33) s' /\ unchanged (requestOf (fst sending33)) (requestOf s').
Proof. apply (relocateToEnd_rotates (fst sending33) [] 1 [0]). apply sending33_requests. Defined.
