(* ===== verification/CpuCore.v ===== *)
(** Tasks, the scheduler and the system calls:
    [operating_system/cpu_core/cpu_core.{h,cpp}], with the page table views of
    [current_paging_structure.cpp] and the initial stacks that
    [interrupt_handler_manager_assembly.asm] builds.

    Task descriptors are list elements as in [LinkedLists]; task objects are
    values, and a descriptor's [pTask] names one.  The pages the running
    paging structures show ([virtualPage]), the control register [cr0], the
    values of uninitialised local variables ([junk]) and the registers a new
    stack frame copies are the section's variables. *)
From S2P Require Import Prelude Mem LinkedLists Paging PageAllocator SocketManager.

Definition MAX_TASK_ARGS : Z := 5.
Definition USER_STACK_SIZE : Z := 0x10000.
Definition KERNEL_STACK_SIZE : Z := 0x10000.
Definition MAIN_KERNEL_STACK : Z := 0x10FFFC.
Definition SIZEOF_PAGE_DIRECTORY : Z := 0x2000.
Definition SIZEOF_PAGE_TABLE : Z := 0x1000.
Definition USER_TASK_KERNEL_STACK_OFFSET : Z := SIZEOF_PAGE_DIRECTORY + 2 * SIZEOF_PAGE_TABLE + KERNEL_STACK_SIZE - 4.
Definition USER_TASK_USER_STACK_OFFSET : Z :=
  SIZEOF_PAGE_DIRECTORY + 2 * SIZEOF_PAGE_TABLE + KERNEL_STACK_SIZE + USER_STACK_SIZE - 4.
Definition USER_TASK_PROCESS_ENTRY_OFFSET : Z :=
  SIZEOF_PAGE_DIRECTORY + 2 * SIZEOF_PAGE_TABLE + KERNEL_STACK_SIZE + USER_STACK_SIZE.

Record TaskDescriptor := mkTaskDescriptor {
  pTask : option Z;
  taskEsp : Z;
  kernelEspStackBegin : Z;
  pageDirectoryPhysicalAddr : Z;
}.

Record TaskArguments := mkTaskArguments {
  taskArgs : list Z;
  numArgs : Z;
}.

Inductive SetToRunningStateResponse :=
| SUCCESS
| TASK_ALREADY_RUNNING
| TASK_NOT_PROPERLY_INITIALIZED
| TOO_MANY_TASKS.

(** The page directory and the two page tables a user task begins its region
    with. *)
Record TaskPaging := mkTaskPaging {
  taskDirectory : PageDirectory;
  taskPageTable1 : PageTable;
  taskPageTable2 : PageTable;
}.

Inductive TaskKind :=
| UserTask (taskSpaceBeginVirtualAddr pTask8MBRegion updatedKernelStack : Z) (paging : option TaskPaging)
| KernelTask (kernelStackSpaceBegin updatedKernelStack : Z).

Record Task := mkTask {
  taskID : Z;
  taskIsRunning : bool;
  taskKind : TaskKind;
}.

(** [cr3] is the page directory in use, [esp0] the field of the task state
    segment. *)
Record CpuCore := mkCpuCore {
  taskDescriptorListElements : list (Element TaskDescriptor);
  unusedtaskDescriptorElementsListHead : option Z;
  activeTasksListHead : option Z;
  currentTask : option Z;
  taskSwitchingPaused : bool;
  coreIsRunning : bool;
  timerCounter : Z;
  esp0 : Z;
  cr3 : Z;
  socketManager : SocketManager;
  kernelPageAllocator : PagingStructures;
  kernelPageDirectoryPhysicalAddr : Z;
}.

#[export] Instance TaskDescriptor_eq_dec : EqDecision TaskDescriptor.
Proof. solve_decision. Defined.
#[export] Instance SetToRunningStateResponse_eq_dec : EqDecision SetToRunningStateResponse.
Proof. solve_decision. Defined.

(** ** Field updates *)

Definition withLists (c : CpuCore) es unused active :=
  mkCpuCore es unused active (currentTask c) (taskSwitchingPaused c) (coreIsRunning c) (timerCounter c) (esp0 c)
    (cr3 c) (socketManager c) (kernelPageAllocator c) (kernelPageDirectoryPhysicalAddr c).
Definition withCurrent (c : CpuCore) es cur newEsp0 newCr3 :=
  mkCpuCore es (unusedtaskDescriptorElementsListHead c) (activeTasksListHead c) cur (taskSwitchingPaused c)
    (coreIsRunning c) (timerCounter c) newEsp0 newCr3 (socketManager c) (kernelPageAllocator c)
    (kernelPageDirectoryPhysicalAddr c).
Definition withSocketManager (c : CpuCore) s :=
  mkCpuCore (taskDescriptorListElements c) (unusedtaskDescriptorElementsListHead c) (activeTasksListHead c)
    (currentTask c) (taskSwitchingPaused c) (coreIsRunning c) (timerCounter c) (esp0 c) (cr3 c) s
    (kernelPageAllocator c) (kernelPageDirectoryPhysicalAddr c).
Definition withAllocator (c : CpuCore) a :=
  mkCpuCore (taskDescriptorListElements c) (unusedtaskDescriptorElementsListHead c) (activeTasksListHead c)
    (currentTask c) (taskSwitchingPaused c) (coreIsRunning c) (timerCounter c) (esp0 c) (cr3 c) (socketManager c) a
    (kernelPageDirectoryPhysicalAddr c).
Definition withTimerCounter (c : CpuCore) t :=
  mkCpuCore (taskDescriptorListElements c) (unusedtaskDescriptorElementsListHead c) (activeTasksListHead c)
    (currentTask c) (taskSwitchingPaused c) (coreIsRunning c) t (esp0 c) (cr3 c) (socketManager c)
    (kernelPageAllocator c) (kernelPageDirectoryPhysicalAddr c).
Definition withPaused (c : CpuCore) p :=
  mkCpuCore (taskDescriptorListElements c) (unusedtaskDescriptorElementsListHead c) (activeTasksListHead c)
    (currentTask c) p (coreIsRunning c) (timerCounter c) (esp0 c) (cr3 c) (socketManager c)
    (kernelPageAllocator c) (kernelPageDirectoryPhysicalAddr c).

Definition setTaskEsp (d : TaskDescriptor) (esp : Z) :=
  mkTaskDescriptor (pTask d) esp (kernelEspStackBegin d) (pageDirectoryPhysicalAddr d).
Definition setPageDirectory (d : TaskDescriptor) (pd : Z) :=
  mkTaskDescriptor (pTask d) (taskEsp d) (kernelEspStackBegin d) pd.

(** ** Construction *)

Definition newDescriptorElement (i : nat) : Element TaskDescriptor :=
  mkElement (mkTaskDescriptor None 0 0 0) (if (i =? 49)%nat then None else Some (Z.of_nat (i + 1))) None.

(** The lists of the constructor.  The core does not run yet; the sequences of
    port and segment writes are in [Syscalls]. *)
Definition newCpuCore (s : SocketManager) (kernelPageDirectory : Z) (allocator : PagingStructures) : CpuCore :=
  mkCpuCore (map newDescriptorElement (seq 0 50)) (Some 0) None None false false 0 MAIN_KERNEL_STACK 0
    s allocator kernelPageDirectory.

(** ** The scheduler *)

Definition updateDescriptor (es : list (Element TaskDescriptor)) (i : Z) (f : TaskDescriptor -> TaskDescriptor)
  : result (list (Element TaskDescriptor)) :=
  d ← getValue es i; setValue es i (f d).

(** [esp] is the stack pointer of the interrupted task, the result the one to
    continue with. *)
Definition yieldTaskSwitch (c : CpuCore) (esp : Z) : result (CpuCore * Z) :=
  if taskSwitchingPaused c || bool_decide (activeTasksListHead c = None) then Ok (c, esp)
  else
    nextTask ← match currentTask c with
               | None => Ok (activeTasksListHead c)
               | Some t => n ← getNext (taskDescriptorListElements c) t;
                           Ok (if n is None then activeTasksListHead c else n)
               end;
    if bool_decide (currentTask c = nextTask) then Ok (c, esp)
    else
      n ← nextTask ?? NullPointer;
      es ← match currentTask c with
           | Some t => updateDescriptor (taskDescriptorListElements c) t (fun d => setTaskEsp d esp)
           | None => Ok (taskDescriptorListElements c)
           end;
      d ← getValue es n;
      es ← match currentTask c with
           | Some t => updateDescriptor es t (fun d => setPageDirectory d (cr3 c))
           | None => Ok es
           end;
      Ok (withCurrent c es (Some n) (kernelEspStackBegin d) (pageDirectoryPhysicalAddr d), taskEsp d).

(** [TimerCallback::run] up to its [yield]. *)
Definition timerCallback (c : CpuCore) : CpuCore := withTimerCounter c (u32 (timerCounter c + 1)).

Definition withTaskSwitchingPaused (c : CpuCore) (runnable : CpuCore -> result CpuCore) : result CpuCore :=
  c ← runnable (withPaused c true); Ok (withPaused c false).

(** ** Stacks *)

(** [push] for every word, the first one first. *)
Fixpoint pushWords (m : Mem) (esp : Z) (ws : list Z) : Mem * Z :=
  match ws with
  | [] => (m, esp)
  | w :: ws => pushWords (storeWord m (esp - 4) w) (esp - 4) ws
  end.

Section tasks.
Context (cr0 : Z) (virtualPage : Z -> option PageTable) (junk : Z -> Z).
Context (eflags interruptHandlerReturn : Z) (savedRegisters : list Z).

Definition createIntStackForUserPriv (m : Mem) (kernelStack userStack processEntry intNumber : Z) : Mem * Z :=
  pushWords m kernelStack
    ([Z.lor (4 * 8) 3; userStack; eflags; Z.lor (3 * 8) 3; processEntry; 0; intNumber] ++ savedRegisters ++
     [Z.lor (4 * 8) 3; 0; 0; interruptHandlerReturn]).

Definition createIntStackForKernelPriv (m : Mem) (kernelStack processEntry intNumber : Z) : Mem * Z :=
  pushWords m kernelStack
    ([eflags; 1 * 8; processEntry; 0; intNumber] ++ savedRegisters ++ [2 * 8; 0; 0; interruptHandlerReturn]).

(** The interrupt type of the timer, below the bound the builders check. *)
Definition PITTimer : Z := 32.

Definition buildIntHandlerStackForUserPriv (m : Mem) (intType kernelStack userStack processEntry : Z) : Mem * Z :=
  if (55 <? intType) && negb (intType =? 80) then (m, 0)
  else createIntStackForUserPriv m kernelStack userStack processEntry intType.

Definition buildIntHandlerStackForKernelPriv (m : Mem) (intType kernelStack processEntry : Z) : Mem * Z :=
  if (55 <? intType) && negb (intType =? 80) then (m, 0)
  else createIntStackForKernelPriv m kernelStack processEntry intType.

(** ** The running paging structures *)

(** [CurrentPagingStructure::getPDE] and [getPTE]; [None] is an uninitialised
    structure. *)
Definition currentPDE (pdeIndex : Z) : result (option PDE) :=
  if 1023 <=? pdeIndex then Ok None
  else
    pHelperTable ← virtualPage 0xFFFFF000 ?? NullPointer;
    Ok ((fun p => mkPDE (pagePhysicalAddr p) (pte_kernelPrivilegeOnly p) (pteIsValid p)) <$> getPTE pHelperTable pdeIndex).

Definition currentPTE (pdeIndex pteIndex : Z) : result (option PTE) :=
  if 1023 <=? pteIndex then Ok None
  else
    pUsedPageTable ← virtualPage (u32 (0xFFC00000 + pdeIndex * 0x1000)) ?? NullPointer;
    Ok (getPTE pUsedPageTable pteIndex).

(** ** User tasks: the address space *)

(** One entry of the kernel's directory, copied if valid. *)
Definition copyPDE (i : Z) (pd : PageDirectory) : result PageDirectory :=
  p ← currentPDE i;
  pde ← p ?? Uninitialised;
  Ok (if pdeIsValid pde
      then changePDE pd i (mkPDE (pageTablePhysicalAddr pde) (pde_kernelPrivilegeOnly pde) true) else pd).

(** Entry [i] of a task's page table: page [page + i] of the kernel's space. *)
Definition mapPage (page : Z) (kernelOnly : bool) (i : Z) (pt : PageTable) : result PageTable :=
  pte ← currentPTE ((page + i) / 1024) ((page + i) mod 1024);
  let addr := match pte with Some p => pagePhysicalAddr p | None => junk (page + i) end in
  Ok (changePTE pt i (mkPTE addr kernelOnly true)).

Definition buildPageTable1 (page : Z) : result PageTable :=
  pt ← for_rangeM 4 0 (mapPage page true) newPageTable;
  pt ← for_rangeM (Z.to_nat (KERNEL_STACK_SIZE / 0x1000)) 4 (mapPage page true) pt;
  for_rangeM (Z.to_nat (1024 - (4 + KERNEL_STACK_SIZE / 0x1000))) (4 + KERNEL_STACK_SIZE / 0x1000)
    (mapPage page false) pt.

Definition buildPageTable2 (page : Z) : result PageTable :=
  for_rangeM 1024 0 (mapPage (page + 1024) false) newPageTable.

Definition physicalAddrOf (a : Z) : result Z := translateVirtualToPhysicalAddress cr0 virtualPage a.

Definition buildTaskPaging (taskSpaceBegin region : Z) : result TaskPaging :=
  let taskFirstPdeIndex := taskSpaceBegin / (1024 * 4096) in
  let taskRegionPageIndex := region / 4096 in
  pdAddr ← physicalAddrOf region;
  pd ← for_rangeM 1023 0 copyPDE (newPageDirectory pdAddr);
  pt1 ← buildPageTable1 taskRegionPageIndex;
  pt1Addr ← physicalAddrOf (region + SIZEOF_PAGE_DIRECTORY);
  let pd := changePDE pd taskFirstPdeIndex (mkPDE pt1Addr false true) in
  pt2 ← buildPageTable2 taskRegionPageIndex;
  pt2Addr ← physicalAddrOf (region + SIZEOF_PAGE_DIRECTORY + SIZEOF_PAGE_TABLE);
  let pd := changePDE pd (taskFirstPdeIndex + 1) (mkPDE pt2Addr false true) in
  Ok (mkTaskPaging pd pt1 pt2).

(** [UserTask::UserTask] and [KernelTask::KernelTask]; [updatedKernelStack],
    which they leave uninitialised, is 0. *)
Definition newUserTask (c : CpuCore) (taskSpaceBegin : Z) : result (CpuCore * Task) :=
  r ← (if coreIsRunning c && (cr3 c =? kernelPageDirectoryPhysicalAddr c) && (taskSpaceBegin mod (4096 * 1024) =? 0)
       then r ← allocateContiguousPages (kernelPageAllocator c) (1024 * 2); Ok (withAllocator c (fst r), snd r)
       else Ok (c, 0));
  let '(c, region) := r in
  if negb (region =? 0) then
    paging ← buildTaskPaging taskSpaceBegin region;
    Ok (c, mkTask (-1) false (UserTask taskSpaceBegin region 0 (Some paging)))
  else Ok (c, mkTask (-1) false (UserTask taskSpaceBegin region 0 None)).

Definition newKernelTask (c : CpuCore) : result (CpuCore * Task) :=
  if negb (coreIsRunning c) || (cr3 c =? kernelPageDirectoryPhysicalAddr c) then
    r ← allocateContiguousPages (kernelPageAllocator c) (KERNEL_STACK_SIZE / 0x1000);
    Ok (withAllocator c (fst r), mkTask (-1) false (KernelTask (snd r) 0))
  else Ok (c, mkTask (-1) false (KernelTask 0 0)).

(** ** Starting and removing tasks *)

(** A descriptor is taken off the unused list, filled and put at the head of
    the active list. *)
Definition activateDescriptor (c : CpuCore) (newTask : Z) (d : TaskDescriptor) : result CpuCore :=
  let es := taskDescriptorListElements c in
  unused ← getNext es newTask;
  es ← setValue es newTask d;
  es ← setNext es newTask (activeTasksListHead c);
  es ← setPrev es newTask None;
  es ← match activeTasksListHead c with Some h => setPrev es h (Some newTask) | None => Ok es end;
  Ok (withLists c es unused (Some newTask)).

(** [UserTask::setToRunningState]; [this] names the task object. *)
Definition UserTask_setToRunningState (c : CpuCore) (this : Z) (t : Task) (taskSpaceBegin region updatedKernelStack : Z)
  : result (CpuCore * Task * SetToRunningStateResponse) :=
  if taskIsRunning t then Ok (c, t, TASK_ALREADY_RUNNING)
  else if region =? 0 then Ok (c, t, TASK_NOT_PROPERLY_INITIALIZED)
  else
    match unusedtaskDescriptorElementsListHead c with
    | None => Ok (c, t, TOO_MANY_TASKS)
    | Some newTask =>
        pd ← physicalAddrOf region;
        c ← activateDescriptor c newTask
              (mkTaskDescriptor (Some this) (u32 (u32 (updatedKernelStack - region) + taskSpaceBegin))
                 (u32 (taskSpaceBegin + USER_TASK_KERNEL_STACK_OFFSET)) pd);
        Ok (c, mkTask newTask true (taskKind t), SUCCESS)
    end.

(** [KernelTask::setToRunningState] *)
Definition KernelTask_setToRunningState (c : CpuCore) (this : Z) (t : Task) (kernelStackSpaceBegin updatedKernelStack : Z)
  : result (CpuCore * Task * SetToRunningStateResponse) :=
  if taskIsRunning t then Ok (c, t, TASK_ALREADY_RUNNING)
  else if kernelStackSpaceBegin =? 0 then Ok (c, t, TASK_NOT_PROPERLY_INITIALIZED)
  else
    match unusedtaskDescriptorElementsListHead c with
    | None => Ok (c, t, TOO_MANY_TASKS)
    | Some newTask =>
        c ← activateDescriptor c newTask
              (mkTaskDescriptor (Some this) updatedKernelStack (u32 (kernelStackSpaceBegin + KERNEL_STACK_SIZE - 4)) (cr3 c));
        Ok (c, mkTask newTask true (taskKind t), SUCCESS)
    end.

(** The virtual call. *)
Definition setToRunningState (c : CpuCore) (this : Z) (t : Task) : result (CpuCore * Task * SetToRunningStateResponse) :=
  match taskKind t with
  | UserTask taskSpaceBegin region updatedKernelStack _ => UserTask_setToRunningState c this t taskSpaceBegin region updatedKernelStack
  | KernelTask kernelStackSpaceBegin updatedKernelStack => KernelTask_setToRunningState c this t kernelStackSpaceBegin updatedKernelStack
  end.

Definition removeDescriptor (c : CpuCore) (thisTask : Z) : result CpuCore :=
  let es := taskDescriptorListElements c in
  p ← getPrev es thisTask;
  n ← getNext es thisTask;
  r ← setNextOrHead es p (activeTasksListHead c) n;
  let '(es, head) := r in
  n ← getNext es thisTask;
  p ← getPrev es thisTask;
  es ← match n with Some i => setPrev es i p | None => Ok es end;
  es ← setNext es thisTask (unusedtaskDescriptorElementsListHead c);
  Ok (withLists c es (Some thisTask) head).

(** [~UserTask] *)
Definition destroyUserTask (c : CpuCore) (t : Task) (pTask8MBRegion : Z) : result CpuCore :=
  c ← (if taskIsRunning t then removeDescriptor c (taskID t) else Ok c);
  c ← (if negb (taskID t =? -1)
       then s ← closeAllSocketsForTask (socketManager c) (u8 (taskID t)); Ok (withSocketManager c s) else Ok c);
  if negb (pTask8MBRegion =? 0)
  then a ← freeContiguousPages (kernelPageAllocator c) pTask8MBRegion; Ok (withAllocator c a) else Ok c.

(** [~KernelTask] *)
Definition destroyKernelTask (c : CpuCore) (t : Task) (kernelStackSpaceBegin : Z) : result CpuCore :=
  c ← (if taskIsRunning t then removeDescriptor c (taskID t) else Ok c);
  c ← (if negb (taskID t =? -1)
       then s ← closeAllSocketsForTask (socketManager c) (u8 (taskID t)); Ok (withSocketManager c s) else Ok c);
  if negb (kernelStackSpaceBegin =? 0)
  then a ← freeContiguousPages (kernelPageAllocator c) kernelStackSpaceBegin; Ok (withAllocator c a) else Ok c.

Definition destroyTask (c : CpuCore) (t : Task) : result CpuCore :=
  match taskKind t with
  | UserTask _ region _ _ => destroyUserTask c t region
  | KernelTask stack _ => destroyKernelTask c t stack
  end.

(** ** User addresses *)

Definition addrSpaceIsUserAccessible (taskSpaceBegin userAddr numBytes : Z) : bool :=
  negb ((userAddr <? u32 (taskSpaceBegin + USER_TASK_KERNEL_STACK_OFFSET + 4))
        || (u32 (taskSpaceBegin + 0x800000) <? u32 (userAddr + numBytes))).

Definition convertContigUserAddrBlockToContigKernelAddrBlock (taskSpaceBegin region userAddr numBytes : Z) : bool * Z :=
  if (userAddr <? u32 (taskSpaceBegin + USER_TASK_KERNEL_STACK_OFFSET + 4))
     || (u32 (taskSpaceBegin + 0x800000) <? u32 (userAddr + numBytes)) then (false, 0)
  else (true, u32 (userAddr + u32 (region - taskSpaceBegin))).

(** The loop that stores the arguments, last one first, downwards. *)
Definition storeArguments (args : list Z) (esp : Z) (m : Mem) : Mem * Z :=
  fold_left (fun '(m, esp) w => (storeWord m esp w, esp - 4)) (reverse args) (m, esp).

Definition setTaskArguments (t : Task) (a : TaskArguments) (m : Mem) : Task * Mem :=
  match taskKind t with
  | UserTask taskSpaceBegin region k paging =>
      if MAX_TASK_ARGS <? numArgs a then (t, m)
      else if region =? 0 then (t, m)
      else
        let '(m, userEsp) := storeArguments (take (Z.to_nat (numArgs a)) (taskArgs a))
                               (region + USER_TASK_USER_STACK_OFFSET) m in
        let m := storeWord m userEsp 0 in
        let virtualUserEsp := u32 (userEsp - region + taskSpaceBegin) in
        let virtualProcessEntry := u32 (taskSpaceBegin + 0x4000 + KERNEL_STACK_SIZE + USER_STACK_SIZE) in
        let '(m, k) := buildIntHandlerStackForUserPriv m PITTimer (region + USER_TASK_KERNEL_STACK_OFFSET)
                         virtualUserEsp virtualProcessEntry in
        (mkTask (taskID t) (taskIsRunning t) (UserTask taskSpaceBegin region k paging), m)
  | KernelTask _ _ => (t, m)
  end.

Definition setProcessCode (t : Task) (processCode : Z) (a : TaskArguments) (m : Mem) : Task * Mem :=
  match taskKind t with
  | KernelTask stack k =>
      if MAX_TASK_ARGS <? numArgs a then (t, m)
      else if stack =? 0 then (t, m)
      else
        let '(m, esp) := storeArguments (take (Z.to_nat (numArgs a)) (taskArgs a)) (stack + KERNEL_STACK_SIZE - 4) m in
        let m := storeWord m esp 0 in
        let '(m, k) := buildIntHandlerStackForKernelPriv m PITTimer esp processCode in
        (mkTask (taskID t) (taskIsRunning t) (KernelTask stack k), m)
  | UserTask _ _ _ _ => (t, m)
  end.

(** [memory] holds the tasks' regions alone, so a copy that leaves the region
    of the task would land in the kernel's own data or in another task: it is
    [Fault OutOfRange] here, for nothing is known of the kernel afterwards. *)
Definition setData (t : Task) (userAddr : Z) (data : list Z) (m : Mem) : result (bool * Mem) :=
  match taskKind t with
  | UserTask taskSpaceBegin region _ _ =>
      if (userAddr <? u32 (taskSpaceBegin + USER_TASK_PROCESS_ENTRY_OFFSET))
         || (u32 (taskSpaceBegin + 0x800000) <? u32 (userAddr + zlength data)) then Ok (false, m)
      else if region =? 0 then Ok (false, m)
      else
        let dest := u32 (userAddr + u32 (region - taskSpaceBegin)) in
        if (dest <? region) || (region + 0x800000 <? dest + zlength data) then Fault OutOfRange
        else Ok (true, storeBytes m dest data)
  | KernelTask _ _ => Ok (false, m)
  end.
End tasks.
