(* ===== verification/CpuCoreFacts.v ===== *)
(** What the scheduler and the task lists promise: the descriptors always form
    an active and an unused list, tasks take turns in the order of the active
    list, each continuing with the stack and the address space it was
    interrupted with, starting and removing a task moves its descriptor
    between the lists, and the address space a user task gets shows it only
    the pages meant for it. *)
From S2P Require Import Prelude Mem LinkedLists Paging PageAllocator PageAllocatorFacts SocketManager SocketManagerFacts CpuCore.

(** ** The task lists *)

Record taskLists (c : CpuCore) (active unused : list Z) : Prop := {
  tl_next : threaded (nextOf (taskDescriptorListElements c)) active None;
  tl_prev : backThreaded (prevOf (taskDescriptorListElements c)) None active;
  tl_head : activeTasksListHead c = firstOf active None;
  tl_free : threaded (nextOf (taskDescriptorListElements c)) unused None;
  tl_unused : unusedtaskDescriptorElementsListHead c = firstOf unused None;
  tl_all : active ++ unused ≡ₚ map Z.of_nat (seq 0 50);
  tl_size : zlength (taskDescriptorListElements c) = NUM_POSSIBLE_TASKS;
}.

Definition descriptorOf (c : CpuCore) (i : Z) : option TaskDescriptor := valueOf (taskDescriptorListElements c) i.

Lemma taskLists_nodup c active unused : taskLists c active unused -> NoDup (active ++ unused).
Proof.
  intros Hr. rewrite (tl_all _ _ _ Hr). apply NoDup_fmap_2; [by intros x y ?%Nat2Z.inj|apply NoDup_seq].
Qed.

Lemma taskLists_range c active unused i :
  taskLists c active unused -> i ∈ active ++ unused -> 0 <= i < zlength (taskDescriptorListElements c).
Proof.
  intros Hr. rewrite (tl_all _ _ _ Hr), (tl_size _ _ _ Hr). unfold NUM_POSSIBLE_TASKS.
  intros (k & <- & Hk%in_seq)%list_elem_of_In%in_map_iff. lia.
Qed.

Lemma taskLists_descriptor c active unused i :
  taskLists c active unused -> i ∈ active ++ unused -> exists d, descriptorOf c i = Some d.
Proof. intros Hr Hi. by apply valueOf_Some, (taskLists_range _ _ _ _ Hr). Qed.

(** Changing descriptors only. *)
Lemma taskLists_values c es cur e p active unused :
  taskLists c active unused -> zlength es = zlength (taskDescriptorListElements c) ->
  unchanged (nextOf (taskDescriptorListElements c)) (nextOf es) ->
  unchanged (prevOf (taskDescriptorListElements c)) (prevOf es) -> taskLists (withCurrent c es cur e p) active unused.
Proof.
  intros [H1 H2 H3 H4 H5 H6 H7] Hl Hn Hp.
  constructor; cbn [withCurrent taskDescriptorListElements activeTasksListHead unusedtaskDescriptorElementsListHead]; try done.
  - by eapply threaded_unchanged.
  - by eapply backThreaded_unchanged.
  - by eapply threaded_unchanged.
  - by rewrite Hl.
Qed.

Lemma updateDescriptor_ok es i d f :
  valueOf es i = Some d ->
  exists es', updateDescriptor es i f = Ok es' /\ zlength es' = zlength es /\
    updated (valueOf es) (valueOf es') i (f d) /\ unchanged (nextOf es) (nextOf es') /\ unchanged (prevOf es) (prevOf es').
Proof.
  intros Hd. unfold updateDescriptor. rewrite (getValue_ok _ _ _ Hd). cbn [mbind result_bind].
  apply setValue_ok, valueOf_Some. by exists d.
Qed.

(** ** Taking turns *)

(** The task after [x]. *)
Definition successor (active : list Z) (x y : Z) : Prop :=
  exists l1 l2, active = l1 ++ x :: l2 /\ Some y = firstOf l2 (firstOf active None).

Lemma successor_in active x y : successor active x y -> x ∈ active /\ y ∈ active.
Proof.
  intros (l1 & l2 & -> & Hy). split; [rewrite elem_of_app; right; by left|].
  destruct l2 as [|z l2]; cbn [firstOf] in Hy.
  - destruct l1; cbn in Hy; injection Hy as ->; by left.
  - injection Hy as ->. rewrite elem_of_app. right. right. by left.
Qed.

(** One switch from [x] to another task [y]. *)
Lemma yield_ok c esp active unused x y :
  taskLists c active unused -> taskSwitchingPaused c = false -> currentTask c = Some x ->
  successor active x y -> x <> y ->
  exists c' dx dy, yieldTaskSwitch c esp = Ok (c', taskEsp dy) /\
    descriptorOf c x = Some dx /\ descriptorOf c y = Some dy /\
    taskLists c' active unused /\ taskSwitchingPaused c' = false /\ currentTask c' = Some y /\
    cr3 c' = pageDirectoryPhysicalAddr dy /\ esp0 c' = kernelEspStackBegin dy /\
    updated (descriptorOf c) (descriptorOf c') x
      (mkTaskDescriptor (pTask dx) esp (kernelEspStackBegin dx) (cr3 c)).
Proof.
  intros Hl Hpaused Hcur Hsucc Hxy. destruct (successor_in _ _ _ Hsucc) as [Hx Hy].
  destruct (taskLists_descriptor c active unused x Hl ltac:(rewrite elem_of_app; by left)) as (dx & Hdx).
  destruct (taskLists_descriptor c active unused y Hl ltac:(rewrite elem_of_app; by left)) as (dy & Hdy).
  destruct Hsucc as (l1 & l2 & -> & Hn). unfold yieldTaskSwitch. rewrite Hpaused, Hcur.
  rewrite (tl_head _ _ _ Hl). rewrite bool_decide_false by (by destruct l1). cbn [orb].
  pose proof (tl_next _ _ _ Hl) as Hthr. apply threaded_app in Hthr as [_ [Hnx _]].
  rewrite (getNext_ok _ _ _ Hnx). cbn [mbind result_bind].
  assert (Hnext : (if firstOf l2 None is None then firstOf (l1 ++ x :: l2) None else firstOf l2 None) = Some y)
    by (rewrite Hn; by destruct l2).
  rewrite Hnext. rewrite bool_decide_false by congruence. cbn [mbind result_bind orFault].
  destruct (updateDescriptor_ok _ x dx (fun d => setTaskEsp d esp) Hdx) as (es1 & -> & L1 & [V1 V1'] & N1 & P1).
  cbn [mbind result_bind]. unfold descriptorOf in Hdy.
  rewrite (getValue_ok es1 y dy) by (by rewrite V1' by congruence). cbn [mbind result_bind].
  destruct (updateDescriptor_ok es1 x _ (fun d => setPageDirectory d (cr3 c)) V1) as (es2 & -> & L2 & [V2 V2'] & N2 & P2).
  cbn [mbind result_bind]. eexists _, dx, dy. split; [done|]. split; [done|]. split; [done|]. split.
  { apply taskLists_values; [done|lia| |].
    - intros j. by rewrite N2, N1.
    - intros j. by rewrite P2, P1. }
  split; [done|]. split; [done|]. split; [done|]. split; [done|].
  unfold descriptorOf. cbn [withCurrent taskDescriptorListElements]. split; [by rewrite V2|].
  intros j Hj. by rewrite V2', V1'.
Qed.

(** Several switches, each with the stack pointer of the running task: the
    tasks switched to and, at the end, the stack pointer. *)
Fixpoint runYields (c : CpuCore) (esp : Z) (esps : list Z) : result (CpuCore * list Z * Z) :=
  match esps with
  | [] => Ok (c, [], esp)
  | e :: esps =>
      r ← yieldTaskSwitch c e;
      t ← currentTask (fst r) ?? NullPointer;
      r ← runYields (fst r) (snd r) esps;
      let '(c, ts, esp) := r in Ok (c, t :: ts, esp)
  end.

Fixpoint turns (active : list Z) (x : Z) (p : list Z) : Prop :=
  match p with
  | [] => True
  | y :: p => successor active x y /\ turns active y p
  end.

Lemma last_default (p : list Z) z x y : List.last (z :: p) x = List.last (z :: p) y.
Proof. revert z. induction p as [|w p IH]; intros z; [done|]. apply (IH w). Qed.

Lemma last_cons_default (p : list Z) y x : List.last (y :: p) x = List.last p y.
Proof. destruct p as [|z p]; [done|]. apply (last_default p z). Qed.

Lemma turns_app active x p q : turns active x (p ++ q) <-> turns active x p /\ turns active (List.last p x) q.
Proof.
  revert x. induction p as [|y p IH]; intros x; [cbn; tauto|]. cbn [app turns].
  rewrite IH. rewrite <- (last_cons_default p y x). tauto.
Qed.

Lemma turns_right active l1 x l2 : active = l1 ++ x :: l2 -> turns active x l2.
Proof.
  revert l1 x. induction l2 as [|y l2 IH]; intros l1 x ->; cbn [turns]; [done|]. split.
  - by exists l1, (y :: l2).
  - apply (IH (l1 ++ [x])). by rewrite <- app_assoc.
Qed.

Lemma last_snoc_inv (l : list Z) x : exists l', x :: l = l' ++ [List.last l x].
Proof.
  revert x. induction l as [|y l IH]; intros x; [by exists []|]. destruct (IH y) as (l' & E).
  exists (x :: l'). by rewrite last_cons_default, E.
Qed.

(** The turns of a full round. *)
Lemma turns_round l1 t l2 : turns (l1 ++ t :: l2) t (l2 ++ l1 ++ [t]).
Proof.
  set (active := l1 ++ t :: l2). apply turns_app. split; [by eapply turns_right|].
  destruct (last_snoc_inv l2 t) as (l' & E). set (z := List.last l2 t) in *.
  assert (Ha : active = (l1 ++ l') ++ [z]) by (unfold active; by rewrite E, app_assoc).
  assert (Hsucc : forall h rest, active = h :: rest -> successor active z h).
  { intros h rest Hh. exists (l1 ++ l'), []. split; [done|]. by rewrite Hh. }
  destruct l1 as [|h l1]; cbn [app turns].
  - split; [by apply (Hsucc t l2)|done].
  - split; [by apply (Hsucc h (l1 ++ t :: l2))|].
    assert (Ht : turns active h ((l1 ++ [t]) ++ l2)) by (apply (turns_right active []); unfold active; by rewrite <- app_assoc).
    by apply turns_app in Ht as [Ht _].
Qed.

(** Until the turn of [t] comes again, its descriptor keeps its stack pointer
    and page directory. *)
Lemma runYields_until esps active unused t d p : forall c e0 x,
  taskLists c active unused -> taskSwitchingPaused c = false -> currentTask c = Some x -> x <> t ->
  turns active x (p ++ [t]) -> t ∉ p -> NoDup (x :: p) -> length esps = S (length p) ->
  descriptorOf c t = Some d ->
  exists c', runYields c e0 esps = Ok (c', p ++ [t], taskEsp d) /\ taskLists c' active unused /\
    taskSwitchingPaused c' = false /\ currentTask c' = Some t /\ cr3 c' = pageDirectoryPhysicalAddr d /\
    esp0 c' = kernelEspStackBegin d.
Proof.
  revert p. induction esps as [|e esps IH]; intros p c e0 x Hl Hpaused Hcur Hxt Hturns Htp Hnd Hlen Hd; [done|].
  destruct p as [|y p]; cbn [app turns] in Hturns.
  - destruct esps; [|done]. destruct Hturns as [Hs _].
    destruct (yield_ok c e active unused x t Hl Hpaused Hcur Hs Hxt)
      as (c' & dx & dy & Hrun & _ & Hdy & Hl' & Hp' & Hc' & Hpd & Hesp & _).
    assert (dy = d) by congruence. subst dy. exists c'. cbn [runYields]. rewrite Hrun. cbn [mbind result_bind fst snd].
    rewrite Hc'. cbn [mbind result_bind orFault]. done.
  - destruct Hturns as [Hs Hturns]. apply NoDup_cons in Hnd as [Hxp Hnd]. apply not_elem_of_cons in Htp as [Hty Htp].
    assert (Hxy : x <> y) by (intros ->; apply Hxp; by left).
    destruct (yield_ok c e active unused x y Hl Hpaused Hcur Hs Hxy)
      as (c1 & dx & dy & Hrun & _ & _ & Hl1 & Hp1 & Hc1 & _ & _ & Hv).
    destruct (IH p c1 (taskEsp dy) y) as (c' & Hrun' & Hres); try done; [by injection Hlen| |].
    { rewrite (proj2 Hv) by congruence. done. }
    exists c'. cbn [runYields]. rewrite Hrun. cbn [mbind result_bind fst snd]. rewrite Hc1. cbn [mbind result_bind orFault].
    rewrite Hrun'. cbn [mbind result_bind]. done.
Qed.

(** C19: the scheduler is fair and preserves contexts: starting at any task, as
    many timer interrupts as there are tasks let every other task run once, in
    the order of the list, and then continue the first one with its own stack
    pointer, page directory and kernel stack. *)
Theorem scheduler_round_robin c l1 t l2 unused d e esps :
  taskLists c (l1 ++ t :: l2) unused -> taskSwitchingPaused c = false -> currentTask c = Some t ->
  l1 ++ l2 <> [] -> length esps = length (l1 ++ l2) -> descriptorOf c t = Some d ->
  exists c', runYields c 0 (e :: esps) = Ok (c', l2 ++ l1 ++ [t], e) /\
    taskLists c' (l1 ++ t :: l2) unused /\ currentTask c' = Some t /\ cr3 c' = cr3 c /\
    esp0 c' = kernelEspStackBegin d.
Proof.
  intros Hl Hpaused Hcur Hne Hlen Hd. pose proof (turns_round l1 t l2) as Hturns.
  pose proof (taskLists_nodup _ _ _ Hl) as Hnd. apply NoDup_app in Hnd as (Hnd & _).
  assert (Hnd2 : NoDup (t :: l2 ++ l1)) by (eapply NoDup_Permutation_proper; [|exact Hnd]; clear; solve_Permutation).
  apply NoDup_cons in Hnd2 as [Ht Hnd2]. rewrite app_assoc in Hturns |- *.
  assert (Hlen' : length esps = length (l2 ++ l1)) by (rewrite Hlen, !length_app; lia).
  assert (Hne' : l2 ++ l1 <> []) by (destruct l1, l2; done).
  destruct (l2 ++ l1) as [|y p]; [done|]. cbn [app turns] in Hturns. destruct Hturns as [Hs Hturns].
  apply not_elem_of_cons in Ht as [Hty Htp].
  destruct (yield_ok c e _ unused t y Hl Hpaused Hcur Hs Hty)
    as (c1 & dx & dy & Hrun & Hdx & _ & Hl1 & Hp1 & Hc1 & _ & _ & Hv).
  assert (dx = d) by congruence. subst dx.
  destruct (runYields_until esps _ unused t (mkTaskDescriptor (pTask d) e (kernelEspStackBegin d) (cr3 c)) p c1 (taskEsp dy) y Hl1 Hp1 Hc1) as (c' & Hrun' & Hl' & _ & Hc' & Hpd & Hesp);
    try done; [apply Hv|].
  exists c'. cbn [runYields]. rewrite Hrun. cbn [mbind result_bind fst snd]. rewrite Hc1. cbn [mbind result_bind orFault].
  rewrite Hrun'. cbn [mbind result_bind]. done.
Qed.

(** ** Starting and removing tasks *)

Lemma activate_ok c active r unused d :
  taskLists c active (r :: unused) ->
  exists c', activateDescriptor c r d = Ok c' /\ taskLists c' (r :: active) unused /\
    updated (descriptorOf c) (descriptorOf c') r d /\
    exists es, c' = withLists c es (firstOf unused None) (Some r).
Proof.
  intros Hl. pose proof (taskLists_nodup _ _ _ Hl) as Hnd. pose proof (fun i => taskLists_range _ _ _ i Hl) as Hrange.
  destruct Hl as [R1 R2 R3 [Hrn R5] R6 R7 R8]. unfold activateDescriptor. rewrite (getNext_ok _ _ _ Hrn). cbn [mbind result_bind].
  assert (Hri : 0 <= r < zlength (taskDescriptorListElements c)) by (apply Hrange; rewrite elem_of_app; right; by left).
  destruct (setValue_ok (taskDescriptorListElements c) r d Hri) as (es1 & -> & L1 & V1 & N1 & P1). cbn [mbind result_bind].
  destruct (setNext_ok es1 r (activeTasksListHead c)) as (es2 & -> & L2 & N2 & V2 & P2); [lia|]. cbn [mbind result_bind].
  destruct (setPrev_ok es2 r None) as (es3 & -> & L3 & P3 & V3 & N3); [lia|]. cbn [mbind result_bind].
  assert (HN : updated (nextOf (taskDescriptorListElements c)) (nextOf es3) r (firstOf active None)).
  { destruct N2 as [Ha Hb]. split; [by rewrite N3, Ha, R3|]. intros j Hj. by rewrite N3, Hb, N1. }
  assert (HP : updated (prevOf (taskDescriptorListElements c)) (prevOf es3) r None).
  { destruct P3 as [Ha Hb]. split; [done|]. intros j Hj. by rewrite Hb, P2, P1. }
  assert (HV : updated (descriptorOf c) (valueOf es3) r d).
  { destruct V1 as [Ha Hb]. split; [by rewrite V3, V2|]. intros j Hj. by rewrite V3, V2, Hb. }
  assert (Hra : r ∉ active) by (apply NoDup_app in Hnd as (_ & Hd & _); intros Ha; apply (Hd r Ha); by left).
  assert (Hru : r ∉ unused) by (apply NoDup_app in Hnd as (_ & _ & Hd); by apply NoDup_cons in Hd as [? _]).
  assert (Hperm : (r :: active) ++ unused ≡ₚ map Z.of_nat (seq 0 50)) by (rewrite <- R7; clear; solve_Permutation).
  destruct active as [|h active]; cbn [firstOf] in R3; rewrite R3; cbn [mbind result_bind].
  - eexists. split; [done|]. split; [|split; [done|by eexists]].
    constructor; cbn [withLists taskDescriptorListElements activeTasksListHead unusedtaskDescriptorElementsListHead];
      try done; [..|lia].
    + cbn. split; [apply HN|done].
    + cbn. split; [apply HP|done].
    + by eapply threaded_updated.
  - destruct (setPrev_ok es3 h (Some r)) as (es4 & -> & L4 & P4 & V4 & N4).
    { rewrite L3, L2, L1. apply Hrange. by left. }
    cbn [mbind result_bind]. eexists. split; [done|].
    assert (Hhr : h <> r) by (intros ->; apply Hra; by left).
    assert (Hha : h ∉ active) by (apply NoDup_app in Hnd as (Hd & _); by apply NoDup_cons in Hd as [? _]).
    split; [|split; [|by eexists]].
    + constructor; cbn [withLists taskDescriptorListElements activeTasksListHead unusedtaskDescriptorElementsListHead];
        try done; [..|lia].
      * split; [by rewrite N4, (proj1 HN)|]. eapply threaded_unchanged; [exact N4|]. by eapply threaded_updated.
      * split; [by rewrite (proj2 P4), (proj1 HP)|]. split; [apply P4|].
        eapply backThreaded_updated; [exact P4|done|]. eapply backThreaded_updated; [exact HP| |apply R2].
        intros Ha. apply Hra. by right.
      * eapply threaded_unchanged; [exact N4|]. by eapply threaded_updated.
    + destruct HV as [Ha Hb]. unfold descriptorOf. cbn. split; [by rewrite V4|]. intros j Hj. by rewrite V4, Hb.
Qed.

Lemma removeDescriptor_ok c l1 t l2 unused :
  taskLists c (l1 ++ t :: l2) unused ->
  exists c', removeDescriptor c t = Ok c' /\ taskLists c' (l1 ++ l2) (t :: unused) /\
    unchanged (descriptorOf c) (descriptorOf c') /\ exists es h, c' = withLists c es (Some t) h.
Proof.
  intros Hl. pose proof (taskLists_nodup _ _ _ Hl) as Hnd0. pose proof (fun i => taskLists_range _ _ _ i Hl) as Hrange.
  destruct Hl as [R1 R2 R3 R5 R6 R7 R8].
  pose proof R1 as Hn. apply threaded_app in Hn as [_ [Hn _]]. pose proof R2 as Hp. apply backThreaded_app in Hp as [_ [Hp _]].
  assert (Hb : forall i, lastOf l1 None = Some i -> 0 <= i < zlength (taskDescriptorListElements c)).
  { intros i Hi%lastOf_in. apply Hrange. rewrite !elem_of_app. tauto. }
  assert (Ha : forall i, firstOf l2 None = Some i -> 0 <= i < zlength (taskDescriptorListElements c)).
  { intros i [Hi|]%firstOf_Some; [|done]. apply Hrange. rewrite !elem_of_app. left; right; by right. }
  assert (Hc : 0 <= t < zlength (taskDescriptorListElements c)) by (apply Hrange; rewrite !elem_of_app; left; right; by left).
  assert (Hnd : NoDup (t :: (l1 ++ l2) ++ unused)) by (eapply NoDup_Permutation_proper; [|exact Hnd0]; clear; solve_Permutation).
  unfold removeDescriptor. rewrite (getNext_ok _ _ _ Hn), (getPrev_ok _ _ _ Hp). cbn [mbind result_bind].
  destruct (setNextOrHead_ok (taskDescriptorListElements c) (lastOf l1 None) (activeTasksListHead c)
    (firstOf l2 None) Hb) as (es1 & -> & L1 & V1 & P1 & N1). cbn [mbind result_bind].
  apply NoDup_cons in Hnd as [Hcn Hnd].
  assert (Hcb : lastOf l1 None <> Some t) by (intros E%lastOf_in; apply Hcn; rewrite !elem_of_app; tauto).
  rewrite (getNext_ok es1 t (firstOf l2 None)) by (rewrite N1, decide_False by done; done).
  rewrite (getPrev_ok es1 t (lastOf l1 None)) by (by rewrite P1). cbn [mbind result_bind].
  assert (Hset : exists es2, (match firstOf l2 None with Some i => setPrev es1 i (lastOf l1 None) | None => Ok es1 end) = Ok es2 /\
    zlength es2 = zlength es1 /\ unchanged (valueOf es1) (valueOf es2) /\ unchanged (nextOf es1) (nextOf es2) /\
    forall j, prevOf es2 j = if decide (firstOf l2 None = Some j) then Some (lastOf l1 None) else prevOf es1 j).
  { destruct (setPrevOrTail_ok es1 (firstOf l2 None) None (lastOf l1 None)) as (es2 & Hrun & H); [by rewrite L1|].
    exists es2. split; [|done]. unfold setPrevOrTail in Hrun. destruct (firstOf l2 None).
    - destruct (setPrev es1 _ _); [|done]. cbn in Hrun. by injection Hrun as ->.
    - by injection Hrun as ->. }
  destruct Hset as (es2 & -> & L2 & V2 & N2 & P2). cbn [mbind result_bind].
  destruct (setNext_ok es2 t (unusedtaskDescriptorElementsListHead c)) as (es3 & -> & L3 & [N3 N3'] & V3 & P3); [lia|].
  cbn [mbind result_bind].
  assert (HN : forall j, j <> t -> nextOf es3 j =
    if decide (lastOf l1 None = Some j) then Some (firstOf l2 None) else nextOf (taskDescriptorListElements c) j)
    by (intros j Hj; by rewrite N3', N2, N1).
  assert (Hne : forall j, j ∈ (l1 ++ l2) ++ unused -> j <> t) by (intros j Hj ->; done).
  eexists. split; [done|]. split; [|split; [intros j; unfold descriptorOf; cbn; by rewrite V3, V2, V1|by eexists _, _]].
  constructor; cbn [withLists taskDescriptorListElements activeTasksListHead unusedtaskDescriptorElementsListHead]; [..|lia].
  - eapply threaded_unlink; [exact R1|by apply NoDup_app in Hnd0 as (? & _)|].
    intros j Hj. apply HN, Hne. rewrite elem_of_app. by left.
  - eapply backThreaded_unlink; [exact R2|by apply NoDup_app in Hnd0 as (? & _)|].
    intros j Hj. rewrite P3, P2, P1. done.
  - destruct l1 as [|b l1]; [done|]. cbn [app firstOf] in R3 |- *. rewrite R3.
    destruct (lastOf (b :: l1) None) eqn:E; [done|]. by apply lastOf_None in E.
  - cbn. split; [by rewrite N3, R6|]. eapply threaded_frame; [|exact R5]. intros j Hj.
    rewrite HN by (apply Hne; rewrite !elem_of_app; tauto). rewrite decide_False; [done|].
    intros E%lastOf_in. apply NoDup_app in Hnd as (_ & Hd & _). apply (Hd j); [rewrite elem_of_app; tauto|done].
  - done.
  - rewrite <- R7. clear. solve_Permutation.
Qed.

(** A task that is not running and owns its memory starts when a descriptor
    is free: it joins the active list with a descriptor that leads to its
    stack, and no other descriptor changes; otherwise nothing changes and the
    answer says why. *)
Theorem setToRunningState_correct cr0 virtualPage c active unused this t taskSpaceBegin region k paging pd :
  taskLists c active unused -> taskKind t = UserTask taskSpaceBegin region k paging ->
  physicalAddrOf cr0 virtualPage region = Ok pd ->
  exists c' t' r, setToRunningState cr0 virtualPage c this t = Ok (c', t', r) /\
    match r with
    | TASK_ALREADY_RUNNING => taskIsRunning t = true /\ c' = c /\ t' = t
    | TASK_NOT_PROPERLY_INITIALIZED => taskIsRunning t = false /\ region = 0 /\ c' = c /\ t' = t
    | TOO_MANY_TASKS => taskIsRunning t = false /\ region <> 0 /\ unused = [] /\ c' = c /\ t' = t
    | SUCCESS =>
        taskIsRunning t = false /\ region <> 0 /\
        exists i unused', unused = i :: unused' /\ taskLists c' (i :: active) unused' /\
          t' = mkTask i true (taskKind t) /\
          updated (descriptorOf c) (descriptorOf c') i
            (mkTaskDescriptor (Some this) (u32 (u32 (k - region) + taskSpaceBegin))
               (u32 (taskSpaceBegin + USER_TASK_KERNEL_STACK_OFFSET)) pd)
    end.
Proof.
  intros Hl Hk Hpd. unfold setToRunningState. rewrite Hk. unfold UserTask_setToRunningState.
  destruct (taskIsRunning t) eqn:Hr; [by eexists _, _, _|].
  destruct (Z.eqb_spec region 0) as [->|Hne]; [by eexists _, _, _|]. rewrite (tl_unused _ _ _ Hl).
  destruct unused as [|i unused]; cbn [firstOf]; [by eexists _, _, _|]. rewrite Hpd. cbn [mbind result_bind].
  destruct (activate_ok c active i unused (mkTaskDescriptor (Some this) (u32 (u32 (k - region) + taskSpaceBegin))
    (u32 (taskSpaceBegin + USER_TASK_KERNEL_STACK_OFFSET)) pd) Hl) as (c' & -> & Hl' & Hv & _). cbn [mbind result_bind].
  eexists _, _, SUCCESS. split; [done|]. split; [done|]. split; [done|]. exists i, unused. by rewrite ?Hk.
Qed.

(** Removing a running task takes exactly its descriptor off the active
    list, closes all its sockets and releases its memory. *)
Theorem destroyTask_correct c l1 l2 unused t region :
  taskLists c (l1 ++ taskID t :: l2) unused -> taskIsRunning t = true ->
  region = match taskKind t with UserTask _ r _ _ => r | KernelTask r _ => r end -> region <> 0 ->
  socketInv (socketManager c) -> wf (kernelPageAllocator c) -> 0 <= region < NPAGES * 4096 ->
  exists c', destroyTask c t = Ok c' /\ taskLists c' (l1 ++ l2) (taskID t :: unused) /\
    unchanged (descriptorOf c) (descriptorOf c') /\
    socketInv (socketManager c') /\
    (forall i d, isSlot i -> (socketDescs (socketManager c')).[socketIndex (taskID t) i] = Some d -> socketIsActive d = 0) /\
    freeContiguousPages (kernelPageAllocator c) region = Ok (kernelPageAllocator c').
Proof.
  intros Hl Hrun -> Hne Hs Hwf Hreg.
  assert (destroyTask c t = destroyUserTask c t (match taskKind t with UserTask _ r _ _ => r | KernelTask r _ => r end)) as ->
    by (unfold destroyTask; by destruct (taskKind t)).
  unfold destroyUserTask. rewrite Hrun.
  destruct (removeDescriptor_ok c l1 (taskID t) l2 unused Hl) as (c1 & Hrem & Hl1 & Hv & es & h & Hc1).
  rewrite Hrem. cbn [mbind result_bind].
  assert (Hid : isTask (taskID t)).
  { pose proof (taskLists_range _ _ _ (taskID t) Hl) as Hr. rewrite (tl_size _ _ _ Hl) in Hr. apply Hr.
    rewrite !elem_of_app. left; right; by left. }
  assert (Hid' : 0 <= taskID t < 50) by apply Hid.
  destruct (Z.eqb_spec (taskID t) (-1)) as [E|_]; [lia|]. cbn [negb].
  rewrite (u8_small (taskID t)) by (unfold is_u8; lia).
  replace (socketManager c1) with (socketManager c) by (by rewrite Hc1).
  destruct (closeAll_ok (socketManager c) (taskID t) Hs Hid) as (s' & -> & Hs' & Hclosed). cbn [mbind result_bind].
  destruct (freeContiguousPages_region (kernelPageAllocator c) _ Hwf Hreg) as (a & q & Ha & _).
  destruct (Z.eqb_spec (match taskKind t with UserTask _ r _ _ => r | KernelTask r _ => r end) 0) as [|_]; [done|]. cbn [negb].
  replace (kernelPageAllocator (withSocketManager c1 s')) with (kernelPageAllocator c) by (by rewrite Hc1).
  rewrite Ha. cbn [mbind result_bind]. eexists. split; [done|]. split; [destruct Hl1; by constructor|].
  split; [exact Hv|]. split; [done|]. split; [|done]. intros i d Hi. by apply Hclosed.
Qed.

(** ** The address space of a user task *)

Section addressSpace.
Context (virtualPage : Z -> option PageTable) (junk : Z -> Z).

(** The running paging structures show the page tables of the kernel, which
    map every page to itself. *)
Definition identityView : Prop :=
  forall k, 0 <= k < 1023 -> exists pt, virtualPage (0xFFC00000 + k * 0x1000) = Some pt /\
    forall j, 0 <= j < 1023 -> getPTE pt j = Some (mkPTE ((k * 1024 + j) * 4096) true true).

(** What the task's entry for page [p] is meant to hold, and holds for all
    pages but the last one of each kernel page table. *)
Definition mappedAddr (p : Z) : Z := if p mod 1024 =? 1023 then junk p else p * 4096.

Definition entryFor (p : Z) (kernelOnly : bool) : Z :=
  if Z.land (mappedAddr p) 0xFFF =? 0 then Z.lor (mappedAddr p) (flagBits kernelOnly true) else 2.

Lemma currentPTE_ok p :
  identityView -> 0 <= p < NPAGES ->
  currentPTE virtualPage (p / 1024) (p mod 1024) =
    Ok (if p mod 1024 =? 1023 then None else Some (mkPTE (p * 4096) true true)).
Proof.
  intros Hview Hp. unfold NPAGES in Hp. unfold currentPTE. pose proof (Z.mod_pos_bound p 1024 ltac:(lia)).
  destruct (Z.leb_spec 1023 (p mod 1024)), (Z.eqb_spec (p mod 1024) 1023); try lia; [done|].
  destruct (Hview (p / 1024)) as (pt & Hpt & Hpte); [dlia|].
  rewrite u32_small by (unfold is_u32; dlia). rewrite Hpt. cbn [mbind result_bind orFault]. rewrite Hpte by lia.
  do 4 f_equal. dlia.
Qed.

Lemma mapPage_ok page b i pt :
  identityView -> 0 <= i < 1024 -> 0 <= page + i < NPAGES -> zlength pt = 1024 -> pt.[i] = Some 2 ->
  exists pt', mapPage virtualPage junk page b i pt = Ok pt' /\ zlength pt' = 1024 /\
    pt'.[i] = Some (entryFor (page + i) b) /\ forall j, j <> i -> pt'.[j] = pt.[j].
Proof.
  intros Hview Hi Hp Hl H2. unfold mapPage. rewrite currentPTE_ok by done. cbn [mbind result_bind].
  eexists. split; [done|]. unfold changePTE. destruct (Z.leb_spec 1024 i); [lia|].
  unfold entryFor, mappedAddr. destruct ((page + i) mod 1024 =? 1023); cbn [pagePhysicalAddr pte_kernelPrivilegeOnly pteIsValid].
  all: match goal with |- context [negb (?x =? 0)] => destruct (Z.eqb_spec x 0) end; cbn [negb].
  all: rewrite ?zlength_zset; split_and!; try done; try (by rewrite znth_zset_eq by lia); intros j Hj; try by rewrite znth_zset_ne.
Qed.

Lemma mapPages_ok n k page b pt :
  identityView -> 0 <= k -> k + Z.of_nat n <= 1024 -> 0 <= page -> page + k + Z.of_nat n <= NPAGES ->
  zlength pt = 1024 -> (forall j, k <= j < k + Z.of_nat n -> pt.[j] = Some 2) ->
  exists pt', for_rangeM n k (mapPage virtualPage junk page b) pt = Ok pt' /\ zlength pt' = 1024 /\
    (forall j, k <= j < k + Z.of_nat n -> pt'.[j] = Some (entryFor (page + j) b)) /\
    forall j, ~ (k <= j < k + Z.of_nat n) -> pt'.[j] = pt.[j].
Proof.
  intros Hview. revert k pt. induction n as [|n IH]; intros k pt Hk Hn Hp Hpn Hl H2; cbn [for_rangeM].
  { exists pt. split_and!; try done. intros j Hj. lia. }
  destruct (mapPage_ok page b k pt Hview) as (pt1 & -> & Hl1 & Hk1 & Ho1); [lia|lia|done|by apply H2; lia|].
  cbn [mbind result_bind]. destruct (IH (k + 1) pt1) as (pt' & -> & Hl' & Hin & Hout); try lia.
  { intros j Hj. rewrite Ho1 by lia. apply H2. lia. }
  exists pt'. split_and!; try done.
  - intros j Hj. destruct (decide (j = k)) as [->|]; [by rewrite Hout by lia|]. apply Hin. lia.
  - intros j Hj. rewrite Hout by lia. apply Ho1. lia.
Qed.

(** The number of the first page a user task may use itself. *)
Definition FIRST_USER_PAGE : Z := 4 + KERNEL_STACK_SIZE / 0x1000.

Lemma newPageTable_entry j : 0 <= j < 1024 -> newPageTable.[j] = Some 2.
Proof. intros Hj. apply znth_replicate. lia. Qed.

Lemma buildPageTables_ok page :
  identityView -> 0 <= page -> page + 2048 <= NPAGES ->
  exists pt1 pt2, buildPageTable1 virtualPage junk page = Ok pt1 /\ buildPageTable2 virtualPage junk page = Ok pt2 /\
    zlength pt1 = 1024 /\ zlength pt2 = 1024 /\
    forall k, 0 <= k < 2048 ->
      (if k <? 1024 then pt1.[k] else pt2.[k - 1024]) = Some (entryFor (page + k) (k <? FIRST_USER_PAGE)).
Proof.
  intros Hview Hp Hpn. unfold buildPageTable1, buildPageTable2.
  change (Z.to_nat (KERNEL_STACK_SIZE / 0x1000)) with 16%nat.
  change (Z.to_nat (1024 - (4 + KERNEL_STACK_SIZE / 0x1000))) with 1004%nat.
  change (4 + KERNEL_STACK_SIZE / 0x1000) with 20.
  destruct (mapPages_ok 4 0 page true newPageTable Hview) as (a & -> & La & Ha & Oa); try lia; [done| |].
  { intros j Hj. apply newPageTable_entry. lia. }
  cbn [mbind result_bind]. destruct (mapPages_ok 16 4 page true a Hview) as (b & -> & Lb & Hb & Ob); try lia.
  { intros j Hj. rewrite Oa by lia. apply newPageTable_entry. lia. }
  cbn [mbind result_bind]. destruct (mapPages_ok 1004 20 page false b Hview) as (t1 & -> & L1 & H1 & O1); try lia.
  { intros j Hj. rewrite Ob, Oa by lia. apply newPageTable_entry. lia. }
  destruct (mapPages_ok 1024 0 (page + 1024) false newPageTable Hview) as (t2 & -> & L2 & H2 & _); try lia; [done| |].
  { intros j Hj. apply newPageTable_entry. lia. }
  exists t1, t2. split_and!; try done. intros k Hk. change FIRST_USER_PAGE with 20.
  destruct (Z.ltb_spec k 1024).
  - destruct (Z.ltb_spec k 20); [|by rewrite H1 by lia]. rewrite O1 by lia.
    destruct (Z.ltb_spec k 4); [|by rewrite Hb by lia]. rewrite Ob by lia. by rewrite Ha by lia.
  - rewrite H2 by lia. destruct (Z.ltb_spec k 20); [lia|]. do 2 f_equal. lia.
Qed.
End addressSpace.

(** C23: in the page tables built for a user task, page [k] of its 8MB region is
    mapped to its own page of memory, for the kernel only in the first 20
    pages (its page tables and kernel stack) and for the task in the others,
    except for the last page of each kernel page table, of which there are two
    in every region: [getPTE] cannot read its entry, so the task's entry holds
    whatever address the uninitialised structure held, and is missing if that
    is not page aligned. *)
Theorem userTask_page_tables virtualPage junk page :
  identityView virtualPage -> 0 <= page -> page + 2048 <= NPAGES ->
  exists pt1 pt2, buildPageTable1 virtualPage junk page = Ok pt1 /\ buildPageTable2 virtualPage junk page = Ok pt2 /\
    forall k, 0 <= k < 2048 ->
      (if k <? 1024 then pt1.[k] else pt2.[k - 1024]) =
        Some (if negb ((page + k) mod 1024 =? 1023) then Z.lor ((page + k) * 4096) (flagBits (k <? 20) true)
              else if junk (page + k) mod 4096 =? 0 then Z.lor (junk (page + k)) (flagBits (k <? 20) true) else 2).
Proof.
  intros Hview Hp Hpn. destruct (buildPageTables_ok virtualPage junk page Hview Hp Hpn) as (pt1 & pt2 & H1 & H2 & _ & _ & H).
  exists pt1, pt2. split_and!; try done. intros k Hk. rewrite (H k Hk). f_equal. unfold entryFor, mappedAddr.
  change FIRST_USER_PAGE with 20. rewrite land_0xFFF. destruct ((page + k) mod 1024 =? 1023); cbn [negb]; [done|].
  rewrite Z.mod_mul by lia. done.
Qed.

(** C26: for blocks that do not wrap around the end of the address space the
    check of user addresses is exact: it accepts a block exactly when all of
    it lies in the pages of the task's region that are mapped for the task,
    and the kernel address it is converted to is that of the same page. *)
Theorem addrSpaceIsUserAccessible_exact taskSpaceBegin region userAddr numBytes :
  0 <= taskSpaceBegin -> taskSpaceBegin + 0x800000 < 2 ^ 32 -> 0 <= region -> region + 0x800000 < 2 ^ 32 ->
  0 <= userAddr -> 0 < numBytes -> userAddr + numBytes < 2 ^ 32 ->
  (addrSpaceIsUserAccessible taskSpaceBegin userAddr numBytes = true <->
   forall x, userAddr <= x < userAddr + numBytes ->
     taskSpaceBegin <= x /\ 20 <= (x - taskSpaceBegin) / 4096 < 2048) /\
  convertContigUserAddrBlockToContigKernelAddrBlock taskSpaceBegin region userAddr numBytes =
    if addrSpaceIsUserAccessible taskSpaceBegin userAddr numBytes
    then (true, region + (userAddr - taskSpaceBegin)) else (false, 0).
Proof.
  intros Hb Hb2 Hr Hr2 Hu Hn Hun. unfold addrSpaceIsUserAccessible, convertContigUserAddrBlockToContigKernelAddrBlock.
  change (taskSpaceBegin + USER_TASK_KERNEL_STACK_OFFSET + 4) with (taskSpaceBegin + 0x13FFC + 4).
  rewrite !u32_small by (unfold is_u32; lia).
  destruct (Z.ltb_spec userAddr (taskSpaceBegin + 0x13FFC + 4)), (Z.ltb_spec (taskSpaceBegin + 0x800000) (userAddr + numBytes));
    cbn [orb negb]; split; try done.
  all: try (split; [done|]; intros H1).
  - destruct (H1 userAddr ltac:(lia)) as [? ?]. dlia.
  - destruct (H1 userAddr ltac:(lia)) as [? ?]. dlia.
  - destruct (H1 (userAddr + numBytes - 1) ltac:(lia)) as [? ?]. dlia.
  - split; [|done]. intros _ x Hx. dlia.
  - f_equal. unfold u32. rewrite Z.add_mod_idemp_r by lia. rewrite Z.mod_small by lia. lia.
Qed.

(** A block whose end wraps around the address space is accepted wherever
    in the user pages it begins: the check then lets through all of memory
    above, kernel and other tasks included. *)
Theorem addrSpaceIsUserAccessible_wraps taskSpaceBegin userAddr :
  0 <= taskSpaceBegin -> taskSpaceBegin + 0x800000 < 2 ^ 32 ->
  taskSpaceBegin + 0x14000 <= userAddr < taskSpaceBegin + 0x800000 ->
  let numBytes := 2 ^ 32 - userAddr in
  addrSpaceIsUserAccessible taskSpaceBegin userAddr numBytes = true /\
  exists x, userAddr <= x < userAddr + numBytes /\ ~ (20 <= (x - taskSpaceBegin) / 4096 < 2048).
Proof.
  intros Hb Hb2 Hu numBytes. unfold addrSpaceIsUserAccessible, numBytes.
  change (taskSpaceBegin + USER_TASK_KERNEL_STACK_OFFSET + 4) with (taskSpaceBegin + 0x13FFC + 4).
  replace (userAddr + (2 ^ 32 - userAddr)) with (2 ^ 32) by lia. change (u32 (2 ^ 32)) with 0.
  rewrite !u32_small by (unfold is_u32; lia). split.
  - destruct (Z.ltb_spec userAddr (taskSpaceBegin + 0x13FFC + 4)), (Z.ltb_spec (taskSpaceBegin + 0x800000) 0); done || lia.
  - exists (2 ^ 32 - 1). split; [lia|]. dlia.
Qed.

(** When no 2048 free pages are left, the constructor does not notice: it
    takes the allocator's failure value for an address, builds the task's page
    directory there, in the window that shows the kernel's own page tables,
    and the task counts as initialised. *)
Theorem newUserTask_out_of_memory cr0 virtualPage junk c taskSpaceBegin :
  coreIsRunning c = true -> cr3 c = kernelPageDirectoryPhysicalAddr c -> taskSpaceBegin mod (4096 * 1024) = 0 ->
  wf (kernelPageAllocator c) -> (forall s, ~ freeRun (kernelPageAllocator c) s 2048) ->
  newUserTask cr0 virtualPage junk c taskSpaceBegin =
    (paging ← buildTaskPaging cr0 virtualPage junk taskSpaceBegin 0xFFC00000;
     Ok (withAllocator c (kernelPageAllocator c),
         mkTask (-1) false (UserTask taskSpaceBegin 0xFFC00000 0 (Some paging)))).
Proof.
  intros Hr Hcr Hal Hwf Hno. unfold newUserTask. rewrite Hr, Hcr, Z.eqb_refl, Hal. cbn [andb Z.eqb].
  change (1024 * 2) with 2048.
  destruct (allocateContiguousPages_first_fit_aux (kernelPageAllocator c) 2048 Hwf) as (ps' & addr & -> & Hfit & _).
  { split; [unfold NPAGES; lia|right; done]. }
  cbn [mbind result_bind fst snd]. destruct Hfit as [(a & _ & _ & _ & Hrun & _)|(-> & -> & _)]; [by apply Hno in Hrun|].
  done.
Qed.

(** ** Stacks *)

(** The words of a stack, lowest address first. *)
Definition wordBytes (ws : list Z) : list Z := concat (map le32 ws).

Lemma zlength_wordBytes ws : zlength (wordBytes ws) = 4 * zlength ws.
Proof.
  induction ws as [|w ws IH]; [done|]. unfold wordBytes in *. cbn [map concat].
  rewrite zlength_app, IH, zlength_cons, zlength_le32. lia.
Qed.

Lemma wordBytes_app ws1 ws2 : wordBytes (ws1 ++ ws2) = wordBytes ws1 ++ wordBytes ws2.
Proof. unfold wordBytes. by rewrite map_app, concat_app. Qed.

Lemma storeBytes_cons_block m a l1 l2 :
  forall x, storeBytes (storeBytes m (a + zlength l1) l2) a l1 x = storeBytes m a (l1 ++ l2) x.
Proof.
  intros x. rewrite storeBytes_app, !storeBytes_spec.
  destruct (l1.[x - a]) eqn:E1; [|done]. pose proof (znth_Some_lt _ _ _ E1).
  by rewrite (proj2 (znth_None l2 _)) by lia.
Qed.

Lemma pushWords_ok ws m esp :
  exists m', pushWords m esp ws = (m', esp - 4 * zlength ws) /\
    forall x, m' x = storeBytes m (esp - 4 * zlength ws) (wordBytes (reverse ws)) x.
Proof.
  revert m esp. induction ws as [|w ws IH]; intros m esp; cbn [pushWords].
  { exists m. split; [f_equal; unfold zlength; cbn; lia|done]. }
  destruct (IH (storeWord m (esp - 4) w) (esp - 4)) as (m' & -> & Hm'). exists m'.
  rewrite zlength_cons. replace (esp - 4 * (zlength ws + 1)) with (esp - 4 - 4 * zlength ws) by lia. split; [done|].
  intros x. rewrite Hm'. rewrite reverse_cons, wordBytes_app. unfold storeWord.
  replace (wordBytes [w]) with (le32 w) by (unfold wordBytes; cbn [map concat]; by rewrite app_nil_r).
  rewrite <- storeBytes_cons_block, !storeBytes_spec. rewrite zlength_wordBytes, zlength_reverse.
  replace (esp - 4 - 4 * zlength ws + 4 * zlength ws) with (esp - 4) by lia. done.
Qed.

Lemma storeArguments_ok args m top :
  exists m', storeArguments args top m = (m', top - 4 * zlength args) /\
    forall x, m' x = storeBytes m (top - 4 * zlength args + 4) (wordBytes args) x.
Proof.
  unfold storeArguments.
  assert (H : forall ws m top, exists m', fold_left (fun '(m, esp) w => (storeWord m esp w, esp - 4)) ws (m, top)
      = (m', top - 4 * zlength ws) /\ forall x, m' x = storeBytes m (top - 4 * zlength ws + 4) (wordBytes (reverse ws)) x).
  { clear. induction ws as [|w ws IH]; intros m top; cbn [fold_left].
    { exists m. split; [f_equal; unfold zlength; cbn; lia|done]. }
    destruct (IH (storeWord m top w) (top - 4)) as (m' & -> & Hm'). exists m'. rewrite zlength_cons.
    replace (top - 4 * (zlength ws + 1)) with (top - 4 - 4 * zlength ws) by lia. split; [done|].
    intros x. rewrite Hm', reverse_cons, wordBytes_app. unfold storeWord.
    replace (wordBytes [w]) with (le32 w) by (unfold wordBytes; cbn [map concat]; by rewrite app_nil_r).
    rewrite <- storeBytes_cons_block, !storeBytes_spec, zlength_wordBytes, zlength_reverse.
    replace (top - 4 - 4 * zlength ws + 4 + 4 * zlength ws) with top by lia. done. }
  destruct (H (reverse args) m top) as (m' & Hrun & Hm'). rewrite zlength_reverse in *. exists m'.
  rewrite reverse_involutive in Hm'. done.
Qed.

Lemma loadBytes_stored m' m a l :
  (forall x, a <= x < a + zlength l -> m' x = storeBytes m a l x) -> loadBytes m' a (length l) = l.
Proof.
  intros H. rewrite (loadBytes_ext m' (storeBytes m a l)); [apply loadBytes_storeBytes|].
  intros x Hx. apply H. unfold zlength. lia.
Qed.

(** After [setTaskArguments] the task's kernel stack holds the frame the
    interrupt return pops, with the entry point, the user stack pointer and
    user privilege segments, and the user stack pointer shows a call frame: a
    null return address and the arguments in order. *)
Theorem setTaskArguments_frames eflags interruptReturn registers t a m taskSpaceBegin region k paging :
  taskKind t = UserTask taskSpaceBegin region k paging -> region <> 0 -> zlength registers = 8 ->
  zlength (taskArgs a) = 5 -> 0 <= numArgs a <= 5 ->
  let args := take (Z.to_nat (numArgs a)) (taskArgs a) in
  let top := region + USER_TASK_KERNEL_STACK_OFFSET - 76 in
  let userEsp := region + USER_TASK_USER_STACK_OFFSET - 4 * numArgs a in
  let entry := u32 (taskSpaceBegin + USER_TASK_PROCESS_ENTRY_OFFSET) in
  exists m', setTaskArguments eflags interruptReturn registers t a m =
      (mkTask (taskID t) (taskIsRunning t) (UserTask taskSpaceBegin region top paging), m') /\
    loadBytes m' top 76 = wordBytes ([interruptReturn; 0; 0; 35] ++ reverse registers ++
      [32; 0; entry; 27; eflags; u32 (userEsp - region + taskSpaceBegin); 35]) /\
    loadBytes m' userEsp (Z.to_nat (4 * (numArgs a + 1))) = wordBytes (0 :: args).
Proof.
  intros Hk Hr Hregs Hargs Hn args top userEsp entry. unfold setTaskArguments. rewrite Hk.
  destruct (Z.ltb_spec MAX_TASK_ARGS (numArgs a)); [unfold MAX_TASK_ARGS in *; lia|].
  destruct (Z.eqb_spec region 0); [done|]. fold args.
  assert (Hla : zlength args = numArgs a) by (apply zlength_take; lia).
  destruct (storeArguments_ok args m (region + USER_TASK_USER_STACK_OFFSET)) as (m1 & -> & Hm1). rewrite Hla in *. fold userEsp in Hm1 |- *.
  unfold buildIntHandlerStackForUserPriv, createIntStackForUserPriv. cbn [PITTimer Z.ltb Z.compare Pos.compare Pos.compare_cont andb].
  set (ws := _ ++ registers ++ _).
  assert (Hws : zlength ws = 19) by (unfold ws; rewrite !zlength_app, Hregs; done).
  destruct (pushWords_ok ws (storeWord m1 userEsp 0) (region + USER_TASK_KERNEL_STACK_OFFSET)) as (m2 & -> & Hm2).
  rewrite Hws in *. change (4 * 19) with 76 in *. fold top in Hm2 |- *. exists m2. split; [done|].
  assert (Hrev : reverse ws = [interruptReturn; 0; 0; 35] ++ reverse registers ++
      [32; 0; entry; 27; eflags; u32 (userEsp - region + taskSpaceBegin); 35]).
  { unfold ws. rewrite !reverse_app, <- app_assoc. unfold entry.
    replace (taskSpaceBegin + 0x4000 + KERNEL_STACK_SIZE + USER_STACK_SIZE)
      with (taskSpaceBegin + USER_TASK_PROCESS_ENTRY_OFFSET)
      by (unfold USER_TASK_PROCESS_ENTRY_OFFSET, SIZEOF_PAGE_DIRECTORY, SIZEOF_PAGE_TABLE; lia). done. }
  split.
  - rewrite <- Hrev. replace 76%nat with (length (wordBytes (reverse ws))).
    + apply (loadBytes_stored m2 (storeWord m1 userEsp 0)). intros x _. apply Hm2.
    + pose proof (zlength_wordBytes (reverse ws)) as E. rewrite zlength_reverse, Hws in E. unfold zlength in E. lia.
  - assert (Hl : zlength (wordBytes (0 :: args)) = 4 * (numArgs a + 1)) by (rewrite zlength_wordBytes, zlength_cons, Hla; lia).
    replace (Z.to_nat (4 * (numArgs a + 1))) with (length (wordBytes (0 :: args))) by (unfold zlength in Hl; lia).
    apply (loadBytes_stored m2 m). intros x Hx. rewrite Hl in Hx. rewrite Hm2, storeBytes_out.
    2:{ rewrite zlength_wordBytes, zlength_reverse, Hws. unfold userEsp, top, USER_TASK_USER_STACK_OFFSET, USER_TASK_KERNEL_STACK_OFFSET, USER_STACK_SIZE in *. lia. }
    unfold storeWord. change (wordBytes (0 :: args)) with (le32 0 ++ wordBytes args).
    rewrite <- storeBytes_cons_block, !storeBytes_spec. destruct ((le32 0).[x - userEsp]); [done|].
    rewrite Hm1, storeBytes_spec. change (zlength (le32 0)) with 4. done.
Qed.

(** ** Sample cores *)

Definition sampleAllocator : PagingStructures := newPageAllocator (newPagingStructures 0x100000 0x200000).

Lemma sampleAllocator_wf : wf sampleAllocator.
Proof. apply newPageAllocator_wf_aux; [apply example_addr_ok|]. repeat split; lia || reflexivity. Qed.

Definition sampleDescriptor (esp : Z) : TaskDescriptor := mkTaskDescriptor (Some esp) esp (esp + 1) (esp + 2).

Definition emptyAllocator : PagingStructures := mkPagingStructures (mkPageDirectory [] []) [].

(** Three tasks on the active list, the second one running. *)
Definition sampleLists : CpuCore :=
  match (c ← activateDescriptor (newCpuCore newSocketManager 0x100000 emptyAllocator) 0 (sampleDescriptor 100);
         c ← activateDescriptor c 1 (sampleDescriptor 200);
         activateDescriptor c 2 (sampleDescriptor 300)) with
  | Ok c => withCurrent c (taskDescriptorListElements c) (Some 1) 201 202
  | Fault _ => newCpuCore newSocketManager 0x100000 emptyAllocator
  end.

Lemma sampleLists_lists : taskLists sampleLists [2; 1; 0] (map Z.of_nat (seq 3 47)).
Proof.
  constructor; try (vm_compute; repeat split; reflexivity).
  change (map Z.of_nat (seq 0 50)) with ([0; 1; 2] ++ map Z.of_nat (seq 3 47)). apply Permutation_app_tail. solve_Permutation.
Qed.

Definition sampleCore : CpuCore := withAllocator (withSocketManager sampleLists newSocketManager) sampleAllocator.

Lemma sampleCore_lists : taskLists sampleCore [2; 1; 0] (map Z.of_nat (seq 3 47)).
Proof. destruct sampleLists_lists. by constructor. Qed.

Lemma newCore_lists s pd a : taskLists (newCpuCore s pd a) [] (map Z.of_nat (seq 0 50)).
Proof. constructor; try done; cbn [newCpuCore taskDescriptorListElements]; vm_compute; repeat split; reflexivity. Qed.

Example scheduler_round_robin_witness :
  exists c', runYields sampleLists 0 [7; 8; 9] = Ok (c', [0; 2; 1], 7) /\ taskLists c' [2; 1; 0] (map Z.of_nat (seq 3 47)) /\
    currentTask c' = Some 1 /\ cr3 c' = cr3 sampleLists /\ esp0 c' = 201.
Proof.
  apply (scheduler_round_robin sampleLists [2] 1 [0] (map Z.of_nat (seq 3 47)) (sampleDescriptor 200) 7 [8; 9]);
    [apply sampleLists_lists|by vm_compute|by vm_compute|done|done|by vm_compute].
Defined.

Example setToRunningState_correct_witness :
  let c := newCpuCore newSocketManager 0x100000 emptyAllocator in
  let t := mkTask (-1) false (UserTask 0x2000000 0x400000 0x413FB0 None) in
  exists c' t' r, setToRunningState 0 (fun _ => None) c 5 t = Ok (c', t', r) /\
    match r with
    | TASK_ALREADY_RUNNING => taskIsRunning t = true /\ c' = c /\ t' = t
    | TASK_NOT_PROPERLY_INITIALIZED => taskIsRunning t = false /\ 0x400000 = 0 /\ c' = c /\ t' = t
    | TOO_MANY_TASKS => taskIsRunning t = false /\ 0x400000 <> 0 /\ map Z.of_nat (seq 0 50) = [] /\ c' = c /\ t' = t
    | SUCCESS =>
        taskIsRunning t = false /\ 0x400000 <> 0 /\
        exists i unused', map Z.of_nat (seq 0 50) = i :: unused' /\ taskLists c' [i] unused' /\
          t' = mkTask i true (taskKind t) /\
          updated (descriptorOf c) (descriptorOf c') i
            (mkTaskDescriptor (Some 5) (u32 (u32 (0x413FB0 - 0x400000) + 0x2000000))
               (u32 (0x2000000 + USER_TASK_KERNEL_STACK_OFFSET)) 0x400000)
    end.
Proof.
  intros c t.
  apply (setToRunningState_correct 0 (fun _ => None) c [] (map Z.of_nat (seq 0 50)) 5 t 0x2000000 0x400000 0x413FB0 None);
    [apply newCore_lists|done|done].
Defined.

Example destroyTask_correct_witness :
  let t := mkTask 1 true (KernelTask 0x400000 0) in
  exists c', destroyTask sampleCore t = Ok c' /\ taskLists c' [2; 0] (1 :: map Z.of_nat (seq 3 47)) /\
    unchanged (descriptorOf sampleCore) (descriptorOf c') /\ socketInv (socketManager c') /\
    (forall i d, isSlot i -> (socketDescs (socketManager c')).[socketIndex 1 i] = Some d -> socketIsActive d = 0) /\
    freeContiguousPages (kernelPageAllocator sampleCore) 0x400000 = Ok (kernelPageAllocator c').
Proof.
  apply (destroyTask_correct sampleCore [2] [0] (map Z.of_nat (seq 3 47)) (mkTask 1 true (KernelTask 0x400000 0)) 0x400000);
    [apply sampleCore_lists|done|done|done|exact newSocketManager_inv|exact sampleAllocator_wf|unfold NPAGES; lia].
Defined.

Lemma identityPageTable_view : identityView (fun a => Some (identityPageTable ((a - 0xFFC00000) / 0x1000))).
Proof.
  intros k Hk. eexists. split; [done|]. intros j Hj. replace ((0xFFC00000 + k * 0x1000 - 0xFFC00000) / 0x1000) with k by dlia.
  unfold getPTE. destruct (Z.leb_spec 1023 j); [lia|]. rewrite identityPageTable_nth by lia.
  destruct (pageAddr_ok (k * 1024 + j) ltac:(lia)) as [Ha Hal].
  destruct (entry_bits_fields (pageAddr (k * 1024 + j)) true true Ha Hal) as (_ & E1 & E2 & E3).
  change (flagBits true true) with 3 in *. cbn -[pageAddr Z.land Z.lor Z.eqb].
  by rewrite E1, E2, E3.
Qed.

Example userTask_page_tables_witness :
  exists pt1 pt2, buildPageTable1 (fun a => Some (identityPageTable ((a - 0xFFC00000) / 0x1000))) (fun _ => 0) 5000 = Ok pt1 /\
    buildPageTable2 (fun a => Some (identityPageTable ((a - 0xFFC00000) / 0x1000))) (fun _ => 0) 5000 = Ok pt2 /\
    forall k, 0 <= k < 2048 ->
      (if k <? 1024 then pt1.[k] else pt2.[k - 1024]) =
        Some (if negb ((5000 + k) mod 1024 =? 1023) then Z.lor ((5000 + k) * 4096) (flagBits (k <? 20) true)
              else if 0 mod 4096 =? 0 then Z.lor 0 (flagBits (k <? 20) true) else 2).
Proof. apply (userTask_page_tables _ (fun _ => 0) 5000); [apply identityPageTable_view|lia|unfold NPAGES; lia]. Defined.

Example addrSpaceIsUserAccessible_exact_witness :
  (addrSpaceIsUserAccessible 0x2000000 0x2014000 100 = true <->
   forall x, 0x2014000 <= x < 0x2014000 + 100 -> 0x2000000 <= x /\ 20 <= (x - 0x2000000) / 4096 < 2048) /\
  convertContigUserAddrBlockToContigKernelAddrBlock 0x2000000 0x400000 0x2014000 100 =
    if addrSpaceIsUserAccessible 0x2000000 0x2014000 100
    then (true, 0x400000 + (0x2014000 - 0x2000000)) else (false, 0).
Proof. apply (addrSpaceIsUserAccessible_exact 0x2000000 0x400000 0x2014000 100); lia. Defined.

Example addrSpaceIsUserAccessible_wraps_witness :
  addrSpaceIsUserAccessible 0x2000000 0x2014000 (2 ^ 32 - 0x2014000) = true /\
  exists x, 0x2014000 <= x < 0x2014000 + (2 ^ 32 - 0x2014000) /\ ~ (20 <= (x - 0x2000000) / 4096 < 2048).
Proof. apply (addrSpaceIsUserAccessible_wraps 0x2000000 0x2014000); lia. Defined.

Definition fullAllocator : PagingStructures :=
  match allocatePageRange sampleAllocator 0 (NPAGES - 1) with Ok ps => ps | Fault _ => sampleAllocator end.

Lemma fullAllocator_full : wf fullAllocator /\ forall s, ~ freeRun fullAllocator s 2048.
Proof.
  destruct (allocatePageRange_reserves_aux sampleAllocator 0 (NPAGES - 1) sampleAllocator_wf) as (ps & Hrun & Hwf & _ & Hused & _);
    [lia|unfold NPAGES; lia|unfold NPAGES; lia|].
  unfold fullAllocator. rewrite Hrun. split; [done|]. intros s Hs. pose proof (Hs s ltac:(lia)) as H.
  apply (Hused s); [|done]. pose proof (freePage_bound ps Hwf s H). lia.
Qed.

Definition fullCore : CpuCore :=
  mkCpuCore (map newDescriptorElement (seq 0 50)) (Some 0) None None false true 0 0 0x100000 newSocketManager fullAllocator 0x100000.

Example newUserTask_out_of_memory_witness :
  newUserTask 0 (fun _ => None) (fun _ => 0) fullCore 0x2000000 =
    (paging ← buildTaskPaging 0 (fun _ => None) (fun _ => 0) 0x2000000 0xFFC00000;
     Ok (withAllocator fullCore (kernelPageAllocator fullCore),
         mkTask (-1) false (UserTask 0x2000000 0xFFC00000 0 (Some paging)))).
Proof.
  apply (newUserTask_out_of_memory 0 (fun _ => None) (fun _ => 0) fullCore 0x2000000);
    [done|done|done|exact (proj1 fullAllocator_full)|exact (proj2 fullAllocator_full)].
Defined.

Example setTaskArguments_frames_witness :
  let t := mkTask (-1) false (UserTask 0x2000000 0x400000 0 None) in
  exists m', setTaskArguments 2 3 (replicate 8 0) t (mkTaskArguments [4; 5; 6; 7; 8] 2) zeroMem =
      (mkTask (-1) false (UserTask 0x2000000 0x400000 (0x400000 + USER_TASK_KERNEL_STACK_OFFSET - 76) None), m') /\
    loadBytes m' (0x400000 + USER_TASK_KERNEL_STACK_OFFSET - 76) 76 =
      wordBytes ([3; 0; 0; 35] ++ reverse (replicate 8 0) ++
        [32; 0; u32 (0x2000000 + USER_TASK_PROCESS_ENTRY_OFFSET); 27; 2;
         u32 (0x400000 + USER_TASK_USER_STACK_OFFSET - 4 * 2 - 0x400000 + 0x2000000); 35]) /\
    loadBytes m' (0x400000 + USER_TASK_USER_STACK_OFFSET - 4 * 2) (Z.to_nat (4 * (2 + 1))) =
      wordBytes (0 :: take (Z.to_nat 2) [4; 5; 6; 7; 8]).
Proof.
  intros t. apply (setTaskArguments_frames 2 3 (replicate 8 0) t (mkTaskArguments [4; 5; 6; 7; 8] 2) zeroMem 0x2000000 0x400000 0 None);
    [done|done|done|done|cbn; lia].
Defined.
