(* ===== verification/CoapServer.v ===== *)
(** The CoAP server: [cpp_lib/coap_server.{h,cpp}].

    The registered paths are elements of an array threaded through two pointer
    fields: [next[0]] is the field [next] of [LinkedLists.Element] and
    [next[1]], which links the paths a request may still match, the field
    [prev].  Path handlers are the interface [CoAPHandlers]; the system calls
    the server makes are recorded in order.  The two send buffers are memories
    of [WRITE_BUFFER_SIZE] bytes, stores outside of which are faults.

    The local counters of the packet handler stay below 2^18, so their sums do
    not wrap. *)
From S2P Require Import Prelude Mem LinkedLists SocketManager.

Definition MAX_COAP_PATH_SIZE : Z := 100.
Definition MAX_NUM_COAP_PATHS : nat := 10.
Definition RECEIVE_BUFFER_SIZE : Z := 3 * 0x10000.
Definition RESPONSE_BUFFER_SIZE : Z := 0x10000.
Definition WRITE_BUFFER_SIZE : Z := 3 * RESPONSE_BUFFER_SIZE.

Definition CREATED_RESPONSE_CODE : Z := 0x41.
Definition DELETED_RESPONSE_CODE : Z := 0x42.
Definition CHANGED_RESPONSE_CODE : Z := 0x44.
Definition CONTENT_RESPONSE_CODE : Z := 0x45.
Definition BAD_REQUEST_RESPONSE_CODE : Z := 0x80.
Definition FORBIDDEN_RESPONSE_CODE : Z := 0x83.
Definition NOT_FOUND_RESPONSE_CODE : Z := 0x84.
Definition METHOD_NOT_ALLOWED_RESPONSE_CODE : Z := 0x85.
Definition CONFLICT_RESPONSE_CODE : Z := 0x89.
Definition UNSUPPORTED_CONTENT_FORMAT_RESPONSE_CODE : Z := 0x8F.
Definition INTERNAL_SERVER_ERROR_RESPONSE_CODE : Z := 0xA0.

Definition COAP_PACKET_MINIMUM_SIZE : Z := 4.
Definition RESPONSE_OPTIONS_SIZE : Z := 2.
Definition PAYLOAD_MARKER_SIZE : Z := 1.

Inductive ContentFormat :=
| Text_Plain_Charset_UTF8
| Application_Link_Format
| Application_XML
| Application_Octet_Stream
| Application_EXI
| Application_JSON.

#[export] Instance ContentFormat_eq_dec : EqDecision ContentFormat.
Proof. solve_decision. Defined.

Record CoAPResponse := mkCoAPResponse {
  responseCode : Z;
  responseSize : Z;
  responseFormat : ContentFormat;
}.

(** [pHandler] names the handler object. *)
Record CoAPPath := mkCoAPPath {
  pathChars : list Z;
  pathSize : Z;
  pathProgressCounter : Z;
  pHandler : Z;
}.

Definition setPathSize (p : CoAPPath) (n : Z) := mkCoAPPath (pathChars p) n (pathProgressCounter p) (pHandler p).
Definition setProgress (p : CoAPPath) (n : Z) := mkCoAPPath (pathChars p) (pathSize p) n (pHandler p).

(** ** Path handlers *)

Inductive Method := GET | POST | PUT | DELETE.

(** The four methods of [CoAPHandler]: the handler object, the path (a
    character array), the content format and the payload give the response and
    the bytes stored at the start of the response buffer.  [W] is the state
    the handlers work on. *)
Class CoAPHandlers (W : Type) := {
  handle : Z -> Method -> list Z -> ContentFormat -> list Z -> W -> result (W * CoAPResponse * list Z);
}.

Definition emptyResponse (code : Z) : CoAPResponse := mkCoAPResponse code 0 Text_Plain_Charset_UTF8.

(** The methods a handler does not override. *)
Definition defaultHandle {W} (w : W) : result (W * CoAPResponse * list Z) :=
  Ok (w, emptyResponse METHOD_NOT_ALLOWED_RESPONSE_CODE, []).

(** ** The server *)

(** The system calls of the server: [openSocket], [setReceiveBuffer] and
    [setSendBuffer] with the number of the buffer, [closeSocket]. *)
Inductive ServerSyscall :=
| SysOpenSocket (udpPort : Z)
| SysSetReceiveBuffer (socketID buffer bufferSize : Z)
| SysSetSendBuffer (socketID buffer bufferSize : Z)
| SysCloseSocket (socketID : Z).

Record CoAPServer := mkCoAPServer {
  pathListElements : list (Element CoAPPath);
  unusedPathListElementsHead : option Z;
  usedPathListElementsHead : option Z;
  socketID : Z;
  receiveBuffers : list Mem;
  currentlyWrittenToReceiveBuffer : Z;
  writeBuffers : list Mem;
  currentlySendingWritebuffer : Z;
  currentlySendingWritebufferIndicatorWhenFinished : Z;
  currentlyWrittenToWriteBufferDataLen : Z;
  serverUdpPort : Z;
  syscalls : list ServerSyscall;
}.

Definition withPathLists (s : CoAPServer) es unused used :=
  mkCoAPServer es unused used (socketID s) (receiveBuffers s) (currentlyWrittenToReceiveBuffer s) (writeBuffers s)
    (currentlySendingWritebuffer s) (currentlySendingWritebufferIndicatorWhenFinished s)
    (currentlyWrittenToWriteBufferDataLen s) (serverUdpPort s) (syscalls s).
Definition withElements (s : CoAPServer) es :=
  withPathLists s es (unusedPathListElementsHead s) (usedPathListElementsHead s).
Definition withReceive (s : CoAPServer) bs cur calls :=
  mkCoAPServer (pathListElements s) (unusedPathListElementsHead s) (usedPathListElementsHead s) (socketID s) bs cur
    (writeBuffers s) (currentlySendingWritebuffer s) (currentlySendingWritebufferIndicatorWhenFinished s)
    (currentlyWrittenToWriteBufferDataLen s) (serverUdpPort s) calls.
Definition withSend (s : CoAPServer) bs sending indicator len calls :=
  mkCoAPServer (pathListElements s) (unusedPathListElementsHead s) (usedPathListElementsHead s) (socketID s)
    (receiveBuffers s) (currentlyWrittenToReceiveBuffer s) bs sending indicator len (serverUdpPort s) calls.
Definition withWriteBuffer (s : CoAPServer) (i : Z) (m : Mem) :=
  withSend s (writeBuffers s).[i := m] (currentlySendingWritebuffer s)
    (currentlySendingWritebufferIndicatorWhenFinished s) (currentlyWrittenToWriteBufferDataLen s) (syscalls s).

(** [setReceiveBuffer] of [cpp_lib/syscalls.cpp]: clears the first header. *)
Definition sysSetReceiveBuffer (s : CoAPServer) (i : Z) : result CoAPServer :=
  b ← (receiveBuffers s).[i] ?? OutOfRange;
  let b := for_range (Z.to_nat RECEIVE_BUFFER_HEADER_SIZE) 0 (fun k b => store b k 0) b in
  Ok (withReceive s (receiveBuffers s).[i := b] (currentlyWrittenToReceiveBuffer s)
        (syscalls s ++ [SysSetReceiveBuffer (u8 (socketID s)) i RECEIVE_BUFFER_SIZE])).

(** The constructor in the memory [s0]; [newSocketID] is what [openSocket]
    returns. *)
Definition newCoAPServer (s0 : CoAPServer) (udpPort newSocketID : Z) : result CoAPServer :=
  es ← for_rangeM MAX_NUM_COAP_PATHS 0 (fun i es =>
         p ← getValue es i;
         es ← setValue es i (setPathSize p 0);
         setNext es i (if negb (i =? Z.of_nat MAX_NUM_COAP_PATHS - 1) then Some (i + 1) else None))
       (pathListElements s0);
  sysSetReceiveBuffer
    (mkCoAPServer es (Some 0) None newSocketID (receiveBuffers s0) 0 (writeBuffers s0) 1 1 0 udpPort
       (syscalls s0 ++ [SysOpenSocket udpPort])) 0.

Definition destroyCoAPServer (s : CoAPServer) : list ServerSyscall := syscalls s ++ [SysCloseSocket (u8 (socketID s))].

(** [memCopy] into the first characters of a path. *)
Definition copyChars (src dst : list Z) : list Z := src ++ drop (length src) dst.

(** [path] is a string without its terminator. *)
Definition setPathHandler (s : CoAPServer) (path : list Z) (handler : Z) : result CoAPServer :=
  if MAX_COAP_PATH_SIZE <? zlength path then Ok s
  else
    match unusedPathListElementsHead s with
    | None => Ok s
    | Some i =>
        unused ← getNext (pathListElements s) i;
        es ← setNext (pathListElements s) i (usedPathListElementsHead s);
        p ← getValue es i;
        es ← setValue es i (mkCoAPPath (copyChars path (pathChars p)) (zlength path) 0 handler);
        Ok (withPathLists s es unused (Some i))
    end.

Fixpoint removePathLoop (fuel : nat) (s : CoAPServer) (path : list Z) (previous current : option Z) : result CoAPServer :=
  match fuel with
  | O => Fault OutOfFuel
  | S fuel =>
      match current with
      | None => Ok s
      | Some i =>
          p ← getValue (pathListElements s) i;
          n ← getNext (pathListElements s) i;
          if (pathSize p =? zlength path) && bool_decide (take (length path) (pathChars p) = path) then
            r ← setNextOrHead (pathListElements s) previous (usedPathListElementsHead s) n;
            es ← setNext (fst r) i (unusedPathListElementsHead s);
            Ok (withPathLists s es (Some i) (snd r))
          else removePathLoop fuel s path current n
      end
  end.

Definition removePathHandler (s : CoAPServer) (path : list Z) : result CoAPServer :=
  if MAX_COAP_PATH_SIZE <? zlength path then Ok s
  else removePathLoop (S MAX_NUM_COAP_PATHS) s path None (usedPathListElementsHead s).

(** ** Matching paths *)

Definition WILDCARD : Z := 94. (* '^' *)
Definition SLASH : Z := 47. (* '/' *)

Definition charAt (p : CoAPPath) (i : Z) : result Z := (pathChars p).[i] ?? OutOfRange.

(** The body of [trimListBasedOnNewCharacter] on one path: its new progress
    counter, or [None] if it does not stay in the list. *)
Definition matchCharacter (p : CoAPPath) (newCharacter : Z) : result (option Z) :=
  let currentPathProgressCounter := pathProgressCounter p in
  let currentPathSize := pathSize p in
  if newCharacter =? 0 then
    if currentPathProgressCounter =? currentPathSize then Ok (Some currentPathProgressCounter)
    else if currentPathProgressCounter =? u32 (currentPathSize - 1) then
      c ← charAt p currentPathProgressCounter;
      Ok (if c =? WILDCARD then Some currentPathProgressCounter else None)
    else Ok None
  else if currentPathSize <=? currentPathProgressCounter then Ok None
  else
    c ← charAt p currentPathProgressCounter;
    if (c =? WILDCARD) && negb (newCharacter =? SLASH) then Ok (Some currentPathProgressCounter)
    else
      let currentPathProgressCounter :=
        if (c =? WILDCARD) && (newCharacter =? SLASH) then currentPathProgressCounter + 1 else currentPathProgressCounter in
      if (c =? WILDCARD) && (newCharacter =? SLASH) && (currentPathSize <=? currentPathProgressCounter) then Ok None
      else
        c ← charAt p currentPathProgressCounter;
        Ok (if negb (c =? newCharacter) then None else Some (currentPathProgressCounter + 1)).

Fixpoint trimLoop (fuel : nat) (es : list (Element CoAPPath)) (newCharacter : Z) (isFirstCharacter : bool)
    (current lastValid newHead : option Z) : result (list (Element CoAPPath) * option Z) :=
  match fuel with
  | O => Fault OutOfFuel
  | S fuel =>
      match current with
      | None => Ok (es, newHead)
      | Some i =>
          p ← getValue es i;
          let p := if isFirstCharacter then setProgress p 0 else p in
          es ← setValue es i p;
          r ← matchCharacter p newCharacter;
          match r with
          | None =>
              n ← (if isFirstCharacter then getNext es i else getPrev es i);
              trimLoop fuel es newCharacter isFirstCharacter n lastValid newHead
          | Some counter =>
              r ← match lastValid with
                  | None => Ok (es, Some i)
                  | Some l => es ← setPrev es l (Some i); Ok (es, newHead)
                  end;
              let '(es, newHead) := r in
              es ← setValue es i (setProgress p counter);
              n ← (if isFirstCharacter then getNext es i else getPrev es i);
              es ← setPrev es i None;
              trimLoop fuel es newCharacter isFirstCharacter n (Some i) newHead
          end
      end
  end.

Definition trimListBasedOnNewCharacter (es : list (Element CoAPPath)) (possibleValidPathsHead : option Z)
    (newCharacter : Z) (isFirstCharacter : bool) : result (list (Element CoAPPath) * option Z) :=
  trimLoop (S MAX_NUM_COAP_PATHS) es newCharacter isFirstCharacter possibleValidPathsHead None None.

(** ** Parsing the options of a request *)

Record OptionState := mkOptionState {
  optionElements : list (Element CoAPPath);
  path : list Z;
  pathSizeSoFar : Z;
  possibleValidPathsHead : option Z;
  contentFormat : ContentFormat;
  currentOptionOffset : Z;
  currentOptionNumber : Z;
}.

Definition getByte (l : list Z) (i : Z) : result Z := l.[i] ?? OutOfRange.
Definition putChar (l : list Z) (i c : Z) : result (list Z) :=
  if (0 <=? i) && (i <? zlength l) then Ok l.[i := c] else Fault OutOfRange.

(** The number of extended bytes of a delta or length nibble; 15 is reserved. *)
Definition extendedBytes (nibble : Z) : option Z :=
  if nibble =? 13 then Some 1 else if nibble =? 14 then Some 2 else if nibble =? 15 then None else Some 0.

(** The value of the field and the offset behind its extended bytes. *)
Definition extendedValue (udpPayload : list Z) (offset nibble : Z) : result (Z * Z) :=
  if nibble =? 13 then b ← getByte udpPayload (offset + 1); Ok (b + 13, offset + 1)
  else if nibble =? 14 then
    b1 ← getByte udpPayload (offset + 1); b2 ← getByte udpPayload (offset + 2);
    Ok (Z.shiftl b1 8 + b2 + 269, offset + 2)
  else Ok (nibble, offset).

(** The loop over the characters of a path segment. *)
Fixpoint matchSegment (n : nat) (i : Z) (udpPayload : list Z) (st : OptionState) : result OptionState :=
  match n with
  | O => Ok st
  | S n =>
      match possibleValidPathsHead st with
      | None => Ok st
      | Some _ =>
          c ← getByte udpPayload (currentOptionOffset st + i);
          path ← putChar (path st) (pathSizeSoFar st + 1 + i) c;
          r ← trimListBasedOnNewCharacter (optionElements st) (possibleValidPathsHead st) c false;
          matchSegment n (i + 1) udpPayload
            (mkOptionState (fst r) path (pathSizeSoFar st) (snd r) (contentFormat st) (currentOptionOffset st)
               (currentOptionNumber st))
      end
  end.

(** Option 11.  When the path is too long, the code compares
    [possibleValidPathsHead] with [nullptr] instead of assigning it. *)
Definition uriPathOption (udpPayload : list Z) (optionLength : Z) (st : OptionState) : result OptionState :=
  st ← (if MAX_COAP_PATH_SIZE <? pathSizeSoFar st + (1 + optionLength) then Ok st
        else
          path ← putChar (path st) (pathSizeSoFar st) SLASH;
          r ← trimListBasedOnNewCharacter (optionElements st) (possibleValidPathsHead st) SLASH (pathSizeSoFar st =? 0);
          Ok (mkOptionState (fst r) path (pathSizeSoFar st) (snd r) (contentFormat st) (currentOptionOffset st)
                (currentOptionNumber st)));
  st ← matchSegment (Z.to_nat optionLength) 0 udpPayload st;
  Ok (mkOptionState (optionElements st) (path st) (pathSizeSoFar st + (1 + optionLength)) (possibleValidPathsHead st)
        (contentFormat st) (currentOptionOffset st) (currentOptionNumber st)).

Definition contentFormatOf (contentFormatIdentifier : Z) : option ContentFormat :=
  if contentFormatIdentifier =? 0 then Some Text_Plain_Charset_UTF8
  else if contentFormatIdentifier =? 40 then Some Application_Link_Format
  else if contentFormatIdentifier =? 41 then Some Application_XML
  else if contentFormatIdentifier =? 42 then Some Application_Octet_Stream
  else if contentFormatIdentifier =? 47 then Some Application_EXI
  else if contentFormatIdentifier =? 50 then Some Application_JSON
  else None.

(** Option 12; [None] makes the packet handler return. *)
Definition contentFormatOption (udpPayload : list Z) (optionLength : Z) (st : OptionState) : result (option OptionState) :=
  let setFormat f := mkOptionState (optionElements st) (path st) (pathSizeSoFar st) (possibleValidPathsHead st) f
                       (currentOptionOffset st) (currentOptionNumber st) in
  if optionLength =? 0 then Ok (Some (setFormat Text_Plain_Charset_UTF8))
  else if optionLength =? 1 then
    b ← getByte udpPayload (currentOptionOffset st); Ok (setFormat <$> contentFormatOf b)
  else Ok None.

(** What becomes of a packet after a step: the handler returns, leaving the
    list elements as they are, or goes on. *)
Inductive Parsed :=
| Dropped (es : list (Element CoAPPath))
| Going (st : OptionState).

(** One iteration of the loop over the options. *)
Definition parseOption (udpPayloadSize : Z) (udpPayload : list Z) (st : OptionState) : result Parsed :=
  let drop := Dropped (optionElements st) in
  b ← getByte udpPayload (currentOptionOffset st);
  let deltaNibble := Z.shiftr (Z.land b 0xF0) 4 in
  let lengthNibble := Z.land b 0xF in
  match extendedBytes deltaNibble, extendedBytes lengthNibble with
  | Some n1, Some n2 =>
      if udpPayloadSize <=? currentOptionOffset st + (n1 + n2) then Ok drop
      else
        r ← extendedValue udpPayload (currentOptionOffset st) deltaNibble;
        let '(optionDelta, offset) := r in
        r ← extendedValue udpPayload offset lengthNibble;
        let '(optionLength, offset) := r in
        let number := currentOptionNumber st + optionDelta in
        if 65535 <? number then Ok drop
        else
          let offset := offset + 1 in
          if udpPayloadSize <? offset + optionLength then Ok drop
          else
            let st := mkOptionState (optionElements st) (path st) (pathSizeSoFar st) (possibleValidPathsHead st)
                        (contentFormat st) offset number in
            r ← (if (number =? 11) && bool_decide (is_Some (possibleValidPathsHead st))
                 then st ← uriPathOption udpPayload optionLength st; Ok (Some st)
                 else if number =? 12 then contentFormatOption udpPayload optionLength st
                 else Ok (Some st));
            match r with
            | None => Ok drop
            | Some st =>
                Ok (Going (mkOptionState (optionElements st) (path st) (pathSizeSoFar st) (possibleValidPathsHead st)
                             (contentFormat st) (currentOptionOffset st + optionLength) (currentOptionNumber st)))
            end
  | _, _ => Ok drop
  end.

(** [while(currentOptionOffset < udpPayloadSize && udpPayload[currentOptionOffset] != 0xFF)]:
    an iteration moves the offset, so as many iterations as there are bytes
    are enough. *)
Fixpoint parseOptions (fuel : nat) (udpPayloadSize : Z) (udpPayload : list Z) (st : OptionState) : result Parsed :=
  match fuel with
  | O => Fault OutOfFuel
  | S fuel =>
      if currentOptionOffset st <? udpPayloadSize then
        b ← getByte udpPayload (currentOptionOffset st);
        if b =? 0xFF then Ok (Going st)
        else
          r ← parseOption udpPayloadSize udpPayload st;
          match r with
          | Dropped es => Ok (Dropped es)
          | Going st => parseOptions fuel udpPayloadSize udpPayload st
          end
      else Ok (Going st)
  end.

(** ** Responses *)

(** Stores into a send buffer. *)
Definition putBytes (b : Mem) (i : Z) (l : list Z) : result Mem :=
  if (0 <=? i) && (i + zlength l <=? WRITE_BUFFER_SIZE) then Ok (storeBytes b i l) else Fault OutOfRange.

(** [&currentlySendingWritebufferIndicatorWhenFinished] is cleared by
    [setSendBuffer] of [cpp_lib/syscalls.cpp]; the kernel sets it when the
    buffer is sent. *)
Definition attemptWriteBufferSwap (s : CoAPServer) : CoAPServer :=
  if (currentlySendingWritebufferIndicatorWhenFinished s =? 1) && (0 <? currentlyWrittenToWriteBufferDataLen s)
  then withSend s (writeBuffers s) (1 - currentlySendingWritebuffer s) 0 0
         (syscalls s ++ [SysSetSendBuffer (u8 (socketID s)) (1 - currentlySendingWritebuffer s)
                           (currentlyWrittenToWriteBufferDataLen s)])
  else s.

(** The kernel reports the buffer as sent. *)
Definition sendBufferFinished (s : CoAPServer) : CoAPServer :=
  withSend s (writeBuffers s) (currentlySendingWritebuffer s) 1 (currentlyWrittenToWriteBufferDataLen s) (syscalls s).

Definition responseHeaderSize (tokenLength : Z) : Z :=
  SEND_BUFFER_HEADER_SIZE + UDP_HEADER_SIZE + COAP_PACKET_MINIMUM_SIZE + tokenLength.

Definition requiredWritebufferSize (found : bool) (codeDetail tokenLength : Z) : Z :=
  if negb found || (codeDetail =? 0) || (4 <? codeDetail) then responseHeaderSize tokenLength
  else responseHeaderSize tokenLength + RESPONSE_OPTIONS_SIZE + PAYLOAD_MARKER_SIZE + RESPONSE_BUFFER_SIZE.

(** The header of the response without its sizes and code. *)
Definition writeResponseHeader (b : Mem) (at_ sourceIP sourcePort : Z) (requiresAck : bool) (messageIDLower messageIDUpper : Z)
    (token : list Z) : result Mem :=
  b ← putBytes b at_ (le32 sourceIP ++ le16 sourcePort);
  b ← putBytes b (at_ + SEND_BUFFER_HEADER_SIZE) (replicate (Z.to_nat UDP_HEADER_SIZE) 0);
  let coap := at_ + SEND_BUFFER_HEADER_SIZE + UDP_HEADER_SIZE in
  b ← putBytes b coap [u8 (0x40 + zlength token)];
  b ← putBytes b coap [u8 (b coap + (if requiresAck : bool then 0x20 else 0x10))];
  b ← putBytes b (coap + 2) [messageIDLower; messageIDUpper];
  putBytes b (coap + 4) token.

Definition contentFormatIdentifier (f : ContentFormat) : Z :=
  match f with
  | Text_Plain_Charset_UTF8 => 0
  | Application_Link_Format => 40
  | Application_XML => 41
  | Application_Octet_Stream => 42
  | Application_EXI => 47
  | Application_JSON => 50
  end.

(** The options and the payload marker, the code and the size of the response. *)
Definition writeResponse (b : Mem) (at_ tokenLength : Z) (response : CoAPResponse) : result (Mem * Z) :=
  let response := if RESPONSE_BUFFER_SIZE <? responseSize response
                  then mkCoAPResponse INTERNAL_SERVER_ERROR_RESPONSE_CODE 0 (responseFormat response) else response in
  b ← (if 0 <? responseSize response
       then putBytes b (at_ + responseHeaderSize tokenLength)
              [0xC1; contentFormatIdentifier (responseFormat response); 0xFF]
       else Ok b);
  b ← putBytes b (at_ + SEND_BUFFER_HEADER_SIZE + UDP_HEADER_SIZE + 1) [responseCode response];
  let packetSize := u16 (UDP_HEADER_SIZE + COAP_PACKET_MINIMUM_SIZE + tokenLength +
                         (if 0 <? responseSize response
                          then RESPONSE_OPTIONS_SIZE + PAYLOAD_MARKER_SIZE + responseSize response else 0)) in
  b ← putBytes b (at_ + 6) (le16 packetSize);
  Ok (b, packetSize).

Definition methodOf (codeDetail : Z) : option Method :=
  if codeDetail =? 1 then Some GET else if codeDetail =? 2 then Some POST
  else if codeDetail =? 3 then Some PUT else if codeDetail =? 4 then Some DELETE else None.

Section handlers.
Context {W : Type} `{CoAPHandlers W}.

(** The payload of the request: [None] makes the packet handler return. *)
Definition requestPayload (udpPayloadSize : Z) (udpPayload : list Z) (offset : Z) : result (option (list Z)) :=
  let payloadSize := if udpPayloadSize <? offset + PAYLOAD_MARKER_SIZE then 0
                     else udpPayloadSize - (offset + PAYLOAD_MARKER_SIZE) in
  if 0 <? payloadSize then
    b ← getByte udpPayload offset;
    Ok (if negb (b =? 0xFF) then None
        else Some (take (Z.to_nat payloadSize) (drop (Z.to_nat (offset + PAYLOAD_MARKER_SIZE)) udpPayload)))
  else Ok (Some []).

(** The response of the first matching path's handler and the send buffer with
    what the handler stored from [payloadAt]; [None] makes the packet handler
    return. *)
Definition respond (w : W) (b : Mem) (payloadAt codeDetail udpPayloadSize : Z) (udpPayload : list Z) (st : OptionState)
  : result (option (W * CoAPResponse * Mem)) :=
  match possibleValidPathsHead st with
  | None => Ok (Some (w, emptyResponse NOT_FOUND_RESPONSE_CODE, b))
  | Some i =>
      payload ← requestPayload udpPayloadSize udpPayload (currentOptionOffset st);
      match payload with
      | None => Ok None
      | Some payload =>
          p ← getValue (optionElements st) i;
          match methodOf codeDetail with
          | None => Ok (Some (w, emptyResponse METHOD_NOT_ALLOWED_RESPONSE_CODE, b))
          | Some method =>
              r ← handle (pHandler p) method (path st) (contentFormat st) payload w;
              let '(w, response, bytes) := r in
              b ← putBytes b payloadAt bytes;
              Ok (Some (w, response, b))
          end
      end
  end.

(** The end of the packet handler, from the terminated path on. *)
Definition answer (s : CoAPServer) (w : W) (sourceIP sourcePort udpPayloadSize : Z) (udpPayload : list Z)
    (codeDetail : Z) (requiresAck : bool) (messageIDLower messageIDUpper : Z) (token : list Z) (st : OptionState)
  : result (CoAPServer * W) :=
  let tokenLength := zlength token in
  let s := attemptWriteBufferSwap (withElements s (optionElements st)) in
  if u32 (WRITE_BUFFER_SIZE - currentlyWrittenToWriteBufferDataLen s)
       <? requiredWritebufferSize (bool_decide (is_Some (possibleValidPathsHead st))) codeDetail tokenLength
  then Ok (s, w)
  else
    let which := 1 - currentlySendingWritebuffer s in
    let at_ := currentlyWrittenToWriteBufferDataLen s in
    b ← (writeBuffers s).[which] ?? OutOfRange;
    b ← writeResponseHeader b at_ sourceIP sourcePort requiresAck messageIDLower messageIDUpper token;
    r ← respond w b (at_ + responseHeaderSize tokenLength + RESPONSE_OPTIONS_SIZE + PAYLOAD_MARKER_SIZE) codeDetail
          udpPayloadSize udpPayload st;
    match r with
    | None => Ok (withWriteBuffer s which b, w)
    | Some (w, response, b) =>
        r ← writeResponse b at_ tokenLength response;
        let '(b, packetSize) := r in
        let s := withWriteBuffer s which b in
        let s := withSend s (writeBuffers s) (currentlySendingWritebuffer s)
                   (currentlySendingWritebufferIndicatorWhenFinished s)
                   (currentlyWrittenToWriteBufferDataLen s + (SEND_BUFFER_HEADER_SIZE + packetSize)) (syscalls s) in
        Ok (attemptWriteBufferSwap s, w)
    end.

(** A request without Uri-Path options asks for [/]; the path is terminated. *)
Definition terminatePath (st : OptionState) : result OptionState :=
  st ← (if pathSizeSoFar st =? 0 then
          path ← putChar (path st) 0 SLASH;
          r ← trimListBasedOnNewCharacter (optionElements st) (possibleValidPathsHead st) SLASH true;
          Ok (mkOptionState (fst r) path 1 (snd r) (contentFormat st) (currentOptionOffset st) (currentOptionNumber st))
        else Ok st);
  path ← putChar (path st) (pathSizeSoFar st) 0;
  r ← trimListBasedOnNewCharacter (optionElements st) (possibleValidPathsHead st) 0 false;
  Ok (mkOptionState (fst r) path (pathSizeSoFar st) (snd r) (contentFormat st) (currentOptionOffset st)
        (currentOptionNumber st)).

(** [path0] is the uninitialised array [path]. *)
Definition handlePacketFromReceiveBuffer (s : CoAPServer) (w : W) (path0 : list Z)
    (sourceIP sourcePort udpPayloadSize : Z) (udpPayload : list Z) : result (CoAPServer * W) :=
  if udpPayloadSize <? 4 then Ok (s, w)
  else
    b0 ← getByte udpPayload 0;
    let version := Z.shiftr (Z.land b0 0xC0) 6 in
    if negb (version =? 1) then Ok (s, w)
    else
      let type := Z.shiftr (Z.land b0 0x30) 4 in
      if negb (type =? 0) && negb (type =? 1) then Ok (s, w)
      else
        let tokenLength := Z.land b0 0xF in
        if 8 <? tokenLength then Ok (s, w)
        else
          b1 ← getByte udpPayload 1;
          let codeClass := Z.shiftr (Z.land b1 0xE0) 5 in
          let codeDetail := Z.land b1 0x1F in
          if negb (codeClass =? 0) then Ok (s, w)
          else
            messageIDLower ← getByte udpPayload 2;
            messageIDUpper ← getByte udpPayload 3;
            if udpPayloadSize <? 4 + tokenLength then Ok (s, w)
            else
              token ← packetBytes udpPayload 4 tokenLength;
              r ← parseOptions (S (Z.to_nat udpPayloadSize)) udpPayloadSize udpPayload
                    (mkOptionState (pathListElements s) path0 0 (usedPathListElementsHead s) Text_Plain_Charset_UTF8
                       (4 + tokenLength) 0);
              match r with
              | Dropped es => Ok (withElements s es, w)
              | Going st =>
                  st ← terminatePath st;
                  answer s w sourceIP sourcePort udpPayloadSize udpPayload codeDetail (type =? 0)
                    messageIDLower messageIDUpper token st
              end.

(** ** Receiving *)

(** Bytes of a receive buffer. *)
Definition receivedBytes (b : Mem) (i n : Z) : result (list Z) :=
  if (0 <=? i) && (0 <=? n) && (i + n <=? RECEIVE_BUFFER_SIZE) then Ok (loadBytes b i (Z.to_nat n)) else Fault OutOfRange.

(** The loop over the packets of a receive buffer, at [offset]. *)
Fixpoint receiveLoop (fuel : nat) (path0 : list Z) (offset : Z) (s : CoAPServer) (w : W) : result (CoAPServer * W) :=
  match fuel with
  | O => Fault OutOfFuel
  | S fuel =>
      b ← (receiveBuffers s).[currentlyWrittenToReceiveBuffer s] ?? OutOfRange;
      sizeBytes ← receivedBytes b (offset + 6) 2;
      if bool_decide (sizeBytes = [0; 0]) then Ok (s, w)
      else
        _ ← receivedBytes b offset 8;
        let h k := b (offset + k) in
        let sourceIP := u32 (Z.shiftl (h 3) 24 + Z.shiftl (h 2) 16 + Z.shiftl (h 1) 8 + h 0) in
        let sourcePort := u16 (Z.shiftl (h 5) 8 + h 4) in
        let packetSize := u16 (Z.shiftl (h 7) 8 + h 6) in
        udpPayload ← receivedBytes b (offset + RECEIVE_BUFFER_HEADER_SIZE) packetSize;
        r ← handlePacketFromReceiveBuffer s w path0 sourceIP sourcePort packetSize udpPayload;
        receiveLoop fuel path0 (offset + (RECEIVE_BUFFER_HEADER_SIZE + packetSize)) (fst r) (snd r)
  end.

(** Each packet takes more than a header of 8 bytes. *)
Definition RECEIVE_FUEL : nat := Z.to_nat (RECEIVE_BUFFER_SIZE / 8).

Definition attemptReceiveBufferSwap (s : CoAPServer) (w : W) (path0 : list Z) : result (CoAPServer * W) :=
  b ← (receiveBuffers s).[currentlyWrittenToReceiveBuffer s] ?? OutOfRange;
  if negb (b 6 =? 0) || negb (b 7 =? 0) then
    s ← sysSetReceiveBuffer s (1 - currentlyWrittenToReceiveBuffer s);
    r ← receiveLoop RECEIVE_FUEL path0 0 s w;
    let '(s, w) := r in
    Ok (withReceive s (receiveBuffers s) (1 - currentlyWrittenToReceiveBuffer s) (syscalls s), w)
  else Ok (s, w).

(** The body of [run]'s loop, up to its [yield]. *)
Definition runOnce (s : CoAPServer) (w : W) (path0 : list Z) : result (CoAPServer * W) :=
  r ← attemptReceiveBufferSwap s w path0;
  Ok (attemptWriteBufferSwap (fst r), snd r).
End handlers.
