(* ===== verification/CoapMatching.v ===== *)
(** Path matching of the CoAP server: [trimListBasedOnNewCharacter] against a
    reference definition of when a registered path matches a request path.

    A registered path is a pattern: [^] stands for any characters but [/], and
    ends at the end of the path or at the next [/].  The server advances one
    progress counter per path with every character; [reach] is the progress
    after a string, and [tracking] says that the list linked by [next[1]] holds
    exactly the paths that can still match. *)
From S2P Require Import Prelude Mem LinkedLists SocketManager CoapServer.

(** ** The reference definition *)

Inductive pathMatches : list Z -> list Z -> Prop :=
| matches_end : pathMatches [] []
| matches_char c p s : c <> WILDCARD -> pathMatches p s -> pathMatches (c :: p) (c :: s)
| matches_wildcard w p s : SLASH ∉ w -> pathMatches p s -> pathMatches (WILDCARD :: SLASH :: p) (w ++ SLASH :: s)
| matches_wildcard_end w : SLASH ∉ w -> pathMatches [WILDCARD] w.

(** The characters of a registered path. *)
Definition pattern (p : CoAPPath) : list Z := take (Z.to_nat (pathSize p)) (pathChars p).

(** One step of the progress counter [k] in the pattern [P]. *)
Definition advance (P : list Z) (k c : Z) : option Z :=
  if c =? 0 then
    match drop (Z.to_nat k) P with
    | [] => Some k
    | [x] => if x =? WILDCARD then Some k else None
    | _ => None
    end
  else
    match drop (Z.to_nat k) P with
    | [] => None
    | x :: rest =>
        if x =? WILDCARD then
          if c =? SLASH then match rest with y :: _ => if y =? SLASH then Some (k + 2) else None | [] => None end
          else Some k
        else if x =? c then Some (k + 1) else None
    end.

Fixpoint reachFrom (P : list Z) (k : Z) (s : list Z) : option Z :=
  match s with
  | [] => Some k
  | c :: s => k ← advance P k c; reachFrom P k s
  end.
Definition reach (P s : list Z) : option Z := reachFrom P 0 s.

Definition pathOk (p : CoAPPath) : Prop :=
  zlength (pathChars p) = MAX_COAP_PATH_SIZE /\ 0 <= pathSize p <= MAX_COAP_PATH_SIZE.

Lemma reachFrom_app P k s1 s2 : reachFrom P k (s1 ++ s2) = k ← reachFrom P k s1; reachFrom P k s2.
Proof. revert k. induction s1 as [|c s1 IH]; intros k; cbn; [done|]. destruct (advance P k c); cbn; [apply IH|done]. Qed.

Lemma reach_snoc P s c : reach P (s ++ [c]) = k ← reach P s; advance P k c.
Proof.
  unfold reach. rewrite reachFrom_app. destruct (reachFrom P 0 s) as [k|]; cbn; [|done]. by destruct (advance P k c).
Qed.

(** ** Characters against the reference *)

Lemma drop_cons_inv {A} n (P : list A) x rest : drop n P = x :: rest -> drop (S n) P = rest /\ (n < length P)%nat.
Proof.
  intros E. split.
  - rewrite <- Nat.add_1_r, <- drop_drop, E. done.
  - assert (length (drop n P) = length P - n)%nat by apply length_drop. rewrite E in H. cbn in H. lia.
Qed.

Lemma advance_bounds P k c k' : 0 <= k <= zlength P -> advance P k c = Some k' -> k <= k' <= zlength P.
Proof.
  intros Hk. unfold advance, zlength in *. destruct (drop (Z.to_nat k) P) as [|x [|y rest]] eqn:E;
    repeat case_match; intros [= <-]; try lia; apply drop_cons_inv in E as [E ?]; try lia.
  apply drop_cons_inv in E. lia.
Qed.

Lemma pathMatches_char_iff x c p s :
  x <> WILDCARD -> pathMatches (x :: p) (c :: s) <-> x = c /\ pathMatches p s.
Proof.
  intros Hx. split.
  - inversion 1; subst; try done.
  - intros [-> Hm]. by constructor.
Qed.

Lemma pathMatches_nil_iff p : pathMatches p [] <-> p = [] \/ p = [WILDCARD].
Proof.
  split.
  - inversion 1; subst; auto. by destruct w.
  - intros [->| ->]; constructor. apply not_elem_of_nil.
Qed.

Lemma pathMatches_wild_step c p s :
  c <> SLASH -> pathMatches (WILDCARD :: p) (c :: s) <-> pathMatches (WILDCARD :: p) s.
Proof.
  intros Hc. split.
  - intros Hm. remember (WILDCARD :: p) as P eqn:EP. remember (c :: s) as S eqn:ES.
    destruct Hm as [|c' p' s' Hc' Hm|w p' s' Hw Hm|w Hw]; simplify_eq/=.
    + destruct w as [|d w]; simplify_eq/=. apply not_elem_of_cons in Hw as []. by constructor.
    + apply not_elem_of_cons in Hw as []. by constructor.
  - intros Hm. remember (WILDCARD :: p) as P eqn:EP.
    destruct Hm as [|c' p' s' Hc' Hm|w p' s' Hw Hm|w Hw]; simplify_eq/=.
    + apply (matches_wildcard (c :: w)); [by apply not_elem_of_cons|done].
    + constructor. by apply not_elem_of_cons.
Qed.

Lemma pathMatches_wild_slash p s :
  pathMatches (WILDCARD :: p) (SLASH :: s) <-> exists p', p = SLASH :: p' /\ pathMatches p' s.
Proof.
  split.
  - intros Hm. remember (WILDCARD :: p) as P eqn:EP. remember (SLASH :: s) as S eqn:ES.
    destruct Hm as [|c' p' s' Hc Hm|w p' s' Hw Hm|w Hw]; simplify_eq/=.
    + destruct w as [|d w]; simplify_eq/=; [eauto|]. by apply not_elem_of_cons in Hw as [].
    + by apply not_elem_of_cons in Hw as [].
  - intros (p' & -> & Hm). apply (matches_wildcard []); [apply not_elem_of_nil|done].
Qed.

Lemma pathMatches_nil_l s : pathMatches [] s <-> s = [].
Proof. split; [by inversion 1|intros ->; constructor]. Qed.

(** A pattern accepts a string without NUL exactly if it matches it. *)
Lemma reachFrom_matches P s k :
  0 <= k <= zlength P -> 0 ∉ s ->
  is_Some (reachFrom P k (s ++ [0])) <-> pathMatches (drop (Z.to_nat k) P) s.
Proof.
  revert k. induction s as [|c s IH]; intros k Hk H0.
  - rewrite pathMatches_nil_iff. cbn. unfold advance. cbn.
    destruct (drop (Z.to_nat k) P) as [|x [|y rest]]; cbn.
    + split; eauto.
    + destruct (Z.eqb_spec x WILDCARD) as [->|]; cbn; split; eauto; [by intros []|intros [|[= ->]]; done].
    + split; [by intros []|by intros [|]].
  - apply not_elem_of_cons in H0 as [Hc H0]. cbn [app reachFrom].
    assert (Hnext : forall k', advance P k c = Some k' -> is_Some (reachFrom P k' (s ++ [0])) <-> pathMatches (drop (Z.to_nat k') P) s).
    { intros k' Hk'. apply IH; [|done]. apply advance_bounds in Hk'; lia. }
    revert Hnext. unfold advance. destruct (Z.eqb_spec c 0); [done|].
    destruct (drop (Z.to_nat k) P) as [|x rest] eqn:E; intros Hnext; cbn.
    { rewrite pathMatches_nil_l. split; [by intros []|done]. }
    pose proof (drop_cons_inv _ _ _ _ E) as [E' Hlt].
    destruct (Z.eqb_spec x WILDCARD) as [->|Hx].
    + destruct (Z.eqb_spec c SLASH) as [->|Hs].
      * rewrite pathMatches_wild_slash. destruct rest as [|y rest]; cbn; [split; [by intros []|by intros (? & ? & ?)]|].
        destruct (Z.eqb_spec y SLASH) as [->|]; cbn.
        -- rewrite Hnext by done. replace (Z.to_nat (k + 2)) with (S (S (Z.to_nat k))) by lia.
           apply drop_cons_inv in E' as [-> _]. split; [eauto|by intros (? & [= <-] & ?)].
        -- split; [by intros []|by intros (? & [= ?] & ?)].
      * cbn. rewrite Hnext by done. by rewrite E, pathMatches_wild_step.
    + rewrite pathMatches_char_iff by done. destruct (Z.eqb_spec x c) as [->|]; cbn.
      * rewrite Hnext by done. replace (Z.to_nat (k + 1)) with (S (Z.to_nat k)) by lia. rewrite E'. tauto.
      * split; [by intros []|by intros []].
Qed.

Lemma reach_matches P s : 0 ∉ s -> is_Some (reach P (s ++ [0])) <-> pathMatches P s.
Proof. intros H0. apply (reachFrom_matches P s 0); [|done]. pose proof (zlength_nonneg P). lia. Qed.

Lemma zlength_pattern p : pathOk p -> zlength (pattern p) = pathSize p.
Proof. intros [H1 H2]. unfold pattern. rewrite zlength_take; lia. Qed.

Lemma drop_znth {A} (P : list A) k :
  0 <= k -> drop (Z.to_nat k) P = match P.[k] with Some x => x :: drop (Z.to_nat (k + 1)) P | None => [] end.
Proof.
  intros Hk. unfold znth. destruct (Z.leb_spec 0 k); [|lia]. replace (Z.to_nat (k + 1)) with (S (Z.to_nat k)) by lia.
  destruct (P !! Z.to_nat k) eqn:E; [by rewrite (drop_S _ _ _ E)|]. by apply drop_ge, lookup_ge_None.
Qed.

Lemma charAt_pattern p k : pathOk p -> 0 <= k < pathSize p -> exists c, charAt p k = Ok c /\ (pattern p).[k] = Some c.
Proof.
  intros Hp Hk. destruct (znth_lt_Some (pattern p) k) as [c Hc]; [rewrite zlength_pattern; done|].
  exists c. split; [|done]. unfold charAt. unfold pattern in Hc. rewrite znth_take in Hc by lia. by rewrite Hc.
Qed.

Lemma pattern_end p k : pathOk p -> pathSize p <= k -> (pattern p).[k] = None.
Proof. intros Hp Hk. apply znth_None. rewrite zlength_pattern by done. lia. Qed.

(** The code's step on a path is [advance] on its pattern. *)
Lemma matchCharacter_advance p c :
  pathOk p -> 0 <= pathProgressCounter p <= pathSize p ->
  matchCharacter p c = Ok (advance (pattern p) (pathProgressCounter p) c).
Proof.
  intros Hp. set (k := pathProgressCounter p). intros Hk. unfold matchCharacter, advance. fold k.
  pose proof (proj2 Hp) as Hsz. unfold MAX_COAP_PATH_SIZE in Hsz.
  rewrite (drop_znth _ k) by lia. rewrite (drop_znth _ (k + 1)) by lia.
  destruct (Z.eqb_spec c 0) as [->|Hc].
  - destruct (Z.eqb_spec k (pathSize p)) as [->|Hne]; [by rewrite pattern_end|].
    destruct (charAt_pattern p k Hp) as (x & Hx & ->); [lia|].
    rewrite (u32_small (pathSize p - 1)) by (unfold is_u32; lia).
    destruct (Z.eqb_spec k (pathSize p - 1)).
    + rewrite pattern_end by (done || lia). by rewrite Hx.
    + destruct (charAt_pattern p (k + 1) Hp) as (y & _ & ->); [lia|done].
  - destruct (Z.leb_spec (pathSize p) k); [by rewrite pattern_end|].
    destruct (charAt_pattern p k Hp) as (x & Hx & ->); [lia|]. rewrite Hx. cbn [mbind result_bind].
    destruct (Z.eqb_spec x WILDCARD) as [->|]; cbn [andb negb].
    + destruct (Z.eqb_spec c SLASH) as [->|]; cbn [andb negb]; [|done].
      destruct (Z.leb_spec (pathSize p) (k + 1)); [by rewrite pattern_end|].
      destruct (charAt_pattern p (k + 1) Hp) as (y & Hy & ->); [lia|]. rewrite Hy. cbn.
      destruct (y =? SLASH); cbn; do 2 f_equal; lia.
    + rewrite Hx. cbn. by destruct (x =? c).
Qed.

(** ** Trimming a list *)

(** The pointer the loop follows. *)
Definition linkOf (isFirst : bool) (es : list (Element CoAPPath)) : Z -> option (option Z) :=
  if isFirst then nextOf es else prevOf es.

Definition startProgress (isFirst : bool) (p : CoAPPath) : Z := if isFirst then 0 else pathProgressCounter p.

(** The progress of path [i] after the character, if it stays. *)
Definition survives (es : list (Element CoAPPath)) (c : Z) (isFirst : bool) (i : Z) : option Z :=
  p ← valueOf es i; advance (pattern p) (startProgress isFirst p) c.

Definition survivors (es : list (Element CoAPPath)) (c : Z) (isFirst : bool) (l : list Z) : list Z :=
  filter (fun i => is_Some (survives es c isFirst i)) l.

Arguments survivors : simpl never.
Arguments survives : simpl never.

Lemma survivors_cons es c isFirst i l :
  survivors es c isFirst (i :: l) =
  match survives es c isFirst i with
  | Some _ => i :: survivors es c isFirst l
  | None => survivors es c isFirst l
  end.
Proof.
  unfold survivors. rewrite filter_cons. destruct (survives es c isFirst i).
  - by rewrite decide_True.
  - by rewrite decide_False by by intros [].
Qed.

Definition pathReady (isFirst : bool) (es : list (Element CoAPPath)) (i : Z) : Prop :=
  exists p, valueOf es i = Some p /\ pathOk p /\ 0 <= startProgress isFirst p <= pathSize p.

(** [es'] differs from [es] in progress counters of [l] only (and in [next[1]]). *)
Definition progressed (es es' : list (Element CoAPPath)) (l : list Z) : Prop :=
  zlength es' = zlength es /\ unchanged (nextOf es) (nextOf es') /\
  (forall j, j ∉ l -> valueOf es' j = valueOf es j) /\
  (forall j p, valueOf es j = Some p -> exists k, valueOf es' j = Some (setProgress p k)).

Lemma setProgress_id p : setProgress p (pathProgressCounter p) = p.
Proof. by destruct p. Qed.

Lemma progressed_refl es l : progressed es es l.
Proof.
  split_and!; try done. intros j p Hp. exists (pathProgressCounter p). by rewrite setProgress_id.
Qed.

Lemma progressed_trans es1 es2 es3 l : progressed es1 es2 l -> progressed es2 es3 l -> progressed es1 es3 l.
Proof.
  intros (Hl1 & Hn1 & Ho1 & Hp1) (Hl2 & Hn2 & Ho2 & Hp2). split_and!.
  - congruence.
  - intros j. by rewrite Hn2, Hn1.
  - intros j Hj. by rewrite Ho2, Ho1.
  - intros j p Hj. destruct (Hp1 j p Hj) as [k Hk]. destruct (Hp2 j _ Hk) as [k' Hk']. by exists k'.
Qed.

Lemma progressed_sub es es' l1 l2 : l1 ⊆ l2 -> progressed es es' l1 -> progressed es es' l2.
Proof. intros Hs (? & ? & Ho & ?). split_and!; try done. intros j Hj. apply Ho. intros Hin. by apply Hj, Hs. Qed.

Lemma progressed_head es es' i l : progressed es es' [i] -> progressed es es' (i :: l).
Proof. apply progressed_sub. intros j ->%list_elem_of_singleton. by left. Qed.

Lemma progressed_tail es es' i l : progressed es es' l -> progressed es es' (i :: l).
Proof. apply progressed_sub. intros j Hj. by right. Qed.

Lemma setValue_progressed es i p k es' :
  valueOf es i = Some p -> zlength es' = zlength es -> updated (valueOf es) (valueOf es') i (setProgress p k) ->
  unchanged (nextOf es) (nextOf es') -> progressed es es' [i].
Proof.
  intros Hp Hl [Hu1 Hu2] Hn. split_and!; try done.
  - intros j Hj. apply Hu2. intros ->. apply Hj. by left.
  - intros j q Hq. destruct (decide (j = i)) as [->|Hne].
    + rewrite Hp in Hq. injection Hq as <-. by exists k.
    + exists (pathProgressCounter q). by rewrite setProgress_id, Hu2.
Qed.

Lemma setPrev_progressed es es' l : 
  zlength es' = zlength es -> unchanged (valueOf es) (valueOf es') -> unchanged (nextOf es) (nextOf es') ->
  progressed es es' l.
Proof.
  intros Hl Hv Hn. split_and!; try done. intros j p Hj. exists (pathProgressCounter p). by rewrite setProgress_id, Hv.
Qed.

Lemma getLink_ok (isFirst : bool) es i n :
  linkOf isFirst es i = Some n -> (if isFirst then getNext es i else getPrev es i) = Ok n.
Proof. destruct isFirst; [apply getNext_ok|apply getPrev_ok]. Qed.

Lemma survives_ext es es' c isFirst i : valueOf es' i = valueOf es i -> survives es' c isFirst i = survives es c isFirst i.
Proof. unfold survives. by intros ->. Qed.

Lemma survivors_ext es es' c isFirst l :
  (forall i, i ∈ l -> valueOf es' i = valueOf es i) -> survivors es' c isFirst l = survivors es c isFirst l.
Proof.
  intros H. unfold survivors. induction l as [|i l IH]; [done|].
  rewrite !filter_cons, IH by (intros; apply H; by right).
  erewrite survives_ext by (apply H; by left). done.
Qed.

Lemma pathReady_ext isFirst es es' i : valueOf es' i = valueOf es i -> pathReady isFirst es i -> pathReady isFirst es' i.
Proof. unfold pathReady. by intros ->. Qed.

Lemma valueOf_range {V} (es : list (Element V)) i v : valueOf es i = Some v -> 0 <= i < zlength es.
Proof. intros H. apply valueOf_Some. eauto. Qed.

(** The element under the cursor is put at the end of the kept list. *)
Definition keepElement (es : list (Element CoAPPath)) (p : CoAPPath) (counter : Z) (isFirst : bool) (lastValid newHead : option Z)
    (i : Z) : result (list (Element CoAPPath) * option Z * option Z) :=
  r ← match lastValid with
      | None => Ok (es, Some i)
      | Some l => es ← setPrev es l (Some i); Ok (es, newHead)
      end;
  let '(es, newHead) := r in
  es ← setValue es i (setProgress p counter);
  n ← (if isFirst then getNext es i else getPrev es i);
  es ← setPrev es i None;
  Ok (es, newHead, n).

Lemma trimLoop_step fuel es c isFirst i lastValid newHead :
  trimLoop (S fuel) es c isFirst (Some i) lastValid newHead =
  p ← getValue es i;
  es ← setValue es i (setProgress p (startProgress isFirst p));
  r ← matchCharacter (setProgress p (startProgress isFirst p)) c;
  match r with
  | None => n ← (if isFirst then getNext es i else getPrev es i); trimLoop fuel es c isFirst n lastValid newHead
  | Some counter =>
      r ← keepElement es (setProgress p (startProgress isFirst p)) counter isFirst lastValid newHead i;
      let '(es, newHead, n) := r in trimLoop fuel es c isFirst n (Some i) newHead
  end.
Proof.
  cbn [trimLoop]. destruct (getValue es i) as [p|]; cbn; [|done].
  assert ((if isFirst then setProgress p 0 else p) = setProgress p (startProgress isFirst p)) as ->.
  { destruct isFirst; [done|]. cbn. by rewrite setProgress_id. }
  destruct (setValue es i _) as [es1|]; cbn; [|done]. destruct (matchCharacter _ c) as [[counter|]|]; cbn; [|done..].
  unfold keepElement. destruct (match lastValid with None => _ | _ => _ end) as [[es2 h]|]; cbn; [|done].
  destruct (setValue es2 i _) as [es3|]; cbn; [|done]. destruct (if isFirst then _ else _); cbn; [|done].
  by destruct (setPrev es3 i None).
Qed.

Lemma keepElement_ok es p counter isFirst kept i n :
  valueOf es i = Some p -> linkOf isFirst es i = Some n -> NoDup (kept ++ [i]) ->
  threaded (prevOf es) kept None ->
  exists es', keepElement es p counter isFirst (lastOf kept None) (firstOf kept None) i =
      Ok (es', firstOf (kept ++ [i]) None, n) /\
    progressed es es' [i] /\ valueOf es' i = Some (setProgress p counter) /\
    threaded (prevOf es') (kept ++ [i]) None /\
    forall j, j ∉ kept ++ [i] -> prevOf es' j = prevOf es j.
Proof.
  intros Hv Hn Hnd Hk. unfold keepElement. pose proof (valueOf_range _ _ _ Hv) as Hr.
  apply NoDup_app in Hnd as (Hnd & Hd & _). assert (i ∉ kept) as Hi by (intros Hin; apply (Hd i Hin); by left).
  assert (exists es1, match lastOf kept None with
      | None => Ok (es, Some i)
      | Some l => es ← setPrev es l (Some i); Ok (es, firstOf kept None)
      end = Ok (es1, firstOf (kept ++ [i]) None) /\ zlength es1 = zlength es /\
      unchanged (valueOf es) (valueOf es1) /\ unchanged (nextOf es) (nextOf es1) /\
      (forall j, j ∉ kept -> prevOf es1 j = prevOf es j) /\ threaded (prevOf es1) kept (Some i))
    as (es1 & -> & Hl1 & Hv1 & Hn1 & Hp1 & Hk1).
  { clear Hi. induction kept as [|l kept _] using rev_ind; [by exists es|]. rewrite lastOf_snoc.
    assert (0 <= l < zlength es) as Hl.
    { apply prevOf_Some. eapply threaded_lookup; [exact Hk|]. apply elem_of_app. right. by left. }
    destruct (setPrev_ok es l (Some i) Hl) as (es1 & -> & Hl1 & Hu & Hv1 & Hn1). exists es1. cbn. split_and!; try done.
    - do 2 f_equal. rewrite !firstOf_app. by destruct kept.
    - intros j Hj. apply Hu. intros ->. apply Hj, elem_of_app. right. by left.
    - eapply threaded_updated_last; [done| |done]. apply NoDup_app in Hnd as (_ & Hd' & _).
      intros Hin. apply (Hd' l Hin). by left. }
  cbn. destruct (setValue_ok es1 i (setProgress p counter)) as (es2 & -> & Hl2 & Hv2 & Hn2 & Hp2); [lia|].
  cbn. rewrite (getLink_ok isFirst es2 i n).
  2: { destruct isFirst; cbn in *; [by rewrite Hn2, Hn1|by rewrite Hp2, Hp1]. }
  cbn. destruct (setPrev_ok es2 i None) as (es3 & -> & Hl3 & Hp3 & Hv3 & Hn3); [lia|]. exists es3. split; [done|].
  split_and!.
  - eapply progressed_trans; [by apply setPrev_progressed|].
    eapply progressed_trans; [|by apply setPrev_progressed].
    eapply (setValue_progressed es1 i p counter); try done. by rewrite Hv1.
  - rewrite Hv3. apply Hv2.
  - apply threaded_app. split; [|cbn; split; [apply Hp3|done]].
    eapply threaded_updated; [exact Hp3|done|]. eapply threaded_unchanged; [exact Hp2|done].
  - intros j Hj. apply not_elem_of_app in Hj as [Hj1 Hj2]. apply not_elem_of_cons in Hj2 as [Hj2 _].
    rewrite (proj2 Hp3), Hp2, Hp1; done.
Qed.

Lemma trimLoop_ok fuel es c isFirst kept rest :
  (length rest < fuel)%nat -> NoDup (kept ++ rest) ->
  (forall i, i ∈ rest -> pathReady isFirst es i) ->
  threaded (linkOf isFirst es) rest None -> threaded (prevOf es) kept None ->
  exists es', trimLoop fuel es c isFirst (firstOf rest None) (lastOf kept None) (firstOf kept None) =
      Ok (es', firstOf (kept ++ survivors es c isFirst rest) None) /\
    progressed es es' rest /\
    threaded (prevOf es') (kept ++ survivors es c isFirst rest) None /\
    forall i k, i ∈ rest -> survives es c isFirst i = Some k ->
      exists p, valueOf es i = Some p /\ valueOf es' i = Some (setProgress p k).
Proof.
  revert fuel es kept. induction rest as [|i rest IH]; intros [|fuel] es kept Hf Hnd Hready Hrest Hk; cbn [length] in Hf; try lia.
  { exists es. cbn. rewrite !app_nil_r. split_and!; try done; [apply progressed_refl|]. by intros i k ?%not_elem_of_nil. }
  destruct (Hready i ltac:(by left)) as (p & Hv & Hok & Hpr). pose proof (valueOf_range _ _ _ Hv) as Hr.
  destruct Hrest as [Hn Hrest]. cbn [firstOf] in *.
  assert (i ∉ rest) as Hirest by (apply NoDup_app in Hnd as (_ & _ & Hnd); by apply NoDup_cons in Hnd as []).
  assert (NoDup (kept ++ [i])) as Hnd1.
  { rewrite cons_middle, app_assoc in Hnd. by apply NoDup_app in Hnd as (? & _ & _). }
  rewrite trimLoop_step, (getValue_ok es i p Hv). cbn.
  destruct (setValue_ok es i (setProgress p (startProgress isFirst p)) Hr) as (es1 & -> & Hl1 & Hv1 & Hn1 & Hp1). cbn.
  rewrite matchCharacter_advance by done. cbn.
  assert (progressed es es1 [i]) as Hpg1 by (eapply setValue_progressed; done).
  assert (linkOf isFirst es1 i = Some (firstOf rest None)) as Hlink1.
  { destruct isFirst; cbn in *; [by rewrite Hn1|by rewrite Hp1]. }
  assert (survives es c isFirst i = advance (pattern p) (startProgress isFirst p) c) as Hsv.
  { unfold survives. by rewrite Hv. }
  assert (forall es', progressed es1 es' [i] -> (forall i0, i0 ∈ rest -> valueOf es' i0 = valueOf es i0)) as Hvrest.
  { intros es' (_ & _ & Ho & _) j Hj. assert (j ∉ [i]) by (rewrite list_elem_of_singleton; by intros ->).
    rewrite Ho by done. apply Hv1. by intros ->. }
  rewrite survivors_cons, Hsv. change (advance (pattern (setProgress p (startProgress isFirst p)))) with (advance (pattern p)).
  destruct (advance (pattern p) _ c) as [k|] eqn:Ek; cbn.
  - destruct (keepElement_ok es1 (setProgress p (startProgress isFirst p)) k isFirst kept i (firstOf rest None))
      as (es2 & -> & Hpg2 & Hv2 & Hk2 & Hp2); [apply Hv1|done|done|by eapply threaded_unchanged|].
    cbn. rewrite <- (lastOf_snoc kept i None).
    destruct (IH fuel es2 (kept ++ [i])) as (es3 & -> & Hpg3 & Hk3 & Hs3); [lia|by rewrite <- app_assoc| | |done|].
    + intros j Hj. eapply pathReady_ext; [by eapply Hvrest|]. apply Hready. by right.
    + eapply threaded_frame; [|exact Hrest]. intros j Hj.
      assert (j ∉ kept ++ [i]) as Hjk.
      { rewrite cons_middle, app_assoc in Hnd. apply NoDup_app in Hnd as (_ & Hd & _). intros Hin. by apply (Hd j). }
      destruct isFirst; cbn; [|by rewrite Hp2, Hp1]. rewrite (proj1 (proj2 Hpg2)). apply Hn1.
    + rewrite (survivors_ext es es2) in Hk3 |- * by (by apply Hvrest). exists es3. rewrite <- !app_assoc in *. cbn in *.
      split_and!; try done.
      * eapply progressed_trans; [|by apply progressed_tail].
        eapply progressed_trans; by apply progressed_head.
      * intros j k' [->|Hj]%elem_of_cons Hsj.
        -- exists p. split; [done|]. destruct Hpg3 as (_ & _ & Ho & _). rewrite Ho, Hv2 by done.
           rewrite Hsv in Hsj. by simplify_eq.
        -- destruct (Hs3 j k' Hj) as (q & Hq1 & Hq2); [by erewrite survives_ext by (by apply Hvrest)|].
           exists q. by rewrite <- (Hvrest es2).
  - rewrite (getLink_ok isFirst es1 i _ Hlink1). cbn.
    destruct (IH fuel es1 kept) as (es3 & -> & Hpg3 & Hk3 & Hs3); [lia| | | |by eapply threaded_unchanged|].
    + apply NoDup_app in Hnd as (H1 & H2 & H3). apply NoDup_app. apply NoDup_cons in H3 as [_ H3].
      split_and!; [done| |done]. intros j Hj Hj'. apply (H2 j Hj). by right.
    + intros j Hj. eapply pathReady_ext; [|apply Hready; by right]. apply Hvrest; [apply progressed_refl|done].
    + eapply threaded_unchanged; [|exact Hrest]. destruct isFirst; cbn; done.
    + rewrite (survivors_ext es es1) in Hk3 |- * by (apply Hvrest; apply progressed_refl). exists es3. split_and!; try done.
      * eapply progressed_trans; [by apply progressed_head|by apply progressed_tail].
      * intros j k' [->|Hj]%elem_of_cons Hsj; [congruence|].
        destruct (Hs3 j k' Hj) as (q & Hq1 & Hq2).
        { erewrite survives_ext; [done|]. apply Hvrest; [apply progressed_refl|done]. }
        exists q. rewrite <- (Hvrest es1); [done|apply progressed_refl|done].
Qed.

(** ** Following a string *)

Arguments trimListBasedOnNewCharacter : simpl never.

Definition reachOf (es : list (Element CoAPPath)) (s : list Z) (i : Z) : option Z :=
  p ← valueOf es i; reach (pattern p) s.

(** The paths that can still match after [s], in list order. *)
Definition candidates (es : list (Element CoAPPath)) (l s : list Z) : list Z :=
  filter (fun i => is_Some (reachOf es s i)) l.

Definition usedPaths (es : list (Element CoAPPath)) (l : list Z) : Prop :=
  NoDup l /\ (length l <= MAX_NUM_COAP_PATHS)%nat /\ threaded (nextOf es) l None /\
  forall i, i ∈ l -> exists p, valueOf es i = Some p /\ pathOk p.

(** After the string [s], [head] begins the list of the candidates, and their
    counters are what [s] reaches in their patterns. *)
Definition tracking (es0 : list (Element CoAPPath)) (l s : list Z) (es : list (Element CoAPPath)) (head : option Z) : Prop :=
  progressed es0 es l /\ head = firstOf (candidates es0 l s) None /\
  threaded (prevOf es) (candidates es0 l s) None /\
  forall i k, i ∈ l -> reachOf es0 s i = Some k -> exists p, valueOf es i = Some p /\ pathProgressCounter p = k.

Lemma reachFrom_bounds P s a k : 0 <= a <= zlength P -> reachFrom P a s = Some k -> 0 <= k <= zlength P.
Proof.
  revert a. induction s as [|c s IH]; intros a Ha; cbn; [intros [= ->]; lia|].
  destruct (advance P a c) as [k'|] eqn:E; [|done]. cbn. apply IH. apply advance_bounds in E; lia.
Qed.

Lemma reach_bounds P s k : reach P s = Some k -> 0 <= k <= zlength P.
Proof. apply reachFrom_bounds. pose proof (zlength_nonneg P). lia. Qed.

Lemma setProgress_pattern p k : pattern (setProgress p k) = pattern p.
Proof. done. Qed.

(** The candidates after one more character are the survivors. *)
Lemma candidates_first es c l :
  survivors es c true l = candidates es l [c].
Proof.
  unfold candidates. induction l as [|i l IH]; [done|]. rewrite survivors_cons, filter_cons, IH.
  assert (reachOf es [c] i = survives es c true i) as ->.
  { unfold reachOf, survives, reach. destruct (valueOf es i) as [p|]; [|done]. cbn. by destruct (advance _ 0 c). }
  destruct (survives es c true i); [by rewrite decide_True|by rewrite decide_False by by intros []].
Qed.

Lemma tracking_survives es0 l s es head i c :
  tracking es0 l s es head -> i ∈ candidates es0 l s -> survives es c false i = reachOf es0 (s ++ [c]) i.
Proof.
  intros ((_ & _ & _ & Hp) & _ & _ & Ht) [Hi Hl]%list_elem_of_filter. destruct Hi as [k Hk].
  destruct (Ht i k Hl Hk) as (q & Hq & <-). unfold reachOf in *.
  destruct (valueOf es0 i) as [p|] eqn:E; [|done]. cbn in *. destruct (Hp i p E) as [k' Hk']. rewrite Hq in Hk'.
  injection Hk' as ->. unfold survives. rewrite Hq. cbn. by rewrite reach_snoc, Hk.
Qed.

Lemma candidates_next es0 l s es head c :
  tracking es0 l s es head -> survivors es c false (candidates es0 l s) = candidates es0 l (s ++ [c]).
Proof.
  intros Ht. pose proof (fun i => tracking_survives es0 l s es head i c Ht) as Hs. revert Hs. unfold candidates. clear Ht.
  induction l as [|i l IH]; [done|]. rewrite !filter_cons. destruct (reachOf es0 s i) as [k|] eqn:E; cbn.
  - rewrite decide_True by done. intros Hs. rewrite survivors_cons, IH by (intros j Hj; apply Hs; by right).
    rewrite Hs by by left. destruct (reachOf es0 (s ++ [c]) i); [by rewrite decide_True|by rewrite decide_False by by intros []].
  - rewrite decide_False by by intros []. intros Hs. rewrite IH by done. rewrite decide_False; [done|].
    unfold reachOf in *. destruct (valueOf es0 i) as [p|]; cbn in *; [|by intros []]. rewrite reach_snoc, E. by intros [].
Qed.

Lemma trim_first es0 l c :
  usedPaths es0 l ->
  exists es head, trimListBasedOnNewCharacter es0 (firstOf l None) c true = Ok (es, head) /\ tracking es0 l [c] es head.
Proof.
  intros (Hnd & Hlen & Hth & Hok). unfold trimListBasedOnNewCharacter.
  destruct (trimLoop_ok (S MAX_NUM_COAP_PATHS) es0 c true [] l) as (es & E & Hp & Hk & Hv); [lia|done| |done|done|].
  { intros i Hi. destruct (Hok i Hi) as (p & Hv & Hpo). exists p. split; [done|]. split; [exact Hpo|]. split; [done|apply Hpo]. }
  cbn [app] in *. rewrite candidates_first in *. exists es, (firstOf (candidates es0 l [c]) None). split; [exact E|].
  split; [exact Hp|]. split; [done|]. split; [done|]. intros i k Hi Hr.
  destruct (Hv i k Hi) as (p & _ & Hv'); [|by exists (setProgress p k)].
  unfold reachOf, survives, reach in *. destruct (valueOf es0 i); [|done]. cbn in *. by destruct (advance _ 0 c).
Qed.

Lemma trim_next es0 l s es head c :
  usedPaths es0 l -> tracking es0 l s es head ->
  exists es' head', trimListBasedOnNewCharacter es head c false = Ok (es', head') /\ tracking es0 l (s ++ [c]) es' head'.
Proof.
  intros (Hnd & Hlen & Hth & Hok) Ht. pose proof Ht as (Hp0 & -> & Hk0 & Hv0). unfold trimListBasedOnNewCharacter.
  assert (Hsub : forall i, i ∈ candidates es0 l s -> i ∈ l) by by intros i [_ Hi]%list_elem_of_filter.
  destruct (trimLoop_ok (S MAX_NUM_COAP_PATHS) es c false [] (candidates es0 l s)) as (es' & E & Hp & Hk & Hv); [| | |done|done|].
  - unfold candidates. pose proof (length_filter (fun i => is_Some (reachOf es0 s i)) l). lia.
  - cbn. by apply NoDup_filter.
  - intros i Hi. destruct (Hok i (Hsub i Hi)) as (p & Hv & Hpo). apply list_elem_of_filter in Hi as [[k Hk] Hi].
    destruct (Hv0 i k Hi Hk) as (q & Hq & Hqk). destruct Hp0 as (_ & _ & _ & Hp0). destruct (Hp0 i p Hv) as [k' Hk'].
    rewrite Hq in Hk'. injection Hk' as ->. cbn in Hqk. subst k'. exists (setProgress p k). split; [done|].
    split; [exact Hpo|].
    unfold reachOf in Hk. rewrite Hv in Hk. apply reach_bounds in Hk. rewrite zlength_pattern in Hk by done. cbn. lia.
  - cbn [app] in *. rewrite (candidates_next es0 l s es (firstOf (candidates es0 l s) None)) in * by done.
    exists es', (firstOf (candidates es0 l (s ++ [c])) None). split; [exact E|].
    split; [eapply progressed_trans; [exact Hp0|by eapply progressed_sub]|]. split; [done|]. split; [done|].
    intros i k Hi Hr.
    assert (i ∈ candidates es0 l s) as Hc.
    { apply list_elem_of_filter. split; [|done]. unfold reachOf in *. destruct (valueOf es0 i); [|done]. cbn in *.
      rewrite reach_snoc in Hr. by destruct (reach _ s). }
    destruct (Hv i k Hc) as (p & _ & Hv'); [|by exists (setProgress p k)]. by erewrite tracking_survives.
Qed.

(** The calls the server makes for a path. *)
Fixpoint trimString (es : list (Element CoAPPath)) (head : option Z) (s : list Z) (isFirst : bool)
  : result (list (Element CoAPPath) * option Z) :=
  match s with
  | [] => Ok (es, head)
  | c :: s => r ← trimListBasedOnNewCharacter es head c isFirst; trimString (fst r) (snd r) s false
  end.

Lemma trimString_tracking es0 l s1 s2 es head :
  usedPaths es0 l -> tracking es0 l s1 es head ->
  exists es' head', trimString es head s2 false = Ok (es', head') /\ tracking es0 l (s1 ++ s2) es' head'.
Proof.
  intros Hu. revert s1 es head. induction s2 as [|c s2 IH]; intros s1 es head Ht; cbn [trimString].
  - exists es, head. by rewrite app_nil_r.
  - destruct (trim_next es0 l s1 es head c Hu Ht) as (es1 & h1 & -> & Ht1). cbn [mbind result_bind fst snd].
    destruct (IH _ _ _ Ht1) as (es2 & h2 & E & Ht2). exists es2, h2. by rewrite cons_middle, app_assoc.
Qed.

Lemma candidates_matches es0 l s i :
  0 ∉ s -> i ∈ candidates es0 l (s ++ [0]) <-> i ∈ l /\ exists p, valueOf es0 i = Some p /\ pathMatches (pattern p) s.
Proof.
  intros H0. unfold candidates. rewrite list_elem_of_filter. unfold reachOf. destruct (valueOf es0 i) as [p|]; cbn.
  - rewrite reach_matches by done. split; [intros []; eauto|]. by intros (? & q & [= <-] & ?).
  - split; [by intros [[] ?]|by intros (_ & q & ? & _)].
Qed.

(** C8: feeding the characters of a request path and its terminator to
    [trimListBasedOnNewCharacter], the first with [isFirstCharacter], leaves
    exactly the registered paths that match it according to the reference
    definition, in the order of registration, whatever their counters and
    second links were before. *)
Theorem trimList_matches es l c s :
  usedPaths es l -> 0 ∉ c :: s ->
  exists es' l', trimString es (firstOf l None) (c :: s ++ [0]) true = Ok (es', firstOf l' None) /\
    threaded (prevOf es') l' None /\ sublist l' l /\
    forall i, i ∈ l' <-> i ∈ l /\ exists p, valueOf es i = Some p /\ pathMatches (pattern p) (c :: s).
Proof.
  intros Hu H0. destruct (trim_first es l c Hu) as (es1 & h1 & E1 & Ht1).
  destruct (trimString_tracking es l [c] (s ++ [0]) es1 h1 Hu Ht1) as (es2 & h2 & E2 & _ & -> & Hth & _).
  exists es2, (candidates es l ([c] ++ s ++ [0])). cbn [trimString]. rewrite E1. split_and!; [done|done| |].
  - apply sublist_filter.
  - intros i. change ([c] ++ s ++ [0]) with ((c :: s) ++ [0]). by apply candidates_matches.
Qed.

(** The paths the operating system registers. *)
Definition samplePath (s : list Z) : CoAPPath := mkCoAPPath (s ++ replicate (100 - length s) 0) (zlength s) 77 1.
Definition tasksPath : list Z := [47; 116; 97; 115; 107; 115; 47; 94]. (* /tasks/^ *)
Definition statePath : list Z := tasksPath ++ [47; 115; 116; 97; 116; 101]. (* /tasks/^/state *)
Definition samplePaths : list (Element CoAPPath) :=
  [mkElement (samplePath tasksPath) None (Some 1); mkElement (samplePath statePath) (Some 0) (Some 1)].

Lemma samplePaths_used : usedPaths samplePaths [1; 0].
Proof.
  split; [by apply (bool_decide_unpack _)|]. split; [vm_compute; lia|]. split; [done|].
  intros i [->|[->|[]%not_elem_of_nil]%elem_of_cons]%elem_of_cons; eexists; (split; [reflexivity|]);
    (split; [by vm_compute|]); by vm_compute.
Qed.

Lemma trimList_matches_witness :
  usedPaths samplePaths [1; 0] /\
  exists es' l', trimString samplePaths (Some 1) (take 7 tasksPath ++ [53; 53] ++ [0]) true = Ok (es', firstOf l' None) /\
    threaded (prevOf es') l' None /\ sublist l' [1; 0] /\
    forall i, i ∈ l' <-> i ∈ [1; 0] /\ exists p, valueOf samplePaths i = Some p /\ pathMatches (pattern p) (take 7 tasksPath ++ [53; 53]).
Proof.
  split; [exact samplePaths_used|].
  apply (trimList_matches samplePaths [1; 0] 47 [116; 97; 115; 107; 115; 47; 53; 53]); [exact samplePaths_used|].
  by apply (bool_decide_unpack _).
Defined.
