(* ===== verification/CoapServerFacts.v ===== *)
(** The CoAP server's packet handler: the options of a request against a
    reference decoder ([decodeOptions]), the choice of the handler, the bytes
    of the response, and the invariant of the server. *)
From S2P Require Import Prelude Mem LinkedLists SocketManager SocketManagerFacts CoapServer CoapMatching.

(** ** The reference decoder of options *)

Definition fieldValue (nibble : Z) (l : list Z) : option (Z * list Z) :=
  if nibble =? 13 then match l with b :: l => Some (b + 13, l) | _ => None end
  else if nibble =? 14 then match l with b1 :: b2 :: l => Some (b1 * 256 + b2 + 269, l) | _ => None end
  else if nibble =? 15 then None
  else Some (nibble, l).

(** Option number, value and the rest of the packet. *)
Definition decodeOption (number b : Z) (l : list Z) : option (Z * list Z * list Z) :=
  '(delta, l) ← fieldValue (b / 16) l;
  '(len, l) ← fieldValue (b mod 16) l;
  if (65535 <? number + delta) || (zlength l <? len) then None
  else Some (number + delta, take (Z.to_nat len) l, drop (Z.to_nat len) l).

(** The options up to the end, a payload marker or a malformed option; [None]
    for a malformed option, else the rest. *)
Fixpoint decodeOptions (fuel : nat) (number : Z) (l : list Z) : list (Z * list Z) * option (list Z) :=
  match fuel, l with
  | S fuel, b :: t =>
      if b =? 0xFF then ([], Some l)
      else
        match decodeOption number b t with
        | None => ([], None)
        | Some (n, v, t) => let '(opts, rest) := decodeOptions fuel n t in ((n, v) :: opts, rest)
        end
  | O, _ :: _ => ([], None)
  | _, [] => ([], Some [])
  end.

(** What the options say: the path and the content format. *)
Fixpoint requestPath (opts : list (Z * list Z)) : list Z :=
  match opts with
  | [] => []
  | (n, v) :: opts => (if n =? 11 then SLASH :: v else []) ++ requestPath opts
  end.

Definition formatOf (f : ContentFormat) (o : Z * list Z) : option ContentFormat :=
  if fst o =? 12 then
    match snd o with [] => Some Text_Plain_Charset_UTF8 | [b] => contentFormatOf b | _ => None end
  else Some f.

Fixpoint requestFormat (f : ContentFormat) (opts : list (Z * list Z)) : option ContentFormat :=
  match opts with
  | [] => Some f
  | o :: opts => f ← formatOf f o; requestFormat f opts
  end.

(** ** Reading a packet *)

(** [l] is what follows offset [off] of the packet. *)
Definition suffixAt (payload : list Z) (off : Z) (l : list Z) : Prop :=
  0 <= off /\ drop (Z.to_nat off) payload = l /\ off + zlength l = zlength payload.

Lemma suffixAt_byte payload off b l : suffixAt payload off (b :: l) -> getByte payload off = Ok b.
Proof.
  intros (H0 & Hd & _). unfold getByte. rewrite (drop_znth payload off H0) in Hd. destruct (payload.[off]); by simplify_eq.
Qed.

Lemma suffixAt_tail payload off b l : suffixAt payload off (b :: l) -> suffixAt payload (off + 1) l.
Proof.
  intros (H0 & Hd & Hl). rewrite zlength_cons in Hl. split_and!; [lia| |lia].
  rewrite (drop_znth payload off H0) in Hd. destruct (payload.[off]); by simplify_eq.
Qed.

Lemma suffixAt_drop payload off l n :
  suffixAt payload off l -> 0 <= n <= zlength l -> suffixAt payload (off + n) (drop (Z.to_nat n) l).
Proof.
  intros (H0 & <- & Hl) Hn. split_and!; [lia| |rewrite zlength_drop; lia].
  rewrite drop_drop. f_equal. lia.
Qed.

Lemma suffixAt_nth payload off l i b : suffixAt payload off l -> l.[i] = Some b -> getByte payload (off + i) = Ok b.
Proof.
  intros (H0 & <- & Hl) Hi. pose proof (znth_Some_lt _ _ _ Hi). rewrite znth_drop in Hi by lia.
  unfold getByte. by rewrite Hi.
Qed.

Lemma suffixAt_Forall (P : Z -> Prop) payload off l : suffixAt payload off l -> Forall P payload -> Forall P l.
Proof. intros (_ & <- & _). apply Forall_drop. Qed.

Lemma byte_nibbles b :
  is_u8 b -> Z.shiftr (Z.land b 0xF0) 4 = b / 16 /\ Z.land b 0xF = b mod 16 /\ 0 <= b / 16 < 16 /\ 0 <= b mod 16 < 16.
Proof.
  intros Hb. unfold is_u8 in Hb. split_and!; try dlia.
  - rewrite Z.shiftr_land, Z.shiftr_div_pow2 by lia. change (Z.shiftr 0xF0 4) with (Z.ones 4).
    rewrite Z.land_ones by lia. apply Z.mod_small. change (2 ^ 4) with 16. dlia.
  - by change 0xF with (Z.ones 4) at 1; rewrite Z.land_ones by lia.
Qed.

(** An extended field, read from the packet and from the rest of the packet. *)
Lemma extendedValue_ok payload off l nibble :
  suffixAt payload (off + 1) l -> 0 <= nibble < 16 -> Forall is_u8 payload ->
  match extendedBytes nibble, fieldValue nibble l with
  | Some n, Some (v, l') =>
      extendedValue payload off nibble = Ok (v, off + n) /\ suffixAt payload (off + 1 + n) l' /\ 0 <= n /\ 0 <= v
  | Some n, None => zlength l < n
  | None, r => r = None
  end.
Proof.
  intros Hs Hn Hu. unfold extendedBytes, extendedValue, fieldValue.
  destruct (Z.eqb_spec nibble 13); [|destruct (Z.eqb_spec nibble 14); [|destruct (Z.eqb_spec nibble 15)]].
  - destruct l as [|b l]; [done|]. rewrite (suffixAt_byte _ _ _ _ Hs). cbn.
    pose proof (suffixAt_Forall _ _ _ _ Hs Hu) as Hul. apply Forall_cons in Hul as [Hb _]. unfold is_u8 in Hb.
    split_and!; [done|by apply suffixAt_tail in Hs|lia|lia].
  - destruct l as [|b1 [|b2 l]]; [done|unfold zlength; cbn; lia|]. rewrite (suffixAt_byte _ _ _ _ Hs). cbn.
    pose proof (suffixAt_Forall _ _ _ _ Hs Hu) as Hul. apply Forall_cons in Hul as [Hb1 Hul].
    apply Forall_cons in Hul as [Hb2 _]. unfold is_u8 in *.
    apply suffixAt_tail in Hs. replace (off + 2) with (off + 1 + 1) by lia. rewrite (suffixAt_byte _ _ _ _ Hs). cbn.
    rewrite Z.shiftl_mul_pow2 by lia. apply suffixAt_tail in Hs.
    split_and!; [done|by replace (off + 1 + 2) with (off + 1 + 1 + 1) by lia|lia|change (2 ^ 8) with 256; lia].
  - done.
  - split_and!; [by rewrite Z.add_0_r|by rewrite Z.add_0_r|lia|lia].
Qed.

(** ** The effect of one option *)

(** What is left of [parseOption] after the header of the option. *)
Definition optionEffect (udpPayload : list Z) (number optionLength : Z) (st : OptionState) : result Parsed :=
  r ← (if (number =? 11) && bool_decide (is_Some (possibleValidPathsHead st))
       then st ← uriPathOption udpPayload optionLength st; Ok (Some st)
       else if number =? 12 then contentFormatOption udpPayload optionLength st
       else Ok (Some st));
  match r with
  | None => Ok (Dropped (optionElements st))
  | Some st =>
      Ok (Going (mkOptionState (optionElements st) (path st) (pathSizeSoFar st) (possibleValidPathsHead st)
                   (contentFormat st) (currentOptionOffset st + optionLength) (currentOptionNumber st)))
  end.

Definition atOption (st : OptionState) (off number : Z) : OptionState :=
  mkOptionState (optionElements st) (path st) (pathSizeSoFar st) (possibleValidPathsHead st) (contentFormat st) off number.

Lemma parseOption_ok payload st b t :
  suffixAt payload (currentOptionOffset st) (b :: t) -> Forall is_u8 payload ->
  match decodeOption (currentOptionNumber st) b t with
  | None => parseOption (zlength payload) payload st = Ok (Dropped (optionElements st))
  | Some (n, v, t') => exists off,
      suffixAt payload off (v ++ t') /\
      parseOption (zlength payload) payload st = optionEffect payload n (zlength v) (atOption st off n)
  end.
Proof.
  intros Hs Hu. unfold parseOption. rewrite (suffixAt_byte _ _ _ _ Hs). cbn [mbind result_bind].
  pose proof (suffixAt_Forall _ _ _ _ Hs Hu) as Hub. apply Forall_cons in Hub as [Hb _].
  destruct (byte_nibbles b Hb) as (-> & -> & Hd & Hl). unfold decodeOption.
  pose proof Hs as (_ & _ & Hsz). rewrite zlength_cons in Hsz.
  apply suffixAt_tail in Hs. pose proof (extendedValue_ok _ _ _ _ Hs Hd Hu) as H1. unfold mbind, option_bind.
  destruct (extendedBytes (b / 16)) as [n1|]; [|by rewrite H1].
  destruct (fieldValue (b / 16) t) as [[delta t1]|].
  2: { destruct (extendedBytes (b mod 16)) as [n2|] eqn:E2; [|done].
       assert (0 <= n2) by (revert E2; unfold extendedBytes; repeat case_match; intros [= <-]; lia).
       by rewrite (proj2 (Z.leb_le _ _)) by lia. }
  destruct H1 as (H1 & Hs1 & Hn1 & Hdelta). pose proof Hs1 as (_ & _ & Hsz1).
  replace (currentOptionOffset st + 1 + n1) with (currentOptionOffset st + n1 + 1) in Hs1 by lia.
  pose proof (extendedValue_ok _ _ _ _ Hs1 Hl Hu) as H2.
  destruct (extendedBytes (b mod 16)) as [n2|]; [|by rewrite H2].
  destruct (fieldValue (b mod 16) t1) as [[len t2]|]; [|by rewrite (proj2 (Z.leb_le _ _)) by lia].
  destruct H2 as (H2 & Hs2 & Hn2 & Hlen). pose proof Hs2 as (_ & _ & Hsz2). pose proof (zlength_nonneg t2).
  rewrite (proj2 (Z.leb_gt _ _)) by lia. rewrite H1. cbn [result_bind]. rewrite H2. cbn [result_bind].
  destruct (65535 <? currentOptionNumber st + delta); cbn [orb]; [done|].
  replace (zlength payload <? currentOptionOffset st + n1 + n2 + 1 + len) with (zlength t2 <? len)
    by (destruct (Z.ltb_spec (zlength t2) len), (Z.ltb_spec (zlength payload) (currentOptionOffset st + n1 + n2 + 1 + len)); lia).
  destruct (Z.ltb_spec (zlength t2) len); [done|]. exists (currentOptionOffset st + n1 + n2 + 1). split.
  - rewrite take_drop. by replace (currentOptionOffset st + n1 + n2 + 1) with (currentOptionOffset st + n1 + 1 + n2) by lia.
  - rewrite zlength_take by lia. unfold optionEffect. by cbn.
Qed.

(** ** The path so far *)

Section request.
Context (es0 : list (Element CoAPPath)) (l : list Z) (payload : list Z).
Hypothesis used : usedPaths es0 l.
Hypothesis bytes : Forall is_u8 payload.

(** The path options so far said [s]: if paths are left, the array holds [s]. *)
Definition pathInv (s : list Z) (st : OptionState) : Prop :=
  zlength (path st) = MAX_COAP_PATH_SIZE + 1 /\ 0 <= pathSizeSoFar st <= zlength s /\
  (if bool_decide (s = []) then optionElements st = es0 /\ possibleValidPathsHead st = firstOf l None
   else tracking es0 l s (optionElements st) (possibleValidPathsHead st)) /\
  (possibleValidPathsHead st <> None -> pathSizeSoFar st = zlength s /\ take (length s) (path st) = s).

Lemma putChar_ok (a : list Z) i c :
  0 <= i < zlength a ->
  exists a', putChar a i c = Ok a' /\ zlength a' = zlength a /\
    forall s, zlength s = i -> take (length s) a = s -> take (length (s ++ [c])) a' = s ++ [c].
Proof.
  intros Hi. exists a.[i := c]. split_and!.
  - unfold putChar. by rewrite (proj2 (Z.leb_le 0 i)), (proj2 (Z.ltb_lt i _)) by lia.
  - apply zlength_zset.
  - intros s Hs Ha. unfold zlength in *. unfold zset. rewrite (proj2 (Z.leb_le 0 i)) by lia.
    subst i. rewrite Nat2Z.id, length_app. cbn. rewrite Nat.add_1_r.
    erewrite take_S_r; [|apply list_lookup_insert_eq; lia]. by rewrite take_insert_ge, Ha by lia.
Qed.

Lemma tracking_dead s s' es :
  tracking es0 l s es None -> tracking es0 l (s ++ s') es None.
Proof.
  intros (Hp & Hh & Hth & Hv).
  assert (Hc : candidates es0 l s = []) by (by destruct (candidates es0 l s)).
  assert (Hn : forall i, i ∈ l -> reachOf es0 (s ++ s') i = None).
  { intros i Hi. destruct (reachOf es0 s i) as [k|] eqn:E.
    - assert (i ∈ candidates es0 l s) as Hin by by (apply list_elem_of_filter; rewrite E). rewrite Hc in Hin.
      by apply not_elem_of_nil in Hin.
    - unfold reachOf in *. destruct (valueOf es0 i); [|done]. cbn in *. unfold reach in *. rewrite reachFrom_app.
      by destruct (reachFrom _ 0 s). }
  assert (Hc' : candidates es0 l (s ++ s') = []).
  { destruct (candidates es0 l (s ++ s')) as [|i c] eqn:E; [done|].
    assert (i ∈ candidates es0 l (s ++ s')) as Hin by (rewrite E; by left).
    apply list_elem_of_filter in Hin as [Hr Hi]. rewrite Hn in Hr by done. by destruct Hr. }
  split; [done|]. rewrite Hc'. split_and!; try done.
  intros i k Hi Hr. by rewrite Hn in Hr.
Qed.

(** A character of the path. *)
Lemma matchSegment_ok v s st i :
  suffixAt payload (currentOptionOffset st + i) (v ++ drop (Z.to_nat (currentOptionOffset st + i + zlength v)) payload) ->
  0 <= i -> s <> [] ->
  zlength (path st) = MAX_COAP_PATH_SIZE + 1 -> zlength s + zlength v <= MAX_COAP_PATH_SIZE ->
  zlength s = pathSizeSoFar st + 1 + i ->
  tracking es0 l s (optionElements st) (possibleValidPathsHead st) ->
  (possibleValidPathsHead st <> None -> take (length s) (path st) = s) ->
  exists st', matchSegment (length v) i payload st = Ok st' /\
    zlength (path st') = MAX_COAP_PATH_SIZE + 1 /\
    tracking es0 l (s ++ v) (optionElements st') (possibleValidPathsHead st') /\
    (possibleValidPathsHead st' <> None -> take (length (s ++ v)) (path st') = s ++ v) /\
    pathSizeSoFar st' = pathSizeSoFar st /\ contentFormat st' = contentFormat st /\
    currentOptionOffset st' = currentOptionOffset st /\ currentOptionNumber st' = currentOptionNumber st.
Proof.
  revert s st i. induction v as [|c v IH]; intros s st i Hs Hi Hne Hlen Hle Hsz Ht Htake.
  { exists st. rewrite app_nil_r. by split_and!. }
  rewrite zlength_cons in *. pose proof (zlength_nonneg v). pose proof (zlength_nonneg s). cbn [length matchSegment].
  destruct (possibleValidPathsHead st) as [h|] eqn:Eh.
  2: { exists st. rewrite Eh. split_and!; try done. by apply tracking_dead. }
  cbn [app] in Hs. rewrite (suffixAt_byte _ _ _ _ Hs). cbn [mbind result_bind].
  destruct (putChar_ok (path st) (pathSizeSoFar st + 1 + i) c) as (path' & -> & Hlen' & Htk); [lia|]. cbn [mbind result_bind].
  destruct (trim_next es0 l s (optionElements st) (Some h) c used Ht) as (es' & h' & -> & Ht'). cbn [mbind result_bind fst snd].
  apply suffixAt_tail in Hs.
  destruct (IH (s ++ [c]) (mkOptionState es' path' (pathSizeSoFar st) h' (contentFormat st) (currentOptionOffset st)
                (currentOptionNumber st)) (i + 1)) as (st' & -> & Hres); cbn; try done; try lia.
  - by replace (currentOptionOffset st + (i + 1) + zlength v) with (currentOptionOffset st + i + (zlength v + 1)) by lia;
      replace (currentOptionOffset st + (i + 1)) with (currentOptionOffset st + i + 1) by lia.
  - by destruct s.
  - rewrite zlength_app, zlength_cons, zlength_nil. lia.
  - rewrite zlength_app, zlength_cons, zlength_nil. lia.
  - intros Hh. by apply Htk; [lia|apply Htake].
  - exists st'. split; [done|]. by rewrite <- app_assoc in Hres.
Qed.

Lemma uriPathOption_ok v rest s st :
  suffixAt payload (currentOptionOffset st) (v ++ rest) -> pathInv s st -> possibleValidPathsHead st <> None ->
  zlength s + (1 + zlength v) <= MAX_COAP_PATH_SIZE ->
  exists st', uriPathOption payload (zlength v) st = Ok st' /\ pathInv (s ++ SLASH :: v) st' /\
    contentFormat st' = contentFormat st /\ currentOptionOffset st' = currentOptionOffset st /\
    currentOptionNumber st' = currentOptionNumber st.
Proof.
  intros Hs (Hlen & Hsz & Hinv & Hhead) Hh Hle. destruct (Hhead Hh) as [Hps Htake].
  pose proof (zlength_nonneg s). pose proof (zlength_nonneg v). unfold uriPathOption.
  rewrite (proj2 (Z.ltb_ge _ _)) by lia.
  destruct (putChar_ok (path st) (pathSizeSoFar st) SLASH) as (path' & -> & Hlen' & Htk); [lia|]. cbn [mbind result_bind].
  assert (exists es' h', trimListBasedOnNewCharacter (optionElements st) (possibleValidPathsHead st) SLASH (pathSizeSoFar st =? 0)
      = Ok (es', h') /\ tracking es0 l (s ++ [SLASH]) es' h') as (es' & h' & -> & Ht).
  { rewrite Hps. case_bool_decide as Es.
    - destruct Hinv as [-> ->]. subst s. by apply (trim_first es0 l SLASH).
    - destruct (Z.eqb_spec (zlength s) 0); [by destruct s|]. by apply (trim_next es0 l s). }
  cbn [mbind result_bind fst snd].
  match goal with |- context [matchSegment _ 0 payload ?st1] => set (st1' := st1) end.
  destruct (matchSegment_ok v (s ++ [SLASH]) st1' 0) as (st2 & E & Hlen2 & Ht2 & Htake2 & Hp2 & Hf2 & Ho2 & Hn2); cbn; try done.
  - rewrite Z.add_0_r. destruct Hs as (H1 & H2 & H3). split_and!; [done| |].
    + rewrite H2. f_equal. rewrite zlength_app in H3. replace (Z.to_nat (currentOptionOffset st + zlength v))
        with (Z.to_nat (currentOptionOffset st) + length v)%nat by (unfold zlength; lia).
      by rewrite <- drop_drop, H2, drop_app_length.
    + rewrite zlength_app, zlength_drop by (rewrite zlength_app in H3; pose proof (zlength_nonneg rest); lia). lia.
  - by destruct s.
  - by rewrite Hlen'.
  - rewrite zlength_app, zlength_cons, zlength_nil. lia.
  - rewrite zlength_app, zlength_cons, zlength_nil. lia.
  - intros _. by apply Htk.
  - replace (Z.to_nat (zlength v)) with (length v) by (unfold zlength; lia). rewrite E. cbn [mbind result_bind].
    eexists. split; [reflexivity|]. cbn. rewrite <- app_assoc in *. cbn [app] in *.
    assert (zlength (s ++ SLASH :: v) = zlength s + (1 + zlength v)) as Hzl by (rewrite zlength_app, zlength_cons; lia).
    cbn in Hp2. split; [|done]. split; [done|]. split; [cbn; rewrite Hp2; lia|]. cbn. split.
    + by rewrite bool_decide_false by by destruct s.
    + intros Hh2. split; [rewrite Hp2; lia|by apply Htake2].
Qed.

Lemma pathInv_dead s s' st : pathInv s st -> possibleValidPathsHead st = None -> pathInv (s ++ s') st.
Proof.
  intros (Hlen & Hsz & Hinv & Hhead) Hn. pose proof (zlength_nonneg s').
  split; [done|]. split; [rewrite zlength_app; lia|]. split; [|by rewrite Hn].
  case_bool_decide as Es.
  - destruct Hinv as [He Hl]. case_bool_decide as Es'; [done|]. subst s. rewrite Hn in *.
    assert (l = []) as El by (by destruct l). rewrite He. split; [apply progressed_refl|].
    unfold candidates. rewrite El. split_and!; try done. by intros i k ?%not_elem_of_nil.
  - rewrite bool_decide_false by by destruct s. rewrite Hn in *. by apply tracking_dead.
Qed.

Lemma pathInv_eq s st st' :
  optionElements st' = optionElements st -> path st' = path st -> pathSizeSoFar st' = pathSizeSoFar st ->
  possibleValidPathsHead st' = possibleValidPathsHead st -> pathInv s st -> pathInv s st'.
Proof. unfold pathInv. by intros -> -> -> ->. Qed.
Lemma pathInv_progressed s st : pathInv s st -> progressed es0 (optionElements st) l.
Proof.
  intros (_ & _ & Hinv & _). case_bool_decide; [destruct Hinv as [-> _]; apply progressed_refl|apply Hinv].
Qed.

(** ** The loop over the options *)

Lemma optionEffect_ok v t s st n :
  suffixAt payload (currentOptionOffset st) (v ++ t) -> pathInv s st ->
  zlength (s ++ requestPath [(n, v)]) <= MAX_COAP_PATH_SIZE ->
  match formatOf (contentFormat st) (n, v) with
  | Some f => exists st', optionEffect payload n (zlength v) st = Ok (Going st') /\
      pathInv (s ++ requestPath [(n, v)]) st' /\ contentFormat st' = f /\
      currentOptionOffset st' = currentOptionOffset st + zlength v /\ currentOptionNumber st' = currentOptionNumber st
  | None => optionEffect payload n (zlength v) st = Ok (Dropped (optionElements st))
  end.
Proof.
  intros Hs Hinv Hle. unfold optionEffect, formatOf, requestPath in *. cbn [fst snd] in *. rewrite app_nil_r in *.
  destruct (Z.eqb_spec n 11) as [->|H11]; cbn [andb Z.eqb Pos.eqb] in *.
  - case_bool_decide as Eh.
    + destruct (uriPathOption_ok v t s st Hs Hinv) as (st' & -> & Hinv' & Hf & Ho & Hn).
      { by apply not_eq_None_Some. }
      { rewrite zlength_app, zlength_cons in Hle. lia. }
      cbn. eexists. split; [done|]. split; [by eapply pathInv_eq; [..|exact Hinv']|]. cbn. by rewrite Ho.
    + cbn. eexists. split; [done|]. split; [|done]. eapply pathInv_eq; [..|apply pathInv_dead; [exact Hinv|]]; try done.
      apply eq_None_not_Some, Eh.
  - rewrite app_nil_r. destruct (Z.eqb_spec n 12) as [->|H12]; cbn.
    + unfold contentFormatOption. destruct v as [|b [|b' v]].
      * cbn. eexists. split; [done|]. split; [by eapply pathInv_eq; [..|exact Hinv]|done].
      * cbn. rewrite (suffixAt_byte _ _ _ _ Hs). cbn. destruct (contentFormatOf b); cbn; [|done].
        eexists. split; [done|]. split; [by eapply pathInv_eq; [..|exact Hinv]|done].
      * rewrite !zlength_cons. pose proof (zlength_nonneg v).
        rewrite (proj2 (Z.eqb_neq (zlength v + 1 + 1) 0)), (proj2 (Z.eqb_neq (zlength v + 1 + 1) 1)) by lia. done.
    + eexists. split; [done|]. split; [by eapply pathInv_eq; [..|exact Hinv]|done].
Qed.

Lemma fieldValue_shorter nibble m v m' : fieldValue nibble m = Some (v, m') -> (length m' <= length m)%nat.
Proof.
  unfold fieldValue. repeat case_match; intros; simplify_eq; cbn; lia.
Qed.

Lemma decodeOption_shorter number b t n v t' : decodeOption number b t = Some (n, v, t') -> (length t' <= length t)%nat.
Proof.
  unfold decodeOption. destruct (fieldValue (b / 16) t) as [[d t1]|] eqn:E1; [|done]. cbn.
  destruct (fieldValue (b mod 16) t1) as [[len t2]|] eqn:E2; [|done]. cbn.
  destruct (_ || _); [done|]. intros. simplify_eq. apply fieldValue_shorter in E1, E2. rewrite length_drop. lia.
Qed.

Lemma parseOptions_ok fuel t s st opts rest :
  suffixAt payload (currentOptionOffset st) t -> (length t <= fuel)%nat -> pathInv s st ->
  decodeOptions fuel (currentOptionNumber st) t = (opts, rest) ->
  zlength (s ++ requestPath opts) <= MAX_COAP_PATH_SIZE ->
  match rest, requestFormat (contentFormat st) opts with
  | Some r, Some f => exists st', parseOptions (S fuel) (zlength payload) payload st = Ok (Going st') /\
      pathInv (s ++ requestPath opts) st' /\ contentFormat st' = f /\ suffixAt payload (currentOptionOffset st') r
  | _, _ => exists es, parseOptions (S fuel) (zlength payload) payload st = Ok (Dropped es) /\ progressed es0 es l
  end.
Proof.
  revert fuel s st opts rest. intros fuel. revert t. induction fuel as [|fuel IH]; intros t s st opts rest Hs Hlen Hinv Hd Hle.
  { destruct t; [|cbn in Hlen; lia]. cbn in Hd. simplify_eq. cbn. exists st. cbn in Hle. rewrite app_nil_r in *.
    pose proof Hs as (_ & _ & Hz). rewrite zlength_nil in Hz. rewrite (proj2 (Z.ltb_ge _ _)) by lia. by split_and!. }
  cbn [parseOptions]. destruct t as [|b t]; cbn [decodeOptions] in Hd.
  { simplify_eq. cbn. exists st. cbn in Hle. rewrite app_nil_r in *. pose proof Hs as (_ & _ & Hz). rewrite zlength_nil in Hz.
    rewrite (proj2 (Z.ltb_ge _ _)) by lia. by split_and!. }
  pose proof Hs as (_ & _ & Hz). rewrite zlength_cons in Hz. pose proof (zlength_nonneg t).
  rewrite (proj2 (Z.ltb_lt _ _)) by lia. rewrite (suffixAt_byte _ _ _ _ Hs). cbn [mbind result_bind].
  destruct (Z.eqb_spec b 0xFF) as [->|Hb].
  { simplify_eq. cbn in *. exists st. rewrite app_nil_r in *. by split_and!. }
  pose proof (parseOption_ok payload st b t Hs bytes) as Hpo.
  destruct (decodeOption (currentOptionNumber st) b t) as [[[n v] t']|] eqn:Ed.
  2: { simplify_eq. rewrite Hpo. cbn. exists (optionElements st). split; [done|by eapply pathInv_progressed]. }
  destruct Hpo as (off & Hs' & ->). destruct (decodeOptions fuel n t') as [opts' rest'] eqn:Ed'. simplify_eq.
  assert (Hpath : requestPath ((n, v) :: opts') = requestPath [(n, v)] ++ requestPath opts') by (cbn; by rewrite app_nil_r).
  rewrite Hpath, app_assoc in Hle. pose proof (zlength_nonneg (requestPath opts')).
  pose proof (optionEffect_ok v t' s (atOption st off n) n Hs') as He. cbn [requestFormat].
  change (contentFormat (atOption st off n)) with (contentFormat st) in He.
  destruct (formatOf (contentFormat st) (n, v)) as [f|] eqn:Ef; cbn [mbind option_bind].
  - destruct He as (st' & -> & Hinv' & <- & Ho' & Hn'); [by eapply pathInv_eq; [..|exact Hinv]|rewrite zlength_app in Hle; lia|].
    cbn [mbind result_bind]. rewrite Hpath, app_assoc. cbn in Hn'. rewrite <- Hn' in Ed'.
    apply (IH t' _ st'); [|apply decodeOption_shorter in Ed; cbn in Hlen; lia|done|done|done].
    rewrite Ho'. cbn. replace t' with (drop (Z.to_nat (zlength v)) (v ++ t')) at 1.
    + apply suffixAt_drop; [done|]. rewrite zlength_app. pose proof (zlength_nonneg v). pose proof (zlength_nonneg t'). lia.
    + unfold zlength. by rewrite Nat2Z.id, drop_app_length.
  - rewrite He; [|by eapply pathInv_eq; [..|exact Hinv]|rewrite zlength_app in Hle; lia]. cbn.
    assert (exists es, Ok (Dropped (optionElements st)) = Ok (Dropped es) /\ progressed es0 es l) by
      (eexists; split; [done|by eapply pathInv_progressed]). by destruct rest.
Qed.

(** ** Paths that are too long *)

















(** ** The whole path *)

Definition wholePath (s : list Z) : list Z := if bool_decide (s = []) then [SLASH] else s.

Lemma wholePath_ne s : wholePath s <> [].
Proof. unfold wholePath. by case_bool_decide. Qed.

Lemma terminatePath_ok s st :
  pathInv s st -> zlength s <= MAX_COAP_PATH_SIZE ->
  exists st', terminatePath st = Ok st' /\ contentFormat st' = contentFormat st /\
    currentOptionOffset st' = currentOptionOffset st /\ zlength (path st') = MAX_COAP_PATH_SIZE + 1 /\
    tracking es0 l (wholePath s ++ [0]) (optionElements st') (possibleValidPathsHead st') /\
    (possibleValidPathsHead st' <> None ->
     take (length (wholePath s ++ [0])) (path st') = wholePath s ++ [0]).
Proof.
  intros Hinv Hle.
  assert (exists st1, (if pathSizeSoFar st =? 0 then
          path ← putChar (path st) 0 SLASH;
          r ← trimListBasedOnNewCharacter (optionElements st) (possibleValidPathsHead st) SLASH true;
          Ok (mkOptionState (fst r) path 1 (snd r) (contentFormat st) (currentOptionOffset st) (currentOptionNumber st))
        else Ok st) = Ok st1 /\ pathInv (wholePath s) st1 /\ contentFormat st1 = contentFormat st /\
        currentOptionOffset st1 = currentOptionOffset st) as (st1 & E & Hinv1 & Hf1 & Ho1).
  { unfold wholePath. pose proof Hinv as (Hlen & Hsz & Hi & Hh). pose proof (eq_refl : MAX_COAP_PATH_SIZE = 100) as HM.
    destruct (Z.eqb_spec (pathSizeSoFar st) 0) as [E0|E0].
    - destruct (putChar_ok (path st) 0 SLASH) as (path' & -> & Hlen' & Htk); [lia|]. cbn [mbind result_bind].
      case_bool_decide as Es.
      + subst s. destruct Hi as [-> ->]. destruct (trim_first es0 l SLASH used) as (es & h & -> & Ht). cbn [mbind result_bind fst snd].
        eexists. split; [done|]. split; [|done]. split; [cbn; lia|]. split; [cbn; unfold zlength; cbn; lia|]. split; [done|].
        intros _. split; [done|]. by apply (Htk []).
      + destruct (possibleValidPathsHead st) as [h|] eqn:Eh.
        { destruct Hh as [Hh _]; [done|]. destruct s as [|c s]; [done|]. rewrite zlength_cons in Hh. pose proof (zlength_nonneg s). lia. }
        eexists. split; [reflexivity|]. split; [|done]. split; [cbn; lia|]. split; [|by rewrite bool_decide_false].
        destruct s; [done|]. cbn. rewrite zlength_cons. pose proof (zlength_nonneg s). lia.
    - eexists. split; [done|]. split; [|done]. case_bool_decide as Es; [subst s; change (zlength (@nil Z)) with 0 in Hsz; lia|done]. }
  unfold terminatePath. rewrite E. cbn [mbind result_bind].
  assert (Hle1 : zlength (wholePath s) <= MAX_COAP_PATH_SIZE) by (unfold wholePath; case_bool_decide; [change (1 <= 100); lia|done]).
  pose proof (eq_refl : MAX_COAP_PATH_SIZE = 100) as HM. destruct Hinv1 as (Hlen & Hsz & Hi & Hh).
  destruct (putChar_ok (path st1) (pathSizeSoFar st1) 0) as (path' & -> & Hlen' & Htk); [lia|]. cbn [mbind result_bind].
  pose proof (wholePath_ne s) as Hne.
  rewrite bool_decide_false in Hi by done. destruct (trim_next es0 l _ _ _ 0 used Hi) as (es & h & Et & Ht).
  rewrite Et. cbn. eexists. split; [done|]. cbn. rewrite Hf1, Ho1, Hlen'. split_and!; try done; try apply Ht.
  intros Hn. destruct (possibleValidPathsHead st1) as [h1|] eqn:Eh.
  - destruct Hh as [Hp Htake]; [done|]. by apply Htk.
  - pose proof (tracking_dead _ [0] _ Hi) as (_ & Hd & _). destruct Ht as (_ & -> & _). by rewrite <- Hd in Hn.
Qed.
End request.

(** ** The bytes of a response *)

Definition holds (b : Mem) (a : Z) (bs : list Z) : Prop := loadBytes b a (length bs) = bs.

Lemma holds_stored b a bs : holds (storeBytes b a bs) a bs.
Proof. apply loadBytes_storeBytes. Qed.

Lemma holds_other b a bs a' bs' :
  a + zlength bs <= a' \/ a' + zlength bs' <= a -> holds b a bs -> holds (storeBytes b a' bs') a bs.
Proof.
  intros Hd Hb. unfold holds in *. rewrite <- Hb at 2. apply loadBytes_ext. intros x Hx.
  apply storeBytes_out. unfold zlength in *. lia.
Qed.

Lemma holds_app b a bs1 bs2 : holds b a bs1 -> holds b (a + zlength bs1) bs2 -> holds b a (bs1 ++ bs2).
Proof. unfold holds, zlength. intros H1 H2. rewrite length_app, loadBytes_app. by rewrite H1, H2. Qed.

Lemma holds_app_inv b a bs1 bs2 : holds b a (bs1 ++ bs2) -> holds b a bs1 /\ holds b (a + zlength bs1) bs2.
Proof.
  unfold holds, zlength. rewrite length_app, loadBytes_app. intros E.
  apply app_inj_1 in E; [done|apply length_loadBytes].
Qed.

Lemma putBytes_ok b i bs : 0 <= i -> i + zlength bs <= WRITE_BUFFER_SIZE -> putBytes b i bs = Ok (storeBytes b i bs).
Proof. intros H1 H2. unfold putBytes. by rewrite (proj2 (Z.leb_le _ _) H1), (proj2 (Z.leb_le _ _) H2). Qed.

Lemma holds_nth b a x : holds b a [x] -> b a = x.
Proof. unfold holds. cbn. by intros [= ?]. Qed.

(** Discharges the bounds of a store and the disjointness of two blocks. *)
Ltac blocks :=
  rewrite ?zlength_app, ?zlength_cons, ?zlength_app, ?zlength_replicate, ?zlength_le32, ?zlength_le16 in *;
  change (zlength (@nil Z)) with 0 in *; lia.

Lemma responseHeaderSize_eq n : responseHeaderSize n = 20 + n.
Proof. done. Qed.

Definition firstCoapByte (requiresAck : bool) (tokenLength : Z) : Z := 0x40 + tokenLength + (if requiresAck then 0x20 else 0x10).

Lemma writeResponseHeader_ok b at_ ip port (ack : bool) id0 id1 token :
  0 <= at_ -> zlength token <= 8 -> at_ + responseHeaderSize (zlength token) <= WRITE_BUFFER_SIZE ->
  exists b', writeResponseHeader b at_ ip port ack id0 id1 token = Ok b' /\
    holds b' at_ (le32 ip ++ le16 port) /\
    holds b' (at_ + 8) (replicate 8 0 ++ [firstCoapByte ack (zlength token)]) /\
    holds b' (at_ + 18) ([id0; id1] ++ token).
Proof.
  intros H0 Ht Hle. pose proof (zlength_nonneg token) as Htn. rewrite responseHeaderSize_eq in Hle.
  unfold writeResponseHeader. change SEND_BUFFER_HEADER_SIZE with 8. change UDP_HEADER_SIZE with 8.
  rewrite putBytes_ok by blocks. cbn [mbind result_bind]. rewrite putBytes_ok by blocks. cbn [mbind result_bind].
  rewrite putBytes_ok by blocks. cbn [mbind result_bind]. rewrite putBytes_ok by blocks. cbn [mbind result_bind].
  rewrite putBytes_ok by blocks. cbn [mbind result_bind]. rewrite putBytes_ok by blocks.
  rewrite (holds_nth _ _ _ (holds_stored _ _ [_])).
  assert (u8 (u8 (0x40 + zlength token) + (if ack then 0x20 else 0x10)) = firstCoapByte ack (zlength token)) as ->.
  { unfold firstCoapByte, u8. rewrite (Z.mod_small (0x40 + zlength token)) by lia. destruct ack; rewrite Z.mod_small; lia. }
  eexists. split; [done|]. split_and!.
  - do 5 (apply holds_other; [blocks|]). apply holds_stored.
  - apply holds_app; do 2 (apply holds_other; [blocks|]).
    + do 2 (apply holds_other; [blocks|]). apply holds_stored.
    + replace (at_ + 8 + zlength (replicate 8 0)) with (at_ + 8 + 8) by blocks. apply holds_stored.
  - apply holds_app.
    + replace (at_ + 18) with (at_ + 8 + 8 + 2) by lia. apply holds_other; [blocks|]. apply holds_stored.
    + replace (at_ + 18 + zlength [id0; id1]) with (at_ + 8 + 8 + 4) by blocks. apply holds_stored.
Qed.

(** What follows the token of a response. *)
Definition responseBody (response : CoAPResponse) (bytes : list Z) : list Z :=
  if 0 <? responseSize response then [0xC1; contentFormatIdentifier (responseFormat response); 0xFF] ++ bytes else [].

(** The packet as the kernel expects it in a send buffer. *)
Definition encodeResponse (ip port : Z) (ack : bool) (id0 id1 : Z) (token : list Z) (response : CoAPResponse) (bytes : list Z) : list Z :=
  let body := responseBody response bytes in
  le32 ip ++ le16 port ++ le16 (12 + zlength token + zlength body) ++ replicate 8 0 ++
  [firstCoapByte ack (zlength token); responseCode response; id0; id1] ++ token ++ body.

Lemma writeResponse_ok b at_ tokenLength response :
  0 <= at_ -> 0 <= tokenLength <= 8 -> 0 <= responseSize response ->
  at_ + responseHeaderSize tokenLength + (if 0 <? responseSize response then 3 + RESPONSE_BUFFER_SIZE else 0) <= WRITE_BUFFER_SIZE ->
  exists b' packetSize, writeResponse b at_ tokenLength response = Ok (b', packetSize) /\
    0 <= packetSize /\ at_ + 8 + packetSize <= WRITE_BUFFER_SIZE.
Proof.
  intros H0 Ht Hr Hle. unfold writeResponse. rewrite responseHeaderSize_eq in *. change SEND_BUFFER_HEADER_SIZE with 8.
  change UDP_HEADER_SIZE with 8. change COAP_PACKET_MINIMUM_SIZE with 4.
  set (response' := if RESPONSE_BUFFER_SIZE <? responseSize response then _ else response).
  assert (0 <= responseSize response' <= RESPONSE_BUFFER_SIZE /\ (responseSize response' <= responseSize response)) as [Hr' Hr2].
  { unfold response'. destruct (Z.ltb_spec RESPONSE_BUFFER_SIZE (responseSize response)); cbn; unfold RESPONSE_BUFFER_SIZE in *; lia. }
  assert (exists b1, (if 0 <? responseSize response' then putBytes b (at_ + (20 + tokenLength))
      [0xC1; contentFormatIdentifier (responseFormat response'); 0xFF] else Ok b) = Ok b1) as [b1 ->].
  { destruct (Z.ltb_spec 0 (responseSize response')); [|eauto]. rewrite (proj2 (Z.ltb_lt 0 (responseSize response))) in Hle by lia.
    rewrite putBytes_ok; [eauto|lia|]. unfold RESPONSE_BUFFER_SIZE in *. blocks. }
  cbn [mbind result_bind]. rewrite !putBytes_ok by (unfold RESPONSE_BUFFER_SIZE in *; case_match; blocks). cbn [mbind result_bind].
  rewrite !putBytes_ok by (unfold RESPONSE_BUFFER_SIZE in *; case_match; blocks). cbn [mbind result_bind].
  eexists _, _. split; [done|]. split; [apply is_u16_u16|]. unfold u16.
  match goal with |- context [?x mod 2 ^ 16] => pose proof (Z.mod_le x (2 ^ 16)) end.
  unfold RESPONSE_OPTIONS_SIZE, PAYLOAD_MARKER_SIZE in *.
  destruct (Z.ltb_spec 0 (responseSize response')).
  - rewrite (proj2 (Z.ltb_lt 0 (responseSize response))) in Hle by lia. lia.
  - case_match; unfold RESPONSE_BUFFER_SIZE in *; first [lia|match goal with |- ?g => idtac g end; repeat match goal with H : ?t |- _ => idtac H t; clear H end; lia].
Qed.

Lemma writeResponse_encodes b at_ ip port ack id0 id1 token response bytes :
  0 <= at_ -> zlength token <= 8 -> zlength bytes = responseSize response -> responseSize response <= RESPONSE_BUFFER_SIZE ->
  12 + zlength token + zlength (responseBody response bytes) < 2 ^ 16 ->
  at_ + responseHeaderSize (zlength token) + zlength (responseBody response bytes) <= WRITE_BUFFER_SIZE ->
  holds b at_ (le32 ip ++ le16 port) -> holds b (at_ + 8) (replicate 8 0 ++ [firstCoapByte ack (zlength token)]) ->
  holds b (at_ + 18) ([id0; id1] ++ token) -> holds b (at_ + 20 + zlength token + 3) bytes ->
  exists b', writeResponse b at_ (zlength token) response = Ok (b', 12 + zlength token + zlength (responseBody response bytes)) /\
    holds b' at_ (encodeResponse ip port ack id0 id1 token response bytes).
Proof.
  intros H0 Ht Hb Hr Hsmall Hle Hh1 Hh2 Hh3 Hh4. pose proof (zlength_nonneg token) as Htn. pose proof (zlength_nonneg bytes) as Hbn.
  unfold writeResponse. rewrite (proj2 (Z.ltb_ge _ _) Hr). rewrite responseHeaderSize_eq in *. change SEND_BUFFER_HEADER_SIZE with 8.
  change UDP_HEADER_SIZE with 8. change COAP_PACKET_MINIMUM_SIZE with 4.
  assert (exists b1, (if 0 <? responseSize response then putBytes b (at_ + (20 + zlength token))
      [0xC1; contentFormatIdentifier (responseFormat response); 0xFF] else Ok b) = Ok b1 /\
      holds b1 at_ (le32 ip ++ le16 port) /\ holds b1 (at_ + 8) (replicate 8 0 ++ [firstCoapByte ack (zlength token)]) /\
      holds b1 (at_ + 18) ([id0; id1] ++ token) /\ holds b1 (at_ + 20 + zlength token) (responseBody response bytes))
    as (b1 & -> & Hg1 & Hg2 & Hg3 & Hg4).
  { unfold responseBody in *. destruct (Z.ltb_spec 0 (responseSize response)).
    - rewrite putBytes_ok by blocks. eexists. split; [done|]. split_and!; try (apply holds_other; [blocks|done]).
      apply holds_app; [|apply holds_other; [blocks|]].
      + replace (at_ + 20 + zlength token) with (at_ + (20 + zlength token)) by lia. apply holds_stored.
      + done.
    - exists b. by split_and!. }
  cbn [mbind result_bind]. rewrite putBytes_ok by (unfold responseBody in *; case_match; blocks). cbn [mbind result_bind].
  rewrite putBytes_ok by (unfold responseBody in *; case_match; blocks). cbn [mbind result_bind].
  assert (u16 (8 + 4 + zlength token + (if 0 <? responseSize response then RESPONSE_OPTIONS_SIZE + PAYLOAD_MARKER_SIZE + responseSize response else 0))
    = 12 + zlength token + zlength (responseBody response bytes)) as ->.
  { unfold responseBody, RESPONSE_OPTIONS_SIZE, PAYLOAD_MARKER_SIZE in *. case_match; rewrite u16_small; unfold is_u16; blocks. }
  eexists. split; [done|]. set (n := zlength (responseBody response bytes)) in *. pose proof (zlength_nonneg (responseBody response bytes)).
  unfold encodeResponse. apply holds_app_inv in Hg2 as [Hz Hf]. apply holds_app_inv in Hg3 as [Hi Hk]. apply holds_app_inv in Hg1 as [Hip Hport].
  rewrite zlength_le32 in Hport. rewrite zlength_replicate in Hf. change (zlength [id0; id1]) with 2 in Hk.
  match goal with |- holds ?m _ _ => set (b2 := m) end.
  assert (Hkeep : forall a bs, holds b1 a bs -> a + zlength bs <= at_ + 6 \/
      (at_ + 8 <= a /\ (a + zlength bs <= at_ + 17 \/ at_ + 18 <= a)) -> holds b2 a bs).
  { intros a bs Ha Hd. unfold b2. do 2 (apply holds_other; [blocks|]). done. }
  assert (P1 : holds b2 at_ (le32 ip)) by (apply Hkeep; [done|blocks]).
  assert (P2 : holds b2 (at_ + 4) (le16 port)) by (apply Hkeep; [done|blocks]).
  assert (P3 : holds b2 (at_ + 6) (le16 (12 + zlength token + n))) by apply holds_stored.
  assert (P4 : holds b2 (at_ + 8) (replicate 8 0)) by (apply Hkeep; [done|blocks]).
  assert (P5 : holds b2 (at_ + 16) [firstCoapByte ack (zlength token)]).
  { apply Hkeep; [|blocks]. by replace (at_ + 16) with (at_ + 8 + Z.of_nat 8) by lia. }
  assert (P6 : holds b2 (at_ + 17) [responseCode response]).
  { apply holds_other; [blocks|]. replace (at_ + 17) with (at_ + 8 + 8 + 1) by lia. apply holds_stored. }
  assert (P7 : holds b2 (at_ + 18) [id0; id1]) by (apply Hkeep; [done|blocks]).
  assert (P8 : holds b2 (at_ + 20) token).
  { apply Hkeep; [|blocks]. by replace (at_ + 20) with (at_ + 18 + 2) by lia. }
  assert (P9 : holds b2 (at_ + 20 + zlength token) (responseBody response bytes)) by (apply Hkeep; [done|blocks]).
  apply holds_app; [done|]. apply holds_app; [done|]. rewrite zlength_le32, zlength_le16.
  apply holds_app; [by replace (at_ + 4 + 2) with (at_ + 6) by lia|]. rewrite zlength_le16.
  apply holds_app; [by replace (at_ + 4 + 2 + 2) with (at_ + 8) by lia|]. rewrite zlength_replicate.
  change [firstCoapByte ack (zlength token); responseCode response; id0; id1]
    with ([firstCoapByte ack (zlength token)] ++ [responseCode response] ++ [id0; id1]).
  replace (at_ + 4 + 2 + 2 + Z.of_nat 8) with (at_ + 16) by lia.
  apply holds_app; [apply holds_app; [done|]; change (zlength [_]) with 1; replace (at_ + 16 + 1) with (at_ + 17) by lia;
    apply holds_app; [done|]; change (zlength [_]) with 1; by replace (at_ + 17 + 1) with (at_ + 18) by lia|].
  match goal with |- holds _ (_ + zlength ?x) _ => change (zlength x) with 4 end.
  replace (at_ + 16 + 4) with (at_ + 20) by lia. by apply holds_app.
Qed.

(** ** The server *)

(** What the server relies on: a handler gets a terminated path, keeps its
    state's invariant and stays in the response buffer. *)
Class CoAPHandlersOk (W : Type) `{CoAPHandlers W} (I : W -> Prop) := {
  handle_ok : forall h m pa f data w,
    I w -> zlength pa = MAX_COAP_PATH_SIZE + 1 -> 0 ∈ pa -> Forall is_u8 data ->
    exists w' r bs, handle h m pa f data w = Ok (w', r, bs) /\ I w' /\ 0 <= responseSize r /\ zlength bs <= RESPONSE_BUFFER_SIZE;
}.

(** [l] are the registered paths. *)
Record serverInv (s : CoAPServer) (l : list Z) : Prop := {
  inv_paths : usedPaths (pathListElements s) l;
  inv_head : usedPathListElementsHead s = firstOf l None;
  inv_write : zlength (writeBuffers s) = 2;
  inv_sending : currentlySendingWritebuffer s = 0 \/ currentlySendingWritebuffer s = 1;
  inv_receive : zlength (receiveBuffers s) = 2;
  inv_receiving : currentlyWrittenToReceiveBuffer s = 0 \/ currentlyWrittenToReceiveBuffer s = 1;
  inv_length : 0 <= currentlyWrittenToWriteBufferDataLen s <= WRITE_BUFFER_SIZE;
}.

Lemma usedPaths_progressed es es' l l' : usedPaths es l -> progressed es es' l' -> usedPaths es' l.
Proof.
  intros (Hnd & Hlen & Hth & Hok) (_ & Hn & _ & Hp). split; [done|]. split; [done|].
  split; [by eapply threaded_unchanged|]. intros i Hi. destruct (Hok i Hi) as (p & Hv & Hpo).
  destruct (Hp i p Hv) as [k Hk]. by exists (setProgress p k).
Qed.

Lemma withElements_inv s l es : serverInv s l -> progressed (pathListElements s) es l -> serverInv (withElements s es) l.
Proof. intros [] Hp. split; try done. by eapply usedPaths_progressed. Qed.

Lemma attemptWriteBufferSwap_inv s l : serverInv s l -> serverInv (attemptWriteBufferSwap s) l.
Proof.
  intros []. unfold attemptWriteBufferSwap. case_match; [|done].
  split; try done; cbn; lia.
Qed.

Lemma withWriteBuffer_inv s l i b : serverInv s l -> serverInv (withWriteBuffer s i b) l.
Proof. intros []. split; try done. cbn. by rewrite zlength_zset. Qed.

Lemma decodeOptions_rest fuel number m opts r : decodeOptions fuel number m = (opts, Some r) -> r = [] \/ exists d, r = 0xFF :: d.
Proof.
  revert number m opts. induction fuel as [|fuel IH]; intros number [|b m] opts; cbn; try by intros; simplify_eq; left.
  destruct (Z.eqb_spec b 0xFF) as [->|]; [intros; simplify_eq; eauto|]. destruct (decodeOption number b m) as [[[num v] m']|]; [|done].
  destruct (decodeOptions fuel num m') as [opts' rest'] eqn:E. intros. simplify_eq. by eapply IH.
Qed.

Lemma requestPayload_ok payload off r :
  suffixAt payload off r -> (r = [] \/ exists d, r = 0xFF :: d) ->
  requestPayload (zlength payload) payload off = Ok (Some (tail r)).
Proof.
  intros Hs Hr. pose proof Hs as (H0 & Hd & Hz). unfold requestPayload. unfold PAYLOAD_MARKER_SIZE.
  destruct Hr as [->|[d ->]].
  - change (zlength (@nil Z)) with 0 in Hz. by rewrite (proj2 (Z.ltb_lt (zlength payload) _)) by lia.
  - rewrite zlength_cons in Hz. pose proof (zlength_nonneg d). rewrite (proj2 (Z.ltb_ge (zlength payload) _)) by lia.
    destruct (Z.ltb_spec 0 (zlength payload - (off + 1))).
    + rewrite (suffixAt_byte _ _ _ _ Hs). cbn. do 2 f_equal.
      apply suffixAt_tail in Hs as (_ & -> & Hz'). apply take_ge. unfold zlength in *. lia.
    + destruct d; [done|]. rewrite zlength_cons in Hz. pose proof (zlength_nonneg d). lia.
Qed.

Section server.
Context {W : Type} `{CoAPHandlers W}.

(** The request a packet is parsed to. *)
Definition goodRequest (s : CoAPServer) (l payload : list Z) (st : OptionState) : Prop :=
  progressed (pathListElements s) (optionElements st) l /\
  (forall i, possibleValidPathsHead st = Some i -> i ∈ l) /\
  zlength (path st) = MAX_COAP_PATH_SIZE + 1 /\ (possibleValidPathsHead st <> None -> 0 ∈ path st) /\
  exists r, suffixAt payload (currentOptionOffset st) r /\ (r = [] \/ exists d, r = 0xFF :: d).

(** A call of a handler that keeps to the interface. *)
Definition handledWell (I : W -> Prop) (x : result (W * CoAPResponse * list Z)) : Prop :=
  exists w' r bs, x = Ok (w', r, bs) /\ I w' /\ 0 <= responseSize r /\ zlength bs <= RESPONSE_BUFFER_SIZE.

(** The handlers are good for the request that a packet is parsed to. *)
Definition requestHandled (I : W -> Prop) (payload : list Z) (st : OptionState) (w : W) : Prop :=
  forall h m r, possibleValidPathsHead st <> None -> suffixAt payload (currentOptionOffset st) r ->
    handledWell I (handle h m (path st) (contentFormat st) (tail r) w).

Lemma respond_ok I s l w b payloadAt codeDetail payload st found :
  requestHandled I payload st w ->
  I w -> goodRequest s l payload st -> usedPaths (pathListElements s) l -> Forall is_u8 payload ->
  found = bool_decide (is_Some (possibleValidPathsHead st)) -> 0 <= codeDetail -> 0 <= payloadAt ->
  (found = true -> 1 <= codeDetail <= 4 -> payloadAt + RESPONSE_BUFFER_SIZE <= WRITE_BUFFER_SIZE) ->
  exists w' r b', respond w b payloadAt codeDetail (zlength payload) payload st = Ok (Some (w', r, b')) /\ I w' /\
    0 <= responseSize r /\ (found && negb (codeDetail =? 0) && negb (4 <? codeDetail) = false -> responseSize r = 0).
Proof.
  intros Hcall Hw (Hp & Hhead & Hlen & Hz & m & Hs & Hm) Hu Hb -> Hc Ha Hspace. unfold respond.
  destruct (possibleValidPathsHead st) as [i|] eqn:Eh.
  2: { eexists _, _, _. by split_and!. }
  rewrite (requestPayload_ok _ _ _ Hs Hm). cbn [mbind result_bind].
  destruct (usedPaths_progressed _ _ _ _ Hu Hp) as (_ & _ & _ & Hok). destruct (Hok i) as (p & Hv & _); [by apply Hhead|].
  rewrite (getValue_ok _ _ _ Hv). cbn [mbind result_bind].
  destruct (methodOf codeDetail) as [me|] eqn:Em.
  - assert (1 <= codeDetail <= 4) as Hc4.
    { revert Em. unfold methodOf. repeat (case_match; [lia|]). done. }
    destruct (Hcall (pHandler p) me m ltac:(by rewrite Eh) Hs)
      as (w' & r & bs & -> & Hw' & Hr & Hbs).
    cbn [mbind result_bind]. specialize (Hspace eq_refl Hc4). rewrite putBytes_ok by lia. cbn.
    eexists _, _, _. split_and!; try done.
    rewrite (proj2 (Z.eqb_neq codeDetail 0)), (proj2 (Z.ltb_ge 4 codeDetail)) by lia. done.
  - eexists _, _, _. by split_and!.
Qed.
Lemma swap_elements s : pathListElements (attemptWriteBufferSwap s) = pathListElements s.
Proof. unfold attemptWriteBufferSwap. by case_match. Qed.

Lemma writeBuffer_Some s l : serverInv s l -> exists b, (writeBuffers s).[1 - currentlySendingWritebuffer s] = Some b.
Proof. intros []. apply znth_lt_Some. lia. Qed.

Lemma answer_ok I s l w ip port payload codeDetail ack id0 id1 token st :
  requestHandled I payload st w -> I w -> serverInv s l -> goodRequest s l payload st -> Forall is_u8 payload -> 0 <= codeDetail -> zlength token <= 8 ->
  exists s' w', answer s w ip port (zlength payload) payload codeDetail ack id0 id1 token st = Ok (s', w') /\
    serverInv s' l /\ I w'.
Proof.
  intros Hcall Hw Hs Hg Hb Hc Ht. unfold answer. pose proof Hg as (Hp & Hrest).
  pose proof (attemptWriteBufferSwap_inv _ _ (withElements_inv s l _ Hs Hp)) as Hs1.
  set (s1 := attemptWriteBufferSwap (withElements s (optionElements st))) in *.
  set (found := bool_decide (is_Some (possibleValidPathsHead st))).
  pose proof (inv_length _ _ Hs1) as Hl1. pose proof (zlength_nonneg token) as Htn.
  rewrite u32_small by (unfold is_u32; change WRITE_BUFFER_SIZE with 196608 in *; lia).
  destruct (Z.ltb_spec (WRITE_BUFFER_SIZE - currentlyWrittenToWriteBufferDataLen s1)
    (requiredWritebufferSize found codeDetail (zlength token))) as [|Hspace]; [by exists s1, w|].
  destruct (writeBuffer_Some _ _ Hs1) as [b ->]. cbn [orFault mbind result_bind].
  set (at_ := currentlyWrittenToWriteBufferDataLen s1) in *.
  assert (Hreq : requiredWritebufferSize found codeDetail (zlength token) = 20 + zlength token +
    (if found && negb (codeDetail =? 0) && negb (4 <? codeDetail) then 3 + RESPONSE_BUFFER_SIZE else 0)).
  { unfold requiredWritebufferSize. rewrite responseHeaderSize_eq. unfold RESPONSE_OPTIONS_SIZE, PAYLOAD_MARKER_SIZE.
    destruct found, (codeDetail =? 0), (4 <? codeDetail); cbn; lia. }
  rewrite Hreq in Hspace. clear Hreq.
  destruct (writeResponseHeader_ok b at_ ip port ack id0 id1 token) as (b1 & -> & _); [lia|done|rewrite responseHeaderSize_eq; case_match; change RESPONSE_BUFFER_SIZE with 65536 in *; lia|].
  cbn [mbind result_bind].
  assert (Hu : usedPaths (pathListElements s) l) by apply Hs.
  destruct (respond_ok I s l w b1 (at_ + responseHeaderSize (zlength token) + RESPONSE_OPTIONS_SIZE + PAYLOAD_MARKER_SIZE)
    codeDetail payload st found Hcall Hw Hg Hu Hb eq_refl Hc) as (w' & r & b2 & -> & Hw' & Hr & Hr0).
  { rewrite responseHeaderSize_eq. unfold RESPONSE_OPTIONS_SIZE, PAYLOAD_MARKER_SIZE. lia. }
  { intros Hf Hc4. rewrite Hf in Hspace. rewrite (proj2 (Z.eqb_neq codeDetail 0)), (proj2 (Z.ltb_ge 4 codeDetail)) in Hspace by lia.
    cbn in Hspace. rewrite responseHeaderSize_eq. unfold RESPONSE_OPTIONS_SIZE, PAYLOAD_MARKER_SIZE. lia. }
  cbn [mbind result_bind].
  destruct (writeResponse_ok b2 at_ (zlength token) r) as (b3 & size & -> & Hsz0 & Hsz); [lia|lia|done| |].
  { rewrite responseHeaderSize_eq. destruct (found && _ && _); [case_match; change RESPONSE_BUFFER_SIZE with 65536 in *; lia|].
    rewrite Hr0 by done. cbn. lia. }
  cbn [mbind result_bind]. eexists _, _. split; [done|]. split; [|done]. apply attemptWriteBufferSwap_inv.
  destruct (withWriteBuffer_inv s1 l (1 - currentlySendingWritebuffer s1) b3 Hs1). split; try done. cbn in *.
  fold at_. unfold SEND_BUFFER_HEADER_SIZE. lia.
Qed.

(** The handler up to the loop over the options. *)
Lemma handlePacket_header s w path0 ip port payload :
  Forall is_u8 payload -> zlength payload < 2 ^ 16 ->
  handlePacketFromReceiveBuffer s w path0 ip port (zlength payload) payload = Ok (s, w) \/
  exists codeDetail ack id0 id1 token, 0 <= codeDetail /\ zlength token <= 8 /\ 4 + zlength token <= zlength payload /\
    (exists b0, payload.[0] = Some b0 /\ zlength token = b0 mod 16) /\
    handlePacketFromReceiveBuffer s w path0 ip port (zlength payload) payload =
      r ← parseOptions (S (Z.to_nat (zlength payload))) (zlength payload) payload
            (mkOptionState (pathListElements s) path0 0 (usedPathListElementsHead s) Text_Plain_Charset_UTF8 (4 + zlength token) 0);
      match r with
      | Dropped es => Ok (withElements s es, w)
      | Going st =>
          st ← terminatePath st;
          answer s w ip port (zlength payload) payload codeDetail ack id0 id1 token st
      end.
Proof.
  intros Hb Hsz. unfold handlePacketFromReceiveBuffer. destruct (Z.ltb_spec (zlength payload) 4); [by left|].
  assert (Hget : forall i, 0 <= i < 4 -> exists c, payload.[i] = Some c /\ is_u8 c).
  { intros i Hi. destruct (znth_lt_Some payload i) as [c Hc]; [lia|]. exists c. split; [done|]. by eapply znth_Forall in Hc. }
  destruct (Hget 0) as (b0 & E0 & Hb0); [lia|]. destruct (Hget 1) as (b1 & E1 & Hb1); [lia|].
  destruct (Hget 2) as (b2 & E2 & _); [lia|]. destruct (Hget 3) as (b3 & E3 & _); [lia|].
  unfold getByte. rewrite E0, E1, E2, E3. cbn [orFault mbind result_bind].
  destruct (negb (Z.shiftr (Z.land b0 0xC0) 6 =? 1)); [by left|]. destruct (_ && _); [by left|].
  destruct (byte_nibbles b0 Hb0) as (_ & -> & _ & Ht). destruct (Z.ltb_spec 8 (b0 mod 16)); [by left|].
  destruct (negb _); [by left|]. destruct (Z.ltb_spec (zlength payload) (4 + b0 mod 16)); [by left|]. right.
  unfold packetBytes. rewrite (proj2 (Z.ltb_ge (zlength payload) _)) by lia. cbn [mbind result_bind].
  set (token := take _ _). assert (zlength token = b0 mod 16) as Htl.
  { unfold token. rewrite zlength_take; [done|]. rewrite zlength_drop; lia. }
  exists (Z.land b1 0x1F), (Z.shiftr (Z.land b0 0x30) 4 =? 0), b2, b3, token. split_and!; try lia.
  - apply Z.land_nonneg. left. unfold is_u8 in Hb1. lia.
  - by exists b0.
  - by rewrite Htl.
Qed.
End server.

(** The options of a packet: what [decodeOptions] finds behind the token. *)
Definition packetOptions (payload : list Z) : list (Z * list Z) * option (list Z) :=
  decodeOptions (length payload) 0 (drop (Z.to_nat (4 + default 0 payload.[0] mod 16)) payload).

(** What the packet is parsed to, or that it is dropped. *)
Lemma parsed_ok s l path0 payload tokenLength :
  serverInv s l -> Forall is_u8 payload -> zlength path0 = MAX_COAP_PATH_SIZE + 1 ->
  payload <> [] -> tokenLength = default 0 payload.[0] mod 16 -> 4 + tokenLength <= zlength payload ->
  zlength (requestPath (packetOptions payload).1) <= MAX_COAP_PATH_SIZE ->
  let parse := parseOptions (S (Z.to_nat (zlength payload))) (zlength payload) payload
    (mkOptionState (pathListElements s) path0 0 (usedPathListElementsHead s) Text_Plain_Charset_UTF8 (4 + tokenLength) 0) in
  match (packetOptions payload).2, requestFormat Text_Plain_Charset_UTF8 (packetOptions payload).1 with
  | Some r, Some f => exists st st', parse = Ok (Going st) /\ terminatePath st = Ok st' /\
      goodRequest s l payload st' /\ contentFormat st' = f /\ suffixAt payload (currentOptionOffset st') r /\
      (r = [] \/ exists d, r = 0xFF :: d) /\
      tracking (pathListElements s) l (wholePath (requestPath (packetOptions payload).1) ++ [0]) (optionElements st')
        (possibleValidPathsHead st') /\
      (possibleValidPathsHead st' <> None ->
       take (length (wholePath (requestPath (packetOptions payload).1) ++ [0])) (path st') =
       wholePath (requestPath (packetOptions payload).1) ++ [0])
  | _, _ => exists es, parse = Ok (Dropped es) /\ progressed (pathListElements s) es l
  end.
Proof.
  intros Hs Hb Hp0 Hne Htl Hle Hpath. pose proof (inv_paths _ _ Hs) as Hu. unfold packetOptions in *. rewrite <- Htl in *.
  assert (0 <= tokenLength) by (subst; apply Z.mod_pos_bound; lia). pose proof (zlength_nonneg payload).
  replace (S (Z.to_nat (zlength payload))) with (S (length payload)) by (unfold zlength; lia).
  set (t := drop (Z.to_nat (4 + tokenLength)) payload) in *. destruct (decodeOptions (length payload) 0 t) as [opts rest] eqn:Ed.
  cbn [fst snd] in *.
  set (st0 := mkOptionState (pathListElements s) path0 0 (usedPathListElementsHead s) Text_Plain_Charset_UTF8 (4 + tokenLength) 0).
  assert (Hsuf : suffixAt payload (4 + tokenLength) t).
  { split_and!; [lia|done|]. unfold t. rewrite zlength_drop by lia. lia. }
  assert (Hi0 : pathInv (pathListElements s) l [] st0).
  { split; [done|]. split; [change (zlength (@nil Z)) with 0; cbn; lia|]. split; [|done]. split; [done|]. apply Hs. }
  pose proof (parseOptions_ok (pathListElements s) l payload Hu Hb (length payload) t [] st0 opts rest Hsuf) as Hpo.
  destruct rest as [r|]; [|apply Hpo; try done; unfold t; rewrite length_drop; lia]. cbn [contentFormat st0] in Hpo.
  destruct (requestFormat Text_Plain_Charset_UTF8 opts) as [f|]; [|apply Hpo; try done; unfold t; rewrite length_drop; lia].
  destruct Hpo as (st & E & Hinv & Hf & Hr); try done; [unfold t; rewrite length_drop; lia|]. cbn [app] in *.
  destruct (terminatePath_ok (pathListElements s) l Hu (requestPath opts) st Hinv) as (st' & Et & Hf' & Ho' & Hl' & Ht & Htk); [done|].
  exists st, st'. pose proof (decodeOptions_rest _ _ _ _ _ Ed) as Hrest. rewrite <- Ho' in Hr.
  split; [done|]. split; [done|]. split; [|split_and!; try done; congruence].
  split; [apply Ht|]. split_and!; try done.
  - intros i Hi. destruct Ht as (_ & Ht & _). rewrite Hi in Ht.
    assert (i ∈ candidates (pathListElements s) l (wholePath (requestPath opts) ++ [0])) as Hin.
    { destruct (candidates _ _ _); cbn in Ht; simplify_eq. by left. }
    by apply list_elem_of_filter in Hin as [].
  - intros Hh. specialize (Htk Hh). assert (0 ∈ take (length (wholePath (requestPath opts) ++ [0])) (path st')) as Hin.
    { rewrite Htk. apply elem_of_app. right. by left. }
    rewrite <- (take_drop (length (wholePath (requestPath opts) ++ [0])) (path st')). apply elem_of_app. by left.
  - eauto.
Qed.

(** [i] is the first registered path that matches. *)
Definition firstMatch (es : list (Element CoAPPath)) (l requested : list Z) (i : Z) (p : CoAPPath) : Prop :=
  exists l1 l2, l = l1 ++ i :: l2 /\ valueOf es i = Some p /\ pathMatches (pattern p) requested /\
    forall j q, j ∈ l1 -> valueOf es j = Some q -> ~ pathMatches (pattern q) requested.

Lemma firstMatch_candidates es l requested i p :
  firstMatch es l requested i p -> 0 ∉ requested -> firstOf (candidates es l (requested ++ [0])) None = Some i.
Proof.
  intros (l1 & l2 & -> & Hv & Hm & Hno) H0. unfold candidates. rewrite filter_app, firstOf_app, filter_cons.
  rewrite decide_True.
  2: { unfold reachOf. rewrite Hv. cbn. by apply reach_matches. }
  destruct (filter _ l1) as [|j c] eqn:E; [done|].
  assert (j ∈ candidates es l1 (requested ++ [0])) as Hj by (unfold candidates; rewrite E; by left).
  apply candidates_matches in Hj as (Hj & q & Hq & Hmq); [|done]. by destruct (Hno j q Hj Hq).
Qed.

(** A request: version 1, confirmable ([type] 0) or not, a method code. *)
Definition requestPacket (type code id0 id1 : Z) (token options : list Z) : list Z :=
  (0x40 + 16 * type + zlength token) :: code :: id0 :: id1 :: token ++ options.

Section theorems.
Context {W : Type} `{CoAPHandlers W}.

Lemma handlePacket_request s (w : W) path0 ip port type code id0 id1 token options m :
  type = 0 \/ type = 1 -> methodOf code = Some m -> zlength token <= 8 ->
  let payload := requestPacket type code id0 id1 token options in
  handlePacketFromReceiveBuffer s w path0 ip port (zlength payload) payload =
    r ← parseOptions (S (Z.to_nat (zlength payload))) (zlength payload) payload
          (mkOptionState (pathListElements s) path0 0 (usedPathListElementsHead s) Text_Plain_Charset_UTF8 (4 + zlength token) 0);
    match r with
    | Dropped es => Ok (withElements s es, w)
    | Going st =>
        st ← terminatePath st;
        answer s w ip port (zlength payload) payload code (type =? 0) id0 id1 token st
    end.
Proof.
  intros Ht Hm Htl payload. pose proof (zlength_nonneg token) as Htn. pose proof (zlength_nonneg options).
  assert (Hz : zlength payload = 4 + zlength token + zlength options).
  { unfold payload, requestPacket. rewrite !zlength_cons, zlength_app. lia. }
  unfold handlePacketFromReceiveBuffer. rewrite (proj2 (Z.ltb_ge (zlength payload) 4)) by lia.
  change (getByte payload 0) with (Ok (0x40 + 16 * type + zlength token)). change (getByte payload 1) with (Ok code).
  change (getByte payload 2) with (Ok id0). change (getByte payload 3) with (Ok id1). cbn [mbind result_bind].
  set (b0 := 0x40 + 16 * type + zlength token).
  assert (Z.shiftr (Z.land b0 0xC0) 6 = 1 /\ Z.shiftr (Z.land b0 0x30) 4 = type /\ Z.land b0 0xF = zlength token) as (-> & -> & ->).
  { unfold b0. assert (Hn : 0 <= zlength token < 9) by lia. revert Hn. generalize (zlength token) as n. intros n Hn.
    split_below 9%nat Hn; subst; by destruct Ht as [->| ->]. }
  assert (Z.shiftr (Z.land code 0xE0) 5 = 0 /\ Z.land code 0x1F = code) as [-> ->].
  { revert Hm. unfold methodOf. repeat (case_match; [by assert (code = 1 \/ code = 2 \/ code = 3 \/ code = 4) as [->|[->|[->| ->]]] by lia|]). done. }
  rewrite Z.eqb_refl. cbn [negb]. rewrite (proj2 (Z.ltb_ge 8 _)), (proj2 (Z.ltb_ge (zlength payload) _)) by lia.
  assert (packetBytes payload 4 (zlength token) = Ok token) as ->.
  { unfold packetBytes. rewrite (proj2 (Z.ltb_ge _ _)) by lia. f_equal. unfold payload, requestPacket.
    change (drop (Z.to_nat 4) _) with (token ++ options). unfold zlength. by rewrite Nat2Z.id, take_app_length. }
  destruct Ht as [->| ->]; reflexivity.
Qed.


(** What the array holds when a handler is called, and the payload it gets. *)
Definition passedPath (payload pa : list Z) : Prop :=
  zlength pa = MAX_COAP_PATH_SIZE + 1 /\ 0 ∈ pa /\
  take (length (wholePath (requestPath (packetOptions payload).1) ++ [0])) pa = wholePath (requestPath (packetOptions payload).1) ++ [0].

Lemma handlePacket_handled (I : W -> Prop) s l w path0 ip port payload :
  serverInv s l -> I w -> Forall is_u8 payload -> zlength payload < 2 ^ 16 -> zlength path0 = MAX_COAP_PATH_SIZE + 1 ->
  zlength (requestPath (packetOptions payload).1) <= MAX_COAP_PATH_SIZE ->
  (forall h m pa f r, passedPath payload pa -> (packetOptions payload).2 = Some r -> Forall is_u8 (tail r) ->
    handledWell I (handle h m pa f (tail r) w)) ->
  exists s' w', handlePacketFromReceiveBuffer s w path0 ip port (zlength payload) payload = Ok (s', w') /\
    serverInv s' l /\ I w'.
Proof.
  intros Hs Hw Hb Hsz Hp0 Hpath Hcall.
  destruct (handlePacket_header s w path0 ip port payload Hb Hsz) as [E|(cd & ack & id0 & id1 & token & Hc & Ht & Hle & (b0 & E0 & Htl) & E)];
    [by exists s, w|]. rewrite E. clear E.
  assert (Hne : payload <> []) by by destruct payload.
  pose proof (parsed_ok s l path0 payload (zlength token) Hs Hb Hp0 Hne) as Hparse. rewrite E0 in Hparse.
  change (default 0 (Some b0)) with b0 in Hparse. cbv zeta in Hparse.
  specialize (Hparse Htl Hle Hpath). unfold passedPath in Hcall.
  assert (Hdrop : forall es, progressed (pathListElements s) es l -> exists s' w', Ok (withElements s es, w) = Ok (s', w') /\
    serverInv s' l /\ I w').
  { intros es Hes. eexists _, _. split; [done|]. split; [by apply withElements_inv|done]. }
  destruct (packetOptions payload) as [opts [r|]]; cbn [fst snd] in *; [|destruct Hparse as (es & -> & Hes); by apply Hdrop].
  destruct (requestFormat _ opts) as [f|]; [|destruct Hparse as (es & -> & Hes); by apply Hdrop].
  destruct Hparse as (st & st' & -> & Hterm & Hg & Hf & Hsr & _ & _ & Htake). cbn [mbind result_bind]. rewrite Hterm. cbn [mbind result_bind].
  apply (answer_ok I); try done. intros h m r' Hh Hsr'.
  assert (r' = r) as -> by (destruct Hsr as (_ & <- & _), Hsr' as (_ & <- & _); done).
  pose proof Hg as (_ & _ & Hlen & H0 & _). apply Hcall; [split_and!; auto|done|].
  pose proof (suffixAt_Forall _ _ _ _ Hsr Hb). destruct r; [done|]. by eapply Forall_inv_tail.
Qed.

Lemma handlePacket_ok I `{!CoAPHandlersOk W I} s l w path0 ip port payload :
  serverInv s l -> I w -> Forall is_u8 payload -> zlength payload < 2 ^ 16 -> zlength path0 = MAX_COAP_PATH_SIZE + 1 ->
  zlength (requestPath (packetOptions payload).1) <= MAX_COAP_PATH_SIZE ->
  exists s' w', handlePacketFromReceiveBuffer s w path0 ip port (zlength payload) payload = Ok (s', w') /\
    serverInv s' l /\ I w'.
Proof.
  intros Hs Hw Hb Hsz Hp0 Hpath. apply handlePacket_handled; try done.
  intros h m pa f r (Hl & H0 & _) _ Hr. by apply handle_ok.
Qed.

(** C1: whatever bytes arrive, the packet handler reads only inside the
    payload, writes only inside its path array and the send buffers, ends, and
    keeps the server's invariant, provided the request's path has at most 100
    characters and the registered handlers keep to the handler interface. *)
Theorem handlePacket_safe I `{!CoAPHandlersOk W I} s l w path0 ip port payload :
  serverInv s l -> I w -> Forall is_u8 payload -> zlength payload < 2 ^ 16 -> zlength path0 = MAX_COAP_PATH_SIZE + 1 ->
  zlength (requestPath (packetOptions payload).1) <= MAX_COAP_PATH_SIZE ->
  exists s' w', handlePacketFromReceiveBuffer s w path0 ip port (zlength payload) payload = Ok (s', w') /\
    serverInv s' l /\ I w'.
Proof. exact (handlePacket_ok I s l w path0 ip port payload). Qed.

(** The response to a parsed request, given what its handler answers. *)
Lemma answer_responds s l w ip port payload code m ack id0 id1 token st i p w' response bytes r :
  serverInv s l -> goodRequest s l payload st -> zlength token <= 8 -> methodOf code = Some m ->
  suffixAt payload (currentOptionOffset st) r -> (r = [] \/ exists d, r = 0xFF :: d) ->
  possibleValidPathsHead st = Some i -> valueOf (pathListElements s) i = Some p ->
  handle (pHandler p) m (path st) (contentFormat st) (tail r) w = Ok (w', response, bytes) ->
  zlength bytes = responseSize response -> responseSize response <= RESPONSE_BUFFER_SIZE ->
  12 + zlength token + zlength (responseBody response bytes) < 2 ^ 16 ->
  let s1 := attemptWriteBufferSwap s in
  currentlyWrittenToWriteBufferDataLen s1 + 23 + zlength token + RESPONSE_BUFFER_SIZE <= WRITE_BUFFER_SIZE ->
  exists s2 b, answer s w ip port (zlength payload) payload code ack id0 id1 token st = Ok (attemptWriteBufferSwap s2, w') /\
    currentlySendingWritebuffer s2 = currentlySendingWritebuffer s1 /\
    (writeBuffers s2).[1 - currentlySendingWritebuffer s1] = Some b /\
    holds b (currentlyWrittenToWriteBufferDataLen s1) (encodeResponse ip port ack id0 id1 token response bytes) /\
    currentlyWrittenToWriteBufferDataLen s2 =
      currentlyWrittenToWriteBufferDataLen s1 + zlength (encodeResponse ip port ack id0 id1 token response bytes).
Proof.
  intros Hs Hg Ht Hm Hr1 Hr2 Hh Hp Hhandle Hbs Hrs Hsmall s1 Hspace. pose proof Hg as (Hpg & _).
  assert (Hc : 1 <= code <= 4) by (revert Hm; unfold methodOf; repeat (case_match; [lia|]); done).
  pose proof (attemptWriteBufferSwap_inv _ _ Hs) as Hs1. fold s1 in Hs1. pose proof (inv_length _ _ Hs1) as Hl1.
  pose proof (zlength_nonneg token) as Htn.
  set (s1' := attemptWriteBufferSwap (withElements s (optionElements st))).
  assert (Eq : currentlySendingWritebuffer s1' = currentlySendingWritebuffer s1 /\ writeBuffers s1' = writeBuffers s1 /\
    currentlyWrittenToWriteBufferDataLen s1' = currentlyWrittenToWriteBufferDataLen s1).
  { unfold s1', s1, attemptWriteBufferSwap. cbn. by case_match. }
  destruct Eq as (Eq1 & Eq2 & Eq3). set (at_ := currentlyWrittenToWriteBufferDataLen s1) in *.
  assert (Hzb : zlength (responseBody response bytes) <= 3 + RESPONSE_BUFFER_SIZE).
  { unfold responseBody. case_match; [blocks|change (zlength (@nil Z)) with 0; change RESPONSE_BUFFER_SIZE with 65536; lia]. }
  unfold answer. fold s1'. rewrite Hh, Eq3. fold at_. rewrite u32_small by (unfold is_u32; change WRITE_BUFFER_SIZE with 196608 in *; lia).
  unfold requiredWritebufferSize. rewrite (proj2 (Z.eqb_neq code 0)), (proj2 (Z.ltb_ge 4 code)) by lia.
  rewrite bool_decide_true by done. cbn [negb orb]. rewrite responseHeaderSize_eq. change RESPONSE_OPTIONS_SIZE with 2.
  change PAYLOAD_MARKER_SIZE with 1. rewrite (proj2 (Z.ltb_ge _ _)) by lia.
  destruct (writeBuffer_Some _ _ Hs1) as [b Hb]. rewrite Eq1, Eq2, Hb. cbn [orFault mbind result_bind].
  destruct (writeResponseHeader_ok b at_ ip port ack id0 id1 token) as (b1 & -> & H1 & H2 & H3); [lia|done|rewrite responseHeaderSize_eq; change RESPONSE_BUFFER_SIZE with 65536 in *; lia|].
  cbn [mbind result_bind]. unfold respond. rewrite Hh, (requestPayload_ok _ _ _ Hr1 Hr2). cbn [mbind result_bind].
  destruct (proj2 (proj2 (proj2 Hpg)) i p Hp) as [k Hk]. rewrite (getValue_ok _ _ _ Hk), Hm. cbn [mbind result_bind].
  change (pHandler (setProgress p k)) with (pHandler p). rewrite Hhandle. cbn [mbind result_bind].
  rewrite putBytes_ok by lia. cbn [mbind result_bind].
  destruct (writeResponse_encodes (storeBytes b1 (at_ + (20 + zlength token) + 2 + 1) bytes) at_ ip port ack id0 id1 token response bytes)
    as (b3 & -> & Henc); try done; try lia.
  - rewrite responseHeaderSize_eq. lia.
  - apply holds_other; [blocks|done].
  - apply holds_other; [blocks|done].
  - apply holds_other; [blocks|done].
  - replace (at_ + 20 + zlength token + 3) with (at_ + (20 + zlength token) + 2 + 1) by lia. apply holds_stored.
  - cbn [mbind result_bind]. eexists _, b3. split; [done|]. cbn. split; [done|]. split.
    + rewrite Eq2. apply znth_zset_eq. pose proof (inv_write _ _ Hs1). pose proof (inv_sending _ _ Hs1). lia.
    + split; [done|]. rewrite Eq3. fold at_. unfold encodeResponse, SEND_BUFFER_HEADER_SIZE. cbv zeta.
      generalize dependent (responseBody response bytes). intros body. blocks.
Qed.

(** C18: a well-formed request whose path has at most 100 characters, none of
    them zero, is answered by the first registered path that matches: its
    handler gets the path, the content format and the payload of the request,
    and the server appends to the send buffer exactly the packet that encodes
    the handler's response, with the request's message id and token.  The send
    buffer has to have room for a response of the largest size - otherwise the
    server drops the request ([answer]) - and the encoded response has to stay
    below 65536 bytes, the largest size its length field can say. *)
Theorem handlePacket_responds s l w path0 ip port type code m id0 id1 token options opts r f i p w' response bytes :
  serverInv s l -> zlength path0 = MAX_COAP_PATH_SIZE + 1 ->
  type = 0 \/ type = 1 -> methodOf code = Some m -> zlength token <= 8 ->
  let payload := requestPacket type code id0 id1 token options in
  Forall is_u8 payload -> decodeOptions (length payload) 0 options = (opts, Some r) ->
  zlength (requestPath opts) <= MAX_COAP_PATH_SIZE -> 0 ∉ requestPath opts ->
  requestFormat Text_Plain_Charset_UTF8 opts = Some f ->
  firstMatch (pathListElements s) l (wholePath (requestPath opts)) i p ->
  (forall pa, zlength pa = MAX_COAP_PATH_SIZE + 1 ->
    take (length (wholePath (requestPath opts) ++ [0])) pa = wholePath (requestPath opts) ++ [0] ->
    handle (pHandler p) m pa f (tail r) w = Ok (w', response, bytes)) ->
  zlength bytes = responseSize response -> responseSize response <= RESPONSE_BUFFER_SIZE ->
  12 + zlength token + zlength (responseBody response bytes) < 2 ^ 16 ->
  let s1 := attemptWriteBufferSwap s in
  currentlyWrittenToWriteBufferDataLen s1 + 23 + zlength token + RESPONSE_BUFFER_SIZE <= WRITE_BUFFER_SIZE ->
  exists s2 b, handlePacketFromReceiveBuffer s w path0 ip port (zlength payload) payload = Ok (attemptWriteBufferSwap s2, w') /\
    currentlySendingWritebuffer s2 = currentlySendingWritebuffer s1 /\
    (writeBuffers s2).[1 - currentlySendingWritebuffer s1] = Some b /\
    holds b (currentlyWrittenToWriteBufferDataLen s1) (encodeResponse ip port (type =? 0) id0 id1 token response bytes) /\
    currentlyWrittenToWriteBufferDataLen s2 =
      currentlyWrittenToWriteBufferDataLen s1 + zlength (encodeResponse ip port (type =? 0) id0 id1 token response bytes).
Proof.
  intros Hs Hp0 Hty Hm Htl payload Hb Hd Hpath H0 Hf Hfirst Hhandle Hbs Hrs Hsmall s1 Hspace.
  pose proof (handlePacket_request s w path0 ip port type code id0 id1 token options m Hty Hm Htl) as Heq.
  cbv zeta in Heq. fold payload in Heq. rewrite Heq. clear Heq.
  pose proof (zlength_nonneg token) as Htn. pose proof (zlength_nonneg options).
  assert (Hz : zlength payload = 4 + zlength token + zlength options).
  { unfold payload, requestPacket. rewrite !zlength_cons, zlength_app. lia. }
  assert (Htok : zlength token = default 0 payload.[0] mod 16).
  { change (default 0 payload.[0]) with (0x40 + 16 * type + zlength token). destruct Hty; subst type; dlia. }
  assert (Hopts : packetOptions payload = (opts, Some r)).
  { unfold packetOptions. rewrite <- Htok, <- Hd. f_equal.
    replace (Z.to_nat (4 + zlength token)) with (4 + length token)%nat by (unfold zlength; lia).
    unfold payload, requestPacket. cbn [Nat.add drop]. by rewrite drop_app_length. }
  pose proof (parsed_ok s l path0 payload (zlength token) Hs Hb Hp0 ltac:(done) Htok ltac:(lia)) as Hparse.
  cbv zeta in Hparse. rewrite Hopts in Hparse. cbn [fst snd] in Hparse. rewrite Hf in Hparse.
  destruct (Hparse Hpath) as (st & st' & -> & Hterm & Hg & Hf' & Hr1 & Hr2 & Htrack & Htake). cbn [mbind result_bind].
  rewrite Hterm. cbn [mbind result_bind].
  assert (Hw0 : 0 ∉ wholePath (requestPath opts)).
  { unfold wholePath. case_bool_decide; [|done]. by intros ?%list_elem_of_singleton. }
  assert (Hh : possibleValidPathsHead st' = Some i).
  { destruct Htrack as (_ & -> & _). by eapply firstMatch_candidates. }
  destruct Hfirst as (_ & _ & _ & Hv & _).
  apply (answer_responds s l w ip port payload code m (type =? 0) id0 id1 token st' i p w' response bytes r); try done.
  rewrite Hf'. apply Hhandle; [apply Hg|]. apply Htake. by rewrite Hh.
Qed.

End theorems.

(** ** Registering paths *)

(** [u] are the free elements. *)
Record freePaths (s : CoAPServer) (l u : list Z) : Prop := {
  free_nodup : NoDup (l ++ u);
  free_length : (length (l ++ u) <= MAX_NUM_COAP_PATHS)%nat;
  free_next : threaded (nextOf (pathListElements s)) u None;
  free_head : unusedPathListElementsHead s = firstOf u None;
  free_chars : forall i, i ∈ u -> exists p, valueOf (pathListElements s) i = Some p /\ zlength (pathChars p) = MAX_COAP_PATH_SIZE;
}.

Lemma copyChars_ok (chars old : list Z) :
  zlength chars <= zlength old -> zlength (copyChars chars old) = zlength old /\ take (Z.to_nat (zlength chars)) (copyChars chars old) = chars.
Proof.
  intros Hl. unfold copyChars, zlength in *. split; [rewrite length_app, length_drop; lia|].
  by rewrite Nat2Z.id, take_app_length.
Qed.

(** Registering a path that fits takes one free element, puts it in front
    of the registered paths with the given pattern and handler, and leaves the
    others as they were; without a free element or with a path that is too long
    nothing changes. *)
Theorem setPathHandler_registers s l u chars handler :
  serverInv s l -> freePaths s l u ->
  if (MAX_COAP_PATH_SIZE <? zlength chars) || bool_decide (u = []) then setPathHandler s chars handler = Ok s
  else exists i u' s' p, u = i :: u' /\ setPathHandler s chars handler = Ok s' /\ serverInv s' (i :: l) /\ freePaths s' (i :: l) u' /\
    valueOf (pathListElements s') i = Some p /\ pattern p = chars /\ pHandler p = handler /\
    forall j, j <> i -> valueOf (pathListElements s') j = valueOf (pathListElements s) j.
Proof.
  intros Hs [Hnd Hlen Hnext Hhead Hchars]. unfold setPathHandler. destruct (Z.ltb_spec MAX_COAP_PATH_SIZE (zlength chars)); [done|].
  rewrite Hhead. destruct u as [|i u]; [done|]. cbn [orb]. rewrite bool_decide_false by done. cbn [firstOf].
  destruct Hnext as [Hn Hnext]. destruct (Hchars i) as (p & Hv & Hpc); [by left|].
  rewrite (getNext_ok _ _ _ Hn). cbn [mbind result_bind]. pose proof (valueOf_range _ _ _ Hv) as Hr.
  destruct (setNext_ok (pathListElements s) i (usedPathListElementsHead s) Hr) as (es1 & -> & Hl1 & Hn1 & Hv1 & Hp1). cbn [mbind result_bind].
  rewrite (getValue_ok es1 i p) by by rewrite Hv1. cbn [mbind result_bind].
  set (p' := mkCoAPPath (copyChars chars (pathChars p)) (zlength chars) 0 handler).
  destruct (setValue_ok es1 i p') as (es2 & -> & Hl2 & Hv2 & Hn2 & Hp2); [lia|]. cbn [mbind result_bind].
  pose proof (inv_paths _ _ Hs) as (Hndl & _ & Hth & Hok).
  assert (Hil : i ∉ l) by (apply NoDup_app in Hnd as (_ & Hd & _); intros Hi; apply (Hd i Hi); by left).
  assert (Hiu : i ∉ u) by (apply NoDup_app in Hnd as (_ & _ & Hd); by apply NoDup_cons in Hd as []).
  assert (Hv' : forall j, j <> i -> valueOf es2 j = valueOf (pathListElements s) j) by (intros j Hj; by rewrite (proj2 Hv2), Hv1).
  assert (Hthread : forall m n, i ∉ m -> threaded (nextOf (pathListElements s)) m n -> threaded (nextOf es2) m n).
  { intros m n Hm Ht. eapply threaded_unchanged; [exact Hn2|]. by eapply threaded_updated. }
  destruct (copyChars_ok chars (pathChars p)) as [Hc1 Hc2]; [by rewrite Hpc|].
  exists i, u, (withPathLists s es2 (firstOf u None) (Some i)), p'. split; [done|]. split; [done|]. split_and!.
  - destruct Hs. split; try done; cbn. split; [by apply NoDup_cons|]. split.
    { revert Hlen. rewrite length_app. cbn. lia. }
    split; [cbn; split; [rewrite Hn2; rewrite <- inv_head0; apply Hn1|by apply Hthread]|].
    intros j [->|Hj]%elem_of_cons.
    + exists p'. split; [apply Hv2|]. split; cbn; [by rewrite Hc1|]. pose proof (zlength_nonneg chars). lia.
    + rewrite Hv' by (by intros ->). by apply Hok.
  - assert (Hperm : (i :: l) ++ u ≡ₚ l ++ i :: u) by (cbn; apply Permutation_middle). split; cbn; try done.
    + change (i :: l ++ u) with ((i :: l) ++ u). by rewrite Hperm.
    + change (S (length (l ++ u))) with (length ((i :: l) ++ u)). by rewrite Hperm.
    + by apply Hthread.
    + intros j Hj. rewrite Hv' by (by intros ->). apply Hchars. by right.
  - apply Hv2.
  - done.
  - done.
  - done.
Qed.

(** ** The packets of a receive buffer *)

(** A packet as the kernel writes it. *)
Definition encodeReceived (d : Z * Z * list Z) : list Z :=
  let '(ip, port, data) := d in le32 ip ++ le16 port ++ le16 (zlength data) ++ data.
Definition receiveEncoding (ds : list (Z * Z * list Z)) : list Z := concat (map encodeReceived ds) ++ replicate 8 0.

Definition goodReceived (d : Z * Z * list Z) : Prop :=
  let '(ip, port, data) := d in is_u32 ip /\ is_u16 port /\ zlength data < 2 ^ 16.

(** The packets before the first one without data. *)
Fixpoint beforeEmpty (ds : list (Z * Z * list Z)) : list (Z * Z * list Z) :=
  match ds with
  | [] => []
  | (ip, port, data) :: ds => if zlength data =? 0 then [] else (ip, port, data) :: beforeEmpty ds
  end.

Lemma le32_decode w : is_u32 w ->
  exists b0 b1 b2 b3, le32 w = [b0; b1; b2; b3] /\ u32 (Z.shiftl b3 24 + Z.shiftl b2 16 + Z.shiftl b1 8 + b0) = w.
Proof.
  intros Hw. unfold le32. eexists _, _, _, _. split; [done|]. unfold is_u32 in Hw.
  rewrite !Z.shiftl_mul_pow2, !Z.shiftr_div_pow2 by lia. change 0xFF with (Z.ones 8). rewrite !Z.land_ones by lia.
  rewrite u32_small; [|unfold is_u32]; dlia.
Qed.

Lemma le16_decode w : is_u16 w ->
  exists b0 b1, le16 w = [b0; b1] /\ u16 (Z.shiftl b1 8 + b0) = w /\ (w <> 0 -> [b0; b1] <> [0; 0]).
Proof.
  intros Hw. unfold le16. eexists _, _. split; [done|]. unfold is_u16 in Hw.
  rewrite !Z.shiftl_mul_pow2, !Z.shiftr_div_pow2 by lia. change 0xFF with (Z.ones 8). rewrite !Z.land_ones by lia.
  split; [rewrite u16_small; [|unfold is_u16]; dlia|]. intros H0 [= H1 H2]. apply H0. dlia.
Qed.

(** Case analysis on everything a successful run branches on. *)
Ltac result_cases :=
  repeat first [ progress result_inv
               | match goal with
                 | H : context [match ?x with _ => _ end] |- _ => is_var x; destruct x
                 | H : (if ?x then _ else _) = Ok _ |- _ => destruct x
                 end ].

Section receive.
Context {W : Type} `{CoAPHandlers W}.

Definition sameReceive (s s' : CoAPServer) : Prop :=
  receiveBuffers s' = receiveBuffers s /\ currentlyWrittenToReceiveBuffer s' = currentlyWrittenToReceiveBuffer s.

Lemma swap_receive s s' : sameReceive s s' -> sameReceive s (attemptWriteBufferSwap s').
Proof. intros []. unfold attemptWriteBufferSwap. by case_match. Qed.

Lemma answer_receive s (w : W) ip port n payload code ack id0 id1 token st s' w' :
  answer s w ip port n payload code ack id0 id1 token st = Ok (s', w') -> sameReceive s s'.
Proof.
  unfold answer. pose proof (swap_receive s (withElements s (optionElements st)) ltac:(done)) as Hs1.
  set (s1 := attemptWriteBufferSwap _) in *. destruct (_ <? _); [by intros [= <- <-]|]. intros E. result_cases; try done.
  by apply swap_receive.
Qed.

Lemma handlePacket_receive s (w : W) path0 ip port n payload s' w' :
  handlePacketFromReceiveBuffer s w path0 ip port n payload = Ok (s', w') -> sameReceive s s'.
Proof.
  unfold handlePacketFromReceiveBuffer. intros E. result_cases; try done. by eapply answer_receive.
Qed.
(** The packet handler on one packet after the other. *)
Fixpoint handleAll (path0 : list Z) (ds : list (Z * Z * list Z)) (s : CoAPServer) (w : W) : result (CoAPServer * W) :=
  match ds with
  | [] => Ok (s, w)
  | (ip, port, data) :: ds =>
      r ← handlePacketFromReceiveBuffer s w path0 ip port (zlength data) data; handleAll path0 ds (fst r) (snd r)
  end.

Lemma receivedBytes_ok b i bs :
  holds b i bs -> 0 <= i -> i + zlength bs <= RECEIVE_BUFFER_SIZE -> receivedBytes b i (zlength bs) = Ok bs.
Proof.
  intros Hb Hi Hl. pose proof (zlength_nonneg bs). unfold receivedBytes.
  rewrite (proj2 (Z.leb_le 0 i)), (proj2 (Z.leb_le 0 (zlength bs))), (proj2 (Z.leb_le (i + zlength bs) _)) by lia.
  unfold zlength. by rewrite Nat2Z.id, Hb.
Qed.

Lemma holds_cons b a x bs : holds b a (x :: bs) -> b a = x /\ holds b (a + 1) bs.
Proof. unfold holds. cbn. by intros [= ? ?]. Qed.

Lemma receiveLoop_ok fuel path0 ds off s w b :
  (receiveBuffers s).[currentlyWrittenToReceiveBuffer s] = Some b ->
  holds b off (receiveEncoding ds) -> 0 <= off -> off + zlength (receiveEncoding ds) <= RECEIVE_BUFFER_SIZE ->
  Forall goodReceived ds -> (length ds < fuel)%nat ->
  receiveLoop fuel path0 off s w = handleAll path0 (beforeEmpty ds) s w.
Proof.
  revert off s w fuel. induction ds as [|[[ip port] data] ds IH]; intros off s w [|fuel] Hb Hh H0 Hle Hgood Hf; cbn in Hf; try lia;
    cbn [receiveLoop]; rewrite Hb; cbn [orFault mbind result_bind].
  - unfold receiveEncoding in *. cbn [map concat app] in *. change (zlength (replicate 8 0)) with 8 in Hle.
    change (replicate 8 0) with (replicate 6 0 ++ [0; 0]) in Hh. apply holds_app_inv in Hh as [_ Hh]. change (zlength (replicate 6 0)) with 6 in Hh.
    change 2 with (zlength [0; 0]). rewrite (receivedBytes_ok _ _ _ Hh); [done|lia|]. change (zlength [0; 0]) with 2. lia.
  - assert (Henc : receiveEncoding ((ip, port, data) :: ds) = le32 ip ++ le16 port ++ le16 (zlength data) ++ data ++ receiveEncoding ds).
    { unfold receiveEncoding. cbn [map concat]. unfold encodeReceived at 1. by rewrite <- !app_assoc. }
    rewrite Henc in *. apply Forall_cons in Hgood as [(Hip & Hport & Hdata) Hgood].
    rewrite !zlength_app, zlength_le32, !zlength_le16 in Hle. pose proof (zlength_nonneg (receiveEncoding ds)).
    pose proof Hh as Hall. apply holds_app_inv in Hh as [G1 Hh]. rewrite zlength_le32 in Hh.
    apply holds_app_inv in Hh as [G2 Hh]. rewrite zlength_le16 in Hh. apply holds_app_inv in Hh as [G3 Hh]. rewrite zlength_le16 in Hh.
    apply holds_app_inv in Hh as [G4 G5].
    destruct (le32_decode ip Hip) as (a0 & a1 & a2 & a3 & Ea & Hea). destruct (le16_decode port Hport) as (p0 & p1 & Ep & Hep & _).
    pose proof (zlength_nonneg data).
    destruct (le16_decode (zlength data)) as (z0 & z1 & Ez & Hez & Hnz); [unfold is_u16; lia|].
    replace (off + 4 + 2) with (off + 6) in * by lia. rewrite Ez in G3.
    pose proof (receivedBytes_ok b (off + 6) [z0; z1] G3 ltac:(lia)) as E3. change (zlength [z0; z1]) with 2 in E3.
    rewrite E3 by lia. cbn [mbind result_bind beforeEmpty].
    destruct (Z.eqb_spec (zlength data) 0) as [Hd0|Hd0].
    { rewrite Hd0 in Ez. injection Ez as <- <-. by rewrite bool_decide_true. }
    rewrite bool_decide_false by (by apply Hnz).
    assert (receivedBytes b off 8 = Ok (le32 ip ++ le16 port ++ le16 (zlength data))) as ->.
    { change 8 with (zlength (le32 ip ++ le16 port ++ le16 (zlength data))). apply receivedBytes_ok; [|done|].
      - rewrite !app_assoc in Hall. rewrite <- app_assoc in Hall. apply holds_app_inv in Hall as [Hall _]. by rewrite <- app_assoc in Hall.
      - change (zlength (le32 ip ++ le16 port ++ le16 (zlength data))) with 8. lia. }
    cbn [mbind result_bind]. rewrite Ea in G1. rewrite Ep in G2.
    apply holds_cons in G1 as [Ha0 G1]. apply holds_cons in G1 as [Ha1 G1]. apply holds_cons in G1 as [Ha2 G1]. apply holds_cons in G1 as [Ha3 _].
    apply holds_cons in G2 as [Hp0 G2]. apply holds_cons in G2 as [Hp1 _]. apply holds_cons in G3 as [Hz0 G3]. apply holds_cons in G3 as [Hz1 _].
    replace (off + 1 + 1 + 1) with (off + 3) in * by lia. replace (off + 1 + 1) with (off + 2) in * by lia.
    replace (off + 4 + 1) with (off + 5) in * by lia. replace (off + 6 + 1) with (off + 7) in * by lia. rewrite Z.add_0_r.
    rewrite Ha0, Ha1, Ha2, Ha3, Hp0, Hp1, Hz0, Hz1, Hea, Hep, Hez. change RECEIVE_BUFFER_HEADER_SIZE with 8.
    replace (off + 6 + 2) with (off + 8) in * by lia. rewrite (receivedBytes_ok b (off + 8) data G4) by lia. cbn [mbind result_bind].
    cbn [handleAll]. destruct (handlePacketFromReceiveBuffer s w path0 ip port (zlength data) data) as [[s1 w1]|f] eqn:E; [|done].
    cbn [mbind result_bind fst snd]. apply handlePacket_receive in E as [E1 E2].
    replace (off + (8 + zlength data)) with (off + 8 + zlength data) by lia. apply IH; try done; try lia. by rewrite E1, E2.
Qed.

Lemma RECEIVE_FUEL_eq : Z.of_nat RECEIVE_FUEL = 24576.
Proof. unfold RECEIVE_FUEL. rewrite Z2Nat.id; [done|]. by vm_compute. Qed.

Lemma encoding_long ds : Forall goodReceived ds -> 8 * Z.of_nat (length ds) + 8 <= zlength (receiveEncoding ds).
Proof.
  induction 1 as [|[[ip port] data] ds (_ & _ & Hd) _ IH]; [done|].
  assert (receiveEncoding ((ip, port, data) :: ds) = encodeReceived (ip, port, data) ++ receiveEncoding ds) as ->.
  { unfold receiveEncoding. cbn [map concat]. by rewrite <- app_assoc. }
  unfold encodeReceived. rewrite !zlength_app, zlength_le32, !zlength_le16. cbn [length]. pose proof (zlength_nonneg data). lia.
Qed.

(** The two bytes that are tested before the buffer is taken. *)
Lemma encoding_start b ds :
  holds b 0 (receiveEncoding ds) -> Forall goodReceived ds ->
  negb (b 6 =? 0) || negb (b 7 =? 0) = negb (bool_decide (beforeEmpty ds = [])).
Proof.
  intros Hh Hgood. unfold receiveEncoding in Hh. destruct ds as [|[[ip port] data] ds]; cbn [map concat beforeEmpty] in *.
  { cbn [app] in Hh. change (replicate 8 0) with (replicate 6 0 ++ [0; 0]) in Hh. apply holds_app_inv in Hh as [_ Hh].
    change (0 + zlength (replicate 6 0)) with 6 in Hh. apply holds_cons in Hh as [-> Hh].
    change (6 + 1) with 7 in Hh. by apply holds_cons in Hh as [-> _]. }
  apply Forall_cons in Hgood as [(_ & _ & Hdata) _]. pose proof (zlength_nonneg data).
  unfold encodeReceived in Hh. rewrite <- !app_assoc in Hh.
  apply holds_app_inv in Hh as [_ Hh]. apply holds_app_inv in Hh as [_ Hh]. apply holds_app_inv in Hh as [Hh _].
  rewrite zlength_le32, zlength_le16 in Hh. destruct (le16_decode (zlength data)) as (z0 & z1 & Ez & _ & Hnz); [unfold is_u16; lia|].
  rewrite Ez in Hh. change (0 + 4 + 2) with 6 in Hh. apply holds_cons in Hh as [-> Hh]. change (6 + 1) with 7 in Hh.
  apply holds_cons in Hh as [-> _]. destruct (Z.eqb_spec (zlength data) 0) as [E|E].
  - rewrite E in Ez. by injection Ez as <- <-.
  - destruct (Z.eqb_spec z0 0) as [->|]; [|done]. destruct (Z.eqb_spec z1 0) as [->|]; [|done]. by destruct Hnz.
Qed.

(** C34: when the packets of the kernel's receive buffer are encoded one after
    the other, the server hands those before the first packet without data, in
    order, with their sources and their bytes to the packet handler, gives the
    kernel the other buffer before and changes the buffers after.  A packet
    without data is taken for the end: what follows it is never handed over, and
    if the first packet has no data the server does nothing. *)
Theorem attemptReceiveBufferSwap_traverses s l (w : W) path0 ds b :
  serverInv s l -> Forall goodReceived ds ->
  (receiveBuffers s).[currentlyWrittenToReceiveBuffer s] = Some b -> holds b 0 (receiveEncoding ds) ->
  zlength (receiveEncoding ds) <= RECEIVE_BUFFER_SIZE ->
  if bool_decide (beforeEmpty ds = []) then attemptReceiveBufferSwap s w path0 = Ok (s, w)
  else exists s1, sysSetReceiveBuffer s (1 - currentlyWrittenToReceiveBuffer s) = Ok s1 /\
    syscalls s1 = syscalls s ++ [SysSetReceiveBuffer (u8 (socketID s)) (1 - currentlyWrittenToReceiveBuffer s) RECEIVE_BUFFER_SIZE] /\
    attemptReceiveBufferSwap s w path0 =
      r ← handleAll path0 (beforeEmpty ds) s1 w;
      Ok (withReceive (fst r) (receiveBuffers (fst r)) (1 - currentlyWrittenToReceiveBuffer (fst r)) (syscalls (fst r)), snd r).
Proof.
  intros Hs Hgood Hb Hh Hle. unfold attemptReceiveBufferSwap.
  generalize RECEIVE_FUEL_eq. generalize RECEIVE_FUEL as fuel. intros fuel Hfuel. rewrite Hb. cbn [orFault mbind result_bind].
  rewrite (encoding_start b ds Hh Hgood). destruct (bool_decide _); [done|]. cbn [negb].
  pose proof (inv_receiving _ _ Hs) as Hcur. pose proof (inv_receive _ _ Hs) as Hlen.
  set (c := currentlyWrittenToReceiveBuffer s) in *. unfold sysSetReceiveBuffer.
  destruct (znth_lt_Some (receiveBuffers s) (1 - c)) as [b' Hb']; [lia|]. rewrite Hb'. cbn [orFault mbind result_bind].
  eexists. split; [done|]. split; [done|].
  erewrite (receiveLoop_ok fuel path0 ds 0); try done; cbn.
  - destruct (handleAll _ _ _ _) as [[s' w']|]; done.
  - fold c. rewrite znth_zset_ne by lia. done.
  - apply Nat2Z.inj_lt. rewrite Hfuel. pose proof (encoding_long ds Hgood). unfold RECEIVE_BUFFER_SIZE in Hle. lia.
Qed.
End receive.

(** ** The server of the operating system, with three registered paths *)

Definition dataPath : list Z := tasksPath ++ [47; 100; 97; 116; 97; 47; 94]. (* /tasks/^/data/^ *)
Definition blankServer : CoAPServer :=
  mkCoAPServer (replicate 10 (mkElement (mkCoAPPath (replicate 100 0) 0 0 0) None None)) None None 0
    [fun _ => 0; fun _ => 0] 0 [fun _ => 0; fun _ => 0] 0 0 0 0 [].
Definition bootServer : CoAPServer :=
  match (s ← newCoAPServer blankServer 5683 3; s ← setPathHandler s tasksPath 0; s ← setPathHandler s statePath 1;
         setPathHandler s dataPath 2) with
  | Ok s => s
  | Fault _ => blankServer
  end.

Lemma bootServer_inv : serverInv bootServer [2; 1; 0].
Proof.
  split; try (by vm_compute); [|by right; vm_compute|by left; vm_compute].
  split; [by apply (bool_decide_unpack _)|]. split; [vm_compute; lia|]. split; [by vm_compute|].
  intros i [->|[->|[->|[]%not_elem_of_nil]%elem_of_cons]%elem_of_cons]%elem_of_cons; eexists; (split; [vm_compute; reflexivity|]);
    (split; [by vm_compute|]); by vm_compute.
Qed.

(** Handlers that answer with the first bytes of the payload. *)
#[local] Instance echoHandlers : CoAPHandlers nat := {
  handle h m pa f data w := Ok (S w, mkCoAPResponse CONTENT_RESPONSE_CODE (zlength (take 4 data)) f, take 4 data)
}.
#[local] Instance echoHandlers_ok : CoAPHandlersOk nat (fun _ => True).
Proof.
  split. intros h m pa f data w _ _ _ _. eexists _, _, _. split; [done|]. split; [done|]. split; [apply zlength_nonneg|].
  unfold zlength. rewrite length_take. change RESPONSE_BUFFER_SIZE with 65536. lia.
Qed.

(** [PUT /tasks/77] with the payload 1 2 3. *)
Definition sampleOptions : list Z := [0xB5; 116; 97; 115; 107; 115; 0x02; 55; 55; 0xFF; 1; 2; 3].
Definition sampleRequest : list Z := requestPacket 0 3 7 9 [5; 6] sampleOptions.

Ltac all_bytes := repeat (constructor; [unfold is_u8; lia|]); constructor.

Lemma sampleRequest_bytes : Forall is_u8 sampleRequest.
Proof. unfold sampleRequest, requestPacket, sampleOptions. change (zlength [5; 6]) with 2. cbn. all_bytes. Qed.

Lemma handlePacket_safe_witness :
  serverInv bootServer [2; 1; 0] /\
  exists s' w', handlePacketFromReceiveBuffer bootServer 0%nat (replicate 101 1) 42 43 (zlength sampleRequest) sampleRequest = Ok (s', w') /\
    serverInv s' [2; 1; 0] /\ True.
Proof.
  split; [exact bootServer_inv|].
  apply (handlePacket_safe (fun _ => True) bootServer [2; 1; 0]); [exact bootServer_inv|exact I|exact sampleRequest_bytes|by vm_compute|done|].
  by vm_compute.
Defined.

Lemma no_match (es : list (Element CoAPPath)) j q s :
  valueOf es j = Some q -> 0 ∉ s -> (exists p, valueOf es j = Some p /\ reach (pattern p) (s ++ [0]) = None) -> ~ pathMatches (pattern q) s.
Proof.
  intros Hq H0 (p & Hp & Hr) Hm. rewrite Hq in Hp. injection Hp as <-. apply reach_matches in Hm; [|done]. rewrite Hr in Hm.
  by destruct Hm.
Qed.

Lemma sample_firstMatch :
  exists p, firstMatch (pathListElements bootServer) [2; 1; 0] (wholePath (requestPath [(11, [116; 97; 115; 107; 115]); (11, [55; 55])])) 0 p /\ pHandler p = 0.
Proof.
  eexists. split; [|shelve]. exists [2; 1], []. split; [done|]. split; [vm_compute; reflexivity|]. split.
  - apply reach_matches; [by apply (bool_decide_unpack _)|]. vm_compute. by eexists.
  - intros j q Hj Hq. eapply no_match; [exact Hq|by apply (bool_decide_unpack _)|].
    apply elem_of_cons in Hj as [->|Hj%list_elem_of_singleton]; [|subst j]; eexists; (split; [vm_compute; reflexivity|by vm_compute]).
  Unshelve. done.
Qed.

Lemma handlePacket_responds_witness :
  serverInv bootServer [2; 1; 0] /\
  exists s2 b, handlePacketFromReceiveBuffer bootServer 0%nat (replicate 101 1) 42 43 (zlength sampleRequest) sampleRequest
      = Ok (attemptWriteBufferSwap s2, 1%nat) /\
    currentlySendingWritebuffer s2 = 1 /\ (writeBuffers s2).[0] = Some b /\
    holds b 0 (encodeResponse 42 43 true 7 9 [5; 6] (mkCoAPResponse CONTENT_RESPONSE_CODE 3 Text_Plain_Charset_UTF8) [1; 2; 3]) /\
    currentlyWrittenToWriteBufferDataLen s2 =
      zlength (encodeResponse 42 43 true 7 9 [5; 6] (mkCoAPResponse CONTENT_RESPONSE_CODE 3 Text_Plain_Charset_UTF8) [1; 2; 3]).
Proof.
  split; [exact bootServer_inv|]. destruct sample_firstMatch as (p & Hp & _).
  apply (handlePacket_responds bootServer [2; 1; 0] 0%nat (replicate 101 1) 42 43 0 3 PUT 7 9 [5; 6] sampleOptions
    [(11, [116; 97; 115; 107; 115]); (11, [55; 55])] [0xFF; 1; 2; 3] Text_Plain_Charset_UTF8 0 p);
    [exact bootServer_inv|done|by left|done|done|exact sampleRequest_bytes|by vm_compute|by vm_compute|by apply (bool_decide_unpack _)
    |done|exact Hp|done|done|by vm_compute|by vm_compute|by vm_compute].
Defined.

Definition blankUnused : list Z := [3; 4; 5; 6; 7; 8; 9].

Lemma bootServer_free : freePaths bootServer [2; 1; 0] blankUnused.
Proof.
  split; [by apply (bool_decide_unpack _)|vm_compute; lia|by vm_compute|by vm_compute|].
  intros i Hi. unfold blankUnused in Hi. rewrite !elem_of_cons in Hi.
  destruct Hi as [->|[->|[->|[->|[->|[->|[->|Hi]]]]]]]; [eexists; (split; [vm_compute; reflexivity|by vm_compute])..|]. by apply not_elem_of_nil in Hi.
Qed.

Lemma setPathHandler_registers_witness :
  serverInv bootServer [2; 1; 0] /\
  exists i u' s' p, blankUnused = i :: u' /\ setPathHandler bootServer [47; 97] 5 = Ok s' /\ serverInv s' (i :: [2; 1; 0]) /\
    freePaths s' (i :: [2; 1; 0]) u' /\ valueOf (pathListElements s') i = Some p /\ pattern p = [47; 97] /\ pHandler p = 5 /\
    forall j, j <> i -> valueOf (pathListElements s') j = valueOf (pathListElements bootServer) j.
Proof.
  split; [exact bootServer_inv|].
  exact (setPathHandler_registers bootServer [2; 1; 0] blankUnused [47; 97] 5 bootServer_inv bootServer_free).
Defined.

Definition receivingServer (bs : list Z) : CoAPServer :=
  withReceive bootServer [storeBytes (fun _ => 0) 0 bs; fun _ => 0] 0 [].

Lemma receivingServer_inv bs : serverInv (receivingServer bs) [2; 1; 0].
Proof. destruct bootServer_inv. split; try done; by left. Qed.

(** Two packets, one without data, and one that is not handed over. *)
Definition sampleReceived : list (Z * Z * list Z) := [(42, 43, sampleRequest); (44, 45, [1]); (46, 47, []); (48, 49, [2])].

Lemma attemptReceiveBufferSwap_traverses_witness :
  exists s1, sysSetReceiveBuffer (receivingServer (receiveEncoding sampleReceived)) 1 = Ok s1 /\
    syscalls s1 = [SysSetReceiveBuffer 3 1 RECEIVE_BUFFER_SIZE] /\
    attemptReceiveBufferSwap (receivingServer (receiveEncoding sampleReceived)) 0%nat (replicate 101 0) =
      r ← handleAll (replicate 101 0) [(42, 43, sampleRequest); (44, 45, [1])] s1 0%nat;
      Ok (withReceive (fst r) (receiveBuffers (fst r)) (1 - currentlyWrittenToReceiveBuffer (fst r)) (syscalls (fst r)), snd r).
Proof.
  apply (attemptReceiveBufferSwap_traverses (receivingServer (receiveEncoding sampleReceived)) [2; 1; 0] 0%nat (replicate 101 0) sampleReceived
    (storeBytes (fun _ => 0) 0 (receiveEncoding sampleReceived))).
  - apply receivingServer_inv.
  - do 4 (constructor; [by vm_compute|]). constructor.
  - done.
  - apply holds_stored.
  - by vm_compute.
Defined.


