(* ===== verification/TaskManager.v ===== *)
(** User tasks by number: [operating_system/os_management_task/task_manager.{h,cpp}].

    The task objects live in an array of buffers, [None] before one is
    constructed; the pairs of buffer index and task number are elements of two
    singly linked lists (the field [prev] of [LinkedLists.Element] is unused
    here).  The lemmas show the lists as a finite map from task numbers to
    buffers. *)
From S2P Require Import Prelude Mem LinkedLists Paging PageAllocator SocketManager CpuCore.

Definition VIRTUAL_TASK_SPACE_BEGIN_ADDR : Z := 0x2000000.
Definition TASK_MANAGER_MAX_TASKS : nat := 100.

Inductive CreateUserTaskResult := CREATED | ID_IS_NULL | ID_ALREADY_EXISTS | NO_FREE_TASK.
Inductive RemoveUserTaskResult := REMOVED | REMOVED_ID_IS_NULL | ID_DOES_NOT_EXIST.

(** [Pair<unsigned int, unsigned int>]: buffer index and task number. *)
Record TaskManager := mkTaskManager {
  userTaskBuffers : list (option Task);
  taskLinkedListElements : list (Element (Z * Z));
  activeTasksLinkedListHead : option Z;
  unusedTaskLinkedListElementsHead : option Z;
}.

Definition newTaskManager : TaskManager :=
  mkTaskManager (replicate TASK_MANAGER_MAX_TASKS None)
    (map (fun i => mkElement (Z.of_nat i, 0) (if (i =? 99)%nat then None else Some (Z.of_nat (i + 1))) None) (seq 0 100))
    None (Some 0).

(** The loop shared by [createUserTask], [getUserTask] and [removeUserTask]:
    the element with the number and the one before it. *)
Fixpoint findTask (fuel : nat) (es : list (Element (Z * Z))) (previous current : option Z) (id : Z)
  : result (option (option Z * Z)) :=
  match fuel with
  | O => Fault OutOfFuel
  | S fuel =>
      match current with
      | None => Ok None
      | Some i =>
          v ← getValue es i;
          if snd v =? id then Ok (Some (previous, i))
          else n ← getNext es i; findTask fuel es current n id
      end
  end.

Definition lookupTask (tm : TaskManager) (id : Z) : result (option (option Z * Z)) :=
  findTask (S TASK_MANAGER_MAX_TASKS) (taskLinkedListElements tm) None (activeTasksLinkedListHead tm) id.

Definition getBuffer (tm : TaskManager) (i : Z) : result (option Task) := (userTaskBuffers tm).[i] ?? OutOfRange.

(** The buffer index of the task, which stands for its address. *)
Definition getUserTask (tm : TaskManager) (id : Z) : result (option Z) :=
  r ← lookupTask tm id;
  match r with
  | None => Ok None
  | Some (_, i) => v ← getValue (taskLinkedListElements tm) i; Ok (Some (fst v))
  end.

Section tasks.
Context (cr0 : Z) (virtualPage : Z -> option PageTable) (junk : Z -> Z).

Definition createUserTask (tm : TaskManager) (c : CpuCore) (id : Z) : result (TaskManager * CpuCore * CreateUserTaskResult) :=
  if id =? 0 then Ok (tm, c, ID_IS_NULL)
  else
    r ← lookupTask tm id;
    if bool_decide (is_Some r) then Ok (tm, c, ID_ALREADY_EXISTS)
    else
      match unusedTaskLinkedListElementsHead tm with
      | None => Ok (tm, c, NO_FREE_TASK)
      | Some i =>
          let es := taskLinkedListElements tm in
          unused ← getNext es i;
          v ← getValue es i;
          es ← setValue es i (fst v, id);
          es ← setNext es i (activeTasksLinkedListHead tm);
          r ← newUserTask cr0 virtualPage junk c VIRTUAL_TASK_SPACE_BEGIN_ADDR;
          let '(c, t) := r in
          _ ← getBuffer tm (fst v);
          Ok (mkTaskManager (userTaskBuffers tm).[fst v := Some t] es (Some i) unused, c, CREATED)
      end.
End tasks.

Definition removeUserTask (tm : TaskManager) (c : CpuCore) (id : Z) : result (TaskManager * CpuCore * RemoveUserTaskResult) :=
  if id =? 0 then Ok (tm, c, REMOVED_ID_IS_NULL)
  else
    r ← lookupTask tm id;
    match r with
    | None => Ok (tm, c, ID_DOES_NOT_EXIST)
    | Some (previous, i) =>
        n ← getNext (taskLinkedListElements tm) i;
        r ← setNextOrHead (taskLinkedListElements tm) previous (activeTasksLinkedListHead tm) n;
        let '(es, active) := r in
        es ← setNext es i (unusedTaskLinkedListElementsHead tm);
        v ← getValue es i;
        b ← getBuffer tm (fst v);
        t ← b ?? Uninitialised;
        c ← destroyTask c t;
        Ok (mkTaskManager (userTaskBuffers tm).[fst v := None] es active (Some i), c, REMOVED)
    end.

(** [~TaskManager]: the loop over the active tasks. *)
Fixpoint destroyTasks (fuel : nat) (tm : TaskManager) (current : option Z) (c : CpuCore) : result CpuCore :=
  match fuel with
  | O => Fault OutOfFuel
  | S fuel =>
      match current with
      | None => Ok c
      | Some i =>
          v ← getValue (taskLinkedListElements tm) i;
          b ← getBuffer tm (fst v);
          t ← b ?? Uninitialised;
          c ← destroyTask c t;
          n ← getNext (taskLinkedListElements tm) i;
          destroyTasks fuel tm n c
      end
  end.

Definition destroyTaskManager (tm : TaskManager) (c : CpuCore) : result CpuCore :=
  destroyTasks (S TASK_MANAGER_MAX_TASKS) tm (activeTasksLinkedListHead tm) c.

(** ** The invariant *)

(** [active] and [unused] are the two lists; element [i] always names buffer
    [i], active elements have distinct numbers, other than 0, and a
    constructed task. *)
Record tmInv (tm : TaskManager) (active unused : list Z) : Prop := {
  tm_active : threaded (nextOf (taskLinkedListElements tm)) active None;
  tm_unused : threaded (nextOf (taskLinkedListElements tm)) unused None;
  tm_active_head : activeTasksLinkedListHead tm = firstOf active None;
  tm_unused_head : unusedTaskLinkedListElementsHead tm = firstOf unused None;
  tm_elements : active ++ unused ≡ₚ map Z.of_nat (seq 0 TASK_MANAGER_MAX_TASKS);
  tm_length : zlength (taskLinkedListElements tm) = 100;
  tm_buffers : zlength (userTaskBuffers tm) = 100;
  tm_index : forall i, i ∈ active ++ unused -> exists id, valueOf (taskLinkedListElements tm) i = Some (i, id);
  tm_ids : forall i id, i ∈ active -> valueOf (taskLinkedListElements tm) i = Some (i, id) -> id <> 0 /\ is_Some (mjoin (userTaskBuffers tm).[i]);
  tm_distinct : forall i j id, i ∈ active -> j ∈ active -> valueOf (taskLinkedListElements tm) i = Some (i, id) ->
    valueOf (taskLinkedListElements tm) j = Some (j, id) -> i = j;
}.

(** The tasks by number: the abstract state. *)
Definition hasTask (tm : TaskManager) (active : list Z) (id i : Z) (t : Task) : Prop :=
  i ∈ active /\ valueOf (taskLinkedListElements tm) i = Some (i, id) /\ (userTaskBuffers tm).[i] = Some (Some t).

Lemma tm_nodup tm active unused : tmInv tm active unused -> NoDup (active ++ unused).
Proof. intros []. rewrite tm_elements0. apply (NoDup_fmap_2 Z.of_nat), NoDup_seq. Qed.

Lemma tm_range tm active unused i : tmInv tm active unused -> i ∈ active ++ unused -> 0 <= i < 100.
Proof.
  intros []. rewrite tm_elements0. intros Hi%list_elem_of_In%in_map_iff. destruct Hi as (k & <- & Hk%in_seq). unfold TASK_MANAGER_MAX_TASKS in Hk. lia.
Qed.

Lemma newTaskManager_inv : tmInv newTaskManager [] (map Z.of_nat (seq 0 100)).
Proof.
  split; try done.
  - intros i Hi%list_elem_of_In%in_map_iff. destruct Hi as (k & <- & Hk%in_seq). exists 0.
    unfold valueOf, newTaskManager. cbn [taskLinkedListElements]. rewrite znth_map. unfold znth.
    rewrite (proj2 (Z.leb_le 0 _)) by lia. rewrite Nat2Z.id. rewrite lookup_seq_lt by lia. done.
  - by intros i id ?%not_elem_of_nil.
  - by intros i j id ?%not_elem_of_nil.
Qed.

(** ** The search *)

Lemma mjoin_Some {A} (o : option (option A)) x : mjoin o = Some x -> o = Some (Some x).
Proof. by destruct o as [[]|]; intros [= ->]. Qed.


Lemma findTask_ok fuel es before l id :
  (length l < fuel)%nat -> threaded (nextOf es) l None ->
  (forall i, i ∈ l -> exists d, valueOf es i = Some (i, d)) ->
  (findTask fuel es (lastOf before None) (firstOf l None) id = Ok None /\
     forall i, i ∈ l -> valueOf es i <> Some (i, id)) \/
  exists l1 i l2, l = l1 ++ i :: l2 /\ valueOf es i = Some (i, id) /\
    findTask fuel es (lastOf before None) (firstOf l None) id = Ok (Some (lastOf (before ++ l1) None, i)).
Proof.
  revert before fuel. induction l as [|i l IH]; intros before [|fuel] Hf Hth Hv; cbn in Hf; try lia; cbn [findTask firstOf].
  { left. split; [done|]. by intros i ?%not_elem_of_nil. }
  destruct Hth as [Hn Hth]. destruct (Hv i) as [d Hd]; [by left|]. rewrite (getValue_ok _ _ _ Hd). cbn.
  destruct (Z.eqb_spec d id) as [->|Hne].
  { right. exists [], i, l. rewrite app_nil_r. by split_and!. }
  rewrite (getNext_ok _ _ _ Hn). cbn. rewrite <- (lastOf_snoc before i None).
  destruct (IH (before ++ [i]) fuel) as [[-> Hno]|(l1 & j & l2 & -> & Hj & ->)]; [lia|done|by intros j Hj; apply Hv; right| |].
  - left. split; [done|]. intros j [->|Hj]%elem_of_cons; [|by apply Hno]. rewrite Hd. congruence.
  - right. exists (i :: l1), j, l2. split; [done|]. split; [done|]. by rewrite <- app_assoc.
Qed.

Lemma lookupTask_ok tm active unused id :
  tmInv tm active unused ->
  (lookupTask tm id = Ok None /\ forall i t, ~ hasTask tm active id i t) \/
  exists l1 i l2 t, active = l1 ++ i :: l2 /\ hasTask tm active id i t /\ lookupTask tm id = Ok (Some (lastOf l1 None, i)).
Proof.
  intros Hi. pose proof Hi as []. unfold lookupTask. rewrite tm_active_head0.
  destruct (findTask_ok (S TASK_MANAGER_MAX_TASKS) (taskLinkedListElements tm) [] active id) as [[E Hno]|(l1 & i & l2 & -> & Hv & E)].
  - apply Permutation_length in tm_elements0. rewrite length_map, length_seq, length_app in tm_elements0.
    unfold TASK_MANAGER_MAX_TASKS in *. lia.
  - done.
  - intros i Ha. apply tm_index0, elem_of_app. by left.
  - left. split; [exact E|]. intros i t (Ha & Hv & _). by destruct (Hno i Ha).
  - right. assert (i ∈ l1 ++ i :: l2) as Ha by (apply elem_of_app; right; by left).
    destruct (tm_ids0 i id Ha Hv) as [_ [t Ht]]. exists l1, i, l2, t. split; [done|]. split; [|exact E]. split; [done|]. split; [done|].
    by apply mjoin_Some.
Qed.

Lemma removed_cons {A} (l1 : list A) i l2 u : l1 ++ i :: l2 ++ u ≡ₚ (l1 ++ l2) ++ i :: u.
Proof. rewrite <- app_assoc. f_equiv. apply Permutation_middle. Qed.

(** ** The operations on the abstract state *)

(** Element [i] is taken from the unused list, gets number [id] and task [t]. *)
Lemma activate_inv tm active unused i id t es :
  tmInv tm active (i :: unused) -> id <> 0 -> (forall i t, ~ hasTask tm active id i t) ->
  zlength es = 100 -> updated (valueOf (taskLinkedListElements tm)) (valueOf es) i (i, id) ->
  updated (nextOf (taskLinkedListElements tm)) (nextOf es) i (firstOf active None) ->
  tmInv (mkTaskManager (userTaskBuffers tm).[i := Some t] es (Some i) (firstOf unused None)) (i :: active) unused.
Proof.
  intros Hi Hid Hno Hlen [Hvi Hv] Hn. pose proof (tm_nodup _ _ _ Hi) as Hnd.
  assert (Hir : 0 <= i < 100) by (eapply tm_range; [exact Hi|]; apply elem_of_app; right; by left).
  destruct Hi. destruct tm_unused0 as [_ Hun].
  apply NoDup_app in Hnd as (_ & Hdis & Hndu). apply NoDup_cons in Hndu as [Hiu _].
  assert (Hia : i ∉ active) by (intros Ha; apply (Hdis i Ha); by left).
  assert (Hb : forall j, j <> i -> (userTaskBuffers tm).[i := Some t].[j] = (userTaskBuffers tm).[j]) by (intros; by apply znth_zset_ne).
  assert (Hfresh : forall j, j ∈ active -> valueOf (taskLinkedListElements tm) j <> Some (j, id)).
  { intros j Hj Hjv. destruct (tm_ids0 j id Hj Hjv) as [_ [t' Ht']]. apply (Hno j t'). split; [done|]. split; [done|].
    by apply mjoin_Some. }
  split; cbn; try done.
  - split; [apply Hn|by eapply threaded_updated].
  - by eapply threaded_updated.
  - rewrite <- tm_elements0. apply (Permutation_middle active unused i).
  - by rewrite zlength_zset.
  - intros j Hj. destruct (decide (j = i)) as [->|Hne]; [by exists id|]. rewrite Hv by done. apply tm_index0.
    apply elem_of_cons in Hj as [?|Hj]; [done|]. rewrite elem_of_app in *. destruct Hj; [by left|]. right. by right.
  - intros j d' Hj Hd'. destruct (decide (j = i)) as [->|Hne].
    + rewrite Hvi in Hd'. simplify_eq. rewrite znth_zset_eq by lia. by split.
    + rewrite Hv in Hd' by done. rewrite Hb by done. apply tm_ids0; [|done]. by apply elem_of_cons in Hj as [?|?].
  - intros j k d' Hj Hk Hjd Hkd. apply elem_of_cons in Hj, Hk.
    destruct (decide (j = i)) as [->|Hji], (decide (k = i)) as [->|Hki]; try done.
    + rewrite Hvi in Hjd. simplify_eq. rewrite Hv in Hkd by done. destruct Hk as [?|Hk]; [done|]. by destruct (Hfresh k Hk).
    + rewrite Hvi in Hkd. simplify_eq. rewrite Hv in Hjd by done. destruct Hj as [?|Hj]; [done|]. by destruct (Hfresh j Hj).
    + rewrite Hv in Hjd, Hkd by done. destruct Hj as [?|Hj]; [done|]. destruct Hk as [?|Hk]; [done|]. by eapply tm_distinct0.
Qed.

(** Element [i] goes back to the unused list. *)
Lemma deactivate_inv tm l1 i l2 unused es active :
  tmInv tm (l1 ++ i :: l2) unused -> zlength es = 100 -> unchanged (valueOf (taskLinkedListElements tm)) (valueOf es) ->
  threaded (nextOf es) (l1 ++ l2) None -> threaded (nextOf es) (i :: unused) None -> active = firstOf (l1 ++ l2) None ->
  tmInv (mkTaskManager (userTaskBuffers tm).[i := None] es active (Some i)) (l1 ++ l2) (i :: unused).
Proof.
  intros Hi Hlen Hv Ha Hu Hhead. pose proof (tm_nodup _ _ _ Hi) as Hnd.
  assert (Hperm : (l1 ++ i :: l2) ++ unused ≡ₚ (l1 ++ l2) ++ i :: unused).
  { rewrite <- app_assoc. cbn. apply removed_cons. }
  rewrite Hperm in Hnd. apply NoDup_app in Hnd as (_ & Hd & _).
  destruct Hi. split; try done; cbn.
  - by rewrite <- Hperm.
  - by rewrite zlength_zset.
  - intros j Hj. rewrite Hv. apply tm_index0. by rewrite Hperm.
  - intros j id Hj Hjv. rewrite Hv in Hjv. assert (j <> i) by (intros ->; apply (Hd i Hj); by left).
    rewrite znth_zset_ne by done. apply tm_ids0; [|done]. apply (elem_of_app l1). apply elem_of_app in Hj as [|]; [by left|]. right. by right.
  - intros j k id Hj Hk. rewrite !Hv. apply tm_distinct0; apply (elem_of_app l1); rewrite elem_of_app in *; rewrite elem_of_cons; tauto.
Qed.

Section create.
Context (cr0 : Z) (virtualPage : Z -> option PageTable) (junk : Z -> Z).

Lemma createUserTask_creates tm c id active i unused c' t :
  tmInv tm active (i :: unused) -> id <> 0 -> (forall i t, ~ hasTask tm active id i t) ->
  newUserTask cr0 virtualPage junk c VIRTUAL_TASK_SPACE_BEGIN_ADDR = Ok (c', t) ->
  exists tm', createUserTask cr0 virtualPage junk tm c id = Ok (tm', c', CREATED) /\ tmInv tm' (i :: active) unused /\
    hasTask tm' (i :: active) id i t /\
    forall id' j t', id' <> id -> hasTask tm' (i :: active) id' j t' <-> hasTask tm active id' j t'.
Proof.
  intros Hi Hid Hno Hnew. unfold createUserTask. rewrite (proj2 (Z.eqb_neq id 0)) by done.
  destruct (lookupTask_ok tm active _ id Hi) as [[-> _]|(l1 & j & l2 & t' & _ & Ht & _)]; [|by destruct (Hno j t')].
  cbn [mbind result_bind]. rewrite bool_decide_false by by intros [].
  assert (Hir : 0 <= i < 100) by (eapply tm_range; [exact Hi|]; apply elem_of_app; right; by left).
  pose proof Hi as []. rewrite tm_unused_head0. cbn [firstOf]. destruct tm_unused0 as [Hn _].
  destruct (tm_index0 i) as [d Hd]; [apply elem_of_app; right; by left|].
  rewrite (getNext_ok _ _ _ Hn). cbn [mbind result_bind]. rewrite (getValue_ok _ _ _ Hd). cbn [mbind result_bind fst].
  destruct (setValue_ok (taskLinkedListElements tm) i (i, id)) as (es1 & -> & Hl1 & Hv1 & Hn1 & _); [lia|]. cbn [mbind result_bind].
  destruct (setNext_ok es1 i (activeTasksLinkedListHead tm)) as (es2 & -> & Hl2 & Hn2 & Hv2 & _); [lia|]. cbn [mbind result_bind].
  rewrite Hnew. cbn [mbind result_bind]. unfold getBuffer. destruct (znth_lt_Some (userTaskBuffers tm) i) as [b0 Hb0]; [lia|].
  rewrite Hb0. cbn [orFault mbind result_bind]. eexists. split; [done|].
  assert (Hv : updated (valueOf (taskLinkedListElements tm)) (valueOf es2) i (i, id)).
  { split; [rewrite Hv2; apply Hv1|]. intros j Hj. by rewrite Hv2, (proj2 Hv1). }
  assert (Hinv : tmInv (mkTaskManager (userTaskBuffers tm).[i := Some t] es2 (Some i) (firstOf unused None)) (i :: active) unused).
  { apply (activate_inv tm active unused i id t es2); try done; [lia|]. split; [by rewrite <- tm_active_head0; apply Hn2|].
    intros j Hj. by rewrite (proj2 Hn2), Hn1. }
  split; [done|]. split.
  - split; [by left|]. split; [apply Hv|]. apply znth_zset_eq. lia.
  - intros id' j t' Hid'. unfold hasTask. cbn. destruct (decide (j = i)) as [->|Hne].
    + rewrite (proj1 Hv). split; [by intros (_ & [= ?] & _)|]. intros (Ha & _). pose proof (tm_nodup _ _ _ Hi) as Hnd.
      apply NoDup_app in Hnd as (_ & Hdis & _). destruct (Hdis i Ha). by left.
    + rewrite (proj2 Hv), znth_zset_ne, elem_of_cons by done. tauto.
Qed.

(** [createUserTask] refuses number 0, numbers in use and a 101st task
    without changing anything; otherwise it constructs one task, which is found
    under its number from then on, and every other number finds the task it
    found before. *)
Theorem createUserTask_correct tm c id active unused :
  tmInv tm active unused ->
  (id = 0 -> createUserTask cr0 virtualPage junk tm c id = Ok (tm, c, ID_IS_NULL)) /\
  (id <> 0 -> (exists i t, hasTask tm active id i t) -> createUserTask cr0 virtualPage junk tm c id = Ok (tm, c, ID_ALREADY_EXISTS)) /\
  (id <> 0 -> (forall i t, ~ hasTask tm active id i t) -> unused = [] ->
     createUserTask cr0 virtualPage junk tm c id = Ok (tm, c, NO_FREE_TASK)) /\
  forall c' t i unused', id <> 0 -> (forall i t, ~ hasTask tm active id i t) -> unused = i :: unused' ->
    newUserTask cr0 virtualPage junk c VIRTUAL_TASK_SPACE_BEGIN_ADDR = Ok (c', t) ->
    exists tm', createUserTask cr0 virtualPage junk tm c id = Ok (tm', c', CREATED) /\ tmInv tm' (i :: active) unused' /\
      hasTask tm' (i :: active) id i t /\
      forall id' j t', id' <> id -> hasTask tm' (i :: active) id' j t' <-> hasTask tm active id' j t'.
Proof.
  intros Hi. split; [|split; [|split]].
  - intros ->. reflexivity.
  - intros Hid (i & t & Ht). unfold createUserTask. rewrite (proj2 (Z.eqb_neq id 0)) by done.
    destruct (lookupTask_ok tm active unused id Hi) as [[_ Hno]|(l1 & j & l2 & t' & _ & _ & ->)]; [by destruct (Hno i t)|].
    cbn [mbind result_bind]. by rewrite bool_decide_true by done.
  - intros Hid Hno ->. unfold createUserTask. rewrite (proj2 (Z.eqb_neq id 0)) by done.
    destruct (lookupTask_ok tm active [] id Hi) as [[-> _]|(l1 & j & l2 & t' & _ & Ht & _)]; [|by destruct (Hno j t')].
    cbn [mbind result_bind]. rewrite bool_decide_false by by intros []. by rewrite (tm_unused_head _ _ _ Hi).
  - intros c' t i unused' Hid Hno -> Hnew. by apply createUserTask_creates.
Qed.
End create.

Lemma removeUserTask_removes tm c id active unused i t c' :
  tmInv tm active unused -> id <> 0 -> hasTask tm active id i t -> destroyTask c t = Ok c' ->
  exists tm' l1 l2, removeUserTask tm c id = Ok (tm', c', REMOVED) /\ active = l1 ++ i :: l2 /\
    tmInv tm' (l1 ++ l2) (i :: unused) /\ (forall j t', ~ hasTask tm' (l1 ++ l2) id j t') /\
    forall id' j t', id' <> id -> hasTask tm' (l1 ++ l2) id' j t' <-> hasTask tm active id' j t'.
Proof.
  intros Hi Hid Ht Hdestroy. unfold removeUserTask. rewrite (proj2 (Z.eqb_neq id 0)) by done.
  destruct (lookupTask_ok tm active unused id Hi) as [[_ Hno]|(l1 & j & l2 & t' & -> & Ht' & ->)]; [by destruct (Hno i t)|].
  assert (j = i) as -> by (eapply tm_distinct; [exact Hi|apply Ht'|apply Ht|apply Ht'|apply Ht]).
  destruct Ht as (Hin & Hv & Hb). cbn [mbind result_bind]. pose proof (tm_nodup _ _ _ Hi) as Hnd.
  pose proof (tm_range _ _ _ i Hi ltac:(apply elem_of_app; by left)) as Hir. pose proof Hi as [].
  pose proof tm_active0 as Hth. apply threaded_app in Hth as [_ [Hn _]]. rewrite (getNext_ok _ _ _ Hn). cbn [mbind result_bind].
  assert (Hprev : forall k, lastOf l1 None = Some k -> 0 <= k < zlength (taskLinkedListElements tm)).
  { intros k Hk. apply lastOf_Some in Hk as (l' & ->). rewrite tm_length0. eapply tm_range; [exact Hi|].
    apply elem_of_app. left. apply elem_of_app. left. apply elem_of_app. right. by left. }
  destruct (setNextOrHead_ok (taskLinkedListElements tm) (lastOf l1 None) (activeTasksLinkedListHead tm) (firstOf l2 None) Hprev)
    as (es1 & -> & Hl1 & Hv1 & _ & Hn1). cbn [mbind result_bind].
  destruct (setNext_ok es1 i (unusedTaskLinkedListElementsHead tm)) as (es2 & -> & Hl2 & Hn2 & Hv2 & _); [lia|]. cbn [mbind result_bind].
  assert (Hv' : unchanged (valueOf (taskLinkedListElements tm)) (valueOf es2)) by (intros k; by rewrite Hv2, Hv1).
  rewrite (getValue_ok es2 i (i, id)) by by rewrite Hv'. cbn [mbind result_bind fst]. unfold getBuffer. rewrite Hb.
  cbn [orFault mbind result_bind]. rewrite Hdestroy. cbn [mbind result_bind]. eexists _, l1, l2. split; [done|]. split; [done|].
  apply NoDup_app in Hnd as (Hnda & Hdis & _).
  assert (Hil : i ∉ l1 ++ l2).
  { rewrite <- Permutation_middle in Hnda. by apply NoDup_cons in Hnda as []. }
  assert (Hinv : tmInv (mkTaskManager (userTaskBuffers tm).[i := None] es2
      (if lastOf l1 None is None then firstOf l2 None else activeTasksLinkedListHead tm) (Some i)) (l1 ++ l2) (i :: unused)).
  { apply deactivate_inv; try done; [lia| | |].
    - eapply threaded_updated; [exact Hn2|done|]. eapply threaded_unlink; [exact tm_active0|done|]. intros k _. apply Hn1.
    - split; [by rewrite <- tm_unused_head0; apply Hn2|]. eapply threaded_frame; [|exact tm_unused0]. intros k Hk.
      assert (k ∉ l1 ++ i :: l2) as Hka by (intros Hka; by apply (Hdis k Hka)).
      rewrite (proj2 Hn2) by (intros ->; apply Hka, elem_of_app; right; by left). rewrite Hn1. rewrite decide_False; [done|].
      intros E. apply lastOf_Some in E as (l' & ->). apply Hka, elem_of_app. left. apply elem_of_app. right. by left.
    - rewrite firstOf_app, tm_active_head0, firstOf_app. destruct (lastOf l1 None) eqn:E; [|by apply lastOf_None in E as ->].
      apply lastOf_Some in E as (l' & ->). by destruct l'. }
  split; [done|]. split.
  + intros k t1 (Hk & Hkv & _). cbn in *. rewrite Hv' in Hkv. apply Hil. replace i with k; [done|].
    eapply tm_distinct0; [|exact Hin|done|done]. apply (elem_of_app l1). rewrite elem_of_app in Hk. rewrite elem_of_cons. tauto.
  + intros id' k t1 Hid'. unfold hasTask. cbn. rewrite Hv'. destruct (decide (k = i)) as [->|Hne].
    * rewrite Hv. split; intros (_ & [= ?] & _); congruence.
    * rewrite znth_zset_ne by done. rewrite !elem_of_app, elem_of_cons. tauto.
Qed.

(** [removeUserTask] refuses numbers that name no task without changing
    anything; otherwise it destroys exactly that task, its number is free, its
    buffer can be used again, and every other number finds the task it found
    before. *)
Theorem removeUserTask_correct tm c id active unused :
  tmInv tm active unused ->
  (id = 0 -> removeUserTask tm c id = Ok (tm, c, REMOVED_ID_IS_NULL)) /\
  (id <> 0 -> (forall i t, ~ hasTask tm active id i t) -> removeUserTask tm c id = Ok (tm, c, ID_DOES_NOT_EXIST)) /\
  forall i t c', id <> 0 -> hasTask tm active id i t -> destroyTask c t = Ok c' ->
    exists tm' l1 l2, removeUserTask tm c id = Ok (tm', c', REMOVED) /\ active = l1 ++ i :: l2 /\
      tmInv tm' (l1 ++ l2) (i :: unused) /\ (forall j t', ~ hasTask tm' (l1 ++ l2) id j t') /\
      forall id' j t', id' <> id -> hasTask tm' (l1 ++ l2) id' j t' <-> hasTask tm active id' j t'.
Proof.
  intros Hi. split; [by intros ->|]. split; [|intros i t c'; by apply removeUserTask_removes].
  intros Hid Hno. unfold removeUserTask. rewrite (proj2 (Z.eqb_neq id 0)) by done.
  destruct (lookupTask_ok tm active unused id Hi) as [[-> _]|(l1 & j & l2 & t' & _ & Ht & _)]; [done|by destruct (Hno j t')].
Qed.

(** ** Witnesses *)

Definition idleCore : CpuCore := newCpuCore newSocketManager 0 (mkPagingStructures (mkPageDirectory [] []) []).
Definition idleTask : Task := mkTask (-1) false (UserTask VIRTUAL_TASK_SPACE_BEGIN_ADDR 0 0 None).

Lemma createUserTask_correct_witness :
  createUserTask 0 (fun _ => None) (fun _ => 0) newTaskManager idleCore 0 = Ok (newTaskManager, idleCore, ID_IS_NULL) /\
  exists tm', createUserTask 0 (fun _ => None) (fun _ => 0) newTaskManager idleCore 7 = Ok (tm', idleCore, CREATED) /\
    tmInv tm' [0] (map Z.of_nat (seq 1 99)) /\ hasTask tm' [0] 7 0 idleTask /\
    forall id' j t', id' <> 7 -> hasTask tm' [0] id' j t' <-> hasTask newTaskManager [] id' j t'.
Proof.
  split.
  - by apply (createUserTask_correct 0 (fun _ => None) (fun _ => 0) newTaskManager idleCore 0 [] _ newTaskManager_inv).
  - apply (createUserTask_correct 0 (fun _ => None) (fun _ => 0) newTaskManager idleCore 7 [] _ newTaskManager_inv); try done.
    intros i t [Hi _]. by apply not_elem_of_nil in Hi.
Defined.

Lemma removeUserTask_correct_witness :
  exists tm, hasTask tm [0] 7 0 idleTask /\
    removeUserTask tm idleCore 8 = Ok (tm, idleCore, ID_DOES_NOT_EXIST) /\
    exists tm' l1 l2, removeUserTask tm idleCore 7 = Ok (tm', idleCore, REMOVED) /\ [0] = l1 ++ 0 :: l2 /\
      tmInv tm' (l1 ++ l2) (0 :: map Z.of_nat (seq 1 99)) /\ (forall j t', ~ hasTask tm' (l1 ++ l2) 7 j t') /\
      forall id' j t', id' <> 7 -> hasTask tm' (l1 ++ l2) id' j t' <-> hasTask tm [0] id' j t'.
Proof.
  assert (Hno : forall id i t, ~ hasTask newTaskManager [] id i t) by (intros id i t [Hi _]; by apply not_elem_of_nil in Hi).
  destruct (createUserTask_creates 0 (fun _ => None) (fun _ => 0) newTaskManager idleCore 7 [] 0 (map Z.of_nat (seq 1 99))
    idleCore idleTask newTaskManager_inv ltac:(done) (Hno 7) eq_refl) as (tm & _ & Hi & Ht & Hrest).
  exists tm. split; [exact Ht|]. split.
  - apply (removeUserTask_correct tm idleCore 8 [0] _ Hi); [done|]. intros i t Hi8. by apply (Hrest 8 i t), Hno in Hi8.
  - by apply (proj2 (proj2 (removeUserTask_correct tm idleCore 7 [0] _ Hi)) 0 idleTask idleCore).
Defined.
