(* ===== verification/ApiHandlers.v ===== *)
(** The handlers of the management API:
    [operating_system/os_management_task/api_handlers.{h,cpp}] and the
    registration of their paths in [os_management_task.cpp].

    The three handler objects, numbered 0 to 2, are an instance of the CoAP
    server's interface [CoAPHandlers]; their state is the task manager, the
    processor core that owns the tasks and the kernel's memory.  A character is
    its byte; the comparisons of the code with ['0'] and ['9'] have the same
    outcome for signed characters. *)
From Stdlib Require Import String Ascii.
From S2P Require Import Prelude Mem LinkedLists Paging PageAllocator SocketManager CpuCore CoapServer TaskManager.

(** The characters of a string literal. *)
Definition chars (s : string) : list Z := map (fun c => Z.of_N (N_of_ascii c)) (list_ascii_of_string s).

Record World := mkWorld {
  taskManager : TaskManager;
  cpuCore : CpuCore;
  memory : Mem;
}.

(** [strlen] of a character array. *)
Fixpoint arrayStrlen (path : list Z) : result Z :=
  match path with
  | [] => Fault OutOfRange
  | c :: path => if c =? 0 then Ok 0 else n ← arrayStrlen path; Ok (n + 1)
  end.

(** ** Numbers in a path *)

Inductive ParseResult :=
| ParseBad
| ParseTooBig
| ParseOk (n i : Z).

(** The loops over the digits of a number, from index [i] on; with [slash] a
    ['/'], though not at index 7, ends the number.  [n] is the number of
    characters left. *)
Fixpoint parseNumber (n : nat) (path : list Z) (slash : bool) (i number : Z) : result ParseResult :=
  match n with
  | O => Ok (ParseOk number i)
  | S n =>
      c ← path.[i] ?? OutOfRange;
      if slash && (c =? SLASH) then Ok (if i =? 7 then ParseBad else ParseOk number i)
      else if (c <? 48) || (57 <? c) then Ok ParseBad
      else
        let number := number * 10 + (c - 48) in
        if 0xFFFFFFFF <? number then Ok ParseTooBig else parseNumber n path slash (i + 1) number
  end.

(** The number that starts at index [begin]. *)
Definition parseFrom (path : list Z) (slash : bool) (begin : Z) : result ParseResult :=
  len ← arrayStrlen path; parseNumber (Z.to_nat (len - begin)) path slash begin 0.

(** ** Responses *)

Definition reply (w : World) (code : Z) : result (World * CoAPResponse * list Z) := Ok (w, emptyResponse code, []).
Definition replyText (w : World) (code : Z) (text : string) : result (World * CoAPResponse * list Z) :=
  Ok (w, mkCoAPResponse code (zlength (chars text)) Text_Plain_Charset_UTF8, chars text).

Definition tooBigTask (w : World) := replyText w BAD_REQUEST_RESPONSE_CODE "Task ID cannot be greater than 0xFFFFFFFF".

Definition withTaskManager (w : World) tm c := mkWorld tm c (memory w).

(** The task object at a buffer index, and its update. *)
Definition readTask (w : World) (b : Z) : result Task := o ← getBuffer (taskManager w) b; o ?? Uninitialised.
Definition writeTask (w : World) (b : Z) (t : Task) (c : CpuCore) (m : Mem) : World :=
  let tm := taskManager w in
  mkWorld (mkTaskManager (userTaskBuffers tm).[b := Some t] (taskLinkedListElements tm) (activeTasksLinkedListHead tm)
             (unusedTaskLinkedListElementsHead tm)) c m.

Section handlers.
Context (cr0 : Z) (virtualPage : Z -> option PageTable) (junk : Z -> Z).
Context (eflags interruptHandlerReturn : Z) (savedRegisters : list Z).

Definition TaskAPI_handlePUT (path : list Z) (w : World) : result (World * CoAPResponse * list Z) :=
  p ← parseFrom path false 7;
  match p with
  | ParseBad => reply w BAD_REQUEST_RESPONSE_CODE
  | ParseTooBig => tooBigTask w
  | ParseOk taskId _ =>
      r ← createUserTask cr0 virtualPage junk (taskManager w) (cpuCore w) taskId;
      let '(tm, c, result) := r in
      let w := withTaskManager w tm c in
      match result with
      | CREATED => reply w CREATED_RESPONSE_CODE
      | ID_IS_NULL => replyText w BAD_REQUEST_RESPONSE_CODE "Task ID cannot be 0"
      | ID_ALREADY_EXISTS => replyText w CONFLICT_RESPONSE_CODE "Task with the given ID already exists"
      | NO_FREE_TASK =>
          replyText w FORBIDDEN_RESPONSE_CODE
            "Too many tasks have already been created, remove some tasks before creating new ones"
      end
  end.

Definition TaskAPI_handleDELETE (path : list Z) (w : World) : result (World * CoAPResponse * list Z) :=
  p ← parseFrom path false 7;
  match p with
  | ParseBad => reply w BAD_REQUEST_RESPONSE_CODE
  | ParseTooBig => tooBigTask w
  | ParseOk taskId _ =>
      r ← removeUserTask (taskManager w) (cpuCore w) taskId;
      let '(tm, c, result) := r in
      let w := withTaskManager w tm c in
      match result with
      | REMOVED => reply w DELETED_RESPONSE_CODE
      | REMOVED_ID_IS_NULL => replyText w BAD_REQUEST_RESPONSE_CODE "Task ID cannot be 0"
      | ID_DOES_NOT_EXIST => replyText w NOT_FOUND_RESPONSE_CODE "Task with the given ID does not exist"
      end
  end.

Definition TaskStateAPI_handleGET (path : list Z) (w : World) : result (World * CoAPResponse * list Z) :=
  p ← parseFrom path true 7;
  match p with
  | ParseBad => reply w BAD_REQUEST_RESPONSE_CODE
  | ParseTooBig => tooBigTask w
  | ParseOk taskId _ =>
      b ← getUserTask (taskManager w) taskId;
      match b with
      | None => reply w NOT_FOUND_RESPONSE_CODE
      | Some b =>
          t ← readTask w b;
          if taskIsRunning t then replyText w CONTENT_RESPONSE_CODE "Running"
          else replyText w CONTENT_RESPONSE_CODE "Not Running"
      end
  end.

Definition TaskStateAPI_handlePUT (path : list Z) (f : ContentFormat) (payload : list Z) (w : World)
  : result (World * CoAPResponse * list Z) :=
  if negb (bool_decide (f = Text_Plain_Charset_UTF8)) then reply w UNSUPPORTED_CONTENT_FORMAT_RESPONSE_CODE
  else if negb (zlength payload =? 7) || negb (bool_decide (payload = chars "Running")) then reply w BAD_REQUEST_RESPONSE_CODE
  else
    p ← parseFrom path true 7;
    match p with
    | ParseBad => reply w BAD_REQUEST_RESPONSE_CODE
    | ParseTooBig => tooBigTask w
    | ParseOk taskId _ =>
        b ← getUserTask (taskManager w) taskId;
        match b with
        | None => reply w NOT_FOUND_RESPONSE_CODE
        | Some b =>
            t ← readTask w b;
            if taskIsRunning t then reply w CHANGED_RESPONSE_CODE
            else
              let '(t, m) := setTaskArguments eflags interruptHandlerReturn savedRegisters t (mkTaskArguments [] 0) (memory w) in
              r ← setToRunningState cr0 virtualPage (cpuCore w) b t;
              let '(c, t, setResponse) := r in
              let w := writeTask w b t c m in
              match setResponse with
              | TASK_ALREADY_RUNNING | TASK_NOT_PROPERLY_INITIALIZED => reply w INTERNAL_SERVER_ERROR_RESPONSE_CODE
              | TOO_MANY_TASKS => replyText w FORBIDDEN_RESPONSE_CODE "Too many tasks are already running"
              | SUCCESS => reply w CHANGED_RESPONSE_CODE
              end
        end
    end.

(** [CpuCore::UserTask::addrSpaceIsUserAccessible] of a task. *)
Definition taskAddrSpaceIsUserAccessible (t : Task) (userAddr numBytes : Z) : bool :=
  match taskKind t with
  | UserTask taskSpaceBegin _ _ _ => addrSpaceIsUserAccessible taskSpaceBegin userAddr numBytes
  | KernelTask _ _ => false
  end.

Definition TaskDataAPI_handlePUT (path : list Z) (f : ContentFormat) (payload : list Z) (w : World)
  : result (World * CoAPResponse * list Z) :=
  if negb (bool_decide (f = Application_Octet_Stream)) then reply w UNSUPPORTED_CONTENT_FORMAT_RESPONSE_CODE
  else
    p ← parseFrom path true 7;
    match p with
    | ParseBad => reply w BAD_REQUEST_RESPONSE_CODE
    | ParseTooBig => tooBigTask w
    | ParseOk taskId i =>
        let i := i + 6 in
        len ← arrayStrlen path;
        if len <=? i then reply w BAD_REQUEST_RESPONSE_CODE
        else
          p ← parseNumber (Z.to_nat (len - i)) path false i 0;
          match p with
          | ParseBad => reply w BAD_REQUEST_RESPONSE_CODE
          | ParseTooBig => replyText w BAD_REQUEST_RESPONSE_CODE "Address cannot be greater than 0xFFFFFFFF"
          | ParseOk address _ =>
              b ← getUserTask (taskManager w) taskId;
              match b with
              | None => reply w NOT_FOUND_RESPONSE_CODE
              | Some b =>
                  t ← readTask w b;
                  if negb (taskAddrSpaceIsUserAccessible t address (zlength payload)) then reply w FORBIDDEN_RESPONSE_CODE
                  else if zlength payload =? 0 then reply w CHANGED_RESPONSE_CODE
                  else
                    r ← setData t address payload (memory w);
                    let '(success, m) := r in
                    let w := mkWorld (taskManager w) (cpuCore w) m in
                    if negb success then
                      replyText w INTERNAL_SERVER_ERROR_RESPONSE_CODE "Failed to write data to the task's address space"
                    else if taskIsRunning t then
                      replyText w CHANGED_RESPONSE_CODE "Warning: data changed while task was running"
                    else reply w CHANGED_RESPONSE_CODE
              end
          end
    end.

(** The virtual calls: the methods a class does not override are the default. *)
#[export] Instance apiHandlers : CoAPHandlers World := {
  handle h m path f payload w :=
    if h =? 0 then
      match m with
      | PUT => TaskAPI_handlePUT path w
      | DELETE => TaskAPI_handleDELETE path w
      | GET | POST => defaultHandle w
      end
    else if h =? 1 then
      match m with
      | GET => TaskStateAPI_handleGET path w
      | PUT => TaskStateAPI_handlePUT path f payload w
      | POST | DELETE => defaultHandle w
      end
    else
      match m with
      | PUT => TaskDataAPI_handlePUT path f payload w
      | GET | POST | DELETE => defaultHandle w
      end
}.
End handlers.

(** [osManagementTask] up to [run]: the server with the three paths. *)
Definition osManagementServer (memory : CoAPServer) (socketID : Z) : result CoAPServer :=
  s ← newCoAPServer memory 5683 socketID;
  s ← setPathHandler s (chars "/tasks/^") 0;
  s ← setPathHandler s (chars "/tasks/^/state") 1;
  setPathHandler s (chars "/tasks/^/data/^") 2.
