(* ===== verification/ApiHandlersFacts.v ===== *)
(** What the management API promises: numbers in paths are read as decimal
    numerals up to 2^32 - 1, creating, asking for and deleting a task agree with
    each other, and data is written where the path says, inside the task. *)
From Stdlib Require Import String.
From S2P Require Import Prelude Mem LinkedLists Paging PageAllocator SocketManager CpuCore CpuCoreFacts CoapServer TaskManager ApiHandlers.

(** ** Numbers in paths *)

Definition isDigit (c : Z) : Prop := 48 <= c <= 57.

(** The value of a decimal numeral that follows the number [v]. *)
Definition decimalFrom (v : Z) (ds : list Z) : Z := fold_left (fun v c => v * 10 + (c - 48)) ds v.
Definition decimal (ds : list Z) : Z := decimalFrom 0 ds.

Lemma decimalFrom_le v ds : 0 <= v -> Forall isDigit ds -> v <= decimalFrom v ds.
Proof.
  intros Hv Hd. revert v Hv. induction Hd as [|c ds Hc _ IH]; intros v Hv; [done|]. cbn. unfold isDigit in Hc.
  etransitivity; [|apply IH]; lia.
Qed.

(** [l] is what the array holds from index [i] on. *)
Definition arrayAt (path : list Z) (i : Z) (l : list Z) : Prop := 0 <= i /\ drop (Z.to_nat i) path = l.

Lemma arrayAt_head path i c l : arrayAt path i (c :: l) -> path.[i] = Some c /\ arrayAt path (i + 1) l.
Proof.
  intros [H0 Hd]. split.
  - replace i with (i + 0) by lia. rewrite <- znth_drop by lia. by rewrite Hd.
  - split; [lia|]. replace (Z.to_nat (i + 1)) with (Z.to_nat i + 1)%nat by lia. by rewrite <- drop_drop, Hd.
Qed.

Lemma arrayAt_app path i l1 l2 : arrayAt path i (l1 ++ l2) -> arrayAt path (i + zlength l1) l2.
Proof.
  intros [H0 Hd]. split; [unfold zlength; lia|]. replace (Z.to_nat (i + zlength l1)) with (Z.to_nat i + length l1)%nat by (unfold zlength; lia).
  by rewrite <- drop_drop, Hd, drop_app_length.
Qed.

Lemma parseNumber_digits ds n path (slash : bool) i v rest :
  Forall isDigit ds -> 0 <= v <= 0xFFFFFFFF -> arrayAt path i (ds ++ rest) ->
  (n = 0%nat \/ slash = true /\ i + zlength ds <> 7 /\ exists r, rest = SLASH :: r) ->
  parseNumber (length ds + n) path slash i v =
    Ok (if 0xFFFFFFFF <? decimalFrom v ds then ParseTooBig else ParseOk (decimalFrom v ds) (i + zlength ds)).
Proof.
  intros Hd. revert i v. induction Hd as [|c ds Hc Hds IH]; intros i v Hv Ha Hn; cbn [length Nat.add app] in *.
  - change (decimalFrom v []) with v. rewrite (proj2 (Z.ltb_ge _ _)) by lia. unfold zlength. cbn [length]. rewrite Z.add_0_r in *.
    destruct Hn as [->|(-> & Hi & r & ->)]; [done|]. destruct n as [|n]; [done|]. cbn [parseNumber].
    apply arrayAt_head in Ha as [-> _]. cbn. rewrite (proj2 (Z.eqb_neq i 7)); [done|]. unfold zlength in Hi. cbn in Hi. lia.
  - cbn [parseNumber]. apply arrayAt_head in Ha as [-> Ha]. cbn [orFault mbind result_bind]. unfold isDigit in Hc.
    rewrite (proj2 (Z.eqb_neq c SLASH)) by (unfold SLASH; lia). rewrite andb_false_r.
    rewrite (proj2 (Z.ltb_ge c 48)), (proj2 (Z.ltb_ge 57 c)) by lia. cbn [orb].
    change (decimalFrom v (c :: ds)) with (decimalFrom (v * 10 + (c - 48)) ds).
    pose proof (decimalFrom_le (v * 10 + (c - 48)) ds ltac:(lia) Hds) as Hle. rewrite zlength_cons in *.
    destruct (Z.ltb_spec 0xFFFFFFFF (v * 10 + (c - 48))).
    + by rewrite (proj2 (Z.ltb_lt 0xFFFFFFFF (decimalFrom (v * 10 + (c - 48)) ds))) by lia.
    + rewrite IH; [do 2 f_equal; case_match; [done|f_equal; lia]|lia|done|].
      destruct Hn as [->|(-> & Hi & r & ->)]; [by left|right; split_and!; [done|lia|eauto]].
Qed.

Lemma arrayStrlen_ok s junk : 0 ∉ s -> arrayStrlen (s ++ 0 :: junk) = Ok (zlength s).
Proof.
  induction s as [|c s IH]; intros H0; [done|]. apply not_elem_of_cons in H0 as [Hc H0]. cbn.
  rewrite (proj2 (Z.eqb_neq c 0)) by done. rewrite IH by done. cbn. by rewrite zlength_cons.
Qed.

(** The string of an array: what is before the first zero. *)
Fixpoint cString (path : list Z) : list Z :=
  match path with
  | [] => []
  | c :: path => if c =? 0 then [] else c :: cString path
  end.

Lemma cString_split path : 0 ∈ path -> (0 ∉ cString path) /\ exists junk, path = (cString path ++ 0 :: junk).
Proof.
  induction path as [|c path IH]; [by intros ?%not_elem_of_nil|]. intros Hin. cbn [cString].
  destruct (Z.eqb_spec c 0) as [->|Hc]; [split; [apply not_elem_of_nil|by eexists]|].
  apply elem_of_cons in Hin as [?|Hin]; [done|]. destruct (IH Hin) as (H0 & junk & E).
  split; [by rewrite not_elem_of_cons|]. exists junk. cbn. by rewrite <- E.
Qed.

Lemma cString_app path rest : 0 ∈ path -> cString (path ++ rest) = cString path.
Proof.
  induction path as [|c path IH]; [by intros ?%not_elem_of_nil|]. intros Hin. cbn [cString app].
  destruct (Z.eqb_spec c 0) as [->|Hc]; [done|]. apply elem_of_cons in Hin as [?|Hin]; [done|]. by rewrite IH.
Qed.

Lemma digits_no_zero ds : Forall isDigit ds -> 0 ∉ ds.
Proof. intros Hd H0. rewrite Forall_forall in Hd. specialize (Hd 0 H0). unfold isDigit in Hd. lia. Qed.

(** The paths of a task, its state and one of its addresses, as the server
    passes them. *)
Definition taskPath (ds junk : list Z) : list Z := (chars "/tasks/" ++ ds) ++ 0 :: junk.
Definition taskStatePath (ds junk : list Z) : list Z := (chars "/tasks/" ++ ds ++ chars "/state") ++ 0 :: junk.

Definition parsed (ds : list Z) (i : Z) : ParseResult := if 0xFFFFFFFF <? decimal ds then ParseTooBig else ParseOk (decimal ds) i.

Lemma parse_taskPath ds junk : Forall isDigit ds -> parseFrom (taskPath ds junk) false 7 = Ok (parsed ds (7 + zlength ds)).
Proof.
  intros Hd. unfold parseFrom, taskPath. rewrite arrayStrlen_ok.
  2: { rewrite not_elem_of_app. split; [by apply (bool_decide_unpack _)|by apply digits_no_zero]. }
  cbn [mbind result_bind]. rewrite zlength_app. change (zlength (chars "/tasks/")) with 7.
  replace (Z.to_nat (7 + zlength ds - 7)) with (length ds + 0)%nat by (unfold zlength; lia).
  apply (parseNumber_digits ds 0 _ false 7 0 (0 :: junk)); [done|lia| |by left]. split; [lia|]. by rewrite <- app_assoc.
Qed.

Lemma parse_slashPath ds tail junk :
  Forall isDigit ds -> ds <> [] -> 0 ∉ tail ->
  parseFrom ((chars "/tasks/" ++ ds ++ SLASH :: tail) ++ 0 :: junk) true 7 = Ok (parsed ds (7 + zlength ds)).
Proof.
  intros Hd Hne Ht. unfold parseFrom. rewrite arrayStrlen_ok.
  2: { rewrite !not_elem_of_app, not_elem_of_cons. split_and!; [by apply (bool_decide_unpack _)|by apply digits_no_zero|done|done]. }
  cbn [mbind result_bind]. rewrite !zlength_app, zlength_cons. change (zlength (chars "/tasks/")) with 7.
  replace (Z.to_nat (7 + (zlength ds + (zlength tail + 1)) - 7)) with (length ds + S (length tail))%nat by (unfold zlength; lia).
  apply (parseNumber_digits ds (S (length tail)) _ true 7 0 (SLASH :: tail ++ 0 :: junk)); [done|lia| |].
  - split; [lia|]. by rewrite <- !app_assoc.
  - right. split; [done|]. split; [|eauto]. destruct ds; [done|]. rewrite zlength_cons. pose proof (zlength_nonneg ds). lia.
Qed.

(** ** Data of a task *)

(** The string [str] asks for address [address] of task [id]: both numbers are
    decimal numerals below 2^32, the first from index 7 up to a ['/'], the
    second from the sixth character after it to the end.  (The characters in
    between are the literal parts of the registered path, which the server has
    matched.) *)
Definition dataRequest (str : list Z) (id address : Z) : Prop :=
  exists pre ds mid addr, str = pre ++ ds ++ SLASH :: mid ++ addr /\ zlength pre = 7 /\ zlength mid = 5 /\
    Forall isDigit ds /\ ds <> [] /\ Forall isDigit addr /\ addr <> [] /\
    id = decimal ds /\ id <= 0xFFFFFFFF /\ address = decimal addr /\ address <= 0xFFFFFFFF.

Lemma arrayStrlen_total path : 0 ∈ path -> exists n, arrayStrlen path = Ok n /\ 0 <= n < zlength path.
Proof.
  induction path as [|c path IH]; [by intros ?%not_elem_of_nil|]. intros Hin. cbn [arrayStrlen]. rewrite zlength_cons.
  pose proof (zlength_nonneg path). destruct (Z.eqb_spec c 0) as [->|Hc]; [exists 0; split; [done|lia]|].
  apply elem_of_cons in Hin as [?|Hin]; [done|]. destruct (IH Hin) as (n & -> & Hn). exists (n + 1). split; [done|lia].
Qed.

Lemma parseNumber_total n path slash i number :
  0 <= i -> n = 0%nat \/ i + Z.of_nat n <= zlength path ->
  exists p, parseNumber n path slash i number = Ok p /\ match p with ParseOk _ j => i <= j | _ => True end.
Proof.
  assert (Hret : forall r, match r with ParseOk _ j => i <= j | _ => True end ->
    exists p, Ok r = Ok p /\ match p with ParseOk _ j => i <= j | _ => True end) by (intros r Hr; by exists r).
  revert i number Hret. induction n as [|n IH]; intros i number Hret Hi Hn; cbn [parseNumber]; [by apply Hret|].
  destruct Hn as [?|Hn]; [done|].
  destruct (znth_lt_Some path i) as [c ->]; [lia|]. cbn [orFault mbind result_bind].
  destruct (slash && (c =? SLASH)); [destruct (i =? 7); by apply Hret|].
  destruct ((c <? 48) || (57 <? c)); [by apply Hret|]. cbv zeta. destruct (_ <? _); [by apply Hret|].
  destruct (IH (i + 1) (number * 10 + (c - 48))) as (p & -> & Hp); [by intros r Hr; exists r|lia..|].
  apply Hret. destruct p; lia || done.
Qed.

Lemma parseFrom_total path slash begin :
  0 ∈ path -> 0 <= begin ->
  exists p, parseFrom path slash begin = Ok p /\ match p with ParseOk _ j => begin <= j | _ => True end.
Proof.
  intros H0 Hb. unfold parseFrom. destruct (arrayStrlen_total path H0) as (n & -> & Hn). cbn [mbind result_bind].
  apply parseNumber_total; lia.
Qed.

(** What a successful parse has read. *)
Lemma parseNumber_inv n path slash i v r j :
  parseNumber n path slash i v = Ok (ParseOk r j) -> 0 <= i -> v <= 0xFFFFFFFF ->
  exists ds rest n', n = (length ds + n')%nat /\ arrayAt path i (ds ++ rest) /\ Forall isDigit ds /\
    r = decimalFrom v ds /\ r <= 0xFFFFFFFF /\ j = i + zlength ds /\
    (n' = 0%nat \/ slash = true /\ n' <> 0%nat /\ j <> 7 /\ exists rest', rest = SLASH :: rest').
Proof.
  revert i v. induction n as [|n IH]; intros i v E Hi Hv; cbn [parseNumber] in E.
  { injection E as -> ->. exists [], (drop (Z.to_nat j) path), 0%nat. change (zlength []) with 0. rewrite Z.add_0_r. split_and!; try done. by left. }
  destruct (path.[i]) as [c|] eqn:Ec; [|done]. cbn [orFault mbind result_bind] in E.
  assert (Hdrop : drop (Z.to_nat i) path = c :: drop (Z.to_nat (i + 1)) path).
  { unfold znth in Ec. rewrite (proj2 (Z.leb_le 0 i)) in Ec by lia. rewrite (drop_S _ _ _ Ec). replace (Z.to_nat (i + 1)) with (S (Z.to_nat i)) by lia. done. }
  destruct (slash && (c =? SLASH)) eqn:Es.
  { apply andb_true_iff in Es as [-> ->%Z.eqb_eq]. destruct (Z.eqb_spec i 7); [done|]. injection E as -> ->.
    exists [], (SLASH :: drop (Z.to_nat (j + 1)) path), (S n). change (zlength []) with 0. rewrite Z.add_0_r.
    split_and!; try done. right. by eauto. }
  destruct ((c <? 48) || (57 <? c)) eqn:Ed; [done|]. cbv zeta in E. destruct (Z.ltb_spec 0xFFFFFFFF (v * 10 + (c - 48))); [done|].
  apply orb_false_iff in Ed as [?%Z.ltb_ge ?%Z.ltb_ge].
  destruct (IH _ _ E ltac:(lia) ltac:(lia)) as (ds & rest & n' & -> & [_ Ha] & Hd & -> & Hr & -> & Hn).
  exists (c :: ds), rest, n'. rewrite zlength_cons. split; [done|].
  split; [split; [done|]; by rewrite Hdrop, Ha|]. split; [constructor; [unfold isDigit; lia|exact Hd]|].
  split; [done|]. split; [done|]. split; [lia|].
  destruct Hn as [?|(? & ? & ? & ?)]; [by left|right]. split; [done|]. split; [done|]. split; [lia|done].
Qed.

Lemma app_inside {A} (u v a b : list A) : u ++ v = a ++ b -> (length a <= length u)%nat -> exists t, u = a ++ t /\ b = t ++ v.
Proof.
  revert u. induction a as [|x a IH]; intros u E Hl; [by exists u|].
  destruct u as [|y u]; cbn in *; [lia|]. injection E as -> E. destruct (IH u E ltac:(lia)) as (t & -> & ->). by exists t.
Qed.

(** The two numbers are read exactly if the string is such a request. *)
Lemma dataRequest_parsed str junk id address :
  0 ∉ str -> dataRequest str id address ->
  exists i j, parseFrom (str ++ 0 :: junk) true 7 = Ok (ParseOk id i) /\ i + 6 < zlength str /\
    parseNumber (Z.to_nat (zlength str - (i + 6))) (str ++ 0 :: junk) false (i + 6) 0 = Ok (ParseOk address j).
Proof.
  intros H0 (pre & ds & mid & addr & -> & Hpre & Hmid & Hd & Hdne & Ha & Hane & -> & Hdm & -> & Ham).
  assert (0 < zlength ds) by (destruct ds; [done|]; rewrite zlength_cons; pose proof (zlength_nonneg ds); lia).
  assert (0 < zlength addr) by (destruct addr; [done|]; rewrite zlength_cons; pose proof (zlength_nonneg addr); lia).
  exists (7 + zlength ds), (7 + zlength ds + 6 + zlength addr). unfold parseFrom. rewrite arrayStrlen_ok by done. cbn [mbind result_bind].
  rewrite !zlength_app, zlength_cons, zlength_app, Hpre, Hmid. split_and!.
  - replace (Z.to_nat (7 + (zlength ds + (5 + zlength addr + 1)) - 7)) with (length ds + (6 + length addr))%nat by (unfold zlength; lia).
    rewrite (parseNumber_digits ds _ _ true 7 0 (SLASH :: mid ++ addr ++ 0 :: junk)); [|done|lia| |].
    + change (decimalFrom 0 ds) with (decimal ds). by rewrite (proj2 (Z.ltb_ge _ (decimal ds))) by lia.
    + replace 7 with (0 + zlength pre) by lia. apply arrayAt_app. split; [lia|]. cbn [Z.to_nat drop]. rewrite <- !app_assoc. cbn [app]. by rewrite <- !app_assoc.
    + right. split_and!; [done|lia|by eexists].
  - lia.
  - replace (Z.to_nat _) with (length addr + 0)%nat by (unfold zlength; lia).
    rewrite (parseNumber_digits addr 0 _ false _ 0 (0 :: junk)); [|done|lia| |by left].
    + change (decimalFrom 0 addr) with (decimal addr). by rewrite (proj2 (Z.ltb_ge _ (decimal addr))) by lia.
    + replace (7 + zlength ds + 6) with (0 + zlength (pre ++ ds ++ SLASH :: mid)) by (rewrite !zlength_app, zlength_cons; lia).
      apply arrayAt_app. split; [lia|]. cbn [Z.to_nat drop]. rewrite <- !app_assoc. cbn [app]. by rewrite <- !app_assoc.
Qed.

Lemma parsed_dataRequest str junk id address i j :
  0 ∉ str -> parseFrom (str ++ 0 :: junk) true 7 = Ok (ParseOk id i) -> i + 6 < zlength str ->
  parseNumber (Z.to_nat (zlength str - (i + 6))) (str ++ 0 :: junk) false (i + 6) 0 = Ok (ParseOk address j) -> dataRequest str id address.
Proof.
  intros H0 Ep Hi Ea. unfold parseFrom in Ep. rewrite arrayStrlen_ok in Ep by done. cbn [mbind result_bind] in Ep.
  destruct (parseNumber_inv _ _ _ _ _ _ _ Ep ltac:(lia) ltac:(lia)) as (ds & rest & n & Hn & [_ Hat] & Hd & -> & Hdm & -> & Hend).
  pose proof (zlength_nonneg ds). destruct Hend as [->|(_ & Hn0 & Hj & rest' & ->)]; [unfold zlength in *; lia|].
  assert (Hstr : str = take 7 str ++ drop 7 str) by by rewrite take_drop. set (pre := take 7 str) in *. set (u := drop 7 str) in *.
  assert (Hpre : length pre = 7%nat) by (unfold pre; rewrite length_take; unfold zlength in *; lia).
  assert (Hu : (length ds < length u)%nat) by (unfold u; rewrite length_drop; unfold zlength in *; lia).
  rewrite Hstr, <- app_assoc in Hat. replace (Z.to_nat 7) with (length pre) in Hat by lia. rewrite drop_app_length in Hat.
  destruct (app_inside u (0 :: junk) (ds ++ [SLASH]) rest') as (t & Ht & _); [by rewrite Hat, <- app_assoc|rewrite length_app; cbn; lia|].
  assert (Hzt : zlength str = 7 + (zlength ds + (1 + zlength t))).
  { rewrite Hstr, Ht, !zlength_app. unfold zlength at 1. rewrite Hpre. change (zlength [SLASH]) with 1. lia. }
  assert (Hmid : length (take 5 t) = 5%nat) by (rewrite length_take; unfold zlength in *; lia).
  destruct (parseNumber_inv _ _ _ _ _ _ _ Ea ltac:(lia) ltac:(lia)) as (addr & rest & n' & Hn' & [_ Hat'] & Ha & -> & Ham & _ & Hend).
  destruct Hend as [->|(? & _)]; [|done]. rewrite Nat.add_0_r in Hn'.
  assert (Hd' : drop (Z.to_nat (7 + zlength ds + 6)) (str ++ 0 :: junk) = drop 5 t ++ 0 :: junk).
  { rewrite Hstr, Ht, <- (take_drop 5 t) at 1. rewrite <- !app_assoc.
    replace (Z.to_nat _) with (length (pre ++ ds ++ [SLASH] ++ take 5 t)) by (rewrite !length_app, Hmid, Hpre; cbn; unfold zlength; lia).
    rewrite <- (drop_app_length (pre ++ ds ++ [SLASH] ++ take 5 t) (drop 5 t ++ 0 :: junk)) at 2. by rewrite <- !app_assoc. }
  rewrite Hd' in Hat'. apply app_inj_1 in Hat' as [<- _]; [|rewrite length_drop; unfold zlength in *; lia].
  exists pre, ds, (take 5 t), (drop 5 t). split_and!; try done.
  - rewrite take_drop. rewrite Hstr, Ht at 1. by rewrite <- app_assoc.
  - unfold zlength. lia.
  - unfold zlength. lia.
  - intros ->. change (zlength []) with 0 in Hj. lia.
  - intros E. apply (f_equal length) in E. rewrite length_drop in E. cbn in E. unfold zlength in *. lia.
Qed.

(** What is left once the request is read. *)
Lemma handlePUT_request str junk payload w id address :
  0 ∉ str -> dataRequest str id address ->
  TaskDataAPI_handlePUT (str ++ 0 :: junk) Application_Octet_Stream payload w =
    b ← getUserTask (taskManager w) id;
    match b with
    | None => reply w NOT_FOUND_RESPONSE_CODE
    | Some b =>
        t ← readTask w b;
        if negb (taskAddrSpaceIsUserAccessible t address (zlength payload)) then reply w FORBIDDEN_RESPONSE_CODE
        else if zlength payload =? 0 then reply w CHANGED_RESPONSE_CODE
        else
          r ← setData t address payload (memory w);
          let '(success, m) := r in
          let w := mkWorld (taskManager w) (cpuCore w) m in
          if negb success then
            replyText w INTERNAL_SERVER_ERROR_RESPONSE_CODE "Failed to write data to the task's address space"
          else if taskIsRunning t then replyText w CHANGED_RESPONSE_CODE "Warning: data changed while task was running"
          else reply w CHANGED_RESPONSE_CODE
    end.
Proof.
  intros H0 Hr. destruct (dataRequest_parsed str junk id address H0 Hr) as (i & j & E1 & Hi & E2).
  unfold TaskDataAPI_handlePUT. rewrite bool_decide_true by done. cbn [negb]. rewrite E1. cbn [mbind result_bind].
  rewrite arrayStrlen_ok by done. cbn [mbind result_bind]. rewrite (proj2 (Z.leb_gt _ _)) by lia. rewrite E2. reflexivity.
Qed.

Lemma handlePUT_noRequest str junk payload w :
  0 ∉ str -> (forall id address, ~ dataRequest str id address) ->
  exists r bs, TaskDataAPI_handlePUT (str ++ 0 :: junk) Application_Octet_Stream payload w = Ok (w, r, bs) /\
    responseCode r = BAD_REQUEST_RESPONSE_CODE /\ 0 <= responseSize r /\ zlength bs <= RESPONSE_BUFFER_SIZE.
Proof.
  intros H0 Hno. unfold TaskDataAPI_handlePUT. rewrite bool_decide_true by done. cbn [negb].
  assert (Hin : 0 ∈ str ++ 0 :: junk) by (apply elem_of_app; right; by left).
  destruct (parseFrom_total (str ++ 0 :: junk) true 7 Hin ltac:(lia)) as (p & Ep & Hp). rewrite Ep. cbn [mbind result_bind].
  destruct p as [| |id i]; [by eexists _, _|by eexists _, _|]. rewrite arrayStrlen_ok by done. cbn [mbind result_bind].
  destruct (Z.leb_spec (zlength str) (i + 6)) as [|Hi]; [by eexists _, _|].
  destruct (parseNumber_total (Z.to_nat (zlength str - (i + 6))) (str ++ 0 :: junk) false (i + 6) 0) as (p & Ea & _); [lia| |].
  { right. rewrite zlength_app, zlength_cons. pose proof (zlength_nonneg junk). lia. }
  rewrite Ea. cbn [mbind result_bind]. destruct p as [| |address j]; [by eexists _, _|by eexists _, _|].
  destruct (Hno id address). by apply (parsed_dataRequest str junk id address i j).
Qed.

(** ** The tasks behind the numbers *)

Lemma getUserTask_ok tm active unused id i t :
  tmInv tm active unused -> hasTask tm active id i t -> getUserTask tm id = Ok (Some i) /\ getBuffer tm i = Ok (Some t).
Proof.
  intros Hi Ht. unfold getUserTask. destruct (lookupTask_ok tm active unused id Hi) as [[_ Hno]|(l1 & j & l2 & t' & -> & Ht' & ->)];
    [by destruct (Hno i t)|].
  assert (j = i) as -> by (eapply tm_distinct; [exact Hi|apply Ht'|apply Ht|apply Ht'|apply Ht]).
  destruct Ht as (_ & Hv & Hb). cbn [mbind result_bind]. rewrite (getValue_ok _ _ _ Hv). split; [done|].
  unfold getBuffer. by rewrite Hb.
Qed.

Lemma getUserTask_none tm active unused id :
  tmInv tm active unused -> (forall i t, ~ hasTask tm active id i t) -> getUserTask tm id = Ok None.
Proof.
  intros Hi Hno. unfold getUserTask. destruct (lookupTask_ok tm active unused id Hi) as [[-> _]|(l1 & j & l2 & t' & _ & Ht' & _)]; [done|].
  by destruct (Hno j t').
Qed.


Definition insideProcess (taskSpaceBegin userAddr n : Z) : Prop :=
  taskSpaceBegin + USER_TASK_PROCESS_ENTRY_OFFSET <= userAddr /\ userAddr + n <= taskSpaceBegin + 0x800000.

(** The memory of a task in the window at [userAddr], in the kernel's address space. *)
Definition kernelAddr (region userAddr : Z) : Z := region + (userAddr - VIRTUAL_TASK_SPACE_BEGIN_ADDR).

(** Every task of the manager is a user task of the window; its region is zero
    when there was no memory for it. *)
Definition userTasks (tm : TaskManager) (active : list Z) : Prop :=
  forall id i t, hasTask tm active id i t -> exists region k paging,
    taskKind t = UserTask VIRTUAL_TASK_SPACE_BEGIN_ADDR region k paging /\ 0 <= region < 2 ^ 32 - 0x800000.

(** The part of the address space of a task that a program may name. *)
Definition userVisible (address n : Z) : Prop :=
  VIRTUAL_TASK_SPACE_BEGIN_ADDR + USER_TASK_KERNEL_STACK_OFFSET + 4 <= address /\
  (address + n <= VIRTUAL_TASK_SPACE_BEGIN_ADDR + 0x800000 \/ 2 ^ 32 <= address + n).

(** What is asked of the answer to an upload, in the order the code checks it.
    Each case but [Stored] and [LeavesRegion] leaves the world alone. *)
Inductive uploadAnswer (str : list Z) (f : ContentFormat) (payload : list Z) (w : World) (active : list Z) :
  result (World * CoAPResponse * list Z) -> Prop :=
| WrongFormat r bs :
    f <> Application_Octet_Stream -> responseCode r = UNSUPPORTED_CONTENT_FORMAT_RESPONSE_CODE ->
    uploadAnswer str f payload w active (Ok (w, r, bs))
| WrongPath r bs :
    f = Application_Octet_Stream -> (forall id address, ~ dataRequest str id address) -> responseCode r = BAD_REQUEST_RESPONSE_CODE ->
    uploadAnswer str f payload w active (Ok (w, r, bs))
| NoTask id address r bs :
    f = Application_Octet_Stream -> dataRequest str id address -> (forall i t, ~ hasTask (taskManager w) active id i t) ->
    responseCode r = NOT_FOUND_RESPONSE_CODE ->
    uploadAnswer str f payload w active (Ok (w, r, bs))
| NotAccessible id address i t r bs :
    f = Application_Octet_Stream -> dataRequest str id address -> hasTask (taskManager w) active id i t ->
    ~ userVisible address (zlength payload) -> responseCode r = FORBIDDEN_RESPONSE_CODE ->
    uploadAnswer str f payload w active (Ok (w, r, bs))
| NothingToStore id address i t r bs :
    f = Application_Octet_Stream -> dataRequest str id address -> hasTask (taskManager w) active id i t ->
    userVisible address (zlength payload) -> payload = [] -> responseCode r = CHANGED_RESPONSE_CODE ->
    uploadAnswer str f payload w active (Ok (w, r, bs))
| NotStored id address i t region k paging r bs :
    f = Application_Octet_Stream -> dataRequest str id address -> hasTask (taskManager w) active id i t ->
    taskKind t = UserTask VIRTUAL_TASK_SPACE_BEGIN_ADDR region k paging ->
    userVisible address (zlength payload) -> payload <> [] ->
    region = 0 \/ address < VIRTUAL_TASK_SPACE_BEGIN_ADDR + USER_TASK_PROCESS_ENTRY_OFFSET ->
    responseCode r = INTERNAL_SERVER_ERROR_RESPONSE_CODE ->
    uploadAnswer str f payload w active (Ok (w, r, bs))
| Stored id address i t region k paging w' r bs :
    f = Application_Octet_Stream -> dataRequest str id address -> hasTask (taskManager w) active id i t ->
    taskKind t = UserTask VIRTUAL_TASK_SPACE_BEGIN_ADDR region k paging -> region <> 0 -> payload <> [] ->
    insideProcess VIRTUAL_TASK_SPACE_BEGIN_ADDR address (zlength payload) ->
    w' = mkWorld (taskManager w) (cpuCore w) (storeBytes (memory w) (kernelAddr region address) payload) ->
    region <= kernelAddr region address -> kernelAddr region address + zlength payload <= region + 0x800000 ->
    responseCode r = CHANGED_RESPONSE_CODE ->
    uploadAnswer str f payload w active (Ok (w', r, bs))
| LeavesRegion id address i t region k paging :
    f = Application_Octet_Stream -> dataRequest str id address -> hasTask (taskManager w) active id i t ->
    taskKind t = UserTask VIRTUAL_TASK_SPACE_BEGIN_ADDR region k paging -> region <> 0 -> payload <> [] ->
    2 ^ 32 <= address + zlength payload ->
    uploadAnswer str f payload w active (Fault OutOfRange).

(** The checks of [addrSpaceIsUserAccessible] and [setData] for a task of the window. *)
Lemma accessible_exact address n :
  0 <= address <= 0xFFFFFFFF -> 0 <= n < 2 ^ 16 ->
  addrSpaceIsUserAccessible VIRTUAL_TASK_SPACE_BEGIN_ADDR address n = true <-> userVisible address n.
Proof.
  intros Ha Hn. unfold userVisible, addrSpaceIsUserAccessible.
  change (u32 (VIRTUAL_TASK_SPACE_BEGIN_ADDR + USER_TASK_KERNEL_STACK_OFFSET + 4)) with 0x2014000.
  change (u32 (VIRTUAL_TASK_SPACE_BEGIN_ADDR + 0x800000)) with 0x2800000.
  change (VIRTUAL_TASK_SPACE_BEGIN_ADDR + USER_TASK_KERNEL_STACK_OFFSET + 4) with 0x2014000.
  change (VIRTUAL_TASK_SPACE_BEGIN_ADDR + 0x800000) with 0x2800000.
  rewrite negb_true_iff, orb_false_iff, !Z.ltb_ge. unfold u32. 
  destruct (Z.le_gt_cases (2 ^ 32) (address + n)).
  - replace ((address + n) mod 2 ^ 32) with (address + n - 2 ^ 32) by (apply (Z.mod_unique _ _ 1); lia). lia.
  - rewrite Z.mod_small by lia. lia.
Qed.

Lemma setData_exact t region k paging address payload m :
  taskKind t = UserTask VIRTUAL_TASK_SPACE_BEGIN_ADDR region k paging -> 0 <= region < 2 ^ 32 - 0x800000 ->
  0 <= address <= 0xFFFFFFFF -> zlength payload < 2 ^ 16 ->
  addrSpaceIsUserAccessible VIRTUAL_TASK_SPACE_BEGIN_ADDR address (zlength payload) = true ->
  setData t address payload m =
    if decide (region <> 0 /\ insideProcess VIRTUAL_TASK_SPACE_BEGIN_ADDR address (zlength payload))
    then Ok (true, storeBytes m (kernelAddr region address) payload)
    else if decide (region <> 0 /\ 2 ^ 32 <= address + zlength payload) then Fault OutOfRange else Ok (false, m).
Proof.
  intros Hk Hreg Ha Hn Hacc. pose proof (zlength_nonneg payload). unfold setData. rewrite Hk.
  apply accessible_exact in Hacc; [|lia..]. unfold userVisible, insideProcess, kernelAddr in *.
  change (u32 (VIRTUAL_TASK_SPACE_BEGIN_ADDR + USER_TASK_PROCESS_ENTRY_OFFSET)) with 0x2024000.
  change (VIRTUAL_TASK_SPACE_BEGIN_ADDR + USER_TASK_PROCESS_ENTRY_OFFSET) with 0x2024000.
  change (u32 (VIRTUAL_TASK_SPACE_BEGIN_ADDR + 0x800000)) with 0x2800000.
  change (VIRTUAL_TASK_SPACE_BEGIN_ADDR + USER_TASK_KERNEL_STACK_OFFSET + 4) with 0x2014000 in Hacc.
  change VIRTUAL_TASK_SPACE_BEGIN_ADDR with 0x2000000 in *. change (0x2000000 + 0x800000) with 0x2800000 in *.
  assert (Edest : u32 (address + u32 (region - 0x2000000)) = u32 (region + (address - 0x2000000))).
  { unfold u32. rewrite Z.add_mod_idemp_r by lia. f_equal. lia. }
  rewrite Edest. unfold u32. destruct (Z.eqb_spec region 0) as [->|Hr0].
  { rewrite !decide_False by lia. by destruct (_ || _). }
  destruct (Z.ltb_spec address 0x2024000); cbn [orb]; [rewrite !decide_False by lia; done|].
  destruct (Z.le_gt_cases (2 ^ 32) (address + zlength payload)) as [Hw|Hw].
  - replace ((address + zlength payload) mod 2 ^ 32) with (address + zlength payload - 2 ^ 32) by (apply (Z.mod_unique _ _ 1); lia).
    rewrite (proj2 (Z.ltb_ge _ _)) by lia. rewrite decide_False by lia. rewrite decide_True by lia.
    destruct (Z.le_gt_cases (2 ^ 32) (region + (address - 0x2000000))).
    + replace ((region + (address - 0x2000000)) mod 2 ^ 32) with (region + (address - 0x2000000) - 2 ^ 32) by (apply (Z.mod_unique _ _ 1); lia).
      by rewrite (proj2 (Z.ltb_lt _ region)) by lia.
    + rewrite Z.mod_small by lia. rewrite (proj2 (Z.ltb_lt (region + 0x800000) _)) by lia. by rewrite orb_true_r.
  - rewrite (Z.mod_small (address + _)) by lia. rewrite (proj2 (Z.ltb_ge 0x2800000 _)) by lia. rewrite decide_True by lia.
    rewrite Z.mod_small by lia. rewrite (proj2 (Z.ltb_ge _ region)), (proj2 (Z.ltb_ge (region + 0x800000) _)) by lia. done.
Qed.

(** A number in a path names no task, or one. *)
Lemma getUserTask_cases w active unused id :
  tmInv (taskManager w) active unused ->
  (getUserTask (taskManager w) id = Ok None /\ forall i t, ~ hasTask (taskManager w) active id i t) \/
  exists i t, getUserTask (taskManager w) id = Ok (Some i) /\ readTask w i = Ok t /\ hasTask (taskManager w) active id i t.
Proof.
  intros Hi. destruct (lookupTask_ok _ _ _ id Hi) as [[_ Hno]|(l1 & i & l2 & t & _ & Ht & _)].
  - left. split; [|done]. by eapply getUserTask_none.
  - right. exists i, t. destruct (getUserTask_ok _ _ _ _ _ _ Hi Ht) as [-> Hb]. split; [done|]. split; [|done].
    unfold readTask. by rewrite Hb.
Qed.

Lemma dataRequest_address str id address : dataRequest str id address -> 0 <= address <= 0xFFFFFFFF.
Proof.
  intros (pre & ds & mid & addr & _ & _ & _ & _ & _ & Ha & _ & _ & _ & -> & Ham). split; [|done].
  apply (decimalFrom_le 0 addr); [lia|done].
Qed.

(** A decision procedure for requests, from the parser itself. *)
Lemma dataRequest_dec str : 0 ∉ str -> {id & {address | dataRequest str id address}} + {forall id address, ~ dataRequest str id address}.
Proof.
  intros H0.
  destruct (parseFrom (str ++ [0]) true 7) as [[| |id i]|] eqn:Ep.
  4: { right. intros id a (i & j & E & _)%(dataRequest_parsed str []); [congruence|done]. }
  1,2: right; intros id a (i & j & E & _)%(dataRequest_parsed str []); [congruence|done].
  destruct (Z_lt_dec (i + 6) (zlength str)) as [Hi|Hi].
  2: { right. intros id' a (i' & j & E & Hi' & _)%(dataRequest_parsed str []); [|done]. rewrite Ep in E. injection E as -> ->. lia. }
  destruct (parseNumber (Z.to_nat (zlength str - (i + 6))) (str ++ [0]) false (i + 6) 0) as [[| |a j]|] eqn:Ea.
  3: { left. exists id, a. by apply (parsed_dataRequest str [] id a i j). }
  all: right; intros id' a (i' & j & E & _ & E')%(dataRequest_parsed str []); [|done]; rewrite Ep in E; injection E as -> ->; congruence.
Qed.

(** C28: an upload of data to a task, whatever the path string, the format and
    the payload of a datagram.  The answer is the one [uploadAnswer] lists:
    wrong format, path, task and addresses are answered with their code and
    change nothing; data for the process part of the task is stored byte for
    byte inside the task's own 8 MB and nothing else changes; and only a range
    of addresses that wraps around 2^32 leaves the task's region. *)
Theorem TaskDataAPI_handlePUT_confined str junk f payload w active unused :
  0 ∉ str -> zlength payload < 2 ^ 16 -> tmInv (taskManager w) active unused -> userTasks (taskManager w) active ->
  uploadAnswer str f payload w active (TaskDataAPI_handlePUT (str ++ 0 :: junk) f payload w).
Proof.
  intros H0 Hlen Hi Hu. destruct (decide (f = Application_Octet_Stream)) as [->|Hf].
  2: { unfold TaskDataAPI_handlePUT. rewrite bool_decide_false by done. by apply WrongFormat. }
  destruct (dataRequest_dec str H0) as [(id & address & Hr)|Hno].
  2: { destruct (handlePUT_noRequest str junk payload w H0 Hno) as (r & bs & -> & Hc & _). by apply WrongPath. }
  rewrite (handlePUT_request str junk payload w id address H0 Hr). pose proof (dataRequest_address _ _ _ Hr) as Ha.
  destruct (getUserTask_cases w active unused id Hi) as [[-> Hno]|(i & t & -> & Hread & Ht)]; cbn [mbind result_bind]; [by eapply NoTask|].
  rewrite Hread. cbn [mbind result_bind].
  destruct (Hu _ _ _ Ht) as (region & k & paging & Hk & Hreg). pose proof (zlength_nonneg payload).
  unfold taskAddrSpaceIsUserAccessible. rewrite Hk. destruct (addrSpaceIsUserAccessible _ _ _) eqn:Eacc; cbn [negb].
  1: pose proof (proj1 (accessible_exact address (zlength payload) Ha ltac:(lia)) Eacc) as Hv.
  2: { eapply NotAccessible; [done..| |done]. intros Hacc. apply accessible_exact in Hacc; [congruence|lia..]. }
  destruct (Z.eqb_spec (zlength payload) 0) as [Hz|Hz].
  { eapply NothingToStore; [done..|exact Hv| |done]. destruct payload; [done|]. rewrite zlength_cons in Hz. pose proof (zlength_nonneg payload). lia. }
  rewrite (setData_exact t region k paging address payload (memory w)) by done. assert (payload <> []) by by intros ->.
  destruct (decide _) as [[Hr0 Hin]|Hout]; [|destruct (decide _) as [[Hr0 Hw]|Hnw]]; cbn [mbind result_bind negb].
  - assert (region <= kernelAddr region address /\ kernelAddr region address + zlength payload <= region + 0x800000) as [? ?].
    { unfold insideProcess, kernelAddr in *. change VIRTUAL_TASK_SPACE_BEGIN_ADDR with 0x2000000 in *. change USER_TASK_PROCESS_ENTRY_OFFSET with 0x24000 in *. lia. }
    destruct (taskIsRunning t); by eapply Stored.
  - by eapply LeavesRegion.
  - replace (mkWorld (taskManager w) (cpuCore w) (memory w)) with w by by destruct w.
    eapply NotStored; [done..| |done]. destruct (decide (region = 0)) as [|Hr0]; [by left|right].
    unfold userVisible, insideProcess in *. lia.
Qed.

(** An upload whose addresses wrap around passes both address checks and
    leaves the region. *)
Theorem TaskDataAPI_handlePUT_wraps str junk payload w active unused id address i t region k paging :
  0 ∉ str -> zlength payload < 2 ^ 16 -> tmInv (taskManager w) active unused -> dataRequest str id address ->
  hasTask (taskManager w) active id i t -> taskKind t = UserTask VIRTUAL_TASK_SPACE_BEGIN_ADDR region k paging ->
  0 < region < 2 ^ 32 - 0x800000 -> 2 ^ 32 <= address + zlength payload ->
  TaskDataAPI_handlePUT (str ++ 0 :: junk) Application_Octet_Stream payload w = Fault OutOfRange.
Proof.
  intros H0 Hlen Hi Hr Ht Hk Hreg Hw. pose proof (dataRequest_address _ _ _ Hr) as Ha. pose proof (zlength_nonneg payload).
  rewrite (handlePUT_request str junk payload w id address H0 Hr).
  destruct (getUserTask_ok _ _ _ _ _ _ Hi Ht) as [-> Hb]. cbn [mbind result_bind]. unfold readTask. rewrite Hb. cbn [mbind result_bind orFault].
  unfold taskAddrSpaceIsUserAccessible. rewrite Hk.
  assert (Hacc : addrSpaceIsUserAccessible VIRTUAL_TASK_SPACE_BEGIN_ADDR address (zlength payload) = true).
  { apply accessible_exact; [lia..|]. split; [|by right].
    change (VIRTUAL_TASK_SPACE_BEGIN_ADDR + USER_TASK_KERNEL_STACK_OFFSET + 4) with 0x2014000. lia. }
  rewrite Hacc. cbn [negb]. rewrite (proj2 (Z.eqb_neq (zlength payload) 0)) by lia.
  rewrite (setData_exact t region k paging address payload (memory w)) by (done || lia).
  unfold insideProcess. change (VIRTUAL_TASK_SPACE_BEGIN_ADDR + 0x800000) with 0x2800000.
  by rewrite decide_False, decide_True by lia.
Qed.

(** ** The life of a task *)

Section lifecycle.
Context (cr0 : Z) (virtualPage : Z -> option PageTable) (junk : Z -> Z).

Lemma newUserTask_stopped c a c' t : newUserTask cr0 virtualPage junk c a = Ok (c', t) -> taskIsRunning t = false.
Proof.
  unfold newUserTask. intros E. result_inv. match goal with H : context [let '(_, _) := ?p in _] |- _ => destruct p as [c1 region] end.
  destruct (negb (region =? 0)); result_inv; done.
Qed.

Lemma stateGET_parsed ds pathJunk w :
  Forall isDigit ds -> ds <> [] -> decimal ds <= 0xFFFFFFFF ->
  TaskStateAPI_handleGET (taskStatePath ds pathJunk) w =
    b ← getUserTask (taskManager w) (decimal ds);
    match b with
    | None => reply w NOT_FOUND_RESPONSE_CODE
    | Some b => t ← readTask w b;
        if taskIsRunning t then replyText w CONTENT_RESPONSE_CODE "Running" else replyText w CONTENT_RESPONSE_CODE "Not Running"
    end.
Proof.
  intros Hd Hne Hmax. unfold TaskStateAPI_handleGET. unfold taskStatePath. change (chars "/state") with (SLASH :: chars "state").
  rewrite parse_slashPath; [|done|done|by apply (bool_decide_unpack _)]. cbn [mbind result_bind]. unfold parsed.
  by rewrite (proj2 (Z.ltb_ge _ (decimal ds))) by lia.
Qed.

(** C20: over the API, a task that does not exist is created by PUT, is then
    reported as not running by GET, cannot be created again, is removed by
    DELETE, and is not found by GET afterwards.  Afterwards the task manager has
    the tasks it had before, and its free element back at the head of its list. *)
Theorem api_task_lifecycle ds pathJunk w active i unused c1 t c2 :
  tmInv (taskManager w) active (i :: unused) ->
  Forall isDigit ds -> 0 < decimal ds <= 0xFFFFFFFF -> (forall j u, ~ hasTask (taskManager w) active (decimal ds) j u) ->
  newUserTask cr0 virtualPage junk (cpuCore w) VIRTUAL_TASK_SPACE_BEGIN_ADDR = Ok (c1, t) -> destroyTask c1 t = Ok c2 ->
  exists w1 w2,
    TaskAPI_handlePUT cr0 virtualPage junk (taskPath ds pathJunk) w = reply w1 CREATED_RESPONSE_CODE /\
    TaskStateAPI_handleGET (taskStatePath ds pathJunk) w1 = replyText w1 CONTENT_RESPONSE_CODE "Not Running" /\
    TaskAPI_handlePUT cr0 virtualPage junk (taskPath ds pathJunk) w1 =
      replyText w1 CONFLICT_RESPONSE_CODE "Task with the given ID already exists" /\
    TaskAPI_handleDELETE (taskPath ds pathJunk) w1 = reply w2 DELETED_RESPONSE_CODE /\
    TaskStateAPI_handleGET (taskStatePath ds pathJunk) w2 = reply w2 NOT_FOUND_RESPONSE_CODE /\
    tmInv (taskManager w1) (i :: active) unused /\ hasTask (taskManager w1) (i :: active) (decimal ds) i t /\ cpuCore w1 = c1 /\
    tmInv (taskManager w2) active (i :: unused) /\ cpuCore w2 = c2 /\ memory w2 = memory w /\
    forall id j u, hasTask (taskManager w2) active id j u <-> hasTask (taskManager w) active id j u.
Proof.
  intros Hi Hd Hid Hno Hnew Hdel. assert (Hne : ds <> []) by (intros ->; cbn in Hid; lia).
  destruct (createUserTask_creates cr0 virtualPage junk (taskManager w) (cpuCore w) (decimal ds) active i unused c1 t Hi ltac:(lia) Hno Hnew)
    as (tm1 & E1 & Hi1 & Ht1 & Hsame1).
  destruct (removeUserTask_removes tm1 c1 (decimal ds) (i :: active) unused i t c2 Hi1 ltac:(lia) Ht1 Hdel)
    as (tm2 & l1 & l2 & E2 & El & Hi2 & Hno2 & Hsame2).
  assert (l1 = [] /\ l2 = active) as [-> ->].
  { pose proof (tm_nodup _ _ _ Hi1) as Hnd. destruct l1 as [|x l1]; injection El as; subst; [done|].
    apply NoDup_cons in Hnd as [Hx _]. destruct Hx. rewrite !elem_of_app, elem_of_cons. tauto. }
  cbn [app] in Hi2, Hno2, Hsame2.
  exists (withTaskManager w tm1 c1), (withTaskManager (withTaskManager w tm1 c1) tm2 c2).
  destruct (getUserTask_ok tm1 (i :: active) unused (decimal ds) i t Hi1 Ht1) as [Hg1 Hb1].
  unfold TaskAPI_handlePUT, TaskAPI_handleDELETE. rewrite !parse_taskPath by done. cbn [mbind result_bind]. unfold parsed.
  rewrite (proj2 (Z.ltb_ge _ (decimal ds))) by lia. rewrite !stateGET_parsed by (done || lia). split_and!.
  - by rewrite E1.
  - cbn [taskManager withTaskManager]. rewrite Hg1. cbn [mbind result_bind]. unfold readTask. cbn [taskManager withTaskManager].
    rewrite Hb1. cbn [mbind result_bind orFault]. by rewrite (newUserTask_stopped _ _ _ _ Hnew).
  - unfold createUserTask. rewrite (proj2 (Z.eqb_neq (decimal ds) 0)) by lia. cbn [taskManager cpuCore withTaskManager].
    destruct (lookupTask_ok tm1 (i :: active) unused (decimal ds) Hi1) as [[_ Hno1]|(m1 & j & m2 & t' & _ & _ & ->)].
    + by destruct (Hno1 i t).
    + cbn [mbind result_bind]. by rewrite bool_decide_true by done.
  - cbn [taskManager cpuCore withTaskManager]. by rewrite E2.
  - cbn [taskManager withTaskManager]. by rewrite (getUserTask_none tm2 active (i :: unused)).
  - done.
  - done.
  - done.
  - done.
  - done.
  - done.
  - intros id j u. cbn [taskManager withTaskManager]. destruct (decide (id = decimal ds)) as [->|Hneq].
    + split; intros H; [by apply Hno2 in H|by apply Hno in H].
    + by rewrite Hsame2, Hsame1.
Qed.
End lifecycle.

(** ** Witnesses *)

Definition sampleWorld : World :=
  mkWorld newTaskManager (newCpuCore newSocketManager 0x100000 emptyAllocator) (fun _ => 0).

(** Task 55 with its region at 0x3000000. *)
Definition loadedTask : Task := mkTask (-1) false (UserTask VIRTUAL_TASK_SPACE_BEGIN_ADDR 0x3000000 0 None).
Definition loadedWorld : World :=
  mkWorld (mkTaskManager (userTaskBuffers newTaskManager).[0 := Some loadedTask]
             (taskLinkedListElements newTaskManager).[0 := mkElement (0, 55) None None] (Some 0) (Some 1))
    (cpuCore sampleWorld) (fun _ => 0).

Lemma loadedWorld_task : hasTask (taskManager loadedWorld) [0] 55 0 loadedTask.
Proof. split; [by left|]. by vm_compute. Qed.

Lemma loadedWorld_inv : tmInv (taskManager loadedWorld) [0] (map Z.of_nat (seq 1 99)).
Proof.
  apply (activate_inv newTaskManager [] (map Z.of_nat (seq 1 99)) 0 55 loadedTask); try done.
  - exact newTaskManager_inv.
  - by intros j u [?%not_elem_of_nil _].
  - split; [done|]. intros j Hj. unfold valueOf. by rewrite znth_zset_ne.
  - split; [done|]. intros j Hj. unfold nextOf. by rewrite znth_zset_ne.
Qed.

Lemma loadedWorld_userTasks : userTasks (taskManager loadedWorld) [0].
Proof.
  intros id i t (Hi%list_elem_of_singleton & _ & Hb). subst i. injection Hb as <-. by eexists _, _, _.
Qed.

Lemma digits_55 : Forall isDigit [53; 53].
Proof. repeat (constructor; [unfold isDigit; lia|]). constructor. Qed.

Lemma api_task_lifecycle_witness :
  tmInv (taskManager sampleWorld) [] (map Z.of_nat (seq 0 100)) /\
  exists w1 w2,
    TaskAPI_handlePUT 0 (fun _ => None) (fun _ => 0) (taskPath [53; 53] []) sampleWorld = reply w1 CREATED_RESPONSE_CODE /\
    TaskStateAPI_handleGET (taskStatePath [53; 53] []) w1 = replyText w1 CONTENT_RESPONSE_CODE "Not Running" /\
    TaskAPI_handlePUT 0 (fun _ => None) (fun _ => 0) (taskPath [53; 53] []) w1 =
      replyText w1 CONFLICT_RESPONSE_CODE "Task with the given ID already exists" /\
    TaskAPI_handleDELETE (taskPath [53; 53] []) w1 = reply w2 DELETED_RESPONSE_CODE /\
    TaskStateAPI_handleGET (taskStatePath [53; 53] []) w2 = reply w2 NOT_FOUND_RESPONSE_CODE /\
    tmInv (taskManager w1) [0] (map Z.of_nat (seq 1 99)) /\
    hasTask (taskManager w1) [0] 55 0 (mkTask (-1) false (UserTask VIRTUAL_TASK_SPACE_BEGIN_ADDR 0 0 None)) /\
    cpuCore w1 = cpuCore sampleWorld /\
    tmInv (taskManager w2) [] (map Z.of_nat (seq 0 100)) /\ cpuCore w2 = cpuCore sampleWorld /\ memory w2 = memory sampleWorld /\
    forall id j u, hasTask (taskManager w2) [] id j u <-> hasTask (taskManager sampleWorld) [] id j u.
Proof.
  split; [exact newTaskManager_inv|].
  apply (api_task_lifecycle 0 (fun _ => None) (fun _ => 0) [53; 53] [] sampleWorld [] 0 (map Z.of_nat (seq 1 99))
    (cpuCore sampleWorld) (mkTask (-1) false (UserTask VIRTUAL_TASK_SPACE_BEGIN_ADDR 0 0 None)) (cpuCore sampleWorld)).
  - exact newTaskManager_inv.
  - exact digits_55.
  - by vm_compute.
  - intros j u [Hj _]. by apply not_elem_of_nil in Hj.
  - reflexivity.
  - reflexivity.
Defined.

(** [PUT /tasks/55/data/33800000] *)
Definition insidePath : list Z := chars "/tasks/55/data/33800000".
(** [PUT /tasks/55/data/4294967290] *)
Definition wrappingPath : list Z := chars "/tasks/55/data/4294967290".

Lemma TaskDataAPI_handlePUT_confined_witness :
  uploadAnswer insidePath Application_Octet_Stream [1; 2; 3] loadedWorld [0]
    (TaskDataAPI_handlePUT (insidePath ++ [0]) Application_Octet_Stream [1; 2; 3] loadedWorld) /\
  uploadAnswer wrappingPath Application_Octet_Stream (replicate 32 7) loadedWorld [0]
    (TaskDataAPI_handlePUT (wrappingPath ++ [0]) Application_Octet_Stream (replicate 32 7) loadedWorld).
Proof.
  split.
  - apply (TaskDataAPI_handlePUT_confined insidePath [] Application_Octet_Stream [1; 2; 3] loadedWorld [0] (map Z.of_nat (seq 1 99)));
      [by apply (bool_decide_unpack _)|by vm_compute|exact loadedWorld_inv|exact loadedWorld_userTasks].
  - apply (TaskDataAPI_handlePUT_confined wrappingPath [] Application_Octet_Stream (replicate 32 7) loadedWorld [0] (map Z.of_nat (seq 1 99)));
      [by apply (bool_decide_unpack _)|by vm_compute|exact loadedWorld_inv|exact loadedWorld_userTasks].
Defined.

(** The first is stored, the second leaves the region. *)
Example upload_stored :
  match TaskDataAPI_handlePUT (insidePath ++ [0]) Application_Octet_Stream [1; 2; 3] loadedWorld with
  | Ok (w, r, _) => (responseCode r, map (memory w) [kernelAddr 0x3000000 33800000; kernelAddr 0x3000000 33800000 + 2; kernelAddr 0x3000000 33800000 + 3])
  | Fault _ => (0, [])
  end = (CHANGED_RESPONSE_CODE, [1; 3; 0]).
Proof. by vm_compute. Qed.
Example upload_wraps :
  TaskDataAPI_handlePUT (wrappingPath ++ [0]) Application_Octet_Stream (replicate 32 7) loadedWorld = Fault OutOfRange.
Proof. by vm_compute. Qed.
