(* ===== verification/ManagementFacts.v ===== *)
(** The management API as a whole: whatever is sent to it, the task manager,
    the processor core and the page allocator stay consistent with each other.

    The memory of user tasks lies in a window of [MAX_REGIONS] slots of 2048
    pages each, one per task; first fit takes the lowest free slot.  The
    invariant [worldInv] ties the tasks of [TaskManager], the task descriptors
    of [CpuCore] and the regions of [PageAllocator] together, and is what the
    handlers of [ApiHandlers] promise the CoAP server. *)
From Stdlib Require Import String.
From S2P Require Import Prelude Mem LinkedLists Paging PageAllocator PageAllocatorFacts SocketManager SocketManagerFacts CpuCore CpuCoreFacts CoapServer CoapServerFacts TaskManager ApiHandlers ApiHandlersFacts.

(** ** The regions of user tasks *)

Section slots.
(** [base] is the first page of the window. *)
Context (base : Z).

Definition REGION_PAGES : Z := 2048.
Definition MAX_REGIONS : Z := 100.
Definition slotPage (k : Z) : Z := base + REGION_PAGES * k.

(** Nothing fits before the window; its slots are free, or the region of a
    task with a code that ends where the slot ends. *)
Record slotsOk (used : list Z) (ps : PagingStructures) : Prop := {
  so_wf : wf ps;
  so_before : forall s, 0 <= s < base -> exists p, s <= p < s + REGION_PAGES /\ p < base /\ ~ freePage ps p;
  so_free : forall k, 0 <= k < MAX_REGIONS -> k ∉ used -> freeRun ps (slotPage k) REGION_PAGES;
  so_used : forall k, 0 <= k < MAX_REGIONS -> k ∈ used -> exists c, c <> 0 /\
    (forall p, slotPage k <= p < slotPage (k + 1) -> codeAt ps p = c) /\ codeAt ps (slotPage (k + 1)) <> c;
}.

Hypothesis (Hbase : 0 < base) (Hend : base + REGION_PAGES * MAX_REGIONS < NPAGES).

Lemma slot_of_page p : base <= p < base + REGION_PAGES * MAX_REGIONS ->
  exists k, 0 <= k < MAX_REGIONS /\ slotPage k <= p < slotPage (k + 1).
Proof. intros Hp. exists ((p - base) / REGION_PAGES). unfold slotPage, REGION_PAGES, MAX_REGIONS in *. dlia. Qed.

Lemma slotPage_succ k : slotPage (k + 1) = slotPage k + REGION_PAGES.
Proof. unfold slotPage. lia. Qed.

Lemma slots_apart j k p : j <> k -> slotPage j <= p < slotPage (j + 1) -> ~ (slotPage k <= p < slotPage (k + 1)).
Proof. unfold slotPage, REGION_PAGES. lia. Qed.

Lemma used_slot_taken used ps k p :
  slotsOk used ps -> 0 <= k < MAX_REGIONS -> k ∈ used -> slotPage k <= p < slotPage (k + 1) -> ~ freePage ps p.
Proof. intros Hs Hk Hu Hp Hf. destruct (so_used _ _ Hs k Hk Hu) as (c & Hc & Hall & _). specialize (Hall p Hp). unfold freePage in Hf. congruence. Qed.

(** Where the first run of free pages of a region's size begins. *)
Lemma first_fit_slot used ps a k0 :
  slotsOk used ps -> 0 <= k0 < MAX_REGIONS -> k0 ∉ used ->
  0 <= a -> freeRun ps a REGION_PAGES -> (forall s, 0 <= s < a -> ~ freeRun ps s REGION_PAGES) ->
  exists k, 0 <= k < MAX_REGIONS /\ (k ∉ used) /\ a = slotPage k.
Proof.
  intros Hs Hk0 Hu0 Ha Hrun Hfirst.
  assert (Hlo : base <= a).
  { destruct (Z.ltb_spec a base); [|done]. destruct (so_before _ _ Hs a) as (p & Hp & _ & Hnf); [lia|]. by destruct Hnf; apply Hrun. }
  assert (Hhi : a <= slotPage k0).
  { destruct (Z.leb_spec a (slotPage k0)); [done|]. destruct (Hfirst (slotPage k0)); [unfold slotPage, REGION_PAGES in *; lia|].
    by apply (so_free _ _ Hs). }
  destruct (slot_of_page a) as (k & Hk & Hpk); [unfold slotPage, REGION_PAGES, MAX_REGIONS in *; lia|].
  assert (Huk : k ∉ used).
  { intros Hu. apply (used_slot_taken used ps k a Hs Hk Hu Hpk), Hrun. unfold REGION_PAGES. lia. }
  exists k. split; [done|]. split; [done|]. destruct (Z.eqb_spec a (slotPage k)); [done|].
  destruct (Hfirst (slotPage k)); [unfold slotPage, REGION_PAGES in *; lia|]. by apply (so_free _ _ Hs).
Qed.

(** A new region takes a free slot and leaves the others as they are. *)
Lemma allocate_slot used ps k0 :
  slotsOk used ps -> 0 <= k0 < MAX_REGIONS -> k0 ∉ used ->
  exists k ps', allocateContiguousPages ps REGION_PAGES = Ok (ps', slotPage k * 4096) /\ 0 <= k < MAX_REGIONS /\ (k ∉ used) /\
    slotsOk (k :: used) ps'.
Proof using Hbase Hend.
  intros Hs Hk0 Hu0. pose proof (so_wf _ _ Hs) as Hwf.
  destruct (allocateContiguousPages_first_fit_aux ps REGION_PAGES Hwf) as (ps' & addr & Hcall & Hfit & Hwf').
  { unfold searchable, REGION_PAGES, NPAGES. split; [lia|right; by vm_compute]. }
  destruct Hfit as [(a & Ha & Hb & -> & Hrun & Hfirst & c & Hc & Hpre & Hpost & Hupd)|(_ & _ & Hno)].
  2: { destruct (Hno (slotPage k0)). by apply (so_free _ _ Hs). }
  destruct (first_fit_slot used ps a k0 Hs Hk0 Hu0 Ha Hrun Hfirst) as (k & Hk & Hu & ->).
  exists k, ps'. split; [done|]. split; [done|]. split; [done|].
  assert (Hcode : forall p, codeAt ps' p = if bool_decide (slotPage k <= p < slotPage (k + 1)) then c else codeAt ps p).
  { intros p. rewrite slotPage_succ. by apply codeAt_allocated. }
  assert (Hout : forall p, ~ (slotPage k <= p < slotPage (k + 1)) -> codeAt ps' p = codeAt ps p).
  { intros p Hp. by rewrite Hcode, bool_decide_false. }
  constructor; [done|..].
  - intros s Hsb. destruct (so_before _ _ Hs s Hsb) as (p & Hp & Hpb & Hnf). exists p. split; [done|]. split; [done|].
    unfold freePage. rewrite Hout; [done|]. unfold slotPage, REGION_PAGES in *. lia.
  - intros j Hj [Hjk Hju]%not_elem_of_cons p Hp. unfold freePage. rewrite Hout; [by apply (so_free _ _ Hs j)|].
    apply (slots_apart j k); [done|]. by rewrite slotPage_succ.
  - intros j Hj Hju. destruct (decide (j = k)) as [->|Hjk].
    + exists c. split; [lia|]. split.
      * intros p Hp. by rewrite Hcode, bool_decide_true.
      * rewrite Hout by lia. rewrite slotPage_succ. apply Hpost. unfold slotPage, REGION_PAGES, MAX_REGIONS in *. lia.
    + apply elem_of_cons in Hju as [?|Hju]; [done|]. destruct (so_used _ _ Hs j Hj Hju) as (d & Hd & Hall & Hnext).
      exists d. split; [done|]. split.
      * intros p Hp. rewrite Hout by by apply (slots_apart j k). by apply Hall.
      * destruct (decide (j + 1 = k)) as [<-|Hne].
        -- rewrite Hcode, bool_decide_true by (unfold slotPage, REGION_PAGES; lia). rewrite <- (Hall (slotPage (j + 1) - 1)) by (unfold slotPage, REGION_PAGES; lia).
           intros E. apply Hpre; [unfold slotPage, REGION_PAGES in *; lia|by rewrite E].
        -- rewrite Hout by (unfold slotPage, REGION_PAGES; lia). done.
Qed.

(** Releasing the region of a task frees its slot and nothing else. *)
Lemma free_slot used used' ps k :
  slotsOk used ps -> 0 <= k < MAX_REGIONS -> k ∈ used -> (forall j, j ∈ used' <-> j ∈ used /\ j <> k) ->
  exists ps', freeContiguousPages ps (slotPage k * 4096) = Ok ps' /\ slotsOk used' ps'.
Proof using Hbase Hend.
  intros Hs Hk Hu Hu'. pose proof (so_wf _ _ Hs) as Hwf.
  destruct (freeContiguousPages_region ps (slotPage k * 4096) Hwf) as (ps' & q & Hcall & Hq & Hsame & Hstop & Hupd & Hfree).
  { unfold slotPage, REGION_PAGES, MAX_REGIONS, NPAGES in *. lia. }
  rewrite Z.div_mul in * by lia. exists ps'. split; [done|].
  destruct (so_used _ _ Hs k Hk Hu) as (c & Hc & Hall & Hnext).
  assert (Hck : codeAt ps (slotPage k) = c) by (apply Hall; unfold slotPage, REGION_PAGES; lia).
  assert (q = slotPage (k + 1)) as ->.
  { rewrite Hck in *. destruct (Z.lt_trichotomy q (slotPage (k + 1))) as [Hlt|[->|Hgt]]; [|done|].
    - destruct Hstop; [unfold slotPage, REGION_PAGES, MAX_REGIONS in *; lia|]. apply Hall. lia.
    - destruct Hnext. apply Hsame. unfold slotPage, REGION_PAGES in *. lia. }
  assert (Hout : forall p, ~ (slotPage k <= p < slotPage (k + 1)) -> codeAt ps' p = codeAt ps p).
  { intros p Hp. unfold codeAt. rewrite (upd_entry _ _ _ Hupd). destruct (entryAt ps p); [|done]. cbn. by rewrite clearRange_out. }
  assert (Hin : forall p, slotPage k <= p < slotPage (k + 1) -> codeAt ps' p = 0) by (intros p Hp; apply Hfree; lia).
  constructor; [apply (upd_wf _ _ _ Hupd)|..].
  - intros s Hsb. destruct (so_before _ _ Hs s Hsb) as (p & Hp & Hpb & Hnf). exists p. split; [done|]. split; [done|].
    unfold freePage. rewrite Hout; [done|]. unfold slotPage, REGION_PAGES in *. lia.
  - intros j Hj Hju p Hp. unfold freePage. rewrite <- slotPage_succ in Hp. destruct (decide (j = k)) as [->|Hjk]; [by apply Hin|].
    rewrite Hout by by apply (slots_apart j k). apply (so_free _ _ Hs j Hj); [|by rewrite <- slotPage_succ]. intros Hj'. by apply Hju, Hu'.
  - intros j Hj [Hju Hjk]%Hu'. destruct (so_used _ _ Hs j Hj Hju) as (d & Hd & Hdall & Hdnext). exists d. split; [done|]. split.
    + intros p Hp. rewrite Hout by by apply (slots_apart j k). by apply Hdall.
    + destruct (decide (j + 1 = k)) as [<-|Hne]; [rewrite Hin by (unfold slotPage, REGION_PAGES; lia); by apply not_eq_sym|].
      rewrite Hout by (unfold slotPage, REGION_PAGES; lia). done.
Qed.

(** With fewer tasks than slots there is a free slot. *)
Lemma slot_left used : zlength used < MAX_REGIONS -> exists k, 0 <= k < MAX_REGIONS /\ k ∉ used.
Proof.
  intros Hl. destruct (decide (Forall (fun k => Z.of_nat k ∈ used) (seq 0 100))) as [Hall|Hex].
  - exfalso. assert (Hsub : map Z.of_nat (seq 0 100) ⊆+ used).
    { apply NoDup_submseteq; [apply (NoDup_fmap_2 Z.of_nat), NoDup_seq|]. intros k (i & <- & Hi)%list_elem_of_In%in_map_iff.
      rewrite Forall_forall in Hall. by apply Hall, list_elem_of_In. }
    apply submseteq_length in Hsub. rewrite length_map, length_seq in Hsub. unfold zlength, MAX_REGIONS in Hl. lia.
  - apply not_Forall_Exists in Hex; [|apply _]. apply Exists_exists in Hex as (k & Hk%elem_of_seq & Hn).
    exists (Z.of_nat k). unfold MAX_REGIONS. split; [lia|done].
Qed.
End slots.

(** ** A new task *)

(** What the processor shows of the page tables while the kernel's are in use:
    every page mapped to itself, and entries in the directory's own page. *)
Definition kernelView (virtualPage : Z -> option PageTable) : Prop :=
  identityView virtualPage /\
  exists h, virtualPage 0xFFFFF000 = Some h /\ forall j, 0 <= j < 1023 -> is_Some (getPTE h j).

Section newTask.
Context (cr0 : Z) (virtualPage : Z -> option PageTable) (Hview : kernelView virtualPage).

Lemma physicalAddrOf_ok a :
  0 <= a < NPAGES * 4096 -> (a / 4096) mod 1024 <> 1023 -> exists pa, physicalAddrOf cr0 virtualPage a = Ok pa.
Proof using Hview.
  intros Ha Hp. unfold physicalAddrOf, translateVirtualToPhysicalAddress. destruct (_ =? 0); [by exists a|].
  assert (Hu : is_u32 a) by (unfold is_u32, NPAGES in *; lia).
  assert (Ei : Z.shiftr (Z.land a 0xFFC00000) 22 = Z.shiftr a 22) by u32_bitwise.
  assert (Ej : Z.shiftr (Z.land a 0x003FF000) 12 = Z.land (Z.shiftr a 12) 0x3FF) by u32_bitwise.
  rewrite Ei, Ej. change 0x3FF with (Z.ones 10). rewrite Z.land_ones, !Z.shiftr_div_pow2 by lia. change (2 ^ 22) with 4194304. change (2 ^ 12) with 4096. change (2 ^ 10) with 1024.
  destruct (proj1 Hview (a / 4194304)) as (pt & Hpt & Hpte); [unfold NPAGES in Ha; dlia|].
  rewrite Hpt. cbn [mbind result_bind orFault]. rewrite Hpte by (pose proof (Z.mod_pos_bound (a / 4096) 1024); lia). by eexists.
Qed.

Lemma copyPDE_ok i pd : 0 <= i < 1023 -> exists pd', copyPDE virtualPage i pd = Ok pd'.
Proof using Hview.
  intros Hi. destruct Hview as [_ (h & Hh & Hall)]. destruct (Hall i Hi) as [e He]. unfold copyPDE, currentPDE.
  rewrite (proj2 (Z.leb_gt 1023 i)) by lia. rewrite Hh. cbn [mbind result_bind orFault]. rewrite He. by eexists.
Qed.

Lemma copyPDEs_ok n i pd : 0 <= i -> i + Z.of_nat n <= 1023 -> exists pd', for_rangeM n i (copyPDE virtualPage) pd = Ok pd'.
Proof using Hview.
  revert i pd. induction n as [|n IH]; intros i pd Hi Hn; cbn [for_rangeM]; [by eexists|].
  destruct (copyPDE_ok i pd) as [pd' ->]; [lia|]. cbn [mbind result_bind]. apply IH; lia.
Qed.

Context (junk : Z -> Z).

Lemma buildTaskPaging_ok page :
  0 <= page -> page + REGION_PAGES <= NPAGES -> page mod 1024 < 1020 ->
  exists paging, buildTaskPaging cr0 virtualPage junk VIRTUAL_TASK_SPACE_BEGIN_ADDR (page * 4096) = Ok paging.
Proof using Hview junk.
  intros Hp Hpn Hm. unfold buildTaskPaging. rewrite Z.div_mul by lia. unfold REGION_PAGES in Hpn.
  destruct (physicalAddrOf_ok (page * 4096)) as [a ->]; [lia|rewrite Z.div_mul; lia|]. cbn [mbind result_bind].
  destruct (copyPDEs_ok 1023 0 (newPageDirectory a)) as [pd ->]; [lia..|]. cbn [mbind result_bind].
  destruct (buildPageTables_ok virtualPage junk page (proj1 Hview) Hp Hpn) as (pt1 & pt2 & -> & -> & _). cbn [mbind result_bind].
  unfold SIZEOF_PAGE_DIRECTORY, SIZEOF_PAGE_TABLE.
  destruct (physicalAddrOf_ok (page * 4096 + 0x2000)) as [a1 ->]; [unfold NPAGES in *; lia|dlia|]. cbn [mbind result_bind].
  destruct (physicalAddrOf_ok (page * 4096 + 0x2000 + 0x1000)) as [a2 ->]; [unfold NPAGES in *; lia|dlia|]. cbn [mbind result_bind]. by eexists.
Qed.

(** The constructor of a user task, with a slot left. *)
Lemma newUserTask_ok base c used k0 :
  0 < base -> base + REGION_PAGES * MAX_REGIONS < NPAGES -> base mod 1024 < 1020 ->
  coreIsRunning c = true -> cr3 c = kernelPageDirectoryPhysicalAddr c ->
  slotsOk base used (kernelPageAllocator c) -> 0 <= k0 < MAX_REGIONS -> k0 ∉ used ->
  exists k ps' paging,
    newUserTask cr0 virtualPage junk c VIRTUAL_TASK_SPACE_BEGIN_ADDR =
      Ok (withAllocator c ps', mkTask (-1) false (UserTask VIRTUAL_TASK_SPACE_BEGIN_ADDR (slotPage base k * 4096) 0 (Some paging))) /\
    0 <= k < MAX_REGIONS /\ (k ∉ used) /\ slotsOk base (k :: used) ps'.
Proof using Hview junk.
  intros Hb Hend Hm Hrun Hcr3 Hs Hk0 Hu0. destruct (allocate_slot base Hb Hend used _ k0 Hs Hk0 Hu0) as (k & ps' & Hcall & Hk & Hu & Hs').
  assert (Hmod : slotPage base k mod 1024 < 1020) by (unfold slotPage, REGION_PAGES; dlia).
  destruct (buildTaskPaging_ok (slotPage base k)) as [paging Hpaging];
    [unfold slotPage, REGION_PAGES, MAX_REGIONS in *; lia..|done|].
  exists k, ps', paging. split; [|done]. unfold newUserTask. rewrite Hrun, Hcr3, Z.eqb_refl.
  change (VIRTUAL_TASK_SPACE_BEGIN_ADDR mod (4096 * 1024) =? 0) with true. cbn [andb].
  change (1024 * 2) with REGION_PAGES. rewrite Hcall. cbn [mbind result_bind fst snd].
  rewrite (proj2 (Z.eqb_neq _ 0)) by (unfold slotPage, REGION_PAGES in *; lia). cbn [negb]. by rewrite Hpaging.
Qed.
End newTask.

(** ** Starting and removing tasks leaves the rest of the core alone *)

(** The parts of the core that belong to none of the tasks. *)
Definition sameCore (c c' : CpuCore) : Prop :=
  coreIsRunning c' = coreIsRunning c /\ cr3 c' = cr3 c /\ kernelPageDirectoryPhysicalAddr c' = kernelPageDirectoryPhysicalAddr c.

Lemma activateDescriptor_frame c i d c' : activateDescriptor c i d = Ok c' ->
  sameCore c c' /\ socketManager c' = socketManager c /\ kernelPageAllocator c' = kernelPageAllocator c.
Proof. unfold activateDescriptor. intros E. result_inv. by repeat split. Qed.

Lemma removeDescriptor_frame c i c' : removeDescriptor c i = Ok c' -> sameCore c c'.
Proof.
  unfold removeDescriptor. intros E. result_inv. match goal with x : list _ * option Z |- _ => destruct x end. result_inv. by repeat split.
Qed.

Lemma setToRunningState_frame cr0 virtualPage c this t c' t' r :
  setToRunningState cr0 virtualPage c this t = Ok (c', t', r) ->
  sameCore c c' /\ socketManager c' = socketManager c /\ kernelPageAllocator c' = kernelPageAllocator c.
Proof.
  unfold setToRunningState, UserTask_setToRunningState, KernelTask_setToRunningState. intros E.
  destruct (taskKind t); (destruct (taskIsRunning t); [by injection E as <- <- <-|]); (destruct (_ =? 0); [by injection E as <- <- <-|]);
    (destruct (unusedtaskDescriptorElementsListHead c); [|by injection E as <- <- <-]); result_inv; by eapply activateDescriptor_frame.
Qed.

Lemma destroyTask_frame c t c' : destroyTask c t = Ok c' -> sameCore c c'.
Proof.
  assert (H : forall t region c', destroyUserTask c t region = Ok c' -> sameCore c c').
  { clear. intros t region c' E. unfold destroyUserTask in E. result_inv.
    assert (sameCore c a) by (destruct (taskIsRunning t); [by eapply removeDescriptor_frame|by injection E0 as <-]).
    destruct (negb (taskID t =? -1)); result_inv; destruct (negb (region =? 0)); result_inv; done. }
  unfold destroyTask. destruct (taskKind t); apply H.
Qed.

(** A task that never ran has no descriptor and no sockets. *)
Lemma destroyTask_idle c t taskSpaceBegin region k paging a :
  taskIsRunning t = false -> taskID t = -1 -> taskKind t = UserTask taskSpaceBegin region k paging -> region <> 0 ->
  freeContiguousPages (kernelPageAllocator c) region = Ok a -> destroyTask c t = Ok (withAllocator c a).
Proof.
  intros Hr Hid Hk Hne Hf. unfold destroyTask. rewrite Hk. unfold destroyUserTask. rewrite Hr, Hid, (proj2 (Z.eqb_neq region 0)) by done.
  change (-1 =? -1) with true. cbn [negb mbind result_bind]. by rewrite Hf.
Qed.

(** ** The invariant *)

Section invariant.
Context (base : Z).

(** The task in buffer [i] owns the region of slot [slot i]; it has a
    descriptor on the list of active tasks exactly if it runs. *)
Definition taskOwns (slot : Z -> Z) (running : list Z) (i : Z) (t : Task) : Prop :=
  (exists k paging, taskKind t = UserTask VIRTUAL_TASK_SPACE_BEGIN_ADDR (slotPage base (slot i) * 4096) k paging) /\
  if taskIsRunning t then taskID t ∈ running else taskID t = -1.

(** [active] are the buffers of the tasks, [running] the descriptors the
    scheduler goes through. *)
Record tasksOk (w : World) (active unused running idle : list Z) (slot : Z -> Z) : Prop := {
  w_tasks : tmInv (taskManager w) active unused;
  w_lists : taskLists (cpuCore w) running idle;
  w_sockets : socketInv (socketManager (cpuCore w));
  w_core : coreIsRunning (cpuCore w) = true /\ cr3 (cpuCore w) = kernelPageDirectoryPhysicalAddr (cpuCore w);
  w_nodup : NoDup (map slot active);
  w_range : forall i, i ∈ active -> 0 <= slot i < MAX_REGIONS;
  w_memory : slotsOk base (map slot active) (kernelPageAllocator (cpuCore w));
  w_owns : forall id i t, hasTask (taskManager w) active id i t -> taskOwns slot running i t;
  w_distinct : forall id i t id' i' t', hasTask (taskManager w) active id i t -> hasTask (taskManager w) active id' i' t' ->
    taskIsRunning t = true -> taskIsRunning t' = true -> taskID t = taskID t' -> i = i';
}.

Definition worldInv (w : World) : Prop := exists active unused running idle slot, tasksOk w active unused running idle slot.

Lemma hasTask_id tm active unused id id' i t t' :
  tmInv tm active unused -> hasTask tm active id i t -> hasTask tm active id' i t' -> id = id' /\ t = t'.
Proof. intros _ (_ & Hv & Hb) (_ & Hv' & Hb'). rewrite Hv in Hv'. rewrite Hb in Hb'. by simplify_eq. Qed.

Lemma hasTask_index tm active unused id i i' t t' :
  tmInv tm active unused -> hasTask tm active id i t -> hasTask tm active id i' t' -> i = i' /\ t = t'.
Proof.
  intros Hi H1 H2. assert (i = i') as <- by (eapply (tm_distinct _ _ _ Hi); [apply H1|apply H2|apply H1|apply H2]).
  split; [done|]. by eapply hasTask_id.
Qed.

Hypothesis (Hbase : 0 < base) (Hend : base + REGION_PAGES * MAX_REGIONS < NPAGES).

Lemma elem_without (l1 l2 : list Z) x : NoDup (l1 ++ x :: l2) -> forall y, y ∈ l1 ++ l2 <-> y ∈ l1 ++ x :: l2 /\ y <> x.
Proof.
  intros Hnd y. rewrite <- Permutation_middle in Hnd. apply NoDup_cons in Hnd as [Hx _].
  rewrite !elem_of_app, elem_of_cons in *. split; [|tauto]. intros Hy. split; [tauto|]. by intros ->.
Qed.

(** What has to hold of the core for a task to be gone. *)
Lemma forget_ok w tm c active l1 i l2 unused running idle running' idle' slot id t :
  tasksOk w active unused running idle slot -> active = l1 ++ i :: l2 -> hasTask (taskManager w) active id i t ->
  tmInv tm (l1 ++ l2) (i :: unused) -> (forall j u, ~ hasTask tm (l1 ++ l2) id j u) ->
  (forall id' j u, id' <> id -> hasTask tm (l1 ++ l2) id' j u <-> hasTask (taskManager w) active id' j u) ->
  taskLists c running' idle' -> socketInv (socketManager c) -> sameCore (cpuCore w) c ->
  slotsOk base (map slot (l1 ++ l2)) (kernelPageAllocator c) ->
  (forall n, n ∈ running -> taskIsRunning t = false \/ n <> taskID t -> n ∈ running') ->
  tasksOk (withTaskManager w tm c) (l1 ++ l2) (i :: unused) running' idle' slot.
Proof.
  intros Hw -> Ht Hi' Hnone Hrest Hl' Hs' (F1 & F2 & F3) Hm' Hrun. pose proof Hw as [Hi Hl Hs [Hr Hc] Hnd Hrange Hm Ho Hd].
  assert (Hold : forall id' j u, hasTask tm (l1 ++ l2) id' j u -> hasTask (taskManager w) (l1 ++ i :: l2) id' j u /\ j <> i).
  { intros id' j u Hj. assert (id' <> id) as Hne by (intros ->; by apply (Hnone j u)). pose proof Hj as Hj'. apply Hrest in Hj'; [|done].
    split; [done|]. intros ->. destruct Hne. by destruct (hasTask_id _ _ _ _ _ _ _ _ Hi Hj' Ht). }
  rewrite map_app in Hnd. cbn [map] in Hnd.
  constructor; cbn [withTaskManager taskManager cpuCore]; try done.
  - rewrite F1, F2, F3. done.
  - rewrite map_app. rewrite <- Permutation_middle in Hnd. by apply NoDup_cons in Hnd as [_ ?].
  - intros j Hj. apply Hrange. rewrite elem_of_app in *. rewrite elem_of_cons. tauto.
  - intros id' j u Hj. destruct (Hold _ _ _ Hj) as [Hj' Hne]. destruct (Ho _ _ _ Hj') as [Hk Hu]. split; [done|].
    destruct (taskIsRunning u) eqn:Eu; [|done]. apply Hrun; [done|]. destruct (taskIsRunning t) eqn:Et; [|by left].
    right. intros E. apply Hne. by eapply (Hd _ _ _ _ _ _ Hj' Ht).
  - intros id1 i1 t1 id2 i2 t2 H1 H2. apply Hold in H1 as [H1 _]. apply Hold in H2 as [H2 _]. by eapply Hd.
Qed.

(** Removing a task: its descriptor, its sockets and its slot are free. *)
Lemma removeTask_ok w active unused running idle slot id i t :
  tasksOk w active unused running idle slot -> id <> 0 -> hasTask (taskManager w) active id i t ->
  exists tm c l1 l2 running' idle', removeUserTask (taskManager w) (cpuCore w) id = Ok (tm, c, REMOVED) /\
    tasksOk (withTaskManager w tm c) (l1 ++ l2) (i :: unused) running' idle' slot.
Proof using Hbase Hend.
  intros Hw Hid Ht. pose proof Hw as [Hi Hl Hs [Hr Hc] Hnd Hrange Hm Ho Hd].
  destruct (Ho _ _ _ Ht) as [(k & paging & Hk) Hrun]. pose proof (Hrange i (proj1 Ht)) as Hslot.
  assert (Hreg : 0 < slotPage base (slot i) * 4096 < NPAGES * 4096) by (unfold slotPage, REGION_PAGES, MAX_REGIONS in *; lia).
  assert (Hin : slot i ∈ map slot active) by (apply list_elem_of_In, in_map, list_elem_of_In, Ht).
  assert (Hsl : forall l1 l2, active = l1 ++ i :: l2 -> exists a,
      freeContiguousPages (kernelPageAllocator (cpuCore w)) (slotPage base (slot i) * 4096) = Ok a /\ slotsOk base (map slot (l1 ++ l2)) a).
  { intros l1 l2 ->. apply (free_slot base Hbase Hend _ _ _ _ Hm Hslot Hin). rewrite !map_app in *. cbn [map] in *. by apply elem_without. }
  pose proof (proj1 Ht) as Ha. apply list_elem_of_split in Ha as (m1 & m2 & Ea0). destruct (Hsl m1 m2 Ea0) as (a & Hf & _).
  assert (Hgone : exists c running' idle', destroyTask (cpuCore w) t = Ok c /\ taskLists c running' idle' /\ socketInv (socketManager c) /\
      kernelPageAllocator c = a /\ forall n, n ∈ running -> taskIsRunning t = false \/ n <> taskID t -> n ∈ running').
  { destruct (taskIsRunning t) eqn:Et.
    - apply list_elem_of_split in Hrun as (r1 & r2 & ->).
      destruct (destroyTask_correct (cpuCore w) r1 r2 idle t (slotPage base (slot i) * 4096) Hl Et) as (c & Hc' & Hl' & _ & Hs' & _ & Hf');
        [by rewrite Hk|lia|done|apply Hm|lia|].
      exists c, (r1 ++ r2), (taskID t :: idle). split_and!; [done..|congruence|].
      intros n Hn [?|Hne]; [done|]. rewrite elem_of_app in *. rewrite elem_of_cons in Hn. tauto.
    - exists (withAllocator (cpuCore w) a), running, idle. split_and!; try done.
      + eapply destroyTask_idle; [done|done|exact Hk|lia|done].
      + destruct Hl. by constructor. }
  destruct Hgone as (c & running' & idle' & Hdt & Hl' & Hs' & Ea & Hr').
  destruct (removeUserTask_removes _ _ id active unused i t c Hi Hid Ht Hdt) as (tm & l1 & l2 & E & El & Hi' & Hnone & Hrest).
  exists tm, c, l1, l2, running', idle'. split; [done|].
  eapply (forget_ok w tm c active l1 i l2 unused running idle running' idle' slot id t); try done.
  - by eapply destroyTask_frame.
  - destruct (Hsl l1 l2 El) as (a' & Hf' & Hok). rewrite Hf in Hf'. by injection Hf' as <-; rewrite Ea.
Qed.

(** Another object in the buffer of a task. *)
Lemma setTask_inv tm active unused i t :
  tmInv tm active unused -> i ∈ active ->
  let tm' := mkTaskManager (userTaskBuffers tm).[i := Some t] (taskLinkedListElements tm) (activeTasksLinkedListHead tm) (unusedTaskLinkedListElementsHead tm) in
  tmInv tm' active unused /\
  forall id j u, hasTask tm' active id j u -> (j = i /\ u = t) \/ (j <> i /\ hasTask tm active id j u).
Proof.
  intros Hi Ha tm'. pose proof (tm_range _ _ _ i Hi ltac:(apply elem_of_app; by left)) as Hir. pose proof Hi as [T1 T2 T3 T4 T5 T6 T7 T8 T9 T10]. split.
  - constructor; try done; cbn [tm' userTaskBuffers taskLinkedListElements].
    + by rewrite zlength_zset.
    + intros j id Hj Hv. destruct (T9 j id Hj Hv) as [Hne Hb]. split; [done|].
      destruct (decide (j = i)) as [->|Hne']; [rewrite znth_zset_eq by lia; by eexists|by rewrite znth_zset_ne].
  - intros id j u (Hj & Hv & Hb). cbn [tm' userTaskBuffers] in Hb. destruct (decide (j = i)) as [->|Hne].
    + rewrite znth_zset_eq in Hb by lia. left. by simplify_eq.
    + rewrite znth_zset_ne in Hb by done. by right.
Qed.

Lemma replaceTask_ok w active unused running idle running' idle' slot id i t t' c m :
  tasksOk w active unused running idle slot -> hasTask (taskManager w) active id i t ->
  taskLists c running' idle' -> sameCore (cpuCore w) c -> socketManager c = socketManager (cpuCore w) ->
  kernelPageAllocator c = kernelPageAllocator (cpuCore w) -> taskOwns slot running' i t' -> running ⊆ running' ->
  (taskIsRunning t' = true -> taskID t' ∉ running) ->
  tasksOk (writeTask w i t' c m) active unused running' idle' slot.
Proof.
  intros [Hi Hl Hs [Hr Hc] Hnd Hrange Hm Ho Hd] Ht Hl' (F1 & F2 & F3) Es Ea Hown Hsub Hnew.
  destruct (setTask_inv _ _ _ i t' Hi (proj1 Ht)) as [Hi' Hcases]. unfold writeTask.
  constructor; cbn [taskManager cpuCore]; try done.
  - by rewrite Es.
  - by rewrite F1, F2, F3.
  - by rewrite Ea.
  - intros id' j u Hj. apply Hcases in Hj as [[-> ->]|[Hne Hj]]; [done|]. destruct (Ho _ _ _ Hj) as [Hk Hu]. split; [done|].
    destruct (taskIsRunning u); [by apply Hsub|done].
  - intros id1 i1 t1 id2 i2 t2 H1 H2 R1 R2 E.
    apply Hcases in H1 as [[-> ->]|[N1 H1]], H2 as [[-> ->]|[N2 H2]]; [done| | |by eapply Hd].
    + destruct (Hnew R1). rewrite E. destruct (Ho _ _ _ H2) as [_ Hu]. by rewrite R2 in Hu.
    + destruct (Hnew R2). rewrite <- E. destruct (Ho _ _ _ H1) as [_ Hu]. by rewrite R1 in Hu.
Qed.

Context (cr0 : Z) (virtualPage : Z -> option PageTable) (Hview : kernelView virtualPage).
Context (junk : Z -> Z) (Hmod : base mod 1024 < 1020).

(** Creating a task: as long as the task manager has room there is memory. *)
Lemma createTask_ok w active i unused running idle slot id :
  tasksOk w active (i :: unused) running idle slot -> id <> 0 -> (forall j t, ~ hasTask (taskManager w) active id j t) ->
  exists tm c k paging,
    createUserTask cr0 virtualPage junk (taskManager w) (cpuCore w) id = Ok (tm, c, CREATED) /\
    hasTask tm (i :: active) id i (mkTask (-1) false (UserTask VIRTUAL_TASK_SPACE_BEGIN_ADDR (slotPage base k * 4096) 0 (Some paging))) /\
    (k ∉ map slot active) /\
    tasksOk (withTaskManager w tm c) (i :: active) unused running idle (fun j => if decide (j = i) then k else slot j).
Proof using Hview Hbase Hend Hmod.
  intros Hw Hid Hno. pose proof Hw as [Hi Hl Hs [Hr Hc] Hnd Hrange Hm Ho Hd].
  pose proof (tm_nodup _ _ _ Hi) as Hnd'. assert (Hia : i ∉ active).
  { apply NoDup_app in Hnd' as (_ & Hdis & _). intros Ha. apply (Hdis i Ha). by left. }
  assert (Hlen : zlength (map slot active) < MAX_REGIONS).
  { pose proof (Permutation_length (tm_elements _ _ _ Hi)) as E. rewrite length_map, length_seq, length_app in E. cbn in E.
    unfold zlength. rewrite length_map. unfold MAX_REGIONS, TASK_MANAGER_MAX_TASKS in *. lia. }
  destruct (slot_left _ Hlen) as (k0 & Hk0 & Hu0).
  destruct (newUserTask_ok cr0 virtualPage Hview junk base (cpuCore w) _ k0 Hbase Hend Hmod Hr Hc Hm Hk0 Hu0)
    as (k & ps & paging & Hnew & Hk & Hu & Hm').
  destruct (createUserTask_creates cr0 virtualPage junk _ _ id active i unused _ _ Hi Hid Hno Hnew) as (tm & E & Hi' & Ht & Hrest).
  exists tm, (withAllocator (cpuCore w) ps), k, paging. split; [exact E|]. split; [exact Ht|]. split; [exact Hu|].
  assert (Hslot : forall j, j ∈ active -> (if decide (j = i) then k else slot j) = slot j) by (intros j Hj; by rewrite decide_False by by intros ->).
  assert (Hmap : map (fun j => if decide (j = i) then k else slot j) (i :: active) = k :: map slot active).
  { cbn [map]. rewrite decide_True by done. f_equal. apply map_ext_in. intros j Hj%list_elem_of_In. by apply Hslot. }
  assert (Hold : forall id' j t, hasTask tm (i :: active) id' j t -> id' = id /\ j = i /\ t = mkTask (-1) false (UserTask VIRTUAL_TASK_SPACE_BEGIN_ADDR (slotPage base k * 4096) 0 (Some paging)) \/
      hasTask (taskManager w) active id' j t).
  { intros id' j t Hj. destruct (decide (id' = id)) as [->|Hne]; [|right; by apply Hrest].
    left. by destruct (hasTask_index _ _ _ _ _ _ _ _ Hi' Hj Ht) as [-> ->]. }
  constructor; cbn [withTaskManager taskManager cpuCore]; try done.
  - destruct Hl. by constructor.
  - rewrite Hmap. by apply NoDup_cons.
  - intros j [->|Hj]%elem_of_cons; [by rewrite decide_True|]. rewrite Hslot by done. by apply Hrange.
  - by rewrite Hmap.
  - intros id' j t Hj. destruct (Hold id' j t Hj) as [(-> & -> & ->)|Hj'].
    + split; [|done]. rewrite decide_True by done. by eexists _, _.
    + unfold taskOwns. rewrite Hslot by apply Hj'. by apply (Ho id').
  - intros id1 i1 t1 id2 i2 t2 H1 H2 R1 R2 Eid.
    destruct (Hold _ _ _ H1) as [(-> & -> & ->)|H1']; [done|]. destruct (Hold _ _ _ H2) as [(-> & -> & ->)|H2']; [done|].
    by eapply Hd.
Qed.

(** ** The handlers *)

Context (eflags interruptHandlerReturn : Z) (savedRegisters : list Z).

(** What the server relies on. *)
Definition handled (x : result (World * CoAPResponse * list Z)) : Prop :=
  exists w r bs, x = Ok (w, r, bs) /\ worldInv w /\ 0 <= responseSize r /\ zlength bs <= RESPONSE_BUFFER_SIZE.

Lemma reply_handled w code : worldInv w -> handled (reply w code).
Proof. intros Hw. eexists _, _, _. split; [done|]. split; [done|]. by vm_compute. Qed.

Lemma replyText_handled w code text : worldInv w -> zlength (chars text) <= RESPONSE_BUFFER_SIZE -> handled (replyText w code text).
Proof. intros Hw Ht. eexists _, _, _. split; [done|]. split; [done|]. split; [apply zlength_nonneg|done]. Qed.

Ltac answered := unfold tooBigTask; first [apply reply_handled; assumption | apply replyText_handled; [assumption|by vm_compute]].

(** Every task is one of the window. *)
Lemma tasksOk_userTasks w active unused running idle slot :
  tasksOk w active unused running idle slot -> userTasks (taskManager w) active.
Proof using Hbase Hend.
  intros Hw id i t Ht. destruct (w_owns _ _ _ _ _ _ Hw _ _ _ Ht) as [(k & paging & Hk) _].
  pose proof (w_range _ _ _ _ _ _ Hw i (proj1 Ht)). eexists _, _, _. split; [done|].
  unfold slotPage, REGION_PAGES, MAX_REGIONS, NPAGES in *. lia.
Qed.

Lemma memory_inv w m : worldInv w -> worldInv (mkWorld (taskManager w) (cpuCore w) m).
Proof. intros (a & u & r & d & s & []). exists a, u, r, d, s. by constructor. Qed.

Lemma handlePUT_handled path w :
  worldInv w -> 0 ∈ path -> handled (TaskAPI_handlePUT cr0 virtualPage junk path w).
Proof using Hview Hbase Hend Hmod.
  intros Hw H0. unfold TaskAPI_handlePUT. destruct (parseFrom_total path false 7 H0) as (p & -> & _); [lia|].
  cbn [mbind result_bind]. destruct p as [| |id i]; [answered|answered|].
  destruct Hw as (active & unused & running & idle & slot & Hw). assert (worldInv w) by by eexists _, _, _, _, _.
  destruct (createUserTask_correct cr0 virtualPage junk (taskManager w) (cpuCore w) id active unused (w_tasks _ _ _ _ _ _ Hw)) as (C1 & C2 & C3 & _).
  assert (Hsame : withTaskManager w (taskManager w) (cpuCore w) = w) by by destruct w.
  destruct (decide (id = 0)) as [Hid|Hid]; [rewrite C1 by done; cbn [mbind result_bind]; rewrite Hsame; answered|].
  destruct (lookupTask_ok _ _ _ id (w_tasks _ _ _ _ _ _ Hw)) as [[_ Hno]|(l1 & j & l2 & t & _ & Ht & _)].
  2: { rewrite C2 by eauto. cbn [mbind result_bind]. rewrite Hsame. answered. }
  destruct unused as [|j unused]; [rewrite C3 by done; cbn [mbind result_bind]; rewrite Hsame; answered|].
  destruct (createTask_ok w active j unused running idle slot id Hw Hid Hno) as (tm & c & k & paging & -> & _ & _ & Hw').
  cbn [mbind result_bind]. apply reply_handled. by eexists _, _, _, _, _.
Qed.

Lemma handleDELETE_handled path w :
  worldInv w -> 0 ∈ path -> handled (TaskAPI_handleDELETE path w).
Proof using Hbase Hend.
  intros Hw H0. unfold TaskAPI_handleDELETE. destruct (parseFrom_total path false 7 H0) as (p & -> & _); [lia|].
  cbn [mbind result_bind]. destruct p as [| |id i]; [answered|answered|].
  destruct Hw as (active & unused & running & idle & slot & Hw). assert (worldInv w) by by eexists _, _, _, _, _.
  destruct (removeUserTask_correct (taskManager w) (cpuCore w) id active unused (w_tasks _ _ _ _ _ _ Hw)) as (R1 & R2 & _).
  assert (Hsame : withTaskManager w (taskManager w) (cpuCore w) = w) by by destruct w.
  destruct (decide (id = 0)) as [Hid|Hid]; [rewrite R1 by done; cbn [mbind result_bind]; rewrite Hsame; answered|].
  destruct (lookupTask_ok _ _ _ id (w_tasks _ _ _ _ _ _ Hw)) as [[_ Hno]|(l1 & j & l2 & t & _ & Ht & _)].
  { rewrite R2 by done. cbn [mbind result_bind]. rewrite Hsame. answered. }
  destruct (removeTask_ok w active unused running idle slot id j t Hw Hid Ht) as (tm & c & m1 & m2 & running' & idle' & -> & Hw').
  cbn [mbind result_bind]. apply reply_handled. by eexists _, _, _, _, _.
Qed.

Lemma stateGET_handled path w :
  worldInv w -> 0 ∈ path -> handled (TaskStateAPI_handleGET path w).
Proof.
  intros Hw H0. unfold TaskStateAPI_handleGET. destruct (parseFrom_total path true 7 H0) as (p & -> & _); [lia|].
  cbn [mbind result_bind]. destruct p as [| |id i]; [answered|answered|]. pose proof Hw as (active & unused & running & idle & slot & Hok).
  destruct (getUserTask_cases _ _ _ id (w_tasks _ _ _ _ _ _ Hok)) as [[-> _]|(j & t & -> & Hr & _)]; cbn [mbind result_bind]; [answered|].
  rewrite Hr. cbn [mbind result_bind]. destruct (taskIsRunning t); answered.
Qed.

Lemma setTaskArguments_keeps t a m t' m' taskSpaceBegin region k paging :
  taskKind t = UserTask taskSpaceBegin region k paging ->
  setTaskArguments eflags interruptHandlerReturn savedRegisters t a m = (t', m') ->
  taskID t' = taskID t /\ taskIsRunning t' = taskIsRunning t /\ exists k', taskKind t' = UserTask taskSpaceBegin region k' paging.
Proof.
  intros Hk. unfold setTaskArguments. rewrite Hk. destruct (_ <? _); [intros [= <- _]; by eauto|].
  destruct (_ =? 0); [intros [= <- _]; by eauto|]. repeat case_match. intros [= <- _]. by eauto.
Qed.

Lemma statePUT_handled path f payload w :
  worldInv w -> 0 ∈ path ->
  handled (TaskStateAPI_handlePUT cr0 virtualPage eflags interruptHandlerReturn savedRegisters path f payload w).
Proof using Hview Hbase Hend Hmod junk.
  intros Hw H0. unfold TaskStateAPI_handlePUT. destruct (negb _); [answered|]. destruct (_ || _); [answered|].
  destruct (parseFrom_total path true 7 H0) as (p & -> & _); [lia|].
  cbn [mbind result_bind]. destruct p as [| |id n]; [answered|answered|]. pose proof Hw as (active & unused & running & idle & slot & Hok).
  destruct (getUserTask_cases _ _ _ id (w_tasks _ _ _ _ _ _ Hok)) as [[-> _]|(i & t & -> & Hr & Ht)]; cbn [mbind result_bind]; [answered|].
  rewrite Hr. cbn [mbind result_bind]. destruct (taskIsRunning t) eqn:Et; [answered|].
  destruct (setTaskArguments _ _ _ t (mkTaskArguments [] 0) (memory w)) as [t1 m] eqn:Ea.
  destruct (w_owns _ _ _ _ _ _ Hok _ _ _ Ht) as [(k & paging & Hk) Hid]. rewrite Et in Hid.
  destruct (setTaskArguments_keeps _ _ _ _ _ _ _ _ _ Hk Ea) as (Eid & Erun & k1 & Hk1).
  pose proof (w_range _ _ _ _ _ _ Hok i (proj1 Ht)) as Hslot.
  destruct (physicalAddrOf_ok cr0 virtualPage Hview (slotPage base (slot i) * 4096)) as [pd Hpd];
    [unfold slotPage, REGION_PAGES, MAX_REGIONS, NPAGES in *; lia|rewrite Z.div_mul by lia; unfold slotPage, REGION_PAGES; dlia|].
  destruct (setToRunningState_correct cr0 virtualPage (cpuCore w) running idle i t1 _ _ k1 paging pd (w_lists _ _ _ _ _ _ Hok) Hk1 Hpd)
    as (c & t2 & r & E & Hres). rewrite E. cbn [mbind result_bind].
  destruct (setToRunningState_frame _ _ _ _ _ _ _ _ E) as (F1 & F2 & F3).
  assert (Hplain : c = cpuCore w -> t2 = t1 -> worldInv (writeTask w i t2 c m)).
  { intros -> ->. exists active, unused, running, idle, slot. eapply (replaceTask_ok w); try done; [apply Hok| |by rewrite Erun, Et].
    split; [by eexists _, _|]. by rewrite Erun, Et, Eid. }
  destruct r; [|destruct Hres as (_ & -> & ->)|destruct Hres as (_ & _ & -> & ->)|destruct Hres as (_ & _ & _ & -> & ->)].
  2-4: specialize (Hplain eq_refl eq_refl); answered.
  destruct Hres as (_ & _ & d & idle' & -> & Hl' & -> & _). apply reply_handled. exists active, unused, (d :: running), idle', slot.
  eapply (replaceTask_ok w); try done.
  - split; [rewrite Hk1; by eexists _, _|]. cbn. by left.
  - intros n0 Hn0. by right.
  - intros _. cbn [taskID]. pose proof (taskLists_nodup _ _ _ (w_lists _ _ _ _ _ _ Hok)) as Hnd. apply NoDup_app in Hnd as (_ & Hdis & _).
    intros Hd. apply (Hdis d Hd). by left.
Qed.

(** The addresses of an upload do not wrap around. *)
Definition uploadFits (str payload : list Z) : Prop :=
  forall id address, dataRequest str id address -> address + zlength payload < 2 ^ 32.

Lemma dataPUT_handled path f payload w :
  worldInv w -> 0 ∈ path -> zlength payload < 2 ^ 16 -> uploadFits (cString path) payload ->
  handled (TaskDataAPI_handlePUT path f payload w).
Proof using Hbase Hend.
  intros Hw H0 Hlen Hfit. destruct (decide (f = Application_Octet_Stream)) as [->|Hf].
  2: { unfold TaskDataAPI_handlePUT. rewrite bool_decide_false by done. cbn [negb]. answered. }
  destruct (cString_split path H0) as (Hs & rest & Ep). rewrite Ep. destruct (dataRequest_dec (cString path) Hs) as [(id & address & Hr)|Hno].
  2: { destruct (handlePUT_noRequest (cString path) rest payload w Hs Hno) as (r & bs & -> & _ & Hsz & Hbs). by exists w, r, bs. }
  rewrite (handlePUT_request _ rest payload w id address Hs Hr). pose proof Hw as (active & unused & running & idle & slot & Hok).
  destruct (getUserTask_cases _ _ _ id (w_tasks _ _ _ _ _ _ Hok)) as [[-> _]|(i & t & -> & Hread & Ht)]; cbn [mbind result_bind]; [answered|].
  rewrite Hread. cbn [mbind result_bind]. destruct (tasksOk_userTasks _ _ _ _ _ _ Hok _ _ _ Ht) as (region & k & paging & Hk & Hreg).
  unfold taskAddrSpaceIsUserAccessible. rewrite Hk. destruct (addrSpaceIsUserAccessible _ _ _) eqn:Eacc; cbn [negb]; [|answered].
  destruct (_ =? 0); [answered|]. specialize (Hfit _ _ Hr).
  rewrite (setData_exact t region k paging address payload (memory w)); [|done|done|by eapply dataRequest_address|done|done].
  pose proof (fun m => memory_inv w m Hw) as Hm.
  destruct (decide _); [|rewrite decide_False by lia]; cbn [mbind result_bind negb]; [|specialize (Hm (memory w)); answered].
  specialize (Hm (storeBytes (memory w) (kernelAddr region address) payload)). destruct (taskIsRunning t); answered.
Qed.

(** The handlers keep what the server relies on. *)
Lemma apiHandlers_ok h m path f payload w :
  worldInv w -> 0 ∈ path -> zlength payload < 2 ^ 16 -> uploadFits (cString path) payload ->
  handled (@handle World (apiHandlers cr0 virtualPage junk eflags interruptHandlerReturn savedRegisters) h m path f payload w).
Proof using Hview Hbase Hend Hmod.
  assert (Hdef : forall w, worldInv w -> handled (defaultHandle w)).
  { intros w' Hw. eexists _, _, _. split; [done|]. split; [done|]. by vm_compute. }
  intros Hw H0 Hlen Hfit. cbn [handle apiHandlers].
  destruct (h =? 0); [|destruct (h =? 1)]; destruct m; try by apply Hdef.
  - by apply handlePUT_handled.
  - by apply handleDELETE_handled.
  - by apply stateGET_handled.
  - by apply statePUT_handled.
  - by apply dataPUT_handled.
Qed.

(** ** The management task at work *)

Record Datagram := mkDatagram {
  dgPath0 : list Z; (* what the server's path array holds before *)
  dgSourceIP : Z;
  dgSourcePort : Z;
  dgPayload : list Z;
}.

(** The path string a handler gets, and the payload. *)
Definition datagramPath (payload : list Z) : list Z := cString (wholePath (requestPath (packetOptions payload).1) ++ [0]).

(** What is asked of a datagram: it holds bytes, its path fits in the server's
    array, and if its path names an address of a task, storing its payload
    there does not wrap around the address space. *)
Definition goodDatagram (d : Datagram) : Prop :=
  Forall is_u8 (dgPayload d) /\ zlength (dgPayload d) < 2 ^ 16 /\ zlength (dgPath0 d) = MAX_COAP_PATH_SIZE + 1 /\
  zlength (requestPath (packetOptions (dgPayload d)).1) <= MAX_COAP_PATH_SIZE /\
  forall r, (packetOptions (dgPayload d)).2 = Some r -> uploadFits (datagramPath (dgPayload d)) (tail r).

(** The server with the handlers of the API, one datagram after the other. *)
Fixpoint serve (s : CoAPServer) (w : World) (ds : list Datagram) : result (CoAPServer * World) :=
  match ds with
  | [] => Ok (s, w)
  | d :: ds =>
      r ← @handlePacketFromReceiveBuffer World (apiHandlers cr0 virtualPage junk eflags interruptHandlerReturn savedRegisters)
            s w (dgPath0 d) (dgSourceIP d) (dgSourcePort d) (zlength (dgPayload d)) (dgPayload d);
      serve (fst r) (snd r) ds
  end.

Lemma decodeOptions_shorter fuel number m opts r : decodeOptions fuel number m = (opts, Some r) -> (length r <= length m)%nat.
Proof.
  revert number m opts. induction fuel as [|fuel IH]; intros number [|b m] opts; cbn [decodeOptions]; try by intros [= _ <-].
  destruct (b =? 0xFF); [by intros [= _ <-]|]. destruct (decodeOption number b m) as [[[num v] m']|] eqn:Eo; [|done].
  destruct (decodeOptions fuel num m') as [opts' rest'] eqn:E. intros [= _ ->]. apply IH in E. apply decodeOption_shorter in Eo. cbn. lia.
Qed.

Lemma serve_ok ds s l w :
  serverInv s l -> worldInv w -> Forall goodDatagram ds ->
  exists s' w', serve s w ds = Ok (s', w') /\ serverInv s' l /\ worldInv w'.
Proof using Hview Hbase Hend Hmod.
  intros Hs Hw Hds. revert s w Hs Hw. induction Hds as [|d ds (H1 & H2 & H3 & H4 & H5) _ IH]; intros s w Hs Hw; cbn [serve]; [by eexists _, _|].
  destruct (@handlePacket_handled World (apiHandlers cr0 virtualPage junk eflags interruptHandlerReturn savedRegisters) worldInv s l w (dgPath0 d)
    (dgSourceIP d) (dgSourcePort d) (dgPayload d) Hs Hw H1 H2 H3 H4) as (s1 & w1 & -> & Hs1 & Hw1).
  { intros h m pa f r (_ & H0 & Htake) Hr _. apply apiHandlers_ok; [done|done| |].
    - pose proof Hr as Hr'. unfold packetOptions in Hr'. destruct (decodeOptions _ _ _) as [opts rest] eqn:E. cbn in Hr'. subst rest.
      apply decodeOptions_shorter in E. rewrite length_drop in E. unfold zlength in *. destruct r; cbn in *; lia.
    - assert (cString pa = datagramPath (dgPayload d)) as ->; [|by apply H5].
      unfold datagramPath. rewrite <- Htake at 1. rewrite <- (take_drop (length (wholePath (requestPath (packetOptions (dgPayload d)).1) ++ [0])) pa) at 1.
      rewrite Htake. apply cString_app. apply elem_of_app. right. by left. }
  cbn [mbind result_bind fst snd]. by apply IH.
Qed.

(** What the management task starts with: no tasks, the window free. *)
Definition coreReady (c : CpuCore) : Prop :=
  (exists running idle, taskLists c running idle) /\ socketInv (socketManager c) /\
  coreIsRunning c = true /\ cr3 c = kernelPageDirectoryPhysicalAddr c /\ slotsOk base [] (kernelPageAllocator c).

Lemma start_ok c m : coreReady c ->
  exists running idle, tasksOk (mkWorld newTaskManager c m) [] (map Z.of_nat (seq 0 100)) running idle (fun _ => 0).
Proof.
  intros ((running & idle & Hl) & Hs & Hr & Hc & Hm). exists running, idle.
  constructor; try done; [apply newTaskManager_inv|apply NoDup_nil_2|..].
  - by intros id i t [?%not_elem_of_nil _].
  - by intros id i t id' i' t' [?%not_elem_of_nil _].
Qed.

Lemma start_inv c m : coreReady c -> worldInv (mkWorld newTaskManager c m).
Proof. intros (running & idle & Hw)%(start_ok c m). by eexists _, _, _, _, _. Qed.

(** C5: the whole management API.  From its start on, for any sequence of
    datagrams whose path has at most 100 characters and whose upload, if the path
    names an address, does not wrap around the address space - requests to
    create, load, start, ask for and remove tasks in any order, well formed or
    not - the server answers or drops each without a fault, without a store
    outside the region of the task it is for, and tasks, task descriptors,
    sockets and page regions stay consistent: every task has its own 8 MB, every
    running task its own descriptor, and everything else in the window of user
    memory is free. *)
Theorem managementApi_safe s l c m ds :
  coreReady c -> serverInv s l -> Forall goodDatagram ds ->
  exists s' w', serve s (mkWorld newTaskManager c m) ds = Ok (s', w') /\ serverInv s' l /\ worldInv w'.
Proof using Hview Hbase Hend Hmod. intros Hc Hs Hds. apply serve_ok; [done|by apply start_inv|done]. Qed.

Definition taskRegion (t : Task) : Z := match taskKind t with UserTask _ region _ _ => region | KernelTask stack _ => stack end.

(** C24: as long as the task manager has room, creating a task with a new
    number succeeds: there is memory for it, whatever tasks were created and
    removed before, and it overlaps with the memory of no other task. *)
Theorem task_creation_succeeds pathDigits pathJunk w active i unused running idle slot :
  tasksOk w active (i :: unused) running idle slot -> Forall isDigit pathDigits -> 0 < decimal pathDigits <= 0xFFFFFFFF ->
  (forall j t, ~ hasTask (taskManager w) active (decimal pathDigits) j t) ->
  exists w' t, TaskAPI_handlePUT cr0 virtualPage junk (taskPath pathDigits pathJunk) w = reply w' CREATED_RESPONSE_CODE /\
    worldInv w' /\ hasTask (taskManager w') (i :: active) (decimal pathDigits) i t /\ taskRegion t <> 0 /\
    forall id j u, hasTask (taskManager w) active id j u ->
      taskRegion t + 0x800000 <= taskRegion u \/ taskRegion u + 0x800000 <= taskRegion t.
Proof using Hview Hbase Hend Hmod.
  intros Hw Hd Hid Hno. destruct (createTask_ok w active i unused running idle slot (decimal pathDigits) Hw ltac:(lia) Hno)
    as (tm & c & k & paging & E & Ht & Hk & Hw').
  exists (withTaskManager w tm c). eexists. split.
  { unfold TaskAPI_handlePUT. rewrite parse_taskPath by done. cbn [mbind result_bind]. unfold parsed.
    rewrite (proj2 (Z.ltb_ge _ (decimal pathDigits))) by lia. by rewrite E. }
  split; [by eexists _, _, _, _, _|]. split; [exact Ht|]. cbn [taskRegion taskKind].
  assert (Hkr : 0 <= k < MAX_REGIONS).
  { pose proof (w_range _ _ _ _ _ _ Hw' i ltac:(by left)) as Hr. cbv beta in Hr. by rewrite decide_True in Hr. }
  split; [unfold slotPage, REGION_PAGES in *; lia|]. intros id j u Hu. destruct (w_owns _ _ _ _ _ _ Hw _ _ _ Hu) as [(k' & paging' & Hkind) _].
  unfold taskRegion. rewrite Hkind. assert (slot j <> k).
  { intros <-. apply Hk. apply list_elem_of_In, in_map, list_elem_of_In, Hu. }
  unfold slotPage, REGION_PAGES. lia.
Qed.
End invariant.

(** ** A machine after start-up *)

(** The first 32 MB belong to the kernel, the two stacks of its tasks follow. *)
Definition bootAllocator : PagingStructures :=
  match allocatePageRange sampleAllocator 0 8223 with Ok ps => ps | Fault _ => sampleAllocator end.

Lemma sampleAllocator_free p : 0 <= p < NPAGES -> freePage sampleAllocator p.
Proof. refine (proj2 (newPageAllocator_wf 0x100000 0x200000 example_addr_ok _) p). by repeat split. Qed.

Lemma bootAllocator_slots : slotsOk 8224 [] bootAllocator.
Proof.
  destruct (allocatePageRange_reserves_aux sampleAllocator 0 8223 sampleAllocator_wf) as (ps & Hrun & Hwf & _ & Hused & Hrest);
    [lia|lia|unfold NPAGES; lia|].
  unfold bootAllocator. rewrite Hrun. constructor; [exact Hwf|..].
  - intros s Hs. exists s. unfold REGION_PAGES. split; [lia|]. split; [lia|]. apply Hused. lia.
  - intros k Hk _ p Hp. assert (E : codeAt ps p = codeAt sampleAllocator p).
    { unfold codeAt. rewrite Hrest by (unfold slotPage, REGION_PAGES in *; lia). reflexivity. }
    assert (Hr : 0 <= p < NPAGES) by (unfold slotPage, REGION_PAGES, MAX_REGIONS, NPAGES in *; lia).
    apply sampleAllocator_free in Hr. unfold freePage in *. exact (eq_trans E Hr).
  - intros k _ Hk. destruct (not_elem_of_nil k Hk).
Qed.

Definition bootCore : CpuCore :=
  let c := newCpuCore newSocketManager 0x100000 bootAllocator in
  mkCpuCore (taskDescriptorListElements c) (unusedtaskDescriptorElementsListHead c) (activeTasksListHead c) None false true 0 0 0x100000
    (socketManager c) (kernelPageAllocator c) 0x100000.

Lemma taskLists_same c c' active unused :
  taskLists c active unused -> taskDescriptorListElements c' = taskDescriptorListElements c ->
  activeTasksListHead c' = activeTasksListHead c -> unusedtaskDescriptorElementsListHead c' = unusedtaskDescriptorElementsListHead c ->
  taskLists c' active unused.
Proof. intros [] E1 E2 E3. by constructor; rewrite ?E1, ?E2, ?E3. Qed.

Lemma bootCore_ready : coreReady 8224 bootCore.
Proof.
  split.
  { exists [], (map Z.of_nat (seq 0 50)). 
    eapply taskLists_same; [apply (newCore_lists newSocketManager 0x100000 bootAllocator)|reflexivity..]. }
  split; [exact newSocketManager_inv|]. split; [reflexivity|]. split; [reflexivity|exact bootAllocator_slots].
Qed.

Definition bootPages (a : Z) : option PageTable := Some (identityPageTable ((a - 0xFFC00000) / 0x1000)).

Lemma bootPages_view : kernelView bootPages.
Proof.
  split; [apply identityPageTable_view|]. eexists. split; [done|]. intros j Hj. unfold getPTE.
  rewrite (proj2 (Z.leb_gt 1023 j)) by lia. change ((0xFFFFF000 - 0xFFC00000) / 0x1000) with 1023.
  destruct (znth_lt_Some (identityPageTable 1023) j) as [e He]; [rewrite zlength_identityPageTable; lia|].
  rewrite He. by eexists.
Qed.

Definition sampleDatagram : Datagram := mkDatagram (replicate 101 1) 42 43 CoapServerFacts.sampleRequest.

(** [PUT /tasks/77/data/33800000] with three bytes. *)
Definition uploadRequest : list Z :=
  requestPacket 0 3 7 9 [] ([0xB5; 116; 97; 115; 107; 115; 0x02; 55; 55; 0x04; 100; 97; 116; 97; 0x08; 51; 51; 56; 48; 48; 48; 48; 48;
    0x11; 42; 0xFF; 1; 2; 3]).

(** Whether an upload fits, computed with the parser. *)
Definition uploadAddress (str : list Z) : option Z :=
  match parseFrom (str ++ [0]) true 7 with
  | Ok (ParseOk _ i) =>
      if i + 6 <? zlength str then
        match parseNumber (Z.to_nat (zlength str - (i + 6))) (str ++ [0]) false (i + 6) 0 with Ok (ParseOk a _) => Some a | _ => None end
      else None
  | _ => None
  end.

Lemma uploadFits_computed str payload :
  0 ∉ str -> match uploadAddress str with Some a => a + zlength payload < 2 ^ 32 | None => True end -> uploadFits str payload.
Proof.
  intros H0 Hfit id address (i & j & E1 & Hi & E2)%(dataRequest_parsed str []); [|done]. unfold uploadAddress in Hfit.
  rewrite E1, (proj2 (Z.ltb_lt _ _) Hi), E2 in Hfit. done.
Qed.

Example uploadAddress_sample : uploadAddress (datagramPath uploadRequest) = Some 33800000.
Proof. by vm_compute. Qed.

Ltac good_datagram :=
  split; [cbn; by repeat (apply Forall_cons; split; [by vm_compute|])|];
  split; [by vm_compute|]; split; [done|]; split; [by vm_compute|];
  let Hr := fresh in intros ? Hr; vm_compute in Hr; injection Hr as <-;
  apply uploadFits_computed; [by apply (bool_decide_unpack _)|by vm_compute].

Example managementApi_safe_witness :
  exists s' w', serve 0x80000001 bootPages (fun _ => 0) 0 0 (replicate 8 0) bootServer (mkWorld newTaskManager bootCore (fun _ => 0))
      [sampleDatagram; sampleDatagram; mkDatagram (replicate 101 1) 42 43 uploadRequest; mkDatagram (replicate 101 1) 42 43 [1; 2]] = Ok (s', w') /\
    serverInv s' [2; 1; 0] /\ worldInv 8224 w'.
Proof.
  apply (managementApi_safe 8224 ltac:(lia) ltac:(by vm_compute) 0x80000001 bootPages bootPages_view (fun _ => 0) ltac:(by vm_compute) 0 0 (replicate 8 0)
    bootServer [2; 1; 0] bootCore (fun _ => 0)); [exact bootCore_ready|exact bootServer_inv|].
  repeat (apply Forall_cons; split); [good_datagram..|apply Forall_nil; done].
Defined.

Example task_creation_succeeds_witness :
  exists w' t, TaskAPI_handlePUT 0x80000001 bootPages (fun _ => 0) (taskPath [53; 53] []) (mkWorld newTaskManager bootCore (fun _ => 0)) =
      reply w' CREATED_RESPONSE_CODE /\
    worldInv 8224 w' /\ hasTask (taskManager w') [0] 55 0 t /\ taskRegion t <> 0.
Proof.
  destruct (start_ok 8224 bootCore (fun _ => 0) bootCore_ready) as (running & idle & Hw).
  destruct (task_creation_succeeds 8224 ltac:(lia) ltac:(by vm_compute) 0x80000001 bootPages bootPages_view (fun _ => 0) ltac:(by vm_compute)
    [53; 53] [] (mkWorld newTaskManager bootCore (fun _ => 0)) [] 0 (map Z.of_nat (seq 1 99)) running idle (fun _ => 0) Hw digits_55)
    as (w' & t & E & Hw' & Ht & Hne & _).
  - by vm_compute.
  - intros j t [Hj _]. by apply not_elem_of_nil in Hj.
  - exists w', t. split; [exact E|]. split; [exact Hw'|]. split; [exact Ht|exact Hne].
Defined.
