(* ===== verification/Syscalls.v ===== *)
(** System calls: the handlers of [operating_system/cpu_core/cpu_core.cpp], the
    interrupt table that leads to them ([interrupt_handler_manager.{h,cpp}]) and
    the functions tasks call, [cpp_lib/syscalls.cpp].

    Memory is what the calling task sees; the fields of the argument structures
    have their i386 offsets.  A handler gets the task objects ([tasks]) by the
    names the descriptors hold. *)
From S2P Require Import Prelude Mem LinkedLists SocketManager CpuCore.

(** ** Argument structures *)

Definition sizeofOpenSocketSyscallArgs : Z := 8. (* udpPort 0, socketID 4 *)
Definition sizeofSetReceiveBufferSyscallArgs : Z := 16. (* socketID 0, buffer 4, bufferSize 8, success 12 *)
Definition sizeofSetSendBufferSyscallArgs : Z := 20. (* ..., indicatorWhenFinished 12, success 16 *)
Definition sizeofCloseSocketSyscallArgs : Z := 1.
Definition sizeofPrintToScreenSyscallArgs : Z := 8. (* string 0, stringSize 4 *)
Definition sizeofGetTimerCounterSyscallArgs : Z := 4.

Definition readByte (m : Mem) (a k : Z) : Z := m (u32 (a + k)).
Definition readWord (m : Mem) (a k : Z) : Z := readByte m a k + 256 * readByte m a (k + 1).
Definition readDwordAt (m : Mem) (a k : Z) : Z := readWord m a k + 65536 * readWord m a (k + 2).

(** Stores byte by byte, each address modulo 2^32. *)
Fixpoint putBytesAt (m : Mem) (a k : Z) (bs : list Z) : Mem :=
  match bs with
  | [] => m
  | b :: bs => putBytesAt (store m (u32 (a + k)) b) a (k + 1) bs
  end.
Definition putDwordAt (m : Mem) (a k v : Z) : Mem := putBytesAt m a k (le32 v).

Definition isKernelTask (t : Task) : bool := match taskKind t with KernelTask _ _ => true | UserTask _ _ _ _ => false end.

Section handlers.
Context (tasks : Z -> option Task).

Definition getCurrentTask (c : CpuCore) : result Task :=
  cur ← currentTask c ?? NullPointer;
  d ← getValue (taskDescriptorListElements c) cur;
  p ← pTask d ?? NullPointer;
  tasks p ?? NullPointer.

(** The check every handler begins with. *)
Definition argsAccessible (t : Task) (eax size : Z) : bool :=
  match taskKind t with
  | UserTask begin _ _ _ => addrSpaceIsUserAccessible begin eax size
  | KernelTask _ _ => true
  end.

Definition convertFor (t : Task) (addr size : Z) : bool * Z :=
  match taskKind t with
  | UserTask begin region _ _ => convertContigUserAddrBlockToContigKernelAddrBlock begin region addr size
  | KernelTask _ _ => (true, addr)
  end.

Definition openSocketSyscallHandler (c : CpuCore) (m : Mem) (eax : Z) : result (CpuCore * Mem) :=
  t ← getCurrentTask c;
  if negb (argsAccessible t eax sizeofOpenSocketSyscallArgs) then Ok (c, m)
  else
    r ← openSocket (socketManager c) (u8 (taskID t)) (readWord m eax 0);
    Ok (withSocketManager c (fst r), putDwordAt m eax 4 (snd r)).

Definition setReceiveBufferSyscallHandler (c : CpuCore) (m : Mem) (eax : Z) : result (CpuCore * Mem) :=
  t ← getCurrentTask c;
  if negb (argsAccessible t eax sizeofSetReceiveBufferSyscallArgs) then Ok (c, m)
  else
    let taskId := u8 (taskID t) in
    let socketID := readByte m eax 0 in
    let buffer := readDwordAt m eax 4 in
    let bufferSize := readDwordAt m eax 8 in
    let finish r := Ok (withSocketManager c (fst r), putDwordAt m eax 12 (snd r)) in
    if isKernelTask t then
      r ← setReceiveBuffer (socketManager c) taskId socketID buffer bufferSize; finish r
    else if (buffer =? 0) && (bufferSize =? 0) then
      r ← setReceiveBuffer (socketManager c) taskId socketID 0 0; finish r
    else
      let '(ok, kernelBuffer) := convertFor t buffer bufferSize in
      if negb ok then Ok (c, putDwordAt m eax 12 (-1))
      else r ← setReceiveBuffer (socketManager c) taskId socketID kernelBuffer bufferSize; finish r.

Definition setSendBufferSyscallHandler (c : CpuCore) (m : Mem) (eax : Z) : result (CpuCore * Mem) :=
  t ← getCurrentTask c;
  if negb (argsAccessible t eax sizeofSetSendBufferSyscallArgs) then Ok (c, m)
  else
    let taskId := u8 (taskID t) in
    let socketID := readByte m eax 0 in
    let buffer := readDwordAt m eax 4 in
    let bufferSize := readDwordAt m eax 8 in
    let indicatorWhenFinished := readDwordAt m eax 12 in
    let finish r := Ok (withSocketManager c (fst r), putDwordAt m eax 16 (snd r)) in
    if isKernelTask t then
      r ← setSendBuffer (socketManager c) taskId socketID buffer bufferSize indicatorWhenFinished; finish r
    else if (buffer =? 0) && (bufferSize =? 0) && (indicatorWhenFinished =? 0) then
      r ← setSendBuffer (socketManager c) taskId socketID 0 0 0; finish r
    else
      let '(ok1, kernelBuffer) := convertFor t buffer bufferSize in
      let '(ok2, kernelIndicator) := convertFor t indicatorWhenFinished 4 in
      if negb ok1 || negb ok2 then Ok (c, putDwordAt m eax 16 (-1))
      else r ← setSendBuffer (socketManager c) taskId socketID kernelBuffer bufferSize kernelIndicator; finish r.

Definition closeSocketSyscallHandler (c : CpuCore) (m : Mem) (eax : Z) : result (CpuCore * Mem) :=
  t ← getCurrentTask c;
  if negb (argsAccessible t eax sizeofCloseSocketSyscallArgs) then Ok (c, m)
  else s ← closeSocket (socketManager c) (u8 (taskID t)) (readByte m eax 0); Ok (withSocketManager c s, m).

(** The string given to [printk], if any. *)
Definition printToScreenSyscallHandler (c : CpuCore) (m : Mem) (eax : Z) : result (option Z) :=
  t ← getCurrentTask c;
  if negb (argsAccessible t eax sizeofPrintToScreenSyscallArgs) then Ok None
  else
    let string := readDwordAt m eax 0 in
    let stringSize := readDwordAt m eax 4 in
    if negb (argsAccessible t string (u32 (stringSize + 1))) then Ok None
    else if negb (readByte m string stringSize =? 0) then Ok None
    else Ok (Some string).

Definition getTimerCounterSyscallHandler (c : CpuCore) (m : Mem) (eax : Z) : result (CpuCore * Mem) :=
  t ← getCurrentTask c;
  if negb (argsAccessible t eax sizeofGetTimerCounterSyscallArgs) then Ok (c, m)
  else Ok (c, putDwordAt m eax 0 (timerCounter c)).
End handlers.

(** ** The interrupt table *)

Definition IDT_ENTRIES : Z := 256.
Definition CUSTOM7 : Z := 55.
Definition CUSTOM32 : Z := 80.
Definition KERNEL_CS : Z := 8.

Record IdtGate := mkIdtGate {
  low_offset : Z;
  sel : Z;
  always0 : Z;
  flags : Z;
  high_offset : Z;
}.

Inductive IsrHandler :=
| voidHandler
| genericExceptionHandler
| generalProtectionFaultExceptionHandler
| pageFaultExceptionHandler
| yieldTaskSwitchIntHandler
| openSocketHandler
| setReceiveBufferHandler
| setSendBufferHandler
| closeSocketHandler
| printToScreenHandler
| getTimerCounterHandler
| timerHandler
| rtcTimerHandler
| loopbackInterfaceHandler
| physicalInterfaceHandler.

#[export] Instance IsrHandler_eq_dec : EqDecision IsrHandler.
Proof. solve_decision. Defined.

Record InterruptHandlerManager := mkInterruptHandlerManager {
  idt : list IdtGate;
  interruptHandlers : list (Z * IsrHandler);
}.

Definition setIdtGate (im : InterruptHandlerManager) (n handler : Z) (allowUserPrivilege : bool) : InterruptHandlerManager :=
  mkInterruptHandlerManager
    (idt im).[n := mkIdtGate (u16 handler) KERNEL_CS 0 (if allowUserPrivilege then 0xEE else 0x8E) (u16 (Z.shiftr handler 16))]
    (interruptHandlers im).

(** The loop of the constructor, which runs to [i <= IDT_ENTRIES]. *)
Definition clearHandlers (im : InterruptHandlerManager) : result InterruptHandlerManager :=
  hs ← for_rangeM (Z.to_nat (IDT_ENTRIES + 1)) 0 (fun i hs =>
         if i <? zlength hs then Ok hs.[i := (0, voidHandler)] else Fault OutOfRange) (interruptHandlers im);
  Ok (mkInterruptHandlerManager (idt im) hs).

(** The gates of the constructor: [stub n] is the address of the assembly stub
    of interrupt [n]. *)
Definition installGates (stub : Z -> Z) (im : InterruptHandlerManager) : InterruptHandlerManager :=
  let im := for_range 32 0 (fun n im => setIdtGate im n (stub n) false) im in
  let im := for_range 16 32 (fun n im => setIdtGate im n (stub n) true) im in
  let im := for_range 8 48 (fun n im => setIdtGate im n (stub n) true) im in
  setIdtGate im 80 (stub 80) false.

Definition setInterruptHandler (im : InterruptHandlerManager) (intType : Z) (newHandler : IsrHandler) : result InterruptHandlerManager :=
  if (CUSTOM7 <? intType) && negb (intType =? CUSTOM32) then Ok im
  else
    h ← (interruptHandlers im).[intType] ?? OutOfRange;
    Ok (mkInterruptHandlerManager (idt im) (interruptHandlers im).[intType := (fst h, newHandler)]).

Definition setInterruptHandlerParam (im : InterruptHandlerManager) (intType handlerParam : Z) : result InterruptHandlerManager :=
  if (CUSTOM7 <? intType) && negb (intType =? CUSTOM32) then Ok im
  else
    h ← (interruptHandlers im).[intType] ?? OutOfRange;
    Ok (mkInterruptHandlerManager (idt im) (interruptHandlers im).[intType := (handlerParam, snd h)]).

Definition setBoth (im : InterruptHandlerManager) (intType this : Z) (h : IsrHandler) : result InterruptHandlerManager :=
  im ← setInterruptHandlerParam im intType this; setInterruptHandler im intType h.

(** The handlers the constructor of [CpuCore] installs; [this] is the core. *)
Definition installHandlers (im : InterruptHandlerManager) (this : Z) : result InterruptHandlerManager :=
  im ← for_rangeM 32 0 (fun intType im =>
         if negb (intType =? 13) && negb (intType =? 14) then setBoth im intType this genericExceptionHandler else Ok im) im;
  im ← setBoth im 13 this generalProtectionFaultExceptionHandler;
  im ← setBoth im 14 this pageFaultExceptionHandler;
  im ← setBoth im 49 this yieldTaskSwitchIntHandler;
  im ← setBoth im 50 this openSocketHandler;
  im ← setBoth im 51 this setReceiveBufferHandler;
  im ← setBoth im 52 this setSendBufferHandler;
  im ← setBoth im 53 this closeSocketHandler;
  im ← setBoth im 54 this printToScreenHandler;
  setBoth im 55 this getTimerCounterHandler.

(** ** The calls of tasks *)

Section calls.
Context (tasks : Z -> option Task) (im : InterruptHandlerManager).

(** The software interrupt [int n] with a value in [eax], for the interrupts of
    system calls that return to the caller. *)
Definition interrupt (n : Z) (c : CpuCore) (m : Mem) (eax : Z) : result (CpuCore * Mem) :=
  h ← (interruptHandlers im).[n] ?? OutOfRange;
  match snd h with
  | openSocketHandler => openSocketSyscallHandler tasks c m eax
  | setReceiveBufferHandler => setReceiveBufferSyscallHandler tasks c m eax
  | setSendBufferHandler => setSendBufferSyscallHandler tasks c m eax
  | closeSocketHandler => closeSocketSyscallHandler tasks c m eax
  | printToScreenHandler => _ ← printToScreenSyscallHandler tasks c m eax; Ok (c, m)
  | getTimerCounterHandler => getTimerCounterSyscallHandler tasks c m eax
  | _ => Ok (c, m)
  end.

(** [args] is the address of the argument structure on the caller's stack. *)
Definition sysOpenSocket (c : CpuCore) (m : Mem) (args udpPort : Z) : result (CpuCore * Mem * Z) :=
  let m := putBytesAt m args 0 (le16 udpPort) in
  let m := putDwordAt m args 4 (-1) in
  r ← interrupt 50 c m args;
  Ok (fst r, snd r, toInt (readDwordAt (snd r) args 4)).

Definition setReceiveBufferCall (c : CpuCore) (m : Mem) (args socketID buffer bufferSize : Z) : result (CpuCore * Mem * Z) :=
  let m := if (RECEIVE_BUFFER_HEADER_SIZE <=? bufferSize) && negb (buffer =? 0)
           then for_range (Z.to_nat RECEIVE_BUFFER_HEADER_SIZE) 0 (fun i m => store m (u32 (buffer + i)) 0) m else m in
  let m := putBytesAt m args 0 [socketID] in
  let m := putDwordAt m args 4 buffer in
  let m := putDwordAt m args 8 bufferSize in
  let m := putDwordAt m args 12 (-1) in
  r ← interrupt 51 c m args;
  Ok (fst r, snd r, toInt (readDwordAt (snd r) args 12)).

Definition setSendBufferCall (c : CpuCore) (m : Mem) (args socketID buffer bufferSize indicatorWhenFinished : Z)
  : result (CpuCore * Mem * Z) :=
  let m := if negb (indicatorWhenFinished =? 0) then putDwordAt m indicatorWhenFinished 0 0 else m in
  let m := putBytesAt m args 0 [socketID] in
  let m := putDwordAt m args 4 buffer in
  let m := putDwordAt m args 8 bufferSize in
  let m := putDwordAt m args 12 indicatorWhenFinished in
  let m := putDwordAt m args 16 (-1) in
  r ← interrupt 52 c m args;
  Ok (fst r, snd r, toInt (readDwordAt (snd r) args 16)).

Definition closeSocketCall (c : CpuCore) (m : Mem) (args socketID : Z) : result (CpuCore * Mem) :=
  interrupt 53 c (putBytesAt m args 0 [socketID]) args.

Definition printCall (c : CpuCore) (m : Mem) (args string : Z) : result (CpuCore * Mem) :=
  n ← strlen m string;
  interrupt 54 c (putDwordAt (putDwordAt m args 4 n) args 0 string) args.

Definition getTimerCounterCall (c : CpuCore) (m : Mem) (args : Z) : result (CpuCore * Mem * Z) :=
  r ← interrupt 55 c m args;
  Ok (fst r, snd r, readDwordAt (snd r) args 0).
End calls.
