(* ===== verification/SyscallsFacts.v ===== *)
(** Theorems about [Syscalls]: the call a task makes, the interrupt and the
    handler compose to the operation of the socket manager; a user task's
    receive buffer stays inside its region; the interrupt table. *)
From S2P Require Import Prelude Mem LinkedLists SocketManager SocketManagerFacts CpuCore CpuCoreFacts Syscalls.

(** ** Fields of argument structures *)

Lemma u32_shift_ne a j k : 0 < j - k < 2 ^ 32 -> u32 (a + k) <> u32 (a + j).
Proof. unfold u32. intros. dlia. Qed.

Lemma putBytesAt_out bs : forall m a k x,
  (forall j, k <= j < k + zlength bs -> x <> u32 (a + j)) -> putBytesAt m a k bs x = m x.
Proof.
  induction bs as [|b bs IH]; intros m a k x H; [done|]. cbn [putBytesAt]. rewrite zlength_cons in H.
  pose proof (zlength_nonneg bs). rewrite IH by (intros j Hj; apply H; lia). apply store_ne, H. lia.
Qed.

Lemma putBytesAt_in bs : forall m a k j b,
  zlength bs <= 2 ^ 32 -> bs.[j] = Some b -> readByte (putBytesAt m a k bs) a (k + j) = b.
Proof.
  induction bs as [|b0 bs IH]; intros m a k j b Hl Hb; [by rewrite znth_nil in Hb|].
  rewrite zlength_cons in Hl. cbn [putBytesAt]. destruct (decide (j = 0)) as [->|Hj].
  - rewrite znth_cons_0 in Hb. injection Hb as <-. unfold readByte. rewrite putBytesAt_out.
    + by rewrite Z.add_0_r, store_eq.
    + intros i Hi. rewrite Z.add_0_r. apply u32_shift_ne. lia.
  - pose proof (znth_Some_lt _ _ _ Hb). rewrite znth_cons_pos in Hb by lia.
    replace (k + j) with (k + 1 + (j - 1)) by lia. apply IH; [lia|done].
Qed.

Lemma readByte_out bs m a k i :
  zlength bs <= 2 ^ 31 -> - 2 ^ 31 < i - k < 2 ^ 31 -> ~ (k <= i < k + zlength bs) ->
  readByte (putBytesAt m a k bs) a i = readByte m a i.
Proof.
  intros Hl Hi Hn. unfold readByte. apply putBytesAt_out. intros j Hj.
  destruct (Z.ltb_spec i j); [apply u32_shift_ne; lia|apply not_eq_sym, u32_shift_ne; lia].
Qed.

Lemma land_255 v : Z.land v 0xFF = v mod 256.
Proof. change 0xFF with (Z.ones 8). by rewrite Z.land_ones by lia. Qed.

Lemma putDword_readDword m a k v : readDwordAt (putDwordAt m a k v) a k = u32 v.
Proof.
  assert (H : forall i b, (le32 v).[i] = Some b -> readByte (putDwordAt m a k v) a (k + i) = b).
  { intros i b. apply putBytesAt_in. rewrite zlength_le32. lia. }
  unfold readDwordAt, readWord.
  replace (k + 2 + 1) with (k + 3) by lia. pose proof (H 0 _ eq_refl) as H0. rewrite Z.add_0_r in H0.
  rewrite H0, (H 1 _ eq_refl), (H 2 _ eq_refl), (H 3 _ eq_refl).
  rewrite !land_255, !Z.shiftr_div_pow2 by lia. unfold u32. dlia.
Qed.

Lemma putWord_readWord m a k v : is_u16 v -> readWord (putBytesAt m a k (le16 v)) a k = v.
Proof.
  intros Hv. assert (H : forall i b, (le16 v).[i] = Some b -> readByte (putBytesAt m a k (le16 v)) a (k + i) = b).
  { intros i b. apply putBytesAt_in. rewrite zlength_le16. lia. }
  unfold readWord. pose proof (H 0 _ eq_refl) as H0. rewrite Z.add_0_r in H0. rewrite H0, (H 1 _ eq_refl).
  rewrite !land_255, !Z.shiftr_div_pow2 by lia. unfold is_u16 in Hv. dlia.
Qed.

Lemma readWord_keeps bs m a k i :
  zlength bs <= 8 -> 0 <= k < 100 -> 0 <= i < 100 -> (i + 2 <= k \/ k + zlength bs <= i) ->
  readWord (putBytesAt m a k bs) a i = readWord m a i.
Proof. intros. unfold readWord. by rewrite !readByte_out by lia. Qed.

Lemma toInt_small r : -1 <= r < 2 ^ 31 -> toInt (u32 r) = r.
Proof. unfold toInt, u32. intros. rewrite Z.mod_mod by lia. bool_case; dlia. Qed.

Lemma openSocket_range s t port s' r : matched s -> isTask t -> 0 <= port -> openSocket s t port = Ok (s', r) -> -1 <= r < 10.
Proof.
  intros Hm Ht Hp H. destruct (openSocket_ok s t port Hm Ht Hp) as (s1 & r1 & E & _ & _ & Hr).
  rewrite E in H. injection H as -> ->. destruct Hr as [(-> & _)|(_ & Hi & _)]; [lia|].
  unfold isSlot, MAX_NUM_SOCKETS_PER_TASK in Hi. lia.
Qed.

Lemma isTask_u8 t : isTask t -> u8 t = t.
Proof. unfold isTask, NUM_POSSIBLE_TASKS. intros. apply u8_small. unfold is_u8. lia. Qed.

(** C32: opening a socket from a task: writing the argument structure on the
    caller's stack, the software interrupt, the handler that reads the
    structure back and the read of the result are together exactly
    [SocketManager.openSocket] for the calling task; of the memory only the
    eight bytes of the structure change, of the core only the socket manager. *)
Theorem sysOpenSocket_opens tasks im c m args port t param :
  getCurrentTask tasks c = Ok t -> (interruptHandlers im).[50] = Some (param, openSocketHandler) ->
  argsAccessible t args sizeofOpenSocketSyscallArgs = true -> is_u16 port ->
  matched (socketManager c) -> isTask (taskID t) ->
  exists s' m' r, sysOpenSocket tasks im c m args port = Ok (withSocketManager c s', m', r) /\
    openSocket (socketManager c) (taskID t) port = Ok (s', r) /\
    forall x, (forall k, 0 <= k < 8 -> x <> u32 (args + k)) -> m' x = m x.
Proof.
  intros Ht Him Hacc Hport Hm Hid. destruct (openSocket_ok (socketManager c) (taskID t) port Hm Hid) as (s' & r & Hopen & _).
  { unfold is_u16 in Hport. lia. }
  assert (Hp0 : 0 <= port) by (unfold is_u16 in Hport; lia).
  pose proof (openSocket_range _ _ _ _ _ Hm Hid Hp0 Hopen) as Hr.
  unfold sysOpenSocket, interrupt. rewrite Him. cbn [orFault mbind result_bind snd].
  unfold openSocketSyscallHandler. rewrite Ht. cbn [mbind result_bind]. rewrite Hacc, isTask_u8 by done. cbn [negb].
  replace (readWord (putDwordAt (putBytesAt m args 0 (le16 port)) args 4 (-1)) args 0) with port.
  2:{ unfold putDwordAt. rewrite readWord_keeps; [|rewrite zlength_le32; lia|lia|lia|left; lia]. by rewrite putWord_readWord. }
  rewrite Hopen. cbn [mbind result_bind fst snd]. eexists s', _, r. split; [|split; [done|]].
  - rewrite putDword_readDword, toInt_small by lia. done.
  - intros x Hx. unfold putDwordAt. rewrite !putBytesAt_out; [done|..]; intros j Hj; rewrite ?zlength_le32, ?zlength_le16 in Hj; apply Hx; lia.
Qed.

(** ** The receive buffer of a user task *)

Lemma accessible_block begin userAddr numBytes :
  0 <= begin -> begin + 0x800000 < 2 ^ 32 -> 0 <= userAddr -> 0 <= numBytes -> userAddr + numBytes < 2 ^ 32 ->
  addrSpaceIsUserAccessible begin userAddr numBytes = true ->
  begin + 0x14000 <= userAddr /\ userAddr + numBytes <= begin + 0x800000.
Proof.
  intros Hb Hb2 Hu Hn Hun. unfold addrSpaceIsUserAccessible.
  change (begin + USER_TASK_KERNEL_STACK_OFFSET + 4) with (begin + 0x13FFC + 4).
  rewrite !u32_small by (unfold is_u32; lia).
  destruct (Z.ltb_spec userAddr (begin + 0x13FFC + 4)), (Z.ltb_spec (begin + 0x800000) (userAddr + numBytes)); done || lia.
Qed.

Lemma converted_block begin region userAddr numBytes kernelAddr :
  0 <= begin -> begin + 0x800000 < 2 ^ 32 -> 0 <= region -> region + 0x800000 < 2 ^ 32 ->
  0 <= userAddr -> 0 <= numBytes -> userAddr + numBytes < 2 ^ 32 ->
  convertContigUserAddrBlockToContigKernelAddrBlock begin region userAddr numBytes = (true, kernelAddr) ->
  region + 0x14000 <= kernelAddr /\ kernelAddr + numBytes <= region + 0x800000.
Proof.
  intros Hb Hb2 Hr Hr2 Hu Hn Hun H.
  assert (Hacc : addrSpaceIsUserAccessible begin userAddr numBytes = true /\ kernelAddr = u32 (userAddr + u32 (region - begin))).
  { revert H. unfold convertContigUserAddrBlockToContigKernelAddrBlock, addrSpaceIsUserAccessible.
    destruct (_ || _); [done|]. intros [= <-]. done. }
  destruct Hacc as [Hacc ->]. apply accessible_block in Hacc; [|done..].
  unfold u32. rewrite Z.add_mod_idemp_r by lia. rewrite Z.mod_small; lia.
Qed.

Lemma putSocket_changed s t i d k d1 d2 :
  (socketDescs s).[k] = Some d1 -> (socketDescs (putSocket s t i d)).[k] = Some d2 ->
  d2 = d1 \/ k = socketIndex t i /\ d2 = d.
Proof.
  intros H1 H2. cbn [putSocket withSockets socketDescs] in H2. rewrite znth_zset in H2.
  case_bool_decide as E; [|left; congruence]. destruct E as [<- _]. right. split; [done|congruence].
Qed.

(** What a successful or refused [setReceiveBuffer] does to the sockets. *)
Lemma setReceiveBuffer_changes s t i b n s' r k d1 d2 :
  setReceiveBuffer s t i b n = Ok (s', r) -> (socketDescs s).[k] = Some d1 -> (socketDescs s').[k] = Some d2 ->
  d2 = d1 \/ k = socketIndex t i /\ receiveBuffer d2 = b /\ receiveBufferSize d2 = n.
Proof.
  unfold setReceiveBuffer. intros H H1 H2. destruct (_ <=? i); [left; congruence|].
  destruct (_ && _); [left; congruence|]. destruct (getSocket s t i) as [d|]; cbn [mbind result_bind] in H; [|done].
  destruct (_ =? 0); [left; congruence|]. injection H as <- <-.
  destruct (putSocket_changed _ _ _ _ _ _ _ H1 H2) as [->|[-> ->]]; [by left|]. right. done.
Qed.

Lemma readByte_nonneg m a k : (forall x, is_u8 (m x)) -> is_u8 (readByte m a k).
Proof. intros H. apply H. Qed.

Lemma readDwordAt_u32 m a k : (forall x, is_u8 (m x)) -> is_u32 (readDwordAt m a k).
Proof.
  intros H. unfold readDwordAt, readWord.
  pose proof (readByte_nonneg m a k H). pose proof (readByte_nonneg m a (k + 1) H).
  pose proof (readByte_nonneg m a (k + 2) H). pose proof (readByte_nonneg m a (k + 2 + 1) H).
  unfold is_u32, is_u8 in *. lia.
Qed.

Lemma putDword_changes m a k v x : putDwordAt m a k v x <> m x -> exists j, k <= j < k + 4 /\ x = u32 (a + j).
Proof.
  intros H. destruct (decide (x = u32 (a + k))); [exists k; lia|]. destruct (decide (x = u32 (a + (k + 1)))); [exists (k + 1); lia|].
  destruct (decide (x = u32 (a + (k + 2)))); [exists (k + 2); lia|]. destruct (decide (x = u32 (a + (k + 3)))); [exists (k + 3); lia|].
  destruct H. apply putBytesAt_out. rewrite zlength_le32. intros j Hj.
  destruct (decide (j = k)) as [->|]; [done|]. destruct (decide (j = k + 1)) as [->|]; [done|].
  destruct (decide (j = k + 2)) as [->|]; [done|]. replace j with (k + 3) by lia. done.
Qed.

(** C25: whatever a user task writes in the arguments of the system call for its
    receive buffer, as long as neither block wraps around the address space:
    the handler never faults, keeps the invariant of the sockets, changes no
    socket but the one named of the calling task, registers there either no
    buffer or one inside the pages of the task's own region, and writes
    nothing but user accessible memory of the task. *)
Theorem setReceiveBufferSyscall_confined tasks c m eax t begin region k paging :
  getCurrentTask tasks c = Ok t -> taskKind t = UserTask begin region k paging ->
  socketInv (socketManager c) -> isTask (taskID t) -> (forall x, is_u8 (m x)) ->
  0 <= begin -> begin + 0x800000 < 2 ^ 32 -> 0 <= region -> region + 0x800000 < 2 ^ 32 ->
  0 <= eax -> eax + 16 < 2 ^ 32 -> readDwordAt m eax 4 + readDwordAt m eax 8 < 2 ^ 32 ->
  exists s' m', setReceiveBufferSyscallHandler tasks c m eax = Ok (withSocketManager c s', m') /\ socketInv s' /\
    (forall i d d', (socketDescs (socketManager c)).[i] = Some d -> (socketDescs s').[i] = Some d' ->
       d' = d \/
       i = socketIndex (taskID t) (readByte m eax 0) /\
       (receiveBuffer d' = 0 /\ receiveBufferSize d' = 0 \/
        region + 0x14000 <= receiveBuffer d' /\ receiveBuffer d' + receiveBufferSize d' <= region + 0x800000)) /\
    (forall x, m' x <> m x -> begin + 0x14000 <= x < begin + 0x800000).
Proof.
  intros Ht Hk Hinv Hid Hm Hb Hb2 Hr Hr2 He He2 Hw. unfold setReceiveBufferSyscallHandler. rewrite Ht.
  cbn [mbind result_bind]. unfold argsAccessible, isKernelTask, convertFor. rewrite Hk, isTask_u8 by done.
  pose proof (readDwordAt_u32 m eax 4 Hm) as H4. pose proof (readDwordAt_u32 m eax 8 Hm) as H8. unfold is_u32 in H4, H8.
  assert (Hi : 0 <= readByte m eax 0) by (pose proof (readByte_nonneg m eax 0 Hm); unfold is_u8 in *; lia).
  assert (Hsame : forall d d' i (P : Prop), (socketDescs (socketManager c)).[i] = Some d ->
    (socketDescs (socketManager c)).[i] = Some d' -> d' = d \/ P) by (intros; left; congruence).
  assert (Hid' : c = withSocketManager c (socketManager c)) by (by destruct c).
  destruct (addrSpaceIsUserAccessible begin eax sizeofSetReceiveBufferSyscallArgs) eqn:Hacc; cbn [negb].
  2:{ exists (socketManager c), m. rewrite <- Hid'. split_and!; [done|done|intros; by eapply Hsame|done]. }
  unfold sizeofSetReceiveBufferSyscallArgs in Hacc. apply accessible_block in Hacc; [|lia..].
  assert (Hmem : forall v x, putDwordAt m eax 12 v x <> m x -> begin + 0x14000 <= x < begin + 0x800000).
  { intros v x Hx. apply putDword_changes in Hx as (j & Hj & ->). rewrite u32_small by (unfold is_u32; lia). lia. }
  destruct (_ && _) eqn:Ez.
  - bool_hyps. destruct (setReceiveBuffer_inv (socketManager c) (taskID t) (readByte m eax 0) 0 0 Hinv Hid Hi) as (s' & r & E & Hs').
    rewrite E. cbn [mbind result_bind fst snd]. eexists s', _. split_and!; [done|done| |apply Hmem].
    intros i d d' H1 H2. destruct (setReceiveBuffer_changes _ _ _ _ _ _ _ _ _ _ E H1 H2) as [?|(? & ? & ?)]; [by left|].
    right. split; [done|]. by left.
  - destruct (convertContigUserAddrBlockToContigKernelAddrBlock _ _ _ _) as [ok ka] eqn:Ec. destruct ok; cbn [negb].
    + apply converted_block in Ec; [|lia..].
      destruct (setReceiveBuffer_inv (socketManager c) (taskID t) (readByte m eax 0) ka (readDwordAt m eax 8) Hinv Hid Hi) as (s' & r & E & Hs').
      rewrite E. cbn [mbind result_bind fst snd]. eexists s', _. split_and!; [done|done| |apply Hmem].
      intros i d d' H1 H2. destruct (setReceiveBuffer_changes _ _ _ _ _ _ _ _ _ _ E H1 H2) as [?|(? & Hb' & Hn')]; [by left|].
      right. split; [done|]. right. rewrite Hb', Hn'. lia.
    + eexists (socketManager c), _. rewrite <- Hid'. split_and!; [done|done|intros; by eapply Hsame|apply Hmem].
Qed.

(** ** The interrupt table *)

Definition gateFor (stub : Z -> Z) (user : bool) (n : Z) : IdtGate :=
  mkIdtGate (u16 (stub n)) KERNEL_CS 0 (if user then 0xEE else 0x8E) (u16 (Z.shiftr (stub n) 16)).

Lemma setGates_ok stub user n : forall i im,
  idt (for_range n i (fun n im => setIdtGate im n (stub n) user) im) =
    for_range n i (fun j l => l.[j := gateFor stub user j]) (idt im) /\
  interruptHandlers (for_range n i (fun n im => setIdtGate im n (stub n) user) im) = interruptHandlers im.
Proof.
  induction n as [|n IH]; intros i im; [done|]. cbn [for_range]. apply (IH (i + 1) (setIdtGate im i (stub i) user)).
Qed.

Lemma installGates_ok stub im k :
  zlength (idt im) = 256 ->
  (idt (installGates stub im)).[k] =
    (if bool_decide (0 <= k < 32 \/ k = 80) then Some (gateFor stub false k)
     else if bool_decide (32 <= k < 56) then Some (gateFor stub true k) else (idt im).[k]) /\
  interruptHandlers (installGates stub im) = interruptHandlers im.
Proof.
  intros Hl. unfold installGates.
  set (im1 := for_range 32 0 _ im). set (im2 := for_range 16 32 _ im1). set (im3 := for_range 8 48 _ im2).
  destruct (setGates_ok stub false 32 0 im) as [E1 H1]. destruct (setGates_ok stub true 16 32 im1) as [E2 H2].
  destruct (setGates_ok stub true 8 48 im2) as [E3 H3]. fold im1 in E1, H1. fold im2 in E2, H2. fold im3 in E3, H3.
  cbn [setIdtGate idt interruptHandlers]. split; [|congruence]. change (mkIdtGate _ _ _ _ _) with (gateFor stub false 80).
  assert (L1 : zlength (idt im1) = 256) by (by rewrite E1, zlength_for_range_fill).
  assert (L2 : zlength (idt im2) = 256) by (by rewrite E2, zlength_for_range_fill).
  assert (L3 : zlength (idt im3) = 256) by (by rewrite E3, zlength_for_range_fill).
  rewrite znth_zset. case_bool_decide as D; [destruct D as [<- _]; by rewrite bool_decide_true by lia|].
  assert (Hk : k <> 80) by lia.
  rewrite E3, znth_for_range_fill by lia. rewrite E2, znth_for_range_fill by lia. rewrite E1, znth_for_range_fill by lia.
  repeat case_bool_decide; done || lia.
Qed.

Lemma setBoth_ok im n this h :
  zlength (interruptHandlers im) = 256 -> 0 <= n <= 55 ->
  setBoth im n this h = Ok (mkInterruptHandlerManager (idt im) (interruptHandlers im).[n := (this, h)]).
Proof.
  intros Hl Hn. destruct (znth_lt_Some (interruptHandlers im) n ltac:(lia)) as [x Hx].
  unfold setBoth, setInterruptHandlerParam, setInterruptHandler, CUSTOM7.
  destruct (Z.ltb_spec 55 n); [lia|]. cbn [andb]. rewrite Hx. cbn [orFault mbind result_bind interruptHandlers idt].
  rewrite znth_zset_eq by lia. cbn [orFault mbind result_bind fst]. by rewrite zset_zset.
Qed.

Definition isGeneric (n : Z) : bool := negb (n =? 13) && negb (n =? 14).

Lemma genericHandlers_ok this n : forall i im,
  zlength (interruptHandlers im) = 256 -> 0 <= i -> i + Z.of_nat n <= 56 ->
  exists im', for_rangeM n i (fun intType im =>
      if negb (intType =? 13) && negb (intType =? 14) then setBoth im intType this genericExceptionHandler else Ok im) im = Ok im' /\
    idt im' = idt im /\ zlength (interruptHandlers im') = 256 /\
    forall k, i <= k < i + Z.of_nat n -> isGeneric k = true -> (interruptHandlers im').[k] = Some (this, genericExceptionHandler).
Proof.
  enough (H : forall i im, zlength (interruptHandlers im) = 256 -> 0 <= i -> i + Z.of_nat n <= 56 ->
    exists im', for_rangeM n i (fun intType im =>
      if negb (intType =? 13) && negb (intType =? 14) then setBoth im intType this genericExceptionHandler else Ok im) im = Ok im' /\
    idt im' = idt im /\ zlength (interruptHandlers im') = 256 /\
    forall k, (interruptHandlers im').[k] = if bool_decide (i <= k < i + Z.of_nat n) && isGeneric k
      then Some (this, genericExceptionHandler) else (interruptHandlers im).[k]).
  { intros i im Hl Hi Hn. destruct (H i im Hl Hi Hn) as (im' & E & E1 & E2 & E3). exists im'. split_and!; [done..|].
    intros k Hk Hg. by rewrite E3, bool_decide_true, Hg. }
  induction n as [|n IH]; intros i im Hl Hi Hn; cbn [for_rangeM].
  - exists im. split_and!; [done..|]. intros k. by rewrite bool_decide_false by lia.
  - change (negb (i =? 13) && negb (i =? 14)) with (isGeneric i). destruct (isGeneric i) eqn:Eg.
    + rewrite setBoth_ok by (done || lia). cbn [mbind result_bind].
      destruct (IH (i + 1) (mkInterruptHandlerManager (idt im) (interruptHandlers im).[i := (this, genericExceptionHandler)]))
        as (im' & -> & E1 & E2 & E3); [cbn [interruptHandlers]; by rewrite zlength_zset|lia|lia|].
      exists im'. split_and!; [done..|]. intros k. rewrite E3. cbn [interruptHandlers]. rewrite znth_zset.
      destruct (decide (i = k)) as [<-|].
      * rewrite (bool_decide_false (i + 1 <= i < _)), !bool_decide_true, Eg by lia. done.
      * rewrite (bool_decide_false (i = k /\ _)) by lia. by repeat case_bool_decide; try lia.
    + cbn [mbind result_bind]. destruct (IH (i + 1) im) as (im' & -> & E1 & E2 & E3); [done|lia|lia|].
      exists im'. split_and!; [done..|]. intros k. rewrite E3. destruct (decide (i = k)) as [<-|].
      * rewrite Eg, !andb_false_r. done.
      * by repeat case_bool_decide; try lia.
Qed.

(** The interrupt table.  After the constructor's gates and the core's
    handlers, a task in user mode can raise exactly the interrupts 32 to 55
    by itself (the hardware's among them), never an exception; and the
    software interrupts 50 to 55 of the system calls lead to their handlers,
    called with the core. *)
Theorem interruptTable_installed stub im this :
  zlength (idt im) = 256 -> zlength (interruptHandlers im) = 256 ->
  exists im', installHandlers (installGates stub im) this = Ok im' /\
    (forall n, 0 <= n < 56 \/ n = 80 -> exists g, (idt im').[n] = Some g /\
       low_offset g + 65536 * high_offset g = u32 (stub n) /\ (flags g = 0xEE <-> 32 <= n < 56) /\ Z.testbit (flags g) 7 = true) /\
    (forall n, 0 <= n < 32 -> n <> 13 -> n <> 14 -> (interruptHandlers im').[n] = Some (this, genericExceptionHandler)) /\
    (interruptHandlers im').[14] = Some (this, pageFaultExceptionHandler) /\
    (interruptHandlers im').[49] = Some (this, yieldTaskSwitchIntHandler) /\
    (interruptHandlers im').[50] = Some (this, openSocketHandler) /\
    (interruptHandlers im').[51] = Some (this, setReceiveBufferHandler) /\
    (interruptHandlers im').[52] = Some (this, setSendBufferHandler) /\
    (interruptHandlers im').[53] = Some (this, closeSocketHandler) /\
    (interruptHandlers im').[54] = Some (this, printToScreenHandler) /\
    (interruptHandlers im').[55] = Some (this, getTimerCounterHandler).
Proof.
  intros Hl Hh. unfold installHandlers.
  pose proof (installGates_ok stub im) as Hg. destruct (Hg 0 Hl) as [_ Hh0].
  destruct (genericHandlers_ok this 32 0 (installGates stub im)) as (im1 & -> & E1 & E2 & E3); [by rewrite Hh0|lia|lia|].
  cbn [mbind result_bind].
  do 9 (rewrite setBoth_ok by (cbn [interruptHandlers]; rewrite ?zlength_zset; done || lia); cbn [mbind result_bind]).
  eexists. split; [done|]. cbn [idt interruptHandlers]. split_and!;
    try (intros n Hn H13 H14; rewrite !znth_zset_ne by lia; apply E3; [lia|];
         unfold isGeneric; destruct (Z.eqb_spec n 13), (Z.eqb_spec n 14); done);
    try (rewrite ?znth_zset_ne by lia; apply znth_zset_eq; rewrite ?zlength_zset; lia).
  intros n Hn. rewrite E1. destruct (Hg n Hl) as [-> _].
  repeat case_bool_decide; try lia; (eexists; split; [done|]); cbn [gateFor low_offset high_offset flags];
    (split; [unfold u16, u32; rewrite Z.shiftr_div_pow2 by lia; dlia|]); split; (done || lia).
Qed.

(** The constructor clears one handler more than the table has: on a table
    of [IDT_ENTRIES] entries its loop runs past the end, into the memory that
    follows the array. *)
Theorem clearHandlers_overruns im :
  zlength (interruptHandlers im) = IDT_ENTRIES -> clearHandlers im = Fault OutOfRange.
Proof.
  intros Hl. unfold clearHandlers.
  enough (H : forall n i hs, zlength hs = 256 -> 0 <= i <= 256 -> i + Z.of_nat n = 257 ->
    for_rangeM n i (fun i hs => if i <? zlength hs then Ok hs.[i := (0, voidHandler)] else Fault OutOfRange) hs = Fault OutOfRange).
  { rewrite H; done || lia. }
  induction n as [|n IH]; intros i hs Hs Hi Hn; [lia|]. cbn [for_rangeM]. destruct (Z.ltb_spec i (zlength hs)); [|done].
  cbn [mbind result_bind]. apply IH; [by rewrite zlength_zset|lia|lia].
Qed.

(** ** Samples *)

Definition sampleUserTask : Task := mkTask 1 true (UserTask 0x2000000 0x400000 0 None).
Definition sampleTasks (p : Z) : option Task := Some sampleUserTask.
Definition bareTable : InterruptHandlerManager :=
  mkInterruptHandlerManager (replicate 256 (mkIdtGate 0 0 0 0 0)) (replicate 256 (0, voidHandler)).
Definition sampleTable : InterruptHandlerManager :=
  match installHandlers (installGates (fun n => 0x100000 + n) bareTable) 7 with Ok im => im | Fault _ => bareTable end.

Example sysOpenSocket_opens_witness :
  exists s' m' r, sysOpenSocket sampleTasks sampleTable sampleLists zeroMem 0x2015000 5683 = Ok (withSocketManager sampleLists s', m', r) /\
    openSocket (socketManager sampleLists) 1 5683 = Ok (s', r) /\
    forall x, (forall k, 0 <= k < 8 -> x <> u32 (0x2015000 + k)) -> m' x = zeroMem x.
Proof.
  apply (sysOpenSocket_opens sampleTasks sampleTable sampleLists zeroMem 0x2015000 5683 sampleUserTask 7);
    [by vm_compute|by vm_compute|by vm_compute|unfold is_u16; lia|apply newSocketManager_inv|unfold isTask, NUM_POSSIBLE_TASKS; cbn; lia].
Defined.

Example setReceiveBufferSyscall_confined_witness :
  let m := putDwordAt (putDwordAt zeroMem 0x2015000 4 0x2016000) 0x2015000 8 0x1000 in
  exists s' m', setReceiveBufferSyscallHandler sampleTasks sampleLists m 0x2015000 = Ok (withSocketManager sampleLists s', m') /\ socketInv s' /\
    (forall i d d', (socketDescs (socketManager sampleLists)).[i] = Some d -> (socketDescs s').[i] = Some d' ->
       d' = d \/
       i = socketIndex 1 (readByte m 0x2015000 0) /\
       (receiveBuffer d' = 0 /\ receiveBufferSize d' = 0 \/
        0x400000 + 0x14000 <= receiveBuffer d' /\ receiveBuffer d' + receiveBufferSize d' <= 0x400000 + 0x800000)) /\
    (forall x, m' x <> m x -> 0x2000000 + 0x14000 <= x < 0x2000000 + 0x800000).
Proof.
  intros m. apply (setReceiveBufferSyscall_confined sampleTasks sampleLists m 0x2015000 sampleUserTask 0x2000000 0x400000 0 None);
    [by vm_compute|done|apply newSocketManager_inv|unfold isTask, NUM_POSSIBLE_TASKS; cbn; lia| |lia..|by vm_compute].
  intros x. cbv [m putDwordAt le32 putBytesAt store]. repeat case_match; by vm_compute.
Defined.

Example interruptTable_installed_witness :
  exists im', installHandlers (installGates (fun n => 0x100000 + n) bareTable) 7 = Ok im' /\
    (forall n, 0 <= n < 56 \/ n = 80 -> exists g, (idt im').[n] = Some g /\
       low_offset g + 65536 * high_offset g = u32 (0x100000 + n) /\ (flags g = 0xEE <-> 32 <= n < 56) /\ Z.testbit (flags g) 7 = true) /\
    (forall n, 0 <= n < 32 -> n <> 13 -> n <> 14 -> (interruptHandlers im').[n] = Some (7, genericExceptionHandler)) /\
    (interruptHandlers im').[14] = Some (7, pageFaultExceptionHandler) /\
    (interruptHandlers im').[49] = Some (7, yieldTaskSwitchIntHandler) /\
    (interruptHandlers im').[50] = Some (7, openSocketHandler) /\
    (interruptHandlers im').[51] = Some (7, setReceiveBufferHandler) /\
    (interruptHandlers im').[52] = Some (7, setSendBufferHandler) /\
    (interruptHandlers im').[53] = Some (7, closeSocketHandler) /\
    (interruptHandlers im').[54] = Some (7, printToScreenHandler) /\
    (interruptHandlers im').[55] = Some (7, getTimerCounterHandler).
Proof. apply (interruptTable_installed (fun n => 0x100000 + n) bareTable 7); reflexivity. Defined.

Example clearHandlers_overruns_witness : clearHandlers bareTable = Fault OutOfRange.
Proof. apply (clearHandlers_overruns bareTable). reflexivity. Defined.
