(* ===== verification/MemoryManager.v ===== *)
(** The memory manager of kernel and tasks: [cpp_lib/memory_manager.{h,cpp}].

    The headers live in the memory they manage: the size of a block is the
    word at its address, the pointer to the next free block the word after it,
    and 0 is [nullptr].  The loops over the free list and the search for a
    header get as fuel a number of steps, [fuel]. *)
From S2P Require Import Prelude Mem.

Definition sizeofMemoryBlockHeader : Z := 8.

Record MemoryManager := mkMemoryManager { freeList : Z }.

Definition newMemoryManager : MemoryManager := mkMemoryManager 0.

Definition blockSize (m : Mem) (block : Z) : Z := readDword m block.
Definition blockNext (m : Mem) (block : Z) : Z := readDword m (block + 4).
Definition setBlockSize (m : Mem) (block size : Z) : Mem := storeWord m block size.
Definition setBlockNext (m : Mem) (block next : Z) : Mem := storeWord m (block + 4) next.

Section fuel.
Context (fuel : nat).

(** The loop that finds the free block a new one is placed after. *)
Fixpoint findPrevious (n : nat) (m : Mem) (block pPreviousBlock pCurrentBlock : Z) : result Z :=
  match n with
  | O => Fault OutOfFuel
  | S n =>
      if pCurrentBlock =? 0 then Ok pPreviousBlock
      else if block <? pCurrentBlock then Ok pPreviousBlock
      else findPrevious n m block pCurrentBlock (blockNext m pCurrentBlock)
  end.

Definition insertAfter (mm : MemoryManager) (m : Mem) (pPreviousBlock block : Z) : MemoryManager * Mem :=
  if pPreviousBlock =? 0 then (mkMemoryManager block, setBlockNext m block (freeList mm))
  else
    let m := setBlockNext m block (blockNext m pPreviousBlock) in
    (mm, setBlockNext m pPreviousBlock block).

Fixpoint mergeLoop (n : nat) (m : Mem) (pCurrentBlock : Z) : result Mem :=
  match n with
  | O => Fault OutOfFuel
  | S n =>
      if pCurrentBlock =? 0 then Ok m
      else
        let pNextBlock := blockNext m pCurrentBlock in
        if pNextBlock =? 0 then Ok m
        else if u32 (pCurrentBlock + sizeofMemoryBlockHeader + blockSize m pCurrentBlock) =? pNextBlock then
          let m := setBlockSize m pCurrentBlock
                     (u32 (blockSize m pCurrentBlock + (sizeofMemoryBlockHeader + blockSize m pNextBlock))) in
          let m := setBlockNext m pCurrentBlock (blockNext m pNextBlock) in
          mergeLoop n m pCurrentBlock
        else mergeLoop n m pNextBlock
  end.

Definition mergeFreeBlocks (mm : MemoryManager) (m : Mem) : result Mem := mergeLoop fuel m (freeList mm).

Definition addContiguousMemoryRegion (mm : MemoryManager) (m : Mem) (pRegion regionSize : Z) : result (MemoryManager * Mem) :=
  if negb (pRegion mod 4 =? 0) || negb (regionSize mod 4 =? 0) then Ok (mm, m)
  else if regionSize <=? sizeofMemoryBlockHeader then Ok (mm, m)
  else
    let m := setBlockSize m pRegion (regionSize - sizeofMemoryBlockHeader) in
    previous ← findPrevious fuel m pRegion 0 (freeList mm);
    let '(mm, m) := insertAfter mm m previous pRegion in
    m ← mergeFreeBlocks mm m;
    Ok (mm, m).

(** ** Allocation *)

Definition alignUp (alignment a : Z) : Z := Z.land (u32 (a + alignment - 1)) (u32 (Z.lnot (alignment - 1))).

(** A block is taken off the list, or replaced by [next] if that is not 0. *)
Definition replaceInList (mm : MemoryManager) (m : Mem) (pPreviousBlock next : Z) : MemoryManager * Mem :=
  if pPreviousBlock =? 0 then (mkMemoryManager next, m) else (mm, setBlockNext m pPreviousBlock next).

(** The body of the loop for a block that is large enough. *)
Definition takeBlock (mm : MemoryManager) (m : Mem) (pPreviousBlock pCurrentBlock alignedCurrentBlockAddr size : Z)
  : MemoryManager * Mem * Z :=
  let currentBlockAddr := u32 (pCurrentBlock + sizeofMemoryBlockHeader) in
  let possibleNextHeader := Z.land (u32 (alignedCurrentBlockAddr + size + 3)) 0xFFFFFFFC in
  let used := u32 (possibleNextHeader + sizeofMemoryBlockHeader - currentBlockAddr) in
  let '(mm, m) :=
    if used <? blockSize m pCurrentBlock then
      let m := setBlockSize m possibleNextHeader (blockSize m pCurrentBlock - used) in
      let m := setBlockNext m possibleNextHeader (blockNext m pCurrentBlock) in
      let '(mm, m) := replaceInList mm m pPreviousBlock possibleNextHeader in
      (mm, setBlockSize m pCurrentBlock (u32 (possibleNextHeader - currentBlockAddr)))
    else replaceInList mm m pPreviousBlock (blockNext m pCurrentBlock) in
  let m := setBlockNext m pCurrentBlock 0 in
  let m := for_range (Z.to_nat (alignedCurrentBlockAddr - currentBlockAddr)) currentBlockAddr (fun i m => store m i 0) m in
  (mm, m, alignedCurrentBlockAddr).

Fixpoint allocateLoop (n : nat) (mm : MemoryManager) (m : Mem) (alignment size pPreviousBlock pCurrentBlock : Z)
  : result (MemoryManager * Mem * Z) :=
  match n with
  | O => Fault OutOfFuel
  | S n =>
      if pCurrentBlock =? 0 then Ok (mm, m, 0)
      else
        let currentBlockAddr := u32 (pCurrentBlock + sizeofMemoryBlockHeader) in
        let alignedCurrentBlockAddr := alignUp alignment currentBlockAddr in
        let alignedCurrentBlockSize := u32 (blockSize m pCurrentBlock - (alignedCurrentBlockAddr - currentBlockAddr)) in
        if size <=? alignedCurrentBlockSize then Ok (takeBlock mm m pPreviousBlock pCurrentBlock alignedCurrentBlockAddr size)
        else allocateLoop n mm m alignment size pCurrentBlock (blockNext m pCurrentBlock)
  end.

(** The manager, the memory and the address, 0 for [nullptr]. *)
Definition allocate (mm : MemoryManager) (m : Mem) (alignment size : Z) : result (MemoryManager * Mem * Z) :=
  if size =? 0 then Ok (mm, m, 0)
  else if negb (Z.land alignment (u32 (alignment - 1)) =? 0) || (alignment =? 0) then Ok (mm, m, 0)
  else allocateLoop fuel mm m alignment size 0 (freeList mm).

(** ** Release *)

(** The loop down to the last byte that is not zero. *)
Fixpoint findHeaderByte (n : nat) (m : Mem) (pMemory2 : Z) : result Z :=
  match n with
  | O => Fault OutOfFuel
  | S n => if m pMemory2 =? 0 then findHeaderByte n m (u32 (pMemory2 - 1)) else Ok pMemory2
  end.

Definition free (mm : MemoryManager) (m : Mem) (pMemory : Z) : result (MemoryManager * Mem) :=
  if pMemory =? 0 then Ok (mm, m)
  else
    pMemory2 ← findHeaderByte fuel m (u32 (pMemory - 1));
    let pMemoryHeader := Z.land pMemory2 0xFFFFFFFC in
    previous ← findPrevious fuel m pMemoryHeader 0 (freeList mm);
    let '(mm, m) := insertAfter mm m previous pMemoryHeader in
    m ← mergeFreeBlocks mm m;
    Ok (mm, m).
End fuel.
