(* ===== verification/MemoryManagerFacts.v ===== *)
(** What the memory manager promises: the free list is sorted and merged, an
    allocation is an aligned part of a block that was free, and releasing it
    restores the free list. *)
From S2P Require Import Prelude Mem MemoryManager.

(** ** Words in memory *)

Lemma storeWord_out m a w x : ~ (a <= x < a + 4) -> storeWord m a w x = m x.
Proof. intros. by apply storeBytes_out. Qed.

Lemma readDword_ext m m' a : (forall x, a <= x < a + 4 -> m' x = m x) -> readDword m' a = readDword m a.
Proof. intros H. unfold readDword. by rewrite !H by lia. Qed.

Lemma readDword_storeWord m a w : readDword (storeWord m a w) a = u32 w.
Proof.
  unfold readDword, storeWord. rewrite !storeBytes_spec.
  replace (a - a) with 0 by lia. replace (a + 1 - a) with 1 by lia.
  replace (a + 2 - a) with 2 by lia. replace (a + 3 - a) with 3 by lia.
  change ((le32 w).[0]) with (Some (Z.land w 0xFF)). change ((le32 w).[1]) with (Some (Z.land (Z.shiftr w 8) 0xFF)).
  change ((le32 w).[2]) with (Some (Z.land (Z.shiftr w 16) 0xFF)). change ((le32 w).[3]) with (Some (Z.land (Z.shiftr w 24) 0xFF)).
  cbv beta iota. change 0xFF with (Z.ones 8). rewrite !Z.land_ones, !Z.shiftr_div_pow2 by lia. unfold u32. dlia.
Qed.

Lemma readDword_other m a w b : a + 4 <= b \/ b + 4 <= a -> readDword (storeWord m a w) b = readDword m b.
Proof. intros. apply readDword_ext. intros. apply storeWord_out. lia. Qed.

(** ** The free list *)

(** [segment m h l t]: following the pointers from [h] the blocks [l], address
    and size, are met, and then [t]. *)
Fixpoint segment (m : Mem) (h : Z) (l : list (Z * Z)) (t : Z) : Prop :=
  match l with
  | [] => h = t
  | (a, s) :: l => h = a /\ blockSize m a = s /\ segment m (blockNext m a) l t
  end.

Definition blockEnd (b : Z * Z) : Z := b.1 + 8 + b.2.

(** Blocks in ascending order from [lo] on, with at least [gap] bytes between
    them. *)
Fixpoint blocks (gap lo : Z) (l : list (Z * Z)) : Prop :=
  match l with
  | [] => True
  | (a, s) :: l => lo <= a /\ a mod 4 = 0 /\ 0 < s /\ s mod 4 = 0 /\ a + 8 + s < 2 ^ 32 /\ blocks gap (a + 8 + s + gap) l
  end.

Definition freeByte (l : list (Z * Z)) (x : Z) : Prop := exists a s, (a, s) ∈ l /\ a <= x < a + 8 + s.
Definition headerByte (l : list (Z * Z)) (x : Z) : Prop := exists a s, (a, s) ∈ l /\ a <= x < a + 8.

Lemma freeByte_nil x : ~ freeByte [] x.
Proof. intros (a & s & H & _). by apply not_elem_of_nil in H. Qed.

Lemma freeByte_cons a s l x : freeByte ((a, s) :: l) x <-> a <= x < a + 8 + s \/ freeByte l x.
Proof.
  unfold freeByte. split.
  - intros (b & t & H & Hx). apply elem_of_cons in H as [[= -> ->]|H]; [by left|right; eauto].
  - intros [H|(b & t & H & Hx)]; [exists a, s|exists b, t]; (split; [|done]); [by left|by right].
Qed.

Lemma freeByte_app l1 l2 x : freeByte (l1 ++ l2) x <-> freeByte l1 x \/ freeByte l2 x.
Proof.
  induction l1 as [|[a s] l1 IH]; cbn [app].
  - split; [by right|intros [H|H]; [by apply freeByte_nil in H|done]].
  - rewrite !freeByte_cons, IH. tauto.
Qed.

Lemma headerByte_cons a s l x : headerByte ((a, s) :: l) x <-> a <= x < a + 8 \/ headerByte l x.
Proof.
  unfold headerByte. split.
  - intros (b & t & H & Hx). apply elem_of_cons in H as [[= -> ->]|H]; [by left|right; eauto].
  - intros [H|(b & t & H & Hx)]; [exists a, s|exists b, t]; (split; [|done]); [by left|by right].
Qed.

Lemma headerByte_app l1 l2 x : headerByte (l1 ++ l2) x <-> headerByte l1 x \/ headerByte l2 x.
Proof.
  induction l1 as [|[a s] l1 IH]; cbn [app].
  - split; [by right|intros [(? & ? & H & _)|H]; [by apply not_elem_of_nil in H|done]].
  - rewrite !headerByte_cons, IH. tauto.
Qed.

Lemma segment_app m h l1 l2 t : segment m h (l1 ++ l2) t <-> exists x, segment m h l1 x /\ segment m x l2 t.
Proof.
  revert h. induction l1 as [|[a s] l1 IH]; intros h; cbn [app segment].
  - split; [by exists h|by intros (x & -> & ?)].
  - rewrite IH. split; [intros (? & ? & x & ? & ?); by exists x|intros (x & (? & ? & ?) & ?); split_and!; try done; by exists x].
Qed.

Lemma segment_ext m m' h l t :
  segment m h l t -> (forall x, headerByte l x -> m' x = m x) -> segment m' h l t.
Proof.
  revert h. induction l as [|[a s] l IH]; intros h; cbn [segment]; [done|].
  intros (-> & <- & Hl) Hm. unfold blockSize, blockNext in *.
  rewrite !(readDword_ext m m') by (intros; apply Hm; rewrite headerByte_cons; lia).
  split_and!; [done|done|]. apply IH; [done|]. intros x Hx. apply Hm. rewrite headerByte_cons. by right.
Qed.

Lemma blocks_lower gap lo lo' l : lo' <= lo -> blocks gap lo l -> blocks gap lo' l.
Proof. destruct l as [|[a s] l]; cbn [blocks]; [done|]. intros ? (? & ?). split; [lia|done]. Qed.

Lemma blocks_weaken lo l : blocks 1 lo l -> blocks 0 lo l.
Proof.
  revert lo. induction l as [|[a s] l IH]; intros lo; cbn [blocks]; [done|]. intros (? & ? & ? & ? & ? & H).
  split_and!; try done. apply IH. eapply blocks_lower; [|exact H]. lia.
Qed.

Lemma blocks_bound gap lo l x : 0 <= gap -> blocks gap lo l -> freeByte l x -> lo <= x < 2 ^ 32.
Proof.
  intros Hg. revert lo. induction l as [|[a s] l IH]; intros lo; cbn [blocks]; [by intros _ ?%freeByte_nil|].
  intros (? & ? & ? & ? & ? & Hl) [Hx|Hx]%freeByte_cons; [lia|]. apply (IH _ Hl) in Hx. lia.
Qed.

Lemma headerByte_free gap lo l x : blocks gap lo l -> headerByte l x -> freeByte l x.
Proof.
  revert lo. induction l as [|[a s] l IH]; intros lo; cbn [blocks]; [intros _ (? & ? & H & _); by apply not_elem_of_nil in H|].
  intros (? & ? & ? & ? & ? & Hl) [Hx|Hx]%headerByte_cons; apply freeByte_cons; [left; lia|right; by eapply IH].
Qed.

Lemma blocks_app gap lo l1 l2 :
  0 <= gap ->
  blocks gap lo (l1 ++ l2) <-> blocks gap lo l1 /\ blocks gap lo l2 /\ (forall x, freeByte l1 x -> blocks gap (x + 1 + gap) l2).
Proof.
  intros Hg. revert lo. induction l1 as [|[a s] l1 IH]; intros lo; cbn [app blocks].
  - split; [|tauto]. intros H. split_and!; try done. by intros x ?%freeByte_nil.
  - rewrite IH. split.
    + intros (? & ? & ? & ? & ? & Hl1 & Hl2 & Hl3). split_and!; try done.
      * eapply blocks_lower; [|exact Hl2]. lia.
      * intros x [Hx|Hx]%freeByte_cons; [|by apply Hl3]. eapply blocks_lower; [|exact Hl2]. lia.
    + intros ((? & ? & ? & ? & ? & Hl1) & Hl2 & Hl3). split_and!; try done.
      * specialize (Hl3 (a + 8 + s - 1)). replace (a + 8 + s - 1 + 1 + gap) with (a + 8 + s + gap) in Hl3 by lia.
        apply Hl3, freeByte_cons. left. lia.
      * intros x Hx. apply Hl3, freeByte_cons. by right.
Qed.

Definition lastAddr (l : list (Z * Z)) : Z := match last l with Some (a, _) => a | None => 0 end.

Lemma lastAddr_snoc l a s : lastAddr (l ++ [(a, s)]) = a.
Proof. unfold lastAddr. by rewrite last_snoc. Qed.

(** Writing the pointer that follows a segment. *)
Lemma replaceInList_ok mm m lo l t v :
  segment m (freeList mm) l t -> blocks 0 lo l -> 0 < lo -> is_u32 v ->
  exists mm' m', replaceInList mm m (lastAddr l) v = (mm', m') /\ segment m' (freeList mm') l v /\
    forall x, ~ headerByte l x -> m' x = m x.
Proof.
  intros Hs Hb Hlo Hv. unfold replaceInList. destruct l as [|[a s] l _] using rev_ind; [by eexists _, _|].
  rewrite lastAddr_snoc. apply blocks_app in Hb as (Hb1 & (Ha & ? & ? & _) & Hb3); [|done].
  destruct (Z.eqb_spec a 0); [lia|]. eexists _, _. split; [done|].
  apply segment_app in Hs as (y & Hs & (-> & <- & _)). split.
  - apply segment_app. exists a. split.
    + eapply segment_ext; [exact Hs|]. intros x Hx. apply storeWord_out. apply (headerByte_free 0 lo) in Hx; [|done].
      destruct (Hb3 _ Hx) as [? _]. lia.
    + cbn [segment]. unfold blockSize, blockNext, setBlockNext. rewrite readDword_other, readDword_storeWord by lia.
      split_and!; try done. by apply u32_small.
  - intros x Hx. apply storeWord_out. intros Hx'. apply Hx, headerByte_app. right. apply headerByte_cons. left. lia.
Qed.

(** A block whose size is written is linked in after a segment. *)
Lemma insertAfter_ok mm m lo l1 b s l2 :
  segment m (freeList mm) (l1 ++ l2) 0 -> blocks 0 lo (l1 ++ (b, s) :: l2) -> 0 < lo -> blockSize m b = s ->
  exists mm' m', insertAfter mm m (lastAddr l1) b = (mm', m') /\ segment m' (freeList mm') (l1 ++ (b, s) :: l2) 0 /\
    forall x, ~ headerByte (l1 ++ (b, s) :: l2) x -> m' x = m x.
Proof.
  intros Hs Hb Hlo Hsize. apply segment_app in Hs as (t & Hs1 & Hs2).
  apply blocks_app in Hb as (Hb1 & Hb2 & Hb3); [|done]. cbn [blocks] in Hb2. destruct Hb2 as (Hlb & Hb4 & Hpos & Hs4 & Hend & Hb2).
  assert (Ht : is_u32 t).
  { destruct l2 as [|[c u] l2]; cbn [segment] in Hs2; [subst t; unfold is_u32; lia|]. destruct Hs2 as (-> & _).
    cbn [blocks] in Hb2. unfold is_u32. lia. }
  set (m1 := setBlockNext m b t).
  assert (Hm1 : forall x, ~ (b <= x < b + 8) -> m1 x = m x) by (intros; apply storeWord_out; lia).
  assert (Hs1' : segment m1 (freeList mm) l1 t).
  { eapply segment_ext; [exact Hs1|]. intros x Hx. apply Hm1. apply (headerByte_free 0 lo) in Hx; [|done].
    destruct (Hb3 _ Hx) as [? _]. lia. }
  assert (Hs2' : segment m1 b ((b, s) :: l2) 0).
  { cbn [segment]. split_and!; [done| |].
    - unfold blockSize, m1, setBlockNext in *. rewrite readDword_other by lia. done.
    - unfold blockNext, m1, setBlockNext. rewrite readDword_storeWord, u32_small by done. fold m1.
      eapply segment_ext; [exact Hs2|]. intros x Hx. apply Hm1. apply (headerByte_free 0 (b + 8 + s + 0)) in Hx; [|done].
      apply (blocks_bound 0 (b + 8 + s + 0)) in Hx; [|done..]. lia. }
  destruct (replaceInList_ok mm m1 lo l1 t b Hs1' Hb1 Hlo) as (mm' & m' & E & Hs' & Hm'); [unfold is_u32; lia|].
  exists mm', m'. split_and!.
  - unfold insertAfter, replaceInList in *. destruct (Z.eqb_spec (lastAddr l1) 0) as [E0|E0].
    + rewrite <- E. repeat f_equal. destruct l1 as [|[a' s'] l1 _] using rev_ind; [exact Hs1|].
      rewrite lastAddr_snoc in E0. apply blocks_app in Hb1 as (_ & (? & _) & _); [lia|done].
    + rewrite <- E. destruct l1 as [|[a' s'] l1 _] using rev_ind; [done|].
      apply segment_app in Hs1 as (y & _ & (-> & _ & Hn)). rewrite lastAddr_snoc in *. cbn [segment] in Hn. by rewrite Hn.
  - apply segment_app. exists b. split; [done|]. eapply segment_ext; [exact Hs2'|].
    intros x Hx. apply Hm'. intros Hx1. apply (headerByte_free 0 lo) in Hx1; [|done]. destruct (Hb3 _ Hx1) as [? _].
    apply headerByte_cons in Hx as [Hx|Hx]; [lia|]. apply (headerByte_free 0 (b + 8 + s + 0)) in Hx; [|done].
    apply (blocks_bound 0 (b + 8 + s + 0)) in Hx; [|done..]. lia.
  - intros x Hx. rewrite headerByte_app, headerByte_cons in Hx. rewrite Hm' by tauto. apply Hm1. tauto.
Qed.

(** ** Finding the place of a block *)

Lemma findPrevious_ok n m lo l b prev h :
  segment m h l 0 -> blocks 0 lo l -> 0 < lo -> (length l < n)%nat ->
  exists l1 l2, l = l1 ++ l2 /\
    findPrevious n m b prev h = Ok (if bool_decide (l1 = []) then prev else lastAddr l1) /\
    (forall a s, (a, s) ∈ l1 -> a <= b) /\ match l2 with [] => True | (a, _) :: _ => b < a end.
Proof.
  revert lo l prev h. induction n as [|n IH]; intros lo l prev h Hs Hb Hlo Hn; [lia|]. cbn [findPrevious].
  destruct l as [|[a s] l]; cbn [segment blocks length] in *.
  - subst h. exists [], []. split_and!; try done. by intros ? ? ?%not_elem_of_nil.
  - destruct Hs as (-> & <- & Hs). destruct Hb as (Ha & _ & Hpos & _ & _ & Hb). destruct (Z.eqb_spec a 0); [lia|].
    destruct (Z.ltb_spec b a).
    + exists [], ((a, blockSize m a) :: l). split_and!; try done. by intros ? ? ?%not_elem_of_nil.
    + destruct (IH _ l a (blockNext m a) Hs Hb ltac:(lia) ltac:(lia)) as (l1 & l2 & -> & -> & H1 & H2).
      exists ((a, blockSize m a) :: l1), l2. split_and!; try done.
      * f_equal. unfold lastAddr. destruct l1 as [|x l1]; [done|]. rewrite !bool_decide_false by done. done.
      * intros a' s' [[= -> ->]|Hin]%elem_of_cons; [lia|by eapply H1].
Qed.

(** ** Merging *)

Fixpoint mergeList (a s : Z) (l : list (Z * Z)) : list (Z * Z) :=
  match l with
  | [] => [(a, s)]
  | (b, t) :: l => if a + 8 + s =? b then mergeList a (s + (8 + t)) l else (a, s) :: mergeList b t l
  end.

Lemma mergeList_head a s l : exists s' l', mergeList a s l = (a, s') :: l'.
Proof. revert s. induction l as [|[b t] l IH]; intros s; cbn [mergeList]; [eauto|]. destruct (_ =? _); eauto. Qed.

Lemma mergeList_free l : forall a s x, 0 < s -> blocks 0 (a + 8 + s) l -> freeByte (mergeList a s l) x <-> freeByte ((a, s) :: l) x.
Proof.
  induction l as [|[b t] l IH]; intros a s x Hs Hb; cbn [mergeList]; [done|]. cbn [blocks] in Hb.
  destruct Hb as (? & ? & ? & ? & ? & Hb). destruct (Z.eqb_spec (a + 8 + s) b).
  - rewrite IH by first [lia | eapply blocks_lower; [|exact Hb]; lia]. rewrite !freeByte_cons. intuition lia.
  - rewrite !freeByte_cons. rewrite IH by first [lia | eapply blocks_lower; [|exact Hb]; lia]. by rewrite freeByte_cons.
Qed.

Lemma mergeList_blocks l : forall lo a s, blocks 0 lo ((a, s) :: l) -> blocks 1 lo (mergeList a s l).
Proof.
  induction l as [|[b t] l IH]; intros lo a s Hb; cbn [mergeList]; cbn [blocks] in Hb.
  - destruct Hb as (? & ? & ? & ? & ? & _). cbn [blocks]. done.
  - destruct Hb as (? & ? & ? & ? & ? & ? & ? & ? & ? & ? & Hb). destruct (Z.eqb_spec (a + 8 + s) b).
    + apply IH. cbn [blocks]. split_and!; try done; try dlia. eapply blocks_lower; [|exact Hb]. lia.
    + cbn [blocks]. split_and!; try done. apply IH. cbn [blocks]. split_and!; try done. lia.
Qed.

Lemma mergeLoop_ok n : forall m lo l a s,
  segment m a ((a, s) :: l) 0 -> blocks 0 lo ((a, s) :: l) -> 0 < lo -> (length l < n)%nat ->
  exists m', mergeLoop n m a = Ok m' /\ segment m' a (mergeList a s l) 0 /\
    forall x, ~ headerByte ((a, s) :: l) x -> m' x = m x.
Proof.
  induction n as [|n IH]; intros m lo l a s Hseg Hb Hlo Hn; [lia|]. cbn [mergeLoop].
  pose proof Hseg as (_ & Hsize & Hl). cbn [blocks] in Hb. destruct Hb as (Hla & Ha4 & Hpos & Hs4 & Hend & Hb).
  destruct (Z.eqb_spec a 0); [lia|]. destruct l as [|[b t] l]; cbn [segment mergeList length] in *.
  - rewrite Hl. by exists m.
  - destruct Hl as (Hnext & Ht & Hl). cbn [blocks] in Hb. destruct Hb as (Hlb & Hb4 & Htpos & Ht4 & Htend & Hb).
    rewrite Hnext, Hsize, Ht. destruct (Z.eqb_spec b 0); [lia|]. unfold sizeofMemoryBlockHeader.
    rewrite !u32_small by (unfold is_u32; lia). destruct (Z.eqb_spec (a + 8 + s) b) as [E|E].
    + set (m1 := setBlockSize m a (s + (8 + t))). set (m2 := setBlockNext m1 a (blockNext m1 b)).
      assert (Hm2 : forall x, ~ (a <= x < a + 8) -> m2 x = m x).
      { intros x Hx. unfold m2, m1, setBlockNext, setBlockSize. rewrite !storeWord_out by lia. done. }
      assert (Hseg' : segment m2 a ((a, s + (8 + t)) :: l) 0).
      { cbn [segment]. split_and!; [done| |].
        - unfold m2, m1, blockSize, setBlockNext, setBlockSize. rewrite readDword_other, readDword_storeWord by lia.
          apply u32_small. unfold is_u32. lia.
        - assert (blockNext m2 a = blockNext m b) as ->.
          { unfold m2 at 1, blockNext at 1, setBlockNext. rewrite readDword_storeWord. unfold m1, setBlockSize, blockNext.
            rewrite readDword_other by lia. apply u32_small. fold (blockNext m b).
            destruct l as [|[c u] l]; cbn [segment] in Hl; [rewrite Hl; unfold is_u32; lia|]. destruct Hl as (-> & _).
            cbn [blocks] in Hb. unfold is_u32. lia. }
          eapply segment_ext; [exact Hl|]. intros x Hx. apply Hm2. apply (headerByte_free 0 (b + 8 + t + 0)) in Hx; [|done].
          apply (blocks_bound 0 (b + 8 + t + 0)) in Hx; [|done..]. lia. }
      destruct (IH m2 lo l a (s + (8 + t)) Hseg') as (m' & -> & Hs' & Hm'); [|lia|lia|].
      { cbn [blocks]. split_and!; try done; try lia; [|eapply blocks_lower; [|exact Hb]; lia]. dlia. }
      exists m'. split_and!; [done|done|]. intros x Hx. rewrite !headerByte_cons in Hx. rewrite Hm' by (rewrite headerByte_cons; tauto).
      apply Hm2. tauto.
    + destruct (IH m (a + 8 + s) l b t) as (m' & -> & Hs' & Hm').
      { cbn [segment]. done. }
      { cbn [blocks]. split_and!; try done. lia. }
      { lia. }
      { lia. }
      exists m'. split_and!; [done| |].
      * assert (Hh : forall x, a <= x < a + 8 -> m' x = m x).
        { intros x Hx. apply Hm'. intros Hh. apply (headerByte_free 0 (a + 8 + s)) in Hh; [|cbn [blocks]; split_and!; try done; lia].
          apply (blocks_bound 0 (a + 8 + s)) in Hh; [|done|cbn [blocks]; split_and!; try done; lia]. lia. }
        cbn [segment]. split_and!; [done| |].
        -- unfold blockSize in *. rewrite (readDword_ext m m') by (intros; apply Hh; lia). done.
        -- unfold blockNext in *. rewrite (readDword_ext m m') by (intros; apply Hh; lia). by rewrite Hnext.
      * intros x Hx. rewrite headerByte_cons in Hx. apply Hm'. tauto.
Qed.

(** ** Releasing a block *)

(** The state: the blocks [l] are the merged free list. *)
Definition freeBlocks (mm : MemoryManager) (m : Mem) (l : list (Z * Z)) : Prop :=
  segment m (freeList mm) l 0 /\ blocks 1 1 l.

(** A list of blocks is determined by its bytes. *)
Lemma blocks_unique lo l l' :
  blocks 1 lo l -> blocks 1 lo l' -> (forall x, freeByte l x <-> freeByte l' x) -> l = l'.
Proof.
  revert lo l'. induction l as [|[a s] l IH]; intros lo l' Hl Hl' H.
  - destruct l' as [|[b t] l']; [done|]. cbn [blocks] in Hl'. destruct (proj2 (H b)) as (? & ? & Hx & _); [apply freeByte_cons; lia|].
    by apply not_elem_of_nil in Hx.
  - destruct l' as [|[b t] l'].
    { cbn [blocks] in Hl. destruct (proj1 (H a)) as (? & ? & Hx & _); [apply freeByte_cons; lia|]. by apply not_elem_of_nil in Hx. }
    cbn [blocks] in Hl, Hl'. destruct Hl as (? & ? & ? & ? & ? & Hl). destruct Hl' as (? & ? & ? & ? & ? & Hl').
    assert (Hlow : forall x, freeByte l x -> a + 8 + s + 1 <= x) by (intros x Hx; apply (blocks_bound 1 (a + 8 + s + 1)) in Hx; [lia|lia|done]).
    assert (Hlow' : forall x, freeByte l' x -> b + 8 + t + 1 <= x) by (intros x Hx; apply (blocks_bound 1 (b + 8 + t + 1)) in Hx; [lia|lia|done]).
    setoid_rewrite freeByte_cons in H.
    assert (a = b) as ->.
    { destruct (proj1 (H a) ltac:(left; lia)) as [?|?%Hlow']; destruct (proj2 (H b) ltac:(left; lia)) as [?|?%Hlow]; lia. }
    assert (s = t) as ->.
    { destruct (Z.lt_trichotomy s t) as [Hlt|[?|Hlt]]; [|done|].
      - destruct (proj2 (H (b + 8 + s)) ltac:(left; lia)) as [?|?%Hlow]; lia.
      - destruct (proj1 (H (b + 8 + t)) ltac:(left; lia)) as [?|?%Hlow']; lia. }
    f_equal. apply (IH (b + 8 + t + 1)); [done|done|]. intros x. specialize (H x). split; intros Hx.
    + pose proof (Hlow x Hx). destruct (proj1 H ltac:(by right)) as [?|?]; [lia|done].
    + pose proof (Hlow' x Hx). destruct (proj2 H ltac:(by right)) as [?|?]; [lia|done].
Qed.

(** A block that overlaps no free block has its place in the list. *)
Lemma blocks_place lo l1 l2 b s :
  blocks 0 lo (l1 ++ l2) -> lo <= b -> b mod 4 = 0 -> 0 < s -> s mod 4 = 0 -> b + 8 + s < 2 ^ 32 ->
  (forall x, freeByte (l1 ++ l2) x -> ~ (b <= x < b + 8 + s)) ->
  (forall a u, (a, u) ∈ l1 -> a <= b) -> match l2 with [] => True | (a, _) :: _ => b < a end ->
  blocks 0 lo (l1 ++ (b, s) :: l2).
Proof.
  intros Hb Hlo Hb4 Hpos Hs4 Hend Hdis H1 H2. apply blocks_app in Hb as (Hb1 & Hb2 & Hb3); [|done].
  apply blocks_app; [done|]. cbn [blocks].
  assert (Hb2' : blocks 0 (b + 8 + s + 0) l2).
  { destruct l2 as [|[a u] l2]; [done|]. cbn [blocks] in *. destruct Hb2 as (? & ? & ? & ? & ? & Hb2). split_and!; try done.
    destruct (Z.le_gt_cases (b + 8 + s) a); [lia|]. destruct (Hdis a); [|lia]. apply freeByte_app. right. apply freeByte_cons. lia. }
  split_and!; try done. intros x (a & u & Hin & Hx). split_and!; try done. pose proof (H1 a u Hin) as Hab.
  destruct (Z.le_gt_cases (x + 1) b); [lia|]. destruct (Hdis b); [|lia]. apply freeByte_app. left. exists a, u. split; [done|lia].
Qed.

(** What [free] and [addContiguousMemoryRegion] share: the block [b] whose
    size is written is put in its place and merged. *)
Lemma releaseBlock_ok fuel mm m l b s :
  freeBlocks mm m l -> (S (length l) < fuel)%nat -> blockSize m b = s ->
  0 < b -> b mod 4 = 0 -> 0 < s -> s mod 4 = 0 -> b + 8 + s < 2 ^ 32 ->
  (forall x, freeByte l x -> ~ (b <= x < b + 8 + s)) ->
  exists mm' m' l', (previous ← findPrevious fuel m b 0 (freeList mm);
      let '(mm, m) := insertAfter mm m previous b in
      m ← mergeFreeBlocks fuel mm m; Ok (mm, m)) = Ok (mm', m') /\ freeBlocks mm' m' l' /\
    (forall x, freeByte l' x <-> freeByte l x \/ b <= x < b + 8 + s) /\
    forall x, ~ freeByte l' x -> m' x = m x.
Proof.
  intros [Hseg Hbl] Hfuel Hsize Hb Hb4 Hpos Hs4 Hend Hdis. pose proof (blocks_weaken _ _ Hbl) as Hbl0.
  destruct (findPrevious_ok fuel m 1 l b 0 (freeList mm) Hseg Hbl0) as (l1 & l2 & -> & -> & H1 & H2); [lia|lia|].
  cbn [mbind result_bind].
  replace (if bool_decide (l1 = []) then 0 else lastAddr l1) with (lastAddr l1) by (case_bool_decide; by subst).
  assert (Hbl' : blocks 0 1 (l1 ++ (b, s) :: l2)) by (by apply blocks_place; (done || lia)).
  destruct (insertAfter_ok mm m 1 l1 b s l2 Hseg Hbl') as (mm' & m1 & -> & Hs1 & Hm1); [lia|done|].
  assert (Hfree : forall x, freeByte (l1 ++ (b, s) :: l2) x <-> freeByte (l1 ++ l2) x \/ b <= x < b + 8 + s).
  { intros x. rewrite !freeByte_app, freeByte_cons. tauto. }
  assert (Hlen : (length (l1 ++ (b, s) :: l2) <= fuel)%nat) by (rewrite length_app in *; cbn [length]; lia).
  destruct (l1 ++ (b, s) :: l2) as [|[a u] l] eqn:E; [by destruct l1|].
  assert (Eh : freeList mm' = a) by (by destruct Hs1). unfold mergeFreeBlocks. rewrite Eh in *.
  destruct (mergeLoop_ok fuel m1 1 l a u Hs1 Hbl') as (m' & -> & Hs' & Hm'); [lia|cbn [length] in Hlen; lia|].
  cbn [mbind result_bind]. eexists mm', m', (mergeList a u l). pose proof Hbl' as (? & ? & ? & ? & ? & Hbl2).
  assert (Hfm : forall x, freeByte (mergeList a u l) x <-> freeByte ((a, u) :: l) x).
  { intros x. apply mergeList_free; [done|]. eapply blocks_lower; [|exact Hbl2]. lia. }
  split_and!; [done|by split; [rewrite Eh|apply mergeList_blocks]| |].
  - intros x. by rewrite Hfm, Hfree.
  - intros x Hx. rewrite Hfm in Hx. assert (Hh : ~ headerByte ((a, u) :: l) x) by (intros Hh; eapply Hx, headerByte_free; done).
    rewrite Hm' by done. by apply Hm1.
Qed.

(** ** Alignment *)

(** The first multiple of [2 ^ k] from [a] on. *)
Definition roundUp (k a : Z) : Z := a + (- a) mod 2 ^ k.

Lemma roundUp_spec k a : 0 <= k -> a <= roundUp k a < a + 2 ^ k /\ roundUp k a mod 2 ^ k = 0.
Proof.
  intros Hk. assert (0 < 2 ^ k) by lia. unfold roundUp. pose proof (Z.mod_pos_bound (- a) (2 ^ k)).
  split; [lia|]. rewrite Z.add_mod_idemp_r by lia. rewrite Z.add_opp_diag_r. by apply Z.mod_0_l; lia.
Qed.

Lemma pow2_divides k : 0 <= k <= 32 -> exists q, 2 ^ 32 = q * 2 ^ k.
Proof. intros. exists (2 ^ (32 - k)). rewrite <- Z.pow_add_r by lia. f_equal. lia. Qed.

Lemma roundDown_up k a : 0 <= k -> a + 2 ^ k - 1 - (a + 2 ^ k - 1) mod 2 ^ k = roundUp k a.
Proof.
  intros Hk. assert (0 < 2 ^ k) by lia. destruct (roundUp_spec k a Hk) as [Hr Hm].
  apply Z.div_exact in Hm; [|lia]. set (q := roundUp k a / 2 ^ k) in *.
  replace (a + 2 ^ k - 1) with ((a + 2 ^ k - 1 - roundUp k a) + q * 2 ^ k) at 2 by lia.
  rewrite Z.mod_add, Z.mod_small by lia. lia.
Qed.

Lemma roundUp_room k a : 0 <= k <= 32 -> roundUp k a < 2 ^ 32 -> a + 2 ^ k - 1 < 2 ^ 32.
Proof.
  intros Hk Hr. assert (0 < 2 ^ k) by lia. destruct (roundUp_spec k a) as [Ha Hm]; [lia|]. destruct (pow2_divides k Hk) as [q Hq].
  apply Z.div_exact in Hm; [|lia]. set (r := roundUp k a / 2 ^ k) in *. rewrite Hm, Hq in *.
  assert (r < q) by nia. nia.
Qed.

Lemma alignUp_ok k a : 0 <= k <= 32 -> 0 <= a -> roundUp k a < 2 ^ 32 -> alignUp (2 ^ k) a = roundUp k a.
Proof.
  intros Hk Ha Hr. pose proof (roundUp_room k a Hk Hr). assert (0 < 2 ^ k) by lia. unfold alignUp.
  assert (Hu : is_u32 (a + 2 ^ k - 1)) by (unfold is_u32; lia).
  rewrite (u32_small (a + 2 ^ k - 1)) by done. rewrite land_mask by done. apply roundDown_up. lia.
Qed.

Lemma land_FFFFFFFC x : is_u32 x -> Z.land x 0xFFFFFFFC = x - x mod 4.
Proof. intros. apply (land_mask x 2); [done|lia]. Qed.

(** ** Allocation *)

Lemma zeroLoop_ok n : forall i m x,
  for_range n i (fun j m => store m j 0) m x = if bool_decide (i <= x < i + Z.of_nat n) then 0 else m x.
Proof.
  induction n as [|n IH]; intros i m x; cbn [for_range]; [by rewrite bool_decide_false by lia|].
  rewrite IH. unfold store. destruct (Z.eqb_spec x i); repeat case_bool_decide; done || lia.
Qed.

Lemma clearPrefix_ok m a p x :
  a + 8 <= p ->
  for_range (Z.to_nat (p - (a + 8))) (a + 8) (fun i m => store m i 0) (setBlockNext m a 0) x =
    if bool_decide (a + 4 <= x < p) then 0 else m x.
Proof.
  intros Hp. rewrite zeroLoop_ok. unfold setBlockNext, storeWord. rewrite storeBytes_spec.
  case_bool_decide; [by rewrite bool_decide_true by lia|]. case_bool_decide.
  - change (le32 0) with (replicate 4 0). by rewrite znth_replicate by lia.
  - by rewrite (proj2 (znth_None _ _)) by (rewrite zlength_replicate || change (zlength (le32 0)) with 4; lia).
Qed.

(** The block with the address and size [b] has room for [size] bytes. *)
Definition fits (k size : Z) (b : Z * Z) : Prop := roundUp k (b.1 + 8) + size <= b.1 + 8 + b.2.
#[export] Instance fits_dec k size b : Decision (fits k size b).
Proof. unfold fits. solve_decision. Defined.

(** The padding reaches past the end of the block, and the rest of the block,
    computed modulo 2^32, is large enough for [size]. *)
Definition wraps (k size : Z) (b : Z * Z) : Prop :=
  blockEnd b < roundUp k (b.1 + 8) /\ size <= 2 ^ 32 - (roundUp k (b.1 + 8) - blockEnd b).
#[export] Instance wraps_dec k size b : Decision (wraps k size b).
Proof. unfold wraps. solve_decision. Defined.

Definition passedOver (k size : Z) (b : Z * Z) : Prop := ~ fits k size b /\ ~ wraps k size b.

(** Alignments up to 8 need at most 4 bytes of padding, and blocks have them. *)
Lemma small_padding gap lo k l : 0 <= k <= 3 -> blocks gap lo l -> Forall (fun b => roundUp k (b.1 + 8) <= blockEnd b) l.
Proof.
  intros Hk. revert lo. induction l as [|[a s] l IH]; intros lo; cbn [blocks]; [by constructor|].
  intros (_ & Ha & Hs & Hs4 & _ & Hl). apply Forall_cons. split; [|by eapply IH]. unfold blockEnd, roundUp. cbn [fst snd].
  assert (k = 0 \/ k = 1 \/ k = 2 \/ k = 3) as [->|[->|[->| ->]]] by lia; dlia.
Qed.

Lemma blocks_ends gap lo l k :
  blocks gap lo l -> Forall (fun b => roundUp k (b.1 + 8) <= blockEnd b) l ->
  Forall (fun b => roundUp k (b.1 + 8) < 2 ^ 32 /\ blockEnd b < 2 ^ 32) l.
Proof.
  intros Hb Hl. revert lo Hb. induction Hl as [|[a s] l Hx _ IH]; intros lo; cbn [blocks]; [by constructor|].
  intros (_ & _ & _ & _ & Hend & Hb). apply Forall_cons. split; [|by eapply IH]. unfold blockEnd in *. cbn [fst snd] in *. lia.
Qed.

(** The allocated block: the header at [a] with the size [s], and zeros from
    there to the address handed out. *)
Definition allocated (m : Mem) (a s p : Z) : Prop :=
  0 < a /\ a mod 4 = 0 /\ 0 < s /\ s mod 4 = 0 /\ a + 8 + s < 2 ^ 32 /\ a + 8 <= p < a + 8 + s /\
  blockSize m a = s /\ forall x, a + 4 <= x < p -> m x = 0.

(** The end of [takeBlock]: the pointer and the padding are cleared. *)
Lemma clearTaken_ok mm m a s p l :
  segment m (freeList mm) l 0 -> (forall x, headerByte l x -> ~ (a <= x < p)) ->
  0 < a -> a mod 4 = 0 -> 0 < s -> s mod 4 = 0 -> a + 8 + s < 2 ^ 32 -> a + 8 <= p < a + 8 + s -> blockSize m a = s ->
  let m' := for_range (Z.to_nat (p - (a + 8))) (a + 8) (fun i m => store m i 0) (setBlockNext m a 0) in
  segment m' (freeList mm) l 0 /\ allocated m' a s p /\ forall x, ~ (a <= x < p) -> m' x = m x.
Proof.
  intros Hseg Hh Ha Ha4 Hpos Hs4 Hend Hp Hsize m'.
  assert (Hm' : forall x, m' x = if bool_decide (a + 4 <= x < p) then 0 else m x) by (intros; apply clearPrefix_ok; lia).
  split_and!.
  - eapply segment_ext; [exact Hseg|]. intros x Hx%Hh. rewrite Hm', bool_decide_false by lia. done.
  - unfold allocated. split_and!; try done; try lia.
    + rewrite <- Hsize. apply readDword_ext. intros x Hx. by rewrite Hm', bool_decide_false by lia.
    + intros x Hx. by rewrite Hm', bool_decide_true by lia.
  - intros x Hx. by rewrite Hm', bool_decide_false by lia.
Qed.

Lemma takeBlock_ok mm m l1 a s l2 p size :
  freeBlocks mm m (l1 ++ (a, s) :: l2) -> 0 < size -> a + 8 <= p -> p + size <= a + 8 + s ->
  exists mm' m' s1 rest, takeBlock mm m (lastAddr l1) a p size = (mm', m', p) /\
    freeBlocks mm' m' (l1 ++ rest ++ l2) /\ allocated m' a s1 p /\ p + size <= a + 8 + s1 /\ s1 <= s /\
    a + 8 + s1 < p + size + 12 /\ (length rest <= 1)%nat /\
    (forall x, freeByte (l1 ++ rest ++ l2) x <-> freeByte (l1 ++ (a, s) :: l2) x /\ ~ (a <= x < a + 8 + s1)) /\
    (forall x, ~ freeByte (l1 ++ (a, s) :: l2) x -> m' x = m x).
Proof.
  intros [Hseg Hbl] Hsize Hp Hfit. pose proof Hseg as Hseg0. apply segment_app in Hseg as (h & Hs1 & (-> & Hsz & Hs2)).
  pose proof (proj1 (blocks_app 1 1 l1 _ ltac:(lia)) Hbl) as (Hb1 & (Hla & Ha4 & Hpos & Hs4 & Hend & Hb2) & Hb3).
  assert (Hlow : forall x, freeByte l1 x -> x < a) by (intros x Hx; destruct (Hb3 _ Hx) as [? _]; lia).
  assert (Hhigh : forall x, freeByte l2 x -> a + 8 + s < x) by (intros x Hx; apply (blocks_bound 1 _ _ _ ltac:(lia) Hb2) in Hx; lia).
  assert (Hh1 : forall x, headerByte l1 x -> x < a) by (intros x Hx; eapply Hlow, headerByte_free; [exact Hb1|done]).
  assert (Hh2 : forall x, headerByte l2 x -> a + 8 + s < x) by (intros x Hx; eapply Hhigh, headerByte_free; [exact Hb2|done]).
  set (t := blockNext m a) in *.
  assert (Ht : is_u32 t).
  { destruct l2 as [|[c u] l2]; cbn [segment] in Hs2; [rewrite Hs2; unfold is_u32; lia|]. destruct Hs2 as (-> & _).
    cbn [blocks] in Hb2. unfold is_u32. lia. }
  unfold takeBlock, sizeofMemoryBlockHeader. rewrite (u32_small (a + 8)) by (unfold is_u32; lia).
  set (next := Z.land (u32 (p + size + 3)) 0xFFFFFFFC).
  assert (Hnext : next = p + size + 3 - (p + size + 3) mod 4).
  { unfold next. assert (is_u32 (p + size + 3)) by (unfold is_u32; dlia). by rewrite u32_small, land_FFFFFFFC. }
  clearbody next. assert (Hn : p + size <= next <= a + 8 + s /\ next mod 4 = 0) by dlia.
  rewrite (u32_small (next + 8 - (a + 8))) by (unfold is_u32; lia). rewrite Hsz.
  destruct (Z.ltb_spec (next + 8 - (a + 8)) s) as [Hsplit|Hwhole].
  - set (m1 := setBlockSize m next (s - (next + 8 - (a + 8)))).
    assert (Et : blockNext m1 a = t) by (apply readDword_other; lia). rewrite Et.
    set (m2 := setBlockNext m1 next t).
    assert (Hm2 : forall x, ~ (next <= x < next + 8) -> m2 x = m x).
    { intros x Hx. unfold m2, m1, setBlockNext, setBlockSize. by rewrite !storeWord_out by lia. }
    destruct (replaceInList_ok mm m2 1 l1 a next) as (mm' & m3 & -> & Hs3 & Hm3).
    { eapply segment_ext; [exact Hs1|]. intros x Hx%Hh1. apply Hm2. lia. }
    { by apply blocks_weaken. }
    { lia. }
    { unfold is_u32. lia. }
    cbn beta iota. rewrite u32_small by (unfold is_u32; lia).
    set (m4 := setBlockSize m3 a (next - (a + 8))).
    assert (Hm4 : forall x, ~ (a <= x < a + 4) -> m4 x = m3 x) by (intros; by apply storeWord_out).
    assert (Hrest : segment m4 next ((next, s - (next + 8 - (a + 8))) :: l2) 0).
    { assert (Hm42 : forall x, ~ (a <= x < a + 4) -> ~ headerByte l1 x -> m4 x = m2 x) by (intros; by rewrite Hm4, Hm3).
      assert (Hnl1 : forall x, next <= x -> ~ headerByte l1 x) by (intros x Hx Hx2%Hh1; lia).
      cbn [segment]. split_and!; [done| |].
      - unfold blockSize. rewrite (readDword_ext m2) by (intros; apply Hm42; [lia|apply Hnl1; lia]).
        unfold m2, setBlockNext, m1, setBlockSize. rewrite readDword_other, readDword_storeWord, u32_small by (unfold is_u32; lia). done.
      - unfold blockNext. rewrite (readDword_ext m2) by (intros; apply Hm42; [lia|apply Hnl1; lia]).
        unfold m2, setBlockNext at 1. rewrite readDword_storeWord, u32_small by done.
        eapply segment_ext; [exact Hs2|]. intros x Hx%Hh2. rewrite Hm42 by (lia || apply Hnl1; lia). apply Hm2. lia. }
    assert (Hall : segment m4 (freeList mm') (l1 ++ [(next, s - (next + 8 - (a + 8)))] ++ l2) 0).
    { apply segment_app. exists next. split; [|exact Hrest]. eapply segment_ext; [exact Hs3|]. intros x Hx%Hh1. apply Hm4. lia. }
    assert (Hbl' : blocks 1 1 (l1 ++ [(next, s - (next + 8 - (a + 8)))] ++ l2)).
    { apply blocks_app; [lia|]. cbn [app blocks].
      assert (Hb2' : blocks 1 (next + 8 + (s - (next + 8 - (a + 8))) + 1) l2) by (eapply blocks_lower; [|exact Hb2]; lia).
      assert (Hmod : (s - (next + 8 - (a + 8))) mod 4 = 0) by dlia.
      split_and!; try done; try lia. intros x Hx%Hlow. split_and!; done || lia. }
    destruct (clearTaken_ok mm' m4 a (next - (a + 8)) p _ Hall) as (Hseg' & Halloc & Hm'); try lia.
    { intros x Hx. rewrite headerByte_app in Hx. cbn [app] in Hx. rewrite headerByte_cons in Hx.
      destruct Hx as [Hx%Hh1|[Hx|Hx%Hh2]]; lia. }
    { dlia. }
    { unfold m4, blockSize, setBlockSize. rewrite readDword_storeWord, u32_small by (unfold is_u32; lia). done. }
    eexists mm', _, (next - (a + 8)), [_]. split; [reflexivity|]. split; [by split|]. split; [exact Halloc|].
    split_and!; [lia|lia|dlia|done| |].
    + intros x. cbn [app]. rewrite !freeByte_app, !freeByte_cons. split.
      * intros [H|[H|H]]; [pose proof (Hlow x H)| |pose proof (Hhigh x H)]; (split; [|lia]); [by left|right; left; lia|by right; right].
      * intros [[H|[H|H]] Hx]; [by left|right; left; lia|by right; right].
    + intros x Hx. rewrite freeByte_app, freeByte_cons in Hx.
      assert (Hx1 : ~ headerByte l1 x) by (intros Hx'; apply (headerByte_free 1 1) in Hx'; tauto).
      rewrite Hm', Hm4, Hm3, Hm2 by (done || lia). done.
  - destruct (replaceInList_ok mm m 1 l1 a t Hs1 (blocks_weaken _ _ Hb1)) as (mm' & m3 & E3 & Hs3 & Hm3); [lia|done|].
    fold t. rewrite E3. cbn beta iota.
    assert (Hm3' : forall x, a <= x -> m3 x = m x) by (intros x Hx; apply Hm3; intros Hx2%Hh1; lia).
    assert (Hall : segment m3 (freeList mm') (l1 ++ l2) 0).
    { apply segment_app. exists t. split; [done|]. eapply segment_ext; [exact Hs2|]. intros x Hx%Hh2. apply Hm3'. lia. }
    destruct (clearTaken_ok mm' m3 a s p _ Hall) as (Hseg' & Halloc & Hm'); try done; try lia.
    { intros x [Hx%Hh1|Hx%Hh2]%headerByte_app; lia. }
    { rewrite <- Hsz. apply readDword_ext. intros; apply Hm3'. lia. }
    eexists mm', _, s, []. split; [reflexivity|]. cbn [app]. split.
    { split; [done|]. apply blocks_app; [lia|]. split_and!; [done|eapply blocks_lower; [|exact Hb2]; lia|].
      intros x Hx%Hlow. eapply blocks_lower; [|exact Hb2]. lia. }
    split; [exact Halloc|]. split_and!; [lia|lia|dlia|cbn; lia| |].
    + intros x. rewrite !freeByte_app, freeByte_cons. split.
      * intros [H|H]; [pose proof (Hlow x H)|pose proof (Hhigh x H)]; (split; [|lia]); [by left|by right; right].
      * intros [[H|[H|H]] Hx]; [by left|lia|by right].
    + intros x Hx. rewrite freeByte_app, freeByte_cons in Hx.
      assert (Hx1 : ~ headerByte l1 x) by (intros Hx'; apply (headerByte_free 1 1) in Hx'; tauto).
      rewrite Hm', Hm3 by (done || lia). done.
Qed.

Lemma alignedSize_ok k a s :
  0 <= k < 32 -> 0 <= a -> 0 <= s -> a + 8 + s < 2 ^ 32 -> roundUp k (a + 8) < 2 ^ 32 ->
  alignUp (2 ^ k) (u32 (a + 8)) = roundUp k (a + 8) /\
  u32 (s - (roundUp k (a + 8) - u32 (a + 8))) =
    a + 8 + s - roundUp k (a + 8) + (if a + 8 + s <? roundUp k (a + 8) then 2 ^ 32 else 0).
Proof.
  intros Hk Ha Hs Hend Hr. destruct (roundUp_spec k (a + 8)) as [Hb _]; [lia|].
  rewrite (u32_small (a + 8)) by (unfold is_u32; lia). split; [apply alignUp_ok; lia|].
  destruct (Z.ltb_spec (a + 8 + s) (roundUp k (a + 8))); [|rewrite u32_small by (unfold is_u32; lia); lia].
  unfold u32. symmetry. apply Z.mod_unique with (-1); lia.
Qed.

Lemma allocateLoop_ok n : forall mm m k size l1 l,
  freeBlocks mm m (l1 ++ l) -> (length l < n)%nat -> 0 <= k < 32 -> 0 < size ->
  Forall (fun b => roundUp k (b.1 + 8) < 2 ^ 32) l ->
  (Forall (passedOver k size) l /\
   allocateLoop n mm m (2 ^ k) size (lastAddr l1) (if l is (a, _) :: _ then a else 0) = Ok (mm, m, 0)) \/
  (exists l2 a s l3, l = l2 ++ (a, s) :: l3 /\ Forall (passedOver k size) l2 /\ (fits k size (a, s) \/ wraps k size (a, s)) /\
   allocateLoop n mm m (2 ^ k) size (lastAddr l1) (if l is (a, _) :: _ then a else 0) =
     Ok (takeBlock mm m (lastAddr (l1 ++ l2)) a (roundUp k (a + 8)) size)).
Proof.
  induction n as [|n IH]; intros mm m k size l1 l Hfree Hn Hk Hsize Hpad; [lia|]. cbn [allocateLoop].
  destruct l as [|[a s] l]; [by left|]. pose proof Hfree as [Hseg Hbl].
  apply segment_app in Hseg as (h & _ & (-> & Hs & Hl)). apply (blocks_app 1 1 l1) in Hbl as (_ & Hb & _); [|lia].
  cbn [blocks] in Hb. destruct Hb as (Ha & _ & Hpos & _ & Hend & _). destruct (Z.eqb_spec a 0); [lia|].
  inversion Hpad as [|b0 l0 Hpad0 Hpad']; subst b0 l0. cbn [fst snd] in Hpad0.
  destruct (alignedSize_ok k a s) as [E1 E2]; [lia..|]. unfold sizeofMemoryBlockHeader. rewrite Hs, E1, E2.
  assert (Htest : size <= a + 8 + s - roundUp k (a + 8) + (if a + 8 + s <? roundUp k (a + 8) then 2 ^ 32 else 0) <->
    fits k size (a, s) \/ wraps k size (a, s)).
  { unfold fits, wraps, blockEnd. cbn [fst snd]. destruct (Z.ltb_spec (a + 8 + s) (roundUp k (a + 8))); lia. }
  destruct (Z.leb_spec size (a + 8 + s - roundUp k (a + 8) + (if a + 8 + s <? roundUp k (a + 8) then 2 ^ 32 else 0))) as [Hle|Hgt].
  - right. exists [], a, s, l. rewrite app_nil_r. split_and!; try done. by apply Htest.
  - assert (Hover : passedOver k size (a, s)) by (unfold passedOver; split; intros ?; apply Z.lt_nge in Hgt; apply Hgt, Htest; tauto).
    destruct (IH mm m k size (l1 ++ [(a, s)]) l) as [[HF E]|(l2 & b & t & l3 & -> & HF & Hfit & E)];
      [by rewrite <- app_assoc|cbn [length] in Hn; lia|done|done|done|left|right].
    + split; [by constructor|]. rewrite lastAddr_snoc in E.
      replace (blockNext m a) with (if l is (b, _) :: _ then b else 0); [done|].
      destruct l as [|[b t] l]; cbn [segment] in Hl; [done|by destruct Hl].
    + exists ((a, s) :: l2), b, t, l3. split_and!; [done|by constructor|done|].
      rewrite lastAddr_snoc, <- app_assoc in E. cbn [app] in E. rewrite <- E. f_equal.
      destruct l2 as [|[b' t'] l2]; cbn [segment app] in Hl |- *; by destruct Hl.
Qed.

Lemma pow2_check k : 0 <= k < 32 -> negb (Z.land (2 ^ k) (u32 (2 ^ k - 1)) =? 0) || (2 ^ k =? 0) = false.
Proof.
  intros Hk. assert (0 < 2 ^ k < 2 ^ 32) by (split; [lia|apply Z.pow_lt_mono_r; lia]).
  rewrite u32_small by (unfold is_u32; lia). replace (2 ^ k - 1) with (Z.ones k) by (rewrite Z.ones_equiv; lia).
  rewrite Z.land_ones, Z.mod_same by lia. cbn [Z.eqb negb orb]. by apply Z.eqb_neq; lia.
Qed.

(** The block an allocation of [size] bytes at [p] took from the list [l]:
    its header is at [a], its size [s], the list afterwards [l']. *)
Definition allocates (k size : Z) (l l' : list (Z * Z)) (mm mm' : MemoryManager) (m m' : Mem) (a s p : Z) : Prop :=
  freeBlocks mm' m' l' /\ allocated m' a s p /\ p mod 2 ^ k = 0 /\ p + size <= a + 8 + s /\ p < a + 8 + 2 ^ k /\
  (forall x, a <= x < a + 8 + s -> freeByte l x) /\
  (forall x, freeByte l' x <-> freeByte l x /\ ~ (a <= x < a + 8 + s)) /\
  (length l' <= length l)%nat /\ (forall x, ~ freeByte l x -> m' x = m x).

(** Taking a block whose padding wraps clears what follows it. *)
Lemma takeBlock_wraps mm m previous a s p size :
  0 < a -> a + 8 + s < p -> 0 < s -> p < 2 ^ 32 ->
  exists mm' m', takeBlock mm m previous a p size = (mm', m', p) /\ forall x, a + 8 + s <= x < p -> m' x = 0.
Proof.
  intros Ha Hp Hs Hu. unfold takeBlock, sizeofMemoryBlockHeader. rewrite (u32_small (a + 8)) by (unfold is_u32; lia).
  destruct (if _ <? _ then _ else _) as [mm' m']. eexists mm', _. split; [done|].
  intros x Hx. rewrite clearPrefix_ok by lia. by rewrite bool_decide_true by lia.
Qed.

Lemma allocate_ok fuel mm m k size l :
  freeBlocks mm m l -> (length l < fuel)%nat -> 0 <= k < 32 -> 0 < size ->
  Forall (fun b => roundUp k (b.1 + 8) < 2 ^ 32) l ->
  (Forall (passedOver k size) l /\ allocate fuel mm m (2 ^ k) size = Ok (mm, m, 0)) \/
  (exists l1 a s l2 mm' m', l = l1 ++ (a, s) :: l2 /\ Forall (passedOver k size) l1 /\
     allocate fuel mm m (2 ^ k) size = Ok (mm', m', roundUp k (a + 8)) /\
     ((fits k size (a, s) /\ exists s1 l', allocates k size l l' mm mm' m m' a s1 (roundUp k (a + 8)) /\
         a + 8 + s1 < roundUp k (a + 8) + size + 12) \/
      (wraps k size (a, s) /\ 3 < k /\ forall x, a + 8 + s <= x < roundUp k (a + 8) -> m' x = 0))).
Proof.
  intros Hfree Hfuel Hk Hsize Hpad. unfold allocate. destruct (Z.eqb_spec size 0); [lia|]. rewrite pow2_check by done.
  assert (Hh : freeList mm = if l is (a, _) :: _ then a else 0).
  { destruct Hfree as [Hseg _]. destruct l as [|[a s] l]; cbn [segment] in Hseg; [done|by destruct Hseg]. }
  rewrite Hh. destruct (allocateLoop_ok fuel mm m k size [] l Hfree) as [[HF E]|(l1 & a & s & l2 & -> & HF & [Hfit|Hwrap] & E)]; try done.
  - by left.
  - right. change (lastAddr []) with 0 in E. rewrite E. cbn [app]. destruct (roundUp_spec k (a + 8)) as [Hr Hmod]; [lia|].
    unfold fits in Hfit. cbn [fst snd] in Hfit.
    destruct (takeBlock_ok mm m l1 a s l2 (roundUp k (a + 8)) size Hfree) as (mm' & m' & s1 & rest & -> & H1 & H2 & H3 & H4 & Hs1 & H5 & H6 & H7);
      [lia|lia|lia|].
    exists l1, a, s, l2, mm', m'. split_and!; [done..|]. left. split; [exact Hfit|]. exists s1, (l1 ++ rest ++ l2). split; [|exact Hs1]. unfold allocates.
    split_and!; try done; try lia.
    + intros x Hx. apply freeByte_app. right. apply freeByte_cons. left. lia.
    + rewrite !length_app. cbn [length]. lia.
  - right. change (lastAddr []) with 0 in E. rewrite E. cbn [app].
    pose proof Hfree as [_ Hbl]. pose proof Hwrap as [Hw _]. unfold blockEnd in Hw. cbn [fst snd] in Hw.
    assert (H3 : 3 < k).
    { destruct (Z.ltb_spec 3 k); [done|]. pose proof (small_padding _ _ k _ ltac:(lia) Hbl) as Hsmall.
      apply Forall_app, proj2, Forall_cons, proj1 in Hsmall. unfold blockEnd in Hsmall. cbn [fst snd] in Hsmall. lia. }
    apply Forall_app, proj2, Forall_cons, proj1 in Hpad. cbn [fst] in Hpad.
    apply (blocks_app 1 1 l1) in Hbl as (_ & Hb & _); [|lia]. cbn [blocks] in Hb.
    destruct (takeBlock_wraps mm m (lastAddr l1) a s (roundUp k (a + 8)) size) as (mm' & m' & -> & Hm'); [lia..|].
    exists l1, a, s, l2, mm', m'. split_and!; [done..|]. right. by split_and!.
Qed.

(** ** Finding the header again *)

Lemma findHeaderByte_ok n : forall m a s p x,
  allocated m a s p -> a <= x < p -> (forall y, x < y < p -> m y = 0) -> x - a < Z.of_nat n ->
  exists r, findHeaderByte n m x = Ok r /\ a <= r < a + 4.
Proof.
  induction n as [|n IH]; intros m a s p x Ha Hx Hz Hn; [lia|]. cbn [findHeaderByte].
  pose proof Ha as (Ha0 & Ha4 & Hpos & _ & Hend & Hp & Hsize & Hzero).
  destruct (Z.eqb_spec (m x) 0) as [E|E].
  - destruct (decide (x = a)) as [->|].
    { unfold blockSize, readDword in Hsize. rewrite E, !Hz in Hsize by lia. lia. }
    rewrite u32_small by (unfold is_u32; lia). apply (IH m a s p); [done|lia| |lia].
    intros y Hy. destruct (decide (y = x)) as [->|]; [done|apply Hz; lia].
  - exists x. split; [done|]. destruct (Z.lt_ge_cases x (a + 4)); [lia|]. destruct E. apply Hzero. lia.
Qed.

Lemma free_ok fuel mm m l a s p :
  freeBlocks mm m l -> allocated m a s p -> (forall x, freeByte l x -> ~ (a <= x < a + 8 + s)) ->
  (S (length l) < fuel)%nat -> p - a <= Z.of_nat fuel ->
  exists mm' m' l', free fuel mm m p = Ok (mm', m') /\ freeBlocks mm' m' l' /\
    (forall x, freeByte l' x <-> freeByte l x \/ a <= x < a + 8 + s) /\ forall x, ~ freeByte l' x -> m' x = m x.
Proof.
  intros Hfree Ha Hdis Hfuel Hpa. pose proof Ha as (Ha0 & Ha4 & Hpos & Hs4 & Hend & Hp & Hsize & Hzero).
  unfold free. destruct (Z.eqb_spec p 0); [lia|]. rewrite (u32_small (p - 1)) by (unfold is_u32; lia).
  destruct (findHeaderByte_ok fuel m a s p (p - 1) Ha) as (r & -> & Hr); [lia|lia|lia|]. cbn [mbind result_bind].
  rewrite land_FFFFFFFC by (unfold is_u32; lia). replace (r - r mod 4) with a by dlia.
  by apply releaseBlock_ok.
Qed.

Lemma allocated_ext m m' a s p size :
  allocated m a s p -> p + size <= a + 8 + s -> (forall x, ~ (p <= x < p + size) -> m' x = m x) -> allocated m' a s p.
Proof.
  intros (Ha0 & Ha4 & Hpos & Hs4 & Hend & Hp & Hsize & Hzero) Hps Hm. unfold allocated. split_and!; try done; try lia.
  - rewrite <- Hsize. apply readDword_ext. intros. apply Hm. lia.
  - intros x Hx. rewrite Hm by lia. by apply Hzero.
Qed.

Lemma freeBlocks_ext mm m m' l : freeBlocks mm m l -> (forall x, freeByte l x -> m' x = m x) -> freeBlocks mm m' l.
Proof.
  intros [Hseg Hbl] Hm. split; [|done]. eapply segment_ext; [exact Hseg|]. intros x Hx. apply Hm. by eapply headerByte_free.
Qed.

(** C14: an allocation goes to the first free block its test accepts, and fails
    without any change if there is none.  A block with room for the bytes at
    the requested alignment is accepted: the address is a multiple of the
    alignment inside that block; the free list stays sorted and merged and
    loses exactly the bytes of the new block, which ends less than twelve bytes
    after the requested ones; memory outside the free blocks is not written.
    The test also accepts a block that is smaller than the padding up to the
    aligned address, which happens for alignments over 8 only: its remaining
    size wraps around, the address lies past its end, and everything from its
    end up to there is cleared.  No aligned address is to wrap around itself. *)
Theorem allocate_first_fit fuel mm m k size l :
  freeBlocks mm m l -> (length l < fuel)%nat -> 0 <= k < 32 -> 0 < size ->
  Forall (fun b => roundUp k (b.1 + 8) < 2 ^ 32) l ->
  (Forall (passedOver k size) l /\ allocate fuel mm m (2 ^ k) size = Ok (mm, m, 0)) \/
  (exists l1 a s l2 mm' m', l = l1 ++ (a, s) :: l2 /\ Forall (passedOver k size) l1 /\
     allocate fuel mm m (2 ^ k) size = Ok (mm', m', roundUp k (a + 8)) /\
     ((fits k size (a, s) /\ exists s1 l', allocates k size l l' mm mm' m m' a s1 (roundUp k (a + 8)) /\
         a + 8 + s1 < roundUp k (a + 8) + size + 12) \/
      (wraps k size (a, s) /\ 3 < k /\ forall x, a + 8 + s <= x < roundUp k (a + 8) -> m' x = 0))).
Proof. apply allocate_ok. Qed.

(** C10: releasing what was allocated, whatever its owner wrote to it in the
    meantime, finds the header again and restores the free list as it was
    before the allocation, block by block.  The alignment is at most 8, or no
    free block ends before its first aligned address: otherwise the allocation
    may be one of [allocate_first_fit]'s past the end of its block. *)
Theorem free_restores fuel mm m k size l mm1 m1 p m2 :
  freeBlocks mm m l -> (S (length l) < fuel)%nat -> 0 <= k < 32 -> 2 ^ k + 8 <= Z.of_nat fuel -> 0 < size ->
  k <= 3 \/ Forall (fun b => roundUp k (b.1 + 8) <= blockEnd b) l ->
  allocate fuel mm m (2 ^ k) size = Ok (mm1, m1, p) -> p <> 0 ->
  (forall x, ~ (p <= x < p + size) -> m2 x = m1 x) ->
  exists mm3 m3, free fuel mm1 m2 p = Ok (mm3, m3) /\ freeBlocks mm3 m3 l /\ forall x, ~ freeByte l x -> m3 x = m x.
Proof.
  intros Hfree Hfuel Hk Hfuel2 Hsize Hpad Halloc Hp Hm2.
  assert (Hend : Forall (fun b => roundUp k (b.1 + 8) <= blockEnd b) l) by (destruct Hpad; [by eapply small_padding, Hfree; lia|done]).
  destruct (allocate_ok fuel mm m k size l Hfree ltac:(lia) Hk Hsize) as [[_ E]|Hok].
  { eapply Forall_impl; [exact (blocks_ends _ _ _ _ (proj2 Hfree) Hend)|]. by intros b [? _]. }
  { rewrite E in Halloc. congruence. }
  destruct Hok as (l1 & a & s & l2 & mm' & m' & El & _ & E & [(_ & s1 & l' & Hal & _)|([Hw _] & _)]).
  2: { rewrite El in Hend. apply Forall_app, proj2, Forall_cons, proj1 in Hend. lia. }
  rewrite E in Halloc. injection Halloc as <- <- <-. set (p := roundUp k (a + 8)) in *.
  destruct Hal as (Hfree' & Ha & _ & Hend' & Hlt & Hsub & Hbytes & Hlen & Hout).
  pose proof Ha as (_ & _ & _ & _ & _ & Hpa & _).
  destruct (free_ok fuel mm' m2 l' a s1 p) as (mm3 & m3 & l3 & E3 & Hfree3 & Hbytes3 & Hout3).
  - eapply freeBlocks_ext; [exact Hfree'|]. intros x [Hx1 Hx2]%Hbytes. apply Hm2. lia.
  - by apply (allocated_ext m' m2 a s1 p size).
  - intros x Hx. by apply Hbytes.
  - lia.
  - lia.
  - assert (Hl3 : l3 = l).
    { apply (blocks_unique 1); [by destruct Hfree3|by destruct Hfree|]. intros x. rewrite Hbytes3, Hbytes. split.
      - intros [[? _]|?]; [done|by apply Hsub].
      - intros Hx. destruct (decide (a <= x < a + 8 + s1)); [by right|by left]. }
    subst l3. exists mm3, m3. split_and!; [done|done|]. intros x Hx. rewrite Hout3 by done.
    assert (~ (a <= x < a + 8 + s1)) by (intros H; by apply Hx, Hsub). rewrite Hm2 by lia. by apply Hout.
Qed.

(** A region given to the manager is free afterwards. *)
Lemma addContiguousMemoryRegion_ok fuel mm m l region size :
  freeBlocks mm m l -> (S (length l) < fuel)%nat ->
  0 < region -> region mod 4 = 0 -> size mod 4 = 0 -> 8 < size -> region + size < 2 ^ 32 ->
  (forall x, freeByte l x -> ~ (region <= x < region + size)) ->
  exists mm' m' l', addContiguousMemoryRegion fuel mm m region size = Ok (mm', m') /\ freeBlocks mm' m' l' /\
    (forall x, freeByte l' x <-> freeByte l x \/ region <= x < region + size) /\
    forall x, ~ freeByte l' x -> m' x = m x.
Proof.
  intros Hfree Hfuel Hpos Hr4 Hs4 Hs8 Hend Hdis. unfold addContiguousMemoryRegion. rewrite Hr4, Hs4. cbn [Z.eqb negb orb].
  unfold sizeofMemoryBlockHeader. destruct (Z.leb_spec size 8); [lia|].
  assert (Hm1 : forall x, ~ (region <= x < region + 4) -> setBlockSize m region (size - 8) x = m x) by (intros; by apply storeWord_out).
  destruct (releaseBlock_ok fuel mm (setBlockSize m region (size - 8)) l region (size - 8)) as (mm' & m' & l' & E & Hf & Hb & Hout).
  - eapply freeBlocks_ext; [exact Hfree|]. intros x Hx. apply Hm1. specialize (Hdis x Hx). lia.
  - done.
  - unfold blockSize, setBlockSize. rewrite readDword_storeWord, u32_small by (unfold is_u32; lia). done.
  - done.
  - done.
  - lia.
  - dlia.
  - lia.
  - intros x Hx. specialize (Hdis x Hx). lia.
  - exists mm', m', l'. replace (region + 8 + (size - 8)) with (region + size) in Hb by lia. split_and!; [exact E|done|done|].
    intros x Hx. rewrite Hout by done. apply Hm1. intros Hx'. apply Hx, Hb. right. lia.
Qed.

(** ** Samples: one region of 0x100 bytes *)

Definition sampleHeap : Mem := setBlockSize (fun _ => 0) 0x1000 0xF8.
Definition sampleManager : MemoryManager := mkMemoryManager 0x1000.

Lemma sampleHeap_free : freeBlocks sampleManager sampleHeap [(0x1000, 0xF8)].
Proof. split; vm_compute; repeat split; done. Qed.

Lemma sampleHeap_padding : Forall (fun b => roundUp 4 (b.1 + 8) <= blockEnd b) [(0x1000, 0xF8)].
Proof. repeat constructor. by vm_compute. Qed.

Definition sampleAllocation : result (MemoryManager * Mem * Z) := allocate 30 sampleManager sampleHeap (2 ^ 4) 20.
Definition allocatedManager : MemoryManager := if sampleAllocation is Ok (mm, _, _) then mm else sampleManager.
Definition allocatedHeap : Mem := if sampleAllocation is Ok (_, m, _) then m else sampleHeap.

(** An alignment of 16: the block fits. *)
Example allocate_first_fit_witness :
  exists mm' m', allocate 30 sampleManager sampleHeap (2 ^ 4) 20 = Ok (mm', m', 0x1010) /\ fits 4 20 (0x1000, 0xF8) /\
    exists s1 l', allocates 4 20 [(0x1000, 0xF8)] l' sampleManager mm' sampleHeap m' 0x1000 s1 0x1010 /\ 0x1008 + s1 < 0x1010 + 20 + 12.
Proof.
  destruct (allocate_first_fit 30 sampleManager sampleHeap 4 20 [(0x1000, 0xF8)])
    as [[HF _]|(l1 & a & s & l2 & mm' & m' & El & _ & E & Hres)]; [exact sampleHeap_free|cbn; lia|lia|lia|by repeat constructor| |].
  - apply Forall_cons_1, proj1 in HF. destruct HF as [HF _]. destruct HF. by vm_compute.
  - destruct l1 as [|? [|? ?]]; [|done..]. injection El as <- <- <-.
    destruct Hres as [(Hfit & s1 & l' & Hal & Hs1)|([Hw _] & _)]; [|vm_compute in Hw; discriminate Hw].
    exists mm', m'. split; [exact E|]. split; [exact Hfit|]. by exists s1, l'.
Defined.

Example free_restores_witness :
  exists mm3 m3, free 30 allocatedManager (store allocatedHeap 0x1010 7) 0x1010 = Ok (mm3, m3) /\
    freeBlocks mm3 m3 [(0x1000, 0xF8)] /\ forall x, ~ freeByte [(0x1000, 0xF8)] x -> m3 x = sampleHeap x.
Proof.
  apply (free_restores 30 sampleManager sampleHeap 4 20 [(0x1000, 0xF8)] allocatedManager allocatedHeap 0x1010 (store allocatedHeap 0x1010 7));
    [exact sampleHeap_free|cbn; lia|lia|lia|lia|right; exact sampleHeap_padding| |lia|].
  - unfold allocatedManager, allocatedHeap. assert (E : exists mm m, sampleAllocation = Ok (mm, m, 0x1010)).
    { eexists _, _. unfold sampleAllocation, allocate. reflexivity. }
    destruct E as (mm & m & E). change (allocate 30 sampleManager sampleHeap (2 ^ 4) 20) with sampleAllocation. by rewrite E.
  - intros x Hx. apply store_ne. lia.
Defined.

(** An alignment of 4096: the block of 256 bytes is taken all the same. *)
Example sampleHeap_wraps : wraps 12 20 (0x1000, 0xF8) /\
  match allocate 30 sampleManager sampleHeap (2 ^ 12) 20 with Ok (_, _, p) => p = 0x2000 | Fault _ => False end.
Proof. split; [by vm_compute|]. unfold allocate. vm_compute. reflexivity. Qed.
