(* ===== verification/LoopbackNetworkInterface.v ===== *)
(** The loopback interface:
    [operating_system/network_management_task/loopback_network_interface.{h,cpp}],
    with the packet handler [network_management_task.cpp] registers there.

    Finishing a write buffer raises the software interrupt 80 at once, and its
    handler hands every full buffer to the packet handler, which answers ARP
    requests through the same interface: the interrupt handler is entered
    again while a buffer is being handled.  The recursion gets fuel; frames
    are in the byte array [rxAndTxBuffers], addressed from 0. *)
From S2P Require Import Prelude Mem LinkedLists NetworkStackHandler CpuCore Syscalls.

Definition NUM_LOOPBACK_RX_AND_TX_BUFFERS : Z := 5.
Definition INTERFACE_RX_BUFFER_SIZE : Z := 2048.

Record loopbackRxAndTxDesc := mkLoopbackRxAndTxDesc {
  descLength : Z;
  isFull : bool;
}.

(** [pPacketHandler] tells whether a packet handler is registered. *)
Record LoopbackNetworkInterface := mkLoopbackNetworkInterface {
  loMac : list Z;
  loInterruptLine : Z;
  rxAndTxBuffers : Mem;
  rxAndTxDescs : list loopbackRxAndTxDesc;
  loCurrentRx : Z;
  loCurrentTx : Z;
  loInterruptsEnabled : bool;
  loPacketHandler : bool;
}.

Definition withRing (lo : LoopbackNetworkInterface) b ds rx tx :=
  mkLoopbackNetworkInterface (loMac lo) (loInterruptLine lo) b ds rx tx (loInterruptsEnabled lo) (loPacketHandler lo).

Definition newLoopbackNetworkInterface (buffers : Mem) (interruptLine : Z) (mac : list Z) : LoopbackNetworkInterface :=
  mkLoopbackNetworkInterface (take 6 mac) interruptLine buffers
    (replicate (Z.to_nat NUM_LOOPBACK_RX_AND_TX_BUFFERS) (mkLoopbackRxAndTxDesc 0 false)) 0 0 false false.

Definition loopbackRegisterPacketHandler (lo : LoopbackNetworkInterface) (im : InterruptHandlerManager) (this : Z)
  : result (LoopbackNetworkInterface * InterruptHandlerManager) :=
  let registered := mkLoopbackNetworkInterface (loMac lo) (loInterruptLine lo) (rxAndTxBuffers lo) (rxAndTxDescs lo)
                      (loCurrentRx lo) (loCurrentTx lo) true true in
  if negb (loInterruptsEnabled lo) then
    im ← setInterruptHandlerParam im (loInterruptLine lo) this;
    im ← setInterruptHandler im (loInterruptLine lo) loopbackInterfaceHandler;
    Ok (registered, im)
  else Ok (registered, im).

(** ** The ring of buffers *)

Definition loGetWriteBuffer (lo : LoopbackNetworkInterface) : result (option Z) :=
  d ← (rxAndTxDescs lo).[loCurrentTx lo] ?? OutOfRange;
  Ok (if isFull d then None else Some (INTERFACE_RX_BUFFER_SIZE * loCurrentTx lo)).

Definition loGetReadBuffer (lo : LoopbackNetworkInterface) : result (option (Z * Z)) :=
  d ← (rxAndTxDescs lo).[loCurrentRx lo] ?? OutOfRange;
  Ok (if isFull d then Some (INTERFACE_RX_BUFFER_SIZE * loCurrentRx lo, descLength d) else None).

Definition loFinishReadBuffer (lo : LoopbackNetworkInterface) : result LoopbackNetworkInterface :=
  d ← (rxAndTxDescs lo).[loCurrentRx lo] ?? OutOfRange;
  Ok (if negb (isFull d) then lo
      else withRing lo (rxAndTxBuffers lo)
             (rxAndTxDescs lo).[loCurrentRx lo := mkLoopbackRxAndTxDesc (descLength d) false]
             ((loCurrentRx lo + 1) mod NUM_LOOPBACK_RX_AND_TX_BUFFERS) (loCurrentTx lo)).

(** One turn of the checksum loop, and the loop, two bytes a turn. *)
Definition checksumStep (ipHeader : Z) (b : Mem) (i checksum : Z) : Z :=
  let checksum := u32 (checksum + (Z.shiftl (b (ipHeader + i)) 8 + b (ipHeader + i + 1))) in
  if negb (Z.land checksum 0xFFFF0000 =? 0) then u32 (Z.land checksum 0xFFFF + Z.shiftr checksum 16) else checksum.

Definition ipChecksum (ipHeader headerLength : Z) (b : Mem) : Z :=
  for_range (Z.to_nat (headerLength / 2)) 0 (fun k checksum => checksumStep ipHeader b (2 * k) checksum) 0.

(** The buffers with the checksum filled in; [None] when the frame is refused. *)
Definition fillChecksum (b : Mem) (data length : Z) : option Mem :=
  if length <? ETHERNET_SIMPLE_HEADER_SIZE + IPV4_MINIMAL_HEADER_SIZE then None
  else
    let ipHeader := data + ETHERNET_SIMPLE_HEADER_SIZE in
    let headerLength := Z.land (b ipHeader) 0x0F * 4 in
    if headerLength <? IPV4_MINIMAL_HEADER_SIZE then None
    else if length <? ETHERNET_SIMPLE_HEADER_SIZE + headerLength then None
    else
      let b := store (store b (ipHeader + 10) 0) (ipHeader + 11) 0 in
      let checksum := u32 (Z.lnot (ipChecksum ipHeader headerLength b)) in
      Some (store (store b (ipHeader + 10) (u8 (Z.shiftr checksum 8))) (ipHeader + 11) (u8 (Z.land checksum 0xFF))).

(** The second component tells whether the interrupt is triggered. *)
Definition loFinishWriteBuffer (lo : LoopbackNetworkInterface) (length : Z) (isIpv4Packet : bool)
  : result (LoopbackNetworkInterface * bool) :=
  if length <? ETHERNET_SIMPLE_HEADER_SIZE then Ok (lo, false)
  else if ETHERNET_MTU + ETHERNET_SIMPLE_HEADER_SIZE <? length then Ok (lo, false)
  else
    d ← (rxAndTxDescs lo).[loCurrentTx lo] ?? OutOfRange;
    if isFull d then Ok (lo, false)
    else
      match (if isIpv4Packet
             then fillChecksum (rxAndTxBuffers lo) (INTERFACE_RX_BUFFER_SIZE * loCurrentTx lo) length
             else Some (rxAndTxBuffers lo)) with
      | None => Ok (lo, false)
      | Some b =>
          Ok (withRing lo b (rxAndTxDescs lo).[loCurrentTx lo := mkLoopbackRxAndTxDesc length true]
                (loCurrentRx lo) ((loCurrentTx lo + 1) mod NUM_LOOPBACK_RX_AND_TX_BUFFERS), true)
      end.

(** What the stack handler writes to the buffer it was given. *)
Definition loWriteFrame (lo : LoopbackNetworkInterface) (writeBuffer : option Z) (frame : list Z) : LoopbackNetworkInterface :=
  match writeBuffer with
  | Some w => withRing lo (storeBytes (rxAndTxBuffers lo) w frame) (rxAndTxDescs lo) (loCurrentRx lo) (loCurrentTx lo)
  | None => lo
  end.

(** ** The interrupt *)

Section loopback.
Context (numPacketBuffers arpHashTableSize arpHashEntryListSize : nat).

Definition Loopback : Type := LoopbackNetworkInterface * NetworkStackHandler.

(** Writing a frame and [finishWriteBuffer]; [interrupt] handles interrupt 80. *)
Definition loSend (interrupt : Loopback -> result Loopback) (st : Loopback) (writeBuffer : option Z) (frame : list Z)
    (isIpv4Packet : bool) : result Loopback :=
  r ← loFinishWriteBuffer (loWriteFrame (fst st) writeBuffer frame) (zlength frame) isIpv4Packet;
  if snd r && loInterruptsEnabled (fst st) then interrupt (fst r, snd st) else Ok (fst r, snd st).

(** [LoopbackNetworkInterfacePacketHandler::call] *)
Definition loPacketHandlerCall (interrupt : Loopback -> result Loopback) (st : Loopback) (readBuffer readBufferLen : Z)
  : result Loopback :=
  let data := loadBytes (rxAndTxBuffers (fst st)) readBuffer (Z.to_nat readBufferLen) in
  r ← handleIncomingEthernetPacket numPacketBuffers arpHashTableSize arpHashEntryListSize (snd st) data readBufferLen;
  match snd r with
  | ARPRequest =>
      writeBuffer ← loGetWriteBuffer (fst st);
      frame ← handleOutgoingArpReply (fst r) data (bool_decide (writeBuffer = None));
      loSend interrupt (fst st, fst r) writeBuffer frame false
  | _ => Ok (fst st, fst r)
  end.

Fixpoint handleLoopbackInterfaceInterrupt (fuel : nat) (st : Loopback) : result Loopback :=
  match fuel with
  | O => Fault OutOfFuel
  | S fuel =>
      readBuffer ← loGetReadBuffer (fst st);
      match readBuffer with
      | None => Ok st
      | Some (b, len) =>
          st ← (if loPacketHandler (fst st)
                then loPacketHandlerCall (handleLoopbackInterfaceInterrupt fuel) st b len else Ok st);
          lo ← loFinishReadBuffer (fst st);
          handleLoopbackInterfaceInterrupt fuel (lo, snd st)
      end
  end.

(** Enough for five buffers: see [loopback_drains]. *)
Definition LOOPBACK_FUEL : nat := 100.

Definition loopbackInterrupt : Loopback -> result Loopback := handleLoopbackInterfaceInterrupt LOOPBACK_FUEL.
End loopback.
