(* ===== verification/LoopbackFacts.v ===== *)
(** What the loopback interface promises: its ring of buffers is a queue, the
    checksum it fills in is the one receivers check, and the re-entered
    interrupt handler terminates with every buffer handled. *)
From S2P Require Import Prelude Mem LinkedLists NetworkStackHandler NetworkStackPool NetworkStackFacts NetworkStackData CpuCore Syscalls LoopbackNetworkInterface.

(** ** The checksum *)

(** The sum of the first [n] 16-bit words at [h], high byte first. *)
Fixpoint wordSum (b : Mem) (h : Z) (n : nat) : Z :=
  match n with
  | O => 0
  | S n => wordSum b h n + (256 * b (h + 2 * Z.of_nat n) + b (h + 2 * Z.of_nat n + 1))
  end.

Lemma checksumStep_ok h b i c :
  byteMem b -> 0 <= c <= 65535 ->
  let w := 256 * b (h + i) + b (h + i + 1) in
  0 <= checksumStep h b i c <= 65535 /\ checksumStep h b i c mod 65535 = (c + w) mod 65535 /\
  (checksumStep h b i c = 0 <-> c + w = 0).
Proof.
  intros Hb Hc w. pose proof (Hb (h + i)) as H1. pose proof (Hb (h + i + 1)) as H2. unfold is_u8 in *.
  unfold checksumStep. rewrite Z.shiftl_mul_pow2 by lia. replace (b (h + i) * 2 ^ 8 + b (h + i + 1)) with w by (unfold w; lia).
  rewrite (u32_small (c + w)) by (unfold is_u32, w; lia).
  change 0xFFFF0000 with (u32 (Z.lnot (2 ^ 16 - 1))). rewrite land_mask by (try (unfold is_u32, w); lia).
  destruct (Z.eqb_spec (c + w - (c + w) mod 2 ^ 16) 0) as [E|E]; cbn [negb].
  - split_and!; try done; unfold w in *; dlia.
  - change 0xFFFF with (Z.ones 16). rewrite Z.land_ones, Z.shiftr_div_pow2 by lia.
    assert (Hq : (c + w) / 2 ^ 16 = 1) by (unfold w in *; dlia).
    rewrite Hq, u32_small by (unfold is_u32; dlia). change (Z.ones 16) with 65535.
    assert (Hm : (c + w) mod 2 ^ 16 = c + w - 65536) by dlia. rewrite Hm.
    assert (Hge : 65536 <= c + w <= 131070) by (split; [dlia|unfold w; lia]). split_and!; try lia.
    replace (c + w - 65536 + 1) with (c + w + (-1) * 65535) by lia. by rewrite Z.mod_add by lia.
Qed.

Lemma checksumLoop_ok h b n : byteMem b -> forall k c, 0 <= c <= 65535 ->
  let r := for_range n k (fun k checksum => checksumStep h b (2 * k) checksum) c in
  exists w, 0 <= w /\ 0 <= r <= 65535 /\ r mod 65535 = (c + w) mod 65535 /\ (r = 0 <-> c + w = 0) /\
    (0 <= k -> wordSum b h (Z.to_nat k + n) = wordSum b h (Z.to_nat k) + w).
Proof.
  intros Hb. induction n as [|n IH]; intros k c Hc; cbn [for_range]; cbv zeta.
  - exists 0. rewrite !Z.add_0_r, Nat.add_0_r. split_and!; try done; lia.
  - destruct (checksumStep_ok h b (2 * k) c Hb Hc) as (H1 & H2 & H3). set (c1 := checksumStep h b (2 * k) c) in *.
    destruct (IH (k + 1) c1 H1) as (w & Hw & H4 & H5 & H6 & H7).
    pose proof (Hb (h + 2 * k)). pose proof (Hb (h + 2 * k + 1)). unfold is_u8 in *.
    exists (256 * b (h + 2 * k) + b (h + 2 * k + 1) + w). split_and!; try done; try lia.
    + rewrite H5, <- Z.add_mod_idemp_l, H2, Z.add_mod_idemp_l by lia. f_equal. lia.
    + intros Hk. replace (Z.to_nat k + S n)%nat with (Z.to_nat (k + 1) + n)%nat by lia. rewrite H7 by lia.
      replace (Z.to_nat (k + 1)) with (S (Z.to_nat k)) by lia. cbn [wordSum]. rewrite Z2Nat.id by lia. lia.
Qed.

(** The checksum loop computes the one's complement sum of the words. *)
Lemma ipChecksum_ok h len b :
  byteMem b ->
  0 <= ipChecksum h len b <= 65535 /\ ipChecksum h len b mod 65535 = wordSum b h (Z.to_nat (len / 2)) mod 65535 /\
  (ipChecksum h len b = 0 <-> wordSum b h (Z.to_nat (len / 2)) = 0).
Proof.
  intros Hb. destruct (checksumLoop_ok h b (Z.to_nat (len / 2)) Hb 0 0) as (w & _ & H1 & H2 & H3 & H4); [lia|].
  specialize (H4 ltac:(lia)). assert (E : wordSum b h (Z.to_nat (len / 2)) = w) by exact H4.
  rewrite E. exact (conj H1 (conj H2 H3)).
Qed.

Lemma wordSum_field b b' h n :
  (6 <= n)%nat -> (forall x, x <> h + 10 -> x <> h + 11 -> b' x = b x) -> b (h + 10) = 0 -> b (h + 11) = 0 ->
  wordSum b' h n = wordSum b h n + (256 * b' (h + 10) + b' (h + 11)).
Proof.
  intros Hn Hx H10 H11. induction n as [|n IH]; [lia|]. cbn [wordSum]. destruct (decide (n = 5%nat)) as [->|].
  - assert (Heq : wordSum b' h 5 = wordSum b h 5) by (cbn [wordSum]; by rewrite !Hx by lia).
    rewrite Heq. change (Z.of_nat 5) with 5. replace (h + 2 * 5) with (h + 10) by lia. replace (h + 10 + 1) with (h + 11) by lia. lia.
  - rewrite IH, (Hx (h + 2 * Z.of_nat n)), (Hx (h + 2 * Z.of_nat n + 1)) by lia. lia.
Qed.

(** What filling in the checksum does to the buffers. *)
Lemma fillChecksum_ok b data length b' :
  byteMem b -> fillChecksum b data length = Some b' ->
  let ipHeader := data + ETHERNET_SIMPLE_HEADER_SIZE in
  byteMem b' /\ ETHERNET_SIMPLE_HEADER_SIZE + IPV4_MINIMAL_HEADER_SIZE <= length /\
  ipChecksum ipHeader (Z.land (b ipHeader) 0x0F * 4) b' = 0xFFFF /\
  forall x, x <> ipHeader + 10 -> x <> ipHeader + 11 -> b' x = b x.
Proof.
  intros Hb Hfill h. unfold fillChecksum in Hfill. fold h in Hfill.
  destruct (Z.ltb_spec length (ETHERNET_SIMPLE_HEADER_SIZE + IPV4_MINIMAL_HEADER_SIZE)); [done|]. set (hl := Z.land (b h) 0x0F * 4) in *.
  destruct (Z.ltb_spec hl IPV4_MINIMAL_HEADER_SIZE) as [|Hhl]; [done|]. destruct (_ <? _); [done|].
  set (b0 := store (store b (h + 10) 0) (h + 11) 0) in *. injection Hfill as Hb'.
  assert (H0 : byteMem b0).
  { intros x. unfold b0, store. repeat case_match; try apply Hb; unfold is_u8; lia. }
  destruct (ipChecksum_ok h hl b0 H0) as (Hr & Hmod & Hz). set (c := ipChecksum h hl b0) in *.
  assert (Hc : u32 (Z.lnot c) = 65535 - c + 65535 * 65536).
  { unfold u32, Z.lnot. symmetry. apply Z.mod_unique with (-1); lia. }
  rewrite Hc in Hb'. set (hi := u8 _) in Hb'. set (lo := u8 _) in Hb'.
  assert (Hval : 256 * hi + lo = 65535 - c /\ 0 <= hi < 256 /\ 0 <= lo < 256).
  { unfold hi, lo. rewrite Z.shiftr_div_pow2 by lia. change 0xFF with (Z.ones 8). rewrite Z.land_ones by lia. unfold u8. dlia. }
  assert (Hb'x : forall x, x <> h + 10 -> x <> h + 11 -> b' x = b0 x) by (intros; rewrite <- Hb'; by rewrite !store_ne).
  assert (H10 : b' (h + 10) = hi) by (rewrite <- Hb'; rewrite store_ne by lia; apply store_eq).
  assert (H11 : b' (h + 11) = lo) by (rewrite <- Hb'; apply store_eq).
  assert (H1 : byteMem b').
  { intros x. rewrite <- Hb'. unfold store. destruct (x =? h + 11); [unfold is_u8; lia|]. destruct (x =? h + 10); [unfold is_u8; lia|apply H0]. }
  split_and!; [done|done| |intros; rewrite Hb'x by done; unfold b0; by rewrite !store_ne].
  destruct (ipChecksum_ok h hl b' H1) as (Hr' & Hmod' & Hz').
  assert (Hsum : wordSum b' h (Z.to_nat (hl / 2)) = wordSum b0 h (Z.to_nat (hl / 2)) + (65535 - c)).
  { rewrite (wordSum_field b0 b'); [rewrite H10, H11; lia| |done| |].
    - unfold IPV4_MINIMAL_HEADER_SIZE in Hhl. dlia.
    - unfold b0. rewrite store_ne by lia. apply store_eq.
    - apply store_eq. }
  rewrite Hsum in Hmod', Hz'. set (s := wordSum b0 h _) in *. set (r := ipChecksum h hl b') in *.
  assert (Hmul : r mod 65535 = 0).
  { rewrite Hmod', <- Z.add_mod_idemp_l, <- Hmod, Z.add_mod_idemp_l by lia. replace (c + (65535 - c)) with 65535 by lia. done. }
  assert (Hs : 0 <= s).
  { clear -H0. unfold s. induction (Z.to_nat (hl / 2)) as [|n IH]; cbn [wordSum]; [lia|].
    pose proof (H0 (h + 2 * Z.of_nat n)). pose proof (H0 (h + 2 * Z.of_nat n + 1)). unfold is_u8 in *. lia. }
  destruct (decide (r = 0)) as [E|E]; [|dlia]. apply Hz' in E. lia.
Qed.

(** The checksum the interface fills in is right: the check a receiver
    makes, the one's complement sum of all the words of the IPv4 header with
    the checksum field, gives [0xFFFF]; and only the two bytes of that field
    are written. *)
Theorem fillChecksum_valid b data length b' :
  byteMem b -> fillChecksum b data length = Some b' ->
  let ipHeader := data + ETHERNET_SIMPLE_HEADER_SIZE in
  ipChecksum ipHeader (Z.land (b ipHeader) 0x0F * 4) b' = 0xFFFF /\
  forall x, x <> ipHeader + 10 -> x <> ipHeader + 11 -> b' x = b x.
Proof. intros Hb Hf. by destruct (fillChecksum_ok b data length b' Hb Hf) as (_ & _ & H). Qed.

(** A frame whose header has the words 0x4500, 28, ..., and a checksum field
    that holds something else. *)
Definition sampleIpFrame : list Z :=
  replicate 12 0 ++ [8; 0; 0x45; 0; 0; 28; 0; 7; 0; 0; 255; 17; 0xAB; 0xCD; 10; 0; 0; 2; 10; 0; 0; 1] ++ replicate 8 7.

Definition sampleFrameMem : Mem := storeBytes (fun _ => 0) 0 sampleIpFrame.

Lemma byteMem_storeBytes m a l : byteMem m -> Forall is_u8 l -> byteMem (storeBytes m a l).
Proof.
  intros Hm Hl. revert m a Hm. induction Hl as [|x l Hx Hl IH]; intros m a Hm; cbn [storeBytes]; [done|].
  apply IH. intros y. unfold store. by case_match.
Qed.

Lemma sampleIpFrame_bytes : Forall is_u8 sampleIpFrame.
Proof. unfold sampleIpFrame. cbn. repeat (apply Forall_cons; split); try apply Forall_nil; unfold is_u8; lia. Qed.

Example fillChecksum_valid_witness :
  match fillChecksum sampleFrameMem 0 42 with
  | Some b' => ipChecksum 14 20 b' = 0xFFFF /\ (b' 24, b' 25) = (0xA7, 0xC7)
  | None => False
  end.
Proof.
  destruct (fillChecksum sampleFrameMem 0 42) as [b'|] eqn:E; [|vm_compute in E; discriminate].
  assert (Hb : byteMem sampleFrameMem) by (apply byteMem_storeBytes; [intros x; split; [reflexivity|reflexivity]|apply sampleIpFrame_bytes]).
  split; [exact (proj1 (fillChecksum_valid sampleFrameMem 0 42 b' Hb E))|].
  vm_compute in E. injection E as <-. vm_compute. reflexivity.
Defined.

(** ** The ring is a queue *)

(** The buffer [i] places after the one that is read next. *)
Definition slot (rx i : Z) : Z := (rx + i) mod NUM_LOOPBACK_RX_AND_TX_BUFFERS.

Definition goodLoFrame (f : list Z) : Prop :=
  ETHERNET_SIMPLE_HEADER_SIZE <= zlength f <= ETHERNET_MTU + ETHERNET_SIMPLE_HEADER_SIZE /\ Forall is_u8 f.

(** The frames [q], oldest first, are in the buffers. *)
Record ringInv (lo : LoopbackNetworkInterface) (q : list (list Z)) : Prop := {
  ring_descs : zlength (rxAndTxDescs lo) = NUM_LOOPBACK_RX_AND_TX_BUFFERS;
  ring_rx : 0 <= loCurrentRx lo < NUM_LOOPBACK_RX_AND_TX_BUFFERS;
  ring_tx : loCurrentTx lo = slot (loCurrentRx lo) (zlength q);
  ring_room : zlength q <= NUM_LOOPBACK_RX_AND_TX_BUFFERS;
  ring_full : forall i f, q.[i] = Some f ->
    (rxAndTxDescs lo).[slot (loCurrentRx lo) i] = Some (mkLoopbackRxAndTxDesc (zlength f) true) /\
    loadBytes (rxAndTxBuffers lo) (INTERFACE_RX_BUFFER_SIZE * slot (loCurrentRx lo) i) (length f) = f;
  ring_free : forall i, zlength q <= i < NUM_LOOPBACK_RX_AND_TX_BUFFERS ->
    exists n, (rxAndTxDescs lo).[slot (loCurrentRx lo) i] = Some (mkLoopbackRxAndTxDesc n false);
  ring_frames : Forall goodLoFrame q;
  ring_bytes : byteMem (rxAndTxBuffers lo);
}.

Lemma ringSlot_range rx i : 0 <= slot rx i < NUM_LOOPBACK_RX_AND_TX_BUFFERS.
Proof. apply Z.mod_pos_bound. reflexivity. Qed.

Lemma slot_0 rx : 0 <= rx < NUM_LOOPBACK_RX_AND_TX_BUFFERS -> slot rx 0 = rx.
Proof. intros H. unfold slot. rewrite Z.add_0_r. by apply Z.mod_small. Qed.

Lemma slot_inj rx i j :
  0 <= i < NUM_LOOPBACK_RX_AND_TX_BUFFERS -> 0 <= j < NUM_LOOPBACK_RX_AND_TX_BUFFERS -> slot rx i = slot rx j -> i = j.
Proof. unfold slot, NUM_LOOPBACK_RX_AND_TX_BUFFERS. intros. dlia. Qed.

Lemma slot_succ rx i : slot ((rx + 1) mod NUM_LOOPBACK_RX_AND_TX_BUFFERS) i = slot rx (i + 1).
Proof. unfold slot. rewrite Zplus_mod_idemp_l. f_equal. lia. Qed.

Lemma slot_next rx i : (slot rx i + 1) mod NUM_LOOPBACK_RX_AND_TX_BUFFERS = slot rx (i + 1).
Proof. unfold slot. rewrite Zplus_mod_idemp_l. f_equal. lia. Qed.

Lemma new_ring buffers line mac : byteMem buffers -> ringInv (newLoopbackNetworkInterface buffers line mac) [].
Proof.
  intros Hb. constructor; try done.
  - intros i f Hf. by rewrite znth_nil in Hf.
  - intros i Hi. exists 0. cbn [newLoopbackNetworkInterface rxAndTxDescs]. rewrite znth_replicate; [done|]. exact (ringSlot_range 0 i).
Qed.

Lemma getReadBuffer_empty lo : ringInv lo [] -> loGetReadBuffer lo = Ok None.
Proof.
  intros H. unfold loGetReadBuffer. destruct (ring_free _ _ H 0) as [n Hn]; [done|].
  rewrite slot_0 in Hn by apply (ring_rx _ _ H). by rewrite Hn.
Qed.

Lemma finishReadBuffer_empty lo : ringInv lo [] -> loFinishReadBuffer lo = Ok lo.
Proof.
  intros H. unfold loFinishReadBuffer. destruct (ring_free _ _ H 0) as [n Hn]; [done|].
  rewrite slot_0 in Hn by apply (ring_rx _ _ H). by rewrite Hn.
Qed.

Lemma getReadBuffer_cons lo f q :
  ringInv lo (f :: q) ->
  loGetReadBuffer lo = Ok (Some (INTERFACE_RX_BUFFER_SIZE * loCurrentRx lo, zlength f)) /\
  loadBytes (rxAndTxBuffers lo) (INTERFACE_RX_BUFFER_SIZE * loCurrentRx lo) (Z.to_nat (zlength f)) = f.
Proof.
  intros H. unfold loGetReadBuffer. destruct (ring_full _ _ H 0 f) as [Hd Hb]; [done|].
  rewrite slot_0 in Hd, Hb by apply (ring_rx _ _ H). rewrite Hd. split; [done|]. unfold zlength. by rewrite Nat2Z.id.
Qed.

Lemma finishReadBuffer_cons lo f q :
  ringInv lo (f :: q) ->
  exists lo', loFinishReadBuffer lo = Ok lo' /\ ringInv lo' q /\ loPacketHandler lo' = loPacketHandler lo /\
    loInterruptsEnabled lo' = loInterruptsEnabled lo.
Proof.
  intros H. unfold loFinishReadBuffer. destruct (ring_full _ _ H 0 f) as [Hd _]; [done|].
  pose proof (ring_rx _ _ H) as Hrx. pose proof (ring_room _ _ H) as Hroom. rewrite zlength_cons in Hroom.
  pose proof (zlength_nonneg q) as Hq.
  rewrite slot_0 in Hd by done. rewrite Hd. cbn [mbind result_bind orFault isFull negb]. eexists. split; [done|].
  assert (Hne : forall i, 1 <= i < NUM_LOOPBACK_RX_AND_TX_BUFFERS -> loCurrentRx lo <> slot (loCurrentRx lo) i).
  { intros i Hi E. rewrite <- (slot_0 (loCurrentRx lo)) in E at 1 by done. apply slot_inj in E; lia. }
  split; [|done]. constructor; cbn [withRing rxAndTxDescs loCurrentRx loCurrentTx rxAndTxBuffers].
  - rewrite zlength_zset. apply H.
  - apply Z.mod_pos_bound. done.
  - rewrite slot_succ, (ring_tx _ _ H), zlength_cons. done.
  - lia.
  - intros i g Hg. pose proof (znth_Some_lt _ _ _ Hg). rewrite slot_succ, znth_zset_ne by (apply Hne; lia).
    apply (ring_full _ _ H). by rewrite znth_cons_pos, Z.add_simpl_r by lia.
  - intros i Hi. rewrite slot_succ. destruct (decide (i = NUM_LOOPBACK_RX_AND_TX_BUFFERS - 1)) as [->|].
    + exists (descLength (mkLoopbackRxAndTxDesc (zlength f) true)).
      replace (slot _ _) with (loCurrentRx lo) by (unfold slot, NUM_LOOPBACK_RX_AND_TX_BUFFERS in *; dlia).
      apply znth_zset_eq. rewrite (ring_descs _ _ H). done.
    + rewrite znth_zset_ne by (apply Hne; lia). apply (ring_free _ _ H). rewrite zlength_cons. lia.
  - by apply (Forall_cons_1 _ _ _ (ring_frames _ _ H)).
  - apply H.
Qed.

Lemma getWriteBuffer_ok lo q :
  ringInv lo q ->
  loGetWriteBuffer lo = Ok (if zlength q <? NUM_LOOPBACK_RX_AND_TX_BUFFERS
                            then Some (INTERFACE_RX_BUFFER_SIZE * loCurrentTx lo) else None).
Proof.
  intros H. unfold loGetWriteBuffer. pose proof (ring_room _ _ H). pose proof (zlength_nonneg q).
  rewrite (ring_tx _ _ H). destruct (Z.ltb_spec (zlength q) NUM_LOOPBACK_RX_AND_TX_BUFFERS).
  - destruct (ring_free _ _ H (zlength q)) as [n Hn]; [done|]. by rewrite Hn.
  - destruct q as [|f q]; [by rewrite zlength_nil in *|].
    destruct (ring_full _ _ H 0 f) as [Hd _]; [done|]. rewrite slot_0 in Hd by apply (ring_rx _ _ H).
    replace (slot _ _) with (loCurrentRx lo); [by rewrite Hd|].
    pose proof (ring_rx _ _ H). unfold slot, NUM_LOOPBACK_RX_AND_TX_BUFFERS in *. dlia.
Qed.

(** A frame put in the next free buffer joins the queue. *)
Lemma ring_push lo q b f :
  ringInv lo q -> zlength q < NUM_LOOPBACK_RX_AND_TX_BUFFERS -> goodLoFrame f ->
  let w := INTERFACE_RX_BUFFER_SIZE * loCurrentTx lo in
  (forall x, ~ (w <= x < w + zlength f) -> b x = rxAndTxBuffers lo x) -> loadBytes b w (length f) = f -> byteMem b ->
  ringInv (withRing lo b (rxAndTxDescs lo).[loCurrentTx lo := mkLoopbackRxAndTxDesc (zlength f) true]
             (loCurrentRx lo) ((loCurrentTx lo + 1) mod NUM_LOOPBACK_RX_AND_TX_BUFFERS)) (q ++ [f]).
Proof.
  intros H Hroom Hf w Hout Hin Hbytes. pose proof (zlength_nonneg q) as Hq. pose proof (ring_descs _ _ H) as Hds.
  pose proof (ringSlot_range (loCurrentRx lo) (zlength q)) as Hw. rewrite <- (ring_tx _ _ H) in Hw.
  constructor; cbn [withRing rxAndTxDescs loCurrentRx loCurrentTx rxAndTxBuffers];
    rewrite ?zlength_snoc.
  - by rewrite zlength_zset.
  - apply H.
  - rewrite (ring_tx _ _ H), slot_next. done.
  - lia.
  - intros i g Hg. pose proof (znth_Some_lt _ _ _ Hg) as Hi. rewrite zlength_snoc in Hi.
    destruct (decide (i = zlength q)) as [->|].
    + rewrite znth_app_r, Z.sub_diag in Hg by lia. injection Hg as <-.
      rewrite <- (ring_tx _ _ H). split; [|exact Hin]. apply znth_zset_eq. lia.
    + rewrite znth_app_l in Hg by lia.
      assert (Hne : loCurrentTx lo <> slot (loCurrentRx lo) i).
      { rewrite (ring_tx _ _ H). intros E. apply slot_inj in E; lia. }
      rewrite znth_zset_ne by done. destruct (ring_full _ _ H i g Hg) as [Hd Hb]. split; [done|].
      rewrite <- Hb at 2. pose proof (znth_Forall _ _ _ _ (ring_frames _ _ H) Hg) as [Hg1 _].
      apply loadBytes_ext. intros x Hx. apply Hout. destruct Hf as [Hf _].
      unfold w, zlength, INTERFACE_RX_BUFFER_SIZE, ETHERNET_MTU, ETHERNET_SIMPLE_HEADER_SIZE in *. lia.
  - intros i Hi. destruct (ring_free _ _ H i) as [n Hn]; [lia|]. exists n. rewrite znth_zset_ne; [done|].
    rewrite (ring_tx _ _ H). intros E. apply slot_inj in E; lia.
  - apply Forall_app. split; [apply H|]. by apply Forall_singleton.
  - done.
Qed.

Definition sameLoConfig (lo lo' : LoopbackNetworkInterface) : Prop :=
  loPacketHandler lo' = loPacketHandler lo /\ loInterruptsEnabled lo' = loInterruptsEnabled lo.

(** Writing a frame to the buffer given and finishing it. *)
Lemma finishWriteBuffer_push lo q f :
  ringInv lo q -> zlength q < NUM_LOOPBACK_RX_AND_TX_BUFFERS -> goodLoFrame f ->
  exists lo', loFinishWriteBuffer (loWriteFrame lo (Some (INTERFACE_RX_BUFFER_SIZE * loCurrentTx lo)) f) (zlength f) false
                = Ok (lo', true) /\
    ringInv lo' (q ++ [f]) /\ sameLoConfig lo lo'.
Proof.
  intros H Hroom Hf. destruct (ring_free _ _ H (zlength q)) as [n Hn]; [pose proof (zlength_nonneg q); lia|].
  rewrite <- (ring_tx _ _ H) in Hn. pose proof Hf as [[Hmin Hmax] _].
  unfold loFinishWriteBuffer. destruct (Z.ltb_spec (zlength f) ETHERNET_SIMPLE_HEADER_SIZE); [lia|].
  destruct (Z.ltb_spec (ETHERNET_MTU + ETHERNET_SIMPLE_HEADER_SIZE) (zlength f)); [lia|].
  cbn [loWriteFrame withRing rxAndTxDescs loCurrentTx]. rewrite Hn. cbn [mbind result_bind orFault isFull].
  eexists. split; [reflexivity|]. split; [|done].
  cbn [rxAndTxBuffers rxAndTxDescs loCurrentRx loCurrentTx].
  refine (ring_push lo q _ f H Hroom Hf _ (loadBytes_storeBytes _ _ _) _).
  - intros x Hx. by apply storeBytes_out.
  - apply byteMem_storeBytes; [apply H|apply Hf].
Qed.

Lemma finishWriteBuffer_empty lo w : loFinishWriteBuffer (loWriteFrame lo w []) (zlength (@nil Z)) false = Ok (lo, false).
Proof. unfold loFinishWriteBuffer. destruct w, lo; reflexivity. Qed.

(** The operations of the ring as the stack handler and the interrupt handler
    use them (nothing is written to a buffer that is null, and the length is
    then 0), and those of a queue of at most five frames. *)
Inductive RingOp :=
| Put (f : list Z)
| Get.

Definition ringStep (lo : LoopbackNetworkInterface) (op : RingOp) : result (LoopbackNetworkInterface * list (list Z)) :=
  match op with
  | Put f =>
      w ← loGetWriteBuffer lo;
      let frame := match w with Some _ => f | None => [] end in
      r ← loFinishWriteBuffer (loWriteFrame lo w frame) (zlength frame) false;
      Ok (fst r, [])
  | Get =>
      r ← loGetReadBuffer lo;
      match r with
      | None => Ok (lo, [])
      | Some (b, len) => lo' ← loFinishReadBuffer lo; Ok (lo', [loadBytes (rxAndTxBuffers lo) b (Z.to_nat len)])
      end
  end.

Definition queueStep (q : list (list Z)) (op : RingOp) : list (list Z) * list (list Z) :=
  match op, q with
  | Put f, _ => (if zlength q <? NUM_LOOPBACK_RX_AND_TX_BUFFERS then q ++ [f] else q, [])
  | Get, [] => ([], [])
  | Get, f :: q => (q, [f])
  end.

Definition goodRingOp (op : RingOp) : Prop := match op with Put f => goodLoFrame f | Get => True end.

Fixpoint runRing (lo : LoopbackNetworkInterface) (ops : list RingOp) : result (list (list Z)) :=
  match ops with
  | [] => Ok []
  | op :: ops => r ← ringStep lo op; out ← runRing (fst r) ops; Ok (snd r ++ out)
  end.

Fixpoint runQueue (q : list (list Z)) (ops : list RingOp) : list (list Z) :=
  match ops with
  | [] => []
  | op :: ops => snd (queueStep q op) ++ runQueue (fst (queueStep q op)) ops
  end.

Lemma ringStep_ok lo q op :
  ringInv lo q -> goodRingOp op ->
  exists lo', ringStep lo op = Ok (lo', snd (queueStep q op)) /\ ringInv lo' (fst (queueStep q op)).
Proof.
  intros H Hop. destruct op as [f|]; cbn [ringStep queueStep].
  - rewrite (getWriteBuffer_ok lo q H). cbn [mbind result_bind].
    destruct (Z.ltb_spec (zlength q) NUM_LOOPBACK_RX_AND_TX_BUFFERS).
    + destruct (finishWriteBuffer_push lo q f H) as (lo' & -> & H' & _); [done..|]. by exists lo'.
    + rewrite finishWriteBuffer_empty. by exists lo.
  - destruct q as [|f q].
    + rewrite getReadBuffer_empty by done. by exists lo.
    + destruct (getReadBuffer_cons lo f q H) as [-> Hf]. destruct (finishReadBuffer_cons lo f q H) as (lo' & -> & H' & _).
      cbn [mbind result_bind]. rewrite Hf. by exists lo'.
Qed.

Lemma runRing_ok ops : forall lo q, ringInv lo q -> Forall goodRingOp ops -> runRing lo ops = Ok (runQueue q ops).
Proof.
  induction ops as [|op ops IH]; intros lo q H Hops; cbn [runRing runQueue]; [done|].
  apply Forall_cons in Hops as [Hop Hops]. destruct (ringStep_ok lo q op H Hop) as (lo' & -> & H').
  cbn [mbind result_bind fst snd]. by rewrite (IH lo' _ H' Hops).
Qed.

(** The ring of a new interface is a queue of at most five frames: whatever
    is written and read, frames come out whole, in the order they were
    written, and a frame is dropped exactly when five are waiting. *)
Theorem loopback_ring_is_queue buffers line mac ops :
  byteMem buffers -> Forall goodRingOp ops -> runRing (newLoopbackNetworkInterface buffers line mac) ops = Ok (runQueue [] ops).
Proof. intros Hb. apply runRing_ok. by apply new_ring. Qed.

Definition sampleRingFrame (x : Z) : list Z := replicate 20 x.

Lemma sampleRingFrame_good x : is_u8 x -> goodLoFrame (sampleRingFrame x).
Proof.
  intros Hx. split; [|by apply Forall_replicate].
  unfold sampleRingFrame. rewrite zlength_replicate. unfold ETHERNET_SIMPLE_HEADER_SIZE, ETHERNET_MTU. lia.
Qed.

Definition sampleRingOps : list RingOp :=
  [Put (sampleRingFrame 1); Get; Get; Put (sampleRingFrame 2); Put (sampleRingFrame 3); Put (sampleRingFrame 4);
   Put (sampleRingFrame 5); Put (sampleRingFrame 6); Put (sampleRingFrame 7); Get; Put (sampleRingFrame 8);
   Get; Get; Get; Get; Get; Get].

Lemma byteMem_0 : byteMem (fun _ => 0).
Proof. intros x. split; reflexivity. Qed.

Example loopback_ring_is_queue_witness :
  runRing (newLoopbackNetworkInterface (fun _ => 0) 80 []) sampleRingOps = Ok (map sampleRingFrame [1; 2; 3; 4; 5; 6; 8]).
Proof.
  refine (eq_trans (loopback_ring_is_queue (fun _ => 0) 80 [] sampleRingOps byteMem_0 _) _); [|reflexivity].
  unfold sampleRingOps. repeat (apply Forall_cons; split); try apply Forall_nil; cbn [goodRingOp]; try exact I;
    apply sampleRingFrame_good; unfold is_u8; lia.
Defined.

(** ** The re-entered interrupt handler terminates *)

(** What the packet handler may answer: an ARP frame with opcode 1. *)
Definition isRequest (f : list Z) : bool :=
  match be16At f 12, be16At f 20 with
  | Ok protocol, Ok operation => (protocol =? 0x0806) && (operation =? 1)
  | _, _ => false
  end.

Fixpoint requests (q : list (list Z)) : Z :=
  match q with
  | [] => 0
  | f :: q => (if isRequest f then 1 else 0) + requests q
  end.

(** How many frames are in front of the first request. *)
Fixpoint waiting (q : list (list Z)) : Z :=
  match q with
  | [] => 0
  | f :: q => if isRequest f then 0 else 1 + waiting q
  end.

(** Each call of the handler makes this smaller: a request is answered in
    each of the calls nested in its own, until no buffer is free; then it is
    gone.  Replies are not answered. *)
Definition drainMeasure (q : list (list Z)) : Z :=
  match q with
  | [] => 0
  | f :: _ => 12 * requests q + (if isRequest f then NUM_LOOPBACK_RX_AND_TX_BUFFERS - zlength q else 6 + waiting q)
  end.

Lemma requests_bounds q : 0 <= requests q <= zlength q.
Proof. induction q as [|f q IH]; cbn [requests]; [done|]. rewrite zlength_cons. case_match; lia. Qed.

Lemma waiting_bounds q : 0 <= waiting q <= zlength q.
Proof. induction q as [|f q IH]; cbn [waiting]; [done|]. rewrite zlength_cons. case_match; lia. Qed.

Lemma requests_snoc q f : isRequest f = false -> requests (q ++ [f]) = requests q.
Proof. intros H. induction q as [|g q IH]; cbn [app requests]; [by rewrite H|by rewrite IH]. Qed.

Lemma drainMeasure_bounds q : zlength q <= NUM_LOOPBACK_RX_AND_TX_BUFFERS -> 0 <= drainMeasure q <= 71.
Proof.
  intros Hq. destruct q as [|f q]; [cbn; lia|]. unfold drainMeasure. pose proof (zlength_nonneg (f :: q)).
  pose proof (requests_bounds (f :: q)). pose proof (waiting_bounds (f :: q)). unfold NUM_LOOPBACK_RX_AND_TX_BUFFERS in *.
  case_match; lia.
Qed.

Lemma drainMeasure_pop f q :
  zlength (f :: q) <= NUM_LOOPBACK_RX_AND_TX_BUFFERS -> drainMeasure q < drainMeasure (f :: q).
Proof.
  intros Hq. rewrite zlength_cons in Hq. unfold drainMeasure at 2. cbn [requests waiting]. rewrite zlength_cons.
  pose proof (zlength_nonneg q). pose proof (requests_bounds q). pose proof (waiting_bounds q).
  destruct q as [|g q]; unfold drainMeasure, NUM_LOOPBACK_RX_AND_TX_BUFFERS in *; [case_match; lia|].
  destruct (isRequest f); destruct (isRequest g) eqn:Eg; cbn [waiting] in *; rewrite ?Eg in *; lia.
Qed.

Lemma drainMeasure_push f q r :
  isRequest f = true -> isRequest r = false -> drainMeasure (f :: q ++ [r]) < drainMeasure (f :: q).
Proof.
  intros Hf Hr. unfold drainMeasure. rewrite !Hf. cbn [requests]. rewrite requests_snoc by done.
  rewrite !zlength_cons, zlength_snoc. lia.
Qed.

Section drain.
Context (N TS LS : nat).
Context (HTS : (0 < TS)%nat).

Lemma goodLoFrame_goodFrame f : goodLoFrame f -> goodFrame f (zlength f).
Proof. intros [[H1 H2] H3]. unfold goodFrame, RX_BUFFER_SIZE, ETHERNET_MTU, ETHERNET_SIMPLE_HEADER_SIZE in *. split_and!; [lia..|done]. Qed.

Lemma incomingARP_request s f len s' t :
  incomingARPPacketHelper TS LS s f len = Ok (s', t) ->
  myMac s' = myMac s /\ (t = ARPRequest -> 42 <= len /\ be16At f 20 = Ok 1).
Proof.
  unfold incomingARPPacketHelper. destruct (Z.ltb_spec len 42); [by intros [= <- <-]|]. intros H1. result_inv.
  destruct (_ =? 0x0800); [|by result_inv]. destruct (_ =? 2).
  - result_inv. case_match; result_inv; [|done]. by simplify_eq.
  - destruct (Z.eqb_spec a 1) as [->|]; [|by result_inv]. result_inv. case_match; result_inv; by simplify_eq.
Qed.

Lemma incomingIPv4_no_request s f len s' t : incomingIPv4PacketHelper N s f len = Ok (s', t) -> t <> ARPRequest.
Proof.
  unfold incomingIPv4PacketHelper. intros H ->. repeat (result_inv; case_match; simplify_eq).
Qed.

Lemma handleIncoming_answer s f :
  stackOk N TS LS s -> goodFrame f (zlength f) ->
  exists s' t, handleIncomingEthernetPacket N TS LS s f (zlength f) = Ok (s', t) /\ stackOk N TS LS s' /\
    (t = ARPRequest -> isRequest f = true /\ 42 <= zlength f).
Proof.
  intros [Hs Hm] Hg.
  destruct (handleIncoming_ok N TS LS s f (zlength f) HTS Hs Hg) as (s' & t & Hrun & Hs').
  pose proof (handleIncoming_data N TS LS s f (zlength f) s' t Hrun Hg Hm) as Hm'.
  exists s', t. split; [done|]. unfold handleIncomingEthernetPacket in Hrun.
  unfold isRequest. destruct (be16At f 12) as [ty|]; [|done]. cbn [mbind result_bind] in Hrun.
  destruct (ty =? 0x0806).
  - destruct (incomingARP_request _ _ _ _ _ Hrun) as [E Ht]. split; [by split|].
    intros Hreq. destruct (Ht Hreq) as [Hlen ->]. done.
  - destruct (ty =? 0x0800).
    + split; [by split|]. by intros ?%(incomingIPv4_no_request _ _ _ _ _ Hrun).
    + injection Hrun as <- <-. done.
Qed.

Lemma arpReply_ok s f :
  stackOk N TS LS s -> Forall is_u8 f -> 42 <= zlength f ->
  exists r, handleOutgoingArpReply s f false = Ok r /\ goodLoFrame r /\ isRequest r = false.
Proof.
  intros [Hs [_ _ Hm _]] Hu Hlen. unfold handleOutgoingArpReply.
  destruct (be32At_ok f 28) as (ip & -> & _); [lia|lia|]. cbn [mbind result_bind]. eexists. split; [done|].
  assert (Hd : zlength (take 6 (drop 22 f)) = 6) by (apply (zlength_take_drop f 22 6); lia).
  assert (Hdu : Forall is_u8 (take 6 (drop 22 f))) by (by apply Forall_take, Forall_drop).
  destruct (six_elements _ Hd) as (d1 & d2 & d3 & d4 & d5 & d6 & E). rewrite E in *.
  destruct (six_elements _ (inv_myMac _ _ _ _ Hs)) as (m1 & m2 & m3 & m4 & m5 & m6 & Em). rewrite Em in *.
  split; [split|reflexivity].
  - unfold zlength. cbn. unfold ETHERNET_SIMPLE_HEADER_SIZE, ETHERNET_MTU. lia.
  - rewrite !Forall_app. split_and!; try done; try apply addressBytes_u8;
      repeat (apply Forall_cons; split); try apply Forall_nil; unfold is_u8; lia.
Qed.

(** What handling the queue does to the stack handler.  A frame is handed to
    it; the answer to an ARP request joins the queue while there is room for it,
    and the queue, which still starts with the request, is handled before the
    request is taken away. *)
Inductive drained : NetworkStackHandler -> list (list Z) -> NetworkStackHandler -> Prop :=
| drained_nil s : drained s [] s
| drained_frame s f q s1 t s' :
    handleIncomingEthernetPacket N TS LS s f (zlength f) = Ok (s1, t) -> t <> ARPRequest ->
    drained s1 q s' -> drained s (f :: q) s'
| drained_answered s f q s1 r s' :
    handleIncomingEthernetPacket N TS LS s f (zlength f) = Ok (s1, ARPRequest) ->
    zlength (f :: q) < NUM_LOOPBACK_RX_AND_TX_BUFFERS -> handleOutgoingArpReply s1 f false = Ok r ->
    drained s1 (f :: q ++ [r]) s' -> drained s (f :: q) s'
| drained_full s f q s1 s' :
    handleIncomingEthernetPacket N TS LS s f (zlength f) = Ok (s1, ARPRequest) ->
    zlength (f :: q) = NUM_LOOPBACK_RX_AND_TX_BUFFERS ->
    drained s1 q s' -> drained s (f :: q) s'.

Definition registered (lo : LoopbackNetworkInterface) : Prop := loPacketHandler lo = loInterruptsEnabled lo.

Lemma drain_ok fuel : forall lo s q,
  drainMeasure q < Z.of_nat fuel -> ringInv lo q -> registered lo -> stackOk N TS LS s ->
  exists lo' s', handleLoopbackInterfaceInterrupt N TS LS fuel (lo, s) = Ok (lo', s') /\
    ringInv lo' [] /\ sameLoConfig lo lo' /\ stackOk N TS LS s' /\ (loPacketHandler lo = true -> drained s q s').
Proof.
  induction fuel as [|fuel IH]; intros lo s q Hmu Hq Hreg Hs; cbn [handleLoopbackInterfaceInterrupt fst snd].
  { pose proof (drainMeasure_bounds q (ring_room _ _ Hq)). lia. }
  destruct q as [|f q]; [rewrite getReadBuffer_empty by done; exists lo, s; split_and!; try done; by constructor|].
  destruct (getReadBuffer_cons lo f q Hq) as [-> Hf]. cbn [mbind result_bind].
  pose proof (proj1 (proj1 (Forall_cons _ _ _) (ring_frames _ _ Hq))) as Hgood.
  pose proof (drainMeasure_pop f q (ring_room _ _ Hq)) as Hpop.
  assert (Hrest : forall s1, stackOk N TS LS s1 -> (loPacketHandler lo = true -> forall s', drained s1 q s' -> drained s (f :: q) s') ->
    exists lo' s', (lo1 ← loFinishReadBuffer lo; handleLoopbackInterfaceInterrupt N TS LS fuel (lo1, s1)) = Ok (lo', s') /\
    ringInv lo' [] /\ sameLoConfig lo lo' /\ stackOk N TS LS s' /\ (loPacketHandler lo = true -> drained s (f :: q) s')).
  { intros s1 Hs1 Hd1. destruct (finishReadBuffer_cons lo f q Hq) as (lo1 & -> & Hq1 & Hc1 & Hc2). cbn [mbind result_bind].
    destruct (IH lo1 s1 q) as (lo' & s' & H & Hq' & [Hc3 Hc4] & Hs' & Hd'); [lia|done|congruence|done|].
    exists lo', s'. unfold sameLoConfig. rewrite Hc1 in Hd'. split_and!; try (done || congruence). auto. }
  destruct (loPacketHandler lo) eqn:Ehandler; [|by apply Hrest].
  unfold loPacketHandlerCall. cbn [fst snd]. rewrite Hf.
  destruct (handleIncoming_answer s f Hs (goodLoFrame_goodFrame f Hgood)) as (s1 & t & Ein & Hs1 & Hreq). rewrite Ein. cbn [mbind result_bind fst snd].
  destruct t; try (apply Hrest; [done|]; intros _ s'; by apply (drained_frame _ _ _ _ _ _ Ein)). destruct (Hreq eq_refl) as [Hisreq Hlen].
  rewrite (getWriteBuffer_ok lo _ Hq). cbn [mbind result_bind].
  destruct (Z.ltb_spec (zlength (f :: q)) NUM_LOOPBACK_RX_AND_TX_BUFFERS) as [Hroom|Hroom].
  - rewrite bool_decide_false by done.
    destruct (arpReply_ok s1 f Hs1 (proj2 Hgood) Hlen) as (r & Er & Hr & Hrr). rewrite Er. cbn [mbind result_bind]. unfold loSend. cbn [fst snd].
    destruct (finishWriteBuffer_push lo (f :: q) r Hq Hroom Hr) as (lo2 & -> & Hq2 & Hc1 & Hc2).
    cbn [mbind result_bind fst snd]. rewrite <- Hreg, Ehandler. cbn [andb].
    pose proof (drainMeasure_push f q r Hisreq Hrr).
    pose proof (drainMeasure_bounds _ (ring_room _ _ Hq2)) as Hb2. cbn [app] in Hb2.
    destruct (IH lo2 s1 (f :: q ++ [r])) as (lo3 & s3 & -> & Hq3 & [Hc3 Hc4] & Hs3 & Hd3); [lia|done|congruence|done|].
    cbn [mbind result_bind fst snd]. rewrite finishReadBuffer_empty by done. cbn [mbind result_bind].
    destruct (IH lo3 s3 []) as (lo' & s' & Hrun & Hq' & [Hc5 Hc6] & Hs' & Hd'); [|done|congruence|done|].
    + cbn [drainMeasure]. lia.
    + exists lo', s'. unfold sameLoConfig. split_and!; try (done || congruence). intros _.
      specialize (Hd3 ltac:(congruence)). specialize (Hd' ltac:(congruence)). inversion Hd'; subst.
      by eapply drained_answered.
  - rewrite bool_decide_true by done. cbn [handleOutgoingArpReply mbind result_bind]. unfold loSend. cbn [fst snd].
    rewrite finishWriteBuffer_empty. cbn [mbind result_bind fst snd andb]. apply Hrest; [done|]. intros _ s'.
    apply (drained_full _ _ _ _ _ Ein). pose proof (ring_room _ _ Hq). lia.
Qed.
End drain.

(** C9: entering the interrupt handler with any number of frames waiting, of any
    content, it returns, [LOOPBACK_FUEL] calls and turns being enough whatever
    ARP requests are answered through the same ring and handled by calls of the
    handler nested in the first, with every frame handled and no fault on the
    way. *)
Theorem loopback_drains N TS LS lo s q :
  (0 < TS)%nat -> ringInv lo q -> registered lo -> stackOk N TS LS s ->
  exists lo' s', loopbackInterrupt N TS LS (lo, s) = Ok (lo', s') /\ ringInv lo' [] /\ stackOk N TS LS s'.
Proof.
  intros HTS Hq Hreg Hs. pose proof (drainMeasure_bounds q (ring_room _ _ Hq)).
  destruct (drain_ok N TS LS HTS LOOPBACK_FUEL lo s q) as (lo' & s' & Hrun & Hq' & _ & Hs' & _);
    [unfold LOOPBACK_FUEL; lia|done..|]. by exists lo', s'.
Qed.

(** ** Sending on the loopback interface *)

(** Bytes written to a free buffer do not show. *)
Lemma ring_write lo q w f :
  ringInv lo q -> loGetWriteBuffer lo = Ok w -> Forall is_u8 f -> zlength f <= INTERFACE_RX_BUFFER_SIZE ->
  ringInv (loWriteFrame lo w f) q.
Proof.
  intros H Hw Hu Hf. rewrite (getWriteBuffer_ok lo q H) in Hw. injection Hw as <-.
  destruct (Z.ltb_spec (zlength q) NUM_LOOPBACK_RX_AND_TX_BUFFERS); [|done].
  pose proof (zlength_nonneg q) as Hq0.
  destruct H as [H1 H2 H3 H4 H5 H6 H7 H8]. constructor; cbn [loWriteFrame withRing rxAndTxDescs loCurrentRx loCurrentTx rxAndTxBuffers];
    try done; [|by apply byteMem_storeBytes].
  intros i g Hg. destruct (H5 i g Hg) as [Hd Hb]. split; [done|]. rewrite <- Hb at 2.
  pose proof (znth_Some_lt _ _ _ Hg) as Hi. destruct (znth_Forall _ _ _ _ H7 Hg) as [Hg1 _].
  assert (Hne : loCurrentTx lo <> slot (loCurrentRx lo) i) by (rewrite H3; intros E; apply slot_inj in E; lia).
  apply loadBytes_ext. intros x Hx. apply storeBytes_out.
  unfold zlength, INTERFACE_RX_BUFFER_SIZE, ETHERNET_MTU, ETHERNET_SIMPLE_HEADER_SIZE in *. lia.
Qed.

(** The length of the IPv4 header of a frame. *)
Definition headerLength (f : list Z) : Z := Z.land (default 0 f.[14]) 0x0F * 4.

(** The frames the interface refuses: their length is none of an Ethernet
    frame, or they are said to hold an IPv4 packet and are too short for its
    header. *)
Definition refused (f : list Z) (isIpv4Packet : bool) : bool :=
  (zlength f <? 14) || (1514 <? zlength f) ||
  (isIpv4Packet && ((zlength f <? 34) || (headerLength f <? 20) || (zlength f <? 14 + headerLength f))).

(** The frame [g] that is received when [f] is sent: with the checksum of an IPv4
    packet, bytes 24 and 25, such that the one's complement sum of the
    header's words is [0xFFFF]. *)
Definition wireFrame (f : list Z) (isIpv4Packet : bool) (g : list Z) : Prop :=
  if isIpv4Packet then
    zlength g = zlength f /\ (forall i, i <> 24 -> i <> 25 -> g.[i] = f.[i]) /\
    let sum := wordSum (fun x => default 0 g.[x]) 14 (Z.to_nat (headerLength f / 2)) in 0 < sum /\ sum mod 65535 = 0
  else g = f.

Lemma wordSum_frame b w g n :
  (forall i, 0 <= i < zlength g -> g.[i] = Some (b (w + i))) -> 14 + 2 * Z.of_nat n <= zlength g ->
  wordSum b (w + 14) n = wordSum (fun x => default 0 g.[x]) 14 n.
Proof.
  intros Hg. induction n as [|n IH]; intros Hn; cbn [wordSum]; [done|]. rewrite IH by lia. rewrite !Hg by lia. cbn [default].
  by replace (w + (14 + 2 * Z.of_nat n + 1)) with (w + 14 + 2 * Z.of_nat n + 1) by lia;
    replace (w + (14 + 2 * Z.of_nat n)) with (w + 14 + 2 * Z.of_nat n) by lia.
Qed.

Lemma wordSum_nonneg b h n : byteMem b -> 0 <= wordSum b h n.
Proof.
  intros Hb. induction n as [|n IH]; cbn [wordSum]; [lia|].
  pose proof (Hb (h + 2 * Z.of_nat n)). pose proof (Hb (h + 2 * Z.of_nat n + 1)). unfold is_u8 in *. lia.
Qed.

Lemma fillChecksum_None b data length :
  let hl := Z.land (b (data + 14)) 0x0F * 4 in
  fillChecksum b data length = None <-> (length <? 34) || (hl <? 20) || (length <? 14 + hl) = true.
Proof.
  intros hl. unfold fillChecksum. change (ETHERNET_SIMPLE_HEADER_SIZE + IPV4_MINIMAL_HEADER_SIZE) with 34.
  change ETHERNET_SIMPLE_HEADER_SIZE with 14. change IPV4_MINIMAL_HEADER_SIZE with 20. fold hl.
  destruct (length <? 34), (hl <? 20), (length <? 14 + hl); done.
Qed.

Lemma loadBytes_nth b w len i : 0 <= i < len -> (loadBytes b w (Z.to_nat len)).[i] = Some (b (w + i)).
Proof. intros Hi. apply znth_loadBytes. rewrite Z2Nat.id; lia. Qed.

(** What the buffer holds once the checksum is filled in. *)
Lemma fillChecksum_frame m w f b :
  byteMem m -> Forall is_u8 f -> fillChecksum (storeBytes m w f) w (zlength f) = Some b ->
  byteMem b /\ (forall x, ~ (w <= x < w + zlength f) -> b x = m x) /\ wireFrame f true (loadBytes b w (length f)).
Proof.
  intros Hm Hu E. pose proof (byteMem_storeBytes m w f Hm Hu) as Hm1. pose proof (zlength_nonneg f).
  assert (Hin : forall i, 0 <= i < zlength f -> f.[i] = Some (storeBytes m w f (w + i))).
  { intros i Hi. rewrite <- (loadBytes_storeBytes m w f) at 1. apply znth_loadBytes. unfold zlength in Hi. lia. }
  assert (Hno : fillChecksum (storeBytes m w f) w (zlength f) <> None) by congruence.
  rewrite fillChecksum_None in Hno. apply not_true_iff_false in Hno.
  apply orb_false_iff in Hno as [[H34%Z.ltb_ge H20%Z.ltb_ge]%orb_false_iff Hhl%Z.ltb_ge].
  assert (Ehl : Z.land (storeBytes m w f (w + 14)) 0x0F * 4 = headerLength f) by (unfold headerLength; by rewrite Hin by lia).
  destruct (fillChecksum_ok _ _ _ _ Hm1 E) as (Hb & _ & Hc & Hx). change ETHERNET_SIMPLE_HEADER_SIZE with 14 in *. rewrite Ehl in *.
  split; [done|]. split; [intros x Hxw; rewrite Hx by lia; by apply storeBytes_out|].
  replace (length f) with (Z.to_nat (zlength f)) by (unfold zlength; lia).
  set (g := loadBytes b w (Z.to_nat (zlength f))).
  assert (Hzg : zlength g = zlength f) by (unfold g; rewrite zlength_loadBytes; lia).
  assert (Hg : forall i, 0 <= i < zlength g -> g.[i] = Some (b (w + i))) by (intros i Hi; apply loadBytes_nth; lia).
  split; [done|]. split.
  - intros i H24 H25. destruct (decide (0 <= i < zlength f)) as [Hi|Hi].
    + rewrite Hg, Hin by lia. f_equal. apply Hx; lia.
    + destruct (g.[i]) eqn:E1; [apply znth_Some_lt in E1; lia|]. destruct (f.[i]) eqn:E2; [apply znth_Some_lt in E2; lia|done].
  - rewrite <- (wordSum_frame b w g) by (done || dlia). destruct (ipChecksum_ok (w + 14) (headerLength f) b Hb) as (_ & H2 & H3).
    pose proof (wordSum_nonneg b (w + 14) (Z.to_nat (headerLength f / 2)) Hb). rewrite Hc in *.
    change (0xFFFF mod 65535) with 0 in H2. split; [|done]. destruct (decide (wordSum b (w + 14) (Z.to_nat (headerLength f / 2)) = 0)) as [E0|]; [|lia].
    apply H3 in E0. done.
Qed.

(** Sending a frame when a buffer is free: it is refused, or joins the
    queue as the frame that is received. *)
Lemma finishWriteBuffer_sent lo q f isIpv4Packet :
  ringInv lo q -> zlength q < NUM_LOOPBACK_RX_AND_TX_BUFFERS -> Forall is_u8 f -> zlength f <= INTERFACE_RX_BUFFER_SIZE ->
  exists lo', loFinishWriteBuffer (loWriteFrame lo (Some (INTERFACE_RX_BUFFER_SIZE * loCurrentTx lo)) f) (zlength f) isIpv4Packet
                = Ok (lo', negb (refused f isIpv4Packet)) /\ sameLoConfig lo lo' /\
    if refused f isIpv4Packet then ringInv lo' q else exists g, wireFrame f isIpv4Packet g /\ ringInv lo' (q ++ [g]).
Proof.
  intros H Hroom Hu Hf. set (w := INTERFACE_RX_BUFFER_SIZE * loCurrentTx lo).
  assert (Hw : loGetWriteBuffer lo = Ok (Some w)) by (rewrite (getWriteBuffer_ok lo q H); by rewrite (proj2 (Z.ltb_lt _ _) Hroom)).
  pose proof (ring_write lo q (Some w) f H Hw Hu Hf) as Hq1. pose proof (zlength_nonneg q).
  destruct (ring_free _ _ H (zlength q)) as [n Hn]; [lia|]. rewrite <- (ring_tx _ _ H) in Hn.
  unfold loFinishWriteBuffer, refused. change ETHERNET_SIMPLE_HEADER_SIZE with 14. change (ETHERNET_MTU + 14) with 1514.
  destruct (Z.ltb_spec (zlength f) 14) as [|Hmin]; [cbn [orb negb]; by eexists|].
  destruct (Z.ltb_spec 1514 (zlength f)) as [|Hmax]; [cbn [orb negb]; by eexists|]. cbn [orb].
  cbn [loWriteFrame withRing rxAndTxDescs loCurrentTx rxAndTxBuffers loCurrentRx]. rewrite Hn. cbn [mbind result_bind orFault isFull]. fold w.
  set (m := rxAndTxBuffers lo) in *. pose proof (ring_bytes _ _ H) as Hm. fold m in Hm.
  assert (Hpush : forall b g, byteMem b -> (forall x, ~ (w <= x < w + zlength f) -> b x = m x) -> g = loadBytes b w (length f) ->
    ringInv (withRing (loWriteFrame lo (Some w) f) b (rxAndTxDescs lo).[loCurrentTx lo := mkLoopbackRxAndTxDesc (zlength f) true]
      (loCurrentRx lo) ((loCurrentTx lo + 1) mod NUM_LOOPBACK_RX_AND_TX_BUFFERS)) (q ++ [g])).
  { intros b g Hb Hx ->. set (g := loadBytes b w (length f)). assert (Hl : length g = length f) by apply length_loadBytes.
    assert (Hz : zlength g = zlength f) by (unfold zlength; by rewrite Hl).
    change (withRing (loWriteFrame lo (Some w) f) b) with (withRing lo b). rewrite <- Hz.
    apply ring_push; [done|done| |by rewrite Hz|by rewrite Hl|done].
    split; [rewrite Hz; unfold ETHERNET_MTU, ETHERNET_SIMPLE_HEADER_SIZE; lia|]. apply Forall_znth. intros i x Hi.
    pose proof (znth_Some_lt _ _ _ Hi) as Hr. unfold g in Hi. rewrite znth_loadBytes in Hi by (unfold zlength in *; lia). injection Hi as <-. apply Hb. }
  destruct isIpv4Packet; cbn [andb].
  - assert (Ehl : Z.land (storeBytes m w f (w + 14)) 0x0F * 4 = headerLength f \/ zlength f < 34).
    { destruct (decide (zlength f < 34)); [by right|left]. unfold headerLength. rewrite <- (loadBytes_storeBytes m w f) at 2.
      rewrite znth_loadBytes by (unfold zlength in *; lia). done. }
    pose proof (fillChecksum_None (storeBytes m w f) w (zlength f)) as Hno. cbv zeta in Hno.
    destruct (fillChecksum (storeBytes m w f) w (zlength f)) as [b|] eqn:E.
    + destruct (fillChecksum_frame m w f b Hm Hu E) as (Hb & Hx & Hg).
      assert ((zlength f <? 34) || (headerLength f <? 20) || (zlength f <? 14 + headerLength f) = false) as ->.
      { apply not_true_iff_false. intros Ht. destruct Ehl as [Eh|Hs34]; [rewrite <- Eh in Ht; by apply Hno in Ht|].
        destruct Hno as [_ Hno]. rewrite (proj2 (Z.ltb_lt _ _) Hs34) in Hno. by specialize (Hno eq_refl). }
      eexists. split; [done|]. split; [done|]. exists (loadBytes b w (length f)). split; [done|]. by apply Hpush.
    + assert ((zlength f <? 34) || (headerLength f <? 20) || (zlength f <? 14 + headerLength f) = true) as ->.
      { destruct Ehl as [<-|Hs34]; [by apply Hno|]. by rewrite (proj2 (Z.ltb_lt _ _) Hs34). }
      by eexists.
  - eexists. split; [done|]. split; [done|]. exists f. split; [done|]. apply Hpush; [by apply byteMem_storeBytes| |].
    + intros x Hx. by apply storeBytes_out.
    + symmetry. apply loadBytes_storeBytes.
Qed.

Section sends.
Context (N TS LS : nat).

(** Frames sent one after the other, each with [isIpv4Packet]. *)
Fixpoint loSendAll (st : Loopback) (frames : list (list Z * bool)) : result Loopback :=
  match frames with
  | [] => Ok st
  | (f, isIpv4Packet) :: frames =>
      w ← loGetWriteBuffer (fst st);
      st ← loSend (loopbackInterrupt N TS LS) st w f isIpv4Packet;
      loSendAll st frames
  end.

Definition writable (f : list Z) : Prop := Forall is_u8 f /\ zlength f <= INTERFACE_RX_BUFFER_SIZE.

(** What sending the frames does to the stack handler: a frame that is not
    refused is handled as it is received, with every answer, before the next. *)
Inductive allHandled : NetworkStackHandler -> list (list Z * bool) -> NetworkStackHandler -> Prop :=
| allHandled_nil s : allHandled s [] s
| allHandled_refused s f isIpv4Packet frames s' :
    refused f isIpv4Packet = true -> allHandled s frames s' -> allHandled s ((f, isIpv4Packet) :: frames) s'
| allHandled_accepted s f isIpv4Packet frames g s1 s' :
    refused f isIpv4Packet = false -> wireFrame f isIpv4Packet g -> drained N TS LS s [g] s1 ->
    allHandled s1 frames s' -> allHandled s ((f, isIpv4Packet) :: frames) s'.

Lemma loSend_ok lo s w f isIpv4Packet :
  (0 < TS)%nat -> ringInv lo [] -> registered lo -> loInterruptsEnabled lo = true -> stackOk N TS LS s ->
  loGetWriteBuffer lo = Ok w -> writable f ->
  exists lo' s', loSend (loopbackInterrupt N TS LS) (lo, s) w f isIpv4Packet = Ok (lo', s') /\
    ringInv lo' [] /\ sameLoConfig lo lo' /\ stackOk N TS LS s' /\
    if refused f isIpv4Packet then s' = s else exists g, wireFrame f isIpv4Packet g /\ drained N TS LS s [g] s'.
Proof.
  intros HTS Hq Hreg Hen Hs Hw [Hu Hf]. unfold loSend. cbn [fst snd].
  assert (w = Some (INTERFACE_RX_BUFFER_SIZE * loCurrentTx lo)) as -> by (rewrite (getWriteBuffer_ok lo [] Hq) in Hw; by injection Hw).
  destruct (finishWriteBuffer_sent lo [] f isIpv4Packet Hq ltac:(by vm_compute) Hu Hf) as (lo2 & -> & [Hc3 Hc4] & Hb).
  cbn [mbind result_bind fst snd]. rewrite Hen. destruct (refused f isIpv4Packet); cbn [andb negb]; [by exists lo2, s|].
  destruct Hb as (g & Hg & Hq2).
  destruct (drain_ok N TS LS HTS LOOPBACK_FUEL lo2 s ([] ++ [g])) as (lo' & s' & Hrun & Hq' & [Hc5 Hc6] & Hs' & Hd); [|exact Hq2|congruence|done|].
  { pose proof (drainMeasure_bounds _ (ring_room _ _ Hq2)). unfold LOOPBACK_FUEL. lia. }
  exists lo', s'. unfold sameLoConfig. split_and!; try (done || congruence). exists g. split; [done|]. apply Hd. congruence.
Qed.

Lemma loSendAll_ok frames : forall lo s,
  (0 < TS)%nat -> ringInv lo [] -> registered lo -> loInterruptsEnabled lo = true -> stackOk N TS LS s ->
  Forall (fun f => writable (fst f)) frames ->
  exists lo' s', loSendAll (lo, s) frames = Ok (lo', s') /\ ringInv lo' [] /\ stackOk N TS LS s' /\ allHandled s frames s'.
Proof.
  induction frames as [|[f ip] frames IH]; intros lo s HTS Hq Hreg Hen Hs Hfs; cbn [loSendAll fst].
  { exists lo, s. split_and!; try done. constructor. }
  apply Forall_cons in Hfs as [Hf Hfs]. 
  assert (Hw : loGetWriteBuffer lo = Ok (Some (INTERFACE_RX_BUFFER_SIZE * loCurrentTx lo))) by exact (getWriteBuffer_ok lo [] Hq).
  rewrite Hw. cbn [mbind result_bind].
  destruct (loSend_ok lo s _ f ip HTS Hq Hreg Hen Hs Hw Hf) as (lo1 & s1 & -> & Hq1 & [Hc1 Hc2] & Hs1 & Hsent).
  cbn [mbind result_bind]. destruct (IH lo1 s1) as (lo' & s' & E & Hq' & Hs' & Hall); try (done || congruence).
  exists lo', s'. split_and!; try done. destruct (refused f ip) eqn:Er.
  - subst s1. by apply allHandled_refused.
  - destruct Hsent as (g & Hg & Hd). by eapply allHandled_accepted.
Qed.

(** C29: whatever is sent on the interface, once its handler is registered: no
    send faults, and when it returns, the frame - unless its length or header
    is refused - has been handed to the stack handler, with the checksum filled
    in if it is an IPv4 packet, and so has every answer that was sent meanwhile;
    all buffers are free again. *)
Theorem loopback_sends_complete im this buffers line mac ip gateway mask lo im' frames :
  (0 < N)%nat -> (0 < TS)%nat -> byteMem buffers -> zlength mac = 6 -> Forall is_u8 mac ->
  loopbackRegisterPacketHandler (newLoopbackNetworkInterface buffers line mac) im this = Ok (lo, im') ->
  Forall (fun f => writable (fst f)) frames ->
  exists lo' s', loSendAll (lo, newNetworkStackHandler N TS LS mac ip gateway mask) frames = Ok (lo', s') /\
    ringInv lo' [] /\ stackOk N TS LS s' /\ allHandled (newNetworkStackHandler N TS LS mac ip gateway mask) frames s'.
Proof.
  intros HN HTS Hb Hmac Hu Hreg Hfs.
  assert (Hlo : ringInv lo [] /\ registered lo /\ loInterruptsEnabled lo = true).
  { unfold loopbackRegisterPacketHandler in Hreg. cbn [newLoopbackNetworkInterface loInterruptsEnabled negb] in Hreg. result_inv.
    simplify_eq. split; [|done]. destruct (new_ring buffers line mac Hb) as [H1 H2 H3 H4 H5 H6 H7 H8]. by constructor. }
  destruct Hlo as (Hq & Hr & Hen). apply loSendAll_ok; try done. split; [by apply new_inv|by apply new_data].
Qed.
End sends.

(** ** A loopback interface at work *)

Definition loMacSample : list Z := [2; 0; 0; 0; 0; 1].

(** The ARP request of the interface's own address, and its answer. *)
Definition loRequest : list Z := sendARPRequest (newNetworkStackHandler 1 1 1 loMacSample 0x7F000001 0 8) 0x7F000001.

Definition loSample : LoopbackNetworkInterface :=
  mkLoopbackNetworkInterface loMacSample 80 (fun _ => 0) (replicate 5 (mkLoopbackRxAndTxDesc 0 false)) 0 0 true true.

Definition loStackSample : NetworkStackHandler := newNetworkStackHandler 3 2 2 loMacSample 0x7F000001 0 8.

Lemma loRequest_writable : writable loRequest.
Proof.
  split; [|unfold zlength, INTERFACE_RX_BUFFER_SIZE; cbn; lia].
  unfold loRequest. cbn. repeat (apply Forall_cons; split); try (by apply Forall_nil); unfold is_u8; vm_compute; split; congruence.
Qed.

Lemma loMacSample_u8 : Forall is_u8 loMacSample.
Proof. repeat (apply Forall_cons; split); try (by apply Forall_nil); unfold is_u8; lia. Qed.

(** The ring with the request in it. *)
Lemma loSample_ring : ringInv loSample [].
Proof. destruct (new_ring (fun _ => 0) 80 loMacSample byteMem_0) as [H1 H2 H3 H4 H5 H6 H7 H8]. by constructor. Qed.

Definition loSampleFull : LoopbackNetworkInterface :=
  match loFinishWriteBuffer (loWriteFrame loSample (Some 0) loRequest) (zlength loRequest) false with
  | Ok (lo, _) => lo
  | Fault _ => loSample
  end.

Example loopback_drains_witness :
  exists lo' s', loopbackInterrupt 3 2 2 (loSampleFull, loStackSample) = Ok (lo', s') /\ ringInv lo' [] /\
    stackOk 3 2 2 s'.
Proof.
  destruct (finishWriteBuffer_push loSample [] loRequest loSample_ring) as (lo & E & Hq & Hc); [done| |].
  { split; [|apply loRequest_writable]. vm_compute. split; congruence. }
  assert (Elo : loSampleFull = lo) by (unfold loSampleFull; change (Some 0) with (Some (INTERFACE_RX_BUFFER_SIZE * loCurrentTx loSample)); by rewrite E).
  rewrite Elo. apply (loopback_drains 3 2 2 lo loStackSample ([] ++ [loRequest])); [lia|done| |].
  - rewrite <- Elo. reflexivity.
  - split; [apply new_inv; [lia|done]|apply new_data, loMacSample_u8].
Defined.

Definition loInterruptsSample : InterruptHandlerManager := mkInterruptHandlerManager [] (replicate 256 (0, voidHandler)).

(** Of these three frames the first two are accepted. *)
Example sample_refused : map (fun f => refused (fst f) (snd f)) [(loRequest, false); (sampleIpFrame, true); ([], false)] = [false; false; true].
Proof. by vm_compute. Qed.

Example loopback_sends_complete_witness :
  exists lo im, loopbackRegisterPacketHandler (newLoopbackNetworkInterface (fun _ => 0) 80 loMacSample) loInterruptsSample 1 = Ok (lo, im) /\
  exists lo' s', loSendAll 3 2 2 (lo, newNetworkStackHandler 3 2 2 loMacSample 0x7F000001 0 8)
      [(loRequest, false); (sampleIpFrame, true); ([], false)] = Ok (lo', s') /\
    ringInv lo' [] /\ stackOk 3 2 2 s' /\
    allHandled 3 2 2 (newNetworkStackHandler 3 2 2 loMacSample 0x7F000001 0 8)
      [(loRequest, false); (sampleIpFrame, true); ([], false)] s'.
Proof.
  eexists _, _. split; [reflexivity|].
  eapply (loopback_sends_complete 3 2 2 loInterruptsSample 1 (fun _ => 0) 80 loMacSample 0x7F000001 0 8);
    [lia|lia|apply byteMem_0|done|apply loMacSample_u8|reflexivity|].
  repeat (apply Forall_cons; split); try (by apply Forall_nil); cbn [fst].
  - apply loRequest_writable.
  - split; [apply sampleIpFrame_bytes|]. vm_compute. congruence.
  - split; [by apply Forall_nil|]. vm_compute. congruence.
Defined.

(** One ARP request on the interface is answered four times: the interrupt
    raised by the answer handles the request, which is still the first in the
    ring, again, until the ring is full. *)
Example loopback_answers_four_times :
  match loopbackInterrupt 3 2 2 (loSampleFull, loStackSample) with
  | Ok (lo, _) =>
      map descLength (rxAndTxDescs lo) = [42; 42; 42; 42; 42] /\ map isFull (rxAndTxDescs lo) = [false; false; false; false; false] /\
      (loCurrentRx lo, loCurrentTx lo) = (0, 0) /\
      map (fun i => be16At (loadBytes (rxAndTxBuffers lo) (INTERFACE_RX_BUFFER_SIZE * i) 42) 20) [0; 1; 2; 3; 4]
        = [Ok 1; Ok 2; Ok 2; Ok 2; Ok 2]
  | Fault _ => False
  end.
Proof. vm_compute. by split_and!. Qed.
