(* ===== verification/Devices.v ===== *)
(** Access to devices: the ports of [operating_system/global_resources/io/ports.cpp],
    the configuration space of [io/pci.cpp], and memory-mapped registers.

    What the program does to its devices is the trace of its accesses; what a
    device answers is the parameter [respond], a function of the trace.  An
    operation with devices is a function on traces that may fault ([IO]). *)
From S2P Require Import Prelude.

Inductive Access :=
| PortByteOut (port data : Z)
| PortByteIn (port : Z)
| PortDwordOut (port data : Z)
| PortDwordIn (port : Z)
| RegisterWrite (address data : Z)
| RegisterRead (address : Z).

(** The last access first. *)
Definition Trace : Type := list Access.

Definition IO (A : Type) : Type := Trace -> Trace * result A.

#[export] Instance IO_ret : MRet IO := fun _ a t => (t, Ok a).
#[export] Instance IO_bind : MBind IO := fun _ _ f m t =>
  match m t with (t, Ok a) => f a t | (t, Fault e) => (t, Fault e) end.

Definition lift {A} (r : result A) : IO A := fun t => (t, r).

(** [while(1);] *)
Definition halt {A} : IO A := fun t => (t, Fault Halted).

Fixpoint for_rangeIO {S : Type} (n : nat) (i : Z) (body : Z -> S -> IO S) (s : S) : IO S :=
  match n with
  | O => mret s
  | Datatypes.S n' => s ← body i s; for_rangeIO n' (i + 1) body s
  end.

(** The value the device gives for the read that ends the trace. *)
Class Device := respond : Trace -> Z.

Definition access (a : Access) : IO () := fun t => (a :: t, Ok tt).

Section ports.
Context `{Device}.

Definition accessRead (a : Access) (width : Z) : IO Z := fun t => (a :: t, Ok (respond (a :: t) mod 2 ^ width)).

Definition portByteOut (port data : Z) : IO () := access (PortByteOut (u16 port) (u8 data)).
Definition portByteIn (port : Z) : IO Z := accessRead (PortByteIn (u16 port)) 8.
Definition portDwordOut (port data : Z) : IO () := access (PortDwordOut (u16 port) (u32 data)).
Definition portDwordIn (port : Z) : IO Z := accessRead (PortDwordIn (u16 port)) 32.

(** ** PCI configuration space *)

Definition PCI_CONFIG_ADDRESS : Z := 0xCF8.
Definition PCI_CONFIG_DATA : Z := 0xCFC.

Definition pciAddress (bus slot func offset : Z) : Z :=
  Z.lor (Z.lor (Z.lor (Z.lor (Z.shiftl bus 16) (Z.shiftl slot 11)) (Z.shiftl func 8)) (Z.land offset 0xFC)) 0x80000000.

Definition pciReadDword (bus slot func offset : Z) : IO Z :=
  portDwordOut PCI_CONFIG_ADDRESS (pciAddress bus slot func offset) ;; portDwordIn PCI_CONFIG_DATA.

Definition pciWriteDword (bus slot func offset dword : Z) : IO () :=
  portDwordOut PCI_CONFIG_ADDRESS (pciAddress bus slot func offset) ;; portDwordOut PCI_CONFIG_DATA dword.
End ports.

(** ** What an operation guarantees

    [wp m Q t]: from the trace [t], [m] returns a result with [Q], or halts
    the machine; it runs into nothing else. *)

Definition wp {A} (m : IO A) (Q : A -> Trace -> Prop) (t : Trace) : Prop :=
  match m t with
  | (t', Ok a) => Q a t'
  | (_, Fault e) => e = Halted
  end.

Lemma wp_bind {A B} (m : IO A) (f : A -> IO B) Q t : wp m (fun a t' => wp (f a) Q t') t -> wp (m ≫= f) Q t.
Proof. unfold wp, mbind, IO_bind. destruct (m t) as [t' [a|e]]; done. Qed.

Section wp.
Context `{Device} {A : Type}.
Implicit Types (t : Trace).

Lemma wp_ret (a : A) Q t : Q a t -> wp (mret a) Q t.
Proof. done. Qed.

Lemma wp_mono (m : IO A) (Q Q' : A -> Trace -> Prop) t : (forall a t', Q a t' -> Q' a t') -> wp m Q t -> wp m Q' t.
Proof. unfold wp. intros HQ. destruct (m t) as [t' [a|e]]; [apply HQ|done]. Qed.

Lemma wp_result (m : IO A) (Q : A -> Trace -> Prop) t t' a : wp m Q t -> m t = (t', Ok a) -> Q a t'.
Proof. unfold wp. intros Hm E. by rewrite E in Hm. Qed.

Lemma wp_lift (r : result A) (a : A) Q t : r = Ok a -> Q a t -> wp (lift r) Q t.
Proof. by intros ->. Qed.

Lemma wp_halt Q t : wp (halt : IO A) Q t.
Proof. done. Qed.

Lemma wp_access a (Q : () -> Trace -> Prop) t : Q tt (a :: t) -> wp (access a) Q t.
Proof. done. Qed.

Lemma wp_accessRead a w (Q : Z -> Trace -> Prop) t : Q (respond (a :: t) mod 2 ^ w) (a :: t) -> wp (accessRead a w) Q t.
Proof. done. Qed.

(** The invariant rule of a counted loop. *)
Lemma wp_for (I : Z -> A -> Trace -> Prop) (body : Z -> A -> IO A) (Q : A -> Trace -> Prop) n i s t :
  I i s t ->
  (forall j s t, i <= j < i + Z.of_nat n -> I j s t -> wp (body j s) (fun s' t' => I (j + 1) s' t') t) ->
  (forall s t, I (i + Z.of_nat n) s t -> Q s t) -> wp (for_rangeIO n i body s) Q t.
Proof.
  revert i s t. induction n as [|n IH]; intros i s t Hs Hbody HQ; cbn [for_rangeIO].
  - apply wp_ret, HQ. by rewrite Z.add_0_r.
  - apply wp_bind. eapply wp_mono; [|apply Hbody; [lia|done]]. intros s1 t1 H1. apply IH; [done| |].
    + intros j s' t' Hj. apply Hbody. lia.
    + intros s' t'. replace (i + 1 + Z.of_nat n) with (i + Z.of_nat (Datatypes.S n)) by lia. apply HQ.
Qed.
End wp.

(** An operation that returns, with the trace it leaves. *)
Lemma runs_bind {A B} (f : A -> IO B) (m : IO A) t t1 a : m t = (t1, Ok a) -> (m ≫= f) t = f a t1.
Proof. intros E. unfold mbind, IO_bind. by rewrite E. Qed.

Lemma runs_bind_inv {A B} (f : A -> IO B) (m : IO A) t t' b :
  (m ≫= f) t = (t', Ok b) -> exists a t1, m t = (t1, Ok a) /\ f a t1 = (t', Ok b).
Proof. unfold mbind, IO_bind. destruct (m t) as [t1 [a|e]]; [by exists a, t1|done]. Qed.
