(* ===== verification/Screen.v ===== *)
(** The screen and the serial log:
    [operating_system/global_resources/screen.{h,cpp}] and
    [serial_log.{h,cpp}].

    The video buffer is part of memory; the cursor is kept by the graphics
    card, which is reached through two ports.  Messages are strings in memory;
    the local arrays the printing functions use are passed by their address. *)
From S2P Require Import Prelude Mem Devices.

Definition VIDEO_BUFFER_ADDRESS : Z := 0xb8000.
Definition REG_SCREEN_CTRL : Z := 0x3d4.
Definition REG_SCREEN_DATA : Z := 0x3d5.
Definition MAX_ROWS : Z := 25.
Definition MAX_COLS : Z := 80.

(** [n] bytes moved or cleared, as the code gives the numbers. *)
Definition SCROLL_BYTES : Z := 2 * (MAX_ROWS - 1) * MAX_COLS.

Section screen.
Context `{Device}.

Definition getCursorOffset : IO Z :=
  portByteOut REG_SCREEN_CTRL 14 ;;
  high ← portByteIn REG_SCREEN_DATA;
  portByteOut REG_SCREEN_CTRL 15 ;;
  low ← portByteIn REG_SCREEN_DATA;
  mret (2 * (Z.shiftl high 8 + low)).

Definition setCursorOffset (offset : Z) : IO () :=
  let offset := Z.quot offset 2 in
  portByteOut REG_SCREEN_CTRL 14 ;;
  portByteOut REG_SCREEN_DATA (u8 (Z.shiftr offset 8)) ;;
  portByteOut REG_SCREEN_CTRL 15 ;;
  portByteOut REG_SCREEN_DATA (u8 (Z.land offset 0xff)).

Definition printChar (offset c : Z) (m : Mem) : IO (Mem * Z) :=
  let '(m, offset) :=
    if c =? 10 then (m, 2 * (Z.quot offset (2 * MAX_COLS) + 1) * MAX_COLS)
    else (store (store m (VIDEO_BUFFER_ADDRESS + offset) c) (VIDEO_BUFFER_ADDRESS + offset + 1) 0x0f, offset + 2) in
  let '(m, offset) :=
    if 2 * MAX_ROWS * MAX_COLS <=? offset then
      let m := memCopy (2 * MAX_COLS + VIDEO_BUFFER_ADDRESS) VIDEO_BUFFER_ADDRESS (Z.to_nat SCROLL_BYTES) m in
      (memClear (SCROLL_BYTES + VIDEO_BUFFER_ADDRESS) (Z.to_nat (2 * MAX_COLS)) m, offset - 2 * MAX_COLS)
    else (m, offset) in
  setCursorOffset offset ;;
  mret (store m (VIDEO_BUFFER_ADDRESS + offset + 1) 0x0f, offset).

(** The constructor. *)
Definition newScreen (m : Mem) : IO Mem :=
  let m := memClear VIDEO_BUFFER_ADDRESS (Z.to_nat (2 * MAX_COLS * MAX_ROWS)) m in
  portByteOut REG_SCREEN_CTRL 14 ;;
  portByteOut REG_SCREEN_DATA 0 ;;
  portByteOut REG_SCREEN_CTRL 15 ;;
  portByteOut REG_SCREEN_DATA 0 ;;
  mret (store m (VIDEO_BUFFER_ADDRESS + 1) 0x0f).

Definition clearScreen (m : Mem) : IO Mem :=
  let m := memClear VIDEO_BUFFER_ADDRESS (Z.to_nat (2 * MAX_COLS * MAX_ROWS)) m in
  setCursorOffset 0 ;;
  mret (store m (VIDEO_BUFFER_ADDRESS + 1) 0x0f).

Fixpoint printLoop (fuel : nat) (message i offset : Z) (m : Mem) : IO Mem :=
  match fuel with
  | O => lift (Fault OutOfFuel)
  | S fuel =>
      if m (message + i) =? 0 then mret m
      else
        r ← printChar offset (m (message + i)) m;
        printLoop fuel message (i + 1) (snd r) (fst r)
  end.

Definition printk (message : Z) (m : Mem) : IO Mem :=
  offset ← getCursorOffset; printLoop STRING_FUEL message 0 offset m.

Definition printkInt (intAsDecimalString a : Z) (m : Mem) : IO Mem :=
  m ← lift (intToDecimalString a intAsDecimalString m); printk intAsDecimalString m.

Definition printkHex (intAsHexadecimalString a : Z) (m : Mem) : IO Mem :=
  m ← lift (intToHexadecimalString a intAsHexadecimalString m); printk intAsHexadecimalString m.

(** The 64-bit version. *)
Definition printkHexLong (lowerAAsHexadecimalString upperAAsHexadecimalString a : Z) (m : Mem) : IO Mem :=
  let lowerA := u32 (Z.land a 0xFFFFFFFF) in
  let upperA := u32 (Z.land (Z.shiftr a 32) 0xFFFFFFFF) in
  m ← lift (intToHexadecimalString lowerA lowerAAsHexadecimalString m);
  m ← (if 0 <? upperA then
         m ← lift (intToHexadecimalString upperA upperAAsHexadecimalString m);
         m ← printk upperAAsHexadecimalString m;
         n ← lift (strlen m lowerAAsHexadecimalString);
         offset ← getCursorOffset;
         r ← for_rangeIO (Z.to_nat (8 - n)) 0 (fun _ r => printChar (snd r) 48 (fst r)) (m, offset);
         mret (fst r)
       else mret m);
  printk lowerAAsHexadecimalString m.

(** ** The serial log *)

Definition SERIAL_LOG_PORT : Z := 0x3F8.

Definition newSerialLog : IO () :=
  portByteOut (SERIAL_LOG_PORT + 1) 0x00 ;;
  portByteOut (SERIAL_LOG_PORT + 3) 0x80 ;;
  portByteOut (SERIAL_LOG_PORT + 0) 12 ;;
  portByteOut (SERIAL_LOG_PORT + 1) 0x00 ;;
  portByteOut (SERIAL_LOG_PORT + 3) 0x03 ;;
  portByteOut (SERIAL_LOG_PORT + 2) 0xC7 ;;
  portByteOut (SERIAL_LOG_PORT + 4) 0x0B ;;
  portByteOut (SERIAL_LOG_PORT + 4) 0x0F.

(** The loop that waits for the transmission buffer; [fuel] bounds the wait. *)
Fixpoint waitForTransmitter (fuel : nat) : IO () :=
  match fuel with
  | O => lift (Fault OutOfFuel)
  | S fuel =>
      status ← portByteIn (SERIAL_LOG_PORT + 5);
      if Z.land status 0x20 =? 0 then waitForTransmitter fuel else mret tt
  end.

Definition logChar (wait : nat) (c : Z) : IO () := waitForTransmitter wait ;; portByteOut SERIAL_LOG_PORT c.

Fixpoint logLoop (wait fuel : nat) (message i : Z) (m : Mem) : IO () :=
  match fuel with
  | O => lift (Fault OutOfFuel)
  | S fuel =>
      if m (message + i) =? 0 then mret tt
      else logChar wait (m (message + i)) ;; logLoop wait fuel message (i + 1) m
  end.

Definition log (wait : nat) (message : Z) (m : Mem) : IO () := logLoop wait STRING_FUEL message 0 m.

Definition logInt (wait : nat) (intAsDecimalString a : Z) (m : Mem) : IO Mem :=
  m ← lift (intToDecimalString a intAsDecimalString m); log wait intAsDecimalString m ;; mret m.

Definition logHex (wait : nat) (intAsHexadecimalString a : Z) (m : Mem) : IO Mem :=
  m ← lift (intToHexadecimalString a intAsHexadecimalString m); log wait intAsHexadecimalString m ;; mret m.

Definition logHexLong (wait : nat) (lowerAAsHexadecimalString upperAAsHexadecimalString a : Z) (m : Mem) : IO Mem :=
  let lowerA := u32 (Z.land a 0xFFFFFFFF) in
  let upperA := u32 (Z.land (Z.shiftr a 32) 0xFFFFFFFF) in
  m ← lift (intToHexadecimalString lowerA lowerAAsHexadecimalString m);
  m ← (if 0 <? upperA then
         m ← lift (intToHexadecimalString upperA upperAAsHexadecimalString m);
         log wait upperAAsHexadecimalString m ;;
         n ← lift (strlen m lowerAAsHexadecimalString);
         for_rangeIO (Z.to_nat (8 - n)) 0 (fun _ _ => logChar wait 48) tt ;;
         mret m
       else mret m);
  log wait lowerAAsHexadecimalString m ;;
  mret m.
End screen.
