(* ===== verification/ScreenFacts.v ===== *)
(** What the screen shows: printing through the video buffer and the cursor
    registers is a terminal of 25 lines, a list of cells and a cursor. *)
From S2P Require Import Prelude Mem Devices Screen.

(** ** The cursor of the graphics card *)

(** The register the index port selects, and what was last written to one;
    [initial] is what the registers hold before. *)
Fixpoint crtcSelected (t : Trace) : Z :=
  match t with
  | [] => 0
  | PortByteOut p v :: t => if p =? REG_SCREEN_CTRL then v else crtcSelected t
  | _ :: t => crtcSelected t
  end.

Fixpoint crtcRegister (initial : Z -> Z) (t : Trace) (i : Z) : Z :=
  match t with
  | [] => initial i
  | PortByteOut p v :: t => if (p =? REG_SCREEN_DATA) && (crtcSelected t =? i) then u8 v else crtcRegister initial t i
  | _ :: t => crtcRegister initial t i
  end.

Definition cursorOf (initial : Z -> Z) (t : Trace) : Z := 256 * crtcRegister initial t 14 + crtcRegister initial t 15.

(** ** The terminal *)

Record Terminal := mkTerminal { cells : list Z; cursor : Z }.

Definition CELLS : Z := MAX_ROWS * MAX_COLS.

Definition termPut (s : Terminal) (c : Z) : Terminal :=
  let s := if c =? 10 then mkTerminal (cells s) ((cursor s / MAX_COLS + 1) * MAX_COLS)
           else mkTerminal (cells s).[cursor s := c] (cursor s + 1) in
  if CELLS <=? cursor s then mkTerminal (drop (Z.to_nat MAX_COLS) (cells s) ++ replicate (Z.to_nat MAX_COLS) 0) (cursor s - MAX_COLS) else s.

Definition termOk (s : Terminal) : Prop := zlength (cells s) = CELLS /\ 0 <= cursor s < CELLS.

Definition shows (m : Mem) (s : Terminal) : Prop :=
  forall i, 0 <= i < CELLS -> (cells s).[i] = Some (m (VIDEO_BUFFER_ADDRESS + 2 * i)).

Definition inVideo (x : Z) : Prop := VIDEO_BUFFER_ADDRESS <= x < VIDEO_BUFFER_ADDRESS + 2 * CELLS.

(** Only the video buffer changes. *)
Definition sameOutside (m m' : Mem) : Prop := forall x, ~ inVideo x -> m' x = m x.

Ltac sizes := unfold inVideo, SCROLL_BYTES, CELLS, MAX_ROWS, MAX_COLS, VIDEO_BUFFER_ADDRESS in *.

Lemma termPut_ok s c : termOk s -> termOk (termPut s c).
Proof.
  intros [Hl Hc]. unfold termPut, termOk. destruct (c =? 10); cbn [cells cursor].
  - destruct (Z.leb_spec CELLS ((cursor s / MAX_COLS + 1) * MAX_COLS)); cbn [cells cursor].
    + split; [rewrite zlength_app, zlength_replicate, zlength_drop by (sizes; lia); sizes; lia|sizes; dlia].
    + split; [done|sizes; dlia].
  - destruct (Z.leb_spec CELLS (cursor s + 1)); cbn [cells cursor].
    + split; [|sizes; lia]. rewrite zlength_app, zlength_replicate, zlength_drop, zlength_zset by (rewrite ?zlength_zset; sizes; lia). sizes; lia.
    + split; [by rewrite zlength_zset|sizes; lia].
Qed.

Section device.
Context `{Device} (initial : Z -> Z).
Implicit Types (t : Trace).

(** The card answers with what was written to the selected register. *)
Definition keepsCursor : Prop := forall t, respond (PortByteIn REG_SCREEN_DATA :: t) mod 2 ^ 8 = crtcRegister initial t (crtcSelected t).

Hypothesis Hcard : keepsCursor.

Lemma getCursor_runs t : exists t', getCursorOffset t = (t', Ok (2 * cursorOf initial t)) /\ cursorOf initial t' = cursorOf initial t.
Proof using Hcard.
  eexists. unfold getCursorOffset, portByteOut, portByteIn, access, accessRead, mbind, IO_bind, mret, IO_ret. cbv beta iota zeta.
  change (u16 REG_SCREEN_CTRL) with REG_SCREEN_CTRL. change (u16 REG_SCREEN_DATA) with REG_SCREEN_DATA.
  change (u8 14) with 14. change (u8 15) with 15. rewrite !Hcard. refine (conj (f_equal2 pair eq_refl _) eq_refl). do 2 f_equal.
  rewrite Z.shiftl_mul_pow2 by lia. unfold cursorOf. cbn -[Z.mul]. lia.
Qed.

Lemma setCursor_runs offset t : 0 <= offset < 2 * CELLS ->
  exists t', setCursorOffset offset t = (t', Ok tt) /\ cursorOf initial t' = offset / 2.
Proof.
  intros Ho. eexists. unfold setCursorOffset, portByteOut, access, mbind, IO_bind. cbv beta iota zeta.
  change (u16 REG_SCREEN_CTRL) with REG_SCREEN_CTRL. change (u16 REG_SCREEN_DATA) with REG_SCREEN_DATA.
  change (u8 14) with 14. change (u8 15) with 15. split; [reflexivity|].
  unfold cursorOf. cbn -[Z.mul Z.quot Z.shiftr Z.land u8]. rewrite Z.quot_div_nonneg by lia.
  change 0xff with (Z.ones 8). rewrite Z.land_ones, Z.shiftr_div_pow2 by lia. unfold u8. rewrite !Z.mod_mod by lia. change (2 ^ 8) with 256.
  sizes. dlia.
Qed.

(** ** Printing a character *)

(** The character and its colour, before scrolling. *)
Definition placed (m : Mem) (s : Terminal) (c : Z) : Mem :=
  if c =? 10 then m
  else store (store m (VIDEO_BUFFER_ADDRESS + 2 * cursor s) c) (VIDEO_BUFFER_ADDRESS + 2 * cursor s + 1) 0x0f.

Lemma placed_shows m s c i : termOk s -> shows m s -> 0 <= i < CELLS ->
  (if c =? 10 then cells s else (cells s).[cursor s := c]).[i] = Some (placed m s c (VIDEO_BUFFER_ADDRESS + 2 * i)).
Proof.
  intros [Hl Hc] Hs Hi. unfold placed. destruct (c =? 10); [by apply Hs|]. unfold store.
  rewrite (proj2 (Z.eqb_neq _ _)) by lia. destruct (Z.eqb_spec (VIDEO_BUFFER_ADDRESS + 2 * i) (VIDEO_BUFFER_ADDRESS + 2 * cursor s)) as [E|E].
  - replace i with (cursor s) by lia. by rewrite znth_zset_eq by lia.
  - rewrite znth_zset_ne by lia. by apply Hs.
Qed.

Lemma placed_outside m s c : termOk s -> sameOutside m (placed m s c).
Proof. intros [_ Hc] x Hx. unfold placed, store. destruct (c =? 10); [done|]. sizes. repeat (case_match; [lia|]). done. Qed.

(** One line up. *)
Definition scrolled (m : Mem) : Mem :=
  memClear (SCROLL_BYTES + VIDEO_BUFFER_ADDRESS) (Z.to_nat (2 * MAX_COLS))
    (memCopy (2 * MAX_COLS + VIDEO_BUFFER_ADDRESS) VIDEO_BUFFER_ADDRESS (Z.to_nat SCROLL_BYTES) m).

Lemma scrolled_at m x : scrolled m x =
  if bool_decide (VIDEO_BUFFER_ADDRESS + SCROLL_BYTES <= x < VIDEO_BUFFER_ADDRESS + 2 * CELLS) then 0
  else if bool_decide (VIDEO_BUFFER_ADDRESS <= x < VIDEO_BUFFER_ADDRESS + SCROLL_BYTES) then m (x + 2 * MAX_COLS) else m x.
Proof.
  unfold scrolled. rewrite memClear_correct. rewrite memCopy_copied by (unfold copyable; right; sizes; lia).
  rewrite !Z2Nat.id by (sizes; lia). sizes. repeat case_bool_decide; try lia; done || (f_equal; lia).
Qed.

Lemma printChar_runs m s c t : termOk s -> shows m s ->
  exists m' t', printChar (2 * cursor s) c m t = (t', Ok (m', 2 * cursor (termPut s c))) /\
    shows m' (termPut s c) /\ cursorOf initial t' = cursor (termPut s c) /\ sameOutside m m'.
Proof.
  intros Hok Hs. pose proof (termPut_ok s c Hok) as [Hl' Hc']. pose proof Hok as [Hl Hc].
  set (m1 := placed m s c). set (next := if c =? 10 then (cursor s / MAX_COLS + 1) * MAX_COLS else cursor s + 1).
  set (row := if c =? 10 then cells s else (cells s).[cursor s := c]).
  assert (Hrow : zlength row = CELLS) by (unfold row; destruct (c =? 10); by rewrite ?zlength_zset).
  assert (Eput : termPut s c = if CELLS <=? next then mkTerminal (drop (Z.to_nat MAX_COLS) row ++ replicate (Z.to_nat MAX_COLS) 0) (next - MAX_COLS) else mkTerminal row next).
  { unfold termPut, next, row. by destruct (c =? 10). }
  set (m2 := if CELLS <=? next then scrolled m1 else m1).
  assert (Estep : printChar (2 * cursor s) c m =
    (setCursorOffset (2 * cursor (termPut s c)) ;; mret (store m2 (VIDEO_BUFFER_ADDRESS + 2 * cursor (termPut s c) + 1) 0x0f, 2 * cursor (termPut s c)))).
  { rewrite Eput. unfold printChar, m2, m1, placed, next. destruct (c =? 10).
    - rewrite Z.quot_div_nonneg by (sizes; lia).
      replace (2 * (2 * cursor s / (2 * MAX_COLS) + 1) * MAX_COLS) with (2 * ((cursor s / MAX_COLS + 1) * MAX_COLS)) by (sizes; dlia).
      destruct (Z.leb_spec CELLS ((cursor s / MAX_COLS + 1) * MAX_COLS)), (Z.leb_spec (2 * MAX_ROWS * MAX_COLS) (2 * ((cursor s / MAX_COLS + 1) * MAX_COLS)));
        try (sizes; lia); cbn [cursor]; [|done].
      replace (2 * ((cursor s / MAX_COLS + 1) * MAX_COLS) - 2 * MAX_COLS) with (2 * ((cursor s / MAX_COLS + 1) * MAX_COLS - MAX_COLS)) by lia. done.
    - replace (2 * cursor s + 2) with (2 * (cursor s + 1)) by lia.
      destruct (Z.leb_spec CELLS (cursor s + 1)), (Z.leb_spec (2 * MAX_ROWS * MAX_COLS) (2 * (cursor s + 1)));
        try (sizes; lia); cbn [cursor]; [|done]. replace (2 * (cursor s + 1) - 2 * MAX_COLS) with (2 * (cursor s + 1 - MAX_COLS)) by lia. done. }
  rewrite Estep. destruct (setCursor_runs (2 * cursor (termPut s c)) t) as (t' & E & Ht'); [lia|].
  rewrite (runs_bind _ _ t t' tt) by done. eexists _, t'. split; [reflexivity|].
  assert (H2 : shows m2 (termPut s c)).
  { rewrite Eput. unfold m2. intros i Hi. destruct (CELLS <=? next); cbn [cells]; [|by apply placed_shows].
    rewrite scrolled_at. destruct (Z.ltb_spec i (CELLS - MAX_COLS)).
    - rewrite znth_app_l by (rewrite zlength_drop; sizes; lia). rewrite znth_drop by (sizes; lia).
      rewrite bool_decide_false by (sizes; lia). rewrite bool_decide_true by (sizes; lia).
      pose proof (placed_shows m s c (MAX_COLS + i) Hok Hs ltac:(sizes; lia)) as Hp. fold row m1 in Hp. rewrite Hp. do 2 f_equal. sizes. lia.
    - rewrite znth_app_r by (rewrite zlength_drop; sizes; lia). rewrite bool_decide_true by (sizes; lia).
      apply znth_replicate. rewrite zlength_drop by (sizes; lia). sizes. lia. }
  split; [|split; [|]].
  - intros i Hi. rewrite (H2 i Hi). unfold store. rewrite (proj2 (Z.eqb_neq _ _)) by lia. done.
  - rewrite Ht'. rewrite Z.mul_comm. by apply Z.div_mul.
  - intros x Hx. unfold store. rewrite (proj2 (Z.eqb_neq _ _)) by (sizes; lia).
    rewrite <- (placed_outside m s c Hok x Hx). fold m1. unfold m2. destruct (CELLS <=? next); [|done].
    rewrite scrolled_at. rewrite !bool_decide_false by (sizes; lia). done.
Qed.

(** ** Printing a string *)

(** A terminated string in memory, away from the video buffer. *)
Definition stringAt (m : Mem) (message : Z) (text : list Z) : Prop :=
  loadBytes m message (length text + 1) = text ++ [0] /\ Forall (fun c => c <> 0) text /\
  forall x, message <= x <= message + zlength text -> ~ inVideo x.

Lemma stringAt_outside m m' message text : sameOutside m m' -> stringAt m message text -> stringAt m' message text.
Proof.
  intros Ho (Hl & Hn & Hx). split; [|done]. rewrite <- Hl. apply loadBytes_ext. intros x Hr. apply Ho, Hx. unfold zlength. lia.
Qed.

Lemma stringAt_char m message l c text : stringAt m message (l ++ c :: text) -> m (message + zlength l) = c /\ c <> 0.
Proof.
  intros (Hl & Hn & _). split.
  - pose proof (znth_loadBytes m message (length (l ++ c :: text) + 1) (zlength l)) as Hz. rewrite Hl in Hz.
    rewrite <- app_assoc, znth_app_r, Z.sub_diag in Hz by lia.
    assert (Some c = Some (m (message + zlength l))) as [= <-]; [|done]. apply Hz. pose proof (zlength_nonneg l). rewrite length_app. cbn. unfold zlength in *. lia.
  - apply Forall_app in Hn as [_ Hn]. by apply Forall_cons in Hn as [? _].
Qed.

Lemma stringAt_end m message text : stringAt m message text -> m (message + zlength text) = 0.
Proof.
  intros (Hl & _ & _). pose proof (znth_loadBytes m message (length text + 1) (zlength text)) as Hz. rewrite Hl in Hz.
  rewrite znth_app_r, Z.sub_diag in Hz by lia. assert (Some 0 = Some (m (message + zlength text))) as [= <-]; [|done].
  apply Hz. unfold zlength. lia.
Qed.

Lemma printLoop_runs message l text : forall fuel m s t,
  (length text < fuel)%nat -> stringAt m message (l ++ text) -> termOk s -> shows m s -> cursorOf initial t = cursor s ->
  exists m' t', printLoop fuel message (zlength l) (2 * cursor s) m t = (t', Ok m') /\
    shows m' (fold_left termPut text s) /\ cursorOf initial t' = cursor (fold_left termPut text s) /\ sameOutside m m'.
Proof.
  revert l. induction text as [|c text IH]; intros l [|fuel] m s t Hf Hm Hok Hs Ht; cbn [length] in Hf; try lia; cbn [printLoop fold_left].
  - rewrite app_nil_r in Hm. rewrite (stringAt_end _ _ _ Hm). exists m, t. by split_and!.
  - destruct (stringAt_char _ _ _ _ _ Hm) as [-> Hc]. rewrite (proj2 (Z.eqb_neq c 0)) by done.
    destruct (printChar_runs m s c t Hok Hs) as (m1 & t1 & E & Hs1 & Ht1 & Ho1). rewrite (runs_bind _ _ t t1 _ E). cbn [fst snd].
    destruct (IH (l ++ [c]) fuel m1 (termPut s c) t1) as (m' & t' & E' & Hs' & Ht' & Ho'); [lia| |by apply termPut_ok|done|done|].
    { rewrite <- app_assoc. by eapply stringAt_outside. }
    rewrite zlength_snoc in E'. exists m', t'. split_and!; [done..|]. intros x Hx. rewrite Ho', Ho1 by done. done.
Qed.

(** What [printk] promises, for a string of the size it handles. *)
Lemma printk_runs m s t message text :
  stringAt m message text -> zlength text < 1000 -> termOk s -> shows m s -> cursorOf initial t = cursor s ->
  exists m' t', printk message m t = (t', Ok m') /\
    shows m' (fold_left termPut text s) /\ cursorOf initial t' = cursor (fold_left termPut text s) /\ sameOutside m m'.
Proof using Hcard.
  intros Hm Hl Hok Hs Ht. unfold printk. destruct (getCursor_runs t) as (t1 & E & Ht1). rewrite (runs_bind _ _ t t1 _ E).
  rewrite Ht. destruct (printLoop_runs message [] text STRING_FUEL m s t1) as (m' & t' & E' & Hres); [|done|done|done|by rewrite Ht1|].
  - unfold STRING_FUEL, zlength in *. lia.
  - exists m', t'. split; [exact E'|exact Hres].
Qed.

(** C33: a message is printed the way a terminal prints it: characters go to the
    cursor, which moves on, a line feed goes to the next line, and below the
    last line everything moves one line up; the cursor of the graphics card
    follows, and no memory but the video buffer changes. *)
Theorem printk_terminal m s t message text :
  stringAt m message text -> zlength text < 1000 -> termOk s -> shows m s -> cursorOf initial t = cursor s ->
  exists m' t', printk message m t = (t', Ok m') /\
    shows m' (fold_left termPut text s) /\ cursorOf initial t' = cursor (fold_left termPut text s) /\ sameOutside m m'.
Proof using Hcard. apply printk_runs. Qed.

(** Numbers: the decimal numeral with its sign, for every [int] but the
    smallest. *)
Theorem printkInt_terminal m s t str a :
  - 2 ^ 31 < a < 2 ^ 31 -> (forall x, str <= x < str + 12 -> ~ inVideo x) ->
  termOk s -> shows m s -> cursorOf initial t = cursor s ->
  exists m' t' ds, printkInt str a m t = (t', Ok m') /\ numeral 10 ds (Z.abs a) /\
    shows m' (fold_left termPut ((if a <? 0 then [45] else []) ++ map decimalDigit ds) s) /\
    forall x, ~ inVideo x -> ~ (str <= x < str + 12) -> m' x = m x.
Proof using Hcard.
  intros Ha Hstr Hok Hs Ht. unfold printkInt. destruct (intToDecimalString_correct a str m ltac:(lia)) as (m1 & E & Hm1).
  rewrite (proj2 (Z.eqb_neq a _)) in Hm1 by lia. destruct Hm1 as (ds & Hnum & Hload & Hlen & Hout).
  rewrite (runs_bind _ _ t t m1) by (by rewrite E). set (text := (if a <? 0 then [45] else []) ++ map decimalDigit ds) in *.
  assert (Hstring : stringAt m1 str text).
  { split; [exact Hload|]. split.
    - unfold text. apply Forall_app. split; [destruct (a <? 0); [by repeat constructor|constructor]|].
      destruct Hnum as (_ & Hd & _). apply Forall_fmap. eapply Forall_impl; [exact Hd|]. intros d Hd'. by apply decimalDigit_nonzero.
    - intros x Hx. apply Hstr. lia. }
  destruct (printk_runs m1 s t str text) as (m' & t' & E' & Hs' & _ & Ho); [done|lia|done| |done|].
  { intros i Hi. rewrite (Hs i Hi). f_equal. symmetry. apply Hout. intros Hx. apply (Hstr _ Hx). sizes. lia. }
  exists m', t', ds. split_and!; [done..|]. intros x Hx Hx'. by rewrite Ho, Hout.
Qed.
End device.

(** ** Printing on an empty screen *)

Definition sampleGraphics : Device := fun t =>
  match t with PortByteIn _ :: t => crtcRegister (fun _ => 0) t (crtcSelected t) | _ => 0 end.

Definition blankTerminal : Terminal := mkTerminal (replicate 2000 0) 0.

(** "Hi", a line feed and "!" at address 0x1000. *)
Definition helloMem : Mem := storeBytes (fun _ => 0) 0x1000 [72; 105; 10; 33; 0].

Lemma crtcRegister_u8 t i : is_u8 (crtcRegister (fun _ => 0) t i).
Proof. induction t as [|a t IH]; [by vm_compute|]. destruct a; try done. cbn. destruct (_ && _); [by apply Z.mod_pos_bound|done]. Qed.

Lemma sampleGraphics_keeps : @keepsCursor sampleGraphics (fun _ => 0).
Proof. intros t. cbn. apply Z.mod_small, crtcRegister_u8. Qed.

Lemma sampleGraphics_blank : shows helloMem blankTerminal.
Proof.
  intros i Hi. transitivity (Some 0).
  - apply znth_replicate. sizes. lia.
  - f_equal. symmetry. unfold helloMem. rewrite storeBytes_out; [done|]. sizes. unfold zlength. cbn. lia.
Qed.

Lemma printk_terminal_witness : stringAt helloMem 0x1000 [72; 105; 10; 33] /\
  exists m' t', @printk sampleGraphics 0x1000 helloMem [] = (t', Ok m') /\
    shows m' (fold_left termPut [72; 105; 10; 33] blankTerminal) /\
    cursorOf (fun _ => 0) t' = cursor (fold_left termPut [72; 105; 10; 33] blankTerminal) /\ sameOutside helloMem m'.
Proof.
  assert (Hs : stringAt helloMem 0x1000 [72; 105; 10; 33]).
  { split; [by vm_compute|]. split; [repeat constructor; lia|]. intros x Hx. sizes. unfold zlength in Hx. cbn in Hx. lia. }
  split; [exact Hs|]. apply (@printk_terminal sampleGraphics (fun _ => 0)).
  - exact sampleGraphics_keeps.
  - exact Hs.
  - by vm_compute.
  - split; [by vm_compute|]. cbn. sizes. lia.
  - exact sampleGraphics_blank.
  - reflexivity.
Defined.
