(* ===== verification/Clocks.v ===== *)
(** The clocks: [operating_system/cpu_core/timer.{h,cpp}], the interval timer
    that switches tasks, and [global_resources/rtc_timer.{h,cpp}], the
    real-time clock that drives the network stack.

    Callbacks are named by pointers; the handlers get what a callback does as
    the parameter [run], which may change any state [C].  The message before a
    [while(true)] is part of [halt]. *)
From S2P Require Import Prelude Paging SocketManager CpuCore Syscalls Devices.

Definition REGISTER_NUMBER_SPECIFIER_PORT : Z := 0x70.
Definition REGISTER_READER_WRITER_PORT : Z := 0x71.
Definition RTC_INTERRUPT : Z := 40.

Record RTCTimer := mkRTCTimer { interruptsEnabled : bool; rtcRunnable : option Z }.

Record Timer := mkTimer { frequency : Z; timerRunnable : option Z }.

(** [pCpuCore->withTaskSwitchingPaused] with a callback that uses ports. *)
Definition withTaskSwitchingPausedIO (c : CpuCore) (run : IO ()) : IO CpuCore :=
  let c := withPaused c true in run ;; mret (withPaused c false).

Section clocks.
Context `{Device}.

(** ** The real-time clock *)

Definition newRTCTimer : IO RTCTimer :=
  portByteOut REGISTER_NUMBER_SPECIFIER_PORT 0x8B ;;
  registerBValue ← portByteIn REGISTER_READER_WRITER_PORT;
  portByteOut REGISTER_NUMBER_SPECIFIER_PORT 0x8B ;;
  portByteOut REGISTER_READER_WRITER_PORT (Z.lor registerBValue 0x40) ;;
  mret (mkRTCTimer false None).

(** [for(int i=8192, iPower=13; i>=2; i/=2, iPower-=1)]; [n] bounds the turns. *)
Fixpoint rateLoop (n : nat) (frequency i iPower : Z) : result Z :=
  if 2 <=? i then
    match n with
    | O => Fault OutOfFuel
    | S n => if negb (Z.land frequency i =? 0) then Ok (16 - iPower) else rateLoop n frequency (Z.quot i 2) (iPower - 1)
    end
  else Ok 0.

Definition changeRTCTimerRate (rate : Z) : IO () :=
  portByteOut REGISTER_NUMBER_SPECIFIER_PORT 0x8A ;;
  registerAValue ← portByteIn REGISTER_READER_WRITER_PORT;
  portByteOut REGISTER_NUMBER_SPECIFIER_PORT 0x8A ;;
  portByteOut REGISTER_READER_WRITER_PORT (Z.lor (Z.land registerAValue 0xF0) rate).

(** [pCpuCore] is the core [CpuCore::getCpuCore(0)] gives. *)
Definition setTimerFrequency (pCpuCore : option CpuCore) (frequency : Z) : IO (option CpuCore) :=
  if 8192 <? frequency then mret pCpuCore
  else if frequency <? 2 then mret pCpuCore
  else
    rate ← lift (rateLoop 13 frequency 8192 13);
    match pCpuCore with
    | None => halt
    | Some c => c ← withTaskSwitchingPausedIO c (changeRTCTimerRate rate); mret (Some c)
    end.

Definition allowNextInterrupt : IO () :=
  portByteOut REGISTER_NUMBER_SPECIFIER_PORT 0x0C ;; _ ← portByteIn REGISTER_READER_WRITER_PORT; mret tt.

(** [im] is the interrupt table of core 0, [None] when there is no core yet. *)
Definition setRTCTimerCallback (this : Z) (r : RTCTimer) (im : option InterruptHandlerManager) (pNewRunnable : option Z)
  : IO (RTCTimer * option InterruptHandlerManager) :=
  let r := mkRTCTimer (interruptsEnabled r) pNewRunnable in
  if negb (interruptsEnabled r) then
    match im with
    | None => halt
    | Some im =>
        im ← lift (setInterruptHandlerParam im RTC_INTERRUPT this);
        im ← lift (setInterruptHandler im RTC_INTERRUPT rtcTimerHandler);
        allowNextInterrupt ;;
        mret (mkRTCTimer true (rtcRunnable r), Some im)
    end
  else mret (r, im).

Definition rtcTimerInterruptHandler {C} (run : Z -> C -> IO C) (r : RTCTimer) (s : C) : IO C :=
  s ← match rtcRunnable r with Some p => run p s | None => mret s end;
  allowNextInterrupt ;;
  mret s.

(** ** The interval timer *)

Definition newTimer (frequency : Z) : Timer :=
  mkTimer (if (frequency =? 0) || (1193182 <? frequency) then 1 else frequency) None.

(** The divider [Timer::bind] programs. *)
Definition timerDivider (t : Timer) : Z :=
  let dividerInt := 1193182 / frequency t in
  if 0xFFFF <? dividerInt then 0xFFFF else Z.land dividerInt 0xFFFF.

Definition bindTimer (this : Z) (t : Timer) (im : option InterruptHandlerManager) : IO (option InterruptHandlerManager) :=
  let divider := timerDivider t in
  portByteOut 0x43 0x36 ;;
  portByteOut 0x40 (Z.land divider 0xFF) ;;
  portByteOut 0x40 (Z.land (Z.shiftr divider 8) 0xFF) ;;
  match im with
  | None => halt
  | Some im =>
      im ← lift (setInterruptHandlerParam im PITTimer this);
      im ← lift (setInterruptHandler im PITTimer timerHandler);
      mret (Some im)
  end.

Definition setTimerCallback (t : Timer) (pNewRunnable : option Z) : Timer := mkTimer (frequency t) pNewRunnable.

Definition timerInterruptHandler {C} (run : Z -> C -> IO C) (t : Timer) (s : C) : IO C :=
  match timerRunnable t with Some p => run p s | None => mret s end.
End clocks.

(** ** What the chips are told *)

(** The sixteen frequencies of the divider chain: rate [r] gives
    [32768 >> (r - 1)] interrupts a second. *)
Definition rtcInterruptsPerSecond (rate : Z) : Z := 0x8000 / 2 ^ (rate - 1).

(** The loop finds the highest set bit. *)
Lemma rateLoop_spec n f k :
  Z.of_nat n = k -> 0 <= k -> 0 <= f < 2 ^ (k + 1) -> rateLoop n f (2 ^ k) k = Ok (if f <? 2 then 0 else 16 - Z.log2 f).
Proof.
  revert k. induction n as [|n IH]; intros k Hn Hk Hf; cbn [rateLoop].
  - replace k with 0 in * by lia. by rewrite (proj2 (Z.ltb_lt _ _)) by lia.
  - rewrite (proj2 (Z.leb_le 2 (2 ^ k))).
    2: { change 2 with (2 ^ 1) at 1. apply Z.pow_le_mono_r; lia. }
    assert (Hbit : (Z.land f (2 ^ k) =? 0) = (f <? 2 ^ k)).
    { destruct (Z.ltb_spec f (2 ^ k)) as [Hlt|Hge].
      - apply Z.eqb_eq. apply Z.bits_inj'. intros j Hj. rewrite Z.land_spec, Z.pow2_bits_eqb, Z.bits_0 by lia.
        destruct (Z.eqb_spec k j) as [<-|]; [|apply andb_false_r]. rewrite andb_true_r.
        destruct (decide (f = 0)) as [->|]; [apply Z.bits_0|]. apply Z.bits_above_log2; [lia|apply Z.log2_lt_pow2; lia].
      - apply Z.eqb_neq. intros E. assert (Hb : Z.testbit (Z.land f (2 ^ k)) k = false) by by rewrite E, Z.bits_0.
        rewrite Z.land_spec, Z.pow2_bits_eqb, Z.eqb_refl, andb_true_r in Hb by lia.
        assert (Z.log2 f = k) as El by (apply Z.log2_unique; [lia|]; unfold Z.succ; lia).
        rewrite <- El, Z.bit_log2 in Hb by lia. done. }
    rewrite Hbit. destruct (Z.ltb_spec f (2 ^ k)) as [Hlt|Hge]; cbn [negb].
    + rewrite Z.quot_div_nonneg by lia. replace (2 ^ k / 2) with (2 ^ (k - 1)).
      2: { replace (2 ^ k) with (2 ^ (k - 1) * 2) by (rewrite Z.mul_comm, <- Z.pow_succ_r by lia; f_equal; lia). by rewrite Z.div_mul by lia. }
      apply IH; [lia|lia|]. replace (k - 1 + 1) with k by lia. lia.
    + rewrite (proj2 (Z.ltb_ge f 2)).
      2: { transitivity (2 ^ k); [|done]. change 2 with (2 ^ 1) at 1. apply Z.pow_le_mono_r; lia. }
      do 2 f_equal. symmetry. apply Z.log2_unique; [lia|]. unfold Z.succ. lia.
Qed.

Section programming.
Context `{Device}.
Implicit Types (t : Trace).

(** The nibbles of the byte written to register A, for each of the 256 times
    16 bytes and rates. *)
Definition nibblesKept (a rate : nat) : bool :=
  Z.lor (Z.land (Z.of_nat a) 0xF0) (Z.of_nat rate) =? 16 * (Z.of_nat a / 16) + Z.of_nat rate.

Lemma nibblesKept_all : forallb (fun a => forallb (nibblesKept a) (seq 0 16)) (seq 0 256) = true.
Proof. by vm_compute. Qed.

Lemma rateByte a rate : is_u8 a -> 0 <= rate < 16 -> Z.lor (Z.land a 0xF0) rate = 16 * (a / 16) + rate.
Proof.
  unfold is_u8. intros Ha Hr. pose proof nibblesKept_all as Hall. rewrite forallb_forall in Hall.
  specialize (Hall (Z.to_nat a)). rewrite forallb_forall in Hall. unfold nibblesKept in Hall.
  specialize (Hall ltac:(apply in_seq; lia) (Z.to_nat rate) ltac:(apply in_seq; lia)). rewrite !Z2Nat.id in Hall by lia. by apply Z.eqb_eq.
Qed.

(** C38: a frequency from 2 to 8192 is rounded down to a power of two: the rate
    in the lower half of register A makes the clock interrupt that often, the
    upper half of the register is kept, and task switching goes on.  Other
    frequencies leave the clock alone. *)
Theorem setTimerFrequency_rate c f t :
  is_u32 f ->
  if (2 <=? f) && (f <=? 8192) then
    exists a b rate, setTimerFrequency (Some c) f t =
        ([PortByteOut 0x71 b; PortByteOut 0x70 0x8A; PortByteIn 0x71; PortByteOut 0x70 0x8A] ++ t, Ok (Some (withPaused c false))) /\
      a = respond ([PortByteIn 0x71; PortByteOut 0x70 0x8A] ++ t) mod 2 ^ 8 /\ is_u8 b /\ b / 16 = a / 16 /\ b mod 16 = rate /\
      3 <= rate <= 15 /\ rtcInterruptsPerSecond rate = 2 ^ Z.log2 f /\ 2 ^ Z.log2 f <= f < 2 * 2 ^ Z.log2 f
  else setTimerFrequency (Some c) f t = (t, Ok (Some c)).
Proof.
  intros Hf. unfold setTimerFrequency. destruct (Z.ltb_spec 8192 f) as [Hbig|Hbig].
  { by rewrite (proj2 (Z.leb_gt f 8192)), andb_false_r by lia. }
  rewrite (proj2 (Z.leb_le f 8192)), andb_true_r by lia. destruct (Z.ltb_spec f 2) as [Hsmall|Hsmall].
  { by rewrite (proj2 (Z.leb_gt 2 f)) by lia. }
  rewrite (proj2 (Z.leb_le 2 f)) by lia.
  assert (Hlog : 1 <= Z.log2 f <= 13).
  { split; [apply (Z.log2_le_mono 2); lia|]. apply (Z.log2_le_mono f 8192). lia. }
  change 8192 with (2 ^ 13). rewrite (rateLoop_spec 13 f 13) by (done || lia). rewrite (proj2 (Z.ltb_ge f 2)) by lia.
  set (a := respond ([PortByteIn 0x71; PortByteOut 0x70 0x8A] ++ t) mod 2 ^ 8).
  assert (Ha : is_u8 a) by (apply Z.mod_pos_bound; lia).
  pose proof (rateByte a (16 - Z.log2 f) Ha ltac:(lia)) as Hb.
  exists a, (16 * (a / 16) + (16 - Z.log2 f)), (16 - Z.log2 f). unfold is_u8 in *.
  assert (Hu : u8 (16 * (a / 16) + (16 - Z.log2 f)) = 16 * (a / 16) + (16 - Z.log2 f)) by (unfold u8; dlia).
  split_and!; try lia; try dlia.
  - rewrite <- Hu at 1. rewrite <- Hb. reflexivity.
  - unfold rtcInterruptsPerSecond. replace (16 - Z.log2 f - 1) with (15 - Z.log2 f) by lia.
    change 0x8000 with (2 ^ 15). rewrite <- Z.pow_sub_r by lia. f_equal. lia.
  - apply Z.log2_spec. lia.
  - pose proof (Z.log2_spec f ltac:(lia)) as [_ Hlt]. rewrite Z.pow_succ_r in Hlt by lia. lia.
Qed.

(** The interval timer: the two bytes make a divider that is never 0 and does
    not make the timer slower than asked, except where the chip cannot. *)
Theorem bindTimer_divider this f im t :
  is_u32 f -> zlength (interruptHandlers im) = IDT_ENTRIES ->
  let tm := newTimer f in
  exists lo hi d im', bindTimer this tm (Some im) t = ([PortByteOut 0x40 hi; PortByteOut 0x40 lo; PortByteOut 0x43 0x36] ++ t, Ok (Some im')) /\
    d = lo + 256 * hi /\ 1 <= d <= 0xFFFF /\ 1 <= frequency tm <= 1193182 /\ d * frequency tm <= 1193182 /\
    (d < 0xFFFF -> 1193182 < (d + 1) * frequency tm) /\
    (interruptHandlers im').[PITTimer] = Some (this, timerHandler).
Proof.
  intros Hf Him tm. assert (Hfreq : 1 <= frequency tm <= 1193182).
  { unfold is_u32 in Hf. cbn. destruct (Z.eqb_spec f 0); [done|]. destruct (Z.ltb_spec 1193182 f); cbn [orb]; lia. }
  set (q := 1193182 / frequency tm). assert (Hq : 1 <= q <= 1193182) by (unfold q; split; [apply Z.div_le_lower_bound; lia|apply Z.div_le_upper_bound; nia]).
  pose proof (Z.div_mod 1193182 (frequency tm) ltac:(lia)) as Hdm. pose proof (Z.mod_pos_bound 1193182 (frequency tm) ltac:(lia)) as Hr. fold q in Hdm.
  set (d := timerDivider tm). assert (Hd : d = Z.min q 0xFFFF).
  { unfold d, timerDivider. fold q. destruct (Z.ltb_spec 0xFFFF q); [lia|]. change 0xFFFF with (Z.ones 16) at 1. rewrite Z.land_ones, Z.mod_small by lia. lia. }
  assert (Hbytes : Z.land d 0xFF = d mod 256 /\ Z.land (Z.shiftr d 8) 0xFF = d / 256).
  { change 0xFF with (Z.ones 8). rewrite !Z.land_ones, Z.shiftr_div_pow2 by lia. change (2 ^ 8) with 256. split; [done|dlia]. }
  destruct (znth_lt_Some (interruptHandlers im) PITTimer) as [h Hh]; [rewrite Him; unfold PITTimer, IDT_ENTRIES; lia|].
  set (hs := (interruptHandlers im).[PITTimer := (this, snd h)]).
  exists (d mod 256), (d / 256), d, (mkInterruptHandlerManager (idt im) hs.[PITTimer := (this, timerHandler)]).
  assert (Hhs : hs.[PITTimer] = Some (this, snd h)) by (apply znth_zset_eq; rewrite Him; unfold PITTimer, IDT_ENTRIES; lia).
  split_and!; try lia; try dlia.
  - assert (E : bindTimer this tm (Some im) t =
      ([PortByteOut 0x40 (u8 (Z.land (Z.shiftr d 8) 0xFF)); PortByteOut 0x40 (u8 (Z.land d 0xFF)); PortByteOut 0x43 0x36] ++ t,
       (im ← setInterruptHandlerParam im PITTimer this; im ← setInterruptHandler im PITTimer timerHandler; Ok (Some im)))).
    { unfold bindTimer. cbv zeta. fold d. unfold mbind, IO_bind, lift, portByteOut, access. cbv beta iota.
      destruct (setInterruptHandlerParam im PITTimer this) as [im1|]; cbn [mbind result_bind]; [|done].
      destruct (setInterruptHandler im1 PITTimer timerHandler); done. }
    rewrite E. destruct Hbytes as [-> ->]. unfold setInterruptHandlerParam, setInterruptHandler.
    change (CUSTOM7 <? PITTimer) with false. cbn [andb]. rewrite Hh. cbn [mbind result_bind orFault fst snd interruptHandlers idt]. fold hs. rewrite Hhs.
    cbn [mbind result_bind orFault fst snd]. unfold u8. rewrite !Z.mod_small by dlia. reflexivity.
  - cbn [interruptHandlers]. apply znth_zset_eq. unfold hs. rewrite zlength_zset, Him. unfold PITTimer, IDT_ENTRIES. lia.
Qed.
End programming.

(** ** At twenty interrupts a second *)

Example setTimerFrequency_rate_witness : is_u32 20 /\
  exists a b rate, @setTimerFrequency (fun _ => 0x26) (Some (newCpuCore newSocketManager 0x100000 (mkPagingStructures (mkPageDirectory [] []) []))) 20 [] =
      ([PortByteOut 0x71 b; PortByteOut 0x70 0x8A; PortByteIn 0x71; PortByteOut 0x70 0x8A],
       Ok (Some (withPaused (newCpuCore newSocketManager 0x100000 (mkPagingStructures (mkPageDirectory [] []) [])) false))) /\
    a = 0x26 /\ is_u8 b /\ b / 16 = a / 16 /\ b mod 16 = rate /\
    3 <= rate <= 15 /\ rtcInterruptsPerSecond rate = 16 /\ 16 <= 20 < 32.
Proof.
  assert (Hf : is_u32 20) by by split.
  split; [exact Hf|].
  exact (@setTimerFrequency_rate (fun _ => 0x26) (newCpuCore newSocketManager 0x100000 (mkPagingStructures (mkPageDirectory [] []) [])) 20 [] Hf).
Defined.
