(* ===== verification/PhysicalNetworkInterface.v ===== *)
(** The network card driver:
    [operating_system/global_resources/physical_network_interface.{h,cpp}].

    The card is the [Device] of [Devices]; its registers are memory mapped or
    behind two I/O ports.  The descriptor rings live in memory the card writes
    too: what it writes there (the status of a descriptor, received frames) is
    not part of these operations, which take the rings as they find them.  A
    transmit descriptor is its 16 bytes, since the code lays three structures
    over it. *)
From S2P Require Import Prelude Mem LinkedLists NetworkStackHandler CpuCore Syscalls Devices.

Definition NUM_RX_DESCRIPTORS : Z := 32.
Definition NUM_TX_DESCRIPTORS : Z := 8.
Definition TX_BUFFER_SIZE : Z := 16288.

Definition INTEL_82540EM_DEVICE_ID : Z := 0x100E.
Definition INTEL_PCI_VENDOR_ID : Z := 0x8086.
Definition ETHERNET_ADAPTER_CLASS_CODE : Z := 0x20000.
Definition STATUS_AND_COMMAND_REGISTER_OFFSET : Z := 0x4.
Definition CLASS_CODE_AND_REVISION_OFFSET : Z := 0x8.
Definition RESERVED_BAR_OFFSET : Z := 0x20.
Definition MEM_BAR_OFFSET : Z := 0x10.
Definition IO_BAR_OFFSET : Z := 0x18.
Definition MAX_LAT_MIN_GRANT_INT_PIN_INT_LINE_OFFSET : Z := 0x3C.

Definition DEVICE_CONTROL_REGISTER : Z := 0x0.
Definition EEPROM_READ_REGISTER : Z := 0x14.
Definition MULTICAST_TABLE_ARRAY_FIRST_REGISTER : Z := 0x5200.
Definition INTERRUPT_MASK_SR_REGISTER : Z := 0xD0.
Definition INTERRUPT_MASK_C_REGISTER : Z := 0xD8.
Definition INTERRUPT_CAUSE_READ_REGISTER : Z := 0xC0.
Definition RX_TAIL_REGISTER : Z := 0x2818.
Definition TX_TAIL_REGISTER : Z := 0x3818.

(** [RCTL_EN | RCTL_SBP | RCTL_UPE | RCTL_MPE | RCTL_LBM_NONE |
    RTCL_RDMTS_HALF | RCTL_BAM | RCTL_SECRC | RCTL_BSIZE_2048] *)
Definition RCTL_VALUE : Z :=
  fold_left Z.lor [Z.shiftl 1 2; Z.shiftl 1 3; Z.shiftl 1 4; Z.shiftl 0 6; Z.shiftl 0 8; Z.shiftl 1 15; Z.shiftl 1 26; Z.shiftl 0 16]
    (Z.shiftl 1 1).
(** [TCTL_EN | TCTL_PSP | (15 << TCTL_CT_SHIFT) | (64 << TCTL_COLD_SHIFT) | TCTL_RTLC] *)
Definition TCTL_VALUE : Z :=
  fold_left Z.lor [Z.shiftl 1 3; Z.shiftl 15 4; Z.shiftl 64 12; Z.shiftl 1 24] (Z.shiftl 1 1).
(** [CMD_EOP | CMD_IFCS | CMD_RS] *)
Definition LEGACY_CMD : Z := Z.lor (Z.lor (Z.shiftl 1 0) (Z.shiftl 1 1)) (Z.shiftl 1 3).
Definition TSTA_DD : Z := 1.

Record e1000RxDesc := mkE1000RxDesc {
  rxAddrLow : Z;
  rxAddrHigh : Z;
  rxLength : Z;
  rxChecksum : Z;
  rxStatus : Z;
  rxErrors : Z;
  rxSpecial : Z;
}.

Definition setRxStatus (d : e1000RxDesc) (status : Z) : e1000RxDesc :=
  mkE1000RxDesc (rxAddrLow d) (rxAddrHigh d) (rxLength d) (rxChecksum d) status (rxErrors d) (rxSpecial d).

(** The 16 bytes of a transmit descriptor. *)
Definition e1000TxDesc : Type := list Z.

Definition txStatus (d : e1000TxDesc) : result Z := d.[12] ?? OutOfRange.
Definition setTxStatus (d : e1000TxDesc) (status : Z) : e1000TxDesc := d.[12 := status].

Definition e1000TxDescLegacy (addrLow addrHigh length cso cmd status css special : Z) : e1000TxDesc :=
  le32 addrLow ++ le32 addrHigh ++ le16 length ++ [cso; cmd; status; css] ++ le16 special.

Definition e1000TxDescTCPIPContext (ipcss ipcso ipcse tucss tucso tucse paylenLow paylenHighAndDtyp tucmd staAndRsv hdrlen mss : Z)
  : e1000TxDesc :=
  [ipcss; ipcso] ++ le16 ipcse ++ [tucss; tucso] ++ le16 tucse ++ le16 paylenLow ++
  [paylenHighAndDtyp; tucmd; staAndRsv; hdrlen] ++ le16 mss.

Definition e1000TxDescTCPIPData (addrLow addrHigh dtalenLow dtalenHighAndDtype dcmd staAndRsv popts special : Z) : e1000TxDesc :=
  le32 addrLow ++ le32 addrHigh ++ le16 dtalenLow ++ [dtalenHighAndDtype; dcmd; staAndRsv; popts] ++ le16 special.

(** Where the arrays of the object are. *)
Record Layout := mkLayout {
  rxDescsAddr : Z;
  txDescsAddr : Z;
  rxBufferSpace : Z;
  txBufferSpace : Z;
}.

(** How the registers are reached. *)
Record RegisterAccess := mkRegisterAccess {
  ioBase : Z;
  usingMemMappedRegisters : bool;
}.

(** [bufferMem] is the memory with the buffers; [pPacketHandler] tells whether
    a packet handler is registered. *)
Record PhysicalNetworkInterface := mkPhysicalNetworkInterface {
  layout : Layout;
  registers : RegisterAccess;
  bufferMem : Mem;
  rxDescs : list e1000RxDesc;
  txDescs : list e1000TxDesc;
  phMac : list Z;
  interruptLine : Z;
  currentRx : Z;
  currentTx : Z;
  interruptsEnabled : bool;
  pPacketHandler : bool;
}.

Definition withRx (p : PhysicalNetworkInterface) ds rx :=
  mkPhysicalNetworkInterface (layout p) (registers p) (bufferMem p) ds (txDescs p) (phMac p) (interruptLine p)
    rx (currentTx p) (interruptsEnabled p) (pPacketHandler p).
Definition withTx (p : PhysicalNetworkInterface) ds tx :=
  mkPhysicalNetworkInterface (layout p) (registers p) (bufferMem p) (rxDescs p) ds (phMac p) (interruptLine p)
    (currentRx p) tx (interruptsEnabled p) (pPacketHandler p).
Definition withBufferMem (p : PhysicalNetworkInterface) m :=
  mkPhysicalNetworkInterface (layout p) (registers p) m (rxDescs p) (txDescs p) (phMac p) (interruptLine p)
    (currentRx p) (currentTx p) (interruptsEnabled p) (pPacketHandler p).
Definition withHandler (p : PhysicalNetworkInterface) enabled handler :=
  mkPhysicalNetworkInterface (layout p) (registers p) (bufferMem p) (rxDescs p) (txDescs p) (phMac p) (interruptLine p)
    (currentRx p) (currentTx p) enabled handler.

Section driver.
Context `{Device}.

(** ** Registers *)

Definition writeCommand (r : RegisterAccess) (address value : Z) : IO () :=
  if usingMemMappedRegisters r then access (RegisterWrite (u32 (ioBase r + address)) (u32 value))
  else portDwordOut (ioBase r) address ;; portDwordOut (ioBase r + 4) value.

Definition readCommand (r : RegisterAccess) (address : Z) : IO Z :=
  if usingMemMappedRegisters r then accessRead (RegisterRead (u32 (ioBase r + address))) 32
  else portDwordOut (ioBase r) address ;; portDwordIn (ioBase r + 4).

(** The loop that waits for the EEPROM: the register once bit 4 is set. *)
Fixpoint pollEEPROM (fuel : nat) (r : RegisterAccess) : IO Z :=
  match fuel with
  | O => lift (Fault OutOfFuel)
  | S fuel =>
      tmp ← readCommand r EEPROM_READ_REGISTER;
      if Z.land tmp 0x10 =? 0 then pollEEPROM fuel r else mret tmp
  end.

Definition readEEPROM (fuel : nat) (r : RegisterAccess) (addr : Z) : IO Z :=
  writeCommand r EEPROM_READ_REGISTER (Z.lor 1 (Z.shiftl addr 8)) ;;
  tmp ← pollEEPROM fuel r;
  mret (u16 (Z.land (Z.shiftr tmp 16) 0xFFFF)).

(** ** Finding the card *)

(** The loop over the slots of a bus. *)
Fixpoint findSlot (n : nat) (bus slot : Z) : IO (option Z) :=
  match n with
  | O => mret None
  | S n =>
      id ← pciReadDword bus slot 0 0;
      if id =? Z.lor (Z.shiftl INTEL_82540EM_DEVICE_ID 16) INTEL_PCI_VENDOR_ID then
        class ← pciReadDword bus slot 0 CLASS_CODE_AND_REVISION_OFFSET;
        if Z.shiftr class 8 =? ETHERNET_ADAPTER_CLASS_CODE then mret (Some slot) else findSlot n bus (slot + 1)
      else findSlot n bus (slot + 1)
  end.

Fixpoint findCard (n : nat) (bus : Z) : IO (option (Z * Z)) :=
  match n with
  | O => mret None
  | S n =>
      slot ← findSlot 32 bus 0;
      match slot with
      | Some slot => mret (Some (bus, slot))
      | None => findCard n (bus + 1)
      end
  end.

Definition enableBusMastering (bus slot statusAndCommand : Z) : IO () :=
  if Z.land statusAndCommand 4 =? 0 then
    pciWriteDword bus slot 0 0x4 (Z.lor statusAndCommand 4) ;;
    again ← pciReadDword bus slot 0 STATUS_AND_COMMAND_REGISTER_OFFSET;
    if Z.land again 4 =? 0 then halt else mret tt
  else mret tt.

Definition ioBarUnusable (ioBar2 : Z) : bool :=
  (Z.land ioBar2 0x1 =? 0) || negb (Z.land ioBar2 0x6 =? 0) || (Z.land ioBar2 0xFFFFFFF8 =? 0).

Definition chooseIoBar (bus slot : Z) : IO RegisterAccess :=
  ioBar2 ← pciReadDword bus slot 0 IO_BAR_OFFSET;
  if ioBarUnusable ioBar2 then halt else mret (mkRegisterAccess (Z.land ioBar2 0xFFFFFFF8) false).

Definition chooseRegisters (bus slot : Z) (shouldAttemptUsingMemRegisters : bool) : IO RegisterAccess :=
  if shouldAttemptUsingMemRegisters then
    ioBar0 ← pciReadDword bus slot 0 MEM_BAR_OFFSET;
    if negb (Z.land ioBar0 0x1 =? 0) || negb (Z.land ioBar0 0x6 =? 0) || (Z.land ioBar0 0xFFFFFFF0 =? 0)
    then chooseIoBar bus slot
    else mret (mkRegisterAccess (Z.land ioBar0 0xFFFFFFF0) true)
  else chooseIoBar bus slot.

(** The reads of the MAC address, two bytes a turn. *)
Definition readMac (fuel : nat) (r : RegisterAccess) : IO (list Z) :=
  for_rangeIO 3 0 (fun i mac =>
    eepromRetValue ← readEEPROM fuel r i;
    mret (mac ++ [Z.land eepromRetValue 0xFF; u8 (Z.shiftr eepromRetValue 8)])) [].

(** ** The rings *)

Definition rxInit (l : Layout) (r : RegisterAccess) (ds : list e1000RxDesc) : IO (list e1000RxDesc) :=
  ds ← for_rangeIO (Z.to_nat NUM_RX_DESCRIPTORS) 0 (fun i ds =>
         d ← lift (ds.[i] ?? OutOfRange);
         mret ds.[i := mkE1000RxDesc (u32 (rxBufferSpace l + RX_BUFFER_SIZE * i)) 0 (rxLength d) (rxChecksum d) 0
                         (rxErrors d) (rxSpecial d)]) ds;
  writeCommand r 0x2800 (rxDescsAddr l) ;;
  writeCommand r 0x2804 0 ;;
  writeCommand r 0x2808 (32 * 16) ;;
  writeCommand r 0x2810 0 ;;
  writeCommand r RX_TAIL_REGISTER (32 - 1) ;;
  writeCommand r 0x0100 RCTL_VALUE ;;
  mret ds.

Definition txInit (l : Layout) (r : RegisterAccess) (ds : list e1000TxDesc) : IO (list e1000TxDesc) :=
  ds ← for_rangeIO (Z.to_nat NUM_TX_DESCRIPTORS) 0 (fun i ds =>
         d ← lift (ds.[i] ?? OutOfRange); mret ds.[i := setTxStatus d TSTA_DD]) ds;
  writeCommand r 0x3800 (txDescsAddr l) ;;
  writeCommand r 0x3804 0 ;;
  writeCommand r 0x3808 (8 * 16) ;;
  writeCommand r 0x3810 0 ;;
  writeCommand r TX_TAIL_REGISTER 0 ;;
  writeCommand r 0x0400 TCTL_VALUE ;;
  writeCommand r 0x0400 805564666 (* 0b0110000000000111111000011111010 *) ;;
  writeCommand r 0x0410 0x0060200A ;;
  mret ds.

Definition ipContext : e1000TxDesc :=
  e1000TxDescTCPIPContext 14 (14 + 10) (14 + 19) 0 0 0 0 0
    (fold_left Z.lor [Z.shiftl 1 1; Z.shiftl 1 3; Z.shiftl 1 5; Z.shiftl 0 7] (Z.shiftl 0 0)) 0 0 0.

(** The constructor, once the card is found: [fuel] bounds the waits for the
    EEPROM, [rx] and [tx] are the descriptors of the uninitialised object. *)
Definition setUpCard (fuel : nat) (l : Layout) (m : Mem) (rx : list e1000RxDesc) (tx : list e1000TxDesc) (bus slot : Z)
  : IO PhysicalNetworkInterface :=
  statusAndCommand ← pciReadDword bus slot 0 STATUS_AND_COMMAND_REGISTER_OFFSET;
  enableBusMastering bus slot statusAndCommand ;;
  allZeros ← pciReadDword bus slot 0 RESERVED_BAR_OFFSET;
  if negb (allZeros =? 0) then halt
  else
    r ← chooseRegisters bus slot (negb (Z.land statusAndCommand 0x2 =? 0));
    writeCommand r EEPROM_READ_REGISTER 0x1 ;;
    eepromBar ← readCommand r EEPROM_READ_REGISTER;
    if Z.land eepromBar 0x10 =? 0 then halt
    else
      mac ← readMac fuel r;
      ctrlRegister ← readCommand r DEVICE_CONTROL_REGISTER;
      writeCommand r DEVICE_CONTROL_REGISTER (Z.lor ctrlRegister 0x40) ;;
      for_rangeIO 128 0 (fun i _ => writeCommand r (MULTICAST_TABLE_ARRAY_FIRST_REGISTER + i * 4) 0) tt ;;
      line ← pciReadDword bus slot 0 MAX_LAT_MIN_GRANT_INT_PIN_INT_LINE_OFFSET;
      writeCommand r INTERRUPT_MASK_SR_REGISTER 0xFFFF ;;
      writeCommand r INTERRUPT_MASK_C_REGISTER 0xFFFF ;;
      readCommand r INTERRUPT_CAUSE_READ_REGISTER ;;
      rx ← rxInit l r rx;
      tx ← txInit l r tx;
      writeCommand r TX_TAIL_REGISTER 0 ;;
      mret (mkPhysicalNetworkInterface l r m rx tx.[0 := ipContext] mac (Z.land line 0xFF) 0 ((0 + 1) mod NUM_TX_DESCRIPTORS)
              false false).

Definition newPhysicalNetworkInterface (fuel : nat) (l : Layout) (m : Mem) (rx : list e1000RxDesc) (tx : list e1000TxDesc)
  : IO PhysicalNetworkInterface :=
  card ← findCard 256 0;
  match card with
  | None => halt
  | Some (bus, slot) => setUpCard fuel l m rx tx bus slot
  end.

(** The address in the buffer space, or [nullptr]. *)
Definition getWriteBuffer (p : PhysicalNetworkInterface) : result (option Z) :=
  d ← (txDescs p).[currentTx p] ?? OutOfRange;
  status ← txStatus d;
  Ok (if status =? 0 then None else Some (txBufferSpace (layout p) + TX_BUFFER_SIZE * currentTx p)).

(** What the stack handler writes to the buffer it was given. *)
Definition physWriteFrame (p : PhysicalNetworkInterface) (writeBuffer : option Z) (frame : list Z) : PhysicalNetworkInterface :=
  match writeBuffer with
  | Some w => withBufferMem p (storeBytes (bufferMem p) w frame)
  | None => p
  end.

Definition finishWriteBuffer (p : PhysicalNetworkInterface) (length : Z) (isIpv4Packet : bool) : IO PhysicalNetworkInterface :=
  if length <? ETHERNET_SIMPLE_HEADER_SIZE then mret p
  else if ETHERNET_MTU + ETHERNET_SIMPLE_HEADER_SIZE <? length then mret p
  else
    d ← lift ((txDescs p).[currentTx p] ?? OutOfRange);
    status ← lift (txStatus d);
    if status =? 0 then mret p
    else if isIpv4Packet && (length <? IPV4_MINIMAL_HEADER_SIZE + ETHERNET_SIMPLE_HEADER_SIZE) then mret p
    else
      let addr := u32 (txBufferSpace (layout p) + TX_BUFFER_SIZE * currentTx p) in
      let desc :=
        if negb isIpv4Packet then e1000TxDescLegacy addr 0 length 0 LEGACY_CMD 0 0 0
        else e1000TxDescTCPIPData addr 0 length (Z.shiftl 1 4)
               (fold_left Z.lor [Z.shiftl 0 1; Z.shiftl 1 3; Z.shiftl 1 5; Z.shiftl 0 7] (Z.shiftl 1 0)) 0
               (Z.lor (Z.shiftl 1 0) (Z.shiftl 0 1)) 0 in
      let tx := (currentTx p + 1) mod NUM_TX_DESCRIPTORS in
      writeCommand (registers p) TX_TAIL_REGISTER tx ;;
      mret (withTx p (txDescs p).[currentTx p := desc] tx).

Definition getReadBuffer (p : PhysicalNetworkInterface) : result (option (Z * Z)) :=
  d ← (rxDescs p).[currentRx p] ?? OutOfRange;
  Ok (if Z.land (rxStatus d) 0x1 =? 0 then None
      else Some (rxBufferSpace (layout p) + RX_BUFFER_SIZE * currentRx p, rxLength d)).

Definition finishReadBuffer (p : PhysicalNetworkInterface) : IO PhysicalNetworkInterface :=
  d ← lift ((rxDescs p).[currentRx p] ?? OutOfRange);
  if Z.land (rxStatus d) 0x1 =? 0 then mret p
  else
    writeCommand (registers p) RX_TAIL_REGISTER (currentRx p) ;;
    mret (withRx p (rxDescs p).[currentRx p := setRxStatus d 0] ((currentRx p + 1) mod NUM_RX_DESCRIPTORS)).

(** ** The interrupt *)

Inductive E1000InterruptCause :=
| LinkStatusChanged
| RXMinThresholdReached
| ReceiverTimerInterrupt
| UnknownCause.

Definition interruptCauseOf (status : Z) : E1000InterruptCause :=
  if negb (Z.land status 0x04 =? 0) then LinkStatusChanged
  else if negb (Z.land status 0x10 =? 0) then RXMinThresholdReached
  else if negb (Z.land status 0x80 =? 0) then ReceiverTimerInterrupt
  else UnknownCause.

Section interrupt.
(** The registered packet handler, with a state of its own. *)
Context {C : Type} (call : PhysicalNetworkInterface * C -> Z -> Z -> IO (PhysicalNetworkInterface * C)).

(** The loop over the received frames. *)
Fixpoint readFrames (handler : bool) (fuel : nat) (st : PhysicalNetworkInterface * C) : IO (PhysicalNetworkInterface * C) :=
  match fuel with
  | O => lift (Fault OutOfFuel)
  | S fuel =>
      readBuffer ← lift (getReadBuffer (fst st));
      match readBuffer with
      | None => mret st
      | Some (b, len) =>
          st ← (if handler then call st b len else mret st);
          p ← finishReadBuffer (fst st);
          readFrames handler fuel (p, snd st)
      end
  end.

(** One turn per descriptor and the one that finds no frame. *)
Definition READ_FUEL : nat := 33.

Definition handlePhysicalNetworkInterfaceInterrupt (st : PhysicalNetworkInterface * C) : IO (PhysicalNetworkInterface * C) :=
  let r := registers (fst st) in
  status ← readCommand r INTERRUPT_CAUSE_READ_REGISTER;
  match interruptCauseOf status with
  | LinkStatusChanged =>
      ctrlRegister ← readCommand r DEVICE_CONTROL_REGISTER;
      writeCommand r DEVICE_CONTROL_REGISTER (Z.lor ctrlRegister 0x40) ;;
      mret st
  | ReceiverTimerInterrupt => readFrames (pPacketHandler (fst st)) READ_FUEL st
  | _ => mret st
  end.
End interrupt.

(** [this] is the address of the object. *)
Definition registerPacketHandler (p : PhysicalNetworkInterface) (im : InterruptHandlerManager) (this : Z)
  : IO (PhysicalNetworkInterface * InterruptHandlerManager) :=
  if negb (interruptsEnabled p) then
    interruptType ← lift (if interruptLine p =? 9 then Ok 41
                          else if interruptLine p =? 10 then Ok 42
                          else if interruptLine p =? 11 then Ok 43
                          else Fault Halted);
    im ← lift (setInterruptHandlerParam im interruptType this);
    im ← lift (setInterruptHandler im interruptType physicalInterfaceHandler);
    writeCommand (registers p) INTERRUPT_MASK_SR_REGISTER (Z.lor (Z.lor 0x04 0x10) 0x80) ;;
    readCommand (registers p) INTERRUPT_CAUSE_READ_REGISTER ;;
    mret (withHandler p true true, im)
  else mret (withHandler p (interruptsEnabled p) true, im).
End driver.
