(* ===== verification/PhysicalFacts.v ===== *)
(** What the network card driver promises: registers are written alike in both
    access modes, the transmit ring is a queue of what waits to be sent, the
    interrupt hands every received frame to the packet handler, and an
    interrupt between taking and finishing a write buffer loses the frame. *)
From S2P Require Import Prelude Mem LinkedLists NetworkStackHandler CpuCore Syscalls Devices PhysicalNetworkInterface.

(** ** Register accesses *)

(** The register the port-mapped card has been pointed at. *)
Fixpoint selected (r : RegisterAccess) (t : Trace) : Z :=
  match t with
  | [] => 0
  | PortDwordOut port v :: t => if port =? u16 (ioBase r) then v else selected r t
  | _ :: t => selected r t
  end.

(** The register writes of a trace, the last one first. *)
Fixpoint registerWrites (r : RegisterAccess) (t : Trace) : list (Z * Z) :=
  match t with
  | [] => []
  | RegisterWrite a v :: t =>
      if usingMemMappedRegisters r then (u32 (a - ioBase r), v) :: registerWrites r t else registerWrites r t
  | PortDwordOut port v :: t =>
      if negb (usingMemMappedRegisters r) && (port =? u16 (ioBase r + 4)) then (selected r t, v) :: registerWrites r t
      else registerWrites r t
  | _ :: t => registerWrites r t
  end.

(** The value last written to a register. *)
Definition registerValue (r : RegisterAccess) (t : Trace) (address : Z) : option Z :=
  w ← list_find (fun w => fst w = address) (registerWrites r t); Some (snd (snd w)).

Section registers.
Context `{Device}.

Lemma u16_plus4 z : u16 (z + 4) <> u16 z.
Proof. unfold u16. intros E. pose proof (Z.mod_pos_bound z (2 ^ 16)). pose proof (Z.div_mod z (2 ^ 16)).
  pose proof (Z.mod_pos_bound (z + 4) (2 ^ 16)). pose proof (Z.div_mod (z + 4) (2 ^ 16)). lia. Qed.

Lemma u32_offset base a : is_u32 a -> u32 (u32 (base + a) - base) = a.
Proof. intros Ha. unfold u32. rewrite Zminus_mod_idemp_l, Z.add_simpl_l. by apply Z.mod_small. Qed.

(** The accesses of a write, and what they mean to the card. *)
Lemma writeCommand_runs r a v t :
  is_u32 a -> is_u32 v ->
  exists t', writeCommand r a v t = (t', Ok tt) /\ registerWrites r t' = (a, v) :: registerWrites r t.
Proof.
  intros Ha Hv. unfold writeCommand. destruct (usingMemMappedRegisters r) eqn:E; eexists; (split; [reflexivity|]); cbn [registerWrites selected].
  - rewrite E, u32_offset, u32_small by done. done.
  - rewrite E, !Z.eqb_refl. cbn [negb andb].
    destruct (Z.eqb_spec (u16 (ioBase r)) (u16 (ioBase r + 4))) as [X|_]; [by apply eq_sym, u16_plus4 in X|].
    by rewrite !u32_small by done.
Qed.

Lemma readCommand_runs r a t :
  exists t' v, readCommand r a t = (t', Ok v) /\ is_u32 v /\ registerWrites r t' = registerWrites r t.
Proof.
  unfold readCommand. destruct (usingMemMappedRegisters r) eqn:E; eexists _, _; (split; [reflexivity|]); cbn [registerWrites];
    (split; [apply Z.mod_pos_bound; done|]); [done|].
  rewrite E. cbn [negb andb].
  destruct (Z.eqb_spec (u16 (ioBase r)) (u16 (ioBase r + 4))) as [X|_]; [by apply eq_sym, u16_plus4 in X|done].
Qed.

Lemma wp_writeCommand r a v (Q : () -> Trace -> Prop) t :
  is_u32 a -> is_u32 v -> (forall t', registerWrites r t' = (a, v) :: registerWrites r t -> Q tt t') ->
  wp (writeCommand r a v) Q t.
Proof. intros Ha Hv HQ. destruct (writeCommand_runs r a v t Ha Hv) as (t' & E & Ht). unfold wp. rewrite E. by apply HQ. Qed.

Lemma wp_readCommand r a (Q : Z -> Trace -> Prop) t :
  (forall v t', is_u32 v -> registerWrites r t' = registerWrites r t -> Q v t') -> wp (readCommand r a) Q t.
Proof. intros HQ. destruct (readCommand_runs r a t) as (t' & v & E & Hv & Ht). unfold wp. rewrite E. by apply HQ. Qed.
End registers.

(** ** Positions on a ring of [n] *)

Definition ringAt (n base i : Z) : Z := (base + i) mod n.

Lemma ringAt_range n base i : 0 < n -> 0 <= ringAt n base i < n.
Proof. apply Z.mod_pos_bound. Qed.

Lemma ringAt_0 n base : 0 <= base < n -> ringAt n base 0 = base.
Proof. intros. unfold ringAt. rewrite Z.add_0_r. by apply Z.mod_small. Qed.

Lemma ringAt_succ n base i : ringAt n ((base + 1) mod n) i = ringAt n base (i + 1).
Proof. unfold ringAt. rewrite Zplus_mod_idemp_l. f_equal. lia. Qed.

Lemma ringAt_inj n base i j : 0 <= i < n -> 0 <= j < n -> ringAt n base i = ringAt n base j -> i = j.
Proof.
  unfold ringAt. intros Hi Hj E. assert (H : (i - j) mod n = 0).
  { replace (i - j) with ((base + i) - (base + j)) by lia. by rewrite Zminus_mod, E, Z.sub_diag, Z.mod_0_l by lia. }
  apply Z.mod_divide in H as [k Hk]; [|lia]. assert (k = 0) by nia. lia.
Qed.

Lemma ringAt_next n base i : (ringAt n base i + 1) mod n = ringAt n base (i + 1).
Proof. unfold ringAt. rewrite Zplus_mod_idemp_l. f_equal. lia. Qed.

Lemma ringAt_wrap n base i : ringAt n base (n + i) = ringAt n base i.
Proof. unfold ringAt. replace (base + (n + i)) with (base + i + 1 * n) by lia. apply Z_mod_plus_full. Qed.

(** ** The transmit ring *)

(** What a descriptor the card has not dealt with holds: the checksum context,
    or a frame with its checksum flag. *)
Inductive Queued :=
| QContext
| QFrame (bytes : list Z) (isIpv4Packet : bool).

#[export] Instance Queued_eq_dec : EqDecision Queued.
Proof. solve_decision. Defined.

Definition txSlotAddr (p : PhysicalNetworkInterface) (k : Z) : Z := txBufferSpace (layout p) + TX_BUFFER_SIZE * k.

Definition frameDesc (addr length : Z) (isIpv4Packet : bool) : e1000TxDesc :=
  if isIpv4Packet
  then e1000TxDescTCPIPData (u32 addr) 0 length 0x10 0x29 0 1 0
  else e1000TxDescLegacy (u32 addr) 0 length 0 LEGACY_CMD 0 0 0.

Definition holdsQueued (p : PhysicalNetworkInterface) (k : Z) (x : Queued) : Prop :=
  match x with
  | QContext => (txDescs p).[k] = Some ipContext
  | QFrame f ip => (txDescs p).[k] = Some (frameDesc (txSlotAddr p k) (zlength f) ip) /\
      loadBytes (bufferMem p) (txSlotAddr p k) (length f) = f
  end.

(** The slot of the [i]th of [n] waiting descriptors, oldest first. *)
Definition txAt (p : PhysicalNetworkInterface) (n i : Z) : Z := ringAt NUM_TX_DESCRIPTORS (currentTx p - n) i.

Definition acceptable (length : Z) (isIpv4Packet : bool) : bool :=
  (ETHERNET_SIMPLE_HEADER_SIZE <=? length) && (length <=? ETHERNET_MTU + ETHERNET_SIMPLE_HEADER_SIZE) &&
  (negb isIpv4Packet || (IPV4_MINIMAL_HEADER_SIZE + ETHERNET_SIMPLE_HEADER_SIZE <=? length)).

Definition goodQueued (x : Queued) : Prop :=
  match x with QContext => True | QFrame f ip => acceptable (zlength f) ip = true end.

(** The descriptors [q] wait for the card, oldest first; the others are free. *)
Record txRing (p : PhysicalNetworkInterface) (q : list Queued) : Prop := {
  tx_count : zlength (txDescs p) = NUM_TX_DESCRIPTORS;
  tx_sizes : Forall (fun d => zlength d = 16) (txDescs p);
  tx_current : 0 <= currentTx p < NUM_TX_DESCRIPTORS;
  tx_room : zlength q <= NUM_TX_DESCRIPTORS;
  tx_frames : Forall goodQueued q;
  tx_waiting : forall i x, q.[i] = Some x -> holdsQueued p (txAt p (zlength q) i) x;
  tx_free : forall i, zlength q <= i < NUM_TX_DESCRIPTORS ->
    exists d s, (txDescs p).[txAt p (zlength q) i] = Some d /\ txStatus d = Ok s /\ s <> 0;
}.

Lemma ringAt_back n base k i : ringAt n ((base + 1) mod n - (k + 1)) i = ringAt n (base - k) i.
Proof.
  unfold ringAt. replace ((base + 1) mod n - (k + 1) + i) with ((base + 1) mod n + (i - k - 1)) by lia.
  rewrite Zplus_mod_idemp_l. f_equal. lia.
Qed.

Lemma frameDesc_size a n ip : zlength (frameDesc a n ip) = 16.
Proof. by destruct ip. Qed.

Lemma frameDesc_status a n ip : txStatus (frameDesc a n ip) = Ok 0.
Proof. by destruct ip. Qed.

Lemma holdsQueued_status p k x : holdsQueued p k x -> exists d, (txDescs p).[k] = Some d /\ txStatus d = Ok 0.
Proof.
  destruct x as [|f ip]; cbn [holdsQueued]; [intros E; by exists ipContext|]. intros [E _]. eexists. split; [exact E|].
  apply frameDesc_status.
Qed.

Lemma txAt_range p n i : 0 <= txAt p n i < NUM_TX_DESCRIPTORS.
Proof. by apply ringAt_range. Qed.

Lemma txAt_current p n : 0 <= currentTx p < NUM_TX_DESCRIPTORS -> txAt p n n = currentTx p.
Proof. intros Hc. unfold txAt, ringAt. rewrite Z.sub_add. by apply Z.mod_small. Qed.

Lemma txAt_not_current p n i :
  0 <= currentTx p < NUM_TX_DESCRIPTORS -> 0 <= n < NUM_TX_DESCRIPTORS -> 0 <= i < NUM_TX_DESCRIPTORS -> i <> n ->
  currentTx p <> txAt p n i.
Proof. intros Hc Hn Hi Hne E. rewrite <- (txAt_current p n) in E by done. apply ringAt_inj in E; lia. Qed.

(** The status of the current descriptor tells whether the ring is full. *)
Lemma current_status p q :
  txRing p q ->
  exists d s, (txDescs p).[currentTx p] = Some d /\ txStatus d = Ok s /\ (s =? 0) = (zlength q =? NUM_TX_DESCRIPTORS).
Proof.
  intros H. pose proof (tx_room _ _ H) as Hroom. pose proof (tx_current _ _ H) as Hcur. pose proof (zlength_nonneg q) as Hq.
  destruct (Z.eqb_spec (zlength q) NUM_TX_DESCRIPTORS) as [E|E].
  - destruct q as [|x q]; [by rewrite zlength_nil in E|].
    pose proof (tx_waiting _ _ H 0 x eq_refl) as Hx. rewrite E in Hx.
    replace (txAt p NUM_TX_DESCRIPTORS 0) with (currentTx p) in Hx by (unfold txAt, ringAt, NUM_TX_DESCRIPTORS in *; dlia).
    destruct (holdsQueued_status _ _ _ Hx) as (d & Hd & Hs). by exists d, 0.
  - destruct (tx_free _ _ H (zlength q)) as (d & s & Hd & Hs & Hne); [lia|].
    rewrite txAt_current in Hd by done.
    exists d, s. split_and!; try done. by apply Z.eqb_neq.
Qed.

Lemma getWriteBuffer_ring p q :
  txRing p q ->
  getWriteBuffer p = Ok (if zlength q =? NUM_TX_DESCRIPTORS then None else Some (txSlotAddr p (currentTx p))).
Proof.
  intros H. destruct (current_status p q H) as (d & s & Hd & Hs & E). unfold getWriteBuffer.
  rewrite Hd. cbn [mbind result_bind orFault]. rewrite Hs. cbn [mbind result_bind]. by rewrite E.
Qed.

Lemma loadBytes_storeBytes_apart m a b l n :
  a + zlength l <= b \/ b + Z.of_nat n <= a -> loadBytes (storeBytes m a l) b n = loadBytes m b n.
Proof. intros Hd. apply loadBytes_ext. intros x Hx. apply storeBytes_out. lia. Qed.

Lemma txSlots_apart p j k (f g : list Z) :
  j <> k -> 0 <= j -> 0 <= k -> zlength f <= TX_BUFFER_SIZE -> zlength g <= TX_BUFFER_SIZE ->
  txSlotAddr p j + zlength f <= txSlotAddr p k \/ txSlotAddr p k + zlength g <= txSlotAddr p j.
Proof. unfold txSlotAddr, TX_BUFFER_SIZE. lia. Qed.

Lemma acceptable_bounds n ip : acceptable n ip = true -> 14 <= n <= 1514.
Proof.
  unfold acceptable, ETHERNET_SIMPLE_HEADER_SIZE, ETHERNET_MTU. intros. bool_hyps. lia.
Qed.

Lemma acceptable_small n ip : acceptable n ip = true -> n <= TX_BUFFER_SIZE.
Proof. intros ?%acceptable_bounds. unfold TX_BUFFER_SIZE. lia. Qed.

(** A waiting descriptor survives what leaves its descriptor and its bytes. *)
Lemma holdsQueued_frame p p' k x :
  goodQueued x -> layout p' = layout p -> (txDescs p').[k] = (txDescs p).[k] ->
  (forall n, n <= TX_BUFFER_SIZE -> loadBytes (bufferMem p') (txSlotAddr p k) (Z.to_nat n) = loadBytes (bufferMem p) (txSlotAddr p k) (Z.to_nat n)) ->
  holdsQueued p k x -> holdsQueued p' k x.
Proof.
  intros Hg Hl Hd Hm. destruct x as [|f ip]; cbn [holdsQueued]; [by rewrite Hd|].
  assert (Ha : txSlotAddr p' k = txSlotAddr p k) by (unfold txSlotAddr; by rewrite Hl).
  rewrite Ha, Hd. intros [Hx Hb]. split; [done|]. rewrite <- Hb at 2. specialize (Hm (zlength f)).
  unfold zlength in Hm at 2 3. rewrite Nat2Z.id in Hm. apply Hm. by eapply acceptable_small.
Qed.

(** Bytes written to the current buffer do not show. *)
Lemma tx_write p q f :
  txRing p q -> zlength q < NUM_TX_DESCRIPTORS -> zlength f <= TX_BUFFER_SIZE ->
  txRing (physWriteFrame p (Some (txSlotAddr p (currentTx p))) f) q.
Proof.
  intros H Hroom Hf. pose proof (zlength_nonneg q) as Hq. pose proof (zlength_nonneg f) as Hf0.
  destruct H as [H1 H2 H3 H4 H5 H6 H7]. constructor; try done. intros i x Hx.
  pose proof (znth_Some_lt _ _ _ Hx) as Hi. apply (holdsQueued_frame p); [by eapply znth_Forall| | | |by apply H6]; try done.
  intros n Hn. cbn [physWriteFrame withBufferMem bufferMem]. apply loadBytes_storeBytes_apart.
  pose proof (txAt_not_current p (zlength q) i H3 ltac:(lia) ltac:(lia) ltac:(lia)) as Hne.
  change (txAt _ (zlength q) i) with (txAt p (zlength q) i).
  pose proof (txAt_range p (zlength q) i). unfold txSlotAddr, TX_BUFFER_SIZE in *. lia.
Qed.

(** What the two rings do not share. *)
Definition sameRxSide (p p' : PhysicalNetworkInterface) : Prop :=
  layout p' = layout p /\ registers p' = registers p /\ rxDescs p' = rxDescs p /\ currentRx p' = currentRx p /\
  pPacketHandler p' = pPacketHandler p /\ interruptsEnabled p' = interruptsEnabled p /\ phMac p' = phMac p /\
  interruptLine p' = interruptLine p.

(** [p] after its current descriptor is handed to the card. *)
Definition handedOver (p : PhysicalNetworkInterface) (length : Z) (ip : bool) : PhysicalNetworkInterface :=
  withTx p (txDescs p).[currentTx p := frameDesc (txSlotAddr p (currentTx p)) length ip]
    ((currentTx p + 1) mod NUM_TX_DESCRIPTORS).

Lemma tx_push p q length ip :
  txRing p q -> zlength q < NUM_TX_DESCRIPTORS -> acceptable length ip = true ->
  txRing (handedOver p length ip) (q ++ [QFrame (loadBytes (bufferMem p) (txSlotAddr p (currentTx p)) (Z.to_nat length)) ip]).
Proof.
  intros H Hroom Ha. pose proof (zlength_nonneg q) as Hq. pose proof (acceptable_bounds _ _ Ha) as Hlen.
  destruct H as [H1 H2 H3 H4 H5 H6 H7]. set (f := loadBytes _ _ _).
  assert (Hf : zlength f = length) by (unfold f; rewrite zlength_loadBytes; lia).
  assert (Hat : forall i, txAt (handedOver p length ip) (zlength (q ++ [QFrame f ip])) i = txAt p (zlength q) i).
  { intros i. unfold txAt. rewrite zlength_snoc. apply ringAt_back. }
  pose proof (txAt_current p (zlength q) H3) as Hcur.
  assert (Hne : forall i, 0 <= i < NUM_TX_DESCRIPTORS -> i <> zlength q -> currentTx p <> txAt p (zlength q) i).
  { intros i. apply txAt_not_current; lia. }
  constructor; cbn [handedOver withTx txDescs currentTx].
  - by rewrite zlength_zset.
  - apply zset_Forall; [done|apply frameDesc_size].
  - by apply Z.mod_pos_bound.
  - rewrite zlength_snoc. lia.
  - apply Forall_app. split; [done|]. apply Forall_singleton. cbn [goodQueued]. by rewrite Hf.
  - intros i x Hx. rewrite Hat. destruct (decide (i < zlength q)) as [Hi|Hi].
    + rewrite znth_app_l in Hx by done. pose proof (znth_Some_lt _ _ _ Hx).
      apply (holdsQueued_frame p); try done; [by eapply znth_Forall| |by apply H6]. apply znth_zset_ne, Hne; lia.
    + pose proof (znth_Some_lt _ _ _ Hx) as Hb. rewrite zlength_snoc in Hb. replace i with (zlength q) in * by lia.
      rewrite znth_app_r, Z.sub_diag in Hx by lia. injection Hx as <-. rewrite Hcur. cbn [holdsQueued].
      split; [rewrite Hf; apply znth_zset_eq; lia|]. unfold f. by rewrite length_loadBytes.
  - intros i Hi. rewrite Hat. rewrite zlength_snoc in Hi. destruct (H7 i) as (d & s & Hd & Hs); [lia|]. exists d, s.
    split; [|done]. rewrite znth_zset_ne; [done|]. apply Hne; lia.
Qed.

(** The card sets the status of the oldest descriptor. *)
Definition setDescStatus (p : PhysicalNetworkInterface) (k status : Z) : PhysicalNetworkInterface :=
  match (txDescs p).[k] with
  | Some d => withTx p (txDescs p).[k := setTxStatus d status] (currentTx p)
  | None => p
  end.

Lemma setDescStatus_same p k s :
  currentTx (setDescStatus p k s) = currentTx p /\ registers (setDescStatus p k s) = registers p /\
  layout (setDescStatus p k s) = layout p.
Proof. unfold setDescStatus. by destruct (_.[k]). Qed.

Lemma tx_pop p x q s :
  txRing p (x :: q) -> s <> 0 -> txRing (setDescStatus p (txAt p (zlength (x :: q)) 0) s) q.
Proof.
  intros H Hs. pose proof (zlength_nonneg q) as Hq. destruct H as [H1 H2 H3 H4 H5 H6 H7].
  destruct (holdsQueued_status _ _ _ (H6 0 x eq_refl)) as (d & Hd & _). unfold setDescStatus. rewrite Hd.
  rewrite zlength_cons in *. set (k := txAt _ _ 0) in *.
  set (p' := withTx _ _ _). assert (Hat : forall i, txAt p' (zlength q) i = txAt p (zlength q + 1) (i + 1)).
  { intros i. unfold txAt, ringAt. cbn [p' withTx currentTx]. f_equal. lia. }
  assert (Hne : forall i, 0 < i < NUM_TX_DESCRIPTORS -> k <> txAt p (zlength q + 1) i).
  { intros i Hi E. unfold k, txAt in E. apply ringAt_inj in E; unfold NUM_TX_DESCRIPTORS in *; lia. }
  constructor; cbn [p' withTx txDescs currentTx]; try done.
  - by rewrite zlength_zset.
  - apply zset_Forall; [done|]. unfold setTxStatus. rewrite zlength_zset. by apply (znth_Forall _ _ _ _ H2 Hd).
  - lia.
  - by apply (Forall_cons_1 _ _ _ H5).
  - intros i y Hy. rewrite Hat. pose proof (znth_Some_lt _ _ _ Hy) as Hi.
    apply (holdsQueued_frame p); try done.
    + apply (znth_Forall _ q i); [|done]. by apply (Forall_cons_1 _ _ _ H5).
    + apply znth_zset_ne, Hne. lia.
    + apply H6. by rewrite znth_cons_pos, Z.add_simpl_r by lia.
  - intros i Hi. rewrite Hat. destruct (decide (i = NUM_TX_DESCRIPTORS - 1)) as [->|].
    + replace (NUM_TX_DESCRIPTORS - 1 + 1) with (NUM_TX_DESCRIPTORS + 0) by lia.
      assert (E : txAt p (zlength q + 1) (NUM_TX_DESCRIPTORS + 0) = k) by apply ringAt_wrap. rewrite E. exists (setTxStatus d s), s. split_and!; [|unfold txStatus, setTxStatus|done].
      * apply znth_zset_eq. apply (znth_Some_lt _ _ _ Hd).
      * rewrite znth_zset_eq; [done|]. by rewrite (znth_Forall _ _ _ _ H2 Hd).
    + destruct (H7 (i + 1)) as (d' & s' & Hd' & Hs'); [lia|]. exists d', s'. split; [|done].
      rewrite znth_zset_ne; [done|]. apply Hne. lia.
Qed.

Section transmit.
Context `{Device}.

Lemma txFinish_ok p q length ip t :
  txRing p q ->
  if acceptable length ip && (zlength q <? NUM_TX_DESCRIPTORS)
  then exists t', finishWriteBuffer p length ip t = (t', Ok (handedOver p length ip)) /\
    registerWrites (registers p) t' =
      (TX_TAIL_REGISTER, (currentTx p + 1) mod NUM_TX_DESCRIPTORS) :: registerWrites (registers p) t
  else finishWriteBuffer p length ip t = (t, Ok p).
Proof.
  intros Hq. destruct (current_status p q Hq) as (d & s & Hd & Hs & E).
  pose proof (tx_room _ _ Hq) as Hroom. unfold acceptable, finishWriteBuffer.
  destruct (Z.ltb_spec length ETHERNET_SIMPLE_HEADER_SIZE), (Z.leb_spec ETHERNET_SIMPLE_HEADER_SIZE length); try lia; cbn [andb]; [done|].
  destruct (Z.ltb_spec (ETHERNET_MTU + ETHERNET_SIMPLE_HEADER_SIZE) length), (Z.leb_spec length (ETHERNET_MTU + ETHERNET_SIMPLE_HEADER_SIZE));
    try lia; cbn [andb]; [done|].
  rewrite Hd, (runs_bind _ _ t t d) by done. rewrite Hs, (runs_bind _ _ t t s), E by done.
  destruct (Z.eqb_spec (zlength q) NUM_TX_DESCRIPTORS), (Z.ltb_spec (zlength q) NUM_TX_DESCRIPTORS); try lia;
    rewrite ?andb_false_r, ?andb_true_r; [done|].
  assert (Hip : ip && (length <? IPV4_MINIMAL_HEADER_SIZE + ETHERNET_SIMPLE_HEADER_SIZE) =
    negb (negb ip || (IPV4_MINIMAL_HEADER_SIZE + ETHERNET_SIMPLE_HEADER_SIZE <=? length))).
  { destruct ip; [cbn [negb andb orb]|done]. by rewrite Z.leb_antisym, negb_involutive. }
  rewrite Hip. destruct (negb ip || _); cbn [negb]; [|done].
  destruct (writeCommand_runs (registers p) TX_TAIL_REGISTER ((currentTx p + 1) mod NUM_TX_DESCRIPTORS) t) as (t' & Ew & Ht).
  { unfold is_u32, TX_TAIL_REGISTER. lia. }
  { pose proof (Z.mod_pos_bound (currentTx p + 1) NUM_TX_DESCRIPTORS). unfold is_u32, NUM_TX_DESCRIPTORS in *. lia. }
  exists t'. split; [|done]. rewrite (runs_bind _ _ t t' tt) by done. destruct ip; done.
Qed.

(** ** The card at the other end

    The card reads a descriptor as its manual says, and takes descriptors from
    its head on until the head is the tail register, marking each as done. *)

Definition wordOf (d : e1000TxDesc) (k : Z) : option Z :=
  a ← d.[k]; b ← d.[k + 1]; Some (a + 256 * b).

(** Bit 5 of the command byte marks the extended formats, told apart by the
    high bits of the byte before it. *)
Definition cardReads (m : Mem) (d : e1000TxDesc) : option Queued :=
  command ← d.[11];
  dtype ← d.[10];
  if Z.testbit command 5 && (Z.shiftr dtype 4 =? 0) then Some QContext
  else
    low ← wordOf d 0; high ← wordOf d 2; length ← wordOf d 8;
    Some (QFrame (loadBytes m (low + 65536 * high) (Z.to_nat length)) (Z.testbit command 5)).

Record TxSystem := mkTxSystem {
  nic : PhysicalNetworkInterface;
  txTrace : Trace;
  cardHead : Z;
  onWire : list Queued;
}.

Inductive TxOp :=
| Send (frame : list Z) (isIpv4Packet : bool)
| CardSends (status : Z).

Definition txStep (x : TxSystem) (op : TxOp) : result TxSystem :=
  match op with
  | Send f ip =>
      w ← getWriteBuffer (nic x);
      match finishWriteBuffer (physWriteFrame (nic x) w f) (zlength f) ip (txTrace x) with
      | (t, Ok p) => Ok (mkTxSystem p t (cardHead x) (onWire x))
      | (_, Fault e) => Fault e
      end
  | CardSends status =>
      if bool_decide (registerValue (registers (nic x)) (txTrace x) TX_TAIL_REGISTER = Some (cardHead x)) then Ok x
      else
        d ← (txDescs (nic x)).[cardHead x] ?? OutOfRange;
        f ← cardReads (bufferMem (nic x)) d ?? Uninitialised;
        Ok (mkTxSystem (setDescStatus (nic x) (cardHead x) status) (txTrace x) ((cardHead x + 1) mod NUM_TX_DESCRIPTORS)
              (onWire x ++ [f]))
  end.

Fixpoint runTx (x : TxSystem) (ops : list TxOp) : result TxSystem :=
  match ops with
  | [] => Ok x
  | op :: ops => x ← txStep x op; runTx x ops
  end.

(** What the ring amounts to: what waits and what the card has taken.  The
    checksum context of the constructor goes with the first frame, and with
    eight descriptors waiting nothing happens any more. *)
Definition txQueueStep (x : list Queued * list Queued) (op : TxOp) : list Queued * list Queued :=
  let '(waiting, sent) := x in
  match op with
  | Send f ip =>
      if acceptable (zlength f) ip && (zlength waiting <? NUM_TX_DESCRIPTORS) then (waiting ++ [QFrame f ip], sent)
      else x
  | CardSends _ =>
      match waiting with
      | [] => x
      | f :: rest =>
          if bool_decide (waiting = [QContext]) || (zlength waiting =? NUM_TX_DESCRIPTORS) then x else (rest, sent ++ [f])
      end
  end.

Definition goodTxOp (op : TxOp) : Prop :=
  match op with
  | Send f _ => zlength f <= TX_BUFFER_SIZE
  | CardSends status => Z.testbit status 0 = true
  end.

(** The two sides agree. *)
Record txAgree (x : TxSystem) (waiting sent : list Queued) : Prop := {
  ag_ring : txRing (nic x) waiting;
  ag_head : cardHead x = txAt (nic x) (zlength waiting) 0;
  ag_wire : onWire x = sent;
  ag_tail : registerValue (registers (nic x)) (txTrace x) TX_TAIL_REGISTER =
    Some (if bool_decide (waiting = [QContext]) then cardHead x else currentTx (nic x));
  ag_context : Forall (fun f => f <> QContext) (tail waiting);
  ag_layout : 0 <= txBufferSpace (layout (nic x)) <= 2 ^ 32 - TX_BUFFER_SIZE * NUM_TX_DESCRIPTORS;
}.

Lemma registerValue_cons r t a v rest : registerWrites r t = (a, v) :: rest -> registerValue r t a = Some v.
Proof. intros E. unfold registerValue. rewrite E. cbn. by rewrite decide_True. Qed.

Lemma land_FF z : Z.land z 0xFF = z mod 256.
Proof. exact (Z.land_ones z 8 ltac:(lia)). Qed.

Lemma cardReads_holds p k x d :
  0 <= txBufferSpace (layout p) <= 2 ^ 32 - TX_BUFFER_SIZE * NUM_TX_DESCRIPTORS -> 0 <= k < NUM_TX_DESCRIPTORS ->
  goodQueued x -> holdsQueued p k x -> (txDescs p).[k] = Some d -> cardReads (bufferMem p) d = Some x.
Proof.
  intros Hl Hk Hg Hx Hd. destruct x as [|f ip]; cbn [holdsQueued] in Hx; [rewrite Hd in Hx; by injection Hx as ->|].
  destruct Hx as [Hx Hb]. rewrite Hd in Hx. injection Hx as ->. cbn [goodQueued] in Hg. apply acceptable_bounds in Hg.
  set (a := txSlotAddr p k) in *.
  assert (Ha : is_u32 a) by (unfold a, txSlotAddr, is_u32, TX_BUFFER_SIZE, NUM_TX_DESCRIPTORS in *; lia).
  unfold frameDesc. rewrite u32_small by done.
  assert (Hlow : Z.land a 0xFF + 256 * Z.land (Z.shiftr a 8) 0xFF +
    65536 * (Z.land (Z.shiftr a 16) 0xFF + 256 * Z.land (Z.shiftr a 24) 0xFF) = a).
  { rewrite !land_FF, !Z.shiftr_div_pow2 by lia. unfold is_u32 in Ha. dlia. }
  assert (Hlen : Z.land (zlength f) 0xFF + 256 * Z.land (Z.shiftr (zlength f) 8) 0xFF = zlength f).
  { rewrite !land_FF, !Z.shiftr_div_pow2 by lia. dlia. }
  assert (Hf : Z.to_nat (zlength f) = length f) by (unfold zlength; apply Nat2Z.id).
  transitivity (Some (QFrame (loadBytes (bufferMem p) a (Z.to_nat (zlength f))) ip)); [|by rewrite Hf, Hb].
  rewrite <- Hlow at 3. rewrite <- Hlen at 3. by destruct ip.
Qed.

Lemma txStep_simulates x op waiting sent :
  txAgree x waiting sent -> goodTxOp op ->
  exists x', txStep x op = Ok x' /\ txAgree x' (fst (txQueueStep (waiting, sent) op)) (snd (txQueueStep (waiting, sent) op)).
Proof.
  intros Hx Hop. pose proof Hx as [H1 H2 H3 H4 H5 H6]. destruct op as [f ip|status]; cbn [txStep txQueueStep goodTxOp] in *.
  - rewrite (getWriteBuffer_ring _ _ H1). cbn [mbind result_bind]. pose proof (tx_room _ _ H1) as Hroom.
    destruct (Z.ltb_spec (zlength waiting) NUM_TX_DESCRIPTORS) as [Hlt|Hge]; rewrite ?andb_false_r, ?andb_true_r.
    + destruct (Z.eqb_spec (zlength waiting) NUM_TX_DESCRIPTORS); [lia|].
      set (p := physWriteFrame _ _ _). assert (Hp : txRing p waiting) by by apply tx_write.
      pose proof (txFinish_ok p waiting (zlength f) ip (txTrace x) Hp) as Hf.
      destruct (Z.ltb_spec (zlength waiting) NUM_TX_DESCRIPTORS); [|lia]. rewrite andb_true_r in Hf.
      destruct (acceptable (zlength f) ip) eqn:Ha; [|rewrite Hf; eexists; split; [done|]; by constructor].
      destruct Hf as (t' & -> & Ht). eexists. split; [reflexivity|]. cbn [fst snd].
      pose proof (tx_push p waiting (zlength f) ip Hp Hlt Ha) as Hpush.
      assert (Hbytes : loadBytes (bufferMem p) (txSlotAddr p (currentTx p)) (Z.to_nat (zlength f)) = f).
      { unfold zlength. rewrite Nat2Z.id. apply loadBytes_storeBytes. }
      rewrite Hbytes in Hpush. constructor; cbn [nic cardHead onWire txTrace]; try done.
      * rewrite H2, zlength_snoc. symmetry. apply ringAt_back.
      * rewrite bool_decide_false by (by destruct waiting as [|? []]). by eapply registerValue_cons.
      * destruct waiting as [|y w]; [done|]. cbn [app tail]. apply Forall_app. split; [done|]. by apply Forall_singleton.
    + destruct (Z.eqb_spec (zlength waiting) NUM_TX_DESCRIPTORS); [|lia]. cbn [physWriteFrame].
      pose proof (txFinish_ok (nic x) waiting (zlength f) ip (txTrace x) H1) as Hf.
      destruct (Z.ltb_spec (zlength waiting) NUM_TX_DESCRIPTORS); [lia|]. rewrite andb_false_r in Hf. rewrite Hf. eexists. split; [done|]. by constructor.
  - rewrite H4. pose proof (tx_current _ _ H1) as Hcur.
    destruct waiting as [|y rest].
    { rewrite (bool_decide_false ([] = [QContext])), bool_decide_true; [by exists x| |done].
      f_equal. rewrite H2. symmetry. exact (txAt_current (nic x) 0 Hcur). }
    destruct (bool_decide_reflect (y :: rest = [QContext])) as [E|E]; cbn [orb].
    { rewrite bool_decide_true by done. by exists x. }
    destruct (Z.eqb_spec (zlength (y :: rest)) NUM_TX_DESCRIPTORS) as [En|En].
    + rewrite bool_decide_true; [by exists x|].
      rewrite H2, En. f_equal. transitivity (txAt (nic x) NUM_TX_DESCRIPTORS NUM_TX_DESCRIPTORS); [by rewrite txAt_current|].
      exact (ringAt_wrap _ _ 0).
    + pose proof (tx_room _ _ H1) as Hroom. pose proof (zlength_nonneg rest). rewrite zlength_cons in *.
      rewrite bool_decide_false.
      2: { intros [= X]. rewrite H2 in X. eapply (txAt_not_current (nic x) _ 0); [done| | | |exact X]; unfold NUM_TX_DESCRIPTORS in *; lia. }
      pose proof (tx_waiting _ _ H1 0 y eq_refl) as Hy. rewrite zlength_cons, <- H2 in Hy.
      destruct (holdsQueued_status _ _ _ Hy) as (d & Hd & _). rewrite Hd. cbn [mbind result_bind orFault].
      rewrite (cardReads_holds (nic x) (cardHead x) y d); try done.
      2: { rewrite H2. apply txAt_range. } 2: { apply (Forall_cons_1 _ _ _ (tx_frames _ _ H1)). }
      cbn [mbind result_bind orFault]. eexists. split; [reflexivity|]. cbn [fst snd].
      assert (Hs : status <> 0) by (by intros ->). pose proof (tx_pop (nic x) y rest status H1 Hs) as Hpop.
      rewrite zlength_cons, <- H2 in Hpop. cbn [tail] in H5.
      pose proof (setDescStatus_same (nic x) (cardHead x) status) as Hsame.
      destruct Hsame as (S1 & S2 & S3). constructor; cbn [nic cardHead onWire txTrace]; rewrite ?S2, ?S3; try done.
      * unfold txAt. rewrite S1, H2. unfold txAt. rewrite ringAt_next. unfold ringAt. f_equal. lia.
      * by rewrite H3.
      * rewrite H4, S1. destruct (bool_decide_reflect (rest = [QContext])) as [->|]; [|done].
        by apply Forall_cons_1 in H5 as [[] _].
      * destruct rest; [done|]. by apply (Forall_cons_1 _ _ _ H5).
Qed.

Lemma runTx_simulates ops : forall x waiting sent,
  txAgree x waiting sent -> Forall goodTxOp ops ->
  exists x', runTx x ops = Ok x' /\
    txAgree x' (fst (fold_left txQueueStep ops (waiting, sent))) (snd (fold_left txQueueStep ops (waiting, sent))).
Proof.
  induction ops as [|op ops IH]; intros x w s Hx Hops; cbn [runTx fold_left]; [by exists x|].
  apply Forall_cons in Hops as [Hop Hops]. destruct (txStep_simulates x op w s Hx Hop) as (x1 & -> & H1).
  cbn [mbind result_bind]. destruct (txQueueStep (w, s) op) as [w1 s1]. by apply IH.
Qed.
End transmit.

(** ** The receive ring *)

Definition rxSlotAddr (p : PhysicalNetworkInterface) (k : Z) : Z := rxBufferSpace (layout p) + RX_BUFFER_SIZE * k.

Definition received (d : e1000RxDesc) : Prop := Z.land (rxStatus d) 0x1 <> 0.

Definition rxAt (p : PhysicalNetworkInterface) (i : Z) : Z := ringAt NUM_RX_DESCRIPTORS (currentRx p) i.

(** What the card wrote as received has the length of an Ethernet frame. *)
Definition lengthsOk (p : PhysicalNetworkInterface) : Prop :=
  Forall (fun d => received d -> ETHERNET_SIMPLE_HEADER_SIZE <= rxLength d <= RX_BUFFER_SIZE) (rxDescs p).

(** The frames [q] have been received, oldest first; the descriptor after the
    last of them is still the card's. *)
Record rxRing (p : PhysicalNetworkInterface) (q : list (list Z)) : Prop := {
  rx_count : zlength (rxDescs p) = NUM_RX_DESCRIPTORS;
  rx_current : 0 <= currentRx p < NUM_RX_DESCRIPTORS;
  rx_room : zlength q <= NUM_RX_DESCRIPTORS;
  rx_filled : forall i f, q.[i] = Some f ->
    exists d, (rxDescs p).[rxAt p i] = Some d /\ received d /\ rxLength d = zlength f /\
      loadBytes (bufferMem p) (rxSlotAddr p (rxAt p i)) (length f) = f;
  rx_card : zlength q < NUM_RX_DESCRIPTORS -> exists d, (rxDescs p).[rxAt p (zlength q)] = Some d /\ ~ received d;
  rx_sizes : Forall (fun f => ETHERNET_SIMPLE_HEADER_SIZE <= zlength f <= RX_BUFFER_SIZE) q;
}.

Definition inRxBuffers (p : PhysicalNetworkInterface) (a : Z) : Prop :=
  rxBufferSpace (layout p) <= a < rxBufferSpace (layout p) + RX_BUFFER_SIZE * NUM_RX_DESCRIPTORS.

Definition keepsRx (p p' : PhysicalNetworkInterface) : Prop :=
  sameRxSide p p' /\ forall a, inRxBuffers p a -> bufferMem p' a = bufferMem p a.

Lemma rxAt_range p i : 0 <= rxAt p i < NUM_RX_DESCRIPTORS.
Proof. by apply ringAt_range. Qed.

Lemma rx_keeps p p' q : keepsRx p p' -> rxRing p q -> rxRing p' q.
Proof.
  intros [(E1 & E2 & E3 & E4 & _) Hm] [H1 H2 H3 H4 H5 H6].
  assert (Hat : forall i, rxAt p' i = rxAt p i) by (intros; unfold rxAt; by rewrite E4).
  assert (Ha : forall k, rxSlotAddr p' k = rxSlotAddr p k) by (intros; unfold rxSlotAddr; by rewrite E1).
  constructor; rewrite ?E3, ?E4; try done.
  - intros i f Hf. destruct (H4 i f Hf) as (d & Hd & Hr & Hl & Hb). exists d. rewrite Hat, Ha. split_and!; try done.
    rewrite <- Hb at 2. apply loadBytes_ext. intros x Hx. apply Hm. pose proof (rxAt_range p i).
    pose proof (znth_Forall _ _ _ _ H6 Hf) as Hs. unfold zlength in Hs. unfold inRxBuffers, rxSlotAddr, RX_BUFFER_SIZE in *. lia.
  - intros Hi. destruct (H5 Hi) as (d & Hd). exists d. by rewrite Hat.
Qed.

Section receive.
Context `{Device}.

Lemma rxRead_empty p : rxRing p [] -> getReadBuffer p = Ok None.
Proof.
  intros H0. destruct (rx_card _ _ H0) as (d & Hd & Hr); [done|]. unfold rxAt in Hd. rewrite ringAt_0 in Hd by apply H0.
  unfold getReadBuffer. rewrite Hd. cbn [mbind result_bind orFault]. unfold received in Hr.
  by destruct (Z.eqb_spec (Z.land (rxStatus d) 1) 0).
Qed.

Lemma rxRead_cons p f q :
  rxRing p (f :: q) -> getReadBuffer p = Ok (Some (rxSlotAddr p (currentRx p), zlength f)) /\
    loadBytes (bufferMem p) (rxSlotAddr p (currentRx p)) (Z.to_nat (zlength f)) = f.
Proof.
  intros H0. destruct (rx_filled _ _ H0 0 f eq_refl) as (d & Hd & Hr & Hl & Hb). unfold rxAt in *.
  rewrite ringAt_0 in Hd, Hb by apply H0. unfold zlength at 2. rewrite Nat2Z.id. split; [|done].
  unfold getReadBuffer. rewrite Hd. cbn [mbind result_bind orFault]. unfold received in Hr.
  destruct (Z.eqb_spec (Z.land (rxStatus d) 1) 0); [done|]. by rewrite Hl.
Qed.

(** Giving the oldest frame's descriptor back to the card. *)
Lemma rxFinish_cons p f q t :
  rxRing p (f :: q) ->
  exists p' t', finishReadBuffer p t = (t', Ok p') /\ rxRing p' q /\ currentRx p' = (currentRx p + 1) mod NUM_RX_DESCRIPTORS /\
    registers p' = registers p /\ layout p' = layout p /\ txDescs p' = txDescs p /\ currentTx p' = currentTx p /\
    bufferMem p' = bufferMem p /\ pPacketHandler p' = pPacketHandler p /\ (lengthsOk p -> lengthsOk p') /\
    registerWrites (registers p) t' = (RX_TAIL_REGISTER, currentRx p) :: registerWrites (registers p) t.
Proof.
  intros H0. destruct (rx_filled _ _ H0 0 f eq_refl) as (d & Hd & Hr & _). unfold rxAt in Hd.
  pose proof (zlength_nonneg q) as Hq. destruct H0 as [H1 H2 H3 H4 H5 H6]. rewrite zlength_cons in *. rewrite ringAt_0 in Hd by done.
  unfold finishReadBuffer. rewrite Hd, (runs_bind _ _ t t d) by done. unfold received in Hr.
  destruct (Z.eqb_spec (Z.land (rxStatus d) 1) 0) as [E|_]; [done|].
  destruct (writeCommand_runs (registers p) RX_TAIL_REGISTER (currentRx p) t) as (t' & Ew & Ht).
  { unfold is_u32, RX_TAIL_REGISTER. lia. } { unfold is_u32, NUM_RX_DESCRIPTORS in *. lia. }
  rewrite (runs_bind _ _ t t' tt) by done. eexists _, t'. split; [reflexivity|].
  assert (Hne : forall i, 0 < i < NUM_RX_DESCRIPTORS -> currentRx p <> rxAt p i).
  { intros i Hi E. rewrite <- (ringAt_0 NUM_RX_DESCRIPTORS (currentRx p)) in E at 1 by done. apply ringAt_inj in E; lia. }
  assert (Hlens : lengthsOk p -> lengthsOk (withRx p (rxDescs p).[currentRx p := setRxStatus d 0] ((currentRx p + 1) mod NUM_RX_DESCRIPTORS))).
  { intros Hl. apply zset_Forall; [done|]. intros X. by destruct X. }
  split; [|by split_and!]. set (p' := withRx _ _ _).
  assert (Hat : forall i, rxAt p' i = rxAt p (i + 1)) by (intros i; apply ringAt_succ).
  constructor; cbn [p' withRx rxDescs currentRx]; try done.
  - by rewrite zlength_zset.
  - by apply Z.mod_pos_bound.
  - lia.
  - intros i g Hg. rewrite Hat. pose proof (znth_Some_lt _ _ _ Hg) as Hi. rewrite znth_zset_ne by (apply Hne; lia).
    apply H4. by rewrite znth_cons_pos, Z.add_simpl_r by lia.
  - intros Hi. rewrite Hat. destruct (decide (zlength q = NUM_RX_DESCRIPTORS - 1)) as [->|].
    + replace (NUM_RX_DESCRIPTORS - 1 + 1) with (NUM_RX_DESCRIPTORS + 0) by lia. unfold rxAt. rewrite ringAt_wrap, ringAt_0 by done.
      exists (setRxStatus d 0). split; [apply znth_zset_eq; lia|]. unfold received. cbn [setRxStatus rxStatus]. rewrite Z.land_0_l. intros X. by apply X.
    + rewrite znth_zset_ne by (apply Hne; lia). apply H5. lia.
  - by apply (Forall_cons_1 _ _ _ H6).
Qed.

Lemma interruptCause_receiver status : Z.land status 0x94 = 0x80 -> interruptCauseOf status = ReceiverTimerInterrupt.
Proof.
  intros E. unfold interruptCauseOf.
  assert (H4 : Z.land status 0x04 = 0) by (change 0x04 with (Z.land 0x94 0x04); by rewrite Z.land_assoc, E).
  assert (H10 : Z.land status 0x10 = 0) by (change 0x10 with (Z.land 0x94 0x10); by rewrite Z.land_assoc, E).
  assert (H80 : Z.land status 0x80 = 0x80) by (change 0x80 with (Z.land 0x94 0x80); by rewrite Z.land_assoc, E).
  by rewrite H4, H10, H80.
Qed.

Section handler.
Context {C : Type} (call : PhysicalNetworkInterface * C -> Z -> Z -> IO (PhysicalNetworkInterface * C)).
Context {G : Type} (I : G -> PhysicalNetworkInterface -> C -> Prop) (handle : G * C -> list Z -> G * C -> Prop).

(** What the packet handler promises: on any frame it returns, leaves the
    receive side alone and keeps its invariant, which may follow what it sends
    in a state [G] that the code does not have. *)
Definition handlerOk : Prop := forall g p c b len t f,
  I g p c -> loadBytes (bufferMem p) b (Z.to_nat len) = f -> zlength f = len -> ETHERNET_SIMPLE_HEADER_SIZE <= len <= RX_BUFFER_SIZE ->
  exists g' p' c' t', call (p, c) b len t = (t', Ok (p', c')) /\ keepsRx p p' /\ I g' p' c' /\ handle (g, c) f (g', c').

Fixpoint handleAll (c : G * C) (q : list (list Z)) (c' : G * C) : Prop :=
  match q with
  | [] => c' = c
  | f :: q => exists c1, handle c f c1 /\ handleAll c1 q c'
  end.

(** The invariant does not look at the receive side. *)
Definition rxBlind : Prop := forall g p p' c,
  registers p' = registers p -> layout p' = layout p -> txDescs p' = txDescs p -> currentTx p' = currentTx p ->
  bufferMem p' = bufferMem p -> pPacketHandler p' = pPacketHandler p -> I g p c -> I g p' c.

Lemma readFrames_ok q : handlerOk -> rxBlind -> forall fuel g p c t,
  (length q < fuel)%nat -> rxRing p q -> I g p c ->
  exists g' p' c' t', readFrames call true fuel (p, c) t = (t', Ok (p', c')) /\ rxRing p' [] /\ handleAll (g, c) q (g', c') /\ I g' p' c' /\
    currentRx p' = rxAt p (zlength q) /\ (lengthsOk p -> lengthsOk p').
Proof.
  intros Hcall Hblind. induction q as [|f q IH]; intros fuel g p c t Hfuel Hq Hi; (destruct fuel as [|fuel]; [cbn in Hfuel; lia|]);
    cbn [readFrames fst snd].
  - rewrite (runs_bind _ _ t t None) by (by rewrite rxRead_empty). exists g, p, c, t. split_and!; try done.
    unfold rxAt. symmetry. by apply ringAt_0, Hq.
  - destruct (rxRead_cons p f q Hq) as [Eg Ef]. rewrite (runs_bind _ _ t t _) by (by rewrite Eg).
    pose proof (Forall_cons_1 _ _ _ (rx_sizes _ _ Hq)) as [Hf _].
    destruct (Hcall g p c (rxSlotAddr p (currentRx p)) (zlength f) t f Hi Ef) as (g1 & p1 & c1 & t1 & Ec & Hk & Hi1 & Hh);
      [done|done|].
    rewrite (runs_bind _ _ t t1 (p1, c1)) by done. cbn [fst snd].
    destruct (rxFinish_cons p1 f q t1) as (p2 & t2 & Er & Hq2 & Ecur & E1 & E2 & E3 & E4 & E5 & E6 & E7 & _); [by eapply rx_keeps|].
    rewrite (runs_bind _ _ t1 t2 p2) by done.
    destruct (IH fuel g1 p2 c1 t2) as (g' & p' & c' & t' & Hrun & Hq' & Hall & Hi' & Hcur & Hlens); [cbn in Hfuel; lia|done|by eapply Hblind|].
    exists g', p', c', t'. split_and!; try done; [by exists (g1, c1)| |].
    + rewrite Hcur, zlength_cons. unfold rxAt. rewrite Ecur. destruct Hk as [(_ & _ & _ & -> & _) _]. apply ringAt_succ.
    + intros Hl. apply Hlens, E7. destruct Hk as [(_ & _ & Hd & _) _]. unfold lengthsOk. by rewrite Hd.
Qed.
End handler.
End receive.

(** ** The constructor *)

Lemma orFault_Some {A} (o : option A) a f : o = Some a -> orFault o f = Ok a.
Proof. by intros ->. Qed.

Section setup.
Context `{Device}.

Lemma wp_pciRead bus slot func offset (Q : Z -> Trace -> Prop) t :
  (forall v t', is_u32 v -> Q v t') -> wp (pciReadDword bus slot func offset) Q t.
Proof. intros HQ. apply HQ. apply Z.mod_pos_bound. done. Qed.

Lemma wp_pciWrite bus slot func offset v (Q : () -> Trace -> Prop) t :
  (forall t', Q tt t') -> wp (pciWriteDword bus slot func offset v) Q t.
Proof. intros HQ. apply HQ. Qed.

(** The EEPROM answers within [fuel] reads of its register, however often it
    has been asked before. *)
Definition eepromAnswers (fuel : nat) : Prop := forall r t, exists k, (k < fuel)%nat /\
  forall t' v, readCommand r EEPROM_READ_REGISTER
    (Nat.iter k (fun t => fst (readCommand r EEPROM_READ_REGISTER t)) t) = (t', Ok v) -> Z.land v 0x10 <> 0.

Lemma wp_pollEEPROM r (Q : Z -> Trace -> Prop) k : forall fuel t,
  (k < fuel)%nat ->
  (forall t' v, readCommand r EEPROM_READ_REGISTER
    (Nat.iter k (fun t => fst (readCommand r EEPROM_READ_REGISTER t)) t) = (t', Ok v) -> Z.land v 0x10 <> 0) ->
  (forall v t', is_u32 v -> Q v t') -> wp (pollEEPROM fuel r) Q t.
Proof.
  induction k as [|k IH]; intros [|fuel] t Hk Hready HQ; try lia; cbn [pollEEPROM]; apply wp_bind;
    destruct (readCommand_runs r EEPROM_READ_REGISTER t) as (t1 & v & E & Hv & _); unfold wp at 1; rewrite E.
  - specialize (Hready _ _ E). destruct (Z.eqb_spec (Z.land v 0x10) 0); [done|]. by apply HQ.
  - destruct (_ =? 0); [|by apply HQ]. apply IH; [lia| |done]. intros t' v' E'. apply (Hready t').
    rewrite Nat.iter_succ_r, E. exact E'.
Qed.

Lemma wp_readEEPROM fuel r addr (Q : Z -> Trace -> Prop) t :
  eepromAnswers fuel -> 0 <= addr < 2 ^ 16 -> (forall v t', is_u16 v -> Q v t') -> wp (readEEPROM fuel r addr) Q t.
Proof.
  intros Hready Ha HQ. unfold readEEPROM. apply wp_bind, wp_writeCommand.
  - unfold is_u32, EEPROM_READ_REGISTER. lia.
  - apply is_u32_lor; [unfold is_u32; lia|]. unfold is_u32. rewrite Z.shiftl_mul_pow2 by lia. lia.
  - intros t1 _. apply wp_bind. destruct (Hready r t1) as (k & Hk & Hv). apply (wp_pollEEPROM r _ k); [done..|].
    intros v t2 _. apply wp_ret, HQ, is_u16_u16.
Qed.

Lemma wp_findSlot n (Q : option Z -> Trace -> Prop) : forall bus slot t,
  (forall t', Q None t') -> (forall s t', slot <= s < slot + Z.of_nat n -> Q (Some s) t') -> wp (findSlot n bus slot) Q t.
Proof.
  induction n as [|n IH]; intros bus slot t HN HS; cbn [findSlot]; [by apply wp_ret|].
  assert (Hnext : forall t, wp (findSlot n bus (slot + 1)) Q t) by (intros; apply IH; [done|]; intros; apply HS; lia).
  apply wp_bind, wp_pciRead. intros id t1 _. destruct (_ =? _); [|done]. apply wp_bind, wp_pciRead. intros class t2 _.
  destruct (_ =? _); [|done]. apply wp_ret, HS. lia.
Qed.

Lemma wp_findCard n (Q : option (Z * Z) -> Trace -> Prop) : forall bus t,
  (forall t', Q None t') ->
  (forall b s t', bus <= b < bus + Z.of_nat n -> 0 <= s < 32 -> Q (Some (b, s)) t') -> wp (findCard n bus) Q t.
Proof.
  induction n as [|n IH]; intros bus t HN HS; cbn [findCard]; [by apply wp_ret|].
  apply wp_bind, wp_findSlot; [intros t'; apply IH; [done|]; intros; apply HS; lia|].
  intros s t' Hs. apply wp_ret, HS; lia.
Qed.

Lemma wp_chooseIoBar bus slot (Q : RegisterAccess -> Trace -> Prop) t :
  (forall r t', is_u32 (ioBase r) -> Q r t') -> wp (chooseIoBar bus slot) Q t.
Proof.
  intros HQ. unfold chooseIoBar. apply wp_bind, wp_pciRead. intros v t1 Hv. destruct (ioBarUnusable v); [done|].
  apply wp_ret, HQ. cbn [ioBase]. auto with cpu.
Qed.

Lemma wp_chooseRegisters bus slot mem (Q : RegisterAccess -> Trace -> Prop) t :
  (forall r t', is_u32 (ioBase r) -> Q r t') -> wp (chooseRegisters bus slot mem) Q t.
Proof.
  intros HQ. unfold chooseRegisters. destruct mem; [|by apply wp_chooseIoBar].
  apply wp_bind, wp_pciRead. intros v t1 Hv. destruct (_ || _); [by apply wp_chooseIoBar|].
  apply wp_ret, HQ. cbn [ioBase]. auto with cpu.
Qed.

Lemma wp_enableBusMastering bus slot v (Q : () -> Trace -> Prop) t :
  (forall t', Q tt t') -> wp (enableBusMastering bus slot v) Q t.
Proof.
  intros HQ. unfold enableBusMastering. destruct (_ =? 0); [|by apply wp_ret]. apply wp_bind, wp_pciWrite. intros t1.
  apply wp_bind, wp_pciRead. intros again t2 _. destruct (_ =? 0); [done|]. by apply wp_ret.
Qed.

Lemma wp_readMac fuel r (Q : list Z -> Trace -> Prop) t :
  eepromAnswers fuel -> (forall mac t', zlength mac = 6 -> Forall is_u8 mac -> Q mac t') -> wp (readMac fuel r) Q t.
Proof.
  intros Hready HQ. unfold readMac.
  apply (wp_for (fun i mac _ => zlength mac = 2 * i /\ Forall is_u8 mac)); [done| |intros s t' [Hs Hu]; by apply HQ].
  intros j mac t1 Hj [Hl Hu]. apply wp_bind, wp_readEEPROM; [done|lia|]. intros v t2 Hv. apply wp_ret. split.
  - rewrite zlength_app, Hl. unfold zlength. cbn. lia.
  - apply Forall_app. split; [done|]. repeat (apply Forall_cons; split); [|apply is_u8_u8|by apply Forall_nil].
    change 0xFF with (Z.ones 8). rewrite Z.land_ones by lia. apply Z.mod_pos_bound. lia.
Qed.

(** The ring of receive descriptors after [rxInit]. *)
Definition rxReady (l : Layout) (ds : list e1000RxDesc) : Prop :=
  zlength ds = NUM_RX_DESCRIPTORS /\
  forall k, 0 <= k < NUM_RX_DESCRIPTORS -> exists d, ds.[k] = Some d /\ rxStatus d = 0 /\
    rxAddrLow d = u32 (rxBufferSpace l + RX_BUFFER_SIZE * k) /\ rxAddrHigh d = 0.

Definition rxProgram (l : Layout) : list (Z * Z) :=
  [(0x2800, rxDescsAddr l); (0x2804, 0); (0x2808, 512); (0x2810, 0); (0x2818, 31); (0x0100, RCTL_VALUE)].
Definition txProgram (l : Layout) : list (Z * Z) :=
  [(0x3800, txDescsAddr l); (0x3804, 0); (0x3808, 128); (0x3810, 0); (0x3818, 0); (0x0400, TCTL_VALUE); (0x0400, 805564666);
   (0x0410, 0x0060200A)].

Ltac write_step :=
  apply wp_bind, wp_writeCommand; [vm_compute; by split| |intros ?t ?Ht]; [first [assumption | vm_compute; by split]|].

Definition wfLayout (l : Layout) : Prop :=
  is_u32 (rxDescsAddr l) /\ is_u32 (txDescsAddr l) /\ 0 <= rxBufferSpace l /\
  0 <= txBufferSpace l <= 2 ^ 32 - TX_BUFFER_SIZE * NUM_TX_DESCRIPTORS.

Lemma wp_rxInit l r ds (Q : list e1000RxDesc -> Trace -> Prop) t :
  wfLayout l -> zlength ds = NUM_RX_DESCRIPTORS ->
  (forall ds' t', rxReady l ds' -> registerWrites r t' = rev (rxProgram l) ++ registerWrites r t -> Q ds' t') ->
  wp (rxInit l r ds) Q t.
Proof.
  intros (Hl & _) Hds HQ. unfold rxInit. apply wp_bind.
  apply (wp_for (fun i ds' t' => t' = t /\ zlength ds' = NUM_RX_DESCRIPTORS /\
    forall k, 0 <= k < i -> exists d, ds'.[k] = Some d /\ rxStatus d = 0 /\
      rxAddrLow d = u32 (rxBufferSpace l + RX_BUFFER_SIZE * k) /\ rxAddrHigh d = 0)).
  - split_and!; try done. intros k Hk. lia.
  - intros j ds' t' Hj (-> & Hlen & Hk). destruct (znth_lt_Some ds' j) as [d Hd]; [rewrite Hlen; unfold NUM_RX_DESCRIPTORS in *; lia|].
    apply wp_bind. eapply wp_lift; [exact (orFault_Some _ _ OutOfRange Hd)|]. apply wp_ret. split_and!; [done|by rewrite zlength_zset|].
    intros k Hkj. destruct (decide (k = j)) as [->|].
    + eexists. split; [apply znth_zset_eq; rewrite Hlen; unfold NUM_RX_DESCRIPTORS in *; lia|done].
    + rewrite znth_zset_ne by done. apply Hk. lia.
  - intros ds' t' (-> & Hlen & Hk). do 6 write_step. apply wp_ret, HQ; [by split|].
    rewrite Ht4, Ht3, Ht2, Ht1, Ht0, Ht. reflexivity.
Qed.

Definition txReady (ds : list e1000TxDesc) : Prop :=
  zlength ds = NUM_TX_DESCRIPTORS /\ Forall (fun d => zlength d = 16) ds /\
  forall k, 0 <= k < NUM_TX_DESCRIPTORS -> exists d, ds.[k] = Some d /\ txStatus d = Ok TSTA_DD.

Lemma wp_txInit l r ds (Q : list e1000TxDesc -> Trace -> Prop) t :
  wfLayout l -> zlength ds = NUM_TX_DESCRIPTORS -> Forall (fun d => zlength d = 16) ds ->
  (forall ds' t', txReady ds' -> registerWrites r t' = rev (txProgram l) ++ registerWrites r t -> Q ds' t') ->
  wp (txInit l r ds) Q t.
Proof.
  intros (_ & Hl & _) Hds Hsz HQ. unfold txInit. apply wp_bind.
  apply (wp_for (fun i ds' t' => t' = t /\ zlength ds' = NUM_TX_DESCRIPTORS /\ Forall (fun d => zlength d = 16) ds' /\
    forall k, 0 <= k < i -> exists d, ds'.[k] = Some d /\ txStatus d = Ok TSTA_DD)).
  - split_and!; try done. intros k Hk. lia.
  - intros j ds' t' Hj (-> & Hlen & Hs & Hk). destruct (znth_lt_Some ds' j) as [d Hd]; [rewrite Hlen; unfold NUM_TX_DESCRIPTORS in *; lia|].
    pose proof (znth_Forall _ _ _ _ Hs Hd) as H16. cbn beta in H16.
    apply wp_bind. eapply wp_lift; [exact (orFault_Some _ _ OutOfRange Hd)|]. apply wp_ret. split_and!; [done|by rewrite zlength_zset| |].
    + apply zset_Forall; [done|]. unfold setTxStatus. by rewrite zlength_zset.
    + intros k Hkj. destruct (decide (k = j)) as [->|].
      * eexists. split; [apply znth_zset_eq; rewrite Hlen; unfold NUM_TX_DESCRIPTORS in *; lia|].
        unfold txStatus, setTxStatus. by rewrite znth_zset_eq by (rewrite H16; lia).
      * rewrite znth_zset_ne by done. apply Hk. lia.
  - intros ds' t' (-> & Hlen & Hs & Hk). do 8 write_step. apply wp_ret, HQ; [by split_and!|].
    rewrite Ht6, Ht5, Ht4, Ht3, Ht2, Ht1, Ht0, Ht. reflexivity.
Qed.
End setup.

(** The registers the constructor writes last: interrupts masked, the rings
    set up, and the tail of the transmit ring left at its head. *)
Definition cardProgram (l : Layout) : list (Z * Z) :=
  [(INTERRUPT_MASK_SR_REGISTER, 0xFFFF); (INTERRUPT_MASK_C_REGISTER, 0xFFFF)] ++ rxProgram l ++ txProgram l ++
  [(TX_TAIL_REGISTER, 0)].

Record freshCard (l : Layout) (m : Mem) (p : PhysicalNetworkInterface) (t : Trace) : Prop := {
  fresh_layout : layout p = l;
  fresh_mem : bufferMem p = m;
  fresh_rx : rxRing p [];
  fresh_rx_descs : rxReady l (rxDescs p);
  fresh_tx : txRing p [QContext];
  fresh_current : currentTx p = 1;
  fresh_mac : zlength (phMac p) = 6 /\ Forall is_u8 (phMac p);
  fresh_line : is_u8 (interruptLine p);
  fresh_handler : interruptsEnabled p = false /\ pPacketHandler p = false;
  fresh_program : exists before, registerWrites (registers p) t = rev (cardProgram l) ++ before;
}.

Section construction.
Context `{Device} (fuel : nat) (l : Layout) (m : Mem) (rx : list e1000RxDesc) (tx : list e1000TxDesc).
Context (Hready : eepromAnswers fuel) (Hl : wfLayout l) (Hrx : zlength rx = NUM_RX_DESCRIPTORS).
Context (Htx : zlength tx = NUM_TX_DESCRIPTORS) (Hsz : Forall (fun d : e1000TxDesc => zlength d = 16) tx).

Lemma freshRx p ds : rxReady l ds -> rxDescs p = ds -> currentRx p = 0 -> rxRing p [].
Proof.
  intros [Hlen Hds] E1 E2. constructor; rewrite ?E1, ?E2; try done.
  - intros i f Hf. by rewrite znth_nil in Hf.
  - intros _. destruct (Hds (rxAt p 0) (rxAt_range p 0)) as (d & Hd & Hs & _). exists d. split; [done|].
    unfold received. rewrite Hs. intros X. by apply X.
Qed.

Lemma freshTx p ds : txReady ds -> txDescs p = ds.[0 := ipContext] -> currentTx p = 1 -> txRing p [QContext].
Proof.
  intros (Hlen & Hs & Hds) E1 E2. constructor; rewrite ?E1, ?E2; try done.
  - by rewrite zlength_zset.
  - by apply zset_Forall.
  - by apply Forall_singleton.
  - intros i x Hx. pose proof (znth_Some_lt _ _ _ Hx) as Hi. change (zlength [QContext]) with 1 in *. replace i with 0 in * by lia.
    injection Hx as <-. cbn [holdsQueued]. unfold txAt. rewrite E1, E2. apply znth_zset_eq. rewrite Hlen. done.
  - intros i Hi. change (zlength [QContext]) with 1 in *.
    assert (Hne : 0 <> txAt p 1 i).
    { unfold txAt. rewrite E2. intros X. change 0 with (ringAt NUM_TX_DESCRIPTORS (1 - 1) 0) in X. apply ringAt_inj in X; lia. }
    destruct (Hds (txAt p 1 i) (txAt_range p 1 i)) as (d & Hd & Hst). exists d, TSTA_DD. by rewrite znth_zset_ne.
Qed.

Lemma wp_clearMulticast r (Q : () -> Trace -> Prop) t :
  (forall t', Q tt t') ->
  wp (for_rangeIO 128 0 (fun i _ => writeCommand r (MULTICAST_TABLE_ARRAY_FIRST_REGISTER + i * 4) 0) tt) Q t.
Proof.
  intros HQ. apply (wp_for (fun _ _ _ => True)); [done| |by intros []].
  intros j s t' Hj _. apply wp_writeCommand; [unfold is_u32, MULTICAST_TABLE_ARRAY_FIRST_REGISTER; lia|done|done].
Qed.

Lemma setUpCard_ok bus slot t : wp (setUpCard fuel l m rx tx bus slot) (fun p t' => freshCard l m p t') t.
Proof.
  unfold setUpCard. apply wp_bind, wp_pciRead. intros sc t1 _. apply wp_bind, wp_enableBusMastering. intros t2.
  apply wp_bind, wp_pciRead. intros zeros t3 _. destruct (negb _); [done|].
  apply wp_bind, wp_chooseRegisters. intros r t4 Hr.
  apply wp_bind, wp_writeCommand; [vm_compute; by split..|intros t5 _].
  apply wp_bind, wp_readCommand. intros bar t6 _ _. destruct (_ =? 0); [done|].
  apply wp_bind, wp_readMac; [done|]. intros mac t7 Hmac Hu. apply wp_bind, wp_readCommand. intros ctrl t8 Hc _.
  apply wp_bind, wp_writeCommand; [vm_compute; by split|by apply is_u32_lor|]. intros t9 _.
  apply wp_bind, wp_clearMulticast. intros t10. apply wp_bind, wp_pciRead. intros line t11 _.
  apply wp_bind, wp_writeCommand; [vm_compute; by split..|]. intros t12 H12.
  apply wp_bind, wp_writeCommand; [vm_compute; by split..|]. intros t13 H13.
  apply wp_bind, wp_readCommand. intros cause t14 _ H14.
  apply wp_bind, wp_rxInit; [done..|]. intros rx' t15 Hrx' H15. apply wp_bind, wp_txInit; [done..|]. intros tx' t16 Htx' H16.
  apply wp_bind, wp_writeCommand; [vm_compute; by split..|]. intros t17 H17. apply wp_ret.
  constructor; try done.
  - by apply (freshRx _ rx').
  - by apply (freshTx _ tx').
  - cbn [interruptLine]. change 0xFF with (Z.ones 8). rewrite Z.land_ones by lia. apply Z.mod_pos_bound. lia.
  - exists (registerWrites r t11). cbn [registers]. rewrite H17, H16, H15, H14, H13, H12. reflexivity.
Qed.
End construction.

Lemma newCard_ok `{Device} fuel l m rx tx t :
  eepromAnswers fuel -> wfLayout l -> zlength rx = NUM_RX_DESCRIPTORS -> zlength tx = NUM_TX_DESCRIPTORS ->
  Forall (fun d : e1000TxDesc => zlength d = 16) tx ->
  wp (newPhysicalNetworkInterface fuel l m rx tx) (fun p t' => freshCard l m p t') t.
Proof.
  intros Hready Hl Hrx Htx Hsz. unfold newPhysicalNetworkInterface. apply wp_bind, wp_findCard; [done|].
  intros b s t' _ _. by apply setUpCard_ok.
Qed.

(** C27: whatever the machine has on its PCI bus, whatever the descriptors of the
    new object hold: the constructor stops the machine or returns, with both
    rings as the card needs them, every receive descriptor on its own buffer
    and owned by the card, the checksum context first in the transmit ring,
    interrupts masked, and the registers of the rings written last. *)
Theorem card_set_up `{Device} fuel l m rx tx t :
  eepromAnswers fuel -> wfLayout l -> zlength rx = NUM_RX_DESCRIPTORS -> zlength tx = NUM_TX_DESCRIPTORS ->
  Forall (fun d : e1000TxDesc => zlength d = 16) tx ->
  wp (newPhysicalNetworkInterface fuel l m rx tx) (fun p t' => freshCard l m p t') t.
Proof. apply newCard_ok. Qed.

Lemma freshCard_agrees l m p t : wfLayout l -> freshCard l m p t -> txAgree (mkTxSystem p t 0 []) [QContext] [].
Proof.
  intros (_ & _ & _ & Hl) Hp. destruct (fresh_program _ _ _ _ Hp) as [before Hb]. constructor; cbn [nic cardHead onWire txTrace]; try done.
  - apply Hp.
  - unfold txAt. by rewrite (fresh_current _ _ _ _ Hp).
  - rewrite bool_decide_true by done. eapply registerValue_cons. exact Hb.
  - by rewrite (fresh_layout _ _ _ _ Hp).
Qed.

(** C15: from the constructor on, the frames sent and the steps of the card, in
    any order: nothing faults, and the card takes from its descriptors, byte
    for byte, the frames that were accepted, in order, the checksum context
    before them; a frame is refused when it is too short or too long or when
    eight descriptors wait. *)
Theorem transmit_ring_is_queue `{Device} fuel l m rx tx t0 p t ops :
  eepromAnswers fuel -> wfLayout l -> zlength rx = NUM_RX_DESCRIPTORS -> zlength tx = NUM_TX_DESCRIPTORS ->
  Forall (fun d : e1000TxDesc => zlength d = 16) tx ->
  newPhysicalNetworkInterface fuel l m rx tx t0 = (t, Ok p) -> Forall goodTxOp ops ->
  exists x, runTx (mkTxSystem p t 0 []) ops = Ok x /\
    txRing (nic x) (fst (fold_left txQueueStep ops ([QContext], []))) /\
    onWire x = snd (fold_left txQueueStep ops ([QContext], [])).
Proof.
  intros Hready Hl Hrx Htx Hsz Hnew Hops. pose proof (newCard_ok fuel l m rx tx t0 Hready Hl Hrx Htx Hsz) as Hp.
  apply (wp_result _ _ _ _ _ Hp) in Hnew as Hfresh. destruct (runTx_simulates ops _ _ _ (freshCard_agrees l m p t Hl Hfresh) Hops) as (x & Hrun & Hx).
  exists x. split_and!; [done|apply Hx..].
Qed.

Lemma queueStep_full waiting sent ops :
  zlength waiting = NUM_TX_DESCRIPTORS -> fold_left txQueueStep ops (waiting, sent) = (waiting, sent).
Proof.
  intros Hw. induction ops as [|op ops IH]; [done|]. cbn [fold_left].
  assert (E : txQueueStep (waiting, sent) op = (waiting, sent)); [|by rewrite E].
  destruct op as [f ip|s]; cbn [txQueueStep]; rewrite Hw; [by rewrite andb_false_r|]. destruct waiting; [done|]. by rewrite orb_true_r.
Qed.

(** C35: once eight descriptors wait, the tail register is the card's head, which
    means an empty ring to the card: whatever is sent, whenever the card is
    ready, nothing is transmitted any more. *)
Theorem transmit_ring_full_is_stuck x waiting sent ops :
  txAgree x waiting sent -> zlength waiting = NUM_TX_DESCRIPTORS -> Forall goodTxOp ops ->
  registerValue (registers (nic x)) (txTrace x) TX_TAIL_REGISTER = Some (cardHead x) /\
  exists x', runTx x ops = Ok x' /\ txRing (nic x') waiting /\ onWire x' = onWire x.
Proof.
  intros Hx Hfull Hops. split.
  - rewrite (ag_tail _ _ _ Hx), bool_decide_false by (by intros ->). f_equal. rewrite (ag_head _ _ _ Hx), Hfull.
    transitivity (txAt (nic x) NUM_TX_DESCRIPTORS NUM_TX_DESCRIPTORS); [|exact (ringAt_wrap _ _ 0)].
    symmetry. apply txAt_current, (ag_ring _ _ _ Hx).
  - destruct (runTx_simulates ops x waiting sent Hx Hops) as (x' & Hrun & Hx'). rewrite queueStep_full in Hx' by done.
    exists x'. split_and!; [done|apply Hx'|]. by rewrite (ag_wire _ _ _ Hx'), (ag_wire _ _ _ Hx).
Qed.

(** ** An interrupt between taking a buffer and finishing it *)

Section race.
(** What a task does to send a frame, with what happens before it finishes the
    buffer, and what the packet handler does to answer. *)
Definition taskSends (interrupt : PhysicalNetworkInterface -> IO PhysicalNetworkInterface) (p : PhysicalNetworkInterface)
    (frame : list Z) (isIpv4Packet : bool) : IO PhysicalNetworkInterface :=
  w ← lift (getWriteBuffer p);
  p ← interrupt (physWriteFrame p w frame);
  finishWriteBuffer p (zlength frame) isIpv4Packet.

Definition handlerReplies (reply : list Z) (p : PhysicalNetworkInterface) : IO PhysicalNetworkInterface :=
  w ← lift (getWriteBuffer p);
  finishWriteBuffer (physWriteFrame p w reply) (zlength reply) false.

(** Sending into a ring with room. *)
Lemma send_ok p q f ip t :
  txRing p q -> zlength q < NUM_TX_DESCRIPTORS -> acceptable (zlength f) ip = true ->
  exists p1 t', getWriteBuffer p = Ok (Some (txSlotAddr p (currentTx p))) /\
    p1 = handedOver (physWriteFrame p (Some (txSlotAddr p (currentTx p))) f) (zlength f) ip /\
    finishWriteBuffer (physWriteFrame p (Some (txSlotAddr p (currentTx p))) f) (zlength f) ip t = (t', Ok p1) /\
    txRing p1 (q ++ [QFrame f ip]).
Proof.
  intros H0 Hroom Ha. rewrite (getWriteBuffer_ring p q H0). destruct (Z.eqb_spec (zlength q) NUM_TX_DESCRIPTORS); [lia|].
  set (p0 := physWriteFrame _ _ _). assert (Hp0 : txRing p0 q) by (apply tx_write; [done..|by eapply acceptable_small]).
  pose proof (txFinish_ok p0 q (zlength f) ip t Hp0) as Hf. rewrite Ha in Hf.
  destruct (Z.ltb_spec (zlength q) NUM_TX_DESCRIPTORS); [|lia]. destruct Hf as (t' & Hf & _).
  eexists _, t'. split_and!; [done|done|exact Hf|]. pose proof (tx_push p0 q (zlength f) ip Hp0 Hroom Ha) as Hpush.
  assert (E : loadBytes (bufferMem p0) (txSlotAddr p0 (currentTx p0)) (Z.to_nat (zlength f)) = f).
  { unfold zlength. rewrite Nat2Z.id. apply loadBytes_storeBytes. }
  by rewrite E in Hpush.
Qed.

Lemma next_slot_apart p n : 0 <= currentTx p < NUM_TX_DESCRIPTORS -> n <= TX_BUFFER_SIZE ->
  txSlotAddr p (currentTx p) + n <= txSlotAddr p ((currentTx p + 1) mod NUM_TX_DESCRIPTORS) \/
  txSlotAddr p ((currentTx p + 1) mod NUM_TX_DESCRIPTORS) + n <= txSlotAddr p (currentTx p).
Proof. intros Hc Hn. unfold txSlotAddr, NUM_TX_DESCRIPTORS, TX_BUFFER_SIZE in *. dlia. Qed.

(** C36: a task that is not interrupted sends its frame; when the packet handler
    answers an ARP request between the task's taking of the buffer and its
    finishing it, the answer is written over the task's frame and sent, and
    what is sent in the name of the task is whatever the next buffer held. *)
Theorem interrupted_send_loses_frame p q f ip g t :
  txRing p q -> zlength q + 2 <= NUM_TX_DESCRIPTORS -> acceptable (zlength f) ip = true -> acceptable (zlength g) false = true ->
  let stale := loadBytes (bufferMem p) (txSlotAddr p ((currentTx p + 1) mod NUM_TX_DESCRIPTORS)) (length f) in
  (exists p' t', taskSends mret p f ip t = (t', Ok p') /\ txRing p' (q ++ [QFrame f ip])) /\
  (exists p' t', taskSends (handlerReplies g) p f ip t = (t', Ok p') /\ txRing p' (q ++ [QFrame g false] ++ [QFrame stale ip])).
Proof.
  intros H0 Hroom Hf Hg stale. pose proof (tx_current _ _ H0) as Hc. unfold taskSends.
  destruct (send_ok p q f ip t H0 ltac:(lia) Hf) as (p1 & t1 & Eg & _ & Ef & H1). split.
  - exists p1, t1. split; [|done]. by rewrite (runs_bind _ _ t t _) by (by rewrite Eg).
  - rewrite (runs_bind _ _ t t _) by (by rewrite Eg). set (p0 := physWriteFrame _ _ f).
    assert (Hp0 : txRing p0 q) by (apply tx_write; [done|lia|by eapply acceptable_small]).
    destruct (send_ok p0 q g false t Hp0 ltac:(lia) Hg) as (p2 & t2 & Eg2 & Ep2 & Ef2 & H2).
    rewrite (runs_bind _ _ t t2 p2).
    2: { unfold handlerReplies. rewrite (runs_bind _ _ t t _) by (by rewrite Eg2). exact Ef2. }
    pose proof (txFinish_ok p2 _ (zlength f) ip t2 H2) as Hlast. rewrite Hf, zlength_snoc in Hlast.
    destruct (Z.ltb_spec (zlength q + 1) NUM_TX_DESCRIPTORS); [|lia]. destruct Hlast as (t3 & -> & _).
    eexists _, t3. split; [reflexivity|]. pose proof (tx_push p2 _ (zlength f) ip H2) as Hpush. rewrite zlength_snoc in Hpush.
    specialize (Hpush ltac:(lia) Hf). rewrite <- app_assoc in Hpush.
    assert (E : loadBytes (bufferMem p2) (txSlotAddr p2 (currentTx p2)) (Z.to_nat (zlength f)) = stale); [|by rewrite E in Hpush].
    set (a := txSlotAddr p (currentTx p)) in *. set (b := txSlotAddr p ((currentTx p + 1) mod NUM_TX_DESCRIPTORS)) in *.
    assert (Em : bufferMem p2 = storeBytes (storeBytes (bufferMem p) a f) a g) by by rewrite Ep2.
    assert (Ea : txSlotAddr p2 (currentTx p2) = b) by by rewrite Ep2.
    apply acceptable_small in Hf, Hg. pose proof (next_slot_apart p (Z.max (zlength f) (zlength g)) Hc ltac:(lia)) as Hab.
    fold a b in Hab. rewrite Em, Ea, !loadBytes_storeBytes_apart by lia. unfold stale, zlength. by rewrite Nat2Z.id.
Qed.
End race.

(** ** A sample machine *)

(** A machine whose bus 0 has the card in slot 3, with memory-mapped registers
    and interrupt line 11. *)
Definition sampleConfig (offset : Z) : Z :=
  if offset =? 0 then 0x100E8086
  else if offset =? 4 then 7
  else if offset =? 8 then 0x02000003
  else if offset =? 0x10 then 0xFEB00000
  else if offset =? 0x3C then 11
  else 0.

Definition sampleDevice : Device := fun t =>
  match t with
  | PortDwordIn _ :: PortDwordOut _ a :: _ =>
      if Z.testbit a 31 then if Z.land a 0xFFFF00 =? 0x1800 then sampleConfig (Z.land a 0xFC) else 0xFFFFFFFF
      else 0x12340010
  | RegisterRead _ :: _ => 0x12340010
  | _ => 0
  end.

Definition sampleLayout : Layout := mkLayout 0x200000 0x200200 0x200280 0x210280.
Definition sampleRx : list e1000RxDesc := replicate 32 (mkE1000RxDesc 0 0 0 0 7 0 0).
Definition sampleTx : list e1000TxDesc := replicate 8 (replicate 16 9).
Definition zeroMem : Mem := fun _ => 0.

Definition sampleRun : Trace * result PhysicalNetworkInterface :=
  newPhysicalNetworkInterface (H := sampleDevice) 1 sampleLayout zeroMem sampleRx sampleTx [].
Definition sampleTrace : Trace := fst sampleRun.
Definition noCard : PhysicalNetworkInterface :=
  mkPhysicalNetworkInterface sampleLayout (mkRegisterAccess 0 false) zeroMem [] [] [] 0 0 0 false false.
Definition sampleCard : PhysicalNetworkInterface := match snd sampleRun with Ok p => p | Fault _ => noCard end.

Lemma sampleRun_ok : newPhysicalNetworkInterface (H := sampleDevice) 1 sampleLayout zeroMem sampleRx sampleTx [] = (sampleTrace, Ok sampleCard).
Proof. vm_compute. reflexivity. Qed.

Lemma sample_eeprom : eepromAnswers (H := sampleDevice) 1.
Proof.
  intros r t. exists 0%nat. split; [lia|]. intros t' v. cbn [Nat.iter]. unfold readCommand.
  assert (Hv : forall a, respond (Device := sampleDevice) a = 0x12340010 -> Z.land (respond (Device := sampleDevice) a mod 2 ^ 32) 0x10 <> 0)
    by (by intros a ->).
  destruct (usingMemMappedRegisters r); intros E.
  - unfold accessRead in E. injection E as _ <-. by apply Hv.
  - unfold portDwordOut, portDwordIn, access, accessRead, mbind, IO_bind in E. injection E as _ <-. apply Hv. reflexivity.
Qed.

Lemma sample_layout : wfLayout sampleLayout.
Proof. vm_compute. by split_and!. Qed.

Lemma sampleTx_sizes : Forall (fun d : e1000TxDesc => zlength d = 16) sampleTx.
Proof. repeat (apply Forall_cons; split; [reflexivity|]). by apply Forall_nil. Qed.

Lemma sampleCard_fresh : freshCard sampleLayout zeroMem sampleCard sampleTrace.
Proof.
  refine (wp_result _ (fun p t' => freshCard sampleLayout zeroMem p t') [] sampleTrace sampleCard _ sampleRun_ok).
  apply newCard_ok; [apply sample_eeprom|apply sample_layout|done..|apply sampleTx_sizes].
Qed.

Example card_set_up_witness :
  is_Some (match snd sampleRun with Ok p => Some p | Fault _ => None end) /\
  wp (newPhysicalNetworkInterface (H := sampleDevice) 1 sampleLayout zeroMem sampleRx sampleTx)
    (fun p t' => freshCard sampleLayout zeroMem p t') [].
Proof.
  split; [vm_compute; by eexists|].
  apply (card_set_up (H := sampleDevice) 1 sampleLayout zeroMem sampleRx sampleTx []);
    [apply sample_eeprom|apply sample_layout|done..|apply sampleTx_sizes].
Defined.

Definition sampleFrame (b : Z) : list Z := replicate 60 b.

Example transmit_ring_is_queue_witness :
  exists x, runTx (mkTxSystem sampleCard sampleTrace 0 [])
      [CardSends 1; Send (sampleFrame 1) true; Send [1; 2; 3] false; CardSends 1; Send (sampleFrame 2) false; CardSends 1] = Ok x /\
    txRing (nic x) [QFrame (sampleFrame 2) false] /\ onWire x = [QContext; QFrame (sampleFrame 1) true].
Proof.
  apply (transmit_ring_is_queue (H := sampleDevice) 1 sampleLayout zeroMem sampleRx sampleTx [] sampleCard sampleTrace);
    [apply sample_eeprom|apply sample_layout|done..|apply sampleTx_sizes|apply sampleRun_ok|].
  repeat (apply Forall_cons; split); first [by apply Forall_nil | vm_compute; congruence].
Defined.

Definition sevenFrames : list TxOp := map (fun b => Send (sampleFrame b) true) [1; 2; 3; 4; 5; 6; 7].

Lemma sampleFull_agrees : exists x, runTx (mkTxSystem sampleCard sampleTrace 0 []) sevenFrames = Ok x /\
  txAgree x (QContext :: map (fun b => QFrame (sampleFrame b) true) [1; 2; 3; 4; 5; 6; 7]) [].
Proof.
  apply (runTx_simulates sevenFrames _ [QContext] []).
  - apply (freshCard_agrees sampleLayout zeroMem); [apply sample_layout|apply sampleCard_fresh].
  - apply Forall_map, Forall_forall. intros b _. vm_compute. congruence.
Qed.

Example transmit_ring_full_is_stuck_witness :
  exists x, runTx (mkTxSystem sampleCard sampleTrace 0 []) sevenFrames = Ok x /\
    registerValue (registers (nic x)) (txTrace x) TX_TAIL_REGISTER = Some (cardHead x) /\
    exists x', runTx x [CardSends 1; Send (sampleFrame 8) true; CardSends 1] = Ok x' /\
      txRing (nic x') (QContext :: map (fun b => QFrame (sampleFrame b) true) [1; 2; 3; 4; 5; 6; 7]) /\ onWire x' = onWire x.
Proof.
  destruct sampleFull_agrees as (x & Hrun & Hx). exists x. split; [exact Hrun|].
  apply (transmit_ring_full_is_stuck x _ [] _ Hx); [done|].
  repeat (apply Forall_cons; split); first [by apply Forall_nil | vm_compute; congruence].
Defined.

Example interrupted_send_loses_frame_witness :
  (exists p' t', taskSends mret sampleCard (sampleFrame 5) true sampleTrace = (t', Ok p') /\
    txRing p' [QContext; QFrame (sampleFrame 5) true]) /\
  (exists p' t', taskSends (handlerReplies (replicate 42 6)) sampleCard (sampleFrame 5) true sampleTrace = (t', Ok p') /\
    txRing p' [QContext; QFrame (replicate 42 6) false; QFrame (sampleFrame 0) true]).
Proof.
  exact (interrupted_send_loses_frame sampleCard [QContext] (sampleFrame 5) true (replicate 42 6) sampleTrace
    (fresh_tx _ _ _ _ sampleCard_fresh) ltac:(vm_compute; congruence) eq_refl eq_refl).
Defined.

(** Frames that were received while another cause is reported stay in the
    ring. *)
Lemma interrupt_leaves_frames `{Device} (p : PhysicalNetworkInterface) (C : Type) call (c : C) t status t1 :
  readCommand (registers p) INTERRUPT_CAUSE_READ_REGISTER t = (t1, Ok status) ->
  Z.testbit status 4 = true -> Z.testbit status 2 = false ->
  handlePhysicalNetworkInterfaceInterrupt call (p, c) t = (t1, Ok (p, c)).
Proof.
  intros E H4 H2. unfold handlePhysicalNetworkInterfaceInterrupt. cbn [fst].
  rewrite (runs_bind _ _ t t1 status) by exact E.
  assert (Ec : interruptCauseOf status = RXMinThresholdReached); [|by rewrite Ec].
  unfold interruptCauseOf.
  assert (E4 : Z.land status 0x04 = 0).
  { apply Z.bits_inj'. intros n Hn. rewrite Z.land_spec, Z.bits_0. destruct (decide (n = 2)) as [->|]; [by rewrite H2|].
    replace (Z.testbit 4 n) with false; [apply andb_false_r|]. symmetry. change 4 with (2 ^ 2). apply Z.pow2_bits_false. lia. }
  rewrite E4. destruct (Z.eqb_spec (Z.land status 0x10) 0) as [E10|]; [|done].
  assert (X : Z.testbit (Z.land status 0x10) 4 = true) by (by rewrite Z.land_spec, H4). by rewrite E10, Z.bits_0 in X.
Qed.
