(* ===== verification/Startup.v ===== *)
(** Start-up: [operating_system/main/main.cpp], with the memory map of the BIOS
    ([global_resources/bios_map.{h,cpp}]), the segments of
    [cpu_core/gdt.{h,cpp}] and [cpu_core/tss.{h,cpp}], and the binding of the
    interrupt table, the clock and the core to the processor.

    What the compiler decides is a parameter: sizes and alignments of classes,
    the places of members in them, addresses of functions and of objects on the
    stack of [main].  Messages on the screen and the E2E log are left out; a
    message before an endless loop is part of [halt]. *)
From S2P Require Import Prelude Mem MemoryManager Paging PageAllocator SocketManager CpuCore Syscalls Devices Screen Clocks PhysicalNetworkInterface.

(** ** The memory map of the BIOS *)

Definition BIOS_MAP_ADDR : Z := 0x800.

Record BIOSMapEntry := mkBIOSMapEntry {
  regionAddr : Z;
  regionLength : Z;
  regionType : Z;
  extendedAttributes : Z;
}.

Definition readQword (m : Mem) (a : Z) : Z := readDword m a + 2 ^ 32 * readDword m (a + 4).

Definition getBIOSMapSize (m : Mem) : Z := readDword m BIOS_MAP_ADDR.

Definition getBIOSMapEntry (m : Mem) (index : Z) : BIOSMapEntry :=
  if getBIOSMapSize m <=? index then mkBIOSMapEntry 0 0 0 0
  else
    let mapEntryAddr := u32 (BIOS_MAP_ADDR + 4 + 3 * 8 * index) in
    mkBIOSMapEntry (readQword m mapEntryAddr) (readQword m (mapEntryAddr + 8)) (readDword m (mapEntryAddr + 16))
      (readDword m (mapEntryAddr + 20)).

(** ** Segments *)

Record GdtEntry := mkGdtEntry {
  limit_low : Z;
  base_low : Z;
  base_middle : Z;
  accessByte : Z;
  granularity : Z;
  base_high : Z;
}.

(** The five assignments to [gdtEntries[i]]. *)
Definition setSegment (gdt : list GdtEntry) (i base limit : Z) : result (list GdtEntry) :=
  e ← gdt.[i] ?? OutOfRange;
  Ok gdt.[i := mkGdtEntry (Z.land limit 0xFFFF) (Z.land base 0xFFFF) (Z.land (Z.shiftr base 16) 0xFF) (accessByte e)
                 (Z.lor (granularity e) (Z.land (Z.shiftr limit 16) 0x0F)) (Z.land (Z.shiftr base 24) 0xFF)].

Definition sizeofTssEntry : Z := 104.

(** ** The core *)

(** The processor core with its own timer, interrupt table and segments;
    [ss0] is the stack segment in the task state segment. *)
Record Core := mkCore {
  core : CpuCore;
  coreTimer : Timer;
  coreInterrupts : InterruptHandlerManager;
  gdt : list GdtEntry;
  ss0 : Z;
}.

Definition withEsp0 (c : CpuCore) (e : Z) : CpuCore :=
  mkCpuCore (taskDescriptorListElements c) (unusedtaskDescriptorElementsListHead c) (activeTasksListHead c)
    (currentTask c) (taskSwitchingPaused c) (coreIsRunning c) (timerCounter c) e (cr3 c) (socketManager c)
    (kernelPageAllocator c) (kernelPageDirectoryPhysicalAddr c).
Definition withPageDirectory (c : CpuCore) (pd : Z) : CpuCore :=
  mkCpuCore (taskDescriptorListElements c) (unusedtaskDescriptorElementsListHead c) (activeTasksListHead c)
    (currentTask c) (taskSwitchingPaused c) (coreIsRunning c) (timerCounter c) (esp0 c) pd (socketManager c)
    (kernelPageAllocator c) (kernelPageDirectoryPhysicalAddr c).
Definition withRunning (c : CpuCore) (r : bool) : CpuCore :=
  mkCpuCore (taskDescriptorListElements c) (unusedtaskDescriptorElementsListHead c) (activeTasksListHead c)
    (currentTask c) (taskSwitchingPaused c) r (timerCounter c) (esp0 c) (cr3 c) (socketManager c)
    (kernelPageAllocator c) (kernelPageDirectoryPhysicalAddr c).

Definition TASK_SWITCHING_FREQUENCY : Z := 20.
Definition sizeofInterruptHandler : Z := 8.

Section startup.
Context `{Device}.
(** The members of the core and the stack segment the processor is in. *)
Context (timerAddr tssAddr handlersAddr timerCallbackAddr ss : Z).

(** [Tss::bind]; the entry is cleared, the initial [esp0] with it. *)
Definition bindTss (k : Core) : result Core :=
  g ← setSegment (gdt k) 5 tssAddr sizeofTssEntry;
  Ok (mkCore (withEsp0 (core k) 0) (coreTimer k) (coreInterrupts k) g ss).

(** [CurrentPagingStructure::bind] *)
Definition bindPaging (k : Core) : Core :=
  mkCore (withPageDirectory (core k) (kernelPageDirectoryPhysicalAddr (core k))) (coreTimer k) (coreInterrupts k) (gdt k) (ss0 k).

(** [InterruptHandlerManager::bind]: the segment of the handlers and the
    remapping of the interrupt controllers. *)
Definition bindInterrupts (k : Core) : IO Core :=
  g ← lift (setSegment (gdt k) 6 handlersAddr (sizeofInterruptHandler * IDT_ENTRIES));
  portByteOut 0x20 0x11 ;;
  portByteOut 0xA0 0x11 ;;
  portByteOut 0x21 0x20 ;;
  portByteOut 0xA1 0x28 ;;
  portByteOut 0x21 0x04 ;;
  portByteOut 0xA1 0x02 ;;
  portByteOut 0x21 0x01 ;;
  portByteOut 0xA1 0x01 ;;
  portByteOut 0x21 0x0 ;;
  portByteOut 0xA1 0x0 ;;
  mret (mkCore (core k) (coreTimer k) (coreInterrupts k) g (ss0 k)).

(** [CpuCore::bind]; the number of this core is 0. *)
Definition bindCore (k : Core) : IO Core :=
  im ← bindTimer timerAddr (coreTimer k) (Some (coreInterrupts k));
  im ← lift (im ?? NullPointer);
  k ← lift (bindTss (mkCore (core k) (coreTimer k) im (gdt k) (ss0 k)));
  k ← bindInterrupts (bindPaging k);
  mret (mkCore (withRunning (core k) true) (setTimerCallback (coreTimer k) (Some timerCallbackAddr)) (coreInterrupts k) (gdt k) (ss0 k)).

(** ** Pages in use from the start *)

Definition NUM_PAGE_TABLES_FOR_KERNEL : Z := 8.
Definition FREE_MEMORY_ADDR : Z := 0x110000.
Definition FREE_MEMORY_SIZE : Z := NUM_PAGE_TABLES_FOR_KERNEL * 1024 * 4096 - FREE_MEMORY_ADDR.
Definition LAST_ACCESSIBLE_ADDRESS : Z := u32 (1024 * 1023 * 4096 - 1).

Definition u64 (a : Z) : Z := a mod 2 ^ 64.

(** The body of the loop over the memory map. *)
Definition reserveEntry (e : BIOSMapEntry) (ps : PagingStructures) : result PagingStructures :=
  if Z.land (extendedAttributes e) 0x1 =? 0 then Ok ps
  else if (regionType e =? 1) || (regionType e =? 3) then Ok ps
  else if regionLength e =? 0 then Ok ps
  else if LAST_ACCESSIBLE_ADDRESS <? regionAddr e then Ok ps
  else
    let last := u64 (regionAddr e + regionLength e - 1) in
    allocatePageRange ps (u32 (regionAddr e) / 4096)
      (if LAST_ACCESSIBLE_ADDRESS <? last then 1024 * 1023 - 1 else u32 last / 4096).

Definition reserveBIOSRegions (m : Mem) (ps : PagingStructures) : result PagingStructures :=
  for_rangeM (Z.to_nat (getBIOSMapSize m)) 0 (fun i ps => reserveEntry (getBIOSMapEntry m i) ps) ps.

Definition reserveCard (r : RegisterAccess) (ps : PagingStructures) : result PagingStructures :=
  if usingMemMappedRegisters r then allocatePageRange ps (ioBase r / 0x1000) (ioBase r / 0x1000) else Ok ps.

Definition reservePages (m : Mem) (r : RegisterAccess) (ps : PagingStructures) : result PagingStructures :=
  ps ← allocatePageRange ps 0 (NUM_PAGE_TABLES_FOR_KERNEL * 1024 - 1);
  ps ← reserveBIOSRegions m ps;
  reserveCard r ps.

(** ** The two tasks of the kernel *)

(** Where the members of [SetupKernelTasks] are, the code of the tasks, and
    what [setProcessCode] puts on a stack; [cr0] before and after paging is
    enabled, and the tables at the virtual addresses. *)
Context (osTaskAddr networkTaskAddr osTaskCode networkTaskCode memoryManagerAddr : Z).
Context (eflags interruptHandlerReturn : Z) (savedRegisters : list Z).
Context (cr0 pagingCr0 : Z) (virtualPage : Z -> option PageTable).

(** [TaskArguments arguments = {}], [args[0..] = ...] and [numArgs = ...]. *)
Definition argumentsOf (args : list Z) : TaskArguments := mkTaskArguments (args ++ replicate (5 - length args) 0) (zlength args).

(** The part of [SetupKernelTasks::run] for one task. *)
Definition startKernelTask (c : CpuCore) (m : Mem) (this : Z) (t : Task) (code : Z) (args : list Z) : result (CpuCore * Mem * Task) :=
  let '(t, m) := setProcessCode eflags interruptHandlerReturn savedRegisters t code (argumentsOf args) m in
  r ← setToRunningState pagingCr0 virtualPage c this t;
  Ok (fst (fst r), m, snd (fst r)).

(** The constructor and, with task switching paused, [run]: the core, the
    memory and the two tasks. *)
Definition setupKernelTasks (c : CpuCore) (m : Mem) (pCpuCore pSocketManager : Z) : result (CpuCore * Mem * Task * Task) :=
  os ← newKernelTask c;
  network ← newKernelTask (fst os);
  let c := withPaused (fst network) true in
  r ← startKernelTask c m osTaskAddr (snd os) osTaskCode [pSocketManager; memoryManagerAddr];
  let '(c, m, osTask) := r in
  r ← startKernelTask c m networkTaskAddr (snd network) networkTaskCode [pCpuCore; pSocketManager; memoryManagerAddr];
  let '(c, m, networkTask) := r in
  Ok (withPaused c false, m, osTask, networkTask).

(** ** [main] *)

(** The alignments and sizes of the classes of the objects [main] allocates. *)
Record Objects := mkObjects {
  screenObject : Z * Z;
  rtcTimerObject : Z * Z;
  cardObject : Z * Z;
  biosMapObject : Z * Z;
  socketManagerObject : Z * Z;
  cpuCoreObject : Z * Z;
}.

Definition pagingStructuresObject : Z * Z := (4096, 8192 + 1023 * 4096).

(** What [main] leaves when it goes into its endless loop. *)
Record Machine := mkMachine {
  machineCore : Core;
  machineMemory : Mem;
  machineManager : MemoryManager;
  machineClock : RTCTimer;
  machineCard : PhysicalNetworkInterface;
  osTask : Task;
  networkTask : Task;
}.

(** More than the one block the free list of [main] consists of. *)
Definition HEAP_FUEL : nat := 4.

Definition allocateOrHalt (mm : MemoryManager) (m : Mem) (o : Z * Z) : IO (MemoryManager * Mem * Z) :=
  r ← lift (allocate HEAP_FUEL mm m (fst o) (snd o));
  if snd r =? 0 then halt else mret r.

(** [o] gives the objects, [layoutAt] the members of the card's object at an
    address, [rx] and [tx] its uninitialised descriptors, [kernelSize] the size
    of the kernel, [im] and [g] the interrupt table as the constructor of the
    core leaves it and the segments of the boot sector; [wait] bounds the waits
    for the EEPROM. *)
Context (o : Objects) (layoutAt : Z -> Layout) (rx : list e1000RxDesc) (tx : list e1000TxDesc) (kernelSize : Z)
  (im : InterruptHandlerManager) (g : list GdtEntry) (wait : nat).

(** The part of [main] after the core is allocated. *)
Definition startCore (m : Mem) (mm : MemoryManager) (clock : RTCTimer) (card : PhysicalNetworkInterface) (ps : PagingStructures)
    (pageDirectoryAddr pSocketManager pCpuCore : Z) : IO Machine :=
  let c := newCpuCore newSocketManager pageDirectoryAddr ps in
  k ← bindCore (mkCore c (newTimer TASK_SWITCHING_FREQUENCY) im g 0);
  r ← lift (setupKernelTasks (core k) m pCpuCore pSocketManager);
  let '(c, m, osTask, networkTask) := r in
  mret (mkMachine (mkCore c (coreTimer k) (coreInterrupts k) (gdt k) (ss0 k)) m mm clock card osTask networkTask).

Definition main (m : Mem) : IO Machine :=
  r ← lift (addContiguousMemoryRegion HEAP_FUEL newMemoryManager m FREE_MEMORY_ADDR FREE_MEMORY_SIZE);
  let '(mm, m) := r in
  r ← allocateOrHalt mm m (screenObject o);
  let '(mm, m, _) := r in
  m ← newScreen m;
  r ← allocateOrHalt mm m (rtcTimerObject o);
  let '(mm, m, _) := r in
  clock ← newRTCTimer;
  r ← allocateOrHalt mm m (cardObject o);
  let '(mm, m, cardAddr) := r in
  card ← newPhysicalNetworkInterface wait (layoutAt cardAddr) m rx tx;
  r ← allocateOrHalt mm m (biosMapObject o);
  let '(mm, m, _) := r in
  m ← clearScreen m;
  if 512 * 200 <=? kernelSize then halt
  else
    r ← allocateOrHalt mm m pagingStructuresObject;
    let '(mm, m, pagingAddr) := r in
    let ps := newPageAllocator (newPagingStructures pagingAddr (pagingAddr + 8192)) in
    ps ← lift (reservePages m (registers card) ps);
    r ← allocateOrHalt mm m (socketManagerObject o);
    let '(mm, m, pSocketManager) := r in
    r ← allocateOrHalt mm m (cpuCoreObject o);
    let '(mm, m, pCpuCore) := r in
    pageDirectoryAddr ← lift (translateVirtualToPhysicalAddress cr0 virtualPage pagingAddr);
    startCore m mm clock card ps pageDirectoryAddr pSocketManager pCpuCore.
End startup.
