(* ===== verification/StartupFacts.v ===== *)
(** What [main] sets up: memory for its objects, the pages in use, the core and
    the two tasks of the kernel - the state the management task starts in. *)
From S2P Require Import Prelude Mem LinkedLists MemoryManager MemoryManagerFacts Paging PageAllocator PageAllocatorFacts SocketManager SocketManagerFacts CpuCore CpuCoreFacts Syscalls Devices Screen Clocks PhysicalNetworkInterface PhysicalFacts TaskManager ManagementFacts Startup.

(** ** The heap of [main] *)

(** One free block, and bytes that stay as they are outside of it. *)
Lemma heap_front mm m k size a s :
  freeBlocks mm m [(a, s)] -> 0 <= k < 32 -> 0 < size -> 2 ^ k + size + 12 <= s ->
  exists mm' m' a' s', allocate HEAP_FUEL mm m (2 ^ k) size = Ok (mm', m', roundUp k (a + 8)) /\ freeBlocks mm' m' [(a', s')] /\
    roundUp k (a + 8) + size <= a' < roundUp k (a + 8) + size + 12 /\ a' + 8 + s' = a + 8 + s /\
    forall x, ~ (a <= x < a + 8 + s) -> m' x = m x.
Proof.
  intros Hfree Hk Hsize Hroom. destruct (roundUp_spec k (a + 8)) as [Hr Hmod]; [lia|].
  destruct (allocate_ok HEAP_FUEL mm m k size [(a, s)] Hfree) as [[HF _]|Hok]; [unfold HEAP_FUEL; cbn [length]; lia|done|done| | |].
  { apply Forall_singleton. cbn [fst]. pose proof Hfree as [_ (_ & _ & _ & _ & ? & _)]. lia. }
  { apply Forall_cons_1, proj1 in HF as [HF _]. unfold fits in HF. cbn [fst snd] in HF. lia. }
  destruct Hok as (l1 & b & t & l2 & mm' & m' & El & _ & E & Hres).
  destruct l1 as [|? [|? ?]]; [|done..]. injection El as -> -> <-.
  destruct Hres as [(_ & s1 & l' & Hal & Hend)|([Hw _] & _)]; [|unfold blockEnd in Hw; cbn [fst snd] in Hw; lia].
  destruct Hal as (Hfree' & Hal & _ & Hfit & Hlt & Hin & Hbytes & Hlen & Hout).
  assert (Hx : forall x, freeByte l' x <-> b + 8 + s1 <= x < b + 8 + t).
  { intros x. rewrite Hbytes, freeByte_cons. pose proof (freeByte_nil x). destruct Hal as (_ & _ & Hpos & _). split; [intros [[?|?] ?]; [lia|done]|]. intros ?. split; [left; lia|lia]. }
  destruct l' as [|[a' s'] [|? ?]]; [|  |cbn [length] in Hlen; lia].
  { destruct (freeByte_nil (b + 8 + s1)). apply Hx. lia. }
  assert (Hb : forall x, a' <= x < a' + 8 + s' <-> b + 8 + s1 <= x < b + 8 + t).
  { intros x. rewrite <- Hx, freeByte_cons. pose proof (freeByte_nil x). tauto. }
  destruct Hfree' as [Hseg Hblocks]. pose proof Hblocks as (_ & _ & Hs' & _).
  pose proof (proj1 (Hb a') ltac:(lia)). pose proof (proj1 (Hb (a' + 8 + s' - 1)) ltac:(lia)).
  pose proof (proj2 (Hb (b + 8 + s1)) ltac:(lia)). pose proof (proj2 (Hb (b + 8 + t - 1)) ltac:(lia)).
  exists mm', m', a', s'. split; [exact E|]. split; [by split|]. split; [lia|]. split; [lia|].
  intros x Hx'. apply Hout. rewrite freeByte_cons. intros [?|?%freeByte_nil]; [lia|done].
Qed.

(** The heap: one block up to the end of the kernel's memory. *)
Definition HEAP_END : Z := FREE_MEMORY_ADDR + FREE_MEMORY_SIZE.

Definition heap (mm : MemoryManager) (m : Mem) (room : Z) : Prop :=
  exists a s, freeBlocks mm m [(a, s)] /\ FREE_MEMORY_ADDR <= a /\ a + 8 + s = HEAP_END /\ room <= s.

(** What the BIOS left, below the video buffer, stays. *)
Definition sameLow (m m' : Mem) : Prop := forall x, x < VIDEO_BUFFER_ADDRESS -> m' x = m x.

Definition goodObject (o : Z * Z) : Prop := exists k, 0 <= k < 32 /\ fst o = 2 ^ k /\ 0 < snd o.
Definition objectRoom (o : Z * Z) : Z := fst o + snd o + 20.

Lemma heap_ext mm m m' room : heap mm m room -> (forall x, FREE_MEMORY_ADDR <= x < HEAP_END -> m' x = m x) -> heap mm m' room.
Proof.
  intros (a & s & Hfree & Ha & Hs) Hm. exists a, s. split; [|done]. eapply freeBlocks_ext; [exact Hfree|].
  intros x [?|?%freeByte_nil]%freeByte_cons; [apply Hm; lia|done].
Qed.

Lemma heap_weaken mm m room room' : room' <= room -> heap mm m room -> heap mm m room'.
Proof. intros Hr (a & s & Hf & Ha & He & Hs). exists a, s. split_and!; done || lia. Qed.

Lemma heap_start m : exists mm' m',
  addContiguousMemoryRegion HEAP_FUEL newMemoryManager m FREE_MEMORY_ADDR FREE_MEMORY_SIZE = Ok (mm', m') /\
  heap mm' m' (FREE_MEMORY_SIZE - 8) /\ sameLow m m'.
Proof.
  destruct (addContiguousMemoryRegion_ok HEAP_FUEL newMemoryManager m [] FREE_MEMORY_ADDR FREE_MEMORY_SIZE) as (mm' & m' & l' & E & Hf & Hb & Hout);
    [done|unfold HEAP_FUEL; cbn [length]; lia|done..| |].
  { by intros x Hx%freeByte_nil. }
  exists mm', m'. split; [exact E|]. assert (Hx : forall x, freeByte l' x <-> FREE_MEMORY_ADDR <= x < HEAP_END).
  { intros x. rewrite Hb. pose proof (freeByte_nil x). unfold HEAP_END. tauto. }
  assert (l' = [(FREE_MEMORY_ADDR, FREE_MEMORY_SIZE - 8)]) as ->.
  { apply (blocks_unique 1); [apply Hf|done|]. intros x. rewrite Hx, freeByte_cons. pose proof (freeByte_nil x).
    replace (FREE_MEMORY_ADDR + 8 + (FREE_MEMORY_SIZE - 8)) with HEAP_END by done. tauto. }
  split; [by exists FREE_MEMORY_ADDR, (FREE_MEMORY_SIZE - 8)|]. intros x Hlow. apply Hout. rewrite Hx.
  unfold VIDEO_BUFFER_ADDRESS, FREE_MEMORY_ADDR in *. lia.
Qed.

Section allocations.
Context `{Device}.
Implicit Types (t : Trace).

Lemma allocateOrHalt_ok mm m o room t :
  goodObject o -> heap mm m (objectRoom o + room) -> 0 <= room ->
  exists mm' m' p, allocateOrHalt mm m o t = (t, Ok (mm', m', p)) /\ heap mm' m' room /\ sameLow m m' /\
    p mod (fst o) = 0 /\ FREE_MEMORY_ADDR <= p /\ p + snd o <= HEAP_END.
Proof.
  intros (k & Hk & Eo & Hsize) (a & s & Hfree & Ha & Hend & Hs) Hroom. unfold objectRoom in Hs. rewrite Eo in Hs.
  destruct (heap_front mm m k (snd o) a s Hfree Hk Hsize) as (mm' & m' & a' & s' & E & Hfree' & Ha' & Hend' & Hout); [lia|].
  destruct (roundUp_spec k (a + 8)) as [Hr Hmod]; [lia|].
  assert (0 < FREE_MEMORY_ADDR) by done. exists mm', m', (roundUp k (a + 8)). split.
  - unfold allocateOrHalt, lift, mbind, IO_bind. rewrite Eo, E. cbn [snd]. by rewrite (proj2 (Z.eqb_neq (roundUp k (a + 8)) 0)) by lia.
  - split; [exists a', s'; split; [done|]; lia|]. split; [|rewrite Eo; split; [done|]; lia].
    intros x Hx. apply Hout. unfold VIDEO_BUFFER_ADDRESS, FREE_MEMORY_ADDR in *. lia.
Qed.

(** The screen is cleared outside the heap and the memory map. *)
Lemma newScreen_ok mm m room t : heap mm m room -> exists m' t', newScreen m t = (t', Ok m') /\ heap mm m' room /\ sameLow m m'.
Proof.
  intros Hh. eexists _, _. split; [reflexivity|]. unfold store. split.
  - eapply heap_ext; [exact Hh|]. intros x Hx. cbv beta. rewrite (proj2 (Z.eqb_neq _ _)), memClear_correct, bool_decide_false;
      (done || unfold FREE_MEMORY_ADDR, VIDEO_BUFFER_ADDRESS, MAX_COLS, MAX_ROWS in *; lia).
  - intros x Hx. cbv beta. rewrite (proj2 (Z.eqb_neq _ _)), memClear_correct, bool_decide_false; (done || unfold VIDEO_BUFFER_ADDRESS in *; lia).
Qed.

Lemma clearScreen_ok mm m room t : heap mm m room -> exists m' t', clearScreen m t = (t', Ok m') /\ heap mm m' room /\ sameLow m m'.
Proof.
  intros Hh. destruct (newScreen_ok mm m room t Hh) as (m' & t' & E & Hh' & Hl). unfold newScreen in E. cbn in E. injection E as _ Em.
  eexists m', _. split; [|done]. rewrite <- Em. reflexivity.
Qed.

Lemma newRTCTimer_runs t : exists t' clock, newRTCTimer t = (t', Ok clock).
Proof. eexists _, _. reflexivity. Qed.
End allocations.

(** ** Binding the core *)

Definition segmentBase (e : GdtEntry) : Z := base_low e + 2 ^ 16 * base_middle e + 2 ^ 24 * base_high e.
Definition segmentAt (g : list GdtEntry) (i base : Z) : Prop := exists e, g.[i] = Some e /\ segmentBase e = base.

Lemma setSegment_ok g i base limit : 0 <= i < zlength g -> is_u32 base ->
  exists g', setSegment g i base limit = Ok g' /\ zlength g' = zlength g /\ segmentAt g' i base /\
    forall j, j <> i -> g'.[j] = g.[j].
Proof.
  intros Hi Hb. destruct (znth_lt_Some g i Hi) as [e He]. eexists. split; [unfold setSegment; by rewrite He|].
  split; [by rewrite zlength_zset|]. split; [|intros j Hj; by rewrite znth_zset_ne by done].
  eexists. split; [by apply znth_zset_eq|]. unfold segmentBase. cbn [base_low base_middle base_high].
  change 0xFFFF with (Z.ones 16). change 0xFF with (Z.ones 8). rewrite !Z.land_ones, !Z.shiftr_div_pow2 by lia. unfold is_u32 in Hb.
  change (2 ^ 16) with 65536. change (2 ^ 24) with 16777216. change (2 ^ 8) with 256. dlia.
Qed.

Section core.
Context `{Device}.
Implicit Types (t : Trace).
Context (timerAddr tssAddr handlersAddr timerCallbackAddr ss : Z).

(** The core once it runs: with the kernel's page directory, the stack pointer
    of the task state segment cleared. *)
Definition bound (c : CpuCore) : CpuCore := withRunning (withPageDirectory (withEsp0 c 0) (kernelPageDirectoryPhysicalAddr c)) true.

Lemma bindCore_ok c im g s0 t :
  zlength (interruptHandlers im) = IDT_ENTRIES -> 7 <= zlength g -> is_u32 tssAddr -> is_u32 handlersAddr ->
  exists t' k, bindCore timerAddr tssAddr handlersAddr timerCallbackAddr ss (mkCore c (newTimer TASK_SWITCHING_FREQUENCY) im g s0) t = (t', Ok k) /\
    core k = bound c /\ segmentAt (gdt k) 5 tssAddr /\ segmentAt (gdt k) 6 handlersAddr /\
    (interruptHandlers (coreInterrupts k)).[PITTimer] = Some (timerAddr, timerHandler) /\ timerRunnable (coreTimer k) = Some timerCallbackAddr.
Proof.
  intros Him Hg Htss Hh.
  destruct (bindTimer_divider timerAddr TASK_SWITCHING_FREQUENCY im t ltac:(by split) Him) as (lo & hi & d & im' & E & _ & _ & _ & _ & _ & Hpit).
  destruct (setSegment_ok g 5 tssAddr sizeofTssEntry) as (g1 & E1 & L1 & S1 & _); [lia|done|].
  destruct (setSegment_ok g1 6 handlersAddr (sizeofInterruptHandler * IDT_ENTRIES)) as (g2 & E2 & _ & S2 & O2); [lia|done|].
  eexists _, (mkCore (bound c) _ im' g2 ss). split.
  - unfold bindCore. cbn [coreTimer coreInterrupts]. erewrite runs_bind by exact E. unfold bindTss, bindInterrupts, lift, mbind, IO_bind.
    cbn [orFault gdt core coreTimer coreInterrupts ss0]. rewrite E1. cbn [mbind result_bind bindPaging gdt core coreTimer coreInterrupts ss0]. rewrite E2. reflexivity.
  - split; [done|]. split; [|by split_and!]. destruct S1 as (e & He & Hb). exists e. split; [|done]. cbn [gdt]. by rewrite O2.
Qed.
End core.

(** ** The pages in use *)

Lemma reserve_range ps a b : wf ps -> 0 <= a -> a <= b -> b < NPAGES ->
  exists ps', allocatePageRange ps a b = Ok ps' /\ wf ps' /\ forall p, freePage ps' p <-> freePage ps p /\ ~ (a <= p <= b).
Proof.
  intros Hwf Ha Hab Hb. destruct (allocatePageRange_reserves_aux ps a b Hwf Ha Hab Hb) as (ps' & E & Hwf' & _ & Hin & Hout).
  exists ps'. split; [exact E|]. split; [exact Hwf'|]. intros p. destruct (decide (a <= p <= b)) as [Hp|Hp].
  - specialize (Hin p Hp). tauto.
  - unfold freePage, codeAt. rewrite Hout by done. tauto.
Qed.

(** The page holds a byte of a region the map marks as present and neither
    usable nor reclaimable. *)
Definition reservedBy (e : BIOSMapEntry) (p : Z) : Prop :=
  Z.land (extendedAttributes e) 1 <> 0 /\ regionType e <> 1 /\ regionType e <> 3 /\
  exists b, regionAddr e <= b < regionAddr e + regionLength e /\ b / 4096 = p.

Definition reservedByBIOS (m : Mem) (p : Z) : Prop := exists i, 0 <= i < getBIOSMapSize m /\ reservedBy (getBIOSMapEntry m i) p.

(** A region that does not wrap around the 64-bit addresses. *)
Definition goodEntry (e : BIOSMapEntry) : Prop :=
  0 <= regionAddr e /\ 0 <= regionLength e /\ regionAddr e + regionLength e <= 2 ^ 64.

Definition frees (ps ps' : PagingStructures) (used : Z -> Prop) : Prop :=
  wf ps' /\ forall p, freePage ps' p <-> freePage ps p /\ ~ used p.

Lemma frees_none ps (used : Z -> Prop) : wf ps -> (forall p, freePage ps p -> ~ used p) -> frees ps ps used.
Proof. intros Hwf Hu. split; [done|]. intros p. specialize (Hu p). tauto. Qed.

Lemma reserveEntry_ok e ps : wf ps -> goodEntry e -> exists ps', reserveEntry e ps = Ok ps' /\ frees ps ps' (reservedBy e).
Proof.
  intros Hwf (Ha & Hl & Hend). unfold reserveEntry, reservedBy.
  destruct (Z.eqb_spec (Z.land (extendedAttributes e) 1) 0) as [?|Hattr].
  { exists ps. split; [done|]. apply frees_none; [done|]. tauto. }
  destruct (Z.eqb_spec (regionType e) 1) as [?|H1]; cbn [orb]; [exists ps; split; [done|]; apply frees_none; [done|tauto]|].
  destruct (Z.eqb_spec (regionType e) 3) as [?|H3]; [exists ps; split; [done|]; apply frees_none; [done|tauto]|].
  destruct (Z.eqb_spec (regionLength e) 0) as [E0|Hne].
  { exists ps. split; [done|]. apply frees_none; [done|]. intros p _ (_ & _ & _ & b & Hb & _). lia. }
  change LAST_ACCESSIBLE_ADDRESS with (NPAGES * 4096 - 1). set (last := regionAddr e + regionLength e - 1).
  destruct (Z.ltb_spec (NPAGES * 4096 - 1) (regionAddr e)) as [Hbig|Hlow].
  { exists ps. split; [done|]. apply frees_none; [done|]. intros p Hp%(freePage_bound ps Hwf) (_ & _ & _ & b & Hb & <-). dlia. }
  assert (Hu : u64 last = last) by (unfold u64; apply Z.mod_small; lia). cbv zeta. rewrite Hu.
  rewrite (u32_small (regionAddr e)) by (unfold is_u32, NPAGES in *; lia).
  assert (Hlast : (if NPAGES * 4096 - 1 <? last then 1024 * 1023 - 1 else u32 last / 4096) = Z.min (last / 4096) (NPAGES - 1)).
  { destruct (Z.ltb_spec (NPAGES * 4096 - 1) last); unfold NPAGES in *; [dlia|]. rewrite u32_small by (unfold is_u32; lia). dlia. }
  rewrite Hlast. destruct (reserve_range ps (regionAddr e / 4096) (Z.min (last / 4096) (NPAGES - 1))) as (ps' & -> & Hwf' & Hp);
    [done|dlia|unfold NPAGES in *; dlia|lia|].
  exists ps'. split; [done|]. split; [done|]. intros p. rewrite Hp. split; intros [Hf Hn]; (split; [done|]).
  - intros (_ & _ & _ & b & Hb & <-). apply Hn. pose proof (freePage_bound ps Hwf _ Hf). dlia.
  - intros Hr. apply Hn. split_and!; try done. exists (Z.max (regionAddr e) (4096 * p)). dlia.
Qed.

Lemma reserveEntries_ok m n i ps : wf ps -> (forall j, i <= j < i + Z.of_nat n -> goodEntry (getBIOSMapEntry m j)) ->
  exists ps', for_rangeM n i (fun i ps => reserveEntry (getBIOSMapEntry m i) ps) ps = Ok ps' /\
    frees ps ps' (fun p => exists j, i <= j < i + Z.of_nat n /\ reservedBy (getBIOSMapEntry m j) p).
Proof.
  revert i ps. induction n as [|n IH]; intros i ps Hwf Hgood; cbn [for_rangeM].
  - exists ps. split; [done|]. apply frees_none; [done|]. intros p _ (j & Hj & _). lia.
  - destruct (reserveEntry_ok (getBIOSMapEntry m i) ps Hwf) as (ps1 & -> & Hwf1 & H1); [apply Hgood; lia|]. cbn [mbind result_bind].
    destruct (IH (i + 1) ps1 Hwf1) as (ps2 & -> & Hwf2 & H2); [intros j Hj; apply Hgood; lia|].
    exists ps2. split; [done|]. split; [done|]. intros p. rewrite H2, H1. split.
    + intros [[Hf Hi] Hn]. split; [done|]. intros (j & Hj & Hr). destruct (decide (j = i)) as [->|]; [done|]. apply Hn. exists j. split; [lia|done].
    + intros [Hf Hn]. split; [split; [done|]|].
      * intros Hr. apply Hn. exists i. split; [lia|done].
      * intros (j & Hj & Hr). apply Hn. exists j. split; [lia|done].
Qed.

(** Everything that is in use before the tasks of the kernel exist. *)
Definition inUse (m : Mem) (r : RegisterAccess) (p : Z) : Prop :=
  0 <= p < NUM_PAGE_TABLES_FOR_KERNEL * 1024 \/ reservedByBIOS m p \/ usingMemMappedRegisters r = true /\ p = ioBase r / 4096.

Definition goodMap (m : Mem) : Prop := forall i, 0 <= i < getBIOSMapSize m -> goodEntry (getBIOSMapEntry m i).
Definition goodCard (r : RegisterAccess) : Prop := usingMemMappedRegisters r = true -> 0 <= ioBase r / 4096 < NPAGES.

Lemma reservePages_ok m r ps : wf ps -> goodMap m -> goodCard r ->
  exists ps', reservePages m r ps = Ok ps' /\ frees ps ps' (inUse m r).
Proof.
  intros Hwf Hmap Hcard. unfold reservePages.
  destruct (reserve_range ps 0 (NUM_PAGE_TABLES_FOR_KERNEL * 1024 - 1) Hwf) as (ps1 & -> & Hwf1 & H1);
    [lia|by vm_compute|by vm_compute|]. cbn [mbind result_bind].
  unfold reserveBIOSRegions. destruct (reserveEntries_ok m (Z.to_nat (getBIOSMapSize m)) 0 ps1 Hwf1) as (ps2 & -> & Hwf2 & H2);
    [intros j Hj; apply Hmap; lia|]. cbn [mbind result_bind].
  assert (Hbios : forall p, (exists j, 0 <= j < 0 + Z.of_nat (Z.to_nat (getBIOSMapSize m)) /\ reservedBy (getBIOSMapEntry m j) p) <-> reservedByBIOS m p).
  { intros p. split; intros (j & Hj & Hr); exists j; (split; [lia|done]). }
  assert (H12 : forall p, freePage ps2 p <-> freePage ps p /\ ~ (0 <= p < NUM_PAGE_TABLES_FOR_KERNEL * 1024) /\ ~ reservedByBIOS m p).
  { intros p. rewrite H2, H1, Hbios. split; intros Hp; destruct_and!; split_and!; try done; lia. }
  unfold reserveCard, inUse, frees. unfold goodCard in Hcard. destruct (usingMemMappedRegisters r).
  - specialize (Hcard eq_refl). destruct (reserve_range ps2 (ioBase r / 4096) (ioBase r / 4096) Hwf2) as (ps3 & -> & Hwf3 & H3); [lia..|].
    exists ps3. split; [done|]. split; [done|]. intros p. rewrite H3, H12. split.
    + intros [(? & ? & ?) ?]. split; [done|]. intros [?|[?|[_ ->]]]; [done|done|lia].
    + intros [? Hn]. split; [split; [done|]; split; tauto|]. intros ?. apply Hn. right. right. split; [done|lia].
  - exists ps2. split; [done|]. split; [done|]. intros p. rewrite H12. split; [|tauto]. intros (? & ? & ?). split; [done|]. intros [?|[?|[? _]]]; done.
Qed.

(** ** The tasks of the kernel *)

Definition STACK_PAGES : Z := KERNEL_STACK_SIZE / 0x1000.

Lemma kernelStack_ok ps b : wf ps -> 0 <= b -> b + STACK_PAGES <= NPAGES ->
  (forall s, 0 <= s < b -> ~ freePage ps s) -> freeRun ps b STACK_PAGES ->
  exists ps', allocateContiguousPages ps STACK_PAGES = Ok (ps', b * 4096) /\ frees ps ps' (fun p => b <= p < b + STACK_PAGES).
Proof.
  intros Hwf Hb Hend Hlow Hrun. change STACK_PAGES with 16 in *.
  destruct (allocateContiguousPages_first_fit_aux ps 16 Hwf) as (ps' & addr & E & Hfit & Hwf').
  { unfold searchable, NPAGES. split; [lia|left; lia]. }
  destruct Hfit as [(a & Ha & _ & -> & Hfree & Hfirst & c & Hc & _ & _ & Hupd)|(_ & _ & Hno)]; [|by destruct (Hno b)].
  assert (a = b) as ->.
  { destruct (Z.lt_trichotomy a b) as [Hlt|[->|Hgt]]; [|done|].
    - destruct (Hlow a); [lia|]. apply Hfree. lia.
    - destruct (Hfirst b); [lia|done]. }
  exists ps'. split; [exact E|]. split; [exact Hwf'|]. intros p. unfold freePage. rewrite (codeAt_allocated ps ps' b 16 c p Hwf Hrun Hc Hupd).
  case_bool_decide; [lia|tauto].
Qed.

Section kernelTasks.
Context (osTaskAddr networkTaskAddr osTaskCode networkTaskCode memoryManagerAddr : Z).
Context (eflags interruptHandlerReturn : Z) (savedRegisters : list Z).
Context (pagingCr0 : Z) (virtualPage : Z -> option PageTable).

Definition onKernelStack (t : Task) (i stack : Z) : Prop := exists k, t = mkTask i true (KernelTask stack k).

Hypothesis Hregisters : zlength savedRegisters = 8.

Definition sameOutsideStack (m m' : Mem) (stack : Z) : Prop := forall x, ~ (stack <= x < stack + KERNEL_STACK_SIZE) -> m' x = m x.

Lemma setProcessCode_kernel stack k code args m : zlength args <= MAX_TASK_ARGS -> stack <> 0 ->
  exists k' m', setProcessCode eflags interruptHandlerReturn savedRegisters (mkTask (-1) false (KernelTask stack k)) code (argumentsOf args) m =
    (mkTask (-1) false (KernelTask stack k'), m') /\ sameOutsideStack m m' stack.
Proof using Hregisters.
  intros Ha Hs. unfold setProcessCode, argumentsOf. cbn [taskKind numArgs taskArgs].
  rewrite (proj2 (Z.ltb_ge _ (zlength args))), (proj2 (Z.eqb_neq stack 0)) by done.
  set (ws := take (Z.to_nat (zlength args)) (args ++ replicate (5 - length args) 0)).
  assert (Hws : zlength ws <= MAX_TASK_ARGS) by (unfold ws, zlength in *; rewrite length_take; lia). pose proof (zlength_nonneg ws).
  destruct (storeArguments_ok ws m (stack + KERNEL_STACK_SIZE - 4)) as (m1 & -> & Hm1).
  unfold buildIntHandlerStackForKernelPriv, createIntStackForKernelPriv. cbn [PITTimer Z.ltb Z.compare Pos.compare Pos.compare_cont andb].
  set (esp := stack + KERNEL_STACK_SIZE - 4 - 4 * zlength ws) in *.
  set (frame := _ ++ savedRegisters ++ _).
  assert (Hframe : zlength frame = 17) by (unfold frame; rewrite !zlength_app, Hregisters; done).
  destruct (pushWords_ok frame (storeWord m1 esp 0) esp) as (m2 & -> & Hm2).
  eexists _, m2. split; [reflexivity|]. intros x Hx. unfold MAX_TASK_ARGS, KERNEL_STACK_SIZE in *.
  rewrite Hm2, storeBytes_out, storeWord_out, Hm1, storeBytes_out; [done|..]; rewrite ?zlength_wordBytes, ?zlength_reverse, ?Hframe; unfold esp; lia.
Qed.

Lemma startKernelTask_ok c m this stack code args active i unused :
  taskLists c active (i :: unused) -> zlength args <= MAX_TASK_ARGS -> stack <> 0 ->
  exists c' m' t, startKernelTask eflags interruptHandlerReturn savedRegisters pagingCr0 virtualPage c m this
      (mkTask (-1) false (KernelTask stack 0)) code args = Ok (c', m', t) /\
    onKernelStack t i stack /\ sameOutsideStack m m' stack /\ taskLists c' (i :: active) unused /\
    exists es, c' = withLists c es (firstOf unused None) (Some i).
Proof using Hregisters.
  intros Hl Ha Hs. unfold startKernelTask. destruct (setProcessCode_kernel stack 0 code args m) as (k & m' & -> & Hm'); [done|done|].
  unfold setToRunningState, KernelTask_setToRunningState. cbn [taskKind taskIsRunning]. rewrite (proj2 (Z.eqb_neq stack 0)) by done.
  rewrite (tl_unused _ _ _ Hl). cbn [firstOf].
  destruct (activate_ok c active i unused (mkTaskDescriptor (Some this) k (u32 (stack + KERNEL_STACK_SIZE - 4)) (cr3 c)) Hl) as (c' & -> & Hl' & _ & es & Hc').
  eexists c', m', _. split; [reflexivity|]. split; [by eexists|]. split; [done|]. split; [done|by exists es].
Qed.

Lemma setupKernelTasks_ok c m pCpuCore pSocketManager b unused :
  taskLists c [] (0 :: 1 :: unused) -> cr3 c = kernelPageDirectoryPhysicalAddr c ->
  wf (kernelPageAllocator c) -> 0 < b -> b + 2 * STACK_PAGES <= NPAGES ->
  (forall s, 0 <= s < b -> ~ freePage (kernelPageAllocator c) s) -> freeRun (kernelPageAllocator c) b (2 * STACK_PAGES) ->
  exists c' m' os network, setupKernelTasks osTaskAddr networkTaskAddr osTaskCode networkTaskCode memoryManagerAddr eflags interruptHandlerReturn
      savedRegisters pagingCr0 virtualPage c m pCpuCore pSocketManager = Ok (c', m', os, network) /\
    onKernelStack os 0 (b * 4096) /\ onKernelStack network 1 ((b + STACK_PAGES) * 4096) /\
    taskLists c' [1; 0] unused /\ sameCore c c' /\ socketManager c' = socketManager c /\ taskSwitchingPaused c' = false /\
    frees (kernelPageAllocator c) (kernelPageAllocator c') (fun p => b <= p < b + 2 * STACK_PAGES) /\
    forall x, ~ (b * 4096 <= x < (b + 2 * STACK_PAGES) * 4096) -> m' x = m x.
Proof using Hregisters.
  intros Hl Hcr Hwf Hb Hend Hlow Hrun. unfold setupKernelTasks, newKernelTask. rewrite Hcr, Z.eqb_refl, orb_true_r. fold STACK_PAGES.
  destruct (kernelStack_ok (kernelPageAllocator c) b Hwf) as (ps1 & -> & Hwf1 & H1); [lia|change STACK_PAGES with 16 in *; lia|done| |].
  { intros p Hp. apply Hrun. change STACK_PAGES with 16 in *. lia. }
  cbn [mbind result_bind fst snd withAllocator coreIsRunning cr3 kernelPageDirectoryPhysicalAddr kernelPageAllocator]. rewrite Hcr, Z.eqb_refl, orb_true_r.
  destruct (kernelStack_ok ps1 (b + STACK_PAGES) Hwf1) as (ps2 & -> & Hwf2 & H2); [change STACK_PAGES with 16 in *; lia|lia| | |].
  { intros s Hs Hf. apply H1 in Hf as [Hf Hn]. destruct (Z.ltb_spec s b); [by apply (Hlow s ltac:(lia))|]. lia. }
  { intros p Hp. apply H1. split; [apply Hrun; lia|lia]. }
  cbn [mbind result_bind fst snd].
  set (c2 := withPaused (withAllocator (withAllocator c ps1) ps2) true).
  assert (Hl2 : taskLists c2 [] (0 :: 1 :: unused)) by (eapply taskLists_same; [exact Hl|reflexivity..]).
  destruct (startKernelTask_ok c2 m osTaskAddr (b * 4096) osTaskCode [pSocketManager; memoryManagerAddr] [] 0 (1 :: unused) Hl2) as (c3 & m3 & os & E3 & Hos & Hm3 & Hl3 & es3 & Hc3);
    [by vm_compute|lia|].
  unfold withAllocator, withPaused in c2. cbn in c2. fold c2. rewrite E3. cbn [mbind result_bind].
  destruct (startKernelTask_ok c3 m3 networkTaskAddr ((b + STACK_PAGES) * 4096) networkTaskCode [pCpuCore; pSocketManager; memoryManagerAddr] [0] 1 unused Hl3)
    as (c4 & m4 & network & -> & Hnet & Hm4 & Hl4 & es4 & Hc4); [by vm_compute|change STACK_PAGES with 16 in *; lia|]. cbn [mbind result_bind].
  exists (withPaused c4 false), m4, os, network. split; [done|]. split; [done|]. split; [done|].
  split; [eapply taskLists_same; [exact Hl4|reflexivity..]|]. subst c4 c3. split; [done|]. split; [done|]. split; [done|].
  split.
  - split; [exact Hwf2|]. intros p. cbn. rewrite H2, H1. split; intros Hp; destruct_and!; split_and!; try done; lia.
  - intros x Hx. change STACK_PAGES with 16 in *. unfold sameOutsideStack, KERNEL_STACK_SIZE in *. rewrite Hm4, Hm3 by lia. done.
Qed.
End kernelTasks.

(** ** The machine [main] leaves *)

(** The memory map read again after the heap and the screen were written. *)
Lemma sameLow_trans m1 m2 m3 : sameLow m1 m2 -> sameLow m2 m3 -> sameLow m1 m3.
Proof. intros H1 H2 x Hx. by rewrite H2, H1. Qed.

Definition mapBelowVideo (m : Mem) : Prop := BIOS_MAP_ADDR + 4 + 24 * getBIOSMapSize m <= VIDEO_BUFFER_ADDRESS.

Lemma sameLow_dword m m' a : sameLow m m' -> a + 4 <= VIDEO_BUFFER_ADDRESS -> readDword m' a = readDword m a.
Proof. intros Hs Ha. apply readDword_ext. intros x Hx. apply Hs. lia. Qed.

Lemma sameLow_map m m' : mapBelowVideo m -> sameLow m m' ->
  getBIOSMapSize m' = getBIOSMapSize m /\ forall i, 0 <= i < getBIOSMapSize m -> getBIOSMapEntry m' i = getBIOSMapEntry m i.
Proof.
  intros Hb Hs. assert (E : getBIOSMapSize m' = getBIOSMapSize m) by (apply sameLow_dword; [done|by vm_compute]).
  split; [exact E|]. intros i Hi. unfold getBIOSMapEntry, readQword. rewrite E. destruct (Z.leb_spec (getBIOSMapSize m) i); [done|].
  unfold mapBelowVideo, BIOS_MAP_ADDR, VIDEO_BUFFER_ADDRESS in Hb. rewrite (u32_small (BIOS_MAP_ADDR + 4 + 3 * 8 * i)) by (unfold is_u32, BIOS_MAP_ADDR; lia).
  by rewrite !(sameLow_dword m m') by (done || unfold BIOS_MAP_ADDR, VIDEO_BUFFER_ADDRESS; lia).
Qed.

Lemma inUse_sameLow m m' r p : mapBelowVideo m -> sameLow m m' -> inUse m' r p <-> inUse m r p.
Proof.
  intros Hb Hs. destruct (sameLow_map m m' Hb Hs) as [E He]. unfold inUse, reservedByBIOS. rewrite E. split.
  - intros [?|[(i & Hi & Hr)|?]]; [by left|right; left; exists i; by rewrite <- He|by right; right].
  - intros [?|[(i & Hi & Hr)|?]]; [by left|right; left; exists i; by rewrite He|by right; right].
Qed.

Definition rooms (l : list (Z * Z)) : Z := fold_right (fun x r => objectRoom x + r) 0 l.

Lemma rooms_nonneg l : Forall goodObject l -> 0 <= rooms l.
Proof. induction 1 as [|x l (k & Hk & E & Hs) _ IH]; [done|]. change (rooms (x :: l)) with (objectRoom x + rooms l). unfold objectRoom. rewrite E. lia. Qed.

Definition goodObjects (o : Objects) : Prop :=
  let l := [screenObject o; rtcTimerObject o; cardObject o; biosMapObject o; pagingStructuresObject; socketManagerObject o; cpuCoreObject o] in
  Forall goodObject l /\ rooms l <= FREE_MEMORY_SIZE - 8.

(** The first page of user tasks, after the two stacks, and the end of the
    window for them. *)
Definition FIRST_TASK_PAGE : Z := NUM_PAGE_TABLES_FOR_KERNEL * 1024 + 2 * STACK_PAGES.
Definition WINDOW_END : Z := FIRST_TASK_PAGE + REGION_PAGES * MAX_REGIONS.

(** The numbers of these pages. *)
Ltac pages :=
  change FIRST_TASK_PAGE with 8224 in *; change WINDOW_END with 213024 in *;
  change (NUM_PAGE_TABLES_FOR_KERNEL * 1024) with 8192 in *; change STACK_PAGES with 16 in *;
  unfold REGION_PAGES, MAX_REGIONS in *; lia.

Ltac step H := erewrite runs_bind by exact H; cbv beta iota.

Section main.
Context `{Device}.
Implicit Types (t : Trace).
Context (timerAddr tssAddr handlersAddr timerCallbackAddr ss : Z).
Context (osTaskAddr networkTaskAddr osTaskCode networkTaskCode memoryManagerAddr : Z).
Context (eflags interruptHandlerReturn : Z) (savedRegisters : list Z) (Hregisters : zlength savedRegisters = 8).
Context (cr0 pagingCr0 : Z) (virtualPage : Z -> option PageTable).
Context (o : Objects) (layoutAt : Z -> Layout) (rx : list e1000RxDesc) (tx : list e1000TxDesc) (kernelSize : Z)
  (im : InterruptHandlerManager) (g : list GdtEntry) (wait : nat).

(** What [main] finds: a kernel and objects that fit, paging switched off, a
    memory map and a card that leave the window alone. *)
Record goodStart (m : Mem) : Prop := {
  gs_objects : goodObjects o;
  gs_handlers : zlength (interruptHandlers im) = IDT_ENTRIES;
  gs_gdt : 7 <= zlength g;
  gs_addresses : is_u32 tssAddr /\ is_u32 handlersAddr;
  gs_paging : Z.land cr0 0x80000000 = 0;
  gs_kernel : kernelSize < 512 * 200;
  gs_map : goodMap m /\ mapBelowVideo m;
  gs_window : forall p, NUM_PAGE_TABLES_FOR_KERNEL * 1024 <= p < WINDOW_END -> ~ reservedByBIOS m p;
  gs_card : forall p m' t, exists t' card, newPhysicalNetworkInterface wait (layoutAt p) m' rx tx t = (t', Ok card) /\ goodCard (registers card) /\
    (usingMemMappedRegisters (registers card) = true -> ~ (NUM_PAGE_TABLES_FOR_KERNEL * 1024 <= ioBase (registers card) / 4096 < WINDOW_END));
}.

(** The state [main] leaves, with the pages that are free. *)
Definition startedMachine (m : Mem) (k : Machine) : Prop :=
  coreReady FIRST_TASK_PAGE (core (machineCore k)) /\
  taskLists (core (machineCore k)) [1; 0] (map Z.of_nat (seq 2 48)) /\ taskSwitchingPaused (core (machineCore k)) = false /\
  onKernelStack (osTask k) 0 (NUM_PAGE_TABLES_FOR_KERNEL * 1024 * 4096) /\
  onKernelStack (networkTask k) 1 ((NUM_PAGE_TABLES_FOR_KERNEL * 1024 + STACK_PAGES) * 4096) /\
  validPageDirectoryAddr (cr3 (core (machineCore k))) /\
  segmentAt (gdt (machineCore k)) 5 tssAddr /\ segmentAt (gdt (machineCore k)) 6 handlersAddr /\
  (interruptHandlers (coreInterrupts (machineCore k))).[PITTimer] = Some (timerAddr, timerHandler) /\
  (exists room, 0 <= room /\ heap (machineManager k) (machineMemory k) room) /\
  forall p, freePage (kernelPageAllocator (core (machineCore k))) p <->
    FIRST_TASK_PAGE <= p < NPAGES /\ ~ inUse m (registers (machineCard k)) p.

Lemma startCore_ok m mm clock card ps pd pSocketManager pCpuCore t :
  zlength (interruptHandlers im) = IDT_ENTRIES -> 7 <= zlength g -> is_u32 tssAddr -> is_u32 handlersAddr ->
  wf ps -> (forall s, 0 <= s < NUM_PAGE_TABLES_FOR_KERNEL * 1024 -> ~ freePage ps s) ->
  (forall s, NUM_PAGE_TABLES_FOR_KERNEL * 1024 <= s < WINDOW_END -> freePage ps s) ->
  exists t' k, startCore timerAddr tssAddr handlersAddr timerCallbackAddr ss osTaskAddr networkTaskAddr osTaskCode networkTaskCode memoryManagerAddr
      eflags interruptHandlerReturn savedRegisters pagingCr0 virtualPage im g m mm clock card ps pd pSocketManager pCpuCore t = (t', Ok k) /\
    coreReady FIRST_TASK_PAGE (core (machineCore k)) /\
    taskLists (core (machineCore k)) [1; 0] (map Z.of_nat (seq 2 48)) /\ taskSwitchingPaused (core (machineCore k)) = false /\
    onKernelStack (osTask k) 0 (NUM_PAGE_TABLES_FOR_KERNEL * 1024 * 4096) /\
    onKernelStack (networkTask k) 1 ((NUM_PAGE_TABLES_FOR_KERNEL * 1024 + STACK_PAGES) * 4096) /\
    cr3 (core (machineCore k)) = pd /\ segmentAt (gdt (machineCore k)) 5 tssAddr /\ segmentAt (gdt (machineCore k)) 6 handlersAddr /\
    (interruptHandlers (coreInterrupts (machineCore k))).[PITTimer] = Some (timerAddr, timerHandler) /\
    machineManager k = mm /\ machineCard k = card /\
    frees ps (kernelPageAllocator (core (machineCore k))) (fun p => NUM_PAGE_TABLES_FOR_KERNEL * 1024 <= p < FIRST_TASK_PAGE) /\
    forall x, x < HEAP_END -> machineMemory k x = m x.
Proof using Hregisters.
  intros Him Hg Htss Hh Hwf Hlow Hwin. unfold startCore. set (c := newCpuCore newSocketManager pd ps).
  destruct (bindCore_ok timerAddr tssAddr handlersAddr timerCallbackAddr ss c im g 0 t Him Hg Htss Hh) as (t1 & k & E & Hc & H5 & H6 & Hpit & _).
  step E.
  destruct (setupKernelTasks_ok osTaskAddr networkTaskAddr osTaskCode networkTaskCode memoryManagerAddr eflags interruptHandlerReturn savedRegisters pagingCr0
    virtualPage Hregisters (bound c) m pCpuCore pSocketManager (NUM_PAGE_TABLES_FOR_KERNEL * 1024) (map Z.of_nat (seq 2 48))) as (c' & m' & os & net & Erun & Hos & Hnet & Hl & (Hrun & Hcr & Hpd) & Hsm & Hp & Hf & Hm').
  - eapply taskLists_same; [apply (newCore_lists newSocketManager pd ps)|reflexivity..].
  - reflexivity.
  - exact Hwf.
  - by vm_compute.
  - by vm_compute.
  - exact Hlow.
  - intros p Hp. apply Hwin. pages.
  - rewrite Hc. unfold lift, mbind, IO_bind. rewrite Erun. eexists t1, _. split; [reflexivity|].
    cbn [machineCore core gdt coreInterrupts osTask networkTask machineManager machineCard machineMemory].
    destruct Hf as [Hwf' Hfree].
    split; [|split_and!; try done; intros x Hx; apply Hm'; change HEAP_END with (8192 * 4096) in Hx; pages].
    split; [by eexists _, _|]. split; [rewrite Hsm; exact newSocketManager_inv|]. split; [by rewrite Hrun|]. split; [by rewrite Hcr, Hpd|].
    constructor; [exact Hwf'|..].
    + intros s Hs. exists s. split; [pages|]. split; [lia|]. intros [Hfs Hns]%Hfree.
      destruct (Z.ltb_spec s (NUM_PAGE_TABLES_FOR_KERNEL * 1024)); [by apply (Hlow s ltac:(lia))|]. apply Hns. pages.
    + intros i Hi _ p Hp'. apply Hfree. unfold slotPage in Hp'. split; [apply Hwin; pages|pages].
    + intros i _ Hi. destruct (not_elem_of_nil i Hi).
Qed.

(** One allocation after the other. *)
Lemma allocateNext mm m x l t :
  Forall goodObject (x :: l) -> heap mm m (rooms (x :: l)) ->
  exists mm' m' p, allocateOrHalt mm m x t = (t, Ok (mm', m', p)) /\ Forall goodObject l /\ heap mm' m' (rooms l) /\ sameLow m m' /\
    p mod (fst x) = 0 /\ FREE_MEMORY_ADDR <= p /\ p + snd x <= HEAP_END.
Proof.
  intros Hg Hh. apply Forall_cons in Hg as [Hx Hl].
  destruct (allocateOrHalt_ok mm m x (rooms l) t Hx Hh (rooms_nonneg l Hl)) as (mm' & m' & p & E & H1 & H2 & H3).
  exists mm', m', p. split; [exact E|]. split; [exact Hl|]. split; [exact H1|]. exact (conj H2 H3).
Qed.

Lemma pagingStructures_valid p : p mod (fst pagingStructuresObject) = 0 -> FREE_MEMORY_ADDR <= p -> p + snd pagingStructuresObject <= HEAP_END ->
  validPageDirectoryAddr p /\ validPageTablesAddr (p + 8192).
Proof.
  change (fst pagingStructuresObject) with 4096. change (snd pagingStructuresObject) with (8192 + 1023 * 4096).
  change HEAP_END with 0x2000000. unfold FREE_MEMORY_ADDR, validPageDirectoryAddr, validPageTablesAddr, pageAligned. intros. split_and!; dlia.
Qed.

(** The pages once everything in use is reserved, in terms of the map the
    machine started with. *)
Lemma pages_reserved m m' r p : goodMap m -> mapBelowVideo m -> sameLow m m' -> goodCard r ->
  validPageDirectoryAddr p -> validPageTablesAddr (p + 8192) ->
  exists ps, reservePages m' r (newPageAllocator (newPagingStructures p (p + 8192))) = Ok ps /\ wf ps /\
    forall q, freePage ps q <-> 0 <= q < NPAGES /\ ~ inUse m r q.
Proof.
  intros Hmap Hbelow Hlow Hcard Hpd Hpt. destruct (newPageAllocator_wf p (p + 8192) Hpd Hpt) as [Hwf Hfree].
  destruct (sameLow_map m m' Hbelow Hlow) as [E He].
  destruct (reservePages_ok m' r _ Hwf) as (ps & -> & Hwf' & Hps); [intros i Hi; rewrite E in Hi; rewrite He by done; by apply Hmap|done|].
  exists ps. split; [done|]. split; [done|]. intros q. rewrite Hps, inUse_sameLow by done. split; intros [Hq Hn]; (split; [|done]).
  - exact (freePage_bound _ Hwf _ Hq).
  - apply Hfree. lia.
Qed.

(** C13: [main] reaches its endless loop, whatever the sizes of its objects, the
    memory map and the card, as long as they leave room.  It leaves the two
    tasks of the kernel on their stacks, paging and task switching running, the
    heap whole, and as free pages exactly those above the two stacks that
    neither the BIOS nor the card's first register page uses: what the
    management API starts from. *)
Theorem main_starts m t : goodStart m ->
  exists t' k, main timerAddr tssAddr handlersAddr timerCallbackAddr ss osTaskAddr networkTaskAddr osTaskCode networkTaskCode memoryManagerAddr
      eflags interruptHandlerReturn savedRegisters cr0 pagingCr0 virtualPage o layoutAt rx tx kernelSize im g wait m t = (t', Ok k) /\ startedMachine m k.
Proof using Hregisters.
  intros [[Hgood Hroom] Him Hg [Htss Hh] Hcr0 Hkernel [Hmap Hbelow] Hwin Hcard]. unfold main.
  destruct (heap_start m) as (mm0 & m0 & E0 & Hh0 & Hl0).
  assert (S0 : lift (addContiguousMemoryRegion HEAP_FUEL newMemoryManager m FREE_MEMORY_ADDR FREE_MEMORY_SIZE) t = (t, Ok (mm0, m0))) by (unfold lift; by rewrite E0).
  step S0. apply (heap_weaken _ _ _ _ Hroom) in Hh0.
  destruct (allocateNext mm0 m0 _ _ t Hgood Hh0) as (mm1 & m1 & p1 & S1 & G1 & Hh1 & Hl1 & _). step S1.
  destruct (newScreen_ok mm1 m1 _ t Hh1) as (m1' & t1 & S2 & Hh1' & Hl1'). step S2.
  destruct (allocateNext mm1 m1' _ _ t1 G1 Hh1') as (mm2 & m2 & p2 & S3 & G2 & Hh2 & Hl2 & _). step S3.
  destruct (newRTCTimer_runs t1) as (t2 & clock & S4). step S4.
  destruct (allocateNext mm2 m2 _ _ t2 G2 Hh2) as (mm3 & m3 & p3 & S5 & G3 & Hh3 & Hl3 & _). step S5.
  destruct (Hcard p3 m3 t2) as (t3 & card & S6 & Hgc & Hout). step S6.
  destruct (allocateNext mm3 m3 _ _ t3 G3 Hh3) as (mm4 & m4 & p4 & S7 & G4 & Hh4 & Hl4 & _). step S7.
  destruct (clearScreen_ok mm4 m4 _ t3 Hh4) as (m4' & t4 & S8 & Hh4' & Hl4'). step S8.
  rewrite (proj2 (Z.leb_gt (512 * 200) kernelSize)) by done.
  destruct (allocateNext mm4 m4' _ _ t4 G4 Hh4') as (mm5 & m5 & p5 & S9 & G5 & Hh5 & Hl5 & Hmod & Hlow & Hend). step S9.
  destruct (pagingStructures_valid p5 Hmod Hlow Hend) as [Hpd Hpt].
  assert (Hl : sameLow m m5) by (repeat (eassumption || eapply sameLow_trans)).
  destruct (pages_reserved m m5 (registers card) p5 Hmap Hbelow Hl Hgc Hpd Hpt) as (ps & Eps & Hwf & Hps).
  assert (S10 : lift (reservePages m5 (registers card) (newPageAllocator (newPagingStructures p5 (p5 + 8192)))) t4 = (t4, Ok ps)) by (unfold lift; by rewrite Eps).
  step S10.
  destruct (allocateNext mm5 m5 _ _ t4 G5 Hh5) as (mm6 & m6 & p6 & S11 & G6 & Hh6 & Hl6 & _). step S11.
  destruct (allocateNext mm6 m6 _ _ t4 G6 Hh6) as (mm7 & m7 & p7 & S12 & G7 & Hh7 & Hl7 & _). step S12.
  assert (S13 : lift (translateVirtualToPhysicalAddress cr0 virtualPage p5) t4 = (t4, Ok p5)) by (unfold lift, translateVirtualToPhysicalAddress; by rewrite Hcr0).
  step S13.
  destruct (startCore_ok m7 mm7 clock card ps p5 p6 p7 t4 Him Hg Htss Hh Hwf) as (t5 & k & E & Hready & Hlists & Hpaused & Hos & Hnet & Hcr & H5 & H6 & Hpit & Hmm & Hc & [_ Hfree] & Hm).
  { intros s Hs [_ Hn]%Hps. apply Hn. by left. }
  { intros s Hs. apply Hps. split; [unfold NPAGES; pages|]. intros [?|[?|[Hr ->]]]; [lia|by apply (Hwin s)|by apply Hout]. }
  exists t5, k. split; [exact E|]. unfold startedMachine. rewrite Hcr, Hc, Hmm.
  refine (conj Hready (conj Hlists (conj Hpaused (conj Hos (conj Hnet (conj Hpd (conj H5 (conj H6 (conj Hpit (conj _ _)))))))))).
  - exists 0. split; [lia|]. eapply heap_ext; [exact Hh7|]. intros x Hx. apply Hm. lia.
  - intros p. rewrite Hfree, Hps. split.
    + intros [[Hp Hn] Hs]. split; [|done]. split; [|lia]. destruct (Z.ltb_spec p (NUM_PAGE_TABLES_FOR_KERNEL * 1024)); [|pages]. destruct Hn. left. pages.
    + intros [Hp Hn]. split; [split; [pages|done]|]. pages.
Qed.
End main.

(** ** A machine of 4 GB *)

(** Two regions, the second one the BIOS itself. *)
Definition sampleMap : Mem :=
  storeBytes zeroMem BIOS_MAP_ADDR
    (le32 2 ++ le32 0 ++ le32 0 ++ le32 0x9FC00 ++ le32 0 ++ le32 1 ++ le32 1 ++
     le32 0xFFFC0000 ++ le32 0 ++ le32 0x40000 ++ le32 0 ++ le32 2 ++ le32 1).

Definition sampleObjects : Objects :=
  mkObjects (2 ^ 2, 4) (2 ^ 2, 8) (2 ^ 4, 200000) (2 ^ 0, 1) (2 ^ 2, 50000) (2 ^ 12, 80000).

Definition sampleTable : InterruptHandlerManager := mkInterruptHandlerManager [] (replicate 256 (0, voidHandler)).
Definition sampleGdt : list GdtEntry := replicate 7 (mkGdtEntry 0 0 0 0 0 0).

Definition sampleStart (l : Z -> Layout) : IO Machine :=
  main (H := sampleDevice) 0x300000 0x300100 0x300200 0x300300 16 0x10FF00 0x10FF40 0x9000 0xA000 0x10FF80 0x202 0xB000 (replicate 8 0) 0 0x80000000
    (fun _ => None) sampleObjects l sampleRx sampleTx 60000 sampleTable sampleGdt 1 sampleMap.

Lemma sampleMap_entry i : 0 <= i < getBIOSMapSize sampleMap ->
  getBIOSMapEntry sampleMap i = mkBIOSMapEntry 0 0x9FC00 1 1 \/ getBIOSMapEntry sampleMap i = mkBIOSMapEntry 0xFFFC0000 0x40000 2 1.
Proof.
  change (getBIOSMapSize sampleMap) with 2. intros Hi. assert (i = 0 \/ i = 1) as [-> | ->] by lia; [left|right]; by vm_compute.
Qed.

Lemma sampleCard_always m t : exists t' card,
  newPhysicalNetworkInterface (H := sampleDevice) 1 sampleLayout m sampleRx sampleTx t = (t', Ok card) /\ registers card = mkRegisterAccess 0xFEB00000 true.
Proof. eexists _, _. split; [vm_compute; reflexivity|reflexivity]. Qed.

Lemma sampleStart_good : goodStart (H := sampleDevice) 0x300100 0x300200 0 sampleObjects (fun _ => sampleLayout) sampleRx sampleTx 60000 sampleTable sampleGdt 1 sampleMap.
Proof.
  constructor.
  - split; [|by vm_compute]. repeat (apply Forall_cons; split); [| | | | | | |by apply Forall_nil].
    all: [> exists 2 | exists 2 | exists 4 | exists 0 | exists 12 | exists 2 | exists 12 ]; (split; [lia|]; by vm_compute).
  - reflexivity.
  - by vm_compute.
  - by split.
  - reflexivity.
  - lia.
  - split; [|by vm_compute]. intros i Hi. unfold goodEntry. destruct (sampleMap_entry i Hi) as [-> | ->]; cbn; lia.
  - intros p Hp (i & Hi & _ & Ht & _ & b & Hb & <-). destruct (sampleMap_entry i Hi) as [E|E]; rewrite E in *; cbn in *; [done|]. 
    change WINDOW_END with 213024 in Hp. dlia.
  - intros _ m t. destruct (sampleCard_always m t) as (t' & card & E & Hr). exists t', card. split; [exact E|]. rewrite Hr.
    split; [intros _; by vm_compute|]. intros _. vm_compute. by intros [].
Qed.

Example main_starts_witness :
  exists t' k, sampleStart (fun _ => sampleLayout) [] = (t', Ok k) /\
    startedMachine 0x300000 0x300100 0x300200 sampleMap k.
Proof.
  exact (main_starts (H := sampleDevice) 0x300000 0x300100 0x300200 0x300300 16 0x10FF00 0x10FF40 0x9000 0xA000 0x10FF80 0x202 0xB000 (replicate 8 0) eq_refl 0
    0x80000000 (fun _ => None) sampleObjects (fun _ => sampleLayout) sampleRx sampleTx 60000 sampleTable sampleGdt 1 sampleMap [] sampleStart_good).
Defined.
