(* ===== verification/NetworkManagementTask.v ===== *)
(** The network management task:
    [operating_system/network_management_task/network_management_task.cpp].

    The task moves datagrams between the sockets ([SocketManager]) and the two
    network stacks, one on the card ([PhysicalNetworkInterface]) and one on the
    loopback interface.  What it does with task switching paused is one
    operation here; between two of them interrupts, other tasks and the card
    change the state.  The template parameters of the two stack handlers are
    the section's variables, [thisIP] is the address configured at build time. *)
From S2P Require Import Prelude Mem LinkedLists NetworkStackHandler SocketManager CpuCore Syscalls LoopbackNetworkInterface Devices PhysicalNetworkInterface.

Definition UDP_IPV4_PROTOCOL : Z := 17.

(** [sMem] is the memory the sockets' buffers are in, [sRequest] the iterator
    over the transmission requests. *)
Record NetworkState := mkNetworkState {
  sSockets : SocketManager;
  sMem : Mem;
  sRequest : option Z;
  pPhysicalNetworkStackHandler : NetworkStackHandler;
  pPhysicalNetworkInterface : PhysicalNetworkInterface;
  pLoopbackNetworkStackHandler : NetworkStackHandler;
  pLoopbackNetworkInterface : LoopbackNetworkInterface;
}.

Definition onSockets (st : NetworkState) s m it : NetworkState :=
  mkNetworkState s m it (pPhysicalNetworkStackHandler st) (pPhysicalNetworkInterface st)
    (pLoopbackNetworkStackHandler st) (pLoopbackNetworkInterface st).
Definition onPhysical (st : NetworkState) (x : PhysicalNetworkInterface * NetworkStackHandler) : NetworkState :=
  mkNetworkState (sSockets st) (sMem st) (sRequest st) (snd x) (fst x)
    (pLoopbackNetworkStackHandler st) (pLoopbackNetworkInterface st).
Definition onLoopback (st : NetworkState) (x : LoopbackNetworkInterface * NetworkStackHandler) : NetworkState :=
  mkNetworkState (sSockets st) (sMem st) (sRequest st) (pPhysicalNetworkStackHandler st) (pPhysicalNetworkInterface st)
    (snd x) (fst x).

Definition physicalSide (st : NetworkState) : PhysicalNetworkInterface * NetworkStackHandler :=
  (pPhysicalNetworkInterface st, pPhysicalNetworkStackHandler st).
Definition loopbackSide (st : NetworkState) : LoopbackNetworkInterface * NetworkStackHandler :=
  (pLoopbackNetworkInterface st, pLoopbackNetworkStackHandler st).

Section task.
Context `{Device}.
Context (PN PT PL LN LT LL : nat) (thisIP : Z).

(** ** Interrupts *)

(** [PhysicalNetworkInterfacePacketHandler::call] *)
Definition physPacketHandlerCall (st : PhysicalNetworkInterface * NetworkStackHandler) (readBuffer readBufferLen : Z)
  : IO (PhysicalNetworkInterface * NetworkStackHandler) :=
  let data := loadBytes (bufferMem (fst st)) readBuffer (Z.to_nat readBufferLen) in
  r ← lift (handleIncomingEthernetPacket PN PT PL (snd st) data readBufferLen);
  match snd r with
  | ARPRequest =>
      writeBuffer ← lift (getWriteBuffer (fst st));
      frame ← lift (handleOutgoingArpReply (fst r) data (bool_decide (writeBuffer = None)));
      p ← finishWriteBuffer (physWriteFrame (fst st) writeBuffer frame) (zlength frame) false;
      mret (p, fst r)
  | _ => mret (fst st, fst r)
  end.

Definition cardInterrupt (st : NetworkState) : IO NetworkState :=
  x ← handlePhysicalNetworkInterfaceInterrupt physPacketHandlerCall (physicalSide st);
  mret (onPhysical st x).

(** [RTCTimerCallback::run] *)
Definition rtcTimerCallback (st : NetworkState) : NetworkState :=
  onLoopback (onPhysical st (pPhysicalNetworkInterface st, incrementTimerCounter (pPhysicalNetworkStackHandler st)))
    (pLoopbackNetworkInterface st, incrementTimerCounter (pLoopbackNetworkStackHandler st)).

(** ** Transmission *)

(** The eight bytes of the UDP header, written before the first fragment. *)
Definition udpHeader (out : OutgoingUDPPacket) : list Z :=
  [u8 (Z.shiftr (outSourcePort out) 8); u8 (Z.land (outSourcePort out) 0xFF);
   u8 (Z.shiftr (outDestinationPort out) 8); u8 (Z.land (outDestinationPort out) 0xFF);
   u8 (Z.shiftr (outDataLen out) 8); u8 (Z.land (outDataLen out) 0xFF); 0x00; 0x00].

Definition isLoopback (out : OutgoingUDPPacket) : bool := outDestinationIP out =? thisIP.

(** [pNetworkInterface->getWriteBuffer()] *)
Definition interfaceWriteBuffer (loopback : bool) (st : NetworkState) : result (option Z) :=
  if loopback then loGetWriteBuffer (pLoopbackNetworkInterface st) else getWriteBuffer (pPhysicalNetworkInterface st).

(** [handleOutgoingIPv4Packet] of the stack on the interface, into a buffer
    that is not null. *)
Definition nextFrame (loopback : bool) (out : OutgoingUDPPacket) (ident off : Z) (st : NetworkState)
  : result (NetworkState * SendResult) :=
  if loopback then
    r ← handleOutgoingIPv4Packet LT LL (pLoopbackNetworkStackHandler st) (sMem st) (outDestinationIP out) UDP_IPV4_PROTOCOL
          (outData out) (outDataLen out) ident off false;
    Ok (onLoopback st (pLoopbackNetworkInterface st, fst r), snd r)
  else
    r ← handleOutgoingIPv4Packet PT PL (pPhysicalNetworkStackHandler st) (sMem st) (outDestinationIP out) UDP_IPV4_PROTOCOL
          (outData out) (outDataLen out) ident off false;
    Ok (onPhysical st (pPhysicalNetworkInterface st, fst r), snd r).

(** [pNetworkInterface->finishWriteBuffer(state.second, usesIPv4Context)] of the
    frame in the buffer; on the loopback interface it raises the interrupt. *)
Definition finishFrame (loopback : bool) (writeBuffer : Z) (frame : list Z) (usesIPv4Context : bool) (st : NetworkState)
  : IO NetworkState :=
  if loopback then
    x ← lift (loSend (loopbackInterrupt LN LT LL) (loopbackSide st) (Some writeBuffer) frame usesIPv4Context);
    mret (onLoopback st x)
  else
    p ← finishWriteBuffer (physWriteFrame (pPhysicalNetworkInterface st) (Some writeBuffer) frame) (zlength frame) usesIPv4Context;
    mret (onPhysical st (p, pPhysicalNetworkStackHandler st)).

Definition usesContext (p : IPv4PacketProgress) : bool := match p with Done | SendingFragment => true | _ => false end.
Definition stopsSending (p : IPv4PacketProgress) : bool := match p with SendingFragment => false | _ => true end.

(** The loop of [HandleTransmissionRequest::run]: the state, [identification],
    [fragmentOffset] and [writeBuffer] when it ends. *)
Fixpoint sendFragments (fuel : nat) (loopback : bool) (out : OutgoingUDPPacket) (writeBuffer : option Z) (ident off : Z)
    (st : NetworkState) : IO (NetworkState * Z * Z * option Z) :=
  match fuel with
  | O => lift (Fault OutOfFuel)
  | S fuel =>
      match writeBuffer with
      | None => mret (st, ident, off, writeBuffer)
      | Some w =>
          if outDataLen out =? 0 then mret (st, ident, off, writeBuffer)
          else
            let st := if off =? 0
                      then onSockets st (sSockets st) (storeBytes (sMem st) (outData out) (udpHeader out)) (sRequest st) else st in
            r ← lift (nextFrame loopback out ident off st);
            let '(st, s) := r in
            x ← (if 0 <? zlength (sendFrame s) then
                   st ← finishFrame loopback w (sendFrame s) (usesContext (sendProgress s)) st;
                   writeBuffer ← lift (interfaceWriteBuffer loopback st);
                   mret (st, writeBuffer)
                 else mret (st, writeBuffer));
            let '(st, writeBuffer) := x in
            if stopsSending (sendProgress s)
            then mret (st, sendIdentification s, sendFragmentOffset s, writeBuffer)
            else sendFragments fuel loopback out writeBuffer (sendIdentification s) (sendFragmentOffset s) st
      end
  end.

(** A datagram has at most 45 fragments, and each turn sends one. *)
Definition FRAGMENTS_FUEL : nat := 45.

(** What becomes of the request afterwards. *)
Definition finishRequest (r : TransmissionRequest) (out : OutgoingUDPPacket) (ident off : Z) (writeBuffer : option Z)
    (st : NetworkState) : result NetworkState :=
  let s := sSockets st in let m := sMem st in let it := sRequest st in
  if outDataLen out =? 0 then
    x ← indicateAsFinished s m r;
    y ← remove (fst x) it;
    Ok (onSockets st (fst y) (snd x) (snd y))
  else if outDataLen out <=? off then
    x ← removeTop s m r;
    let '(s, txRequestDone) := x in
    if (txRequestDone : bool) then
      x ← indicateAsFinished s m r;
      y ← remove (fst x) it;
      Ok (onSockets st (fst y) (snd x) (snd y))
    else
      y ← relocateToEnd s it;
      Ok (onSockets st (fst y) m (snd y))
  else
    s ← updateTop s r off ident;
    match writeBuffer with
    | None => Ok (onSockets st s m it)
    | Some _ => it ← goToNext s it; Ok (onSockets st s m it)
    end.

(** [HandleTransmissionRequest::run] *)
Definition handleTransmissionRequest (st : NetworkState) : IO NetworkState :=
  request ← lift (currentRequest (sSockets st) (sRequest st));
  r ← lift (request ?? NullPointer);
  out ← lift (getTop (sSockets st) (sMem st) r);
  let loopback := isLoopback out in
  writeBuffer ← lift (interfaceWriteBuffer loopback st);
  x ← sendFragments FRAGMENTS_FUEL loopback out writeBuffer (outIdentification out) (outFragmentOffset out) st;
  let '(st, ident, off, writeBuffer) := x in
  lift (finishRequest r out ident off writeBuffer st).

(** ** The main loop *)

Definition startTransmission (st : NetworkState) : NetworkState :=
  onSockets st (sSockets st) (sMem st) (getTransmissionRequestsIterator (sSockets st)).

Fixpoint transmitRequests (fuel : nat) (st : NetworkState) : IO NetworkState :=
  match fuel with
  | O => lift (Fault OutOfFuel)
  | S fuel =>
      if isFinished (sRequest st) then mret st
      else st ← handleTransmissionRequest st; transmitRequests fuel st
  end.

Definition stackOf (loopback : bool) (st : NetworkState) : NetworkStackHandler :=
  if loopback then pLoopbackNetworkStackHandler st else pPhysicalNetworkStackHandler st.
Definition withStack (loopback : bool) (st : NetworkState) (s : NetworkStackHandler) : NetworkState :=
  if loopback then onLoopback st (pLoopbackNetworkInterface st, s) else onPhysical st (pPhysicalNetworkInterface st, s).
Definition buffersOf (loopback : bool) : nat := if loopback then LN else PN.

(** [HandleReceivedPacket::run] on the latest packet. *)
Definition handleLatest (loopback : bool) (st : NetworkState) : result NetworkState :=
  match getLatestIPv4Packet (stackOf loopback st) with
  | None => Ok st
  | Some newPacket =>
      fragments ← fragmentsFrom (S (buffersOf loopback)) (stackOf loopback st) (Some newPacket);
      x ← handleReceivedPacket (sSockets st) (sMem st) fragments;
      Ok (onSockets st (fst x) (snd x) (sRequest st))
  end.

Definition popLatest (loopback : bool) (st : NetworkState) : result NetworkState :=
  s ← popLatestIPv4Packet (buffersOf loopback) (stackOf loopback st);
  Ok (withStack loopback st s).

Fixpoint receivePackets (fuel : nat) (loopback : bool) (st : NetworkState) : result NetworkState :=
  match fuel with
  | O => Fault OutOfFuel
  | S fuel =>
      match getLatestIPv4Packet (stackOf loopback st) with
      | None => Ok st
      | Some _ =>
          st ← handleLatest loopback st;
          st ← popLatest loopback st;
          receivePackets fuel loopback st
      end
  end.

(** One turn of the loop that does not end, in one go. *)
Definition mainLoopTurn (fuel : nat) (st : NetworkState) : IO NetworkState :=
  st ← transmitRequests fuel (startTransmission st);
  st ← lift (receivePackets fuel false st);
  lift (receivePackets fuel true st).

(** ** Before the loop *)

Definition loopbackMac : list Z := [1; 2; 3; 4; 5; 6].

(** [physThis] and [loThis] are the addresses of the interface objects, [s] the
    sockets, [buffers] the uninitialised buffers of the loopback interface. *)
Definition networkSetup (gatewayIP networkMask physThis loThis : Z) (buffers : Mem) (s : SocketManager) (m : Mem)
    (p : PhysicalNetworkInterface) (im : InterruptHandlerManager) : IO (NetworkState * InterruptHandlerManager) :=
  let physStack := newNetworkStackHandler PN PT PL (phMac p) thisIP gatewayIP
                     (if (0 <=? networkMask) && (networkMask <? 32) then networkMask else 24) in
  let lo := newLoopbackNetworkInterface buffers 80 loopbackMac in
  let loStack := newNetworkStackHandler LN LT LL (loMac lo) thisIP thisIP 32 in
  x ← registerPacketHandler p im physThis;
  y ← lift (loopbackRegisterPacketHandler lo (snd x) loThis);
  mret (mkNetworkState s m None physStack (fst x) loStack (fst y), snd y).
End task.
