(* ===== verification/NetworkManagementTaskFacts.v ===== *)
(** What the network management task promises: an interrupt of the card hands
    the received frames to the stack, a transmission request is worked on for
    a bounded number of fragments, and no sequence of interrupts, steps of the
    task and system calls of others makes any part of it fault. *)
From S2P Require Import Prelude Mem LinkedLists NetworkStackHandler NetworkStackPool NetworkStackFacts NetworkStackData CpuCore Syscalls LoopbackNetworkInterface LoopbackFacts Devices PhysicalNetworkInterface PhysicalFacts SocketManager SocketManagerFacts NetworkManagementTask.

(** ** The interface of the card, whatever the card does *)

Definition disjointBuffers (l : Layout) : Prop :=
  rxBufferSpace l + RX_BUFFER_SIZE * NUM_RX_DESCRIPTORS <= txBufferSpace l \/
  txBufferSpace l + TX_BUFFER_SIZE * NUM_TX_DESCRIPTORS <= rxBufferSpace l.

(** What sending needs. *)
Record txOk (p : PhysicalNetworkInterface) : Prop := {
  txok_count : zlength (txDescs p) = NUM_TX_DESCRIPTORS;
  txok_sizes : Forall (fun d => zlength d = 16) (txDescs p);
  txok_current : 0 <= currentTx p < NUM_TX_DESCRIPTORS;
  txok_bytes : byteMem (bufferMem p);
  txok_buffers : disjointBuffers (layout p);
  txok_handler : pPacketHandler p = true;
}.

Record rxOk (p : PhysicalNetworkInterface) : Prop := {
  rxok_count : zlength (rxDescs p) = NUM_RX_DESCRIPTORS;
  rxok_current : 0 <= currentRx p < NUM_RX_DESCRIPTORS;
  rxok_lengths : lengthsOk p;
}.

Lemma received_dec d : received d \/ ~ received d.
Proof. unfold received. destruct (decide (Z.land (rxStatus d) 1 = 0)); tauto. Qed.

(** Whatever the status of the descriptors, the ones from the current one on
    hold a queue of frames. *)
Lemma received_prefix p : rxOk p -> exists q, rxRing p q.
Proof.
  intros [H1 H2 H3].
  assert (Hpre : forall n, Z.of_nat n <= NUM_RX_DESCRIPTORS -> exists q,
    zlength q <= Z.of_nat n /\
    (forall i f, q.[i] = Some f -> exists d, (rxDescs p).[rxAt p i] = Some d /\ received d /\ rxLength d = zlength f /\
      loadBytes (bufferMem p) (rxSlotAddr p (rxAt p i)) (length f) = f) /\
    (zlength q < Z.of_nat n -> exists d, (rxDescs p).[rxAt p (zlength q)] = Some d /\ ~ received d) /\
    Forall (fun f => ETHERNET_SIMPLE_HEADER_SIZE <= zlength f <= RX_BUFFER_SIZE) q).
  { induction n as [|n IH]; intros Hn.
    - exists []. split_and!; [done| |done|by apply Forall_nil]. intros i f Hf. by rewrite znth_nil in Hf.
    - destruct IH as (q & Hq & Hin & Hout & Hs); [lia|]. destruct (decide (zlength q < Z.of_nat n)) as [Hlt|Hge].
      { exists q. split_and!; [lia|done|by intros _; apply Hout|done]. }
      destruct (znth_lt_Some (rxDescs p) (rxAt p (zlength q))) as [d Hd]; [rewrite H1; apply rxAt_range|].
      destruct (received_dec d) as [Hr|Hr]; [|exists q; split_and!; [lia|done|by exists d|done]].
      pose proof (znth_Forall _ _ _ _ H3 Hd Hr) as Hlen. cbn beta in Hlen.
      set (f := loadBytes (bufferMem p) (rxSlotAddr p (rxAt p (zlength q))) (Z.to_nat (rxLength d))).
      assert (Hf : zlength f = rxLength d) by (unfold f; rewrite zlength_loadBytes; unfold ETHERNET_SIMPLE_HEADER_SIZE in Hlen; lia).
      exists (q ++ [f]). rewrite zlength_snoc. split_and!; [lia| |lia|apply Forall_app; split; [done|]; apply Forall_singleton; by rewrite Hf].
      intros i g Hg. pose proof (znth_Some_lt _ _ _ Hg) as Hi. rewrite zlength_snoc in Hi.
      destruct (decide (i = zlength q)) as [->|]; [|rewrite znth_app_l in Hg by lia; by apply Hin].
      rewrite znth_app_r, Z.sub_diag in Hg by lia. injection Hg as <-. exists d. split_and!; try done.
      unfold f. by rewrite length_loadBytes. }
  destruct (Hpre (Z.to_nat NUM_RX_DESCRIPTORS)) as (q & Hq & Hin & Hout & Hs); [done|]. exists q. by constructor.
Qed.

Lemma fresh_rxOk l mem p t : freshCard l mem p t -> rxOk p.
Proof.
  intros [_ _ F3 [L1 L2] _ _ _ _ _ _]. constructor; [apply F3..|]. apply Forall_znth. intros i d Hd.
  pose proof (znth_Some_lt _ _ _ Hd) as Hi. destruct (L2 i) as (d' & Hd' & Hs & _); [lia|]. assert (d' = d) by congruence. subst d'.
  unfold received. rewrite Hs. intros X. by destruct X.
Qed.

Lemma rxRing_ok p q : rxRing p q -> lengthsOk p -> rxOk p.
Proof. intros [] Hl. by constructor. Qed.

Lemma rxOk_same p p' : sameRxSide p p' -> rxOk p -> rxOk p'.
Proof. intros (_ & _ & E3 & E4 & _) [H1 H2 H3]. constructor; unfold lengthsOk; by rewrite ?E3, ?E4. Qed.

Lemma txOk_write_buffer p : txOk p -> exists w, getWriteBuffer p = Ok w /\ (w = None \/ w = Some (txSlotAddr p (currentTx p))).
Proof.
  intros [H1 H2 H3 _ _ _]. unfold getWriteBuffer. destruct (znth_lt_Some (txDescs p) (currentTx p)) as [d Hd]; [by rewrite H1|].
  rewrite Hd. cbn [mbind result_bind orFault]. unfold txStatus.
  destruct (znth_lt_Some d 12) as [s ->]; [rewrite (znth_Forall _ _ _ _ H2 Hd); lia|]. cbn [mbind result_bind orFault].
  eexists. split; [done|]. case_match; [by left|by right].
Qed.

Definition maybeBuffer (p : PhysicalNetworkInterface) (w : option Z) : Prop := w = None \/ w = Some (txSlotAddr p (currentTx p)).

(** The frame is written to the current transmit buffer or nowhere. *)
Lemma txOk_write p w f :
  txOk p -> maybeBuffer p w -> zlength f <= TX_BUFFER_SIZE -> Forall is_u8 f ->
  txOk (physWriteFrame p w f) /\ keepsRx p (physWriteFrame p w f).
Proof.
  intros [H1 H2 H3 H4 H5 H6] [->| ->] Hf Hu; [by split|]. split; [constructor; try done; by apply byteMem_storeBytes|].
  split; [by split_and!|]. intros a Ha. cbn [physWriteFrame withBufferMem bufferMem]. apply storeBytes_out.
  unfold inRxBuffers, disjointBuffers, txSlotAddr, NUM_RX_DESCRIPTORS, RX_BUFFER_SIZE, NUM_TX_DESCRIPTORS, TX_BUFFER_SIZE in *. lia.
Qed.

Section card.
Context `{Device}.

Lemma txOk_finish p length ip t :
  txOk p -> exists p' t', finishWriteBuffer p length ip t = (t', Ok p') /\ txOk p' /\ keepsRx p p'.
Proof.
  intros H0. pose proof H0 as [H1 H2 H3 H4 H5 H6].
  assert (Hsame : exists p' t', (t, Ok p) = (t', Ok p') /\ txOk p' /\ keepsRx p p') by (exists p, t; by split_and!).
  unfold finishWriteBuffer. destruct (_ <? _); [exact Hsame|]. destruct (_ <? _); [exact Hsame|].
  destruct (znth_lt_Some (txDescs p) (currentTx p)) as [d Hd]; [by rewrite H1|].
  rewrite Hd, (runs_bind _ _ t t d) by done.
  destruct (znth_lt_Some d 12) as [s Hs]; [rewrite (znth_Forall _ _ _ _ H2 Hd); lia|].
  rewrite (runs_bind _ _ t t s) by (unfold txStatus; by rewrite Hs). destruct (s =? 0); [exact Hsame|].
  destruct (ip && _); [exact Hsame|].
  destruct (writeCommand_runs (registers p) TX_TAIL_REGISTER ((currentTx p + 1) mod NUM_TX_DESCRIPTORS) t) as (t' & Ew & _).
  { unfold is_u32, TX_TAIL_REGISTER. lia. }
  { pose proof (Z.mod_pos_bound (currentTx p + 1) NUM_TX_DESCRIPTORS). unfold is_u32, NUM_TX_DESCRIPTORS in *. lia. }
  rewrite (runs_bind _ _ t t' tt) by done. eexists _, t'. split; [reflexivity|]. split; [|by split_and!].
  constructor; cbn [withTx txDescs currentTx bufferMem layout pPacketHandler]; try done.
  - by rewrite zlength_zset.
  - apply zset_Forall; [done|]. by destruct ip.
  - by apply Z.mod_pos_bound.
Qed.

(** ** The interrupt of the card *)

Section interrupt.
Context (PN PT PL : nat) (HPT : (0 < PT)%nat).

(** What the packet handler does with a frame: the stack takes it. *)
Definition stackTakes (c : () * NetworkStackHandler) (f : list Z) (c' : () * NetworkStackHandler) : Prop :=
  exists t, handleIncomingEthernetPacket PN PT PL (snd c) f (zlength f) = Ok (snd c', t).

(** The same with what waits in the transmit ring: the answer to an ARP request
    is queued behind it, if a descriptor is free. *)
Definition stackAnswers (c : list Queued * NetworkStackHandler) (f : list Z) (c' : list Queued * NetworkStackHandler) : Prop :=
  exists t, handleIncomingEthernetPacket PN PT PL (snd c) f (zlength f) = Ok (snd c', t) /\
    if bool_decide (t = ARPRequest) && (zlength (fst c) <? NUM_TX_DESCRIPTORS)
    then exists r, handleOutgoingArpReply (snd c') f false = Ok r /\ fst c' = fst c ++ [QFrame r false]
    else fst c' = fst c.

Definition sideOk (p : PhysicalNetworkInterface) (s : NetworkStackHandler) : Prop := txOk p /\ stackOk PN PT PL s.

Lemma keepsRx_trans p1 p2 p3 : keepsRx p1 p2 -> keepsRx p2 p3 -> keepsRx p1 p3.
Proof.
  unfold keepsRx, sameRxSide. intros [S1 H1] [S2 H2]. destruct_and!. split; [split_and!; congruence|]. intros a Ha. rewrite H2; [by apply H1|].
  unfold inRxBuffers in *. congruence.
Qed.

(** The packet handler on a frame, and with the transmit ring known. *)
Lemma physHandler_call p s b len t f :
  sideOk p s -> loadBytes (bufferMem p) b (Z.to_nat len) = f -> zlength f = len -> ETHERNET_SIMPLE_HEADER_SIZE <= len <= RX_BUFFER_SIZE ->
  exists p' s' t', physPacketHandlerCall PN PT PL (p, s) b len t = (t', Ok (p', s')) /\ keepsRx p p' /\ sideOk p' s' /\
    stackTakes (tt, s) f (tt, s') /\
    forall tq, txRing p tq -> exists tq', txRing p' tq' /\ stackAnswers (tq, s) f (tq', s').
Proof.
  intros [Hp Hs] Hf <- Hb.
  assert (Hg : goodFrame f (zlength f)).
  { unfold ETHERNET_SIMPLE_HEADER_SIZE in Hb. split_and!; [lia..|]. rewrite <- Hf. apply byteMem_load, Hp. }
  destruct (handleIncoming_answer PN PT PL HPT s f Hs Hg) as (s1 & ty & Hrun & Hs1 & Hreq).
  unfold physPacketHandlerCall. cbn [fst snd]. rewrite Hf. rewrite (runs_bind _ _ t t (s1, ty)) by (by rewrite Hrun). cbn [fst snd].
  assert (Hplain : ty <> ARPRequest -> exists p' c' t', (t, Ok (p, s1)) = (t', Ok (p', c')) /\ keepsRx p p' /\ sideOk p' c' /\
    stackTakes (tt, s) f (tt, c') /\ forall tq, txRing p tq -> exists tq', txRing p' tq' /\ stackAnswers (tq, s) f (tq', c')).
  { intros Hty. exists p, s1, t. split_and!; try done; [by exists ty|]. intros tq Htq. exists tq. split; [done|]. exists ty. split; [done|].
    by rewrite bool_decide_false. }
  destruct ty; try by apply Hplain. clear Hplain. destruct (Hreq eq_refl) as [_ H42].
  destruct (txOk_write_buffer p Hp) as (w & Ew & Hw). rewrite (runs_bind _ _ t t w) by (by rewrite Ew).
  destruct (arpReply_ok PN PT PL HPT s1 f Hs1 (proj2 (proj2 Hg)) H42) as (reply & Ereply & [Hlen Hu] & _).
  assert (Hl : zlength reply <= TX_BUFFER_SIZE) by (unfold ETHERNET_MTU, ETHERNET_SIMPLE_HEADER_SIZE, TX_BUFFER_SIZE in *; lia).
  set (r := match w with Some _ => reply | None => [] end).
  assert (Er : handleOutgoingArpReply s1 f (bool_decide (w = None)) = Ok r).
  { destruct Hw as [->| ->]; [by rewrite bool_decide_true|by rewrite bool_decide_false]. }
  rewrite (runs_bind _ _ t t r) by (by rewrite Er).
  destruct (txOk_write p w r Hp Hw) as [Hp1 Hk1]; [unfold r; destruct w; [done|by vm_compute]|unfold r; by destruct w|].
  destruct (txOk_finish (physWriteFrame p w r) (zlength r) false t Hp1) as (p2 & t2 & Ef & Hp2 & Hk2).
  rewrite (runs_bind _ _ t t2 p2) by done. exists p2, s1, t2.
  split_and!; [done|by eapply keepsRx_trans|done|by eexists|].
  intros tq Htq. pose proof (getWriteBuffer_ring p tq Htq) as Hring. rewrite Ew in Hring. injection Hring as Hring.
  pose proof (tx_room _ _ Htq). destruct (Z.eqb_spec (zlength tq) NUM_TX_DESCRIPTORS) as [E|E]; subst w; unfold r in *.
  - injection Ef as _ <-. exists tq. split; [done|]. exists ARPRequest. split; [done|]. cbn [fst]. by rewrite (proj2 (Z.ltb_ge _ _)), andb_false_r by lia.
  - destruct (send_ok p tq reply false t Htq) as (p3 & t3 & _ & _ & Ef' & Hq'); [lia| |].
    { unfold acceptable. by rewrite (proj2 (Z.leb_le _ _)), (proj2 (Z.leb_le _ _)) by lia. }
    rewrite Ef in Ef'. injection Ef' as _ <-. exists (tq ++ [QFrame reply false]). split; [done|].
    exists ARPRequest. split; [done|]. cbn [fst snd]. rewrite bool_decide_true, (proj2 (Z.ltb_lt _ _)) by (done || lia). by exists reply.
Qed.

Lemma physHandler_ok : handlerOk (physPacketHandlerCall PN PT PL) (fun _ => sideOk) stackTakes.
Proof.
  intros [] p s b len t f Hi Hf Hl Hb. destruct (physHandler_call p s b len t f Hi Hf Hl Hb) as (p' & s' & t' & E & Hk & Hi' & Ht & _).
  by exists tt, p', s', t'.
Qed.

Lemma physHandler_ring : handlerOk (physPacketHandlerCall PN PT PL) (fun tq p s => sideOk p s /\ txRing p tq) stackAnswers.
Proof.
  intros tq p s b len t f [Hi Hq] Hf Hl Hb. destruct (physHandler_call p s b len t f Hi Hf Hl Hb) as (p' & s' & t' & E & Hk & Hi' & _ & Ha).
  destruct (Ha tq Hq) as (tq' & Hq' & Ht). by exists tq', p', s', t'.
Qed.

Lemma physHandler_blind : rxBlind (fun _ : () => sideOk).
Proof. intros _ p p' s E1 E2 E3 E4 E5 E6 [[] Hs]. split; [|done]. constructor; by rewrite ?E2, ?E3, ?E4, ?E5, ?E6. Qed.

Lemma txRing_blind p p' q :
  layout p' = layout p -> txDescs p' = txDescs p -> currentTx p' = currentTx p -> bufferMem p' = bufferMem p -> txRing p q -> txRing p' q.
Proof.
  intros E2 E3 E4 E5 [H1 H2 H3 H4 H5 H6 H7].
  assert (Hat : forall n i, txAt p' n i = txAt p n i) by (intros; unfold txAt; by rewrite E4).
  constructor; rewrite ?E3, ?E4; try done.
  - intros i x Hx. specialize (H6 i x Hx). rewrite Hat. unfold holdsQueued, txSlotAddr in *. by rewrite E3, E2, E5.
  - intros i Hi. rewrite Hat. by apply H7.
Qed.

Lemma physHandler_ring_blind : rxBlind (fun tq p s => sideOk p s /\ txRing p tq).
Proof.
  intros tq p p' s E1 E2 E3 E4 E5 E6 [Hi Hq]. split; [by apply (physHandler_blind tt p)|by apply (txRing_blind p)].
Qed.

Lemma interruptCause_other status : Z.land status 0x94 <> 0x80 -> interruptCauseOf status <> ReceiverTimerInterrupt.
Proof.
  intros Hne. unfold interruptCauseOf. destruct (Z.eqb_spec (Z.land status 0x04) 0) as [E4|]; [|done]. cbn [negb].
  destruct (Z.eqb_spec (Z.land status 0x10) 0) as [E10|]; [|done]. cbn [negb].
  destruct (Z.eqb_spec (Z.land status 0x80) 0) as [E80|N80]; [done|]. cbn [negb]. intros _. apply Hne. clear Hne.
  change 0x94 with (Z.lor 0x04 (Z.lor 0x10 0x80)). rewrite !Z.land_lor_distr_r, E4, E10, !Z.lor_0_l.
  apply Z.bits_inj'. intros n Hn. rewrite Z.land_spec. change 0x80 with (2 ^ 7) in *. destruct (decide (n = 7)) as [->|Hn7].
  - rewrite Z.pow2_bits_true by lia. rewrite andb_true_r. apply not_false_iff_true. intros E7. apply N80. apply Z.bits_inj'. intros k Hk.
    rewrite Z.land_spec, Z.bits_0. destruct (decide (k = 7)) as [->|]; [by rewrite E7|]. by rewrite Z.pow2_bits_false, andb_false_r by lia.
  - by rewrite Z.pow2_bits_false, andb_false_r by lia.
Qed.

(** C17: whatever frames the card received, of any content, and whatever
    waits in the transmit ring: when the card interrupts for received frames
    alone, the interrupt returns, the stack has been given every frame, whole and
    in the order they were received, the answers to the ARP requests among them
    are in the transmit ring, in order behind what waited there, as long as it
    had a free descriptor, and the descriptors of the frames are the card's
    again.  When the card reports another cause - a change of the link, few
    descriptors left, with or without received frames - nothing is read. *)
Theorem card_interrupt_delivers p s q tq t t1 status :
  sideOk p s -> rxRing p q -> lengthsOk p -> txRing p tq ->
  readCommand (registers p) INTERRUPT_CAUSE_READ_REGISTER t = (t1, Ok status) ->
  if Z.land status 0x94 =? 0x80 then
    exists p' s' tq' t', handlePhysicalNetworkInterfaceInterrupt (physPacketHandlerCall PN PT PL) (p, s) t = (t', Ok (p', s')) /\
      handleAll stackAnswers (tq, s) q (tq', s') /\ txRing p' tq' /\
      rxRing p' [] /\ currentRx p' = rxAt p (zlength q) /\ sideOk p' s' /\ lengthsOk p'
  else exists t', handlePhysicalNetworkInterfaceInterrupt (physPacketHandlerCall PN PT PL) (p, s) t = (t', Ok (p, s)).
Proof.
  intros Hi Hq Hl Htq Er. unfold handlePhysicalNetworkInterfaceInterrupt. cbn [fst].
  rewrite (runs_bind _ _ t t1 status) by done. destruct (Z.eqb_spec (Z.land status 0x94) 0x80) as [Hc|Hc].
  - rewrite interruptCause_receiver by done. rewrite (txok_handler _ (proj1 Hi)).
    destruct (readFrames_ok _ _ stackAnswers q physHandler_ring physHandler_ring_blind READ_FUEL tq p s t1) as
      (tq' & p' & s' & t' & Hrun & Hq' & Hall & [Hi' Htq'] & Hcur & Hl'); [|done..|].
    { pose proof (rx_room _ _ Hq) as Hroom. unfold zlength, NUM_RX_DESCRIPTORS, READ_FUEL in *. lia. }
    exists p', s', tq', t'. split_and!; try done. by apply Hl'.
  - pose proof (interruptCause_other status Hc) as Hcause. destruct (interruptCauseOf status); try done; [|by eexists..].
    destruct (readCommand_runs (registers p) DEVICE_CONTROL_REGISTER t1) as (t2 & c & Ec & Hc' & _).
    rewrite (runs_bind _ _ t1 t2 c) by done.
    destruct (writeCommand_runs (registers p) DEVICE_CONTROL_REGISTER (Z.lor c 0x40) t2) as (t3 & Ew & _);
      [unfold is_u32, DEVICE_CONTROL_REGISTER; lia|by apply is_u32_lor|].
    rewrite (runs_bind _ _ t2 t3 tt) by done. by eexists.
Qed.

(** Whatever the cause. *)
Lemma cardInterrupt_safe p s t :
  sideOk p s -> rxOk p ->
  exists p' s' t', handlePhysicalNetworkInterfaceInterrupt (physPacketHandlerCall PN PT PL) (p, s) t = (t', Ok (p', s')) /\
    sideOk p' s' /\ rxOk p'.
Proof.
  intros Hi Hrx. unfold handlePhysicalNetworkInterfaceInterrupt. cbn [fst].
  destruct (readCommand_runs (registers p) INTERRUPT_CAUSE_READ_REGISTER t) as (t1 & status & Er & _).
  rewrite (runs_bind _ _ t t1 status) by done.
  assert (Hplain : forall t : Trace, exists p' s' t', (t, Ok (p, s)) = (t', Ok (p', s')) /\ sideOk p' s' /\ rxOk p').
  { intros t'. by exists p, s, t'. }
  destruct (interruptCauseOf status).
  - destruct (readCommand_runs (registers p) DEVICE_CONTROL_REGISTER t1) as (t2 & c & Ec & Hc & _).
    rewrite (runs_bind _ _ t1 t2 c) by done.
    destruct (writeCommand_runs (registers p) DEVICE_CONTROL_REGISTER (Z.lor c 0x40) t2) as (t3 & Ew & _);
      [unfold is_u32, DEVICE_CONTROL_REGISTER; lia|by apply is_u32_lor|].
    rewrite (runs_bind _ _ t2 t3 tt) by done. apply Hplain.
  - apply Hplain.
  - rewrite (txok_handler _ (proj1 Hi)). destruct (received_prefix p Hrx) as [q Hq].
    destruct (readFrames_ok _ (fun _ => sideOk) stackTakes q physHandler_ok physHandler_blind READ_FUEL tt p s t1) as
      (_ & p' & s' & t' & Hrun & Hq' & _ & Hi' & _ & Hl'); [|done..|].
    { pose proof (rx_room _ _ Hq) as Hroom. unfold zlength, NUM_RX_DESCRIPTORS, READ_FUEL in *. lia. }
    exists p', s', t'. split_and!; try done. eapply rxRing_ok; [done|]. by apply Hl', Hrx.
  - apply Hplain.
Qed.
End interrupt.
End card.

(** ** The sockets *)

(** Where the sockets are in their datagrams, a number that is not negative. *)
Definition offsetsOk (s : SocketManager) : Prop := Forall (fun d => 0 <= sendBufferFragmentOffset d) (socketDescs s).

Lemma putSocket_offsets s t i d : offsetsOk s -> 0 <= sendBufferFragmentOffset d -> offsetsOk (putSocket s t i d).
Proof. intros Hs Hd. by apply zset_Forall. Qed.

Lemma getSocket_offset s t i d : getSocket s t i = Ok d -> offsetsOk s -> 0 <= sendBufferFragmentOffset d.
Proof.
  unfold getSocket. intros H Hs. destruct ((socketDescs s).[socketIndex t i]) as [e|] eqn:E; [|done]. injection H as <-.
  exact (znth_Forall _ _ _ _ Hs E).
Qed.

Lemma requestSocket_offset s r p d : requestSocket s r = Ok (Some (p, d)) -> offsetsOk s -> 0 <= sendBufferFragmentOffset d.
Proof. unfold requestSocket. intros H Hs. repeat (result_inv; case_match; simplify_eq). result_inv. simplify_eq. by eapply getSocket_offset. Qed.

Create HintDb offsets.
#[local] Hint Resolve putSocket_offsets getSocket_offset requestSocket_offset : offsets.

Ltac offsets := intros; repeat (result_inv; case_match; simplify_eq); result_inv; simplify_eq;
  try (apply putSocket_offsets; cbn); try done; eauto with offsets.

Lemma closeSocket_offsets s t i s' : closeSocket s t i = Ok s' -> offsetsOk s -> offsetsOk s'.
Proof. unfold closeSocket. offsets. Qed.

Lemma closeAll_offsets n i s t s' :
  for_rangeM n i (fun i s => closeSocket s t i) s = Ok s' -> offsetsOk s -> offsetsOk s'.
Proof.
  revert i s. induction n as [|n IH]; intros i s H Hs; cbn [for_rangeM] in H; [by injection H as <-|]. result_inv.
  eapply IH; [done|]. by eapply closeSocket_offsets.
Qed.

Lemma openSocket_offsets s t port s' r : openSocket s t port = Ok (s', r) -> offsetsOk s -> offsetsOk s'.
Proof. unfold openSocket. offsets. Qed.

Lemma setReceiveBuffer_offsets s t i b n s' r : setReceiveBuffer s t i b n = Ok (s', r) -> offsetsOk s -> offsetsOk s'.
Proof. unfold setReceiveBuffer. offsets. Qed.

Lemma push_offsets s port s' : pushTransmissionRequest s port = Ok (Some s') -> offsetsOk s -> offsetsOk s'.
Proof. unfold pushTransmissionRequest. offsets. Qed.

Lemma setSendBuffer_offsets s t i b n ind s' r : setSendBuffer s t i b n ind = Ok (s', r) -> offsetsOk s -> offsetsOk s'.
Proof. unfold setSendBuffer. offsets; by eapply push_offsets. Qed.

Lemma received_offsets s m frs s' m' : handleReceivedPacket s m frs = Ok (s', m') -> offsetsOk s -> offsetsOk s'.
Proof. unfold handleReceivedPacket. offsets. Qed.

Lemma updateTop_offsets s r off ident s' : updateTop s r off ident = Ok s' -> 0 <= off -> offsetsOk s -> offsetsOk s'.
Proof. unfold updateTop. offsets. Qed.

Lemma removeTop_offsets s m r s' b : removeTop s m r = Ok (s', b) -> offsetsOk s -> offsetsOk s'.
Proof. unfold removeTop. offsets. Qed.

Lemma indicate_offsets s m r s' m' : indicateAsFinished s m r = Ok (s', m') -> offsetsOk s -> offsetsOk s'.
Proof. unfold indicateAsFinished. offsets. Qed.

Lemma same_offsets s s' : sameSockets s s' -> offsetsOk s -> offsetsOk s'.
Proof. intros [E _]. unfold offsetsOk. by rewrite E. Qed.

Lemma getTop_offset s m r out : getTop s m r = Ok out -> offsetsOk s -> 0 <= outFragmentOffset out /\ is_u16 (outDataLen out).
Proof.
  unfold getTop. intros H Hs.
  assert (Hno : 0 <= outFragmentOffset noOutgoingUDPPacket /\ is_u16 (outDataLen noOutgoingUDPPacket)) by (by vm_compute).
  destruct (requestSocket s r) as [[[p d]|]|] eqn:E; [|by injection H as <-|done]. cbn [mbind result_bind] in H.
  destruct (_ <? _); [by injection H as <-|]. cbv zeta in H. destruct (_ || _); [by injection H as <-|]. injection H as <-.
  cbn [outFragmentOffset outDataLen]. split; [by eapply requestSocket_offset|apply is_u16_u16].
Qed.

(** ** The datagrams the stack has ready *)

Definition fragmentBytes (frs : list Fragment) : Prop := Forall (fun f => Forall is_u8 (snd f)) frs.

Lemma fragments_ok N s l : forall fuel,
  (zlength (packetDataBuffers s) = Z.of_nat N /\ forall i b, (packetDataBuffers s).[i] = Some b -> zlength b = RX_BUFFER_SIZE) -> dataOk s -> threaded (fragOf (packetListElements s)) l None -> Forall (fun i => 0 <= i < Z.of_nat N) l ->
  (length l <= fuel)%nat ->
  exists frs, fragmentsFrom fuel s (firstOf l None) = Ok frs /\ length frs = length l /\ Forall goodFragment frs /\ fragmentBytes frs.
Proof.
  intros fuel (Hn & Hb) Hd. revert fuel. induction l as [|i l IH]; intros fuel Ht Hr Hl.
  { exists []. unfold fragmentBytes. by destruct fuel. }
  destruct fuel as [|fuel]; [cbn in Hl; lia|]. destruct Ht as [Hi Ht]. apply Forall_cons in Hr as [Hri Hr]. cbn [fragmentsFrom firstOf].
  unfold fragOf, valueOf in Hi. destruct ((packetListElements s).[i]) as [e|] eqn:Ee; [|done]. cbn in Hi. injection Hi as Hi.
  unfold getValue. rewrite Ee. cbn [mbind result_bind].
  destruct (znth_lt_Some (packetDataBuffers s) i) as [b Eb]; [by rewrite Hn|]. rewrite Eb. cbn [mbind result_bind orFault]. rewrite Hi.
  destruct (IH fuel Ht Hr) as (frs & -> & Hlen & Hg & Hby); [cbn in Hl; lia|]. cbn [mbind result_bind].
  pose proof (znth_Forall _ _ _ _ (data_sizes _ Hd) Ee) as Hsize. cbn beta in Hsize. pose proof (Hb i b Eb) as Hbl.
  eexists. split; [done|]. split; [cbn; by rewrite Hlen|]. split; apply Forall_cons; (split; [|done]); cbn [fst snd].
  - unfold goodFragment, RX_BUFFER_SIZE in *. cbn [fst snd]. lia.
  - exact (znth_Forall _ _ _ _ (data_buffers _ Hd) Eb).
Qed.

Lemma latest_ok N TS LS s p :
  stackOk N TS LS s -> getLatestIPv4Packet s = Some p ->
  exists packet data rest, fragmentsFrom (S N) s (Some p) = Ok ((packet, data) :: rest) /\
    Forall goodFragment ((packet, data) :: rest) /\ fragmentBytes ((packet, data) :: rest).
Proof.
  intros [[(free & inc & rdy & Hp) _ _ _] Hd] Hhead. unfold getLatestIPv4Packet in Hhead. rewrite (pool_head _ _ _ _ _ _ Hp) in Hhead.
  destruct rdy as [|d rdy]; [done|]. cbn [heads map firstOf] in Hhead. injection Hhead as Hhead.
  assert (Hin : d ∈ inc ++ d :: rdy) by (rewrite elem_of_app; right; by left).
  pose proof (members_bound _ _ _ _ _ _ d Hp Hin) as Hlen.
  pose proof (pool_chains _ _ _ _ _ _ Hp) as Hch. rewrite Forall_forall in Hch. specialize (Hch d Hin).
  destruct (fragments_ok N s (members d) (S N)) as (frs & Hrun & Hl & Hg & Hb).
  - split; [apply Hp|apply Hp].
  - done.
  - done.
  - pose proof (pool_range _ _ _ _ _ _ Hp) as Hr. rewrite allMembers_cons in Hr. rewrite !Forall_app in Hr. tauto.
  - lia.
  - cbn [members firstOf] in Hrun. rewrite Hhead in Hrun. destruct frs as [|[packet data] rest]; [done|].
    by exists packet, data, rest.
Qed.

(** ** Bytes stay bytes *)

Lemma land_FF_u8 z : is_u8 (Z.land z 0xFF).
Proof. rewrite land_FF. apply Z.mod_pos_bound. lia. Qed.

Lemma byteMem_store m a x : byteMem m -> is_u8 x -> byteMem (store m a x).
Proof. intros Hm Hx y. unfold store. case_match; [done|apply Hm]. Qed.

Lemma packetBytes_u8 data i n bytes : packetBytes data i n = Ok bytes -> Forall is_u8 data -> Forall is_u8 bytes.
Proof. unfold packetBytes. case_match; [done|]. intros [= <-] Hu. by apply Forall_take, Forall_drop. Qed.

Lemma copyFragments_u8 frs : forall first b l acc m m' r,
  copyFragments frs first b l acc m = Ok (m', r) -> fragmentBytes frs -> byteMem m -> byteMem m'.
Proof.
  induction frs as [|[packet data] frs IH]; intros first b l acc m m' r Hc Hf Hm; cbn [copyFragments] in Hc; [by injection Hc as <- <-|].
  apply Forall_cons in Hf as [Hd Hf]. cbn [snd] in Hd. case_match; [by injection Hc as <- <-|]. destruct first; result_inv.
  - eapply IH; [done..|]. apply byteMem_storeBytes; [done|]. by eapply packetBytes_u8.
  - eapply IH; [done..|]. apply byteMem_storeBytes; [done|]. by eapply packetBytes_u8.
Qed.

Lemma received_u8 s m frs s' m' : handleReceivedPacket s m frs = Ok (s', m') -> fragmentBytes frs -> byteMem m -> byteMem m'.
Proof.
  unfold handleReceivedPacket. intros Hr Hf Hm. destruct frs as [|[packet data] frs]; [done|].
  do 2 (case_match; [by simplify_eq|]). result_inv. case_match; [by simplify_eq|].
  result_inv. case_match; [by simplify_eq|]. result_inv.
  match goal with E : copyFragments _ _ _ _ _ _ = Ok ?x |- _ => destruct x as [m1 acc]; apply copyFragments_u8 in E as Hm1; [|done|done] end.
  case_match; [by simplify_eq|]. result_inv. simplify_eq.
  repeat (apply byteMem_store; [|first [apply land_FF_u8 | done]]). done.
Qed.

Lemma indicate_u8 s m r s' m' : indicateAsFinished s m r = Ok (s', m') -> byteMem m -> byteMem m'.
Proof.
  unfold indicateAsFinished. intros Hr Hm. repeat (result_inv; case_match; simplify_eq); result_inv; simplify_eq; try exact Hm.
  by repeat (apply byteMem_store; [|done]).
Qed.

Lemma udpHeader_u8 out : Forall is_u8 (udpHeader out).
Proof. unfold udpHeader. repeat (apply Forall_cons; split); try apply Forall_nil; first [apply is_u8_u8 | done]. Qed.

(** ** The list of requests under the iterator *)

(** The iterator is at its end or on the list. *)
Definition onList (s : SocketManager) (it : option Z) : Prop :=
  match it with
  | None => True
  | Some c => exists active unused, SocketManagerFacts.requests s active unused /\ c ∈ active
  end.

(** What the task and the sockets keep of the socket manager. *)
Record managerOk (s : SocketManager) (m : Mem) : Prop := {
  mo_inv : socketInv s;
  mo_offsets : offsetsOk s;
  mo_bytes : byteMem m;
}.

Lemma onList_first s before after unused :
  SocketManagerFacts.requests s (before ++ after) unused -> onList s (firstOf after None).
Proof.
  intros Hr. destruct after as [|x after]; [done|]. exists (before ++ x :: after), unused. split; [done|].
  rewrite elem_of_app. right. by left.
Qed.

Lemma iterator_onList s m : managerOk s m -> onList s (getTransmissionRequestsIterator s).
Proof.
  intros [(_ & a & u & Hr & _) _ _]. unfold getTransmissionRequestsIterator. rewrite (rq_head _ _ _ Hr).
  by apply (onList_first _ [] a u).
Qed.

Lemma onList_frame s s' it : sameRequests s s' -> onList s it -> onList s' it.
Proof. intros Hs. destruct it as [c|]; [|done]. intros (a & u & Hr & Hc). exists a, u. split; [|done]. by eapply requests_same. Qed.

Lemma atIterator_step {A} s c r (f : TransmissionRequest -> result A) :
  currentRequest s (Some c) = Ok (Some r) -> atIterator s c f = f r.
Proof. unfold atIterator. by intros ->. Qed.

Section requests.
Context (s : SocketManager) (m : Mem) (c : Z) (r : TransmissionRequest).
Context (Hm : managerOk s m) (Hc : onList s (Some c)) (Hr : currentRequest s (Some c) = Ok (Some r)).

Lemma indicate_ok :
  exists s' m', indicateAsFinished s m r = Ok (s', m') /\ managerOk s' m' /\ sameRequests s s'.
Proof.
  destruct Hm as [H1 H2 H3]. destruct (socketStep_ok s m (IndicateAsFinished c) H1 Hc ltac:(by intros [])) as (s' & m' & Hrun & Hs').
  cbn [socketStep] in Hrun. rewrite (atIterator_step _ _ _ _ Hr) in Hrun. exists s', m'. split; [done|]. split.
  - constructor; [done|by eapply indicate_offsets|by eapply indicate_u8].
  - unfold indicateAsFinished in Hrun. repeat (result_inv; case_match; simplify_eq); result_inv; by simplify_eq.
Qed.

Lemma removeTop_ok :
  exists s' b, removeTop s m r = Ok (s', b) /\ managerOk s' m /\ sameRequests s s'.
Proof.
  destruct Hm as [H1 H2 H3]. destruct (socketStep_ok s m (RemoveTop c) H1 Hc ltac:(by intros [])) as (s' & m' & Hrun & Hs').
  cbn [socketStep] in Hrun. rewrite (atIterator_step _ _ _ _ Hr) in Hrun.
  destruct (removeTop s m r) as [[s1 b]|] eqn:E; [|done]. cbn [mbind result_bind fst] in Hrun. injection Hrun as -> ->.
  exists s', b. split; [done|]. split; [constructor; [done|by eapply removeTop_offsets|done]|].
  unfold removeTop in E. repeat (result_inv; case_match; simplify_eq); result_inv; by simplify_eq.
Qed.

Lemma updateTop_ok off ident :
  0 <= off -> exists s', updateTop s r off ident = Ok s' /\ managerOk s' m /\ sameRequests s s'.
Proof.
  intros Ho. destruct Hm as [H1 H2 H3]. destruct (socketStep_ok s m (UpdateTop c off ident) H1 Hc ltac:(by intros [])) as (s' & m' & Hrun & Hs').
  cbn [socketStep] in Hrun. rewrite (atIterator_step _ _ _ _ Hr) in Hrun.
  destruct (updateTop s r off ident) as [s1|] eqn:E; [|done]. cbn [mbind result_bind] in Hrun. injection Hrun as -> ->.
  exists s'. split; [done|]. split; [constructor; [done|by eapply updateTop_offsets|done]|].
  unfold updateTop in E. repeat (result_inv; case_match; simplify_eq); result_inv; by simplify_eq.
Qed.
End requests.

Section iterate.
Context (s : SocketManager) (m : Mem) (c : Z) (Hm : managerOk s m) (Hc : onList s (Some c)).

Lemma removeAt_ok : exists s' it, remove s (Some c) = Ok (s', it) /\ managerOk s' m /\ onList s' it.
Proof.
  destruct Hm as [H1 H2 H3]. destruct (socketStep_ok s m (RemoveRequest c) H1 Hc ltac:(by intros [])) as (s1 & m1 & Hrun & Hs1).
  destruct Hc as (a & u & Hr & Hin). apply list_elem_of_split in Hin as (before & after & ->).
  destruct (remove_ok s before c after u Hr) as (s' & E & Hr' & Hsame & _). cbn [socketStep] in Hrun. rewrite E in Hrun.
  cbn [mbind result_bind fst] in Hrun. injection Hrun as -> ->. exists s1, (firstOf after None). split; [done|]. split.
  - constructor; [done|by eapply same_offsets|done].
  - by eapply onList_first.
Qed.

Lemma relocateAt_ok : exists s' it, relocateToEnd s (Some c) = Ok (s', it) /\ managerOk s' m /\ onList s' it.
Proof.
  destruct Hm as [H1 H2 H3]. destruct (socketStep_ok s m (RelocateRequest c) H1 Hc ltac:(by intros [])) as (s1 & m1 & Hrun & Hs1).
  pose proof Hc as (a & u & Hr & Hin). apply list_elem_of_split in Hin as (before & after & ->).
  cbn [socketStep] in Hrun. destruct (decide (after = [])) as [->|Hne].
  - destruct (requests_at _ _ _ _ _ Hr) as (Hn & _). exists s, (Some c). split_and!; [|done|done].
    unfold relocateToEnd. by rewrite (getNext_ok _ _ _ Hn).
  - destruct (relocateToEnd_ok s before c after u Hr Hne) as (s' & E & Hr' & Hsame & _). rewrite E in Hrun.
    cbn [mbind result_bind fst] in Hrun. injection Hrun as -> ->. exists s1, (firstOf after None). split; [done|]. split.
    + constructor; [done|by eapply same_offsets|done].
    + destruct after as [|x after]; [done|]. by apply (onList_first _ before (x :: after ++ [c]) u).
Qed.

Lemma goToNext_ok : exists it, goToNext s (Some c) = Ok it /\ onList s it.
Proof.
  pose proof Hc as (a & u & Hr & Hin). apply list_elem_of_split in Hin as (before & after & ->).
  destruct (requests_at _ _ _ _ _ Hr) as (Hn & _). exists (firstOf after None). split; [by apply getNext_ok|].
  apply (onList_first _ (before ++ [c]) after u). by rewrite <- app_assoc.
Qed.
End iterate.

Lemma currentRequest_ok s m c :
  managerOk s m -> onList s (Some c) ->
  exists r out, currentRequest s (Some c) = Ok (Some r) /\ getTop s m r = Ok out /\
    0 <= outFragmentOffset out /\ is_u16 (outDataLen out).
Proof.
  intros [H1 H2 H3] (a & u & Hr & Hin). destruct (iterator_ok s c a u H1 Hr Hin) as (port & Ec & x & Ex & _).
  exists (mkTransmissionRequest true port).
  assert (Hout : exists out, getTop s m (mkTransmissionRequest true port) = Ok out).
  { unfold getTop. rewrite Ex. cbn [mbind result_bind]. destruct x as [[p d]|]; [|by eexists].
    destruct (_ <? _); [by eexists|]. cbv zeta. destruct (_ || _); by eexists. }
  destruct Hout as [out Eo]. exists out. split; [done|]. split; [done|]. by eapply getTop_offset.
Qed.

(** The end of [HandleTransmissionRequest::run] on the sockets. *)
Lemma finishRequest_ok st c r out ident off w :
  sRequest st = Some c -> managerOk (sSockets st) (sMem st) -> onList (sSockets st) (Some c) ->
  currentRequest (sSockets st) (Some c) = Ok (Some r) -> 0 <= off ->
  exists s' m' it, finishRequest r out ident off w st = Ok (onSockets st s' m' it) /\ managerOk s' m' /\ onList s' it.
Proof.
  intros Hit Hm Hl Hr Hoff. unfold finishRequest. rewrite Hit. destruct (_ =? 0).
  - destruct (indicate_ok _ _ c r Hm Hl Hr) as (s1 & m1 & -> & Hm1 & Hs1). cbn [mbind result_bind fst snd].
    destruct (removeAt_ok s1 m1 c Hm1) as (s2 & it & -> & Hm2 & Hl2); [by eapply onList_frame|].
    cbn [mbind result_bind fst snd]. by exists s2, m1, it.
  - destruct (_ <=? _).
    + destruct (removeTop_ok _ _ c r Hm Hl Hr) as (s1 & b & -> & Hm1 & Hs1). cbn [mbind result_bind]. destruct b.
      * assert (Hr1 : currentRequest s1 (Some c) = Ok (Some r)) by (unfold currentRequest in *; by rewrite (proj1 Hs1)).
        destruct (indicate_ok s1 (sMem st) c r Hm1 ltac:(by eapply onList_frame) Hr1) as (s2 & m2 & -> & Hm2 & Hs2).
        cbn [mbind result_bind fst snd]. destruct (removeAt_ok s2 m2 c Hm2) as (s3 & it & -> & Hm3 & Hl3).
        { eapply onList_frame; [done|]. by eapply onList_frame. }
        cbn [mbind result_bind fst snd]. by exists s3, m2, it.
      * destruct (relocateAt_ok s1 (sMem st) c Hm1) as (s2 & it & -> & Hm2 & Hl2); [by eapply onList_frame|].
        cbn [mbind result_bind fst snd]. by exists s2, (sMem st), it.
    + destruct (updateTop_ok _ _ c r Hm Hl Hr off ident Hoff) as (s1 & -> & Hm1 & Hs1). cbn [mbind result_bind].
      assert (Hl1 : onList s1 (Some c)) by (by eapply onList_frame).
      destruct w as [w|]; [|by exists s1, (sMem st), (Some c)].
      destruct (goToNext_ok s1 c Hl1) as (it & -> & Hl2). cbn [mbind result_bind]. by exists s1, (sMem st), it.
Qed.

(** ** Sending the fragments of a datagram *)

Lemma resolveArp_progress TS LS s ip s' p frame :
  resolveArp TS LS s ip = Ok (s', inr (p, frame)) -> p = WaitingOnARPReply \/ p = ARPTableFull.
Proof.
  unfold resolveArp. intros Hr. result_inv. destruct a as [k|]; [|simplify_eq; tauto]. result_inv.
  repeat (case_match; simplify_eq); tauto.
Qed.

(** A fragment with more to follow takes 1480 bytes of the datagram. *)
Lemma outgoing_progress TS LS s m dst proto data dataLen ident off s' r :
  handleOutgoingIPv4Packet TS LS s m dst proto data dataLen ident off false = Ok (s', r) -> 0 <= off -> is_u16 dataLen ->
  0 <= sendFragmentOffset r /\
  (stopsSending (sendProgress r) = false -> sendFragmentOffset r = off + 1480 /\ off + 1480 <= dataLen).
Proof.
  unfold handleOutgoingIPv4Packet, is_u16. intros Hr Hoff Hlen. case_match; [simplify_eq; by split|].
  destruct (Z.leb_spec dataLen off); [simplify_eq; by split|]. result_inv. destruct a as [s1 x].
  destruct x as [e|[p frame]].
  2: { simplify_eq. split; [done|]. cbn [sendProgress].
       match goal with E : resolveArp _ _ _ _ = _ |- _ => apply resolveArp_progress in E as [->| ->] end; done. }
  change (ETHERNET_MTU - IPV4_MINIMAL_HEADER_SIZE) with 1480 in Hr. destruct (if off =? 0 then _ else _) as [s2 id2].
  injection Hr as _ <-. cbn [sendFragmentOffset sendProgress].
  destruct (Z.ltb_spec (dataLen - off) 1480); (rewrite u32_small by (unfold is_u32; lia)); (split; [lia|]); [done|]. intros _. lia.
Qed.

Lemma outgoing_frame TS LS s m dst proto data dataLen ident off s' r :
  handleOutgoingIPv4Packet TS LS s m dst proto data dataLen ident off false = Ok (s', r) ->
  stopsSending (sendProgress r) = false -> 0 < zlength (sendFrame r).
Proof.
  unfold handleOutgoingIPv4Packet. intros Hr Hp. case_match; [by simplify_eq|]. case_match; [by simplify_eq|].
  result_inv. destruct a as [s1 x]. destruct x as [e|[p frame]].
  2: { simplify_eq. match goal with E : resolveArp _ _ _ _ = _ |- _ => apply resolveArp_progress in E as [->| ->] end; done. }
  match goal with H : (let '(_, _) := ?x in _) = _ |- _ => destruct x end. simplify_eq. cbn [sendFrame]. unfold fragmentFrame.
  rewrite !zlength_app. repeat match goal with |- context [zlength ?l] => lazymatch goal with H : 0 <= zlength l |- _ => fail | _ => pose proof (zlength_nonneg l) end end.
  change (zlength [8; 0]) with 2. lia.
Qed.

Section task.
Context `{Device}.
Context (PN PT PL LN LT LL : nat) (thisIP : Z) (HPT : (0 < PT)%nat) (HLT : (0 < LT)%nat).

(** The invariant of the task's state. *)
Record netInv (st : NetworkState) : Prop := {
  ni_manager : managerOk (sSockets st) (sMem st);
  ni_request : onList (sSockets st) (sRequest st);
  ni_physical : sideOk PN PT PL (pPhysicalNetworkInterface st) (pPhysicalNetworkStackHandler st);
  ni_rx : rxOk (pPhysicalNetworkInterface st);
  ni_ring : ringInv (pLoopbackNetworkInterface st) [];
  ni_registered : registered (pLoopbackNetworkInterface st);
  ni_enabled : loInterruptsEnabled (pLoopbackNetworkInterface st) = true;
  ni_loopback : stackOk LN LT LL (pLoopbackNetworkStackHandler st);
}.

Lemma netInv_sockets st s m it : netInv st -> managerOk s m -> onList s it -> netInv (onSockets st s m it).
Proof. intros [] Hm Hl. by constructor. Qed.

Lemma netInv_physical st p s :
  netInv st -> sideOk PN PT PL p s -> rxOk p -> netInv (onPhysical st (p, s)).
Proof. intros [] Hs Hr. by constructor. Qed.

Lemma netInv_loopback st lo s :
  netInv st -> ringInv lo [] -> sameLoConfig (pLoopbackNetworkInterface st) lo -> stackOk LN LT LL s ->
  netInv (onLoopback st (lo, s)).
Proof. intros [] Hr [E1 E2] Hs. constructor; try done; cbn; [|congruence]. unfold registered in *. cbn. congruence. Qed.

(** What an operation on the interfaces leaves alone. *)
Definition sameManager (st st' : NetworkState) : Prop :=
  sSockets st' = sSockets st /\ sMem st' = sMem st /\ sRequest st' = sRequest st.

Lemma nextFrame_ok lb out ident off st :
  netInv st -> 0 <= off -> is_u16 (outDataLen out) ->
  exists st' r, nextFrame PT PL LT LL lb out ident off st = Ok (st', r) /\ netInv st' /\ sameManager st st' /\
    (pLoopbackNetworkInterface st' = pLoopbackNetworkInterface st /\ pPhysicalNetworkInterface st' = pPhysicalNetworkInterface st) /\
    Forall is_u8 (sendFrame r) /\ zlength (sendFrame r) <= 1514 /\ 0 <= sendFragmentOffset r /\
    (stopsSending (sendProgress r) = false ->
      sendFragmentOffset r = off + 1480 /\ off + 1480 <= outDataLen out /\ 0 < zlength (sendFrame r)).
Proof.
  intros Hi Hoff Hlen. pose proof Hi as [[_ _ Hb] _ [Hp [Hps Hpd]] Hrx _ _ _ [Hls Hld]]. unfold nextFrame. destruct lb.
  - destruct (handleOutgoing_ok LN LT LL (pLoopbackNetworkStackHandler st) (sMem st) (outDestinationIP out) UDP_IPV4_PROTOCOL
      (outData out) (outDataLen out) ident off false HLT Hls) as (s' & r & E & Hs' & Hl).
    rewrite E. cbn [mbind result_bind fst snd]. destruct (handleOutgoing_data _ _ _ _ _ _ _ _ _ _ _ _ _ E Hld Hb ltac:(done)) as [Hd' Hu].
    destruct (outgoing_progress _ _ _ _ _ _ _ _ _ _ _ _ E Hoff Hlen) as [Ho Hst].
    eexists _, r. split; [reflexivity|]. split; [by apply netInv_loopback; [..|split]; try apply Hi|]. split_and!; try done; [].
    intros Hgo. split_and!; try by apply Hst. by eapply outgoing_frame.
  - destruct (handleOutgoing_ok PN PT PL (pPhysicalNetworkStackHandler st) (sMem st) (outDestinationIP out) UDP_IPV4_PROTOCOL
      (outData out) (outDataLen out) ident off false HPT Hps) as (s' & r & E & Hs' & Hl).
    rewrite E. cbn [mbind result_bind fst snd]. destruct (handleOutgoing_data _ _ _ _ _ _ _ _ _ _ _ _ _ E Hpd Hb ltac:(done)) as [Hd' Hu].
    destruct (outgoing_progress _ _ _ _ _ _ _ _ _ _ _ _ E Hoff Hlen) as [Ho Hst].
    eexists _, r. split; [reflexivity|]. split; [by apply netInv_physical|]. split_and!; try done; [].
    intros Hgo. split_and!; try by apply Hst. by eapply outgoing_frame.
Qed.

(** The write buffer the interface gives, and that it still is that one. *)
Definition bufferOf (lb : bool) (st : NetworkState) (w : option Z) : Prop := interfaceWriteBuffer lb st = Ok w.

Lemma interfaceWriteBuffer_ok lb st : netInv st -> exists w, interfaceWriteBuffer lb st = Ok w.
Proof.
  intros Hi. unfold interfaceWriteBuffer. destruct lb.
  - eexists. by apply (getWriteBuffer_ok _ []), Hi.
  - destruct (txOk_write_buffer _ (proj1 (ni_physical _ Hi))) as (w & -> & _). by exists w.
Qed.

Lemma finishFrame_ok lb w frame ip st t :
  netInv st -> bufferOf lb st (Some w) -> Forall is_u8 frame -> zlength frame <= 1514 ->
  exists st' t', finishFrame LN LT LL lb w frame ip st t = (t', Ok st') /\ netInv st' /\ sameManager st st'.
Proof.
  intros Hi Hw Hu Hl. unfold finishFrame, bufferOf, interfaceWriteBuffer in *. destruct lb.
  - destruct (loSend_ok LN LT LL (pLoopbackNetworkInterface st) (pLoopbackNetworkStackHandler st) (Some w) frame ip HLT) as
      (lo' & s' & E & Hr & Hc & Hs & _); try apply Hi; [done| |].
    { split; [done|]. unfold INTERFACE_RX_BUFFER_SIZE. lia. }
    rewrite (runs_bind _ _ t t (lo', s')) by (unfold loopbackSide; by rewrite E). eexists _, t. split; [reflexivity|].
    split; [|done]. by apply netInv_loopback.
  - pose proof (ni_physical _ Hi) as [Hp Hs]. destruct (txOk_write_buffer _ Hp) as (w' & Ew & Hbuf). assert (w' = Some w) by congruence. subst w'.
    destruct (txOk_write _ (Some w) frame Hp Hbuf) as [Hp1 Hk1]; [unfold TX_BUFFER_SIZE; lia|done|].
    destruct (txOk_finish _ (zlength frame) ip t Hp1) as (p2 & t2 & E & Hp2 & Hk2). rewrite (runs_bind _ _ t t2 p2) by done.
    eexists _, t2. split; [reflexivity|]. split; [|done]. apply netInv_physical; [done|by split|].
    apply (rxOk_same (pPhysicalNetworkInterface st)); [|apply Hi]. by destruct (keepsRx_trans _ _ _ Hk1 Hk2).
Qed.

Lemma sameManager_trans st1 st2 st3 : sameManager st1 st2 -> sameManager st2 st3 -> sameManager st1 st3.
Proof. unfold sameManager. intros (?&?&?) (?&?&?). split_and!; congruence. Qed.

(** The header is written to the sockets' memory, nothing else changes there. *)
Lemma netInv_header st out : netInv st -> netInv (onSockets st (sSockets st) (storeBytes (sMem st) (outData out) (udpHeader out)) (sRequest st)).
Proof.
  intros Hi. pose proof Hi as [[H1 H2 H3] Hl _ _ _ _ _ _]. apply netInv_sockets; [done| |done]. constructor; [done..|].
  apply byteMem_storeBytes; [done|apply udpHeader_u8].
Qed.

(** The loop over the fragments returns: every turn but the last takes 1480
    bytes. *)
Lemma sendFragments_ok lb out : is_u16 (outDataLen out) -> forall fuel w ident off st t,
  (1 <= fuel)%nat -> outDataLen out - off < 1480 * Z.of_nat fuel -> 0 <= off -> netInv st -> bufferOf lb st w ->
  exists st' ident' off' w' t', sendFragments PT PL LN LT LL fuel lb out w ident off st t = (t', Ok (st', ident', off', w')) /\
    netInv st' /\ sSockets st' = sSockets st /\ sRequest st' = sRequest st /\ 0 <= off'.
Proof.
  intros Hlen. induction fuel as [|fuel IH]; intros w ident off st t Hf Hfuel Hoff Hi Hw; [lia|]. cbn [sendFragments].
  destruct w as [w|]; [|by exists st, ident, off, None, t].
  destruct (Z.eqb_spec (outDataLen out) 0); [by exists st, ident, off, (Some w), t|].
  set (st0 := if off =? 0 then _ else _).
  assert (H0 : netInv st0 /\ bufferOf lb st0 (Some w) /\ sSockets st0 = sSockets st /\ sRequest st0 = sRequest st).
  { unfold st0. destruct (off =? 0); [|done]. split_and!; [by apply netInv_header|by destruct lb|done..]. }
  destruct H0 as (Hi0 & Hw0 & Es0 & Er0).
  destruct (nextFrame_ok lb out ident off st0 Hi0 Hoff Hlen) as (st1 & r & E & Hi1 & (Em1 & _ & Er1) & [El Ep] & Hu & Hl & Ho & Hgo).
  rewrite (runs_bind _ _ t t (st1, r)) by (by rewrite E).
  assert (Hw1 : bufferOf lb st1 (Some w)).
  { unfold bufferOf, interfaceWriteBuffer in *. destruct lb; [by rewrite El|by rewrite Ep]. }
  destruct (Z.ltb_spec 0 (zlength (sendFrame r))) as [Hpos|Hnone].
  - destruct (finishFrame_ok lb w (sendFrame r) (usesContext (sendProgress r)) st1 t Hi1 Hw1 Hu Hl) as (st2 & t2 & Ef & Hi2 & Em2 & _ & Er2).
    destruct (interfaceWriteBuffer_ok lb st2 Hi2) as (w2 & Ew2).
    rewrite (runs_bind _ _ t t2 (st2, w2)).
    2: { rewrite (runs_bind _ _ t t2 st2) by done. by rewrite (runs_bind _ _ t2 t2 w2) by (by rewrite Ew2). }
    destruct (stopsSending (sendProgress r)) eqn:Es; [eexists _, _, _, _, _; split; [reflexivity|]; split_and!; congruence || done|].
    destruct (Hgo eq_refl) as (Eo & Hle & _).
    destruct (IH w2 (sendIdentification r) (sendFragmentOffset r) st2 t2) as (st' & i' & o' & w' & t' & Hrun & Hi' & E1 & E2 & Ho');
      [lia..|done|done|]. exists st', i', o', w', t'. split_and!; try done; congruence.
  - destruct (stopsSending (sendProgress r)) eqn:Es; [|by destruct (Hgo eq_refl) as (_ & _ & ?); lia].
    rewrite (runs_bind _ _ t t (st1, Some w)) by done.
    eexists _, _, _, _, _; split; [reflexivity|]. split_and!; congruence || done.
Qed.

(** One request: [HandleTransmissionRequest::run] returns. *)
Lemma handleTransmission_ok st c t :
  netInv st -> sRequest st = Some c ->
  exists st' t', handleTransmissionRequest PT PL LN LT LL thisIP st t = (t', Ok st') /\ netInv st'.
Proof.
  intros Hi Hit. pose proof Hi as [Hm Hl _ _ _ _ _ _]. rewrite Hit in Hl. unfold handleTransmissionRequest.
  destruct (currentRequest_ok _ _ c Hm Hl) as (r & out & Ec & Eo & Hoff & Hlen).
  rewrite Hit. rewrite (runs_bind _ _ t t (Some r)) by (by rewrite Ec). rewrite (runs_bind _ _ t t r) by done.
  rewrite (runs_bind _ _ t t out) by (by rewrite Eo).
  destruct (interfaceWriteBuffer_ok (isLoopback thisIP out) st Hi) as (w & Ew). rewrite (runs_bind _ _ t t w) by (by rewrite Ew).
  destruct (sendFragments_ok (isLoopback thisIP out) out Hlen FRAGMENTS_FUEL w (outIdentification out) (outFragmentOffset out) st t)
    as (st1 & ident & off & w1 & t1 & Es & Hi1 & Es1 & Er1 & Ho1); [unfold FRAGMENTS_FUEL; lia|unfold FRAGMENTS_FUEL, is_u16 in *; lia|done..|].
  rewrite (runs_bind _ _ t t1 _) by exact Es.
  destruct (finishRequest_ok st1 c r out ident off w1) as (s' & m' & it & Ef & Hm' & Hl'); [congruence|apply Hi1| | |done|].
  - by rewrite Es1.
  - by rewrite Es1.
  - rewrite Ef. exists (onSockets st1 s' m' it), t1. split; [done|]. by apply netInv_sockets.
Qed.

(** ** Handing received datagrams to the sockets *)

(** The datagram to be read next is for a port past the table of the socket
    manager. *)
Definition latestOutOfTable (lb : bool) (st : NetworkState) : Prop :=
  exists p l, getLatestIPv4Packet (stackOf lb st) = Some p /\
    fragmentsFrom (S (buffersOf PN LN lb)) (stackOf lb st) (Some p) = Ok l /\ portOutOfTable l.

Lemma handleLatest_ok lb st :
  netInv st ->
  (exists st', handleLatest PN LN lb st = Ok st' /\ netInv st') \/
  (latestOutOfTable lb st /\ handleLatest PN LN lb st = Fault OutOfRange).
Proof.
  intros Hi. unfold handleLatest. destruct (getLatestIPv4Packet (stackOf lb st)) as [p|] eqn:E; [|by left; exists st].
  assert (Hl : exists packet data rest, fragmentsFrom (S (buffersOf PN LN lb)) (stackOf lb st) (Some p) = Ok ((packet, data) :: rest) /\
    Forall goodFragment ((packet, data) :: rest) /\ fragmentBytes ((packet, data) :: rest)).
  { destruct lb; eapply latest_ok; [apply (ni_loopback _ Hi)|done|apply (ni_physical _ Hi)|done]. }
  destruct Hl as (packet & data & rest & Ef & Hg & Hb). rewrite Ef. cbn [mbind result_bind]. destruct (ni_manager _ Hi) as [H1 H2 H3].
  destruct (received_inv (sSockets st) (sMem st) ((packet, data) :: rest) H1 ltac:(done) Hg) as [[Ho Er]|(s' & m' & Er & Hs')]; rewrite Er.
  { right. split; [by exists p, ((packet, data) :: rest)|done]. }
  left. cbn [mbind result_bind fst snd]. eexists. split; [done|]. apply netInv_sockets; [done| |].
  - constructor; [done|by eapply received_offsets|by eapply received_u8].
  - eapply onList_frame; [|apply Hi]. unfold handleReceivedPacket in Er.
    repeat (result_inv; case_match; simplify_eq); result_inv; by simplify_eq.
Qed.

Lemma popLatest_stackOk N TS LS s : stackOk N TS LS s -> exists s', popLatestIPv4Packet N s = Ok s' /\ stackOk N TS LS s'.
Proof.
  intros [Hs Hd]. destruct (popLatest_ok N s (inv_pool _ _ _ _ Hs)) as (s' & E & Hp & Hst). exists s'. split; [done|]. split.
  - eapply sameConfig_inv; [exact Hs|exact Hp|]. unfold stable, sameConfig in *. tauto.
  - by eapply popLatest_data.
Qed.

Lemma popLatest_netInv lb st : netInv st -> exists st', popLatest PN LN lb st = Ok st' /\ netInv st'.
Proof.
  intros Hi. unfold popLatest. destruct lb; cbn [stackOf buffersOf withStack].
  - destruct (popLatest_stackOk LN LT LL _ (ni_loopback _ Hi)) as (s' & -> & Hs'). cbn [mbind result_bind].
    eexists. split; [done|]. by apply netInv_loopback; try apply Hi.
  - destruct (popLatest_stackOk PN PT PL _ (proj2 (ni_physical _ Hi))) as (s' & -> & Hs'). cbn [mbind result_bind].
    eexists. split; [done|]. apply netInv_physical; [done| |apply Hi]. split; [apply Hi|done].
Qed.

Lemma tick_stackOk N TS LS s : stackOk N TS LS s -> stackOk N TS LS (incrementTimerCounter s).
Proof.
  intros [[I1 I2 I3 I4] Hd]. split; [|by apply tick_data]. constructor; cbn; [by apply (poolInv_same N s)|done..].
Qed.

Lemma rtc_netInv st : netInv st -> netInv (rtcTimerCallback st).
Proof.
  intros Hi. unfold rtcTimerCallback. apply netInv_loopback; [|by apply Hi|done|by apply tick_stackOk, Hi].
  apply netInv_physical; [done| |apply Hi]. split; [apply Hi|]. apply tick_stackOk, (ni_physical _ Hi).
Qed.

Lemma cardInterrupt_netInv st t : netInv st -> exists st' t', cardInterrupt PN PT PL st t = (t', Ok st') /\ netInv st'.
Proof.
  intros Hi. unfold cardInterrupt, physicalSide.
  destruct (cardInterrupt_safe PN PT PL HPT (pPhysicalNetworkInterface st) (pPhysicalNetworkStackHandler st) t (ni_physical _ Hi) (ni_rx _ Hi))
    as (p & s & t' & E & Hs & Hr). rewrite (runs_bind _ _ t t' (p, s)) by done. eexists _, t'. split; [reflexivity|].
  by apply netInv_physical.
Qed.

(** ** Everything that happens

    Between two steps of the task other tasks make system calls and write to
    their memory, the card writes to its descriptors and buffers whatever it
    likes, and interrupts come. *)

Inductive NetEvent :=
| SystemCall (op : SocketOp)
| TasksWrite (m : Mem)
| CardWrites (rx : list e1000RxDesc) (tx : list e1000TxDesc) (m : Mem)
| CardInterrupts
| ClockTicks
| BeginTransmissions
| TransmitOne
| HandOver (loopback : bool)
| PopPacket (loopback : bool).

Definition cardWrites (p : PhysicalNetworkInterface) rx tx m : PhysicalNetworkInterface :=
  withBufferMem (withTx (withRx p rx (currentRx p)) tx (currentTx p)) m.

Definition netStep (st : NetworkState) (ev : NetEvent) : IO NetworkState :=
  match ev with
  | SystemCall op => x ← lift (socketStep (sSockets st, sMem st) op); mret (onSockets st (fst x) (snd x) (sRequest st))
  | TasksWrite m => mret (onSockets st (sSockets st) m (sRequest st))
  | CardWrites rx tx m => mret (onPhysical st (cardWrites (pPhysicalNetworkInterface st) rx tx m, pPhysicalNetworkStackHandler st))
  | CardInterrupts => cardInterrupt PN PT PL st
  | ClockTicks => mret (rtcTimerCallback st)
  | BeginTransmissions => mret (startTransmission st)
  | TransmitOne => if isFinished (sRequest st) then mret st else handleTransmissionRequest PT PL LN LT LL thisIP st
  | HandOver lb => lift (handleLatest PN LN lb st)
  | PopPacket lb => lift (popLatest PN LN lb st)
  end.

Fixpoint runNet (st : NetworkState) (evs : list NetEvent) : IO NetworkState :=
  match evs with
  | [] => mret st
  | ev :: evs => st ← netStep st ev; runNet st evs
  end.

Definition goodCall (op : SocketOp) : Prop :=
  match op with
  | CloseSocket t i | SetReceiveBuffer t i _ _ | SetSendBuffer t i _ _ _ => isTask t /\ 0 <= i
  | CloseAllSockets t => isTask t
  | OpenSocket t port => isTask t /\ 0 <= port
  | _ => False
  end.

(** What the card writes has the shape of descriptors and bytes, and received
    frames have the length of Ethernet frames. *)
Definition goodNetEvent (st : NetworkState) (ev : NetEvent) : Prop :=
  match ev with
  | SystemCall op => goodCall op
  | TasksWrite m => byteMem m
  | CardWrites rx tx m =>
      zlength rx = NUM_RX_DESCRIPTORS /\ lengthsOk (withRx (pPhysicalNetworkInterface st) rx 0) /\
      zlength tx = NUM_TX_DESCRIPTORS /\ Forall (fun d => zlength d = 16) tx /\ byteMem m
  | _ => True
  end.

Fixpoint goodRun (st : NetworkState) (evs : list NetEvent) (t : Trace) : Prop :=
  match evs with
  | [] => True
  | ev :: evs => goodNetEvent st ev /\ forall st' t', netStep st ev t = (t', Ok st') -> goodRun st' evs t'
  end.

Lemma closeSocket_sameRequests s t i s' : closeSocket s t i = Ok s' -> sameRequests s s'.
Proof. unfold closeSocket. intros Hr. repeat (case_match; result_inv; simplify_eq). all: by repeat split. Qed.

Lemma closeAll_sameRequests n i s t s' :
  for_rangeM n i (fun i s => closeSocket s t i) s = Ok s' -> sameRequests s s'.
Proof.
  revert i s. induction n as [|n IH]; intros i s Hr; cbn [for_rangeM] in Hr; [by injection Hr as <-|]. result_inv.
  apply IH in Hr as (E1 & E2 & E3 & E4). apply closeSocket_sameRequests in E as (F1 & F2 & F3 & F4). split_and!; congruence.
Qed.

Lemma systemCall_ok s m op :
  managerOk s m -> goodCall op ->
  exists s', socketStep (s, m) op = Ok (s', m) /\ managerOk s' m /\ forall it, onList s it -> onList s' it.
Proof.
  intros [H1 H2 H3] Hop. assert (Hgood : goodOp s op) by (by destruct op).
  assert (Hno : ~ outOfTable op) by (destruct op; cbn in Hop |- *; tauto).
  destruct (socketStep_ok s m op H1 Hgood Hno) as (s' & m' & E & Hs').
  enough (m' = m /\ offsetsOk s' /\ forall it, onList s it -> onList s' it) as (-> & Ho & Hl).
  { exists s'. split_and!; [done|by constructor|done]. }
  destruct op as [t i|t|t port|t i b n|t i b n ind|frs|it off ident|it|it|it|it]; try done; cbn [socketStep] in E; result_inv; simplify_eq;
    (split; [done|]).
  - split; [by eapply closeSocket_offsets|]. intros it. apply onList_frame. by eapply closeSocket_sameRequests.
  - split; [by eapply closeAll_offsets|]. intros it. apply onList_frame. by eapply closeAll_sameRequests.
  - destruct a as [s1 r]. split; [by eapply openSocket_offsets|]. intros it. apply onList_frame.
    unfold openSocket in E0. repeat (case_match; result_inv; simplify_eq); by repeat split.
  - destruct a as [s1 r]. split; [by eapply setReceiveBuffer_offsets|]. intros it. apply onList_frame.
    unfold setReceiveBuffer in E0. repeat (case_match; result_inv; simplify_eq); by repeat split.
  - destruct a as [s1 r]. split; [by eapply setSendBuffer_offsets|]. intros [c|]; [|done]. intros (a & u & Hr & Hc). cbn [fst].
    unfold setSendBuffer in E0. do 2 (case_match; [simplify_eq; by exists a, u|]). result_inv.
    case_match; [simplify_eq; by exists a, u|]. case_match; [simplify_eq; exists a, u; split; [by destruct Hr; constructor|done]|]. result_inv.
    match type of E0 with match ?x with _ => _ end = _ => destruct x as [s2|]; [|simplify_eq; by exists a, u] end. simplify_eq.
    match goal with E : pushTransmissionRequest _ ?port = _ |- _ => pose proof (push_ok s a u port Hr) as Hp; rewrite E in Hp end.
    destruct u as [|r0 u]; [done|]. destruct Hp as (s3 & [= <-] & Hr3 & _). exists (r0 :: a), u. split; [|by right].
    by destruct Hr3; constructor.
Qed.

Definition handsOverOutOfTable (st : NetworkState) (ev : NetEvent) : Prop :=
  match ev with HandOver lb => latestOutOfTable lb st | _ => False end.

Lemma netStep_ok st ev t :
  netInv st -> goodNetEvent st ev ->
  (exists st' t', netStep st ev t = (t', Ok st') /\ netInv st') \/
  (handsOverOutOfTable st ev /\ netStep st ev t = (t, Fault OutOfRange)).
Proof.
  intros Hi Hev. destruct ev as [op|m|rx tx m| | | | |lb|lb]; cbn [netStep goodNetEvent handsOverOutOfTable] in *.
  8: { destruct (handleLatest_ok lb st Hi) as [(st' & -> & Hi')|[Ho ->]]; [left; by exists st', t|by right]. }
  all: left.
  - destruct (systemCall_ok (sSockets st) (sMem st) op (ni_manager _ Hi) Hev) as (s' & E & Hm & Hl).
    rewrite (runs_bind _ _ t t (s', sMem st)) by (by rewrite E). eexists _, t. split; [reflexivity|].
    apply netInv_sockets; [done..|apply Hl, Hi].
  - eexists _, t. split; [reflexivity|]. destruct (ni_manager _ Hi). apply netInv_sockets; [done|done|apply Hi].
  - destruct Hev as (R1 & R2 & T1 & T2 & Hb). eexists _, t. split; [reflexivity|].
    pose proof (ni_physical _ Hi) as [[P1 P2 P3 P4 P5 P6] Hs]. pose proof (ni_rx _ Hi) as [Q1 Q2 Q3].
    apply netInv_physical; [done|by split|by constructor].
  - by apply cardInterrupt_netInv.
  - eexists _, t. split; [reflexivity|]. by apply rtc_netInv.
  - eexists _, t. split; [reflexivity|]. unfold startTransmission. apply netInv_sockets; [done|apply Hi|]. eapply iterator_onList, Hi.
  - unfold isFinished. destruct (sRequest st) as [c|] eqn:Ec; [|by exists st, t]. rewrite bool_decide_false by done.
    by eapply handleTransmission_ok.
  - destruct (popLatest_netInv lb st Hi) as (st' & -> & Hi'). by exists st', t.
Qed.

Lemma runNet_ok evs : forall st t,
  netInv st -> goodRun st evs t ->
  (exists st' t', runNet st evs t = (t', Ok st') /\ netInv st') \/
  (exists evs1 ev evs2 st1 t1, evs = evs1 ++ ev :: evs2 /\ runNet st evs1 t = (t1, Ok st1) /\ netInv st1 /\
     handsOverOutOfTable st1 ev /\ runNet st evs t = (t1, Fault OutOfRange)).
Proof.
  induction evs as [|ev evs IH]; intros st t Hi Hg; cbn [runNet]; [left; by exists st, t|]. destruct Hg as [Hev Hg].
  destruct (netStep_ok st ev t Hi Hev) as [(st1 & t1 & E & Hi1)|[Ho E]].
  - rewrite (runs_bind _ _ t t1 st1) by done.
    destruct (IH st1 t1 Hi1 (Hg _ _ E)) as [|(evs1 & ev' & evs2 & st2 & t2 & -> & E2 & Hi2 & Ho & Ef)]; [by left|right].
    exists (ev :: evs1), ev', evs2, st2, t2. split_and!; try done. cbn [runNet]. by rewrite (runs_bind _ _ t t1 st1).
  - right. exists [], ev, evs, st, t. split_and!; try done. unfold mbind, IO_bind. by rewrite E.
Qed.

(** The state the task sets up. *)
Lemma registerPacketHandler_ok p im this t t' p' im' :
  interruptsEnabled p = false -> registerPacketHandler p im this t = (t', Ok (p', im')) -> p' = withHandler p true true.
Proof.
  unfold registerPacketHandler. intros ->. cbn [negb]. intros E.
  apply runs_bind_inv in E as (ty & t1 & _ & E). apply runs_bind_inv in E as (im1 & t2 & _ & E).
  apply runs_bind_inv in E as (im2 & t3 & _ & E). apply runs_bind_inv in E as (u & t4 & _ & E).
  apply runs_bind_inv in E as (v & t5 & _ & E). by injection E.
Qed.

Lemma loopbackRegister_ok buffers im this lo im' :
  byteMem buffers -> loopbackRegisterPacketHandler (newLoopbackNetworkInterface buffers 80 loopbackMac) im this = Ok (lo, im') ->
  ringInv lo [] /\ registered lo /\ loInterruptsEnabled lo = true.
Proof.
  intros Hb E. unfold loopbackRegisterPacketHandler in E. cbn [newLoopbackNetworkInterface loInterruptsEnabled negb] in E. result_inv.
  simplify_eq. split; [|done]. by destruct (new_ring buffers 80 loopbackMac Hb); constructor.
Qed.

Lemma loopbackMac_u8 : Forall is_u8 loopbackMac.
Proof. unfold loopbackMac. repeat (apply Forall_cons; split); try apply Forall_nil; by vm_compute. Qed.

Lemma networkSetup_ok gateway mask physThis loThis buffers s m p im t l mem t0 st im' t' :
  (0 < PN)%nat -> (0 < LN)%nat -> freshCard l mem p t0 -> disjointBuffers l -> byteMem mem -> byteMem buffers -> managerOk s m ->
  networkSetup PN PT PL LN LT LL thisIP gateway mask physThis loThis buffers s m p im t = (t', Ok (st, im')) -> netInv st.
Proof.
  intros HPN HLN Hf Hd Hmem Hbuf Hm E. pose proof Hf as [F1 F2 F3 F4 F5 F6 [F7 F8] F9 [F10 F11] _]. unfold networkSetup in E.
  apply runs_bind_inv in E as ([p' im1] & t1 & Ep & E). apply runs_bind_inv in E as ([lo im2] & t2 & El & E).
  apply registerPacketHandler_ok in Ep as ->; [|done]. cbn [fst snd] in *. unfold lift in El. injection El as _ El.
  destruct (loopbackRegister_ok _ _ _ _ _ Hbuf El) as (L1 & L2 & L3). unfold mret, IO_ret in E. injection E as _ <- _.
  pose proof (fresh_rxOk _ _ _ _ Hf) as [R1 R2 R3]. constructor; cbn; try done.
  - split; [|split; [by apply new_inv|by apply new_data]]. destruct F5. by constructor; cbn; rewrite ?F1, ?F2.
  - split; [by apply new_inv|apply new_data, loopbackMac_u8].
Qed.

(** C7: from the setup of the interfaces on, whatever happens in whatever
    order - interrupts of the card for frames of any content, whatever the
    card does to its descriptors and buffers, ticks of the clock, steps of the
    task, system calls of the others and whatever they write to their memory,
    the send buffers being worked on included: every loop ends and the stacks,
    rings, sockets and requests stay well formed.  The one fault there can be
    is the known one: a datagram handed over for a port past the table of 9000
    ports, whose lookup is out of range; everything before it is as said. *)
Theorem network_task_never_faults gateway mask physThis loThis buffers s m p im t l mem t0 st im' t1 evs :
  (0 < PN)%nat -> (0 < LN)%nat -> freshCard l mem p t0 -> disjointBuffers l -> byteMem mem -> byteMem buffers -> managerOk s m ->
  networkSetup PN PT PL LN LT LL thisIP gateway mask physThis loThis buffers s m p im t = (t1, Ok (st, im')) ->
  goodRun st evs t1 ->
  (exists st' t', runNet st evs t1 = (t', Ok st') /\ netInv st') \/
  (exists evs1 ev evs2 st2 t2, evs = evs1 ++ ev :: evs2 /\ runNet st evs1 t1 = (t2, Ok st2) /\ netInv st2 /\
     handsOverOutOfTable st2 ev /\ runNet st evs t1 = (t2, Fault OutOfRange)).
Proof. intros HPN HLN Hf Hd Hmem Hbuf Hm E Hg. apply runNet_ok; [|done]. by eapply networkSetup_ok. Qed.

(** C21: one transmission request, whatever is in the send buffer and wherever the
    datagram was left: [FRAGMENTS_FUEL] turns are enough for the loop over the
    fragments, and the step returns, the iterator standing on a request of the
    list or at its end. *)
Theorem transmission_request_returns st t :
  netInv st -> isFinished (sRequest st) = false ->
  exists st' t', handleTransmissionRequest PT PL LN LT LL thisIP st t = (t', Ok st') /\ netInv st'.
Proof.
  intros Hi Hf. unfold isFinished in Hf. destruct (sRequest st) as [c|] eqn:E; [|by rewrite bool_decide_true in Hf].
  by eapply handleTransmission_ok.
Qed.
End task.

(** ** A machine at work *)

Lemma sampleLayout_disjoint : disjointBuffers sampleLayout.
Proof. left. vm_compute. congruence. Qed.

Lemma fresh_txOk l m p t : freshCard l m p t -> disjointBuffers l -> byteMem m -> txOk (withHandler p true true).
Proof. intros [F1 F2 _ _ [] _ _ _ _ _] Hd Hm. by constructor; cbn; rewrite ?F1, ?F2. Qed.

Lemma managerOk_new m : byteMem m -> managerOk newSocketManager m.
Proof. intros Hm. constructor; [apply newSocketManager_inv|by apply Forall_replicate|done]. Qed.

(** [SocketManagerFacts.after] keeps what the task keeps. *)
Lemma after_managerOk x op : managerOk (fst x) (snd x) -> goodCall op -> managerOk (fst (after x op)) (snd (after x op)).
Proof.
  destruct x as [s m]. intros Hm Hop. destruct (systemCall_ok s m op Hm Hop) as (s' & E & Hm' & _).
  unfold after. by rewrite E.
Qed.

Definition sampleNetStack : NetworkStackHandler := newNetworkStackHandler 4 2 2 [2; 0; 0; 0; 0; 9] 0x0A000001 0x0A0000FE 24.

Lemma sampleNetStack_ok : stackOk 4 2 2 sampleNetStack.
Proof.
  split; [apply new_inv; [lia|done]|apply new_data]. repeat (apply Forall_cons; split); try apply Forall_nil; by vm_compute.
Qed.

(** An ARP request for the machine's address waits in the first descriptor. *)
Definition sampleRequest : list Z :=
  replicate 6 0xFF ++ [8; 0; 0; 0; 0; 1; 8; 6; 0; 1; 8; 0; 6; 4; 0; 1; 8; 0; 0; 0; 0; 1; 10; 0; 0; 2; 0; 0; 0; 0; 0; 0; 10; 0; 0; 1].

Definition receivedCard : PhysicalNetworkInterface :=
  withBufferMem (withRx (withHandler sampleCard true true) (rxDescs sampleCard).[0 := mkE1000RxDesc 0x200280 0 42 0 1 0 0] 0)
    (storeBytes zeroMem 0x200280 sampleRequest).

Lemma sampleRequest_u8 : Forall is_u8 sampleRequest.
Proof. unfold sampleRequest. cbn. repeat (apply Forall_cons; split); try apply Forall_nil; by vm_compute. Qed.

Lemma zeroMem_bytes : byteMem zeroMem.
Proof. intros x. by vm_compute. Qed.

Lemma receivedCard_rx : rxRing receivedCard [sampleRequest] /\ lengthsOk receivedCard.
Proof.
  split.
  - constructor; try done.
    + intros i f Hf. pose proof (znth_Some_lt _ _ _ Hf) as Hi. change (zlength [sampleRequest]) with 1 in Hi. replace i with 0 in * by lia.
      injection Hf as <-. eexists. split; [vm_compute; reflexivity|]. split; [by vm_compute|]. split; [done|]. vm_compute. reflexivity.
    + intros _. eexists. split; [vm_compute; reflexivity|]. intros X. apply X. vm_compute. reflexivity.
    + apply Forall_singleton. vm_compute. split; congruence.
  - destruct (fresh_rxOk _ _ _ _ sampleCard_fresh) as [_ _ Hl]. apply zset_Forall; [exact Hl|]. intros _. vm_compute. split; congruence.
Qed.

Lemma receivedCard_side : sideOk 4 2 2 receivedCard sampleNetStack.
Proof.
  split; [|apply sampleNetStack_ok].
  destruct (fresh_txOk _ _ _ _ sampleCard_fresh sampleLayout_disjoint zeroMem_bytes) as [T1 T2 T3 T4 T5 T6].
  constructor; [exact T1|exact T2|exact T3| |exact T5|reflexivity]. apply byteMem_storeBytes; [apply zeroMem_bytes|apply sampleRequest_u8].
Qed.

Definition interruptingDevice : Device := fun _ => 0x80.

Lemma receivedCard_tx : txRing receivedCard [QContext].
Proof.
  destruct (fresh_tx _ _ _ _ sampleCard_fresh) as [H1 H2 H3 H4 H5 H6 H7]. constructor; try done.
  intros i x Hx. specialize (H6 i x Hx). pose proof (znth_In [QContext] x) as [_ Hin]. assert (x = QContext) as ->; [|exact H6].
  destruct (Hin (ex_intro _ i Hx)) as [<-|[]]. done.
Qed.

Example card_interrupt_delivers_witness :
  exists p' s' tq' t', handlePhysicalNetworkInterfaceInterrupt (H := interruptingDevice) (physPacketHandlerCall 4 2 2)
      (receivedCard, sampleNetStack) [] = (t', Ok (p', s')) /\
    handleAll (stackAnswers 4 2 2) ([QContext], sampleNetStack) [sampleRequest] (tq', s') /\ txRing p' tq' /\
    rxRing p' [] /\ currentRx p' = 1 /\ sideOk 4 2 2 p' s' /\ lengthsOk p'.
Proof.
  exact (card_interrupt_delivers (H := interruptingDevice) 4 2 2 ltac:(lia) receivedCard sampleNetStack [sampleRequest] [QContext] [] _ 0x80
    receivedCard_side (proj1 receivedCard_rx) (proj2 receivedCard_rx) receivedCard_tx eq_refl).
Defined.

(** Task 3 with a packet in its send buffer, and the network task set up. *)
Definition sampleSockets : SocketManager * Mem :=
  after (after (newSocketManager, storeBytes zeroMem 500 ([1; 0; 0; 10; 7; 0; 10; 0] ++ replicate 10 33)) (OpenSocket 3 5))
    (SetSendBuffer 3 0 500 32 600).

Lemma sampleSockets_ok : managerOk (fst sampleSockets) (snd sampleSockets).
Proof.
  do 2 (apply after_managerOk; [|done]). apply managerOk_new, byteMem_storeBytes; [apply zeroMem_bytes|].
  apply Forall_app. split; [|by apply Forall_replicate]. repeat (apply Forall_cons; split); try apply Forall_nil; by vm_compute.
Qed.

Definition sampleSetup : Trace * result (NetworkState * InterruptHandlerManager) :=
  networkSetup (H := sampleDevice) 4 2 2 4 2 2 0x0A000001 0x0A0000FE 24 1 2 zeroMem (fst sampleSockets) (snd sampleSockets)
    sampleCard loInterruptsSample sampleTrace.

Definition sampleNetState : NetworkState :=
  match snd sampleSetup with
  | Ok (st, _) => st
  | Fault _ => mkNetworkState (fst sampleSockets) zeroMem None sampleNetStack noCard sampleNetStack loSample
  end.

Lemma sampleSetup_ok : exists im, sampleSetup = (fst sampleSetup, Ok (sampleNetState, im)).
Proof. eexists. vm_compute. reflexivity. Qed.

Lemma sampleNetState_inv : netInv 4 2 2 4 2 2 sampleNetState.
Proof.
  destruct sampleSetup_ok as [im E]. unfold sampleSetup in E at 1. eapply (networkSetup_ok (H := sampleDevice)); [..|exact E];
    [lia|lia|apply sampleCard_fresh|apply sampleLayout_disjoint|apply zeroMem_bytes|apply zeroMem_bytes|apply sampleSockets_ok].
Qed.

Example transmission_request_returns_witness :
  exists st' t', handleTransmissionRequest 2 2 4 2 2 0x0A000001 (startTransmission sampleNetState) [] = (t', Ok st') /\
    netInv 4 2 2 4 2 2 st'.
Proof.
  apply (transmission_request_returns 4 2 2 4 2 2 0x0A000001); [lia|lia| |by vm_compute].
  pose proof sampleNetState_inv as Hi. apply netInv_sockets; [done|apply Hi|]. eapply iterator_onList, Hi.
Defined.

(** The packet is sent to the machine itself: an ARP request on the loopback
    interface and its answer, then the packet, which nobody listens for, while
    the card interrupts. *)
Definition sampleNetEvents : list NetEvent :=
  [SystemCall (OpenSocket 4 9); BeginTransmissions; TransmitOne; CardInterrupts; BeginTransmissions; TransmitOne; ClockTicks;
   SystemCall (CloseAllSockets 3); PopPacket true].

Example network_task_never_faults_witness :
  exists st' t', runNet (H := sampleDevice) 4 2 2 4 2 2 0x0A000001 sampleNetState sampleNetEvents (fst sampleSetup) = (t', Ok st') /\
    netInv 4 2 2 4 2 2 st'.
Proof.
  destruct sampleSetup_ok as [im E]. unfold sampleSetup in E at 1.
  destruct (network_task_never_faults (H := sampleDevice) 4 2 2 4 2 2 0x0A000001 ltac:(lia) ltac:(lia) 0x0A0000FE 24 1 2 zeroMem
    (fst sampleSockets) (snd sampleSockets) sampleCard loInterruptsSample sampleTrace sampleLayout zeroMem sampleTrace _ im (fst sampleSetup)
    sampleNetEvents ltac:(lia) ltac:(lia) sampleCard_fresh sampleLayout_disjoint zeroMem_bytes zeroMem_bytes sampleSockets_ok E) as [Hok|Hfault].
  - unfold sampleNetEvents. cbn [goodRun goodNetEvent goodCall]. repeat (split; [first [exact I | unfold isTask, NUM_POSSIBLE_TASKS; lia]|intros ? ? _]). exact I.
  - exact Hok.
  - (* no datagram is handed over among the events *)
    exfalso. destruct Hfault as (evs1 & ev & evs2 & st2 & t2 & Ev & _ & _ & Ho & _).
    assert (Hin : ev ∈ sampleNetEvents) by (rewrite Ev; apply elem_of_app; right; by left).
    unfold sampleNetEvents in Hin. rewrite !elem_of_cons in Hin. destruct_or! Hin; try (subst ev; exact Ho). by apply elem_of_nil in Hin.
Defined.
