(* ===== verification/TransmissionFacts.v ===== *)
(** From a send buffer to a receive buffer: what a transmission request puts on
    the card's ring, and that it reaches the socket it is for. *)
From S2P Require Import Prelude Mem LinkedLists CpuCore Syscalls NetworkStackHandler NetworkStackPool NetworkStackFacts NetworkStackData LoopbackNetworkInterface Devices PhysicalNetworkInterface PhysicalFacts SocketManager SocketManagerFacts Reassembly NetworkManagementTask NetworkManagementTaskFacts.





Definition frameEntries (frames : list (list Z)) : list Queued := map (fun f => QFrame f true) frames.

Lemma zlength_frameEntries frames : zlength (frameEntries frames) = zlength frames.
Proof. unfold frameEntries. apply zlength_map. Qed.

Section transmission.
Context `{Device}.
Context (PN PT PL LN LT LL : nat) (HPT : (0 < PT)%nat).

Section datagram.
Context (out : OutgoingUDPPacket) (mac : list Z).
Context (Hmac : zlength mac = 6) (Hdata : outData out <> 0) (Hlen : outDataLen out < 2 ^ 16).

(** The memory with the UDP header in front of the datagram. *)
Definition withHeader (m : Mem) : Mem := storeBytes m (outData out) (udpHeader out).



End datagram.

Section request.
Context (thisIP : Z) (HLT : (0 < LT)%nat).


End request.
End transmission.

(** ** The receiver *)









(** ** From socket to socket *)



Section delivery.
Context (m0 : Mem) (out : OutgoingUDPPacket) (mac : list Z) (TS0 LS0 : nat) (s : NetworkStackHandler).
Context (HTS0 : (0 < TS0)%nat) (Hs : dataOk s) (Hm0 : byteMem m0) (HmyMac : zlength (myMac s) = 6) (Hmac : zlength mac = 6).
Context (Harp : arpKnown TS0 LS0 s (nextHop s (outDestinationIP out)) mac).
Context (HmyIP : is_u32 (myIP s)) (Hident : is_u16 (identificationCounter s)) (Hdata : outData out <> 0).
Context (Hlen : 8 <= outDataLen out < 2 ^ 16) (Hmod : outDataLen out mod FULL_FRAGMENT <> 0).
Context (Hsp : is_u16 (outSourcePort out)) (Hdp : is_u16 (outDestinationPort out)) (Hdst : is_u32 (outDestinationIP out)).

Let m : Mem := withHeader out m0.

End delivery.



(** ** Two machines *)











